(* ===== verification/_CoqProject ===== *)
-Q . S2P
Prelude.v
Memory.v
Mmu.v
Machine.v
Spinlock.v
Kalloc.v
Vm.v
PageTable.v
VmProofs.v
VmSpaces.v
Encrypt.v
ProcTable.v
Clock.v
ClockProofs.v
Demo.v
VmTheorems.v
EncryptTheorems.v
UserMem.v
Proc.v
ProcProofs.v
ProcTheorems.v
GrowTheorems.v
ForkProofs.v
ForkTheorems.v
FileState.v
Sleeplock.v
Sleeping.v
Bio.v
BioProofs.v
BioInit.v
Log.v
LogProofs.v
LogCommit.v
LogOps.v
FileDemo.v
BioTheorems.v
LogTheorems.v
Ulib.v
Grep.v
Cprintf.v
Sh.v
ShProofs.v
ShRun.v
Umalloc.v
UmallocProofs.v
Fs.v
Mkfs.v
Mp.v
Pipe.v
Ring.v
PipeProofs.v
File.v
FileProofs.v
FileTheorems.v
Kbd.v
Console.v
ConsoleProofs.v
FsBlocks.v
FsInode.v
FsDinode.v
FsRead.v
FsWrite.v
MkfsProofs.v
MkfsTheorems.v
FsLock.v
FsDemo.v
FsTheorems.v
FileWrite.v
UserPtr.v
Syscall.v
SyscallProofs.v
Exec.v
Sysfile.v
Trap.v
Ide.v
IdeProofs.v
TrapProofs.v
SysDemo.v
SyscallTheorems.v
FdTheorems.v
