(* ===== verification/Prelude.v ===== *)
(** * A verification of the xv6 kernel with encrypted pages

    The program under src/src is the x86 teaching kernel xv6, its user programs
    and its image builder, with one addition: user pages can be kept encrypted
    in memory (every byte complemented, [PTE_E] set and [PTE_P] clear in the
    page-table entry).  A process that touches such a page faults; the trap
    handler calls [mdecrypt], which decrypts the page and enters it into the
    clock of the process, [CLOCKSIZE] pages of which the second-chance
    algorithm throws one out, by encrypting it again, when the clock is full.

    ** Parts and files

    The base:
    - Prelude.v: machine integers, flags, the state and error monad [M], its
      total-correctness predicate [wp], lenses.  An outcome is a result, a
      panic, a fault (a null or unmapped access) or [Spin] (waiting for what
      cannot happen on this CPU, or fuel used up).
    - Memory.v: byte-addressed memory and string.c.  Mmu.v: the constants and
      macros of param.h, memlayout.h and mmu.h.  Machine.v: the processors, the
      registers, kernel accesses through the direct map, and the paging
      hardware with its accessed and dirty bits.
    - Spinlock.v: spinlock.c and [mycpu] of proc.c; [acquire] and [release] act
      on a lock anywhere in a state (a lens).  [Interleave] is the step
      relation of several CPUs on one lock.
    - Kalloc.v: kalloc.c.  The interface [PageAllocator] is what the rest
      relies on; the module [Impl] is the code, and an instance of it.

    Address spaces and encryption:
    - Vm.v: the page-table operations of vm.c.  PageTable.v: what a two-level
      table maps, its well-formedness and its updates.  VmProofs.v:
      [walkpgdir], [mappages], [deallocuvm], [freevm].  VmSpaces.v: [setupkvm],
      [allocuvm], [copyuvm].  VmTheorems.v: their theorems.
    - Encrypt.v: the parts of [mencrypt] and [mdecrypt] that work on one
      address space.  ProcTable.v: the process structure, [ptable] and the
      kernel's state.  Clock.v: [mencrypt], [mdecrypt] with the clock,
      [getpgtable], [dump_rawphymem], and the faults of kernel code on user
      pages (trap.c).  ClockProofs.v: the invariants of the running process
      and of its clock.  EncryptTheorems.v: their theorems.  UserMem.v: user
      memory as a function from addresses to bytes, for kernel code that may
      fault on it.

    Processes:
    - Proc.v: proc.c.  ProcProofs.v: critical sections on [ptable.lock],
      [allocproc], the clock part of [growproc].  ProcTheorems.v,
      GrowTheorems.v, ForkProofs.v and ForkTheorems.v: [allocproc], [wakeup],
      [kill], [growproc] and [fork].
    - Sleeplock.v: sleeplock.c, and [Handoff], the step relation of any number
      of processes on one lock, with every spin-lock operation, assignment and
      test of [acquiresleep], [sleep], [releasesleep] and [wakeup] a step of its
      own.  Sleeping.v: what a process may rely on after [sleep].

    The file layer:
    - FileState.v: the static data of the files below.  Bio.v: bio.c and
      memide.c; BioProofs.v, BioInit.v, BioTheorems.v.  Log.v: log.c;
      LogProofs.v, LogCommit.v, LogOps.v, LogTheorems.v.
    - Fs.v: fs.c; FsBlocks.v ([balloc], [bfree]), FsInode.v ([bmap]),
      FsDinode.v (inodes on disk), FsRead.v, FsWrite.v, FsLock.v, FsTheorems.v.
    - Pipe.v, Ring.v, PipeProofs.v: pipe.c.  File.v: file.c and [pipealloc];
      FileProofs.v, FileTheorems.v; FileWrite.v: [filewrite] is durable.
    - Ide.v and IdeProofs.v: ide.c.
    - Mkfs.v, MkfsProofs.v and MkfsTheorems.v: mkfs.c, the program that makes
      the disk image, and that the image is one that fs.c can use.

    The console and start-up tables:
    - Cprintf.v: output to screen and serial line, [cprintf].  Kbd.v: kbd.c.
      Console.v and ConsoleProofs.v: the input half of console.c, [procdump].
    - Mp.v: mp.c, the search for the processor tables.

    System calls:
    - Syscall.v and SyscallProofs.v: arguments (syscall.c) and sysproc.c.
      UserPtr.v: user memory under the file layer.  Exec.v: exec.c.  Sysfile.v:
      sysfile.c and the dispatch.  Trap.v and TrapProofs.v: trap.c.
      SyscallTheorems.v and FdTheorems.v: theorems from the trap on.

    User programs:
    - Ulib.v: ulib.c and printf.c.  Umalloc.v and UmallocProofs.v: umalloc.c.
    - Grep.v: grep.c.  Sh.v, ShProofs.v and ShRun.v: sh.c.

    Demo.v, FileDemo.v, FsDemo.v and SysDemo.v are small concrete machines,
    disks and processes on which the theorems are instantiated.

    ** How the model corresponds to the code

    A [uint] or a pointer is an integer of [Z], wrapped with [u32] where an
    operation can leave the range.  A function of the source is a definition of
    the same name; a loop is a [Fixpoint] named after it ([..._loop]).  A
    pointer to a process, a buffer, an inode or an open file is an index into
    its table, a pipe is known by the address of its page; trap frames and
    contexts lie in memory on the kernel stacks.  The two [walkpgdir] of vm.c
    and proc.c are the same code and one definition.

    Loops with a known number of iterations recurse on that number; the others
    carry fuel and end in [Spin] when it is used up, and the theorems, which are
    about total correctness, show that it is not: the loops over the clock get
    [CLOCKSIZE] or [inClock + 1] steps, and each step moves on in the clock;
    the loops over the buffer list and the queue of ide.c get [NBUF]; the
    parser of the shell gets four times the length of the line, [malloc] twice
    that of the free list; [iappend] of mkfs gets the number of bytes and
    [mpinit] the number of entries.  A call that may sleep gets
    [naps], the number of times it may do so, and [idewait] gets [polls].

    Parameters: the addresses of kernel.ld ([KernelImage]) and of the assembly
    entry points ([ProcImage]), with the values of kernel.sym as instances; what
    happens on the other side of [swtch] ([SwitchEnv], and [SleepLaws] for the
    theorems that need it); the disk driver ([DiskDriver], of which memide.c is
    an instance); the devices of [devsw] ([Devices]) and what they hold for the
    interrupt handlers ([Interrupts]); the ports and the controller of the IDE
    disk ([Ports], [AtaLaws]); the kernel's part of [sbrk] for umalloc.c.
    Processes use the file layer through [FileOps] and [FileLaws], which File.v
    and FileProofs.v implement.

    ** What the theorems show

    - Encryption: [mencrypt] and [mdecrypt] never change the logical bytes of a
      process (its bytes, complemented where [PTE_E] is set), encryption of a
      range is all or nothing, encrypting and touching a page gives it back,
      and a full clock evicts by second chance.  For kernel code user memory is
      a plain array of bytes.  What they assume of a page is that its first
      stored byte is not 0 where it is decrypted, that the clock does not hold
      it yet, and that the range of [mencrypt] has page tables (the code
      dereferences a null entry otherwise).  The first exception is proved too:
      a page whose first stored byte is 0 is exposed as ciphertext.
    - Address spaces: the kernel's direct map, growing, shrinking, copying and
      freeing change exactly the entries and frames they should, encrypted
      pages included, and give everything back when memory runs out.
    - Pages, locks, processes: the free list is a list of distinct pages; spin
      locks exclude each other; no wakeup of a sleep lock is lost and a process
      that wants one can always get it; [allocproc] keeps pids distinct; [fork] copies memory, clock and files; [growproc] keeps
      the clock in step with the size, except for its hand.
    - Disk: a transaction is on the disk as a whole or, after a crash and
      recovery, not at all; a block is read as it is; [iderw] serves requests
      in order; [writei] and [readi] are inverse, and a write leaves every other
      file as it is; mkfs makes an image on which
      the invariants of fs.c hold, except for the size of a root directory
      whose entries fill their last block.
    - System calls: [write] is durable from the trap to the disk; pointers
      handed to the kernel lie in the process; [dup] and [close] keep reference
      counts equal to the number of descriptors.  Pipes are queues, with a writer
      that sleeps while the pipe is full, and making, duplicating and closing
      their ends leaves nothing behind; the console is a line editor, scan codes decode to the keys that are held.
    - User programs: [malloc] returns fresh memory and [free] joins it back;
      the shell's parser ends and reads back what is printed, and commands run
      with the descriptors they name; grep's matcher decides its patterns.
    - mp.c: the processors are recorded in the order of the table.
    - Errors of the code are theorems as well: an over-large [malloc], the
      clock's hand after a shrink, a read error that ide.c hides, an endless
      loop of [mpinit].

    ** What is not modelled

    The TLB: every access reads the entries from memory ([mencrypt],
    [mdecrypt] and [growproc] reload [cr3] when they succeed).  Segments, which
    are flat ([seginit]).  The debugging output of vm.c and of the page-fault
    handler.  [forkret], which starts the log on the first run.  The bit map is
    taken to be one block, as mkfs makes it.  The shell's command nodes are
    trees: the memory that [malloc] gives them is not modelled.  The theorems
    about the file layer are for one process at a time inside a transaction.
    The driver of Ide.v has a state of its own and is not an instance of
    [DiskDriver]: its theorem lets other processes and interrupts act while
    [iderw] sleeps, where [DiskLaws] has the disk to itself.

    lapic.c, picirq.c, most of ioapic.c and [uartinit] are output to devices
    whose behaviour the sources do not describe; main.c, bootmain.c and the
    assembly files are start-up code and machine code.  The small programs
    (cat, echo, init, kill, ln, ls, mkdir, rm, wc, zombie, p4tester) do little
    beside system calls.  usertests.c and the other test programs exercise the
    kernel and nothing calls them. *)

From Stdlib Require Export ZArith Lia.
From stdpp Require Export base option list gmap strings.

#[global] Open Scope Z_scope.
#[global] Set Default Goal Selector "!".

(** [lia] on goals with [/] and [mod] by constants. *)
Ltac dlia := Z.to_euclidean_division_equations; lia.

(** ** Machine integers

    [uint], [ushort] and [uchar] values are integers of [Z] kept in range by
    an explicit wrap-around; [int] values are the signed representatives. *)

Definition u8 (z : Z) : Z := z mod 256.
Definition u16 (z : Z) : Z := z mod 65536.
Definition u32 (z : Z) : Z := z mod 4294967296.

(** The conversion of a 32-bit pattern to [int]. *)
Definition i32 (z : Z) : Z :=
  if u32 z <? 2147483648 then u32 z else u32 z - 4294967296.

(** The conversion of a 16-bit pattern to [short]. *)
Definition i16 (z : Z) : Z :=
  if u16 z <? 32768 then u16 z else u16 z - 65536.

Definition is_u32 (z : Z) : Prop := 0 <= z < 4294967296.
Definition is_i32 (z : Z) : Prop := -2147483648 <= z < 2147483648.

Lemma u8_range z : 0 <= u8 z < 256.
Proof. unfold u8. dlia. Qed.

Lemma u8_small z : 0 <= z < 256 -> u8 z = z.
Proof. unfold u8. dlia. Qed.

Lemma u8_u8 z : u8 (u8 z) = u8 z.
Proof. unfold u8. dlia. Qed.

Lemma u32_range z : 0 <= u32 z < 4294967296.
Proof. unfold u32. dlia. Qed.

Lemma u32_is z : is_u32 (u32 z).
Proof. apply u32_range. Qed.

Lemma u32_small z : is_u32 z -> u32 z = z.
Proof. unfold u32, is_u32. dlia. Qed.

Lemma u32_u32 z : u32 (u32 z) = u32 z.
Proof. unfold u32. dlia. Qed.

Lemma u32_add_l a b : u32 (u32 a + b) = u32 (a + b).
Proof. unfold u32. dlia. Qed.

Lemma u32_i32 z : u32 (i32 z) = u32 z.
Proof. unfold i32, u32. destruct (Z.ltb_spec (z mod 4294967296) 2147483648); dlia. Qed.

Lemma i32_small z : is_i32 z -> i32 z = z.
Proof.
  unfold i32, is_i32, u32. intros H.
  destruct (Z.ltb_spec (z mod 4294967296) 2147483648); dlia.
Qed.

Lemma i32_range z : is_i32 (i32 z).
Proof.
  unfold i32, is_i32, u32.
  destruct (Z.ltb_spec (z mod 4294967296) 2147483648); dlia.
Qed.

(** ** Bit patterns

    [flag w f] is the C test [(w & f) != 0]; [a & ~b] is [Z.ldiff a b]. *)

Definition flag (w f : Z) : bool := negb (Z.land w f =? 0).

Lemma flag_pow2 w k : 0 <= k -> flag w (2 ^ k) = Z.testbit w k.
Proof.
  intros Hk. unfold flag. destruct (Z.testbit w k) eqn:E.
  - apply negb_true_iff, Z.eqb_neq. intros H.
    assert (Z.testbit (Z.land w (2 ^ k)) k = false) as H1 by (rewrite H; apply Z.bits_0).
    rewrite Z.land_spec, E, Z.pow2_bits_true in H1 by lia. done.
  - apply negb_false_iff, Z.eqb_eq. apply Z.bits_inj'. intros n Hn.
    rewrite Z.land_spec, Z.bits_0.
    destruct (decide (n = k)) as [->|Hne]; [by rewrite E|].
    rewrite Z.pow2_bits_false by lia. apply andb_false_r.
Qed.

Lemma flag_lor w a b : flag w (Z.lor a b) = flag w a || flag w b.
Proof.
  unfold flag. rewrite Z.land_lor_distr_r.
  destruct (Z.eqb_spec (Z.lor (Z.land w a) (Z.land w b)) 0) as [H|H].
  - apply Z.lor_eq_0_iff in H as [-> ->]. done.
  - destruct (Z.eqb_spec (Z.land w a) 0) as [Ha|?]; [|done].
    destruct (Z.eqb_spec (Z.land w b) 0) as [Hb|?]; [|done].
    rewrite Ha, Hb in H. done.
Qed.

(** A bitwise operation on numbers below [2^n] stays below [2^n]. *)
Lemma bits_bound n z :
  0 <= n -> (forall i, n <= i -> Z.testbit z i = false) -> 0 <= z < 2 ^ n.
Proof.
  intros Hn H. assert (z = z mod 2 ^ n) as ->; [|apply Z.mod_pos_bound; lia].
  apply Z.bits_inj'. intros i Hi. destruct (Z.lt_ge_cases i n).
  - by rewrite Z.mod_pow2_bits_low by lia.
  - rewrite Z.mod_pow2_bits_high by lia. auto.
Qed.

Lemma testbit_high n z i : 0 <= z < 2 ^ n -> 0 <= n <= i -> Z.testbit z i = false.
Proof.
  intros Hz Hi. rewrite <- (Z.mod_small z (2 ^ n)) by lia.
  apply Z.mod_pow2_bits_high. lia.
Qed.

Lemma lor_bound n a b :
  0 <= n -> 0 <= a < 2 ^ n -> 0 <= b < 2 ^ n -> 0 <= Z.lor a b < 2 ^ n.
Proof.
  intros Hn Ha Hb. apply bits_bound; [done|]. intros i Hi.
  by rewrite Z.lor_spec, (testbit_high n a), (testbit_high n b) by lia.
Qed.

Lemma lxor_bound n a b :
  0 <= n -> 0 <= a < 2 ^ n -> 0 <= b < 2 ^ n -> 0 <= Z.lxor a b < 2 ^ n.
Proof.
  intros Hn Ha Hb. apply bits_bound; [done|]. intros i Hi.
  by rewrite Z.lxor_spec, (testbit_high n a), (testbit_high n b) by lia.
Qed.

Lemma ldiff_bound n a b : 0 <= n -> 0 <= a < 2 ^ n -> 0 <= Z.ldiff a b < 2 ^ n.
Proof.
  intros Hn Ha. apply bits_bound; [done|]. intros i Hi.
  by rewrite Z.ldiff_spec, (testbit_high n a) by lia.
Qed.

Lemma ldiff_ones a k : 0 <= k -> Z.ldiff a (Z.ones k) = a - a mod 2 ^ k.
Proof.
  intros Hk. rewrite <- Z.land_ones by lia.
  assert (Z.ldiff a (Z.ones k) + Z.land a (Z.ones k) = a); [|lia].
  rewrite Z.add_nocarry_lxor.
  - apply Z.bits_inj'. intros i Hi. rewrite Z.lxor_spec, Z.ldiff_spec, Z.land_spec.
    by destruct (Z.testbit a i), (Z.testbit (Z.ones k) i).
  - apply Z.bits_inj'. intros i Hi. rewrite !Z.land_spec, Z.ldiff_spec, Z.bits_0.
    by destruct (Z.testbit a i), (Z.testbit (Z.ones k) i).
Qed.

(** ** The kernel monad

    Kernel code runs on an explicit state and either returns ([Ok]), calls
    [panic] ([Panic], which never returns), makes an access that the C
    program has no right to make, such as a load through a null pointer
    ([Fault]), or never returns because it spins ([Spin]; also the outcome of
    a bounded loop that runs out of its bound). *)

Inductive outcome (S A : Type) : Type :=
| Ok (a : A) (s : S)
| Panic (msg : string) (s : S)
| Fault (s : S)
| Spin (s : S).
Arguments Ok {S A} a s.
Arguments Panic {S A} msg s.
Arguments Fault {S A} s.
Arguments Spin {S A} s.

Definition M (S A : Type) : Type := S -> outcome S A.

#[export] Instance M_ret S : MRet (M S) := fun A a s => Ok a s.
#[export] Instance M_bind S : MBind (M S) := fun A B k m s =>
  match m s with
  | Ok a s' => k a s'
  | Panic msg s' => Panic msg s'
  | Fault s' => Fault s'
  | Spin s' => Spin s'
  end.

Definition get {S} : M S S := fun s => Ok s s.
Definition gets {S A} (f : S -> A) : M S A := fun s => Ok (f s) s.
Definition modify {S} (f : S -> S) : M S unit := fun s => Ok tt (f s).
Definition panic {S A} (msg : string) : M S A := fun s => Panic msg s.
Definition fault {S A} : M S A := fun s => Fault s.
Definition spin {S A} : M S A := fun s => Spin s.
Definition when {S} (b : bool) (m : M S unit) : M S unit :=
  if b then m else mret tt.

(** Dereferencing a pointer that may be null. *)
Definition nonnull {S A} (p : option A) : M S A :=
  match p with Some a => mret a | None => fault end.

(** [wp m s Q]: run from [s], [m] returns, with a result and a state in [Q]. *)
Definition wp {S A} (m : M S A) (s : S) (Q : A -> S -> Prop) : Prop :=
  match m s with Ok a s' => Q a s' | _ => False end.

Section Wp.
Context {S : Type}.
Implicit Types s : S.

Lemma wp_ret {A} (a : A) s (Q : A -> S -> Prop) : Q a s -> wp (mret a) s Q.
Proof. done. Qed.

Lemma wp_bind {A B} (m : M S A) (k : A -> M S B) s Q :
  wp m s (fun a s' => wp (k a) s' Q) -> wp (m ≫= k) s Q.
Proof. unfold wp, mbind, M_bind. by destruct (m s). Qed.

Lemma wp_bind_inv {A B} (m : M S A) (k : A -> M S B) s Q :
  wp (m ≫= k) s Q -> wp m s (fun a s' => wp (k a) s' Q).
Proof. unfold wp, mbind, M_bind. by destruct (m s). Qed.

Lemma wp_mono {A} (m : M S A) s (P Q : A -> S -> Prop) :
  wp m s P -> (forall a s', P a s' -> Q a s') -> wp m s Q.
Proof. unfold wp. destruct (m s); eauto. Qed.

(** The first two of three commands together. *)
Lemma wp_both {A} (m : M S A) s (P Q : A -> S -> Prop) :
  wp m s P -> wp m s Q -> wp m s (fun a s' => P a s' /\ Q a s').
Proof. unfold wp. by destruct (m s). Qed.

Lemma wp_bind_assoc_mono {A B} (m1 : M S A) (m2 : M S unit) (m3 : M S B) s (P : S -> Prop) Q :
  wp (m1 ≫= fun _ => m2) s (fun _ s' => P s') -> (forall s', P s' -> wp m3 s' Q) ->
  wp (m1 ≫= fun _ => m2 ≫= fun _ => m3) s Q.
Proof.
  unfold wp, mbind, M_bind. destruct (m1 s); try done. destruct (m2 s0); try done. intros H HQ. by apply HQ.
Qed.

Lemma wp_get s (Q : S -> S -> Prop) : Q s s -> wp get s Q.
Proof. done. Qed.

Lemma wp_gets {A} (f : S -> A) s (Q : A -> S -> Prop) : Q (f s) s -> wp (gets f) s Q.
Proof. done. Qed.

Lemma wp_modify f s (Q : unit -> S -> Prop) : Q tt (f s) -> wp (modify f) s Q.
Proof. done. Qed.

Lemma wp_when (b : bool) m s (Q : unit -> S -> Prop) :
  (b = true -> wp m s Q) -> (b = false -> Q tt s) -> wp (when b m) s Q.
Proof. destruct b; cbn; auto. Qed.

Lemma wp_nonnull {A} (a : A) s (Q : A -> S -> Prop) : Q a s -> wp (nonnull (Some a)) s Q.
Proof. done. Qed.

Lemma wp_ok {A} (m : M S A) s a s' (Q : A -> S -> Prop) :
  m s = Ok a s' -> Q a s' -> wp m s Q.
Proof. unfold wp. by intros ->. Qed.

Lemma wp_inv {A} (m : M S A) s (Q : A -> S -> Prop) :
  wp m s Q -> exists a s', m s = Ok a s' /\ Q a s'.
Proof. unfold wp. destruct (m s); naive_solver. Qed.

Lemma bind_ok {A B} (m : M S A) (k : A -> M S B) s a s' :
  m s = Ok a s' -> (m ≫= k) s = k a s'.
Proof. unfold mbind, M_bind. by intros ->. Qed.

Lemma bind_ret {A B} (a : A) (k : A -> M S B) s : (mret a ≫= k) s = k a s.
Proof. done. Qed.

Lemma bind_get {B} (k : S -> M S B) s : (get ≫= k) s = k s s.
Proof. done. Qed.

Lemma bind_gets {A B} (f : S -> A) (k : A -> M S B) s : (gets f ≫= k) s = k (f s) s.
Proof. done. Qed.

Lemma bind_modify {B} (f : S -> S) (k : unit -> M S B) s : (modify f ≫= k) s = k tt (f s).
Proof. done. Qed.

Lemma bind_assoc {A B C} (m : M S A) (f : A -> M S B) (g : B -> M S C) s :
  ((m ≫= f) ≫= g) s = (m ≫= (fun x => f x ≫= g)) s.
Proof. unfold mbind, M_bind. by destruct (m s). Qed.
End Wp.

Create Rewrite HintDb run.
#[export] Hint Rewrite @bind_ret @bind_get @bind_gets @bind_modify @bind_assoc : run.

(** Symbolic execution: [wstep] takes one step of a [wp] goal. *)
Ltac wstep :=
  lazymatch goal with
  | |- wp (_ ≫= _) _ _ => apply wp_bind
  | |- wp (mret _) _ _ => apply wp_ret
  | |- wp get _ _ => apply wp_get
  | |- wp (gets _) _ _ => apply wp_gets
  | |- wp (modify _) _ _ => apply wp_modify
  | |- wp (nonnull (Some _)) _ _ => apply wp_nonnull
  end; cbv beta.
Ltac wsteps := repeat wstep.

(** ** Running a computation on a part of the state *)

Record lens (S T : Type) : Type := Lens { view : S -> T; update : T -> S -> S }.
Arguments Lens {S T} _ _.
Arguments view {S T} _ _.
Arguments update {S T} _ _ _.

(** The laws of assignment.  For a cell of an array they hold whatever the
    index; that the assigned value is read back ([LensAt]) needs the index to
    be in range, and for a field of a record it holds always ([LensOk]). *)
Class LensUpd {S T} (l : lens S T) : Prop := {
  update_view : forall s, update l (view l s) s = s;
  update_update : forall t t' s, update l t (update l t' s) = update l t s;
}.

Class LensAt {S T} (l : lens S T) (s : S) : Prop :=
  view_at : forall t, view l (update l t s) = t.

Class LensOk {S T} (l : lens S T) : Prop := {
  lens_upd :: LensUpd l;
  view_update : forall t s, view l (update l t s) = t;
}.

#[export] Instance lens_ok_at {S T} (l : lens S T) s : LensOk l -> LensAt l s.
Proof. intros H t. apply view_update. Qed.

(** Two parts of the state that do not overlap. *)
Class LensIndep {S T U} (l : lens S T) (k : lens S U) : Prop := {
  view_indep_l : forall u s, view l (update k u s) = view l s;
  view_indep_r : forall t s, view k (update l t s) = view k s;
  update_comm : forall t u s, update l t (update k u s) = update k u (update l t s);
}.

Definition zoom {S T A} (l : lens S T) (m : M T A) : M S A := fun s =>
  match m (view l s) with
  | Ok a t => Ok a (update l t s)
  | Panic msg t => Panic msg (update l t s)
  | Fault t => Fault (update l t s)
  | Spin t => Spin (update l t s)
  end.

Lemma wp_zoom {S T A} (l : lens S T) (m : M T A) s (Q : A -> S -> Prop) :
  wp m (view l s) (fun a t => Q a (update l t s)) -> wp (zoom l m) s Q.
Proof. unfold wp, zoom. by destruct (m (view l s)). Qed.

Definition compose {S T U} (l : lens S T) (k : lens T U) : lens S U :=
  Lens (fun s => view k (view l s)) (fun u s => update l (update k u (view l s)) s).

#[export] Instance compose_upd {S T U} (l : lens S T) (k : lens T U) :
  LensOk l -> LensUpd k -> LensUpd (compose l k).
Proof.
  intros Hl Hk. split; intros; cbn.
  - by rewrite !update_view.
  - by rewrite view_update, !update_update.
Qed.

#[export] Instance compose_ok {S T U} (l : lens S T) (k : lens T U) :
  LensOk l -> LensOk k -> LensOk (compose l k).
Proof. intros Hl Hk. split; [apply _|]. intros; cbn. by rewrite !view_update. Qed.

#[export] Instance compose_at {S T U} (l : lens S T) (k : lens T U) s :
  LensOk l -> LensAt k (view l s) -> LensAt (compose l k) s.
Proof. intros Hl Hk t. cbn. by rewrite view_update, view_at. Qed.

(** The part [k] of the element at index [i] of an array, and of the one at
    key [i] of a map.  Where there is no element, assignment does nothing. *)
Definition cellL {A U} (d : A) (k : lens A U) (i : nat) : lens (list A) U :=
  Lens (fun l => view k (default d (l !! i))) (fun u l => alter (update k u) i l).

Definition mapL {A U} (d : A) (k : lens A U) (i : Z) : lens (gmap Z A) U :=
  Lens (fun m => view k (default d (m !! i))) (fun u m => alter (update k u) i m).

Definition idL {A} : lens A A := Lens id (fun a _ => a).

#[export] Instance idL_ok {A} : LensOk (@idL A).
Proof. by repeat split. Qed.

#[export] Instance cellL_upd {A U} (d : A) (k : lens A U) i : LensOk k -> LensUpd (cellL d k i).
Proof.
  intros Hk. split; intros; cbn.
  - apply list_eq. intros j. rewrite list_lookup_alter. destruct (decide (i = j)) as [->|]; [|done].
    destruct (s !! j) as [x|]; [|done]. cbn. by rewrite update_view.
  - rewrite list_alter_alter_eq. apply list_alter_ext; [|done]. intros. cbn. by rewrite update_update.
Qed.

Lemma cellL_at {A U} (d : A) (k : lens A U) i l : LensOk k -> (i < length l)%nat -> LensAt (cellL d k i) l.
Proof.
  intros Hk [x Hx]%lookup_lt_is_Some_2 t. cbn. rewrite list_lookup_alter_eq, Hx. cbn. by rewrite view_update.
Qed.

#[export] Instance mapL_upd {A U} (d : A) (k : lens A U) i : LensOk k -> LensUpd (mapL d k i).
Proof.
  intros Hk. split; intros; cbn; apply map_eq; intros j; destruct (decide (i = j)) as [->|];
    rewrite ?lookup_alter_eq, ?lookup_alter_ne by done; try done; destruct (s !! j); cbn;
    by rewrite ?update_view, ?update_update.
Qed.

Lemma mapL_at {A U} (d : A) (k : lens A U) i m : LensOk k -> is_Some (m !! i) -> LensAt (mapL d k i) m.
Proof. intros Hk [x Hx] t. cbn. rewrite lookup_alter_eq, Hx. cbn. by rewrite view_update. Qed.

(** ** Lists *)

Lemma list_lookup_ext {A} (l k : list A) :
  (forall i : nat, l !! i = k !! i) -> l = k.
Proof. apply list_eq. Qed.

Lemma alter_insert {A} (f : A -> A) (i : nat) (l : list A) x :
  l !! i = Some x -> alter f i l = <[i := f x]> l.
Proof.
  revert i. induction l as [|y l IH]; intros [|i] H; simplify_eq/=; [done|]. by rewrite IH.
Qed.

(** The index of the first element that satisfies a test. *)
Fixpoint find_index {A} (f : A -> bool) (l : list A) : option nat :=
  match l with
  | [] => None
  | x :: l => if f x then Some 0%nat else S <$> find_index f l
  end.

Lemma find_index_Some {A} (f : A -> bool) l i :
  find_index f l = Some i ->
  exists x, l !! i = Some x /\ f x = true /\
    forall j y, (j < i)%nat -> l !! j = Some y -> f y = false.
Proof.
  revert i. induction l as [|a l IH]; intros i H; simpl in H; [done|].
  destruct (f a) eqn:E; simplify_eq.
  - exists a. split_and!; try done. lia.
  - apply fmap_Some in H as (j & Hj & ->).
    destruct (IH _ Hj) as (x & Hx & Hf & Hl). exists x. split_and!; try done.
    intros [|k] y Hk Hy; simpl in Hy; [by simplify_eq|]. eapply Hl; [|done]. lia.
Qed.

Lemma find_index_None {A} (f : A -> bool) l :
  find_index f l = None -> Forall (fun x => f x = false) l.
Proof.
  induction l as [|a l IH]; simpl; [done|]. destruct (f a) eqn:E; [done|].
  intros H. destruct (find_index f l); [done|]. constructor; auto.
Qed.

Lemma find_index_complete {A} (f : A -> bool) l x :
  x ∈ l -> f x = true -> is_Some (find_index f l).
Proof.
  intros Hx Hf. destruct (find_index f l) eqn:E; [done|].
  apply find_index_None in E. rewrite Forall_forall in E.
  rewrite (E x Hx) in Hf. done.
Qed.

(** ** Automation *)

Create HintDb xv6.
#[export] Hint Resolve u8_range u32_range u32_is i32_range : xv6.
Ltac case_bool :=
  match goal with
  | |- context [if ?b then _ else _] => destruct b eqn:?
  | H : context [if ?b then _ else _] |- _ => destruct b eqn:?
  end.

(** Turn boolean comparisons in the context into arithmetic facts. *)
Ltac b2p := repeat match goal with
  | H : (_ && _)%bool = true |- _ => apply andb_true_iff in H as [? ?]
  | H : (_ || _)%bool = false |- _ => apply orb_false_iff in H as [? ?]
  | H : negb _ = true |- _ => apply negb_true_iff in H
  | H : negb _ = false |- _ => apply negb_false_iff in H
  | H : (_ <? _) = true |- _ => apply Z.ltb_lt in H
  | H : (_ <? _) = false |- _ => apply Z.ltb_ge in H
  | H : (_ <=? _) = true |- _ => apply Z.leb_le in H
  | H : (_ <=? _) = false |- _ => apply Z.leb_gt in H
  | H : (_ =? _) = true |- _ => apply Z.eqb_eq in H
  | H : (_ =? _) = false |- _ => apply Z.eqb_neq in H
  end.

(** Closed arithmetic facts. *)
Ltac closed := vm_compute; intuition congruence.
