(* ===== verification/Memory.v ===== *)
(** * Byte memory and the string library

    Physical memory as a finite map from addresses to bytes, with the 32-bit
    little-endian accesses of the machine, and the routines of string.c
    ([memset], [memcmp], [memmove], [strncmp], [strncpy], [safestrcpy],
    [strlen]) as the loops the C code runs.  An address that was never written
    reads as 0.  The string routines take the addresses the C code compares
    and steps; addresses are not wrapped, as no buffer of the kernel straddles
    the top of the address space. *)

From S2P Require Import Prelude.

Abbreviation memory := (gmap Z Z).

Definition load8 (m : memory) (a : Z) : Z := u8 (default 0 (m !! a)).
Definition store8 (m : memory) (a v : Z) : memory := <[a := u8 v]> m.

Definition load32 (m : memory) (a : Z) : Z :=
  load8 m a + 256 * load8 m (a + 1) + 65536 * load8 m (a + 2) + 16777216 * load8 m (a + 3).

Definition store32 (m : memory) (a v : Z) : memory :=
  store8 (store8 (store8 (store8 m a v) (a + 1) (v / 256)) (a + 2) (v / 65536))
    (a + 3) (v / 16777216).

(** ** x86.h: the string-store instructions *)

Fixpoint stosb (m : memory) (addr data : Z) (cnt : nat) : memory :=
  match cnt with
  | O => m
  | S cnt => stosb (store8 m addr data) (addr + 1) data cnt
  end.

Fixpoint stosl (m : memory) (addr data : Z) (cnt : nat) : memory :=
  match cnt with
  | O => m
  | S cnt => stosl (store32 m addr data) (addr + 4) data cnt
  end.

(** ** string.c *)

Definition memset (m : memory) (dst c n : Z) : memory :=
  if (dst mod 4 =? 0) && (n mod 4 =? 0) then
    let c := Z.land c 255 in
    stosl m dst
      (Z.lor (Z.lor (Z.lor (Z.shiftl c 24) (Z.shiftl c 16)) (Z.shiftl c 8)) c)
      (Z.to_nat (n / 4))
  else stosb m dst c (Z.to_nat n).

Fixpoint memcmp (m : memory) (s1 s2 : Z) (n : nat) : Z :=
  match n with
  | O => 0
  | S n =>
      if load8 m s1 =? load8 m s2 then memcmp m (s1 + 1) (s2 + 1) n
      else load8 m s1 - load8 m s2
  end.

(** The two loops of [memmove]: [d] and [s] are the cursors. *)
Fixpoint move_up (m : memory) (d s : Z) (n : nat) : memory :=
  match n with
  | O => m
  | S n => move_up (store8 m d (load8 m s)) (d + 1) (s + 1) n
  end.

Fixpoint move_down (m : memory) (d s : Z) (n : nat) : memory :=
  match n with
  | O => m
  | S n => move_down (store8 m (d - 1) (load8 m (s - 1))) (d - 1) (s - 1) n
  end.

Definition memmove (m : memory) (dst src n : Z) : memory :=
  if (src <? dst) && (dst <? src + n) then
    move_down m (dst + n) (src + n) (Z.to_nat n)
  else move_up m dst src (Z.to_nat n).

Definition memcpy (m : memory) (dst src n : Z) : memory := memmove m dst src n.

Fixpoint strncmp (m : memory) (p q : Z) (n : nat) : Z :=
  match n with
  | O => 0
  | S n' =>
      if negb (load8 m p =? 0) && (load8 m p =? load8 m q)
      then strncmp m (p + 1) (q + 1) n'
      else load8 m p - load8 m q
  end.

(** The second loop of [strncpy] pads with zeros. *)
Fixpoint strncpy (m : memory) (s t : Z) (n : nat) : memory :=
  match n with
  | O => m
  | S n =>
      let m' := store8 m s (load8 m t) in
      if load8 m t =? 0 then stosb m' (s + 1) 0 n
      else strncpy m' (s + 1) (t + 1) n
  end.

Fixpoint safestrcpy_loop (m : memory) (s t : Z) (n : nat) : memory :=
  match n with
  | O => m
  | S O => store8 m s 0
  | S n =>
      let m' := store8 m s (load8 m t) in
      if load8 m t =? 0 then store8 m' (s + 1) 0
      else safestrcpy_loop m' (s + 1) (t + 1) n
  end.

Definition safestrcpy (m : memory) (s t n : Z) : memory :=
  if n <=? 0 then m else safestrcpy_loop m s t (Z.to_nat n).

(** [strlen] scans for the terminator; [fuel] bounds the scan. *)
Fixpoint strlen (m : memory) (s : Z) (fuel : nat) : option Z :=
  match fuel with
  | O => None
  | S fuel => if load8 m s =? 0 then Some 0 else Z.succ <$> strlen m (s + 1) fuel
  end.

(** ** Loads and stores *)

Lemma load8_range m a : 0 <= load8 m a < 256.
Proof. apply u8_range. Qed.
#[export] Hint Resolve load8_range : xv6.

Lemma load8_store8 m a v b :
  load8 (store8 m a v) b = if decide (a = b) then u8 v else load8 m b.
Proof.
  unfold load8, store8. rewrite lookup_insert.
  destruct (decide (a = b)); simpl; [apply u8_u8|done].
Qed.

Lemma load8_store8_eq m a v : load8 (store8 m a v) a = u8 v.
Proof. rewrite load8_store8. by case_decide. Qed.

Lemma load8_store8_ne m a v b : a <> b -> load8 (store8 m a v) b = load8 m b.
Proof. intros. rewrite load8_store8. by case_decide. Qed.

Lemma load32_range m a : is_u32 (load32 m a).
Proof.
  unfold load32, is_u32.
  pose proof (load8_range m a). pose proof (load8_range m (a + 1)).
  pose proof (load8_range m (a + 2)). pose proof (load8_range m (a + 3)). lia.
Qed.
#[export] Hint Resolve load32_range : xv6.

Lemma load32_ext m m' a :
  (forall b, a <= b < a + 4 -> load8 m' b = load8 m b) -> load32 m' a = load32 m a.
Proof. intros H. unfold load32. rewrite !H by lia. done. Qed.

Lemma load8_store32_ne m a v b :
  b < a \/ a + 4 <= b -> load8 (store32 m a v) b = load8 m b.
Proof. intros. unfold store32. rewrite !load8_store8_ne by lia. done. Qed.

Lemma load8_store32 m a v k :
  0 <= k < 4 -> load8 (store32 m a v) (a + k) = u8 (v / 256 ^ k).
Proof.
  intros Hk. assert (k = 0 \/ k = 1 \/ k = 2 \/ k = 3) as [-> |[-> |[-> | ->]]] by lia;
    unfold store32; rewrite !load8_store8; repeat case_decide; try lia; f_equal;
    rewrite ?Z.pow_0_r, ?Z.div_1_r; done.
Qed.

Lemma load32_store32_eq m a v : load32 (store32 m a v) a = u32 v.
Proof.
  unfold load32. replace (load8 _ a) with (load8 (store32 m a v) (a + 0)) by (f_equal; lia).
  rewrite !load8_store32 by lia. unfold u8, u32. rewrite Z.pow_0_r, Z.div_1_r.
  replace (256 ^ 1) with 256 by done. replace (256 ^ 2) with 65536 by done.
  replace (256 ^ 3) with 16777216 by done. dlia.
Qed.

Lemma store32_store32 m a v w : store32 (store32 m a v) a w = store32 m a w.
Proof.
  apply map_eq. intros b. unfold store32, store8. rewrite !lookup_insert.
  repeat case_decide; done.
Qed.

Lemma load32_store32_ne m a v b :
  b + 4 <= a \/ a + 4 <= b -> load32 (store32 m a v) b = load32 m b.
Proof. intros. apply load32_ext. intros. apply load8_store32_ne. lia. Qed.

Lemma load32_store8_ne m a v b :
  b + 4 <= a \/ a < b -> load32 (store8 m a v) b = load32 m b.
Proof. intros. apply load32_ext. intros. apply load8_store8_ne. lia. Qed.

(** ** memset *)

Lemma load8_stosb m a c n x :
  load8 (stosb m a c n) x
  = if decide (a <= x < a + Z.of_nat n) then u8 c else load8 m x.
Proof.
  revert m a. induction n as [|n IH]; intros m a; simpl.
  - case_decide; [lia|done].
  - rewrite IH, load8_store8. repeat case_decide; try done; lia.
Qed.

Lemma load8_stosl m a v n x :
  load8 (stosl m a v n) x
  = if decide (a <= x < a + 4 * Z.of_nat n) then u8 (v / 256 ^ ((x - a) mod 4))
    else load8 m x.
Proof.
  revert m a. induction n as [|n IH]; intros m a; cbn [stosl].
  - case_decide; [lia|done].
  - rewrite IH. replace ((x - (a + 4)) mod 4) with ((x - a) mod 4) by dlia.
    repeat case_decide; try done; try lia.
    + replace x with (a + (x - a)) at 1 by lia. rewrite load8_store32 by lia.
      by rewrite Z.mod_small by lia.
    + apply load8_store32_ne. lia.
Qed.

(** The word that [memset] stores repeats the byte. *)
Lemma memset_word_byte c k :
  0 <= c < 256 -> 0 <= k < 4 ->
  u8 (Z.lor (Z.lor (Z.lor (Z.shiftl c 24) (Z.shiftl c 16)) (Z.shiftl c 8)) c / 256 ^ k) = c.
Proof.
  intros Hc Hk. unfold u8.
  replace (256 ^ k) with (2 ^ (8 * k)) by (rewrite Z.pow_mul_r by lia; done).
  rewrite <- Z.shiftr_div_pow2 by lia. change 256 with (2 ^ 8).
  apply Z.bits_inj'. intros i Hi. destruct (Z.lt_ge_cases i 8) as [Hlt|Hge].
  - rewrite Z.mod_pow2_bits_low, Z.shiftr_spec, !Z.lor_spec, !Z.shiftl_spec by lia.
    assert (forall j, 8 <= j -> Z.testbit c j = false) as Hh
      by (intros; apply (testbit_high 8); lia).
    assert (k = 0 \/ k = 1 \/ k = 2 \/ k = 3) as [-> |[-> |[-> | ->]]] by lia.
    + rewrite !(Z.testbit_neg_r c (i + 8 * 0 - _)) by lia. simpl. f_equal. lia.
    + rewrite !(Z.testbit_neg_r c (i + 8 * 1 - 24)), !(Z.testbit_neg_r c (i + 8 * 1 - 16)),
        (Hh (i + 8 * 1)) by lia. rewrite orb_false_r. simpl. f_equal. lia.
    + rewrite !(Z.testbit_neg_r c (i + 8 * 2 - 24)), (Hh (i + 8 * 2)),
        (Hh (i + 8 * 2 - 8)) by lia. rewrite !orb_false_r. simpl. f_equal. lia.
    + rewrite (Hh (i + 8 * 3)), (Hh (i + 8 * 3 - 8)), (Hh (i + 8 * 3 - 16)) by lia.
      rewrite !orb_false_r. f_equal. lia.
  - rewrite Z.mod_pow2_bits_high by lia. symmetry. apply (testbit_high 8); lia.
Qed.

Lemma load8_memset m a c n x :
  0 <= n ->
  load8 (memset m a c n) x = if decide (a <= x < a + n) then u8 c else load8 m x.
Proof.
  intros Hn. unfold memset. destruct (_ && _) eqn:E.
  - b2p. rewrite load8_stosl, memset_word_byte.
    + rewrite Z2Nat.id by dlia. replace (4 * (n / 4)) with n by dlia.
      case_decide; [|done]. change 255 with (Z.ones 8). by rewrite Z.land_ones by lia.
    + change 255 with (Z.ones 8). rewrite Z.land_ones by lia. dlia.
    + dlia.
  - rewrite load8_stosb, Z2Nat.id by lia. done.
Qed.

Lemma load32_memset0 m a n x :
  0 <= n -> a <= x -> x + 4 <= a + n -> load32 (memset m a 0 n) x = 0.
Proof.
  intros. unfold load32. rewrite !load8_memset by lia. repeat case_decide; try lia. done.
Qed.

Lemma load32_memset_ne m a c n x :
  0 <= n -> x + 4 <= a \/ a + n <= x -> load32 (memset m a c n) x = load32 m x.
Proof.
  intros. apply load32_ext. intros. rewrite load8_memset by lia. case_decide; [lia|done].
Qed.

(** ** memmove *)

Lemma load8_move_up m d s n x :
  d <= s \/ s + Z.of_nat n <= d ->
  load8 (move_up m d s n) x
  = if decide (d <= x < d + Z.of_nat n) then load8 m (s + (x - d)) else load8 m x.
Proof.
  revert m d s. induction n as [|n IH]; intros m d s H; cbn [move_up].
  - case_decide; [lia|done].
  - rewrite IH by lia. rewrite !load8_store8. rewrite u8_small by auto with xv6.
    repeat case_decide; try done; try lia; f_equal; lia.
Qed.

Lemma load8_move_down m d s n x :
  s < d ->
  load8 (move_down m d s n) x
  = if decide (d - Z.of_nat n <= x < d) then load8 m (x - d + s) else load8 m x.
Proof.
  revert m d s. induction n as [|n IH]; intros m d s H; cbn [move_down].
  - case_decide; [lia|done].
  - rewrite IH by lia. rewrite !load8_store8. rewrite u8_small by auto with xv6.
    repeat case_decide; try done; try lia; f_equal; lia.
Qed.

Lemma load8_memmove m d s n x :
  0 <= n ->
  load8 (memmove m d s n) x
  = if decide (d <= x < d + n) then load8 m (s + (x - d)) else load8 m x.
Proof.
  intros Hn. unfold memmove. destruct (_ && _) eqn:E.
  - b2p. rewrite load8_move_down, Z2Nat.id by lia.
    repeat case_decide; try done; try lia. f_equal. lia.
  - rewrite load8_move_up, Z2Nat.id by
      (rewrite ?Z2Nat.id by lia; apply andb_false_iff in E as [?|?]; b2p; lia).
    done.
Qed.

Lemma load32_memmove m d s n x :
  0 <= n -> d <= x -> x + 4 <= d + n ->
  load32 (memmove m d s n) x = load32 m (s + (x - d)).
Proof.
  intros. unfold load32. rewrite !load8_memmove by lia.
  repeat case_decide; try lia. repeat (f_equal; try lia).
Qed.

Lemma load32_memmove_ne m d s n x :
  0 <= n -> x + 4 <= d \/ d + n <= x -> load32 (memmove m d s n) x = load32 m x.
Proof.
  intros. apply load32_ext. intros. rewrite load8_memmove by lia. case_decide; [lia|done].
Qed.

(** ** Comparisons *)

Lemma memcmp_eq m p q n :
  memcmp m p q n = 0 <->
  forall i, 0 <= i < Z.of_nat n -> load8 m (p + i) = load8 m (q + i).
Proof.
  revert p q. induction n as [|n IH]; intros p q; cbn [memcmp].
  - split; [lia|done].
  - destruct (Z.eqb_spec (load8 m p) (load8 m q)) as [E|E].
    + rewrite IH. split; intros H i Hi.
      * destruct (decide (i = 0)) as [->|]; [by rewrite !Z.add_0_r|].
        specialize (H (i - 1)). replace (p + i) with (p + 1 + (i - 1)) by lia.
        replace (q + i) with (q + 1 + (i - 1)) by lia. apply H. lia.
      * rewrite <- !Z.add_assoc. apply H. lia.
    + split; [lia|]. intros H. specialize (H 0). rewrite !Z.add_0_r in H. lia.
Qed.

(** Two strings agree for [strncmp] when they agree up to the first
    terminator or the bound. *)
Definition str_agree (m : memory) (p q : Z) (n : nat) : Prop :=
  forall i, 0 <= i < Z.of_nat n ->
    (forall j, 0 <= j < i -> load8 m (p + j) <> 0) -> load8 m (p + i) = load8 m (q + i).

Lemma strncmp_eq m p q n : strncmp m p q n = 0 <-> str_agree m p q n.
Proof.
  unfold str_agree. revert p q. induction n as [|n IH]; intros p q; cbn [strncmp].
  { split; [lia|done]. }
  destruct (Z.eqb_spec (load8 m p) 0) as [E0|E0]; cbn [negb andb].
  - split; intros H.
    + intros i Hi Hj. destruct (decide (i = 0)) as [->|]; [rewrite !Z.add_0_r; lia|].
      destruct (Hj 0); [lia|]. by rewrite Z.add_0_r.
    + specialize (H 0). rewrite !Z.add_0_r in H. rewrite H; lia.
  - destruct (Z.eqb_spec (load8 m p) (load8 m q)) as [E|E].
    + rewrite IH. split; intros H i Hi Hj.
      * destruct (decide (i = 0)) as [->|]; [by rewrite !Z.add_0_r|].
        replace (p + i) with (p + 1 + (i - 1)) by lia.
        replace (q + i) with (q + 1 + (i - 1)) by lia. apply H; [lia|].
        intros j Hj'. rewrite <- Z.add_assoc. apply Hj. lia.
      * rewrite <- !Z.add_assoc. apply H; [lia|]. intros j Hj'.
        destruct (decide (j = 0)) as [->|]; [by rewrite Z.add_0_r|].
        replace (p + j) with (p + 1 + (j - 1)) by lia. apply Hj. lia.
    + split; [lia|]. intros H. specialize (H 0). rewrite !Z.add_0_r in H.
      rewrite H; lia.
Qed.

(** ** strlen *)

Lemma strlen_spec m s fuel n :
  strlen m s fuel = Some n <->
  0 <= n < Z.of_nat fuel /\ load8 m (s + n) = 0 /\
  forall i, 0 <= i < n -> load8 m (s + i) <> 0.
Proof.
  revert s n. induction fuel as [|fuel IH]; intros s n; cbn [strlen].
  { split; [done|lia]. }
  destruct (Z.eqb_spec (load8 m s) 0) as [E|E].
  - split.
    + intros [= <-]. rewrite Z.add_0_r. split_and!; try done; lia.
    + intros (Hn & Hz & Hl). destruct (decide (n = 0)) as [->|]; [done|].
      destruct (Hl 0); [lia|]. by rewrite Z.add_0_r.
  - rewrite fmap_Some. split.
    + intros (k & Hk & ->). apply IH in Hk as (Hr & Hz & Hl). split_and!; try lia.
      * rewrite <- Hz. f_equal. lia.
      * intros i Hi. destruct (decide (i = 0)) as [->|]; [by rewrite Z.add_0_r|].
        replace (s + i) with (s + 1 + (i - 1)) by lia. apply Hl. lia.
    + intros (Hn & Hz & Hl). destruct (decide (n = 0)) as [->|].
      { by rewrite Z.add_0_r in Hz. }
      exists (n - 1). split; [|lia]. apply IH. split_and!; try lia.
      * rewrite <- Hz. f_equal. lia.
      * intros i Hi. rewrite <- Z.add_assoc. apply Hl. lia.
Qed.

(** ** Copies of strings *)

Lemma safestrcpy_loop_SS m s t n :
  safestrcpy_loop m s t (S (S n)) =
    if load8 m t =? 0 then store8 (store8 m s (load8 m t)) (s + 1) 0
    else safestrcpy_loop (store8 m s (load8 m t)) (s + 1) (t + 1) (S n).
Proof. done. Qed.

Lemma safestrcpy_loop_frame m s t n x :
  x < s \/ s + Z.of_nat n <= x -> load8 (safestrcpy_loop m s t n) x = load8 m x.
Proof.
  revert m s t. induction n as [|n IH]; intros m s t H; [done|].
  destruct n as [|n].
  { cbn. apply load8_store8_ne. lia. }
  rewrite safestrcpy_loop_SS. destruct (_ =? 0).
  - rewrite !load8_store8_ne by lia. done.
  - rewrite IH by lia. apply load8_store8_ne. lia.
Qed.

(** When source and destination do not overlap, the copy is the longest
    prefix of the source without terminator that fits, followed by a
    terminator. *)
Lemma safestrcpy_loop_copy m s t n k :
  (0 < n)%nat -> t + Z.of_nat n <= s \/ s + Z.of_nat n <= t ->
  0 <= k < Z.of_nat n ->
  (forall i, 0 <= i < k -> load8 m (t + i) <> 0) ->
  load8 (safestrcpy_loop m s t n) (s + k)
  = if decide (k = Z.of_nat n - 1) then 0 else load8 m (t + k).
Proof.
  revert m s t k. induction n as [|n IH]; intros m s t k Hn Hd Hk Hl; [lia|].
  destruct n as [|n].
  { cbn. replace k with 0 by lia. rewrite Z.add_0_r, load8_store8_eq. by case_decide. }
  rewrite safestrcpy_loop_SS. destruct (Z.eqb_spec (load8 m t) 0) as [E|E].
  - assert (k = 0) as ->.
    { destruct (decide (k = 0)) as [|]; [done|]. destruct (Hl 0); [lia|]. by rewrite Z.add_0_r. }
    case_decide; [lia|]. rewrite !Z.add_0_r.
    rewrite load8_store8_ne, load8_store8_eq by lia. by rewrite E.
  - destruct (decide (k = 0)) as [->|].
    + case_decide; [lia|]. rewrite !Z.add_0_r, safestrcpy_loop_frame by lia.
      rewrite load8_store8_eq. apply u8_small. auto with xv6.
    + replace (s + k) with (s + 1 + (k - 1)) by lia. rewrite IH; try lia.
      * repeat case_decide; try done; try lia. rewrite load8_store8_ne by lia. f_equal. lia.
      * intros i Hi. rewrite load8_store8_ne by lia. rewrite <- Z.add_assoc. apply Hl. lia.
Qed.

Lemma strncpy_frame m s t n x :
  x < s \/ s + Z.of_nat n <= x -> load8 (strncpy m s t n) x = load8 m x.
Proof.
  revert m s t. induction n as [|n IH]; intros m s t H; [done|].
  cbn [strncpy]. destruct (_ =? 0).
  - rewrite load8_stosb. case_decide; [lia|]. apply load8_store8_ne. lia.
  - rewrite IH by lia. apply load8_store8_ne. lia.
Qed.

(** [strncpy] copies up to the terminator and pads with zeros. *)
Lemma strncpy_copy m s t n k :
  t + Z.of_nat n <= s \/ s + Z.of_nat n <= t -> 0 <= k < Z.of_nat n ->
  ((forall i, 0 <= i < k -> load8 m (t + i) <> 0) ->
     load8 (strncpy m s t n) (s + k) = load8 m (t + k)) /\
  ((exists i, 0 <= i < k /\ load8 m (t + i) = 0) -> load8 (strncpy m s t n) (s + k) = 0).
Proof.
  revert m s t k. induction n as [|n IH]; intros m s t k Hd Hk; [lia|].
  cbn [strncpy]. destruct (decide (k = 0)) as [->|Hk0].
  { split; [|intros (i & ? & _); lia]. intros _. rewrite !Z.add_0_r. case_bool.
    - rewrite load8_stosb. case_decide; [lia|]. rewrite load8_store8_eq.
      apply u8_small. auto with xv6.
    - rewrite strncpy_frame by lia. rewrite load8_store8_eq. apply u8_small. auto with xv6. }
  destruct (Z.eqb_spec (load8 m t) 0) as [E|E].
  - split; intros H.
    + destruct (H 0); [lia|]. by rewrite Z.add_0_r.
    + rewrite load8_stosb. case_decide; [done|lia].
  - destruct (IH (store8 m s (load8 m t)) (s + 1) (t + 1) (k - 1)) as [H1 H2]; try lia.
    replace (s + k) with (s + 1 + (k - 1)) by lia. split.
    + intros H. rewrite H1.
      * rewrite load8_store8_ne by lia. f_equal. lia.
      * intros i Hi. rewrite load8_store8_ne by lia. rewrite <- Z.add_assoc. apply H. lia.
    + intros (i & Hi & Hz). apply H2. destruct (decide (i = 0)) as [->|].
      { by rewrite Z.add_0_r in Hz. }
      exists (i - 1). split; [lia|]. rewrite load8_store8_ne by lia.
      rewrite <- Hz. f_equal. lia.
Qed.
