(* ===== verification/Mmu.v ===== *)
(** * Address arithmetic: param.h, memlayout.h and mmu.h

    The constants and macros of the three headers, and the arithmetic of
    virtual addresses, page-table indices and page-table-entry flags that the
    virtual-memory proofs share. *)

From S2P Require Import Prelude.

(** ** param.h *)

Definition NPROC : Z := 64.
Definition KSTACKSIZE : Z := 4096.
Definition NCPU : Z := 8.
Definition NOFILE : Z := 16.
Definition NFILE : Z := 100.
Definition NINODE : Z := 50.
Definition MAXARG : Z := 32.
Definition CLOCKSIZE : Z := 8.

(** ** memlayout.h *)

Definition EXTMEM : Z := 0x100000.
Definition PHYSTOP : Z := 0xE000000.
Definition DEVSPACE : Z := 0xFE000000.
Definition KERNBASE : Z := 0x80000000.
Definition KERNLINK : Z := KERNBASE + EXTMEM.
Definition V2P (a : Z) : Z := u32 (a - KERNBASE).
Definition P2V (a : Z) : Z := u32 (a + KERNBASE).

(** ** mmu.h *)

Definition FL_IF : Z := 0x200.
Definition SEG_KCODE : Z := 1.
Definition SEG_KDATA : Z := 2.
Definition SEG_UCODE : Z := 3.
Definition SEG_UDATA : Z := 4.
Definition DPL_USER : Z := 3.

Definition NPDENTRIES : Z := 1024.
Definition NPTENTRIES : Z := 1024.
Definition PGSIZE : Z := 4096.
Definition PTXSHIFT : Z := 12.
Definition PDXSHIFT : Z := 22.

Definition PDX (va : Z) : Z := Z.land (Z.shiftr va PDXSHIFT) 0x3FF.
Definition PTX (va : Z) : Z := Z.land (Z.shiftr va PTXSHIFT) 0x3FF.
Definition PPN (pa : Z) : Z := Z.shiftr pa PTXSHIFT.
Definition OFFSET (va : Z) : Z := Z.land va 0xFFF.
Definition PGADDR (d t o : Z) : Z :=
  u32 (Z.lor (Z.lor (Z.shiftl d PDXSHIFT) (Z.shiftl t PTXSHIFT)) o).
Definition PGROUNDUP (sz : Z) : Z := Z.ldiff (u32 (sz + PGSIZE - 1)) (PGSIZE - 1).
Definition PGROUNDDOWN (a : Z) : Z := Z.ldiff a (PGSIZE - 1).

Definition PTE_P : Z := 0x001.
Definition PTE_W : Z := 0x002.
Definition PTE_U : Z := 0x004.
Definition PTE_A : Z := 0x020.
Definition PTE_E : Z := 0x400.
(** The dirty bit, which only the processor uses. *)
Definition PTE_D : Z := 0x040.
Definition PTE_ADDR (pte : Z) : Z := Z.ldiff pte 0xFFF.
Definition PTE_FLAGS (pte : Z) : Z := Z.land pte 0xFFF.

Ltac consts := cbv beta delta [NPROC KSTACKSIZE NCPU NOFILE NFILE NINODE MAXARG CLOCKSIZE
  EXTMEM PHYSTOP DEVSPACE KERNBASE KERNLINK V2P P2V NPDENTRIES NPTENTRIES PGSIZE
  PTXSHIFT PDXSHIFT u32 is_u32] in *.

(** ** Rounding *)

Lemma PGROUNDDOWN_eq a : PGROUNDDOWN a = a - a mod 4096.
Proof. unfold PGROUNDDOWN. change (PGSIZE - 1) with (Z.ones 12). by rewrite ldiff_ones by lia. Qed.

Lemma PGROUNDUP_eq a : 0 <= a <= 4294967296 - 4096 -> PGROUNDUP a = (a + 4095) - (a + 4095) mod 4096.
Proof.
  intros. unfold PGROUNDUP. change (PGSIZE - 1) with (Z.ones 12).
  rewrite ldiff_ones by lia. rewrite u32_small by (consts; lia).
  change (2 ^ 12) with 4096. consts. by replace (a + 4096 - 1) with (a + 4095) by lia.
Qed.

Lemma PTE_ADDR_eq w : PTE_ADDR w = w - w mod 4096.
Proof. unfold PTE_ADDR. change 0xFFF with (Z.ones 12). by rewrite ldiff_ones by lia. Qed.

Lemma PTE_FLAGS_eq w : PTE_FLAGS w = w mod 4096.
Proof. unfold PTE_FLAGS. change 0xFFF with (Z.ones 12). by rewrite Z.land_ones by lia. Qed.

Lemma OFFSET_eq w : OFFSET w = w mod 4096.
Proof. unfold OFFSET. change 0xFFF with (Z.ones 12). by rewrite Z.land_ones by lia. Qed.

Lemma PDX_eq va : is_u32 va -> PDX va = va / 4194304.
Proof.
  intros. unfold PDX. change 0x3FF with (Z.ones 10). rewrite Z.land_ones by lia.
  rewrite Z.shiftr_div_pow2 by (consts; lia). change (2 ^ PDXSHIFT) with 4194304.
  change (2 ^ 10) with 1024. consts. dlia.
Qed.

Lemma PTX_eq va : PTX va = va / 4096 mod 1024.
Proof.
  unfold PTX. change 0x3FF with (Z.ones 10). rewrite Z.land_ones by lia.
  by rewrite Z.shiftr_div_pow2 by (consts; lia).
Qed.

Lemma PDX_range va : 0 <= PDX va < 1024.
Proof. unfold PDX. change 0x3FF with (Z.ones 10). rewrite Z.land_ones by lia. dlia. Qed.

Lemma PTX_range va : 0 <= PTX va < 1024.
Proof. rewrite PTX_eq. dlia. Qed.

Lemma PPN_eq pa : PPN pa = pa / 4096.
Proof. unfold PPN. by rewrite Z.shiftr_div_pow2 by (consts; lia). Qed.

(** [PGADDR] of a directory index alone, as [deallocuvm] uses it. *)
Lemma PGADDR_d d : PGADDR d 0 0 = u32 (d * 4194304).
Proof.
  unfold PGADDR. rewrite Z.shiftl_0_l, !Z.lor_0_r.
  by rewrite Z.shiftl_mul_pow2 by (consts; lia).
Qed.

(** The indices of an address determine its page. *)
Lemma PDX_PTX_vpn va : is_u32 va -> PDX va * 1024 + PTX va = va / 4096.
Proof. intros. rewrite PDX_eq, PTX_eq by done. dlia. Qed.

Lemma PGADDR_PDX_PTX va :
  is_u32 va -> PGADDR (PDX va) (PTX va) (OFFSET va) = va.
Proof.
  intros Hva. unfold PGADDR.
  pose proof (PDX_PTX_vpn va Hva). pose proof (PDX_range va). pose proof (PTX_range va).
  rewrite OFFSET_eq, !Z.shiftl_mul_pow2 by (consts; lia).
  change (2 ^ PDXSHIFT) with (2 ^ 22). change (2 ^ PTXSHIFT) with (2 ^ 12).
  assert (forall a b k, 0 <= k -> 0 <= b < 2 ^ k -> Z.lor (a * 2 ^ k) b = a * 2 ^ k + b) as Hor.
  { intros a b k Hk Hb. rewrite <- Z.shiftl_mul_pow2 by lia.
    rewrite <- Z.lxor_lor, <- Z.add_nocarry_lxor; try done; apply Z.bits_inj'; intros i Hi;
      rewrite Z.land_spec, Z.bits_0; destruct (Z.lt_ge_cases i k);
      rewrite ?Z.shiftl_spec_low, ?(testbit_high k b) by lia; by rewrite ?andb_false_r. }
  rewrite (Hor (PDX va)) by dlia.
  replace (PDX va * 2 ^ 22 + PTX va * 2 ^ 12) with ((PDX va * 1024 + PTX va) * 2 ^ 12) by lia.
  rewrite Hor by dlia. rewrite H. rewrite u32_small; consts; dlia.
Qed.

(** ** Kernel and physical addresses *)

Lemma P2V_eq a : 0 <= a < PHYSTOP -> P2V a = a + KERNBASE.
Proof. consts. dlia. Qed.

Lemma V2P_P2V a : 0 <= a < PHYSTOP -> V2P (P2V a) = a.
Proof. consts. dlia. Qed.

Lemma V2P_eq v : KERNBASE <= v < KERNBASE + PHYSTOP -> V2P v = v - KERNBASE.
Proof. consts. dlia. Qed.

Lemma P2V_V2P v : is_u32 v -> P2V (V2P v) = v.
Proof. consts. dlia. Qed.

(** ** Page-table-entry flags as bits *)

Lemma flag_P w : flag w PTE_P = Z.testbit w 0. Proof. apply (flag_pow2 w 0). lia. Qed.
Lemma flag_W w : flag w PTE_W = Z.testbit w 1. Proof. apply (flag_pow2 w 1). lia. Qed.
Lemma flag_U w : flag w PTE_U = Z.testbit w 2. Proof. apply (flag_pow2 w 2). lia. Qed.
Lemma flag_A w : flag w PTE_A = Z.testbit w 5. Proof. apply (flag_pow2 w 5). lia. Qed.
Lemma flag_D w : flag w PTE_D = Z.testbit w 6. Proof. apply (flag_pow2 w 6). lia. Qed.
Lemma flag_E w : flag w PTE_E = Z.testbit w 10. Proof. apply (flag_pow2 w 10). lia. Qed.

Create Rewrite HintDb flags.
#[export] Hint Rewrite flag_P flag_W flag_U flag_A flag_D flag_E flag_lor
  Z.lor_spec Z.ldiff_spec : flags.

(** Decide the flags of a word built with [|] and [& ~]. *)
Ltac flag_const c :=
  lazymatch c with
  | PTE_P => idtac | PTE_W => idtac | PTE_U => idtac | PTE_A => idtac
  | PTE_D => idtac | PTE_E => idtac | 0 => idtac | Zpos _ => idtac
  | Z.lor ?a ?b => flag_const a; flag_const b
  end.

Ltac flags :=
  autorewrite with flags in *;
  repeat match goal with
  | |- context [Z.testbit ?c ?k] =>
      flag_const c;
      let v := eval vm_compute in (Z.testbit c k) in change (Z.testbit c k) with v
  | H : context [Z.testbit ?c ?k] |- _ =>
      flag_const c;
      let v := eval vm_compute in (Z.testbit c k) in change (Z.testbit c k) with v in H
  end;
  rewrite ?orb_true_r, ?orb_false_r, ?andb_true_r, ?andb_false_r in *; cbn [negb orb andb] in *.

(** Setting or clearing flags below bit 12 keeps the frame address. *)
Lemma PTE_ADDR_lor w f : 0 <= f < 4096 -> PTE_ADDR (Z.lor w f) = PTE_ADDR w.
Proof.
  intros Hf. unfold PTE_ADDR. change 0xFFF with (Z.ones 12).
  apply Z.bits_inj'. intros i Hi. rewrite !Z.ldiff_spec, Z.lor_spec.
  destruct (Z.lt_ge_cases i 12).
  - rewrite Z.ones_spec_low by lia. by rewrite !andb_false_r.
  - by rewrite (testbit_high 12 f), orb_false_r by lia.
Qed.

Lemma PTE_ADDR_ldiff w f : 0 <= f < 4096 -> PTE_ADDR (Z.ldiff w f) = PTE_ADDR w.
Proof.
  intros Hf. unfold PTE_ADDR. change 0xFFF with (Z.ones 12).
  apply Z.bits_inj'. intros i Hi. rewrite !Z.ldiff_spec.
  destruct (Z.lt_ge_cases i 12).
  - rewrite Z.ones_spec_low by lia. by rewrite !andb_false_r.
  - by rewrite (testbit_high 12 f), andb_true_r by lia.
Qed.

Lemma lor_u32 a b : is_u32 a -> is_u32 b -> is_u32 (Z.lor a b).
Proof. apply (lor_bound 32). lia. Qed.

Lemma ldiff_u32 a b : is_u32 a -> is_u32 (Z.ldiff a b).
Proof. apply (ldiff_bound 32). lia. Qed.

(** A page-aligned address and flags, combined into an entry. *)
Lemma PTE_ADDR_make pa f : pa mod 4096 = 0 -> 0 <= f < 4096 -> PTE_ADDR (Z.lor pa f) = pa.
Proof. intros Hpa Hf. rewrite PTE_ADDR_lor by done. rewrite PTE_ADDR_eq. lia. Qed.

Lemma PTE_FLAGS_make pa f : pa mod 4096 = 0 -> 0 <= f < 4096 -> PTE_FLAGS (Z.lor pa f) = f.
Proof.
  intros Hpa Hf. unfold PTE_FLAGS. change 0xFFF with (Z.ones 12).
  apply Z.bits_inj'. intros i Hi. rewrite Z.land_spec, Z.lor_spec.
  destruct (Z.lt_ge_cases i 12).
  - rewrite Z.ones_spec_low by lia. rewrite andb_true_r.
    replace pa with (Z.shiftl (pa / 4096) 12) by (rewrite Z.shiftl_mul_pow2 by lia; dlia).
    by rewrite Z.shiftl_spec_low by lia.
  - rewrite Z.ones_spec_high, andb_false_r by lia. symmetry. apply (testbit_high 12); lia.
Qed.

Lemma testbit_aligned pa k : pa mod 4096 = 0 -> 0 <= k < 12 -> Z.testbit pa k = false.
Proof.
  intros. replace pa with (Z.shiftl (pa / 4096) 12) by (rewrite Z.shiftl_mul_pow2 by lia; dlia).
  by rewrite Z.shiftl_spec_low by lia.
Qed.

Lemma testbit_FLAGS w k : 0 <= k < 12 -> Z.testbit (PTE_FLAGS w) k = Z.testbit w k.
Proof.
  intros. unfold PTE_FLAGS. change 0xFFF with (Z.ones 12).
  by rewrite Z.land_spec, Z.ones_spec_low, andb_true_r by lia.
Qed.
