(* ===== verification/Machine.v ===== *)
(** * The machine

    The state the kernel runs on: physical memory, the page allocator's
    globals (kalloc.c, [kmem]), the per-CPU structures (proc.h, [struct cpu])
    and the registers of the processor that executes.  The paging hardware is
    modelled here too: an access through a virtual address walks the
    two-level table that CR3 points to, requires the present bit at both
    levels (and the write bit for stores, as the kernel sets CR0.WP), and sets
    the accessed and dirty bits the way the processor does.  There is no
    translation cache: the code that changes an entry reloads CR3 before it
    returns.  Lock names and recorded call stacks, which only debugging
    output uses, are left out. *)

From S2P Require Import Prelude Memory Mmu.

(** ** Records *)

(** spinlock.h, [struct spinlock]; [cpu] is an index into [cpus]. *)
Record spinlock : Type := Spinlock { locked : Z; lk_cpu : option nat }.

(** proc.h, [struct cpu]; [cpu_proc] is an index into [ptable.proc].  Of the
    task state segment, the fields [switchuvm] sets. *)
Record cpu : Type := Cpu {
  apicid : Z;
  ncli : Z;
  intena : bool;
  cpu_proc : option nat;
  ts_ss0 : Z;
  ts_esp0 : Z;
  ts_iomb : Z;
}.

(** The CPUs, and the interrupt flag and APIC id of the one that executes. *)
Record hart : Type := Hart { cpus : list cpu; eflags_if : bool; lapicid : Z }.

Record machine : Type := Machine {
  mem : memory;
  kmem_lock : spinlock;
  use_lock : bool;
  freelist : Z;
  hw : hart;
  cr3 : Z;
  tr : Z;
}.

Definition set_mem (m : memory) (s : machine) : machine :=
  Machine m (kmem_lock s) (use_lock s) (freelist s) (hw s) (cr3 s) (tr s).
Definition set_kmem_lock (l : spinlock) (s : machine) : machine :=
  Machine (mem s) l (use_lock s) (freelist s) (hw s) (cr3 s) (tr s).
Definition set_use_lock (b : bool) (s : machine) : machine :=
  Machine (mem s) (kmem_lock s) b (freelist s) (hw s) (cr3 s) (tr s).
Definition set_freelist (p : Z) (s : machine) : machine :=
  Machine (mem s) (kmem_lock s) (use_lock s) p (hw s) (cr3 s) (tr s).
Definition set_hw (h : hart) (s : machine) : machine :=
  Machine (mem s) (kmem_lock s) (use_lock s) (freelist s) h (cr3 s) (tr s).
Definition set_cr3 (p : Z) (s : machine) : machine :=
  Machine (mem s) (kmem_lock s) (use_lock s) (freelist s) (hw s) p (tr s).
Definition set_tr (p : Z) (s : machine) : machine :=
  Machine (mem s) (kmem_lock s) (use_lock s) (freelist s) (hw s) (cr3 s) p.

Definition set_cpus (l : list cpu) (h : hart) : hart := Hart l (eflags_if h) (lapicid h).
Definition set_if (b : bool) (h : hart) : hart := Hart (cpus h) b (lapicid h).

Definition set_ncli (n : Z) (c : cpu) : cpu :=
  Cpu (apicid c) n (intena c) (cpu_proc c) (ts_ss0 c) (ts_esp0 c) (ts_iomb c).
Definition set_intena (b : bool) (c : cpu) : cpu :=
  Cpu (apicid c) (ncli c) b (cpu_proc c) (ts_ss0 c) (ts_esp0 c) (ts_iomb c).
Definition set_cpu_proc (p : option nat) (c : cpu) : cpu :=
  Cpu (apicid c) (ncli c) (intena c) p (ts_ss0 c) (ts_esp0 c) (ts_iomb c).
Definition set_ts (ss0 esp0 iomb : Z) (c : cpu) : cpu :=
  Cpu (apicid c) (ncli c) (intena c) (cpu_proc c) ss0 esp0 iomb.

Definition kmem_lockL : lens machine spinlock := Lens kmem_lock set_kmem_lock.
#[export] Instance kmem_lockL_ok : LensOk kmem_lockL.
Proof. split; [split|]; by intros; try destruct s. Qed.

(** A state that contains the processors. *)
Class HasHart (S : Type) := hartL : lens S hart.
#[export] Instance machine_hart : HasHart machine := Lens hw set_hw.
#[export] Instance machine_hart_ok : LensOk (@hartL machine _).
Proof. split; [split|]; by intros; try destruct s. Qed.
#[export] Instance kmem_lock_hart : LensIndep kmem_lockL (@hartL machine _).
Proof. by split. Qed.

(** ** Memory operations of kernel code

    The kernel reaches physical memory through the direct map: the kernel
    address [v] is the physical address [V2P v]. *)

Definition kload8 (v : Z) : M machine Z := gets (fun s => load8 (mem s) (V2P v)).
Definition kload32 (v : Z) : M machine Z := gets (fun s => load32 (mem s) (V2P v)).
Definition kstore32 (v w : Z) : M machine unit :=
  modify (fun s => set_mem (store32 (mem s) (V2P v) w) s).
Definition kmemset (v c n : Z) : M machine unit :=
  modify (fun s => set_mem (memset (mem s) (V2P v) c n) s).
Definition kmemmove (d s n : Z) : M machine unit :=
  modify (fun st => set_mem (memmove (mem st) (V2P d) (V2P s) n) st).

(** ** The paging hardware *)

(** The physical address of [va] and the memory in which the walk has set
    the accessed and dirty bits; [None] is a page fault. *)
Definition mmu (m : memory) (cr3 va : Z) (write : bool) : option (Z * memory) :=
  let pdea := cr3 + 4 * PDX va in
  let pde := load32 m pdea in
  if negb (flag pde PTE_P) || (write && negb (flag pde PTE_W)) then None else
  let ptea := PTE_ADDR pde + 4 * PTX va in
  let pte := load32 m ptea in
  if negb (flag pte PTE_P) || (write && negb (flag pte PTE_W)) then None else
  let m1 := store32 m pdea (Z.lor pde PTE_A) in
  let m2 := store32 m1 ptea (Z.lor pte (if write then Z.lor PTE_A PTE_D else PTE_A)) in
  Some (PTE_ADDR pte + OFFSET va, m2).

(** A load and a store through a virtual address of the current table. *)
Definition vload8 (va : Z) : M machine Z := fun s =>
  match mmu (mem s) (cr3 s) va false with
  | None => Fault s
  | Some (pa, m) => Ok (load8 m pa) (set_mem m s)
  end.

Definition vstore8 (va v : Z) : M machine unit := fun s =>
  match mmu (mem s) (cr3 s) va true with
  | None => Fault s
  | Some (pa, m) => Ok tt (set_mem (store8 m pa v) s)
  end.

(** [memmove] to a kernel address from a kernel address (the direct map) or
    from a user address (the current table), byte by byte. *)
Definition kstore8 (v b : Z) : M machine unit :=
  modify (fun s => set_mem (store8 (mem s) (V2P v) b) s).

Fixpoint copy_user (d s : Z) (n : nat) : M machine unit :=
  match n with
  | O => mret tt
  | S n => b ← vload8 s; kstore8 d b;; copy_user (d + 1) (s + 1) n
  end.

Definition cmemmove (d s n : Z) : M machine unit :=
  if KERNBASE <=? s then kmemmove d s n else copy_user d s (Z.to_nat n).
