(* ===== verification/Spinlock.v ===== *)
(** * Spin locks and interrupt nesting: spinlock.c, and mycpu of proc.c

    [pushcli]/[popcli] keep a per-CPU nesting depth; [acquire] and [release]
    disable interrupts around the critical section.  The operations act on
    any state that contains the processors, and on a lock wherever that state
    keeps it (a lens).  Waiting for a lock that another CPU holds is the
    outcome [Spin]: on one CPU nothing releases it.  The interleaving of
    several CPUs is the step relation at the end of the file. *)

From S2P Require Import Prelude Memory Mmu Machine.

(** ** mycpu, pushcli, popcli *)

Definition mycpu : M hart nat :=
  s ← get;
  if eflags_if s then panic "mycpu called with interrupts enabled"
  else match find_index (fun c => apicid c =? lapicid s) (cpus s) with
       | Some i => mret i
       | None => panic "unknown apicid"
       end.

(** [mycpu()->field = ...] *)
Definition upd_mycpu (f : cpu -> cpu) : M hart unit :=
  i ← mycpu; modify (fun s => set_cpus (alter f i (cpus s)) s).

(** [mycpu()->field] *)
Definition get_mycpu {A} (f : cpu -> A) : M hart A :=
  i ← mycpu;
  s ← get;
  match cpus s !! i with Some c => mret (f c) | None => fault end.

Definition pushcli : M hart unit :=
  eflags ← gets eflags_if;
  modify (set_if false);;
  n ← get_mycpu ncli;
  when (n =? 0) (upd_mycpu (set_intena eflags));;
  upd_mycpu (fun c => set_ncli (ncli c + 1) c).

Definition popcli : M hart unit :=
  eflags ← gets eflags_if;
  if (eflags : bool) then panic "popcli - interruptible" else
  upd_mycpu (fun c => set_ncli (ncli c - 1) c);;
  n ← get_mycpu ncli;
  if n <? 0 then panic "popcli" else
  e ← get_mycpu intena;
  when ((n =? 0) && e) (modify (set_if true)).

(** ** The lock operations *)

Section Locks.
Context {St : Type} `{HasHart St}.

Definition initlock (lk : lens St spinlock) : M St unit :=
  modify (update lk (Spinlock 0 None)).

Definition holding (lk : lens St spinlock) : M St bool :=
  zoom hartL pushcli;;
  l ← gets (view lk);
  i ← zoom hartL mycpu;
  zoom hartL popcli;;
  mret (negb (locked l =? 0) && bool_decide (lk_cpu l = Some i)).

(** [xchg(&lk->locked, 1)] *)
Definition xchg1 (lk : lens St spinlock) : M St Z :=
  l ← gets (view lk);
  modify (update lk (Spinlock 1 (lk_cpu l)));;
  mret (locked l).

Definition acquire (lk : lens St spinlock) : M St unit :=
  zoom hartL pushcli;;
  h ← holding lk;
  if (h : bool) then panic "acquire" else
  o ← xchg1 lk;
  if negb (o =? 0) then spin else
  i ← zoom hartL mycpu;
  modify (fun s => update lk (Spinlock (locked (view lk s)) (Some i)) s).

Definition release (lk : lens St spinlock) : M St unit :=
  h ← holding lk;
  if negb h then panic "release" else
  modify (fun s => update lk (Spinlock (locked (view lk s)) None) s);;
  modify (fun s => update lk (Spinlock 0 (lk_cpu (view lk s))) s);;
  zoom hartL popcli.
End Locks.

(** ** The executing CPU *)

(** CPU [i], with record [c], is the one that executes. *)
Definition here (h : hart) (i : nat) (c : cpu) : Prop :=
  find_index (fun c => apicid c =? lapicid h) (cpus h) = Some i /\ cpus h !! i = Some c.

(** Between kernel functions: the nesting depth is not negative, and while it
    is positive interrupts are off. *)
Definition cpu_inv (h : hart) : Prop :=
  exists i c, here h i c /\ 0 <= ncli c /\ (0 < ncli c -> eflags_if h = false).

Lemma find_index_alter {A} (g : A -> bool) (f : A -> A) i l :
  (forall x, g (f x) = g x) -> find_index g (alter f i l) = find_index g l.
Proof.
  intros Hf. revert i. induction l as [|x l IH]; intros [|i]; cbn; try done.
  - by rewrite Hf.
  - by rewrite IH.
Qed.

(** [h] with the record of CPU [i] changed by [f]. *)
Definition upd_cpu (i : nat) (f : cpu -> cpu) (h : hart) : hart :=
  set_cpus (alter f i (cpus h)) h.

Lemma here_upd h i c f :
  here h i c -> (forall c, apicid (f c) = apicid c) -> here (upd_cpu i f h) i (f c).
Proof.
  intros [Hf Hc] Ha. split; cbn.
  - rewrite find_index_alter; [done|]. intros x. by rewrite Ha.
  - by rewrite list_lookup_alter_eq, Hc.
Qed.

Lemma here_if h i c b : here h i c -> here (set_if b h) i c.
Proof. done. Qed.

Lemma mycpu_ok h i c : here h i c -> eflags_if h = false -> mycpu h = Ok i h.
Proof.
  intros [Hf Hc] Hi. unfold mycpu, mbind, M_bind, get. by rewrite Hi, Hf.
Qed.

Lemma upd_mycpu_ok h i c f :
  here h i c -> eflags_if h = false -> upd_mycpu f h = Ok tt (upd_cpu i f h).
Proof.
  intros Hh Hi. unfold upd_mycpu. rewrite (bind_ok _ _ _ _ _ (mycpu_ok _ _ _ Hh Hi)). done.
Qed.

Lemma get_mycpu_ok {A} h i c (f : cpu -> A) :
  here h i c -> eflags_if h = false -> get_mycpu f h = Ok (f c) h.
Proof.
  intros Hh Hi. unfold get_mycpu, mbind, M_bind, get.
  rewrite (mycpu_ok _ _ _ Hh Hi). by rewrite (proj2 Hh).
Qed.

(** What [pushcli] does to the record of the CPU, interrupts being [e]. *)
Definition push_cpu (e : bool) (c : cpu) : cpu :=
  let c := if ncli c =? 0 then set_intena e c else c in set_ncli (ncli c + 1) c.

Definition pushed (i : nat) (h : hart) : hart :=
  upd_cpu i (push_cpu (eflags_if h)) (set_if false h).

Lemma apicid_push e c : apicid (push_cpu e c) = apicid c.
Proof. unfold push_cpu. by destruct (ncli c =? 0). Qed.

Lemma upd_upd i f g h : upd_cpu i f (upd_cpu i g h) = upd_cpu i (f ∘ g) h.
Proof. unfold upd_cpu, set_cpus. cbn. by rewrite list_alter_alter_eq. Qed.

Lemma upd_ext i f g h c :
  cpus h !! i = Some c -> f c = g c -> upd_cpu i f h = upd_cpu i g h.
Proof.
  intros Hc Hf. unfold upd_cpu. f_equal. apply list_alter_ext; [|done]. naive_solver.
Qed.

Lemma pushcli_ok h i c : here h i c -> pushcli h = Ok tt (pushed i h).
Proof.
  intros Hh. unfold pushcli. cbn.
  assert (here (set_if false h) i c) as H1 by done.
  unfold mbind, M_bind, modify, gets. rewrite (get_mycpu_ok _ i c) by done. cbn.
  unfold pushed. destruct (Z.eqb_spec (ncli c) 0) as [E|E]; cbn.
  - rewrite (upd_mycpu_ok _ i c) by done.
    rewrite (upd_mycpu_ok _ i (set_intena (eflags_if h) c));
      [|apply (here_upd _ _ _ _ H1); done|done].
    rewrite upd_upd. f_equal. eapply upd_ext; [apply Hh|].
    unfold push_cpu. apply Z.eqb_eq in E. by rewrite E.
  - rewrite (upd_mycpu_ok _ i c) by done. f_equal. eapply upd_ext; [apply Hh|].
    unfold push_cpu. apply Z.eqb_neq in E. by rewrite E.
Qed.

Definition popped (i : nat) (c : cpu) (h : hart) : hart :=
  set_if ((ncli c =? 1) && intena c) (upd_cpu i (fun c => set_ncli (ncli c - 1) c) h).

Lemma popcli_ok h i c :
  here h i c -> eflags_if h = false -> 1 <= ncli c -> popcli h = Ok tt (popped i c h).
Proof.
  intros Hh Hi Hn. unfold popcli, mbind, M_bind, gets. rewrite Hi.
  rewrite (upd_mycpu_ok _ i c) by done.
  assert (here (upd_cpu i (fun c => set_ncli (ncli c - 1) c) h) i (set_ncli (ncli c - 1) c)) as H1
    by (apply (here_upd _ _ _ (fun c => set_ncli (ncli c - 1) c) Hh); done).
  rewrite (get_mycpu_ok _ _ _ _ H1) by done. cbn.
  destruct (Z.ltb_spec (ncli c - 1) 0) as [|_]; [lia|].
  rewrite (get_mycpu_ok _ _ _ _ H1) by done. cbn. unfold popped.
  replace (ncli c - 1 =? 0) with (ncli c =? 1)
    by (destruct (Z.eqb_spec (ncli c) 1), (Z.eqb_spec (ncli c - 1) 0); lia).
  destruct (_ && _); cbn; [done|]. unfold upd_cpu, set_cpus, set_if. cbn. by rewrite Hi.
Qed.

(** A matched [pushcli]/[popcli] pair leaves the processors as they were,
    except that at depth 0 the saved flag is the current one. *)
Definition settle (i : nat) (h : hart) : hart :=
  upd_cpu i (fun c => if ncli c =? 0 then set_intena (eflags_if h) c else c) h.

Lemma here_pushed h i c : here h i c -> here (pushed i h) i (push_cpu (eflags_if h) c).
Proof. intros Hh. apply here_upd; [done|apply apicid_push]. Qed.

Lemma ncli_push e c : ncli (push_cpu e c) = ncli c + 1.
Proof. unfold push_cpu. by destruct (ncli c =? 0). Qed.

Lemma intena_push e c : intena (push_cpu e c) = if ncli c =? 0 then e else intena c.
Proof. unfold push_cpu. by destruct (ncli c =? 0). Qed.

Lemma popped_pushed h i c :
  here h i c -> 0 <= ncli c -> (0 < ncli c -> eflags_if h = false) ->
  popped i (push_cpu (eflags_if h) c) (pushed i h) = settle i h.
Proof.
  intros Hh Hn Hi. unfold popped, pushed, settle. rewrite upd_upd, ncli_push, intena_push.
  assert (forall f, upd_cpu i f (set_if false h) = set_if false (upd_cpu i f h)) as -> by done.
  assert (forall b b' h, set_if b (set_if b' h) = set_if b h) as -> by done.
  rewrite (upd_ext i _ (fun c => if ncli c =? 0 then set_intena (eflags_if h) c else c) h c).
  - unfold upd_cpu, set_cpus, set_if. cbn. f_equal.
    destruct (Z.eqb_spec (ncli c + 1) 1), (Z.eqb_spec (ncli c) 0); cbn; try lia; [done|].
    rewrite Hi by lia. done.
  - apply Hh.
  - cbn. unfold push_cpu. destruct c as [a n e p s0 e0 io]; cbn.
    destruct (n =? 0); cbn; unfold set_ncli, set_intena; cbn; f_equal; lia.
Qed.

Lemma cpu_inv_settle h i c : here h i c -> cpu_inv h -> cpu_inv (settle i h).
Proof.
  intros Hh (i' & c' & Hh' & Hn & Hi).
  assert (i' = i /\ c' = c) as [-> ->].
  { destruct Hh as [H1 H2], Hh' as [H3 H4]. simplify_eq. done. }
  eexists i, _. split.
  - apply here_upd; [done|]. intros x. by destruct (ncli x =? 0).
  - cbn. destruct (ncli c =? 0); cbn; done.
Qed.

Lemma push_pop h i c :
  here h i c -> 0 <= ncli c -> (0 < ncli c -> eflags_if h = false) ->
  popcli (pushed i h) = Ok tt (settle i h).
Proof.
  intros Hh Hn Hi. rewrite (popcli_ok _ i (push_cpu (eflags_if h) c)).
  - by rewrite (popped_pushed h i c).
  - by apply here_pushed.
  - done.
  - rewrite ncli_push. lia.
Qed.

Lemma settle_pos h i c : here h i c -> 0 < ncli c -> settle i h = h.
Proof.
  intros Hh Hn. unfold settle. rewrite (upd_ext i _ id h c).
  - unfold upd_cpu, set_cpus. rewrite list_alter_id by done. by destruct h.
  - apply Hh.
  - destruct (Z.eqb_spec (ncli c) 0); [lia|done].
Qed.

Lemma here_settle h i c :
  here h i c -> here (settle i h) i (if ncli c =? 0 then set_intena (eflags_if h) c else c).
Proof.
  intros Hh.
  apply (here_upd _ _ _ (fun c => if ncli c =? 0 then set_intena (eflags_if h) c else c) Hh).
  intros x. by destruct (ncli x =? 0).
Qed.

Lemma pushed_settle h i c :
  here h i c -> pushed i (settle i h) = pushed i h.
Proof.
  intros Hh. unfold pushed, settle.
  assert (forall f g b h, upd_cpu i f (set_if b (upd_cpu i g h)) = upd_cpu i (f ∘ g) (set_if b h))
    as -> by (intros; unfold upd_cpu, set_if, set_cpus; cbn; by rewrite list_alter_alter_eq).
  eapply upd_ext; [apply Hh|]. cbn. unfold push_cpu.
  destruct (ncli c =? 0) eqn:E; cbn; by rewrite ?E.
Qed.

(** ** Processors up to the saved interrupt flag

    [intena] is rewritten by every outermost [pushcli], so two processor
    states that differ only there are interchangeable. *)

#[export] Instance cpu_equiv : Equiv cpu := fun c d => set_intena false c = set_intena false d.
#[export] Instance hart_equiv : Equiv hart := fun h k =>
  Forall2 (≡) (cpus h) (cpus k) /\ eflags_if h = eflags_if k /\ lapicid h = lapicid k.

#[export] Instance cpu_equivalence : Equivalence (≡@{cpu}).
Proof. unfold equiv, cpu_equiv. split; repeat intro; congruence. Qed.

#[export] Instance hart_equivalence : Equivalence (≡@{hart}).
Proof.
  unfold equiv, hart_equiv. split.
  - intros h. split_and!; done.
  - intros h k (H1 & H2 & H3). split_and!; done.
  - intros h k l (H1 & H2 & H3) (H4 & H5 & H6). split_and!; etrans; done.
Qed.

#[export] Instance apicid_proper : Proper ((≡) ==> (=)) apicid.
Proof. intros c d H. by injection H. Qed.
#[export] Instance ncli_proper : Proper ((≡) ==> (=)) ncli.
Proof. intros c d H. by injection H. Qed.
#[export] Instance cpu_proc_proper : Proper ((≡) ==> (=)) cpu_proc.
Proof. intros c d H. by injection H. Qed.

Lemma find_index_equiv (g : cpu -> bool) (l k : list cpu) :
  (forall c d, c ≡ d -> g c = g d) -> Forall2 (≡) l k -> find_index g l = find_index g k.
Proof. intros Hg. induction 1; cbn; [done|]. by rewrite (Hg x y), IHForall2. Qed.

Lemma here_equiv h k i c : h ≡ k -> here h i c -> exists d, here k i d /\ c ≡ d.
Proof.
  intros (Hc & _ & Hl) [Hf Hi]. destruct (Forall2_lookup_l _ _ _ _ _ Hc Hi) as (d & Hd & Hcd).
  exists d. split; [|done]. split; [|done]. rewrite <- Hf, <- Hl. symmetry.
  apply find_index_equiv; [|done]. intros x y E. by rewrite (apicid_proper _ _ E).
Qed.

#[export] Instance cpu_inv_proper : Proper ((≡) ==> iff) cpu_inv.
Proof.
  assert (forall h k, h ≡ k -> cpu_inv h -> cpu_inv k) as Hw.
  { intros h k Hhk (i & c & Hh & Hn & Hi). destruct (here_equiv _ _ _ _ Hhk Hh) as (d & Hd & E).
    pose proof (ncli_proper _ _ E) as En. exists i, d. rewrite <- En. split_and!; try done.
    intros. destruct Hhk as (_ & <- & _). auto. }
  intros h k H. split; apply Hw; [done|by symmetry].
Qed.

Lemma settle_equiv i h : settle i h ≡ h.
Proof.
  split_and!; [|done|done]. cbn. apply Forall2_same_length_lookup_2; [by rewrite length_alter|].
  intros j x y Hx Hy. rewrite list_lookup_alter in Hx. case_decide; [subst|by simplify_eq].
  rewrite Hy in Hx. simplify_eq/=. by destruct (ncli y =? 0).
Qed.

(** ** Lock operations on the executing CPU *)

Section LockSpecs.
Context {St : Type} `{!HasHart St, !LensOk (@hartL St _)}.
Context (lk : lens St spinlock) `{!LensUpd lk, !LensIndep lk (@hartL St _)}.
Implicit Types s : St.

#[export] Instance at_hart s h : LensAt lk s -> LensAt lk (update hartL h s).
Proof. intros H t. by rewrite update_comm, view_indep_l, view_at. Qed.

#[export] Instance at_self s t : LensAt lk s -> LensAt lk (update lk t s).
Proof. intros H t'. by rewrite update_update, view_at. Qed.

Lemma zoom_ok {T A} (l : lens St T) (m : M T A) s a t :
  m (view l s) = Ok a t -> zoom l m s = Ok a (update l t s).
Proof. unfold zoom. by intros ->. Qed.

Lemma holding_ok s i c :
  here (view hartL s) i c -> 0 <= ncli c ->
  (0 < ncli c -> eflags_if (view hartL s) = false) ->
  holding lk s =
    Ok (negb (locked (view lk s) =? 0) && bool_decide (lk_cpu (view lk s) = Some i))
       (update hartL (settle i (view hartL s)) s).
Proof.
  intros Hh Hn Hi. unfold holding.
  rewrite (bind_ok _ _ _ _ _ (zoom_ok _ _ _ _ _ (pushcli_ok _ _ _ Hh))).
  rewrite bind_gets, view_indep_l.
  erewrite (bind_ok (zoom hartL mycpu)).
  2:{ apply zoom_ok. rewrite view_update. eapply mycpu_ok; [by apply here_pushed|done]. }
  erewrite (bind_ok (zoom hartL popcli)).
  2:{ apply zoom_ok. rewrite !view_update. by eapply push_pop. }
  by rewrite !update_update.
Qed.

Lemma acquire_ok s `{!LensAt lk s} i c :
  here (view hartL s) i c -> 0 <= ncli c -> locked (view lk s) = 0 ->
  acquire lk s =
    Ok tt (update lk (Spinlock 1 (Some i)) (update hartL (pushed i (view hartL s)) s)).
Proof.
  intros Hh Hn Hl. unfold acquire.
  rewrite (bind_ok _ _ _ _ _ (zoom_ok _ _ _ _ _ (pushcli_ok _ _ _ Hh))).
  pose proof (here_pushed _ _ _ Hh) as Hp.
  set (h1 := pushed i (view hartL s)) in *. set (c1 := push_cpu _ c) in *.
  assert (0 < ncli c1) as Hc1 by (unfold c1; rewrite ncli_push; lia).
  erewrite (bind_ok (holding lk)).
  2:{ apply (holding_ok _ i c1); rewrite ?view_update; [done|lia|done]. }
  rewrite view_indep_l, Hl, view_update, (settle_pos _ _ _ Hp Hc1), update_update.
  unfold xchg1. cbn [Z.eqb negb andb]. rewrite bind_assoc, bind_gets, bind_assoc, bind_modify,
    bind_ret, view_indep_l, Hl. cbn [Z.eqb negb].
  erewrite (bind_ok (zoom hartL mycpu)).
  2:{ apply zoom_ok. rewrite view_indep_r, view_update. by eapply mycpu_ok. }
  unfold modify. rewrite view_indep_l, view_at. cbn [locked].
  by rewrite !(update_comm (l := lk) (k := hartL)), !update_update.
Qed.

Lemma release_ok s `{!LensAt lk s} i c v :
  here (view hartL s) i c -> 1 <= ncli c -> eflags_if (view hartL s) = false ->
  view lk s = Spinlock v (Some i) -> v <> 0 ->
  release lk s =
    Ok tt (update lk (Spinlock 0 None) (update hartL (popped i c (view hartL s)) s)).
Proof.
  intros Hh Hn Hi Hl Hv. unfold release.
  erewrite (bind_ok (holding lk)).
  2:{ apply (holding_ok _ i c); [done|lia|done]. }
  rewrite Hl. cbn [locked lk_cpu]. rewrite (proj2 (Z.eqb_neq v 0) Hv).
  rewrite bool_decide_eq_true_2 by done. cbn [negb andb].
  rewrite (settle_pos _ _ _ Hh), update_view by lia.
  rewrite !bind_modify, !view_at. cbn [lk_cpu].
  erewrite (zoom_ok hartL popcli).
  2:{ rewrite !view_indep_r. by eapply popcli_ok. }
  by rewrite !(update_comm (l := lk) (k := hartL)), !update_update.
Qed.

(** Acquiring a lock that this CPU holds panics instead of deadlocking. *)
Lemma acquire_held s i c v :
  here (view hartL s) i c -> 0 <= ncli c -> view lk s = Spinlock v (Some i) -> v <> 0 ->
  acquire lk s = Panic "acquire" (update hartL (pushed i (view hartL s)) s).
Proof.
  intros Hh Hn Hl Hv. unfold acquire.
  rewrite (bind_ok _ _ _ _ _ (zoom_ok _ _ _ _ _ (pushcli_ok _ _ _ Hh))).
  pose proof (here_pushed _ _ _ Hh) as Hp. set (h1 := pushed _ _) in *.
  assert (0 < ncli (push_cpu (eflags_if (view hartL s)) c)) by (rewrite ncli_push; lia).
  erewrite (bind_ok (holding lk)).
  2:{ eapply holding_ok; rewrite ?view_update; [done|lia|done]. }
  rewrite view_indep_l, Hl. cbn [locked lk_cpu]. rewrite (proj2 (Z.eqb_neq v 0) Hv).
  rewrite bool_decide_eq_true_2 by done. cbn.
  by rewrite view_update, (settle_pos _ _ _ Hp), update_update by done.
Qed.

(** Releasing a lock that this CPU does not hold panics. *)
Lemma release_not_held s i c :
  here (view hartL s) i c -> 0 <= ncli c ->
  (0 < ncli c -> eflags_if (view hartL s) = false) ->
  locked (view lk s) = 0 \/ lk_cpu (view lk s) <> Some i ->
  release lk s = Panic "release" (update hartL (settle i (view hartL s)) s).
Proof.
  intros Hh Hn Hi Hl. unfold release. erewrite (bind_ok (holding lk)).
  2:{ by eapply holding_ok. }
  destruct Hl as [Hl|Hl]; [by rewrite Hl|].
  rewrite bool_decide_eq_false_2 by done. by rewrite andb_false_r.
Qed.

(** A critical section whose body leaves the processors and the lock alone:
    the lock is free again afterwards and the interrupt state is settled. *)
Lemma acquire_release s `{!LensAt lk s} i c :
  here (view hartL s) i c -> 0 <= ncli c ->
  (0 < ncli c -> eflags_if (view hartL s) = false) -> locked (view lk s) = 0 ->
  exists s1, acquire lk s = Ok tt s1 /\
    s1 = update lk (Spinlock 1 (Some i)) (update hartL (pushed i (view hartL s)) s) /\
    forall s2, LensAt lk s2 -> view hartL s2 = view hartL s1 -> view lk s2 = view lk s1 ->
      release lk s2 =
        Ok tt (update lk (Spinlock 0 None) (update hartL (settle i (view hartL s)) s2)).
Proof.
  intros Hh Hn Hi Hl. eexists. split; [by eapply acquire_ok|]. split; [done|].
  intros s2 Hat Hh2 Hl2. rewrite view_indep_r, view_update in Hh2. rewrite view_at in Hl2.
  rewrite (release_ok s2 i (push_cpu (eflags_if (view hartL s)) c) 1); try done.
  - rewrite Hh2. by rewrite (popped_pushed _ _ c).
  - rewrite Hh2. by apply here_pushed.
  - rewrite ncli_push. lia.
  - by rewrite Hh2.
Qed.
End LockSpecs.

(** ** Critical sections *)

(** [h1] and [lk] are the processors and the lock after [acquire] in [h0]. *)
Definition held_from (h0 h1 : hart) (lk : spinlock) : Prop :=
  exists i c, here h0 i c /\ 0 <= ncli c /\ (0 < ncli c -> eflags_if h0 = false) /\
    h1 = pushed i h0 /\ lk = Spinlock 1 (Some i).

Lemma held_cpu h0 h1 lk : held_from h0 h1 lk -> cpu_inv h1.
Proof.
  intros (i & c & Hh & Hn & Hi & -> & _). eexists i, _. split; [by apply here_pushed|].
  rewrite ncli_push. split; [lia|done].
Qed.

(** Inside a critical section; [settles h h'] is what a matched pair of
    [pushcli] and [popcli] does. *)
Definition nested (h : hart) : Prop := exists i c, here h i c /\ 0 < ncli c.
Definition settles (h h' : hart) : Prop := h' ≡ h /\ (nested h -> h' = h).

Lemma held_nested h0 h1 lk : held_from h0 h1 lk -> nested h1.
Proof.
  intros (i & c & Hh & Hn & Hi & -> & _). eexists i, _. split; [by apply here_pushed|].
  rewrite ncli_push. lia.
Qed.

#[export] Instance nested_proper : Proper ((≡) ==> iff) nested.
Proof.
  assert (forall h k, h ≡ k -> nested h -> nested k) as Hw.
  { intros h k Hhk (i & c & Hh & Hn). destruct (here_equiv _ _ _ _ Hhk Hh) as (d & Hd & E).
    exists i, d. by rewrite <- (ncli_proper _ _ E). }
  intros h k H. split; apply Hw; [done|by symmetry].
Qed.

#[export] Instance settles_preorder : PreOrder settles.
Proof.
  split; [by intros h|]. intros h1 h2 h3 [H1 H2] [H3 H4]. split; [by etrans|].
  intros Hn. assert (h2 = h1) as -> by auto. auto.
Qed.

Lemma settle_settles i c h : here h i c -> 0 <= ncli c -> settles h (settle i h).
Proof.
  intros Hh Hn. split; [apply settle_equiv|]. intros (i' & c' & Hh' & Hn').
  assert (i' = i /\ c' = c) as [-> ->].
  { destruct Hh as [H1 H2], Hh' as [H3 H4]. simplify_eq. done. }
  by eapply settle_pos.
Qed.

Section Critical.
Context {St : Type} `{!HasHart St, !LensOk (@hartL St _)}.
Context (lk : lens St spinlock) `{!LensUpd lk, !LensIndep lk (@hartL St _)}.
Implicit Types s : St.

Lemma wp_acquire_at s `{!LensAt lk s} (Q : unit -> St -> Prop) :
  cpu_inv (view hartL s) -> locked (view lk s) = 0 ->
  (forall h1 l, held_from (view hartL s) h1 l -> Q tt (update lk l (update hartL h1 s))) ->
  wp (acquire lk) s Q.
Proof.
  intros (i & c & Hh & Hn & Hi) Hl HQ. eapply wp_ok; [by apply (acquire_ok lk s i c)|].
  apply HQ. by exists i, c.
Qed.

Lemma wp_release_at s `{!LensAt lk s} h0 (Q : unit -> St -> Prop) :
  held_from h0 (view hartL s) (view lk s) ->
  (forall h, settles h0 h -> Q tt (update lk (Spinlock 0 None) (update hartL h s))) ->
  wp (release lk) s Q.
Proof.
  intros (i & c & Hh & Hn & Hi & Hhw & Hlk) HQ. eapply wp_ok.
  { apply (release_ok lk s i (push_cpu (eflags_if h0) c) 1); rewrite ?Hhw; try done.
    - by apply here_pushed.
    - rewrite ncli_push. lia. }
  rewrite Hhw, (popped_pushed _ _ c) by done.
  by apply HQ, (settle_settles i c).
Qed.
End Critical.

(** ** Mutual exclusion between CPUs

    Each CPU goes through the atomic steps of [acquire] and [release] on one
    lock, interleaved with the other CPUs.  [Spinning] is the loop around
    [xchg]; [Got] is after the exchange returned 0, before [lk->cpu] is set;
    [Held] is the critical section; [Cleared] is [release] after
    [lk->cpu = 0], before the store that frees the lock. *)
Module Interleave.

Inductive phase : Type := Out | Spinning | Got | Held | Cleared.

#[export] Instance phase_eq_dec : EqDecision phase.
Proof. solve_decision. Defined.

Record config : Type := Config { lock : spinlock; phases : nat -> phase }.

Definition at_phase (f : nat -> phase) (i : nat) (p : phase) : nat -> phase :=
  fun j => if decide (i = j) then p else f j.

(** [lock->locked && lock->cpu == mycpu()], on CPU [i]. *)
Definition holds (l : spinlock) (i : nat) : bool :=
  negb (locked l =? 0) && bool_decide (lk_cpu l = Some i).

Inductive step : config -> config -> Prop :=
| step_enter l f i :
    f i = Out -> holds l i = false ->
    step (Config l f) (Config l (at_phase f i Spinning))
| step_xchg_fail l f i :
    f i = Spinning -> locked l <> 0 ->
    step (Config l f) (Config (Spinlock 1 (lk_cpu l)) f)
| step_xchg l f i :
    f i = Spinning -> locked l = 0 ->
    step (Config l f) (Config (Spinlock 1 (lk_cpu l)) (at_phase f i Got))
| step_set_cpu l f i :
    f i = Got -> step (Config l f) (Config (Spinlock (locked l) (Some i)) (at_phase f i Held))
| step_clear_cpu l f i :
    f i = Held -> holds l i = true ->
    step (Config l f) (Config (Spinlock (locked l) None) (at_phase f i Cleared))
| step_store0 l f i :
    f i = Cleared -> step (Config l f) (Config (Spinlock 0 (lk_cpu l)) (at_phase f i Out)).

Definition init : config := Config (Spinlock 0 None) (fun _ => Out).

Definition inside (p : phase) : bool :=
  match p with Got | Held | Cleared => true | _ => false end.

(** The lock word, the owner field and the phases agree. *)
Definition inv (c : config) : Prop :=
  match locked (lock c) with
  | 0 => (forall i, inside (phases c i) = false) /\ lk_cpu (lock c) = None
  | _ => exists i, inside (phases c i) = true /\
           (forall j, inside (phases c j) = true -> j = i) /\
           lk_cpu (lock c) = (if decide (phases c i = Held) then Some i else None)
  end /\ (locked (lock c) = 0 \/ locked (lock c) = 1).

Lemma at_phase_eq f i p : at_phase f i p i = p.
Proof. unfold at_phase. by case_decide. Qed.

Lemma at_phase_ne f i p j : i <> j -> at_phase f i p j = f j.
Proof. intros. unfold at_phase. by case_decide. Qed.

Lemma inv_holder c i :
  inv c -> inside (phases c i) = true ->
  locked (lock c) = 1 /\ (forall j, inside (phases c j) = true -> j = i) /\
  lk_cpu (lock c) = (if decide (phases c i = Held) then Some i else None).
Proof.
  intros [Hm [E|E]] Hi; rewrite E in Hm.
  - destruct Hm as [Hm _]. by rewrite Hm in Hi.
  - destruct Hm as (k & Hk & Hu & Hc). assert (i = k) as -> by auto. done.
Qed.

Lemma inv_of_holder l f i o :
  locked l = 1 -> lk_cpu l = o -> inside (f i) = true ->
  (forall j, inside (f j) = true -> j = i) ->
  o = (if decide (f i = Held) then Some i else None) -> inv (Config l f).
Proof.
  intros Hl Ho Hi Hu Hd. unfold inv. cbn. rewrite Hl. split; [|by right].
  exists i. by rewrite Ho.
Qed.

Lemma inv_step c c' : inv c -> step c c' -> inv c'.
Proof.
  intros Hinv Hs. destruct Hs as [l f i Hi Hh|l f i Hi Hl|l f i Hi Hl|l f i Hi|l f i Hi Hh|l f i Hi].
  - destruct Hinv as [Hm Hl]. split; [|done]. cbn in *.
    assert (forall j, inside (at_phase f i Spinning j) = inside (f j)) as Hj.
    { intros j. unfold at_phase. case_decide; [subst; by rewrite Hi|done]. }
    destruct (locked l); [split; [|apply Hm]; intros j; rewrite Hj; apply Hm| |];
      destruct Hm as (k & Hk & Hu & Hc); exists k; rewrite Hj; split_and!; try done;
      try (intros j; rewrite Hj; auto);
      (rewrite at_phase_ne; [done|]); intros ->; by rewrite Hi in Hk.
  - destruct Hinv as [Hm [E|E]]; cbn in *; [done|]. rewrite E in Hm.
    split; [done|by right].
  - destruct Hinv as [Hm _]. cbn in *. rewrite Hl in Hm. destruct Hm as [Hm Hc].
    apply (inv_of_holder _ _ i None); cbn; rewrite ?at_phase_eq; try done.
    intros j. unfold at_phase. case_decide; [congruence|]. by rewrite Hm.
  - destruct (inv_holder _ i Hinv) as (Hl & Hu & Hc); [by cbn; rewrite Hi|]. cbn in *.
    apply (inv_of_holder _ _ i (Some i)); cbn; rewrite ?at_phase_eq; try done.
    intros j. unfold at_phase. destruct (decide (i = j)); intros; [congruence|by apply Hu].
  - destruct (inv_holder _ i Hinv) as (Hl & Hu & Hc); [by cbn; rewrite Hi|]. cbn in *.
    apply (inv_of_holder _ _ i None); cbn; rewrite ?at_phase_eq; try done.
    intros j. unfold at_phase. destruct (decide (i = j)); intros; [congruence|by apply Hu].
  - destruct (inv_holder _ i Hinv) as (Hl & Hu & Hc); [by cbn; rewrite Hi|]. cbn in *.
    split; [|by left]. cbn. rewrite Hi in Hc. rewrite decide_False in Hc by done.
    split; [|done]. intros j. unfold at_phase. case_decide; [done|].
    destruct (inside (f j)) eqn:E; [|done]. apply Hu in E. congruence.
Qed.

Lemma inv_reachable c : rtc step init c -> inv c.
Proof.
  intros H. assert (inv init) as H0 by (split; [by split|by left]).
  revert H0. induction H; eauto using inv_step.
Qed.
End Interleave.

(** C27: In every interleaving of CPUs that acquire and release one spin lock, at
    most one CPU is past the exchange of [acquire] and before the releasing
    store, and [holding] is true on exactly the CPU in the critical section. *)
Theorem spinlock_mutual_exclusion c i j :
  rtc Interleave.step Interleave.init c ->
  (Interleave.inside (Interleave.phases c i) = true ->
   Interleave.inside (Interleave.phases c j) = true -> i = j) /\
  (Interleave.holds (Interleave.lock c) i = true <-> Interleave.phases c i = Interleave.Held).
Proof.
  intros H. apply Interleave.inv_reachable in H. split.
  - intros Hi Hj. destruct (Interleave.inv_holder _ j H Hj) as (_ & Hu & _). auto.
  - unfold Interleave.holds. split.
    + intros Hh. b2p. destruct H as [Hm [E|E]]; [done|]. rewrite E in Hm.
      destruct Hm as (k & Hk & Hu & Hc). rewrite Hc in *.
      destruct (decide (Interleave.phases c k = Interleave.Held)) as [Hd|]; [|done].
      apply bool_decide_eq_true in H1. by simplify_eq.
    + intros Hi. destruct (Interleave.inv_holder _ i H) as (Hl & _ & Hc); [by rewrite Hi|].
      rewrite Hl, Hc, Hi. case_decide; [|done]. by rewrite bool_decide_eq_true_2.
Qed.

Lemma spinlock_mutual_exclusion_witness :
  exists c, rtc Interleave.step Interleave.init c /\
    Interleave.phases c 1 = Interleave.Held /\
    Interleave.holds (Interleave.lock c) 1 = true /\ Interleave.holds (Interleave.lock c) 0 = false.
Proof.
  assert (exists c, rtc Interleave.step Interleave.init c /\ Interleave.phases c 1 = Interleave.Held /\
    Interleave.phases c 0 = Interleave.Out) as (c & Hr & H1 & H0).
  { eexists. split.
    - eapply rtc_l; [by apply (Interleave.step_enter _ _ 1)|].
      eapply rtc_l; [by apply (Interleave.step_xchg _ _ 1)|].
      eapply rtc_l; [by apply (Interleave.step_set_cpu _ _ 1)|]. apply rtc_refl.
    - done. }
  exists c. split; [done|]. split; [done|]. split.
  - by apply (spinlock_mutual_exclusion c 1 1 Hr).
  - apply not_true_iff_false. intros Hh. apply (spinlock_mutual_exclusion c 0 1 Hr) in Hh.
    by rewrite H0 in Hh.
Defined.
