(* ===== verification/Kalloc.v ===== *)
(** * The physical page allocator: kalloc.c

    Free pages form a linked list through their own first words; [kmem]
    keeps its head.  The allocator is verified against [PageAllocator], the
    interface the virtual-memory code relies on: a list of free pages, of
    which [kalloc] takes the head and to which [kfree] adds. *)

From S2P Require Import Prelude Memory Mmu Machine Spinlock.

(** The symbols of the linker script kernel.ld: [end] is the first address
    after the loaded kernel, [data] the page-aligned start of its data.  The
    kernel is linked at [KERNLINK] and fits into the first 4 MB. *)
Class KernelImage : Type := {
  kend : Z;
  kdata : Z;
  kernel_image : KERNLINK < kdata < kend /\ kend < KERNBASE + 0x400000;
  kdata_aligned : kdata mod PGSIZE = 0;
}.

(** The image this repository was built to (kernel.sym). *)
#[export] Instance kernel_sym : KernelImage := {|
  kend := 0x80119f48; kdata := 0x8010b000;
  kernel_image := ltac:(vm_compute; split; [split|]; reflexivity);
  kdata_aligned := eq_refl;
|}.

(** ** The interface *)

(** Addresses of pages that the allocator may manage. *)
Definition page_ok `{KernelImage} (v : Z) : Prop :=
  v mod PGSIZE = 0 /\ kend <= v /\ v < KERNBASE + PHYSTOP.

(** The physical addresses of the page at [v]. *)
Definition in_page (v a : Z) : Prop := V2P v <= a < V2P v + PGSIZE.

(** The parts of the machine that allocation leaves alone. *)
Definition same_regs (s s' : machine) : Prop :=
  hw s' ≡ hw s /\ cr3 s' = cr3 s /\ tr s' = tr s.

Class PageOps : Type := {
  kalloc : M machine (option Z);
  kfree : Z -> M machine unit;
}.

Class PageAllocator `{KernelImage, PageOps} : Type := {
  (** [free_pages s l]: the allocator can run in [s] and [l] are its free pages. *)
  free_pages : machine -> list Z -> Prop;
  free_pages_ok s l : free_pages s l -> NoDup l /\ Forall page_ok l;
  kalloc_spec s l : free_pages s l ->
    wp kalloc s (fun r s' => mem s' = mem s /\ same_regs s s' /\
      r = head l /\ free_pages s' (tail l));
  kfree_spec s l v : free_pages s l -> page_ok v -> v ∉ l ->
    wp (kfree v) s (fun _ s' => free_pages s' (v :: l) /\ same_regs s s' /\
      (forall a, ~ in_page v a -> load8 (mem s') a = load8 (mem s) a));
  (** Only the contents of the free pages belong to the allocator. *)
  free_pages_frame s l m :
    free_pages s l ->
    (forall v a, v ∈ l -> in_page v a -> load8 m a = load8 (mem s) a) ->
    free_pages (set_mem m s) l;
  (** Of the registers it depends on the interrupt nesting alone. *)
  free_pages_cpu s l : free_pages s l -> cpu_inv (hw s);
  free_pages_regs s l h p t : free_pages s l -> cpu_inv h ->
    free_pages (set_tr t (set_cr3 p (set_hw h s))) l;
}.

(** ** The implementation *)

Module Impl.
Section Impl.
Context `{KernelImage}.

Definition kfree (v : Z) : M machine unit :=
  if negb (v mod PGSIZE =? 0) || (v <? kend) || (PHYSTOP <=? V2P v) then panic "kfree" else
  kmemset v 1 PGSIZE;;
  ul ← gets use_lock;
  when ul (acquire kmem_lockL);;
  fl ← gets freelist;
  kstore32 v fl;;
  modify (set_freelist v);;
  ul ← gets use_lock;
  when ul (release kmem_lockL).

Definition kalloc : M machine (option Z) :=
  ul ← gets use_lock;
  when ul (acquire kmem_lockL);;
  r ← gets freelist;
  when (negb (r =? 0)) (n ← kload32 r; modify (set_freelist n));;
  ul ← gets use_lock;
  when ul (release kmem_lockL);;
  mret (if r =? 0 then None else Some r).

Fixpoint freerange_loop (p : Z) (n : nat) : M machine unit :=
  match n with
  | O => mret tt
  | S n => kfree p;; freerange_loop (p + PGSIZE) n
  end.

(** The loop runs while [p + PGSIZE <= vend]. *)
Definition freerange (vstart vend : Z) : M machine unit :=
  let p := PGROUNDUP vstart in
  freerange_loop p (Z.to_nat ((vend - p) / PGSIZE)).

Definition kinit1 (vstart vend : Z) : M machine unit :=
  initlock kmem_lockL;;
  modify (set_use_lock false);;
  freerange vstart vend.

Definition kinit2 (vstart vend : Z) : M machine unit :=
  freerange vstart vend;;
  modify (set_use_lock true).

(** ** Representation of the free list *)

Fixpoint chain (m : memory) (p : Z) (l : list Z) : Prop :=
  match l with
  | [] => p = 0
  | q :: l => p = q /\ chain m (load32 m (V2P q)) l
  end.

Record free_inv (s : machine) (l : list Z) : Prop := {
  fi_chain : chain (mem s) (freelist s) l;
  fi_nodup : NoDup l;
  fi_pages : Forall page_ok l;
  fi_cpu : cpu_inv (hw s);
  fi_lock : locked (kmem_lock s) = 0;
}.

Lemma chain_frame m m' p l :
  (forall v a, v ∈ l -> in_page v a -> load8 m' a = load8 m a) ->
  chain m p l -> chain m' p l.
Proof.
  revert p. induction l as [|q l IH]; intros p Hf; [done|]. cbn. intros [-> Hc].
  split; [done|]. erewrite load32_ext; [apply IH; [|done]|].
  - intros v a Hv. apply Hf. set_solver.
  - intros b Hb. apply (Hf q); [by left|]. unfold in_page. consts. lia.
Qed.

Lemma page_ok_pos v : page_ok v -> 0 < v.
Proof. unfold page_ok. pose proof kernel_image. consts. lia. Qed.

Lemma page_ok_V2P v : page_ok v -> V2P v = v - KERNBASE /\ V2P v mod 4096 = 0.
Proof. unfold page_ok. pose proof kernel_image. consts. intros. dlia. Qed.

(** Distinct pages do not overlap. *)
Lemma in_page_disj v w a : page_ok v -> page_ok w -> in_page v a -> in_page w a -> v = w.
Proof.
  intros Hv Hw. destruct (page_ok_V2P v Hv), (page_ok_V2P w Hw). unfold in_page. consts. dlia.
Qed.

(** The lock around a critical section of the allocator. *)
Lemma wp_kmem_acquire s l (Q : unit -> machine -> Prop) :
  free_inv s l ->
  (forall s1, mem s1 = mem s -> freelist s1 = freelist s -> use_lock s1 = use_lock s ->
    cr3 s1 = cr3 s -> tr s1 = tr s ->
    (forall s2, hw s2 = hw s1 -> kmem_lock s2 = kmem_lock s1 -> use_lock s2 = use_lock s1 ->
      wp (when (use_lock s2) (release kmem_lockL)) s2 (fun _ s3 =>
        mem s3 = mem s2 /\ freelist s3 = freelist s2 /\ hw s3 ≡ hw s /\
        cr3 s3 = cr3 s2 /\ tr s3 = tr s2 /\ locked (kmem_lock s3) = 0)) ->
    Q tt s1) ->
  wp (when (use_lock s) (acquire kmem_lockL)) s Q.
Proof.
  intros [_ _ _ (i & c & Hh & Hn & Hi) Hl] HQ. destruct (use_lock s) eqn:E; cbn.
  - destruct (acquire_release kmem_lockL s i c) as (s1 & Ha & -> & Hr); try done.
    eapply wp_ok; [done|]. apply HQ; try done. intros s2 H2 H3 H4.
    assert (use_lock s2 = true) as -> by (rewrite H4; done).
    eapply wp_ok; [by apply Hr|]. cbn. split_and!; try done. apply settle_equiv.
  - apply HQ; try done. intros s2 H2 H3 H4. rewrite H4, E. cbn.
    split_and!; rewrite ?H2, ?H3; done.
Qed.

Lemma kalloc_free_inv s l :
  free_inv s l ->
  wp kalloc s (fun r s' => mem s' = mem s /\ same_regs s s' /\
    r = head l /\ free_inv s' (tail l)).
Proof.
  intros Hf. unfold kalloc. wsteps. apply (wp_kmem_acquire s l); [done|].
  intros s1 Hm Hfl Hu Hc Ht Hrel. wsteps. destruct Hf as [Hch Hnd Hpg Hcpu Hlk].
  set (s2 := if freelist s1 =? 0 then s1 else set_freelist (load32 (mem s1) (V2P (freelist s1))) s1).
  assert (wp (when (negb (freelist s1 =? 0)) (n ← kload32 (freelist s1); modify (set_freelist n)))
            s1 (fun _ s => s = s2)) as Hw by (unfold s2; by destruct (freelist s1 =? 0)).
  eapply wp_mono; [apply Hw|]. intros _ ? ->. wsteps.
  eapply wp_mono; [apply Hrel; unfold s2; by destruct (freelist s1 =? 0)|].
  intros _ s3 (Hm3 & Hf3 & Hh3 & Hc3 & Ht3 & Hl3). wsteps.
  assert (mem s2 = mem s1 /\ cr3 s2 = cr3 s1 /\ tr s2 = tr s1) as (E1 & E2 & E3)
    by (unfold s2; by destruct (freelist s1 =? 0)).
  rewrite <- Hfl in Hch. split_and!; [congruence|split_and!; [done|congruence|congruence]| |].
  - destruct l as [|q l]; cbn in Hch; [by rewrite Hch|]. destruct Hch as [-> _].
    inversion Hpg; subst. pose proof (page_ok_pos q ltac:(done)). destruct (Z.eqb_spec q 0); [lia|done].
  - destruct l as [|q l]; cbn in Hch |- *.
    + split; cbn; try done; [|by rewrite Hh3]. rewrite Hf3. unfold s2. by rewrite Hch.
    + destruct Hch as [Hq Hch]. inversion Hpg; subst. inversion Hnd; subst.
      pose proof (page_ok_pos (freelist s1) ltac:(done)). split; try done; [|by rewrite Hh3].
      rewrite Hf3, Hm3, E1, Hm. unfold s2. destruct (Z.eqb_spec (freelist s1) 0); [lia|].
      cbn. by rewrite Hm.
Qed.

Lemma kfree_free_inv s l v :
  free_inv s l -> page_ok v -> v ∉ l ->
  wp (kfree v) s (fun _ s' => free_inv s' (v :: l) /\ same_regs s s' /\
    (forall a, ~ in_page v a -> load8 (mem s') a = load8 (mem s) a) /\
    (forall a, V2P v + 4 <= a < V2P v + PGSIZE -> load8 (mem s') a = 1)).
Proof.
  intros Hf Hv Hl. unfold kfree. destruct (page_ok_V2P v Hv) as [Hv1 Hv2].
  assert (negb (v mod PGSIZE =? 0) || (v <? kend) || (PHYSTOP <=? V2P v) = false) as ->.
  { destruct Hv as (H1 & H2 & H3). rewrite H1. pose proof kernel_image.
    rewrite !orb_false_iff. split_and!; [done|apply Z.ltb_ge; done|apply Z.leb_gt; consts; lia]. }
  assert (forall w a, w ∈ l -> in_page w a -> ~ in_page v a) as Hdisj.
  { intros w a Hw Ha Ha'. apply Hl. destruct Hf as [_ _ Hpg _ _].
    rewrite Forall_forall in Hpg. by rewrite (in_page_disj v w a) by auto. }
  wstep. unfold kmemset. wstep.
  set (s0 := set_mem (memset (mem s) (V2P v) 1 PGSIZE) s).
  assert (free_inv s0 l) as Hf0.
  { destruct Hf as [Hch Hnd Hpg Hcpu Hlk]. split; try done. eapply chain_frame; [|done].
    intros w a Hw Ha. cbn. rewrite load8_memset by (consts; lia). case_decide; [|done].
    by destruct (Hdisj w a). }
  wsteps. change (use_lock s0) with (use_lock s). change (use_lock s) with (use_lock s0).
  apply (wp_kmem_acquire s0 l); [done|]. intros s1 Hm Hfl Hu Hc Ht Hrel. wsteps.
  unfold kstore32. wsteps. eapply wp_mono; [apply Hrel; done|].
  intros _ s3 (Hm3 & Hf3 & Hh3 & Hc3 & Ht3 & Hl3). cbn in *.
  rewrite Hm3, Hm, Hfl. cbn. destruct Hf as [Hch Hnd Hpg Hcpu Hlk].
  split_and!; [|split_and!; [done|congruence|congruence]| |].
  - split; try done; [|by constructor|by constructor|by rewrite Hh3].
    rewrite Hf3, Hm3, Hm. cbn. split; [done|]. rewrite load32_store32_eq.
    rewrite Hfl. cbn. replace (u32 (freelist s)) with (freelist s).
    + eapply chain_frame; [|done]. intros w a Hw Ha. pose proof (Hdisj w a Hw Ha) as Hn.
      unfold in_page in Hn. rewrite load8_store32_ne by (consts; lia).
      rewrite load8_memset by (consts; lia). case_decide; [|done]. consts; lia.
    + symmetry. apply u32_small. destruct l as [|q l]; cbn in Hch; [by rewrite Hch; consts|].
      destruct Hch as [-> _]. inversion Hpg as [|? ? Hq]; subst.
      pose proof (page_ok_pos q Hq). destruct Hq as (_ & _ & Hq). consts; lia.
  - intros a Ha. unfold in_page in Ha. rewrite load8_store32_ne by (consts; lia).
    rewrite load8_memset by (consts; lia). case_decide; [|done]. consts; lia.
  - intros a Ha. rewrite load8_store32_ne by lia. rewrite load8_memset by (consts; lia).
    case_decide; [done|]. lia.
Qed.

(** The [n] pages from [p] on, in the order the loop of [freerange] leaves
    them on the list: the last page first. *)
Fixpoint pages_from (p : Z) (n : nat) (l : list Z) : list Z :=
  match n with
  | O => l
  | S n => pages_from (p + PGSIZE) n (p :: l)
  end.

Lemma elem_of_pages_from p n l v :
  v ∈ pages_from p n l <-> v ∈ l \/ exists k, 0 <= k < Z.of_nat n /\ v = p + k * PGSIZE.
Proof.
  revert p l. induction n as [|n IH]; intros p l; cbn [pages_from].
  - split; [by left|]. intros [?|(k & ? & _)]; [done|lia].
  - rewrite IH, elem_of_cons. split.
    + intros [[->|?]|(k & Hk & ->)]; [right; exists 0; lia|by left|right; exists (k + 1); lia].
    + intros [?|(k & Hk & ->)]; [by left; right|].
      destruct (decide (k = 0)) as [->|]; [left; left; lia|right; exists (k - 1); lia].
Qed.

Lemma freerange_loop_free_inv p n s l :
  free_inv s l ->
  (forall k, 0 <= k < Z.of_nat n -> page_ok (p + k * PGSIZE) /\ p + k * PGSIZE ∉ l) ->
  wp (freerange_loop p n) s (fun _ s' => free_inv s' (pages_from p n l) /\ same_regs s s').
Proof.
  revert p s l. induction n as [|n IH]; intros p s l Hf Hk; cbn [freerange_loop pages_from].
  { wstep. split; [done|]. split_and!; done. }
  destruct (Hk 0) as [Hp Hl]; [lia|]. rewrite Z.mul_0_l, Z.add_0_r in *. wstep.
  eapply wp_mono; [by apply kfree_free_inv|]. intros _ s' (Hf' & Hr & _).
  eapply wp_mono; [apply IH; [done|]|].
  - intros k Hkn. destruct (Hk (k + 1)) as [Hp' Hl']; [lia|].
    replace (p + PGSIZE + k * PGSIZE) with (p + (k + 1) * PGSIZE) by lia. split; [done|].
    rewrite not_elem_of_cons. split; [consts; lia|done].
  - intros _ s2 [Hf2 (R1 & R2 & R3)]. split; [done|]. destruct Hr as (Q1 & Q2 & Q3).
    split_and!; [by etrans|congruence|congruence].
Qed.

(** [freerange] adds the whole pages of the range to the free list. *)
Lemma freerange_free_inv vstart vend s l :
  free_inv s l -> kend <= vstart <= vend -> vend <= KERNBASE + PHYSTOP ->
  (forall v, v ∈ l -> v < vstart) ->
  wp (freerange vstart vend) s (fun _ s' => same_regs s s' /\ exists l', free_inv s' l' /\
    forall v, v ∈ l' <-> v ∈ l \/ (v mod PGSIZE = 0 /\ vstart <= v /\ v + PGSIZE <= vend)).
Proof.
  intros Hf Hs He Hl. pose proof kernel_image as HK. unfold freerange.
  assert (PGROUNDUP vstart = (vstart + 4095) - (vstart + 4095) mod 4096) as ->
    by (apply PGROUNDUP_eq; consts; lia).
  set (p := vstart + 4095 - (vstart + 4095) mod 4096).
  assert (vstart <= p < vstart + 4096 /\ p mod 4096 = 0) as [Hp1 Hp2] by (unfold p; dlia).
  assert (forall k, 0 <= k < Z.of_nat (Z.to_nat ((vend - p) / PGSIZE)) <->
                    0 <= k /\ p + (k + 1) * PGSIZE <= vend) as Hk.
  { intros k. consts. destruct (Z.le_gt_cases p vend).
    - rewrite Z2Nat.id by dlia. split; intros; split; dlia.
    - replace ((vend - p) / 4096) with (-1) by dlia. cbn. lia. }
  eapply wp_mono.
  { apply freerange_loop_free_inv; [done|]. intros k Hin. apply Hk in Hin as [Hk0 Hk1]. split.
    - unfold page_ok. consts. split_and!; dlia.
    - intros Hin. apply Hl in Hin. consts. lia. }
  intros _ s' [Hf' Hr]. split; [done|]. eexists. split; [done|]. intros v.
  rewrite elem_of_pages_from. f_equiv. split.
  - intros (k & Hin & ->). apply Hk in Hin. consts. split_and!; dlia.
  - intros (H1 & H2 & H3). exists ((v - p) / PGSIZE). rewrite Hk. consts. split_and!; dlia.
Qed.
End Impl.
End Impl.

(** kalloc.c implements the interface. *)
#[export] Instance page_ops `{KernelImage} : PageOps := {| Kalloc.kalloc := Impl.kalloc; Kalloc.kfree := Impl.kfree |}.

#[export] Program Instance page_allocator `{KernelImage} : PageAllocator :=
  {| free_pages := Impl.free_inv |}.
Next Obligation. intros KI s l [? ? ? ? ?]. done. Qed.
Next Obligation. intros KI s l Hf. by apply Impl.kalloc_free_inv. Qed.
Next Obligation.
  intros KI s l v Hf Hv Hl. eapply wp_mono; [by apply Impl.kfree_free_inv|].
  intros ? ? (? & ? & ? & ?). done.
Qed.
Next Obligation.
  intros KI s l m [Hc Hn Hp Hcpu Hk] Hm. split; try done. by eapply Impl.chain_frame.
Qed.
Next Obligation. intros KI s l [Hc Hn Hp Hcpu Hk]. done. Qed.
Next Obligation. intros KI s l h p t [Hc Hn Hp Hcpu Hk] Hh. by split. Qed.

(** ** Properties *)

(** [kfree] panics on every address that is not a page of the
    allocator's range: unaligned, below the end of the kernel, or beyond
    physical memory. *)
Theorem kfree_rejects `{KernelImage} (v : Z) (s : machine) :
  is_u32 v -> ~ page_ok v -> Impl.kfree v s = Panic "kfree" s.
Proof.
  intros Hu Hv. unfold Impl.kfree.
  destruct (negb (v mod PGSIZE =? 0) || (v <? kend) || (PHYSTOP <=? V2P v)) eqn:E; [done|].
  destruct Hv. rewrite !orb_false_iff in E. destruct E as [[E1 E2] E3]. b2p.
  pose proof kernel_image. split_and!; [done|done|]. consts. dlia.
Qed.

(** A page that is freed is the next one [kalloc] returns, and the other
    free pages stay free. *)
Theorem kfree_kalloc `{KernelImage} (s : machine) (l : list Z) (v : Z) :
  Impl.free_inv s l -> page_ok v -> v ∉ l ->
  wp (Impl.kfree v;; Impl.kalloc) s (fun r s' => r = Some v /\ Impl.free_inv s' l).
Proof.
  intros Hf Hv Hl. wstep. eapply wp_mono; [by apply Impl.kfree_free_inv|].
  intros _ s1 (Hf1 & _). eapply wp_mono; [by apply Impl.kalloc_free_inv|].
  intros r s2 (_ & _ & Hr & Hf2). done.
Qed.

(** The two initialisation phases of [main] put exactly the whole pages
    between the end of the kernel and the top of physical memory on the free
    list, each once. *)
Theorem kinit_all_pages `{KernelImage} (s : machine) :
  cpu_inv (hw s) -> freelist s = 0 ->
  wp (Impl.kinit1 kend (P2V 0x400000);; Impl.kinit2 (P2V 0x400000) (P2V PHYSTOP)) s
    (fun _ s' => use_lock s' = true /\
       exists l, Impl.free_inv s' l /\ forall v, v ∈ l <-> page_ok v).
Proof.
  intros Hc Hfl. pose proof kernel_image as HK. unfold Impl.kinit1, Impl.kinit2.
  assert (P2V 0x400000 = 0x80400000) as -> by reflexivity.
  assert (P2V PHYSTOP = 0x8E000000) as -> by reflexivity.
  wstep. wstep. unfold initlock. wsteps. cbn [update kmem_lockL].
  eapply wp_mono.
  { apply (Impl.freerange_free_inv _ _ _ []); [|consts; lia|consts; lia|set_solver].
    split; try done; constructor. }
  intros _ s1 (_ & l1 & Hf1 & Hl1). wstep. eapply wp_mono.
  { apply (Impl.freerange_free_inv _ _ _ l1); [done|consts; lia|consts; lia|].
    intros v Hv. apply Hl1 in Hv as [Hv|Hv]; [set_solver|]. consts. lia. }
  intros _ s2 (_ & l2 & Hf2 & Hl2). wstep. split; [done|]. exists l2. split.
  { destruct Hf2. by split. }
  intros v. rewrite Hl2, Hl1. unfold page_ok. consts. split.
  - intros [[Hin|Hv]|Hv]; [set_solver|lia|lia].
  - intros Hv. destruct (Z.lt_ge_cases v 0x80400000); [left; right|right]; split_and!; dlia.
Qed.

(** ** Instances *)

(** The boot CPU, with an empty free list. *)
Definition boot_state : machine :=
  Machine ∅ (Spinlock 0 None) false 0 (Hart [Cpu 0 0 false None 0 0 0] false 0) 0 0.

Lemma boot_cpu : cpu_inv (hw boot_state).
Proof. exists 0%nat, (Cpu 0 0 false None 0 0 0). split; [by split|]. cbn. lia. Qed.

Lemma kfree_rejects_witness : Impl.kfree 0x80200001 boot_state = Panic "kfree" boot_state.
Proof. apply (kfree_rejects 0x80200001 boot_state); [closed|]. intros (H & _). by vm_compute in H. Defined.

Lemma kfree_kalloc_witness :
  wp (Impl.kfree 0x80200000;; Impl.kalloc) boot_state
    (fun r s' => r = Some 0x80200000 /\ Impl.free_inv s' []).
Proof.
  apply (kfree_kalloc boot_state [] 0x80200000).
  - split; [done|constructor|constructor|apply boot_cpu|done].
  - closed.
  - apply not_elem_of_nil.
Defined.

Lemma kinit_all_pages_witness :
  wp (Impl.kinit1 kend (P2V 0x400000);; Impl.kinit2 (P2V 0x400000) (P2V PHYSTOP)) boot_state
    (fun _ s' => use_lock s' = true /\
       exists l, Impl.free_inv s' l /\ forall v, v ∈ l <-> page_ok v).
Proof. apply (kinit_all_pages boot_state); [apply boot_cpu|done]. Defined.
