(* ===== verification/Vm.v ===== *)
(** * Virtual memory: the page-table code of vm.c

    Two-level page tables that live in physical memory.  The functions of
    vm.c are translated over the machine; the page allocator is the
    interface [PageOps] of Kalloc.v.  Pointers that may be null are options.
    A loop whose bound the code computes from its arguments runs on that
    bound; [Spin] marks the loops of the C code that would wrap around the
    address space. *)

From S2P Require Import Prelude Memory Mmu Machine Spinlock Kalloc.

Section Vm.
Context `{KI : KernelImage, PO : PageOps}.

(** [walkpgdir]: the kernel address of the entry for [va]. *)
Definition walkpgdir (pgdir va : Z) (alloc : bool) : M machine (option Z) :=
  let pde := pgdir + 4 * PDX va in
  w ← kload32 pde;
  if flag w PTE_P then mret (Some (P2V (PTE_ADDR w) + 4 * PTX va)) else
  if negb alloc then mret None else
  o ← kalloc;
  match o with
  | None => mret None
  | Some pgtab =>
      kmemset pgtab 0 PGSIZE;;
      kstore32 pde (Z.lor (Z.lor (Z.lor (V2P pgtab) PTE_P) PTE_W) PTE_U);;
      mret (Some (pgtab + 4 * PTX va))
  end.

Fixpoint mappages_loop (pgdir a last pa perm : Z) (n : nat) : M machine Z :=
  match n with
  | O => spin
  | S n =>
      o ← walkpgdir pgdir a true;
      match o with
      | None => mret (-1)
      | Some pte =>
          w ← kload32 pte;
          if flag w (Z.lor PTE_P PTE_E) then panic "p4Debug, remapping page" else
          kstore32 pte (if flag perm PTE_E then Z.lor (Z.lor pa perm) PTE_E
                        else Z.lor (Z.lor pa perm) PTE_P);;
          if a =? last then mret 0
          else mappages_loop pgdir (u32 (a + PGSIZE)) last (u32 (pa + PGSIZE)) perm n
      end
  end.

(** The number of iterations is the distance from [a] to [last] in pages,
    modulo the address space, plus one. *)
Definition mappages (pgdir va size pa perm : Z) : M machine Z :=
  let a := PGROUNDDOWN va in
  let last := PGROUNDDOWN (u32 (va + size - 1)) in
  mappages_loop pgdir a last pa perm (S (Z.to_nat (u32 (last - a) / PGSIZE))).

Fixpoint deallocuvm_loop (pgdir a oldsz : Z) (n : nat) : M machine unit :=
  match n with
  | O => if a <? oldsz then spin else mret tt
  | S n =>
      if negb (a <? oldsz) then mret tt else
      o ← walkpgdir pgdir a false;
      match o with
      | None =>
          deallocuvm_loop pgdir
            (u32 (u32 (PGADDR (PDX a + 1) 0 0 - PGSIZE) + PGSIZE)) oldsz n
      | Some pte =>
          w ← kload32 pte;
          when (flag w (Z.lor PTE_P PTE_E))
            (let pa := PTE_ADDR w in
             if pa =? 0 then panic "kfree" else
             kfree (P2V pa);;
             kstore32 pte 0);;
          deallocuvm_loop pgdir (u32 (a + PGSIZE)) oldsz n
      end
  end.

Definition deallocuvm (pgdir oldsz newsz : Z) : M machine Z :=
  if oldsz <=? newsz then mret oldsz else
  let a := PGROUNDUP newsz in
  deallocuvm_loop pgdir a oldsz (Z.to_nat ((oldsz - a + (PGSIZE - 1)) / PGSIZE));;
  mret newsz.

Fixpoint freevm_loop (pgdir i : Z) (n : nat) : M machine unit :=
  match n with
  | O => mret tt
  | S n =>
      w ← kload32 (pgdir + 4 * i);
      when (flag w (Z.lor PTE_P PTE_E)) (kfree (P2V (PTE_ADDR w)));;
      freevm_loop pgdir (i + 1) n
  end.

Definition freevm (pgdir : Z) : M machine unit :=
  if pgdir =? 0 then panic "freevm: no pgdir" else
  deallocuvm pgdir KERNBASE 0;;
  freevm_loop pgdir 0 1024;;
  kfree pgdir.

(** The table [kmap]: virtual start, physical start and end, permissions. *)
Record kmap_entry : Type := KMap { km_virt : Z; km_start : Z; km_end : Z; km_perm : Z }.

Definition kmap : list kmap_entry := [
  KMap KERNBASE 0 EXTMEM PTE_W;
  KMap KERNLINK (V2P KERNLINK) (V2P kdata) 0;
  KMap kdata (V2P kdata) PHYSTOP PTE_W;
  KMap DEVSPACE DEVSPACE 0 PTE_W
].

Fixpoint setupkvm_loop (pgdir : Z) (ks : list kmap_entry) : M machine (option Z) :=
  match ks with
  | [] => mret (Some pgdir)
  | k :: ks =>
      r ← mappages pgdir (km_virt k) (u32 (km_end k - km_start k)) (km_start k) (km_perm k);
      if r <? 0 then freevm pgdir;; mret None else setupkvm_loop pgdir ks
  end.

Definition setupkvm : M machine (option Z) :=
  o ← kalloc;
  match o with
  | None => mret None
  | Some pgdir =>
      kmemset pgdir 0 PGSIZE;;
      if DEVSPACE <? P2V PHYSTOP then panic "PHYSTOP too high" else
      setupkvm_loop pgdir kmap
  end.

Definition switchkvm (kpgdir : Z) : M machine unit := modify (set_cr3 (V2P kpgdir)).

Definition kvmalloc : M machine (option Z) :=
  o ← setupkvm;
  match o with
  | None => switchkvm 0;; mret None
  | Some kpgdir => switchkvm kpgdir;; mret (Some kpgdir)
  end.

(** [switchuvm] on the kernel stack and page table of the process; the
    segment descriptor of the task state segment is not modelled. *)
Definition switchuvm (kstack pgdir : Z) : M machine unit :=
  if kstack =? 0 then panic "switchuvm: no kstack" else
  if pgdir =? 0 then panic "switchuvm: no pgdir" else
  zoom hartL pushcli;;
  zoom hartL (upd_mycpu (set_ts (SEG_KDATA * 8) (u32 (kstack + KSTACKSIZE)) 0xFFFF));;
  modify (set_tr 40);;
  modify (set_cr3 (V2P pgdir));;
  zoom hartL popcli.

Definition inituvm (pgdir init sz : Z) : M machine unit :=
  if PGSIZE <=? sz then panic "inituvm: more than a page" else
  o ← kalloc;
  m ← nonnull o;
  kmemset m 0 PGSIZE;;
  _ ← mappages pgdir 0 PGSIZE (V2P m) (Z.lor PTE_W PTE_U);
  kmemmove m init sz.

Fixpoint allocuvm_loop (pgdir a oldsz newsz : Z) (n : nat) : M machine Z :=
  match n with
  | O => if a <? newsz then spin else mret newsz
  | S n =>
      if negb (a <? newsz) then mret newsz else
      o ← kalloc;
      match o with
      | None => deallocuvm pgdir newsz oldsz;; mret 0
      | Some m =>
          kmemset m 0 PGSIZE;;
          r ← mappages pgdir a PGSIZE (V2P m) (Z.lor PTE_W PTE_U);
          if r <? 0 then deallocuvm pgdir newsz oldsz;; kfree m;; mret 0
          else allocuvm_loop pgdir (u32 (a + PGSIZE)) oldsz newsz n
      end
  end.

Definition allocuvm (pgdir oldsz newsz : Z) : M machine Z :=
  if KERNBASE <=? newsz then mret 0 else
  if newsz <? oldsz then mret oldsz else
  let a := PGROUNDUP oldsz in
  allocuvm_loop pgdir a oldsz newsz (Z.to_nat ((newsz - a + (PGSIZE - 1)) / PGSIZE)).

Definition clearpteu (pgdir uva : Z) : M machine unit :=
  o ← walkpgdir pgdir uva false;
  match o with
  | None => panic "clearpteu"
  | Some pte => w ← kload32 pte; kstore32 pte (Z.ldiff w PTE_U)
  end.

Fixpoint copyuvm_loop (pgdir d i sz : Z) (n : nat) : M machine (option Z) :=
  match n with
  | O => if i <? sz then spin else mret (Some d)
  | S n =>
      if negb (i <? sz) then mret (Some d) else
      o ← walkpgdir pgdir i false;
      match o with
      | None => panic "p4Debug: inside copyuvm, pte should exist"
      | Some pte =>
          w ← kload32 pte;
          if negb (flag w (Z.lor PTE_P PTE_E)) then
            panic "p4Debug: inside copyuvm, page not present" else
          let pa := PTE_ADDR w in
          let flags := PTE_FLAGS w in
          o ← kalloc;
          match o with
          | None => freevm d;; mret None
          | Some m =>
              kmemmove m (P2V pa) PGSIZE;;
              r ← mappages d i PGSIZE (V2P m) flags;
              if r <? 0 then kfree m;; freevm d;; mret None
              else copyuvm_loop pgdir d (u32 (i + PGSIZE)) sz n
          end
      end
  end.

Definition copyuvm (pgdir sz : Z) : M machine (option Z) :=
  o ← setupkvm;
  match o with
  | None => mret None
  | Some d => copyuvm_loop pgdir d 0 sz (Z.to_nat ((sz + (PGSIZE - 1)) / PGSIZE))
  end.

(** [uva2ka] loads through the result of [walkpgdir] without testing it. *)
Definition uva2ka (pgdir uva : Z) : M machine (option Z) :=
  o ← walkpgdir pgdir uva false;
  pte ← nonnull o;
  w ← kload32 pte;
  mret (if negb (flag w PTE_P || flag w PTE_E) then None
        else if negb (flag w PTE_U) then None
        else Some (P2V (PTE_ADDR w))).

Fixpoint copyout_loop (pgdir va buf len : Z) (n : nat) : M machine Z :=
  match n with
  | O => if len <=? 0 then mret 0 else spin
  | S n =>
      if len <=? 0 then mret 0 else
      let va0 := PGROUNDDOWN va in
      o ← uva2ka pgdir va0;
      match o with
      | None => mret (-1)
      | Some pa0 =>
          let k := if len <? PGSIZE - (va - va0) then len else PGSIZE - (va - va0) in
          cmemmove (pa0 + (va - va0)) buf k;;
          copyout_loop pgdir (u32 (va0 + PGSIZE)) (buf + k) (len - k) n
      end
  end.

(** At most [len / PGSIZE + 2] pages are touched. *)
Definition copyout (pgdir va p len : Z) : M machine Z :=
  copyout_loop pgdir va p len (Z.to_nat (len / PGSIZE + 2)).
End Vm.
