(* ===== verification/PageTable.v ===== *)
(** * Page tables in memory

    The abstract view of a page table: a function from virtual page numbers
    to entries, read off physical memory.  A table is well formed when its
    directory and its second-level pages are distinct pages; the lemmas
    say how stores to memory change the view, and that stores elsewhere do
    not. *)

From S2P Require Import Prelude Memory Mmu Machine Kalloc.

(** ** The view *)

Definition pde_at (m : memory) (pgdir d : Z) : Z := load32 m (V2P pgdir + 4 * d).

Definition pde_present (m : memory) (pgdir d : Z) : bool := flag (pde_at m pgdir d) PTE_P.

(** The physical address of the entry for page [vpn]. *)
Definition pte_addr (m : memory) (pgdir vpn : Z) : Z :=
  PTE_ADDR (pde_at m pgdir (vpn / 1024)) + 4 * (vpn mod 1024).

(** The entry for page [vpn]; 0 where there is no second-level page. *)
Definition pte_at (m : memory) (pgdir vpn : Z) : Z :=
  if pde_present m pgdir (vpn / 1024) then load32 m (pte_addr m pgdir vpn) else 0.

(** The pages that the table itself occupies. *)
Definition tpage (m : memory) (pgdir v : Z) : Prop :=
  v = pgdir \/ exists d, 0 <= d < 1024 /\ pde_present m pgdir d = true /\
                         v = P2V (PTE_ADDR (pde_at m pgdir d)).

Definition vpn_ok (vpn : Z) : Prop := 0 <= vpn < 1048576.

Section PageTable.
Context `{KI : KernelImage}.

Record pgdir_wf (m : memory) (pgdir : Z) : Prop := {
  pw_dir : page_ok pgdir;
  pw_tab d : 0 <= d < 1024 -> pde_present m pgdir d = true ->
    page_ok (P2V (PTE_ADDR (pde_at m pgdir d))) /\ P2V (PTE_ADDR (pde_at m pgdir d)) <> pgdir;
  pw_inj d e : 0 <= d < 1024 -> 0 <= e < 1024 ->
    pde_present m pgdir d = true -> pde_present m pgdir e = true ->
    PTE_ADDR (pde_at m pgdir d) = PTE_ADDR (pde_at m pgdir e) -> d = e;
  pw_empty d : 0 <= d < 1024 -> pde_present m pgdir d = false -> pde_at m pgdir d = 0;
  pw_write d : 0 <= d < 1024 -> pde_present m pgdir d = true ->
    flag (pde_at m pgdir d) PTE_W = true;
}.

(** ** Address arithmetic of pages *)

Lemma V2P_P2V_u32 a : is_u32 a -> V2P (P2V a) = a.
Proof. consts. dlia. Qed.

Lemma PTE_ADDR_u32 w : is_u32 w -> is_u32 (PTE_ADDR w).
Proof. rewrite PTE_ADDR_eq. consts. dlia. Qed.

Lemma PTE_ADDR_aligned w : PTE_ADDR w mod 4096 = 0.
Proof. rewrite PTE_ADDR_eq. dlia. Qed.

Lemma page_ok_u32 v : page_ok v -> is_u32 v.
Proof. pose proof kernel_image. unfold page_ok. consts. lia. Qed.

Lemma page_ok_phys v : page_ok v -> 0 < V2P v /\ V2P v + 4096 <= PHYSTOP /\ V2P v mod 4096 = 0.
Proof. pose proof kernel_image. unfold page_ok. consts. dlia. Qed.

Lemma page_ok_V2P_inj v w : page_ok v -> page_ok w -> V2P v = V2P w -> v = w.
Proof. pose proof kernel_image. unfold page_ok. consts. dlia. Qed.

(** The address of a word inside a page of the direct map. *)
Lemma V2P_offset v k : page_ok v -> 0 <= k < 4096 -> V2P (v + k) = V2P v + k.
Proof. pose proof kernel_image. unfold page_ok. consts. dlia. Qed.

Lemma pde_u32 m pgdir d : is_u32 (pde_at m pgdir d).
Proof. apply load32_range. Qed.

Lemma pte_u32 m pgdir vpn : is_u32 (pte_at m pgdir vpn).
Proof. unfold pte_at. case_bool; [apply load32_range|consts; lia]. Qed.

Lemma tab_V2P m pgdir d :
  V2P (P2V (PTE_ADDR (pde_at m pgdir d))) = PTE_ADDR (pde_at m pgdir d).
Proof. apply V2P_P2V_u32, PTE_ADDR_u32, pde_u32. Qed.

Lemma tpage_ok m pgdir v : pgdir_wf m pgdir -> tpage m pgdir v -> page_ok v.
Proof. intros Hw [->|(d & Hd & Hp & ->)]; [apply Hw|by apply Hw]. Qed.

Lemma in_page_pde pgdir d b :
  0 <= d < 1024 -> V2P pgdir + 4 * d <= b < V2P pgdir + 4 * d + 4 -> in_page pgdir b.
Proof. unfold in_page. consts. lia. Qed.

Lemma in_page_pte m pgdir vpn b :
  pte_addr m pgdir vpn <= b < pte_addr m pgdir vpn + 4 ->
  in_page (P2V (PTE_ADDR (pde_at m pgdir (vpn / 1024)))) b.
Proof. unfold in_page, pte_addr. rewrite tab_V2P. change PGSIZE with 4096. dlia. Qed.

Lemma vpn_dir vpn : vpn_ok vpn -> 0 <= vpn / 1024 < 1024.
Proof. unfold vpn_ok. dlia. Qed.

(** ** Frames *)

(** Two memories agree on the pages of a table. *)
Definition table_agree (m m' : memory) (pgdir : Z) : Prop :=
  forall v a, tpage m pgdir v -> in_page v a -> load8 m' a = load8 m a.

Lemma pde_agree m m' pgdir d :
  table_agree m m' pgdir -> 0 <= d < 1024 -> pde_at m' pgdir d = pde_at m pgdir d.
Proof.
  intros Ha Hd. apply load32_ext. intros b Hb. apply (Ha pgdir); [by left|].
  by eapply in_page_pde.
Qed.

Lemma pte_agree m m' pgdir vpn :
  table_agree m m' pgdir -> vpn_ok vpn -> pte_at m' pgdir vpn = pte_at m pgdir vpn.
Proof.
  intros Ha Hv. pose proof (vpn_dir _ Hv) as Hd. unfold pte_at, pde_present, pte_addr.
  rewrite (pde_agree m m') by done. case_bool; [|done]. apply load32_ext. intros b Hb.
  apply (Ha (P2V (PTE_ADDR (pde_at m pgdir (vpn / 1024))))); [right; eauto|].
  by eapply in_page_pte.
Qed.

Lemma tpage_agree m m' pgdir v :
  table_agree m m' pgdir -> tpage m' pgdir v <-> tpage m pgdir v.
Proof.
  intros Ha. unfold tpage, pde_present.
  split; (intros [->|(d & Hd & H)]; [by left|right; exists d; split; [done|]]);
    rewrite (pde_agree m m') in * by done; done.
Qed.

Lemma pgdir_wf_agree m m' pgdir :
  table_agree m m' pgdir -> pgdir_wf m pgdir -> pgdir_wf m' pgdir.
Proof.
  intros Ha [H1 H2 H3 H4 H5]. unfold pde_present in *.
  split; try done; unfold pde_present.
  - intros d Hd. rewrite (pde_agree m m') by done. auto.
  - intros d e Hd He. rewrite !(pde_agree m m') by done. auto.
  - intros d Hd. rewrite (pde_agree m m') by done. auto.
  - intros d Hd. rewrite (pde_agree m m') by done. auto.
Qed.

(** ** Storing an entry *)

Section StorePte.
Context (m : memory) (pgdir vpn w : Z).
Hypothesis Hwf : pgdir_wf m pgdir.
Hypothesis Hvpn : vpn_ok vpn.
Hypothesis Hpres : pde_present m pgdir (vpn / 1024) = true.
Let m' := store32 m (pte_addr m pgdir vpn) w.

(** Only the second-level page of [vpn] changes. *)
Lemma store_pte_load8 a :
  ~ in_page (P2V (PTE_ADDR (pde_at m pgdir (vpn / 1024)))) a -> load8 m' a = load8 m a.
Proof.
  intros Ha. unfold m'. apply load8_store32_ne.
  destruct (Z.lt_ge_cases a (pte_addr m pgdir vpn)); [by left|].
  destruct (Z.lt_ge_cases a (pte_addr m pgdir vpn + 4)); [|by right].
  destruct Ha. eapply in_page_pte. lia.
Qed.

Lemma store_pte_pde d : 0 <= d < 1024 -> pde_at m' pgdir d = pde_at m pgdir d.
Proof.
  intros Hd. apply load32_ext. intros b Hb. apply store_pte_load8. intros Hin.
  destruct (pw_tab _ _ Hwf _ (vpn_dir _ Hvpn) Hpres) as [Hok Hne]. apply Hne.
  eapply Impl.in_page_disj; [done|apply Hwf|done|]. by eapply in_page_pde.
Qed.

Lemma store_pte_at vpn' :
  vpn_ok vpn' ->
  pte_at m' pgdir vpn' = if decide (vpn' = vpn) then u32 w else pte_at m pgdir vpn'.
Proof.
  intros Hv'. pose proof (vpn_dir _ Hv') as Hd'. pose proof (vpn_dir _ Hvpn) as Hd.
  unfold pte_at, pde_present. rewrite !store_pte_pde by done.
  assert (pte_addr m' pgdir vpn' = pte_addr m pgdir vpn') as ->
    by (unfold pte_addr; by rewrite store_pte_pde).
  case_decide as E; [subst vpn'|].
  - unfold pde_present in Hpres. rewrite Hpres. apply load32_store32_eq.
  - case_bool; [|done]. unfold m'.
    destruct (decide (vpn / 1024 = vpn' / 1024)) as [Hq|Hq].
    + apply load32_store32_ne. unfold pte_addr. rewrite Hq. dlia.
    + apply load32_ext. intros b Hb. apply store_pte_load8. intros Hin. apply Hq.
      apply (pw_inj _ _ Hwf); try done. etrans; [symmetry; apply tab_V2P|].
      etrans; [|apply tab_V2P]. f_equal.
      eapply Impl.in_page_disj; [by apply Hwf|by apply Hwf|done|]. by eapply in_page_pte.
Qed.

Lemma store_pte_wf : pgdir_wf m' pgdir.
Proof.
  destruct Hwf as [H1 H2 H3 H4 H5]. unfold pde_present in *.
  split; try done; unfold pde_present.
  - intros d Hd. rewrite store_pte_pde by done. auto.
  - intros d e Hd He. rewrite !store_pte_pde by done. auto.
  - intros d Hd. rewrite store_pte_pde by done. auto.
  - intros d Hd. rewrite store_pte_pde by done. auto.
Qed.

Lemma store_pte_tpage v : tpage m' pgdir v <-> tpage m pgdir v.
Proof.
  unfold tpage, pde_present.
  split; (intros [->|(d & Hd & H)]; [by left|right; exists d; split; [done|]]);
    rewrite store_pte_pde in * by done; done.
Qed.
End StorePte.

(** ** Installing a new second-level page *)

(** The directory entry that [walkpgdir] writes for the table page [t]. *)
Definition new_pde (t : Z) : Z := Z.lor (Z.lor (Z.lor (V2P t) PTE_P) PTE_W) PTE_U.

Lemma new_pde_flags t :
  page_ok t -> is_u32 (new_pde t) /\ flag (new_pde t) PTE_P = true /\
  flag (new_pde t) PTE_W = true /\ flag (new_pde t) PTE_U = true /\
  flag (new_pde t) PTE_E = false /\ PTE_ADDR (new_pde t) = V2P t.
Proof.
  intros Ht. destruct (page_ok_phys t Ht) as (H1 & H2 & H3). unfold new_pde. split_and!.
  - repeat apply lor_u32; [consts; lia|closed..].
  - flags. done.
  - flags. done.
  - flags. done.
  - flags. rewrite testbit_aligned by (done || lia). done.
  - rewrite !PTE_ADDR_lor by closed.
    rewrite PTE_ADDR_eq. lia.
Qed.

Section NewTable.
Context (m : memory) (pgdir d t : Z).
Hypothesis Hwf : pgdir_wf m pgdir.
Hypothesis Hd : 0 <= d < 1024.
Hypothesis Habs : pde_present m pgdir d = false.
Hypothesis Ht : page_ok t.
Hypothesis Hfresh : ~ tpage m pgdir t.
Let m' := store32 (memset m (V2P t) 0 PGSIZE) (V2P pgdir + 4 * d) (new_pde t).

Lemma new_table_ne_dir : t <> pgdir.
Proof. intros ->. apply Hfresh. by left. Qed.

Lemma new_table_load8 a : ~ in_page t a -> ~ in_page pgdir a -> load8 m' a = load8 m a.
Proof.
  intros H1 H2. unfold in_page in *. unfold m'. rewrite load8_store32_ne by (consts; lia).
  rewrite load8_memset by (consts; lia). case_decide; [lia|done].
Qed.

Lemma new_table_zero a : in_page t a -> load8 m' a = 0.
Proof.
  intros Ha. unfold m'. rewrite load8_store32_ne.
  - rewrite load8_memset by (consts; lia). by rewrite decide_True by apply Ha.
  - destruct (Z.lt_ge_cases a (V2P pgdir + 4 * d)); [by left|].
    destruct (Z.lt_ge_cases a (V2P pgdir + 4 * d + 4)); [|by right].
    destruct new_table_ne_dir. eapply Impl.in_page_disj; [done|apply Hwf|done|].
    eapply in_page_pde; [apply Hd|lia].
Qed.

Lemma new_table_pde e :
  0 <= e < 1024 -> pde_at m' pgdir e = if decide (e = d) then new_pde t else pde_at m pgdir e.
Proof.
  intros He. unfold pde_at, m'. case_decide; [subst e|].
  - rewrite load32_store32_eq. apply u32_small, new_pde_flags, Ht.
  - rewrite load32_store32_ne by lia. apply load32_ext. intros b Hb.
    rewrite load8_memset by (consts; lia). case_decide; [|done].
    destruct new_table_ne_dir. eapply Impl.in_page_disj; [done|apply Hwf|done|].
    by eapply in_page_pde.
Qed.

Lemma new_table_present e :
  0 <= e < 1024 -> pde_present m' pgdir e = (bool_decide (e = d) || pde_present m pgdir e).
Proof.
  intros He. unfold pde_present. rewrite new_table_pde by done.
  case_decide as E; [|by rewrite bool_decide_eq_false_2].
  rewrite bool_decide_eq_true_2 by done. by apply new_pde_flags.
Qed.

Lemma new_table_pte vpn : vpn_ok vpn -> pte_at m' pgdir vpn = pte_at m pgdir vpn.
Proof.
  intros Hv. pose proof (vpn_dir _ Hv) as Hdv. unfold pte_at.
  rewrite new_table_present by done. unfold pte_addr. rewrite new_table_pde by done.
  destruct (decide (vpn / 1024 = d)) as [E|E].
  - rewrite bool_decide_eq_true_2, E, Habs by done. cbn.
    destruct (new_pde_flags t Ht) as (_ & _ & _ & _ & _ & ->).
    unfold load32. rewrite !new_table_zero; try done; unfold in_page; consts; dlia.
  - rewrite bool_decide_eq_false_2 by done. cbn.
    destruct (pde_present m pgdir (vpn / 1024)) eqn:Hp; [|done].
    apply load32_ext. intros b Hb. apply new_table_load8.
    + intros Hin. apply Hfresh. right. exists (vpn / 1024). split; [done|]. split; [done|].
      eapply Impl.in_page_disj; [done|by apply Hwf|done|]. by eapply in_page_pte.
    + intros Hin. destruct (pw_tab _ _ Hwf _ Hdv Hp) as [Hok Hne]. apply Hne.
      eapply Impl.in_page_disj; [done|apply Hwf| |done]. by eapply in_page_pte.
Qed.

Lemma new_table_tpage v : tpage m' pgdir v <-> tpage m pgdir v \/ v = t.
Proof.
  destruct (new_pde_flags t Ht) as (Hu & _ & _ & _ & _ & Ha).
  assert (P2V (V2P t) = t) as HPV by (apply P2V_V2P, page_ok_u32, Ht).
  unfold tpage. split.
  - intros [->|(e & He & Hp & ->)]; [by left; left|].
    rewrite new_table_present in Hp by done. rewrite new_table_pde by done.
    destruct (decide (e = d)) as [E|E]; [right; by rewrite Ha|].
    rewrite bool_decide_eq_false_2 in Hp by done. left; right; eauto.
  - intros [[->|(e & He & Hp & ->)]| ->]; [by left| |].
    + right. exists e. rewrite new_table_present, new_table_pde, Hp, orb_true_r by done.
      case_decide as E; [|done]. subst. by rewrite Habs in Hp.
    + right. exists d. rewrite new_table_present, new_table_pde by done.
      rewrite bool_decide_eq_true_2, decide_True, Ha by done. done.
Qed.

Lemma new_table_wf : pgdir_wf m' pgdir.
Proof.
  destruct (new_pde_flags t Ht) as (Hu & HP & HW & _ & _ & Ha).
  assert (P2V (V2P t) = t) as HPV by (apply P2V_V2P, page_ok_u32, Ht).
  assert (forall e, 0 <= e < 1024 -> pde_present m pgdir e = true ->
            V2P t <> PTE_ADDR (pde_at m pgdir e)) as Hnew.
  { intros e He Hp E. apply Hfresh. right. exists e. rewrite <- E, HPV. done. }
  split; [apply Hwf| | | |].
  - intros e He. rewrite new_table_present, new_table_pde by done. case_decide.
    + intros _. rewrite Ha, HPV. split; [done|apply new_table_ne_dir].
    + rewrite bool_decide_eq_false_2 by done. apply Hwf. done.
  - intros e f He Hf. rewrite !new_table_present, !new_table_pde by done.
    destruct (decide (e = d)) as [->|], (decide (f = d)) as [->|];
      rewrite ?bool_decide_eq_true_2, ?bool_decide_eq_false_2, ?Ha by done; cbn; intros Hp1 Hp2 E.
    + done.
    + by destruct (Hnew f).
    + by destruct (Hnew e).
    + by apply (pw_inj _ _ Hwf).
  - intros e He. rewrite new_table_present, new_table_pde by done. case_decide.
    + by rewrite bool_decide_eq_true_2.
    + rewrite bool_decide_eq_false_2 by done. by apply Hwf.
  - intros e He. rewrite new_table_present, new_table_pde by done. case_decide; [done|].
    rewrite bool_decide_eq_false_2 by done. by apply Hwf.
Qed.
End NewTable.
End PageTable.
