(* ===== verification/VmProofs.v ===== *)
(** * Correctness of the page-table code

    The functions of vm.c against the abstract view of PageTable.v: what
    they map and unmap, which pages they take from and give back to the page
    allocator, and which memory they leave alone.  The proofs use the
    allocator only through [PageAllocator]. *)

From S2P Require Import Prelude Memory Mmu Machine Spinlock Kalloc Vm PageTable.

Section VmProofs.
Context `{KI : KernelImage, PO : !PageOps, PA : !PageAllocator}.
Implicit Types s : machine.

(** The kernel address of the entry for page [vpn]. *)
Definition kpte (m : memory) (pgdir vpn : Z) : Z :=
  P2V (PTE_ADDR (pde_at m pgdir (vpn / 1024))) + 4 * (vpn mod 1024).

Lemma kpte_V2P m pgdir vpn :
  pgdir_wf m pgdir -> vpn_ok vpn -> pde_present m pgdir (vpn / 1024) = true ->
  V2P (kpte m pgdir vpn) = pte_addr m pgdir vpn.
Proof.
  intros Hw Hv Hp. unfold kpte, pte_addr. rewrite V2P_offset; [by rewrite tab_V2P| |dlia].
  apply (pw_tab _ _ Hw); [by apply vpn_dir|done].
Qed.

Lemma PDX_vpn va : is_u32 va -> PDX va = va / 4096 / 1024.
Proof. intros. rewrite PDX_eq by done. dlia. Qed.

Lemma vpn_ok_va va : is_u32 va -> vpn_ok (va / 4096).
Proof. unfold vpn_ok. consts. dlia. Qed.

Lemma kload_pde s pgdir d :
  page_ok pgdir -> 0 <= d < 1024 ->
  kload32 (pgdir + 4 * d) s = Ok (pde_at (mem s) pgdir d) s.
Proof. intros Hp Hd. unfold kload32, gets, pde_at. rewrite V2P_offset by (done || lia). done. Qed.

Lemma kload_pte s pgdir vpn :
  pgdir_wf (mem s) pgdir -> vpn_ok vpn -> pde_present (mem s) pgdir (vpn / 1024) = true ->
  kload32 (kpte (mem s) pgdir vpn) s = Ok (pte_at (mem s) pgdir vpn) s.
Proof.
  intros Hw Hv Hp. unfold kload32, gets. rewrite kpte_V2P by done.
  unfold pte_at. by rewrite Hp.
Qed.

Lemma kstore_pte s pgdir vpn w :
  pgdir_wf (mem s) pgdir -> vpn_ok vpn -> pde_present (mem s) pgdir (vpn / 1024) = true ->
  kstore32 (kpte (mem s) pgdir vpn) w s
  = Ok tt (set_mem (store32 (mem s) (pte_addr (mem s) pgdir vpn) w) s).
Proof. intros Hw Hv Hp. unfold kstore32, modify. by rewrite kpte_V2P. Qed.

(** ** Looking up an entry *)

Lemma walkpgdir_lookup s pgdir va :
  pgdir_wf (mem s) pgdir -> is_u32 va ->
  walkpgdir pgdir va false s =
    Ok (if pde_present (mem s) pgdir (va / 4096 / 1024)
        then Some (kpte (mem s) pgdir (va / 4096)) else None) s.
Proof.
  intros Hw Hv. unfold walkpgdir. rewrite PDX_vpn, PTX_eq by done.
  erewrite bind_ok; [|apply kload_pde; [apply Hw|by apply vpn_dir, vpn_ok_va]].
  unfold pde_present. by destruct (flag _ PTE_P).
Qed.

(** ** Invariants *)

(** The table is well formed and none of its pages is free. *)
Record vm_inv s (pgdir : Z) (l : list Z) : Prop := {
  vi_free : free_pages s l;
  vi_wf : pgdir_wf (mem s) pgdir;
  vi_owned v : tpage (mem s) pgdir v -> v ∉ l;
}.

(** [grows s s' pgdir l l']: from [s] to [s'] the table has taken the pages
    of [l] that are not in [l'], and no memory outside the table changed. *)
Record grows s s' (pgdir : Z) (l l' : list Z) : Prop := {
  gr_inv : vm_inv s' pgdir l';
  gr_suffix : l' `suffix_of` l;
  gr_tpage v : tpage (mem s') pgdir v <-> tpage (mem s) pgdir v \/ (v ∈ l /\ v ∉ l');
  gr_regs : same_regs s s';
  gr_mem a : (forall v, tpage (mem s') pgdir v -> ~ in_page v a) ->
    load8 (mem s') a = load8 (mem s) a;
}.

Lemma same_regs_refl s : same_regs s s.
Proof. by split_and!. Qed.

Lemma same_regs_trans s1 s2 s3 : same_regs s1 s2 -> same_regs s2 s3 -> same_regs s1 s3.
Proof.
  intros (H1 & H2 & H3) (H4 & H5 & H6). split_and!; [by etrans|congruence|congruence].
Qed.

Lemma grows_refl s pgdir l : vm_inv s pgdir l -> grows s s pgdir l l.
Proof.
  intros Hv. split; [done|done| |apply same_regs_refl|done].
  intros v. split; [by left|]. by intros [?|[? ?]].
Qed.

Lemma suffix_elem (l l' : list Z) v : l' `suffix_of` l -> v ∈ l' -> v ∈ l.
Proof. intros [k ->] Hv. apply elem_of_app. by right. Qed.

Lemma grows_trans s1 s2 s3 pgdir l1 l2 l3 :
  grows s1 s2 pgdir l1 l2 -> grows s2 s3 pgdir l2 l3 -> grows s1 s3 pgdir l1 l3.
Proof.
  intros H1 H2. split.
  - apply H2.
  - etrans; [apply H2|apply H1].
  - intros v. rewrite (gr_tpage _ _ _ _ _ H2), (gr_tpage _ _ _ _ _ H1).
    pose proof (suffix_elem _ _ v (gr_suffix _ _ _ _ _ H1)).
    pose proof (suffix_elem _ _ v (gr_suffix _ _ _ _ _ H2)).
    destruct (decide (v ∈ l2)); tauto.
  - eapply same_regs_trans; [apply H1|apply H2].
  - intros a Ha. rewrite (gr_mem _ _ _ _ _ H2) by done. apply (gr_mem _ _ _ _ _ H1).
    intros v Hv. apply Ha. apply (gr_tpage _ _ _ _ _ H2). by left.
Qed.

(** A store to an entry keeps the invariant. *)
Lemma store_pte_grows s pgdir l vpn w :
  vm_inv s pgdir l -> vpn_ok vpn -> pde_present (mem s) pgdir (vpn / 1024) = true ->
  grows s (set_mem (store32 (mem s) (pte_addr (mem s) pgdir vpn) w) s) pgdir l l.
Proof.
  intros [Hf Hw Ho] Hv Hp.
  set (t := P2V (PTE_ADDR (pde_at (mem s) pgdir (vpn / 1024)))).
  assert (tpage (mem s) pgdir t) as Ht by (right; eauto using vpn_dir).
  assert (forall a, ~ in_page t a ->
    load8 (store32 (mem s) (pte_addr (mem s) pgdir vpn) w) a = load8 (mem s) a) as Hl
    by (intros; by apply store_pte_load8).
  split; cbn.
  - split; cbn.
    + apply free_pages_frame; [done|]. intros v a Hin Ha. apply Hl. intros Ha'.
      destruct (free_pages_ok _ _ Hf) as [_ Hok]. rewrite Forall_forall in Hok.
      apply (Ho t); [done|]. rewrite (Impl.in_page_disj t v a); eauto using tpage_ok.
    + by apply store_pte_wf.
    + intros v. rewrite store_pte_tpage by done. apply Ho.
  - done.
  - intros v. rewrite store_pte_tpage by done. split; [by left|]. by intros [?|[? ?]].
  - by split_and!.
  - intros a Ha. apply Hl. apply Ha. by apply store_pte_tpage.
Qed.

(** ** walkpgdir with allocation *)

Lemma walkpgdir_alloc s pgdir va l :
  vm_inv s pgdir l -> is_u32 va ->
  wp (walkpgdir pgdir va true) s (fun r s' => exists l', grows s s' pgdir l l' /\
    (forall vpn, vpn_ok vpn -> pte_at (mem s') pgdir vpn = pte_at (mem s) pgdir vpn) /\
    match r with
    | None => l' = [] /\ l = [] /\ mem s' = mem s
    | Some p => pde_present (mem s') pgdir (va / 4096 / 1024) = true /\
                p = kpte (mem s') pgdir (va / 4096)
    end).
Proof.
  intros Hi Hu. destruct Hi as [Hf Hw Ho] eqn:Ei; clear Ei.
  pose proof (vpn_dir _ (vpn_ok_va _ Hu)) as Hd.
  unfold walkpgdir. rewrite PDX_vpn, PTX_eq by done. wstep.
  eapply wp_ok; [apply kload_pde; [apply Hw|done]|].
  destruct (pde_present (mem s) pgdir (va / 4096 / 1024)) eqn:Hp; pose proof Hp as Hp';
    unfold pde_present in Hp'; rewrite Hp'; cbn [negb].
  { wstep. exists l. split; [by apply grows_refl|]. done. }
  wstep. eapply wp_mono; [by apply kalloc_spec|].
  intros r s1 (Hm & Hr & -> & Hf1).
  destruct (free_pages_ok _ _ Hf) as [Hnd Hok].
  destruct l as [|t l]; cbn [head tail] in *.
  { wstep. exists []. split; [|split; [intros; by rewrite Hm|]].
    - split; [|done| |done|intros; by rewrite Hm].
      + split; [done|by rewrite Hm|by rewrite Hm].
      + intros v. rewrite Hm. split; [by left|]. by intros [?|[? ?]].
    - done. }
  inversion Hok as [|? ? Ht Hok']; subst. inversion Hnd as [|? ? Htl Hnd']; subst.
  assert (~ tpage (mem s) pgdir t) as Hfresh by (intros H; apply (Ho t H); by left).
  unfold kmemset. wsteps. unfold kstore32. wsteps. cbn [mem set_mem].
  rewrite V2P_offset by (apply Hw || lia). rewrite Hm. fold (new_pde t).
  set (m' := store32 (memset (mem s) (V2P t) 0 PGSIZE)
               (V2P pgdir + 4 * (va / 4096 / 1024)) (new_pde t)).
  assert (forall v, tpage m' pgdir v <-> tpage (mem s) pgdir v \/ v = t) as Htp
    by (intros; by apply new_table_tpage).
  assert (forall a, ~ in_page t a -> ~ in_page pgdir a -> load8 m' a = load8 (mem s) a) as Hld
    by (intros; by apply new_table_load8).
  exists l. split; [|split].
  - split; [| | | |]; cbn [mem set_mem]; fold m'.
    + split; cbn [mem set_mem]; fold m'.
      * apply (free_pages_frame s1); [done|]. intros v a Hv Ha. rewrite Hm.
        rewrite Forall_forall in Hok'. pose proof (Hok' v Hv). apply Hld; intros Ha'.
        -- by rewrite (Impl.in_page_disj t v a) in Htl.
        -- apply (Ho pgdir); [by left|]. right.
           rewrite (Impl.in_page_disj pgdir v a); try done. apply Hw.
      * by apply new_table_wf.
      * intros v [Hv| ->]%Htp; [|done]. intros Hin. apply (Ho v Hv). by right.
    + by apply suffix_cons_r.
    + intros v. rewrite Htp, elem_of_cons. split.
      * intros [?| ->]; [by left|right]. split; [by left|done].
      * intros [?|[[->|?] ?]]; [by left|by right|done].
    + done.
    + intros a Ha. apply Hld; apply Ha, Htp; [by right|left; by left].
  - intros vpn Hv. by apply new_table_pte.
  - split.
    + cbn [mem set_mem]. fold m'. unfold m'. rewrite new_table_present by done.
      by rewrite bool_decide_eq_true_2.
    + unfold kpte. cbn [mem set_mem]. fold m'. unfold m'. rewrite new_table_pde by done.
      rewrite decide_True by done. destruct (new_pde_flags t Ht) as (_ & _ & _ & _ & _ & ->).
      rewrite P2V_V2P by (by apply page_ok_u32). done.
Qed.

(** ** mappages *)

(** The entry [mappages] writes. *)
Definition map_entry (pa perm : Z) : Z :=
  if flag perm PTE_E then Z.lor (Z.lor pa perm) PTE_E else Z.lor (Z.lor pa perm) PTE_P.

Lemma map_entry_u32 pa perm : is_u32 pa -> 0 <= perm < 4096 -> is_u32 (map_entry pa perm).
Proof.
  intros. unfold map_entry. assert (is_u32 perm) by (consts; lia).
  case_bool; repeat apply lor_u32; (done || closed).
Qed.

Lemma div_page_add a k : a mod 4096 = 0 -> (a + 4096 * k) / 4096 = a / 4096 + k.
Proof. dlia. Qed.

(** One iteration: the table page is missing and cannot be had, or the
    entry for [a] is written. *)
Lemma mappages_step s pgdir l a last pa perm n (Q : Z -> machine -> Prop) :
  vm_inv s pgdir l -> is_u32 a -> is_u32 pa -> 0 <= perm < 4096 ->
  flag (pte_at (mem s) pgdir (a / 4096)) (Z.lor PTE_P PTE_E) = false ->
  (forall s', l = [] -> grows s s' pgdir [] [] -> mem s' = mem s -> Q (-1) s') ->
  (forall s' l', grows s s' pgdir l l' ->
     (forall vpn, vpn_ok vpn -> pte_at (mem s') pgdir vpn =
        if decide (vpn = a / 4096) then map_entry pa perm else pte_at (mem s) pgdir vpn) ->
     wp (if a =? last then mret 0
         else mappages_loop pgdir (u32 (a + PGSIZE)) last (u32 (pa + PGSIZE)) perm n) s' Q) ->
  wp (mappages_loop pgdir a last pa perm (S n)) s Q.
Proof.
  intros Hi Ha Hpa Hpe Hfl Hfail Hok. pose proof (vpn_ok_va _ Ha) as Hv. cbn [mappages_loop].
  wstep. eapply wp_mono; [by apply walkpgdir_alloc|]. intros r s1 (l1 & Hg1 & Hp1 & Hr).
  destruct r as [p|].
  - destruct Hr as [Hpres ->]. pose proof (vi_wf _ _ _ (gr_inv _ _ _ _ _ Hg1)) as Hw1.
    wstep. eapply wp_ok; [by apply kload_pte|]. rewrite Hp1, Hfl by done.
    wstep. eapply wp_ok; [by apply kstore_pte|]. eapply Hok.
    + eapply grows_trans; [done|]. apply store_pte_grows; [apply Hg1|done|done].
    + intros vpn Hvpn. cbn [mem set_mem]. rewrite store_pte_at by done.
      fold (map_entry pa perm). rewrite u32_small by (by apply map_entry_u32).
      case_decide; [done|]. by apply Hp1.
  - destruct Hr as (-> & -> & Hm). wstep. by apply Hfail.
Qed.

Lemma mappages_loop_spec n s pgdir l a pa perm :
  vm_inv s pgdir l -> is_u32 a -> a mod 4096 = 0 -> is_u32 pa -> 0 <= perm < 4096 ->
  a + 4096 * Z.of_nat n < 4294967296 ->
  (forall k, 0 <= k <= Z.of_nat n ->
     flag (pte_at (mem s) pgdir (a / 4096 + k)) (Z.lor PTE_P PTE_E) = false) ->
  wp (mappages_loop pgdir a (a + 4096 * Z.of_nat n) pa perm (S n)) s (fun r s' =>
    exists l' k, grows s s' pgdir l l' /\ 0 <= k <= Z.of_nat n + 1 /\
    (forall vpn, vpn_ok vpn -> pte_at (mem s') pgdir vpn =
       if decide (a / 4096 <= vpn < a / 4096 + k)
       then map_entry (u32 (pa + 4096 * (vpn - a / 4096))) perm
       else pte_at (mem s) pgdir vpn) /\
    (r = 0 /\ k = Z.of_nat n + 1 \/ r = -1 /\ k <= Z.of_nat n /\ l' = [])).
Proof.
  revert s l a pa. induction n as [|n IH]; intros s l a pa Hi Ha Hal Hpa Hpe Hend Hfree;
    (eapply (mappages_step s pgdir l); try done;
      [specialize (Hfree 0); rewrite Z.add_0_r in Hfree; apply Hfree; lia| |]).
  1,3: intros s' -> Hg Hm; exists [], 0; split; [done|]; split; [lia|]; split;
    [intros vpn Hv; rewrite decide_False by lia; by rewrite Hm|right; split_and!; [done|lia|done]].
  - intros s' l' Hg Hp. rewrite Z.mul_0_r, Z.add_0_r, Z.eqb_refl. wstep.
    exists l', 1. split; [done|]. split; [lia|]. split; [|left; lia].
    intros vpn Hv. rewrite Hp by done. repeat case_decide; try lia.
    subst. rewrite Z.sub_diag, Z.add_0_r. by rewrite u32_small.
  - intros s' l' Hg Hp. destruct (Z.eqb_spec a (a + 4096 * Z.of_nat (S n))) as [|_]; [lia|].
    assert (u32 (a + PGSIZE) = a + 4096) as -> by (consts; dlia).
    replace (a + 4096 * Z.of_nat (S n)) with (a + 4096 + 4096 * Z.of_nat n) by lia.
    assert ((a + 4096) / 4096 = a / 4096 + 1) as Hq by dlia.
    eapply wp_mono; [apply (IH s' l' (a + 4096));
      [apply Hg|consts; dlia|dlia|apply u32_is|done|lia|]|].
    + intros k Hk. rewrite Hp by (unfold vpn_ok; consts; dlia). rewrite Hq.
      rewrite decide_False by lia.
      replace (a / 4096 + 1 + k) with (a / 4096 + (k + 1)) by lia. apply Hfree. lia.
    + intros r s2 (l2 & k & Hg2 & Hk & Hp2 & Hr). exists l2, (k + 1).
      split; [by eapply grows_trans|]. split; [lia|]. split;
        [|destruct Hr as [[-> ->]|(-> & ? & ->)]; [left; lia|right; split_and!; (done || lia)]].
      intros vpn Hv. rewrite Hp2, Hq, Hp by done.
      repeat case_decide; try lia; try done; f_equal.
      * change PGSIZE with 4096. rewrite u32_add_l. f_equal. lia.
      * subst. rewrite Z.sub_diag, Z.add_0_r. by rewrite u32_small.
Qed.

(** The number of pages that [size] bytes from [va] touch. *)
Definition npages (va size : Z) : Z := (va + size - 1) / 4096 - va / 4096 + 1.

Lemma mappages_spec s pgdir l va size pa perm :
  vm_inv s pgdir l -> 0 <= va -> 0 < size -> va + size <= 4294967296 -> is_u32 pa ->
  0 <= perm < 4096 ->
  (forall k, 0 <= k < npages va size ->
     flag (pte_at (mem s) pgdir (va / 4096 + k)) (Z.lor PTE_P PTE_E) = false) ->
  wp (mappages pgdir va size pa perm) s (fun r s' =>
    exists l' k, grows s s' pgdir l l' /\ 0 <= k <= npages va size /\
    (forall vpn, vpn_ok vpn -> pte_at (mem s') pgdir vpn =
       if decide (va / 4096 <= vpn < va / 4096 + k)
       then map_entry (u32 (pa + 4096 * (vpn - va / 4096))) perm
       else pte_at (mem s) pgdir vpn) /\
    (r = 0 /\ k = npages va size \/ r = -1 /\ k < npages va size /\ l' = [])).
Proof.
  intros Hi Hva Hsz Hend Hpa Hpe Hfree. unfold mappages.
  rewrite !PGROUNDDOWN_eq. rewrite (u32_small (va + size - 1)) by (consts; lia).
  set (a := va - va mod 4096). set (e := va + size - 1 - (va + size - 1) mod 4096).
  assert (a mod 4096 = 0 /\ 0 <= a < 4294967296 /\ a / 4096 = va / 4096) as (Ha1 & Ha2 & Ha3)
    by (unfold a; dlia).
  assert (e = a + 4096 * (npages va size - 1) /\ 1 <= npages va size /\ e < 4294967296)
    as (He1 & He2 & He3) by (unfold e, a, npages; dlia).
  assert (u32 (e - a) / PGSIZE = npages va size - 1) as ->
    by (rewrite u32_small by (consts; lia); change PGSIZE with 4096; rewrite He1; dlia).
  assert (e = a + 4096 * Z.of_nat (Z.to_nat (npages va size - 1))) as -> by lia.
  eapply wp_mono; [apply (mappages_loop_spec _ s pgdir l); try done|].
  - intros k Hk. rewrite Ha3. apply Hfree. lia.
  - intros r s' (l' & k & Hg & Hk & Hp & Hr). rewrite Ha3 in Hp. exists l', k.
    split; [done|]. split; [lia|]. split; [done|].
    destruct Hr as [[-> ->]|(-> & ? & ->)]; [left; lia|right; split_and!; (done || lia)].
Qed.

(** One page: the entry is written, or nothing is. *)
Lemma mappages_page s pgdir l va pa perm :
  vm_inv s pgdir l -> is_u32 va -> va mod 4096 = 0 -> is_u32 pa -> 0 <= perm < 4096 ->
  flag (pte_at (mem s) pgdir (va / 4096)) (Z.lor PTE_P PTE_E) = false ->
  wp (mappages pgdir va PGSIZE pa perm) s (fun r s' =>
    exists l', grows s s' pgdir l l' /\
    (r = 0 /\ (forall vpn, vpn_ok vpn -> pte_at (mem s') pgdir vpn =
       if decide (vpn = va / 4096) then map_entry pa perm else pte_at (mem s) pgdir vpn) \/
     r = -1 /\ l' = [] /\
       forall vpn, vpn_ok vpn -> pte_at (mem s') pgdir vpn = pte_at (mem s) pgdir vpn)).
Proof.
  intros Hi Hva Hal Hpa Hpe Hfree.
  assert (npages va PGSIZE = 1) as Hn by (unfold npages; consts; dlia).
  eapply wp_mono; [apply (mappages_spec s pgdir l); try done; consts; try dlia|].
  - intros k Hk. rewrite Hn in Hk. replace (va / 4096 + k) with (va / 4096) by lia. done.
  - cbv beta. intros r s' (l' & k & Hg & Hk & Hp & Hr). rewrite Hn in *. exists l'. split; [done|].
    destruct Hr as [[-> ->]|(-> & ? & ->)]; [left|right].
    + split; [done|]. intros vpn Hv. rewrite Hp by done. repeat case_decide; try lia.
      subst. rewrite Z.sub_diag, Z.add_0_r. by rewrite u32_small.
    + split; [done|]. split; [done|]. intros vpn Hv. rewrite Hp by done.
      rewrite decide_False by lia. done.
Qed.

(** ** User address spaces *)

Definition mapped (w : Z) : bool := flag w (Z.lor PTE_P PTE_E).

(** The kernel address of the frame an entry points to. *)
Definition frame (w : Z) : Z := P2V (PTE_ADDR w).

Definition user_vpn (vpn : Z) : Prop := 0 <= vpn < 524288.

Lemma user_vpn_ok vpn : user_vpn vpn -> vpn_ok vpn.
Proof. unfold user_vpn, vpn_ok. lia. Qed.

(** The frames mapped below [KERNBASE]. *)
Definition uframe (m : memory) (pgdir v : Z) : Prop :=
  exists vpn, user_vpn vpn /\ mapped (pte_at m pgdir vpn) = true /\ v = frame (pte_at m pgdir vpn).

(** A table whose user frames are pages of its own: not free, not part of
    the table, and mapped once. *)
Record as_inv s (pgdir : Z) (l : list Z) : Prop := {
  ai_vm : vm_inv s pgdir l;
  ai_frame vpn : user_vpn vpn -> mapped (pte_at (mem s) pgdir vpn) = true ->
    page_ok (frame (pte_at (mem s) pgdir vpn)) /\ (frame (pte_at (mem s) pgdir vpn) ∉ l) /\
    ~ (tpage (mem s) pgdir (frame (pte_at (mem s) pgdir vpn)));
  ai_inj vpn vpn' : user_vpn vpn -> user_vpn vpn' ->
    mapped (pte_at (mem s) pgdir vpn) = true -> mapped (pte_at (mem s) pgdir vpn') = true ->
    frame (pte_at (mem s) pgdir vpn) = frame (pte_at (mem s) pgdir vpn') -> vpn = vpn';
}.

(** [shrinks s s' pgdir l l' lo hi]: from [s] to [s'] the pages [lo] to [hi]
    have been unmapped and their frames given back. *)
Record shrinks s s' (pgdir : Z) (l l' : list Z) (lo hi : Z) : Prop := {
  sh_inv : as_inv s' pgdir l';
  sh_pte vpn : vpn_ok vpn -> pte_at (mem s') pgdir vpn =
    if decide (lo <= vpn < hi /\ mapped (pte_at (mem s) pgdir vpn) = true) then 0
    else pte_at (mem s) pgdir vpn;
  sh_free v : v ∈ l' <-> v ∈ l \/ exists vpn, lo <= vpn < hi /\
    mapped (pte_at (mem s) pgdir vpn) = true /\ v = frame (pte_at (mem s) pgdir vpn);
  sh_tpage v : tpage (mem s') pgdir v <-> tpage (mem s) pgdir v;
  sh_regs : same_regs s s';
  sh_mem a : (forall v, tpage (mem s) pgdir v -> ~ in_page v a) ->
    (forall vpn, lo <= vpn < hi -> mapped (pte_at (mem s) pgdir vpn) = true ->
       ~ in_page (frame (pte_at (mem s) pgdir vpn)) a) ->
    load8 (mem s') a = load8 (mem s) a;
}.

Lemma mapped_0 : mapped 0 = false.
Proof. done. Qed.

(** Nothing to unmap. *)
Lemma shrinks_none s pgdir l lo hi :
  as_inv s pgdir l ->
  (forall vpn, lo <= vpn < hi -> mapped (pte_at (mem s) pgdir vpn) = false) ->
  shrinks s s pgdir l l lo hi.
Proof.
  intros Hi Hn. split; try done.
  - intros vpn Hv. case_decide as H; [|done]. destruct H as [H1 H2]. by rewrite Hn in H2.
  - intros v. split; [by left|]. intros [?|(vpn & H1 & H2 & _)]; [done|]. by rewrite Hn in H2.
Qed.

Lemma shrinks_trans s1 s2 s3 pgdir l1 l2 l3 lo mid hi :
  0 <= lo -> lo <= mid -> mid <= hi -> hi <= 524288 ->
  shrinks s1 s2 pgdir l1 l2 lo mid -> shrinks s2 s3 pgdir l2 l3 mid hi ->
  shrinks s1 s3 pgdir l1 l3 lo hi.
Proof.
  intros H0 Hlm Hmh Hhi H1 H2.
  assert (forall vpn, mid <= vpn < hi ->
            pte_at (mem s2) pgdir vpn = pte_at (mem s1) pgdir vpn) as Hsame.
  { intros vpn Hv. rewrite (sh_pte _ _ _ _ _ _ _ H1) by (unfold vpn_ok; lia).
    rewrite decide_False by lia. done. }
  split.
  - apply H2.
  - intros vpn Hv. rewrite (sh_pte _ _ _ _ _ _ _ H2), (sh_pte _ _ _ _ _ _ _ H1) by done.
    set (w := pte_at (mem s1) pgdir vpn).
    destruct (decide (lo <= vpn < mid /\ mapped w = true)) as [[H3 H4]|H3].
    + rewrite (decide_True _ (P := lo <= vpn < hi /\ _)) by (split; [lia|done]).
      by case_decide.
    + apply decide_ext. split; [intros [? ?]; split; [lia|done]|].
      intros [? ?]. split; [|done]. destruct (Z.lt_ge_cases vpn mid); [|lia].
      destruct H3. split; [lia|done].
  - intros v. rewrite (sh_free _ _ _ _ _ _ _ H2), (sh_free _ _ _ _ _ _ _ H1). split.
    + intros [[?|(vpn & Hv & Hm & ->)]|(vpn & Hv & Hm & ->)]; [by left|right; exists vpn; split; [lia|done]|].
      right. exists vpn. rewrite Hsame in * by done. split; [lia|done].
    + intros [?|(vpn & Hv & Hm & ->)]; [by left; left|].
      destruct (Z.lt_ge_cases vpn mid); [left; right; exists vpn; split; [lia|done]|].
      right. exists vpn. rewrite Hsame by lia. split; [lia|done].
  - intros v. by rewrite (sh_tpage _ _ _ _ _ _ _ H2), (sh_tpage _ _ _ _ _ _ _ H1).
  - eapply same_regs_trans; [apply H1|apply H2].
  - intros a Ht Hf. rewrite (sh_mem _ _ _ _ _ _ _ H2), (sh_mem _ _ _ _ _ _ _ H1); try done.
    + intros vpn Hv. apply Hf. lia.
    + intros v Hv. apply Ht. by apply (sh_tpage _ _ _ _ _ _ _ H1).
    + intros vpn Hv. rewrite Hsame by done. apply Hf. lia.
Qed.

(** A change of memory that does not touch the table or the free pages. *)
Lemma vm_inv_frame s pgdir l m :
  vm_inv s pgdir l -> table_agree (mem s) m pgdir ->
  (forall v a, v ∈ l -> in_page v a -> load8 m a = load8 (mem s) a) ->
  vm_inv (set_mem m s) pgdir l.
Proof.
  intros [Hf Hw Ho] Ha Hl. split; cbn.
  - by apply free_pages_frame.
  - by eapply pgdir_wf_agree.
  - intros v. rewrite (tpage_agree _ _ _ _ Ha). apply Ho.
Qed.

(** Freeing the frame of a page and clearing its entry. *)
Lemma unmap_one s pgdir l vpn :
  as_inv s pgdir l -> user_vpn vpn -> mapped (pte_at (mem s) pgdir vpn) = true ->
  pde_present (mem s) pgdir (vpn / 1024) = true ->
  wp (kfree (frame (pte_at (mem s) pgdir vpn));; kstore32 (kpte (mem s) pgdir vpn) 0) s
    (fun _ s' => shrinks s s' pgdir l (frame (pte_at (mem s) pgdir vpn) :: l) vpn (vpn + 1)).
Proof.
  intros Hi Hu Hm Hp. pose proof (user_vpn_ok _ Hu) as Hv.
  set (f := frame (pte_at (mem s) pgdir vpn)).
  destruct (ai_frame _ _ _ Hi vpn Hu Hm) as (Hok & Hnl & Hnt). fold f in Hok, Hnl, Hnt.
  destruct (ai_vm _ _ _ Hi) as [Hf Hw Ho].
  wstep. eapply wp_mono; [by apply kfree_spec|]. intros _ s1 (Hf1 & Hr1 & Hm1). cbn beta.
  assert (table_agree (mem s) (mem s1) pgdir) as Ha.
  { intros v a Ht Hin. apply Hm1. intros Hin'. apply Hnt.
    rewrite (Impl.in_page_disj f v a); eauto using tpage_ok. }
  assert (pgdir_wf (mem s1) pgdir) as Hw1 by (by eapply pgdir_wf_agree).
  assert (pde_present (mem s1) pgdir (vpn / 1024) = true) as Hp1.
  { unfold pde_present. rewrite (pde_agree _ _ _ _ Ha) by (by apply vpn_dir). done. }
  assert (kpte (mem s) pgdir vpn = kpte (mem s1) pgdir vpn) as ->.
  { unfold kpte. by rewrite (pde_agree _ _ _ _ Ha) by (by apply vpn_dir). }
  eapply wp_ok; [by apply kstore_pte|].
  assert (vm_inv s1 pgdir (f :: l)) as Hvi1.
  { split; [done|done|]. intros v Ht. rewrite (tpage_agree _ _ _ _ Ha) in Ht.
    rewrite not_elem_of_cons. split; [by intros ->|by apply Ho]. }
  pose proof (store_pte_grows s1 pgdir (f :: l) vpn 0 Hvi1 Hv Hp1) as Hg.
  set (s2 := set_mem _ s1) in *.
  assert (forall v, vpn_ok v -> pte_at (mem s2) pgdir v =
            if decide (v = vpn) then 0 else pte_at (mem s) pgdir v) as Hpte.
  { intros v Hv'. unfold s2; cbn. rewrite store_pte_at by done.
    by rewrite (pte_agree _ _ _ _ Ha) by done. }
  assert (forall v, tpage (mem s2) pgdir v <-> tpage (mem s) pgdir v) as Htp.
  { intros v. unfold s2; cbn. rewrite store_pte_tpage by done. by apply tpage_agree. }
  split.
  - split; [apply Hg| |].
    + intros v Hv'. rewrite Hpte by (by apply user_vpn_ok). case_decide; [done|]. intros Hmv.
      destruct (ai_frame _ _ _ Hi v Hv' Hmv) as (H1 & H2 & H3). split; [done|].
      rewrite Htp, not_elem_of_cons. split; [|done]. split; [|done]. intros E.
      by apply (ai_inj _ _ _ Hi) in E.
    + intros v v' Hv1 Hv2. rewrite !Hpte by (by apply user_vpn_ok). repeat case_decide; try done.
      by apply Hi.
  - intros v Hv'. rewrite Hpte by done. repeat case_decide; subst; try done; try lia.
    destruct H0. split; [lia|done].
  - intros v. rewrite elem_of_cons. split.
    + intros [->|?]; [right|by left]. exists vpn. split; [lia|done].
    + intros [?|(v' & Hv' & _ & ->)]; [by right|left]. by replace v' with vpn by lia.
  - done.
  - eapply same_regs_trans; [done|apply Hg].
  - intros a Ht Hfr. rewrite (gr_mem _ _ _ _ _ Hg).
    + apply Hm1. apply Hfr; [lia|done].
    + intros v Hv'. apply Ht. by apply Htp.
Qed.

Lemma deallocuvm_loop_spec n s pgdir l a oldsz :
  as_inv s pgdir l -> 0 <= a -> a mod 4096 = 0 -> a <= 2147483648 -> oldsz <= 2147483648 ->
  oldsz <= a + 4096 * Z.of_nat n ->
  wp (deallocuvm_loop pgdir a oldsz n) s (fun _ s' => exists l',
    shrinks s s' pgdir l l' (a / 4096) ((oldsz + 4095) / 4096)).
Proof.
  revert s l a. induction n as [|n IH]; intros s l a Hi Ha0 Hal Ha Ho Hn; cbn [deallocuvm_loop].
  { destruct (Z.ltb_spec a oldsz); [lia|]. wstep. exists l. apply shrinks_none; [done|].
    intros vpn Hv. dlia. }
  destruct (Z.ltb_spec a oldsz) as [Hlt|]; cbn [negb].
  2:{ wstep. exists l. apply shrinks_none; [done|]. intros vpn Hv. dlia. }
  pose proof (vi_wf _ _ _ (ai_vm _ _ _ Hi)) as Hw.
  assert (is_u32 a) as Hua by (consts; lia). pose proof (vpn_ok_va _ Hua) as Hv.
  assert (user_vpn (a / 4096)) as Huv by (unfold user_vpn; dlia).
  assert (forall b, b mod 4096 = 0 -> a < b -> b <= oldsz + 4095 ->
    forall s1 l1, shrinks s s1 pgdir l l1 (a / 4096) (b / 4096) ->
    wp (deallocuvm_loop pgdir b oldsz n) s1 (fun _ s' => exists l',
      shrinks s s' pgdir l l' (a / 4096) ((oldsz + 4095) / 4096))) as Hnext.
  { intros b Hb1 Hb2 Hb3 s1 l1 Hs. eapply wp_mono.
    - apply (IH s1 l1 b); [apply Hs|lia|done|dlia|done|dlia].
    - intros _ s2 (l2 & Hs2). exists l2. eapply shrinks_trans; [..|done|done]; dlia. }
  wstep. eapply wp_ok; [by apply walkpgdir_lookup|].
  destruct (pde_present (mem s) pgdir (a / 4096 / 1024)) eqn:Hp.
  - wstep. eapply wp_ok; [by apply kload_pte|]. wstep.
    assert (u32 (a + PGSIZE) = a + 4096) as -> by (consts; dlia).
    assert ((a + 4096) / 4096 = a / 4096 + 1) as Hq by dlia.
    apply wp_when; intros Hm.
    + fold (mapped (pte_at (mem s) pgdir (a / 4096))) in Hm.
      destruct (ai_frame _ _ _ Hi _ Huv Hm) as (Hok & _ & _).
      pose proof (page_ok_phys _ Hok) as Hph. unfold frame in Hph.
      assert (is_u32 (pte_at (mem s) pgdir (a / 4096))) as Hwu
        by (unfold pte_at; rewrite Hp; apply load32_range).
      rewrite V2P_P2V_u32 in Hph by (by apply PTE_ADDR_u32).
      destruct (Z.eqb_spec (PTE_ADDR (pte_at (mem s) pgdir (a / 4096))) 0); [lia|].
      fold (frame (pte_at (mem s) pgdir (a / 4096))).
      eapply wp_mono; [by apply (unmap_one s pgdir l)|]. intros [] s1 Hs; cbv beta in Hs.
      eapply (Hnext (a + 4096)); [dlia|lia|lia|]. rewrite Hq. done.
    + eapply (Hnext (a + 4096)); [dlia|lia|lia|]. rewrite Hq. apply shrinks_none; [done|].
      intros vpn Hvpn. by replace vpn with (a / 4096) by lia.
  - rewrite PGADDR_d, PDX_vpn by done. set (q := a / 4096 / 1024).
    assert (u32 (u32 (u32 ((q + 1) * 4194304) - PGSIZE) + PGSIZE) = (q + 1) * 4194304) as ->
      by (unfold q; consts; dlia).
    set (b := (q + 1) * 4194304).
    assert (forall vpn, a / 4096 <= vpn < b / 4096 -> mapped (pte_at (mem s) pgdir vpn) = false) as Hz.
    { intros vpn Hvpn. unfold pte_at. replace (vpn / 1024) with q by (unfold b, q in *; dlia).
      unfold q. by rewrite Hp. }
    destruct (Z.le_gt_cases b (oldsz + 4095)) as [Hb|Hb].
    + apply (Hnext b) with (l1 := l); [unfold b; dlia|unfold b, q; dlia|done|].
      by apply shrinks_none.
    + assert (b / 4096 >= (oldsz + 4095) / 4096) by dlia.
      destruct n; cbn [deallocuvm_loop]; destruct (Z.ltb_spec b oldsz); try lia; cbn [negb];
        wstep; exists l; (apply shrinks_none; [done|]); intros vpn Hvpn; apply Hz; lia.
Qed.

(** [deallocuvm] unmaps exactly the pages from the new size, rounded up, to
    the old size, and gives their frames back. *)
Lemma deallocuvm_spec s pgdir l oldsz newsz :
  as_inv s pgdir l -> 0 <= newsz -> oldsz <= KERNBASE ->
  wp (deallocuvm pgdir oldsz newsz) s (fun r s' => r = Z.min oldsz newsz /\ exists l',
    shrinks s s' pgdir l l' ((newsz + 4095) / 4096) ((oldsz + 4095) / 4096)).
Proof.
  intros Hi Hn Ho. unfold deallocuvm. destruct (Z.leb_spec oldsz newsz).
  - wstep. split; [lia|]. exists l. apply shrinks_none; [done|]. intros vpn Hv. dlia.
  - assert (PGROUNDUP newsz = newsz + 4095 - (newsz + 4095) mod 4096) as ->
      by (apply PGROUNDUP_eq; consts; lia).
    set (a := newsz + 4095 - (newsz + 4095) mod 4096).
    assert (a / 4096 = (newsz + 4095) / 4096) as <- by (unfold a; dlia).
    assert (a mod 4096 = 0 /\ newsz <= a <= newsz + 4095) as [Ha1 Ha2] by (unfold a; dlia).
    wstep. eapply wp_mono.
    + apply (deallocuvm_loop_spec _ s pgdir l); try done; consts; try dlia.
    + cbv beta. intros _ s' Hs. wstep. split; [lia|done].
Qed.

(** ** freevm *)

Definition table (m : memory) (pgdir d : Z) : Z := P2V (PTE_ADDR (pde_at m pgdir d)).

(** The loop over the directory: [m0] is memory when the loop starts. *)
Lemma freevm_loop_spec n m0 s pgdir l i :
  pgdir_wf m0 pgdir -> free_pages s l -> pgdir ∉ l -> 0 <= i -> i + Z.of_nat n = 1024 ->
  (forall a, in_page pgdir a -> load8 (mem s) a = load8 m0 a) ->
  (forall d, i <= d < 1024 -> pde_present m0 pgdir d = true -> table m0 pgdir d ∉ l) ->
  wp (freevm_loop pgdir i n) s (fun _ s' => exists l', free_pages s' l' /\
    (forall v, v ∈ l' <-> v ∈ l \/ exists d, i <= d < 1024 /\ pde_present m0 pgdir d = true /\
                                            v = table m0 pgdir d) /\
    same_regs s s' /\
    (forall a, (forall d, i <= d < 1024 -> pde_present m0 pgdir d = true ->
                  ~ in_page (table m0 pgdir d) a) -> load8 (mem s') a = load8 (mem s) a)).
Proof.
  intros Hw. revert s l i. induction n as [|n IH]; intros s l i Hf Hpl Hi Hn Hdir Htab;
    cbn [freevm_loop].
  { wstep. exists l. split_and!; try done. intros v. split; [by left|].
    intros [?|(d & ? & _)]; [done|lia]. }
  assert (pde_at (mem s) pgdir i = pde_at m0 pgdir i) as Hpde.
  { apply load32_ext. intros b Hb. apply Hdir. eapply in_page_pde; [|done]. lia. }
  wstep. eapply wp_ok; [apply kload_pde; [apply Hw|lia]|]. rewrite Hpde. wstep.
  destruct (pde_present m0 pgdir i) eqn:Hp; pose proof Hp as Hp'; unfold pde_present in Hp'.
  - assert (flag (pde_at m0 pgdir i) (Z.lor PTE_P PTE_E) = true) as ->
      by (rewrite flag_lor, Hp'; done). cbn [when].
    destruct (pw_tab _ _ Hw i ltac:(lia) Hp) as [Hok Hne].
    change (P2V (PTE_ADDR (pde_at m0 pgdir i))) with (table m0 pgdir i) in *.
    eapply wp_mono; [apply kfree_spec; [done|done|apply Htab; [lia|done]]|].
    intros [] s1 (Hf1 & Hr1 & Hm1). eapply wp_mono; [apply (IH s1 (table m0 pgdir i :: l))|].
    + done.
    + rewrite not_elem_of_cons. split; [congruence|done].
    + lia.
    + lia.
    + intros a Ha. rewrite Hm1; [by apply Hdir|]. intros Ha'. apply Hne.
      eapply Impl.in_page_disj; [done|apply Hw|done|done].
    + intros d Hd Hpd. rewrite not_elem_of_cons. split; [|apply Htab; [lia|done]]. intros E.
      assert (d = i); [|lia]. apply (pw_inj _ _ Hw); try done; try lia.
      etrans; [symmetry; apply tab_V2P|]. etrans; [|apply tab_V2P]. f_equal. apply E.
    + intros [] s2 (l2 & Hf2 & Hl2 & Hr2 & Hm2). exists l2. split; [done|]. split; [|split].
      * intros v. rewrite Hl2, elem_of_cons. split.
        -- intros [[->|?]|(d & Hd & Hpd & ->)]; [right; exists i; split; [lia|done]|by left|].
           right. exists d. split; [lia|done].
        -- intros [?|(d & Hd & Hpd & ->)]; [left; by right|].
           destruct (decide (d = i)) as [->|]; [left; by left|].
           right. exists d. split; [lia|done].
      * by eapply same_regs_trans.
      * intros a Ha. rewrite Hm2, Hm1; [done|apply Ha; [lia|done]|]. intros d Hd. apply Ha. lia.
  - rewrite (pw_empty _ _ Hw i) by (done || lia). change (flag 0 (Z.lor PTE_P PTE_E)) with false. cbn [when]. wstep.
    eapply wp_mono; [apply (IH s l); try done; try lia|].
    + intros d Hd. apply Htab. lia.
    + intros [] s2 (l2 & Hf2 & Hl2 & Hr2 & Hm2). exists l2. split; [done|]. split; [|split].
      * intros v. rewrite Hl2. split; (intros [?|(d & Hd & Hpd & ->)]; [by left|right]);
          exists d; (split; [|done]); [lia|]. destruct (decide (d = i)) as [->|]; [|lia].
        by rewrite Hp in Hpd.
      * done.
      * intros a Ha. apply Hm2. intros d Hd. apply Ha. lia.
Qed.

(** [freevm] returns every page of the address space to the allocator: the
    user frames, the second-level tables and the directory. *)
Lemma freevm_spec s pgdir l :
  as_inv s pgdir l ->
  wp (freevm pgdir) s (fun _ s' => exists l', free_pages s' l' /\
    (forall v, v ∈ l' <-> v ∈ l \/ tpage (mem s) pgdir v \/ uframe (mem s) pgdir v) /\
    same_regs s s' /\
    (forall a, (forall v, tpage (mem s) pgdir v \/ uframe (mem s) pgdir v -> ~ in_page v a) ->
       load8 (mem s') a = load8 (mem s) a)).
Proof.
  intros Hi. unfold freevm. pose proof (vi_wf _ _ _ (ai_vm _ _ _ Hi)) as Hw.
  pose proof (Impl.page_ok_pos _ (pw_dir _ _ Hw)).
  destruct (Z.eqb_spec pgdir 0); [lia|]. wstep.
  eapply wp_mono; [by apply (deallocuvm_spec s pgdir l)|].
  intros r s1 (_ & l1 & Hs). change ((0 + 4095) / 4096) with 0 in Hs.
  change ((KERNBASE + 4095) / 4096) with 524288 in Hs. wstep.
  destruct (ai_vm _ _ _ (sh_inv _ _ _ _ _ _ _ Hs)) as [Hf1 Hw1 Ho1].
  assert (forall d, 0 <= d < 1024 -> pde_present (mem s1) pgdir d = true ->
    tpage (mem s1) pgdir (table (mem s1) pgdir d)) as Htab by (intros d ? ?; right; by exists d).
  eapply wp_mono; [apply (freevm_loop_spec _ (mem s1) s1 pgdir l1); try done|].
  - apply Ho1. by left.
  - intros d Hd Hp. apply Ho1. auto.
  - intros [] s2 (l2 & Hf2 & Hl2 & Hr2 & Hm2).
    eapply wp_mono; [apply kfree_spec; [done|apply Hw|]|].
    + rewrite Hl2. intros [Hin|(d & Hd & Hp & E)]; [by apply (Ho1 pgdir); [left|]|].
      by apply (proj2 (pw_tab _ _ Hw1 d Hd Hp)).
    + intros [] s3 (Hf3 & Hr3 & Hm3). eexists. split; [done|]. split; [|split].
      * intros v. rewrite elem_of_cons, Hl2, (sh_free _ _ _ _ _ _ _ Hs).
        assert (tpage (mem s) pgdir v <-> v = pgdir \/ exists d, 0 <= d < 1024 /\
          pde_present (mem s1) pgdir d = true /\ v = table (mem s1) pgdir d) as ->
          by (symmetry; apply (sh_tpage _ _ _ _ _ _ _ Hs)).
        unfold uframe, user_vpn. tauto.
      * eapply same_regs_trans; [apply Hs|]. by eapply same_regs_trans.
      * intros a Ha. rewrite Hm3, Hm2, (sh_mem _ _ _ _ _ _ _ Hs); [done| | | |].
        -- intros v Hv. apply Ha. by left.
        -- intros vpn Hv Hmp. apply Ha. right. by exists vpn.
        -- intros d Hd Hp. apply Ha. left. apply (sh_tpage _ _ _ _ _ _ _ Hs). auto.
        -- apply Ha. left. by left.
Qed.

(** ** setupkvm *)

Definition km_size (k : kmap_entry) : Z := u32 (km_end k - km_start k).

(** The entry that a kernel map gives page [vpn]. *)
Fixpoint kmap_pte (ks : list kmap_entry) (vpn : Z) : option Z :=
  match ks with
  | [] => None
  | k :: ks =>
      if decide (km_virt k / 4096 <= vpn < km_virt k / 4096 + km_size k / 4096)
      then Some (map_entry (u32 (km_start k + 4096 * (vpn - km_virt k / 4096))) (km_perm k))
      else kmap_pte ks vpn
  end.

(** The regions of a map are page aligned, in order and disjoint. *)
Fixpoint kmap_sorted (lo : Z) (ks : list kmap_entry) : Prop :=
  match ks with
  | [] => True
  | k :: ks =>
      (lo <= km_virt k / 4096 /\ 0 <= km_virt k /\ km_virt k mod 4096 = 0 /\
       km_size k mod 4096 = 0 /\ 0 < km_size k /\ km_virt k + km_size k <= 4294967296 /\
       is_u32 (km_start k) /\ 0 <= km_perm k < 4096) /\
      kmap_sorted (km_virt k / 4096 + km_size k / 4096) ks
  end.

Lemma kmap_pte_low ks lo vpn : kmap_sorted lo ks -> vpn < lo -> kmap_pte ks vpn = None.
Proof.
  revert lo. induction ks as [|k ks IH]; intros lo; [done|]. cbn. intros [Hk Hs] Hv.
  rewrite decide_False by lia. eapply IH; [done|]. dlia.
Qed.

(** An address space without user pages. *)
Lemma as_inv_empty s pgdir l :
  vm_inv s pgdir l -> (forall vpn, user_vpn vpn -> mapped (pte_at (mem s) pgdir vpn) = false) ->
  as_inv s pgdir l.
Proof.
  intros Hi Hn. split; [done| |].
  - intros vpn Hv Hm. by rewrite Hn in Hm.
  - intros vpn vpn' Hv _ Hm. by rewrite Hn in Hm.
Qed.

(** What an operation that built a table from free pages and failed leaves:
    all pages are free again. *)
Definition undone s s' (l : list Z) : Prop :=
  exists l', free_pages s' l' /\ (forall v, v ∈ l' <-> v ∈ l) /\ same_regs s s' /\
  (forall a, (forall v, v ∈ l -> ~ in_page v a) -> load8 (mem s') a = load8 (mem s) a).

Lemma setupkvm_loop_spec ks lo s pgdir l :
  vm_inv s pgdir l -> kmap_sorted lo ks -> 524288 <= lo ->
  (forall vpn, vpn_ok vpn -> user_vpn vpn \/ lo <= vpn -> mapped (pte_at (mem s) pgdir vpn) = false) ->
  wp (setupkvm_loop pgdir ks) s (fun r s' =>
    match r with
    | Some p => p = pgdir /\ exists l', grows s s' pgdir l l' /\
        forall vpn, vpn_ok vpn ->
          pte_at (mem s') pgdir vpn = default (pte_at (mem s) pgdir vpn) (kmap_pte ks vpn)
    | None => exists l', free_pages s' l' /\
        (forall v, v ∈ l' <-> v ∈ l \/ tpage (mem s) pgdir v) /\ same_regs s s' /\
        (forall a, (forall v, v ∈ l \/ tpage (mem s) pgdir v -> ~ in_page v a) ->
           load8 (mem s') a = load8 (mem s) a)
    end).
Proof.
  revert lo s l. induction ks as [|k ks IH]; intros lo s l Hi Hs Hlo Hun; cbn [setupkvm_loop].
  { wstep. split; [done|]. exists l. split; [by apply grows_refl|done]. }
  cbn in Hs. destruct Hs as [(H1 & H2 & H3 & H4 & H5 & H6 & H7 & H8) Hs]. fold (km_size k).
  assert (npages (km_virt k) (km_size k) = km_size k / 4096) as Hn by (unfold npages; dlia).
  wstep. eapply wp_mono; [apply (mappages_spec s pgdir l); try done|].
  { intros i Hk. apply Hun; [unfold vpn_ok; dlia|right; lia]. }
  intros r s1 (l1 & i & Hg & Hk & Hp & Hr). rewrite Hn in *.
  destruct Hr as [[-> ->]|(-> & Hlt & ->)]; cbn [Z.ltb Z.compare].
  - eapply wp_mono; [apply (IH (km_virt k / 4096 + km_size k / 4096) s1 l1)|].
    + apply Hg.
    + done.
    + dlia.
    + intros vpn Hv Hor. rewrite Hp by done. unfold user_vpn in Hor.
      rewrite decide_False by dlia. apply Hun; [done|]. unfold user_vpn. dlia.
    + intros [p|] s2; cbn beta iota.
      * intros (-> & l2 & Hg2 & Hp2). split; [done|]. exists l2.
        split; [by eapply grows_trans|]. intros vpn Hv. cbn. rewrite Hp2, Hp by done.
        case_decide as Hin; [|done].
        rewrite (kmap_pte_low _ _ _ Hs) by lia. done.
      * intros (l2 & Hf2 & Hl2 & Hr2 & Hm2). exists l2. split; [done|]. split; [|split].
        -- intros v. rewrite Hl2, (gr_tpage _ _ _ _ _ Hg).
           pose proof (suffix_elem _ _ v (gr_suffix _ _ _ _ _ Hg)).
           destruct (decide (v ∈ l1)); tauto.
        -- eapply same_regs_trans; [apply Hg|done].
        -- intros a Ha. rewrite Hm2, (gr_mem _ _ _ _ _ Hg); [done| |].
           ++ intros v Hv. apply Ha. apply (gr_tpage _ _ _ _ _ Hg) in Hv. tauto.
           ++ intros v [Hv|Hv]; apply Ha;
                [left; eapply suffix_elem; [apply (gr_suffix _ _ _ _ _ Hg)|done]|].
              apply (gr_tpage _ _ _ _ _ Hg) in Hv. tauto.
  - wstep. eapply wp_mono; [apply (freevm_spec s1 pgdir [])|].
    { apply as_inv_empty; [apply Hg|]. intros vpn Hv. rewrite Hp by (by apply user_vpn_ok).
      unfold user_vpn in Hv. rewrite decide_False by lia.
      apply Hun; [unfold vpn_ok; lia|by left]. }
    intros [] s2 (l2 & Hf2 & Hl2 & Hr2 & Hm2). wstep. exists l2.
    assert (forall v, uframe (mem s1) pgdir v -> False) as Hnf.
    { intros v (vpn & Hv & Hm & _). unfold user_vpn in Hv. rewrite Hp in Hm by (unfold vpn_ok; lia).
      rewrite decide_False in Hm by lia. rewrite Hun in Hm; [done|unfold vpn_ok; lia|by left]. }
    assert (forall v, tpage (mem s1) pgdir v <-> v ∈ l \/ tpage (mem s) pgdir v) as Htp.
    { intros v. rewrite (gr_tpage _ _ _ _ _ Hg). pose proof (not_elem_of_nil v). tauto. }
    split; [done|]. split; [|split].
    + intros v. rewrite Hl2, Htp. pose proof (Hnf v). pose proof (not_elem_of_nil v). tauto.
    + eapply same_regs_trans; [apply Hg|done].
    + intros a Ha. rewrite Hm2, (gr_mem _ _ _ _ _ Hg); [done| |].
      * intros v Hv. apply Ha. by apply Htp.
      * intros v [Hv|Hv]; [|by destruct (Hnf v)]. apply Ha. by apply Htp.
Qed.
End VmProofs.
