(* ===== verification/VmSpaces.v ===== *)
(** * Whole address spaces

    [setupkvm], [allocuvm], [inituvm] and [copyuvm]: what they map, on
    success and on failure, and that failure gives every page back. *)

From S2P Require Import Prelude Memory Mmu Machine Spinlock Kalloc Vm PageTable VmProofs.

Section VmSpaces.
Context `{KI : KernelImage, PO : !PageOps, PA : !PageAllocator}.
Implicit Types s : machine.

(** [built s s' pgdir l l']: from [s] to [s'] an address space has been
    built from the pages of [l] that are not in [l'], changing no memory
    outside [l]. *)
Record built s s' (pgdir : Z) (l l' : list Z) : Prop := {
  bu_inv : as_inv s' pgdir l';
  bu_sub v : v ∈ l' -> v ∈ l;
  bu_owned v : tpage (mem s') pgdir v \/ uframe (mem s') pgdir v <-> v ∈ l /\ v ∉ l';
  bu_regs : same_regs s s';
  bu_mem a : (forall v, v ∈ l -> ~ in_page v a) -> load8 (mem s') a = load8 (mem s) a;
}.

(** The directory page after [memset]. *)
Lemma zero_dir_wf m pgdir :
  page_ok pgdir -> (forall a, in_page pgdir a -> load8 m a = 0) ->
  pgdir_wf m pgdir /\ forall d, 0 <= d < 1024 -> pde_at m pgdir d = 0.
Proof.
  intros Hok Hz.
  assert (forall d, 0 <= d < 1024 -> pde_at m pgdir d = 0) as Hp.
  { intros d Hd. unfold pde_at, load32. rewrite !Hz by (unfold in_page, PGSIZE; lia). done. }
  assert (forall d, 0 <= d < 1024 -> pde_present m pgdir d = false) as Hp'
    by (intros d Hd; unfold pde_present; rewrite Hp; done).
  split; [|done]. split; [done| | |by auto|].
  - intros d Hd H. by rewrite Hp' in H.
  - intros d e Hd He H. by rewrite Hp' in H.
  - intros d Hd H. by rewrite Hp' in H.
Qed.

Lemma kmap_kernel : kmap_sorted 524288 kmap.
Proof.
  pose proof kernel_image as HK. pose proof kdata_aligned as HA. unfold kmap, kmap_sorted, km_size.
  cbn [km_virt km_start km_end km_perm]. unfold PTE_W. consts. split_and!; dlia.
Qed.

Lemma setupkvm_spec s l :
  free_pages s l ->
  wp setupkvm s (fun r s' =>
    match r with
    | None => undone s s' l
    | Some pgdir => exists l', built s s' pgdir l l' /\
        forall vpn, vpn_ok vpn -> pte_at (mem s') pgdir vpn = default 0 (kmap_pte kmap vpn)
    end).
Proof.
  intros Hf. unfold setupkvm. destruct (free_pages_ok _ _ Hf) as [Hnd Hok].
  wstep. eapply wp_mono; [by apply kalloc_spec|]. intros r s1 (Hm1 & Hr1 & -> & Hf1).
  destruct l as [|pgdir l]; cbn [head tail] in *.
  { wstep. exists []. split_and!; try done. intros. by rewrite Hm1. }
  inversion Hok as [|? ? Hpg Hok']; subst. inversion Hnd as [|? ? Hpl Hnd']; subst.
  rewrite Forall_forall in Hok'.
  unfold kmemset. wsteps. change (DEVSPACE <? P2V PHYSTOP) with false. cbn iota.
  set (s2 := set_mem _ s1).
  assert (forall a, load8 (mem s2) a = if decide (in_page pgdir a) then 0 else load8 (mem s) a) as Hm2.
  { intros a. unfold s2; cbn. rewrite load8_memset by (consts; lia). rewrite Hm1.
    unfold in_page. repeat case_decide; try done; lia. }
  destruct (zero_dir_wf (mem s2) pgdir Hpg) as [Hw2 Hz2].
  { intros a Ha. rewrite Hm2. by rewrite decide_True. }
  assert (forall v, tpage (mem s2) pgdir v <-> v = pgdir) as Htp.
  { intros v. split; [|by left]. intros [->|(d & Hd & Hp & _)]; [done|].
    unfold pde_present in Hp. by rewrite Hz2 in Hp. }
  assert (forall vpn, vpn_ok vpn -> pte_at (mem s2) pgdir vpn = 0) as Hpte.
  { intros vpn Hv. unfold pte_at, pde_present. by rewrite Hz2 by (by apply vpn_dir). }
  assert (vm_inv s2 pgdir l) as Hi2.
  { split; [|done|].
    - apply free_pages_frame; [done|]. intros v a Hv Ha. rewrite Hm1, <- Hm1.
      change (memset (mem s1) (V2P pgdir) 0 PGSIZE) with (mem s2). rewrite Hm2, Hm1.
      rewrite decide_False; [done|]. intros Ha'. apply Hpl.
      by rewrite (Impl.in_page_disj pgdir v a) by auto.
    - intros v ->%Htp. done. }
  eapply wp_mono; [apply (setupkvm_loop_spec kmap 524288 s2 pgdir l); try done|].
  { apply kmap_kernel. }
  { intros vpn Hv _. by rewrite Hpte. }
  intros [p|] s3; cbn beta iota.
  - intros (-> & l3 & Hg & Hp3). exists l3. split.
    + assert (forall vpn, user_vpn vpn -> mapped (pte_at (mem s3) pgdir vpn) = false) as Hnu.
      { intros vpn Hv. rewrite Hp3, Hpte by (by apply user_vpn_ok).
        rewrite (kmap_pte_low _ _ _ kmap_kernel) by apply Hv. done. }
      pose proof (suffix_elem l l3) as Hsf. specialize (Hsf).
      split.
      * apply as_inv_empty; [apply Hg|done].
      * intros v Hv. right. by apply (Hsf v (gr_suffix _ _ _ _ _ Hg)).
      * intros v. rewrite (gr_tpage _ _ _ _ _ Hg), Htp, elem_of_cons.
        pose proof (Hsf v (gr_suffix _ _ _ _ _ Hg)) as Hv. split.
        -- intros [[->|?]|(vpn & Hu & Hm & _)]; [|tauto|by rewrite Hnu in Hm].
           split; [by left|]. tauto.
        -- tauto.
      * eapply same_regs_trans; [done|]. eapply same_regs_trans; [|apply Hg]. by split_and!.
      * intros a Ha. rewrite (gr_mem _ _ _ _ _ Hg), Hm2.
        -- rewrite decide_False; [done|]. apply Ha. by left.
        -- intros v Hv. apply Ha. apply (gr_tpage _ _ _ _ _ Hg) in Hv. rewrite Htp in Hv.
           rewrite elem_of_cons. tauto.
    + intros vpn Hv. by rewrite Hp3, Hpte.
  - intros (l3 & Hf3 & Hl3 & Hr3 & Hm3). exists l3. split; [done|]. split; [|split].
    + intros v. rewrite Hl3, Htp, elem_of_cons. tauto.
    + eapply same_regs_trans; [done|]. eapply same_regs_trans; [|done]. by split_and!.
    + intros a Ha. rewrite Hm3, Hm2.
      * rewrite decide_False; [done|]. apply Ha. by left.
      * intros v Hv. rewrite Htp in Hv. apply Ha. rewrite elem_of_cons. tauto.
Qed.

(** ** Mapping fresh pages *)

Lemma map_entry_page v perm :
  page_ok v -> 0 <= perm < 4096 ->
  mapped (map_entry (V2P v) perm) = true /\ frame (map_entry (V2P v) perm) = v.
Proof.
  intros Hv Hp. destruct (page_ok_phys v Hv) as (H1 & H2 & H3). split.
  - unfold mapped, map_entry. destruct (flag perm PTE_E); by flags.
  - unfold frame, map_entry. rewrite <- !(Z.lor_assoc (V2P v)).
    assert (forall f, 0 <= f < 4096 -> PTE_ADDR (Z.lor (V2P v) (Z.lor perm f)) = V2P v) as HA.
    { intros f Hf. apply PTE_ADDR_make; [done|]. apply (lor_bound 12); lia. }
    destruct (flag perm PTE_E); rewrite HA by closed; apply P2V_V2P, page_ok_u32, Hv.
Qed.

(** [extends s s' pgdir l l' held lo hi perm cont]: from [s] to [s'] pages
    [lo] to [hi] have been mapped to fresh pages of [l], page [vpn] with the
    permissions [perm vpn] and the bytes [cont vpn]; [l'] is still free and
    [held] is allocated and not yet mapped. *)
Record extends s s' (pgdir : Z) (l l' held : list Z) (lo hi : Z)
    (perm : Z -> Z) (cont : Z -> Z -> Z) : Prop := {
  ex_inv : as_inv s' pgdir l';
  ex_sub v : v ∈ l' -> v ∈ l;
  ex_held v : v ∈ held -> v ∈ l /\ v ∉ l';
  ex_new vpn : lo <= vpn < hi -> exists v, v ∈ l /\ page_ok v /\
    pte_at (mem s') pgdir vpn = map_entry (V2P v) (perm vpn) /\
    (forall k, 0 <= k < 4096 -> load8 (mem s') (V2P v + k) = cont vpn k);
  ex_pte vpn : vpn_ok vpn -> ~ (lo <= vpn < hi) ->
    pte_at (mem s') pgdir vpn = pte_at (mem s) pgdir vpn;
  ex_tpage v : tpage (mem s) pgdir v -> tpage (mem s') pgdir v;
  ex_tpage_new v : tpage (mem s') pgdir v -> tpage (mem s) pgdir v \/ v ∈ l;
  ex_owned v : tpage (mem s') pgdir v \/ uframe (mem s') pgdir v <->
    (tpage (mem s) pgdir v \/ uframe (mem s) pgdir v) \/ (v ∈ l /\ (v ∉ l') /\ v ∉ held);
  ex_regs : same_regs s s';
  ex_mem a : (forall v, tpage (mem s) pgdir v -> ~ in_page v a) ->
    (forall v, v ∈ l -> ~ in_page v a) -> load8 (mem s') a = load8 (mem s) a;
}.

#[global] Arguments ex_inv {_ _ _ _ _ _ _ _ _ _} _.
#[global] Arguments ex_sub {_ _ _ _ _ _ _ _ _ _} _.
#[global] Arguments ex_held {_ _ _ _ _ _ _ _ _ _} _.
#[global] Arguments ex_new {_ _ _ _ _ _ _ _ _ _} _.
#[global] Arguments ex_pte {_ _ _ _ _ _ _ _ _ _} _.
#[global] Arguments ex_tpage {_ _ _ _ _ _ _ _ _ _} _.
#[global] Arguments ex_tpage_new {_ _ _ _ _ _ _ _ _ _} _.
#[global] Arguments ex_owned {_ _ _ _ _ _ _ _ _ _} _.
#[global] Arguments ex_regs {_ _ _ _ _ _ _ _ _ _} _.
#[global] Arguments ex_mem {_ _ _ _ _ _ _ _ _ _} _.

Lemma owned_not_free s pgdir l v :
  as_inv s pgdir l -> tpage (mem s) pgdir v \/ uframe (mem s) pgdir v -> v ∉ l.
Proof.
  intros Hi [Ht|(vpn & Hu & Hm & ->)]; [by apply (vi_owned _ _ _ (ai_vm _ _ _ Hi))|].
  by apply (ai_frame _ _ _ Hi).
Qed.

Lemma free_page_ok s pgdir l v : as_inv s pgdir l -> v ∈ l -> page_ok v.
Proof.
  intros Hi. destruct (free_pages_ok _ _ (vi_free _ _ _ (ai_vm _ _ _ Hi))) as [_ Hok].
  rewrite Forall_forall in Hok. apply Hok.
Qed.

Lemma extends_refl s pgdir l lo perm cont :
  as_inv s pgdir l -> extends s s pgdir l l [] lo lo perm cont.
Proof.
  intros Hi. split; try done.
  - intros v Hv. by apply not_elem_of_nil in Hv.
  - lia.
  - by left.
  - intros v. tauto.
Qed.

(** A byte of a page that is mapped in the middle state stays. *)
Lemma extends_frame s s' pgdir l l' held lo hi perm cont v k :
  extends s s' pgdir l l' held lo hi perm cont -> as_inv s pgdir l ->
  page_ok v -> uframe (mem s) pgdir v -> 0 <= k < 4096 ->
  load8 (mem s') (V2P v + k) = load8 (mem s) (V2P v + k).
Proof.
  intros He Hi Hv Hu Hk.
  assert (in_page v (V2P v + k)) as Hin by (unfold in_page, PGSIZE; lia).
  pose proof (vi_wf _ _ _ (ai_vm _ _ _ Hi)) as Hw.
  apply (ex_mem He); intros w Hw' Hin'.
  - assert (w = v) as -> by (eapply Impl.in_page_disj; eauto using tpage_ok).
    destruct Hu as (vpn & Hu & Hm & ->). by apply (ai_frame _ _ _ Hi vpn).
  - assert (w = v) as -> by (eapply Impl.in_page_disj; eauto using free_page_ok).
    by apply (owned_not_free _ _ _ _ Hi (or_intror Hu)).
Qed.

Lemma extends_trans s1 s2 s3 pgdir l1 l2 l3 held lo mid hi perm cont :
  (forall vpn, 0 <= perm vpn < 4096) -> 0 <= lo -> lo <= mid <= hi -> hi <= 524288 ->
  extends s1 s2 pgdir l1 l2 [] lo mid perm cont ->
  extends s2 s3 pgdir l2 l3 held mid hi perm cont ->
  extends s1 s3 pgdir l1 l3 held lo hi perm cont.
Proof.
  intros Hperm H0 Hlo Hhi H1 H2. pose proof (ex_inv H1) as Hi2.
  assert (forall v, v ∈ l2 -> v ∈ l1) as Hsub.
  { intros v. apply H1. }
  assert (forall v, v ∈ l3 -> v ∈ l2) as Hsub'.
  { intros v. apply H2. }
  split.
  - apply H2.
  - auto.
  - intros v Hv. apply (ex_held H2) in Hv as [Hv ?]. auto.
  - intros vpn Hv. destruct (decide (vpn < mid)) as [Hlt|Hge].
    + destruct (ex_new H1 vpn) as (v & Hl & Hok & Hp & Hc); [lia|].
      exists v. split; [done|]. split; [done|].
      rewrite (ex_pte H2) by (unfold vpn_ok; lia). split; [done|].
      intros k Hk. rewrite <- Hc by done. eapply extends_frame; try done.
      exists vpn. destruct (map_entry_page v (perm vpn) Hok (Hperm vpn)) as [Hm Hf].
      rewrite Hp. unfold user_vpn. split; [lia|done].
    + destruct (ex_new H2 vpn) as (v & Hl & H); [lia|]. exists v. auto.
  - intros vpn Hv Hn. rewrite (ex_pte H2) by (done || lia).
    apply (ex_pte H1); [done|lia].
  - intros v Hv. apply (ex_tpage H2), (ex_tpage H1), Hv.
  - intros v [Hv|Hv]%(ex_tpage_new H2); [|right; auto].
    by apply (ex_tpage_new H1).
  - intros v. rewrite (ex_owned H2), (ex_owned H1).
    pose proof (Hsub v). pose proof (Hsub' v). pose proof (not_elem_of_nil v).
    pose proof (ex_held H2 v). destruct (decide (v ∈ l2)); tauto.
  - eapply same_regs_trans; [apply H1|apply H2].
  - intros a Ht Hl. rewrite (ex_mem H2); [by apply (ex_mem H1)| |auto].
    intros v [Hv|Hv]%(ex_tpage_new H1); auto.
Qed.

(** The table after one more page [v] may have been mapped at [vpn], and
    table pages taken from [l]. *)
Section MapOne.
Variables (s s' : machine) (pgdir v vpn perm : Z) (l l' : list Z).
Hypothesis Hi : as_inv s pgdir (v :: l).
Hypothesis Hv' : vm_inv s' pgdir l'.
Hypothesis Hsf : l' `suffix_of` l.
Hypothesis Htp : forall w, tpage (mem s') pgdir w <-> tpage (mem s) pgdir w \/ (w ∈ l /\ w ∉ l').

Lemma map_one_fresh : page_ok v /\ (v ∉ l) /\ (v ∉ l') /\ ~ (tpage (mem s') pgdir v).
Proof using Hi Hsf Htp.
  pose proof (free_page_ok _ _ _ v Hi (list_elem_of_here _ _)) as Hok.
  destruct (free_pages_ok _ _ (vi_free _ _ _ (ai_vm _ _ _ Hi))) as [Hnd _].
  apply NoDup_cons in Hnd as [Hvl _]. split; [done|]. split; [done|]. split.
  - intros Hv. apply Hvl. by eapply suffix_elem.
  - rewrite Htp. intros [Ht|[Ht _]]; [|done].
    apply (vi_owned _ _ _ (ai_vm _ _ _ Hi)) in Ht. apply Ht. by left.
Qed.

Lemma map_one_old w :
  uframe (mem s) pgdir w -> page_ok w /\ w <> v /\ (w ∉ l') /\ ~ (tpage (mem s') pgdir w).
Proof using Hi Hsf Htp.
  intros (vpn' & Hu' & Hm & ->). destruct (ai_frame _ _ _ Hi vpn' Hu' Hm) as (H1 & H2 & H3).
  rewrite not_elem_of_cons in H2. destruct H2 as [H2 H4]. split; [done|]. split; [done|]. split.
  - intros Hin. apply H4. by eapply suffix_elem.
  - rewrite Htp. tauto.
Qed.

Section Mapped.
Hypothesis Hu : user_vpn vpn.
Hypothesis Hperm : 0 <= perm < 4096.
Hypothesis Hfree : mapped (pte_at (mem s) pgdir vpn) = false.
Hypothesis Hpte : forall vpn', vpn_ok vpn' -> pte_at (mem s') pgdir vpn' =
  if decide (vpn' = vpn) then map_entry (V2P v) perm else pte_at (mem s) pgdir vpn'.

Lemma map_one_uframe w : uframe (mem s') pgdir w <-> uframe (mem s) pgdir w \/ w = v.
Proof using Hi Hsf Htp Hu Hperm Hfree Hpte.
  destruct map_one_fresh as (Hok & _). destruct (map_entry_page v perm Hok Hperm) as [Hm Hf]. split.
  - intros (vpn' & Hu' & Hm' & ->). rewrite Hpte in Hm' |- * by (by apply user_vpn_ok).
    destruct (decide (vpn' = vpn)); [by right|left]. by exists vpn'.
  - intros [(vpn' & Hu' & Hm' & ->)| ->].
    + assert (vpn' <> vpn) by (intros ->; congruence). exists vpn'. split; [done|].
      by rewrite Hpte, decide_False by (done || by apply user_vpn_ok).
    + exists vpn. split; [done|]. by rewrite Hpte, decide_True by (done || by apply user_vpn_ok).
Qed.

Lemma map_one_as_inv : as_inv s' pgdir l'.
Proof using Hi Hv' Hsf Htp Hu Hperm Hfree Hpte.
  destruct map_one_fresh as (Hok & Hvl & Hvl' & Hvt).
  destruct (map_entry_page v perm Hok Hperm) as [Hm Hf].
  split; [done| |].
  - intros vpn' Hu' Hm'.
    assert (uframe (mem s') pgdir (frame (pte_at (mem s') pgdir vpn'))) as Hw by (by exists vpn').
    apply map_one_uframe in Hw as [Hw| ->]; [|done]. apply map_one_old in Hw. tauto.
  - intros v1 v2 Hu1 Hu2. rewrite !Hpte by (by apply user_vpn_ok).
    destruct (decide (v1 = vpn)), (decide (v2 = vpn)); subst; try done; rewrite ?Hf.
    + intros _ Hm2 E. destruct (map_one_old v) as (_ & Hne & _); [by exists v2|done].
    + intros Hm1 _ E. destruct (map_one_old v) as (_ & Hne & _); [by exists v1|done].
    + by apply (ai_inj _ _ _ Hi).
Qed.
End Mapped.

Section Unmapped.
Hypothesis Hpte : forall vpn', vpn_ok vpn' -> pte_at (mem s') pgdir vpn' = pte_at (mem s) pgdir vpn'.

Lemma map_none_uframe w : uframe (mem s') pgdir w <-> uframe (mem s) pgdir w.
Proof using Hpte.
  split; intros (vpn' & Hu' & Hm' & ->); exists vpn'; rewrite Hpte in * by (by apply user_vpn_ok);
    done.
Qed.

Lemma map_none_as_inv : as_inv s' pgdir l'.
Proof using Hi Hv' Hsf Htp Hpte.
  split; [done| |].
  - intros vpn' Hu' Hm'.
    assert (uframe (mem s') pgdir (frame (pte_at (mem s') pgdir vpn'))) as Hw by (by exists vpn').
    apply map_none_uframe, map_one_old in Hw. tauto.
  - intros v1 v2 Hu1 Hu2. rewrite !Hpte by (by apply user_vpn_ok). by apply (ai_inj _ _ _ Hi).
Qed.
End Unmapped.
End MapOne.

(** Mapping a page that has just been allocated and filled. *)
Lemma map_fresh s s1 pgdir v l vpn perm cont :
  as_inv s pgdir (v :: l) -> same_regs s s1 -> free_pages s1 l ->
  (forall a, ~ in_page v a -> load8 (mem s1) a = load8 (mem s) a) ->
  (forall k, 0 <= k < 4096 -> load8 (mem s1) (V2P v + k) = cont vpn k) ->
  user_vpn vpn -> mapped (pte_at (mem s) pgdir vpn) = false -> 0 <= perm vpn < 4096 ->
  wp (mappages pgdir (4096 * vpn) PGSIZE (V2P v) (perm vpn)) s1 (fun r s' =>
    r = 0 /\ (exists l', extends s s' pgdir (v :: l) l' [] vpn (vpn + 1) perm cont) \/
    r = -1 /\ extends s s' pgdir (v :: l) [] [v] vpn vpn perm cont).
Proof.
  intros Hi Hr Hf Hm Hc Hu Hn Hp.
  pose proof (free_page_ok _ _ _ v Hi (list_elem_of_here _ _)) as Hok.
  destruct (free_pages_ok _ _ (vi_free _ _ _ (ai_vm _ _ _ Hi))) as [Hnd _].
  apply NoDup_cons in Hnd as [Hvl _].
  pose proof (vi_wf _ _ _ (ai_vm _ _ _ Hi)) as Hw.
  assert (forall w, tpage (mem s) pgdir w -> w <> v /\ w ∉ l) as Hnt.
  { intros w Ht. apply not_elem_of_cons. by apply (vi_owned _ _ _ (ai_vm _ _ _ Hi)). }
  assert (table_agree (mem s) (mem s1) pgdir) as Ha.
  { intros w a Ht Hin. apply Hm. intros Hin'. destruct (Hnt w Ht) as [Hne _]. apply Hne.
    eapply Impl.in_page_disj; eauto using tpage_ok. }
  assert (vm_inv s1 pgdir l) as Hv1.
  { split; [done|by eapply pgdir_wf_agree|]. intros w Ht.
    rewrite (tpage_agree _ _ _ _ Ha) in Ht. by apply Hnt. }
  assert (4096 * vpn / 4096 = vpn) as Hvpn by dlia. unfold user_vpn in Hu.
  assert (is_u32 (V2P v)) by (destruct (page_ok_phys v Hok); consts; lia).
  eapply wp_mono; [apply (mappages_page s1 pgdir l); try done|].
  { consts; lia. }
  { dlia. }
  { rewrite Hvpn, (pte_agree _ _ _ _ Ha) by (by apply user_vpn_ok). done. }
  rewrite Hvpn. intros r s' (l' & Hg & Hcase).
  assert (forall w, tpage (mem s') pgdir w <-> tpage (mem s) pgdir w \/ (w ∈ l /\ w ∉ l')) as Htp.
  { intros w. rewrite (gr_tpage _ _ _ _ _ Hg), (tpage_agree _ _ _ _ Ha). done. }
  destruct (map_one_fresh s s' pgdir v l l') as (_ & _ & Hvl' & Hvt); [done|apply Hg|done|].
  assert (same_regs s s') as Hr' by (eapply same_regs_trans; [done|apply Hg]).
  assert (forall w, w ∈ l' -> w ∈ v :: l) as Hsf.
  { intros w Hw'. right. by eapply suffix_elem; [apply Hg|]. }
  assert (forall a, (forall w, tpage (mem s) pgdir w -> ~ in_page w a) ->
    (forall w, w ∈ v :: l -> ~ in_page w a) -> load8 (mem s') a = load8 (mem s) a) as Hm'.
  { intros a H1 H2. rewrite (gr_mem _ _ _ _ _ Hg); [apply Hm, H2; by left|].
    intros w [Hw'|[Hw' _]]%Htp; [by apply H1|]. apply H2. by right. }
  pose proof (gr_suffix _ _ _ _ _ Hg) as Hsl. pose proof (suffix_elem l l') as Hse.
  assert (forall w, tpage (mem s') pgdir w -> tpage (mem s) pgdir w \/ w ∈ v :: l) as Htn.
  { intros w [Hw'|[Hw' _]]%Htp; [by left|right; by right]. }
  destruct Hcase as [[-> Hp']|(-> & -> & Hp')]; [left|right]; (split; [done|]).
  - exists l'.
    assert (forall vpn', vpn_ok vpn' -> pte_at (mem s') pgdir vpn' =
      if decide (vpn' = vpn) then map_entry (V2P v) (perm vpn) else pte_at (mem s) pgdir vpn') as Hp2.
    { intros vpn' Hvp. rewrite Hp', (pte_agree _ _ _ _ Ha) by done. done. }
    split; try done.
    + eapply map_one_as_inv; try done. apply Hg.
    + intros w Hw'. by apply not_elem_of_nil in Hw'.
    + intros vpn' Hvp. replace vpn' with vpn by lia. exists v. split; [by left|]. split; [done|].
      rewrite Hp2, decide_True by (done || by apply user_vpn_ok). split; [done|].
      intros k Hk. rewrite <- Hc by done. apply (gr_mem _ _ _ _ _ Hg). intros w Ht Hin. apply Hvt.
      replace v with w; [done|]. eapply Impl.in_page_disj; eauto using tpage_ok, vi_wf, gr_inv.
      unfold in_page, PGSIZE. lia.
    + intros vpn' Hvp Hne. rewrite Hp2, decide_False by (done || lia). done.
    + intros w Ht. apply Htp. by left.
    + intros w. rewrite Htp, (map_one_uframe s s' pgdir v vpn (perm vpn) l l') by done.
      rewrite elem_of_cons. pose proof (not_elem_of_nil w). pose proof (Hse w Hsl).
      destruct (decide (w = v)) as [->|]; tauto.
  - assert (forall vpn', vpn_ok vpn' -> pte_at (mem s') pgdir vpn' = pte_at (mem s) pgdir vpn') as Hp2.
    { intros vpn' Hvp. rewrite Hp', (pte_agree _ _ _ _ Ha) by done. done. }
    split; try done.
    + eapply map_none_as_inv; try done. apply Hg.
    + intros w ->%list_elem_of_singleton. split; [by left|done].
    + intros vpn' Hvp. lia.
    + intros vpn' Hvp _. by apply Hp2.
    + intros w Ht. apply Htp. by left.
    + intros w. rewrite Htp, (map_none_uframe s s' pgdir) by done.
      rewrite list_elem_of_singleton, elem_of_cons. pose proof (not_elem_of_nil w).
      destruct (decide (w = v)) as [->|]; tauto.
Qed.

(** Filling the page just taken from the free list. *)
Lemma fill_free s s1 v l m :
  free_pages s (v :: l) -> mem s1 = mem s -> free_pages s1 l ->
  (forall a, ~ in_page v a -> load8 m a = load8 (mem s) a) -> free_pages (set_mem m s1) l.
Proof.
  intros Hf Hm Hf1 Hl. destruct (free_pages_ok _ _ Hf) as [Hnd Hok].
  apply NoDup_cons in Hnd as [Hvl _]. apply Forall_cons in Hok as [Hv Hok].
  rewrite Forall_forall in Hok.
  apply free_pages_frame; [done|]. intros w a Hw Ha. rewrite Hm. apply Hl. intros Ha'. apply Hvl.
  replace v with w; [done|]. eapply Impl.in_page_disj; eauto.
Qed.

Lemma uframe_agree m m' pgdir v :
  table_agree m m' pgdir -> uframe m' pgdir v <-> uframe m pgdir v.
Proof.
  intros Ha. unfold uframe. split; intros (vpn & Hu & H); exists vpn; (split; [done|]);
    rewrite (pte_agree _ _ _ _ Ha) in * by (by apply user_vpn_ok); done.
Qed.

(** An address space depends on its table and on which pages are free. *)
Lemma as_inv_agree s s' pgdir l l' :
  as_inv s pgdir l -> table_agree (mem s) (mem s') pgdir -> free_pages s' l' ->
  (forall v, v ∈ l' -> v ∈ l \/ ~ (tpage (mem s) pgdir v \/ uframe (mem s) pgdir v)) ->
  as_inv s' pgdir l'.
Proof.
  intros Hi Ha Hf Hl.
  assert (forall v, tpage (mem s) pgdir v \/ uframe (mem s) pgdir v -> v ∉ l') as Hn.
  { intros v Ho [Hv|Hv]%Hl; [|done]. by eapply owned_not_free in Hv. }
  split; [split; [done| |]| |].
  - eapply pgdir_wf_agree; [done|apply Hi].
  - intros v Ht%(tpage_agree _ _ _ _ Ha). auto.
  - intros vpn Hu. rewrite (tpage_agree _ _ _ _ Ha).
    rewrite !(pte_agree _ _ _ _ Ha) by (by apply user_vpn_ok). intros Hm.
    destruct (ai_frame _ _ _ Hi vpn Hu Hm) as (H1 & H2 & H3). split; [done|]. split; [|done].
    apply Hn. right. by exists vpn.
  - intros vpn vpn' Hu Hu'. rewrite !(pte_agree _ _ _ _ Ha) by (by apply user_vpn_ok).
    by apply (ai_inj _ _ _ Hi).
Qed.

(** ** allocuvm *)

(** [restored s s' pgdir l held lo hi]: pages [lo] to [hi] are unmapped
    again; every page of [l] is free, part of the table, or [held]. *)
Definition restored s s' (pgdir : Z) (l held : list Z) (lo hi : Z) : Prop :=
  exists l', as_inv s' pgdir l' /\
  (forall vpn, vpn_ok vpn -> ~ (lo <= vpn < hi) ->
     pte_at (mem s') pgdir vpn = pte_at (mem s) pgdir vpn) /\
  (forall vpn, lo <= vpn < hi -> mapped (pte_at (mem s') pgdir vpn) = false) /\
  (forall v, tpage (mem s) pgdir v -> tpage (mem s') pgdir v) /\
  (forall v, v ∈ held -> (v ∉ l') /\ ~ (tpage (mem s') pgdir v \/ uframe (mem s') pgdir v)) /\
  (forall v, (v ∈ l' \/ tpage (mem s') pgdir v) \/ v ∈ held <-> v ∈ l \/ tpage (mem s) pgdir v) /\
  same_regs s s' /\
  (forall a, (forall v, tpage (mem s) pgdir v -> ~ in_page v a) ->
     (forall v, v ∈ l -> ~ in_page v a) -> load8 (mem s') a = load8 (mem s) a).

Lemma shrinks_uframe s s' pgdir l l' lo hi v :
  shrinks s s' pgdir l l' lo hi -> uframe (mem s') pgdir v -> uframe (mem s) pgdir v.
Proof.
  intros Hs (vpn & Hu & Hm & ->). exists vpn. split; [done|].
  rewrite (sh_pte _ _ _ _ _ _ _ Hs) in Hm |- * by (by apply user_vpn_ok). by case_decide.
Qed.

Lemma extends_undo s s1 pgdir l held lo hi1 hi perm cont oldsz newsz :
  as_inv s pgdir l -> extends s s1 pgdir l [] held lo hi1 perm cont ->
  (forall vpn, 0 <= perm vpn < 4096) ->
  (forall vpn, lo <= vpn < hi -> mapped (pte_at (mem s) pgdir vpn) = false) ->
  lo = (oldsz + 4095) / 4096 -> hi = (newsz + 4095) / 4096 -> hi1 <= hi ->
  0 <= oldsz -> newsz <= KERNBASE ->
  wp (deallocuvm pgdir newsz oldsz) s1 (fun _ s' => restored s s' pgdir l held lo hi).
Proof.
  intros Hi He Hperm Hun -> -> Hhi Ho Hn.
  set (lo := (oldsz + 4095) / 4096) in *. set (hi := (newsz + 4095) / 4096) in *.
  pose proof (ex_inv He) as Hi1.
  assert (0 <= lo /\ hi <= 524288) as Hb by (unfold lo, hi; consts; dlia).
  eapply wp_mono; [by apply (deallocuvm_spec s1 pgdir [])|].
  cbv beta. intros _ s' (_ & l' & Hs). fold lo in Hs. fold hi in Hs.
  assert (forall vpn, vpn_ok vpn -> ~ (lo <= vpn < hi) ->
    pte_at (mem s1) pgdir vpn = pte_at (mem s) pgdir vpn) as Hp1.
  { intros vpn Hv Hnv. apply (ex_pte He); [done|lia]. }
  assert (forall vpn, lo <= vpn < hi -> mapped (pte_at (mem s1) pgdir vpn) = true ->
    lo <= vpn < hi1 /\ frame (pte_at (mem s1) pgdir vpn) ∈ l) as Hnew.
  { intros vpn Hv Hm. destruct (decide (vpn < hi1)).
    - split; [lia|]. destruct (ex_new He vpn) as (v & Hl & Hok & -> & _); [lia|].
      by destruct (map_entry_page v (perm vpn)) as [_ ->].
    - rewrite (ex_pte He) in Hm by (unfold vpn_ok; lia). by rewrite Hun in Hm. }
  assert (forall v, v ∈ l -> uframe (mem s1) pgdir v -> v ∈ l') as Hback.
  { intros v Hl (vpn & Hu & Hm & ->). apply (sh_free _ _ _ _ _ _ _ Hs). right. exists vpn.
    split; [|done]. destruct (decide (lo <= vpn < hi)); [done|exfalso].
    rewrite Hp1 in Hm, Hl by (done || by apply user_vpn_ok).
    destruct (ai_frame _ _ _ Hi vpn Hu Hm) as (_ & ? & _). done. }
  assert (forall v, v ∈ l' -> v ∈ l /\ uframe (mem s1) pgdir v) as Hl'.
  { intros v [Hv|(vpn & Hv & Hm & ->)]%(sh_free _ _ _ _ _ _ _ Hs); [by apply not_elem_of_nil in Hv|].
    split; [by apply Hnew|]. exists vpn. split; [unfold user_vpn; lia|done]. }
  assert (forall v, v ∈ held -> v ∈ l /\ ~ (tpage (mem s1) pgdir v \/ uframe (mem s1) pgdir v)) as Hh.
  { intros v Hv. destruct (ex_held He v Hv) as [Hl _]. split; [done|]. rewrite (ex_owned He).
    intros [Ho'|(_ & _ & ?)]; [|done]. by eapply owned_not_free in Ho'. }
  exists l'. split; [apply Hs|]. split; [|split; [|split; [|split; [|split; [|split]]]]].
  - intros vpn Hv Hnv. rewrite (sh_pte _ _ _ _ _ _ _ Hs), decide_False by (done || tauto). auto.
  - intros vpn Hv. rewrite (sh_pte _ _ _ _ _ _ _ Hs) by (unfold vpn_ok; lia).
    case_decide as Hd; [done|]. apply not_true_iff_false. tauto.
  - intros v Ht. apply (sh_tpage _ _ _ _ _ _ _ Hs), (ex_tpage He), Ht.
  - intros v Hv. rewrite (sh_tpage _ _ _ _ _ _ _ Hs). destruct (Hh v Hv) as [_ Hn1].
    split; [intros [_ ?]%Hl'; tauto|]. intros [?|?%(shrinks_uframe _ _ _ _ _ _ _ _ Hs)]; tauto.
  - intros v. rewrite (sh_tpage _ _ _ _ _ _ _ Hs). split.
    + intros [[[? _]%Hl'|[?|?]%(ex_tpage_new He)]|[? _]%Hh]; auto.
    + intros [Hv|?%(ex_tpage He)]; [|auto]. destruct (decide (v ∈ held)); [auto|left].
      destruct (proj2 (ex_owned He v)) as [?|?]; auto using not_elem_of_nil.
  - eapply same_regs_trans; [apply He|apply Hs].
  - intros a H1 H2. rewrite (sh_mem _ _ _ _ _ _ _ Hs); [by apply (ex_mem He)| |].
    + intros v [Hv|Hv]%(ex_tpage_new He); auto.
    + intros vpn Hv Hm. apply H2. by apply Hnew.
Qed.

(** The held page is given back. *)
Lemma restored_kfree s s1 pgdir l v lo hi :
  restored s s1 pgdir l [v] lo hi -> page_ok v -> v ∈ l -> 0 <= lo -> hi <= 524288 ->
  wp (kfree v) s1 (fun _ s' => restored s s' pgdir l [] lo hi).
Proof.
  intros (l' & Hi & Hp & Hun & Ht & Hh & Ho & Hr & Hm) Hv Hl Hlo Hhi.
  destruct (Hh v) as [Hvl Hvt]; [by left|].
  eapply wp_mono; [apply (kfree_spec s1 l'); [apply Hi|done|done]|].
  intros _ s' (Hf & Hr' & Hm'). cbn beta.
  assert (table_agree (mem s1) (mem s') pgdir) as Ha.
  { intros w a Hw Hin. apply Hm'. intros Hin'. apply Hvt. left. replace v with w; [done|].
    eapply Impl.in_page_disj; eauto. eapply tpage_ok; [apply Hi|done]. }
  exists (v :: l'). split; [|split; [|split; [|split; [|split; [|split; [|split]]]]]].
  - eapply as_inv_agree; [done..|]. intros w [->|Hw]%elem_of_cons; auto.
  - intros vpn Hk Hnv. rewrite (pte_agree _ _ _ _ Ha) by done. auto.
  - intros vpn Hk. rewrite (pte_agree _ _ _ _ Ha) by (unfold vpn_ok; lia). auto.
  - intros w Hw. apply (tpage_agree _ _ _ _ Ha). auto.
  - intros w Hw. by apply not_elem_of_nil in Hw.
  - intros w. rewrite <- Ho, (tpage_agree _ _ _ _ Ha), elem_of_cons, list_elem_of_singleton.
    pose proof (not_elem_of_nil w). tauto.
  - by eapply same_regs_trans.
  - intros a H1 H2. rewrite Hm'; [by apply Hm|by apply H2].
Qed.

(** Taking the lock of the allocator changes nothing here. *)
Lemma extends_same s s1 s2 pgdir l l' held lo hi perm cont :
  extends s s1 pgdir l l' held lo hi perm cont -> mem s2 = mem s1 -> same_regs s1 s2 ->
  free_pages s2 l' -> extends s s2 pgdir l l' held lo hi perm cont.
Proof.
  intros He Hm Hr Hf. destruct He. split; rewrite ?Hm; try done.
  - eapply as_inv_agree; [done| |done|by left]. intros v a _ _. by rewrite Hm.
  - by eapply same_regs_trans.
Qed.

(** [allocuvm] maps zeroed, writable user pages. *)
Definition uperm (vpn : Z) : Z := Z.lor PTE_W PTE_U.
Definition zeroed (vpn k : Z) : Z := 0.

Lemma uperm_bound vpn : 0 <= uperm vpn < 4096.
Proof. unfold uperm. closed. Qed.

Section Allocuvm.
Variables (s0 : machine) (pgdir oldsz newsz : Z) (l0 : list Z).
Let lo := (oldsz + 4095) / 4096.
Let hi := (newsz + 4095) / 4096.
Hypothesis Hi0 : as_inv s0 pgdir l0.
Hypothesis Ho : 0 <= oldsz.
Hypothesis Hon : oldsz <= newsz.
Hypothesis Hn : newsz < KERNBASE.
Hypothesis Hun : forall vpn, lo <= vpn < hi -> mapped (pte_at (mem s0) pgdir vpn) = false.

Let done_or_undone (r : Z) s' : Prop :=
  r = newsz /\ (exists l', extends s0 s' pgdir l0 l' [] lo hi uperm zeroed) \/
  r = 0 /\ restored s0 s' pgdir l0 [] lo hi.

Lemma allocuvm_loop_spec n s l vpn :
  extends s0 s pgdir l0 l [] lo vpn uperm zeroed -> lo <= vpn <= hi -> hi <= vpn + Z.of_nat n ->
  wp (allocuvm_loop pgdir (4096 * vpn) oldsz newsz n) s done_or_undone.
Proof.
  assert (0 <= lo /\ hi <= 524288) as Hb by (unfold lo, hi; consts; dlia).
  revert s l vpn. induction n as [|n IH]; intros s l vpn He Hv Hnn; cbn [allocuvm_loop].
  { destruct (Z.ltb_spec (4096 * vpn) newsz); [unfold hi in *; dlia|].
    wstep. left. split; [done|]. exists l. replace hi with vpn by lia. done. }
  destruct (Z.ltb_spec (4096 * vpn) newsz) as [Hlt|Hge]; cbn [negb].
  2: { wstep. left. split; [done|]. exists l. replace hi with vpn by (unfold hi in *; dlia). done. }
  assert (vpn < hi) as Hvh by (unfold hi; dlia).
  pose proof (ex_inv He) as Hi. pose proof (vi_free _ _ _ (ai_vm _ _ _ Hi)) as Hf.
  wstep. eapply wp_mono; [by apply kalloc_spec|]. intros o s1 (Hm1 & Hr1 & -> & Hf1).
  destruct l as [|v l]; cbn [head tail] in *.
  - wstep. eapply wp_mono.
    + apply (extends_undo s0 s1 pgdir l0 [] lo vpn hi uperm zeroed); try done; try lia.
      by apply (extends_same s0 s).
    + intros ? s2 Hres. wstep. by right.
  - assert (v ∈ l0 /\ page_ok v) as [Hvl Hok].
    { split; [|by eapply free_page_ok; [|left]]. apply (ex_sub He). by left. }
    unfold kmemset. wsteps. set (m := memset _ _ _ _).
    assert (forall a, load8 m a = if decide (in_page v a) then 0 else load8 (mem s) a) as Hm.
    { intros a. unfold m. rewrite load8_memset, Hm1 by (consts; lia).
      unfold in_page. repeat case_decide; try done; lia. }
    assert (forall a, ~ in_page v a -> load8 m a = load8 (mem s) a) as Hm'.
    { intros a Ha. by rewrite Hm, decide_False. }
    eapply wp_mono.
    { apply (map_fresh s (set_mem m s1) pgdir v l vpn uperm zeroed); try done.
      - by eapply fill_free.
      - intros k Hk. cbn. rewrite Hm, decide_True; [done|]. unfold in_page, PGSIZE. lia.
      - unfold user_vpn. lia.
      - rewrite (ex_pte He) by (unfold vpn_ok; lia). apply Hun. lia. }
    intros r s2 [[-> (l2 & He2)]|[-> He2]]; cbn [Z.ltb Z.compare].
    + replace (u32 (4096 * vpn + PGSIZE)) with (4096 * (vpn + 1)) by (consts; dlia).
      eapply IH; [|lia|lia]. apply (extends_trans s0 s s2 _ _ (v :: l) l2 [] lo vpn); (done || lia).
    + wstep. eapply wp_mono.
      { apply (extends_undo s0 s2 pgdir l0 [v] lo vpn hi uperm zeroed); try done; try lia.
        apply (extends_trans s0 s s2 _ _ (v :: l) [] [v] lo vpn); (done || lia). }
      intros ? s3 Hres. wstep. eapply wp_mono; [apply (restored_kfree s0 s3 pgdir l0 v lo hi); (done || lia)|].
      intros ? s4 Hres'. wstep. by right.
Qed.

Lemma allocuvm_spec : wp (allocuvm pgdir oldsz newsz) s0 done_or_undone.
Proof.
  unfold allocuvm. destruct (Z.leb_spec KERNBASE newsz); [lia|].
  destruct (Z.ltb_spec newsz oldsz); [lia|].
  replace (PGROUNDUP oldsz) with (4096 * lo) by (rewrite PGROUNDUP_eq; unfold lo; consts; dlia).
  eapply allocuvm_loop_spec; [by apply extends_refl|unfold lo, hi; dlia|].
  unfold lo, hi. consts. dlia.
Qed.
End Allocuvm.

(** ** copyuvm *)

(** A table built from [l] and extended from what was left. *)
Lemma built_extends s0 s1 s2 d l0 l1 l2 held lo hi perm cont :
  built s0 s1 d l0 l1 -> extends s1 s2 d l1 l2 held lo hi perm cont ->
  (forall v, tpage (mem s2) d v \/ uframe (mem s2) d v <-> v ∈ l0 /\ (v ∉ l2) /\ v ∉ held) /\
  (forall v, v ∈ l2 -> v ∈ l0) /\ (forall v, v ∈ held -> v ∈ l0) /\ same_regs s0 s2 /\
  (forall a, (forall v, v ∈ l0 -> ~ in_page v a) -> load8 (mem s2) a = load8 (mem s0) a).
Proof.
  intros Hb He. pose proof (bu_owned _ _ _ _ _ Hb) as Ho.
  pose proof (bu_sub _ _ _ _ _ Hb) as Hs1.
  assert (forall v, v ∈ l2 -> v ∈ l1) as Hs2 by apply (ex_sub He).
  split; [|split; [auto|split; [|split]]].
  - intros v. rewrite (ex_owned He), Ho. pose proof (Hs1 v). pose proof (Hs2 v).
    pose proof (ex_held He v). destruct (decide (v ∈ l1)); tauto.
  - intros v [? _]%(ex_held He). auto.
  - eapply same_regs_trans; [apply Hb|apply He].
  - intros a Ha. rewrite (ex_mem He); [by apply (bu_mem _ _ _ _ _ Hb)| |auto].
    intros v Hv. apply Ha. by apply Ho; left.
Qed.

Lemma built_free s0 s1 s2 d l0 l1 l2 lo hi perm cont :
  built s0 s1 d l0 l1 -> extends s1 s2 d l1 l2 [] lo hi perm cont -> built s0 s2 d l0 l2.
Proof.
  intros Hb He. destruct (built_extends _ _ _ _ _ _ _ _ _ _ _ _ Hb He) as (H1 & H2 & _ & H4 & H5).
  split; try done; [apply He|]. intros v. rewrite H1. pose proof (not_elem_of_nil v). tauto.
Qed.

(** Giving up: everything taken is given back. *)
Lemma built_undo s0 s d l0 l :
  built s0 s d l0 l -> wp (freevm d) s (fun _ s' => undone s0 s' l0).
Proof.
  intros Hb. eapply wp_mono; [apply (freevm_spec s d l), Hb|].
  intros [] s' (l' & Hf & Hl & Hr & Hm). exists l'. pose proof (bu_owned _ _ _ _ _ Hb) as Ho.
  split; [done|]. split; [|split].
  - intros v. rewrite Hl, Ho. pose proof (bu_sub _ _ _ _ _ Hb v). destruct (decide (v ∈ l)); tauto.
  - eapply same_regs_trans; [apply Hb|done].
  - intros a Ha. rewrite Hm; [by apply (bu_mem _ _ _ _ _ Hb)|]. intros v Hv. by apply Ha, Ho.
Qed.

(** Giving back a page allocated and not yet mapped. *)
Lemma built_kfree s0 s1 s2 d l0 l1 v lo perm cont :
  built s0 s1 d l0 l1 -> extends s1 s2 d l1 [] [v] lo lo perm cont -> page_ok v ->
  wp (kfree v) s2 (fun _ s' => built s0 s' d l0 [v]).
Proof.
  intros Hb He Hok. destruct (built_extends _ _ _ _ _ _ _ _ _ _ _ _ Hb He) as (H1 & H2 & H3 & H4 & H5).
  pose proof (ex_inv He) as Hi.
  eapply wp_mono; [apply (kfree_spec s2 []); [apply Hi|done|apply not_elem_of_nil]|].
  intros [] s3 (Hf3 & Hr3 & Hm3).
  assert (~ (tpage (mem s2) d v \/ uframe (mem s2) d v)) as Hnv.
  { rewrite H1. rewrite list_elem_of_singleton. tauto. }
  assert (table_agree (mem s2) (mem s3) d) as Ha.
  { intros w a Hw Hin. apply Hm3. intros Hin'. apply Hnv. left. replace v with w; [done|].
    eapply Impl.in_page_disj; eauto. eapply tpage_ok; [apply Hi|done]. }
  split.
  - eapply as_inv_agree; [done..|]. intros w ->%list_elem_of_singleton. by right.
  - intros w Hw. by apply H3.
  - intros w. rewrite (tpage_agree _ _ _ _ Ha), (uframe_agree _ _ _ _ Ha), H1.
    pose proof (not_elem_of_nil w). tauto.
  - by eapply same_regs_trans.
  - intros a Hna. rewrite Hm3; [by apply H5|]. apply Hna, H3. by left.
Qed.

Section Copyuvm.
Variables (s0 : machine) (pgdir sz : Z) (l0 : list Z).
Let n_pages := (sz + 4095) / 4096.
Hypothesis Hi0 : as_inv s0 pgdir l0.
Hypothesis Hsz : 0 <= sz <= KERNBASE.
Hypothesis Hmapped : forall vpn, 0 <= vpn < n_pages -> mapped (pte_at (mem s0) pgdir vpn) = true.

(** The flags and the bytes of the parent's pages. *)
Definition parent_flags (vpn : Z) : Z := PTE_FLAGS (pte_at (mem s0) pgdir vpn).
Definition parent_bytes (vpn k : Z) : Z := load8 (mem s0) (PTE_ADDR (pte_at (mem s0) pgdir vpn) + k).

Lemma parent_flags_bound vpn : 0 <= parent_flags vpn < 4096.
Proof.
  unfold parent_flags, PTE_FLAGS. change 0xFFF with (Z.ones 12). rewrite Z.land_ones by lia. dlia.
Qed.

(** The parent's table and pages are outside what the child is made of. *)
Lemma parent_kept s d l :
  built s0 s d l0 l -> table_agree (mem s0) (mem s) pgdir /\
  (forall vpn k, user_vpn vpn -> mapped (pte_at (mem s0) pgdir vpn) = true -> 0 <= k < 4096 ->
     load8 (mem s) (PTE_ADDR (pte_at (mem s0) pgdir vpn) + k) = parent_bytes vpn k).
Proof using Hi0.
  clear Hmapped Hsz n_pages. intros Hb.
  assert (forall w a, tpage (mem s0) pgdir w \/ uframe (mem s0) pgdir w -> page_ok w ->
    in_page w a -> load8 (mem s) a = load8 (mem s0) a) as Hk.
  { intros w a Ho Hok Hin. apply (bu_mem _ _ _ _ _ Hb). intros v Hv Hin'.
    apply (owned_not_free _ _ _ _ Hi0 Ho). replace w with v; [done|].
    eapply Impl.in_page_disj; eauto using free_page_ok. }
  split.
  - intros w a Ht. apply Hk; [by left|]. eapply tpage_ok; [apply Hi0|done].
  - intros vpn k Hu Hm Hk'. destruct (ai_frame _ _ _ Hi0 vpn Hu Hm) as (H1 & _).
    apply (Hk (frame (pte_at (mem s0) pgdir vpn))); [right; by exists vpn|done|].
    unfold in_page, frame. rewrite V2P_P2V_u32 by apply PTE_ADDR_u32, pte_u32.
    unfold PGSIZE. lia.
Qed.

(** The child has the parent's flags and bytes at every page below [sz]. *)
Let copied (r : option Z) s' : Prop :=
  match r with
  | None => undone s0 s' l0
  | Some d => exists s1 l1 l', built s0 s1 d l0 l1 /\
      extends s1 s' d l1 l' [] 0 n_pages parent_flags parent_bytes /\
      forall vpn, vpn_ok vpn -> pte_at (mem s1) d vpn = default 0 (kmap_pte kmap vpn)
  end.

Lemma copyuvm_loop_spec n s1 s d l1 l vpn :
  built s0 s1 d l0 l1 ->
  (forall vpn, vpn_ok vpn -> pte_at (mem s1) d vpn = default 0 (kmap_pte kmap vpn)) ->
  extends s1 s d l1 l [] 0 vpn parent_flags parent_bytes ->
  0 <= vpn <= n_pages -> n_pages <= vpn + Z.of_nat n ->
  wp (copyuvm_loop pgdir d (4096 * vpn) sz n) s copied.
Proof.
  intros Hb Hk1. assert (n_pages <= 524288) as Hnp by (unfold n_pages; consts; dlia).
  revert s l vpn. induction n as [|n IH]; intros s l vpn He Hv Hnn; cbn [copyuvm_loop].
  { destruct (Z.ltb_spec (4096 * vpn) sz); [unfold n_pages in *; dlia|].
    wstep. exists s1, l1, l. replace n_pages with vpn by lia. done. }
  destruct (Z.ltb_spec (4096 * vpn) sz) as [Hlt|Hge]; cbn [negb].
  2: { wstep. exists s1, l1, l. replace n_pages with vpn by (unfold n_pages in *; dlia). done. }
  assert (vpn < n_pages) as Hvn by (unfold n_pages; dlia).
  assert (user_vpn vpn) as Hu by (unfold user_vpn; lia).
  pose proof (user_vpn_ok _ Hu) as Hok. pose proof (Hmapped vpn ltac:(lia)) as Hm.
  assert (built s0 s d l0 l) as Hbs by (by eapply built_free).
  destruct (parent_kept s d l Hbs) as [Ha Hbytes].
  assert (pgdir_wf (mem s) pgdir) as Hw by (eapply pgdir_wf_agree; [done|apply Hi0]).
  assert (4096 * vpn / 4096 = vpn) as Hvpn by dlia.
  assert (pte_at (mem s) pgdir vpn = pte_at (mem s0) pgdir vpn) as Hpte by (by apply pte_agree).
  assert (pde_present (mem s) pgdir (vpn / 1024) = true) as Hpr.
  { apply not_false_iff_true. intros E. rewrite <- Hpte in Hm. unfold pte_at in Hm.
    rewrite E in Hm. done. }
  wstep. eapply wp_ok; [apply walkpgdir_lookup; [done|consts; unfold user_vpn in Hu; lia]|].
  rewrite Hvpn, Hpr. wstep. eapply wp_ok; [by apply kload_pte|]. rewrite Hpte.
  change (flag ?w (Z.lor PTE_P PTE_E)) with (mapped w). rewrite Hm. cbn [negb].
  pose proof (ex_inv He) as Hi. pose proof (vi_free _ _ _ (ai_vm _ _ _ Hi)) as Hf.
  wstep. eapply wp_mono; [by apply kalloc_spec|]. intros o s2 (Hm2 & Hr2 & -> & Hf2).
  destruct l as [|v l]; cbn [head tail] in *.
  - wstep. eapply wp_mono.
    + apply (built_undo s0 s2 d l0 []). apply (built_free s0 s1 s2 d l0 l1 [] 0 vpn parent_flags parent_bytes); [done|].
      by apply (extends_same s1 s).
    + intros [] s3 Hun. wstep. done.
  - pose proof (free_page_ok _ _ _ v Hi (list_elem_of_here _ _)) as Hvok.
    destruct (page_ok_phys v Hvok) as (Hp1 & Hp2 & Hp3).
    unfold kmemmove. wsteps. set (m := memmove _ _ _ _). set (pa := PTE_ADDR _) in *.
    assert (V2P (P2V pa) = pa) as Hpa by apply V2P_P2V_u32, PTE_ADDR_u32, pte_u32.
    assert (forall a, load8 m a =
      if decide (in_page v a) then load8 (mem s) (pa + (a - V2P v)) else load8 (mem s) a) as Hmv.
    { intros a. unfold m. rewrite load8_memmove, Hm2, Hpa by (consts; lia). done. }
    assert (forall a, ~ in_page v a -> load8 m a = load8 (mem s) a) as Hm'.
    { intros a Hna. by rewrite Hmv, decide_False. }
    change (PTE_FLAGS (pte_at (mem s0) pgdir vpn)) with (parent_flags vpn).
    eapply wp_mono.
    { apply (map_fresh s (set_mem m s2) d v l vpn parent_flags parent_bytes); try done.
      - by eapply fill_free.
      - intros k Hk. cbn. rewrite Hmv, decide_True by (unfold in_page, PGSIZE; lia).
        rewrite <- Hbytes by done. f_equal. fold pa. lia.
      - rewrite (ex_pte He), Hk1 by (done || lia).
        by rewrite (kmap_pte_low _ _ _ kmap_kernel) by apply Hu.
      - apply parent_flags_bound. }
    intros r s3 [[-> (l3 & He3)]|[-> He3]]; cbn [Z.ltb Z.compare].
    + replace (u32 (4096 * vpn + PGSIZE)) with (4096 * (vpn + 1)) by (consts; dlia).
      eapply IH; [|lia|lia].
      apply (extends_trans s1 s s3 _ _ (v :: l) l3 [] 0 vpn); (done || lia || apply parent_flags_bound).
    + wstep. eapply wp_mono; [by apply (built_kfree s0 s s3 d l0 (v :: l) v vpn parent_flags parent_bytes)|].
      intros [] s4 Hb4. wstep. eapply wp_mono; [by apply (built_undo s0 s4 d l0 [v])|].
      intros [] s5 Hun. wstep. done.
Qed.

Lemma copyuvm_spec : wp (copyuvm pgdir sz) s0 copied.
Proof.
  unfold copyuvm. wstep. eapply wp_mono; [apply (setupkvm_spec s0 l0), Hi0|].
  intros [d|] s1; cbn beta iota.
  - intros (l1 & Hb & Hk). replace 0 with (4096 * 0) at 1 by done.
    eapply copyuvm_loop_spec; [done|done| | |].
    + apply extends_refl, Hb.
    + unfold n_pages. dlia.
    + unfold n_pages. consts. dlia.
  - intros Hu. by wstep.
Qed.
End Copyuvm.

(** Setting a flag that is set already. *)
Lemma lor_set w f i : flag w f = true -> f = 2 ^ i -> 0 <= i -> Z.lor w f = w.
Proof.
  intros Hf -> Hi. rewrite flag_pow2 in Hf by done. apply Z.bits_inj'. intros j Hj.
  rewrite Z.lor_spec, Z.pow2_bits_eqb by done. destruct (Z.eqb_spec i j); [subst|].
  - by rewrite Hf.
  - apply orb_false_r.
Qed.

Lemma PTE_FLAGS_flag w f i : f = 2 ^ i -> 0 <= i < 12 -> flag (PTE_FLAGS w) f = flag w f.
Proof.
  intros -> Hi. rewrite !flag_pow2 by lia. unfold PTE_FLAGS. change 0xFFF with (Z.ones 12).
  rewrite Z.land_spec, Z.ones_spec_low, andb_true_r by lia. done.
Qed.

Lemma PTE_FLAGS_bound w : 0 <= PTE_FLAGS w < 4096.
Proof. unfold PTE_FLAGS. change 0xFFF with (Z.ones 12). rewrite Z.land_ones by lia. dlia. Qed.

(** The copy of an entry keeps its flags. *)
Lemma map_entry_flags v w :
  page_ok v -> mapped w = true ->
  PTE_FLAGS (map_entry (V2P v) (PTE_FLAGS w)) = PTE_FLAGS w.
Proof.
  intros Hv Hm. destruct (page_ok_phys v Hv) as (_ & _ & Hal). pose proof (PTE_FLAGS_bound w) as Hb.
  unfold map_entry. rewrite (PTE_FLAGS_flag w PTE_E 10) by (done || lia).
  unfold mapped in Hm. rewrite flag_lor in Hm. destruct (flag w PTE_E) eqn:HE.
  - rewrite <- Z.lor_assoc, (lor_set (PTE_FLAGS w) PTE_E 10); [by apply PTE_FLAGS_make| |done|lia].
    by rewrite (PTE_FLAGS_flag w PTE_E 10).
  - rewrite orb_false_r in Hm.
    rewrite <- Z.lor_assoc, (lor_set (PTE_FLAGS w) PTE_P 0); [by apply PTE_FLAGS_make| |done|lia].
    by rewrite (PTE_FLAGS_flag w PTE_P 0).
Qed.

(** What [copyuvm] returns, entry by entry. *)
Lemma copyuvm_result s pgdir sz l :
  as_inv s pgdir l -> 0 <= sz <= KERNBASE ->
  let n := (sz + 4095) / 4096 in
  (forall vpn, 0 <= vpn < n -> mapped (pte_at (mem s) pgdir vpn) = true) ->
  wp (copyuvm pgdir sz) s (fun r s' =>
    match r with
    | None => undone s s' l
    | Some d => exists l', as_inv s' d l' /\
        (forall v, tpage (mem s') d v \/ uframe (mem s') d v <-> v ∈ l /\ v ∉ l') /\
        (forall v, v ∈ l' -> v ∈ l) /\ same_regs s s' /\
        (forall vpn, 0 <= vpn < n ->
           let w := pte_at (mem s) pgdir vpn in let w' := pte_at (mem s') d vpn in
           PTE_FLAGS w' = PTE_FLAGS w /\
           forall k, 0 <= k < 4096 -> load8 (mem s') (PTE_ADDR w' + k) = load8 (mem s) (PTE_ADDR w + k)) /\
        (forall vpn, vpn_ok vpn -> n <= vpn -> pte_at (mem s') d vpn = default 0 (kmap_pte kmap vpn)) /\
        (forall a, (forall v, v ∈ l -> ~ in_page v a) -> load8 (mem s') a = load8 (mem s) a)
    end).
Proof.
  intros Hi Hsz n Hm. eapply wp_mono; [by apply (copyuvm_spec s pgdir sz l)|].
  intros [d|] s'; cbn beta iota; [|done]. intros (s1 & l1 & l' & Hb & He & Hk). fold n in He.
  assert (built s s' d l l') as Hb' by (by eapply built_free).
  exists l'. do 4 (split; [apply Hb'|]). split; [|split].
  - intros vpn Hv w w'. destruct (ex_new He vpn Hv) as (v & _ & Hok & Hp & Hc).
    unfold parent_flags in Hp. fold w in Hp. unfold w'. rewrite Hp. split.
    + apply map_entry_flags; [done|by apply Hm].
    + intros k Hk'. destruct (map_entry_page v (PTE_FLAGS w) Hok (PTE_FLAGS_bound w)) as [_ Hf].
      change (load8 (mem s) (PTE_ADDR w + k)) with (parent_bytes s pgdir vpn k).
      rewrite <- (Hc k Hk'). do 2 f_equal. rewrite <- Hf at 2. unfold frame. symmetry.
      apply V2P_P2V_u32, PTE_ADDR_u32, map_entry_u32; [|apply PTE_FLAGS_bound].
      destruct (page_ok_phys v Hok) as (? & ? & _). consts. lia.
  - intros vpn Hv Hn. rewrite (ex_pte He) by (done || lia). by apply Hk.
  - intros a Ha. by apply (bu_mem _ _ _ _ _ Hb').
Qed.
End VmSpaces.
