(* ===== verification/Encrypt.v ===== *)
(** * Page encryption on one address space: vm.c

    The parts of [mencrypt] and [mdecrypt] that work on a page table and on
    user memory.  A page is encrypted by complementing its bytes through its
    user address and exchanging [PTE_P] for [PTE_E] in its entry.  The
    theorems speak about the logical contents of a page: its bytes,
    complemented when the entry has [PTE_E]. *)

From S2P Require Import Prelude Memory Mmu Machine Spinlock Kalloc Vm PageTable VmProofs VmSpaces.

(** ** Definitions *)

Section Encrypt.
Context `{KI : KernelImage, PO : !PageOps}.

Definition translate_and_set (pgdir uva : Z) : M machine (option Z) :=
  o ← walkpgdir pgdir uva false;
  pte ← nonnull o;
  w ← kload32 pte;
  if negb (flag w PTE_P) && negb (flag w PTE_E) then mret None else
  if flag w PTE_E then mret None else
  if negb (flag w PTE_U) then mret None else
  kstore32 pte (Z.lor w PTE_E);;
  w ← kload32 pte;
  kstore32 pte (Z.ldiff w PTE_P);;
  w ← kload32 pte;
  mret (Some (P2V (PTE_ADDR w))).

(** [*slider = *slider ^ 0xFF; slider++], [n] times. *)
Fixpoint xor_bytes (slider : Z) (n : nat) : M machine unit :=
  match n with
  | O => mret tt
  | S n =>
      b ← vload8 slider;
      vstore8 slider (Z.lxor b 0xFF);;
      xor_bytes (u32 (slider + 1)) n
  end.

(** The first loop of [mencrypt], over [n] pages: 0, or -1 at the first user
    page that does not translate. *)
Fixpoint mencrypt_check (pgdir slider : Z) (n : nat) : M machine Z :=
  match n with
  | O => mret 0
  | S n =>
      o ← walkpgdir pgdir slider false;
      pte ← nonnull o;
      w ← kload32 pte;
      if negb (flag w PTE_U) then mencrypt_check pgdir (u32 (slider + PGSIZE)) n else
      kvp ← uva2ka pgdir slider;
      match kvp with
      | None => mret (-1)
      | Some _ => mencrypt_check pgdir (u32 (slider + PGSIZE)) n
      end
  end.

(** Encrypting the page at [slider], whose entry is at [pte]. *)
Definition encrypt_page (pgdir slider pte : Z) : M machine (option Z) :=
  xor_bytes slider (Z.to_nat PGSIZE);;
  w ← kload32 pte;
  kstore32 pte (Z.ldiff w PTE_A);;
  translate_and_set pgdir (u32 (u32 (slider + PGSIZE) - PGSIZE)).

(** The second loop. *)
Fixpoint mencrypt_loop (pgdir slider : Z) (n : nat) : M machine Z :=
  match n with
  | O => mret 0
  | S n =>
      o ← walkpgdir pgdir slider false;
      pte ← nonnull o;
      w ← kload32 pte;
      if negb (flag w PTE_U) then mencrypt_loop pgdir (u32 (slider + PGSIZE)) n else
      if flag w PTE_E then mencrypt_loop pgdir (u32 (slider + PGSIZE)) n else
      kvp ← encrypt_page pgdir slider pte;
      match kvp with
      | None => mret (-1)
      | Some _ => mencrypt_loop pgdir (u32 (slider + PGSIZE)) n
      end
  end.

(** [mencrypt] on the page table of the current process, up to the final
    [switchuvm]. *)
Definition mencrypt_pages (pgdir virtual_addr len : Z) : M machine Z :=
  let virtual_addr := PGROUNDDOWN virtual_addr in
  r ← mencrypt_check pgdir virtual_addr (Z.to_nat len);
  if r =? -1 then mret (-1) else
  mencrypt_loop pgdir virtual_addr (Z.to_nat len).

(** [mdecrypt] up to the clock: the page of [virtual_addr] is decrypted (0),
    or -1. *)
Definition mdecrypt_page (pgdir virtual_addr : Z) : M machine Z :=
  o ← walkpgdir pgdir virtual_addr false;
  pte ← nonnull o;
  w ← kload32 pte;
  if negb (flag w PTE_E) then mret (-1) else
  if negb (flag w PTE_U) then mret (-1) else
  if w =? 0 then mret (-1) else
  kstore32 pte (Z.ldiff w PTE_E);;
  w ← kload32 pte;
  kstore32 pte (Z.lor w PTE_P);;
  _ ← uva2ka pgdir virtual_addr;
  let virtual_addr := PGROUNDDOWN virtual_addr in
  kvp ← uva2ka pgdir virtual_addr;
  match kvp with
  | None => mret (-1)
  | Some kvp =>
      b ← kload8 kvp;
      if b =? 0 then mret (-1) else
      xor_bytes virtual_addr (Z.to_nat PGSIZE);;
      mret 0
  end.
End Encrypt.

(** ** Logical contents *)

(** The byte the process means to have at offset [k] of page [vpn]. *)
Definition lbyte (m : memory) (pgdir vpn k : Z) : Z :=
  let w := pte_at m pgdir vpn in
  let b := load8 m (PTE_ADDR w + k) in
  if flag w PTE_E then Z.lxor b 0xFF else b.

(** A page the process may use: present or encrypted, never both, and
    writable. *)
Definition enc_ok (w : Z) : Prop :=
  flag w PTE_U = true -> mapped w = true ->
  flag w PTE_P = negb (flag w PTE_E) /\ flag w PTE_W = true.

(** Prove that an entry built with [|] and [& ~] has the same frame. *)
Ltac reflag :=
  split; [repeat (apply lor_u32 || apply ldiff_u32); (apply pte_u32 || done || closed)|];
  split; [unfold mapped; flags; rewrite ?orb_true_r; (done || congruence || idtac)
         |repeat first [rewrite PTE_ADDR_lor by closed | rewrite PTE_ADDR_ldiff by closed]; done].

(** ** Changing one entry *)

Section Touch.
Context `{KI : KernelImage, PO : !PageOps, PA : !PageAllocator}.
Implicit Types s : machine.

(** Setting the accessed bit of a directory entry. *)
Section DirAccessed.
Variables (m : memory) (pgdir d : Z).
Hypothesis Hwf : pgdir_wf m pgdir.
Hypothesis Hd : 0 <= d < 1024.
Let m' := store32 m (V2P pgdir + 4 * d) (Z.lor (pde_at m pgdir d) PTE_A).

Lemma dir_acc_load8 a : ~ in_page pgdir a -> load8 m' a = load8 m a.
Proof using Hd.
  intros Ha. apply load8_store32_ne. unfold in_page, PGSIZE in Ha. lia.
Qed.

Lemma dir_acc_pde e :
  0 <= e < 1024 ->
  pde_at m' pgdir e = if decide (e = d) then Z.lor (pde_at m pgdir e) PTE_A else pde_at m pgdir e.
Proof using Hd.
  intros He. unfold pde_at at 1, m'. case_decide; [subst e|].
  - rewrite load32_store32_eq. apply u32_small, lor_u32; [apply pde_u32|closed].
  - by rewrite load32_store32_ne by lia.
Qed.

Lemma dir_acc_same e :
  0 <= e < 1024 -> pde_present m' pgdir e = pde_present m pgdir e /\
  PTE_ADDR (pde_at m' pgdir e) = PTE_ADDR (pde_at m pgdir e) /\
  flag (pde_at m' pgdir e) PTE_W = flag (pde_at m pgdir e) PTE_W.
Proof using Hd.
  intros He. unfold pde_present. rewrite dir_acc_pde by done. case_decide; [|done].
  rewrite PTE_ADDR_lor by closed. split; [|split]; [flags|done|flags]; done.
Qed.

Lemma dir_acc_tpage v : tpage m' pgdir v <-> tpage m pgdir v.
Proof using Hd.
  unfold tpage. split; (intros [->|(e & He & H)]; [by left|right; exists e; split; [done|]]);
    destruct (dir_acc_same e He) as (H1 & H2 & _); by rewrite H1, H2 in *.
Qed.

Lemma dir_acc_pte vpn : vpn_ok vpn -> pte_at m' pgdir vpn = pte_at m pgdir vpn.
Proof using Hwf Hd.
  intros Hv. pose proof (vpn_dir _ Hv) as Hvd. destruct (dir_acc_same _ Hvd) as (H1 & H2 & _).
  unfold pte_at, pte_addr. rewrite H1, H2. case_bool; [|done].
  apply load32_ext. intros b Hb. apply dir_acc_load8. intros Hin.
  destruct (pw_tab _ _ Hwf _ Hvd Heqb) as [Hok Hne]. apply Hne.
  eapply Impl.in_page_disj; [done|apply Hwf| |done]. eapply in_page_pte. exact Hb.
Qed.

Lemma dir_acc_wf : pde_present m pgdir d = true -> pgdir_wf m' pgdir.
Proof using Hwf Hd.
  intros Hp. destruct Hwf as [H1 H2 H3 H4 H5].
  split; [done|..].
  - intros e He. destruct (dir_acc_same e He) as (-> & -> & _). auto.
  - intros e f He Hf. destruct (dir_acc_same e He) as (-> & -> & _).
    destruct (dir_acc_same f Hf) as (-> & -> & _). auto.
  - intros e He. destruct (dir_acc_same e He) as (-> & _). intros Hn. rewrite dir_acc_pde by done.
    case_decide; [subst; congruence|auto].
  - intros e He. destruct (dir_acc_same e He) as (-> & _ & ->). auto.
Qed.
End DirAccessed.

(** [touches s s' pgdir l vpn w g]: from [s] to [s'] the entry of page [vpn]
    has become [w], and memory outside the table is [g]. *)
Record touches s s' (pgdir : Z) (l : list Z) (vpn w : Z) (g : Z -> Z) : Prop := {
  to_inv : as_inv s' pgdir l;
  to_regs : same_regs s s';
  to_pte v : vpn_ok v ->
    pte_at (mem s') pgdir v = if decide (v = vpn) then w else pte_at (mem s) pgdir v;
  to_pde d : 0 <= d < 1024 -> pde_present (mem s') pgdir d = pde_present (mem s) pgdir d /\
    PTE_ADDR (pde_at (mem s') pgdir d) = PTE_ADDR (pde_at (mem s) pgdir d);
  to_mem a : (forall v, tpage (mem s) pgdir v -> ~ in_page v a) -> load8 (mem s') a = g a;
}.
#[global] Arguments to_inv {_ _ _ _ _ _ _} _.
#[global] Arguments to_regs {_ _ _ _ _ _ _} _.
#[global] Arguments to_pte {_ _ _ _ _ _ _} _.
#[global] Arguments to_pde {_ _ _ _ _ _ _} _.
#[global] Arguments to_mem {_ _ _ _ _ _ _} _.

Lemma same_dir_tpage m m' pgdir v :
  (forall d, 0 <= d < 1024 -> pde_present m' pgdir d = pde_present m pgdir d /\
     PTE_ADDR (pde_at m' pgdir d) = PTE_ADDR (pde_at m pgdir d)) ->
  tpage m' pgdir v <-> tpage m pgdir v.
Proof.
  intros Hd. unfold tpage.
  split; (intros [->|(e & He & H)]; [by left|right; exists e; split; [done|]]);
    destruct (Hd e He) as (H1 & H2); by rewrite H1, H2 in *.
Qed.

Lemma touches_trans s1 s2 s3 pgdir l vpn w w' g g' :
  touches s1 s2 pgdir l vpn w g -> touches s2 s3 pgdir l vpn w' g' ->
  touches s1 s3 pgdir l vpn w' g'.
Proof.
  intros H1 H2. split.
  - apply H2.
  - eapply same_regs_trans; [apply H1|apply H2].
  - intros v Hv. rewrite (to_pte H2), (to_pte H1) by done. by case_decide.
  - intros d Hd. destruct (to_pde H1 d Hd) as [<- <-]. by apply (to_pde H2).
  - intros a Ha. apply (to_mem H2). intros v Hv. apply Ha.
    by apply (same_dir_tpage _ _ _ _ (to_pde H1)).
Qed.

Lemma touches_ext s s' pgdir l vpn w g g' :
  touches s s' pgdir l vpn w g ->
  (forall a, (forall v, tpage (mem s) pgdir v -> ~ in_page v a) -> g a = g' a) ->
  touches s s' pgdir l vpn w g'.
Proof.
  intros H Hg. split; try apply H. intros a Ha. rewrite <- Hg by done. by apply (to_mem H).
Qed.

Lemma as_inv_entries s s' pgdir l :
  as_inv s pgdir l -> vm_inv s' pgdir l ->
  (forall v, tpage (mem s') pgdir v <-> tpage (mem s) pgdir v) ->
  (forall v, user_vpn v -> mapped (pte_at (mem s') pgdir v) = mapped (pte_at (mem s) pgdir v) /\
     PTE_ADDR (pte_at (mem s') pgdir v) = PTE_ADDR (pte_at (mem s) pgdir v)) ->
  as_inv s' pgdir l.
Proof.
  intros Hi Hv Ht He. unfold mapped in *.
  assert (forall v, user_vpn v -> frame (pte_at (mem s') pgdir v) = frame (pte_at (mem s) pgdir v)) as Hf.
  { intros v Hu. unfold frame. by destruct (He v Hu) as [_ ->]. }
  split; [done| |].
  - intros v Hu. rewrite Hf, Ht by done. destruct (He v Hu) as [Hm _]. unfold mapped. rewrite Hm.
    by apply Hi.
  - intros v v' Hu Hu'. rewrite !Hf by done. unfold mapped.
    destruct (He v Hu) as [-> _], (He v' Hu') as [-> _]. by apply (ai_inj _ _ _ Hi).
Qed.

(** An entry with other flags for the same frame. *)
Definition reflags (w w' : Z) : Prop :=
  is_u32 w' /\ mapped w' = mapped w /\ PTE_ADDR w' = PTE_ADDR w.

Lemma touch_store s pgdir l vpn w' :
  as_inv s pgdir l -> user_vpn vpn -> pde_present (mem s) pgdir (vpn / 1024) = true ->
  reflags (pte_at (mem s) pgdir vpn) w' ->
  touches s (set_mem (store32 (mem s) (pte_addr (mem s) pgdir vpn) w') s) pgdir l vpn w'
    (load8 (mem s)).
Proof.
  intros Hi Hu Hp (H32 & Hm & Ha). pose proof (user_vpn_ok _ Hu) as Hv.
  pose proof (ai_vm _ _ _ Hi) as Hvi. pose proof (vi_wf _ _ _ Hvi) as Hw.
  pose proof (store_pte_grows s pgdir l vpn w' Hvi Hv Hp) as Hg. set (s' := set_mem _ s) in *.
  assert (forall v, vpn_ok v -> pte_at (mem s') pgdir v =
    if decide (v = vpn) then w' else pte_at (mem s) pgdir v) as Hpte.
  { intros v Hv'. unfold s'; cbn. rewrite store_pte_at by done. by rewrite u32_small. }
  assert (forall d, 0 <= d < 1024 -> pde_at (mem s') pgdir d = pde_at (mem s) pgdir d) as Hpde.
  { intros d Hd. unfold s'; cbn. by rewrite store_pte_pde. }
  assert (forall d, 0 <= d < 1024 -> pde_present (mem s') pgdir d = pde_present (mem s) pgdir d /\
    PTE_ADDR (pde_at (mem s') pgdir d) = PTE_ADDR (pde_at (mem s) pgdir d)) as Hdir.
  { intros d Hd. unfold pde_present. by rewrite Hpde. }
  pose proof (fun v => same_dir_tpage _ _ _ v Hdir) as Ht.
  split; [|apply Hg|done|done|].
  - apply (as_inv_entries s); [done|apply Hg|done|]. intros v Hu'.
    rewrite Hpte by (by apply user_vpn_ok). case_decide; [by subst|done].
  - intros a Hna. apply (gr_mem _ _ _ _ _ Hg). intros v Hv'. apply Hna. by apply Ht.
Qed.

Lemma touch_dir s pgdir l vpn :
  as_inv s pgdir l -> user_vpn vpn -> pde_present (mem s) pgdir (vpn / 1024) = true ->
  touches s (set_mem (store32 (mem s) (V2P pgdir + 4 * (vpn / 1024))
    (Z.lor (pde_at (mem s) pgdir (vpn / 1024)) PTE_A)) s) pgdir l vpn (pte_at (mem s) pgdir vpn)
    (load8 (mem s)).
Proof.
  intros Hi Hu Hp. pose proof (vpn_dir _ (user_vpn_ok _ Hu)) as Hd.
  pose proof (ai_vm _ _ _ Hi) as Hvi. destruct Hvi as [Hf Hw Ho].
  assert (forall a, ~ in_page pgdir a -> load8 (store32 (mem s) (V2P pgdir + 4 * (vpn / 1024))
    (Z.lor (pde_at (mem s) pgdir (vpn / 1024)) PTE_A)) a = load8 (mem s) a) as Hl.
  { intros a Ha. by apply dir_acc_load8. }
  split.
  - apply (as_inv_entries s); [done| | |].
    + split; cbn.
      * apply free_pages_frame; [done|]. intros v a Hv Hin. apply Hl. intros Hin'.
        apply (Ho pgdir); [by left|]. replace pgdir with v; [done|].
        eapply Impl.in_page_disj; eauto using free_page_ok. apply Hw.
      * by apply dir_acc_wf.
      * intros v. cbn. rewrite dir_acc_tpage by done. apply Ho.
    + intros v. cbn. by apply dir_acc_tpage.
    + intros v Hv. cbn. by rewrite dir_acc_pte by (done || by apply user_vpn_ok).
  - by split_and!.
  - intros v Hv. cbn. rewrite dir_acc_pte by done. case_decide; by subst.
  - intros d Hd'. cbn. destruct (dir_acc_same (mem s) pgdir (vpn / 1024) Hd d Hd') as (? & ? & _). done.
  - intros a Ha. apply Hl, Ha. by left.
Qed.

Lemma reflags_lor w f : is_u32 w -> 0 <= f < 4096 -> mapped (Z.lor w f) = mapped w -> reflags w (Z.lor w f).
Proof.
  intros Hw Hf Hm. split; [|split; [done|by apply PTE_ADDR_lor]].
  apply lor_u32; [done|consts; lia].
Qed.

(** The bytes of a user page are not part of the table. *)
Lemma in_frame w k : is_u32 w -> 0 <= k < 4096 -> in_page (frame w) (PTE_ADDR w + k).
Proof.
  intros Hw Hk. unfold in_page, frame, PGSIZE.
  rewrite V2P_P2V_u32 by (by apply PTE_ADDR_u32). lia.
Qed.

Lemma frame_not_table s pgdir l vpn k v :
  as_inv s pgdir l -> user_vpn vpn -> mapped (pte_at (mem s) pgdir vpn) = true -> 0 <= k < 4096 ->
  tpage (mem s) pgdir v -> ~ in_page v (PTE_ADDR (pte_at (mem s) pgdir vpn) + k).
Proof.
  intros Hi Hu Hm Hk Ht Hin. destruct (ai_frame _ _ _ Hi vpn Hu Hm) as (Hok & _ & Hnt). apply Hnt.
  replace (frame (pte_at (mem s) pgdir vpn)) with v; [done|].
  eapply Impl.in_page_disj; [eapply tpage_ok; [apply Hi|done]|done|done|].
  apply in_frame; [apply pte_u32|done].
Qed.

Lemma present_mapped w : flag w PTE_P = true -> mapped w = true.
Proof. intros H. unfold mapped. flags. by rewrite H. Qed.

(** A walk of the paging hardware. *)
Lemma touch_mmu s pgdir l va write :
  as_inv s pgdir l -> cr3 s = V2P pgdir -> is_u32 va -> user_vpn (va / 4096) ->
  let w := pte_at (mem s) pgdir (va / 4096) in
  flag w PTE_P = true -> (write = true -> flag w PTE_W = true) ->
  exists m', mmu (mem s) (cr3 s) va write = Some (PTE_ADDR w + va mod 4096, m') /\
    touches s (set_mem m' s) pgdir l (va / 4096)
      (Z.lor w (if write then Z.lor PTE_A PTE_D else PTE_A)) (load8 (mem s)).
Proof.
  intros Hi Hcr Hva Hu w HP HW. set (vpn := va / 4096) in *.
  pose proof (user_vpn_ok _ Hu) as Hv. pose proof (vpn_dir _ Hv) as Hd.
  pose proof (ai_vm _ _ _ Hi) as Hvi. pose proof (vi_wf _ _ _ Hvi) as Hw.
  assert (pde_present (mem s) pgdir (vpn / 1024) = true) as Hp.
  { apply not_false_iff_true. intros E. unfold w, pte_at in HP. by rewrite E in HP. }
  pose proof (pw_write _ _ Hw _ Hd Hp) as HpW.
  unfold mmu. rewrite Hcr, PDX_vpn, PTX_eq by done. fold vpn.
  change (load32 (mem s) (V2P pgdir + 4 * (vpn / 1024))) with (pde_at (mem s) pgdir (vpn / 1024)).
  unfold pde_present in Hp. rewrite Hp, HpW. cbn [negb orb]. rewrite andb_false_r. cbn iota.
  fold (pte_addr (mem s) pgdir vpn).
  assert (load32 (mem s) (pte_addr (mem s) pgdir vpn) = w) as ->.
  { unfold w, pte_at, pde_present. by rewrite Hp. }
  rewrite HP. cbn [negb orb].
  destruct (write && negb (flag w PTE_W)) eqn:E; [destruct write; [by rewrite HW in E|done]|].
  rewrite OFFSET_eq. eexists. split; [done|].
  pose proof (touch_dir s pgdir l vpn Hi Hu Hp) as T1. set (m1 := store32 (mem s) _ _) in *.
  assert (pte_at m1 pgdir vpn = w) as Hw1.
  { change m1 with (mem (set_mem m1 s)). rewrite (to_pte T1) by done. by rewrite decide_True. }
  assert (pte_addr (mem s) pgdir vpn = pte_addr m1 pgdir vpn) as ->.
  { unfold pte_addr. by destruct (to_pde T1 _ Hd) as [_ <-]. }
  set (w' := Z.lor w _).
  assert (reflags w w') as Hr.
  { apply reflags_lor; [apply pte_u32|destruct write; closed|]. unfold mapped.
    destruct write; flags; rewrite ?orb_false_r; done. }
  assert (touches (set_mem m1 s) (set_mem (store32 m1 (pte_addr m1 pgdir vpn) w') s) pgdir l vpn w'
    (load8 m1)) as T2.
  { apply (touch_store (set_mem m1 s)); [apply T1|done| |by cbn; rewrite Hw1].
    by destruct (to_pde T1 _ Hd) as [-> _]. }
  eapply touches_ext; [eapply touches_trans; [exact T1|exact T2]|]. intros a Ha. by apply (to_mem T1).
Qed.

Lemma vload8_spec s pgdir l va :
  as_inv s pgdir l -> cr3 s = V2P pgdir -> is_u32 va -> user_vpn (va / 4096) ->
  let w := pte_at (mem s) pgdir (va / 4096) in
  flag w PTE_P = true ->
  wp (vload8 va) s (fun b s' => b = load8 (mem s) (PTE_ADDR w + va mod 4096) /\
    touches s s' pgdir l (va / 4096) (Z.lor w PTE_A) (load8 (mem s))).
Proof.
  intros Hi Hcr Hva Hu w HP.
  destruct (touch_mmu s pgdir l va false) as (m' & Hm & T); [done..|].
  unfold wp, vload8. rewrite Hm. split; [|done].
  apply (to_mem T). intros v Ht. eapply frame_not_table; try done; [by apply present_mapped|dlia].
Qed.

(** A byte of a user page. *)
Lemma touch_byte s pgdir l vpn k b :
  as_inv s pgdir l -> user_vpn vpn -> mapped (pte_at (mem s) pgdir vpn) = true -> 0 <= k < 4096 ->
  let pa := PTE_ADDR (pte_at (mem s) pgdir vpn) + k in
  touches s (set_mem (store8 (mem s) pa b) s) pgdir l vpn (pte_at (mem s) pgdir vpn)
    (fun a => if decide (a = pa) then u8 b else load8 (mem s) a).
Proof.
  intros Hi Hu Hm Hk pa.
  assert (table_agree (mem s) (store8 (mem s) pa b) pgdir) as Ha.
  { intros v a Ht Hin. rewrite load8_store8_ne; [done|]. intros <-.
    by eapply (frame_not_table s pgdir l vpn k v). }
  split.
  - eapply as_inv_agree; [done|done| |by left].
    apply free_pages_frame; [apply Hi|]. intros v a Hv Hin. rewrite load8_store8_ne; [done|]. intros <-.
    destruct (ai_frame _ _ _ Hi vpn Hu Hm) as (Hok & Hnl & _). apply Hnl.
    replace (frame (pte_at (mem s) pgdir vpn)) with v; [done|].
    eapply Impl.in_page_disj; [by eapply free_page_ok|done|done|]. apply in_frame; [apply pte_u32|done].
  - by split_and!.
  - intros v Hv. cbn. rewrite (pte_agree _ _ _ _ Ha) by done. case_decide; by subst.
  - intros d Hd. cbn. unfold pde_present. by rewrite (pde_agree _ _ _ _ Ha).
  - intros a _. cbn. case_decide; [subst; apply load8_store8_eq|apply load8_store8_ne; congruence].
Qed.

Lemma vstore8_spec s pgdir l va b :
  as_inv s pgdir l -> cr3 s = V2P pgdir -> is_u32 va -> user_vpn (va / 4096) ->
  let w := pte_at (mem s) pgdir (va / 4096) in
  flag w PTE_P = true -> flag w PTE_W = true ->
  wp (vstore8 va b) s (fun _ s' =>
    touches s s' pgdir l (va / 4096) (Z.lor w (Z.lor PTE_A PTE_D))
      (fun a => if decide (a = PTE_ADDR w + va mod 4096) then u8 b else load8 (mem s) a)).
Proof.
  intros Hi Hcr Hva Hu w HP HW.
  destruct (touch_mmu s pgdir l va true) as (m' & Hm & T); [done..|].
  unfold wp, vstore8. rewrite Hm. set (w' := Z.lor w _) in *.
  assert (pte_at m' pgdir (va / 4096) = w') as Hw'.
  { change m' with (mem (set_mem m' s)). rewrite (to_pte T) by (by apply user_vpn_ok).
    by rewrite decide_True. }
  assert (PTE_ADDR w' = PTE_ADDR w) as Ha by (apply PTE_ADDR_lor; closed).
  pose proof (touch_byte (set_mem m' s) pgdir l (va / 4096) (va mod 4096) b) as T2.
  cbn [mem set_mem] in T2. rewrite Hw', Ha in T2.
  eapply touches_ext; [eapply touches_trans; [exact T|apply T2]|]; try done.
  - apply T.
  - unfold mapped, w'. flags. by rewrite HP.
  - dlia.
  - intros a Hna. cbv beta. case_decide; [done|]. by apply (to_mem T).
Qed.
(** ** Complementing a page *)

Lemma lxor_twice a b : Z.lxor (Z.lxor a b) b = a.
Proof. by rewrite Z.lxor_assoc, Z.lxor_nilpotent, Z.lxor_0_r. Qed.

Lemma u8_xor b : 0 <= b < 256 -> u8 (Z.lxor b 0xFF) = Z.lxor b 0xFF.
Proof. intros Hb. apply u8_small. apply (lxor_bound 8); lia. Qed.

(** The entry after [n] bytes have been read and written through it. *)
Definition used (n : nat) (w : Z) : Z :=
  match n with O => w | S _ => Z.lor w (Z.lor PTE_A PTE_D) end.

Lemma lor_used n w : used n (Z.lor (Z.lor w PTE_A) (Z.lor PTE_A PTE_D)) = used 1 w.
Proof.
  destruct n; cbn [used]; rewrite <- !Z.lor_assoc; f_equal; reflexivity.
Qed.

Lemma touches_refl s pgdir l vpn :
  as_inv s pgdir l -> touches s s pgdir l vpn (pte_at (mem s) pgdir vpn) (load8 (mem s)).
Proof. intros Hi. split; try done. intros v Hv. case_decide; by subst. Qed.

(** The entry after a step. *)
Lemma touches_entry s s' pgdir l vpn w g :
  touches s s' pgdir l vpn w g -> user_vpn vpn -> pte_at (mem s') pgdir vpn = w.
Proof. intros T Hu. rewrite (to_pte T) by (by apply user_vpn_ok). by rewrite decide_True. Qed.

Lemma touches_cr3 s s' pgdir l vpn w g :
  touches s s' pgdir l vpn w g -> cr3 s' = cr3 s.
Proof. intros T. by destruct (to_regs T) as (_ & -> & _). Qed.

Lemma xor_bytes_spec n s pgdir l vpn k :
  let w := pte_at (mem s) pgdir vpn in
  as_inv s pgdir l -> cr3 s = V2P pgdir -> user_vpn vpn ->
  flag w PTE_P = true -> flag w PTE_W = true -> 0 <= k -> k + Z.of_nat n <= 4096 ->
  wp (xor_bytes (4096 * vpn + k) n) s (fun _ s' =>
    touches s s' pgdir l vpn (used n w)
      (fun a => if decide (PTE_ADDR w + k <= a < PTE_ADDR w + k + Z.of_nat n)
                then Z.lxor (load8 (mem s) a) 0xFF else load8 (mem s) a)).
Proof.
  revert s k. induction n as [|n IH]; intros s k w Hi Hcr Hu HP HW Hk Hn; cbn [xor_bytes].
  { wstep. eapply touches_ext; [by apply touches_refl|]. intros a _. rewrite decide_False by lia. done. }
  assert (is_u32 (4096 * vpn + k)) as H32 by (unfold user_vpn in Hu; consts; lia).
  assert ((4096 * vpn + k) / 4096 = vpn) as Hdiv by dlia.
  assert ((4096 * vpn + k) mod 4096 = k) as Hmod by dlia.
  wstep. eapply wp_mono; [apply (vload8_spec s pgdir l); rewrite ?Hdiv; done|].
  rewrite Hdiv, Hmod. intros b s1 [Hb T1]. fold w in Hb, T1.
  pose proof (touches_entry _ _ _ _ _ _ _ T1 Hu) as E1. pose proof (touches_cr3 _ _ _ _ _ _ _ T1) as C1.
  wstep. eapply wp_mono.
  { apply (vstore8_spec s1 pgdir l); rewrite ?Hdiv, ?E1; try done; [apply T1|congruence|..];
      flags; by rewrite ?HP, ?HW. }
  rewrite Hdiv, Hmod, E1. intros [] s2 T2.
  pose proof (touches_entry _ _ _ _ _ _ _ T2 Hu) as E2. pose proof (touches_cr3 _ _ _ _ _ _ _ T2) as C2.
  replace (u32 (4096 * vpn + k + 1)) with (4096 * vpn + (k + 1))
    by (unfold user_vpn in Hu; rewrite u32_small; consts; lia).
  eapply wp_mono.
  { apply (IH s2 (k + 1)); rewrite ?E2; try done; [apply T2|congruence|..]; try lia; flags;
      by rewrite ?HP, ?HW. }
  cbv beta. intros [] s3 T3. rewrite E2, lor_used in T3.
  assert (forall f, 0 <= f < 4096 -> PTE_ADDR (Z.lor w f) = PTE_ADDR w) as HA by (intros; by apply PTE_ADDR_lor).
  eapply touches_ext; [eapply touches_trans; [eapply touches_trans; [exact T1|exact T2]|exact T3]|].
  intros a Ha. cbv beta.
  assert (load8 (mem s2) a =
    if decide (a = PTE_ADDR w + k) then Z.lxor (load8 (mem s) a) 0xFF else load8 (mem s) a) as ->.
  { rewrite (to_mem T2), HA; [|closed|].
    2: { intros v Hv. by apply Ha, (same_dir_tpage _ _ _ _ (to_pde T1)). }
    case_decide; [subst|by apply (to_mem T1)]. apply u8_xor, load8_range. }
  replace (PTE_ADDR (Z.lor (Z.lor w PTE_A) (Z.lor PTE_A PTE_D))) with (PTE_ADDR w)
    by (rewrite !PTE_ADDR_lor by closed; done).
  repeat case_decide; try done; lia.
Qed.
(** ** Entries through their kernel address *)

Lemma pte_present_dir m pgdir vpn :
  flag (pte_at m pgdir vpn) PTE_P = true -> pde_present m pgdir (vpn / 1024) = true.
Proof. unfold pte_at. by destruct (pde_present m pgdir (vpn / 1024)). Qed.

Lemma kpte_touch s s' pgdir l vpn w g v :
  touches s s' pgdir l vpn w g -> vpn_ok v -> kpte (mem s') pgdir v = kpte (mem s) pgdir v.
Proof. intros T Hv. unfold kpte. by destruct (to_pde T _ (vpn_dir _ Hv)) as [_ ->]. Qed.

Lemma present_touch s s' pgdir l vpn w g v :
  touches s s' pgdir l vpn w g -> vpn_ok v ->
  pde_present (mem s') pgdir (v / 1024) = pde_present (mem s) pgdir (v / 1024).
Proof. intros T Hv. by destruct (to_pde T _ (vpn_dir _ Hv)) as [-> _]. Qed.

Lemma page_vpn vpn : 4096 * vpn / 4096 = vpn.
Proof. dlia. Qed.

Section Entry.
Variables (s : machine) (pgdir : Z) (l : list Z) (vpn : Z).
Hypothesis Hi : as_inv s pgdir l.
Hypothesis Hu : user_vpn vpn.
Hypothesis Hp : pde_present (mem s) pgdir (vpn / 1024) = true.

Lemma wp_kload_pte (Q : Z -> machine -> Prop) :
  Q (pte_at (mem s) pgdir vpn) s -> wp (kload32 (kpte (mem s) pgdir vpn)) s Q.
Proof using Hi Hu Hp.
  eapply wp_ok, kload_pte; [apply Hi|by apply user_vpn_ok|done].
Qed.

Lemma wp_kstore_pte w' (Q : unit -> machine -> Prop) :
  reflags (pte_at (mem s) pgdir vpn) w' ->
  (forall s', touches s s' pgdir l vpn w' (load8 (mem s)) -> Q tt s') ->
  wp (kstore32 (kpte (mem s) pgdir vpn) w') s Q.
Proof using Hi Hu Hp.
  intros Hr HQ. eapply wp_ok; [apply kstore_pte; [apply Hi|by apply user_vpn_ok|done]|].
  by apply HQ, touch_store.
Qed.

Lemma wp_walk va (Q : option Z -> machine -> Prop) :
  va / 4096 = vpn -> Q (Some (kpte (mem s) pgdir vpn)) s ->
  wp (walkpgdir pgdir va false) s Q.
Proof using Hi Hu Hp.
  intros E HQ.
  eapply wp_ok; [apply walkpgdir_lookup; [apply Hi|unfold user_vpn in Hu; consts; dlia]|].
  by rewrite E, Hp.
Qed.

Lemma uva2ka_spec va (Q : option Z -> machine -> Prop) :
  va / 4096 = vpn ->
  Q (let w := pte_at (mem s) pgdir vpn in
     if mapped w && flag w PTE_U then Some (frame w) else None) s ->
  wp (uva2ka pgdir va) s Q.
Proof using Hi Hu Hp.
  intros Hk HQ. unfold uva2ka. wstep. apply wp_walk; [done|]. wsteps. apply wp_kload_pte. wsteps.
  unfold mapped in HQ. rewrite flag_lor in HQ.
  by destruct (flag _ PTE_P || flag _ PTE_E), (flag _ PTE_U).
Qed.
End Entry.

(** The entry of an encrypted page. *)
Definition set_E (w : Z) : Z := Z.ldiff (Z.lor w PTE_E) PTE_P.

Lemma reflags_u32 w w' : reflags w w' -> is_u32 w'.
Proof. by intros []. Qed.

Lemma translate_and_set_spec s pgdir l vpn :
  as_inv s pgdir l -> user_vpn vpn -> 
  let w := pte_at (mem s) pgdir vpn in
  flag w PTE_P = true -> flag w PTE_E = false -> flag w PTE_U = true ->
  wp (translate_and_set pgdir (4096 * vpn)) s (fun r s' =>
    r = Some (frame w) /\ touches s s' pgdir l vpn (set_E w) (load8 (mem s))).
Proof.
  intros Hi Hu w HP HE HU.
  assert (pde_present (mem s) pgdir (vpn / 1024) = true) as Hp by (by apply pte_present_dir).
  unfold translate_and_set. wstep. apply (wp_walk s pgdir l vpn); [done..|by apply page_vpn|]. wsteps. apply (wp_kload_pte s pgdir l); [done..|].
  fold w. rewrite HP, HE, HU. cbn [negb andb]. cbn iota.
  wstep. apply (wp_kstore_pte s pgdir l); [done..| |].
  { fold w. reflag. by rewrite HP. }
  intros s1 T1. pose proof (touches_entry _ _ _ _ _ _ _ T1 Hu) as E1.
  pose proof (to_inv T1) as Hi1.
  rewrite <- (kpte_touch _ _ _ _ _ _ _ _ T1) by (by apply user_vpn_ok).
  rewrite <- (present_touch _ _ _ _ _ _ _ _ T1) in Hp by (by apply user_vpn_ok).
  wstep. apply (wp_kload_pte s1 pgdir l); [done..|]. rewrite E1.
  wstep. apply (wp_kstore_pte s1 pgdir l); [done..| |].
  { rewrite E1. reflag. }
  intros s2 T2. pose proof (touches_entry _ _ _ _ _ _ _ T2 Hu) as E2.
  rewrite <- (kpte_touch _ _ _ _ _ _ _ _ T2) by (by apply user_vpn_ok).
  rewrite <- (present_touch _ _ _ _ _ _ _ _ T2) in Hp by (by apply user_vpn_ok).
  wstep. apply (wp_kload_pte s2 pgdir l); [apply T2|done|done|]. rewrite E2. wstep. split.
  - f_equal. unfold frame. rewrite PTE_ADDR_ldiff, PTE_ADDR_lor by closed. done.
  - eapply touches_ext; [eapply touches_trans; [exact T1|exact T2]|]. intros a Ha.
    by apply (to_mem T1).
Qed.
(** ** Changes that keep the logical contents *)

(** [recrypted m m' pgdir F]: the entries have become [F]; every page keeps
    its frame and its logical contents, and no other memory changes. *)
Record recrypted (m m' : memory) (pgdir : Z) (F : Z -> Z) : Prop := {
  rc_pte v : vpn_ok v -> pte_at m' pgdir v = F v;
  rc_pde d : 0 <= d < 1024 -> pde_present m' pgdir d = pde_present m pgdir d /\
    PTE_ADDR (pde_at m' pgdir d) = PTE_ADDR (pde_at m pgdir d);
  rc_frame v : user_vpn v -> mapped (pte_at m' pgdir v) = mapped (pte_at m pgdir v) /\
    PTE_ADDR (pte_at m' pgdir v) = PTE_ADDR (pte_at m pgdir v);
  rc_bytes v k : user_vpn v -> mapped (pte_at m pgdir v) = true -> 0 <= k < 4096 ->
    lbyte m' pgdir v k = lbyte m pgdir v k;
  rc_mem a : (forall v, tpage m pgdir v \/ uframe m pgdir v -> ~ in_page v a) ->
    load8 m' a = load8 m a;
}.
#[global] Arguments rc_pte {_ _ _ _} _.
#[global] Arguments rc_pde {_ _ _ _} _.
#[global] Arguments rc_frame {_ _ _ _} _.
#[global] Arguments rc_bytes {_ _ _ _} _.
#[global] Arguments rc_mem {_ _ _ _} _.

Lemma recrypted_refl m pgdir : recrypted m m pgdir (pte_at m pgdir).
Proof. by split. Qed.

Lemma recrypted_ext m m' pgdir F G :
  recrypted m m' pgdir F -> (forall v, vpn_ok v -> F v = G v) -> recrypted m m' pgdir G.
Proof. intros H E. destruct H. split; try done. intros v Hv. rewrite <- E by done. auto. Qed.

Lemma recrypted_owned m m' pgdir F v :
  recrypted m m' pgdir F ->
  tpage m' pgdir v \/ uframe m' pgdir v <-> tpage m pgdir v \/ uframe m pgdir v.
Proof.
  intros H. rewrite (same_dir_tpage _ _ _ _ (rc_pde H)).
  assert (uframe m' pgdir v <-> uframe m pgdir v) as ->; [|done]. unfold uframe, frame.
  split; intros (vpn & Hu & Hv); exists vpn; (split; [done|]);
    destruct (rc_frame H vpn Hu) as [E1 E2]; by rewrite E1, E2 in *.
Qed.

Lemma recrypted_trans m1 m2 m3 pgdir F G :
  recrypted m1 m2 pgdir F -> recrypted m2 m3 pgdir G -> recrypted m1 m3 pgdir G.
Proof.
  intros H1 H2. split.
  - apply H2.
  - intros d Hd. destruct (rc_pde H1 d Hd) as [<- <-]. by apply (rc_pde H2).
  - intros v Hv. destruct (rc_frame H1 v Hv) as [<- <-]. by apply (rc_frame H2).
  - intros v k Hv Hm Hk. rewrite <- (rc_bytes H1) by done. apply (rc_bytes H2); [done| |done].
    by destruct (rc_frame H1 v Hv) as [-> _].
  - intros a Ha. rewrite (rc_mem H2); [by apply (rc_mem H1)|]. intros v Hv. apply Ha.
    by apply (recrypted_owned _ _ _ _ _ H1).
Qed.

(** The same of states. *)
Record recrypts s s' (pgdir : Z) (l : list Z) (F : Z -> Z) : Prop := {
  rc_inv : as_inv s' pgdir l;
  rc_regs : same_regs s s';
  rc_rec : recrypted (mem s) (mem s') pgdir F;
}.
#[global] Arguments rc_inv {_ _ _ _ _} _.
#[global] Arguments rc_regs {_ _ _ _ _} _.
#[global] Arguments rc_rec {_ _ _ _ _} _.

Lemma recrypts_refl s pgdir l : as_inv s pgdir l -> recrypts s s pgdir l (pte_at (mem s) pgdir).
Proof. intros. split; [done|apply same_regs_refl|apply recrypted_refl]. Qed.

Lemma recrypts_ext s s' pgdir l F G :
  recrypts s s' pgdir l F -> (forall v, vpn_ok v -> F v = G v) -> recrypts s s' pgdir l G.
Proof. intros [H1 H2 H3] E. split; [done|done|by eapply recrypted_ext]. Qed.

Lemma recrypts_trans s1 s2 s3 pgdir l F G :
  recrypts s1 s2 pgdir l F -> recrypts s2 s3 pgdir l G -> recrypts s1 s3 pgdir l G.
Proof.
  intros [_ H1 H2] [H3 H4 H5]. split; [done|by eapply same_regs_trans|by eapply recrypted_trans].
Qed.

(** The logical byte an entry and a memory give. *)
Definition decode (w b : Z) : Z := if flag w PTE_E then Z.lxor b 0xFF else b.

(** A change of flags other than [PTE_E]. *)
Lemma touches_flags s s' pgdir l vpn w :
  let w0 := pte_at (mem s) pgdir vpn in
  as_inv s pgdir l -> user_vpn vpn -> touches s s' pgdir l vpn w (load8 (mem s)) ->
  reflags w0 w -> flag w PTE_E = flag w0 PTE_E ->
  recrypts s s' pgdir l (fun v => if decide (v = vpn) then w else pte_at (mem s) pgdir v).
Proof.
  intros w0 Hi Hu T (H32 & Hwm & Hwa) HE. split; [apply T|apply T|split].
  - intros v Hv. by rewrite (to_pte T).
  - apply T.
  - intros v Hv. rewrite (to_pte T) by (by apply user_vpn_ok). case_decide; by subst.
  - intros v k Hv Hmv Hk. unfold lbyte. rewrite (to_pte T) by (by apply user_vpn_ok).
    case_decide as E; [subst v; rewrite Hwa, HE; fold w0|];
      rewrite (to_mem T); try done; intros x Hx; by eapply frame_not_table.
  - intros a Ha. apply (to_mem T). intros v Hv. apply Ha. by left.
Qed.

Lemma touches_recrypts s s' pgdir l vpn w g :
  let w0 := pte_at (mem s) pgdir vpn in
  as_inv s pgdir l -> user_vpn vpn -> mapped w0 = true -> touches s s' pgdir l vpn w g ->
  reflags w0 w ->
  (forall k, 0 <= k < 4096 -> decode w (g (PTE_ADDR w0 + k)) = decode w0 (load8 (mem s) (PTE_ADDR w0 + k))) ->
  (forall a, ~ in_page (frame w0) a -> g a = load8 (mem s) a) ->
  recrypts s s' pgdir l (fun v => if decide (v = vpn) then w else pte_at (mem s) pgdir v).
Proof.
  intros w0 Hi Hu Hm T (H32 & Hwm & Hwa) Hin Hout. split; [apply T|apply T|split].
  - intros v Hv. by rewrite (to_pte T).
  - apply T.
  - intros v Hv. rewrite (to_pte T) by (by apply user_vpn_ok). case_decide; by subst.
  - intros v k Hv Hmv Hk. unfold lbyte. rewrite (to_pte T) by (by apply user_vpn_ok).
    case_decide as E; [subst v|].
    + rewrite Hwa. rewrite (to_mem T); [by apply Hin|]. intros v Ht. by eapply frame_not_table.
    + rewrite (to_mem T) by (intros x Hx; by eapply frame_not_table).
      rewrite Hout; [done|]. intros Hin'. apply E.
      apply (ai_inj _ _ _ Hi); try done.
      destruct (ai_frame _ _ _ Hi v Hv Hmv) as (H1 & _), (ai_frame _ _ _ Hi vpn Hu Hm) as (H2 & _).
      eapply Impl.in_page_disj; [done|done| |exact Hin'].
      apply in_frame; [apply pte_u32|done].
  - intros a Ha. rewrite (to_mem T) by (intros; apply Ha; by left). apply Hout, Ha. right. by exists vpn.
Qed.
(** ** Encrypting a page *)

(** The entry of a page after its encryption. *)
Definition enc_entry (w : Z) : Z := set_E (Z.ldiff (used 1 w) PTE_A).

Lemma enc_entry_reflags w : is_u32 w -> mapped w = true -> reflags w (enc_entry w).
Proof. intros Hw Hm. unfold mapped in Hm. unfold enc_entry, set_E, used. reflag. Qed.

Lemma enc_entry_flags w :
  flag (enc_entry w) PTE_E = true /\ flag (enc_entry w) PTE_P = false /\
  flag (enc_entry w) PTE_A = false /\ flag (enc_entry w) PTE_U = flag w PTE_U /\
  flag (enc_entry w) PTE_W = flag w PTE_W.
Proof. unfold enc_entry, set_E, used. split_and!; by flags. Qed.

Lemma encrypt_page_spec s pgdir l vpn :
  let w := pte_at (mem s) pgdir vpn in
  as_inv s pgdir l -> cr3 s = V2P pgdir -> user_vpn vpn ->
  flag w PTE_P = true -> flag w PTE_E = false -> flag w PTE_U = true -> flag w PTE_W = true ->
  wp (encrypt_page pgdir (4096 * vpn) (kpte (mem s) pgdir vpn)) s (fun r s' =>
    r = Some (frame w) /\ recrypts s s' pgdir l
      (fun v => if decide (v = vpn) then enc_entry w else pte_at (mem s) pgdir v)).
Proof.
  intros w Hi Hcr Hu HP HE HU HW.
  assert (Z.of_nat (Z.to_nat PGSIZE) = 4096) as Hn by (apply Z2Nat.id; closed).
  assert (pde_present (mem s) pgdir (vpn / 1024) = true) as Hp by (by apply pte_present_dir).
  unfold encrypt_page. set (n := Z.to_nat PGSIZE) in *.
  assert (used n w = used 1 w) as Hused by (destruct n; [lia|done]).
  wstep. replace (4096 * vpn) with (4096 * vpn + 0) at 1 by lia.
  eapply wp_mono; [apply (xor_bytes_spec n s pgdir l); (done || lia)|].
  fold w. rewrite Hn, Hused, Z.add_0_r. intros [] s1 T1.
  pose proof (touches_entry _ _ _ _ _ _ _ T1 Hu) as E1. pose proof (to_inv T1) as Hi1.
  rewrite <- (kpte_touch _ _ _ _ _ _ _ _ T1) by (by apply user_vpn_ok).
  rewrite <- (present_touch _ _ _ _ _ _ _ _ T1) in Hp by (by apply user_vpn_ok).
  wstep. apply (wp_kload_pte s1 pgdir l); [done..|]. rewrite E1.
  wstep. apply (wp_kstore_pte s1 pgdir l); [done..| |].
  { rewrite E1. unfold used. reflag. }
  intros s2 T2. pose proof (touches_entry _ _ _ _ _ _ _ T2 Hu) as E2.
  replace (u32 (u32 (4096 * vpn + PGSIZE) - PGSIZE)) with (4096 * vpn)
    by (unfold user_vpn in Hu; consts; dlia).
  eapply wp_mono.
  { apply (translate_and_set_spec s2 pgdir l); [apply T2|done|..]; rewrite E2; unfold used; flags;
      by rewrite ?HP, ?HE, ?HU. }
  rewrite E2. fold (enc_entry w). intros r s3 [-> T3].
  assert (is_u32 w) as Hw32 by apply pte_u32.
  pose proof (enc_entry_reflags w Hw32 (present_mapped w HP)) as Hr. split.
  { f_equal. unfold frame, used. by rewrite PTE_ADDR_ldiff, PTE_ADDR_lor by closed. }
  apply (touches_recrypts s s3 pgdir l vpn (enc_entry w)
    (fun a => if decide (PTE_ADDR w <= a < PTE_ADDR w + 4096)
              then Z.lxor (load8 (mem s) a) 0xFF else load8 (mem s) a));
    [done|done|by apply present_mapped| |done| |].
  - eapply touches_ext.
    + eapply touches_trans; [eapply touches_trans; [exact T1|exact T2]|exact T3].
    + intros a Ha. rewrite (to_mem T2); [by apply (to_mem T1)|].
      intros v Hv. by apply Ha, (same_dir_tpage _ _ _ _ (to_pde T1)).
  - intros k Hk. fold w. cbv beta. rewrite decide_True by lia. unfold decode.
    destruct (enc_entry_flags w) as (-> & _). rewrite HE. apply lxor_twice.
  - intros a Ha. fold w in Ha. cbv beta. rewrite decide_False; [done|]. intros Hin. apply Ha.
    replace a with (PTE_ADDR w + (a - PTE_ADDR w)) by lia. apply in_frame; [done|lia].
Qed.
(** ** mencrypt *)

(** The pages [mencrypt] encrypts, and what it makes of an entry. *)
Definition encrypts (w : Z) : bool := flag w PTE_U && negb (flag w PTE_E).
Definition encrypted (m : memory) (pgdir lo n v : Z) : Z :=
  let w := pte_at m pgdir v in
  if bool_decide (lo <= v < lo + n) && encrypts w then enc_entry w else w.

(** The pages of the range have page tables: where one is missing [walkpgdir]
    gives a null pointer, which [mencrypt] dereferences. *)
Definition has_tables (m : memory) (pgdir lo n : Z) : Prop :=
  forall v, lo <= v < lo + n -> pde_present m pgdir (v / 1024) = true.

Lemma next_page v : user_vpn v -> u32 (4096 * v + PGSIZE) = 4096 * (v + 1).
Proof. unfold user_vpn. consts. dlia. Qed.

Lemma mencrypt_check_spec n s pgdir l lo :
  as_inv s pgdir l -> 0 <= lo -> lo + Z.of_nat n <= 524288 -> has_tables (mem s) pgdir lo (Z.of_nat n) ->
  let bad v := flag (pte_at (mem s) pgdir v) PTE_U = true /\ mapped (pte_at (mem s) pgdir v) = false in
  wp (mencrypt_check pgdir (4096 * lo) n) s (fun r s' => s' = s /\
    (r = 0 /\ (forall v, lo <= v < lo + Z.of_nat n -> ~ bad v) \/
     r = -1 /\ exists v, lo <= v < lo + Z.of_nat n /\ bad v)).
Proof.
  intros Hi. revert lo. induction n as [|n IH]; intros lo H0 Hn Ht bad; cbn [mencrypt_check].
  { wstep. split; [done|]. left. split; [done|]. lia. }
  assert (user_vpn lo) as Hu by (unfold user_vpn; lia).
  assert (pde_present (mem s) pgdir (lo / 1024) = true) as Hp by (apply Ht; lia).
  wstep. apply (wp_walk s pgdir l lo); [done..|by apply page_vpn|]. wsteps. apply (wp_kload_pte s pgdir l); [done..|].
  rewrite !next_page by done.
  assert (~ bad lo -> wp (mencrypt_check pgdir (4096 * (lo + 1)) n) s (fun r s' => s' = s /\
    (r = 0 /\ (forall v, lo <= v < lo + Z.of_nat (S n) -> ~ bad v) \/
     r = -1 /\ exists v, lo <= v < lo + Z.of_nat (S n) /\ bad v))) as Hrest.
  { intros Hb. eapply wp_mono; [apply (IH (lo + 1)); [lia|lia|]|].
    - intros v Hv. apply Ht. lia.
    - cbv beta zeta. intros r s' [-> [[-> Hall]|[-> (v & Hv & Hbv)]]]; (split; [done|]); [left|right].
      + split; [done|]. intros v Hv. destruct (decide (v = lo)) as [->|]; [done|]. apply Hall. lia.
      + split; [done|]. exists v. split; [lia|done]. }
  destruct (flag (pte_at (mem s) pgdir lo) PTE_U) eqn:HU; cbn [negb].
  2: { apply Hrest. unfold bad. rewrite HU. naive_solver. }
  wstep. apply (uva2ka_spec s pgdir l lo); [done..|by apply page_vpn|]. cbv zeta. rewrite HU, andb_true_r.
  destruct (mapped (pte_at (mem s) pgdir lo)) eqn:Hm.
  - apply Hrest. unfold bad. rewrite Hm. naive_solver.
  - wstep. split; [done|]. right. split; [done|]. exists lo. split; [lia|done].
Qed.

Lemma mencrypt_loop_spec n s pgdir l lo :
  as_inv s pgdir l -> cr3 s = V2P pgdir -> 0 <= lo -> lo + Z.of_nat n <= 524288 ->
  has_tables (mem s) pgdir lo (Z.of_nat n) ->
  (forall v, lo <= v < lo + Z.of_nat n -> enc_ok (pte_at (mem s) pgdir v)) ->
  (forall v, lo <= v < lo + Z.of_nat n -> flag (pte_at (mem s) pgdir v) PTE_U = true ->
     mapped (pte_at (mem s) pgdir v) = true) ->
  wp (mencrypt_loop pgdir (4096 * lo) n) s (fun r s' => r = 0 /\
    recrypts s s' pgdir l (encrypted (mem s) pgdir lo (Z.of_nat n))).
Proof.
  revert s lo. induction n as [|n IH]; intros s lo Hi Hcr H0 Hn Ht Hok Hmap; cbn [mencrypt_loop].
  { wstep. split; [done|]. eapply recrypts_ext; [by apply recrypts_refl|]. intros v Hv.
    unfold encrypted. rewrite bool_decide_false by lia. done. }
  assert (user_vpn lo) as Hu by (unfold user_vpn; lia).
  assert (pde_present (mem s) pgdir (lo / 1024) = true) as Hp by (apply Ht; lia).
  set (w := pte_at (mem s) pgdir lo).
  (* the rest of the loop, from a state in which only page [lo] has changed *)
  assert (forall s1 w1, recrypts s s1 pgdir l (fun v => if decide (v = lo) then w1 else pte_at (mem s) pgdir v) ->
    w1 = (if encrypts w then enc_entry w else w) ->
    wp (mencrypt_loop pgdir (4096 * (lo + 1)) n) s1 (fun r s' => r = 0 /\
      recrypts s s' pgdir l (encrypted (mem s) pgdir lo (Z.of_nat (S n))))) as Hrest.
  { intros s1 w1 R1 ->.
    assert (forall v, lo < v < lo + Z.of_nat (S n) -> pte_at (mem s1) pgdir v = pte_at (mem s) pgdir v) as Hs1.
    { intros v Hv. rewrite (rc_pte (rc_rec R1)) by (unfold vpn_ok; lia). by rewrite decide_False by lia. }
    eapply wp_mono; [apply (IH s1 (lo + 1)); [apply R1| |lia|lia|..]|].
    - destruct (rc_regs R1) as (_ & -> & _). done.
    - intros v Hv. destruct (rc_pde (rc_rec R1) (v / 1024)) as [-> _]; [apply vpn_dir; unfold vpn_ok; lia|].
      apply Ht. lia.
    - intros v Hv. rewrite Hs1 by lia. apply Hok. lia.
    - intros v Hv. rewrite Hs1 by lia. apply Hmap. lia.
    - intros r s2 [-> R2]. split; [done|]. eapply recrypts_ext; [eapply recrypts_trans; [exact R1|exact R2]|].
      intros v Hv. unfold encrypted. rewrite (rc_pte (rc_rec R1)) by done.
      destruct (decide (v = lo)) as [->|Hne].
      + rewrite bool_decide_false, bool_decide_true by lia. done.
      + destruct (bool_decide_reflect (lo + 1 <= v < lo + 1 + Z.of_nat n));
          destruct (bool_decide_reflect (lo <= v < lo + Z.of_nat (S n))); try done; lia. }
  wstep. apply (wp_walk s pgdir l lo); [done..|by apply page_vpn|]. wsteps.
  apply (wp_kload_pte s pgdir l); [done..|]. fold w. rewrite !next_page by done.
  assert (recrypts s s pgdir l (fun v => if decide (v = lo) then w else pte_at (mem s) pgdir v)) as R0.
  { eapply recrypts_ext; [by apply recrypts_refl|]. intros v _. case_decide; by subst. }
  destruct (flag w PTE_U) eqn:HU; cbn [negb].
  2: { eapply Hrest; [exact R0|]. unfold encrypts. by rewrite HU. }
  destruct (flag w PTE_E) eqn:HE.
  { eapply Hrest; [exact R0|]. unfold encrypts. by rewrite HU, HE. }
  assert (mapped w = true) as Hm by (apply Hmap; [lia|done]).
  destruct (Hok lo ltac:(lia) HU Hm) as [HP HW]. fold w in HP, HW. rewrite HE in HP.
  wstep. eapply wp_mono; [by apply (encrypt_page_spec s pgdir l)|]. fold w.
  intros r s1 [-> R1]. cbn beta iota. eapply Hrest; [exact R1|]. unfold encrypts. by rewrite HU, HE.
Qed.

(** All or nothing: [mencrypt] encrypts every user page of the range that is
    not encrypted yet, or, when some user page does not translate, changes
    nothing. *)
Lemma mencrypt_pages_spec s pgdir l va len :
  as_inv s pgdir l -> cr3 s = V2P pgdir -> is_u32 va ->
  let lo := va / 4096 in
  lo + Z.max 0 len <= 524288 -> has_tables (mem s) pgdir lo len ->
  (forall v, user_vpn v -> enc_ok (pte_at (mem s) pgdir v)) ->
  let bad v := flag (pte_at (mem s) pgdir v) PTE_U = true /\ mapped (pte_at (mem s) pgdir v) = false in
  wp (mencrypt_pages pgdir va len) s (fun r s' =>
    r = 0 /\ (forall v, lo <= v < lo + len -> ~ bad v) /\
      recrypts s s' pgdir l (encrypted (mem s) pgdir lo len) \/
    r = -1 /\ (exists v, lo <= v < lo + len /\ bad v) /\ s' = s).
Proof.
  intros Hi Hcr Hva lo Hn Ht Hok bad. unfold mencrypt_pages.
  assert (0 <= lo) as H0 by (unfold lo; consts; dlia).
  replace (PGROUNDDOWN va) with (4096 * lo) by (rewrite PGROUNDDOWN_eq; unfold lo; consts; dlia).
  assert (forall v, lo <= v < lo + Z.of_nat (Z.to_nat len) <-> lo <= v < lo + len) as Hr by lia.
  wstep. eapply wp_mono; [apply (mencrypt_check_spec _ s pgdir l); [done|done|lia|]|].
  { intros v Hv. apply Ht. by apply Hr. }
  cbv zeta. intros r s' [-> [[-> Hall]|[-> (v & Hv & Hb)]]].
  2: { cbn [Z.eqb Pos.eqb]. wstep. right. split; [done|]. split; [|done]. exists v. split; [by apply Hr|done]. }
  cbn [Z.eqb]. eapply wp_mono; [apply (mencrypt_loop_spec _ s pgdir l); [done|done|done|lia|..]|].
  - intros v Hv. apply Ht. by apply Hr.
  - intros v Hv. apply Hok. unfold user_vpn. lia.
  - intros v Hv HU. apply not_false_iff_true. intros Hm. by apply (Hall v Hv).
  - intros r s1 [-> R]. left. split; [done|]. split.
    + intros v Hv. by apply Hall, Hr.
    + eapply recrypts_ext; [exact R|]. intros v _. unfold encrypted.
      by rewrite (bool_decide_ext _ _ (Hr v)).
Qed.
(** ** mdecrypt *)

Definition clear_E (w : Z) : Z := Z.lor (Z.ldiff w PTE_E) PTE_P.

(** The entry of a page after its decryption. *)
Definition dec_entry (w : Z) : Z := used 1 (clear_E w).

Lemma dec_entry_flags w :
  flag (dec_entry w) PTE_E = false /\ flag (dec_entry w) PTE_P = true /\
  flag (dec_entry w) PTE_A = true /\ flag (dec_entry w) PTE_U = flag w PTE_U /\
  flag (dec_entry w) PTE_W = flag w PTE_W.
Proof. unfold dec_entry, clear_E, used. split_and!; by flags. Qed.

Lemma clear_E_reflags w : is_u32 w -> flag w PTE_E = true -> reflags w (clear_E w).
Proof.
  intros Hw HE. unfold clear_E. reflag. by rewrite HE, orb_true_r.
Qed.

Lemma dec_entry_reflags w : is_u32 w -> flag w PTE_E = true -> reflags w (dec_entry w).
Proof.
  intros Hw HE. unfold dec_entry, clear_E, used. reflag. by rewrite HE, orb_true_r.
Qed.

Lemma mdecrypt_page_spec s pgdir l va :
  as_inv s pgdir l -> cr3 s = V2P pgdir ->
  let vpn := va / 4096 in let w := pte_at (mem s) pgdir vpn in
  user_vpn vpn -> pde_present (mem s) pgdir (vpn / 1024) = true -> enc_ok w ->
  wp (mdecrypt_page pgdir va) s (fun r s' =>
    if negb (flag w PTE_E && flag w PTE_U) then r = -1 /\ s' = s
    else if load8 (mem s) (PTE_ADDR w) =? 0
    then r = -1 /\ touches s s' pgdir l vpn (clear_E w) (load8 (mem s))
    else r = 0 /\ recrypts s s' pgdir l
           (fun v => if decide (v = vpn) then dec_entry w else pte_at (mem s) pgdir v)).
Proof.
  intros Hi Hcr vpn w Hu Hp Hok. unfold mdecrypt_page.
  wstep. apply (wp_walk s pgdir l vpn); [done..|]. wsteps. apply (wp_kload_pte s pgdir l); [done..|].
  fold w. destruct (flag w PTE_E) eqn:HE; cbn [negb andb]; [|by wstep].
  destruct (flag w PTE_U) eqn:HU; cbn [negb]; [|by wstep].
  assert (mapped w = true) as Hm.
  { unfold mapped. rewrite flag_lor, HE. apply orb_true_r. }
  destruct (Hok HU Hm) as [HP HW]. rewrite HE in HP.
  destruct (Z.eqb_spec w 0) as [E0|_]; [by rewrite E0 in HE|].
  assert (is_u32 w) as H32 by apply pte_u32.
  (* the entry has neither flag between the two stores *)
  wstep. eapply wp_ok; [done|]. wstep. eapply wp_ok; [done|]. cbn [mem set_mem].
  rewrite load32_store32_eq, u32_small by (by apply ldiff_u32).
  wstep. eapply wp_ok; [done|]. cbn [mem set_mem]. rewrite store32_store32.
  rewrite kpte_V2P by (apply Hi || done || by apply user_vpn_ok). fold (clear_E w).
  pose proof (touch_store s pgdir l vpn (clear_E w) Hi Hu Hp (clear_E_reflags w H32 HE)) as T1.
  set (s1 := set_mem _ s) in T1 |- *. change (set_mem _ (set_mem _ s)) with s1.
  pose proof (touches_entry _ _ _ _ _ _ _ T1 Hu) as E1. pose proof (to_inv T1) as Hi1.
  rewrite <- (present_touch _ _ _ _ _ _ _ _ T1) in Hp by (by apply user_vpn_ok).
  assert (PTE_ADDR (clear_E w) = PTE_ADDR w) as HA by (by apply clear_E_reflags).
  assert (mapped (clear_E w) && flag (clear_E w) PTE_U = true) as Hmu.
  { unfold mapped, clear_E. flags. by rewrite HU. }
  wstep. apply (uva2ka_spec s1 pgdir l vpn); [done..|].
  replace (PGROUNDDOWN va) with (4096 * vpn) by (rewrite PGROUNDDOWN_eq; unfold vpn; dlia).
  wstep. apply (uva2ka_spec s1 pgdir l vpn); [done..|by apply page_vpn|].
  cbv zeta. rewrite E1, Hmu. unfold frame. rewrite HA.
  wstep. eapply wp_ok; [done|]. rewrite V2P_P2V_u32 by (by apply PTE_ADDR_u32).
  assert (load8 (mem s1) (PTE_ADDR w) = load8 (mem s) (PTE_ADDR w)) as ->.
  { apply (to_mem T1). intros v Ht. rewrite <- (Z.add_0_r (PTE_ADDR w)). by eapply frame_not_table. }
  destruct (load8 (mem s) (PTE_ADDR w) =? 0); [by wstep|].
  assert (Z.of_nat (Z.to_nat PGSIZE) = 4096) as Hn by (apply Z2Nat.id; closed).
  set (n := Z.to_nat PGSIZE) in *.
  assert (used n (clear_E w) = dec_entry w) as Hused by (destruct n; [lia|done]).
  wstep. eapply wp_mono.
  { replace (4096 * vpn) with (4096 * vpn + 0) by lia.
    apply (xor_bytes_spec n s1 pgdir l); rewrite ?E1; [done| |done|..]; try lia.
    - by rewrite (touches_cr3 _ _ _ _ _ _ _ T1).
    - unfold clear_E. by flags.
    - unfold clear_E. by flags. }
  rewrite E1, Hn, HA, Hused, Z.add_0_r. intros [] s2 T2. wstep. split; [done|].
  apply (touches_recrypts s s2 pgdir l vpn (dec_entry w)
    (fun a => if decide (PTE_ADDR w <= a < PTE_ADDR w + 4096)
              then Z.lxor (load8 (mem s) a) 0xFF else load8 (mem s) a));
    [done|done|done| |by apply dec_entry_reflags| |].
  - eapply touches_ext; [eapply touches_trans; [exact T1|exact T2]|].
    intros a Ha. cbv beta. by rewrite (to_mem T1).
  - intros k Hk. fold w. cbv beta. rewrite decide_True by lia. unfold decode.
    destruct (dec_entry_flags w) as (-> & _). by rewrite HE.
  - intros a Ha. fold w in Ha. cbv beta. rewrite decide_False; [done|]. intros Hin. apply Ha.
    replace a with (PTE_ADDR w + (a - PTE_ADDR w)) by lia. apply in_frame; [done|lia].
Qed.
End Touch.
