(* ===== verification/ProcTable.v ===== *)
(** * Processes and the kernel's state: proc.h, ptable of proc.c, trapframe of x86.h

    The state of the kernel: the machine, the process table with its lock and
    the counters of proc.c and trap.c, and the state of the file layer, whose
    type is a parameter.  A pointer to a process is an index into
    [ptable.proc]; trap frames and contexts live in memory, on the kernel
    stacks, at the offsets of their C structures.  Of a clock node only
    [pageAddr] is kept: [key] and [next] are never read except to be copied. *)

From S2P Require Import Prelude Memory Mmu Machine Spinlock.

(** ** Records *)

Inductive procstate : Type := UNUSED | EMBRYO | SLEEPING | RUNNABLE | RUNNING | ZOMBIE.

#[export] Instance procstate_eq_dec : EqDecision procstate.
Proof. solve_decision. Defined.

(** What a process can sleep on: the address of a kernel object.  The
    addresses of different objects differ. *)
Inductive channel : Type := NoChan | ProcChan (p : nat) | TicksChan | ObjChan (a : Z).

#[export] Instance channel_eq_dec : EqDecision channel.
Proof. solve_decision. Defined.

Record proc : Type := Proc {
  sz : Z;
  pgdir : Z;
  kstack : Z;
  state : procstate;
  pid : Z;
  parent : option nat;
  tf : Z;
  context : Z;
  chan : channel;
  killed : bool;
  ofile : list (option nat);
  cwd : option nat;
  name : list Z;
  nodes : list Z;
  inClock : Z;
  currInd : Z;
}.

(** [ptable], [nextpid] and [initproc] of proc.c, [ticks] and [tickslock] of
    trap.c; [F] is the state of the file layer. *)
Record kstate (F : Type) : Type := KState {
  mach : machine;
  ptable_lock : spinlock;
  procs : list proc;
  nextpid : Z;
  initproc : option nat;
  ticks : Z;
  tickslock : spinlock;
  files : F;
}.
Arguments KState {F} _ _ _ _ _ _ _ _.
Arguments mach {F} _.
Arguments ptable_lock {F} _.
Arguments procs {F} _.
Arguments nextpid {F} _.
Arguments initproc {F} _.
Arguments ticks {F} _.
Arguments tickslock {F} _.
Arguments files {F} _.

(** ** Assignments to fields *)

Definition set_sz v p := Proc v (pgdir p) (kstack p) (state p) (pid p) (parent p) (tf p) (context p)
  (chan p) (killed p) (ofile p) (cwd p) (name p) (nodes p) (inClock p) (currInd p).
Definition set_pgdir v p := Proc (sz p) v (kstack p) (state p) (pid p) (parent p) (tf p) (context p)
  (chan p) (killed p) (ofile p) (cwd p) (name p) (nodes p) (inClock p) (currInd p).
Definition set_kstack v p := Proc (sz p) (pgdir p) v (state p) (pid p) (parent p) (tf p) (context p)
  (chan p) (killed p) (ofile p) (cwd p) (name p) (nodes p) (inClock p) (currInd p).
Definition set_state v p := Proc (sz p) (pgdir p) (kstack p) v (pid p) (parent p) (tf p) (context p)
  (chan p) (killed p) (ofile p) (cwd p) (name p) (nodes p) (inClock p) (currInd p).
Definition set_pid v p := Proc (sz p) (pgdir p) (kstack p) (state p) v (parent p) (tf p) (context p)
  (chan p) (killed p) (ofile p) (cwd p) (name p) (nodes p) (inClock p) (currInd p).
Definition set_parent v p := Proc (sz p) (pgdir p) (kstack p) (state p) (pid p) v (tf p) (context p)
  (chan p) (killed p) (ofile p) (cwd p) (name p) (nodes p) (inClock p) (currInd p).
Definition set_tf v p := Proc (sz p) (pgdir p) (kstack p) (state p) (pid p) (parent p) v (context p)
  (chan p) (killed p) (ofile p) (cwd p) (name p) (nodes p) (inClock p) (currInd p).
Definition set_context v p := Proc (sz p) (pgdir p) (kstack p) (state p) (pid p) (parent p) (tf p) v
  (chan p) (killed p) (ofile p) (cwd p) (name p) (nodes p) (inClock p) (currInd p).
Definition set_chan v p := Proc (sz p) (pgdir p) (kstack p) (state p) (pid p) (parent p) (tf p) (context p)
  v (killed p) (ofile p) (cwd p) (name p) (nodes p) (inClock p) (currInd p).
Definition set_killed v p := Proc (sz p) (pgdir p) (kstack p) (state p) (pid p) (parent p) (tf p) (context p)
  (chan p) v (ofile p) (cwd p) (name p) (nodes p) (inClock p) (currInd p).
Definition set_ofile v p := Proc (sz p) (pgdir p) (kstack p) (state p) (pid p) (parent p) (tf p) (context p)
  (chan p) (killed p) v (cwd p) (name p) (nodes p) (inClock p) (currInd p).
Definition set_cwd v p := Proc (sz p) (pgdir p) (kstack p) (state p) (pid p) (parent p) (tf p) (context p)
  (chan p) (killed p) (ofile p) v (name p) (nodes p) (inClock p) (currInd p).
Definition set_name v p := Proc (sz p) (pgdir p) (kstack p) (state p) (pid p) (parent p) (tf p) (context p)
  (chan p) (killed p) (ofile p) (cwd p) v (nodes p) (inClock p) (currInd p).
Definition set_nodes v p := Proc (sz p) (pgdir p) (kstack p) (state p) (pid p) (parent p) (tf p) (context p)
  (chan p) (killed p) (ofile p) (cwd p) (name p) v (inClock p) (currInd p).
Definition set_inClock v p := Proc (sz p) (pgdir p) (kstack p) (state p) (pid p) (parent p) (tf p) (context p)
  (chan p) (killed p) (ofile p) (cwd p) (name p) (nodes p) v (currInd p).
Definition set_currInd v p := Proc (sz p) (pgdir p) (kstack p) (state p) (pid p) (parent p) (tf p) (context p)
  (chan p) (killed p) (ofile p) (cwd p) (name p) (nodes p) (inClock p) v.

Section KState.
Context {F : Type}.
Implicit Types k : kstate F.

Definition set_mach v k := KState v (ptable_lock k) (procs k) (nextpid k) (initproc k) (ticks k) (tickslock k) (files k).
Definition set_ptable_lock v k := KState (mach k) v (procs k) (nextpid k) (initproc k) (ticks k) (tickslock k) (files k).
Definition set_procs v k := KState (mach k) (ptable_lock k) v (nextpid k) (initproc k) (ticks k) (tickslock k) (files k).
Definition set_nextpid v k := KState (mach k) (ptable_lock k) (procs k) v (initproc k) (ticks k) (tickslock k) (files k).
Definition set_initproc v k := KState (mach k) (ptable_lock k) (procs k) (nextpid k) v (ticks k) (tickslock k) (files k).
Definition set_ticks v k := KState (mach k) (ptable_lock k) (procs k) (nextpid k) (initproc k) v (tickslock k) (files k).
Definition set_tickslock v k := KState (mach k) (ptable_lock k) (procs k) (nextpid k) (initproc k) (ticks k) v (files k).
Definition set_files (v : F) k := KState (mach k) (ptable_lock k) (procs k) (nextpid k) (initproc k) (ticks k) (tickslock k) v.

Definition machL : lens (kstate F) machine := Lens mach set_mach.
Definition ptable_lockL : lens (kstate F) spinlock := Lens ptable_lock set_ptable_lock.
Definition tickslockL : lens (kstate F) spinlock := Lens tickslock set_tickslock.

#[export] Instance machL_ok : LensOk machL.
Proof. split; [split|]; by intros; try destruct s. Qed.
#[export] Instance ptable_lockL_ok : LensOk ptable_lockL.
Proof. split; [split|]; by intros; try destruct s. Qed.
#[export] Instance tickslockL_ok : LensOk tickslockL.
Proof. split; [split|]; by intros; try destruct s. Qed.

#[export] Instance kstate_hart : HasHart (kstate F) := compose machL hartL.
#[export] Instance kstate_hart_ok : LensOk (@hartL (kstate F) _).
Proof. apply compose_ok; apply _. Qed.
#[export] Instance ptable_lock_hart : LensIndep ptable_lockL (@hartL (kstate F) _).
Proof. by split. Qed.
#[export] Instance tickslock_hart : LensIndep tickslockL (@hartL (kstate F) _).
Proof. by split. Qed.

(** ** Access to processes *)

Definition myproc : M (kstate F) (option nat) :=
  zoom hartL pushcli;;
  p ← zoom hartL (get_mycpu cpu_proc);
  zoom hartL popcli;;
  mret p.

(** [p->field] and [p->field = ...] *)
Definition getp {A} (p : nat) (f : proc -> A) : M (kstate F) A :=
  k ← get;
  match procs k !! p with Some q => mret (f q) | None => fault end.

Definition setp (p : nat) (f : proc -> proc) : M (kstate F) unit :=
  modify (fun k => set_procs (alter f p (procs k)) k).

(** [myproc()->field] and [myproc()->field = ...] *)
Definition mygetp {A} (f : proc -> A) : M (kstate F) A :=
  o ← myproc; p ← nonnull o; getp p f.

Definition mysetp (f : proc -> proc) : M (kstate F) unit :=
  o ← myproc; p ← nonnull o; setp p f.
End KState.
