(* ===== verification/Clock.v ===== *)
(** * The clock of decrypted pages: mencrypt, mdecrypt, getpgtable and dump_rawphymem of vm.c

    Each process keeps the pages it has decrypted in a clock of [CLOCKSIZE]
    nodes.  [mdecrypt] decrypts a page and enters it; when the clock is full
    the second-chance scan clears accessed bits until it finds a node whose
    page has not been accessed, encrypts that page and takes its place. *)

From S2P Require Import Prelude Memory Mmu Machine Spinlock Kalloc Vm PageTable VmProofs VmSpaces.
From S2P Require Import Encrypt ProcTable.

(** ** Definitions *)

Section Clock.
Context `{KI : KernelImage, PO : !PageOps} {F : Type}.
Abbreviation K := (M (kstate F)).

(** [switchuvm(p)] *)
Definition switchuvm_proc (o : option nat) : K unit :=
  match o with
  | None => panic "switchuvm: no process"
  | Some p => ks ← getp p kstack; pd ← getp p pgdir; zoom machL (switchuvm ks pd)
  end.

Definition mencrypt (virtual_addr len : Z) : K Z :=
  o ← myproc;
  p ← nonnull o;
  mypd ← getp p pgdir;
  r ← zoom machL (mencrypt_pages mypd virtual_addr len);
  if r =? -1 then mret (-1) else
  o ← myproc;
  switchuvm_proc o;;
  mret 0.

(** [myproc()->nodes[i].pageAddr], and the assignment; an index outside the
    array is outside the process structure's clock. *)
Definition get_node (i : Z) : K Z :=
  ns ← mygetp nodes;
  if i <? 0 then fault else nonnull (ns !! Z.to_nat i).

Definition set_node (i a : Z) : K unit :=
  ns ← mygetp nodes;
  if (i <? 0) || (Z.of_nat (length ns) <=? i) then fault
  else mysetp (fun p => set_nodes (<[Z.to_nat i := a]> (nodes p)) p).

(** The inner loop over the clock: [true] when a page was evicted. *)
Fixpoint evict_scan (mypdC add i : Z) (n : nat) : K bool :=
  match n with
  | O => mret false
  | S n =>
      c ← mygetp currInd;
      let realInd := Z.rem (i + c) CLOCKSIZE in
      a ← get_node realInd;
      o ← zoom machL (walkpgdir mypdC a false);
      mypteC ← nonnull o;
      w ← zoom machL (kload32 mypteC);
      if flag w PTE_A then
        zoom machL (kstore32 mypteC (Z.ldiff w PTE_A));;
        evict_scan mypdC add (i + 1) n
      else
        a ← get_node realInd;
        _ ← mencrypt a 1;
        set_node realInd add;;
        mysetp (set_currInd (Z.rem (realInd + 1) CLOCKSIZE));;
        mret true
  end.

(** The clock part of [mdecrypt]. *)
Definition clock_insert (mypdC add : Z) : K unit :=
  n ← mygetp inClock;
  if n =? 0 then
    set_node 0 add;;
    mysetp (set_inClock 1);;
    mysetp (set_currInd 1)
  else
  n ← mygetp inClock;
  if n <? CLOCKSIZE then
    c ← mygetp currInd;
    set_node c add;;
    mysetp (fun p => set_currInd (currInd p + 1) p);;
    mysetp (fun p => set_inClock (inClock p + 1) p)
  else
    evicted ← evict_scan mypdC add 0 (Z.to_nat CLOCKSIZE);
    if (evicted : bool) then mret tt else
    _ ← evict_scan mypdC add 0 (Z.to_nat CLOCKSIZE);
    mret tt.

Definition mdecrypt (virtual_addr : Z) : K Z :=
  o ← myproc;
  p ← nonnull o;
  mypd ← getp p pgdir;
  r ← zoom machL (mdecrypt_page mypd virtual_addr);
  if r =? -1 then mret (-1) else
  let virtual_addr := PGROUNDDOWN virtual_addr in
  mypdC ← mygetp pgdir;
  clock_insert mypdC (PGROUNDDOWN virtual_addr);;
  o ← myproc;
  switchuvm_proc o;;
  mret 0.

(** ** User memory from kernel code

    A kernel access to a user page that is not present traps; [trap] calls
    [mdecrypt] and resumes the access when it returns 0, and panics otherwise
    (the fault comes from kernel code).  [n] bounds the number of faults of
    one access. *)
Fixpoint with_fault {A} (acc : M machine A) (va : Z) (n : nat) : K A := fun k =>
  match acc (mach k) with
  | Fault _ =>
      match n with
      | O => Spin k
      | S n => (r ← mdecrypt va; if r =? 0 then with_fault acc va n else panic "trap") k
      end
  | o => zoom machL (fun _ => o) k
  end.

Definition uload8 (va : Z) : K Z := with_fault (vload8 va) va 2.
Definition ustore8 (va b : Z) : K unit := with_fault (vstore8 va b) va 2.

Definition uload32 (va : Z) : K Z :=
  b0 ← uload8 va;
  b1 ← uload8 (u32 (va + 1));
  b2 ← uload8 (u32 (va + 2));
  b3 ← uload8 (u32 (va + 3));
  mret (b0 + 256 * b1 + 65536 * b2 + 16777216 * b3).

Definition ustore32 (va w : Z) : K unit :=
  ustore8 va (u8 w);;
  ustore8 (u32 (va + 1)) (u8 (w / 256));;
  ustore8 (u32 (va + 2)) (u8 (w / 65536));;
  ustore8 (u32 (va + 3)) (u8 (w / 16777216)).

(** ** getpgtable *)

(** Assignment to the bit field of [width] bits at bit [lo] of the word at
    user address [va]. *)
Definition set_bits (va lo width v : Z) : K unit :=
  w ← uload32 va;
  ustore32 va (Z.lor (Z.ldiff w (Z.shiftl (Z.ones width) lo)) (Z.shiftl (Z.land v (Z.ones width)) lo)).

Definition b2z (b : bool) : Z := if b then 1 else 0.

(** The assignments to [pt_entries[i]], a structure of two words (ptentry.h);
    the field [user] is not assigned. *)
Definition put_entry (entry uva pte : Z) : K unit :=
  let word1 := u32 (entry + 4) in
  set_bits entry 0 10 (PDX uva);;
  set_bits entry 10 10 (PTX uva);;
  w ← zoom machL (kload32 pte); set_bits word1 0 20 (Z.shiftr w PTXSHIFT);;
  w ← zoom machL (kload32 pte); set_bits word1 20 1 (Z.land w PTE_P);;
  w ← zoom machL (kload32 pte); set_bits word1 21 1 (b2z (flag w PTE_W));;
  w ← zoom machL (kload32 pte); set_bits word1 23 1 (b2z (flag w PTE_E));;
  w ← zoom machL (kload32 pte); set_bits word1 24 1 (b2z (flag w PTE_A)).

(** The search of the clock for the page whose entry is at [pte]: the new
    value of [i]. *)
Fixpoint wset_loop (pd entries uva pte i j : Z) (n : nat) : K Z :=
  match n with
  | O => spin
  | S n =>
      c ← mygetp inClock;
      if negb (j <? c) then mret i else
      a ← get_node j;
      temp ← zoom machL (walkpgdir pd a false);
      if bool_decide (temp = Some pte) then
        put_entry (u32 (entries + 8 * i)) uva pte;;
        mret (i + 1)
      else wset_loop pd entries uva pte i (j + 1) n
  end.

(** The loop over the pages, downwards from [uva].  An entry that is skipped
    also skips the test that ends the loop. *)
Fixpoint getpgtable_loop (pd entries num : Z) (wset : bool) (uva i : Z) (n : nat) : K Z :=
  match n with
  | O => spin
  | S n =>
      o ← zoom machL (walkpgdir pd uva false);
      pte ← nonnull o;
      w ← zoom machL (kload32 pte);
      if negb (flag w PTE_U) || negb (flag w (Z.lor PTE_P PTE_E)) then
        getpgtable_loop pd entries num wset (u32 (uva - PGSIZE)) i n
      else
        i ← (if wset then wset_loop pd entries uva pte i 0 (S (Z.to_nat CLOCKSIZE))
             else put_entry (u32 (entries + 8 * i)) uva pte;; mret (i + 1));
        if (uva =? 0) || (i =? num) then mret i
        else getpgtable_loop pd entries num wset (u32 (uva - PGSIZE)) i n
  end.

(** The pages of the address space are visited at most once before the loop
    repeats itself. *)
Definition getpgtable (pt_entries num wsetOnly : Z) : K Z :=
  if negb (wsetOnly =? 0) && negb (wsetOnly =? 1) then mret (-1) else
  o ← myproc;
  p ← nonnull o;
  pd ← getp p pgdir;
  size ← getp p sz;
  let uva := if size mod PGSIZE =? 0 then u32 (size - PGSIZE) else PGROUNDDOWN size in
  getpgtable_loop pd pt_entries num (wsetOnly =? 1) uva 0 (Z.to_nat (uva / PGSIZE + 1 + 1048576)).

(** ** dump_rawphymem *)

Definition dump_rawphymem (physical_addr buffer : Z) : K Z :=
  b ← uload8 buffer;
  ustore8 buffer b;;
  pd ← mygetp pgdir;
  retval ← zoom machL (copyout pd buffer (PGROUNDDOWN (P2V physical_addr)) PGSIZE);
  mret (if negb (retval =? 0) then -1 else 0).
End Clock.
