(* ===== verification/ClockProofs.v ===== *)
(** * Proofs about the running process and its clock *)

From S2P Require Import Prelude Memory Mmu Machine Spinlock Kalloc Vm PageTable VmProofs VmSpaces.
From S2P Require Import Encrypt ProcTable Clock.

(** ** The running process *)

Section Running.
Context {F : Type}.
Implicit Types k : kstate F.

(** Process [p] runs on the executing CPU. *)
Definition running_on (h : hart) (p : nat) : Prop :=
  exists i c, here h i c /\ 0 <= ncli c /\ (0 < ncli c -> eflags_if h = false) /\ cpu_proc c = Some p.

Lemma running_cpu h p : running_on h p -> cpu_inv h.
Proof. intros (i & c & H1 & H2 & H3 & _). by exists i, c. Qed.

#[export] Instance running_proper : Proper ((≡) ==> (=) ==> iff) running_on.
Proof.
  assert (forall p h h', h ≡ h' -> running_on h p -> running_on h' p) as Hw.
  { intros p h h' Hh (i & c & H1 & H2 & H3 & H4). destruct (here_equiv _ _ _ _ Hh H1) as (d & Hd & E).
    pose proof (ncli_proper _ _ E) as En. pose proof (cpu_proc_proper _ _ E) as Ep.
    exists i, d. rewrite <- En, <- Ep. split_and!; try done.
    intros. destruct Hh as (_ & <- & _). auto. }
  intros h h' Hh p _ <-. split; apply Hw; [done|by symmetry].
Qed.

(** [myproc] returns the running process and only settles the saved
    interrupt flag. *)
Lemma wp_myproc_in k p (Q : option nat -> kstate F -> Prop) :
  running_on (hw (mach k)) p ->
  (forall h, settles (hw (mach k)) h -> Q (Some p) (update hartL h k)) -> wp myproc k Q.
Proof.
  intros (i & c & Hh & Hn & Hi & Hp) HQ. unfold myproc.
  wstep. apply wp_zoom. eapply wp_ok; [by eapply pushcli_ok|].
  wstep. apply wp_zoom. eapply wp_ok.
  { apply get_mycpu_ok with (i := i) (c := push_cpu (eflags_if (hw (mach k))) c).
    - rewrite view_update. by apply here_pushed.
    - by rewrite view_update. }
  rewrite update_view. wstep. apply wp_zoom. rewrite view_update.
  eapply wp_ok; [by eapply push_pop|]. rewrite update_update. wstep.
  assert (cpu_proc (push_cpu (eflags_if (hw (mach k))) c) = Some p) as ->.
  { unfold push_cpu. by destruct (ncli c =? 0). }
  by apply HQ, (settle_settles i c).
Qed.

Lemma wp_myproc k p (Q : option nat -> kstate F -> Prop) :
  running_on (hw (mach k)) p ->
  (forall h, h ≡ hw (mach k) -> Q (Some p) (update hartL h k)) -> wp myproc k Q.
Proof. intros Hr HQ. eapply wp_myproc_in; [done|]. intros h [Hh _]. by apply HQ. Qed.

Lemma wp_getp {A} k p q (f : proc -> A) (Q : A -> kstate F -> Prop) :
  procs k !! p = Some q -> Q (f q) k -> wp (getp p f) k Q.
Proof. intros Hq HQ. unfold getp. wsteps. rewrite Hq. by wstep. Qed.

Lemma wp_mygetp {A} k p q (f : proc -> A) (Q : A -> kstate F -> Prop) :
  running_on (hw (mach k)) p -> procs k !! p = Some q ->
  (forall h, h ≡ hw (mach k) -> Q (f q) (update hartL h k)) -> wp (mygetp f) k Q.
Proof.
  intros Hr Hq HQ. unfold mygetp. wstep. eapply wp_myproc; [done|]. intros h Hh. wsteps.
  eapply wp_getp; [done|]. by apply HQ.
Qed.

Lemma wp_mysetp k p (f : proc -> proc) (Q : unit -> kstate F -> Prop) :
  running_on (hw (mach k)) p ->
  (forall h, h ≡ hw (mach k) -> Q tt (set_procs (alter f p (procs k)) (update hartL h k))) ->
  wp (mysetp f) k Q.
Proof.
  intros Hr HQ. unfold mysetp. wstep. eapply wp_myproc; [done|]. intros h Hh. wsteps. unfold setp.
  wstep. by apply HQ.
Qed.
End Running.

(** ** switchuvm *)

Lemma switchuvm_ok s p ks pd (Q : unit -> machine -> Prop) :
  running_on (hw s) p -> ks <> 0 -> pd <> 0 ->
  (forall h, running_on h p -> Q tt (set_tr 40 (set_cr3 (V2P pd) (set_hw h s)))) ->
  wp (switchuvm ks pd) s Q.
Proof.
  intros (i & c & Hh & Hn & Hi & Hp) Hks Hpd HQ. unfold switchuvm.
  destruct (Z.eqb_spec ks 0); [done|]. destruct (Z.eqb_spec pd 0); [done|].
  set (h1 := pushed i (hw s)). set (c1 := push_cpu (eflags_if (hw s)) c).
  assert (here h1 i c1) as H1 by (by apply here_pushed).
  set (f := set_ts (SEG_KDATA * 8) (u32 (ks + KSTACKSIZE)) 0xFFFF).
  assert (here (upd_cpu i f h1) i (f c1)) as H2 by (by apply here_upd).
  assert (ncli (f c1) = ncli c + 1) as Hn2 by apply ncli_push.
  wstep. apply wp_zoom. eapply wp_ok; [by eapply pushcli_ok|].
  wstep. apply wp_zoom. rewrite view_update. eapply wp_ok; [by eapply upd_mycpu_ok|].
  rewrite update_update. wsteps. apply wp_zoom.
  eapply wp_ok; [apply (popcli_ok _ i (f c1)); [exact H2|done|rewrite Hn2; lia]|].
  apply (HQ (popped i (f c1) (upd_cpu i f h1))).
  exists i, (set_ncli (ncli (f c1) - 1) (f c1)). split.
  - apply here_if. by apply (here_upd _ _ _ (fun c => set_ncli (ncli c - 1) c) H2).
  - cbn [ncli set_ncli cpu_proc set_cpu_proc]. rewrite Hn2. split; [lia|]. split.
    + intros Hpos. change ((ncli (f c1) =? 1) && intena (f c1) = false). rewrite Hn2.
      destruct (Z.eqb_spec (ncli c + 1) 1); [lia|done].
    + unfold f, c1, push_cpu. by destruct (ncli c =? 0).
Qed.

(** ** The invariant of the running process *)

Section Invariant.
Context `{KI : KernelImage, PO : !PageOps, PA : !PageAllocator} {F : Type}.
Implicit Types k : kstate F.

(** Process [p], with record [q], runs on its own address space; [l] are the
    free pages. *)
Record pinv k (p : nat) (q : proc) (l : list Z) : Prop := {
  pi_run : running_on (hw (mach k)) p;
  pi_proc : procs k !! p = Some q;
  pi_as : as_inv (mach k) (pgdir q) l;
  pi_cr3 : cr3 (mach k) = V2P (pgdir q);
  pi_kstack : kstack q <> 0;
  pi_enc v : user_vpn v -> enc_ok (pte_at (mem (mach k)) (pgdir q) v);
}.
#[global] Arguments pi_run {_ _ _ _} _.
#[global] Arguments pi_proc {_ _ _ _} _.
#[global] Arguments pi_as {_ _ _ _} _.
#[global] Arguments pi_cr3 {_ _ _ _} _.
#[global] Arguments pi_kstack {_ _ _ _} _.
#[global] Arguments pi_enc {_ _ _ _} _.

(** The parts of the state outside the machine and the process table. *)
Definition kframe k k' : Prop :=
  ptable_lock k' = ptable_lock k /\ nextpid k' = nextpid k /\ initproc k' = initproc k /\
  ticks k' = ticks k /\ tickslock k' = tickslock k /\ files k' = files k.

Lemma kframe_refl k : kframe k k.
Proof. by split_and!. Qed.

Lemma kframe_trans k1 k2 k3 : kframe k1 k2 -> kframe k2 k3 -> kframe k1 k3.
Proof. unfold kframe. intuition congruence. Qed.

(** Registers that keep the process running do not matter. *)
Lemma pinv_regs k p q l h t :
  pinv k p q l -> running_on h p ->
  pinv (set_mach (set_tr t (set_cr3 (V2P (pgdir q)) (set_hw h (mach k)))) k) p q l.
Proof.
  intros [H1 H2 H3 H4 H5 H6] Hr. split; try done.
  destruct H3 as [[Hf Hw Ho] Hfr Hin]. split; [split|..]; try done.
  apply free_pages_regs; [done|by eapply running_cpu].
Qed.

Lemma pinv_hart k p q l h :
  pinv k p q l -> h ≡ hw (mach k) -> pinv (update hartL h k) p q l.
Proof.
  intros Hi Hh. assert (running_on h p) as Hr by (by rewrite Hh; apply Hi).
  pose proof (pinv_regs k p q l h (tr (mach k)) Hi Hr) as H. rewrite <- (pi_cr3 Hi) in H.
  by destruct k as [[] ? ? ? ? ? ? ?].
Qed.

Lemma pinv_recrypts k s' p q l G :
  pinv k p q l -> recrypts (mach k) s' (pgdir q) l G -> (forall v, user_vpn v -> enc_ok (G v)) ->
  pinv (set_mach s' k) p q l.
Proof.
  intros Hi [H1 (Hh & Hc & _) H3] Hok. split.
  - apply (proj2 (running_proper _ _ Hh p p eq_refl)), Hi.
  - apply (pi_proc Hi).
  - apply H1.
  - change (cr3 s' = V2P (pgdir q)). rewrite Hc. apply (pi_cr3 Hi).
  - apply (pi_kstack Hi).
  - intros v Hv. cbn. rewrite (rc_pte H3) by (by apply user_vpn_ok). auto.
Qed.

Lemma pgdir_nonzero k p q l : pinv k p q l -> pgdir q <> 0.
Proof.
  intros Hi E. pose proof (pw_dir _ _ (vi_wf _ _ _ (ai_vm _ _ _ (pi_as Hi)))) as Hok.
  rewrite E in Hok. by apply Impl.page_ok_pos in Hok.
Qed.

(** The final [switchuvm(myproc())]. *)
Lemma switchuvm_current k p q l (z : Z) (Q : Z -> kstate F -> Prop) :
  pinv k p q l ->
  (forall k', kframe k k' -> procs k' = procs k -> mem (mach k') = mem (mach k) ->
     pinv k' p q l -> Q z k') ->
  wp (o ← myproc; switchuvm_proc o;; mret z) k Q.
Proof.
  intros Hi HQ. wstep. eapply wp_myproc; [apply Hi|]. intros h Hh.
  pose proof (pinv_hart k p q l h Hi Hh) as Hi1. set (k1 := update hartL h k) in *.
  wstep. cbn [switchuvm_proc]. wstep. eapply wp_getp; [apply Hi1|]. wstep. eapply wp_getp; [apply Hi1|].
  apply wp_zoom. eapply (switchuvm_ok _ p); [apply Hi1|apply Hi|by eapply pgdir_nonzero|].
  intros h2 Hr. wstep. apply HQ; [by split_and!|done|done|]. by apply pinv_regs.
Qed.

Lemma enc_ok_enc w : flag w PTE_U = true -> mapped w = true -> enc_ok w -> enc_ok (enc_entry w).
Proof.
  intros HU Hm Hok _ _. destruct (Hok HU Hm) as [_ HW].
  destruct (enc_entry_flags w) as (-> & -> & _ & _ & ->). done.
Qed.

Lemma enc_ok_dec w : flag w PTE_U = true -> mapped w = true -> enc_ok w -> enc_ok (dec_entry w).
Proof.
  intros HU Hm Hok _ _. destruct (Hok HU Hm) as [_ HW].
  destruct (dec_entry_flags w) as (-> & -> & _ & _ & ->). done.
Qed.

(** A user page that [mencrypt] cannot translate. *)
Definition untranslated k (q : proc) (v : Z) : Prop :=
  flag (pte_at (mem (mach k)) (pgdir q) v) PTE_U = true /\
  mapped (pte_at (mem (mach k)) (pgdir q) v) = false.

Lemma mencrypt_spec k p q l va len :
  pinv k p q l -> is_u32 va ->
  let lo := va / 4096 in
  lo + Z.max 0 len <= 524288 -> has_tables (mem (mach k)) (pgdir q) lo len ->
  wp (mencrypt va len) k (fun r k' =>
    kframe k k' /\ procs k' = procs k /\ pinv k' p q l /\
    (r = 0 /\ (forall v, lo <= v < lo + len -> ~ untranslated k q v) /\
       recrypted (mem (mach k)) (mem (mach k')) (pgdir q)
         (encrypted (mem (mach k)) (pgdir q) lo len) \/
     r = -1 /\ (exists v, lo <= v < lo + len /\ untranslated k q v) /\
       mem (mach k') = mem (mach k))).
Proof.
  intros Hi Hva lo Hn Ht. unfold mencrypt. wstep. eapply wp_myproc; [apply Hi|]. intros h Hh.
  pose proof (pinv_hart k p q l h Hi Hh) as Hi1. wsteps. eapply wp_getp; [apply Hi1|].
  wstep. apply wp_zoom.
  eapply wp_mono; [apply (mencrypt_pages_spec _ (pgdir q) l); [apply (pi_as Hi1)|apply (pi_cr3 Hi1)|done|done|done|]|].
  { intros v Hv. by apply (pi_enc Hi1). }
  cbv zeta. intros r s' [(-> & Hall & R)|(-> & Hbad & ->)].
  2: { cbn [Z.eqb Pos.eqb]. wstep. rewrite update_view. split_and!; try done. by right. }
  change (mem (view machL (update hartL h k))) with (mem (mach k)) in Hall, R.
  fold lo in Hall, R. cbn [Z.eqb].
  assert (pinv (update machL s' (update hartL h k)) p q l) as Hi2.
  { apply (pinv_recrypts _ s' p q l _ Hi1 R). intros v Hv. unfold encrypted.
    destruct (bool_decide_reflect (lo <= v < lo + len)) as [Hr|]; [|by apply (pi_enc Hi)].
    unfold encrypts. destruct (flag _ PTE_U) eqn:HU; [|by apply (pi_enc Hi)].
    destruct (flag _ PTE_E) eqn:HE; [by apply (pi_enc Hi)|]. cbn [negb andb].
    apply enc_ok_enc; [done| |by apply (pi_enc Hi)]. apply not_false_iff_true. intros Hm. by apply (Hall v). }
  eapply switchuvm_current; [exact Hi2|]. intros k' Hk' Hps Hmem Hi3.
  split; [by eapply kframe_trans; [|exact Hk']|]. split; [done|]. split; [done|]. left.
  split; [done|]. split; [done|]. rewrite Hmem. apply R.
Qed.

(** ** The second-chance scan *)

(** The page in the clock at distance [j] from the hand. *)
Definition node_at (q : proc) (i : Z) : Z := nodes q !!! Z.to_nat i.
Definition hand (q : proc) (j : Z) : Z := Z.rem (j + currInd q) CLOCKSIZE.
Definition clock_page (q : proc) (j : Z) : Z := node_at q (hand q j) / 4096.

(** A full clock: distinct user pages, each with a table. *)
Record full_clock k (q : proc) : Prop := {
  fc_len : length (nodes q) = 8%nat;
  fc_hand : 0 <= currInd q;
  fc_user j : 0 <= j < 8 -> is_u32 (node_at q j) /\ user_vpn (node_at q j / 4096) /\
    pde_present (mem (mach k)) (pgdir q) (node_at q j / 4096 / 1024) = true;
  fc_inj i j : 0 <= i < 8 -> 0 <= j < 8 -> node_at q i / 4096 = node_at q j / 4096 -> i = j;
}.

Lemma hand_bound q j : 0 <= currInd q -> 0 <= j -> 0 <= hand q j < 8.
Proof. intros. unfold hand, CLOCKSIZE. rewrite Z.rem_mod_nonneg by lia. dlia. Qed.

Lemma hand_inj q i j :
  0 <= currInd q -> 0 <= i < 8 -> 0 <= j < 8 -> hand q i = hand q j -> i = j.
Proof. intros Hc Hi Hj. unfold hand, CLOCKSIZE. rewrite !Z.rem_mod_nonneg by lia. dlia. Qed.

Lemma clock_page_inj k q i j :
  full_clock k q -> 0 <= i < 8 -> 0 <= j < 8 -> clock_page q i = clock_page q j -> i = j.
Proof.
  intros Hf Hi Hj E. pose proof (fc_hand _ _ Hf) as Hc.
  apply (hand_inj q); [done..|]. apply (fc_inj _ _ Hf); [apply hand_bound; lia..|done].
Qed.

(** The first of [n] positions from [i] whose accessed bit is clear. *)
Fixpoint first_clear (ref : Z -> bool) (i : Z) (n : nat) : option Z :=
  match n with
  | O => None
  | S n => if ref i then first_clear ref (i + 1) n else Some i
  end.

Lemma first_clear_ext ref ref' i n :
  (forall j, i <= j < i + Z.of_nat n -> ref j = ref' j) -> first_clear ref i n = first_clear ref' i n.
Proof.
  revert i. induction n as [|n IH]; intros i H; cbn; [done|]. rewrite (H i) by lia.
  destruct (ref' i); [|done]. apply IH. intros. apply H. lia.
Qed.

Definition accessed (m : memory) (q : proc) (j : Z) : bool :=
  flag (pte_at m (pgdir q) (clock_page q j)) PTE_A.

(** The pages at positions [i] to [t]. *)
Definition swept (q : proc) (i t : Z) : list Z := clock_page q <$> seqZ i (t - i).

Lemma elem_of_swept q i t v : v ∈ swept q i t <-> exists j, i <= j < t /\ v = clock_page q j.
Proof.
  unfold swept. rewrite list_elem_of_fmap. setoid_rewrite elem_of_seqZ.
  split; intros (j & H1 & H2); exists j; (split; [|]); (done || lia).
Qed.

(** The entry of the page that is thrown out. *)
Definition victim_entry (w : Z) : Z := if encrypts w && mapped w then enc_entry w else w.

(** The entries after a sweep from [i] to [t] that evicts at [t], and after
    one that evicts nothing. *)
Definition sweep_entry (m : memory) (q : proc) (i t v : Z) : Z :=
  let w := pte_at m (pgdir q) v in
  if decide (v ∈ swept q i t) then Z.ldiff w PTE_A else w.
Definition evict_entry (m : memory) (q : proc) (i t v : Z) : Z :=
  if decide (v = clock_page q t) then victim_entry (pte_at m (pgdir q) v) else sweep_entry m q i t v.

(** The process record after the eviction at [t]. *)
Definition replaced (q : proc) (t add : Z) : proc :=
  set_currInd (Z.rem (hand q t + 1) CLOCKSIZE)
    (set_nodes (<[Z.to_nat (hand q t) := add]> (nodes q)) q).

Lemma wp_get_node k p q l i (Q : Z -> kstate F -> Prop) :
  pinv k p q l -> length (nodes q) = 8%nat -> 0 <= i < 8 ->
  (forall h, h ≡ hw (mach k) -> Q (node_at q i) (update hartL h k)) -> wp (get_node i) k Q.
Proof.
  intros Hi Hl Hb HQ. unfold get_node. wstep. eapply wp_mygetp; [apply (pi_run Hi)|apply (pi_proc Hi)|].
  intros h Hh. destruct (Z.ltb_spec i 0); [lia|].
  destruct (lookup_lt_is_Some_2 (nodes q) (Z.to_nat i)) as [a Ha]; [lia|]. rewrite Ha. wstep.
  rewrite <- (list_lookup_total_correct _ _ _ Ha). by apply HQ.
Qed.

Lemma wp_set_node k p q l i a (Q : unit -> kstate F -> Prop) :
  pinv k p q l -> length (nodes q) = 8%nat -> 0 <= i < 8 ->
  (forall h, h ≡ hw (mach k) ->
     Q tt (set_procs (alter (fun q => set_nodes (<[Z.to_nat i := a]> (nodes q)) q) p (procs k))
             (update hartL h k))) ->
  wp (set_node i a) k Q.
Proof.
  intros Hi Hl Hb HQ. unfold set_node. wstep. eapply wp_mygetp; [apply (pi_run Hi)|apply (pi_proc Hi)|].
  intros h Hh. pose proof (pinv_hart _ _ _ _ _ Hi Hh) as Hi1. rewrite Hl.
  destruct (Z.ltb_spec i 0); [lia|]. destruct (Z.leb_spec (Z.of_nat 8) i); [lia|]. cbn [orb].
  eapply wp_mysetp; [apply (pi_run Hi1)|]. intros h2 Hh2.
  rewrite update_update. apply HQ. etrans; [exact Hh2|exact Hh].
Qed.

(** The record of the process may change outside [pgdir] and [kstack]. *)
Lemma pinv_proc k p q q' l :
  pinv k p q l -> pgdir q' = pgdir q -> kstack q' = kstack q ->
  pinv (set_procs (<[p := q']> (procs k)) k) p q' l.
Proof.
  intros [H1 H2 H3 H4 H5 H6] E1 E2. split; cbn; rewrite ?E1, ?E2; try done.
  apply list_lookup_insert_eq. by eapply lookup_lt_Some.
Qed.

(** Clearing the accessed bit of the page at [j]. *)
Lemma clear_accessed k p q l v w' (Q : unit -> kstate F -> Prop) :
  pinv k p q l -> user_vpn v -> pde_present (mem (mach k)) (pgdir q) (v / 1024) = true ->
  w' = Z.ldiff (pte_at (mem (mach k)) (pgdir q) v) PTE_A ->
  (forall k', kframe k k' -> procs k' = procs k -> pinv k' p q l ->
     recrypted (mem (mach k)) (mem (mach k')) (pgdir q)
       (fun x => if decide (x = v) then w' else pte_at (mem (mach k)) (pgdir q) x) -> Q tt k') ->
  wp (zoom machL (kstore32 (kpte (mem (mach k)) (pgdir q) v) w')) k Q.
Proof.
  intros Hi Hu Hp Hw' HQ. apply wp_zoom. pose proof (pi_as Hi) as Has.
  apply (wp_kstore_pte (mach k) (pgdir q) l v); [done..| |].
  { rewrite Hw'. reflag. }
  intros s' T.
  assert (recrypts (mach k) s' (pgdir q) l
    (fun x => if decide (x = v) then w' else pte_at (mem (mach k)) (pgdir q) x)) as R.
  { apply touches_flags; [done|done|done|rewrite Hw'; reflag|rewrite Hw'; by flags]. }
  apply HQ; [by split_and!|done| |apply R].
  apply (pinv_recrypts _ _ _ _ _ _ Hi R). intros x Hx. case_decide; [subst x|by apply (pi_enc Hi)].
  rewrite Hw'. intros HU Hm. unfold mapped in *. rewrite !flag_lor in *.
  pose proof (pi_enc Hi v Hx) as Hok. unfold enc_ok, mapped in Hok. flags.
  apply Hok; done.
Qed.

(** What evicting the page at [t] leaves. *)
Lemma evict_at k p q l add t :
  pinv k p q l -> full_clock k q -> 0 <= t < 8 ->
  wp (a ← get_node (hand q t); _ ← mencrypt a 1; set_node (hand q t) add;;
      mysetp (set_currInd (Z.rem (hand q t + 1) CLOCKSIZE));; mret true) k
    (fun r k' => kframe k k' /\ r = true /\
       procs k' = <[p := replaced q t add]> (procs k) /\ pinv k' p (replaced q t add) l /\
       recrypted (mem (mach k)) (mem (mach k')) (pgdir q)
         (fun v => if decide (v = clock_page q t) then victim_entry (pte_at (mem (mach k)) (pgdir q) v)
                   else pte_at (mem (mach k)) (pgdir q) v)).
Proof.
  intros Hi Hf Ht. pose proof (hand_bound q t (fc_hand _ _ Hf) ltac:(lia)) as Hb.
  destruct (fc_user _ _ Hf _ Hb) as (H32 & Hu & Hp). fold (clock_page q t) in Hu, Hp.
  wstep. eapply wp_get_node; [done|apply Hf|done|]. intros h Hh.
  pose proof (pinv_hart _ _ _ _ _ Hi Hh) as Hi1.
  wstep. eapply wp_mono.
  { apply (mencrypt_spec _ p q l); [done|done| |].
    - fold (clock_page q t). unfold user_vpn in Hu. lia.
    - intros v Hv. fold (clock_page q t) in Hv. replace v with (clock_page q t) by lia. done. }
  cbv zeta. fold (clock_page q t).
  change (mem (mach (update hartL h k))) with (mem (mach k)).
  intros r k1 (Hk1 & Hps1 & Hi2 & Hcase).
  assert (recrypted (mem (mach k)) (mem (mach k1)) (pgdir q)
    (fun v => if decide (v = clock_page q t) then victim_entry (pte_at (mem (mach k)) (pgdir q) v)
              else pte_at (mem (mach k)) (pgdir q) v)) as R.
  { destruct Hcase as [(_ & Hnb & R)|(_ & (v & Hv & Hb1 & Hb2) & ->)].
    - eapply recrypted_ext; [exact R|]. intros v Hv. unfold encrypted, victim_entry.
      destruct (bool_decide_reflect (clock_page q t <= v < clock_page q t + 1)) as [Hr|Hr].
      + rewrite decide_True by lia. cbn [andb]. unfold encrypts.
        destruct (flag (pte_at (mem (mach k)) (pgdir q) v) PTE_U) eqn:HU; [|done].
        destruct (mapped (pte_at (mem (mach k)) (pgdir q) v)) eqn:Hm; [by rewrite andb_true_r|].
        exfalso. by apply (Hnb v Hr).
      + rewrite decide_False by lia. done.
    - eapply recrypted_ext; [apply recrypted_refl|]. intros x Hx. case_decide; [subst x|done].
      replace v with (clock_page q t) in Hb2 by lia. unfold victim_entry.
      change (mem (mach (update hartL h k))) with (mem (mach k)) in Hb2. by rewrite Hb2, andb_false_r. }
  wstep. eapply wp_set_node; [done|apply Hf|done|]. intros h2 Hh2.
  pose proof (pinv_hart _ _ _ _ _ Hi2 Hh2) as Hi3.
  rewrite (alter_insert _ p (procs k1) q) by apply (pi_proc Hi2).
  set (q1 := set_nodes _ q).
  assert (pinv (set_procs (<[p := q1]> (procs k1)) (update hartL h2 k1)) p q1 l) as Hi4
    by (by apply (pinv_proc _ _ _ q1 _ Hi3)).
  wstep. eapply wp_mysetp; [apply (pi_run Hi4)|]. intros h3 Hh3. wstep.
  pose proof (pinv_hart _ _ _ _ _ Hi4 Hh3) as Hi5. cbn [procs set_procs].
  rewrite (alter_insert _ p _ q1) by apply (pi_proc Hi4). rewrite list_insert_insert_eq.
  change (set_currInd (Z.rem (hand q t + 1) CLOCKSIZE) q1) with (replaced q t add).
  split; [done|]. split; [done|]. split; [cbn; by rewrite Hps1|].
  split; [|exact R].
  pose proof (pinv_proc _ _ _ (replaced q t add) _ Hi5 eq_refl eq_refl) as Hi6.
  change (procs (update hartL h3 _)) with (<[p := q1]> (procs k1)) in Hi6.
  by rewrite list_insert_insert_eq in Hi6.
Qed.

Lemma update_mach k : update machL (mach k) k = k.
Proof. by destruct k. Qed.

Lemma full_clock_frame k k' q :
  full_clock k q ->
  (forall d, 0 <= d < 1024 -> pde_present (mem (mach k')) (pgdir q) d = pde_present (mem (mach k)) (pgdir q) d) ->
  full_clock k' q.
Proof.
  intros [H1 H2 H3 H4] Hd. split; try done. intros j Hj. destruct (H3 j Hj) as (? & Hu & ?).
  rewrite Hd; [done|]. apply vpn_dir, user_vpn_ok, Hu.
Qed.

(** The entry of page [clock_page q j] has lost its accessed bit. *)
Lemma sweep_step m m' k q i t v :
  full_clock k q -> 0 <= i < t -> t <= 8 ->
  (forall x, vpn_ok x -> pte_at m' (pgdir q) x =
     if decide (x = clock_page q i) then Z.ldiff (pte_at m (pgdir q) x) PTE_A else pte_at m (pgdir q) x) ->
  vpn_ok v -> sweep_entry m' q (i + 1) t v = sweep_entry m q i t v.
Proof.
  intros Hf Hi Ht Hm Hv. unfold sweep_entry. rewrite Hm by done.
  destruct (decide (v = clock_page q i)) as [->|Hne].
  - rewrite decide_False.
    + rewrite decide_True; [done|]. apply elem_of_swept. exists i. split; [lia|done].
    + intros (j & Hj & E)%elem_of_swept. apply (clock_page_inj k) in E; [lia|done|lia|lia].
  - destruct (decide (v ∈ swept q i t)) as [(j & Hj & ->)%elem_of_swept|Hn].
    + assert (j <> i) by congruence. rewrite decide_True; [done|]. apply elem_of_swept.
      exists j. split; [lia|done].
    + rewrite decide_False; [done|]. intros (j & Hj & ->)%elem_of_swept. apply Hn, elem_of_swept.
      exists j. split; [lia|done].
Qed.

Lemma first_clear_Some ref i n t :
  first_clear ref i n = Some t -> i <= t < i + Z.of_nat n /\ ref t = false /\
    forall j, i <= j < t -> ref j = true.
Proof.
  revert i. induction n as [|n IH]; intros i; cbn [first_clear]; [done|].
  destruct (ref i) eqn:E.
  - intros H. destruct (IH _ H) as (H1 & H2 & H3). split; [lia|]. split; [done|].
    intros j Hj. destruct (decide (j = i)) as [->|]; [done|]. apply H3. lia.
  - intros [= <-]. split; [lia|]. split; [done|]. lia.
Qed.

Lemma evict_scan_spec n k p q l add i :
  pinv k p q l -> full_clock k q -> 0 <= i -> i + Z.of_nat n = 8 ->
  wp (evict_scan (pgdir q) add i n) k (fun r k' => kframe k k' /\
    match first_clear (accessed (mem (mach k)) q) i n with
    | Some t => r = true /\ procs k' = <[p := replaced q t add]> (procs k) /\
        pinv k' p (replaced q t add) l /\
        recrypted (mem (mach k)) (mem (mach k')) (pgdir q) (evict_entry (mem (mach k)) q i t)
    | None => r = false /\ procs k' = procs k /\ pinv k' p q l /\
        recrypted (mem (mach k)) (mem (mach k')) (pgdir q) (sweep_entry (mem (mach k)) q i 8)
    end).
Proof.
  revert k i. induction n as [|n IH]; intros k i Hi Hf H0 Hn; cbn [evict_scan first_clear].
  { wstep. split; [apply kframe_refl|]. split; [done|]. split; [done|]. split; [done|].
    eapply recrypted_ext; [apply recrypted_refl|]. intros v _. unfold sweep_entry.
    rewrite decide_False; [done|]. intros (j & Hj & _)%elem_of_swept. lia. }
  pose proof (hand_bound q i (fc_hand _ _ Hf) H0) as Hb.
  destruct (fc_user _ _ Hf _ Hb) as (H32 & Hu & Hp). fold (clock_page q i) in Hu, Hp.
  wstep. eapply wp_mygetp; [apply (pi_run Hi)|apply (pi_proc Hi)|]. intros h Hh.
  pose proof (pinv_hart _ _ _ _ _ Hi Hh) as Hi1. fold (hand q i). cbv zeta.
  wstep. eapply wp_get_node; [done|apply Hf|done|]. intros h1 Hh1.
  pose proof (pinv_hart _ _ _ _ _ Hi1 Hh1) as Hi2. rewrite update_update in *.
  set (k2 := update hartL h1 k) in *.
  wstep. apply wp_zoom. apply (wp_walk (mach k2) (pgdir q) l (clock_page q i)); [apply (pi_as Hi2)|done..|].
  rewrite update_mach. wsteps.
  apply wp_zoom, (wp_kload_pte (mach k2) (pgdir q) l); [apply (pi_as Hi2)|done..|]. rewrite update_mach.
  change (mem (mach k2)) with (mem (mach k)). fold (accessed (mem (mach k)) q i).
  assert (full_clock k2 q) as Hf2 by (by apply (full_clock_frame k)).
  destruct (accessed (mem (mach k)) q i) eqn:HA.
  - wstep. eapply (clear_accessed k2); [exact Hi2|done|done|done|].
    intros k3 Hk3 Hps3 Hi3 R3. change (mem (mach k2)) with (mem (mach k)) in R3.
    assert (forall x, vpn_ok x -> pte_at (mem (mach k3)) (pgdir q) x =
      if decide (x = clock_page q i) then Z.ldiff (pte_at (mem (mach k)) (pgdir q) x) PTE_A
      else pte_at (mem (mach k)) (pgdir q) x) as Hpte.
    { intros x Hx. rewrite (rc_pte R3) by done. case_decide; by subst. }
    assert (full_clock k3 q) as Hf3.
    { apply (full_clock_frame k); [done|]. intros d Hd. apply (rc_pde R3 d Hd). }
    assert (first_clear (accessed (mem (mach k3)) q) (i + 1) n =
            first_clear (accessed (mem (mach k)) q) (i + 1) n) as Hfc.
    { apply first_clear_ext. intros j Hj. unfold accessed.
      destruct (fc_user _ _ Hf (hand q j)) as (_ & Huj & _); [apply hand_bound; [apply Hf|lia]|].
      rewrite Hpte by (by apply user_vpn_ok). rewrite decide_False; [done|].
      intros E. apply (clock_page_inj k) in E; [lia|done|lia|lia]. }
    eapply wp_mono; [apply (IH k3 (i + 1)); [done|done|lia|lia]|].
    intros r k' [Hk' Hres]. rewrite Hfc in Hres. split; [by eapply kframe_trans|].
    revert Hres. destruct (first_clear (accessed (mem (mach k)) q) (i + 1) n) as [t|] eqn:Et; intros (-> & Hps & Hi' & R').
    + apply first_clear_Some in Et as (Ht & _).
      split; [done|]. split; [by rewrite Hps, Hps3|]. split; [done|].
      eapply recrypted_ext; [eapply recrypted_trans; [exact R3|exact R']|].
      intros v Hv. unfold evict_entry. rewrite (sweep_step (mem (mach k)) _ k) by (done || lia).
      destruct (decide (v = clock_page q t)) as [->|]; [|done]. rewrite Hpte by done.
      rewrite decide_False; [done|]. intros E. apply (clock_page_inj k) in E; [lia|done|lia|lia].
    + split; [done|]. split; [by rewrite Hps, Hps3|]. split; [done|].
      eapply recrypted_ext; [eapply recrypted_trans; [exact R3|exact R']|].
      intros v Hv. apply (sweep_step (mem (mach k)) _ k); (done || lia).
  - eapply wp_mono; [apply (evict_at k2 p q l add i); [done|done|lia]|].
    intros r k' (Hk' & -> & Hps & Hi' & R). split; [by eapply kframe_trans; [|exact Hk']|].
    split; [done|]. split; [done|]. split; [done|].
    eapply recrypted_ext; [exact R|]. intros v Hv. unfold evict_entry, sweep_entry.
    change (mem (mach k2)) with (mem (mach k)).
    case_decide; [done|]. rewrite decide_False; [done|]. intros (j & Hj & _)%elem_of_swept. lia.
Qed.

(** ** The clock of a process *)

(** The live nodes are distinct pages of the process; below capacity the
    hand is where the next node goes. *)
Record clock_inv k (q : proc) : Prop := {
  ci_len : length (nodes q) = 8%nat;
  ci_count : 0 <= inClock q <= 8;
  ci_hand : (0 < inClock q < 8 -> currInd q = inClock q) /\ (inClock q = 8 -> 0 <= currInd q <= 8);
  ci_user j : 0 <= j < inClock q -> is_u32 (node_at q j) /\ user_vpn (node_at q j / 4096) /\
    pde_present (mem (mach k)) (pgdir q) (node_at q j / 4096 / 1024) = true;
  ci_inj i j : 0 <= i < inClock q -> 0 <= j < inClock q ->
    node_at q i / 4096 = node_at q j / 4096 -> i = j;
}.

(** Page [v] is in the clock. *)
Definition in_clock (q : proc) (v : Z) : Prop :=
  exists j, 0 <= j < inClock q /\ node_at q j / 4096 = v.

Lemma full_of_inv k q : clock_inv k q -> inClock q = 8 -> full_clock k q.
Proof.
  intros [H1 H2 [_ H3] H4 H5] E. rewrite E in *. split; try done. apply H3. done.
Qed.

(** The position the second chance chooses, and the entries it leaves. *)
Definition second_chance (m : memory) (q : proc) : option Z := first_clear (accessed m q) 0 8.
Definition clock_entry (m : memory) (q : proc) (v : Z) : Z :=
  match second_chance m q with
  | Some t => evict_entry m q 0 t v
  | None => if decide (v = clock_page q 0) then victim_entry (Z.ldiff (pte_at m (pgdir q) v) PTE_A)
            else sweep_entry m q 0 8 v
  end.

Lemma evict_spec k p q l add :
  pinv k p q l -> full_clock k q ->
  wp (evicted ← evict_scan (pgdir q) add 0 (Z.to_nat CLOCKSIZE);
      if (evicted : bool) then mret tt else
      _ ← evict_scan (pgdir q) add 0 (Z.to_nat CLOCKSIZE); mret tt) k
    (fun _ k' => let t := default 0 (second_chance (mem (mach k)) q) in
       kframe k k' /\ procs k' = <[p := replaced q t add]> (procs k) /\
       pinv k' p (replaced q t add) l /\
       recrypted (mem (mach k)) (mem (mach k')) (pgdir q) (clock_entry (mem (mach k)) q)).
Proof.
  intros Hi Hf. change (Z.to_nat CLOCKSIZE) with 8%nat. unfold second_chance, clock_entry, second_chance.
  wstep. eapply wp_mono; [by apply (evict_scan_spec 8 k p q l add 0)|].
  intros r k1 [Hk1 Hres]. revert Hres.
  destruct (first_clear (accessed (mem (mach k)) q) 0 8) as [t|] eqn:E; intros (-> & Hps & Hi1 & R1).
  { by wstep. }
  assert (full_clock k1 q) as Hf1.
  { apply (full_clock_frame k); [done|]. intros d Hd. apply (rc_pde R1 d Hd). }
  assert (forall j, 0 <= j < 8 -> vpn_ok (clock_page q j) /\ clock_page q j ∈ swept q 0 8) as Hpage.
  { intros j Hj. split; [|apply elem_of_swept; by exists j].
    apply user_vpn_ok. apply (fc_user _ _ Hf), hand_bound; [apply Hf|lia]. }
  wstep. eapply wp_mono; [by apply (evict_scan_spec 8 k1 p q l add 0)|].
  intros r k2 [Hk2 Hres]. revert Hres.
  assert (first_clear (accessed (mem (mach k1)) q) 0 8 = Some 0) as ->.
  { cbn [first_clear]. unfold accessed. destruct (Hpage 0 ltac:(lia)) as [Hv Hs].
    rewrite (rc_pte R1) by done. unfold sweep_entry. rewrite decide_True by done. by flags. }
  intros (-> & Hps2 & Hi2 & R2). wstep. split; [by eapply kframe_trans|].
  split; [by rewrite Hps2, Hps|]. split; [done|].
  eapply recrypted_ext; [eapply recrypted_trans; [exact R1|exact R2]|]. intros v Hv.
  unfold evict_entry. destruct (Hpage 0 ltac:(lia)) as [_ Hs].
  destruct (decide (v = clock_page q 0)) as [->|].
  - rewrite (rc_pte R1) by done. unfold sweep_entry. by rewrite decide_True by done.
  - unfold sweep_entry at 1. rewrite (rc_pte R1) by done. rewrite decide_False; [done|].
    intros (j & Hj & _)%elem_of_swept. lia.
Qed.

(** The process record after [add] has entered the clock, and the entries. *)
Definition entered (m : memory) (q : proc) (add : Z) : proc :=
  if inClock q <? CLOCKSIZE then
    set_inClock (inClock q + 1) (set_currInd (inClock q + 1)
      (set_nodes (<[Z.to_nat (inClock q) := add]> (nodes q)) q))
  else replaced q (default 0 (second_chance m q)) add.
Definition entered_entry (m : memory) (q : proc) (v : Z) : Z :=
  if inClock q <? CLOCKSIZE then pte_at m (pgdir q) v else clock_entry m q v.

Lemma node_insert (q q' : proc) i a j :
  nodes q' = <[Z.to_nat i := a]> (nodes q) -> length (nodes q) = 8%nat -> 0 <= i < 8 -> 0 <= j < 8 ->
  node_at q' j = if decide (j = i) then a else node_at q j.
Proof.
  intros E Hl Hi Hj. unfold node_at. rewrite E. case_decide as H.
  - subst j. apply list_lookup_total_insert_eq. lia.
  - apply list_lookup_total_insert_ne. lia.
Qed.

Lemma second_chance_bound m q : 0 <= default 0 (second_chance m q) < 8.
Proof.
  destruct (second_chance m q) as [t|] eqn:E; cbn; [|lia].
  apply first_clear_Some in E as [? _]. lia.
Qed.

(** The new node replaces one node or extends the clock. *)
Lemma clock_inv_put k k' q q' i a :
  clock_inv k q -> 0 <= i < 8 -> i <= inClock q ->
  pgdir q' = pgdir q -> nodes q' = <[Z.to_nat i := a]> (nodes q) ->
  inClock q' = Z.max (inClock q) (i + 1) ->
  (0 < inClock q' < 8 -> currInd q' = inClock q') -> (inClock q' = 8 -> 0 <= currInd q' <= 8) ->
  is_u32 a -> user_vpn (a / 4096) ->
  pde_present (mem (mach k)) (pgdir q) (a / 4096 / 1024) = true -> ~ in_clock q (a / 4096) ->
  (forall d, 0 <= d < 1024 -> pde_present (mem (mach k')) (pgdir q) d = pde_present (mem (mach k)) (pgdir q) d) ->
  clock_inv k' q'.
Proof.
  intros [H1 H2 H3 H4 H5] Hi Hi' Epg En Ec Hh Hh' Ha Hau Hap Hnc Hd.
  assert (forall j, 0 <= j < 8 -> node_at q' j = if decide (j = i) then a else node_at q j) as Hn
    by (intros; by apply node_insert).
  split.
  - by rewrite En, length_insert.
  - lia.
  - done.
  - intros j Hj. rewrite Hn, Epg by lia. case_decide; [|].
    + split; [done|]. split; [done|]. rewrite Hd; [done|]. by apply vpn_dir, user_vpn_ok.
    + destruct (H4 j) as (? & ? & ?); [lia|]. split; [done|]. split; [done|].
      rewrite Hd; [done|]. by apply vpn_dir, user_vpn_ok.
  - intros x y Hx Hy. rewrite !Hn by lia. repeat case_decide; subst; try done.
    + intros E. exfalso. apply Hnc. exists y. split; [lia|done].
    + intros E. exfalso. apply Hnc. exists x. split; [lia|done].
    + apply H5; lia.
Qed.

Lemma clock_inv_entered k k' m q a :
  clock_inv k q -> is_u32 a -> user_vpn (a / 4096) ->
  pde_present (mem (mach k)) (pgdir q) (a / 4096 / 1024) = true -> ~ in_clock q (a / 4096) ->
  (forall d, 0 <= d < 1024 -> pde_present (mem (mach k')) (pgdir q) d = pde_present (mem (mach k)) (pgdir q) d) ->
  clock_inv k' (entered m q a) /\ in_clock (entered m q a) (a / 4096).
Proof.
  intros Hc Ha Hu Hp Hn Hd. pose proof (ci_count _ _ Hc) as Hcnt. pose proof (ci_len _ _ Hc) as Hl.
  unfold entered, CLOCKSIZE. destruct (Z.ltb_spec (inClock q) 8) as [Hlt|Hge].
  - split.
    + apply (clock_inv_put k k' q _ (inClock q) a); cbn; try done; lia.
    + exists (inClock q). cbn [inClock set_inClock]. split; [lia|].
      rewrite (node_insert q _ (inClock q) a) by (done || lia). by rewrite decide_True.
  - pose proof (second_chance_bound m q) as Hb. set (t := default 0 _) in *.
    assert (full_clock k q) as Hf by (apply full_of_inv; [done|lia]).
    pose proof (hand_bound q t (fc_hand _ _ Hf) ltac:(lia)) as Hh. split.
    + apply (clock_inv_put k k' q _ (hand q t) a); try done;
        cbn [inClock replaced set_currInd set_nodes currInd]; try lia.
      unfold CLOCKSIZE. rewrite Z.rem_mod_nonneg by lia. dlia.
    + exists (hand q t). cbn [inClock replaced set_currInd set_nodes]. split; [lia|].
      rewrite (node_insert q _ (hand q t) a) by (done || lia). by rewrite decide_True.
Qed.

(** Steps of the running process, with its record. *)
Section Steps.
Variables (k : kstate F) (p : nat) (q : proc) (l : list Z).
Hypothesis Hi : pinv k p q l.

Lemma step_mygetp {A} (f : proc -> A) (Q : A -> kstate F -> Prop) :
  (forall k', kframe k k' -> procs k' = procs k -> mem (mach k') = mem (mach k) ->
     pinv k' p q l -> Q (f q) k') ->
  wp (mygetp f) k Q.
Proof using Hi.
  intros HQ. eapply wp_mygetp; [apply (pi_run Hi)|apply (pi_proc Hi)|]. intros h Hh.
  apply HQ; [by split_and!|done|done|by apply pinv_hart].
Qed.

Lemma step_mysetp (f : proc -> proc) (Q : unit -> kstate F -> Prop) :
  pgdir (f q) = pgdir q -> kstack (f q) = kstack q ->
  (forall k', kframe k k' -> procs k' = <[p := f q]> (procs k) -> mem (mach k') = mem (mach k) ->
     pinv k' p (f q) l -> Q tt k') ->
  wp (mysetp f) k Q.
Proof using Hi.
  intros E1 E2 HQ. eapply wp_mysetp; [apply (pi_run Hi)|]. intros h Hh.
  rewrite (alter_insert _ p _ q) by apply (pi_proc Hi).
  apply HQ; [by split_and!|done|done|].
  by apply (pinv_proc _ _ _ (f q) _ (pinv_hart _ _ _ _ _ Hi Hh)).
Qed.

Lemma step_set_node i a (Q : unit -> kstate F -> Prop) :
  length (nodes q) = 8%nat -> 0 <= i < 8 ->
  (let q' := set_nodes (<[Z.to_nat i := a]> (nodes q)) q in
   forall k', kframe k k' -> procs k' = <[p := q']> (procs k) -> mem (mach k') = mem (mach k) ->
     pinv k' p q' l -> Q tt k') ->
  wp (set_node i a) k Q.
Proof using Hi.
  intros Hl Hb HQ. eapply wp_set_node; [done|done|done|]. intros h Hh.
  rewrite (alter_insert _ p _ q) by apply (pi_proc Hi).
  apply HQ; [by split_and!|done|done|].
  by apply (pinv_proc _ _ _ (set_nodes _ q) _ (pinv_hart _ _ _ _ _ Hi Hh)).
Qed.
End Steps.

Lemma clock_insert_spec k p q l add :
  pinv k p q l -> clock_inv k q ->
  wp (clock_insert (pgdir q) add) k (fun _ k' => let m := mem (mach k) in
    kframe k k' /\ procs k' = <[p := entered m q add]> (procs k) /\
    pinv k' p (entered m q add) l /\
    recrypted m (mem (mach k')) (pgdir q) (entered_entry m q)).
Proof.
  intros Hi Hc. pose proof (ci_count _ _ Hc) as Hcnt. pose proof (ci_len _ _ Hc) as Hl.
  unfold clock_insert, entered, entered_entry.
  wstep. apply (step_mygetp _ _ _ _ Hi). intros k1 Hk1 Hp1 Hm1 Hi1.
  destruct (Z.eqb_spec (inClock q) 0) as [E0|E0].
  - rewrite E0. cbn [Z.ltb Z.compare CLOCKSIZE].
    wstep. apply (step_set_node _ _ _ _ Hi1); [done|lia|]. intros q2 k2 Hk2 Hp2 Hm2 Hi2.
    wstep. apply (step_mysetp _ _ _ _ Hi2); [done|done|]. intros k3 Hk3 Hp3 Hm3 Hi3.
    apply (step_mysetp _ _ _ _ Hi3); [done|done|]. intros k4 Hk4 Hp4 Hm4 Hi4.
    split; [by eauto using kframe_trans|]. split.
    + by rewrite Hp4, Hp3, Hp2, Hp1, !list_insert_insert_eq.
    + split; [done|]. rewrite Hm4, Hm3, Hm2, Hm1. apply recrypted_refl.
  - wstep. apply (step_mygetp _ _ _ _ Hi1). intros k2 Hk2 Hp2 Hm2 Hi2.
    unfold CLOCKSIZE. destruct (Z.ltb_spec (inClock q) 8) as [Hlt|Hge].
    + assert (currInd q = inClock q) as Ecur by (apply (ci_hand _ _ Hc); lia).
      wstep. apply (step_mygetp _ _ _ _ Hi2). intros k3 Hk3 Hp3 Hm3 Hi3. rewrite Ecur.
      wstep. apply (step_set_node _ _ _ _ Hi3); [done|lia|]. intros q4 k4 Hk4 Hp4 Hm4 Hi4.
      wstep. apply (step_mysetp _ _ _ _ Hi4); [done|done|]. intros k5 Hk5 Hp5 Hm5 Hi5.
      apply (step_mysetp _ _ _ _ Hi5); [done|done|]. intros k6 Hk6 Hp6 Hm6 Hi6.
      change (currInd q4) with (currInd q) in *. rewrite Ecur in *.
      split; [by eauto 7 using kframe_trans|]. split.
      * by rewrite Hp6, Hp5, Hp4, Hp3, Hp2, Hp1, !list_insert_insert_eq.
      * split; [done|]. rewrite Hm6, Hm5, Hm4, Hm3, Hm2, Hm1. apply recrypted_refl.
    + assert (full_clock k2 q) as Hf.
      { apply (full_clock_frame k); [apply full_of_inv; [done|lia]|]. intros d Hd. by rewrite Hm2, Hm1. }
      eapply wp_mono; [by apply (evict_spec k2 p q l add)|]. rewrite Hm2, Hm1, Hp2, Hp1.
      intros [] k3 (Hk3 & Hp3 & Hi3 & R3). split; [by eauto using kframe_trans|]. done.
Qed.

(** ** mdecrypt *)

(** The entries after the page [vpn] has been decrypted and has entered the
    clock. *)
Definition decrypted (m m1 : memory) (q : proc) (vpn : Z) : Prop :=
  recrypted m m1 (pgdir q)
    (fun v => if decide (v = vpn) then dec_entry (pte_at m (pgdir q) v) else pte_at m (pgdir q) v).

Lemma clock_inv_mem k k' q :
  clock_inv k q ->
  (forall d, 0 <= d < 1024 -> pde_present (mem (mach k')) (pgdir q) d = pde_present (mem (mach k)) (pgdir q) d) ->
  clock_inv k' q.
Proof.
  intros [H1 H2 H3 H4 H5] Hd. split; try done. intros j Hj. destruct (H4 j Hj) as (? & ? & ?).
  split; [done|]. split; [done|]. rewrite Hd; [done|]. by apply vpn_dir, user_vpn_ok.
Qed.

(** [mdecrypt] of an encrypted page whose first stored byte is not 0 decrypts
    it and enters it into the clock. *)
Lemma mdecrypt_enters k p q l va (Q : Z -> kstate F -> Prop) :
  pinv k p q l ->
  let m := mem (mach k) in let vpn := va / 4096 in let w := pte_at m (pgdir q) vpn in
  user_vpn vpn -> pde_present m (pgdir q) (vpn / 1024) = true ->
  flag w PTE_E && flag w PTE_U = true -> load8 m (PTE_ADDR w) <> 0 ->
  (forall k1, kframe k k1 -> procs k1 = procs k -> pinv k1 p q l -> decrypted m (mem (mach k1)) q vpn ->
     wp (clock_insert (pgdir q) (4096 * vpn)) k1 (fun _ k2 => exists q', pinv k2 p q' l /\
       forall k', kframe k2 k' -> procs k' = procs k2 -> mem (mach k') = mem (mach k2) -> pinv k' p q' l -> Q 0 k')) ->
  wp (mdecrypt va) k Q.
Proof.
  intros Hi m vpn w Hu Hp HEU Hb HQ. unfold mdecrypt.
  wstep. eapply wp_myproc; [apply (pi_run Hi)|]. intros h Hh.
  pose proof (pinv_hart _ _ _ _ _ Hi Hh) as Hi1. wsteps. eapply wp_getp; [apply (pi_proc Hi1)|].
  wstep. apply wp_zoom. eapply wp_mono.
  { apply (mdecrypt_page_spec _ (pgdir q) l); [apply (pi_as Hi1)|apply (pi_cr3 Hi1)|done|done|by apply (pi_enc Hi)]. }
  cbv zeta. change (mem (view machL (update hartL h k))) with m. fold vpn. fold w.
  rewrite HEU, (proj2 (Z.eqb_neq _ _) Hb). cbn [negb].
  intros r s' [-> R]. cbn [Z.eqb]. change (mem (view machL (update hartL h k))) with m in R.
  apply andb_true_iff in HEU as [HE HU].
  assert (mapped w = true) as Hmw by (unfold mapped; rewrite flag_lor, HE; apply orb_true_r).
  assert (pinv (update machL s' (update hartL h k)) p q l) as Hi2.
  { apply (pinv_recrypts _ s' p q l _ Hi1 R). intros v Hv. case_decide; [|by apply (pi_enc Hi)].
    subst v. apply enc_ok_dec; [done|done|by apply (pi_enc Hi)]. }
  set (k2 := update machL s' (update hartL h k)) in *.
  assert (decrypted m (mem (mach k2)) q vpn) as D.
  { eapply recrypted_ext; [apply R|]. intros v Hv. repeat case_decide; try done. by subst v. }
  wstep. apply (step_mygetp _ _ _ _ Hi2). intros k3 Hk3 Hp3 Hm3 Hi3.
  replace (PGROUNDDOWN (PGROUNDDOWN va)) with (4096 * vpn)
    by (rewrite !PGROUNDDOWN_eq; unfold vpn; dlia).
  wstep. eapply wp_mono; [apply (HQ k3); [|by rewrite Hp3|done|by rewrite Hm3]|].
  { eapply kframe_trans; [|exact Hk3]. by split_and!. }
  intros [] k4 (q' & Hi4 & H4). eapply switchuvm_current; [exact Hi4|]. intros k5 Hk5 Hp5 Hm5 Hi5. by apply H4.
Qed.

Lemma mdecrypt_spec k p q l va :
  pinv k p q l -> clock_inv k q ->
  let m := mem (mach k) in let vpn := va / 4096 in let w := pte_at m (pgdir q) vpn in
  user_vpn vpn -> pde_present m (pgdir q) (vpn / 1024) = true ->
  wp (mdecrypt va) k (fun r k' => kframe k k' /\
    if negb (flag w PTE_E && flag w PTE_U) then
      r = -1 /\ procs k' = procs k /\ mem (mach k') = m /\ pinv k' p q l
    else if load8 m (PTE_ADDR w) =? 0 then
      r = -1 /\ procs k' = procs k /\
      exists s1 s', touches s1 s' (pgdir q) l vpn (clear_E w) (load8 m) /\ mem s1 = m /\ mach k' = s'
    else r = 0 /\ exists m1,
      decrypted m m1 q vpn /\
      let q' := entered m1 q (4096 * vpn) in
      procs k' = <[p := q']> (procs k) /\ pinv k' p q' l /\
      recrypted m (mem (mach k')) (pgdir q) (entered_entry m1 q)).
Proof.
  intros Hi Hc m vpn w Hu Hp. destruct (flag w PTE_E && flag w PTE_U) eqn:HEU; cbn [negb].
  1: destruct (Z.eqb_spec (load8 m (PTE_ADDR w)) 0) as [Hz|Hb].
  2:{ eapply mdecrypt_enters; [exact Hi|done|done|done|done|]. fold m vpn w.
    intros k3 Hk3 Hp3 Hi3 D. eapply wp_mono; [apply (clock_insert_spec k3 p q l (4096 * vpn)); [done|]|].
    { apply (clock_inv_mem k); [done|]. intros d Hd. apply (rc_pde D d Hd). }
    cbv zeta. rewrite Hp3. intros [] k4 (Hk4 & Hp4 & Hi4 & R4). eexists. split; [exact Hi4|].
    intros k5 Hk5 Hp5 Hm5 Hi5. split; [by eauto using kframe_trans|]. split; [done|]. exists (mem (mach k3)).
    split; [done|]. split; [by rewrite Hp5, Hp4|]. split; [done|]. rewrite Hm5.
    eapply recrypted_ext; [eapply recrypted_trans; [exact D|exact R4]|]. done. }
  all: unfold mdecrypt; wstep; (eapply wp_myproc; [apply (pi_run Hi)|]); intros h Hh;
    pose proof (pinv_hart _ _ _ _ _ Hi Hh) as Hi1; wsteps; (eapply wp_getp; [apply (pi_proc Hi1)|]);
    wstep; apply wp_zoom; (eapply wp_mono;
    [apply (mdecrypt_page_spec _ (pgdir q) l); [apply (pi_as Hi1)|apply (pi_cr3 Hi1)|done|done|by apply (pi_enc Hi)]|]);
    cbv zeta; change (mem (view machL (update hartL h k))) with m; fold vpn; fold w; rewrite HEU; cbn [negb].
  - rewrite Hz. cbn [Z.eqb]. intros r s' [-> T]. cbn [Z.eqb Pos.eqb]. wstep. split; [by split_and!|]. split; [done|].
    split; [done|]. by exists (view machL (update hartL h k)), s'.
  - intros r s' [-> ->]. cbn [Z.eqb Pos.eqb]. wstep. rewrite update_view. split; [by split_and!|].
    split; [done|]. split; [done|]. split; [done|exact Hi1].
Qed.
End Invariant.
