(* ===== verification/Demo.v ===== *)
(** * A small concrete machine

    One address space with two user pages and a free list of three pages, on
    the kernel image of kernel.sym.  Page 0 is present; the entry [w1] of page
    1 and its first byte [c] are parameters, so that it can be present or
    encrypted.  The instances of the theorems at concrete inputs are evaluated
    on it. *)

From S2P Require Import Prelude Memory Mmu Machine Spinlock Kalloc PageTable VmProofs VmSpaces.
From S2P Require Import Encrypt ProcTable Clock ClockProofs.

(** Decide a closed goal by evaluation. *)
Ltac decided := match goal with |- ?P => refine (bool_decide_unpack P _); by vm_compute end.

Module Demo.

Definition pgdir : Z := P2V 0x200000.
Definition tab : Z := P2V 0x201000.
Definition frame0 : Z := P2V 0x202000.
Definition frame1 : Z := P2V 0x203000.
Definition free1 : Z := P2V 0x204000.
Definition free2 : Z := P2V 0x205000.
Definition free3 : Z := P2V 0x206000.
Definition kstack : Z := P2V 0x207000.

(** Entries of page 1: present, and encrypted. *)
Definition present1 : Z := 0x203007.
Definition encrypted1 : Z := 0x203406.

Definition cpu0 : cpu := Cpu 0 0 false (Some 0%nat) 0 0 0.
Definition free0 : list Z := [free1; free2; free3].

Section State.
Variables w1 c : Z.

Definition memory0 : memory :=
  store32 (store32 (store32 (store32 (store32 (store32 (store32 (store32 ∅
    0x200000 0x201007)
    0x201000 0x202007)
    0x201004 w1)
    0x202000 0x64636261)
    0x203000 c)
    0x204000 free2)
    0x205000 free3)
    0x206000 0.

Definition state0 : machine :=
  Machine memory0 (Spinlock 0 None) true free1 (Hart [cpu0] false 0) 0x200000 0.

(** Outside the words stored, memory is zero. *)
Lemma memory0_zero a :
  ~ (0x200000 <= a < 0x200004) -> ~ (0x201000 <= a < 0x201008) -> ~ (0x202000 <= a < 0x202004) ->
  ~ (0x203000 <= a < 0x203004) ->
  ~ (0x204000 <= a < 0x204004) -> ~ (0x205000 <= a < 0x205004) -> ~ (0x206000 <= a < 0x206004) ->
  load8 memory0 a = 0.
Proof.
  intros. unfold memory0. rewrite !load8_store32_ne by lia. done.
Qed.

Lemma pde0 d : 0 <= d < 1024 -> pde_at memory0 pgdir d = if decide (d = 0) then 0x201007 else 0.
Proof.
  intros Hd. unfold pde_at. change (V2P pgdir) with 0x200000. case_decide.
  - subst. unfold memory0. rewrite !load32_store32_ne by lia. by rewrite load32_store32_eq.
  - unfold load32. rewrite !memory0_zero by lia. done.
Qed.

Lemma pte0 vpn : vpn_ok vpn -> pte_at memory0 pgdir vpn =
  if decide (vpn = 0) then 0x202007 else if decide (vpn = 1) then u32 w1 else 0.
Proof.
  intros Hv. pose proof (vpn_dir _ Hv) as Hd. unfold pte_at, pde_present, pte_addr.
  rewrite pde0 by done. unfold vpn_ok in Hv. destruct (decide (vpn / 1024 = 0)) as [E|E].
  - change (flag 0x201007 PTE_P) with true. cbn iota. change (PTE_ADDR 0x201007) with 0x201000.
    repeat case_decide; subst.
    + unfold memory0. repeat rewrite load32_store32_ne by dlia. by rewrite load32_store32_eq.
    + unfold memory0. repeat rewrite load32_store32_ne by dlia. by rewrite load32_store32_eq.
    + unfold load32. rewrite !memory0_zero by dlia. done.
  - change (flag 0 PTE_P) with false. cbn iota. repeat case_decide; try done; dlia.
Qed.

Lemma pgdir0_wf : pgdir_wf memory0 pgdir.
Proof.
  assert (forall d, 0 <= d < 1024 -> pde_present memory0 pgdir d = true -> d = 0) as Hp.
  { intros d Hd. unfold pde_present. rewrite pde0 by done. by case_decide. }
  split.
  - by vm_compute.
  - intros d Hd ->%Hp; [|done]. rewrite pde0 by done. by vm_compute.
  - intros d e Hd He ->%Hp ->%Hp; done.
  - intros d Hd. unfold pde_present. rewrite pde0 by done. by case_decide.
  - intros d Hd ->%Hp; [|done]. by rewrite pde0.
Qed.

Lemma tpage0 v : tpage memory0 pgdir v <-> v = pgdir \/ v = tab.
Proof.
  split.
  - intros [->|(d & Hd & Hp & ->)]; [by left|right]. unfold pde_present in Hp.
    rewrite pde0 in * by done. by case_decide.
  - intros [->| ->]; [by left|right]. exists 0. unfold pde_present. rewrite pde0 by lia. done.
Qed.

Lemma free_inv0 : Impl.free_inv state0 free0.
Proof.
  split.
  - cbn [mem freelist state0 Impl.chain free0]. unfold memory0.
    repeat (split; [done|]);
      repeat (rewrite load32_store32_eq || rewrite load32_store32_ne by (vm_compute; intuition congruence)).
    all: done.
  - decided.
  - repeat constructor; by vm_compute.
  - exists 0%nat, cpu0. split; [by split|]. cbn. lia.
  - done.
Qed.

Hypothesis Hw : w1 = present1 \/ w1 = encrypted1.

Lemma u32_w1 : u32 w1 = w1.
Proof. by destruct Hw as [-> | ->]. Qed.

Lemma mapped0 vpn :
  user_vpn vpn -> mapped (pte_at memory0 pgdir vpn) = true -> vpn = 0 \/ vpn = 1.
Proof.
  intros Hu. rewrite pte0 by (by apply user_vpn_ok). repeat case_decide; auto. by intros.
Qed.

Lemma entry_frame0 vpn : vpn = 0 \/ vpn = 1 ->
  frame (pte_at memory0 pgdir vpn) = if decide (vpn = 0) then frame0 else frame1.
Proof. intros [-> | ->]; rewrite pte0 by closed; [done|]. by destruct Hw as [-> | ->]. Qed.

Lemma as_inv0 : as_inv state0 pgdir free0.
Proof.
  split; [split| |].
  - apply free_inv0.
  - apply pgdir0_wf.
  - intros v Ht%tpage0. unfold free0. destruct Ht as [-> | ->]; by decided.
  - intros vpn Hu Hm%mapped0; [|done]. cbn [mem state0]. rewrite tpage0, entry_frame0 by done.
    clear. case_decide; (split; [by vm_compute|]); (split; [by decided|]); by intros [].
  - intros v v' Hu Hu' Hm%mapped0 Hm'%mapped0; [|done..]. cbn [mem state0].
    rewrite !entry_frame0 by done. clear -Hm Hm'. destruct Hm as [-> | ->], Hm' as [-> | ->]; done.
Qed.

(** ** A process on it *)

Definition proc_of (ns : list Z) (count : Z) : proc :=
  Proc 8192 pgdir kstack RUNNING 1 None 0 0 NoChan false (replicate 16 None) None [] ns count count.

Definition kernel_of (q : proc) : kstate unit :=
  KState state0 (Spinlock 0 None) [q] 2 (Some 0%nat) 0 (Spinlock 0 None) tt.

(** With an empty clock, and with a clock of the first eight pages. *)
Definition proc0 : proc := proc_of (replicate 8 0xFFFFFFFF) 0.
Definition proc8 : proc := proc_of [0; 4096; 8192; 12288; 16384; 20480; 24576; 28672] 8.
Definition kernel0 : kstate unit := kernel_of proc0.
Definition kernel8 : kstate unit := kernel_of proc8.

(** With the two pages in the clock. *)
Definition proc2 : proc := proc_of [0; 4096; 0; 0; 0; 0; 0; 0] 2.
Definition kernel2 : kstate unit := kernel_of proc2.

(** With three pages, of which the first and the last are in the clock. *)
Definition proc3p : proc := set_sz 12288 (proc_of [0; 8192; 0; 0; 0; 0; 0; 0] 2).
Definition kernel3p : kstate unit := kernel_of proc3p.

(** With a process that sleeps, and an unused slot. *)
Definition sleeper : proc :=
  Proc 0 pgdir kstack SLEEPING 7 (Some 0%nat) 0 0 (ObjChan 5) false [] None [] [] 0 0.
Definition unused : proc := Proc 0 0 0 UNUSED 0 None 0 0 NoChan false [] None [] [] 0 0.
Definition kernel3 : kstate unit :=
  KState state0 (Spinlock 0 None) [proc0; sleeper; unused] 8 (Some 0%nat) 0 (Spinlock 0 None) tt.

Lemma pinv_of ns count : pinv (kernel_of (proc_of ns count)) 0 (proc_of ns count) free0.
Proof.
  split.
  - exists 0%nat, cpu0. by split_and!.
  - done.
  - apply as_inv0.
  - done.
  - done.
  - intros v Hv. cbn [mem mach kernel_of state0]. change (ProcTable.pgdir (proc_of ns count)) with pgdir.
    rewrite pte0, u32_w1 by (by apply user_vpn_ok).
    repeat case_decide; [by vm_compute|destruct Hw as [-> | ->]; by vm_compute|done].
Qed.

Lemma pinv3p : pinv kernel3p 0 proc3p free0.
Proof. exact (pinv_proc _ _ _ proc3p _ (pinv_of [0; 8192; 0; 0; 0; 0; 0; 0] 2) eq_refl eq_refl). Qed.

Lemma clock_inv0 : clock_inv kernel0 proc0.
Proof. split; cbn; (done || lia). Qed.

Lemma clock_inv2 : clock_inv kernel2 proc2.
Proof.
  assert (forall j, 0 <= j < 2 -> node_at proc2 j = 4096 * j) as Hnode.
  { intros j Hj. assert (j = 0 \/ j = 1) as [-> | ->] by lia; done. }
  split; [done|cbn; lia|split; cbn; lia|..]; change (inClock proc2) with 2.
  - intros j Hj. rewrite Hnode, page_vpn by done. split; [consts; lia|]. split; [unfold user_vpn; lia|].
    unfold pde_present. change (mem (mach kernel2)) with memory0.
    change (ProcTable.pgdir proc2) with pgdir. rewrite pde0 by dlia.
    rewrite decide_True by dlia. done.
  - intros i j Hi Hj. rewrite !Hnode, !page_vpn by done. done.
Qed.

Lemma clock_inv3p : clock_inv kernel3p proc3p.
Proof.
  assert (forall j, 0 <= j < 2 -> node_at proc3p j = 4096 * (2 * j)) as Hnode.
  { intros j Hj. assert (j = 0 \/ j = 1) as [-> | ->] by lia; done. }
  split; [done|cbn; lia|split; cbn; lia|..]; change (inClock proc3p) with 2.
  - intros j Hj. rewrite Hnode, page_vpn by done. split; [consts; lia|]. split; [unfold user_vpn; lia|].
    unfold pde_present. change (mem (mach kernel3p)) with memory0.
    change (ProcTable.pgdir proc3p) with pgdir. rewrite pde0 by dlia.
    rewrite decide_True by dlia. done.
  - intros i j Hi Hj. rewrite !Hnode, !page_vpn by done. lia.
Qed.

Lemma node8 j : 0 <= j < 8 -> node_at proc8 j = 4096 * j.
Proof.
  intros Hj. assert (j = 0 \/ j = 1 \/ j = 2 \/ j = 3 \/ j = 4 \/ j = 5 \/ j = 6 \/ j = 7) as H by lia.
  repeat (destruct H as [-> |H]; [done|]). by subst.
Qed.

Lemma clock_inv8 : clock_inv kernel8 proc8.
Proof.
  split; [done|done|split; [done|cbn; lia]|..]; change (inClock proc8) with 8.
  - intros j Hj. rewrite node8, page_vpn by done. split; [consts; lia|]. split; [unfold user_vpn; lia|].
    unfold pde_present. change (mem (mach kernel8)) with memory0.
    change (ProcTable.pgdir proc8) with pgdir. rewrite pde0 by dlia.
    rewrite decide_True by dlia. done.
  - intros i j Hi Hj. rewrite !node8, !page_vpn by done. done.
Qed.
End State.
End Demo.
