(* ===== verification/VmTheorems.v ===== *)
(** * What the virtual-memory operations of vm.c guarantee

    Theorems about whole operations, for every page allocator that meets the
    interface of kalloc.c, and their instances on the machine of Demo. *)

From S2P Require Import Prelude Memory Mmu Machine Spinlock Kalloc Vm PageTable VmProofs VmSpaces Demo.

Section Theorems.
Context `{KI : KernelImage, PO : !PageOps, PA : !PageAllocator}.
Implicit Types s : machine.

(** C22: [copyuvm] on a process of [sz] bytes returns a new address space whose
    pages below [sz] have the flags (the encryption flag included) and the
    bytes of the parent's, in frames of their own, whose other user entries
    are empty and whose kernel half is [kmap]; the parent is unchanged.  When
    memory runs out it returns null and every page it took is free again. *)
Theorem copyuvm_copies s pgdir sz l :
  as_inv s pgdir l -> 0 <= sz <= KERNBASE ->
  let n := (sz + 4095) / 4096 in
  (forall vpn, 0 <= vpn < n -> mapped (pte_at (mem s) pgdir vpn) = true) ->
  wp (copyuvm pgdir sz) s (fun r s' =>
    match r with
    | None => undone s s' l
    | Some d => exists l', as_inv s' d l' /\
        (forall v, tpage (mem s') d v \/ uframe (mem s') d v <-> v ∈ l /\ v ∉ l') /\
        (forall vpn, 0 <= vpn < n ->
           let w := pte_at (mem s) pgdir vpn in let w' := pte_at (mem s') d vpn in
           PTE_FLAGS w' = PTE_FLAGS w /\
           forall k, 0 <= k < 4096 -> load8 (mem s') (PTE_ADDR w' + k) = load8 (mem s) (PTE_ADDR w + k)) /\
        (forall vpn, vpn_ok vpn -> n <= vpn -> pte_at (mem s') d vpn = default 0 (kmap_pte kmap vpn)) /\
        (forall a, (forall v, v ∈ l -> ~ in_page v a) -> load8 (mem s') a = load8 (mem s) a)
    end).
Proof.
  intros Hi Hsz n Hm. eapply wp_mono; [by apply (copyuvm_result s pgdir sz l)|].
  intros [d|] s'; [|done]. intros (l' & H1 & H2 & _ & _ & H3 & H4 & H5). by exists l'.
Qed.

(** ** The kernel's own addresses *)

(** What the hardware makes of an address under a well-formed table. *)
Lemma mmu_translate m pgdir va write :
  pgdir_wf m pgdir -> is_u32 va ->
  let w := pte_at m pgdir (va / 4096) in
  fst <$> mmu m (V2P pgdir) va write =
    if flag w PTE_P && (negb write || flag w PTE_W) then Some (PTE_ADDR w + va mod 4096) else None.
Proof.
  intros Hw Hva w. pose proof (vpn_dir _ (vpn_ok_va va Hva)) as Hd. unfold mmu.
  rewrite PDX_vpn, PTX_eq, OFFSET_eq by done.
  change (load32 m (V2P pgdir + 4 * (va / 4096 / 1024))) with (pde_at m pgdir (va / 4096 / 1024)).
  fold (pde_present m pgdir (va / 4096 / 1024)). fold (pte_addr m pgdir (va / 4096)).
  unfold w, pte_at. destruct (pde_present m pgdir (va / 4096 / 1024)) eqn:Hp; [|done].
  rewrite (pw_write _ _ Hw _ Hd Hp), andb_false_r. cbn [negb orb].
  destruct (flag (load32 m (pte_addr m pgdir (va / 4096))) PTE_P), write,
    (flag (load32 m (pte_addr m pgdir (va / 4096))) PTE_W); done.
Qed.

(** [kmap] on the direct map: all of physical memory, read-only where the
    kernel's text is. *)
Lemma kmap_direct va :
  KERNBASE <= va < P2V PHYSTOP -> exists perm,
    kmap_pte kmap (va / 4096) = Some (map_entry (4096 * (va / 4096) - KERNBASE) perm) /\
    (perm = PTE_W \/ perm = 0) /\ (perm = 0 <-> KERNLINK <= va < kdata).
Proof.
  intros Hva. pose proof kernel_image as HK. pose proof kdata_aligned as HA.
  assert (V2P kdata = kdata - KERNBASE) as E1 by (consts; dlia).
  assert (V2P KERNLINK = EXTMEM) as E2 by reflexivity.
  assert (P2V PHYSTOP = KERNBASE + PHYSTOP) as E3 by reflexivity.
  unfold kmap, km_size. cbn [kmap_pte km_virt km_start km_end km_perm]. rewrite E1, E2.
  rewrite E3 in Hva. destruct (Z.lt_ge_cases va KERNLINK) as [H1|H1]; [|destruct (Z.lt_ge_cases va kdata)].
  - rewrite decide_True by (unfold km_size; cbn; consts; dlia).
    exists PTE_W. split; [do 2 f_equal; consts; dlia|]. split; [by left|]. split; [done|consts; lia].
  - rewrite decide_False by (unfold km_size; cbn; consts; dlia).
    rewrite decide_True by (unfold km_size; cbn; consts; dlia).
    exists 0. split; [do 2 f_equal; consts; dlia|]. split; [by right|]. done.
  - rewrite decide_False by (unfold km_size; cbn; consts; dlia).
    rewrite decide_False by (unfold km_size; cbn; consts; dlia).
    rewrite decide_True by (unfold km_size; cbn; consts; dlia).
    exists PTE_W. split; [do 2 f_equal; consts; dlia|]. split; [by left|]. split; [done|lia].
Qed.

(** The table [setupkvm] returns translates every kernel address of the
    direct map to the physical address [V2P] gives, refuses writes exactly on
    the kernel's text and read-only data, and maps no user page; when memory
    runs out it returns null and every page is free again. *)
Theorem setupkvm_direct_map s l :
  free_pages s l ->
  wp setupkvm s (fun r s' =>
    match r with
    | None => undone s s' l
    | Some pgdir =>
        (forall va, KERNBASE <= va < P2V PHYSTOP ->
           fst <$> mmu (mem s') (V2P pgdir) va false = Some (V2P va) /\
           fst <$> mmu (mem s') (V2P pgdir) va true =
             if bool_decide (KERNLINK <= va < kdata) then None else Some (V2P va)) /\
        (forall vpn, user_vpn vpn -> pte_at (mem s') pgdir vpn = 0) /\
        exists l', as_inv s' pgdir l' /\ forall v, tpage (mem s') pgdir v <-> v ∈ l /\ v ∉ l'
    end).
Proof.
  intros Hf. eapply wp_mono; [by apply setupkvm_spec|].
  intros [pgdir|] s'; cbn beta iota; [|done]. intros (l' & Hb & Hk).
  pose proof (bu_inv _ _ _ _ _ Hb) as Hi.
  assert (forall vpn, user_vpn vpn -> pte_at (mem s') pgdir vpn = 0) as H0.
  { intros vpn Hu. rewrite Hk by (by apply user_vpn_ok).
    by rewrite (kmap_pte_low _ _ _ kmap_kernel) by apply Hu. }
  split; [|split; [done|]].
  - intros va Hva. assert (is_u32 va) as H32 by (consts; dlia).
    destruct (kmap_direct va Hva) as (perm & Hp & Hpe & Hro).
    rewrite !mmu_translate by (apply Hi || done). rewrite Hk, Hp by (by apply vpn_ok_va).
    cbn [default id]. assert (4096 * (va / 4096) - KERNBASE + va mod 4096 = V2P va) as Ha by (consts; dlia).
    assert ((4096 * (va / 4096) - KERNBASE) mod 4096 = 0) as Hal by (consts; dlia).
    assert (is_u32 (4096 * (va / 4096) - KERNBASE)) by (consts; dlia).
    unfold map_entry. destruct Hpe as [-> | ->].
    + change (flag PTE_W PTE_E) with false. cbn iota.
      rewrite <- Z.lor_assoc, PTE_ADDR_make, Ha by (done || closed).
      rewrite bool_decide_false by (intros Hr; by apply Hro in Hr). flags. done.
    + change (flag 0 PTE_E) with false. cbn iota.
      rewrite <- Z.lor_assoc, PTE_ADDR_make, Ha by (done || closed).
      rewrite bool_decide_true by (by apply Hro). flags. by rewrite testbit_aligned.
  - exists l'. split; [done|]. intros v. rewrite <- (bu_owned _ _ _ _ _ Hb). split; [by left|].
    intros [?|(vpn & Hu & Hm & _)]; [done|]. by rewrite H0 in Hm.
Qed.

(** ** Growing, shrinking and freeing *)

(** [allocuvm] refuses sizes that reach the kernel and requests to shrink;
    otherwise it maps every page between the two sizes to a fresh zeroed
    writable user page and keeps all other entries, or, when memory runs out,
    unmaps and frees everything it had mapped and returns 0. *)
Theorem allocuvm_grows s pgdir l oldsz newsz :
  as_inv s pgdir l -> 0 <= oldsz ->
  let lo := (oldsz + 4095) / 4096 in let hi := (newsz + 4095) / 4096 in
  (forall vpn, lo <= vpn < hi -> mapped (pte_at (mem s) pgdir vpn) = false) ->
  wp (allocuvm pgdir oldsz newsz) s (fun r s' =>
    if KERNBASE <=? newsz then r = 0 /\ s' = s
    else if newsz <? oldsz then r = oldsz /\ s' = s
    else r = newsz /\ (exists l', extends s s' pgdir l l' [] lo hi uperm zeroed) \/
         r = 0 /\ restored s s' pgdir l [] lo hi).
Proof.
  intros Hi Ho lo hi Hun. destruct (Z.leb_spec KERNBASE newsz) as [H1|H1];
    [|destruct (Z.ltb_spec newsz oldsz) as [H2|H2]].
  - unfold allocuvm. destruct (Z.leb_spec KERNBASE newsz); [|lia]. by wstep.
  - unfold allocuvm. destruct (Z.leb_spec KERNBASE newsz); [lia|].
    destruct (Z.ltb_spec newsz oldsz); [|lia]. by wstep.
  - by apply (allocuvm_spec s pgdir oldsz newsz l).
Qed.

(** [deallocuvm] returns the new size, clears exactly the mapped entries
    between the two sizes, whether present or encrypted, puts exactly their
    frames on the free list, and changes nothing else; it never panics on an
    address space of its own. *)
Theorem deallocuvm_frees s pgdir l oldsz newsz :
  as_inv s pgdir l -> 0 <= newsz -> oldsz <= KERNBASE ->
  wp (deallocuvm pgdir oldsz newsz) s (fun r s' => r = Z.min oldsz newsz /\ exists l',
    shrinks s s' pgdir l l' ((newsz + 4095) / 4096) ((oldsz + 4095) / 4096)).
Proof. apply deallocuvm_spec. Qed.

(** [freevm] puts exactly the frames and the table pages of the address
    space on the free list, and touches no other memory. *)
Theorem freevm_frees_all s pgdir l :
  as_inv s pgdir l ->
  wp (freevm pgdir) s (fun _ s' => exists l', free_pages s' l' /\
    (forall v, v ∈ l' <-> v ∈ l \/ tpage (mem s) pgdir v \/ uframe (mem s) pgdir v) /\
    same_regs s s' /\
    (forall a, (forall v, tpage (mem s) pgdir v \/ uframe (mem s) pgdir v -> ~ in_page v a) ->
       load8 (mem s') a = load8 (mem s) a)).
Proof. apply freevm_spec. Qed.
End Theorems.

(** ** Instances *)

Lemma copyuvm_copies_witness :
  wp (copyuvm Demo.pgdir 8192) (Demo.state0 Demo.present1 0) (fun r s' =>
    match r with
    | None => undone (Demo.state0 Demo.present1 0) s' Demo.free0
    | Some d => exists l', as_inv s' d l'
    end).
Proof.
  eapply wp_mono.
  - apply (copyuvm_copies (Demo.state0 Demo.present1 0) Demo.pgdir 8192 Demo.free0 (Demo.as_inv0 Demo.present1 0 (or_introl eq_refl))); [closed|].
    intros vpn Hv. change ((8192 + 4095) / 4096) with 2 in Hv. cbn [mem Demo.state0].
    rewrite Demo.pte0 by (unfold vpn_ok; lia). repeat case_decide; [done|done|lia].
  - intros [d|] s'; cbn beta iota; [|done]. intros (l' & Hi & _). by exists l'.
Defined.

Lemma setupkvm_direct_map_witness :
  exists r s', setupkvm (Demo.state0 Demo.present1 0) = Ok r s'.
Proof.
  destruct (wp_inv _ _ _ (setupkvm_direct_map (Demo.state0 Demo.present1 0) Demo.free0
    (vi_free _ _ _ (ai_vm _ _ _ (Demo.as_inv0 Demo.present1 0 (or_introl eq_refl)))))) as (r & s' & E & _). by exists r, s'.
Defined.

Lemma allocuvm_grows_witness :
  wp (allocuvm Demo.pgdir 8192 16384) (Demo.state0 Demo.present1 0) (fun r s' =>
    r = 16384 /\ (exists l', extends (Demo.state0 Demo.present1 0) s' Demo.pgdir Demo.free0 l' [] 2 4 uperm zeroed) \/
    r = 0 /\ restored (Demo.state0 Demo.present1 0) s' Demo.pgdir Demo.free0 [] 2 4).
Proof.
  apply (allocuvm_grows (Demo.state0 Demo.present1 0) Demo.pgdir Demo.free0 8192 16384 (Demo.as_inv0 Demo.present1 0 (or_introl eq_refl))); [closed|].
  intros vpn Hv. cbn [mem Demo.state0]. rewrite Demo.pte0 by (unfold vpn_ok; dlia).
  repeat case_decide; [dlia|dlia|done].
Defined.

Lemma deallocuvm_frees_witness :
  wp (deallocuvm Demo.pgdir 8192 4096) (Demo.state0 Demo.present1 0) (fun r s' => r = 4096 /\ exists l',
    shrinks (Demo.state0 Demo.present1 0) s' Demo.pgdir Demo.free0 l' 1 2).
Proof.
  apply (deallocuvm_frees (Demo.state0 Demo.present1 0) Demo.pgdir Demo.free0 8192 4096 (Demo.as_inv0 Demo.present1 0 (or_introl eq_refl))); closed.
Defined.

Lemma freevm_frees_all_witness :
  wp (freevm Demo.pgdir) (Demo.state0 Demo.present1 0) (fun _ s' => exists l', free_pages s' l' /\ Demo.frame1 ∈ l').
Proof.
  eapply wp_mono; [apply (freevm_frees_all (Demo.state0 Demo.present1 0) Demo.pgdir Demo.free0 (Demo.as_inv0 Demo.present1 0 (or_introl eq_refl)))|].
  intros [] s' (l' & Hf & Hl & _). exists l'. split; [done|]. apply Hl. right. right. exists 1.
  split; [unfold user_vpn; lia|]. cbn [mem Demo.state0]. rewrite Demo.pte0 by closed. done.
Defined.
