(* ===== verification/EncryptTheorems.v ===== *)
(** * What page encryption guarantees a process

    Theorems about [mencrypt], [mdecrypt] and the clock for the running
    process, and their instances on the machine of Demo. *)

From S2P Require Import Prelude Memory Mmu Machine Spinlock Kalloc Vm PageTable VmProofs VmSpaces.
From S2P Require Import Encrypt ProcTable Clock ClockProofs Demo.

Section Theorems.
Context `{KI : KernelImage, PO : !PageOps, PA : !PageAllocator} {F : Type}.
Implicit Types k : kstate F.

(** The logical contents of all pages of a process agree. *)
Definition same_contents (m m' : memory) (pd : Z) : Prop :=
  forall v j, user_vpn v -> mapped (pte_at m pd v) = true -> 0 <= j < 4096 ->
    lbyte m' pd v j = lbyte m pd v j.

(** ** mencrypt *)

(** C5: On a range of pages in the user half whose page tables exist (for
    others the code dereferences a null entry), [mencrypt] does not change
    what a process means to have in its memory: the logical bytes of all its
    pages stay the same, and memory outside its address space is not
    touched. *)
Theorem mencrypt_transparent k p q l va len :
  pinv k p q l -> is_u32 va -> va / 4096 + Z.max 0 len <= 524288 ->
  has_tables (mem (mach k)) (pgdir q) (va / 4096) len ->
  wp (mencrypt va len) k (fun r k' =>
    let m := mem (mach k) in let m' := mem (mach k') in
    pinv k' p q l /\ procs k' = procs k /\ same_contents m m' (pgdir q) /\
    forall a, (forall v, tpage m (pgdir q) v \/ uframe m (pgdir q) v -> ~ in_page v a) ->
      load8 m' a = load8 m a).
Proof.
  intros Hi Hva Hn Ht. eapply wp_mono; [by apply (mencrypt_spec k p q l)|].
  cbv zeta. intros r k' (_ & Hp & Hi' & [(_ & _ & R)|(_ & _ & Hm)]).
  - split; [done|]. split; [done|]. split; [|apply (rc_mem R)]. intros v j Hv Hmv Hj. by apply (rc_bytes R).
  - split; [done|]. split; [done|]. by rewrite Hm.
Qed.

(** C3: All or nothing, on a range of pages in the user half whose page tables
    exist (for others the code dereferences a null entry): when [mencrypt]
    returns 0, every user page of the range is encrypted, not present and not
    accessed, and every other entry is as before; when it returns -1, memory is
    unchanged, and some user page of the range has no translation. *)
Theorem mencrypt_all_or_nothing k p q l va len :
  pinv k p q l -> is_u32 va -> va / 4096 + Z.max 0 len <= 524288 ->
  has_tables (mem (mach k)) (pgdir q) (va / 4096) len ->
  wp (mencrypt va len) k (fun r k' =>
    let m := mem (mach k) in let m' := mem (mach k') in let lo := va / 4096 in
    r = 0 /\ (forall v, vpn_ok v ->
      let w := pte_at m (pgdir q) v in let w' := pte_at m' (pgdir q) v in
      if bool_decide (lo <= v < lo + len) && flag w PTE_U
      then flag w' PTE_E = true /\ flag w' PTE_P = false /\ (flag w PTE_E = false -> flag w' PTE_A = false)
      else w' = w) \/
    r = -1 /\ m' = m /\ exists v, lo <= v < lo + len /\ untranslated k q v).
Proof.
  intros Hi Hva Hn Ht. eapply wp_mono; [by apply (mencrypt_spec k p q l)|].
  cbv zeta. intros r k' (_ & Hp & Hi' & [(-> & Hb & R)|(-> & Hb & Hm)]); [left|right]; [|done].
  split; [done|]. intros v Hv. rewrite (rc_pte R) by done. unfold encrypted, encrypts.
  set (w := pte_at (mem (mach k)) (pgdir q) v).
  destruct (bool_decide_reflect (va / 4096 <= v < va / 4096 + len)) as [Hr|]; cbn [andb]; [|done].
  destruct (flag w PTE_U) eqn:HU; cbn [andb]; [|done].
  destruct (flag w PTE_E) eqn:HE; cbn [negb].
  - split; [done|]. split; [|done]. assert (user_vpn v) as Hu.
    { unfold user_vpn. assert (0 <= va / 4096) by (consts; dlia). lia. }
    pose proof (pi_enc Hi v Hu) as Hok. fold w in Hok. destruct (Hok HU) as [-> _]; [|by rewrite HE].
    unfold mapped. rewrite flag_lor, HE. apply orb_true_r.
  - destruct (enc_entry_flags w) as (? & ? & ? & _). done.
Qed.

(** ** mdecrypt *)

(** Entering the clock does not touch pages that are not in it. *)
Lemma entered_entry_other k m q v :
  clock_inv k q -> ~ in_clock q v -> entered_entry m q v = pte_at m (pgdir q) v.
Proof.
  intros Hc Hn. unfold entered_entry, CLOCKSIZE. destruct (Z.ltb_spec (inClock q) 8); [done|].
  pose proof (ci_count _ _ Hc) as Hcnt. assert (inClock q = 8) as E by lia.
  pose proof (full_of_inv _ _ Hc E) as Hf.
  assert (forall t, 0 <= t -> v <> clock_page q t) as Hne.
  { intros t Ht ->. apply Hn. exists (hand q t). split; [|done]. rewrite E. apply hand_bound; [apply Hf|done]. }
  assert (forall t, 0 <= t -> sweep_entry m q 0 t v = pte_at m (pgdir q) v) as Hs.
  { intros t Ht. unfold sweep_entry. rewrite decide_False; [done|].
    intros (j & Hj & ->)%elem_of_swept. by apply (Hne j); [lia|]. }
  unfold clock_entry. destruct (second_chance m q) as [t|] eqn:Et.
  - apply first_clear_Some in Et as [Ht _]. unfold evict_entry.
    rewrite decide_False by (apply Hne; lia). apply Hs. lia.
  - rewrite decide_False by (apply Hne; lia). apply Hs. lia.
Qed.

(** C2: Decryption on demand is transparent: when a process touches an
    encrypted page of its own whose first stored byte is not 0 and which its
    (well-formed) clock does not hold, [mdecrypt] returns 0, the page is
    present and decrypted, the logical bytes of all pages of the process stay
    the same (those of a page that is thrown out of the clock included), the
    page is in the clock, and the clock stays within [CLOCKSIZE]. *)
Theorem mdecrypt_transparent k p q l va :
  pinv k p q l -> clock_inv k q ->
  let m := mem (mach k) in let vpn := va / 4096 in let w := pte_at m (pgdir q) vpn in
  user_vpn vpn -> flag w PTE_E = true -> flag w PTE_U = true ->
  pde_present m (pgdir q) (vpn / 1024) = true ->
  load8 m (PTE_ADDR w) <> 0 -> ~ in_clock q vpn ->
  wp (mdecrypt va) k (fun r k' => r = 0 /\ exists q',
    let m' := mem (mach k') in
    procs k' = <[p := q']> (procs k) /\ pinv k' p q' l /\ clock_inv k' q' /\
    in_clock q' vpn /\ inClock q' <= CLOCKSIZE /\
    flag (pte_at m' (pgdir q) vpn) PTE_P = true /\ flag (pte_at m' (pgdir q) vpn) PTE_E = false /\
    same_contents m m' (pgdir q)).
Proof.
  intros Hi Hc m vpn w Hu HE HU Hp Hb Hn. eapply wp_mono; [by apply (mdecrypt_spec k p q l va)|].
  cbv zeta. fold m. fold vpn. fold w. rewrite HE, HU. cbn [negb andb].
  destruct (Z.eqb_spec (load8 m (PTE_ADDR w)) 0); [done|].
  intros r k' (_ & -> & m1 & D & Hps & Hi' & R). split; [done|].
  exists (entered m1 q (4096 * vpn)). split; [done|]. split; [done|].
  destruct (clock_inv_entered k k' m1 q (4096 * vpn)) as [Hc' Hin]; rewrite ?page_vpn; try done.
  { unfold user_vpn in Hu. consts. lia. }
  { intros d Hd. apply (rc_pde R d Hd). }
  rewrite page_vpn in Hin. split; [done|]. split; [done|]. split; [apply (ci_count _ _ Hc')|].
  pose proof (user_vpn_ok _ Hu) as Hv.
  rewrite (rc_pte R), (entered_entry_other k), (rc_pte D), decide_True by done.
  destruct (dec_entry_flags w) as (H1 & H2 & _). split; [done|]. split; [done|].
  intros v j Hv' Hmv Hj. by apply (rc_bytes R).
Qed.

(** [mdecrypt] refuses a page that is not encrypted or not the user's: it
    returns -1 and changes neither memory nor the clock. *)
Theorem mdecrypt_rejects k p q l va :
  pinv k p q l -> clock_inv k q ->
  let m := mem (mach k) in let vpn := va / 4096 in let w := pte_at m (pgdir q) vpn in
  user_vpn vpn -> pde_present m (pgdir q) (vpn / 1024) = true ->
  flag w PTE_E = false \/ flag w PTE_U = false ->
  wp (mdecrypt va) k (fun r k' => r = -1 /\ mem (mach k') = m /\ procs k' = procs k).
Proof.
  intros Hi Hc m vpn w Hu Hp HEU. eapply wp_mono; [by apply (mdecrypt_spec k p q l va)|].
  cbv zeta. fold m. fold vpn. fold w.
  assert (flag w PTE_E && flag w PTE_U = false) as -> by (destruct HEU as [-> | ->]; auto using andb_false_r).
  cbn [negb]. intros r k' (_ & -> & Hps & Hm & _). done.
Qed.

(** The logical byte of an entry and a stored byte. *)
Lemma lbyte_decode m pd v j : lbyte m pd v j = decode (pte_at m pd v) (load8 m (PTE_ADDR (pte_at m pd v) + j)).
Proof. done. Qed.

(** C36: A page of a process whose first stored byte is 0 (whose first byte
    was 0xFF before it was encrypted) is corrupted by [mdecrypt]: it returns
    -1, after it has already marked the page present and not encrypted, and
    every logical byte of the page is complemented. *)
Theorem mdecrypt_zero_byte k p q l va :
  pinv k p q l -> clock_inv k q ->
  let m := mem (mach k) in let vpn := va / 4096 in let w := pte_at m (pgdir q) vpn in
  user_vpn vpn -> flag w PTE_E = true -> flag w PTE_U = true ->
  pde_present m (pgdir q) (vpn / 1024) = true -> load8 m (PTE_ADDR w) = 0 ->
  wp (mdecrypt va) k (fun r k' => let m' := mem (mach k') in r = -1 /\
    flag (pte_at m' (pgdir q) vpn) PTE_P = true /\ flag (pte_at m' (pgdir q) vpn) PTE_E = false /\
    forall j, 0 <= j < 4096 ->
      lbyte m' (pgdir q) vpn j = Z.lxor (lbyte m (pgdir q) vpn j) 0xFF).
Proof.
  intros Hi Hc m vpn w Hu HE HU Hp Hb. eapply wp_mono; [by apply (mdecrypt_spec k p q l va)|].
  cbv zeta. fold m. fold vpn. fold w. rewrite HE, HU. cbn [negb andb]. rewrite Hb. cbn [Z.eqb].
  intros r k' (_ & -> & _ & s1 & s' & T & Hm1 & Hm'). split; [done|]. rewrite Hm'.
  rewrite (touches_entry _ _ _ _ _ _ _ T Hu).
  split; [unfold clear_E; by flags|]. split; [unfold clear_E; by flags|].
  intros j Hj. rewrite !lbyte_decode, (touches_entry _ _ _ _ _ _ _ T Hu). fold w.
  destruct (clear_E_reflags w (pte_u32 _ _ _) HE) as (_ & _ & ->).
  rewrite (to_mem T).
  - unfold decode. rewrite HE. replace (flag (clear_E w) PTE_E) with false by (unfold clear_E; by flags).
    by rewrite lxor_twice.
  - rewrite Hm1. intros v Ht. eapply (frame_not_table (mach k)); [apply (pi_as Hi)|done| |done|done].
    unfold mapped. fold m. fold w. rewrite flag_lor, HE. apply orb_true_r.
Qed.

(** C1: Encrypting a present user page whose first byte is not 0xFF (so that
    the first stored byte is not 0 afterwards) and which the process's
    well-formed clock does not hold (a full clock could choose that very page
    as its victim), and decrypting it again, restores its stored bytes; the
    page is present and not encrypted, in the same frame. *)
Theorem mencrypt_mdecrypt k p q l va :
  pinv k p q l -> clock_inv k q -> is_u32 va ->
  let m := mem (mach k) in let vpn := va / 4096 in let w := pte_at m (pgdir q) vpn in
  user_vpn vpn -> flag w PTE_P = true -> flag w PTE_U = true ->
  load8 m (PTE_ADDR w) <> 0xFF -> ~ in_clock q vpn ->
  wp (_ ← mencrypt va 1; mdecrypt va) k (fun r k' => let m' := mem (mach k') in r = 0 /\
    flag (pte_at m' (pgdir q) vpn) PTE_P = true /\ flag (pte_at m' (pgdir q) vpn) PTE_E = false /\
    PTE_ADDR (pte_at m' (pgdir q) vpn) = PTE_ADDR w /\
    forall j, 0 <= j < 4096 -> load8 m' (PTE_ADDR w + j) = load8 m (PTE_ADDR w + j)).
Proof.
  intros Hi Hc Hva m vpn w Hu HP HU Hb Hn. pose proof (user_vpn_ok _ Hu) as Hv.
  assert (mapped w = true) as Hm by (by apply present_mapped).
  assert (flag w PTE_E = false) as HE.
  { destruct (pi_enc Hi vpn Hu HU Hm) as [E _]. fold m w in E. rewrite HP in E. by destruct (flag w PTE_E). }
  wstep. eapply wp_mono; [apply (mencrypt_spec k p q l va 1); [done|done| |]|].
  { fold vpn. unfold user_vpn in Hu. lia. }
  { intros v Hr. fold vpn in Hr. replace v with vpn by lia. by apply pte_present_dir. }
  cbv zeta. fold vpn. fold m. intros r1 k1 (_ & Hps1 & Hi1 & Hcase).
  assert (recrypted m (mem (mach k1)) (pgdir q) (encrypted m (pgdir q) vpn 1)) as R1.
  { destruct Hcase as [(_ & _ & R)|(_ & (v & Hr & _ & Hbm) & _)]; [done|].
    replace v with vpn in Hbm by lia. fold m w in Hbm. congruence. }
  assert (pte_at (mem (mach k1)) (pgdir q) vpn = enc_entry w) as E1.
  { rewrite (rc_pte R1) by done. unfold encrypted, encrypts. fold w. rewrite HU, HE.
    rewrite bool_decide_true by lia. done. }
  destruct (enc_entry_flags w) as (F1 & F2 & _ & F4 & _).
  destruct (enc_entry_reflags w (pte_u32 _ _ _) Hm) as (_ & _ & FA).
  assert (clock_inv k1 q) as Hc1.
  { apply (clock_inv_mem k); [done|]. intros d Hd. apply (rc_pde R1 d Hd). }
  assert (forall j, 0 <= j < 4096 ->
    Z.lxor (load8 (mem (mach k1)) (PTE_ADDR w + j)) 0xFF = load8 m (PTE_ADDR w + j)) as B1.
  { intros j Hj. pose proof (rc_bytes R1 vpn j Hu Hm Hj) as B. rewrite !lbyte_decode, E1, FA in B.
    unfold decode in B. fold w in B. by rewrite F1, HE in B. }
  eapply wp_mono; [apply (mdecrypt_spec k1 p q l va Hi1 Hc1 Hu)|].
  { fold vpn. destruct (rc_pde R1 _ (vpn_dir _ Hv)) as [-> _]. by apply pte_present_dir. }
  cbv zeta. fold vpn. rewrite E1, F1, F4, HU, FA. cbn [negb andb].
  destruct (Z.eqb_spec (load8 (mem (mach k1)) (PTE_ADDR w)) 0) as [E0|_].
  { exfalso. apply Hb. rewrite <- (Z.add_0_r (PTE_ADDR w)), <- B1, Z.add_0_r, E0 by lia. done. }
  intros r k' (_ & -> & m1 & D & _ & _ & R). split; [done|].
  assert (pte_at (mem (mach k')) (pgdir q) vpn = dec_entry (enc_entry w)) as E2.
  { rewrite (rc_pte R), (entered_entry_other k), (rc_pte D), decide_True, E1 by done. done. }
  rewrite E2. destruct (dec_entry_flags (enc_entry w)) as (G1 & G2 & _).
  destruct (dec_entry_reflags (enc_entry w)) as (_ & _ & GA); [|done|].
  { rewrite <- E1. apply pte_u32. }
  rewrite GA, FA. split; [done|]. split; [done|]. split; [done|]. intros j Hj.
  assert (mapped (pte_at (mem (mach k1)) (pgdir q) vpn) = true) as Hm1.
  { rewrite E1. unfold mapped. rewrite flag_lor, F1. apply orb_true_r. }
  pose proof (rc_bytes R vpn j Hu Hm1 Hj) as B. rewrite !lbyte_decode, E2, E1, GA, FA in B.
  unfold decode in B. rewrite G1, F1 in B. by rewrite B, B1.
Qed.

(** ** The clock *)

Lemma first_clear_None ref i n :
  first_clear ref i n = None -> forall j, i <= j < i + Z.of_nat n -> ref j = true.
Proof.
  revert i. induction n as [|n IH]; intros i; cbn [first_clear]; [lia|].
  destruct (ref i) eqn:E; [|done]. intros H j Hj.
  destruct (decide (j = i)) as [->|]; [done|]. apply (IH (i + 1) H). lia.
Qed.

Lemma victim_entry_flags w :
  flag w PTE_A = false ->
  flag (victim_entry w) PTE_A = false /\
  (flag w PTE_U = true -> mapped w = true -> enc_ok w ->
   flag (victim_entry w) PTE_E = true /\ flag (victim_entry w) PTE_P = false).
Proof.
  intros HA. unfold victim_entry, encrypts. destruct (enc_entry_flags w) as (H1 & H2 & H3 & _).
  split; [by destruct (_ && _ && _)|]. intros HU Hm Hok. rewrite HU, Hm. cbn [andb].
  destruct (flag w PTE_E) eqn:HE; cbn [negb andb]; [|done]. destruct (Hok HU Hm) as [-> _]. by rewrite HE.
Qed.

(** The choice of the scan on a full clock: the victim is at position [t]
    from the hand, after [n] nodes have lost their accessed bit. *)
Definition chosen (m : memory) (q : proc) (t n : Z) : Prop :=
  0 <= t < CLOCKSIZE /\
  ((forall j, 0 <= j < t -> accessed m q j = true) /\ accessed m q t = false /\ n = t \/
   (forall j, 0 <= j < CLOCKSIZE -> accessed m q j = true) /\ t = 0 /\ n = CLOCKSIZE).

(** The entries of the nodes of a full clock after a page has been entered. *)
Lemma entered_entry_clock k q m :
  full_clock k q -> inClock q = CLOCKSIZE ->
  let e j := entered_entry m q (clock_page q j) in let w j := pte_at m (pgdir q) (clock_page q j) in
  exists n, let t := default 0 (second_chance m q) in chosen m q t n /\
    e t = victim_entry (if n =? CLOCKSIZE then Z.ldiff (w t) PTE_A else w t) /\
    (forall j, 0 <= j < n -> j <> t -> e j = Z.ldiff (w j) PTE_A) /\
    (forall j, n <= j < CLOCKSIZE -> j <> t -> e j = w j).
Proof.
  intros Hf E e w. subst e w. unfold entered_entry, clock_entry, chosen. cbv beta. rewrite E.
  change (CLOCKSIZE <? CLOCKSIZE) with false. cbn iota. unfold CLOCKSIZE in *.
  assert (forall i j, 0 <= i < 8 -> 0 <= j < 8 -> i <> j -> clock_page q i <> clock_page q j) as Hne.
  { intros i j Hi Hj Hij H. by apply Hij, (clock_page_inj k q). }
  destruct (second_chance m q) as [t|] eqn:Et; cbn [default id].
  - apply first_clear_Some in Et as (Ht & Hc & Hs). exists t. unfold evict_entry, sweep_entry.
    split; [by split; [|left]|]. destruct (Z.eqb_spec t 8); [lia|].
    split; [by rewrite decide_True|]. split; intros j Hj Hjt; rewrite decide_False by (apply Hne; lia).
    + rewrite decide_True; [done|]. apply elem_of_swept. by exists j.
    + rewrite decide_False; [done|]. intros (i & Hi & H)%elem_of_swept. revert H. apply Hne; lia.
  - exists 8. split; [split; [lia|right]; split; [apply (first_clear_None _ _ _ Et)|done]|].
    split; [by rewrite decide_True|]. split; intros j Hj Hjt; [|lia]. unfold sweep_entry.
    rewrite decide_False by (apply Hne; lia). rewrite decide_True; [done|]. apply elem_of_swept. by exists j.
Qed.

(** C4: The clock algorithm: entering a page into a full clock replaces the
    page at the first position from the hand whose accessed bit is clear, or
    the one at the hand when all are set.  The scan clears the accessed bits
    of the [n] nodes it passes and changes nothing else of their entries; the
    entries of the nodes it does not reach and of pages outside the clock stay
    as they are.  The page thrown out is encrypted, not present and not
    accessed, the hand moves past it, and the logical contents of the process
    stay the same. *)
Theorem clock_second_chance k p q l add :
  pinv k p q l -> clock_inv k q -> inClock q = CLOCKSIZE ->
  wp (clock_insert (pgdir q) add) k (fun _ k' =>
    let m := mem (mach k) in let m' := mem (mach k') in exists t n,
    chosen m q t n /\ procs k' = <[p := replaced q t add]> (procs k) /\
    (let w := pte_at m (pgdir q) (clock_page q t) in
     let w' := pte_at m' (pgdir q) (clock_page q t) in
     flag w' PTE_A = false /\
     (flag w PTE_U = true -> mapped w = true -> flag w' PTE_E = true /\ flag w' PTE_P = false)) /\
    (forall j, 0 <= j < n -> j <> t ->
      pte_at m' (pgdir q) (clock_page q j) = Z.ldiff (pte_at m (pgdir q) (clock_page q j)) PTE_A) /\
    (forall j, n <= j < CLOCKSIZE -> j <> t ->
      pte_at m' (pgdir q) (clock_page q j) = pte_at m (pgdir q) (clock_page q j)) /\
    (forall v, vpn_ok v -> ~ in_clock q v -> pte_at m' (pgdir q) v = pte_at m (pgdir q) v) /\
    same_contents m m' (pgdir q)).
Proof.
  intros Hi Hc E. eapply wp_mono; [by apply (clock_insert_spec k p q l add)|].
  cbv zeta. intros [] k' (_ & Hps & Hi' & R). unfold entered in Hps. rewrite E in Hps. change (CLOCKSIZE <? CLOCKSIZE) with false in Hps. cbn iota in Hps.
  assert (full_clock k q) as Hf by (by apply full_of_inv).
  assert (forall j, 0 <= j -> user_vpn (clock_page q j)) as Hu.
  { intros j Hj. destruct (fc_user _ _ Hf (hand q j)) as (_ & Hu & _); [|done].
    apply hand_bound; [apply Hf|lia]. }
  destruct (entered_entry_clock k q (mem (mach k)) Hf E) as (n & Hch & He & Hp & Hr).
  set (t := default 0 (second_chance (mem (mach k)) q)) in *. exists t, n.
  assert (0 <= t < CLOCKSIZE) as Ht by apply Hch.
  split; [done|]. split; [done|]. split; [|split; [|split; [|split]]].
  - rewrite (rc_pte R), He by (apply user_vpn_ok, Hu; lia). pose proof (pi_enc Hi _ (Hu t ltac:(lia))) as Hok.
    destruct Hch as [_ [(_ & HA & ->)|(HA & -> & ->)]].
    + destruct (Z.eqb_spec t CLOCKSIZE); [lia|]. destruct (victim_entry_flags _ HA) as [? H2]. split; auto.
    + rewrite Z.eqb_refl. set (w := pte_at _ _ _) in *.
      destruct (victim_entry_flags (Z.ldiff w PTE_A)) as [H1 H2].
      { by flags. }
      split; [done|]. intros HU Hm. unfold enc_ok, mapped in *. apply H2; flags; done.
  - intros j Hj Hjt. rewrite (rc_pte R), Hp by (done || apply user_vpn_ok, Hu; lia). done.
  - intros j Hj Hjt. rewrite (rc_pte R), Hr by (done || apply user_vpn_ok, Hu; destruct Hch; lia). done.
  - intros v Hv Hn. rewrite (rc_pte R) by done. by apply (entered_entry_other k).
  - intros v j Hv Hm Hj. by apply (rc_bytes R).
Qed.
End Theorems.

(** ** Instances *)

Section Instances.
Abbreviation present := (Demo.kernel0 Demo.present1 0x9e).
Abbreviation encrypted := (Demo.kernel0 Demo.encrypted1 0x9e).

Lemma demo_tables w c n : 0 <= n <= 1024 -> has_tables (Demo.memory0 w c) Demo.pgdir 0 n.
Proof. intros Hn v Hv. unfold pde_present. rewrite Demo.pde0 by dlia. by rewrite decide_True by dlia. Qed.

Lemma mencrypt_transparent_witness :
  wp (mencrypt 0 2) present (fun r k' =>
    same_contents (mem (mach present)) (mem (mach k')) Demo.pgdir).
Proof.
  eapply wp_mono.
  - apply (mencrypt_transparent present 0 Demo.proc0 Demo.free0 0 2
      (Demo.pinv_of _ _ (or_introl eq_refl) _ _)); [closed|closed|by apply demo_tables].
  - cbv zeta. by intros r k' (_ & _ & H & _).
Defined.

Lemma mencrypt_all_or_nothing_witness : exists r k', mencrypt 0 2 present = Ok r k'.
Proof.
  destruct (wp_inv _ _ _ (mencrypt_all_or_nothing present 0 Demo.proc0 Demo.free0 0 2
    (Demo.pinv_of _ _ (or_introl eq_refl) _ _) ltac:(closed) ltac:(closed) (demo_tables _ _ 2 ltac:(lia))))
    as (r & k' & H & _). by exists r, k'.
Defined.

Lemma demo_pte w c v : 0 <= v <= 1 ->
  pte_at (mem (mach (Demo.kernel0 w c))) (ProcTable.pgdir Demo.proc0) v = if decide (v = 0) then 0x202007 else u32 w.
Proof.
  intros Hv. change (mem (mach (Demo.kernel0 w c))) with (Demo.memory0 w c).
  change (ProcTable.pgdir Demo.proc0) with Demo.pgdir. rewrite Demo.pte0 by (unfold vpn_ok; lia).
  repeat case_decide; try done; lia.
Qed.

Lemma demo_byte w b : 0 <= b < 256 -> load8 (mem (mach (Demo.kernel0 w b))) 0x203000 = b.
Proof.
  intros Hb. change (mem (mach (Demo.kernel0 w b))) with (Demo.memory0 w b). unfold Demo.memory0.
  rewrite !load8_store32_ne by lia. unfold store32. rewrite !load8_store8_ne by lia.
  rewrite load8_store8_eq. by apply u8_small.
Qed.

Lemma demo_empty v : ~ in_clock Demo.proc0 v.
Proof. intros (j & Hj & _). cbn in Hj. lia. Qed.

Lemma mdecrypt_transparent_witness :
  wp (mdecrypt 4101) encrypted (fun r k' => r = 0 /\
    flag (pte_at (mem (mach k')) Demo.pgdir 1) PTE_P = true /\
    same_contents (mem (mach encrypted)) (mem (mach k')) Demo.pgdir).
Proof.
  eapply wp_mono.
  - apply (mdecrypt_transparent encrypted 0 Demo.proc0 Demo.free0 4101
      (Demo.pinv_of _ _ (or_intror eq_refl) _ _) (Demo.clock_inv0 _ _));
      change (4101 / 4096) with 1; rewrite ?demo_pte by lia; [closed|done|done| | |apply demo_empty].
    + apply (demo_tables _ _ 2); lia.
    + change (PTE_ADDR _) with 0x203000. by rewrite demo_byte by lia.
  - cbv zeta. intros r k' (-> & q' & _ & _ & _ & _ & _ & H1 & _ & H2). done.
Defined.

Lemma mdecrypt_rejects_witness :
  wp (mdecrypt 5) encrypted (fun r k' => r = -1 /\ mem (mach k') = mem (mach encrypted) /\
    procs k' = procs encrypted).
Proof.
  apply (mdecrypt_rejects encrypted 0 Demo.proc0 Demo.free0 5
    (Demo.pinv_of _ _ (or_intror eq_refl) _ _) (Demo.clock_inv0 _ _)); change (5 / 4096) with 0.
  - closed.
  - apply (demo_tables _ _ 2); lia.
  - rewrite demo_pte by lia. by left.
Defined.

Lemma mdecrypt_zero_byte_witness :
  wp (mdecrypt 4096) (Demo.kernel0 Demo.encrypted1 0) (fun r k' => r = -1 /\
    lbyte (mem (mach k')) Demo.pgdir 1 0 = 0).
Proof.
  eapply wp_mono.
  - apply (mdecrypt_zero_byte (Demo.kernel0 Demo.encrypted1 0) 0 Demo.proc0 Demo.free0 4096
      (Demo.pinv_of _ _ (or_intror eq_refl) _ _) (Demo.clock_inv0 _ _));
      change (4096 / 4096) with 1; rewrite ?demo_pte by lia; [closed|done|done| |].
    + apply (demo_tables _ _ 2); lia.
    + change (PTE_ADDR _) with 0x203000. by rewrite demo_byte by lia.
  - cbv zeta. change (4096 / 4096) with 1. intros r k' (-> & _ & _ & H). split; [done|].
    change Demo.pgdir with (ProcTable.pgdir Demo.proc0). rewrite (H 0) by lia. unfold lbyte.
    rewrite demo_pte by lia.
    change (PTE_ADDR _ + 0) with 0x203000. by rewrite demo_byte by lia.
Defined.

Lemma mencrypt_mdecrypt_witness :
  wp (_ ← mencrypt 4096 1; mdecrypt 4096) present (fun r k' => r = 0 /\
    flag (pte_at (mem (mach k')) Demo.pgdir 1) PTE_P = true).
Proof.
  eapply wp_mono.
  - apply (mencrypt_mdecrypt present 0 Demo.proc0 Demo.free0 4096
      (Demo.pinv_of _ _ (or_introl eq_refl) _ _) (Demo.clock_inv0 _ _));
      change (4096 / 4096) with 1; rewrite ?demo_pte by lia; [closed|closed|done|done| |apply demo_empty].
    change (PTE_ADDR _) with 0x203000. by rewrite demo_byte by lia.
  - cbv zeta. intros r k' (-> & H & _). done.
Defined.

Lemma clock_second_chance_witness :
  wp (clock_insert Demo.pgdir 32768) (Demo.kernel8 Demo.present1 0) (fun _ k' => exists t,
    0 <= t < 8 /\ procs k' = [replaced Demo.proc8 t 32768]).
Proof.
  eapply wp_mono.
  - apply (clock_second_chance (Demo.kernel8 Demo.present1 0) 0 Demo.proc8 Demo.free0 32768
      (Demo.pinv_of _ _ (or_introl eq_refl) _ _) (Demo.clock_inv8 _ _) eq_refl).
  - cbv zeta. intros [] k' (t & n & [Ht _] & Hp & _). by exists t.
Defined.
End Instances.
