(* ===== verification/UserMem.v ===== *)
(** * User memory as the kernel sees it

    The memory of a process is a function from addresses to bytes, whatever
    pages of it are encrypted at the moment: an access of the kernel to a page
    that is not present traps, [mdecrypt] makes it present and may encrypt
    another page, and the access is repeated.  The predicate [user] says that
    the process has the memory [g]; loads and stores through [uload8] and
    [ustore8] always end, read and update [g], and keep everything else. *)

From S2P Require Import Prelude Memory Mmu Machine Spinlock Kalloc Vm PageTable VmProofs VmSpaces.
From S2P Require Import Encrypt ProcTable Clock ClockProofs Demo VmTheorems EncryptTheorems.

(** An entry whose page the kernel can read and write: present, or encrypted
    and the user's. *)
Definition usable (w : Z) : bool :=
  flag w PTE_W && (if flag w PTE_E then flag w PTE_U && negb (flag w PTE_P) else flag w PTE_P).

Lemma usable_mapped w : usable w = true -> mapped w = true.
Proof. unfold usable, mapped. rewrite flag_lor. by destruct (flag w PTE_W), (flag w PTE_E), (flag w PTE_P), (flag w PTE_U). Qed.

(** What the accesses and the clock do to an entry keeps it usable. *)
Lemma usable_lor w f : (f = PTE_A \/ f = Z.lor PTE_A PTE_D) -> usable (Z.lor w f) = usable w.
Proof. unfold usable. intros [-> | ->]; flags; done. Qed.

Lemma usable_swept w : usable (Z.ldiff w PTE_A) = usable w.
Proof. unfold usable. flags. done. Qed.

Lemma usable_victim w : enc_ok w -> usable (victim_entry w) = usable w.
Proof.
  intros Hok. unfold victim_entry, encrypts. destruct (flag w PTE_U) eqn:EU, (flag w PTE_E) eqn:EE, (mapped w) eqn:Em; try done.
  cbn [negb andb]. unfold usable. destruct (enc_entry_flags w) as (-> & -> & _ & -> & ->), (Hok EU Em) as [-> ->].
  by rewrite EE, EU.
Qed.

Lemma usable_dec w : enc_ok w -> flag w PTE_E = true -> flag w PTE_U = true -> usable (dec_entry w) = usable w.
Proof.
  intros Hok EE EU. assert (mapped w = true) as Em by (unfold mapped; rewrite flag_lor, EE; apply orb_true_r).
  unfold usable. destruct (dec_entry_flags w) as (-> & -> & _ & _ & ->), (Hok EU Em) as [-> ->]. by rewrite EE, EU.
Qed.

Lemma usable_entered m q v :
  (forall x, user_vpn x -> enc_ok (pte_at m (pgdir q) x)) -> user_vpn v ->
  usable (entered_entry m q v) = usable (pte_at m (pgdir q) v).
Proof.
  intros Hok Hv. pose proof (Hok v Hv) as Hw.
  assert (forall i t, usable (sweep_entry m q i t v) = usable (pte_at m (pgdir q) v)) as Hs.
  { intros i t. unfold sweep_entry. case_decide; [apply usable_swept|done]. }
  assert (enc_ok (Z.ldiff (pte_at m (pgdir q) v) PTE_A)) as Hl.
  { unfold enc_ok, mapped in *. flags. done. }
  unfold entered_entry, clock_entry, evict_entry. case_match; [done|].
  destruct (second_chance m q); case_decide; try apply Hs; rewrite usable_victim; try done; apply usable_swept.
Qed.

Section Fresh.
Context `{KI : KernelImage, PO : !PageOps, PA : !PageAllocator} {F : Type}.
Implicit Types k : kstate F.

(** No page of the clock is encrypted. *)
Definition fresh k (q : proc) : Prop :=
  forall v, user_vpn v -> flag (pte_at (mem (mach k)) (pgdir q) v) PTE_E = true -> ~ in_clock q v.

(** What is in the clock after a page has been entered: the page, and what
    was there, the page thrown out excepted. *)
Lemma in_clock_entered k m q a v :
  clock_inv k q -> in_clock (entered m q a) v ->
  v = a / 4096 \/ in_clock q v /\ (inClock q = 8 -> v <> clock_page q (default 0 (second_chance m q))).
Proof.
  intros Hc (j & Hj & <-). pose proof (ci_len _ _ Hc) as Hl. pose proof (ci_count _ _ Hc) as Hn.
  pose proof (second_chance_bound m q) as Ht.
  unfold entered, CLOCKSIZE in *. destruct (Z.ltb_spec (inClock q) 8) as [Hlt|Hge].
  - cbn [inClock set_inClock set_currInd set_nodes] in Hj.
    rewrite (node_insert q _ (inClock q) a j) by (done || lia). case_decide; [by left|]. right. split; [|lia]. exists j. split; [lia|done].
  - assert (inClock q = 8) as E by lia. pose proof (full_of_inv _ _ Hc E) as Hf.
    set (t := default 0 (second_chance m q)) in *. pose proof (hand_bound q t (fc_hand _ _ Hf) ltac:(lia)) as Hh.
    change (inClock (replaced q t a)) with (inClock q) in Hj.
    rewrite (node_insert q _ (hand q t) a j) by (done || lia). case_decide as Ej; [by left|]. right. split; [by exists j|].
    intros _ Ep. apply Ej, (fc_inj _ _ Hf); [lia|lia|]. exact Ep.
Qed.

Lemma entry_E_sweep m q i t v : flag (sweep_entry m q i t v) PTE_E = flag (pte_at m (pgdir q) v) PTE_E.
Proof. unfold sweep_entry. case_decide; [|done]. by flags. Qed.

Lemma entry_E_entered k m q v :
  clock_inv k q -> (inClock q = 8 -> v <> clock_page q (default 0 (second_chance m q))) ->
  flag (entered_entry m q v) PTE_E = flag (pte_at m (pgdir q) v) PTE_E.
Proof.
  intros Hc Hne. pose proof (ci_count _ _ Hc). unfold entered_entry, clock_entry, evict_entry, CLOCKSIZE.
  destruct (Z.ltb_spec (inClock q) 8); [done|]. specialize (Hne ltac:(lia)).
  destruct (second_chance m q); cbn in Hne; rewrite decide_False by done; apply entry_E_sweep.
Qed.

(** [mdecrypt] keeps the clock free of encrypted pages. *)
Lemma fresh_entered k k' m1 q vpn :
  clock_inv k q -> fresh k q -> user_vpn vpn -> decrypted (mem (mach k)) m1 q vpn ->
  recrypted (mem (mach k)) (mem (mach k')) (pgdir q) (entered_entry m1 q) -> ~ in_clock q vpn ->
  fresh k' (entered m1 q (4096 * vpn)).
Proof.
  intros Hc Hf Hu D R Hn v Hv. replace (pgdir (entered m1 q (4096 * vpn))) with (pgdir q).
  2:{ unfold entered. by case_match. }
  rewrite (rc_pte R) by (by apply user_vpn_ok). intros HE Hin.
  destruct (dec_entry_flags (pte_at (mem (mach k)) (pgdir q) vpn)) as (HdE & _).
  apply (in_clock_entered k) in Hin as [->|[Hin Hne]]; [| |done].
  - rewrite page_vpn in *. rewrite (entered_entry_other k), (rc_pte D), decide_True in HE by (done || by apply user_vpn_ok). congruence.
  - rewrite (entry_E_entered k) in HE by done. rewrite (rc_pte D) in HE by (by apply user_vpn_ok).
    case_decide; [congruence|]. by apply (Hf v Hv HE).
Qed.
End Fresh.

(** ** The memory of a process *)

Section User.
Context `{KI : KernelImage, PO : !PageOps, PA : !PageAllocator} {F : Type}.
Implicit Types (k : kstate F) (g : Z -> Z).

(** A process without its clock. *)
Definition clockless (q : proc) : proc := set_nodes [] (set_inClock 0 (set_currInd 0 q)).

(** The process [p], with the fields of [q0]; the pages that are [dom] are
    usable; the address space consists of the pages [own], and the free list
    is [l]. *)
Context (p : nat) (q0 : proc) (l : list Z) (dom : Z -> bool) (own : Z -> Prop).
Abbreviation pd := (pgdir q0).
Abbreviation m k := (mem (mach k)).

Definition uaddr (va : Z) : Prop := user_vpn (va / 4096) /\ dom (va / 4096) = true.

(** The process has the memory [g].  No page begins with the byte 0xFF:
    [mdecrypt] could not decrypt it. *)
Record user k g : Prop := {
  us_proc : exists q, clockless q = clockless q0 /\ pinv k p q l /\ clock_inv k q /\ fresh k q;
  us_dom v : user_vpn v -> usable (pte_at (m k) pd v) = dom v;
  us_own v : tpage (m k) pd v \/ uframe (m k) pd v <-> own v;
  us_byte v j : user_vpn v -> dom v = true -> 0 <= j < 4096 -> lbyte (m k) pd v j = g (4096 * v + j);
  us_first v : user_vpn v -> dom v = true -> g (4096 * v) <> 0xFF;
}.

(** What an access keeps: all but the address space and the clock. *)
Record ukeep k k' : Prop := {
  uk_frame : kframe k k';
  uk_procs i : clockless <$> procs k' !! i = clockless <$> procs k !! i;
  uk_others i : i <> p -> procs k' !! i = procs k !! i;
  uk_mem a : (forall v, own v -> ~ in_page v a) -> load8 (m k') a = load8 (m k) a;
}.

#[export] Instance ukeep_preorder : PreOrder ukeep.
Proof.
  split; [by split|]. intros k1 k2 k3 [A1 A2 A3 A4] [B1 B2 B3 B4]. split.
  - by eapply kframe_trans.
  - intros i. by rewrite B2.
  - intros i Hi. by rewrite B3, A3.
  - intros a Ha. by rewrite B4, A4.
Qed.

Lemma clockless_pgdir q q' : clockless q = clockless q' -> pgdir q = pgdir q'.
Proof. intros [= ]. done. Qed.

(** A step that keeps the logical contents. *)
Lemma user_recrypted k k' g q q' G :
  user k g -> clockless q = clockless q0 -> procs k !! p = Some q ->
  kframe k k' -> procs k' = <[p := q']> (procs k) -> clockless q' = clockless q ->
  pinv k' p q' l -> clock_inv k' q' -> fresh k' q' ->
  recrypted (m k) (m k') pd G -> (forall v, user_vpn v -> usable (G v) = usable (pte_at (m k) pd v)) ->
  user k' g /\ ukeep k k'.
Proof.
  intros U Eq Hq Hf Hp Ec Hi Hc Hfr R HG. split; split.
  - exists q'. by rewrite Ec.
  - intros v Hv. rewrite (rc_pte R), HG by (done || by apply user_vpn_ok). by apply U.
  - intros v. rewrite (recrypted_owned _ _ _ _ _ R). apply U.
  - intros v j Hv Hd Hj. rewrite (rc_bytes R) by (try apply usable_mapped; try rewrite (us_dom _ _ U); done). by apply U.
  - apply U.
  - done.
  - intros i. rewrite Hp. destruct (decide (i = p)) as [->|]; [|by rewrite list_lookup_insert_ne].
    rewrite list_lookup_insert_eq by (by eapply lookup_lt_Some). rewrite Hq. cbn. by f_equal.
  - intros i Hip. rewrite Hp. by apply list_lookup_insert_ne.
  - intros a Ha. apply (rc_mem R). intros v Hv. by apply Ha, (us_own _ _ U).
Qed.

Lemma kframe_mach k s : kframe k (set_mach s k).
Proof. done. Qed.

Lemma insert_self k q : procs k !! p = Some q -> procs k = <[p := q]> (procs k).
Proof. intros H. by rewrite list_insert_id. Qed.

(** An access of the paging hardware that reads. *)
Lemma user_read k s' g va w q :
  user k g -> uaddr va -> clockless q = clockless q0 -> pinv k p q l -> clock_inv k q -> fresh k q ->
  let w0 := pte_at (m k) pd (va / 4096) in
  touches (mach k) s' pd l (va / 4096) w (load8 (m k)) -> w = Z.lor w0 PTE_A ->
  user (set_mach s' k) g /\ ukeep k (set_mach s' k).
Proof.
  intros U [Hu Hd] Eq Hi Hc Hf w0 T ->. assert (pgdir q = pd) as Epd by (by apply clockless_pgdir).
  pose proof (pi_as Hi) as Ha. rewrite Epd in Ha.
  assert (mapped w0 = true) as Hm by (apply usable_mapped; unfold w0; by rewrite (us_dom _ _ U)).
  assert (reflags w0 (Z.lor w0 PTE_A)) as Hr.
  { apply reflags_lor; [apply pte_u32|closed|]. unfold mapped. by flags. }
  pose proof (touches_flags _ _ _ _ _ _ Ha Hu T Hr ltac:(by flags)) as R.
  assert (forall v, user_vpn v -> enc_ok (if decide (v = va / 4096) then Z.lor w0 PTE_A else pte_at (m k) pd v)) as Hok.
  { intros v Hv. pose proof (pi_enc Hi v Hv) as H0. rewrite Epd in H0. case_decide; [subst v|done]. fold w0 in H0.
    unfold enc_ok, mapped in *. flags. done. }
  pose proof (rc_rec R) as R'. rewrite <- Epd in R, Hok.
  refine (user_recrypted k (set_mach s' k) g q q _ U Eq (pi_proc Hi) (kframe_mach _ _) _ eq_refl _ _ _ R' _).
  - apply (insert_self k), Hi.
  - eapply pinv_recrypts; [exact Hi|exact R|exact Hok].
  - eapply clock_inv_mem; [exact Hc|]. intros d Hdd. by apply (rc_pde (rc_rec R)).
  - intros v Hv. cbn. rewrite (rc_pte (rc_rec R)) by (by apply user_vpn_ok). case_decide; [subst|by apply Hf].
    intros HE. apply Hf; [done|]. rewrite Epd. fold w0. by flags.
  - intros v Hv. case_decide; [subst v|done]. apply usable_lor. by left.
Qed.

(** [mdecrypt] of an encrypted page of the process. *)
Lemma user_mdecrypt k g va :
  user k g -> uaddr va -> flag (pte_at (m k) pd (va / 4096)) PTE_E = true ->
  wp (mdecrypt va) k (fun r k' => r = 0 /\ user k' g /\ ukeep k k' /\
    flag (pte_at (m k') pd (va / 4096)) PTE_P = true).
Proof.
  intros U [Hu Hd] HE. destruct (us_proc _ _ U) as (q & Eq & Hi & Hc & Hf).
  assert (pgdir q = pd) as Epd by (by apply clockless_pgdir).
  pose proof (us_dom _ _ U _ Hu) as Hus. rewrite Hd in Hus. set (w := pte_at (m k) pd (va / 4096)) in *.
  assert (flag w PTE_U = true) as HU.
  { unfold usable in Hus. rewrite HE in Hus. by destruct (flag w PTE_W), (flag w PTE_U). }
  assert (~ in_clock q (va / 4096)) as Hn by (apply Hf; [done|by rewrite Epd]).
  assert (load8 (m k) (PTE_ADDR w) <> 0) as Hb.
  { intros E0. apply (us_first _ _ U _ Hu Hd). rewrite <- (Z.add_0_r (4096 * _)), <- (us_byte _ _ U) by (done || lia).
    unfold lbyte. fold w. by rewrite HE, Z.add_0_r, E0. }
  assert (pde_present (m k) pd (va / 4096 / 1024) = true) as Hp.
  { apply not_false_iff_true. intros E. unfold w, pte_at in HE. by rewrite E in HE. }
  eapply wp_mono; [apply (mdecrypt_spec k p q l va Hi Hc Hu); by rewrite Epd|].
  cbv zeta. rewrite Epd. fold w. rewrite HE, HU. cbn [negb andb]. rewrite (proj2 (Z.eqb_neq _ _)) by done.
  intros r k' (Hk & -> & m1 & D & Hps & Hi' & R). split; [done|].
  set (q' := entered m1 q (4096 * (va / 4096))) in *.
  assert (clockless q' = clockless q) as Ec by (unfold q', entered; by case_match).
  destruct (clock_inv_entered k k' m1 q (4096 * (va / 4096))) as [Hc' Hin]; rewrite ?page_vpn, ?Epd; try done.
  { unfold user_vpn in Hu. consts. lia. }
  { intros d Hdd. apply (rc_pde R d Hdd). }
  rewrite <- Epd in R. destruct (user_recrypted k k' g q q' (entered_entry m1 q) U Eq (pi_proc Hi) Hk Hps Ec Hi' Hc') as [U' K'].
  - by eapply (fresh_entered k).
  - by rewrite <- Epd.
  - intros v Hv. assert (forall x, user_vpn x -> enc_ok (pte_at m1 (pgdir q) x)) as Hok1.
    { intros x Hx. rewrite (rc_pte D) by (by apply user_vpn_ok). pose proof (pi_enc Hi x Hx) as H0.
      case_decide; [subst x|done]. rewrite Epd in *. fold w in H0 |- *. apply enc_ok_dec; try done.
      unfold mapped. rewrite flag_lor, HE. apply orb_true_r. }
    rewrite usable_entered by done. rewrite (rc_pte D) by (by apply user_vpn_ok). rewrite Epd.
    case_decide; [subst v; fold w|done]. apply usable_dec; try done. pose proof (pi_enc Hi _ Hu) as H0. by rewrite Epd in H0.
  - split; [done|]. split; [done|].
    rewrite <- Epd, (rc_pte R), (entered_entry_other k), (rc_pte D), Epd, decide_True by (done || by apply user_vpn_ok).
    fold w. by destruct (dec_entry_flags w) as (_ & -> & _).
Qed.

(** ** Accesses *)

(** An access that succeeds, and one that faults first. *)
Lemma with_fault_ok {A} (acc : M machine A) va n k (Q : A -> kstate F -> Prop) :
  wp acc (mach k) (fun a s' => Q a (set_mach s' k)) -> wp (with_fault acc va n) k Q.
Proof. unfold wp. destruct n; cbn; destruct (acc (mach k)); done. Qed.

Lemma with_fault_retry {A} (acc : M machine A) va n k (Q : A -> kstate F -> Prop) s :
  acc (mach k) = Fault s ->
  wp (mdecrypt va) k (fun r k' => r = 0 /\ wp (with_fault acc va n) k' Q) -> wp (with_fault acc va (S n)) k Q.
Proof.
  intros E H. unfold wp at 1. cbn. rewrite E. fold (wp (r ← mdecrypt va; if r =? 0 then with_fault acc va n else panic "trap") k Q).
  wstep. eapply wp_mono; [exact H|]. intros r k' [-> Hr]. done.
Qed.

(** A page that is not present faults. *)
Lemma user_absent k g va write :
  user k g -> is_u32 va -> flag (pte_at (m k) pd (va / 4096)) PTE_P = false ->
  mmu (m k) (cr3 (mach k)) va write = None.
Proof.
  intros U H32 HP. destruct (us_proc _ _ U) as (q & Eq & Hi & _). rewrite <- (clockless_pgdir _ _ Eq) in HP.
  pose proof (mmu_translate (m k) (pgdir q) va write (vi_wf _ _ _ (ai_vm _ _ _ (pi_as Hi))) H32) as H.
  cbv zeta in H. rewrite HP in H. rewrite (pi_cr3 Hi). by destruct (mmu _ _ _ _).
Qed.

(** An access that does what it has to on a present page does so on any page
    of the process. *)
Lemma with_fault_user {A} (acc : M machine A) va (Q : A -> kstate F -> Prop) k g :
  user k g -> uaddr va ->
  (flag (pte_at (m k) pd (va / 4096)) PTE_P = false -> acc (mach k) = Fault (mach k)) ->
  (forall k', user k' g -> ukeep k k' -> flag (pte_at (m k') pd (va / 4096)) PTE_P = true ->
     wp acc (mach k') (fun a s' => Q a (set_mach s' k'))) ->
  wp (with_fault acc va 2) k Q.
Proof.
  intros U Hva Hflt Hok. destruct (flag (pte_at (m k) pd (va / 4096)) PTE_P) eqn:HP.
  - apply with_fault_ok. by apply Hok.
  - eapply with_fault_retry; [by apply Hflt|]. eapply wp_mono; [apply user_mdecrypt; [exact U|done|]|].
    + destruct Hva as [Hu Hd]. pose proof (us_dom _ _ U _ Hu) as Hus. rewrite Hd in Hus. unfold usable in Hus.
      rewrite HP in Hus. destruct (flag _ PTE_E); [done|]. by rewrite andb_false_r in Hus.
    + intros r k' (-> & U' & K' & HP'). split; [done|]. apply with_fault_ok. by apply Hok.
Qed.

Lemma uaddr_u32 va : uaddr va -> is_u32 va.
Proof. unfold uaddr, user_vpn. intros [H _]. clear -H. consts. dlia. Qed.

Lemma uload8_spec k g va :
  user k g -> uaddr va -> wp (uload8 va) k (fun b k' => b = g va /\ user k' g /\ ukeep k k').
Proof.
  intros U Hva. pose proof (uaddr_u32 _ Hva) as H32. eapply with_fault_user; [exact U|done|..].
  - intros HP. unfold vload8. by rewrite (user_absent k g).
  - intros k' U' K' HP. destruct (us_proc _ _ U') as (q & Eq & Hi & Hc & Hf). pose proof (clockless_pgdir _ _ Eq) as Epd.
    pose proof (pi_as Hi) as Ha. pose proof (pi_cr3 Hi) as Hcr. rewrite Epd in Ha, Hcr.
    eapply wp_mono; [by apply (vload8_spec (mach k') pd l va); try apply Hva|]. cbv zeta. intros b s' [-> T].
    destruct (user_read k' s' g va _ q U' Hva Eq Hi Hc Hf T eq_refl) as [U2 K2]. split; [|split; [done|by etrans]].
    destruct Hva as [Hu Hd]. replace (g va) with (g (4096 * (va / 4096) + va mod 4096)) by (f_equal; dlia).
    rewrite <- (us_byte _ _ U') by (done || dlia).
    unfold lbyte. assert (flag (pte_at (m k') pd (va / 4096)) PTE_E = false) as ->; [|done].
    pose proof (us_dom _ _ U' _ Hu) as Hus. rewrite Hd in Hus. unfold usable in Hus. rewrite HP in Hus.
    destruct (flag _ PTE_E); [|done]. by rewrite !andb_false_r in Hus.
Qed.

(** ** Stores *)

Definition ustored va b g : Z -> Z := fun a => if decide (a = va) then u8 b else g a.

(** Two bytes of the process are in the same place only if their addresses
    are the same. *)
Lemma same_place k q v v' j j' :
  as_inv (mach k) q l -> user_vpn v -> user_vpn v' ->
  mapped (pte_at (m k) q v) = true -> mapped (pte_at (m k) q v') = true -> 0 <= j < 4096 -> 0 <= j' < 4096 ->
  PTE_ADDR (pte_at (m k) q v) + j = PTE_ADDR (pte_at (m k) q v') + j' -> v = v' /\ j = j'.
Proof.
  intros Ha Hv Hv' Hm Hm' Hj Hj' E. assert (v = v') as ->; [|split; [done|lia]].
  apply (ai_inj _ _ _ Ha); try done.
  destruct (ai_frame _ _ _ Ha v Hv Hm) as (H1 & _), (ai_frame _ _ _ Ha v' Hv' Hm') as (H2 & _).
  eapply Impl.in_page_disj; [done|done|apply in_frame; [apply pte_u32|exact Hj]|].
  rewrite E. apply in_frame; [apply pte_u32|done].
Qed.

Section Store.
Context (k : kstate F) (s' : machine) (g : Z -> Z) (va b w : Z) (q : proc).
Hypothesis U : user k g.
Hypothesis Hva : uaddr va.
Hypothesis Eq : clockless q = clockless q0.
Hypothesis Hi : pinv k p q l.
Hypothesis Hw : w = pte_at (m k) pd (va / 4096).
Hypothesis HE : flag w PTE_E = false.
Hypothesis T : touches (mach k) s' pd l (va / 4096) (Z.lor w (Z.lor PTE_A PTE_D))
  (fun a => if decide (a = PTE_ADDR w + va mod 4096) then u8 b else load8 (m k) a).
Abbreviation k' := (set_mach s' k).

Lemma st_as : as_inv (mach k) pd l.
Proof. rewrite <- (clockless_pgdir _ _ Eq). apply Hi. Qed.

Lemma st_pte v : user_vpn v -> exists f, (f = 0 \/ v = va / 4096 /\ f = Z.lor PTE_A PTE_D) /\
  pte_at (mem s') pd v = Z.lor (pte_at (m k) pd v) f.
Proof.
  intros Hv. rewrite (to_pte T) by (by apply user_vpn_ok). case_decide; [subst v|].
  - exists (Z.lor PTE_A PTE_D). split; [by right|by rewrite Hw].
  - exists 0. split; [by left|by rewrite Z.lor_0_r].
Qed.

(** The entries keep everything but the accessed and dirty bits. *)
Lemma st_flags v : user_vpn v -> let w := pte_at (m k) pd v in let w' := pte_at (mem s') pd v in
  usable w' = usable w /\ mapped w' = mapped w /\ PTE_ADDR w' = PTE_ADDR w /\ flag w' PTE_E = flag w PTE_E /\
  (enc_ok w -> enc_ok w').
Proof.
  intros Hv. destruct (st_pte v Hv) as (f & Hf & ->). cbv zeta.
  destruct Hf as [-> |[_ ->]]; [rewrite Z.lor_0_r; by split_and!|].
  split_and!; [apply usable_lor; by right|unfold mapped; by flags|apply PTE_ADDR_lor; closed|by flags|].
  unfold enc_ok, mapped. intros H. flags. done.
Qed.

Lemma st_byte v j :
  user_vpn v -> dom v = true -> 0 <= j < 4096 -> lbyte (mem s') pd v j = ustored va b g (4096 * v + j).
Proof.
  intros Hv Hd Hj. destruct (st_flags v Hv) as (_ & _ & HA & HEv & _). destruct Hva as [Hu Hdv].
  assert (mapped (pte_at (m k) pd v) = true) as Hm by (apply usable_mapped; by rewrite (us_dom _ _ U)).
  assert (mapped (pte_at (m k) pd (va / 4096)) = true) as Hm' by (apply usable_mapped; by rewrite (us_dom _ _ U)).
  unfold lbyte. rewrite HA, HEv, (to_mem T) by (intros x Hx; by eapply frame_not_table; [apply st_as|..]). unfold ustored.
  case_decide as E1.
  - rewrite Hw in E1. destruct (same_place k pd v (va / 4096) j (va mod 4096)) as [-> ->]; try done; [apply st_as|dlia|].
    rewrite decide_True by dlia. by rewrite <- Hw, HE.
  - rewrite decide_False; [by rewrite <- (us_byte _ _ U)|]. intros E2. apply E1. rewrite Hw, <- E2. f_equal; [|dlia]. do 2 f_equal. dlia.
Qed.

Lemma st_pinv : pinv k' p q l.
Proof.
  pose proof (clockless_pgdir _ _ Eq) as Epd. destruct (to_regs T) as (Hh & Hc & _). split.
  - apply (proj2 (running_proper _ _ Hh p p eq_refl)), Hi.
  - apply (pi_proc Hi).
  - rewrite Epd. apply (to_inv T).
  - change (cr3 s' = V2P (pgdir q)). rewrite Hc. apply (pi_cr3 Hi).
  - apply (pi_kstack Hi).
  - intros v Hv. rewrite Epd. apply (st_flags v Hv). rewrite <- Epd. by apply (pi_enc Hi).
Qed.

Lemma user_written :
  clock_inv k q -> fresh k q -> (va mod 4096 = 0 -> u8 b <> 0xFF) ->
  user k' (ustored va b g) /\ ukeep k k'.
Proof.
  intros Hc Hf Hb. pose proof (clockless_pgdir _ _ Eq) as Epd. split; split.
  - exists q. split; [done|]. split; [apply st_pinv|]. split.
    + eapply clock_inv_mem; [exact Hc|]. intros d Hd. cbn. rewrite Epd. by apply (to_pde T).
    + intros v Hv. cbn. rewrite Epd. destruct (st_flags v Hv) as (_ & _ & _ & -> & _). rewrite <- Epd. by apply Hf.
  - intros v Hv. cbn. destruct (st_flags v Hv) as (-> & _). by apply U.
  - intros v. cbn. rewrite <- (us_own _ _ U), (same_dir_tpage _ _ _ _ (to_pde T)).
    assert (uframe (mem s') pd v <-> uframe (m k) pd v) as ->; [|done]. unfold uframe, frame.
    split; intros (x & Hx & Hv); exists x; (split; [done|]); destruct (st_flags x Hx) as (_ & E1 & E2 & _).
    + by rewrite <- E1, <- E2.
    + by rewrite E1, E2.
  - intros v j Hv Hd Hj. by apply st_byte.
  - intros v Hv Hd. unfold ustored. case_decide as E; [apply Hb; rewrite <- E; dlia|by apply U].
  - done.
  - done.
  - done.
  - intros a Ha. cbn. rewrite (to_mem T) by (intros v Hv; apply Ha, (us_own _ _ U); by left).
    rewrite decide_False; [done|]. intros ->. destruct Hva as [Hu Hd].
    assert (mapped w = true) as Hm by (apply usable_mapped; by rewrite Hw, (us_dom _ _ U)).
    eapply (Ha (frame w)); [apply (us_own _ _ U); right; exists (va / 4096); by rewrite <- Hw|].
    apply in_frame; [rewrite Hw; apply pte_u32|dlia].
Qed.
End Store.

Lemma ustore8_spec k g va b :
  user k g -> uaddr va -> (va mod 4096 = 0 -> u8 b <> 0xFF) ->
  wp (ustore8 va b) k (fun _ k' => user k' (ustored va b g) /\ ukeep k k').
Proof.
  intros U Hva Hb. pose proof (uaddr_u32 _ Hva) as H32. eapply with_fault_user; [exact U|done|..].
  - intros HP. unfold vstore8. by rewrite (user_absent k g).
  - intros k' U' K' HP. destruct (us_proc _ _ U') as (q & Eq & Hi & Hc & Hf). pose proof (clockless_pgdir _ _ Eq) as Epd.
    pose proof (pi_as Hi) as Ha. pose proof (pi_cr3 Hi) as Hcr. rewrite Epd in Ha, Hcr.
    destruct (Hva) as [Hu Hd]. pose proof (us_dom _ _ U' _ Hu) as Hus. rewrite Hd in Hus. unfold usable in Hus. rewrite HP in Hus.
    apply andb_true_iff in Hus as [HW HE].
    assert (flag (pte_at (m k') pd (va / 4096)) PTE_E = false) as HE'.
    { destruct (flag _ PTE_E); [|done]. by rewrite andb_false_r in HE. }
    eapply wp_mono; [by apply (vstore8_spec (mach k') pd l va b)|]. cbv zeta. intros r s' T.
    destruct (user_written k' s' g va b _ q U' Hva Eq Hi eq_refl HE' T Hc Hf Hb) as [U2 K2]. split; [done|by etrans].
Qed.

(** ** Words *)

(** The word at [va]. *)
Definition gword g va : Z := g va + 256 * g (va + 1) + 65536 * g (va + 2) + 16777216 * g (va + 3).

Lemma uaddr_next va i : uaddr va -> 0 <= i < 4 -> u32 (va + i) = va + i.
Proof. intros [H _] Hi. apply u32_small. unfold user_vpn in H. clear -H Hi. consts. dlia. Qed.

Lemma uload32_spec k g va :
  user k g -> (forall i, 0 <= i < 4 -> uaddr (va + i)) ->
  wp (uload32 va) k (fun w k' => w = gword g va /\ user k' g /\ ukeep k k').
Proof.
  intros U Hva. pose proof (Hva 0 ltac:(lia)) as H0. rewrite Z.add_0_r in H0.
  unfold uload32. rewrite !(uaddr_next va) by (done || lia). wstep.
  eapply wp_mono; [by apply (uload8_spec k g)|]. intros b0 k0 (-> & U0 & K0). wstep.
  eapply wp_mono; [apply (uload8_spec k0 g); [done|by apply Hva]|]. intros b1 k1 (-> & U1 & K1). wstep.
  eapply wp_mono; [apply (uload8_spec k1 g); [done|by apply Hva]|]. intros b2 k2 (-> & U2 & K2). wstep.
  eapply wp_mono; [apply (uload8_spec k2 g); [done|by apply Hva]|]. intros b3 k3 (-> & U3 & K3). wstep.
  split; [done|]. split; [done|]. by repeat (etrans; [eassumption|]).
Qed.

(** The memory with the word [w] at [va]. *)
Definition ustored32 va w g : Z -> Z :=
  ustored (va + 3) (w / 16777216) (ustored (va + 2) (w / 65536) (ustored (va + 1) (w / 256) (ustored va w g))).

Lemma ustore32_spec k g va w :
  user k g -> (forall i, 0 <= i < 4 -> uaddr (va + i)) -> va mod 4 = 0 -> (va mod 4096 = 0 -> u8 w <> 0xFF) ->
  wp (ustore32 va w) k (fun _ k' => user k' (ustored32 va w g) /\ ukeep k k').
Proof.
  intros U Hva Hal Hw. pose proof (Hva 0 ltac:(lia)) as H0. rewrite Z.add_0_r in H0.
  unfold ustore32. rewrite !(uaddr_next va) by (done || lia).
  assert (forall b, u8 (u8 b) = u8 b) as E8 by (intros; unfold u8; dlia).
  assert (forall va b, ustored va (u8 b) = ustored va b) as Es.
  { intros. unfold ustored. by rewrite E8. }
  wstep. eapply wp_mono; [apply (ustore8_spec k g); [done|done|by rewrite E8]|]. intros _ k0 (U0 & K0). rewrite Es in U0. wstep.
  eapply wp_mono; [eapply (ustore8_spec k0); [done|by apply Hva|dlia]|]. intros _ k1 (U1 & K1). rewrite Es in U1. wstep.
  eapply wp_mono; [eapply (ustore8_spec k1); [done|by apply Hva|dlia]|]. intros _ k2 (U2 & K2). rewrite Es in U2.
  eapply wp_mono; [eapply (ustore8_spec k2); [done|by apply Hva|dlia]|]. intros _ k3 (U3 & K3). rewrite Es in U3.
  split; [done|]. by repeat (etrans; [eassumption|]).
Qed.

(** ** Steps of the kernel that leave user memory alone *)

(** A store to memory that neither belongs to the process nor is free. *)
Lemma user_kstore k g pa b :
  user k g -> (forall v, own v \/ v ∈ l -> ~ in_page v pa) ->
  user (set_mach (set_mem (store8 (m k) pa b) (mach k)) k) g.
Proof.
  intros U Ho. destruct (us_proc _ _ U) as (q & Eq & Hi & Hc & Hf). pose proof (clockless_pgdir _ _ Eq) as Epd.
  set (m' := store8 (m k) pa b).
  assert (forall a v, own v -> in_page v a -> load8 m' a = load8 (m k) a) as Hm.
  { intros a v Hv Hin. apply load8_store8_ne. intros <-. by eapply Ho; [left|]. }
  assert (table_agree (m k) m' pd) as Ha.
  { intros v a Ht Hin. eapply Hm; [|exact Hin]. apply (us_own _ _ U). by left. }
  assert (forall v, vpn_ok v -> pte_at m' pd v = pte_at (m k) pd v) as Hpte by (intros; by apply pte_agree).
  assert (forall d, 0 <= d < 1024 -> pde_at m' pd d = pde_at (m k) pd d) as Hpde by (intros; by apply pde_agree).
  pose proof (pi_as Hi) as Has. rewrite Epd in Has.
  assert (as_inv (set_mem m' (mach k)) pd l) as Has'.
  { eapply as_inv_agree; [exact Has|done| |by left].
    apply free_pages_frame; [apply Has|]. intros v a Hv Hin. apply load8_store8_ne. intros <-. by eapply Ho; [right|]. }
  split; cbn.
  - exists q. split; [done|]. split; [|split].
    + destruct Hi as [H1 H2 H3 H4 H5 H6]. split; try done; cbn; [by rewrite Epd|]. intros v Hv. rewrite Epd, Hpte, <- Epd by (by apply user_vpn_ok). auto.
    + eapply clock_inv_mem; [exact Hc|]. intros d Hd. cbn. unfold pde_present. by rewrite Epd, Hpde.
    + intros v Hv. cbn. rewrite Epd, Hpte, <- Epd by (by apply user_vpn_ok). by apply Hf.
  - intros v Hv. rewrite Hpte by (by apply user_vpn_ok). by apply U.
  - intros v. rewrite <- (us_own _ _ U). rewrite (tpage_agree _ _ _ _ Ha).
    assert (uframe m' pd v <-> uframe (m k) pd v) as ->; [|done]. unfold uframe, frame.
    split; intros (x & Hx & Hv); exists x; (split; [done|]); by rewrite Hpte in * by (by apply user_vpn_ok).
  - intros v j Hv Hd Hj. rewrite <- (us_byte _ _ U) by done. unfold lbyte. rewrite Hpte by (by apply user_vpn_ok).
    assert (mapped (pte_at (m k) pd v) = true) as Hmp by (apply usable_mapped; by rewrite (us_dom _ _ U)).
    rewrite (Hm _ (frame (pte_at (m k) pd v))); [done| |apply in_frame; [apply pte_u32|done]].
    apply (us_own _ _ U). right. by exists v.
  - apply U.
Qed.
End User.

(** Every process whose clock is in order has its memory. *)
Lemma user_of `{KI : KernelImage, PO : !PageOps, PA : !PageAllocator} {F} (k : kstate F) p q l :
  let m := mem (mach k) in
  pinv k p q l -> clock_inv k q -> fresh k q ->
  (forall v, user_vpn v -> usable (pte_at m (pgdir q) v) = true -> lbyte m (pgdir q) v 0 <> 0xFF) ->
  user p q l (fun v => usable (pte_at m (pgdir q) v)) (fun v => tpage m (pgdir q) v \/ uframe m (pgdir q) v) k
    (fun va => lbyte m (pgdir q) (va / 4096) (va mod 4096)).
Proof.
  intros m Hi Hc Hf Hff. split; try done.
  - by exists q.
  - intros v j Hv Hd Hj. f_equal; dlia.
  - intros v Hv Hd. rewrite page_vpn. replace ((4096 * v) mod 4096) with 0 by dlia. by apply Hff.
Qed.

(** ** Encryption cannot be seen *)


(** On the machine of Demo, whose page 1 is encrypted: a store to that page,
    and a load from page 0. *)
Module UserDemo.
Abbreviation kernel := (Demo.kernel0 Demo.encrypted1 0x9e).

Lemma user_demo_pte v : vpn_ok v -> pte_at (mem (mach kernel)) (pgdir Demo.proc0) v =
  if decide (v = 0) then 0x202007 else if decide (v = 1) then 0x203406 else 0.
Proof. apply (Demo.pte0 Demo.encrypted1 0x9e). Qed.

Lemma demo_user : user 0 Demo.proc0 Demo.free0 (fun v => usable (pte_at (mem (mach kernel)) Demo.pgdir v))
  (fun v => tpage (mem (mach kernel)) Demo.pgdir v \/ uframe (mem (mach kernel)) Demo.pgdir v) kernel
  (fun va => lbyte (mem (mach kernel)) Demo.pgdir (va / 4096) (va mod 4096)).
Proof.
  apply (user_of kernel 0 Demo.proc0 Demo.free0).
  - exact (Demo.pinv_of Demo.encrypted1 0x9e (or_intror eq_refl) _ _).
  - exact (Demo.clock_inv0 Demo.encrypted1 0x9e).
  - intros v Hv HE (j & Hj & _). cbn in Hj. lia.
  - intros v Hv. rewrite user_demo_pte by (by apply user_vpn_ok). repeat case_decide; subst; [|by vm_compute|done]. intros _. by vm_compute.
Qed.
End UserDemo.

