(* ===== verification/Proc.v ===== *)
(** * Processes: proc.c

    Every function of proc.c that changes state.  Control leaves a process in
    [swtch]: what the other processes and the scheduler do until this one runs
    again is the parameter [others] (for [scheduler], what the chosen process
    does until it comes back is [run]).  The file operations that processes
    call are the interface [FileOps]; the addresses the linker and the
    assembler provide ([forkret], [trapret], the initial program) are fields
    of [ProcImage]. *)

From S2P Require Import Prelude Memory Mmu Machine Spinlock Kalloc Vm PageTable VmProofs VmSpaces.
From S2P Require Import Encrypt ProcTable Clock.

(** ** Interfaces *)

(** Files and inodes are indices into the file table and the inode cache. *)
Class FileOps (F : Type) : Type := {
  filedup : nat -> M (kstate F) nat;
  fileclose : nat -> M (kstate F) unit;
  idup : option nat -> M (kstate F) (option nat);
  iput : option nat -> M (kstate F) unit;
  namei : string -> M (kstate F) (option nat);
  begin_op : M (kstate F) unit;
  end_op : M (kstate F) unit;
}.

(** What processes rely on of the file layer: taking another reference to an
    open file or directory succeeds, keeps what is open, and changes nothing
    outside the file layer.  [file_open n x f]: [n] more references to [f] can
    be taken, the count of references being a machine integer. *)
Class FileLaws (F : Type) `{FileOps F} : Type := {
  file_open : nat -> F -> nat -> Prop;
  dir_open : F -> option nat -> Prop;
  file_open_less n x f : file_open (S n) x f -> file_open n x f;
  filedup_spec k f n : cpu_inv (hw (mach k)) -> file_open (S n) (files k) f ->
    wp (filedup f) k (fun g k' => g = f /\ exists x h, h ≡ hw (mach k) /\
      k' = set_files x (update hartL h k) /\
      (forall g m, file_open (S m) (files k) g -> file_open m x g) /\
      (forall d, dir_open (files k) d -> dir_open x d));
  idup_spec k d : cpu_inv (hw (mach k)) -> dir_open (files k) d ->
    wp (idup d) k (fun e k' => e = d /\ exists x h, h ≡ hw (mach k) /\
      k' = set_files x (update hartL h k));
}.

Class ProcImage : Type := {
  forkret_addr : Z;
  trapret_addr : Z;
  initcode_start : Z;
  initcode_size : Z;
}.

(** The image this repository was built to (kernel.sym). *)
#[export] Instance proc_sym : ProcImage := {|
  forkret_addr := 0x801050f0; trapret_addr := 0x80106dc1;
  initcode_start := 0x8010d4e0; initcode_size := 0x2c;
|}.

(** ** Trap frames and contexts (x86.h, proc.h): sizes and offsets *)

Definition TF_SIZE : Z := 76.
Definition TF_eax : Z := 28.
Definition TF_es : Z := 40.
Definition TF_ds : Z := 44.
Definition TF_trapno : Z := 48.
Definition TF_err : Z := 52.
Definition TF_eip : Z := 56.
Definition TF_cs : Z := 60.
Definition TF_eflags : Z := 64.
Definition TF_esp : Z := 68.
Definition TF_ss : Z := 72.

Definition CONTEXT_SIZE : Z := 20.
Definition CONTEXT_eip : Z := 16.

Definition kstore16 (v w : Z) : M machine unit := kstore8 v w;; kstore8 (v + 1) (w / 256).

(** [safestrcpy(p->name, t, n + 1)], on the array of bytes [old]; [t] ends
    with its null byte.  The byte after the copied null is cleared too. *)
Definition put0 (old : list Z) : list Z := match old with [] => [] | _ :: old => 0 :: old end.

Fixpoint copy_name (t : list Z) (n : nat) (old : list Z) : list Z :=
  match n, t, old with
  | S n, b :: t, _ :: old => b :: (if b =? 0 then put0 old else copy_name t n old)
  | _, _, _ => put0 old
  end.

Section Proc.
Context `{KI : KernelImage, PO : !PageOps} {F : Type} `{FO : FileOps F, PI : ProcImage}.
Abbreviation K := (M (kstate F)).

Definition pinit : K unit := initlock ptable_lockL.

(** ** allocproc *)

Definition is_state (st : procstate) (q : proc) : bool := bool_decide (state q = st).

Definition allocproc : K (option nat) :=
  acquire ptable_lockL;;
  ps ← gets procs;
  match find_index (is_state UNUSED) ps with
  | None => release ptable_lockL;; mret None
  | Some p =>
      setp p (set_state EMBRYO);;
      n ← gets nextpid;
      setp p (set_pid n);;
      modify (set_nextpid (i32 (n + 1)));;
      setp p (set_inClock 0);;
      release ptable_lockL;;
      o ← zoom machL kalloc;
      setp p (set_kstack (default 0 o));;
      match o with
      | None => setp p (set_state UNUSED);; mret None
      | Some ks =>
          let sp := ks + KSTACKSIZE in
          let sp := sp - TF_SIZE in
          setp p (set_tf sp);;
          let sp := sp - 4 in
          zoom machL (kstore32 sp trapret_addr);;
          let sp := sp - CONTEXT_SIZE in
          setp p (set_context sp);;
          zoom machL (kmemset sp 0 CONTEXT_SIZE);;
          zoom machL (kstore32 (sp + CONTEXT_eip) forkret_addr);;
          mret (Some p)
      end
  end.

(** ** userinit *)

Definition userinit : K unit :=
  o ← allocproc;
  modify (set_initproc o);;
  p ← nonnull o;
  pd ← zoom machL setupkvm;
  setp p (set_pgdir (default 0 pd));;
  match pd with
  | None => panic "userinit: out of memory?"
  | Some pd =>
      zoom machL (inituvm pd initcode_start initcode_size);;
      setp p (set_sz PGSIZE);;
      t ← getp p tf;
      zoom machL (kmemset t 0 TF_SIZE);;
      zoom machL (kstore16 (t + TF_cs) (Z.lor (Z.shiftl SEG_UCODE 3) DPL_USER));;
      zoom machL (kstore16 (t + TF_ds) (Z.lor (Z.shiftl SEG_UDATA 3) DPL_USER));;
      zoom machL (kstore16 (t + TF_es) (Z.lor (Z.shiftl SEG_UDATA 3) DPL_USER));;
      zoom machL (kstore16 (t + TF_ss) (Z.lor (Z.shiftl SEG_UDATA 3) DPL_USER));;
      zoom machL (kstore32 (t + TF_eflags) FL_IF);;
      zoom machL (kstore32 (t + TF_esp) PGSIZE);;
      zoom machL (kstore32 (t + TF_eip) 0);;
      setp p (fun q => set_name (copy_name [105; 110; 105; 116; 99; 111; 100; 101; 0] 15 (name q)) q);;
      i ← namei "/";
      setp p (set_cwd i);;
      acquire ptable_lockL;;
      setp p (set_state RUNNABLE);;
      release ptable_lockL
  end.

(** ** growproc *)

(** [p->nodes[i].pageAddr], and the assignment. *)
Definition peek_node (p : nat) (i : Z) : K Z :=
  ns ← getp p nodes;
  if i <? 0 then fault else nonnull (ns !! Z.to_nat i).

Definition put_node (p : nat) (i a : Z) : K unit :=
  ns ← getp p nodes;
  if (i <? 0) || (Z.of_nat (length ns) <=? i) then fault
  else setp p (fun q => set_nodes (<[Z.to_nat i := a]> (nodes q)) q).

(** The shift of the nodes to the right of [i] into place ([j] from [i]). *)
Fixpoint shift_nodes (p : nat) (j : Z) (n : nat) : K unit :=
  match n with
  | O => spin
  | S n =>
      c ← getp p inClock;
      if negb (j <? c) then mret tt else
      (if j =? c - 1 then
         put_node p j 0xFFFFFFFF;;
         setp p (set_currInd (c - 1))
       else
         a ← peek_node p (j + 1);
         put_node p j a);;
      shift_nodes p (j + 1) n
  end.

(** The loop that removes the nodes at or above [newsz] from the clock. *)
Fixpoint drop_nodes (p : nat) (newsz i : Z) (n : nat) : K unit :=
  match n with
  | O => spin
  | S n =>
      c ← getp p inClock;
      if negb (i <? c) then mret tt else
      a ← peek_node p i;
      if newsz <=? a then
        (if i <? c - 1 then shift_nodes p i (Z.to_nat (c + 1))
         else put_node p i 0xFFFFFFFF);;
        setp p (fun q => set_inClock (inClock q - 1) q);;
        drop_nodes p newsz i n
      else drop_nodes p newsz (i + 1) n
  end.

(** Each iteration of [drop_nodes] advances [i] or lowers [inClock], so that
    [inClock + 1] iterations reach the end of the loop. *)
Definition growproc (n : Z) : K Z :=
  o ← myproc;
  p ← nonnull o;
  size ← getp p sz;
  pd ← getp p pgdir;
  let oldsize := size in
  if 0 <? n then
    size ← zoom machL (allocuvm pd size (u32 (size + n)));
    if size =? 0 then mret (-1) else
    _ ← (if oldsize mod PGSIZE =? 0 then mencrypt oldsize (n / PGSIZE)
         else mencrypt (PGROUNDUP oldsize) (n / PGSIZE));
    setp p (set_sz size);;
    switchuvm_proc (Some p);;
    mret 0
  else if n <? 0 then
    c ← getp p inClock;
    drop_nodes p (u32 (size + n)) 0 (Z.to_nat (c + 1));;
    size ← zoom machL (deallocuvm pd size (u32 (size + n)));
    if size =? 0 then mret (-1) else
    setp p (set_sz size);;
    switchuvm_proc (Some p);;
    mret 0
  else
    setp p (set_sz size);;
    switchuvm_proc (Some p);;
    mret 0.

(** ** fork *)

(** The copy of the clock, and of absent pages, to the child. *)
Fixpoint fork_nodes (cur np : nat) (i : Z) (n : nat) : K unit :=
  match n with
  | O => spin
  | S n =>
      c ← getp cur inClock;
      if negb (i <? c) then mret tt else
      pd ← getp cur pgdir;
      a ← peek_node cur i;
      pp ← zoom machL (walkpgdir pd a false);
      put_node np i a;;
      cd ← getp np pgdir;
      cc ← zoom machL (walkpgdir cd a false);
      pp ← nonnull pp;
      wp ← zoom machL (kload32 pp);
      (if negb (flag wp PTE_P) then
         cc ← nonnull cc;
         wc ← zoom machL (kload32 cc);
         when (flag wc PTE_P) (zoom machL (kstore32 cc (Z.ldiff wc PTE_P)))
       else mret tt);;
      fork_nodes cur np (i + 1) n
  end.

(** The copy of the open files, from descriptor [fd]. *)
Fixpoint fork_files (cur np fd : nat) (n : nat) : K unit :=
  match n with
  | O => mret tt
  | S n =>
      fs ← getp cur ofile;
      (match fs !! fd with
       | Some (Some f) => g ← filedup f; setp np (fun q => set_ofile (<[fd := Some g]> (ofile q)) q)
       | _ => mret tt
       end);;
      fork_files cur np (S fd) n
  end.

(** [fork] after the address space has been copied: the clock, the size, the
    trap frame, the files and the name; then the child may run. *)
Definition fork_rest (cur np : nat) : K Z :=
  ci ← getp cur currInd;
  setp np (set_currInd (ci + 3));;
  c ← getp cur inClock;
  setp np (set_inClock c);;
  fork_nodes cur np 0 (Z.to_nat (c + 1));;
  size ← getp cur sz;
  setp np (set_sz size);;
  setp np (set_parent (Some cur));;
  ct ← getp cur tf;
  nt ← getp np tf;
  zoom machL (kmemmove nt ct TF_SIZE);;
  zoom machL (kstore32 (nt + TF_eax) 0);;
  fork_files cur np 0 (Z.to_nat NOFILE);;
  w ← getp cur cwd;
  w ← idup w;
  setp np (set_cwd w);;
  nm ← getp cur name;
  setp np (fun q => set_name (copy_name nm 15 (name q)) q);;
  pid ← getp np pid;
  acquire ptable_lockL;;
  setp np (set_state RUNNABLE);;
  release ptable_lockL;;
  mret pid.

(** [fork] after the slot [np] has been allocated. *)
Definition fork_into (cur np : nat) : K Z :=
  pd ← getp cur pgdir;
  size ← getp cur sz;
  d ← zoom machL (copyuvm pd size);
  setp np (set_pgdir (default 0 d));;
  match d with
  | None =>
      ks ← getp np kstack;
      zoom machL (kfree ks);;
      setp np (set_kstack 0);;
      setp np (set_state UNUSED);;
      mret (-1)
  | Some _ => fork_rest cur np
  end.

Definition fork : K Z :=
  o ← myproc;
  cur ← nonnull o;
  o ← allocproc;
  match o with
  | None => mret (-1)
  | Some np => fork_into cur np
  end.

(** ** Switching *)

Section Switch.
(** What the other processes do from the [swtch] in [sched] until this
    process runs again; what a process does from the [swtch] in [scheduler]
    until it comes back. *)
Variables (others : K unit) (run : nat -> K unit).
Variable kpgdir : Z.

Definition sched : K unit :=
  o ← myproc;
  h ← holding ptable_lockL;
  if negb h then panic "sched ptable.lock" else
  n ← zoom hartL (get_mycpu ncli);
  if negb (n =? 1) then panic "sched locks" else
  p ← nonnull o;
  st ← getp p state;
  if bool_decide (st = RUNNING) then panic "sched running" else
  e ← zoom hartL (gets eflags_if);
  if (e : bool) then panic "sched interruptible" else
  intena ← zoom hartL (get_mycpu intena);
  others;;
  zoom hartL (upd_mycpu (set_intena intena)).

Definition yield : K unit :=
  acquire ptable_lockL;;
  mysetp (set_state RUNNABLE);;
  sched;;
  release ptable_lockL.

(** ** Sleep and wakeup *)

(** [sleep(chan, lk)] for a lock other than [ptable.lock], and for it. *)
Definition sleep_on (ch : channel) (lk : lens (kstate F) spinlock) : K unit :=
  o ← myproc;
  match o with
  | None => panic "sleep"
  | Some p =>
      acquire ptable_lockL;;
      release lk;;
      setp p (set_chan ch);;
      setp p (set_state SLEEPING);;
      sched;;
      setp p (set_chan NoChan);;
      release ptable_lockL;;
      acquire lk
  end.

Definition sleep_ptable (ch : channel) : K unit :=
  o ← myproc;
  match o with
  | None => panic "sleep"
  | Some p =>
      setp p (set_chan ch);;
      setp p (set_state SLEEPING);;
      sched;;
      setp p (set_chan NoChan)
  end.

(** One process of the loop of [wakeup1]. *)
Definition wake (ch : channel) (q : proc) : proc :=
  if bool_decide (state q = SLEEPING) && bool_decide (chan q = ch) then set_state RUNNABLE q else q.

Definition wakeup1 (ch : channel) : K unit := modify (fun k => set_procs (wake ch <$> procs k) k).

Definition wakeup (ch : channel) : K unit :=
  acquire ptable_lockL;;
  wakeup1 ch;;
  release ptable_lockL.

Definition kill (n : Z) : K Z :=
  acquire ptable_lockL;;
  ps ← gets procs;
  match find_index (fun q => pid q =? n) ps with
  | Some p =>
      setp p (set_killed true);;
      st ← getp p state;
      when (bool_decide (st = SLEEPING)) (setp p (set_state RUNNABLE));;
      release ptable_lockL;;
      mret 0
  | None => release ptable_lockL;; mret (-1)
  end.

(** ** exit and wait *)

Definition proc_chan (o : option nat) : channel :=
  match o with Some p => ProcChan p | None => NoChan end.

Fixpoint close_files (cur fd : nat) (n : nat) : K unit :=
  match n with
  | O => mret tt
  | S n =>
      fs ← getp cur ofile;
      (match fs !! fd with
       | Some (Some f) => fileclose f;; setp cur (fun q => set_ofile (<[fd := None]> (ofile q)) q)
       | _ => mret tt
       end);;
      close_files cur (S fd) n
  end.

(** The children of [cur], from slot [i], are passed to init. *)
Fixpoint reparent (cur i : nat) (n : nat) : K unit :=
  match n with
  | O => mret tt
  | S n =>
      pa ← getp i parent;
      when (bool_decide (pa = Some cur))
        (ip ← gets initproc;
         setp i (set_parent ip);;
         st ← getp i state;
         when (bool_decide (st = ZOMBIE)) (wakeup1 (proc_chan ip)));;
      reparent cur (S i) n
  end.

Definition exit : K unit :=
  o ← myproc;
  ip ← gets initproc;
  if bool_decide (o = ip) then panic "init exiting" else
  cur ← nonnull o;
  close_files cur 0 (Z.to_nat NOFILE);;
  begin_op;;
  w ← getp cur cwd;
  iput w;;
  end_op;;
  setp cur (set_cwd None);;
  acquire ptable_lockL;;
  pa ← getp cur parent;
  wakeup1 (proc_chan pa);;
  reparent cur 0 (Z.to_nat NPROC);;
  setp cur (set_state ZOMBIE);;
  sched;;
  panic "zombie exit".

(** What the scan of [wait] finds, from slot [i]: a zombie child, or whether
    there are children. *)
Fixpoint wait_scan (cur i : nat) (havekids : bool) (n : nat) : K (option nat * bool) :=
  match n with
  | O => mret (None, havekids)
  | S n =>
      pa ← getp i parent;
      if negb (bool_decide (pa = Some cur)) then wait_scan cur (S i) havekids n else
      st ← getp i state;
      if bool_decide (st = ZOMBIE) then mret (Some i, true) else wait_scan cur (S i) true n
  end.

(** Freeing the zombie [i]: the pid it had. *)
Definition reap (i : nat) : K Z :=
  pid ← getp i pid;
  ks ← getp i kstack;
  zoom machL (kfree ks);;
  setp i (set_kstack 0);;
  pd ← getp i pgdir;
  zoom machL (freevm pd);;
  setp i (set_pid 0);;
  setp i (set_parent None);;
  setp i (fun q => set_name (put0 (name q)) q);;
  setp i (set_killed false);;
  setp i (set_state UNUSED);;
  release ptable_lockL;;
  mret pid.

(** The loop of [wait], for at most [n] sleeps. *)
Fixpoint wait_loop (cur : nat) (n : nat) : K Z :=
  r ← wait_scan cur 0 false (Z.to_nat NPROC);
  match r with
  | (Some i, _) => reap i
  | (None, havekids) =>
      kd ← getp cur killed;
      if negb havekids || (kd : bool) then release ptable_lockL;; mret (-1) else
      match n with
      | O => spin
      | S n => sleep_ptable (ProcChan cur);; wait_loop cur n
      end
  end.

Definition wait (n : nat) : K Z :=
  o ← myproc;
  acquire ptable_lockL;;
  cur ← nonnull o;
  wait_loop cur n.

(** ** The scheduler *)

(** [c->proc = o] *)
Definition set_proc_of (c : nat) (o : option nat) : K unit :=
  zoom hartL (modify (upd_cpu c (set_cpu_proc o))).

(** One process of the inner loop, on CPU [c]. *)
Definition schedule (c p : nat) : K unit :=
  st ← getp p state;
  when (bool_decide (st = RUNNABLE))
    (set_proc_of c (Some p);;
     switchuvm_proc (Some p);;
     setp p (set_state RUNNING);;
     run p;;
     zoom machL (switchkvm kpgdir);;
     set_proc_of c None).

Fixpoint schedule_from (c p : nat) (n : nat) : K unit :=
  match n with
  | O => mret tt
  | S n => schedule c p;; schedule_from c (S p) n
  end.

(** One iteration of the loop of [scheduler]. *)
Definition scheduler_round (c : nat) : K unit :=
  zoom hartL (modify (set_if true));;
  acquire ptable_lockL;;
  schedule_from c 0 (Z.to_nat NPROC);;
  release ptable_lockL.

Fixpoint scheduler_rounds (c : nat) (n : nat) : K unit :=
  match n with
  | O => mret tt
  | S n => scheduler_round c;; scheduler_rounds c n
  end.

(** The first [n] iterations of [scheduler]. *)
Definition scheduler (n : nat) : K unit :=
  c ← zoom hartL mycpu;
  set_proc_of c None;;
  scheduler_rounds c n.
End Switch.
End Proc.
