(* ===== verification/ProcProofs.v ===== *)
(** * Proofs about the process table *)

From S2P Require Import Prelude Memory Mmu Machine Spinlock Kalloc Vm PageTable VmProofs VmSpaces.
From S2P Require Import Encrypt ProcTable Clock ClockProofs Proc.

(** ** Critical sections on ptable.lock *)

Section Critical.
Context {F : Type}.
Implicit Types k : kstate F.

Lemma held_running h0 h1 lk p : held_from h0 h1 lk -> running_on h0 p -> running_on h1 p.
Proof.
  intros (i & c & Hh & Hn & Hi & -> & _) (i' & c' & Hh' & _ & _ & Hp).
  assert (i' = i /\ c' = c) as [-> ->].
  { destruct Hh as [H1 H2], Hh' as [H3 H4]. simplify_eq. done. }
  eexists i, _. split; [by apply here_pushed|]. rewrite ncli_push. split; [lia|]. split; [done|].
  unfold push_cpu. by destruct (ncli c =? 0).
Qed.

Lemma wp_acquire k (Q : unit -> kstate F -> Prop) :
  cpu_inv (hw (mach k)) -> locked (ptable_lock k) = 0 ->
  (forall h1 lk, held_from (hw (mach k)) h1 lk ->
     Q tt (set_ptable_lock lk (update hartL h1 k))) ->
  wp (acquire ptable_lockL) k Q.
Proof. exact (wp_acquire_at ptable_lockL k Q). Qed.

Lemma wp_release_in k h0 (Q : unit -> kstate F -> Prop) :
  held_from h0 (hw (mach k)) (ptable_lock k) ->
  (forall h, settles h0 h -> Q tt (set_ptable_lock (Spinlock 0 None) (update hartL h k))) ->
  wp (release ptable_lockL) k Q.
Proof. exact (wp_release_at ptable_lockL k h0 Q). Qed.

Lemma wp_release k h0 (Q : unit -> kstate F -> Prop) :
  held_from h0 (hw (mach k)) (ptable_lock k) ->
  (forall h, h ≡ h0 -> Q tt (set_ptable_lock (Spinlock 0 None) (update hartL h k))) ->
  wp (release ptable_lockL) k Q.
Proof.
  intros Hl HQ. apply (wp_release_in k h0 Q Hl). intros h [Hh _]. by apply HQ.
Qed.

Lemma wp_setp k p (f : proc -> proc) (Q : unit -> kstate F -> Prop) :
  Q tt (set_procs (alter f p (procs k)) k) -> wp (setp p f) k Q.
Proof. done. Qed.
End Critical.

(** ** Wakeup and kill *)

Section Wakeup.
Context {F : Type}.
Implicit Types k : kstate F.

(** The state between kernel functions, with [ptable.lock] free. *)
Definition idle k : Prop := cpu_inv (hw (mach k)) /\ locked (ptable_lock k) = 0.

Lemma wakeup_spec k ch :
  idle k -> wp (wakeup ch) k (fun _ k' => exists h, h ≡ hw (mach k) /\
    k' = set_ptable_lock (Spinlock 0 None) (set_procs (wake ch <$> procs k) (update hartL h k))).
Proof.
  intros [Hc Hl]. unfold wakeup. wstep. apply wp_acquire; [done|done|]. intros h1 lk Hh.
  unfold wakeup1. wsteps. eapply wp_release; [exact Hh|]. intros h Hh2. by exists h.
Qed.

Lemma kill_spec k n :
  idle k -> wp (kill n) k (fun r k' => exists h, h ≡ hw (mach k) /\
    match find_index (fun q => pid q =? n) (procs k) with
    | Some p => r = 0 /\
        k' = set_ptable_lock (Spinlock 0 None)
          (set_procs (alter (fun q => let q := set_killed true q in
             if bool_decide (state q = SLEEPING) then set_state RUNNABLE q else q) p (procs k))
          (update hartL h k))
    | None => r = -1 /\ k' = set_ptable_lock (Spinlock 0 None) (update hartL h k)
    end).
Proof.
  intros [Hc Hl]. unfold kill. wstep. apply wp_acquire; [done|done|]. intros h1 lk Hh. wsteps.
  cbn [procs set_ptable_lock]. change (procs (update hartL h1 k)) with (procs k).
  destruct (find_index _ (procs k)) as [p|] eqn:Ef.
  - destruct (find_index_Some _ _ _ Ef) as (q & Hq & _ & _).
    wstep. apply wp_setp. wstep. eapply wp_getp.
    { cbn. rewrite list_lookup_alter_eq. change (procs (update hartL h1 k)) with (procs k). by rewrite Hq. }
    cbn [state set_killed]. wstep. apply wp_when.
    + intros Hs. apply wp_setp. wstep. eapply wp_release; [exact Hh|]. intros h Hh2. wstep.
      exists h. split; [done|]. split; [done|]. unfold set_ptable_lock, set_procs; cbn. f_equal.
      rewrite list_alter_alter_eq. apply list_alter_ext; [|done]. intros q' Hq'.
      rewrite Hq in Hq'. simplify_eq. cbn. by rewrite Hs.
    + intros Hs. wstep. eapply wp_release; [exact Hh|]. intros h Hh2. wstep.
      exists h. split; [done|]. split; [done|]. unfold set_ptable_lock, set_procs; cbn. f_equal.
      apply list_alter_ext; [|done]. intros q' Hq'. rewrite Hq in Hq'. simplify_eq. cbn. by rewrite Hs.
  - wstep. eapply wp_release; [exact Hh|]. intros h Hh2. wstep. by exists h.
Qed.
End Wakeup.

(** ** The clock when a process shrinks *)

Section DropNodes.
Context {F : Type}.
Implicit Types k : kstate F.

(** [k] with [q] in slot [p] of the table. *)
Definition with_proc k (p : nat) (q : proc) : kstate F := set_procs (<[p := q]> (procs k)) k.

Lemma with_proc_twice k p q q' : with_proc (with_proc k p q) p q' = with_proc k p q'.
Proof. unfold with_proc, set_procs; cbn. by rewrite list_insert_insert_eq. Qed.

Lemma with_proc_same k p q : procs k !! p = Some q -> with_proc k p q = k.
Proof. intros H. unfold with_proc, set_procs. rewrite list_insert_id by done. by destruct k. Qed.

Lemma lookup_with_proc k p q q0 : procs k !! p = Some q0 -> procs (with_proc k p q) !! p = Some q.
Proof. intros H. apply list_lookup_insert_eq. by eapply lookup_lt_Some. Qed.

Lemma wp_setp_at k p q (f : proc -> proc) (Q : unit -> kstate F -> Prop) :
  procs k !! p = Some q -> Q tt (with_proc k p (f q)) -> wp (setp p f) k Q.
Proof. intros Hq HQ. apply wp_setp. by rewrite (alter_insert _ _ _ q). Qed.

(** A further assignment to a slot that has been assigned to. *)
Lemma wp_setp_again k p q P (f : proc -> proc) (Q : unit -> kstate F -> Prop) :
  procs k = <[p := q]> P -> (p < length P)%nat ->
  Q tt (set_procs (<[p := f q]> P) k) -> wp (setp p f) k Q.
Proof.
  intros E Hp HQ. eapply wp_setp_at; [rewrite E; by apply list_lookup_insert_eq|].
  unfold with_proc. by rewrite E, list_insert_insert_eq.
Qed.

(** Reading a slot after assignments to one. *)
Lemma wp_getp_other {A} k p q np r P (f : proc -> A) (Q : A -> kstate F -> Prop) :
  procs k = <[np := r]> P -> P !! p = Some q -> p <> np -> Q (f q) k -> wp (getp p f) k Q.
Proof. intros E Hq Hne HQ. eapply wp_getp; [|done]. by rewrite E, list_lookup_insert_ne. Qed.

Lemma wp_getp_again {A} k p q P (f : proc -> A) (Q : A -> kstate F -> Prop) :
  procs k = <[p := q]> P -> (p < length P)%nat -> Q (f q) k -> wp (getp p f) k Q.
Proof. intros E Hp HQ. eapply wp_getp; [|done]. rewrite E. by apply list_lookup_insert_eq. Qed.

Lemma wp_peek_node k p q (i : nat) a (Q : Z -> kstate F -> Prop) :
  procs k !! p = Some q -> nodes q !! i = Some a -> Q a k -> wp (peek_node p (Z.of_nat i)) k Q.
Proof.
  intros Hq Ha HQ. unfold peek_node. wstep. eapply wp_getp; [done|].
  rewrite (proj2 (Z.ltb_ge _ _)) by lia. rewrite Nat2Z.id, Ha. by wstep.
Qed.

Lemma wp_put_node k p q (i : nat) a (Q : unit -> kstate F -> Prop) :
  procs k !! p = Some q -> (i < length (nodes q))%nat ->
  Q tt (with_proc k p (set_nodes (<[i := a]> (nodes q)) q)) -> wp (put_node p (Z.of_nat i) a) k Q.
Proof.
  intros Hq Hi HQ. unfold put_node. wstep. eapply wp_getp; [done|].
  rewrite (proj2 (Z.ltb_ge _ _)), (proj2 (Z.leb_gt _ _)) by lia. cbn [orb].
  eapply wp_setp_at; [done|]. by rewrite Nat2Z.id.
Qed.

(** The nodes after node [j] of the first [c] has been removed. *)
Definition removed (ns : list Z) (j c : nat) : list Z :=
  take j ns ++ drop (S j) (take c ns) ++ 0xFFFFFFFF :: drop c ns.

Lemma removed_step ns j c b :
  (S j < c)%nat -> (c <= length ns)%nat -> ns !! S j = Some b ->
  removed (<[j := b]> ns) (S j) c = removed ns j c.
Proof.
  intros Hj Hc Hb. unfold removed.
  rewrite (take_S_r _ j b) by (apply list_lookup_insert_eq; lia).
  rewrite take_insert_ge, (drop_insert_lt _ c) by lia. rewrite <- app_assoc. f_equal.
  rewrite take_insert_lt by lia. rewrite drop_insert_lt by lia.
  rewrite (drop_S (take c ns) b (S j)); [done|]. by rewrite lookup_take_lt by lia.
Qed.

Lemma removed_last ns c : (0 < c <= length ns)%nat ->
  removed ns (c - 1) c = <[(c - 1)%nat := 0xFFFFFFFF]> ns.
Proof.
  intros Hc. unfold removed. rewrite insert_take_drop by lia. f_equal.
  replace (S (c - 1)) with c by lia.
  rewrite drop_ge; [done|]. rewrite length_take. lia.
Qed.

Lemma removed_length ns j c : (j < c <= length ns)%nat -> length (removed ns j c) = length ns.
Proof.
  intros H. unfold removed. rewrite !length_app, length_take, length_drop, length_take. cbn.
  rewrite length_drop. lia.
Qed.

Lemma removed_dead ns j c i : (j < c <= length ns)%nat -> (c - 1 <= i)%nat ->
  removed ns j c !! i = if decide (i = c - 1)%nat then Some 0xFFFFFFFF else ns !! i.
Proof.
  intros H Hi. unfold removed. rewrite app_assoc, lookup_app_r;
    rewrite length_app, length_drop, !length_take, !Nat.min_l by lia; [|lia].
  case_decide.
  - by replace (i - _)%nat with 0%nat by lia.
  - replace (i - _)%nat with (S (i - c)) by lia. change (drop c ns !! (i - c)%nat = ns !! i). rewrite lookup_drop. f_equal. lia.
Qed.

Lemma removed_live ns j c : (j < c <= length ns)%nat ->
  take (c - 1) (removed ns j c) = take j ns ++ drop (S j) (take c ns).
Proof.
  intros H. unfold removed. rewrite app_assoc, take_app_le.
  - apply take_ge. rewrite length_app, length_drop, !length_take. lia.
  - rewrite length_app, length_drop, !length_take. lia.
Qed.

Lemma shift_nodes_spec n k p q j c :
  procs k !! p = Some q -> inClock q = Z.of_nat c -> (j < c <= length (nodes q))%nat ->
  (c - j < n)%nat ->
  wp (shift_nodes p (Z.of_nat j) n) k (fun _ k' =>
    k' = with_proc k p (set_currInd (Z.of_nat c - 1) (set_nodes (removed (nodes q) j c) q))).
Proof.
  revert k q j. induction n as [|n IH]; intros k q j Hq Hc Hj Hn; [lia|]. cbn [shift_nodes].
  wstep. eapply wp_getp; [done|]. rewrite Hc, (proj2 (Z.ltb_lt _ _)) by lia. cbn [negb].
  replace (Z.of_nat j + 1) with (Z.of_nat (S j)) by lia.
  destruct (Z.eqb_spec (Z.of_nat j) (Z.of_nat c - 1)) as [E|E].
  - wsteps. eapply wp_put_node; [done|lia|]. eapply wp_setp_at; [by eapply lookup_with_proc|].
    rewrite with_proc_twice. destruct n as [|n]; [lia|]. cbn [shift_nodes].
    wstep. eapply wp_getp; [by eapply lookup_with_proc|].
    cbn [inClock set_currInd set_nodes]. rewrite Hc, (proj2 (Z.ltb_ge _ _)) by lia. cbn [negb]. wstep.
    replace j with (c - 1)%nat by lia. by rewrite removed_last by lia.
  - destruct (lookup_lt_is_Some_2 (nodes q) (S j)) as [b Hb]; [lia|].
    wsteps. eapply wp_peek_node; [done|done|]. eapply wp_put_node; [done|lia|].
    eapply wp_mono; [eapply IH|].
    + by eapply lookup_with_proc.
    + done.
    + cbn. rewrite length_insert. lia.
    + lia.
    + cbn [nodes set_nodes]. intros _ k' ->. rewrite with_proc_twice, removed_step by (done || lia). done.
Qed.

(** Among the nodes [R], the last lies at or above [newsz]. *)
Definition drops_last (newsz : Z) (R : list Z) : bool :=
  match last R with Some a => newsz <=? a | None => false end.

(** The hand after [c] nodes have become [c']: [h] was the hand before. *)
Definition hand_after (newsz : Z) (R : list Z) (h c c' : Z) : Z :=
  if drops_last newsz R then (if c' =? c - 1 then h else c' + 1)
  else if c' =? c then h else c'.

(** The process after the nodes of [R], the live nodes from the [i]-th, have
    been filtered. *)
Record dropped (newsz : Z) (i : nat) (q q' : proc) : Prop := {
  dr_proc : q' = set_currInd (currInd q') (set_inClock (inClock q') (set_nodes (nodes q') q));
  dr_length : length (nodes q') = length (nodes q);
  dr_live : let live := take (Z.to_nat (inClock q)) (nodes q) in
    take (Z.to_nat (inClock q')) (nodes q') =
      take i live ++ filter (fun a => a < newsz) (drop i live);
  dr_count : inClock q' = Z.of_nat (i + length
    (filter (fun a => a < newsz) (drop i (take (Z.to_nat (inClock q)) (nodes q)))));
  dr_hand : currInd q' = hand_after newsz (drop i (take (Z.to_nat (inClock q)) (nodes q)))
    (currInd q) (inClock q) (inClock q');
  dr_dead j : inClock q' <= Z.of_nat j ->
    nodes q' !! j = if Z.of_nat j <? inClock q then Some 0xFFFFFFFF else nodes q !! j;
}.

Lemma drops_last_cons newsz a R : R <> [] -> drops_last newsz (a :: R) = drops_last newsz R.
Proof. by destruct R. Qed.

Lemma drops_last_length newsz R : drops_last newsz R = true ->
  (length (filter (fun a => (a < newsz)%Z) R) < length R)%nat.
Proof.
  unfold drops_last. destruct R as [|b R] using rev_ind; [done|]. clear IHR.
  rewrite last_snoc. intros H%Z.leb_le. rewrite filter_app, !length_app, filter_cons_False by lia. cbn.
  pose proof (length_filter (fun a => a < newsz) R). lia.
Qed.

Lemma live_cons (ns : list Z) i c : (i < c <= length ns)%nat ->
  exists a, ns !! i = Some a /\ drop i (take c ns) = a :: drop (S i) (take c ns).
Proof.
  intros H. destruct (lookup_lt_is_Some_2 ns i) as [a Ha]; [lia|]. exists a. split; [done|].
  apply drop_S. by rewrite lookup_take_lt by lia.
Qed.

(** Nothing to remove. *)
Lemma dropped_none newsz q : 0 <= inClock q -> (Z.to_nat (inClock q) <= length (nodes q))%nat ->
  dropped newsz (Z.to_nat (inClock q)) q q.
Proof.
  intros H0 H. split; try done.
  - by destruct q.
  - cbv zeta. rewrite drop_ge by (rewrite length_take; lia). cbn. rewrite app_nil_r.
    symmetry. apply take_ge. rewrite length_take. lia.
  - rewrite drop_ge by (rewrite length_take; lia). cbn. lia.
  - unfold hand_after. rewrite drop_ge by (rewrite length_take; lia). cbn. by rewrite Z.eqb_refl.
  - intros j Hj. by rewrite (proj2 (Z.ltb_ge _ _)) by lia.
Qed.

(** The node [i] stays. *)
Lemma dropped_keep newsz i q q' a :
  nodes q !! i = Some a -> (i < Z.to_nat (inClock q) <= length (nodes q))%nat -> a < newsz ->
  dropped newsz (S i) q q' -> dropped newsz i q q'.
Proof.
  intros Ha Hi Hs [D1 D2 D3 D4 D5 D6]. destruct (live_cons (nodes q) i _ Hi) as (a' & Ha' & E).
  rewrite Ha in Ha'. injection Ha' as <-. split; try done.
  - cbv zeta in *. rewrite D3, E, filter_cons_True by done.
    rewrite (take_S_r _ i a) by (by rewrite lookup_take_lt by lia). by rewrite <- app_assoc.
  - rewrite D4, E, filter_cons_True by done. cbn [length]. lia.
  - rewrite D5, E. unfold hand_after. destruct (drop (S i) _) as [|b R] eqn:ER.
    + cbn. rewrite (proj2 (Z.leb_gt _ _)) by lia. done.
    + by rewrite (drops_last_cons _ a) by done.
Qed.

(** The node [i], not the last, goes: [q1] is the process after the shift. *)
Lemma dropped_shift newsz i q q' a c :
  nodes q !! i = Some a -> inClock q = Z.of_nat c -> (S i < c <= length (nodes q))%nat -> newsz <= a ->
  dropped newsz i (set_inClock (Z.of_nat c - 1)
    (set_currInd (Z.of_nat c - 1) (set_nodes (removed (nodes q) i c) q))) q' ->
  dropped newsz i q q'.
Proof.
  intros Ha Hc Hi Hs [D1 D2 D3 D4 D5 D6]. cbn in D2, D3, D4, D5, D6. cbv zeta in D3.
  replace (Z.to_nat (Z.of_nat c - 1)) with (c - 1)%nat in * by lia.
  rewrite removed_live, take_app_length', drop_app_length' in D3
    by (rewrite ?length_take; lia).
  rewrite removed_live, drop_app_length' in D4, D5 by (rewrite ?length_take; lia).
  rewrite removed_length in D2 by lia.
  destruct (live_cons (nodes q) i c) as (a' & Ha' & E); [lia|].
  rewrite Ha in Ha'. injection Ha' as <-. split; rewrite ?Hc, ?Nat2Z.id.
  - rewrite D1 at 1. by destruct q.
  - done.
  - cbv zeta. rewrite D3, E, filter_cons_False by lia. by rewrite take_take, Nat.min_l by lia.
  - by rewrite E, filter_cons_False by lia.
  - rewrite D5, E. unfold hand_after. rewrite drops_last_cons.
    2:{ intros H%(f_equal length). rewrite length_drop, length_take in H. cbn in H. lia. }
    destruct (drops_last _ _) eqn:El.
    + apply drops_last_length in El. rewrite length_drop, length_take in El. repeat case_match; lia.
    + pose proof (length_filter (fun a => a < newsz) (drop (S i) (take c (nodes q)))) as Hf.
      rewrite length_drop, length_take in Hf. repeat case_match; lia.
  - intros j Hj. rewrite D6 by done. destruct (Z.ltb_spec (Z.of_nat j) (Z.of_nat c - 1)).
    + by rewrite (proj2 (Z.ltb_lt _ _)) by lia.
    + rewrite removed_dead by lia. case_decide.
      * by rewrite (proj2 (Z.ltb_lt _ _)) by lia.
      * by rewrite (proj2 (Z.ltb_ge _ _)) by lia.
Qed.

(** The last node goes. *)
Lemma dropped_last newsz i q a :
  nodes q !! i = Some a -> inClock q = Z.of_nat (S i) -> (S i <= length (nodes q))%nat -> newsz <= a ->
  dropped newsz i q (set_inClock (inClock q - 1) (set_nodes (<[i := 0xFFFFFFFF]> (nodes q)) q)).
Proof.
  intros Ha Hc Hi Hs. destruct (live_cons (nodes q) i (S i)) as (a' & Ha' & E); [lia|].
  rewrite Ha in Ha'. injection Ha' as <-.
  rewrite (drop_ge (take (S i) _) (S i)) in E by (rewrite length_take; lia).
  split; cbn; rewrite ?Hc, ?Nat2Z.id, ?E.
  - done.
  - apply length_insert.
  - rewrite filter_cons_False by lia. rewrite app_nil_r, take_take, Nat.min_l by lia.
    replace (Z.to_nat (Z.of_nat (S i) - 1)) with i by lia. apply take_insert_ge. lia.
  - rewrite filter_cons_False by lia. cbn. lia.
  - unfold hand_after. cbn. rewrite (proj2 (Z.leb_le _ _)) by lia. by rewrite Z.eqb_refl.
  - intros j Hj. destruct (Z.ltb_spec (Z.of_nat j) (Z.of_nat (S i))).
    + replace j with i by lia. apply list_lookup_insert_eq. lia.
    + apply list_lookup_insert_ne. lia.
Qed.

Lemma drop_nodes_spec n k p q newsz i :
  procs k !! p = Some q -> 0 <= inClock q -> (i <= Z.to_nat (inClock q) <= length (nodes q))%nat ->
  (Z.to_nat (inClock q) - i < n)%nat ->
  wp (drop_nodes p newsz (Z.of_nat i) n) k (fun _ k' =>
    exists q', k' = with_proc k p q' /\ dropped newsz i q q').
Proof.
  revert k q i. induction n as [|n IH]; intros k q i Hq Hc Hi Hn; [lia|]. cbn [drop_nodes].
  wstep. eapply wp_getp; [done|].
  destruct (Z.ltb_spec (Z.of_nat i) (inClock q)) as [Hlt|Hge]; cbn [negb].
  2:{ wstep. exists q. split.
      - by rewrite with_proc_same.
      - replace i with (Z.to_nat (inClock q)) by lia. apply dropped_none; lia. }
  destruct (live_cons (nodes q) i (Z.to_nat (inClock q))) as (a & Ha & _); [lia|].
  wstep. eapply wp_peek_node; [done|done|]. destruct (Z.leb_spec newsz a) as [Hs|Hs].
  2:{ replace (Z.of_nat i + 1) with (Z.of_nat (S i)) by lia.
      eapply wp_mono; [apply (IH k q); [done|done|lia|lia]|]. intros _ k' (q' & -> & D).
      exists q'. split; [done|]. eapply dropped_keep; [done|lia|done|done]. }
  destruct (Z.ltb_spec (Z.of_nat i) (inClock q - 1)) as [Hl|Hl].
  - wsteps. eapply wp_mono; [eapply (shift_nodes_spec _ _ _ _ _ (Z.to_nat (inClock q))); [done|lia..]|].
    intros _ k1 ->. wstep. eapply wp_setp_at; [by eapply lookup_with_proc|]. rewrite with_proc_twice.
    eapply wp_mono; [eapply IH|].
    + by eapply lookup_with_proc.
    + cbn. lia.
    + cbn. rewrite removed_length by lia. lia.
    + cbn. lia.
    + intros _ k' (q' & -> & D). rewrite with_proc_twice. exists q'. split; [done|].
      eapply (dropped_shift _ _ _ _ a (Z.to_nat (inClock q))); [done|lia|lia|done|].
      cbn in D. rewrite !Z2Nat.id in * by done. exact D.
  - wsteps. eapply wp_put_node; [done|lia|]. wstep. eapply wp_setp_at; [by eapply lookup_with_proc|].
    rewrite with_proc_twice. destruct n as [|n]; [lia|]. cbn [drop_nodes].
    wstep. eapply wp_getp; [by eapply lookup_with_proc|]. cbn.
    rewrite (proj2 (Z.ltb_ge _ _)) by lia. cbn. eexists. split; [done|].
    eapply dropped_last; [done|lia|lia|done].
Qed.
End DropNodes.

(** ** allocproc *)

Section AllocProc.
Context `{KI : KernelImage, PO : !PageOps, PA : !PageAllocator} {F : Type} `{PI : ProcImage}.
Implicit Types k : kstate F.

(** The lock is free, and [l] are the free pages. *)
Definition ready k (l : list Z) : Prop := locked (ptable_lock k) = 0 /\ free_pages (mach k) l.

Lemma ready_idle k l : ready k l -> idle k.
Proof. intros [H1 H2]. split; [by eapply free_pages_cpu|done]. Qed.

Lemma free_pages_hart s l h : free_pages s l -> h ≡ hw s -> free_pages (set_hw h s) l.
Proof.
  intros Hf Hh. assert (cpu_inv h) as Hc by (rewrite Hh; by eapply free_pages_cpu).
  pose proof (free_pages_regs s l h (cr3 s) (tr s) Hf Hc) as H. by destruct s.
Qed.

(** The process that [allocproc] has claimed, and the one it returns. *)
Definition embryo (n : Z) (q : proc) : proc := set_inClock 0 (set_pid n (set_state EMBRYO q)).
Definition launched (n ks : Z) (q : proc) : proc :=
  set_context (ks + 3996) (set_tf (ks + 4020) (set_kstack ks (embryo n q))).

(** Memory with the first context on the kernel stack at [ks]. *)
Definition stack_mem (m : memory) (ks : Z) : memory :=
  store32 (memset (store32 m (V2P (ks + 4016)) trapret_addr) (V2P (ks + 3996)) 0 20)
    (V2P (ks + 4012)) forkret_addr.

Lemma stack_mem_frame m ks a : page_ok ks -> ~ in_page ks a -> load8 (stack_mem m ks) a = load8 m a.
Proof.
  unfold in_page, stack_mem, PGSIZE. intros Hk Ha. rewrite !V2P_offset by (done || lia).
  rewrite load8_store32_ne by lia. rewrite load8_memset by lia.
  rewrite decide_False by lia. apply load8_store32_ne. lia.
Qed.

Definition unlocked k : kstate F := set_ptable_lock (Spinlock 0 None) k.

Lemma allocproc_spec k l :
  ready k l ->
  wp allocproc k (fun r k' => exists s', same_regs (mach k) s' /\
    match find_index (is_state UNUSED) (procs k) with
    | None => r = None /\ mem s' = mem (mach k) /\ free_pages s' l /\ k' = set_mach s' (unlocked k)
    | Some p => exists q, procs k !! p = Some q /\ state q = UNUSED /\
        let k1 := set_mach s' (set_nextpid (i32 (nextpid k + 1)) (unlocked k)) in
        match l with
        | [] => r = None /\ mem s' = mem (mach k) /\ free_pages s' [] /\
            k' = with_proc k1 p (set_state UNUSED (set_kstack 0 (embryo (nextpid k) q)))
        | ks :: l' => r = Some p /\ mem s' = stack_mem (mem (mach k)) ks /\ free_pages s' l' /\
            k' = with_proc k1 p (launched (nextpid k) ks q)
        end
    end).
Proof.
  intros Hr. destruct (ready_idle k l Hr) as [Hc Hl]. destruct Hr as [_ Hf].
  unfold allocproc. wstep. apply wp_acquire; [done|done|]. intros h1 lk Hh. wsteps.
  cbn [procs set_ptable_lock]. change (procs (update hartL h1 k)) with (procs k).
  destruct (find_index _ (procs k)) as [p|] eqn:Ef.
  2:{ wstep. eapply wp_release; [exact Hh|]. intros h Hh2. wstep. exists (set_hw h (mach k)).
      split; [by split_and!|]. split_and!; [done|done|by apply free_pages_hart|done]. }
  destruct (find_index_Some _ _ _ Ef) as (q & Hq & Hs & _). apply bool_decide_eq_true in Hs.
  assert (p < length (procs k))%nat as Hp by (by eapply lookup_lt_Some).
  wstep. apply (wp_setp_at _ p q); [done|].
  wsteps. apply (wp_setp_again _ p (set_state EMBRYO q) (procs k)); [done|done|].
  wsteps. eapply (wp_setp_again _ p _ (procs k)); [reflexivity|done|].
  wstep. eapply wp_release; [exact Hh|]. intros h Hh2. wstep. apply wp_zoom.
  pose proof (free_pages_hart (mach k) l h Hf Hh2) as Hf1.
  eapply wp_mono; [apply kalloc_spec; exact Hf1|]. intros o s' (Hm & Hrg & -> & Hf').
  assert (same_regs (mach k) s') as Hrg' by (destruct Hrg as (E & ? & ?); by split_and!; rewrite ?E).
  change (mem s' = mem (mach k)) in Hm. clear Hrg Hf1.
  wstep. eapply (wp_setp_again _ p _ (procs k)); [reflexivity|done|].
  destruct l as [|ks l']; cbn [head tail default] in *.
  - wstep. eapply (wp_setp_again _ p _ (procs k)); [reflexivity|done|]. wstep.
    exists s'. split; [done|]. exists q. by split_and!.
  - cbv zeta. replace (ks + KSTACKSIZE - TF_SIZE) with (ks + 4020) by (unfold KSTACKSIZE, TF_SIZE; lia).
    replace (ks + 4020 - 4) with (ks + 4016) by lia.
    replace (ks + 4016 - CONTEXT_SIZE) with (ks + 3996) by (unfold CONTEXT_SIZE; lia).
    replace (ks + 3996 + CONTEXT_eip) with (ks + 4012) by (unfold CONTEXT_eip; lia).
    wstep. eapply (wp_setp_again _ p _ (procs k)); [reflexivity|done|].
    wstep. apply wp_zoom. unfold kstore32 at 1. wsteps.
    eapply (wp_setp_again _ p _ (procs k)); [reflexivity|done|].
    wstep. apply wp_zoom. unfold kmemset. wsteps. apply wp_zoom. unfold kstore32. wsteps.
    exists (set_mem (stack_mem (mem s') ks) s'). split; [exact Hrg'|]. exists q.
    rewrite <- Hm. split; [done|]. split; [done|]. split; [done|]. split; [reflexivity|].
    split; [|reflexivity].
    destruct (free_pages_ok _ _ Hf) as [Hnd Hok]. inversion Hnd; inversion Hok; subst.
    apply free_pages_frame; [exact Hf'|]. intros v a Hv Ha. apply stack_mem_frame; [done|].
    intros Ha'. assert (v = ks) as ->; [|done]. eapply Impl.in_page_disj; [|done..].
    rewrite Forall_forall in *. auto.
Qed.
End AllocProc.
