(* ===== verification/ProcTheorems.v ===== *)
(** * Theorems about processes

    What wakeup, kill, allocproc and the clock part of growproc do to the
    process table, with their instances on concrete tables. *)

From S2P Require Import Prelude Memory Mmu Machine Spinlock Kalloc Vm PageTable VmProofs VmSpaces.
From S2P Require Import Encrypt ProcTable Clock ClockProofs Demo Proc ProcProofs.

Section Theorems.
Context `{KI : KernelImage, PO : !PageOps, PA : !PageAllocator} {F : Type} `{PI : ProcImage}.
Implicit Types k : kstate F.

(** ** wakeup and kill *)

(** [wakeup] returns with [ptable.lock] free and the interrupt state
    restored; the processes that slept on the channel are runnable, every
    other process is as before, and so is the rest of the kernel's state. *)
Theorem wakeup_exact k ch :
  idle k ->
  wp (wakeup ch) k (fun _ k' => locked (ptable_lock k') = 0 /\ hw (mach k') ≡ hw (mach k) /\
    mem (mach k') = mem (mach k) /\ length (procs k') = length (procs k) /\
    forall i q, procs k !! i = Some q ->
      (state q = SLEEPING /\ chan q = ch -> procs k' !! i = Some (set_state RUNNABLE q)) /\
      (~ (state q = SLEEPING /\ chan q = ch) -> procs k' !! i = Some q)).
Proof.
  intros Hi. eapply wp_mono; [by apply wakeup_spec|]. intros [] k' (h & Hh & ->).
  split_and!; [done|done|done|apply length_fmap|]. intros i q Hq. cbn. rewrite list_lookup_fmap.
  change (procs (update hartL h k)) with (procs k). rewrite Hq. cbn. unfold wake.
  split; intros H; f_equal.
  - by rewrite !bool_decide_true by apply H.
  - by repeat case_bool_decide; auto; destruct H.
Qed.

(** [kill] finds the first slot with the given pid, marks that process
    killed and takes it out of sleep, and returns 0; when there is none it
    returns -1.  No other process changes, and the lock is free afterwards. *)
Theorem kill_first k n :
  idle k ->
  wp (kill n) k (fun r k' => locked (ptable_lock k') = 0 /\ mem (mach k') = mem (mach k) /\
    ((r = -1 /\ procs k' = procs k /\ forall i q, procs k !! i = Some q -> pid q <> n) \/
     (r = 0 /\ exists i q, procs k !! i = Some q /\ pid q = n /\
       (forall j q', (j < i)%nat -> procs k !! j = Some q' -> pid q' <> n) /\
       procs k' = <[i := set_killed true
         (if decide (state q = SLEEPING) then set_state RUNNABLE q else q)]> (procs k)))).
Proof.
  intros Hi. eapply wp_mono; [by apply kill_spec|]. intros r k' (h & Hh & H).
  destruct (find_index _ _) as [i|] eqn:E.
  - destruct H as [-> ->]. split; [done|]. split; [done|]. right. split; [done|].
    destruct (find_index_Some _ _ _ E) as (q & Hq & Hp & Hf). exists i, q. split; [done|].
    split; [by apply Z.eqb_eq|]. split.
    { intros j q' Hj Hq'. by apply Z.eqb_neq, (Hf j). }
    cbn. rewrite (alter_insert _ _ _ q) by done. cbn. by repeat case_decide; case_bool_decide.
  - destruct H as [-> ->]. split; [done|]. split; [done|]. left. split; [done|]. split; [done|].
    intros i q Hq Hn. apply find_index_None in E. rewrite Forall_forall in E.
    specialize (E q (list_elem_of_lookup_2 _ _ _ Hq)). cbn in E. by rewrite Hn, Z.eqb_refl in E.
Qed.

(** ** allocproc *)

(** The pids of the processes in use are distinct and below [n]. *)
Definition pids_ok (ps : list proc) (n : Z) : Prop :=
  (forall i q, ps !! i = Some q -> state q <> UNUSED -> 0 < pid q < n) /\
  (forall i j q q', ps !! i = Some q -> ps !! j = Some q' -> state q <> UNUSED -> state q' <> UNUSED ->
     pid q = pid q' -> i = j).

Lemma pids_insert ps n p q :
  pids_ok ps n -> 0 < n -> ps !! p = Some q -> forall q', pid q' = n -> pids_ok (<[p := q']> ps) (n + 1).
Proof.
  intros [H1 H2] Hn Hq q' Hp. split.
  - intros i r Hr Hs. apply list_lookup_insert_Some in Hr as [(-> & -> & _)|[Hne Hr]]; [lia|].
    specialize (H1 i r Hr Hs). lia.
  - intros i j r r' Hr Hr' Hs Hs' E.
    apply list_lookup_insert_Some in Hr as [(-> & -> & _)|[Hne Hr]];
    apply list_lookup_insert_Some in Hr' as [(-> & -> & _)|[Hne' Hr']]; [done|..].
    + specialize (H1 j r' Hr' Hs'). lia.
    + specialize (H1 i r Hr Hs). lia.
    + by eapply H2.
Qed.

(** C28: [allocproc] keeps the pids of the processes in use distinct, while
    [nextpid] is below the largest int.  A slot it returns was unused: it is
    an embryo with the next pid, an empty clock and a page of the free list as
    its kernel stack, whose saved context starts at [forkret] and returns to
    [trapret], with the trap frame above it.  It returns no slot exactly when
    the table or the free list is exhausted.  No other process and no other
    memory changes, and the lock is free afterwards. *)
Theorem allocproc_fresh k l :
  ready k l -> pids_ok (procs k) (nextpid k) -> 0 < nextpid k < 2147483647 ->
  is_u32 trapret_addr -> is_u32 forkret_addr ->
  wp allocproc k (fun r k' => locked (ptable_lock k') = 0 /\ pids_ok (procs k') (nextpid k') /\
    match r with
    | None => free_pages (mach k') l /\ mem (mach k') = mem (mach k) /\
        (l = [] \/ Forall (fun q => state q <> UNUSED) (procs k))
    | Some p => exists q q' ks l', procs k !! p = Some q /\ state q = UNUSED /\ l = ks :: l' /\
        free_pages (mach k') l' /\ procs k' = <[p := q']> (procs k) /\
        state q' = EMBRYO /\ pid q' = nextpid k /\ inClock q' = 0 /\ kstack q' = ks /\
        tf q' + TF_SIZE = ks + KSTACKSIZE /\ context q' + CONTEXT_SIZE + 4 = tf q' /\
        load32 (mem (mach k')) (V2P (context q' + CONTEXT_eip)) = forkret_addr /\
        load32 (mem (mach k')) (V2P (context q' + CONTEXT_SIZE)) = trapret_addr /\
        forall a, ~ in_page ks a -> load8 (mem (mach k')) a = load8 (mem (mach k)) a
    end).
Proof.
  intros Hr Hp Hn Ht Hfk. eapply wp_mono; [by apply allocproc_spec|]. intros r k' (s' & Hs & H).
  destruct (find_index _ _) as [p|] eqn:E.
  2:{ destruct H as (-> & Hm & Hf & ->). split; [done|]. split; [done|]. split; [done|].
      split; [done|]. right. eapply Forall_impl; [by apply find_index_None|].
      intros q Hq. by apply bool_decide_eq_false in Hq. }
  destruct H as (q & Hq & Hu & H). replace (i32 (nextpid k + 1)) with (nextpid k + 1) in H.
  2:{ unfold i32, u32. rewrite Z.mod_small by lia. by rewrite (proj2 (Z.ltb_lt _ _)) by lia. }
  destruct l as [|ks l']; destruct H as (-> & Hm & Hf & ->).
  - split; [done|]. split; [|by auto]. apply (pids_insert (procs k) (nextpid k) p q); [done|lia|done|done].
  - split; [done|]. split; [apply (pids_insert (procs k) (nextpid k) p q); [done|lia|done|done]|].
    exists q, (launched (nextpid k) ks q), ks, l'. do 9 (split; [done|]). cbn [tf context launched].
    destruct (free_pages_ok _ _ (proj2 Hr)) as [_ Hok]. inversion Hok; subst.
    unfold CONTEXT_SIZE, CONTEXT_eip, TF_SIZE, KSTACKSIZE. split; [cbn; lia|]. split; [cbn; lia|].
    cbn [mach with_proc set_procs set_mach context launched set_context]. rewrite Hm.
    split; [|split]; [| |intros a Ha; by apply stack_mem_frame];
      unfold stack_mem; replace (ks + 3996 + 16) with (ks + 4012) by lia;
      replace (ks + 3996 + 20) with (ks + 4016) by lia; rewrite !V2P_offset by (done || lia).
    + rewrite load32_store32_eq. by apply Z.mod_small.
    + rewrite load32_store32_ne, load32_memset_ne, load32_store32_eq by lia. by apply Z.mod_small.
Qed.
End Theorems.

(** ** Instances *)

Section Instances.
Abbreviation kernel3 := (Demo.kernel3 Demo.present1 0).

Lemma demo_idle : idle kernel3.
Proof. split; [|done]. exists 0%nat, Demo.cpu0. split; [by split|]. by split. Qed.

Lemma wakeup_exact_witness :
  wp (wakeup (ObjChan 5)) kernel3 (fun _ k' =>
    procs k' !! 1%nat = Some (set_state RUNNABLE Demo.sleeper)).
Proof.
  eapply wp_mono; [apply (wakeup_exact kernel3 (ObjChan 5) demo_idle)|].
  intros _ k' (_ & _ & _ & _ & H). by apply (H 1%nat Demo.sleeper).
Defined.

Lemma kill_first_witness :
  wp (kill 7) kernel3 (fun r k' => r = 0 \/ procs k' = procs kernel3).
Proof.
  eapply wp_mono; [apply (kill_first kernel3 7 demo_idle)|].
  intros r k' (_ & _ & [(_ & H & _)|(H & _)]); [by right|by left].
Defined.

Lemma demo_pids : pids_ok (procs kernel3) 8.
Proof.
  split.
  - intros [|[|[|i]]] q Hq Hs; cbn in Hq; simplify_eq; cbn in *; (lia || done).
  - intros [|[|[|i]]] [|[|[|j]]] q q' Hq Hq' Hs Hs' E; cbn in Hq, Hq'; simplify_eq; done.
Qed.

Lemma allocproc_fresh_witness :
  wp allocproc kernel3 (fun r k' => pids_ok (procs k') (nextpid k')).
Proof.
  eapply wp_mono; [apply (allocproc_fresh kernel3 Demo.free0)|].
  - split; [done|]. apply (Demo.free_inv0 Demo.present1 0).
  - apply demo_pids.
  - cbn. lia.
  - closed.
  - closed.
  - by intros r k' (_ & H & _).
Defined.
End Instances.
