(* ===== verification/GrowTheorems.v ===== *)
(** * Growing and shrinking a process: growproc of proc.c

    Growing maps zeroed pages and encrypts whole pages' worth of them;
    shrinking unmaps pages and takes them out of the clock. *)

From S2P Require Import Prelude Memory Mmu Machine Spinlock Kalloc Vm PageTable VmProofs VmSpaces.
From S2P Require Import Encrypt ProcTable Clock ClockProofs Demo Proc ProcProofs.

Section Grow.
Context `{KI : KernelImage, PO : !PageOps, PA : !PageAllocator} {F : Type}.
Implicit Types k : kstate F.

Lemma switchuvm_self k p q l (Q : unit -> kstate F -> Prop) :
  pinv k p q l ->
  (forall k', kframe k k' -> procs k' = procs k -> mem (mach k') = mem (mach k) ->
     pinv k' p q l -> Q tt k') ->
  wp (switchuvm_proc (Some p)) k Q.
Proof.
  intros Hi HQ. cbn [switchuvm_proc]. wstep. eapply wp_getp; [apply Hi|]. wstep.
  eapply wp_getp; [apply Hi|]. apply wp_zoom.
  eapply (switchuvm_ok _ p); [apply Hi|apply Hi|by eapply pgdir_nonzero|].
  intros h2 Hr. apply HQ; [by split_and!|done|done|]. by apply pinv_regs.
Qed.

Lemma pinv_mach k s' p q l l' :
  pinv k p q l -> as_inv s' (pgdir q) l' -> same_regs (mach k) s' ->
  (forall v, user_vpn v -> enc_ok (pte_at (mem s') (pgdir q) v)) ->
  pinv (set_mach s' k) p q l'.
Proof.
  intros Hi Has (Hh & Hc & _) He. split; try done.
  - apply (proj2 (running_proper _ _ Hh p p eq_refl)), Hi.
  - apply (pi_proc Hi).
  - change (cr3 s' = V2P (pgdir q)). rewrite Hc. apply (pi_cr3 Hi).
  - apply (pi_kstack Hi).
Qed.

(** The end of [growproc]: the size is stored and the table reloaded. *)
Lemma growproc_finish k p q l size (Q : Z -> kstate F -> Prop) :
  pinv k p q l ->
  (forall k', kframe k k' -> procs k' = <[p := set_sz size q]> (procs k) ->
     mem (mach k') = mem (mach k) -> pinv k' p (set_sz size q) l -> Q 0 k') ->
  wp (setp p (set_sz size);; switchuvm_proc (Some p);; mret 0) k Q.
Proof.
  intros Hi HQ. wstep. eapply wp_setp_at; [apply Hi|].
  pose proof (pinv_proc _ _ _ (set_sz size q) _ Hi eq_refl eq_refl) as Hi1.
  wstep. eapply switchuvm_self; [exact Hi1|]. intros k' H1 H2 H3 H4. wstep. by apply HQ.
Qed.

(** ** Shrinking *)

Lemma shrinks_enc_ok k s' p q l l' lo hi :
  pinv k p q l -> shrinks (mach k) s' (pgdir q) l l' lo hi ->
  forall v, user_vpn v -> enc_ok (pte_at (mem s') (pgdir q) v).
Proof.
  intros Hi Hs v Hv. rewrite (sh_pte _ _ _ _ _ _ _ Hs) by (by apply user_vpn_ok).
  case_decide; [done|]. by apply (pi_enc Hi).
Qed.

Lemma growproc_shrink_spec k p q l n :
  pinv k p q l -> (Z.to_nat (inClock q) <= length (nodes q))%nat -> 0 <= inClock q ->
  sz q <= KERNBASE -> - sz q <= n < 0 ->
  let newsz := sz q + n in
  wp (growproc n) k (fun r k' => r = (if newsz =? 0 then -1 else 0) /\
    exists q1 s' l', dropped newsz 0 q q1 /\
      let q' := if newsz =? 0 then q1 else set_sz newsz q1 in
      procs k' = <[p := q']> (procs k) /\ kframe k k' /\ pinv k' p q' l' /\
      mem (mach k') = mem s' /\
      shrinks (mach k) s' (pgdir q) l l' ((newsz + 4095) / 4096) ((sz q + 4095) / 4096)).
Proof.
  intros Hi Hl Hc Hsz Hn newsz. unfold growproc. wstep. eapply wp_myproc; [apply Hi|]. intros h Hh.
  pose proof (pinv_hart k p q l h Hi Hh) as Hi1. wsteps. eapply wp_getp; [apply Hi1|].
  wsteps. eapply wp_getp; [apply Hi1|]. cbv zeta.
  rewrite (proj2 (Z.ltb_ge 0 n)), (proj2 (Z.ltb_lt n 0)) by lia.
  replace (u32 (sz q + n)) with newsz by (symmetry; apply Z.mod_small; unfold newsz; consts; lia).
  wstep. eapply wp_getp; [apply Hi1|]. wstep.
  eapply wp_mono; [apply (drop_nodes_spec _ _ p q newsz 0); [apply Hi1|done|lia|lia]|].
  intros _ k1 (q1 & -> & D).
  assert (pgdir q1 = pgdir q /\ kstack q1 = kstack q) as [Epd Eks]
    by (rewrite (dr_proc _ _ _ _ D); by destruct q).
  pose proof (pinv_proc _ _ _ q1 _ Hi1 Epd Eks) as Hi2.
  wstep. apply wp_zoom. eapply wp_mono; [apply (deallocuvm_spec _ _ l); [|unfold newsz; lia|done]|].
  { rewrite <- Epd. apply (pi_as Hi2). }
  intros size s' (-> & l' & Hs). rewrite Z.min_r by (unfold newsz; lia).
  assert (shrinks (mach k) s' (pgdir q) l l' ((newsz + 4095) / 4096) ((sz q + 4095) / 4096)) as Hs0.
  { destruct Hs as [S1 S2 S3 S4 (E & ? & ?) S6]. split; try done. by split_and!; rewrite ?E. }
  assert (pinv (update machL s' (with_proc (update hartL h k) p q1)) p q1 l') as Hi3.
  { rewrite <- Epd in Hs, Hs0.
    apply (pinv_mach _ s' _ _ l); [exact Hi2|apply Hs|apply Hs|by eapply shrinks_enc_ok]. }
  destruct (Z.eqb_spec newsz 0) as [E0|E0].
  - wstep. split; [done|]. exists q1, s', l'. by split_and!.
  - eapply growproc_finish; [exact Hi3|]. intros k' Hk' Hp' Hm' Hi'.
    split; [done|]. exists q1, s', l'. split; [done|]. split.
    { rewrite Hp'. apply list_insert_insert_eq. }
    by split_and!.
Qed.

(** C24: Shrinking a process by [-n] bytes to a size other than 0 returns 0 and
    stores the new size; exactly the pages above the new size are unmapped
    and their frames freed; the clock keeps, in order, exactly the nodes below
    the new size.  Shrinking to 0 frees the pages in the same way, but returns
    -1 and leaves the old size in place. *)
Theorem growproc_shrinks k p q l n :
  pinv k p q l -> clock_inv k q -> sz q <= KERNBASE -> - sz q <= n < 0 ->
  let newsz := sz q + n in let m := mem (mach k) in
  let gone v := (newsz + 4095) / 4096 <= v < (sz q + 4095) / 4096 /\ mapped (pte_at m (pgdir q) v) = true in
  wp (growproc n) k (fun r k' => exists q' l', let m' := mem (mach k') in
    procs k' = <[p := q']> (procs k) /\ pinv k' p q' l' /\
    (newsz <> 0 -> r = 0 /\ sz q' = newsz) /\ (newsz = 0 -> r = -1 /\ sz q' = sz q) /\
    take (Z.to_nat (inClock q')) (nodes q') =
      filter (fun a => a < newsz) (take (Z.to_nat (inClock q)) (nodes q)) /\
    0 <= inClock q' <= inClock q /\
    (forall v, vpn_ok v -> (gone v -> pte_at m' (pgdir q) v = 0) /\
       (~ gone v -> pte_at m' (pgdir q) v = pte_at m (pgdir q) v)) /\
    (forall f, (f ∈ l') <-> (f ∈ l) \/ exists v, gone v /\ f = frame (pte_at m (pgdir q) v))).
Proof.
  intros Hi Hc Hsz Hn newsz m gone. pose proof (ci_len _ _ Hc) as Hl. pose proof (ci_count _ _ Hc) as Hcnt.
  eapply wp_mono; [apply (growproc_shrink_spec k p q l n); (done || lia)|]. fold newsz. cbv zeta.
  intros r k' (-> & q1 & s' & l' & D & Hp & _ & Hi' & Hm & Hs).
  set (q' := if newsz =? 0 then q1 else set_sz newsz q1) in *. exists q', l'. split; [done|]. split; [done|].
  assert (inClock q' = inClock q1 /\ nodes q' = nodes q1) as [-> ->] by (unfold q'; by destruct (_ =? _)).
  split; [unfold q'; intros E; by rewrite (proj2 (Z.eqb_neq _ _) E)|]. split.
  { intros E. unfold q'. rewrite (proj2 (Z.eqb_eq _ _) E). split; [done|].
    rewrite (dr_proc _ _ _ _ D). by destruct q. }
  split; [apply (dr_live _ _ _ _ D)|]. split.
  { rewrite (dr_count _ _ _ _ D), drop_0.
    pose proof (length_filter (fun a => a < newsz) (take (Z.to_nat (inClock q)) (nodes q))) as Hf.
    rewrite length_take in Hf. lia. }
  rewrite Hm. split.
  - intros v Hv. rewrite (sh_pte _ _ _ _ _ _ _ Hs v Hv). unfold gone, m.
    split; intros H; [by rewrite decide_True|by rewrite decide_False].
  - intros f. rewrite (sh_free _ _ _ _ _ _ _ Hs). unfold gone, m.
    split; (intros [H|(v & H)]; [by left|right; exists v; tauto]).
Qed.

(** ** Growing *)

Lemma mapped_table m pd v : mapped (pte_at m pd v) = true -> pde_present m pd (v / 1024) = true.
Proof. unfold pte_at. by destruct (pde_present _ _ _). Qed.

(** The entry of a fresh page. *)
Lemma uperm_entry f : page_ok f ->
  let w := map_entry (V2P f) (uperm 0) in
  flag w PTE_P = true /\ flag w PTE_E = false /\ flag w PTE_U = true /\ flag w PTE_W = true /\
  mapped w = true /\ PTE_ADDR w = V2P f.
Proof.
  intros Hf. destruct (page_ok_phys f Hf) as (H1 & H2 & H3).
  destruct (map_entry_page f (uperm 0) Hf (uperm_bound 0)) as [Hm Hfr]. cbv zeta.
  assert (map_entry (V2P f) (uperm 0) = Z.lor (V2P f) 7) as E
    by (unfold map_entry; change (flag (uperm 0) PTE_E) with false; cbn iota; by rewrite <- Z.lor_assoc).
  rewrite E in *. split_and!; try done.
  1-4: flags; rewrite ?testbit_aligned by (done || lia); done.
  by apply PTE_ADDR_make.
Qed.

Lemma extends_enc_ok k s1 p q l l1 lo hi :
  pinv k p q l -> extends (mach k) s1 (pgdir q) l l1 [] lo hi uperm zeroed ->
  forall v, user_vpn v -> enc_ok (pte_at (mem s1) (pgdir q) v).
Proof.
  intros Hi He v Hv. destruct (decide (lo <= v < hi)) as [Hr|Hr].
  - destruct (ex_new He v Hr) as (f & _ & Hok & -> & _). intros _ _.
    destruct (uperm_entry f Hok) as (H1 & H2 & _ & H4 & _).
    change (uperm v) with (uperm 0). by rewrite H1, H2, H4.
  - rewrite (ex_pte He v) by (done || by apply user_vpn_ok). by apply (pi_enc Hi).
Qed.

(** The pages that were there keep their contents. *)
Lemma extends_lbyte s s1 pd l l1 lo hi v j :
  extends s s1 pd l l1 [] lo hi uperm zeroed -> as_inv s pd l -> user_vpn v -> ~ (lo <= v < hi) ->
  mapped (pte_at (mem s) pd v) = true -> 0 <= j < 4096 ->
  lbyte (mem s1) pd v j = lbyte (mem s) pd v j.
Proof.
  intros He Hi Hv Hr Hm Hj. destruct (ai_frame _ _ _ Hi v Hv Hm) as [Hok _]. unfold lbyte.
  rewrite (ex_pte He v) by (done || by apply user_vpn_ok).
  pose proof (extends_frame _ _ _ _ _ _ _ _ _ _ _ j He Hi Hok) as Hb. unfold frame in Hb at 2 3.
  rewrite V2P_P2V_u32 in Hb by apply PTE_ADDR_u32, pte_u32. rewrite Hb; [done| |done]. by exists v.
Qed.

(** The new pages after [mencrypt] has run over the first [c] of them. *)
Lemma grown_page s1 m' pd lo c v f :
  page_ok f -> user_vpn v -> pte_at (mem s1) pd v = map_entry (V2P f) (uperm v) ->
  (forall j, 0 <= j < 4096 -> load8 (mem s1) (V2P f + j) = 0) ->
  recrypted (mem s1) m' pd (encrypted (mem s1) pd lo c) ->
  let w := pte_at m' pd v in
  mapped w = true /\ flag w PTE_U = true /\ flag w PTE_W = true /\
  flag w PTE_E = bool_decide (lo <= v < lo + c) /\
  forall j, 0 <= j < 4096 -> lbyte m' pd v j = 0.
Proof.
  intros Hf Hv E Hz R. change (uperm v) with (uperm 0) in E.
  destruct (uperm_entry f Hf) as (HP & HE & HU & HW & Hm & HA). rewrite <- E in *. cbv zeta.
  split; [by rewrite (proj1 (rc_frame R v Hv))|].
  assert (forall j, 0 <= j < 4096 -> lbyte m' pd v j = 0) as Hlb.
  { intros j Hj. rewrite (rc_bytes R) by done. unfold lbyte. rewrite HE, HA. auto. }
  rewrite (rc_pte R) by (by apply user_vpn_ok). unfold encrypted, encrypts. rewrite HU, HE. cbn [negb andb].
  destruct (bool_decide _) eqn:Eb; cbn [andb]; [|done].
  destruct (enc_entry_flags (pte_at (mem s1) pd v)) as (-> & _ & _ & -> & ->). done.
Qed.

(** The call of [mencrypt] in [growproc] encrypts whole new pages. *)
Lemma growproc_encrypt k p q l n :
  pinv k p q l -> 0 <= sz q -> 0 < n -> sz q + n < KERNBASE ->
  let m := mem (mach k) in let lo := (sz q + 4095) / 4096 in
  (forall v, lo <= v < lo + n / PGSIZE -> mapped (pte_at m (pgdir q) v) = true) ->
  wp (if sz q mod PGSIZE =? 0 then mencrypt (sz q) (n / PGSIZE)
      else mencrypt (PGROUNDUP (sz q)) (n / PGSIZE)) k (fun _ k' =>
    procs k' = procs k /\ pinv k' p q l /\
    recrypted m (mem (mach k')) (pgdir q) (encrypted m (pgdir q) lo (n / PGSIZE))).
Proof.
  intros Hi Hs Hn Hk m lo Hmap. change PGSIZE with 4096 in *.
  replace (if _ =? 0 then _ else _) with (mencrypt (F := F) (4096 * lo) (n / 4096)).
  2:{ destruct (Z.eqb_spec (sz q mod 4096) 0); f_equal; [|rewrite PGROUNDUP_eq by (consts; lia)];
        unfold lo; dlia. }
  eapply wp_mono; [apply (mencrypt_spec k p q l); [done|..]; rewrite ?page_vpn|].
  - unfold lo. consts. dlia.
  - unfold lo. consts. dlia.
  - intros v Hv. by apply mapped_table, Hmap.
  - rewrite page_vpn. intros _ k' (_ & Hp & Hi' & [(_ & _ & R)|(_ & (v & Hv & _ & Hu) & _)]); [done|].
    fold m in Hu. by rewrite (Hmap v Hv) in Hu.
Qed.

(** C25: Growing a process within the user half by [n] bytes either returns -1
    with the process and the mapping of every page as before, or returns 0
    with the new size: the old pages keep their entries and contents, every
    page between the sizes is a user page of zero bytes, and exactly the first
    [n / PGSIZE] of them are encrypted. *)
Theorem growproc_grows k p q l n :
  pinv k p q l -> 0 <= sz q -> 0 < n -> sz q + n < KERNBASE ->
  let m := mem (mach k) in let pd := pgdir q in
  let lo := (sz q + 4095) / 4096 in let hi := (sz q + n + 4095) / 4096 in
  (forall v, lo <= v < hi -> mapped (pte_at m pd v) = false) ->
  wp (growproc n) k (fun r k' => let m' := mem (mach k') in
    r = -1 /\ procs k' = procs k /\
      (forall v, vpn_ok v -> ~ (lo <= v < hi) -> pte_at m' pd v = pte_at m pd v) /\
      (forall v, lo <= v < hi -> mapped (pte_at m' pd v) = false) \/
    r = 0 /\ (exists l', pinv k' p (set_sz (sz q + n) q) l') /\
      procs k' = <[p := set_sz (sz q + n) q]> (procs k) /\
      (forall v, user_vpn v -> ~ (lo <= v < hi) -> pte_at m' pd v = pte_at m pd v /\
         (mapped (pte_at m pd v) = true -> forall j, 0 <= j < 4096 -> lbyte m' pd v j = lbyte m pd v j)) /\
      (forall v, lo <= v < hi -> let w := pte_at m' pd v in
         mapped w = true /\ flag w PTE_U = true /\ flag w PTE_W = true /\
         flag w PTE_E = bool_decide (v < lo + n / PGSIZE) /\
         forall j, 0 <= j < 4096 -> lbyte m' pd v j = 0)).
Proof.
  intros Hi Hs Hn Hk m pd lo hi Hun.
  unfold growproc. wstep. eapply wp_myproc; [apply Hi|]. intros h Hh.
  pose proof (pinv_hart k p q l h Hi Hh) as Hi1. wsteps. eapply wp_getp; [apply Hi1|].
  wsteps. eapply wp_getp; [apply Hi1|]. cbv zeta.
  rewrite (proj2 (Z.ltb_lt 0 n)) by lia.
  replace (u32 (sz q + n)) with (sz q + n) by (symmetry; apply Z.mod_small; consts; lia).
  wstep. apply wp_zoom.
  eapply wp_mono; [apply (allocuvm_spec _ _ _ _ l); [apply (pi_as Hi1)|lia|lia|done|exact Hun]|].
  cbv zeta. intros r s1 [(-> & l1 & He)|(-> & Hr)].
  2:{ rewrite Z.eqb_refl. wstep. left. destruct Hr as (l' & _ & H1 & H2 & _). by split_and!. }
  rewrite (proj2 (Z.eqb_neq _ _)) by lia. fold lo hi in He.
  assert (pinv (update machL s1 (update hartL h k)) p q l1) as Hi2.
  { apply (pinv_mach _ s1 _ _ l); [exact Hi1|apply (ex_inv He)|apply (ex_regs He)|].
    by apply (extends_enc_ok _ _ _ _ _ _ _ _ Hi1 He). }
  assert (lo + n / 4096 <= hi /\ hi <= 524288 /\ 0 <= lo) as (Hb1 & Hb2 & Hb3) by (unfold lo, hi; consts; dlia).
  wstep. eapply wp_mono; [apply (growproc_encrypt _ p q l1 n Hi2); [done..|]|].
  { change PGSIZE with 4096. fold lo. intros v Hv.
    destruct (ex_new He v) as (f & _ & Hok & E & _); [lia|]. cbn [mem mach update machL set_mach].
    rewrite E. by apply map_entry_page, uperm_bound. }
  cbn [mem mach update machL set_mach]. fold lo. intros _ k2 (Hp2 & Hi3 & R).
  eapply growproc_finish; [exact Hi3|]. intros k' _ Hp' -> Hi'. right. split; [done|].
  split; [by exists l1|]. split; [by rewrite Hp', Hp2|]. change PGSIZE with 4096 in *. split.
  - intros v Hv Hr. assert (pte_at (mem s1) pd v = pte_at m pd v) as E1
      by (apply (ex_pte He v); [by apply user_vpn_ok|done]).
    split.
    + rewrite (rc_pte R) by (by apply user_vpn_ok). unfold encrypted. fold pd. rewrite E1.
      by rewrite bool_decide_false by lia.
    + intros Hm j Hj. fold pd in R. rewrite (rc_bytes R) by (rewrite ?E1; done).
      by apply (extends_lbyte _ _ _ _ _ _ _ _ _ He (pi_as Hi1)).
  - intros v Hv. destruct (ex_new He v Hv) as (f & _ & Hok & E & Hz).
    destruct (grown_page s1 (mem (mach k2)) pd lo (n / 4096) v f) as (H1 & H2 & H3 & H4 & H5);
      [done|unfold user_vpn; lia|done|done|done|].
    do 3 (split; [done|]). rewrite H4. split; [|done]. apply bool_decide_ext. lia.
Qed.

(** ** The hand after shrinking *)

(** Entering a page into a clock that is neither empty nor full, wherever
    the hand points. *)
Lemma clock_insert_at k p q l add :
  pinv k p q l -> length (nodes q) = 8%nat -> 0 < inClock q < 8 -> 0 <= currInd q < 8 ->
  wp (clock_insert (pgdir q) add) k (fun _ k' => exists q', pinv k' p q' l /\
    procs k' = <[p := q']> (procs k) /\ inClock q' = inClock q + 1 /\
    nodes q' = <[Z.to_nat (currInd q) := add]> (nodes q)).
Proof.
  intros Hi Hl Hc Hh. unfold clock_insert.
  wstep. apply (step_mygetp _ _ _ _ Hi). intros k1 _ Hp1 _ Hi1.
  rewrite (proj2 (Z.eqb_neq _ _)) by lia.
  wstep. apply (step_mygetp _ _ _ _ Hi1). intros k2 _ Hp2 _ Hi2.
  unfold CLOCKSIZE. rewrite (proj2 (Z.ltb_lt _ _)) by lia.
  wstep. apply (step_mygetp _ _ _ _ Hi2). intros k3 _ Hp3 _ Hi3.
  wstep. apply (step_set_node _ _ _ _ Hi3); [done|done|]. intros q4 k4 _ Hp4 _ Hi4.
  wstep. apply (step_mysetp _ _ _ _ Hi4); [done|done|]. intros k5 _ Hp5 _ Hi5.
  apply (step_mysetp _ _ _ _ Hi5); [done|done|]. intros k6 _ Hp6 _ Hi6.
  eexists. split; [exact Hi6|]. split; [by rewrite Hp6, Hp5, Hp4, Hp3, Hp2, Hp1, !list_insert_insert_eq|]. done.
Qed.

(** The stored bytes of a page that is not unmapped. *)
Lemma shrinks_byte s s' pd l l' lo hi v j :
  as_inv s pd l -> shrinks s s' pd l l' lo hi -> 0 <= lo -> hi <= 524288 -> user_vpn v -> ~ lo <= v < hi ->
  mapped (pte_at (mem s) pd v) = true -> 0 <= j < 4096 ->
  load8 (mem s') (PTE_ADDR (pte_at (mem s) pd v) + j) = load8 (mem s) (PTE_ADDR (pte_at (mem s) pd v) + j).
Proof.
  intros Hi Hs Hlo Hhi Hu Hv Hm Hj. apply (sh_mem _ _ _ _ _ _ _ Hs).
  - intros x Hx. by eapply frame_not_table.
  - intros x Hx Hmx Hin. assert (user_vpn x) as Hux by (unfold user_vpn; lia).
    destruct (ai_frame _ _ _ Hi x Hux Hmx) as (Hokx & _), (ai_frame _ _ _ Hi v Hu Hm) as (Hok & _).
    assert (x = v) as ->; [|done]. apply (ai_inj _ _ _ Hi x v Hux Hu Hmx Hm).
    eapply Impl.in_page_disj; [done|done|done|]. apply in_frame; [apply pte_u32|done].
Qed.

(** The clock after the page entered last has gone and another one has stayed. *)
Lemma dropped_hand k q q1 newsz a :
  clock_inv k q -> inClock q < 8 ->
  let live := take (Z.to_nat (inClock q)) (nodes q) in
  last live = Some a -> newsz <= a -> Exists (fun b => b < newsz) live -> dropped newsz 0 q q1 ->
  0 < inClock q1 < inClock q /\ currInd q1 = inClock q1 + 1 /\ length (nodes q1) = 8%nat /\
  nodes q1 !! Z.to_nat (inClock q1) = Some 0xFFFFFFFF.
Proof.
  intros Hc H8 live Hlast Ha Hex D. pose proof (ci_len _ _ Hc) as Hl. pose proof (ci_count _ _ Hc) as Hcnt.
  assert (0 < inClock q) as Hpos.
  { destruct (decide (inClock q = 0)) as [E|]; [|lia]. unfold live in Hlast. by rewrite E in Hlast. }
  pose proof (dr_count _ _ _ _ D) as Hcount. rewrite drop_0 in Hcount. fold live in Hcount.
  assert (drops_last newsz live = true) as Hd by (unfold drops_last; rewrite Hlast; by apply Z.leb_le).
  pose proof (drops_last_length newsz live Hd) as Hlt.
  unfold live in Hlt at 2. rewrite length_take, Nat.min_l in Hlt by lia.
  assert (0 < inClock q1) as Hpos1.
  { rewrite Hcount. apply Exists_exists in Hex as (b & Hb1 & Hb2).
    assert (b ∈ filter (fun a => a < newsz) live) as Hin by (by apply list_elem_of_filter).
    destruct (filter _ live); [by apply not_elem_of_nil in Hin|]. cbn. lia. }
  split; [lia|]. split; [|split; [by rewrite (dr_length _ _ _ _ D)|]].
  - rewrite (dr_hand _ _ _ _ D), drop_0. fold live. unfold hand_after. rewrite Hd.
    destruct (Z.eqb_spec (inClock q1) (inClock q - 1)); [|done].
    rewrite (proj1 (ci_hand _ _ Hc)) by lia. lia.
  - rewrite (dr_dead _ _ _ _ D) by lia. by rewrite (proj2 (Z.ltb_lt _ _)) by lia.
Qed.

(** C37: When a process with a clock that is not full shrinks so that the page
    entered last goes and another one of the clock stays, [growproc] leaves the
    hand one past the first vacant node instead of at it.  A page of the
    process that is decrypted next, by [mdecrypt], is entered after the vacant
    node, which the clock then counts as one of its pages: the clock is not
    well-formed any more. *)
Theorem shrink_leaves_hole k p q l n a va :
  pinv k p q l -> clock_inv k q -> sz q <= KERNBASE -> - sz q < n < 0 -> inClock q < 8 ->
  let live := take (Z.to_nat (inClock q)) (nodes q) in
  last live = Some a -> sz q + n <= a -> Exists (fun b => b < sz q + n) live ->
  let m := mem (mach k) in let vpn := va / 4096 in let w := pte_at m (pgdir q) vpn in
  0 <= vpn < (sz q + n + 4095) / 4096 -> flag w PTE_E = true -> flag w PTE_U = true -> load8 m (PTE_ADDR w) <> 0 ->
  wp (growproc n) k (fun r1 k1 => r1 = 0 /\ exists q1, procs k1 !! p = Some q1 /\
    0 < inClock q1 < inClock q /\ currInd q1 = inClock q1 + 1 /\ nodes q1 !! Z.to_nat (inClock q1) = Some 0xFFFFFFFF /\
    wp (mdecrypt va) k1 (fun r2 k2 => r2 = 0 /\ exists q2, procs k2 !! p = Some q2 /\
      inClock q2 = inClock q1 + 1 /\ nodes q2 !! Z.to_nat (inClock q1) = Some 0xFFFFFFFF /\
      nodes q2 !! Z.to_nat (inClock q1 + 1) = Some (4096 * vpn) /\ ~ clock_inv k2 q2)).
Proof.
  intros Hi Hc Hsz Hn H8 live Hlast Ha Hex m vpn w Hvpn HE HU Hb. pose proof (ci_count _ _ Hc) as Hcnt.
  pose proof (ci_len _ _ Hc) as Hl.
  eapply wp_mono; [apply (growproc_shrink_spec k p q l n); (done || lia)|]. cbv zeta.
  intros r k1 (-> & q1 & s' & l' & D & Hp & _ & Hi1 & Hm & Hs). rewrite (proj2 (Z.eqb_neq _ _)) in * by lia.
  split; [done|]. destruct (dropped_hand k q q1 (sz q + n) a Hc H8 Hlast Ha Hex D) as (Hc1 & Hh1 & Hl1 & Hv1).
  assert (user_vpn vpn) as Hu by (unfold user_vpn; consts; dlia).
  assert (pgdir q1 = pgdir q) as Epd by (rewrite (dr_proc _ _ _ _ D); by destruct q).
  assert (mapped w = true) as Hmw by (unfold mapped; rewrite flag_lor, HE; apply orb_true_r).
  assert (pte_at (mem (mach k1)) (pgdir q) vpn = w) as Ew.
  { rewrite Hm, (sh_pte _ _ _ _ _ _ _ Hs) by (by apply user_vpn_ok). rewrite decide_False; [done|]. lia. }
  assert (load8 (mem (mach k1)) (PTE_ADDR w) = load8 m (PTE_ADDR w)) as Eb.
  { rewrite <- (Z.add_0_r (PTE_ADDR w)), Hm. eapply (shrinks_byte (mach k)); try done; [apply Hi|..]; consts; dlia. }
  exists (set_sz (sz q + n) q1). split; [rewrite Hp; apply list_lookup_insert_eq; by eapply lookup_lt_Some, (pi_proc Hi)|].
  split; [done|]. split; [done|]. split; [done|].
  eapply (mdecrypt_enters k1 p (set_sz (sz q + n) q1) l'); [done|done|..]; cbn [pgdir set_sz]; rewrite ?Epd; fold vpn; rewrite ?Ew.
  { apply mapped_table. by rewrite Ew. } { by rewrite HE, HU. } { by rewrite Eb. }
  intros k2 _ Hp2 Hi2 _. rewrite <- Epd.
  eapply wp_mono; [apply (clock_insert_at k2 p (set_sz (sz q + n) q1) l'); cbn; (done || lia)|].
  cbn. rewrite Hh1. intros _ k3 (q' & Hi3 & Hp3 & Hc3 & Hn3). exists q'. split; [exact Hi3|].
  intros k4 _ Hp4 _ _. split; [done|]. exists q'.
  assert (nodes q' !! Z.to_nat (inClock q1) = Some 0xFFFFFFFF) as Hv by (by rewrite Hn3, list_lookup_insert_ne by lia).
  split; [rewrite Hp4, Hp3, Hp2, Hp, list_insert_insert_eq; apply list_lookup_insert_eq; by eapply lookup_lt_Some, (pi_proc Hi)|].
  split; [done|]. split; [done|]. split; [rewrite Hn3; apply list_lookup_insert_eq; lia|].
  intros Hc'. destruct (ci_user _ _ Hc' (inClock q1)) as (_ & Hu' & _); [lia|].
  unfold node_at in Hu'. rewrite (list_lookup_total_correct _ _ _ Hv) in Hu'. by destruct Hu'.
Qed.
End Grow.

(** ** Instances *)

Section Instances.
Abbreviation kernel2 := (Demo.kernel2 Demo.present1 0).

Lemma growproc_shrinks_witness :
  wp (growproc (-4096)) kernel2 (fun r k' => r = 0 /\ exists q', procs k' = [q'] /\
    take (Z.to_nat (inClock q')) (nodes q') = [0]).
Proof.
  eapply wp_mono.
  - apply (growproc_shrinks kernel2 0 Demo.proc2 Demo.free0 (-4096)
      (Demo.pinv_of _ _ (or_introl eq_refl) _ _) (Demo.clock_inv2 _ _)); closed.
  - cbv zeta. intros r k' (q' & l' & Hp & _ & Hr & _ & Hn & _).
    destruct Hr as [-> _]; [done|]. split; [done|]. by exists q'.
Defined.

Lemma growproc_grows_witness :
  wp (growproc 4096) kernel2 (fun r k' =>
    r = -1 /\ procs k' = [Demo.proc2] \/ r = 0 /\ procs k' = [set_sz 12288 Demo.proc2]).
Proof.
  eapply wp_mono.
  - apply (growproc_grows kernel2 0 Demo.proc2 Demo.free0 4096
      (Demo.pinv_of _ _ (or_introl eq_refl) _ _)); cbn [Demo.proc2 Demo.proc_of sz]; [lia|lia|closed|].
    intros v Hv. change ((8192 + 4095) / 4096) with 2 in Hv. change ((8192 + 4096 + 4095) / 4096) with 3 in Hv.
    assert (v = 2) as -> by lia. change (mem (mach kernel2)) with (Demo.memory0 Demo.present1 0).
    by rewrite Demo.pte0 by closed.
  - cbv zeta. intros r k' [(-> & H & _)|(-> & _ & H & _)]; [by left|by right].
Defined.

Lemma shrink_leaves_hole_witness :
  wp (growproc (-4096)) (Demo.kernel3p Demo.encrypted1 0x9e) (fun r1 k1 => exists q1, procs k1 !! 0%nat = Some q1 /\
    currInd q1 = inClock q1 + 1 /\ wp (mdecrypt 4100) k1 (fun r2 k2 => exists q2, procs k2 !! 0%nat = Some q2 /\
      nodes q2 !! Z.to_nat (inClock q1) = Some 0xFFFFFFFF /\ inClock q2 = inClock q1 + 1 /\ ~ clock_inv k2 q2)).
Proof.
  eapply wp_mono.
  - apply (shrink_leaves_hole (Demo.kernel3p Demo.encrypted1 0x9e) 0 Demo.proc3p Demo.free0 (-4096) 8192 4100
      (Demo.pinv3p _ _ (or_intror eq_refl)) (Demo.clock_inv3p _ _)); 
      change (mem (mach (Demo.kernel3p _ _))) with (Demo.memory0 Demo.encrypted1 0x9e);
      change (pgdir Demo.proc3p) with Demo.pgdir; change (4100 / 4096) with 1; rewrite ?Demo.pte0 by closed;
      [closed|closed|closed|done|closed| |closed|done|done|].
    + apply Exists_cons_hd. closed.
    + by vm_compute.
  - intros r k1 (_ & q1 & H1 & _ & H2 & _ & H3). exists q1. split; [done|]. split; [done|]. eapply wp_mono; [exact H3|].
    intros r2 k2 (_ & q2 & H4 & H5 & H6 & _ & H7). by exists q2.
Defined.
End Instances.
