(* ===== verification/ForkProofs.v ===== *)
(** * fork of proc.c

    The steps of [fork]: the slot and kernel stack from [allocproc], the
    copied address space, the copied clock, the trap frame with its result 0,
    the open files, and the publication of the child. *)

From S2P Require Import Prelude Memory Mmu Machine Spinlock Kalloc Vm PageTable VmProofs VmSpaces.
From S2P Require Import Encrypt ProcTable Clock ClockProofs Demo Proc ProcProofs GrowTheorems.

(** Equality of two kernel states built by assignments. *)
Ltac kstate_eq :=
  cbv [unlocked with_proc set_files set_mach set_ptable_lock set_procs set_nextpid update hartL
    kstate_hart machine_hart compose machL set_hw set_mem view
    mach ptable_lock procs nextpid initproc ticks tickslock files
    mem kmem_lock use_lock freelist hw cr3 tr];
  reflexivity.

(** ** Address spaces that are not touched *)

Section Outside.
Context `{KI : KernelImage, PO : !PageOps, PA : !PageAllocator}.
Implicit Types s : machine.

(** Page [v] belongs to the address space of [pd]. *)
Definition owned (m : memory) (pd v : Z) : Prop := tpage m pd v \/ uframe m pd v.

Lemma owned_ok s pd l v : as_inv s pd l -> owned (mem s) pd v -> page_ok v.
Proof.
  intros Hi [Ht|(vpn & Hu & Hm & ->)].
  - eapply tpage_ok; [apply Hi|done].
  - by apply (ai_frame _ _ _ Hi).
Qed.

(** The entries and the bytes of all user pages agree. *)
Definition same_space (m m' : memory) (pd : Z) : Prop :=
  (forall v, vpn_ok v -> pte_at m' pd v = pte_at m pd v) /\
  (forall d, 0 <= d < 1024 -> pde_present m' pd d = pde_present m pd d) /\
  (forall v j, user_vpn v -> mapped (pte_at m pd v) = true -> 0 <= j < 4096 ->
     load8 m' (PTE_ADDR (pte_at m pd v) + j) = load8 m (PTE_ADDR (pte_at m pd v) + j)) /\
  (forall v, owned m' pd v <-> owned m pd v).

Lemma as_inv_outside s s' pd l l' :
  as_inv s pd l -> free_pages s' l' -> (forall v, v ∈ l' -> v ∈ l) ->
  (forall v a, owned (mem s) pd v -> in_page v a -> load8 (mem s') a = load8 (mem s) a) ->
  as_inv s' pd l' /\ same_space (mem s) (mem s') pd.
Proof.
  intros Hi Hf Hl Hm.
  assert (table_agree (mem s) (mem s') pd) as Ha by (intros v a Hv; apply Hm; by left).
  split; [eapply as_inv_agree; [done..|]; intros v Hv; left; auto|]. split_and!.
  - intros v Hv. by apply pte_agree.
  - intros d Hd. unfold pde_present. by rewrite (pde_agree _ _ _ _ Ha).
  - intros v j Hv Hmv Hj. apply (Hm (frame (pte_at (mem s) pd v))); [right; by exists v|].
    apply in_frame; [apply pte_u32|done].
  - intros v. unfold owned. by rewrite (tpage_agree _ _ _ _ Ha), (uframe_agree _ _ _ _ Ha).
Qed.

(** Changes in one page [x] that is neither free nor part of the space. *)
Lemma as_inv_page s m pd l x :
  as_inv s pd l -> page_ok x -> x ∉ l -> ~ owned (mem s) pd x ->
  (forall a, ~ in_page x a -> load8 m a = load8 (mem s) a) ->
  as_inv (set_mem m s) pd l /\ same_space (mem s) m pd.
Proof.
  intros Hi Hx Hl Ho Hm. apply (as_inv_outside s (set_mem m s) pd l l); [done| |done|].
  - apply free_pages_frame; [apply Hi|]. intros v a Hv Ha. apply Hm. intros Ha'.
    apply Hl. replace x with v; [done|]. eapply Impl.in_page_disj; eauto using free_page_ok.
  - intros v a Hv Ha. apply Hm. intros Ha'. apply Ho. replace x with v; [done|].
    eapply Impl.in_page_disj; eauto using owned_ok.
Qed.

Lemma same_space_trans m1 m2 m3 pd : same_space m1 m2 pd -> same_space m2 m3 pd -> same_space m1 m3 pd.
Proof.
  intros (A1 & A2 & A3 & A4) (B1 & B2 & B3 & B4). split_and!.
  - intros v Hv. by rewrite B1, A1.
  - intros d Hd. by rewrite B2, A2.
  - intros v j Hv Hm Hj. pose proof (user_vpn_ok _ Hv) as Hv'.
    rewrite <- A3 by done. rewrite <- A1 in * by done. by apply B3.
  - intros v. by rewrite B4, A4.
Qed.
End Outside.

(** ** The copy of the clock *)

Section ForkNodes.
Context `{KI : KernelImage, PO : !PageOps, PA : !PageAllocator} {F : Type}.
Implicit Types k : kstate F.

(** [ms] with its entries [i] to [c] taken from [ns]. *)
Definition copied (ns ms : list Z) (i c : nat) : list Z := take i ms ++ drop i (take c ns) ++ drop c ms.

Lemma copied_step ns ms i c a :
  ns !! i = Some a -> (i < c <= length ns)%nat -> (c <= length ms)%nat ->
  copied ns (<[i := a]> ms) (S i) c = copied ns ms i c.
Proof.
  intros Ha Hi Hc. unfold copied.
  rewrite (take_S_r _ i a) by (apply list_lookup_insert_eq; lia).
  rewrite take_insert_ge, (drop_insert_lt _ c) by lia. rewrite <- app_assoc. f_equal.
  destruct (live_cons ns i c Hi) as (a' & Ha' & E). rewrite Ha in Ha'. injection Ha' as <-. by rewrite E.
Qed.

Lemma copied_end ns ms c : (c <= length ns)%nat -> copied ns ms c c = ms.
Proof. intros H. unfold copied. rewrite drop_ge by (rewrite length_take; lia). cbn. apply take_drop. Qed.

(** A node whose page the parent and the child both map, present in the
    child only if present in the parent. *)
Definition forkable (m : memory) (pd cd a : Z) : Prop :=
  is_u32 a /\ user_vpn (a / 4096) /\ pde_present m pd (a / 4096 / 1024) = true /\
  pde_present m cd (a / 4096 / 1024) = true /\
  (flag (pte_at m cd (a / 4096)) PTE_P = true -> flag (pte_at m pd (a / 4096)) PTE_P = true).

Lemma fork_nodes_spec n k cur np q r l i c :
  procs k !! cur = Some q -> procs k !! np = Some r -> cur <> np ->
  as_inv (mach k) (pgdir q) l -> as_inv (mach k) (pgdir r) l ->
  inClock q = Z.of_nat c -> (i <= c <= length (nodes q))%nat -> (c <= length (nodes r))%nat ->
  (c - i < n)%nat ->
  (forall j a, (j < c)%nat -> nodes q !! j = Some a -> forkable (mem (mach k)) (pgdir q) (pgdir r) a) ->
  wp (fork_nodes cur np (Z.of_nat i) n) k (fun _ k' =>
    k' = with_proc k np (set_nodes (copied (nodes q) (nodes r) i c) r)).
Proof.
  revert k r i. induction n as [|n IH]; intros k r i Hq Hr Hne Hi Hj Hc Hb Hb' Hn Hf; [lia|]. cbn [fork_nodes].
  wstep. eapply wp_getp; [done|]. rewrite Hc.
  destruct (Z.ltb_spec (Z.of_nat i) (Z.of_nat c)) as [Hlt|Hge]; cbn [negb].
  2:{ wstep. replace i with c by lia. rewrite copied_end by lia.
      rewrite with_proc_same; [done|]. rewrite Hr. by destruct r. }
  destruct (lookup_lt_is_Some_2 (nodes q) i) as [a Ha]; [lia|].
  destruct (Hf i a) as (Hu & Hv & Hp & Hp' & HP); [lia|done|].
  wstep. eapply wp_getp; [done|]. wstep. eapply wp_peek_node; [done|done|].
  wstep. apply wp_zoom. eapply (wp_walk _ _ _ _ Hi Hv Hp); [done|]. rewrite update_mach.
  wstep. eapply wp_put_node; [done|lia|]. set (r' := set_nodes (<[i := a]> (nodes r)) r).
  assert (as_inv (mach (with_proc k np r')) (pgdir r') l) as Hj' by exact Hj.
  wstep. eapply wp_getp; [by eapply lookup_with_proc|].
  wstep. apply wp_zoom. eapply (wp_walk _ _ _ _ Hj' Hv Hp'); [done|]. rewrite update_mach.
  wsteps. apply wp_zoom. eapply (wp_kload_pte _ _ _ _ Hi Hv Hp).
  change (update machL (mach k) (with_proc k np r')) with (with_proc k np r').
  assert (wp (if negb (flag (pte_at (mem (mach k)) (pgdir q) (a / 4096)) PTE_P) then
      cc ← nonnull (Some (kpte (mem (mach k)) (pgdir r) (a / 4096)));
      wc ← zoom machL (kload32 cc);
      when (flag wc PTE_P) (zoom machL (kstore32 cc (Z.ldiff wc PTE_P)))
    else mret tt) (with_proc k np r') (fun _ k' => k' = with_proc k np r')) as Hif.
  { destruct (flag (pte_at _ (pgdir q) _) PTE_P); cbn [negb]; [by wstep|]. wsteps. apply wp_zoom.
    eapply (wp_kload_pte _ _ _ _ Hj' Hv Hp'). rewrite update_mach.
    apply wp_when; [|done]. intros H. by apply HP in H. }
  wstep. eapply wp_mono; [exact Hif|]. intros _ k1 ->.
  replace (Z.of_nat i + 1) with (Z.of_nat (S i)) by lia.
  eapply wp_mono; [apply (IH _ r' (S i)); try done|].
  - unfold with_proc; cbn. by rewrite list_lookup_insert_ne.
  - by eapply lookup_with_proc.
  - lia.
  - cbn. by rewrite length_insert.
  - lia.
  - intros _ k' ->. rewrite with_proc_twice. cbn [nodes r' set_nodes]. by rewrite copied_step by (done || lia).
Qed.
End ForkNodes.

(** ** The copy of the open files *)

Section ForkFiles.
Context `{KI : KernelImage, PO : !PageOps} {F : Type} `{FO : FileOps F, FL : !FileLaws F}.
Implicit Types k : kstate F.

(** [os] with the entries of [fs] from [fd] to [fd + n] that are open. *)
Definition dup_at (fs os : list (option nat)) (fd n j : nat) : option (option nat) :=
  match fs !! j with
  | Some (Some f) => if bool_decide (fd <= j < fd + n)%nat then Some (Some f) else os !! j
  | _ => os !! j
  end.

(** From [x] to [y] at most one reference to each file has been taken. *)
Definition keeps (x y : F) : Prop :=
  (forall f n, file_open (S n) x f -> file_open n y f) /\ (forall d, dir_open x d -> dir_open y d).

Lemma dup_at_step fs os fd n j :
  length fs = length os ->
  dup_at fs (match fs !! fd with Some (Some f) => <[fd := Some f]> os | _ => os end) (S fd) n j =
  dup_at fs os fd (S n) j.
Proof.
  intros Hl. unfold dup_at. destruct (decide (j = fd)) as [->|Hne].
  - destruct (fs !! fd) as [[f|]|] eqn:E; [|done..].
    rewrite bool_decide_false, bool_decide_true by lia. apply list_lookup_insert_eq.
    rewrite <- Hl. by eapply lookup_lt_Some.
  - destruct (fs !! j) as [[f|]|].
    + destruct (bool_decide_reflect (S fd <= j < S fd + n)%nat);
        destruct (bool_decide_reflect (fd <= j < fd + S n)%nat); try done; try lia.
      destruct (fs !! fd) as [[g|]|]; [|done..]. by apply list_lookup_insert_ne.
    + destruct (fs !! fd) as [[g|]|]; [|done..]. by apply list_lookup_insert_ne.
    + destruct (fs !! fd) as [[g|]|]; [|done..]. by apply list_lookup_insert_ne.
Qed.

Lemma files_same k p r :
  procs k !! p = Some r ->
  k = set_files (files k) (update hartL (hw (mach k)) (with_proc k p (set_ofile (ofile r) r))).
Proof. intros H. rewrite with_proc_same by (rewrite H; by destruct r). by destruct k as [[] ? ? ? ? ? ? ?]. Qed.

Lemma fork_files_spec n k cur np q r fd :
  cpu_inv (hw (mach k)) -> procs k !! cur = Some q -> procs k !! np = Some r -> cur <> np ->
  length (ofile q) = length (ofile r) ->
  (forall j f, ofile q !! j = Some (Some f) -> file_open n (files k) f) ->
  wp (fork_files cur np fd n) k (fun _ k' => exists x h os, h ≡ hw (mach k) /\
    k' = set_files x (update hartL h (with_proc k np (set_ofile os r))) /\
    length os = length (ofile r) /\ (forall j, os !! j = dup_at (ofile q) (ofile r) fd n j) /\
    (forall d, dir_open (files k) d -> dir_open x d)).
Proof.
  revert k r fd. induction n as [|n IH]; intros k r fd Hc Hq Hr Hne Hl Ho; cbn [fork_files].
  { wstep. exists (files k), (hw (mach k)), (ofile r). split; [done|]. split.
    { by apply files_same. }
    split_and!; try done. intros j. unfold dup_at. rewrite bool_decide_false by lia.
    by destruct (ofile q !! j) as [[]|]. }
  wstep. eapply wp_getp; [done|].
  set (os1 := match ofile q !! fd with Some (Some f) => <[fd := Some f]> (ofile r) | _ => ofile r end).
  assert (length os1 = length (ofile r)) as Hl1.
  { unfold os1. destruct (ofile q !! fd) as [[f|]|]; [apply length_insert|done|done]. }
  wstep. eapply wp_mono with (P := fun _ k1 => exists x h, h ≡ hw (mach k) /\
    k1 = set_files x (update hartL h (with_proc k np (set_ofile os1 r))) /\ keeps (files k) x).
  - unfold os1. destruct (ofile q !! fd) as [[f|]|] eqn:E.
    + wstep. eapply wp_mono; [eapply filedup_spec; [done|by eapply Ho]|].
      intros g k1 (-> & x & h & Hh & -> & Hk1 & Hk2). eapply wp_setp_at; [exact Hr|]. by exists x, h.
    + wstep. exists (files k), (hw (mach k)). split; [done|]. split; [by apply files_same|split; [intros ? ?; apply file_open_less|done]].
    + wstep. exists (files k), (hw (mach k)). split; [done|]. split; [by apply files_same|split; [intros ? ?; apply file_open_less|done]].
  - intros _ k1 (x & h & Hh & -> & Hk1 & Hk2).
    eapply wp_mono; [eapply (IH _ (set_ofile os1 r) (S fd))|].
    + cbn. by rewrite Hh.
    + cbn. by rewrite list_lookup_insert_ne.
    + cbn. apply list_lookup_insert_eq. by eapply lookup_lt_Some.
    + done.
    + cbn. by rewrite Hl1.
    + cbn. intros j f Hf. by eapply Hk1, Ho.
    + intros _ k' (x2 & h2 & os & Hh2 & -> & Hlo & Hos & Hk3). exists x2, h2, os.
      split; [by rewrite Hh2, <- Hh|]. split.
      { unfold with_proc, set_procs, set_files. cbn. by rewrite list_insert_insert_eq. }
      split; [by rewrite Hlo|]. split; [|auto].
      intros j. rewrite Hos. by apply dup_at_step.
Qed.
End ForkFiles.

(** ** The child *)

Section ForkRest.
Context `{KI : KernelImage, PO : !PageOps, PA : !PageAllocator} {F : Type}.
Context `{FO : FileOps F, FL : !FileLaws F}.
Implicit Types k : kstate F.

(** The child's slot at the end, from the slot [r] that has the address space
    and the kernel stack; [os] are its open files. *)
Definition forked (cur : nat) (q r : proc) (os : list (option nat)) : proc :=
  set_state RUNNABLE (set_name (copy_name (name q) 15 (name r)) (set_cwd (cwd q) (set_ofile os
    (set_parent (Some cur) (set_sz (sz q)
      (set_nodes (copied (nodes q) (nodes r) 0 (Z.to_nat (inClock q)))
        (set_inClock (inClock q) (set_currInd (currInd q + 3) r)))))))).

(** Memory with the parent's trap frame at [ct] copied to [nt], and the
    child's result 0. *)
Definition frame_mem (m : memory) (nt ct : Z) : memory :=
  store32 (memmove m (V2P nt) (V2P ct) TF_SIZE) (V2P (nt + TF_eax)) 0.

Lemma frame_mem_frame m ks ct a :
  page_ok ks -> ~ in_page ks a -> load8 (frame_mem m (ks + 4020) ct) a = load8 m a.
Proof.
  intros Hk Ha. unfold in_page, PGSIZE in Ha. unfold frame_mem, TF_SIZE, TF_eax.
  replace (ks + 4020 + 28) with (ks + 4048) by lia. rewrite !V2P_offset by (done || lia).
  rewrite load8_store32_ne by lia. rewrite load8_memmove by lia. by rewrite decide_False by lia.
Qed.

(** The child's trap frame is the parent's, except for [eax]. *)
Lemma frame_mem_tf m ks ct j :
  page_ok ks -> 0 <= j < 76 ->
  load8 (frame_mem m (ks + 4020) ct) (V2P (ks + 4020) + j) =
    if bool_decide (28 <= j < 32) then 0 else load8 m (V2P ct + j).
Proof.
  intros Hk Hj. unfold frame_mem, TF_SIZE, TF_eax.
  replace (ks + 4020 + 28) with (ks + 4048) by lia. rewrite !V2P_offset by (done || lia).
  destruct (bool_decide_reflect (28 <= j < 32)).
  - replace (V2P ks + 4020 + j) with (V2P ks + 4048 + (j - 28)) by lia.
    rewrite load8_store32 by lia. by rewrite Z.div_0_l by lia.
  - rewrite load8_store32_ne by lia. rewrite load8_memmove, decide_True by lia. f_equal. lia.
Qed.

Lemma with_procs_twice k k0 p q q' :
  with_proc (set_procs (<[p := q]> (procs k)) k0) p q' = set_procs (<[p := q']> (procs k)) k0.
Proof. unfold with_proc, set_procs; cbn. by rewrite list_insert_insert_eq. Qed.

Lemma with_proc_mach k p q q' s :
  with_proc (set_mach s (with_proc k p q)) p q' = set_mach s (with_proc k p q').
Proof. unfold with_proc, set_procs; cbn. by rewrite list_insert_insert_eq. Qed.

(** The two processes when the address space has been copied. *)
Record fork_ready k (cur np : nat) (q r : proc) (l : list Z) (ks : Z) : Prop := {
  fr_inv : pinv k cur q l;
  fr_lock : locked (ptable_lock k) = 0;
  fr_slot : procs k !! np = Some r;
  fr_ne : cur <> np;
  fr_child : as_inv (mach k) (pgdir r) l;
  fr_stack : tf r = ks + 4020 /\ page_ok ks /\ (ks ∉ l) /\
    ~ owned (mem (mach k)) (pgdir q) ks /\ ~ owned (mem (mach k)) (pgdir r) ks;
  fr_count : 0 <= inClock q /\ (Z.to_nat (inClock q) <= length (nodes q))%nat /\
    (Z.to_nat (inClock q) <= length (nodes r))%nat;
  fr_nodes j a : (j < Z.to_nat (inClock q))%nat -> nodes q !! j = Some a ->
    forkable (mem (mach k)) (pgdir q) (pgdir r) a;
  fr_files : length (ofile q) = length (ofile r);
  fr_open j f : ofile q !! j = Some (Some f) -> file_open (Z.to_nat NOFILE) (files k) f;
  fr_cwd : dir_open (files k) (cwd q);
}.

Lemma fork_rest_spec k cur np q r l ks :
  fork_ready k cur np q r l ks ->
  wp (fork_rest cur np) k (fun n k' => n = pid r /\ exists x h os,
    h ≡ hw (mach k) /\ length os = length (ofile r) /\
    (forall j, os !! j = dup_at (ofile q) (ofile r) 0 16 j) /\
    k' = unlocked (set_files x (set_mach
      (set_hw h (set_mem (frame_mem (mem (mach k)) (ks + 4020) (tf q)) (mach k)))
      (with_proc k np (forked cur q r os))))).
Proof.
  intros [Hi Hl Hr Hne Ha (Htf & Hks & _) (Hc0 & Hc1 & Hc2) Hn Hfl Hop Hcw].
  pose proof (pi_proc Hi) as Hq. assert (np < length (procs k))%nat as Hnp by (by eapply lookup_lt_Some).
  pose proof (running_cpu _ _ (pi_run Hi)) as Hcpu.
  unfold fork_rest. wstep. eapply wp_getp; [exact Hq|]. wstep. apply (wp_setp_at _ np r); [done|].
  wstep. eapply (wp_getp_other _ _ q np _ (procs k)); [done|done|done|].
  wstep. eapply (wp_setp_again _ np _ (procs k)); [reflexivity|done|].
  wstep. set (r2 := set_inClock (inClock q) (set_currInd (currInd q + 3) r)).
  eapply wp_mono; [apply (fork_nodes_spec _ _ cur np q r2 l 0 (Z.to_nat (inClock q)))|].
  - cbn. by rewrite list_lookup_insert_ne.
  - cbn. by apply list_lookup_insert_eq.
  - done.
  - apply Hi.
  - exact Ha.
  - lia.
  - lia.
  - exact Hc2.
  - lia.
  - exact Hn.
  - intros _ k1 ->. rewrite with_procs_twice.
    change (nodes r2) with (nodes r). set (r3 := set_nodes _ r2).
    wstep. eapply (wp_getp_other _ _ q np _ (procs k)); [done|done|done|].
    wstep. eapply (wp_setp_again _ np r3 (procs k)); [reflexivity|done|].
    wstep. eapply (wp_setp_again _ np _ (procs k)); [reflexivity|done|].
    wstep. eapply (wp_getp_other _ _ q np _ (procs k)); [reflexivity|done|done|].
    wstep. eapply (wp_getp_again _ np _ (procs k)); [reflexivity|done|].
    change (tf (set_parent _ _)) with (tf r). rewrite Htf.
    wstep. apply wp_zoom. unfold kmemmove. wsteps. apply wp_zoom. unfold kstore32. wstep.
    set (r4 := set_parent (Some cur) (set_sz (sz q) r3)).
    set (s4 := set_mem (frame_mem (mem (mach k)) (ks + 4020) (tf q)) (mach k)).
    match goal with |- wp _ ?s _ => change s with (set_mach s4 (with_proc k np r4)) end.
    assert (hw s4 = hw (mach k)) as Es by done. clearbody s4.
    wstep. eapply wp_mono; [apply (fork_files_spec _ _ cur np q r4)|].
    + change (cpu_inv (hw s4)). by rewrite Es.
    + cbn [procs set_mach with_proc set_procs]. by rewrite list_lookup_insert_ne.
    + by apply list_lookup_insert_eq.
    + done.
    + exact Hfl.
    + exact Hop.
    + intros _ k1 (x & h & os & Hh & -> & Hlo & Hos & Hk2). rewrite with_proc_mach.
      wstep. eapply (wp_getp_other _ _ q np _ (procs k)); [reflexivity|done|done|].
      wstep. eapply wp_mono; [apply idup_spec; [|by apply Hk2]|].
      { change (cpu_inv h). rewrite Hh. change (cpu_inv (hw s4)). by rewrite Es. }
      intros d k1 (-> & x2 & h2 & Hh2 & ->).
      wstep. eapply (wp_setp_again _ np _ (procs k)); [reflexivity|done|].
      wstep. eapply (wp_getp_other _ _ q np _ (procs k)); [reflexivity|done|done|].
      wstep. eapply (wp_setp_again _ np _ (procs k)); [reflexivity|done|].
      wstep. eapply (wp_getp_again _ np _ (procs k)); [reflexivity|done|].
      assert (h2 ≡ hw (mach k)) as Hh2' by (rewrite <- Es; etrans; [exact Hh2|exact Hh]).
      wstep. apply wp_acquire; [change (cpu_inv h2); by rewrite Hh2'|exact Hl|]. intros h3 lk Hh3.
      wstep. eapply (wp_setp_again _ np _ (procs k)); [reflexivity|done|].
      wstep. eapply wp_release; [exact Hh3|]. intros h4 Hh4. wstep. split; [done|].
      exists x2, h4, os. split; [etrans; [exact Hh4|exact Hh2']|].
      split; [exact Hlo|]. split; [exact Hos|]. kstate_eq.
Qed.
End ForkRest.
