(* ===== verification/ForkTheorems.v ===== *)
(** * What fork guarantees

    The child of [fork] has a copy of its parent's memory, encrypted pages
    included, its trap frame with result 0, its clock and its open files; when
    memory or the table is exhausted nothing but an unused slot changes. *)

From S2P Require Import Prelude Memory Mmu Machine Spinlock Kalloc Vm PageTable VmProofs VmSpaces.
From S2P Require Import Encrypt ProcTable Clock ClockProofs Demo Proc ProcProofs GrowTheorems ForkProofs.

Section Fork.
Context `{KI : KernelImage, PO : !PageOps, PA : !PageAllocator} {F : Type}.
Context `{FO : FileOps F, FL : !FileLaws F, PI : ProcImage}.
Implicit Types k : kstate F.

(** The number of pages of a process. *)
Definition pages (q : proc) : Z := (sz q + 4095) / 4096.

(** A running process that calls [fork]. *)
Record fork_pre k (cur : nat) (q : proc) (l : list Z) : Prop := {
  fp_inv : pinv k cur q l;
  fp_lock : locked (ptable_lock k) = 0;
  fp_state : state q <> UNUSED;
  fp_size : 0 <= sz q <= KERNBASE;
  fp_pages v : 0 <= v < pages q -> mapped (pte_at (mem (mach k)) (pgdir q) v) = true;
  fp_clock : clock_inv k q;
  fp_nodes j : 0 <= j < inClock q -> node_at q j / 4096 < pages q;
  fp_stack : page_ok (kstack q) /\ kstack q ∉ l;
  fp_tf : kstack q <= tf q /\ tf q + TF_SIZE <= kstack q + KSTACKSIZE;
  fp_slots i r : procs k !! i = Some r -> state r = UNUSED ->
    length (nodes r) = 8%nat /\ length (ofile r) = 16%nat;
  fp_ofile : length (ofile q) = 16%nat;
  fp_open j f : ofile q !! j = Some (Some f) -> file_open (Z.to_nat NOFILE) (files k) f;
  fp_cwd : dir_open (files k) (cwd q);
}.

(** At most an unused slot has changed. *)
Definition slots_kept (ps ps' : list proc) : Prop :=
  forall i r, ps !! i = Some r -> exists r', ps' !! i = Some r' /\
    (r' = r \/ state r = UNUSED /\ state r' = UNUSED).

(** [fork] has failed: the same pages are free, the parent is as before, and
    slots in use are as before. *)
Definition fork_failed k k' (cur : nat) (q : proc) (l : list Z) : Prop :=
  (exists l', pinv k' cur q l' /\ forall v, v ∈ l' <-> v ∈ l) /\
  same_space (mem (mach k)) (mem (mach k')) (pgdir q) /\
  locked (ptable_lock k') = 0 /\ files k' = files k /\
  slots_kept (procs k) (procs k').

(** [fork] has made the process [child] in slot [np]. *)
Record fork_made k k' (cur np : nat) (q child : proc) (l l' : list Z) : Prop := {
  fm_slot : exists r, procs k !! np = Some r /\ state r = UNUSED;
  fm_procs : procs k' = <[np := child]> (procs k);
  fm_pid : pid child = nextpid k;
  fm_state : state child = RUNNABLE /\ parent child = Some cur /\ sz child = sz q;
  fm_parent : pinv k' cur q l' /\ same_space (mem (mach k)) (mem (mach k')) (pgdir q);
  fm_space : as_inv (mach k') (pgdir child) l';
  fm_own v : owned (mem (mach k')) (pgdir child) v -> v ∈ l /\ v ∉ l';
  fm_copy v : 0 <= v < pages q ->
    let w := pte_at (mem (mach k)) (pgdir q) v in let w' := pte_at (mem (mach k')) (pgdir child) v in
    PTE_FLAGS w' = PTE_FLAGS w /\ forall j, 0 <= j < 4096 ->
      load8 (mem (mach k')) (PTE_ADDR w' + j) = load8 (mem (mach k)) (PTE_ADDR w + j);
  fm_rest v : user_vpn v -> pages q <= v -> mapped (pte_at (mem (mach k')) (pgdir child) v) = false;
  fm_tf j : 0 <= j < TF_SIZE -> load8 (mem (mach k')) (V2P (tf child) + j) =
    if bool_decide (TF_eax <= j < TF_eax + 4) then 0 else load8 (mem (mach k)) (V2P (tf q) + j);
  fm_clock : inClock child = inClock q /\ currInd child = currInd q + 3 /\
    take (Z.to_nat (inClock q)) (nodes child) = take (Z.to_nat (inClock q)) (nodes q);
  fm_files j f : ofile q !! j = Some (Some f) -> ofile child !! j = Some (Some f);
  fm_lock : locked (ptable_lock k') = 0;
}.

(** What the parent owns is outside the free pages. *)
Lemma parent_outside k cur q l s' l' :
  pinv k cur q l -> free_pages s' l' -> (forall v, v ∈ l' -> v ∈ l) ->
  (forall a, (forall v, v ∈ l -> ~ in_page v a) -> load8 (mem s') a = load8 (mem (mach k)) a) ->
  as_inv s' (pgdir q) l' /\ same_space (mem (mach k)) (mem s') (pgdir q).
Proof.
  intros Hi Hf Hl Hm. apply (as_inv_outside (mach k) s' _ l l'); [apply Hi|done|done|].
  intros v a Hv Ha. apply Hm. intros v' Hv' Ha'.
  apply (owned_not_free _ _ _ _ (pi_as Hi) Hv). replace v with v'; [done|].
  eapply Impl.in_page_disj; eauto using owned_ok, free_page_ok, pi_as.
Qed.

(** The running process in a state where it owns the same pages. *)
Lemma pinv_outside k k' cur q l l' :
  pinv k cur q l -> procs k' !! cur = Some q -> as_inv (mach k') (pgdir q) l' ->
  same_regs (mach k) (mach k') -> same_space (mem (mach k)) (mem (mach k')) (pgdir q) ->
  pinv k' cur q l'.
Proof.
  intros Hi Hq Ha (Hh & Hc & _) (Hp & _). split; try done.
  - apply (proj2 (running_proper _ _ Hh cur cur eq_refl)), Hi.
  - rewrite Hc. apply (pi_cr3 Hi).
  - apply (pi_kstack Hi).
  - intros v Hv. rewrite Hp by (by apply user_vpn_ok). by apply (pi_enc Hi).
Qed.

Lemma slots_kept_insert ps np r r' :
  ps !! np = Some r -> state r = UNUSED -> state r' = UNUSED -> slots_kept ps (<[np := r']> ps).
Proof.
  intros Hr H1 H2 i r0 Hi. destruct (decide (i = np)) as [->|Hne].
  - exists r'. rewrite Hr in Hi. injection Hi as <-. split; [|by right].
    apply list_lookup_insert_eq. by eapply lookup_lt_Some.
  - exists r0. split; [by rewrite list_lookup_insert_ne|by left].
Qed.

Lemma fork_failed_intro k k' cur q l l' :
  pinv k cur q l -> procs k' !! cur = Some q -> slots_kept (procs k) (procs k') ->
  same_regs (mach k) (mach k') -> free_pages (mach k') l' -> (forall v, v ∈ l' <-> v ∈ l) ->
  (forall a, (forall v, v ∈ l -> ~ in_page v a) ->
     load8 (mem (mach k')) a = load8 (mem (mach k)) a) ->
  locked (ptable_lock k') = 0 -> files k' = files k ->
  fork_failed k k' cur q l.
Proof.
  intros Hi Hq Hs Hr Hf Hl Hm Hk Hfi.
  destruct (parent_outside k cur q l (mach k') l') as [Ha Hsp]; [done|done|intros v; apply Hl|done|].
  split_and!; try done. exists l'. split; [|done]. by eapply pinv_outside.
Qed.

Lemma same_regs_hart s h s' : h ≡ hw s -> same_regs (set_hw h s) s' -> same_regs s s'.
Proof. intros Hh (H1 & H2 & H3). split_and!; [by rewrite H1|done|done]. Qed.

(** Giving up after [copyuvm] has failed. *)
Lemma fork_give_up k k1 cur np q r0 r l ks l1 s2 :
  pinv k cur q l -> l = ks :: l1 -> cur <> np ->
  procs k !! np = Some r0 -> state r0 = UNUSED -> kstack r = ks ->
  procs k1 = <[np := r]> (procs k) -> locked (ptable_lock k1) = 0 -> files k1 = files k ->
  mach k1 = s2 -> same_regs (mach k) s2 ->
  (exists l2, free_pages s2 l2 /\ forall v, v ∈ l2 <-> v ∈ l1) ->
  (forall a, (forall v, v ∈ l -> ~ in_page v a) -> load8 (mem s2) a = load8 (mem (mach k)) a) ->
  wp (ks ← getp np kstack; zoom machL (kfree ks);; setp np (set_kstack 0);;
      setp np (set_state UNUSED);; mret (-1)) k1
    (fun n k' => n = -1 /\ fork_failed k k' cur q l).
Proof.
  intros Hi El Hne Hr0 Hu Hks Hp Hlk Hfi Hm Hrg (l2 & Hf2 & Hl2) Hmem.
  assert (np < length (procs k))%nat as Hnp by (by eapply lookup_lt_Some).
  destruct (free_pages_ok _ _ (vi_free _ _ _ (ai_vm _ _ _ (pi_as Hi)))) as [Hnd Hok].
  rewrite El in Hnd, Hok. apply NoDup_cons in Hnd as [Hnd _]. apply Forall_cons in Hok as [Hok _].
  wstep. eapply (wp_getp_again _ np r (procs k)); [done|done|]. rewrite Hks.
  wstep. apply wp_zoom. change (view machL k1) with (mach k1). rewrite Hm.
  eapply wp_mono; [apply (kfree_spec s2 l2); [done|done|by rewrite Hl2]|].
  intros [] s3 (Hf3 & Hr3 & Hm3).
  wstep. eapply (wp_setp_again _ np r (procs k)); [exact Hp|done|].
  wstep. eapply (wp_setp_again _ np _ (procs k)); [reflexivity|done|]. wstep. split; [done|].
  apply (fork_failed_intro _ _ _ _ _ (ks :: l2)); try done.
  - cbn. rewrite list_lookup_insert_ne by done. apply (pi_proc Hi).
  - by eapply slots_kept_insert.
  - by eapply same_regs_trans.
  - intros v. rewrite El, !elem_of_cons, Hl2. done.
  - intros a Ha. cbn [mach mem set_procs update machL set_mach]. rewrite Hm3; [by apply Hmem|].
    apply Ha. rewrite El. by left.
Qed.

(** The copy that [copyuvm] made in [s2], from the memory of [k]. *)
Record copied_space (m : memory) (s2 : machine) (q : proc) (d : Z) (l1 l2 : list Z) : Prop := {
  cs_inv : as_inv s2 d l2;
  cs_own v : owned (mem s2) d v <-> v ∈ l1 /\ v ∉ l2;
  cs_flags v : 0 <= v < pages q -> PTE_FLAGS (pte_at (mem s2) d v) = PTE_FLAGS (pte_at m (pgdir q) v);
  cs_bytes v j : 0 <= v < pages q -> 0 <= j < 4096 ->
    load8 (mem s2) (PTE_ADDR (pte_at (mem s2) d v) + j) = load8 m (PTE_ADDR (pte_at m (pgdir q) v) + j);
  cs_rest v : user_vpn v -> pages q <= v -> mapped (pte_at (mem s2) d v) = false;
}.

Lemma pages_user k cur q l v : fork_pre k cur q l -> 0 <= v < pages q -> user_vpn v.
Proof. intros Hp Hv. pose proof (fp_size _ _ _ _ Hp). unfold pages, user_vpn in *. consts. dlia. Qed.

Lemma flags_mapped w w' : PTE_FLAGS w' = PTE_FLAGS w -> mapped w' = mapped w.
Proof.
  intros E. unfold mapped. rewrite !flag_lor.
  by rewrite <- (PTE_FLAGS_flag w PTE_P 0), <- (PTE_FLAGS_flag w' PTE_P 0),
    <- (PTE_FLAGS_flag w PTE_E 10), <- (PTE_FLAGS_flag w' PTE_E 10), E by (done || lia).
Qed.

(** The copied space gives every clock node a page in the child. *)
Lemma fork_forkable k cur q l s2 d l1 l2 j a :
  fork_pre k cur q l -> same_space (mem (mach k)) (mem s2) (pgdir q) ->
  copied_space (mem (mach k)) s2 q d l1 l2 ->
  (j < Z.to_nat (inClock q))%nat -> nodes q !! j = Some a ->
  forkable (mem s2) (pgdir q) d a.
Proof.
  intros Hp (Sp & Sd & _) C Hj Ha. pose proof (fp_clock _ _ _ _ Hp) as Hc.
  destruct (ci_user _ _ Hc (Z.of_nat j)) as (Hu & Hv & Hd); [lia|].
  pose proof (fp_nodes _ _ _ _ Hp (Z.of_nat j)) as Hn.
  unfold node_at in *. rewrite Nat2Z.id, (list_lookup_total_correct _ _ _ Ha) in *.
  assert (0 <= a / 4096 < pages q) as Hr by (unfold user_vpn in Hv; lia).
  pose proof (cs_flags _ _ _ _ _ _ C _ Hr) as Ef.
  split; [done|]. split; [done|]. split; [rewrite Sd; [done|unfold user_vpn in Hv; dlia]|]. split.
  - apply mapped_table. rewrite (flags_mapped _ _ Ef). by apply (fp_pages _ _ _ _ Hp).
  - rewrite Sp by (by apply user_vpn_ok).
    by rewrite <- (PTE_FLAGS_flag _ PTE_P 0), Ef, (PTE_FLAGS_flag _ PTE_P 0) by (done || lia).
Qed.

(** The state in which the rest of [fork] runs. *)
Lemma fork_ready_intro k k2 cur np q r0 r l ks l1 l2 :
  fork_pre k cur q l -> l = ks :: l1 -> procs k !! np = Some r0 -> state r0 = UNUSED ->
  procs k2 = <[np := r]> (procs k) -> locked (ptable_lock k2) = 0 -> files k2 = files k ->
  same_regs (mach k) (mach k2) -> (forall v, v ∈ l2 -> v ∈ l1) ->
  copied_space (mem (mach k)) (mach k2) q (pgdir r) l1 l2 ->
  (forall a, (forall v, v ∈ l -> ~ in_page v a) -> load8 (mem (mach k2)) a = load8 (mem (mach k)) a) ->
  tf r = ks + 4020 -> nodes r = nodes r0 -> ofile r = ofile r0 ->
  fork_ready k2 cur np q r l2 ks /\ same_space (mem (mach k)) (mem (mach k2)) (pgdir q).
Proof.
  intros Hp El Hr0 Hu Ep Hlk Hfi Hrg Hl2 C Hm Htf En Eo. pose proof (fp_inv _ _ _ _ Hp) as Hi.
  assert (cur <> np) as Hne.
  { intros ->. rewrite (pi_proc Hi) in Hr0. injection Hr0 as ->. by apply (fp_state _ _ _ _ Hp). }
  destruct (free_pages_ok _ _ (vi_free _ _ _ (ai_vm _ _ _ (pi_as Hi)))) as [Hnd Hok].
  rewrite El in Hnd, Hok. apply NoDup_cons in Hnd as [Hnd _]. apply Forall_cons in Hok as [Hok _].
  pose proof (cs_inv _ _ _ _ _ _ C) as Hc.
  destruct (parent_outside k cur q l (mach k2) l2) as [Ha Hsp]; [done|apply Hc|..].
  { intros v Hv. rewrite El. right. auto. }
  { done. }
  split; [|done]. destruct (fp_slots _ _ _ _ Hp np r0) as [Ln Lo]; [done|done|].
  pose proof (fp_clock _ _ _ _ Hp) as Hk. pose proof (ci_len _ _ Hk). pose proof (ci_count _ _ Hk).
  split.
  - apply (pinv_outside k k2 cur q l); try done. rewrite Ep, list_lookup_insert_ne by done. apply (pi_proc Hi).
  - done.
  - rewrite Ep. apply list_lookup_insert_eq. by eapply lookup_lt_Some.
  - done.
  - done.
  - split; [done|]. split; [done|]. split; [by auto|]. split.
    + intros Ho%Hsp. apply (owned_not_free _ _ _ _ (pi_as Hi) Ho). rewrite El. by left.
    + intros Ho%(cs_own _ _ _ _ _ _ C). by destruct Ho.
  - rewrite En. lia.
  - intros j a. by apply (fork_forkable k cur q l (mach k2) (pgdir r) l1 l2).
  - by rewrite Eo, Lo, (fp_ofile _ _ _ _ Hp).
  - rewrite Hfi. apply (fp_open _ _ _ _ Hp).
  - rewrite Hfi. apply (fp_cwd _ _ _ _ Hp).
Qed.

(** The parent's trap frame lies outside the free pages. *)
Lemma parent_tf k cur q l m j :
  fork_pre k cur q l ->
  (forall a, (forall v, v ∈ l -> ~ in_page v a) -> load8 m a = load8 (mem (mach k)) a) ->
  0 <= j < TF_SIZE -> load8 m (V2P (tf q) + j) = load8 (mem (mach k)) (V2P (tf q) + j).
Proof.
  intros Hp Hm Hj. destruct (fp_stack _ _ _ _ Hp) as [Hok Hn]. destruct (fp_tf _ _ _ _ Hp) as [H1 H2].
  unfold TF_SIZE, KSTACKSIZE in *. apply Hm. intros v Hv Hin. apply Hn.
  replace (kstack q) with v; [done|]. eapply Impl.in_page_disj; [|done|done|].
  - eapply free_page_ok; [apply (pi_as (fp_inv _ _ _ _ Hp))|done].
  - replace (tf q) with (kstack q + (tf q - kstack q)) by lia.
    rewrite V2P_offset by (done || lia). unfold in_page, PGSIZE. lia.
Qed.

Lemma copied_take ns ms c : (c <= length ns)%nat -> take c (copied ns ms 0 c) = take c ns.
Proof.
  intros Hc. unfold copied. rewrite drop_0, take_0, app_nil_l.
  apply take_app_length'. rewrite length_take. lia.
Qed.

Lemma as_inv_hart s pd l h : as_inv s pd l -> h ≡ hw s -> as_inv (set_hw h s) pd l.
Proof.
  intros [[Hf Hw Ho] Hfr Hin] Hh. split; [split|..]; try done. by apply free_pages_hart.
Qed.

(** The rest of [fork] makes the child. *)
Lemma fork_made_intro k k2 cur np q r0 r l ks l1 l2 :
  fork_pre k cur q l -> procs k !! np = Some r0 -> state r0 = UNUSED ->
  procs k2 = <[np := r]> (procs k) -> same_regs (mach k) (mach k2) -> (forall v, v ∈ l1 -> v ∈ l) ->
  copied_space (mem (mach k)) (mach k2) q (pgdir r) l1 l2 ->
  (forall a, (forall v, v ∈ l -> ~ in_page v a) -> load8 (mem (mach k2)) a = load8 (mem (mach k)) a) ->
  pid r = nextpid k -> ofile r = ofile r0 ->
  fork_ready k2 cur np q r l2 ks -> same_space (mem (mach k)) (mem (mach k2)) (pgdir q) ->
  wp (fork_rest cur np) k2 (fun n k' => n = nextpid k /\
    exists child l', fork_made k k' cur np q child l l').
Proof.
  intros Hp Hr0 Hu Ep Hrg Hl1 C Hm Hpid Eo Hrd Hsp.
  eapply wp_mono; [by apply (fork_rest_spec k2 cur np q r l2 ks)|].
  intros n k' (-> & x & h & os & Hh & Hlo & Hos & ->). split; [done|].
  destruct (fr_stack _ _ _ _ _ _ _ Hrd) as (Htf & Hok & Hn & Ho1 & Ho2).
  pose proof (fr_inv _ _ _ _ _ _ _ Hrd) as Hi2. pose proof (fr_ne _ _ _ _ _ _ _ Hrd) as Hne.
  set (m3 := frame_mem (mem (mach k2)) (ks + 4020) (tf q)).
  assert (forall a, ~ in_page ks a -> load8 m3 a = load8 (mem (mach k2)) a) as Hm3
    by (intros a Ha; by apply frame_mem_frame).
  assert (forall j, 0 <= j < 76 -> load8 m3 (V2P (ks + 4020) + j) =
    if bool_decide (28 <= j < 32) then 0 else load8 (mem (mach k2)) (V2P (tf q) + j)) as Htf3
    by (intros j Hj; by apply frame_mem_tf).
  clearbody m3.
  destruct (as_inv_page (mach k2) m3 (pgdir q) l2 ks) as [Ha3 Hs3]; [apply (pi_as Hi2)|done..|].
  destruct (as_inv_page (mach k2) m3 (pgdir r) l2 ks) as [Hb3 Ht3]; [apply (cs_inv _ _ _ _ _ _ C)|done..|].
  exists (forked cur q r os), l2.
  apply (as_inv_hart _ _ _ h) in Ha3; [|exact Hh]. apply (as_inv_hart _ _ _ h) in Hb3; [|exact Hh].
  pose proof (same_space_trans _ _ _ _ Hsp Hs3) as Hs. pose proof (fp_clock _ _ _ _ Hp) as Hk.
  assert (Hk8 : (Z.to_nat (inClock q) <= length (nodes q))%nat).
  { pose proof (ci_len _ _ Hk). pose proof (ci_count _ _ Hk). lia. }
  destruct Ht3 as (T1 & _ & T3 & T4).
  split; try done.
  - by exists r0.
  - cbn. rewrite Ep. apply list_insert_insert_eq.
  - split; [|exact Hs]. apply (pinv_outside k _ cur q l); [apply Hp| |exact Ha3| |exact Hs].
    + cbn. rewrite list_lookup_insert_ne by done. apply (pi_proc Hi2).
    + destruct Hrg as (R1 & R2 & R3). split_and!; [|done|done]. cbn. by rewrite Hh.
  - intros v Hv%T4. apply (cs_own _ _ _ _ _ _ C) in Hv as [Hv1 Hv2]. auto.
  - intros v Hv. pose proof (pages_user _ _ _ _ _ Hp Hv) as Hv'. cbv zeta.
    change (mem (mach (unlocked _))) with m3. change (pgdir (forked _ _ _ _)) with (pgdir r).
    rewrite T1 by (by apply user_vpn_ok). split; [by apply (cs_flags _ _ _ _ _ _ C)|]. intros j Hj.
    rewrite T3; [by apply (cs_bytes _ _ _ _ _ _ C)|done| |done].
    rewrite (flags_mapped _ _ (cs_flags _ _ _ _ _ _ C v Hv)). by apply (fp_pages _ _ _ _ Hp).
  - intros v Hv Hge. change (mem (mach (unlocked _))) with m3. change (pgdir (forked _ _ _ _)) with (pgdir r).
    rewrite T1 by (by apply user_vpn_ok). by apply (cs_rest _ _ _ _ _ _ C).
  - intros j Hj. change (mem (mach (unlocked _))) with m3. change (tf (forked _ _ _ _)) with (tf r). rewrite Htf, Htf3 by done.
    change (TF_eax <= j < TF_eax + 4) with (28 <= j < 32).
    destruct (bool_decide (28 <= j < 32)); [done|]. by apply (parent_tf k cur q l).
  - split; [done|]. split; [done|]. cbn [nodes forked set_state set_name set_cwd set_ofile set_parent set_sz set_nodes].
    by apply copied_take.
  - intros j f Hf. cbn. rewrite Hos. unfold dup_at. rewrite Hf, bool_decide_true; [done|].
    apply lookup_lt_Some in Hf. rewrite (fp_ofile _ _ _ _ Hp) in Hf. lia.
Qed.

(** The copy, seen from the state before [allocproc]. *)
Lemma copied_space_intro k cur q l s1 s2 d l1 l2 :
  fork_pre k cur q l -> same_space (mem (mach k)) (mem s1) (pgdir q) ->
  as_inv s2 d l2 -> (forall v, owned (mem s2) d v <-> v ∈ l1 /\ v ∉ l2) ->
  (forall v, 0 <= v < pages q ->
     let w := pte_at (mem s1) (pgdir q) v in let w' := pte_at (mem s2) d v in
     PTE_FLAGS w' = PTE_FLAGS w /\
     forall j, 0 <= j < 4096 -> load8 (mem s2) (PTE_ADDR w' + j) = load8 (mem s1) (PTE_ADDR w + j)) ->
  (forall v, vpn_ok v -> pages q <= v -> pte_at (mem s2) d v = default 0 (kmap_pte kmap v)) ->
  copied_space (mem (mach k)) s2 q d l1 l2.
Proof.
  intros Hp (S1 & _ & S3 & _) Ha Ho Hc Hk. cbv zeta in Hc. split; try done.
  - intros v Hv. rewrite (proj1 (Hc v Hv)), S1; [done|]. by eapply user_vpn_ok, pages_user.
  - intros v j Hv Hj. pose proof (pages_user _ _ _ _ _ Hp Hv) as Hu. rewrite (proj2 (Hc v Hv) j Hj).
    rewrite S1 by (by apply user_vpn_ok). apply S3; [done| |done]. by apply (fp_pages _ _ _ _ Hp).
  - intros v Hv Hge. rewrite Hk by (done || by apply user_vpn_ok).
    by rewrite (kmap_pte_low _ _ _ kmap_kernel) by apply Hv.
Qed.

(** [fork] from the state [k1] that [allocproc] has left. *)
Lemma fork_into_spec k k1 cur np q r0 ks l1 :
  fork_pre k cur q (ks :: l1) -> procs k !! np = Some r0 -> state r0 = UNUSED ->
  procs k1 = <[np := launched (nextpid k) ks r0]> (procs k) -> ptable_lock k1 = Spinlock 0 None ->
  files k1 = files k -> same_regs (mach k) (mach k1) -> free_pages (mach k1) l1 ->
  (forall a, ~ in_page ks a -> load8 (mem (mach k1)) a = load8 (mem (mach k)) a) ->
  wp (fork_into cur np) k1 (fun n k' => n = -1 /\ fork_failed k k' cur q (ks :: l1) \/
    n = nextpid k /\ exists child l', fork_made k k' cur np q child (ks :: l1) l').
Proof.
  intros Hp Hr0 Hu Ep Hlk Hfi Hrg Hf Hm. pose proof (fp_inv _ _ _ _ Hp) as Hi.
  assert (cur <> np) as Hne.
  { intros ->. rewrite (pi_proc Hi) in Hr0. injection Hr0 as ->. by apply (fp_state _ _ _ _ Hp). }
  assert (np < length (procs k))%nat as Hnp by (by eapply lookup_lt_Some).
  assert (locked (ptable_lock k1) = 0) as Hlk' by (by rewrite Hlk).
  destruct (parent_outside k cur q (ks :: l1) (mach k1) l1) as [Ha1 Hs1]; [done|done|by right|..].
  { intros a Ha. apply Hm, Ha. by left. }
  unfold fork_into.
  wstep. eapply (wp_getp_other _ _ q np _ (procs k)); [exact Ep|apply (pi_proc Hi)|done|].
  wstep. eapply (wp_getp_other _ _ q np _ (procs k)); [exact Ep|apply (pi_proc Hi)|done|].
  wstep. apply wp_zoom. eapply wp_mono; [apply (copyuvm_result (mach k1) (pgdir q) (sz q) l1 Ha1)|].
  { apply (fp_size _ _ _ _ Hp). }
  { intros v Hv. rewrite (proj1 Hs1) by (by eapply user_vpn_ok, pages_user).
    by apply (fp_pages _ _ _ _ Hp). }
  intros [d|] s2; cbn beta iota; intros H;
    (wstep; eapply (wp_setp_again _ np _ (procs k)); [exact Ep|done|]; cbn [default]).
  - destruct H as (l2 & H1 & H2 & H3 & H4 & H5 & H6 & H7).
    set (r := set_pgdir d (launched (nextpid k) ks r0)).
    pose proof (copied_space_intro k cur q _ _ s2 d l1 l2 Hp Hs1 H1 H2 H5 H6) as C.
    assert (forall a, (forall v, v ∈ ks :: l1 -> ~ in_page v a) ->
      load8 (mem s2) a = load8 (mem (mach k)) a) as Hm2.
    { intros a Ha. rewrite H7 by (intros v Hv; apply Ha; by right). apply Hm, Ha. by left. }
    pose proof (same_regs_trans _ _ _ Hrg H4) as Hrg2.
    destruct (fork_ready_intro k (set_procs (<[np := r]> (procs k)) (update machL s2 k1))
      cur np q r0 r (ks :: l1) ks l1 l2) as [Hrd Hsp]; try done.
    eapply wp_mono; [apply (fork_made_intro k _ cur np q r0 r (ks :: l1) ks l1 l2); try done|].
    { intros v Hv. by right. }
    intros n k' H. by right.
  - destruct H as (l2 & H1 & H2 & H3 & H4).
    eapply wp_mono; [eapply (fork_give_up k _ cur np q r0 (set_pgdir 0 (launched (nextpid k) ks r0)) (ks :: l1) ks l1 s2); try done|by left].
    + by eapply same_regs_trans.
    + by exists l2.
    + intros a Ha. rewrite H4 by (intros v Hv; apply Ha; by right). apply Hm, Ha. by left.
Qed.

(** C23: [fork] either returns -1, with the same pages free, the parent's
    memory as before and no change to a process slot in use, or it returns the
    next pid and makes a child in an unused slot: runnable, with the parent's
    size, open files and clock pages, with each of the parent's pages copied,
    flags and bytes, into frames that were free, with the parent's trap frame
    except for [eax], which is 0, and with the hand of its clock three ahead of
    the parent's; the parent and its memory are as before. *)
Theorem fork_copies k cur q l :
  fork_pre k cur q l ->
  wp fork k (fun n k' => n = -1 /\ fork_failed k k' cur q l \/
    n = nextpid k /\ exists np child l', fork_made k k' cur np q child l l').
Proof.
  intros Hp. pose proof (fp_inv _ _ _ _ Hp) as Hi. unfold fork.
  wstep. eapply wp_myproc; [apply Hi|]. intros h Hh. wsteps.
  pose proof (pinv_hart k cur q l h Hi Hh) as Hi1.
  eapply wp_mono; [apply (allocproc_spec _ l); split; [apply (fp_lock _ _ _ _ Hp)|apply (pi_as Hi1)]|].
  intros o k1 (s1 & Hrg & H). apply same_regs_hart in Hrg; [|done].
  change (procs (update hartL h k)) with (procs k) in H.
  destruct (find_index _ (procs k)) as [np|] eqn:Ef.
  2:{ destruct H as (-> & Hm & Hf & ->). wstep. left. split; [done|].
      apply (fork_failed_intro _ _ _ _ _ l); try done.
      - apply (pi_proc Hi).
      - intros i r Hr. exists r. split; [done|by left].
      - intros a _. cbn. by rewrite Hm. }
  destruct H as (r0 & Hr0 & Hu & H). change (procs (update hartL h k)) with (procs k) in Hr0.
  change (nextpid (update hartL h k)) with (nextpid k) in H.
  destruct l as [|ks l1].
  { destruct H as (-> & Hm & Hf & ->). wstep. left. split; [done|].
    apply (fork_failed_intro _ _ _ _ _ []); try done.
    - cbn. rewrite list_lookup_insert_ne; [apply (pi_proc Hi)|]. intros ->.
      rewrite (pi_proc Hi) in Hr0. injection Hr0 as ->. by apply (fp_state _ _ _ _ Hp).
    - by eapply slots_kept_insert.
    - intros a _. cbn. by rewrite Hm. }
  destruct H as (-> & Hm & Hf & ->). cbn beta iota.
  destruct (free_pages_ok _ _ (vi_free _ _ _ (ai_vm _ _ _ (pi_as Hi)))) as [_ Hok].
  apply Forall_cons in Hok as [Hok _].
  eapply wp_mono; [apply (fork_into_spec k _ cur np q r0 ks l1); try done|].
  - intros a Ha. cbn [mach with_proc set_procs set_mach]. rewrite Hm. by apply stack_mem_frame.
  - intros n k' [H|(-> & child & l' & H)]; [by left|right]. split; [done|]. by exists np, child, l'.
Qed.
End Fork.

(** ** An instance *)

Section Instances.

(** A file layer without open files. *)
#[local] Instance no_files : FileOps unit := {|
  filedup f := mret f; fileclose _ := mret tt; idup d := mret d; iput _ := mret tt;
  namei _ := mret None; begin_op := mret tt; end_op := mret tt;
|}.

#[local] Program Instance no_files_laws : FileLaws unit := {|
  file_open _ _ _ := True; dir_open _ _ := True;
|}.
Next Obligation. done. Qed.
Next Obligation.
  intros k f n _ _. apply wp_ret. split; [done|]. exists tt, (hw (mach k)).
  split; [done|]. split; [|done]. by destruct k as [[] ? ? ? ? ? ? []].
Qed.
Next Obligation.
  intros k d _ _. apply wp_ret. split; [done|]. exists tt, (hw (mach k)).
  split; [done|]. by destruct k as [[] ? ? ? ? ? ? []].
Qed.

Definition parent0 : proc :=
  Proc 8192 Demo.pgdir Demo.kstack RUNNING 1 None (Demo.kstack + 4020) 0 NoChan false
    (replicate 16 None) None [] (replicate 8 0xFFFFFFFF) 0 0.
Definition slot0 : proc :=
  Proc 0 0 0 UNUSED 0 None 0 0 NoChan false (replicate 16 None) None [] (replicate 8 0) 0 0.
Definition kernel_fork : kstate unit :=
  KState (Demo.state0 Demo.present1 0) (Spinlock 0 None) [parent0; slot0] 2 (Some 0%nat) 0 (Spinlock 0 None) tt.

Lemma fork_pre0 : fork_pre kernel_fork 0 parent0 Demo.free0.
Proof.
  assert (pinv kernel_fork 0 parent0 Demo.free0) as Hi.
  { destruct (Demo.pinv_of Demo.present1 0 (or_introl eq_refl) (replicate 8 0xFFFFFFFF) 0). by split. }
  split.
  - exact Hi.
  - done.
  - done.
  - unfold KERNBASE. cbn [sz parent0]. lia.
  - intros v Hv. change (pages parent0) with 2 in Hv.
    change (mem (mach kernel_fork)) with (Demo.memory0 Demo.present1 0).
    change (pgdir parent0) with Demo.pgdir. rewrite Demo.pte0 by (unfold vpn_ok; lia).
    repeat case_decide; [done|done|lia].
  - split; cbn; (done || lia).
  - intros j Hj. cbn in Hj. lia.
  - split; [by vm_compute|]. by decided.
  - split; closed.
  - intros [|[|i]] r Hr Hs; cbn in Hr; by simplify_eq.
  - done.
  - done.
  - done.
Qed.

Lemma fork_copies_witness :
  wp fork kernel_fork (fun n k' => n = -1 \/ n = 2 /\ exists np child l',
    fork_made kernel_fork k' 0 np parent0 child Demo.free0 l').
Proof.
  eapply wp_mono; [apply (fork_copies kernel_fork 0 parent0 Demo.free0 fork_pre0)|].
  intros n k' [[-> _]|[-> H]]; [by left|by right].
Defined.
End Instances.
