(* ===== verification/FileState.v ===== *)
(** * The state of the file layer: buf.h, sleeplock.h, fs.h, file.h, and the
    static data of bio.c, log.c, fs.c, file.c, pipe.c, console.c and memide.c

    A pointer to a buffer, an inode or an open file is an index into its
    table; a pointer to a pipe is the address of the page it lies in.  The
    head of the buffer list has index [NBUF].  Locks' names are left out.  The
    disk remembers, beside its blocks, the contents it had before each write:
    the states in which a crash can leave it. *)

From S2P Require Import Prelude Memory Mmu Machine Spinlock ProcTable.

(** ** Constants (param.h, fs.h, buf.h, stat.h, fcntl.h) *)

Definition NDEV : Z := 10.
Definition ROOTDEV : Z := 1.
Definition MAXOPBLOCKS : Z := 10.
Definition LOGSIZE : Z := MAXOPBLOCKS * 3.
Definition NBUF : Z := MAXOPBLOCKS * 3.
Definition FSSIZE : Z := 1000.

Definition ROOTINO : Z := 1.
Definition BSIZE : Z := 512.
Definition NDIRECT : Z := 12.
Definition NINDIRECT : Z := BSIZE / 4.
Definition MAXFILE : Z := NDIRECT + NINDIRECT.
Definition IPB : Z := BSIZE / 64.
Definition BPB : Z := BSIZE * 8.
Definition DIRSIZ : Z := 14.

Definition B_VALID : Z := 2.
Definition B_DIRTY : Z := 4.

Definition T_DIR : Z := 1.
Definition T_FILE : Z := 2.
Definition T_DEV : Z := 3.

Definition O_RDONLY : Z := 0.
Definition O_WRONLY : Z := 1.
Definition O_RDWR : Z := 2.
Definition O_CREATE : Z := 0x200.

Definition PIPESIZE : Z := 512.
Definition CONSOLE : Z := 1.

(** ** Records *)

(** sleeplock.h *)
Record sleeplock : Type := SleepLock {
  sl_locked : Z;
  sl_lk : spinlock;
  sl_pid : Z;
}.

(** buf.h; [qnext] belongs to the driver ide.c. *)
Record buf : Type := Buf {
  b_flags : Z;
  b_dev : Z;
  b_blockno : Z;
  b_lock : sleeplock;
  b_refcnt : Z;
  b_prev : nat;
  b_next : nat;
  b_data : list Z;
}.

(** bio.c *)
Record bcache_t : Type := Bcache {
  bc_lock : spinlock;
  bc_buf : list buf;
}.

(** log.c; [lg_n] and [lg_block] are the header [lh]. *)
Record log_t : Type := Log {
  lg_lock : spinlock;
  lg_start : Z;
  lg_size : Z;
  lg_outstanding : Z;
  lg_committing : bool;
  lg_dev : Z;
  lg_n : Z;
  lg_block : list Z;
}.

(** fs.h *)
Record superblock : Type := Superblock {
  sb_size : Z;
  sb_nblocks : Z;
  sb_ninodes : Z;
  sb_nlog : Z;
  sb_logstart : Z;
  sb_inodestart : Z;
  sb_bmapstart : Z;
}.

(** file.h *)
Record inode : Type := Inode {
  i_dev : Z;
  i_inum : Z;
  i_ref : Z;
  i_lock : sleeplock;
  i_valid : bool;
  i_type : Z;
  i_major : Z;
  i_minor : Z;
  i_nlink : Z;
  i_size : Z;
  i_addrs : list Z;
}.

(** fs.c *)
Record icache_t : Type := Icache {
  ic_lock : spinlock;
  ic_inode : list inode;
}.

Inductive filetype : Type := FD_NONE | FD_PIPE | FD_INODE.

#[export] Instance filetype_eq_dec : EqDecision filetype.
Proof. solve_decision. Defined.

(** file.h *)
Record file : Type := File {
  f_type : filetype;
  f_ref : Z;
  f_readable : bool;
  f_writable : bool;
  f_pipe : Z;
  f_ip : option nat;
  f_off : Z;
}.

(** file.c *)
Record ftable_t : Type := Ftable {
  ft_lock : spinlock;
  ft_file : list file;
}.

(** pipe.c *)
Record pipe : Type := Pipe {
  p_lock : spinlock;
  p_data : list Z;
  p_nread : Z;
  p_nwrite : Z;
  p_readopen : bool;
  p_writeopen : bool;
}.

(** console.c: [cons], [panicked] and [input]; the cursor register and the cells of
    the screen; uart.c: whether there is a serial port, and what has been sent to
    it, the last byte first; kbd.c: the variable [shift] of [kbdgetc]. *)
Record console_t : Type := Console {
  cons_lock : spinlock;
  cons_locking : bool;
  panicked : bool;
  in_buf : list Z;
  in_r : Z;
  in_w : Z;
  in_e : Z;
  crt_pos : Z;
  crt : list Z;
  uart : bool;
  uart_out : list Z;
  kbd_shift : Z;
}.

(** memide.c: the disk, and the contents it had before each write, the last first. *)
Record disk_t : Type := Disk {
  d_blocks : list (list Z);
  d_past : list (list (list Z));
}.

(** The static data of the file layer. *)
Record fstate : Type := FState {
  bcache : bcache_t;
  log : log_t;
  sb : superblock;
  icache : icache_t;
  ftable : ftable_t;
  pipes : gmap Z pipe;
  console : console_t;
  memdisk : disk_t;
}.

(** ** Assignments to fields *)

Definition set_sl_locked (v : Z) (l : sleeplock) : sleeplock :=
  SleepLock v (sl_lk l) (sl_pid l).
Definition set_sl_lk (v : spinlock) (l : sleeplock) : sleeplock :=
  SleepLock (sl_locked l) v (sl_pid l).
Definition set_sl_pid (v : Z) (l : sleeplock) : sleeplock :=
  SleepLock (sl_locked l) (sl_lk l) v.

Definition set_b_flags (v : Z) (b : buf) : buf :=
  Buf v (b_dev b) (b_blockno b) (b_lock b) (b_refcnt b) (b_prev b) (b_next b) (b_data b).
Definition set_b_dev (v : Z) (b : buf) : buf :=
  Buf (b_flags b) v (b_blockno b) (b_lock b) (b_refcnt b) (b_prev b) (b_next b) (b_data b).
Definition set_b_blockno (v : Z) (b : buf) : buf :=
  Buf (b_flags b) (b_dev b) v (b_lock b) (b_refcnt b) (b_prev b) (b_next b) (b_data b).
Definition set_b_lock (v : sleeplock) (b : buf) : buf :=
  Buf (b_flags b) (b_dev b) (b_blockno b) v (b_refcnt b) (b_prev b) (b_next b) (b_data b).
Definition set_b_refcnt (v : Z) (b : buf) : buf :=
  Buf (b_flags b) (b_dev b) (b_blockno b) (b_lock b) v (b_prev b) (b_next b) (b_data b).
Definition set_b_prev (v : nat) (b : buf) : buf :=
  Buf (b_flags b) (b_dev b) (b_blockno b) (b_lock b) (b_refcnt b) v (b_next b) (b_data b).
Definition set_b_next (v : nat) (b : buf) : buf :=
  Buf (b_flags b) (b_dev b) (b_blockno b) (b_lock b) (b_refcnt b) (b_prev b) v (b_data b).
Definition set_b_data (v : list Z) (b : buf) : buf :=
  Buf (b_flags b) (b_dev b) (b_blockno b) (b_lock b) (b_refcnt b) (b_prev b) (b_next b) v.

Definition set_bc_lock (v : spinlock) (c : bcache_t) : bcache_t :=
  Bcache v (bc_buf c).
Definition set_bc_buf (v : list buf) (c : bcache_t) : bcache_t :=
  Bcache (bc_lock c) v.

Definition set_lg_lock (v : spinlock) (l : log_t) : log_t :=
  Log v (lg_start l) (lg_size l) (lg_outstanding l) (lg_committing l) (lg_dev l) (lg_n l) (lg_block l).
Definition set_lg_start (v : Z) (l : log_t) : log_t :=
  Log (lg_lock l) v (lg_size l) (lg_outstanding l) (lg_committing l) (lg_dev l) (lg_n l) (lg_block l).
Definition set_lg_size (v : Z) (l : log_t) : log_t :=
  Log (lg_lock l) (lg_start l) v (lg_outstanding l) (lg_committing l) (lg_dev l) (lg_n l) (lg_block l).
Definition set_lg_outstanding (v : Z) (l : log_t) : log_t :=
  Log (lg_lock l) (lg_start l) (lg_size l) v (lg_committing l) (lg_dev l) (lg_n l) (lg_block l).
Definition set_lg_committing (v : bool) (l : log_t) : log_t :=
  Log (lg_lock l) (lg_start l) (lg_size l) (lg_outstanding l) v (lg_dev l) (lg_n l) (lg_block l).
Definition set_lg_dev (v : Z) (l : log_t) : log_t :=
  Log (lg_lock l) (lg_start l) (lg_size l) (lg_outstanding l) (lg_committing l) v (lg_n l) (lg_block l).
Definition set_lg_n (v : Z) (l : log_t) : log_t :=
  Log (lg_lock l) (lg_start l) (lg_size l) (lg_outstanding l) (lg_committing l) (lg_dev l) v (lg_block l).
Definition set_lg_block (v : list Z) (l : log_t) : log_t :=
  Log (lg_lock l) (lg_start l) (lg_size l) (lg_outstanding l) (lg_committing l) (lg_dev l) (lg_n l) v.

Definition set_i_dev (v : Z) (i : inode) : inode :=
  Inode v (i_inum i) (i_ref i) (i_lock i) (i_valid i) (i_type i) (i_major i) (i_minor i) (i_nlink i) (i_size i) (i_addrs i).
Definition set_i_inum (v : Z) (i : inode) : inode :=
  Inode (i_dev i) v (i_ref i) (i_lock i) (i_valid i) (i_type i) (i_major i) (i_minor i) (i_nlink i) (i_size i) (i_addrs i).
Definition set_i_ref (v : Z) (i : inode) : inode :=
  Inode (i_dev i) (i_inum i) v (i_lock i) (i_valid i) (i_type i) (i_major i) (i_minor i) (i_nlink i) (i_size i) (i_addrs i).
Definition set_i_lock (v : sleeplock) (i : inode) : inode :=
  Inode (i_dev i) (i_inum i) (i_ref i) v (i_valid i) (i_type i) (i_major i) (i_minor i) (i_nlink i) (i_size i) (i_addrs i).
Definition set_i_valid (v : bool) (i : inode) : inode :=
  Inode (i_dev i) (i_inum i) (i_ref i) (i_lock i) v (i_type i) (i_major i) (i_minor i) (i_nlink i) (i_size i) (i_addrs i).
Definition set_i_type (v : Z) (i : inode) : inode :=
  Inode (i_dev i) (i_inum i) (i_ref i) (i_lock i) (i_valid i) v (i_major i) (i_minor i) (i_nlink i) (i_size i) (i_addrs i).
Definition set_i_major (v : Z) (i : inode) : inode :=
  Inode (i_dev i) (i_inum i) (i_ref i) (i_lock i) (i_valid i) (i_type i) v (i_minor i) (i_nlink i) (i_size i) (i_addrs i).
Definition set_i_minor (v : Z) (i : inode) : inode :=
  Inode (i_dev i) (i_inum i) (i_ref i) (i_lock i) (i_valid i) (i_type i) (i_major i) v (i_nlink i) (i_size i) (i_addrs i).
Definition set_i_nlink (v : Z) (i : inode) : inode :=
  Inode (i_dev i) (i_inum i) (i_ref i) (i_lock i) (i_valid i) (i_type i) (i_major i) (i_minor i) v (i_size i) (i_addrs i).
Definition set_i_size (v : Z) (i : inode) : inode :=
  Inode (i_dev i) (i_inum i) (i_ref i) (i_lock i) (i_valid i) (i_type i) (i_major i) (i_minor i) (i_nlink i) v (i_addrs i).
Definition set_i_addrs (v : list Z) (i : inode) : inode :=
  Inode (i_dev i) (i_inum i) (i_ref i) (i_lock i) (i_valid i) (i_type i) (i_major i) (i_minor i) (i_nlink i) (i_size i) v.

Definition set_ic_lock (v : spinlock) (c : icache_t) : icache_t :=
  Icache v (ic_inode c).
Definition set_ic_inode (v : list inode) (c : icache_t) : icache_t :=
  Icache (ic_lock c) v.

Definition set_f_type (v : filetype) (f : file) : file :=
  File v (f_ref f) (f_readable f) (f_writable f) (f_pipe f) (f_ip f) (f_off f).
Definition set_f_ref (v : Z) (f : file) : file :=
  File (f_type f) v (f_readable f) (f_writable f) (f_pipe f) (f_ip f) (f_off f).
Definition set_f_readable (v : bool) (f : file) : file :=
  File (f_type f) (f_ref f) v (f_writable f) (f_pipe f) (f_ip f) (f_off f).
Definition set_f_writable (v : bool) (f : file) : file :=
  File (f_type f) (f_ref f) (f_readable f) v (f_pipe f) (f_ip f) (f_off f).
Definition set_f_pipe (v : Z) (f : file) : file :=
  File (f_type f) (f_ref f) (f_readable f) (f_writable f) v (f_ip f) (f_off f).
Definition set_f_ip (v : option nat) (f : file) : file :=
  File (f_type f) (f_ref f) (f_readable f) (f_writable f) (f_pipe f) v (f_off f).
Definition set_f_off (v : Z) (f : file) : file :=
  File (f_type f) (f_ref f) (f_readable f) (f_writable f) (f_pipe f) (f_ip f) v.

Definition set_ft_lock (v : spinlock) (t : ftable_t) : ftable_t :=
  Ftable v (ft_file t).
Definition set_ft_file (v : list file) (t : ftable_t) : ftable_t :=
  Ftable (ft_lock t) v.

Definition set_p_lock (v : spinlock) (p : pipe) : pipe :=
  Pipe v (p_data p) (p_nread p) (p_nwrite p) (p_readopen p) (p_writeopen p).
Definition set_p_data (v : list Z) (p : pipe) : pipe :=
  Pipe (p_lock p) v (p_nread p) (p_nwrite p) (p_readopen p) (p_writeopen p).
Definition set_p_nread (v : Z) (p : pipe) : pipe :=
  Pipe (p_lock p) (p_data p) v (p_nwrite p) (p_readopen p) (p_writeopen p).
Definition set_p_nwrite (v : Z) (p : pipe) : pipe :=
  Pipe (p_lock p) (p_data p) (p_nread p) v (p_readopen p) (p_writeopen p).
Definition set_p_readopen (v : bool) (p : pipe) : pipe :=
  Pipe (p_lock p) (p_data p) (p_nread p) (p_nwrite p) v (p_writeopen p).
Definition set_p_writeopen (v : bool) (p : pipe) : pipe :=
  Pipe (p_lock p) (p_data p) (p_nread p) (p_nwrite p) (p_readopen p) v.

Definition set_cons_lock (v : spinlock) (c : console_t) : console_t :=
  Console v (cons_locking c) (panicked c) (in_buf c) (in_r c) (in_w c) (in_e c) (crt_pos c) (crt c) (uart c) (uart_out c) (kbd_shift c).
Definition set_cons_locking (v : bool) (c : console_t) : console_t :=
  Console (cons_lock c) v (panicked c) (in_buf c) (in_r c) (in_w c) (in_e c) (crt_pos c) (crt c) (uart c) (uart_out c) (kbd_shift c).
Definition set_panicked (v : bool) (c : console_t) : console_t :=
  Console (cons_lock c) (cons_locking c) v (in_buf c) (in_r c) (in_w c) (in_e c) (crt_pos c) (crt c) (uart c) (uart_out c) (kbd_shift c).
Definition set_in_buf (v : list Z) (c : console_t) : console_t :=
  Console (cons_lock c) (cons_locking c) (panicked c) v (in_r c) (in_w c) (in_e c) (crt_pos c) (crt c) (uart c) (uart_out c) (kbd_shift c).
Definition set_in_r (v : Z) (c : console_t) : console_t :=
  Console (cons_lock c) (cons_locking c) (panicked c) (in_buf c) v (in_w c) (in_e c) (crt_pos c) (crt c) (uart c) (uart_out c) (kbd_shift c).
Definition set_in_w (v : Z) (c : console_t) : console_t :=
  Console (cons_lock c) (cons_locking c) (panicked c) (in_buf c) (in_r c) v (in_e c) (crt_pos c) (crt c) (uart c) (uart_out c) (kbd_shift c).
Definition set_in_e (v : Z) (c : console_t) : console_t :=
  Console (cons_lock c) (cons_locking c) (panicked c) (in_buf c) (in_r c) (in_w c) v (crt_pos c) (crt c) (uart c) (uart_out c) (kbd_shift c).
Definition set_crt_pos (v : Z) (c : console_t) : console_t :=
  Console (cons_lock c) (cons_locking c) (panicked c) (in_buf c) (in_r c) (in_w c) (in_e c) v (crt c) (uart c) (uart_out c) (kbd_shift c).
Definition set_crt (v : list Z) (c : console_t) : console_t :=
  Console (cons_lock c) (cons_locking c) (panicked c) (in_buf c) (in_r c) (in_w c) (in_e c) (crt_pos c) v (uart c) (uart_out c) (kbd_shift c).
Definition set_uart (v : bool) (c : console_t) : console_t :=
  Console (cons_lock c) (cons_locking c) (panicked c) (in_buf c) (in_r c) (in_w c) (in_e c) (crt_pos c) (crt c) v (uart_out c) (kbd_shift c).
Definition set_uart_out (v : list Z) (c : console_t) : console_t :=
  Console (cons_lock c) (cons_locking c) (panicked c) (in_buf c) (in_r c) (in_w c) (in_e c) (crt_pos c) (crt c) (uart c) v (kbd_shift c).
Definition set_kbd_shift (v : Z) (c : console_t) : console_t :=
  Console (cons_lock c) (cons_locking c) (panicked c) (in_buf c) (in_r c) (in_w c) (in_e c) (crt_pos c) (crt c) (uart c) (uart_out c) v.

Definition set_bcache (v : bcache_t) (s : fstate) : fstate :=
  FState v (log s) (sb s) (icache s) (ftable s) (pipes s) (console s) (memdisk s).
Definition set_log (v : log_t) (s : fstate) : fstate :=
  FState (bcache s) v (sb s) (icache s) (ftable s) (pipes s) (console s) (memdisk s).
Definition set_sb (v : superblock) (s : fstate) : fstate :=
  FState (bcache s) (log s) v (icache s) (ftable s) (pipes s) (console s) (memdisk s).
Definition set_icache (v : icache_t) (s : fstate) : fstate :=
  FState (bcache s) (log s) (sb s) v (ftable s) (pipes s) (console s) (memdisk s).
Definition set_ftable (v : ftable_t) (s : fstate) : fstate :=
  FState (bcache s) (log s) (sb s) (icache s) v (pipes s) (console s) (memdisk s).
Definition set_pipes (v : gmap Z pipe) (s : fstate) : fstate :=
  FState (bcache s) (log s) (sb s) (icache s) (ftable s) v (console s) (memdisk s).
Definition set_console (v : console_t) (s : fstate) : fstate :=
  FState (bcache s) (log s) (sb s) (icache s) (ftable s) (pipes s) v (memdisk s).
Definition set_memdisk (v : disk_t) (s : fstate) : fstate :=
  FState (bcache s) (log s) (sb s) (icache s) (ftable s) (pipes s) (console s) v.

(** ** Parts of the state *)

Definition filesL {F} : lens (kstate F) F := Lens files set_files.

Definition sl_lkL : lens sleeplock spinlock := Lens sl_lk set_sl_lk.

Definition bc_lockL : lens fstate spinlock :=
  Lens (fun s => bc_lock (bcache s)) (fun v s => set_bcache (set_bc_lock v (bcache s)) s).
Definition bufsL : lens fstate (list buf) :=
  Lens (fun s => bc_buf (bcache s)) (fun v s => set_bcache (set_bc_buf v (bcache s)) s).
Definition lg_lockL : lens fstate spinlock :=
  Lens (fun s => lg_lock (log s)) (fun v s => set_log (set_lg_lock v (log s)) s).
Definition ic_lockL : lens fstate spinlock :=
  Lens (fun s => ic_lock (icache s)) (fun v s => set_icache (set_ic_lock v (icache s)) s).
Definition inodesL : lens fstate (list inode) :=
  Lens (fun s => ic_inode (icache s)) (fun v s => set_icache (set_ic_inode v (icache s)) s).
Definition ft_lockL : lens fstate spinlock :=
  Lens (fun s => ft_lock (ftable s)) (fun v s => set_ftable (set_ft_lock v (ftable s)) s).
Definition filetabL : lens fstate (list file) :=
  Lens (fun s => ft_file (ftable s)) (fun v s => set_ftable (set_ft_file v (ftable s)) s).
Definition cons_lockL : lens fstate spinlock :=
  Lens (fun s => cons_lock (console s)) (fun v s => set_console (set_cons_lock v (console s)) s).

Definition sleeplock0 : sleeplock := SleepLock 0 (Spinlock 0 None) 0.
Definition buf0 : buf := Buf 0 0 0 sleeplock0 0 0 0 [].
Definition inode0 : inode := Inode 0 0 0 sleeplock0 false 0 0 0 0 0 [].
Definition pipe0 : pipe := Pipe (Spinlock 0 None) [] 0 0 false false.

Definition b_lockL : lens buf sleeplock := Lens b_lock set_b_lock.
Definition i_lockL : lens inode sleeplock := Lens i_lock set_i_lock.
Definition p_lockL : lens pipe spinlock := Lens p_lock set_p_lock.
Definition pipesL : lens fstate (gmap Z pipe) := Lens pipes set_pipes.

(** The lock of buffer [b], of the cached inode [i], of the pipe at [p]. *)
Definition buf_lockL {U} (k : lens sleeplock U) (b : nat) : lens fstate U :=
  compose bufsL (cellL buf0 (compose b_lockL k) b).
Definition inode_lockL {U} (k : lens sleeplock U) (i : nat) : lens fstate U :=
  compose inodesL (cellL inode0 (compose i_lockL k) i).
Definition pipe_lockL (p : Z) : lens fstate spinlock := compose pipesL (mapL pipe0 p_lockL p).

(** [l] as a part of the kernel's state. *)
Abbreviation infiles l := (compose filesL l).

#[export] Instance filesL_ok {F} : LensOk (@filesL F).
Proof. split; [split|]; by intros; try destruct s. Qed.
#[export] Instance sl_lkL_ok : LensOk sl_lkL.
Proof. split; [split|]; by intros; try destruct s. Qed.
#[export] Instance bc_lockL_ok : LensOk bc_lockL.
Proof. split; [split|]; by intros; try destruct s as [[] ? ? ? ? ? ? ?]. Qed.
#[export] Instance bufsL_ok : LensOk bufsL.
Proof. split; [split|]; by intros; try destruct s as [[] ? ? ? ? ? ? ?]. Qed.
#[export] Instance lg_lockL_ok : LensOk lg_lockL.
Proof. split; [split|]; by intros; try destruct s as [? [] ? ? ? ? ? ?]. Qed.
#[export] Instance ic_lockL_ok : LensOk ic_lockL.
Proof. split; [split|]; by intros; try destruct s as [? ? ? [] ? ? ? ?]. Qed.
#[export] Instance inodesL_ok : LensOk inodesL.
Proof. split; [split|]; by intros; try destruct s as [? ? ? [] ? ? ? ?]. Qed.
#[export] Instance ft_lockL_ok : LensOk ft_lockL.
Proof. split; [split|]; by intros; try destruct s as [? ? ? ? [] ? ? ?]. Qed.
#[export] Instance filetabL_ok : LensOk filetabL.
Proof. split; [split|]; by intros; try destruct s as [? ? ? ? [] ? ? ?]. Qed.
#[export] Instance cons_lockL_ok : LensOk cons_lockL.
Proof. split; [split|]; by intros; try destruct s as [? ? ? ? ? ? [] ?]. Qed.
#[export] Instance b_lockL_ok : LensOk b_lockL.
Proof. split; [split|]; by intros; try destruct s. Qed.
#[export] Instance i_lockL_ok : LensOk i_lockL.
Proof. split; [split|]; by intros; try destruct s. Qed.
#[export] Instance p_lockL_ok : LensOk p_lockL.
Proof. split; [split|]; by intros; try destruct s. Qed.

#[export] Instance pipesL_ok : LensOk pipesL.
Proof. split; [split|]; by intros; try destruct s. Qed.

(** Whatever lies in the file layer is apart from the processors. *)
#[export] Instance infiles_hart {F T} (l : lens F T) : LensIndep (infiles l) (@hartL (kstate F) _).
Proof. by split. Qed.

#[export] Instance infiles_at {F T} (l : lens F T) (k : kstate F) :
  LensAt l (files k) -> LensAt (infiles l) k.
Proof. intros H. exact (compose_at filesL l k _ H). Qed.
