(* ===== verification/Sleeplock.v ===== *)
(** * Sleep locks: sleeplock.c

    A sleep lock lies somewhere in the file layer: [slref] gives the lock, the
    spin lock inside it and the address processes sleep on.  What other
    processes do while this one sleeps is the parameter [others] of
    [SwitchEnv]; [naps] bounds the number of times one call may sleep.  The
    module [Handoff] is the step relation of several processes on one lock. *)

From stdpp Require Import functions.
From S2P Require Import Prelude Memory Mmu Machine Spinlock Kalloc Vm PageTable VmProofs VmSpaces.
From S2P Require Import Encrypt ProcTable Clock ClockProofs Proc ProcProofs FileState.

Class SwitchEnv (F : Type) : Type := { others : M (kstate F) unit; naps : nat }.

Record slref (F : Type) : Type := Slref {
  whole : lens F sleeplock;
  spin_of : lens F spinlock;
  slchan : channel;
}.
Arguments Slref {F} _ _ _.
Arguments whole {F} _.
Arguments spin_of {F} _.
Arguments slchan {F} _.

(** The locks of buffers and of cached inodes; their addresses follow from
    those of [bcache] and [icache] in kernel.sym. *)
Definition buf_sl (b : nat) : slref fstate :=
  Slref (buf_lockL idL b) (buf_lockL sl_lkL b) (ObjChan (0x8010e660 + 52 + 604 * Z.of_nat b + 12)).
Definition inode_sl (i : nat) : slref fstate :=
  Slref (inode_lockL idL i) (inode_lockL sl_lkL i) (ObjChan (0x80113a80 + 52 + 144 * Z.of_nat i + 12)).

(** ** Operations *)

Section Sleeplock.
Context {F : Type} `{SE : SwitchEnv F}.
Abbreviation K := (M (kstate F)).
Implicit Types r : slref F.

(** [lk->field] and [lk->field = ...] *)
Definition getsl {A} r (f : sleeplock -> A) : K A := gets (fun k => f (view (infiles (whole r)) k)).
Definition setsl r (f : sleeplock -> sleeplock) : K unit :=
  modify (fun k => update (infiles (whole r)) (f (view (infiles (whole r)) k)) k).

Definition initsleeplock r : K unit :=
  initlock (infiles (spin_of r));;
  setsl r (set_sl_locked 0);;
  setsl r (set_sl_pid 0).

Fixpoint acquiresleep_loop r (n : nat) : K unit :=
  l ← getsl r sl_locked;
  if l =? 0 then mret tt else
  match n with
  | O => spin
  | S n => sleep_on others (slchan r) (infiles (spin_of r));; acquiresleep_loop r n
  end.

Definition acquiresleep r : K unit :=
  acquire (infiles (spin_of r));;
  acquiresleep_loop r naps;;
  setsl r (set_sl_locked 1);;
  n ← mygetp pid;
  setsl r (set_sl_pid n);;
  release (infiles (spin_of r)).

Definition releasesleep r : K unit :=
  acquire (infiles (spin_of r));;
  setsl r (set_sl_locked 0);;
  setsl r (set_sl_pid 0);;
  wakeup (slchan r);;
  release (infiles (spin_of r)).

Definition holdingsleep r : K bool :=
  acquire (infiles (spin_of r));;
  l ← getsl r sl_locked;
  h ← (if l =? 0 then mret false
       else n ← getsl r sl_pid; m ← mygetp pid; mret (n =? m));
  release (infiles (spin_of r));;
  mret h.
End Sleeplock.

(** ** The kernel's state outside the file layer

    The operations of the file layer leave the rest of the kernel alone, but
    for processes they wake and for the bookkeeping of interrupts. *)

Definition awake (q q' : proc) : Prop :=
  q' = q \/ state q = SLEEPING /\ q' = set_state RUNNABLE q.

#[export] Instance awake_preorder : PreOrder awake.
Proof.
  split; [by left|]. intros q1 q2 q3 [->|[H1 ->]] [->|[H2 ->]].
  - by left.
  - by right.
  - by right.
  - done.
Qed.

Record calm {F} (k k' : kstate F) : Prop := {
  calm_hw : settles (hw (mach k)) (hw (mach k'));
  calm_mach : mach k' = set_hw (hw (mach k')) (mach k);
  calm_pt : locked (ptable_lock k') = locked (ptable_lock k);
  calm_procs : Forall2 awake (procs k) (procs k');
  calm_nextpid : nextpid k' = nextpid k;
  calm_initproc : initproc k' = initproc k;
  calm_ticks : ticks k' = ticks k;
  calm_tickslock : tickslock k' = tickslock k;
}.

#[export] Instance calm_preorder {F} : PreOrder (@calm F).
Proof.
  split.
  - intros k. split; try done. by destruct k as [[]].
  - intros k1 k2 k3 A B. split.
    + etrans; [apply A|apply B].
    + rewrite (calm_mach _ _ B), (calm_mach _ _ A). done.
    + rewrite (calm_pt _ _ B). apply A.
    + etrans; [apply A|apply B].
    + rewrite (calm_nextpid _ _ B). apply A.
    + rewrite (calm_initproc _ _ B). apply A.
    + rewrite (calm_ticks _ _ B). apply A.
    + rewrite (calm_tickslock _ _ B). apply A.
Qed.

Lemma calm_set_files {F} (k k' : kstate F) x : calm k k' -> calm k (set_files x k').
Proof. intros []. by split. Qed.

Lemma wake_awake ch q : awake q (wake ch q).
Proof.
  unfold wake. case_bool_decide; [|by left]. case_bool_decide; [|by left]. by right.
Qed.

(** Process [p], whose pid is [n], runs and [ptable.lock] is free. *)
Record quiet {F} (p : nat) (n : Z) (k : kstate F) : Prop := {
  quiet_run : running_on (hw (mach k)) p;
  quiet_pt : locked (ptable_lock k) = 0;
  quiet_pid : pid <$> procs k !! p = Some n;
}.

Lemma quiet_cpu {F} p n (k : kstate F) : quiet p n k -> cpu_inv (hw (mach k)).
Proof. intros []. by eapply running_cpu. Qed.

Lemma quiet_calm {F} p n (k k' : kstate F) : quiet p n k -> calm k k' -> quiet p n k'.
Proof.
  intros [H1 H2 H3] C. split.
  - destruct (calm_hw _ _ C) as [E _]. by rewrite E.
  - by rewrite (calm_pt _ _ C).
  - apply fmap_Some in H3 as (q & Hq & ->). destruct (Forall2_lookup_l _ _ _ _ _ (calm_procs _ _ C) Hq) as (q' & -> & Ha).
    cbn. by destruct Ha as [->|[_ ->]].
Qed.

(** ** Specifications *)

(** A lock's reference names one lock: its spin lock is the field [lk]. *)
Class SlLaws {F} (r : slref F) : Prop := {
  sl_upd :: LensUpd (whole r);
  sl_spin_upd :: LensUpd (spin_of r);
  spin_view : forall s, view (spin_of r) s = sl_lk (view (whole r) s);
  spin_update : forall v s,
    update (spin_of r) v s = update (whole r) (set_sl_lk v (view (whole r) s)) s;
}.

Lemma cell_sl_laws {F A} (o : lens F (list A)) (d : A) (f : lens A sleeplock) i ch :
  LensOk o -> LensOk f ->
  SlLaws (Slref (compose o (cellL d (compose f idL) i)) (compose o (cellL d (compose f sl_lkL) i)) ch).
Proof.
  intros Ho Hf. split; cbn [whole spin_of]; try apply _; [done|]. intros v s. cbn. f_equal.
  apply list_alter_ext; [|done]. intros x Hx. cbn. by rewrite Hx.
Qed.

#[export] Instance buf_sl_laws b : SlLaws (buf_sl b).
Proof. apply cell_sl_laws; apply _. Qed.
#[export] Instance inode_sl_laws i : SlLaws (inode_sl i).
Proof. apply cell_sl_laws; apply _. Qed.

Definition free : spinlock := Spinlock 0 None.

Section SleeplockSpecs.
Context {F : Type} `{SE : SwitchEnv F}.
Context (r : slref F) `{!SlLaws r}.
Implicit Types k : kstate F.

#[local] Instance spin_at s : LensAt (whole r) s -> LensAt (spin_of r) s.
Proof.
  intros H t. rewrite spin_update, spin_view, view_at. done.
Qed.

(** A critical section of the lock's spin lock, on a state [k] whose lock is
    [l]: inside, the file layer is the old one but for the lock. *)
Lemma wp_enter_sl k l (Q : unit -> kstate F -> Prop) :
  cpu_inv (hw (mach k)) -> LensAt (whole r) (files k) -> view (whole r) (files k) = l -> sl_lk l = free ->
  (forall h1 lk, held_from (hw (mach k)) h1 lk ->
     Q tt (set_files (update (whole r) (set_sl_lk lk l) (files k)) (update hartL h1 k))) ->
  wp (acquire (infiles (spin_of r))) k Q.
Proof.
  intros Hc Hat Hl Hf HQ.
  eapply (wp_acquire_at (infiles (spin_of r)) k); [exact Hc| |].
  - cbn. rewrite spin_view, Hl, Hf. done.
  - intros h1 lk Hh. specialize (HQ h1 lk Hh). cbn. rewrite spin_update, Hl. exact HQ.
Qed.

Lemma wp_leave_sl k h0 x l lk (Q : unit -> kstate F -> Prop) :
  held_from h0 (hw (mach k)) lk -> LensAt (whole r) x ->
  files k = update (whole r) l x -> sl_lk l = lk ->
  (forall h, settles h0 h ->
     Q tt (set_files (update (whole r) (set_sl_lk free l) x) (update hartL h k))) ->
  wp (release (infiles (spin_of r))) k Q.
Proof.
  intros Hh Hat Hf Hl HQ.
  assert (LensAt (whole r) (files k)) as Hat2 by (intros t; by rewrite Hf, update_update, view_at).
  eapply (wp_release_at (infiles (spin_of r)) k).
  - cbn. rewrite spin_view, Hf, view_at, Hl. exact Hh.
  - intros h Hs. specialize (HQ h Hs). cbn.
    rewrite spin_update, Hf, view_at, update_update. exact HQ.
Qed.

(** The state in which the operations are called: the lock is there and its
    spin lock is free. *)
Definition sl_ready k (l : sleeplock) : Prop :=
  LensAt (whole r) (files k) /\ view (whole r) (files k) = l /\ sl_lk l = free.

(** Reading and assigning the fields inside a critical section. *)
Lemma wp_setsl k x l f (Q : unit -> kstate F -> Prop) :
  LensAt (whole r) x -> files k = update (whole r) l x ->
  Q tt (set_files (update (whole r) (f l) x) k) -> wp (setsl r f) k Q.
Proof.
  intros Hat Hf HQ. unfold setsl. wstep. cbn. rewrite Hf, view_at, update_update. exact HQ.
Qed.

Lemma wp_getsl {A} k x l (f : sleeplock -> A) (Q : A -> kstate F -> Prop) :
  LensAt (whole r) x -> files k = update (whole r) l x ->
  Q (f l) k -> wp (getsl r f) k Q.
Proof. intros Hat Hf HQ. unfold getsl. wstep. cbn. by rewrite Hf, view_at. Qed.

Lemma set_files_calm k h x : settles (hw (mach k)) h -> calm k (set_files x (update hartL h k)).
Proof. intros Hs. split; try done. Qed.

(** Inside a critical section [myproc] changes nothing. *)
Lemma wp_mygetp_nested {A} k p q (f : proc -> A) (Q : A -> kstate F -> Prop) :
  running_on (hw (mach k)) p -> nested (hw (mach k)) -> procs k !! p = Some q ->
  Q (f q) k -> wp (mygetp f) k Q.
Proof.
  intros Hr Hn Hq HQ. unfold mygetp. wstep. eapply wp_myproc_in; [done|]. intros h [_ Hh].
  rewrite Hh by done. change (hw (mach k)) with (view hartL k). rewrite update_view. wstep.
  by eapply wp_getp.
Qed.

Lemma acquiresleep_loop_free k x l n (Q : unit -> kstate F -> Prop) :
  LensAt (whole r) x -> files k = update (whole r) l x -> sl_locked l = 0 ->
  Q tt k -> wp (acquiresleep_loop r n) k Q.
Proof.
  intros Hat Hf Hl HQ. destruct n; cbn [acquiresleep_loop]; wstep; (eapply wp_getsl; [done|done|]);
    rewrite Hl; exact HQ.
Qed.

(** A free lock is taken at once. *)
Lemma acquiresleep_spec k p n l :
  quiet p n k -> sl_ready k l -> sl_locked l = 0 ->
  wp (acquiresleep r) k (fun _ k' => calm k k' /\
    files k' = update (whole r) (SleepLock 1 free n) (files k)).
Proof.
  intros Hq (Hat & Hl & Hf) Hz. unfold acquiresleep. wstep.
  eapply wp_enter_sl; [by eapply quiet_cpu|done|done|done|]. intros h1 lk Hh.
  assert (running_on h1 p) as Hr by (eapply held_running; [done|apply Hq]).
  destruct (proj1 (fmap_Some _ _ _) (quiet_pid _ _ _ Hq)) as (q & Hpq & ->).
  wstep. eapply acquiresleep_loop_free; [done|reflexivity|done|].
  wstep. eapply wp_setsl; [done|reflexivity|].
  wstep. eapply wp_mygetp_nested; [exact Hr|by eapply held_nested|exact Hpq|].
  wstep. eapply wp_setsl; [done|reflexivity|].
  eapply wp_leave_sl; [exact Hh|done|reflexivity|done|]. intros h Hs. split; [|done].
  exact (set_files_calm k h _ Hs).
Qed.

Lemma wakeup_nested k h0 lk ch (Q : unit -> kstate F -> Prop) :
  held_from h0 (hw (mach k)) lk -> locked (ptable_lock k) = 0 ->
  Q tt (set_ptable_lock free (set_procs (wake ch <$> procs k) k)) -> wp (wakeup ch) k Q.
Proof.
  intros Hh Hl HQ. unfold wakeup. wstep. apply wp_acquire; [by eapply held_cpu|done|]. intros h1 l Hh1.
  unfold wakeup1. wsteps. eapply wp_release_in; [exact Hh1|]. intros h [_ Hn].
  rewrite Hn by (by eapply held_nested).
  rewrite <- (update_view (l := hartL) k) in HQ. exact HQ.
Qed.

Lemma wake_calm k h ch x :
  settles (hw (mach k)) h -> locked (ptable_lock k) = 0 ->
  calm k (set_files x (update hartL h (set_ptable_lock free (set_procs (wake ch <$> procs k) k)))).
Proof.
  intros Hs Hl. split; try done. cbn. apply Forall2_fmap_r, Forall2_same_length_lookup. split; [done|].
  intros i a b Ha Hb. simplify_eq. apply wake_awake.
Qed.

(** Releasing a lock wakes the processes that wait for it. *)
Lemma releasesleep_spec k p n l :
  quiet p n k -> sl_ready k l ->
  wp (releasesleep r) k (fun _ k' => calm k k' /\ procs k' = wake (slchan r) <$> procs k /\
    files k' = update (whole r) (SleepLock 0 free 0) (files k)).
Proof.
  intros Hq (Hat & Hl & Hf). unfold releasesleep. wstep.
  eapply wp_enter_sl; [by eapply quiet_cpu|done|done|done|]. intros h1 lk Hh.
  wstep. eapply wp_setsl; [done|reflexivity|].
  wstep. eapply wp_setsl; [done|reflexivity|].
  wstep. eapply wakeup_nested; [exact Hh|apply Hq|].
  eapply wp_leave_sl; [exact Hh|done|reflexivity|done|]. intros h Hs. split; [|done].
  exact (wake_calm k h (slchan r) _ Hs (quiet_pt _ _ _ Hq)).
Qed.

Lemma holdingsleep_spec k p n l :
  quiet p n k -> sl_ready k l ->
  wp (holdingsleep r) k (fun b k' => calm k k' /\ files k' = files k /\
    b = negb (sl_locked l =? 0) && (sl_pid l =? n)).
Proof.
  intros Hq (Hat & Hl & Hf). unfold holdingsleep. wstep.
  eapply wp_enter_sl; [by eapply quiet_cpu|done|done|done|]. intros h1 lk Hh.
  assert (running_on h1 p) as Hr by (eapply held_running; [done|apply Hq]).
  destruct (proj1 (fmap_Some _ _ _) (quiet_pid _ _ _ Hq)) as (q & Hpq & ->).
  wstep. eapply wp_getsl; [done|reflexivity|]. wstep.
  set (k1 := set_files _ _). cbn [sl_locked set_sl_lk].
  assert (forall b : bool, wp (release (infiles (spin_of r));; mret b) k1 (fun b' k' => calm k k' /\
      files k' = files k /\ b' = b)) as Hrel.
  { intros b. wstep. eapply wp_leave_sl; [exact Hh|exact Hat|reflexivity|done|]. intros h Hs. wstep.
    split; [exact (set_files_calm k h _ Hs)|]. split; [|done]. cbn. rewrite <- (update_view (l := whole r) (files k)), Hl.
    rewrite update_update. f_equal. destruct l; cbn in *. by subst. }
  destruct (sl_locked l =? 0).
  - wstep. apply Hrel.
  - wstep. eapply wp_getsl; [exact Hat|reflexivity|]. cbn [sl_pid set_sl_lk].
    wstep. eapply wp_mygetp_nested; [exact Hr|by eapply held_nested|exact Hpq|]. wstep. apply Hrel.
Qed.
End SleeplockSpecs.

(** ** Several processes on one lock

    The processes that use one sleep lock, step by step: every acquisition and
    release of the lock's spin lock and of [ptable.lock], every assignment and
    every test is a step of its own, and the steps of all processes may come in
    any order.  [acquire] is a step that can be taken when the spin lock is
    free. *)
Module Handoff.

(** Where a process is: the names say what it is about to do.  [Out]: before
    [acquiresleep]; [Inside]: between [acquiresleep] and [releasesleep];
    [Dozing]: in [sched], until the scheduler runs it again. *)
Inductive pc : Type :=
| Out
| AcqLk | Test | SetLocked | SetPid | RelLk
| Inside
| SleepAcq | SleepRel | SetChan | SetState | Sched | Dozing | ClearChan | RelPt
| Unlock | ClearPid | WakeAcq | Wake1 | WakeRel | LeaveLk.

(** The owners of the two spin locks, the fields of the sleep lock, and of
    every process where it is, its [state], and whether its [chan] is the lock.
    The process [i] has the pid [i]. *)
Record config : Type := Config {
  lk : option nat;
  pt : option nat;
  word : Z;
  wpid : Z;
  pcs : nat -> pc;
  pst : nat -> procstate;
  pchan : nat -> bool;
}.

Definition set_lk o c := Config o (pt c) (word c) (wpid c) (pcs c) (pst c) (pchan c).
Definition set_pt o c := Config (lk c) o (word c) (wpid c) (pcs c) (pst c) (pchan c).
Definition set_word z c := Config (lk c) (pt c) z (wpid c) (pcs c) (pst c) (pchan c).
Definition set_wpid z c := Config (lk c) (pt c) (word c) z (pcs c) (pst c) (pchan c).
Definition goto i p c := Config (lk c) (pt c) (word c) (wpid c) (<[i := p]> (pcs c)) (pst c) (pchan c).
Definition set_pst f c := Config (lk c) (pt c) (word c) (wpid c) (pcs c) f (pchan c).
Definition set_pchan f c := Config (lk c) (pt c) (word c) (wpid c) (pcs c) (pst c) f.

(** [acquire] of a spin lock with the owner [o]. *)
Definition if_free {A} (o : option nat) (a : A) : option A := match o with None => Some a | Some _ => None end.

Definition acquiresleep_step (i : nat) (c : config) : option config :=
  match pcs c i with
  | AcqLk => if_free (lk c) (goto i Test (set_lk (Some i) c))
  | Test => Some (goto i (if word c =? 0 then SetLocked else SleepAcq) c)
  | SetLocked => Some (goto i SetPid (set_word 1 c))
  | SetPid => Some (goto i RelLk (set_wpid (Z.of_nat i) c))
  | RelLk => Some (goto i Inside (set_lk None c))
  | _ => None
  end.

(** [sleep(lk, &lk->lk)].  [sched] switches to the scheduler, which releases
    [ptable.lock]; when the process is runnable the scheduler, with
    [ptable.lock], makes it running and switches back. *)
Definition sleep_step (i : nat) (c : config) : option config :=
  match pcs c i with
  | SleepAcq => if_free (pt c) (goto i SleepRel (set_pt (Some i) c))
  | SleepRel => Some (goto i SetChan (set_lk None c))
  | SetChan => Some (goto i SetState (set_pchan (<[i := true]> (pchan c)) c))
  | SetState => Some (goto i Sched (set_pst (<[i := SLEEPING]> (pst c)) c))
  | Sched => Some (goto i Dozing (set_pt None c))
  | Dozing =>
      match pst c i with
      | RUNNABLE => if_free (pt c) (goto i ClearChan (set_pst (<[i := RUNNING]> (pst c)) (set_pt (Some i) c)))
      | _ => None
      end
  | ClearChan => Some (goto i RelPt (set_pchan (<[i := false]> (pchan c)) c))
  | RelPt => Some (goto i AcqLk (set_pt None c))
  | _ => None
  end.

(** [wakeup1(lk)] *)
Definition woken (chan : bool) (s : procstate) : procstate :=
  match s, chan with SLEEPING, true => RUNNABLE | _, _ => s end.

Definition wake_all (c : config) : config := set_pst (fun j => woken (pchan c j) (pst c j)) c.

Definition releasesleep_step (i : nat) (c : config) : option config :=
  match pcs c i with
  | Inside => if_free (lk c) (goto i Unlock (set_lk (Some i) c))
  | Unlock => Some (goto i ClearPid (set_word 0 c))
  | ClearPid => Some (goto i WakeAcq (set_wpid 0 c))
  | WakeAcq => if_free (pt c) (goto i Wake1 (set_pt (Some i) c))
  | Wake1 => Some (goto i WakeRel (wake_all c))
  | WakeRel => Some (goto i LeaveLk (set_pt None c))
  | LeaveLk => Some (goto i Out (set_lk None c))
  | _ => None
  end.

(** [kill] of process [j], which touches the process table only, under
    [ptable.lock]. *)
Definition kill_step (j : nat) (c : config) : option config :=
  match pst c j with
  | SLEEPING => if_free (pt c) (set_pst (<[j := RUNNABLE]> (pst c)) c)
  | _ => None
  end.

(** A step of process [i]. *)
Inductive step (i : nat) (c : config) : config -> Prop :=
| step_enter : pcs c i = Out -> step i c (goto i AcqLk c)
| step_acquire c' : acquiresleep_step i c = Some c' -> step i c c'
| step_sleep c' : sleep_step i c = Some c' -> step i c c'
| step_release c' : releasesleep_step i c = Some c' -> step i c c'
| step_kill j c' : pcs c i = Out -> kill_step j c = Some c' -> step i c c'.

Definition init : config := Config None None 0 0 (fun _ => Out) (fun _ => RUNNING) (fun _ => false).

(** Steps of the processes [P] only. *)
Definition runs (P : nat -> Prop) : relation config := rtc (fun c c' => exists i, P i /\ step i c c').

(** ** The invariant *)

Definition has_lk (p : pc) : bool :=
  match p with
  | Test | SetLocked | SetPid | RelLk | SleepAcq | SleepRel | Unlock | ClearPid | WakeAcq | Wake1 | WakeRel | LeaveLk => true
  | _ => false
  end.

Definition has_pt (p : pc) : bool :=
  match p with
  | SleepRel | SetChan | SetState | Sched | ClearChan | RelPt | Wake1 | WakeRel => true
  | _ => false
  end.

(** It has the sleep lock. *)
Definition owns (p : pc) : bool := match p with SetPid | RelLk | Inside | Unlock => true | _ => false end.

(** It has given up the sleep lock and has not yet called [wakeup1]. *)
Definition waking (p : pc) : bool := match p with ClearPid | WakeAcq | Wake1 => true | _ => false end.

(** It has the lock's spin lock and knows the sleep lock to be free. *)
Definition sees_free (p : pc) : bool :=
  match p with SetLocked | ClearPid | WakeAcq | Wake1 | WakeRel | LeaveLk => true | _ => false end.

(** It has written its pid to the lock, and [&lk] to its [chan]. *)
Definition signed (p : pc) : bool := match p with RelLk | Inside | Unlock => true | _ => false end.
Definition on_chan (p : pc) : bool := match p with SetState | Sched | Dozing => true | _ => false end.

(** The [state] a process has where it switches away. *)
Definition placed (p : pc) (s : procstate) : bool :=
  match p, s with
  | Sched, SLEEPING | Dozing, SLEEPING | Dozing, RUNNABLE => true
  | Sched, _ | Dozing, _ => false
  | _, _ => true
  end.

(** It sleeps, or will before it tests the lock again. *)
Definition sleepy (p : pc) (s : procstate) : bool :=
  match p, s with
  | SleepAcq, _ | SleepRel, _ | SetChan, _ | SetState, _ | Sched, _ | Dozing, SLEEPING => true
  | _, _ => false
  end.

(** It is in [acquiresleep]. *)
Definition seeking (p : pc) : bool :=
  match p with
  | Out | Inside | Unlock | ClearPid | WakeAcq | Wake1 | WakeRel | LeaveLk => false
  | _ => true
  end.

Record inv (c : config) : Prop := {
  iv_lk i : has_lk (pcs c i) = bool_decide (lk c = Some i);
  iv_pt i : has_pt (pcs c i) = bool_decide (pt c = Some i);
  iv_owner : exists o, word c = (match o with Some _ => 1 | None => 0 end) /\
    forall i, owns (pcs c i) = bool_decide (o = Some i);
  iv_free i : sees_free (pcs c i) = true -> word c = 0;
  iv_pid i : signed (pcs c i) = true -> wpid c = Z.of_nat i;
  iv_chan i : on_chan (pcs c i) = true -> pchan c i = true;
  iv_state i : placed (pcs c i) (pst c i) = true;
  iv_wakeup i : sleepy (pcs c i) (pst c i) = true -> word c = 1 \/ exists j, waking (pcs c j) = true;
}.

Section Facts.
Context (c : config) (H : inv c).

Lemma lk_unique i j : has_lk (pcs c i) = true -> has_lk (pcs c j) = true -> i = j.
Proof. rewrite !(iv_lk c H). intros E1%bool_decide_eq_true E2%bool_decide_eq_true. congruence. Qed.

Lemma pt_unique i j : has_pt (pcs c i) = true -> has_pt (pcs c j) = true -> i = j.
Proof. rewrite !(iv_pt c H). intros E1%bool_decide_eq_true E2%bool_decide_eq_true. congruence. Qed.

Lemma owner_unique i j : owns (pcs c i) = true -> owns (pcs c j) = true -> i = j.
Proof.
  destruct (iv_owner c H) as (o & _ & Eo). rewrite !Eo. intros E1%bool_decide_eq_true E2%bool_decide_eq_true. congruence.
Qed.

Lemma owner_word i : owns (pcs c i) = true -> word c = 1.
Proof. destruct (iv_owner c H) as (o & -> & Eo). rewrite Eo. by intros ->%bool_decide_eq_true. Qed.

Lemma word_owner : word c <> 0 -> word c = 1 /\ exists i, owns (pcs c i) = true.
Proof.
  destruct (iv_owner c H) as ([i|] & -> & Eo); [|done]. intros _. split; [done|]. exists i. rewrite Eo. by apply bool_decide_eq_true.
Qed.

Lemma has_lk_is i : has_lk (pcs c i) = true -> lk c = Some i.
Proof. rewrite (iv_lk c H). apply bool_decide_eq_true. Qed.

Lemma has_pt_is i : has_pt (pcs c i) = true -> pt c = Some i.
Proof. rewrite (iv_pt c H). apply bool_decide_eq_true. Qed.
End Facts.

(** All steps, one by one: [Hp] is where the process is. *)
Ltac moves Hs Hp :=
  destruct Hs as [Hp|? E|? E|? E|j0 ? Hp E];
  unfold acquiresleep_step, sleep_step, releasesleep_step, kill_step, if_free in *;
  [|match type of E with match pcs ?c ?i with _ => _ end = _ => destruct (pcs c i) eqn:Hp; try done end..|];
  try (repeat match type of E with context [match ?x with _ => _ end] => destruct x eqn:? end); simplify_eq; cbn [lk pt word wpid pcs pst pchan goto set_lk set_pt set_word set_wpid set_pst set_pchan wake_all].

Ltac here j i :=
  match goal with |- context [insert i _ _ j] =>
    destruct (decide (j = i)) as [->|?]; [rewrite ?fn_lookup_insert|rewrite ?(fn_lookup_insert_ne _ i j) by congruence]
  end.

Lemma step_lk i c c' : inv c -> step i c c' -> forall j, has_lk (pcs c' j) = bool_decide (lk c' = Some j).
Proof.
  intros H Hs j. pose proof (iv_lk c H i) as Hi. pose proof (iv_lk c H j) as Hj. moves Hs Hp; rewrite ?Hp in Hi; cbn in Hi.
  all: try (symmetry in Hi; (apply bool_decide_eq_true in Hi || apply bool_decide_eq_false in Hi)).
  all: try (here j i; cbn [has_lk]).
  all: try done; try (symmetry; apply bool_decide_eq_true; congruence); try (symmetry; apply bool_decide_eq_false; congruence).
  all: try (rewrite Hj; apply bool_decide_ext; split; congruence).
Qed.

Lemma step_pt i c c' : inv c -> step i c c' -> forall j, has_pt (pcs c' j) = bool_decide (pt c' = Some j).
Proof.
  intros H Hs j. pose proof (iv_pt c H i) as Hi. pose proof (iv_pt c H j) as Hj. moves Hs Hp; rewrite ?Hp in Hi; cbn in Hi.
  all: try (symmetry in Hi; (apply bool_decide_eq_true in Hi || apply bool_decide_eq_false in Hi)).
  all: try (here j i; cbn [has_pt]).
  all: try done; try (symmetry; apply bool_decide_eq_true; congruence); try (symmetry; apply bool_decide_eq_false; congruence).
  all: try (rewrite Hj; apply bool_decide_ext; split; congruence).
Qed.

Lemma step_owner i c c' : inv c -> step i c c' -> exists o, word c' = (match o with Some _ => 1 | None => 0 end) /\
  forall j, owns (pcs c' j) = bool_decide (o = Some j).
Proof.
  intros H Hs. destruct (iv_owner c H) as (o & Ew & Eo). pose proof (Eo i) as Hi. pose proof (iv_free c H i) as Hw.
  moves Hs Hp; rewrite ?Hp in Hi; rewrite ?Hp in Hw; cbn in Hi, Hw.
  all: try (exists o; split; [done|]; intros j; try (here j i); [done|apply Eo]).
  all: try (exists o; split; [done|]; exact Eo).
  - exists (Some i). split; [done|]. intros j. here j i; [by rewrite bool_decide_true|]. rewrite Eo, Hw in *; [|done].
    destruct o; [done|]. apply bool_decide_ext. split; congruence.
  - exists None. split; [done|]. symmetry in Hi. apply bool_decide_eq_true in Hi. subst o.
    intros j. here j i; [by rewrite bool_decide_false|]. rewrite Eo. apply bool_decide_ext. split; congruence.
Qed.

Lemma sees_free_has_lk p : sees_free p = true -> has_lk p = true.
Proof. by destruct p. Qed.

Lemma step_free i c c' : inv c -> step i c c' -> forall j, sees_free (pcs c' j) = true -> word c' = 0.
Proof.
  intros H Hs j. pose proof (iv_free c H i) as Hi. pose proof (iv_free c H j) as Hj. pose proof (lk_unique c H i j) as Hu.
  pose proof (sees_free_has_lk (pcs c j)) as Hl.
  moves Hs Hp; rewrite ?Hp in Hi; rewrite ?Hp in Hu; cbn in Hi, Hu.
  all: try (here j i; cbn [sees_free]).
  all: try done; auto.
  all: try (by intros _; apply Z.eqb_eq).
  intros Ej. by destruct (n (eq_sym (Hu eq_refl (Hl Ej)))).
Qed.

Lemma signed_owns p : signed p = true -> owns p = true.
Proof. by destruct p. Qed.

Lemma step_pid i c c' : inv c -> step i c c' -> forall j, signed (pcs c' j) = true -> wpid c' = Z.of_nat j.
Proof.
  intros H Hs j. pose proof (iv_pid c H i) as Hi. pose proof (iv_pid c H j) as Hj. pose proof (owner_unique c H i j) as Hu.
  pose proof (iv_free c H i) as Hw. pose proof (owner_word c H j) as Ho. pose proof (signed_owns (pcs c j)) as Hso.
  moves Hs Hp; rewrite ?Hp in Hi; rewrite ?Hp in Hu; rewrite ?Hp in Hw; cbn in Hi, Hu, Hw.
  all: try (here j i; cbn [signed]).
  all: first [done|exact Hj|intros _; by apply Hi|idtac].
  - intros E. by rewrite (Hu eq_refl (Hso E)).
  - intros E. specialize (Ho (Hso E)). lia.
Qed.

Lemma step_chan i c c' : inv c -> step i c c' -> forall j, on_chan (pcs c' j) = true -> pchan c' j = true.
Proof.
  intros H Hs j. pose proof (iv_chan c H i) as Hi. pose proof (iv_chan c H j) as Hj.
  moves Hs Hp; rewrite ?Hp in Hi; cbn in Hi.
  all: try (here j i; cbn [on_chan]).
  all: try done; auto.
Qed.

Lemma placed_woken p s b : placed p s = true -> p <> Sched -> placed p (woken b s) = true.
Proof. by destruct p, s, b. Qed.

Lemma step_state i c c' : inv c -> step i c c' -> forall j, placed (pcs c' j) (pst c' j) = true.
Proof.
  intros H Hs j. pose proof (iv_state c H i) as Hi. pose proof (iv_state c H j) as Hj. pose proof (pt_unique c H i j) as Hu.
  pose proof (has_pt_is c H j) as Ho.
  moves Hs Hp; rewrite ?Hp in Hi; rewrite ?Hp in Hu; cbn in Hi, Hu.
  all: try (here j i).
  all: first [done|exact Hj|by destruct (pst c i)|idtac].
  - apply (placed_woken _ _ _ Hj). intros E. rewrite E in Hu. by specialize (Hu eq_refl eq_refl).
  - here j j0; [|done]. apply (placed_woken _ SLEEPING true); [by rewrite <- Heqp|]. intros E. rewrite E in Ho. by specialize (Ho eq_refl).
Qed.

Lemma sleepy_runnable p s : sleepy p RUNNABLE = true -> sleepy p s = true.
Proof. by destruct p, s. Qed.

Lemma wakeup_goto i p c : word c = 1 \/ (exists a, waking (pcs c a) = true) -> (waking (pcs c i) = true -> waking p = true) ->
  word c = 1 \/ exists a, waking (<[i := p]> (pcs c) a) = true.
Proof. intros [E|[a Ha]] Hp; [by left|]. right. exists a. here a i; auto. Qed.

(** When the waker goes through the table, with both spin locks, every process
    on its way to sleep is asleep and on the channel: one that is not would
    have one of the two locks. *)
Lemma nobody_missed i j c : inv c -> pcs c i = Wake1 -> sleepy (pcs c j) (woken (pchan c j) (pst c j)) = true -> False.
Proof.
  intros H Hp. pose proof (lk_unique c H i j) as Hl. pose proof (pt_unique c H i j) as Ht. pose proof (iv_chan c H j) as Hc.
  rewrite Hp in Hl, Ht. destruct (pcs c j) eqn:Ej; cbn in *; try done; try (by rewrite (Hl eq_refl eq_refl) in Hp; congruence);
    try (by rewrite (Ht eq_refl eq_refl) in Hp; congruence).
  rewrite Hc by done. by destruct (pst c j).
Qed.

Lemma step_wakeup i c c' : inv c -> step i c c' ->
  forall j, sleepy (pcs c' j) (pst c' j) = true -> word c' = 1 \/ exists a, waking (pcs c' a) = true.
Proof.
  intros H Hs j. pose proof (iv_wakeup c H j) as Hj. pose proof (iv_wakeup c H i) as Hi. pose proof (word_owner c H) as Hw.
  pose proof (nobody_missed i j c H) as Hn.
  moves Hs Hp; rewrite ?Hp in Hi; cbn in Hi.
  all: try (left; reflexivity).
  all: try (intros Es; apply wakeup_goto; [|by rewrite Hp]; revert Es; here j i; [by intros _; apply Hi|exact Hj]).
  all: try (intros Es; apply wakeup_goto; [|by rewrite Hp]; revert Es; here j i; [done|exact Hj]).
  - intros _. left. apply Hw. by apply Z.eqb_neq.
  - intros _. right. exists i. by rewrite fn_lookup_insert.
  - here j i; [done|]. intros Es. by destruct (Hn eq_refl Es).
  - here j j0; [|exact Hj]. intros Es. apply Hj. by apply sleepy_runnable.
Qed.

Theorem step_inv i c c' : inv c -> step i c c' -> inv c'.
Proof.
  intros H Hs. split; [exact (step_lk i c c' H Hs)|exact (step_pt i c c' H Hs)|exact (step_owner i c c' H Hs)|
    exact (step_free i c c' H Hs)|exact (step_pid i c c' H Hs)|exact (step_chan i c c' H Hs)|exact (step_state i c c' H Hs)|
    exact (step_wakeup i c c' H Hs)].
Qed.

Lemma init_inv : inv init.
Proof. split; try done. by exists None. Qed.

Lemma runs_inv P c c' : runs P c c' -> inv c -> inv c'.
Proof. induction 1 as [|c1 c2 c3 (i & _ & Hs) _ IH]; eauto using step_inv. Qed.

(** ** Progress *)

Lemma step_local i c c' j : step i c c' -> j <> i -> pcs c' j = pcs c j.
Proof. intros Hs Hj. moves Hs Hp; try (here j i); done. Qed.

(** The steps before the process has neither spin lock. *)
Definition rank (p : pc) : nat :=
  match p with
  | Test | Unlock => 6
  | SleepAcq | ClearPid => 5
  | SleepRel | WakeAcq => 4
  | SetLocked | SetChan | Wake1 => 3
  | SetPid | SetState | ClearChan | WakeRel => 2
  | RelLk | Sched | RelPt | LeaveLk => 1
  | Out | AcqLk | Inside | Dozing => 0
  end%nat.

(** In [acquiresleep], or back from it with the lock. *)
Definition going (p : pc) : bool := seeking p || match p with Inside => true | _ => false end.

(** It has the sleep lock or one of the two spin locks. *)
Definition holds (p : pc) : bool := has_lk p || has_pt p || owns p.

Lemma rank_step c j : (0 < rank (pcs c j))%nat -> pt c = None \/ has_pt (pcs c j) = true ->
  exists c', step j c c' /\ (rank (pcs c' j) < rank (pcs c j))%nat /\ (going (pcs c j) = true -> going (pcs c' j) = true).
Proof.
  intros Hr Hpt.
  assert (exists c', (acquiresleep_step j c = Some c' \/ sleep_step j c = Some c' \/ releasesleep_step j c = Some c') /\
    (rank (pcs c' j) < rank (pcs c j))%nat /\ (going (pcs c j) = true -> going (pcs c' j) = true)) as (c' & Hc & Hc').
  - unfold acquiresleep_step, sleep_step, releasesleep_step.
    destruct (pcs c j) eqn:Ej; cbn in *; try lia; try (destruct Hpt as [->|?]; [|done]; cbn).
    all: eexists; (split; [eauto|]); cbn; rewrite fn_lookup_insert; try destruct (word c =? 0); cbn; (split; [lia|done]).
  - exists c'. split; [|exact Hc']. destruct Hc as [E|[E|E]]; eauto using step.
Qed.

Section Progress.
Context (P : nat -> Prop).

Lemma runs_step j c c1 c2 : P j -> step j c c1 -> runs P c1 c2 -> runs P c c2.
Proof. intros Hj Hs. apply rtc_l. eauto. Qed.

(** While only the process [t] moves, no other process gets a spin lock. *)
Lemma pt_kept c c' t : inv c -> inv c' -> (forall k, k <> t -> pcs c' k = pcs c k) ->
  pt c = None \/ pt c = Some t -> pt c' = None \/ pt c' = Some t.
Proof.
  intros H H' Hk Ht. destruct (pt c') as [k|] eqn:Ek; [|by left]. right. destruct (decide (k = t)) as [->|Hne]; [done|].
  pose proof (iv_pt c' H' k) as E. rewrite Ek, bool_decide_true, Hk in E by done. apply (has_pt_is c H) in E. destruct Ht; congruence.
Qed.

Lemma lk_kept c c' t : inv c -> inv c' -> (forall k, k <> t -> pcs c' k = pcs c k) ->
  lk c = None \/ lk c = Some t -> lk c' = None \/ lk c' = Some t.
Proof.
  intros H H' Hk Ht. destruct (lk c') as [k|] eqn:Ek; [|by left]. right. destruct (decide (k = t)) as [->|Hne]; [done|].
  pose proof (iv_lk c' H' k) as E. rewrite Ek, bool_decide_true, Hk in E by done. apply (has_lk_is c H) in E. destruct Ht; congruence.
Qed.

Lemma rank_pt c t : inv c -> rank (pcs c t) = 0%nat -> pt c <> Some t.
Proof. intros H Hr E. pose proof (iv_pt c H t) as Ep. rewrite E, bool_decide_true in Ep by done. by destruct (pcs c t). Qed.

Lemma rank_lk c t : inv c -> rank (pcs c t) = 0%nat -> lk c <> Some t.
Proof. intros H Hr E. pose proof (iv_lk c H t) as Ep. rewrite E, bool_decide_true in Ep by done. by destruct (pcs c t). Qed.

(** A process that has a spin lock gives it up. *)
Lemma run_down n : forall c j, inv c -> P j -> (rank (pcs c j) <= n)%nat -> pt c = None \/ pt c = Some j ->
  exists c', runs P c c' /\ rank (pcs c' j) = 0%nat /\ (going (pcs c j) = true -> going (pcs c' j) = true) /\
    forall k, k <> j -> pcs c' k = pcs c k.
Proof.
  induction n as [|n IH]; intros c j H Hj Hn Hpt; destruct (decide (rank (pcs c j) = 0%nat)) as [E|E]; try lia;
    try (exists c; split; [constructor|auto]; fail).
  destruct (rank_step c j) as (c1 & Hs & Hr & Hg); [lia| |].
  { destruct Hpt as [?|Hpt]; [by left|]. right. rewrite (iv_pt c H). by apply bool_decide_eq_true. }
  pose proof (step_inv _ _ _ H Hs) as H1.
  destruct (IH c1 j H1 Hj) as (c2 & Hc & Hr2 & Hg2 & Hk); [lia| |].
  { apply (pt_kept c c1 j H H1); [|done]. intros k. by apply step_local. }
  exists c2. split; [by eapply runs_step|]. split; [done|]. split; [auto|].
  intros k Hne. rewrite Hk by done. by apply (step_local j c).
Qed.

Definition permits (c : config) : Prop := forall j, holds (pcs c j) = true -> P j.

Lemma runs_permits c c' : runs P c c' -> permits c -> permits c'.
Proof.
  induction 1 as [|c1 c2 c3 (i & Hi & Hs) _ IH]; [done|]. intros Hp. apply IH. intros j.
  destruct (decide (j = i)) as [->|Hne]; [done|]. rewrite (step_local _ _ _ _ Hs Hne). apply Hp.
Qed.

(** The process that has [ptable.lock], and then the one that has the lock's
    spin lock, gives it up. *)
Lemma settle_pt c i : inv c -> permits c -> going (pcs c i) = true ->
  exists c', runs P c c' /\ pt c' = None /\ going (pcs c' i) = true.
Proof.
  intros H Hp Hg. destruct (pt c) as [t|] eqn:Et; [|exists c; split; [constructor|done]].
  assert (Ht : has_pt (pcs c t) = true) by (rewrite (iv_pt c H); by apply bool_decide_eq_true).
  destruct (run_down (rank (pcs c t)) c t H) as (c' & Hc & Hr & Hgt & Hk); [|reflexivity|by right|].
  { apply Hp. unfold holds. rewrite Ht. by rewrite orb_true_r. }
  pose proof (runs_inv _ _ _ Hc H) as H'. exists c'. split; [done|]. split.
  - destruct (pt_kept c c' t H H' Hk) as [E|E]; [by right|done|]. by destruct (rank_pt c' t H' Hr).
  - destruct (decide (i = t)) as [->|Hne]; [auto|by rewrite Hk].
Qed.

Lemma settle_lk c i : inv c -> permits c -> pt c = None -> going (pcs c i) = true ->
  exists c', runs P c c' /\ lk c' = None /\ pt c' = None /\ going (pcs c' i) = true.
Proof.
  intros H Hp Hpt Hg. destruct (lk c) as [t|] eqn:Et; [|exists c; split; [constructor|done]].
  assert (Ht : has_lk (pcs c t) = true) by (rewrite (iv_lk c H); by apply bool_decide_eq_true).
  destruct (run_down (rank (pcs c t)) c t H) as (c' & Hc & Hr & Hgt & Hk); [|reflexivity|by left|].
  { apply Hp. unfold holds. by rewrite Ht. }
  pose proof (runs_inv _ _ _ Hc H) as H'. exists c'. split; [done|]. split; [|split].
  - destruct (lk_kept c c' t H H' Hk) as [E|E]; [by right|done|]. by destruct (rank_lk c' t H' Hr).
  - destruct (pt_kept c c' t H H' Hk) as [E|E]; [by left|done|]. by destruct (rank_pt c' t H' Hr).
  - destruct (decide (i = t)) as [->|Hne]; [auto|by rewrite Hk].
Qed.

(** With both spin locks free: the owner releases the sleep lock, and the
    process that is after it gets it. *)
Definition arrives (i : nat) (c : config) : Prop := exists c', runs P c c' /\ pcs c' i = Inside /\ wpid c' = Z.of_nat i.

Lemma arrives_runs i c c1 : runs P c c1 -> arrives i c1 -> arrives i c.
Proof. intros Hr (c' & Hr' & Hc'). exists c'. split; [|done]. by etransitivity. Qed.

Lemma gives_back a c : P a -> lk c = None -> pt c = None -> pcs c a = Inside ->
  exists c', runs P c c' /\ lk c' = None /\ pt c' = None /\ word c' = 0 /\ forall k, k <> a -> pcs c' k = pcs c k.
Proof.
  intros Ha Hl Ht Hi. eexists. split.
  - do 7 (eapply (runs_step a); [done|apply step_release; unfold releasesleep_step; cbn; rewrite ?fn_lookup_insert, ?Hi; cbn; rewrite ?Hl, ?Ht; reflexivity|]).
    constructor.
  - cbn. repeat split. intros k Hk. by rewrite !(fn_lookup_insert_ne _ a k) by congruence.
Qed.

Lemma takes i c : P i -> lk c = None -> word c = 0 -> pcs c i = AcqLk -> arrives i c.
Proof.
  intros Hi Hl Hw Hp. eexists. split.
  - do 5 (eapply (runs_step i); [done|apply step_acquire; unfold acquiresleep_step; cbn; rewrite ?fn_lookup_insert, ?Hp; cbn; rewrite ?Hl, ?Hw; reflexivity|]).
    constructor.
  - cbn. by rewrite fn_lookup_insert.
Qed.

Lemma wakes_up i c : P i -> pt c = None -> pst c i = RUNNABLE -> pcs c i = Dozing ->
  exists c', runs P c c' /\ lk c' = lk c /\ word c' = word c /\ pcs c' i = AcqLk.
Proof.
  intros Hi Ht Hs Hp. eexists. split.
  - do 3 (eapply (runs_step i); [done|apply step_sleep; unfold sleep_step; cbn; rewrite ?fn_lookup_insert, ?Hp; cbn; rewrite ?Hs, ?Ht; reflexivity|]).
    constructor.
  - cbn. by rewrite fn_lookup_insert.
Qed.

Lemma arrives_free i c : inv c -> P i -> lk c = None -> pt c = None -> word c = 0 -> seeking (pcs c i) = true -> arrives i c.
Proof.
  intros H Hi Hl Ht Hw Hs. pose proof (iv_lk c H i) as El. pose proof (iv_pt c H i) as Et. pose proof (iv_state c H i) as Es.
  pose proof (iv_wakeup c H i) as Ew. rewrite Hl in El. rewrite Ht in Et. destruct (pcs c i) eqn:Ep; try done; [by apply takes|].
  destruct (pst c i) eqn:Eq; try done.
  - destruct Ew as [?|[j Hj]]; [done|lia|]. pose proof (iv_lk c H j) as Ej. rewrite Hl in Ej. by destruct (pcs c j).
  - destruct (wakes_up i c Hi Ht Eq Ep) as (c1 & Hr & E1 & E2 & E3). apply (arrives_runs i c c1 Hr). apply takes; congruence.
Qed.

Lemma arrives_settled i c : inv c -> P i -> permits c -> lk c = None -> pt c = None -> seeking (pcs c i) = true -> arrives i c.
Proof.
  intros H Hi Hp Hl Ht Hs. destruct (decide (word c = 0)) as [Hw|Hw]; [by apply arrives_free|].
  destruct (word_owner c H Hw) as (_ & a & Ha). assert (Ea : pcs c a = Inside).
  { pose proof (iv_lk c H a) as El. rewrite Hl in El. by destruct (pcs c a). }
  assert (Pa : P a) by (apply Hp; by rewrite Ea).
  destruct (gives_back a c Pa Hl Ht Ea) as (c1 & Hr & E1 & E2 & E3 & Ek). apply (arrives_runs i c c1 Hr).
  apply arrives_free; [by eapply runs_inv|done..|]. rewrite Ek; [done|]. intros ->. by rewrite Ea in Hs.
Qed.

Lemma gets_lock i c : inv c -> P i -> permits c -> seeking (pcs c i) = true -> arrives i c.
Proof.
  intros H Hi Hp Hs. destruct (settle_pt c i H Hp) as (c1 & R1 & T1 & G1); [unfold going; by rewrite Hs|].
  pose proof (runs_inv _ _ _ R1 H) as H1. pose proof (runs_permits _ _ R1 Hp) as Hp1.
  destruct (settle_lk c1 i H1 Hp1 T1 G1) as (c2 & R2 & L2 & T2 & G2).
  pose proof (runs_inv _ _ _ R2 H1) as H2. pose proof (runs_permits _ _ R2 Hp1) as Hp2.
  apply (arrives_runs i c c1 R1), (arrives_runs i c1 c2 R2). unfold going in G2. apply orb_true_iff in G2 as [G2|G2].
  - by apply arrives_settled.
  - assert (E : pcs c2 i = Inside) by (by destruct (pcs c2 i)). exists c2. split; [constructor|]. split; [done|].
    apply (iv_pid c2 H2). by rewrite E.
Qed.
End Progress.

(** The processes of [l] take a step each, in this order. *)
Definition move (i : nat) (c : config) : option config :=
  match pcs c i with
  | Out => Some (goto i AcqLk c)
  | _ => match acquiresleep_step i c with
         | Some c' => Some c'
         | None => match sleep_step i c with Some c' => Some c' | None => releasesleep_step i c end
         end
  end.

Definition walk (l : list nat) (c : config) : option config := foldl (fun o i => o ≫= move i) (Some c) l.

Lemma move_step i c c' : move i c = Some c' -> step i c c'.
Proof.
  unfold move. intros E. destruct (pcs c i) eqn:Ep; [simplify_eq; by apply step_enter|..].
  all: destruct (acquiresleep_step i c) eqn:E1; [simplify_eq; by apply step_acquire|].
  all: destruct (sleep_step i c) eqn:E2; [simplify_eq; by apply step_sleep|by apply step_release].
Qed.

Lemma walk_runs l c c' : walk l c = Some c' -> runs (fun _ => True) c c'.
Proof.
  unfold walk. revert c. induction l as [|i l IH]; intros c E; [injection E as <-; constructor|].
  cbn in E. destruct (move i c) as [c1|] eqn:E1; cbn in E.
  - eapply runs_step; [done|by apply move_step|by apply IH].
  - exfalso. clear -E. by induction l.
Qed.

Lemma walk_reaches l c : walk l c <> None -> runs (fun _ => True) c (default c (walk l c)).
Proof. destruct (walk l c) as [c'|] eqn:E; [|done]. intros _. exact (walk_runs l c c' E). Qed.

(** C17: the sleep lock, with any number of processes whose steps, those of
    [sleep] and of [releasesleep]'s [wakeup] included, come in any order, and
    which may be killed while they sleep.  At most one process has the lock,
    and the lock shows the pid of the one that is back from [acquiresleep].  No
    wakeup is lost: while a process sleeps on the lock another one has it, or
    has just released it and is about to wake the sleepers.  And a process in
    [acquiresleep] can always get the lock, whatever it is doing, by its own
    steps and those of the processes that have the sleep lock or one of the two
    spin locks at that moment. *)
Theorem sleeplock_handoff c i : runs (fun _ => True) init c -> seeking (pcs c i) = true ->
  (forall a b, owns (pcs c a) = true -> owns (pcs c b) = true -> a = b) /\
  (forall a, pcs c a = Inside -> word c = 1 /\ wpid c = Z.of_nat a) /\
  (pcs c i = Dozing -> pst c i = SLEEPING ->
    (exists a, a <> i /\ owns (pcs c a) = true) \/ exists a, a <> i /\ waking (pcs c a) = true) /\
  exists c', runs (fun j => j = i \/ holds (pcs c j) = true) c c' /\ pcs c' i = Inside /\ wpid c' = Z.of_nat i.
Proof.
  intros Hr Hs. pose proof (runs_inv _ _ _ Hr init_inv) as H. split; [exact (owner_unique c H)|]. split; [|split].
  - intros a Ea. split; [apply (owner_word c H a)|apply (iv_pid c H a)]; by rewrite Ea.
  - intros Ep Es. destruct (iv_wakeup c H i) as [Hw|[a Ha]]; [by rewrite Ep, Es| |].
    + destruct (word_owner c H) as (_ & a & Ha); [lia|]. left. exists a. split; [|done]. intros ->. by rewrite Ep in Ha.
    + right. exists a. split; [|done]. intros ->. by rewrite Ep in Ha.
  - apply gets_lock; [done|by left|by right|done].
Qed.

(** Process 1 sleeps on the lock that process 0 has. *)
Definition schedule : list nat := [0; 0; 0; 0; 0; 0; 1; 1; 1; 1; 1; 1; 1; 1]%nat.
Definition asleep : config := default init (walk schedule init).

Lemma sleeplock_handoff_witness : pcs asleep 0 = Inside /\ pcs asleep 1 = Dozing /\ pst asleep 1 = SLEEPING /\
  exists c', runs (fun j => j = 1%nat \/ holds (pcs asleep j) = true) asleep c' /\ pcs c' 1 = Inside /\ wpid c' = 1.
Proof.
  split; [by vm_compute|]. split; [by vm_compute|]. split; [by vm_compute|].
  apply (sleeplock_handoff asleep 1); [|by vm_compute]. apply (walk_reaches schedule). by vm_compute.
Defined.
End Handoff.
