(* ===== verification/Sleeping.v ===== *)
(** * sleep: what a process finds when it has slept

    While a process sleeps, other processes and interrupt handlers change the
    file layer.  [SleepLaws P R] says that they leave this processor and the
    process as [swtch] needs them, and change a file layer in which [P] holds
    only as [R] allows for the channel slept on; [sleep_on_spec] is what follows
    for [sleep]. *)

From S2P Require Import Prelude Memory Mmu Machine Spinlock Kalloc Vm PageTable VmProofs VmSpaces.
From S2P Require Import Encrypt ProcTable Clock ClockProofs Proc ProcProofs FileState Sleeplock.

Class SleepLaws {F} `{SE : SwitchEnv F} (P : channel -> F -> Prop) (R : channel -> F -> F -> Prop) : Prop :=
  others_law : forall (k : kstate F) p q i c,
    here (hw (mach k)) i c -> cpu_proc c = Some p -> ncli c = 1 -> eflags_if (hw (mach k)) = false ->
    ptable_lock k = Spinlock 1 (Some i) -> procs k !! p = Some q -> state q = SLEEPING ->
    P (chan q) (files k) ->
    wp others k (fun _ k' => hw (mach k') = hw (mach k) /\ ptable_lock k' = ptable_lock k /\
      (exists q', procs k' !! p = Some q' /\ pid q' = pid q) /\ R (chan q) (files k) (files k')).

Section Sleeping.
Context {F : Type} `{SE : SwitchEnv F} (P : channel -> F -> Prop) (R : channel -> F -> F -> Prop) `{SL : !SleepLaws P R}.
Implicit Types k : kstate F.

(** No lock is held in [h0]. *)
Definition unlocked (h0 : hart) : Prop := exists i c, here h0 i c /\ ncli c = 0.

Lemma sched_spec k p q h0 (Q : unit -> kstate F -> Prop) :
  held_from h0 (hw (mach k)) (ptable_lock k) -> unlocked h0 -> running_on h0 p -> procs k !! p = Some q -> state q = SLEEPING ->
  P (chan q) (files k) ->
  (forall k', hw (mach k') = hw (mach k) -> ptable_lock k' = ptable_lock k -> (exists q', procs k' !! p = Some q' /\ pid q' = pid q) ->
    R (chan q) (files k) (files k') -> Q tt k') ->
  wp (sched others) k Q.
Proof.
  intros (i & c & Hh & Hn & Hi & Hhw & Hlk) (i' & c' & Hh' & Hz) Hr Hq Hs HP HQ.
  assert (i' = i /\ c' = c) as [-> ->] by (destruct Hh as [H1 H2], Hh' as [H3 H4]; by simplify_eq).
  assert (held_from h0 (hw (mach k)) (ptable_lock k)) as Hheld by (by exists i, c).
  pose proof (held_running _ _ _ _ Hheld Hr) as Hr1. pose proof (held_nested _ _ _ Hheld) as Hn1.
  set (c1 := push_cpu (eflags_if h0) c) in *.
  assert (here (hw (mach k)) i c1) as Hh1 by (rewrite Hhw; by apply here_pushed).
  assert (ncli c1 = 1) as En by (unfold c1; rewrite ncli_push; lia).
  assert (eflags_if (hw (mach k)) = false) as Ei by (by rewrite Hhw).
  assert (cpu_proc c1 = Some p) as Ep.
  { destruct Hr1 as (j & d & [J1 J2] & _ & _ & Hp). destruct Hh1 as [J3 J4]. by simplify_eq. }
  assert (update hartL (hw (mach k)) k = k) as Eu by (change (hw (mach k)) with (view hartL k); apply update_view).
  unfold sched. wstep. eapply wp_myproc_in; [exact Hr1|]. intros h [_ Hh2]. rewrite Hh2, Eu by done.
  wstep. eapply wp_ok; [eapply holding_ok; first [exact Hh1|apply _|lia|done]|].
  change (view hartL k) with (hw (mach k)). rewrite (settle_pos _ i c1) by (done || lia). rewrite Eu.
  change (view ptable_lockL k) with (ptable_lock k). rewrite Hlk. cbn [locked lk_cpu]. rewrite bool_decide_true by done. cbn [negb andb Z.eqb].
  assert (forall A (f : cpu -> A) (Q' : A -> kstate F -> Prop), Q' (f c1) k -> wp (zoom hartL (get_mycpu f)) k Q') as Hget.
  { intros A f Q' HQ'. apply wp_zoom. eapply wp_ok; [apply (get_mycpu_ok _ i c1); [exact Hh1|exact Ei]|]. by rewrite update_view. }
  wstep. apply Hget. rewrite En. cbn [negb Z.eqb Pos.eqb]. wstep. wstep. wstep. eapply wp_getp; [done|]. rewrite Hs, bool_decide_false by done.
  wstep. apply wp_zoom. wstep. rewrite update_view. change (view hartL k) with (hw (mach k)). rewrite Ei. wstep. apply Hget.
  wstep. eapply wp_mono; [by apply (others_law k p q i c1)|]. intros _ k' (E1 & E2 & E3 & E4).
  apply wp_zoom. change (view hartL k') with (hw (mach k')). rewrite E1. eapply wp_ok; [by apply (upd_mycpu_ok _ i c1)|].
  rewrite (upd_ext i _ id _ c1) by (apply Hh1 || by destruct c1).
  assert (upd_cpu i id (hw (mach k)) = hw (mach k')) as ->.
  { rewrite E1. unfold upd_cpu, set_cpus. rewrite list_alter_id by done. by destruct (hw (mach k)). }
  change (hw (mach k')) with (view hartL k'). rewrite update_view. by apply HQ.
Qed.

Lemma held_same_lock h0 h1 h2 lk lk2 : held_from h0 h1 lk -> held_from h1 h2 lk2 -> lk = lk2.
Proof.
  intros (i & c & Hh & _ & _ & -> & ->) (i' & c' & [H1 _] & _ & _ & _ & ->). apply here_pushed in Hh as [H2 _]. by simplify_eq.
Qed.

#[export] Instance unlocked_proper : Proper ((≡) ==> impl) unlocked.
Proof. intros h h' E (i & c & Hh & Hn). destruct (here_equiv _ _ _ _ E Hh) as (d & Hd & E'). exists i, d. by rewrite <- (ncli_proper _ _ E'). Qed.

Context (l : lens F spinlock) `{!LensUpd l}.
Hypothesis Hfree : forall ch s s', R ch s s' -> LensAt l s -> view l s = free -> LensAt l s' /\ view l s' = free.

(** A process that sleeps inside the critical section of [l] comes back to it
    in a state that the others have left, with the lock free. *)
Lemma sleep_on_spec k p q h0 ch x (Q : unit -> kstate F -> Prop) :
  held_from h0 (hw (mach k)) (view l (files k)) -> unlocked h0 -> running_on h0 p -> locked (ptable_lock k) = 0 ->
  procs k !! p = Some q -> files k = update l (view l (files k)) x -> LensAt l x -> view l x = free -> P ch x ->
  (forall k' h0' x', held_from h0' (hw (mach k')) (view l (files k')) -> unlocked h0' -> running_on h0' p -> locked (ptable_lock k') = 0 ->
    (exists q', procs k' !! p = Some q' /\ pid q' = pid q) -> files k' = update l (view l (files k')) x' -> LensAt l x' -> view l x' = free ->
    R ch x x' -> Q tt k') ->
  wp (sleep_on others ch (infiles l)) k Q.
Proof.
  intros Hheld Hun Hr Hpt Hq Hf Hat Hx HP HQ. pose proof (held_running _ _ _ _ Hheld Hr) as Hr1. pose proof (held_nested _ _ _ Hheld) as Hn1.
  assert (update hartL (hw (mach k)) k = k) as Eu by (change (hw (mach k)) with (view hartL k); apply update_view).
  assert (forall k', files k' = files k -> LensAt (infiles l) k') as Hat1.
  { intros k' E t. cbn. rewrite E, Hf, update_update. apply view_at. }
  unfold sleep_on. wstep. eapply wp_myproc_in; [exact Hr1|]. intros h [_ Hh2]. rewrite Hh2, Eu by done.
  wstep. apply wp_acquire; [by eapply held_cpu|done|]. intros h2 lk2 Hh3.
  pose proof (held_same_lock _ _ _ _ _ Hheld Hh3) as El.
  wstep. match goal with |- wp _ ?k1 _ => assert (LensAt (infiles l) k1) as Hat0 by (by apply Hat1);
    eapply (wp_release_at (infiles l) k1 (hw (mach k))) end.
  { change (held_from (hw (mach k)) h2 (view l (files k))). by rewrite El. }
  intros h3 [_ Hh4]. rewrite Hh4 by done. wstep. apply wp_setp. wstep. apply wp_setp.
  match goal with |- wp _ ?k1' _ => set (k1 := k1') end.
  set (q1 := set_state SLEEPING (set_chan ch q)).
  assert (procs k1 !! p = Some q1) as Hq1.
  { unfold k1. cbn [procs set_procs]. rewrite !list_lookup_alter_eq. change (procs _) with (procs k). by rewrite Hq. }
  assert (files k1 = x) as Hx1.
  { transitivity (update l free (files k)); [done|]. rewrite Hf, update_update, <- Hx. apply update_view. }
  wstep. apply (sched_spec k1 p q1 h0); [by rewrite El in Hheld|done|done|done|done|by rewrite Hx1|].
  intros k2 E1 E2 (q2 & Hq2 & Epid) HR. rewrite Hx1 in HR. change (chan q1) with ch in HR.
  wstep. apply wp_setp. wstep. eapply (wp_release_in _ h0).
  { cbn. rewrite E1, E2. by rewrite El in Hheld. }
  intros h4 [Hh5 _]. assert (running_on h4 p) as Hr4 by (by rewrite Hh5). destruct (Hfree _ _ _ HR Hat Hx) as [Hat2 Hx2].
  match goal with |- wp _ ?k3 _ => assert (LensAt (infiles l) k3) as Hat3 by (intros t; cbn; apply view_at);
    eapply (wp_acquire_at (infiles l) k3) end; [by eapply running_cpu|by cbn; rewrite Hx2|].
  intros h5 lk5 Hh6. eapply (HQ _ h4 (files k2)); try done.
  - cbn. by rewrite view_at.
  - by rewrite Hh5.
  - cbn. rewrite list_lookup_alter_eq, Hq2. eexists. split; [done|]. exact Epid.
  - cbn. by rewrite view_at.
Qed.
End Sleeping.
