(* ===== verification/Bio.v ===== *)
(** * The buffer cache and the disk: bio.c and memide.c

    Buffers are cells of [bcache.buf]; the list of buffers, most recently used
    first, goes through their [prev] and [next], around the head, whose index
    is [NBUF].  The driver is the interface [DiskDriver], of which memide.c, which
    keeps the disk in memory, is the instance here; ide.c is in Ide.v. *)

From S2P Require Import Prelude Memory Mmu Machine Spinlock Kalloc Vm PageTable VmProofs VmSpaces.
From S2P Require Import Encrypt ProcTable Clock ClockProofs Proc ProcProofs FileState Sleeplock.

Abbreviation FK := (M (kstate fstate)).

(** [&bcache.head] *)
Definition HEAD : nat := 30.

(** [b->field] and [b->field = ...] *)
Definition buf_at (s : fstate) (b : nat) : buf := default buf0 (bc_buf (bcache s) !! b).
Definition set_buf (f : buf -> buf) (b : nat) (s : fstate) : fstate :=
  set_bcache (set_bc_buf (alter f b (bc_buf (bcache s))) (bcache s)) s.

Definition getb {A} (b : nat) (f : buf -> A) : FK A := gets (fun k => f (buf_at (files k) b)).
Definition setb (b : nat) (f : buf -> buf) : FK unit := modify (fun k => set_files (set_buf f b (files k)) k).

Class DiskDriver : Type := iderw : nat -> FK unit.

Section Bio.
Context `{SE : SwitchEnv fstate}.

(** ** binit *)

Fixpoint binit_loop (b n : nat) : FK unit :=
  match n with
  | O => mret tt
  | S n =>
      f ← getb HEAD b_next;
      setb b (set_b_next f);;
      setb b (set_b_prev HEAD);;
      initsleeplock (buf_sl b);;
      f ← getb HEAD b_next;
      setb f (set_b_prev b);;
      setb HEAD (set_b_next b);;
      binit_loop (S b) n
  end.

Definition binit : FK unit :=
  initlock (infiles bc_lockL);;
  setb HEAD (set_b_prev HEAD);;
  setb HEAD (set_b_next HEAD);;
  binit_loop 0 (Z.to_nat NBUF).

(** ** bget *)

(** The two searches, from buffer [b]; the list has [NBUF] buffers. *)
Fixpoint bget_cached (dev blockno : Z) (b n : nat) : FK (option nat) :=
  if decide (b = HEAD) then mret None else
  match n with
  | O => spin
  | S n =>
      d ← getb b b_dev;
      c ← getb b b_blockno;
      if (d =? dev) && (c =? blockno) then mret (Some b)
      else x ← getb b b_next; bget_cached dev blockno x n
  end.

Fixpoint bget_unused (b n : nat) : FK (option nat) :=
  if decide (b = HEAD) then mret None else
  match n with
  | O => spin
  | S n =>
      c ← getb b b_refcnt;
      f ← getb b b_flags;
      if (c =? 0) && negb (flag f B_DIRTY) then mret (Some b)
      else x ← getb b b_prev; bget_unused x n
  end.

Definition bget (dev blockno : Z) : FK nat :=
  acquire (infiles bc_lockL);;
  b ← getb HEAD b_next;
  o ← bget_cached dev blockno b (Z.to_nat NBUF);
  match o with
  | Some b =>
      setb b (fun x => set_b_refcnt (u32 (b_refcnt x + 1)) x);;
      release (infiles bc_lockL);;
      acquiresleep (buf_sl b);;
      mret b
  | None =>
      b ← getb HEAD b_prev;
      o ← bget_unused b (Z.to_nat NBUF);
      match o with
      | Some b =>
          setb b (set_b_dev dev);;
          setb b (set_b_blockno blockno);;
          setb b (set_b_flags 0);;
          setb b (set_b_refcnt 1);;
          release (infiles bc_lockL);;
          acquiresleep (buf_sl b);;
          mret b
      | None => panic "bget: no buffers"
      end
  end.

(** ** bread, bwrite, brelse *)

Definition bread `{DD : DiskDriver} (dev blockno : Z) : FK nat :=
  b ← bget dev blockno;
  f ← getb b b_flags;
  when (negb (flag f B_VALID)) (iderw b);;
  mret b.

Definition bwrite `{DD : DiskDriver} (b : nat) : FK unit :=
  h ← holdingsleep (buf_sl b);
  if negb h then panic "bwrite" else
  setb b (fun x => set_b_flags (Z.lor (b_flags x) B_DIRTY) x);;
  iderw b.

Definition brelse (b : nat) : FK unit :=
  h ← holdingsleep (buf_sl b);
  if negb h then panic "brelse" else
  releasesleep (buf_sl b);;
  acquire (infiles bc_lockL);;
  setb b (fun x => set_b_refcnt (u32 (b_refcnt x - 1)) x);;
  c ← getb b b_refcnt;
  when (c =? 0)
    (x ← getb b b_next;
     p ← getb b b_prev;
     setb x (set_b_prev p);;
     p ← getb b b_prev;
     x ← getb b b_next;
     setb p (set_b_next x);;
     f ← getb HEAD b_next;
     setb b (set_b_next f);;
     setb b (set_b_prev HEAD);;
     f ← getb HEAD b_next;
     setb f (set_b_prev b);;
     setb HEAD (set_b_next b));;
  release (infiles bc_lockL).

(** ** memide.c *)

Definition disksize (s : fstate) : Z := Z.of_nat (length (d_blocks (memdisk s))).

(** [memmove(p, b->data, BSIZE)] for the block [i] of the disk; the contents
    before the write are remembered. *)
Definition disk_put (i : Z) (d : list Z) (s : fstate) : fstate :=
  set_memdisk (Disk (<[Z.to_nat i := d]> (d_blocks (memdisk s))) (d_blocks (memdisk s) :: d_past (memdisk s))) s.

Definition disk_block (s : fstate) (i : Z) : list Z := default [] (d_blocks (memdisk s) !! Z.to_nat i).

Definition memide_rw (b : nat) : FK unit :=
  h ← holdingsleep (buf_sl b);
  if negb h then panic "iderw: buf not locked" else
  f ← getb b b_flags;
  if Z.land f (Z.lor B_VALID B_DIRTY) =? B_VALID then panic "iderw: nothing to do" else
  d ← getb b b_dev;
  if negb (d =? 1) then panic "iderw: request not for disk 1" else
  i ← getb b b_blockno;
  size ← gets (fun k => disksize (files k));
  if size <=? i then panic "iderw: block out of range" else
  (if flag f B_DIRTY then
     setb b (set_b_flags (Z.ldiff f B_DIRTY));;
     x ← getb b b_data;
     modify (fun k => set_files (disk_put i x (files k)) k)
   else
     x ← gets (fun k => disk_block (files k) i);
     setb b (set_b_data x));;
  setb b (fun x => set_b_flags (Z.lor (b_flags x) B_VALID) x).
End Bio.

#[export] Instance memide `{SwitchEnv fstate} : DiskDriver := memide_rw.
