(* ===== verification/BioProofs.v ===== *)
(** * Proofs about the buffer cache

    The list of buffers as a list, and the cache as a view of the disk: the
    current contents of every block, the blocks that are pinned because they
    are dirty, and the blocks whose buffers are held. *)

From stdpp Require Import functions.
From S2P Require Import Prelude Memory Mmu Machine Spinlock Kalloc Vm PageTable VmProofs VmSpaces.
From S2P Require Import Encrypt ProcTable Clock ClockProofs Proc ProcProofs FileState Sleeplock Bio.

(** ** Critical sections of the file layer *)

Section Sections.
Context {F : Type} (l : lens F spinlock) `{!LensUpd l}.
Implicit Types k : kstate F.

Lemma wp_enter k (Q : unit -> kstate F -> Prop) :
  cpu_inv (hw (mach k)) -> LensAt l (files k) -> view l (files k) = free ->
  (forall h1 lk, held_from (hw (mach k)) h1 lk ->
     Q tt (set_files (update l lk (files k)) (update hartL h1 k))) ->
  wp (acquire (infiles l)) k Q.
Proof.
  intros Hc Hat Hf HQ. eapply (wp_acquire_at (infiles l) k); [exact Hc| |exact HQ].
  cbn. by rewrite Hf.
Qed.

(** [s] is the file layer as the section leaves it, the lock apart. *)
Lemma wp_leave k h0 s lk (Q : unit -> kstate F -> Prop) :
  held_from h0 (hw (mach k)) lk -> LensAt l s -> view l s = free -> files k = update l lk s ->
  (forall h, settles h0 h -> Q tt (set_files s (update hartL h k))) ->
  wp (release (infiles l)) k Q.
Proof.
  intros Hh Hat Hf Hs HQ.
  assert (LensAt l (files k)) as Hat2 by (intros t; by rewrite Hs, update_update, view_at).
  eapply (wp_release_at (infiles l) k).
  - cbn. rewrite Hs, view_at. exact Hh.
  - intros h Hs'. cbn. rewrite Hs, update_update.
    change (Spinlock 0 None) with free. rewrite <- Hf, update_view. by apply HQ.
Qed.
End Sections.

(** ** Doubly linked lists

    [seg nx px x l y]: following [nx] from [x] one meets the elements of [l]
    and then [y], and [px] leads back. *)

Section Links.
Implicit Types nx px : nat -> nat.

Fixpoint seg nx px (x : nat) (l : list nat) (y : nat) : Prop :=
  match l with
  | [] => nx x = y /\ px y = x
  | z :: l => nx x = z /\ px z = x /\ seg nx px z l y
  end.

Lemma seg_app nx px x l1 b l2 y :
  seg nx px x (l1 ++ b :: l2) y <-> seg nx px x l1 b /\ seg nx px b l2 y.
Proof.
  revert x. induction l1 as [|z l1 IH]; intros x; cbn; [tauto|]. rewrite IH. tauto.
Qed.

Lemma seg_reverse nx px x l y : seg nx px x l y -> seg px nx y (reverse l) x.
Proof.
  revert x. induction l as [|z l IH]; intros x; [cbn; tauto|]. intros (H1 & H2 & H3).
  rewrite reverse_cons. apply seg_app. split; [by apply IH|by split].
Qed.

(** Assignments away from the segment do not matter. *)
Lemma seg_ext nx px nx' px' x l y :
  (forall z, z = x \/ z ∈ l -> nx' z = nx z) -> (forall z, z = y \/ z ∈ l -> px' z = px z) ->
  seg nx px x l y -> seg nx' px' x l y.
Proof.
  revert x. induction l as [|z l IH]; intros x Hn Hp; cbn.
  - intros [<- H]. split; [apply Hn|rewrite <- H at 2; apply Hp]; by left.
  - intros (H1 & H2 & H3). rewrite (Hn x), (Hp z) by (set_solver). split_and!; try done.
    apply IH; [intros w Hw; apply Hn; set_solver|intros w Hw; apply Hp; set_solver|done].
Qed.

Lemma seg_prev_in nx px x l1 b l2 y : seg nx px x (l1 ++ b :: l2) y -> px b ∈ x :: l1.
Proof.
  intros [H _]%seg_app. revert x H. induction l1 as [|z l1 IH]; intros x; cbn.
  - intros [_ ->]. by left.
  - intros (_ & _ & H). right. by apply IH.
Qed.

Lemma seg_next_in nx px x l1 b l2 y : seg nx px x (l1 ++ b :: l2) y -> nx b = y \/ nx b ∈ l2.
Proof. intros [_ H]%seg_app. destruct l2; cbn in H; [left; apply H|right; rewrite (proj1 H); apply elem_of_cons; by left]. Qed.

(** [b->next->prev = b->prev; b->prev->next = b->next] *)
Lemma seg_unlink nx px x l1 b l2 y :
  NoDup (l1 ++ b :: l2) -> x ∉ l1 ++ b :: l2 -> y ∉ l1 ++ b :: l2 ->
  seg nx px x (l1 ++ b :: l2) y ->
  seg (<[px b := nx b]> nx) (<[nx b := px b]> px) x (l1 ++ l2) y.
Proof.
  revert x. induction l1 as [|w l1 IH]; intros x Hd Hx Hy Hs; cbn [app] in *.
  - cbn in Hs. destruct Hs as (H1 & H2 & H3). rewrite H2.
    apply list.NoDup_cons in Hd as [Hb Hd]. destruct l2 as [|z l2]; cbn in *.
    + destruct H3 as [H3 H4]. rewrite H3. by rewrite !fn_lookup_insert.
    + destruct H3 as (H3 & H4 & H5). rewrite H3, !fn_lookup_insert. split_and!; [done..|].
      apply list.NoDup_cons in Hd as [Hz Hd].
      eapply seg_ext; [| |exact H5]; intros u Hu; apply fn_lookup_insert_ne; set_solver.
  - cbn in Hs. destruct Hs as (H1 & H2 & H3). apply list.NoDup_cons in Hd as [Hw Hd].
    apply not_elem_of_cons in Hx as [Hxw Hx], Hy as [Hyw Hy].
    pose proof (seg_prev_in _ _ _ _ _ _ _ H3) as Hpb. pose proof (seg_next_in _ _ _ _ _ _ _ H3) as Hnb.
    assert (px b <> x) as Hpx.
    { intros <-. apply elem_of_cons in Hpb as [?|Hpb]; [done|]. apply Hx, elem_of_app. by left. }
    assert (nx b <> w) as Hnw.
    { intros <-. destruct Hnb as [?|Hnb]; [done|]. apply Hw, elem_of_app. right. by right. }
    cbn. rewrite !fn_lookup_insert_ne by done. split_and!; [done..|].
    by apply IH.
Qed.

(** [b->next = head.next; b->prev = &head; head.next->prev = b; head.next = b] *)
Lemma seg_push nx px x l b y :
  b ∉ l -> b <> x -> b <> y -> x ∉ l -> y ∉ l -> NoDup l -> seg nx px x l y ->
  seg (<[x := b]> (<[b := nx x]> nx)) (<[nx x := b]> (<[b := x]> px)) x (b :: l) y.
Proof.
  intros Hb Hbx Hby Hx Hy Hd Hs. cbn. rewrite fn_lookup_insert.
  assert (nx x <> b) as Hne by (destruct l; cbn in Hs; set_solver).
  rewrite fn_lookup_insert_ne by done. rewrite fn_lookup_insert. split_and!; [done..|].
  destruct l as [|z l]; cbn in *.
  - destruct Hs as [H1 H2]. rewrite fn_lookup_insert_ne, fn_lookup_insert, H1, fn_lookup_insert by done. done.
  - destruct Hs as (H1 & H2 & H3). rewrite fn_lookup_insert_ne, fn_lookup_insert, H1, fn_lookup_insert by done.
    split_and!; [done..|]. apply list.NoDup_cons in Hd as [Hz Hd].
    eapply seg_ext; [| |exact H3]; intros u Hu; rewrite !fn_lookup_insert_ne by set_solver; done.
Qed.
End Links.

(** ** The cache as a view of the disk *)

Record bview : Type := BView {
  vdisk : list (list Z);
  vpast : list (list (list Z));
  vcur : list (list Z);
  vdirty : gset nat;
  vheld : gmap nat nat;
}.

Definition nxt (s : fstate) (b : nat) : nat := b_next (buf_at s b).
Definition prv (s : fstate) (b : nat) : nat := b_prev (buf_at s b).

(** The buffers in the order of the list, the most recently used first. *)
Record mru (s : fstate) (l : list nat) : Prop := {
  mru_seg : seg (nxt s) (prv s) HEAD l HEAD;
  mru_nodup : NoDup l;
  mru_all : forall b, b ∈ l <-> (b < HEAD)%nat;
}.

(** Buffer [b], process [n] being the only one that holds buffers: unused
    since boot, or a buffer of a block of disk 1. *)
Definition unused (x : buf) : Prop :=
  b_dev x = 0 /\ b_flags x = 0 /\ b_refcnt x = 0 /\ sl_locked (b_lock x) = 0.

Definition caches (n : Z) (V : bview) (b : nat) (x : buf) (i : nat) : Prop :=
  b_dev x = 1 /\ b_blockno x = Z.of_nat i /\ vcur V !! i = Some (b_data x) /\
  b_flags x = (if decide (i ∈ vdirty V) then 6 else 2) /\
  match vheld V !! i with
  | Some b' => b' = b /\ b_refcnt x = 1 /\ sl_locked (b_lock x) = 1 /\ sl_pid (b_lock x) = n
  | None => b_refcnt x = 0 /\ sl_locked (b_lock x) = 0
  end.

Definition buf_ok (n : Z) (V : bview) (b : nat) (x : buf) : Prop :=
  length (b_data x) = 512%nat /\ sl_lk (b_lock x) = free /\ (unused x \/ exists i, caches n V b x i).

Definition block_ok (d : list Z) : Prop := length d = 512%nat.

Record bio (n : Z) (s : fstate) (V : bview) : Prop := {
  bio_len : length (bc_buf (bcache s)) = 31%nat;
  bio_lock : bc_lock (bcache s) = free;
  bio_mru : exists l, mru s l;
  bio_bufs : forall b, (b < HEAD)%nat -> buf_ok n V b (buf_at s b);
  bio_uniq : forall b b', (b < HEAD)%nat -> (b' < HEAD)%nat -> b_dev (buf_at s b) = 1 ->
    b_dev (buf_at s b') = 1 -> b_blockno (buf_at s b) = b_blockno (buf_at s b') -> b = b';
  bio_pinned : forall i, i ∈ vdirty V ∪ dom (vheld V) ->
    exists b, (b < HEAD)%nat /\ caches n V b (buf_at s b) i;
  bio_clean : forall i, i ∉ vdirty V -> vheld V !! i = None -> vcur V !! i = vdisk V !! i;
  bio_disk : memdisk s = Disk (vdisk V) (vpast V);
  bio_size : length (vcur V) = length (vdisk V);
  bio_blocks : Forall block_ok (vdisk V) /\ Forall block_ok (vcur V);
}.

(** [s'] differs from [s] in the cache and the disk only. *)
Definition cache_only (s s' : fstate) : Prop :=
  s' = set_memdisk (memdisk s') (set_bcache (bcache s') s).

#[export] Instance cache_only_preorder : PreOrder cache_only.
Proof.
  split; [by intros []|]. unfold cache_only. intros s1 s2 s3 H1 H2. rewrite H2, H1. done.
Qed.

(** *** Assignments to buffers *)

Lemma buf_at_set f b s c :
  (b < length (bc_buf (bcache s)))%nat ->
  buf_at (set_buf f b s) c = if decide (c = b) then f (buf_at s b) else buf_at s c.
Proof.
  intros Hb. unfold buf_at, set_buf. cbn. rewrite list_lookup_alter.
  destruct (decide (b = c)) as [->|].
  - rewrite decide_True by done. by destruct (lookup_lt_is_Some_2 _ _ Hb) as [x ->].
  - by rewrite decide_False by congruence.
Qed.

Lemma set_buf_set_buf f g b s : set_buf f b (set_buf g b s) = set_buf (f ∘ g) b s.
Proof. unfold set_buf. cbn. by rewrite list_alter_alter_eq. Qed.

Lemma length_set_buf f b s : length (bc_buf (bcache (set_buf f b s))) = length (bc_buf (bcache s)).
Proof. cbn. apply length_alter. Qed.

Lemma cache_only_set f b s : cache_only s (set_buf f b s).
Proof. by destruct s. Qed.

(** An assignment that keeps the links keeps the list. *)
Lemma mru_set f b s l :
  (forall x, b_next (f x) = b_next x /\ b_prev (f x) = b_prev x) -> mru s l -> mru (set_buf f b s) l.
Proof.
  intros Hf [H1 H2 H3]. split; [|done..].
  assert (forall c, b_next (buf_at (set_buf f b s) c) = nxt s c /\ b_prev (buf_at (set_buf f b s) c) = prv s c) as E.
  { intros c. unfold buf_at, set_buf, nxt, prv, buf_at. cbn. rewrite list_lookup_alter.
    destruct (decide (b = c)) as [->|]; [|done]. destruct (_ !! c); cbn; [apply Hf|done]. }
  eapply seg_ext; [| |exact H1]; intros z _; unfold nxt, prv; apply E.
Qed.

(** The buffer that holds block [i]. *)
Lemma bio_held n s V i b :
  bio n s V -> vheld V !! i = Some b -> (b < HEAD)%nat /\ caches n V b (buf_at s b) i.
Proof.
  intros B Hh. destruct (bio_pinned _ _ _ B i) as (c & Hc & Hca).
  { apply elem_of_union_r, elem_of_dom. by eexists. }
  assert (c = b) as ->; [|done]. destruct Hca as (_ & _ & _ & _ & H). rewrite Hh in H.
  symmetry. apply H.
Qed.

Lemma bio_other n s V b i j b' :
  bio n s V -> (b < HEAD)%nat -> (b' < HEAD)%nat -> caches n V b (buf_at s b) i ->
  caches n V b' (buf_at s b') j -> b <> b' -> i <> j.
Proof.
  intros B Hb Hb' (H1 & H2 & _) (H3 & H4 & _) Hne ->. apply Hne. eapply bio_uniq; eauto. congruence.
Qed.

(** The two views agree on every block but [i]. *)
Record agree_off (i : nat) (V V' : bview) : Prop := {
  off_cur : forall j, j <> i -> vcur V' !! j = vcur V !! j;
  off_dirty : forall j, j <> i -> j ∈ vdirty V' <-> j ∈ vdirty V;
  off_held : forall j, j <> i -> vheld V' !! j = vheld V !! j;
  off_disk : forall j, j <> i -> vdisk V' !! j = vdisk V !! j;
}.

Lemma caches_off n V V' b x i j : agree_off i V V' -> j <> i -> caches n V b x j -> caches n V' b x j.
Proof.
  intros [H1 H2 H3 H4] Hj (C1 & C2 & C3 & C4 & C5). unfold caches. rewrite H1, H3 by done.
  split_and!; try done. rewrite C4. specialize (H2 j Hj).
  destruct (decide (j ∈ vdirty V)), (decide (j ∈ vdirty V')); tauto.
Qed.

Definition with_disk (V : bview) (s : fstate) : fstate := set_memdisk (Disk (vdisk V) (vpast V)) s.

Definition sizes (V : bview) : Prop :=
  length (vcur V) = length (vdisk V) /\ Forall block_ok (vdisk V) /\ Forall block_ok (vcur V).

(** Buffer [b] becomes, or stays, the buffer of block [i]. *)
Lemma bio_set n s V V' b f i :
  bio n s V -> (b < HEAD)%nat ->
  (forall x, b_next (f x) = b_next x /\ b_prev (f x) = b_prev x) ->
  (forall c, (c < HEAD)%nat -> c <> b -> b_dev (buf_at s c) = 1 -> b_blockno (buf_at s c) <> Z.of_nat i) ->
  (forall j, caches n V b (buf_at s b) j -> j <> i -> j ∉ vdirty V ∪ dom (vheld V)) ->
  agree_off i V V' -> caches n V' b (f (buf_at s b)) i ->
  length (b_data (f (buf_at s b))) = 512%nat -> sl_lk (b_lock (f (buf_at s b))) = free ->
  (i ∉ vdirty V' -> vheld V' !! i = None -> vcur V' !! i = vdisk V' !! i) -> sizes V' ->
  bio n (with_disk V' (set_buf f b s)) V'.
Proof.
  intros B Hb Hf Huniq Hold Hoff Hca Hlen Hfree Hcl (Hs1 & Hs2 & Hs3).
  assert (b < length (bc_buf (bcache s)))%nat as Hbl by (rewrite (bio_len _ _ _ B); unfold HEAD in Hb; lia).
  assert (forall c, buf_at (with_disk V' (set_buf f b s)) c
    = if decide (c = b) then f (buf_at s b) else buf_at s c) as Hat by (intros c; by apply buf_at_set).
  split; try done.
  - cbn. rewrite length_alter. apply B.
  - apply B.
  - destruct (bio_mru _ _ _ B) as [l Hl]. exists l. destruct (mru_set f b s l Hf Hl) as [H1 H2 H3]. by split.
  - intros c Hc. rewrite Hat. destruct (decide (c = b)) as [->|Hne]; [split_and!; eauto|].
    destruct (bio_bufs _ _ _ B c Hc) as (H1 & H2 & [H3|[j H3]]); split_and!; try done; [by left|].
    right. exists j. eapply caches_off; [done| |done]. intros ->. destruct H3 as (D1 & D2 & _).
    by apply (Huniq c Hc Hne).
  - intros c c' Hc Hc'. rewrite !Hat. destruct Hca as (C1 & C2 & _).
    destruct (decide (c = b)) as [->|Hne], (decide (c' = b)) as [->|Hne']; [done|..].
    + intros _ D E. exfalso. apply (Huniq c' Hc' Hne' D). by rewrite <- E, C2.
    + intros D _ E. exfalso. apply (Huniq c Hc Hne D). by rewrite E, C2.
    + by apply B.
  - intros j Hj. destruct (decide (j = i)) as [->|Hne].
    + exists b. split; [done|]. rewrite Hat. by rewrite decide_True.
    + assert (j ∈ vdirty V ∪ dom (vheld V)) as Hj'.
      { rewrite elem_of_union, elem_of_dom in Hj |- *. rewrite (off_held _ _ _ Hoff) in Hj by done.
        by rewrite (off_dirty _ _ _ Hoff) in Hj by done. }
      destruct (bio_pinned _ _ _ B j Hj') as (c & Hc & Hcc). exists c. split; [done|]. rewrite Hat.
      destruct (decide (c = b)) as [->|]; [by destruct (Hold j)|]. by eapply caches_off.
  - intros j Hj1 Hj2. destruct (decide (j = i)) as [->|Hne]; [auto|].
    rewrite (off_cur _ _ _ Hoff), (off_disk _ _ _ Hoff) by done.
    rewrite (off_held _ _ _ Hoff) in Hj2 by done. rewrite (off_dirty _ _ _ Hoff) in Hj1 by done.
    by apply (bio_clean _ _ _ B).
Qed.

(** The same when [b] caches [i] already. *)
Lemma bio_set_cached n s V V' b f i :
  bio n s V -> (b < HEAD)%nat -> caches n V b (buf_at s b) i ->
  (forall x, b_next (f x) = b_next x /\ b_prev (f x) = b_prev x) ->
  agree_off i V V' -> caches n V' b (f (buf_at s b)) i ->
  length (b_data (f (buf_at s b))) = 512%nat -> sl_lk (b_lock (f (buf_at s b))) = free ->
  (i ∉ vdirty V' -> vheld V' !! i = None -> vcur V' !! i = vdisk V' !! i) -> sizes V' ->
  bio n (with_disk V' (set_buf f b s)) V'.
Proof.
  intros B Hb Hca Hf. apply bio_set; try done.
  - intros c Hc Hne D E. apply Hne. destruct Hca as (C1 & C2 & _). eapply bio_uniq; eauto. by rewrite C2.
  - intros j (_ & E & _) Hj. destruct Hca as (_ & E' & _). rewrite E in E'. lia.
Qed.

Lemma with_disk_same n s V V' f b :
  bio n s V -> vdisk V' = vdisk V -> vpast V' = vpast V -> with_disk V' (set_buf f b s) = set_buf f b s.
Proof. intros B E1 E2. unfold with_disk. rewrite E1, E2, <- (bio_disk _ _ _ B). by destruct s. Qed.

(** [bio] is about the cache and the disk only. *)
Lemma bio_same n s s' V : bcache s' = bcache s -> memdisk s' = memdisk s -> bio n s V -> bio n s' V.
Proof.
  intros E1 E2 B. assert (forall b, buf_at s' b = buf_at s b) as E by (intros; unfold buf_at; by rewrite E1).
  split; rewrite ?E1, ?E2.
  - apply (bio_len _ _ _ B).
  - apply (bio_lock _ _ _ B).
  - destruct (bio_mru _ _ _ B) as [l [M1 M2 M3]]. exists l. split; [|done..].
    eapply seg_ext; [| |exact M1]; intros z _; unfold nxt, prv; by rewrite E.
  - intros b. rewrite E. apply B.
  - intros b b'. rewrite !E. apply B.
  - intros i Hi. destruct (bio_pinned _ _ _ B i Hi) as (b & Hb & Hb'). exists b. by rewrite E.
  - apply (bio_clean _ _ _ B).
  - apply (bio_disk _ _ _ B).
  - apply (bio_size _ _ _ B).
  - apply (bio_blocks _ _ _ B).
Qed.

(** *** The operations on views *)

Definition hold (i b : nat) (V : bview) : bview :=
  BView (vdisk V) (vpast V) (vcur V) (vdirty V) (<[i := b]> (vheld V)).
Definition unhold (i : nat) (V : bview) : bview :=
  BView (vdisk V) (vpast V) (vcur V) (vdirty V) (delete i (vheld V)).
Definition put_cur (i : nat) (d : list Z) (V : bview) : bview :=
  BView (vdisk V) (vpast V) (<[i := d]> (vcur V)) (vdirty V) (vheld V).
Definition pin (i : nat) (V : bview) : bview :=
  BView (vdisk V) (vpast V) (vcur V) (vdirty V ∪ {[i]}) (vheld V).
Definition flush (i : nat) (V : bview) : bview :=
  BView (<[i := default [] (vcur V !! i)]> (vdisk V)) (vdisk V :: vpast V) (vcur V)
    (vdirty V ∖ {[i]}) (vheld V).

Lemma unhold_hold i b V : vheld V !! i = None -> unhold i (hold i b V) = V.
Proof. intros H. destruct V as [? ? ? ? h]. cbn in *. unfold unhold, hold. cbn. by rewrite delete_insert_id. Qed.

Ltac off := split; intros j Hj; cbn; rewrite ?lookup_insert_ne, ?lookup_delete_ne, ?list_lookup_insert_ne by congruence;
  try done; set_solver.

Lemma off_hold i b V : agree_off i V (hold i b V).
Proof. off. Qed.
Lemma off_unhold i V : agree_off i V (unhold i V).
Proof. off. Qed.
Lemma off_put i d V : agree_off i V (put_cur i d V).
Proof. off. Qed.
Lemma off_pin i V : agree_off i V (pin i V).
Proof. off. Qed.
Lemma off_flush i V : agree_off i V (flush i V).
Proof. off. Qed.

Lemma bio_sizes n s V : bio n s V -> sizes V.
Proof. intros B. split; [apply (bio_size _ _ _ B)|apply (bio_blocks _ _ _ B)]. Qed.

(** *** The searches of bget *)

Section Search.
Context `{SE : SwitchEnv fstate}.

Lemma bget_cached_spec k dev blockno l x y n :
  seg (nxt (files k)) (prv (files k)) x l HEAD -> HEAD ∉ l -> (length l <= n)%nat -> nxt (files k) x = y ->
  wp (bget_cached dev blockno y n) k (fun o k' => k' = k /\
    match o with
    | Some b => b ∈ l /\ b_dev (buf_at (files k) b) = dev /\ b_blockno (buf_at (files k) b) = blockno
    | None => forall b, b ∈ l -> ~ (b_dev (buf_at (files k) b) = dev /\ b_blockno (buf_at (files k) b) = blockno)
    end).
Proof.
  revert x y n. induction l as [|z l IH]; intros x y n Hs Hh Hn Hy; cbn in Hs.
  - destruct Hs as [Hs _]. assert (y = HEAD) as -> by congruence.
    destruct n; cbn; (split; [done|]); intros b Hb; by apply not_elem_of_nil in Hb.
  - destruct Hs as (H1 & _ & Hs). assert (y = z) as -> by congruence.
    destruct n as [|n]; [cbn in Hn; lia|]. apply not_elem_of_cons in Hh as [Hz Hh].
    cbn [bget_cached]. rewrite decide_False by done. unfold getb. wsteps.
    destruct (Z.eqb_spec (b_dev (buf_at (files k) z)) dev) as [E1|E1]; cbn [andb].
    1: destruct (Z.eqb_spec (b_blockno (buf_at (files k) z)) blockno) as [E2|E2].
    1: { wsteps. split_and!; try done. by left. }
    all: wsteps; (eapply wp_mono; [apply (IH z); [done|done|cbn in Hn; lia|done]|]);
      intros o k' [-> Ho]; (split; [done|]); destruct o as [b|];
      [destruct Ho as (? & ? & ?); split_and!; try done; by right|];
      intros b Hb; apply elem_of_cons in Hb as [->|Hb]; [naive_solver|by apply Ho].
Qed.

Definition reusable (x : buf) : bool := (b_refcnt x =? 0) && negb (flag (b_flags x) B_DIRTY).

Lemma bget_unused_spec k l x y n :
  seg (prv (files k)) (nxt (files k)) x l HEAD -> HEAD ∉ l -> (length l <= n)%nat -> prv (files k) x = y ->
  (exists b, b ∈ l /\ reusable (buf_at (files k) b) = true) ->
  wp (bget_unused y n) k (fun o k' => k' = k /\ exists b, o = Some b /\ b ∈ l /\ reusable (buf_at (files k) b) = true).
Proof.
  revert x y n. induction l as [|z l IH]; intros x y n Hs Hh Hn Hy (b & Hb & Hr); [by apply not_elem_of_nil in Hb|].
  destruct Hs as (H1 & _ & Hs). assert (y = z) as -> by congruence.
  destruct n as [|n]; [cbn in Hn; lia|]. apply not_elem_of_cons in Hh as [Hz Hh].
  cbn [bget_unused]. rewrite decide_False by done. unfold getb. wsteps.
  change ((b_refcnt (buf_at (files k) z) =? 0) && negb (flag (b_flags (buf_at (files k) z)) B_DIRTY))
    with (reusable (buf_at (files k) z)).
  destruct (reusable (buf_at (files k) z)) eqn:E.
  - wsteps. split; [done|]. exists z. split_and!; try done. by left.
  - wsteps. eapply wp_mono; [apply (IH z); [done|done|cbn in Hn; lia|done|]|].
    + exists b. split; [|done]. apply elem_of_cons in Hb as [->|Hb]; [congruence|done].
    + intros o k' (-> & c & -> & Hc & Hr'). split; [done|]. exists c. split_and!; try done. by right.
Qed.
End Search.

(** When fewer than [NBUF] blocks are dirty or held, a buffer can be reused. *)
Lemma bio_reusable n s V :
  bio n s V -> (size (vdirty V ∪ dom (vheld V)) < 30)%nat ->
  exists b, (b < HEAD)%nat /\ reusable (buf_at s b) = true.
Proof.
  intros B Hs. destruct (decide (Exists (fun b => reusable (buf_at s b) = true) (seq 0 30))) as [H|H].
  { apply Exists_exists in H as (b & Hb & Hr). apply elem_of_seq in Hb. exists b. split; [unfold HEAD; lia|done]. }
  exfalso. apply not_Exists_Forall in H; [|intros b; apply _]. rewrite Forall_forall in H.
  assert (forall b, (b < HEAD)%nat -> exists i, caches n V b (buf_at s b) i /\ i ∈ vdirty V ∪ dom (vheld V)) as Hall.
  { intros b Hb. specialize (H b). assert (b ∈ seq 0 30) as Hin by (apply elem_of_seq; unfold HEAD in Hb; lia).
    specialize (H Hin). destruct (bio_bufs _ _ _ B b Hb) as (_ & _ & [(U1 & U2 & U3 & _)|[i Hi]]).
    - exfalso. apply H. unfold reusable. by rewrite U3, U2.
    - exists i. split; [done|]. destruct Hi as (_ & _ & _ & C4 & C5).
      destruct (vheld V !! i) eqn:E; [apply elem_of_union_r, elem_of_dom; by eexists|].
      destruct (decide (i ∈ vdirty V)) as [?|?]; [by apply elem_of_union_l|]. exfalso. apply H.
      unfold reusable. destruct C5 as [-> _]. by rewrite C4. }
  set (g := fun b => Z.to_nat (b_blockno (buf_at s b))).
  assert (NoDup (g <$> seq 0 30)) as Hnd.
  { apply NoDup_fmap_2_strong; [|apply NoDup_seq]. intros b c Hb%elem_of_seq Hc%elem_of_seq Hg.
    destruct (Hall b) as (i & (C1 & C2 & _) & _); [unfold HEAD; lia|].
    destruct (Hall c) as (j & (D1 & D2 & _) & _); [unfold HEAD; lia|].
    unfold g in Hg. rewrite C2, D2, !Nat2Z.id in Hg.
    eapply bio_uniq; [done|unfold HEAD; lia|unfold HEAD; lia|done|done|congruence]. }
  assert (list_to_set (g <$> seq 0 30) ⊆ vdirty V ∪ dom (vheld V)) as Hsub.
  { intros i Hi%elem_of_list_to_set. apply list_elem_of_fmap in Hi as (b & -> & Hb%elem_of_seq).
    destruct (Hall b) as (i & (C1 & C2 & _) & Hi); [unfold HEAD; lia|]. unfold g. by rewrite C2, Nat2Z.id. }
  apply subseteq_size in Hsub. rewrite size_list_to_set in Hsub by done.
  rewrite length_fmap, length_seq in Hsub. lia.
Qed.

(** *** bget and the driver *)

Lemma whole_buf b v s : update (whole (buf_sl b)) v s = set_buf (set_b_lock v) b s.
Proof. done. Qed.

Lemma buf_sl_ready n k V b :
  bio n (files k) V -> (b < HEAD)%nat -> sl_ready (buf_sl b) k (b_lock (buf_at (files k) b)).
Proof.
  intros B Hb. split; [|split; [done|by apply (bio_bufs _ _ _ B)]].
  refine (compose_at bufsL (cellL buf0 _ b) (files k) _ _). apply cellL_at; [apply _|].
  cbn. rewrite (bio_len _ _ _ B). unfold HEAD in Hb. lia.
Qed.

Lemma sl_ready_lock k b l :
  (b < length (bc_buf (bcache (files k))))%nat -> b_lock (buf_at (files k) b) = l -> sl_lk l = free ->
  sl_ready (buf_sl b) k l.
Proof.
  intros Hb Hl Hf. split; [|by split].
  refine (compose_at bufsL (cellL buf0 _ b) (files k) _ _). apply cellL_at; [apply _|done].
Qed.

Section Bget.
Context `{SE : SwitchEnv fstate}.
Implicit Types k : kstate fstate.

Definition found (n : Z) (x : buf) : buf := set_b_lock (SleepLock 1 free n) (set_b_refcnt 1 x).
Definition reused (n : Z) (i : nat) (x : buf) : buf :=
  Buf 0 1 (Z.of_nat i) (SleepLock 1 free n) 1 (b_prev x) (b_next x) (b_data x).

(** Giving up [bcache.lock] and taking the buffer's lock. *)
Lemma bget_finish p n k h0 lk b f s x :
  quiet p n (set_files s (update hartL h0 k)) -> held_from h0 (hw (mach k)) lk ->
  files k = update bc_lockL lk (set_buf f b s) -> bc_lock (bcache s) = free ->
  (b < length (bc_buf (bcache s)))%nat -> buf_at s b = x ->
  b_lock (f x) = b_lock x -> sl_lk (b_lock x) = free -> sl_locked (b_lock x) = 0 ->
  wp (release (infiles bc_lockL);; acquiresleep (buf_sl b);; mret b) k (fun b' k' => b' = b /\
    calm (set_files s (update hartL h0 k)) k' /\
    files k' = set_buf (fun x => set_b_lock (SleepLock 1 free n) (f x)) b s).
Proof.
  intros Hq Hh Hfk Hlk Hb Hx Hfl Hf Hl. wstep. eapply (wp_leave bc_lockL); [exact Hh|apply _| |exact Hfk|].
  { done. }
  intros h Hs. wstep. set (k1 := set_files _ _).
  assert (calm (set_files s (update hartL h0 k)) k1) as C1.
  { by split. }
  eapply wp_mono; [apply (acquiresleep_spec (buf_sl b) k1 p n (b_lock x))|].
  - by eapply quiet_calm.
  - apply sl_ready_lock; change (files k1) with (set_buf f b s); [by rewrite length_set_buf| |done].
    rewrite buf_at_set, decide_True by done. by rewrite Hx.
  - done.
  - intros [] k2 [C2 Hf2]. wstep. split; [done|]. split; [by etrans|].
    rewrite Hf2, whole_buf. change (files k1) with (set_buf f b s). by rewrite set_buf_set_buf.
Qed.

Lemma bget_spec p n k V i :
  quiet p n k -> bio n (files k) V -> vheld V !! i = None ->
  i ∈ vdirty V \/ (size (vdirty V ∪ dom (vheld V)) < 30)%nat ->
  wp (bget 1 (Z.of_nat i)) k (fun b k' => (b < HEAD)%nat /\ calm k k' /\
    ((caches n V b (buf_at (files k) b) i /\ files k' = set_buf (found n) b (files k)) \/
     ((forall c, (c < HEAD)%nat -> b_dev (buf_at (files k) c) = 1 -> b_blockno (buf_at (files k) c) <> Z.of_nat i) /\
      reusable (buf_at (files k) b) = true /\ files k' = set_buf (reused n i) b (files k)))).
Proof.
  intros Hq B Hh Hsz. unfold bget. wstep.
  eapply (wp_enter bc_lockL); [by eapply quiet_cpu|apply _|apply B|]. intros h1 lk Hl.
  destruct (bio_mru _ _ _ B) as [l [M1 M2 M3]].
  assert (HEAD ∉ l) as Hhd by (rewrite M3; lia).
  assert (length l <= 30)%nat as Hlen.
  { transitivity (length (seq 0 30)); [|by rewrite length_seq]. apply submseteq_length, NoDup_submseteq; [done|].
    intros b Hb%M3. apply elem_of_seq. unfold HEAD in Hb. lia. }
  set (k1 := set_files (update bc_lockL lk (files k)) (update hartL h1 k)).
  assert (quiet p n (set_files (files k) (update hartL (hw (mach k)) k1))) as Hq1 by (by destruct Hq).
  assert (forall b, (b < HEAD)%nat -> (b < length (bc_buf (bcache (files k))))%nat) as Hin.
  { intros b. rewrite (bio_len _ _ _ B). unfold HEAD. lia. }
  assert (calm k (set_files (files k) (update hartL (hw (mach k)) k1))) as C0.
  { by split. }
  wstep. unfold getb at 1. wstep. wstep.
  eapply wp_mono; [apply (bget_cached_spec k1 1 (Z.of_nat i) l HEAD); [exact M1|done|done|done]|].
  intros o k2 [-> Ho]. destruct o as [b|].
  - destruct Ho as (Hbl & D1 & D2). change (buf_at (files k1) b) with (buf_at (files k) b) in D1, D2.
    assert (Hb := proj1 (M3 b) Hbl).
    destruct (bio_bufs _ _ _ B b Hb) as (L1 & L2 & [(U & _)|[j Hj]]); [congruence|].
    assert (j = i) as -> by (destruct Hj as (_ & E & _); rewrite D2 in E; lia).
    assert (Hj' := Hj). destruct Hj as (_ & _ & _ & _ & C5). rewrite Hh in C5. destruct C5 as [C5 C6].
    unfold setb. wstep. wstep.
    eapply wp_mono; [eapply (bget_finish p n _ (hw (mach k)) lk b
      (fun x => set_b_refcnt (u32 (b_refcnt x + 1)) x) (files k)); [exact Hq1|exact Hl|done|apply B|by apply Hin|done|done|done|done]|].
    intros b' k3 (-> & C & Hf). split; [done|]. split; [by etrans|]. left. split; [done|].
    rewrite Hf. unfold set_buf. do 2 f_equal. apply list_alter_ext; [|done].
    intros x Hx. unfold found, buf_at in *. rewrite Hx in C5. cbn in C5. cbn. by rewrite C5.
  - unfold getb. wsteps.
    assert (size (vdirty V ∪ dom (vheld V)) < 30)%nat as Hsz'.
    { destruct Hsz as [Hi|]; [|done]. destruct (bio_pinned _ _ _ B i) as (c & Hc & D1 & D2 & _); [by apply elem_of_union_l|].
      destruct (Ho c); [by apply M3|by split]. }
    destruct (bio_reusable _ _ _ B Hsz') as (c & Hc & Hr).
    eapply wp_mono; [apply (bget_unused_spec k1 (reverse l) HEAD); [by apply seg_reverse| |by rewrite length_reverse|done|]|].
    { by rewrite elem_of_reverse. }
    { exists c. split; [|done]. by apply elem_of_reverse, M3. }
    intros o k3 (-> & b & -> & Hbl & Hrb). apply elem_of_reverse, M3 in Hbl as Hb.
    assert (sl_lk (b_lock (buf_at (files k) b)) = free /\ sl_locked (b_lock (buf_at (files k) b)) = 0) as [L1 L2].
    { destruct (bio_bufs _ _ _ B b Hb) as (_ & L2 & L3). split; [done|].
      destruct L3 as [(_ & _ & _ & L3)|[j (_ & _ & _ & _ & C5)]]; [done|].
      change (buf_at (files k1) b) with (buf_at (files k) b) in Hrb.
      destruct (vheld V !! j); [|by destruct C5]. destruct C5 as (_ & E & _).
      unfold reusable in Hrb. by rewrite E in Hrb. }
    unfold setb. do 8 wstep.
    eapply wp_mono; [eapply (bget_finish p n _ (hw (mach k)) lk b
      (fun x => set_b_refcnt 1 (set_b_flags 0 (set_b_blockno (Z.of_nat i) (set_b_dev 1 x)))) (files k));
      [exact Hq1|exact Hl| |apply B|by apply Hin|done|done|done|done]|].
    { cbn [files set_files]. rewrite !set_buf_set_buf. done. }
    intros b' k3 (-> & C & Hf). split; [done|]. split; [by etrans|]. right. split_and!; [|done|done].
    intros d Hd E1 E2. apply (Ho d); [by apply M3|]. by split.
Qed.
End Bget.

(** *** The move to the front in brelse *)

Lemma nxt_set_next v c s x : (c < length (bc_buf (bcache s)))%nat -> nxt (set_buf (set_b_next v) c s) x = (<[c := v]> (nxt s)) x.
Proof.
  intros Hc. unfold nxt. rewrite buf_at_set by done. destruct (decide (x = c)) as [->|].
  - by rewrite fn_lookup_insert.
  - by rewrite fn_lookup_insert_ne by congruence.
Qed.

Lemma prv_set_prev v c s x : (c < length (bc_buf (bcache s)))%nat -> prv (set_buf (set_b_prev v) c s) x = (<[c := v]> (prv s)) x.
Proof.
  intros Hc. unfold prv. rewrite buf_at_set by done. destruct (decide (x = c)) as [->|].
  - by rewrite fn_lookup_insert.
  - by rewrite fn_lookup_insert_ne by congruence.
Qed.

Lemma nxt_set_prev v c s x : nxt (set_buf (set_b_prev v) c s) x = nxt s x.
Proof.
  unfold nxt, buf_at, set_buf. cbn. rewrite list_lookup_alter. case_decide; [|done].
  subst. by destruct (bc_buf (bcache s) !! x).
Qed.

Lemma prv_set_next v c s x : prv (set_buf (set_b_next v) c s) x = prv s x.
Proof.
  unfold prv, buf_at, set_buf. cbn. rewrite list_lookup_alter. case_decide; [|done].
  subst. by destruct (bc_buf (bcache s) !! x).
Qed.

Definition unlink_buf (b : nat) (s : fstate) : fstate :=
  let s := set_buf (set_b_prev (prv s b)) (nxt s b) s in
  set_buf (set_b_next (nxt s b)) (prv s b) s.

Definition push_buf (b : nat) (s : fstate) : fstate :=
  let s := set_buf (set_b_next (nxt s HEAD)) b s in
  let s := set_buf (set_b_prev HEAD) b s in
  let s := set_buf (set_b_prev b) (nxt s HEAD) s in
  set_buf (set_b_next b) HEAD s.

Lemma mru_unlink s l1 b l2 :
  length (bc_buf (bcache s)) = 31%nat -> mru s (l1 ++ b :: l2) ->
  seg (nxt (unlink_buf b s)) (prv (unlink_buf b s)) HEAD (l1 ++ l2) HEAD.
Proof.
  intros Hl [M1 M2 M3]. assert (HEAD ∉ l1 ++ b :: l2) as Hh by (rewrite M3; lia).
  assert (forall z, z ∈ l1 ++ b :: l2 -> (z < 31)%nat) as Hin by (intros z Hz%M3; unfold HEAD in Hz; lia).
  assert (prv s b < 31)%nat as Hp.
  { pose proof (seg_prev_in _ _ _ _ _ _ _ M1) as [E|Hp]%elem_of_cons; [rewrite E; unfold HEAD; lia|].
    apply Hin, elem_of_app. by left. }
  assert (nxt s b < 31 /\ nxt s b <> b)%nat as [Hn Hnb].
  { destruct (seg_next_in _ _ _ _ _ _ _ M1) as [->|Hn].
    - split; [unfold HEAD; lia|]. intros E. apply Hh. rewrite E. apply elem_of_app. right. by left.
    - split; [apply Hin, elem_of_app; right; by right|]. intros E. rewrite E in Hn.
      apply NoDup_app in M2 as (_ & _ & [M2 _]%list.NoDup_cons). done. }
  eapply seg_ext; [| |apply (seg_unlink _ _ _ _ _ _ _ M2 Hh Hh M1)]; intros z _; unfold unlink_buf.
  - rewrite nxt_set_next by (rewrite length_set_buf; rewrite prv_set_prev, fn_lookup_insert_ne by (done || lia); lia).
    rewrite prv_set_prev by lia. rewrite (fn_lookup_insert_ne (prv s) (nxt s b) b), nxt_set_prev by done.
    destruct (decide (z = prv s b)) as [->|]; [by rewrite !fn_lookup_insert|].
    rewrite !fn_lookup_insert_ne by congruence. by rewrite nxt_set_prev.
  - by rewrite prv_set_next, prv_set_prev by lia.
Qed.

Lemma mru_push s l b :
  length (bc_buf (bcache s)) = 31%nat -> (b < HEAD)%nat -> b ∉ l -> NoDup l -> (forall c, c ∈ l -> (c < HEAD)%nat) ->
  seg (nxt s) (prv s) HEAD l HEAD -> seg (nxt (push_buf b s)) (prv (push_buf b s)) HEAD (b :: l) HEAD.
Proof.
  intros Hl Hb Hbl Hd Hin Hs. assert (HEAD ∉ l) as Hh by (intros H%Hin; lia).
  assert (nxt s HEAD < 31)%nat as Hn.
  { destruct l as [|z l]; destruct Hs as [-> _]; [unfold HEAD; lia|]. assert (z < HEAD)%nat by (apply Hin, elem_of_cons; by left).
    unfold HEAD in *. lia. }
  assert (b <> HEAD) as Hne by lia. assert (b < 31)%nat as Hb31 by (unfold HEAD in Hb; lia).
  eapply seg_ext; [| |apply (seg_push _ _ _ _ b _ Hbl Hne Hne Hh Hh Hd Hs)]; intros z _; unfold push_buf.
  - rewrite nxt_set_next by (rewrite !length_set_buf; unfold HEAD; lia).
    destruct (decide (z = HEAD)) as [->|]; [by rewrite !fn_lookup_insert|].
    rewrite !(fn_lookup_insert_ne _ HEAD) by congruence. by rewrite !nxt_set_prev, nxt_set_next by lia.
  - assert (nxt (set_buf (set_b_prev HEAD) b (set_buf (set_b_next (nxt s HEAD)) b s)) HEAD = nxt s HEAD) as E.
    { by rewrite nxt_set_prev, nxt_set_next, fn_lookup_insert_ne by (done || lia). }
    rewrite E, prv_set_next, prv_set_prev by (rewrite !length_set_buf; lia).
    destruct (decide (z = nxt s HEAD)) as [->|]; [by rewrite !fn_lookup_insert|].
    rewrite !(fn_lookup_insert_ne _ (nxt s HEAD)) by congruence.
    rewrite prv_set_prev by (rewrite length_set_buf; lia).
    destruct (decide (z = b)) as [->|]; [by rewrite !fn_lookup_insert|].
    rewrite !(fn_lookup_insert_ne _ b) by congruence. by rewrite prv_set_next.
Qed.

(** Two states whose buffers differ in their links only. *)
Definition links_only (s s' : fstate) : Prop :=
  length (bc_buf (bcache s')) = length (bc_buf (bcache s)) /\
  s' = set_bcache (set_bc_buf (bc_buf (bcache s')) (bcache s)) s /\
  forall c, exists p x, buf_at s' c = set_b_prev p (set_b_next x (buf_at s c)).

Lemma links_only_set s s' f c :
  (exists p, f = set_b_prev p) \/ (exists x, f = set_b_next x) -> links_only s s' -> links_only s (set_buf f c s').
Proof.
  intros Hf (H1 & H2 & H3). split_and!.
  - by rewrite length_set_buf.
  - rewrite H2 at 1. done.
  - intros d. destruct (H3 d) as (p & x & E). unfold buf_at, set_buf. cbn. rewrite list_lookup_alter.
    unfold buf_at in E. destruct (decide (c = d)) as [->|]; [|by exists p, x].
    destruct (bc_buf (bcache s') !! d) as [y|] eqn:Ey; cbn in *; [|by exists p, x].
    rewrite E. destruct Hf as [[p' ->]|[x' ->]]; [by exists p', x|by exists p, x'].
Qed.

Lemma links_only_refl s : links_only s s.
Proof.
  split_and!; [done|by destruct s as [[]]|]. intros c. exists (b_prev (buf_at s c)), (b_next (buf_at s c)).
  by destruct (buf_at s c).
Qed.

Definition to_front (b : nat) (s : fstate) : fstate := push_buf b (unlink_buf b s).

Lemma links_only_front b s : links_only s (to_front b s).
Proof.
  unfold to_front, push_buf, unlink_buf.
  repeat (apply links_only_set; [first [by left; eexists|by right; eexists]|]). apply links_only_refl.
Qed.

(** The list after [brelse]: the buffer comes first, the others keep their order. *)
Lemma mru_front s l1 b l2 :
  length (bc_buf (bcache s)) = 31%nat -> mru s (l1 ++ b :: l2) -> mru (to_front b s) (b :: l1 ++ l2).
Proof.
  intros Hl M. assert (Hm := M). destruct M as [M1 M2 M3].
  assert (NoDup (b :: l1 ++ l2)) as Hnd by (eapply NoDup_Permutation_proper; [|exact M2]; by rewrite Permutation_middle).
  assert (forall c, c ∈ b :: l1 ++ l2 <-> c ∈ l1 ++ b :: l2) as Hel.
  { intros c. rewrite !elem_of_cons, !elem_of_app, elem_of_cons. tauto. }
  split; [|done|intros c; by rewrite Hel, M3]. apply list.NoDup_cons in Hnd as [Hb Hnd].
  apply mru_push; [by unfold unlink_buf; rewrite !length_set_buf| |done|done| |by apply mru_unlink].
  - apply M3, elem_of_app. right. by left.
  - intros c Hc. apply M3, Hel. by right.
Qed.

(** What bio.c relies on of a driver: it synchronises the buffer with the
    disk, in the direction that the flags of the buffer say. *)
Definition synced (b : nat) (s : fstate) : fstate :=
  let x := buf_at s b in
  if flag (b_flags x) B_DIRTY
  then set_buf (set_b_flags (Z.lor (Z.ldiff (b_flags x) B_DIRTY) B_VALID)) b
         (disk_put (b_blockno x) (b_data x) s)
  else set_buf (fun y => set_b_flags (Z.lor (b_flags x) B_VALID)
         (set_b_data (disk_block s (b_blockno x)) y)) b s.

Class DiskLaws `{SE : SwitchEnv fstate, DD : DiskDriver} : Prop :=
  iderw_spec p n k b : quiet p n k -> (b < length (bc_buf (bcache (files k))))%nat ->
    b_lock (buf_at (files k) b) = SleepLock 1 free n ->
    Z.land (b_flags (buf_at (files k) b)) 6 <> 2 -> b_dev (buf_at (files k) b) = 1 ->
    b_blockno (buf_at (files k) b) < disksize (files k) ->
    wp (iderw b) k (fun _ k' => calm k k' /\ files k' = synced b (files k)).

#[export] Instance memide_laws `{SE : SwitchEnv fstate} : @DiskLaws SE memide.
Proof.
  intros p n k b Hq Hb Hl Hf Hd Hn. unfold iderw, memide, memide_rw. wstep.
  eapply wp_mono; [apply (holdingsleep_spec (buf_sl b) k p n (SleepLock 1 free n) Hq); by apply sl_ready_lock|].
  intros h k1 (C & Hs & ->). cbn [sl_locked sl_pid]. rewrite Z.eqb_refl. cbn [negb andb Z.eqb].
  unfold getb, setb. wsteps. rewrite Hs. change (Z.lor B_VALID B_DIRTY) with 6. change B_VALID with 2 at 1.
  rewrite (proj2 (Z.eqb_neq _ _) Hf). wsteps. rewrite Hs, Hd. cbn [Z.eqb Pos.eqb negb]. wsteps. rewrite !Hs.
  rewrite (proj2 (Z.leb_gt _ _) Hn). unfold synced. wstep.
  destruct (flag (b_flags (buf_at (files k) b)) B_DIRTY); wsteps; cbn [files set_files]; rewrite Hs;
    (split; [by repeat apply calm_set_files|]).
  - rewrite buf_at_set, decide_True by done. cbn [b_data set_b_flags].
    assert (forall i d f s, disk_put i d (set_buf f b s) = set_buf f b (disk_put i d s)) as E by done.
    rewrite E, set_buf_set_buf. done.
  - rewrite set_buf_set_buf. unfold set_buf. do 2 f_equal. apply list_alter_ext; [|done].
    intros x Hx. unfold buf_at. rewrite Hx. done.
Qed.

(** *** bread, bwrite and brelse *)

Section BioSpecs.
Context `{DL : DiskLaws}.
Implicit Types k : kstate fstate.

(** A block that is not held is read, from the cache or from the disk, and
    its buffer is held from then on. *)
Lemma bread_spec p n k V i :
  quiet p n k -> bio n (files k) V -> (i < length (vdisk V))%nat -> vheld V !! i = None ->
  i ∈ vdirty V \/ (size (vdirty V ∪ dom (vheld V)) < 30)%nat ->
  wp (bread 1 (Z.of_nat i)) k (fun b k' => (b < HEAD)%nat /\ calm k k' /\ cache_only (files k) (files k') /\
    bio n (files k') (hold i b V)).
Proof.
  intros Hq B Hi Hh Hsz. unfold bread. wstep.
  eapply wp_mono; [by apply (bget_spec p n k V i)|]. intros b k1 (Hb & C & H).
  assert (b < length (bc_buf (bcache (files k))))%nat as Hbl.
  { rewrite (bio_len _ _ _ B). unfold HEAD in Hb. lia. }
  unfold getb. wsteps.
  assert (sizes (hold i b V)) as Hsz' by apply (bio_sizes _ _ _ B).
  destruct H as [[Hca Hf]|(Hno & Hr & Hf)]; rewrite Hf, buf_at_set, decide_True by done.
  - assert (Hca' := Hca). destruct Hca as (C1 & C2 & C3 & C4 & C5). cbn [b_flags found set_b_lock set_b_refcnt].
    rewrite C4. replace (flag (if decide (i ∈ vdirty V) then 6 else 2) B_VALID) with true by (by case_decide).
    cbn [negb when]. wsteps. split_and!; [done|done|rewrite Hf; apply cache_only_set|].
    rewrite Hf, <- (with_disk_same n (files k) V (hold i b V)) by done.
    eapply bio_set_cached; [done|done|done|done|apply off_hold| | |done| |done].
    + unfold caches. cbn. rewrite lookup_insert_eq. split_and!; done.
    + by apply (bio_bufs _ _ _ B).
    + cbn. intros _. by rewrite lookup_insert_eq.
  - cbn [b_flags reused]. change (negb (flag 0 B_VALID)) with true. cbn [when].
    assert (i ∉ vdirty V) as Hnd.
    { intros Hd. destruct (bio_pinned _ _ _ B i) as (c & Hc & (C1 & C2 & _)); [by apply elem_of_union_l|].
      by apply (Hno c Hc). }
    destruct (lookup_lt_is_Some_2 _ _ Hi) as [d Hd].
    eapply wp_mono; [apply (iderw_spec p n k1 b)|].
    + by eapply quiet_calm.
    + by rewrite Hf, length_set_buf.
    + by rewrite Hf, buf_at_set, decide_True.
    + by rewrite Hf, buf_at_set, decide_True.
    + by rewrite Hf, buf_at_set, decide_True.
    + rewrite Hf, buf_at_set, decide_True by done. cbn. unfold disksize. cbn. rewrite (bio_disk _ _ _ B). cbn. lia.
    + intros [] k2 [C2 Hf2]. wsteps. split_and!; [done|by etrans|..].
      * rewrite Hf2, Hf. unfold synced. rewrite buf_at_set, decide_True by done. cbn [b_flags reused].
        change (flag 0 B_DIRTY) with false. rewrite set_buf_set_buf. apply cache_only_set.
      * rewrite Hf2, Hf. unfold synced. rewrite buf_at_set, decide_True by done. cbn [b_flags b_blockno reused].
        change (flag 0 B_DIRTY) with false. rewrite set_buf_set_buf.
        assert (disk_block (set_buf (reused n i) b (files k)) (Z.of_nat i) = d) as ->.
        { unfold disk_block. cbn. rewrite (bio_disk _ _ _ B), Nat2Z.id. cbn. by rewrite Hd. }
        rewrite <- (with_disk_same n (files k) V (hold i b V)) by done.
        eapply bio_set; [done|done|done| | |apply off_hold| | | | |done].
        -- intros c Hc _. by apply Hno.
        -- intros j (_ & _ & _ & J4 & J5) _. unfold reusable in Hr. b2p. rewrite elem_of_union, elem_of_dom.
           intros [J|J].
           ++ rewrite J4, decide_True in H0 by done. done.
           ++ destruct (vheld V !! j); [|by destruct J]. destruct J5 as (_ & J5 & _). congruence.
        -- unfold caches. cbn. rewrite lookup_insert_eq, decide_False by done.
           rewrite (bio_clean _ _ _ B), Hd by done. done.
        -- cbn. destruct (bio_blocks _ _ _ B) as [Hbk _]. exact (Forall_lookup_1 _ _ _ _ Hbk Hd).
        -- done.
        -- cbn. intros _. by rewrite lookup_insert_eq.
Qed.

Lemma bio_links n s s' V :
  links_only s s' -> (exists l, mru s' l) -> bio n s V -> bio n s' V.
Proof.
  intros (H1 & H2 & H3) Hm B.
  assert (forall c, b_dev (buf_at s' c) = b_dev (buf_at s c) /\ b_blockno (buf_at s' c) = b_blockno (buf_at s c)) as Hd.
  { intros c. destruct (H3 c) as (p & x & ->). done. }
  assert (forall c i, caches n V c (buf_at s c) i -> caches n V c (buf_at s' c) i) as Hc.
  { intros c i. destruct (H3 c) as (p & x & ->). done. }
  split; try done.
  - rewrite H1. exact (bio_len _ _ _ B).
  - rewrite H2. exact (bio_lock _ _ _ B).
  - intros b Hb. destruct (bio_bufs _ _ _ B b Hb) as (B1 & B2 & B3). destruct (H3 b) as (p & x & ->). done.
  - intros b b'. destruct (Hd b) as [-> ->], (Hd b') as [-> ->]. apply B.
  - intros i Hi. destruct (bio_pinned _ _ _ B i Hi) as (b & Hb & Hb'). exists b. auto.
  - apply (bio_clean _ _ _ B).
  - rewrite H2. exact (bio_disk _ _ _ B).
  - apply (bio_size _ _ _ B).
  - apply (bio_blocks _ _ _ B).
Qed.

Lemma bio_front n s b V : (b < HEAD)%nat -> bio n s V -> bio n (to_front b s) V.
Proof.
  intros Hb B. eapply bio_links; [apply links_only_front| |done].
  destruct (bio_mru _ _ _ B) as [l Hl]. assert (b ∈ l) as Hin by (by apply Hl).
  apply list_elem_of_split in Hin as (l1 & l2 & ->). eexists. apply mru_front; [apply B|exact Hl].
Qed.

Definition given_up (x : buf) : buf := set_b_refcnt 0 (set_b_lock (SleepLock 0 free 0) x).

(** A buffer is given up and becomes the first of the list. *)
Lemma brelse_run p n k V i b :
  quiet p n k -> bio n (files k) V -> vheld V !! i = Some b ->
  wp (brelse b) k (fun _ k' => calm k k' /\ files k' = to_front b (set_buf given_up b (files k))).
Proof.
  intros Hq B Hh. destruct (bio_held _ _ _ _ _ B Hh) as [Hb (_ & _ & _ & _ & C5)].
  rewrite Hh in C5. destruct C5 as (_ & C5 & C6 & C7). unfold brelse. wstep.
  eapply wp_mono; [eapply (holdingsleep_spec (buf_sl b) k p n); [done|by eapply buf_sl_ready]|].
  intros h k1 (A1 & Hf1 & ->). rewrite C6, C7, Z.eqb_refl. cbn [Z.eqb negb andb]. wstep.
  assert (bio n (files k1) V) as B1 by (by rewrite Hf1).
  eapply wp_mono; [eapply (releasesleep_spec (buf_sl b) k1 p n); [by eapply quiet_calm|by eapply buf_sl_ready]|].
  intros [] k2 (A2 & _ & Hf2). rewrite whole_buf, Hf1 in Hf2. wstep.
  assert (calm k k2) as A by (by etrans).
  eapply (wp_enter bc_lockL); [by eapply quiet_cpu, quiet_calm|apply _|rewrite Hf2; apply B|].
  intros h1 lk Hl. set (s1 := set_buf given_up b (files k)).
  assert (b < length (bc_buf (bcache (files k))))%nat as Hbl.
  { rewrite (bio_len _ _ _ B). unfold HEAD in Hb. lia. }
  assert (set_buf (fun x => set_b_refcnt (u32 (b_refcnt x - 1)) x) b (files k2) = s1) as Es1.
  { rewrite Hf2, set_buf_set_buf. unfold s1, set_buf. do 2 f_equal. apply list_alter_ext; [|done].
    intros x Hx. unfold buf_at in C5. rewrite Hx in C5. cbn in C5 |- *. by rewrite C5. }
  unfold setb, getb. do 4 wstep. wstep.
  change (files (set_files ?x _)) with x.
  match goal with |- context [b_refcnt (buf_at ?x b) =? 0] => assert (b_refcnt (buf_at x b) = 0) as Hr end.
  { change (b_refcnt (buf_at (set_buf (fun x => set_b_refcnt (u32 (b_refcnt x - 1)) x) b (files k2)) b) = 0).
    rewrite Es1. unfold s1. by rewrite buf_at_set, decide_True. }
  rewrite Hr. cbn [Z.eqb when]. do 18 wstep. cbn [files set_files].
  eapply (wp_leave bc_lockL _ _ (to_front b s1) lk); [exact Hl|apply _| | |].
  - destruct (links_only_front b s1) as (_ & -> & _). apply B.
  - rewrite <- Es1. reflexivity.
  - intros h Hs. split; [|done]. etrans; [exact A|]. by apply (set_files_calm k2 h).
Qed.

(** The block of the buffer must be pinned or as it is on the disk. *)
Lemma brelse_spec p n k V i b :
  quiet p n k -> bio n (files k) V -> vheld V !! i = Some b ->
  i ∈ vdirty V \/ vcur V !! i = vdisk V !! i ->
  wp (brelse b) k (fun _ k' => calm k k' /\ cache_only (files k) (files k') /\ bio n (files k') (unhold i V)).
Proof.
  intros Hq B Hh Hcl. destruct (bio_held _ _ _ _ _ B Hh) as [Hb Hca].
  eapply wp_mono; [by eapply brelse_run|]. intros [] k' [C ->].
  set (s1 := set_buf given_up b (files k)). split_and!; [done| |].
  - destruct (links_only_front b s1) as (_ & -> & _). unfold s1. by destruct (files k).
  - apply bio_front; [done|]. unfold s1. rewrite <- (with_disk_same n (files k) V (unhold i V)) by done.
    assert (Hca' := Hca). destruct Hca as (C1 & C2 & C3 & C4 & C5).
    eapply bio_set_cached; [done|done|done|done|apply off_unhold| | |done| |apply (bio_sizes _ _ _ B)].
    + unfold caches. cbn. rewrite lookup_delete_eq. done.
    + by apply (bio_bufs _ _ _ B).
    + cbn. intros Hd _. by destruct Hcl.
Qed.

(** The buffer's bytes are assigned to; the block is marked as dirty. *)
Lemma bio_put n s V i b d :
  bio n s V -> vheld V !! i = Some b -> block_ok d ->
  bio n (set_buf (set_b_data d) b s) (put_cur i d V).
Proof.
  intros B Hh Hd. destruct (bio_held _ _ _ _ _ B Hh) as [Hb Hca].
  rewrite <- (with_disk_same n s V (put_cur i d V)) by done.
  assert (Hca' := Hca). destruct Hca as (C1 & C2 & C3 & C4 & C5).
  eapply bio_set_cached; [done|done|done|done|apply off_put| |done|by apply (bio_bufs _ _ _ B)| |].
  - unfold caches. cbn. rewrite list_lookup_insert_eq by (by eapply lookup_lt_Some). done.
  - cbn. rewrite Hh. done.
  - destruct (bio_sizes _ _ _ B) as (S1 & S2 & S3). split_and!; cbn; [by rewrite length_insert|done|].
    by apply Forall_insert.
Qed.

Lemma bio_pin n s V i b :
  bio n s V -> vheld V !! i = Some b ->
  bio n (set_buf (fun x => set_b_flags (Z.lor (b_flags x) B_DIRTY) x) b s) (pin i V).
Proof.
  intros B Hh. destruct (bio_held _ _ _ _ _ B Hh) as [Hb Hca].
  rewrite <- (with_disk_same n s V (pin i V)) by done.
  assert (Hca' := Hca). destruct Hca as (C1 & C2 & C3 & C4 & C5).
  eapply bio_set_cached; [done|done|done|done|apply off_pin| |by apply (bio_bufs _ _ _ B)..| |apply (bio_sizes _ _ _ B)].
  - unfold caches. cbn. rewrite C4, (decide_True (P := i ∈ vdirty V ∪ {[i]})) by set_solver.
    split_and!; try done. by case_decide.
  - cbn. set_solver.
Qed.

(** The block goes to the disk and is no longer pinned. *)
Lemma bwrite_spec p n k V i b :
  quiet p n k -> bio n (files k) V -> vheld V !! i = Some b ->
  wp (bwrite b) k (fun _ k' => calm k k' /\ cache_only (files k) (files k') /\ bio n (files k') (flush i V)).
Proof.
  intros Hq B Hh. destruct (bio_held _ _ _ _ _ B Hh) as [Hb Hca]. assert (Hca' := Hca).
  destruct Hca as (C1 & C2 & C3 & C4 & C5). rewrite Hh in C5. destruct C5 as (_ & C5 & C6 & C7).
  assert (i < length (vdisk V))%nat as Hi by (rewrite <- (bio_size _ _ _ B); by eapply lookup_lt_Some).
  assert (b < length (bc_buf (bcache (files k))))%nat as Hbl.
  { rewrite (bio_len _ _ _ B). unfold HEAD in Hb. lia. }
  unfold bwrite. wstep.
  eapply wp_mono; [eapply (holdingsleep_spec (buf_sl b) k p n); [done|by eapply buf_sl_ready]|].
  intros h k1 (A1 & Hf1 & ->). rewrite C6, C7, Z.eqb_refl. cbn [Z.eqb negb andb].
  unfold setb. wsteps. set (f := fun x => set_b_flags (Z.lor (b_flags x) B_DIRTY) x). rewrite Hf1.
  assert (b_flags (f (buf_at (files k) b)) = 6) as Hfl by (cbn; rewrite C4; by case_decide).
  eapply wp_mono; [apply (iderw_spec p n _ b); cbn [files set_files]|].
  - eapply quiet_calm; [exact Hq|]. by apply calm_set_files.
  - by rewrite length_set_buf.
  - rewrite buf_at_set, decide_True by done. cbn. destruct (bio_bufs _ _ _ B b Hb) as (_ & L & _).
    destruct (b_lock (buf_at (files k) b)). cbn in *. by subst.
  - by rewrite buf_at_set, decide_True, Hfl by done.
  - by rewrite buf_at_set, decide_True by done.
  - rewrite buf_at_set, decide_True by done. cbn. rewrite C2. unfold disksize. cbn. rewrite (bio_disk _ _ _ B). cbn. lia.
  - intros [] k2 [A2 Hf2]. cbn [files set_files] in Hf2.
    assert (files k2 = with_disk (flush i V) (set_buf (set_b_flags 2) b (files k))) as E.
    { rewrite Hf2. unfold synced. rewrite buf_at_set, decide_True, Hfl by done.
      change (flag 6 B_DIRTY) with true. cbn [b_blockno b_data f set_b_flags]. rewrite C2.
      assert (forall i d g s, disk_put i d (set_buf g b s) = set_buf g b (disk_put i d s)) as -> by done.
      rewrite set_buf_set_buf. unfold disk_put, with_disk, flush. cbn. rewrite C3, Nat2Z.id, (bio_disk _ _ _ B). done. }
    split_and!; [etrans; [|exact A2]; by apply calm_set_files|rewrite E; by destruct (files k)|]. rewrite E.
    eapply bio_set_cached; [done|done|done|done|apply off_flush| |by apply (bio_bufs _ _ _ B)..| |].
    + unfold caches. cbn. rewrite (decide_False (P := i ∈ vdirty V ∖ {[i]})) by set_solver. rewrite Hh. done.
    + cbn. by rewrite Hh.
    + destruct (bio_sizes _ _ _ B) as (S1 & S2 & S3). split_and!; cbn; [by rewrite length_insert| |done].
      apply Forall_insert; [done|]. rewrite C3. cbn. exact (Forall_lookup_1 _ _ _ _ S3 C3).
Qed.
End BioSpecs.
