(* ===== verification/BioInit.v ===== *)
(** * The cache after binit *)

From S2P Require Import Prelude Memory Mmu Machine Spinlock Kalloc Vm PageTable VmProofs VmSpaces.
From S2P Require Import Encrypt ProcTable Clock ClockProofs Proc ProcProofs FileState Sleeplock Bio BioProofs.

(** ** binit *)

Lemma set_buf_comm f g b c s : b <> c -> set_buf f b (set_buf g c s) = set_buf g c (set_buf f b s).
Proof. intros H. unfold set_buf. cbn. by rewrite list_alter_alter_ne by done. Qed.

Lemma nodup_down b : NoDup (reverse (seq 0 b)).
Proof. rewrite reverse_Permutation. apply NoDup_seq. Qed.

(** Buffer [c] of the cache after the first [b] iterations. *)
Definition fresh (b c : nat) (x : buf) : buf := if decide (c < b)%nat then set_b_lock sleeplock0 x else x.

Record booted (b : nat) (s s' : fstate) : Prop := {
  boot_len : length (bc_buf (bcache s')) = 31%nat;
  boot_rest : s' = set_bcache (set_bc_buf (bc_buf (bcache s')) (bcache s)) s;
  boot_bufs : forall c, exists p x, buf_at s' c = set_b_prev p (set_b_next x (fresh b c (buf_at s c)));
  boot_list : seg (nxt s') (prv s') HEAD (reverse (seq 0 b)) HEAD;
}.

Section Binit.
Context `{SE : SwitchEnv fstate}.
Implicit Types k : kstate fstate.

Lemma initsleeplock_buf k b (Q : unit -> kstate fstate -> Prop) :
  (b < length (bc_buf (bcache (files k))))%nat ->
  Q tt (set_files (set_buf (set_b_lock sleeplock0) b (files k)) k) -> wp (initsleeplock (buf_sl b)) k Q.
Proof.
  intros Hb HQ. assert (LensAt (whole (buf_sl b)) (files k)) as Hat.
  { refine (compose_at bufsL (cellL buf0 _ b) (files k) _ _). apply cellL_at; [apply _|done]. }
  unfold initsleeplock, initlock. wstep. wstep. wstep.
  eapply (wp_setsl (buf_sl b) _ (files k)); [done|cbn [files set_files]; by apply (spin_update (SlLaws := buf_sl_laws b))|].
  eapply (wp_setsl (buf_sl b) _ (files k)); [done|reflexivity|]. exact HQ.
Qed.

Definition boot_buf (b : nat) (s : fstate) : fstate := set_buf (set_b_lock sleeplock0) b (push_buf b s).

(** One iteration. *)
Lemma binit_step k b m s (Q : unit -> kstate fstate -> Prop) :
  (b < HEAD)%nat -> booted b s (files k) ->
  wp (binit_loop (S b) m) (set_files (boot_buf b (files k)) k) Q -> wp (binit_loop b (S m)) k Q.
Proof.
  intros Hb [Hl _ _ Hs] HQ. cbn [binit_loop]. unfold getb, setb. do 6 wstep.
  wstep. apply initsleeplock_buf; [cbn [files set_files]; rewrite !length_set_buf, Hl; unfold HEAD in Hb; lia|].
  do 6 wstep. cbn [files set_files].
  set (s1 := set_buf (set_b_prev HEAD) b (set_buf (set_b_next (b_next (buf_at (files k) HEAD))) b (files k))) in *.
  assert (b_next (buf_at s1 HEAD) <> b) as Hne.
  { change (nxt s1 HEAD <> b). unfold s1. rewrite nxt_set_prev, nxt_set_next by (rewrite Hl; unfold HEAD in Hb; lia).
    rewrite functions.fn_lookup_insert_ne by lia.
    destruct (reverse (seq 0 b)) as [|z l] eqn:E; destruct Hs as [-> _]; [lia|]. intros ->.
    assert (b ∈ reverse (seq 0 b)) as Hin by (rewrite E; by left). apply elem_of_reverse, elem_of_seq in Hin. lia. }
  assert (b_next (buf_at (set_buf (set_b_lock sleeplock0) b s1) HEAD) = b_next (buf_at s1 HEAD)) as ->.
  { rewrite buf_at_set, decide_False; [done|lia|]. unfold s1. rewrite !length_set_buf, Hl. unfold HEAD in Hb. lia. }
  rewrite (set_buf_comm (set_b_prev b)), (set_buf_comm (set_b_next b)) by (done || lia). exact HQ.
Qed.

Lemma boot_step s s' b : (b < HEAD)%nat -> booted b s s' -> booted (S b) s (boot_buf b s').
Proof.
  intros Hb [Hl Hr Hc Hs]. assert (links_only s' (push_buf b s')) as (L1 & L2 & L3).
  { unfold push_buf. repeat (apply links_only_set; [first [by left; eexists|by right; eexists]|]). apply links_only_refl. }
  assert (b < 31)%nat as Hb' by (unfold HEAD in Hb; lia). split.
  - unfold boot_buf. by rewrite length_set_buf, L1.
  - unfold boot_buf. revert L2. generalize (push_buf b s'). intros t ->. rewrite Hr. done.
  - intros c. unfold boot_buf. rewrite buf_at_set by (rewrite L1, Hl; lia).
    destruct (L3 c) as (p & x & E), (Hc c) as (p' & x' & E'). exists p, x. unfold fresh in *.
    destruct (decide (c = b)) as [->|Hne].
    + rewrite E, E'. rewrite decide_False, decide_True by lia. done.
    + rewrite E, E'. destruct (decide (c < b)%nat), (decide (c < S b)%nat); try lia; done.
  - replace (reverse (seq 0 (S b))) with (b :: reverse (seq 0 b)).
    2:{ rewrite seq_S, reverse_snoc. done. }
    eapply seg_ext; [| |apply (mru_push s' (reverse (seq 0 b)) b); [done|done| | | |exact Hs]].
    + intros z _. unfold boot_buf, nxt. rewrite buf_at_set by (rewrite L1, Hl; lia). case_decide; [by subst|done].
    + intros z _. unfold boot_buf, prv. rewrite buf_at_set by (rewrite L1, Hl; lia). case_decide; [by subst|done].
    + rewrite elem_of_reverse, elem_of_seq. lia.
    + apply nodup_down.
    + intros c. rewrite elem_of_reverse, elem_of_seq. unfold HEAD in *. lia.
Qed.

Lemma binit_loop_spec s m : forall b k, (b + m = HEAD)%nat -> booted b s (files k) ->
  wp (binit_loop b m) k (fun _ k' => k' = set_files (files k') k /\ booted HEAD s (files k')).
Proof.
  induction m as [|m IH]; intros b k Hm Hb.
  - cbn. rewrite Nat.add_0_r in Hm. subst b. split; [by destruct k|done].
  - apply binit_step with s; [lia|done|]. eapply wp_mono; [apply IH; [lia|apply boot_step; [lia|done]]|].
    intros [] k' [-> Hk]. by split.
Qed.

(** The static [bcache] of a kernel that has just been loaded, and a disk. *)
Record bss (s : fstate) : Prop := {
  bss_len : length (bc_buf (bcache s)) = 31%nat;
  bss_bufs : forall b, (b < HEAD)%nat -> exists p x d l, length d = 512%nat /\ buf_at s b = Buf 0 0 0 l 0 p x d;
  bss_disk : Forall block_ok (d_blocks (memdisk s));
}.

Definition disk_view (s : fstate) : bview :=
  BView (d_blocks (memdisk s)) (d_past (memdisk s)) (d_blocks (memdisk s)) ∅ ∅.

Lemma booted_bio n s s' : bss s -> bc_lock (bcache s) = free -> booted HEAD s s' -> bio n s' (disk_view s).
Proof.
  intros [S1 S2 S3] Hf [B1 B2 B3 B4].
  assert (forall b, (b < HEAD)%nat -> exists p x d, length d = 512%nat /\ buf_at s' b = Buf 0 0 0 sleeplock0 0 p x d) as E.
  { intros b Hb. destruct (B3 b) as (p & x & ->), (S2 b Hb) as (? & ? & d & l & Hd & ->). exists p, x, d.
    unfold fresh. by rewrite decide_True. }
  split.
  - done.
  - by rewrite B2.
  - exists (reverse (seq 0 HEAD)). split; [done|apply nodup_down|].
    intros b. rewrite elem_of_reverse, elem_of_seq. lia.
  - intros b Hb. destruct (E b Hb) as (p & x & d & Hd & ->). split_and!; [done|done|]. by left.
  - intros b b' Hb Hb'. destruct (E b Hb) as (p & x & d & Hd & ->). done.
  - intros i. cbn. rewrite dom_empty_L. set_solver.
  - done.
  - rewrite B2. cbn. by destruct (memdisk s).
  - done.
  - done.
Qed.

Lemma binit_spec n k : bss (files k) ->
  wp binit k (fun _ k' => k' = set_files (files k') k /\ cache_only (files k) (files k') /\
    bio n (files k') (disk_view (files k))).
Proof.
  intros Hb. assert (Hb' := Hb). destruct Hb' as [S1 S2 S3].
  unfold binit, initlock, setb. do 6 wstep. set (k1 := set_files _ _).
  set (s0 := update bc_lockL free (files k)).
  eapply wp_mono; [apply (binit_loop_spec s0 30 0 k1); [done|]|].
  - assert (forall c, buf_at (files k1) c = if decide (c = HEAD) then set_b_prev HEAD (set_b_next HEAD (buf_at s0 HEAD)) else buf_at s0 c) as E.
    { intros c. change (files k1) with (set_buf (set_b_next HEAD) HEAD (set_buf (set_b_prev HEAD) HEAD s0)).
      rewrite set_buf_set_buf, buf_at_set by (change (length (bc_buf (bcache s0))) with (length (bc_buf (bcache (files k)))); rewrite S1; unfold HEAD; lia). by case_decide. }
    split.
    + change (files k1) with (set_buf (set_b_next HEAD) HEAD (set_buf (set_b_prev HEAD) HEAD s0)). by rewrite !length_set_buf.
    + done.
    + intros c. rewrite E. unfold fresh. rewrite (decide_False (P := (c < 0)%nat)) by lia. case_decide; [subst; by eexists _, _|].
      exists (b_prev (buf_at s0 c)), (b_next (buf_at s0 c)). by destruct (buf_at s0 c).
    + split; unfold nxt, prv; by rewrite E, decide_True.
  - intros [] k2 [Hk2 Hbt]. split; [by rewrite Hk2|]. split.
    + rewrite (boot_rest _ _ _ Hbt). done.
    + apply (booted_bio n) in Hbt; [|by split|done]. done.
Qed.
End Binit.
