(* ===== verification/Log.v ===== *)
(** * The log: log.c, and readsb of fs.c

    A transaction collects the numbers of the blocks it changes; [commit]
    copies them to the log on disk, writes the header (the commit point),
    copies them home and clears the header.  [initlog] does the last two steps
    after a crash. *)

From S2P Require Import Prelude Memory Mmu Machine Spinlock Kalloc Vm PageTable VmProofs VmSpaces.
From S2P Require Import Encrypt ProcTable Clock ClockProofs Proc ProcProofs FileState Sleeplock Bio.

(** ** Words in a block *)

Definition byte_at (l : list Z) (i : Z) : Z := default 0 (l !! Z.to_nat i).

Definition get16 (l : list Z) (i : Z) : Z := byte_at l i + 256 * byte_at l (i + 1).

Definition get32 (l : list Z) (i : Z) : Z :=
  byte_at l i + 256 * byte_at l (i + 1) + 65536 * byte_at l (i + 2) + 16777216 * byte_at l (i + 3).

(** The bytes [d] at offset [i] of the block. *)
Fixpoint put_bytes (i : nat) (d l : list Z) : list Z :=
  match d with
  | [] => l
  | b :: d => <[i := b]> (put_bytes (S i) d l)
  end.

Definition bytes16 (v : Z) : list Z := [u8 v; u8 (v / 256)].
Definition bytes32 (v : Z) : list Z := [u8 v; u8 (v / 256); u8 (v / 65536); u8 (v / 16777216)].

Definition put16 (i v : Z) (l : list Z) : list Z := put_bytes (Z.to_nat i) (bytes16 v) l.
Definition put32 (i v : Z) (l : list Z) : list Z := put_bytes (Z.to_nat i) (bytes32 v) l.

(** ** The code *)

(** [&log] *)
Definition log_chan : channel := ObjChan 0x80115720.

Definition getlog {A} (f : log_t -> A) : FK A := gets (fun k => f (log (files k))).
Definition setlog (f : log_t -> log_t) : FK unit := modify (fun k => set_files (set_log (f (log (files k))) (files k)) k).

(** [log.lh.block[i]], and the assignment. *)
Definition get_block (i : Z) : FK Z :=
  l ← getlog lg_block;
  if i <? 0 then fault else nonnull (l !! Z.to_nat i).
Definition set_block (i v : Z) : FK unit :=
  l ← getlog lg_block;
  if (i <? 0) || (Z.of_nat (length l) <=? i) then fault
  else setlog (fun x => set_lg_block (<[Z.to_nat i := v]> (lg_block x)) x).

Section Log.
Context `{SE : SwitchEnv fstate, DD : DiskDriver}.

(** [readsb(dev, sb)] of fs.c: the super block is block 1. *)
Definition superblock_of (d : list Z) : superblock :=
  Superblock (get32 d 0) (get32 d 4) (get32 d 8) (get32 d 12) (get32 d 16) (get32 d 20) (get32 d 24).

Definition readsb (dev : Z) : FK superblock :=
  bp ← bread dev 1;
  d ← getb bp b_data;
  brelse bp;;
  mret (superblock_of d).

(** The loop of [install_trans], from [tail]. *)
Fixpoint install_trans_loop (tail : Z) (n : nat) : FK unit :=
  match n with
  | O => mret tt
  | S n =>
      dev ← getlog lg_dev;
      start ← getlog lg_start;
      lbuf ← bread dev (start + tail + 1);
      dst ← get_block tail;
      dbuf ← bread dev dst;
      d ← getb lbuf b_data;
      setb dbuf (set_b_data d);;
      bwrite dbuf;;
      brelse lbuf;;
      brelse dbuf;;
      install_trans_loop (tail + 1) n
  end.

Definition install_trans : FK unit :=
  n ← getlog lg_n;
  install_trans_loop 0 (Z.to_nat n).

Fixpoint read_head_loop (d : list Z) (i : Z) (n : nat) : FK unit :=
  match n with
  | O => mret tt
  | S n => set_block i (i32 (get32 d (4 + 4 * i)));; read_head_loop d (i + 1) n
  end.

Definition read_head : FK unit :=
  dev ← getlog lg_dev;
  start ← getlog lg_start;
  b ← bread dev start;
  d ← getb b b_data;
  setlog (set_lg_n (i32 (get32 d 0)));;
  n ← getlog lg_n;
  read_head_loop d 0 (Z.to_nat n);;
  brelse b.

Fixpoint write_head_loop (b : nat) (i : Z) (n : nat) : FK unit :=
  match n with
  | O => mret tt
  | S n =>
      v ← get_block i;
      setb b (fun x => set_b_data (put32 (4 + 4 * i) v (b_data x)) x);;
      write_head_loop b (i + 1) n
  end.

Definition write_head : FK unit :=
  dev ← getlog lg_dev;
  start ← getlog lg_start;
  b ← bread dev start;
  n ← getlog lg_n;
  setb b (fun x => set_b_data (put32 0 n (b_data x)) x);;
  write_head_loop b 0 (Z.to_nat n);;
  bwrite b;;
  brelse b.

Definition recover_from_log : FK unit :=
  read_head;;
  install_trans;;
  setlog (set_lg_n 0);;
  write_head.

Definition initlog (dev : Z) : FK unit :=
  if BSIZE <=? 4 + 4 * LOGSIZE then panic "initlog: too big logheader" else
  initlock (infiles lg_lockL);;
  s ← readsb dev;
  setlog (set_lg_start (sb_logstart s));;
  setlog (set_lg_size (sb_nlog s));;
  setlog (set_lg_dev dev);;
  recover_from_log.

Fixpoint begin_op_loop (n : nat) : FK unit :=
  l ← getlog id;
  if lg_committing l || (LOGSIZE <? lg_n l + (lg_outstanding l + 1) * MAXOPBLOCKS) then
    match n with
    | O => spin
    | S n => sleep_on others log_chan (infiles lg_lockL);; begin_op_loop n
    end
  else
    setlog (fun l => set_lg_outstanding (lg_outstanding l + 1) l);;
    release (infiles lg_lockL).

Definition begin_op : FK unit :=
  acquire (infiles lg_lockL);;
  begin_op_loop naps.

Fixpoint write_log_loop (tail : Z) (n : nat) : FK unit :=
  match n with
  | O => mret tt
  | S n =>
      dev ← getlog lg_dev;
      start ← getlog lg_start;
      to ← bread dev (start + tail + 1);
      src ← get_block tail;
      from ← bread dev src;
      d ← getb from b_data;
      setb to (set_b_data d);;
      bwrite to;;
      brelse from;;
      brelse to;;
      write_log_loop (tail + 1) n
  end.

Definition write_log : FK unit :=
  n ← getlog lg_n;
  write_log_loop 0 (Z.to_nat n).

Definition commit : FK unit :=
  n ← getlog lg_n;
  when (0 <? n)
    (write_log;;
     write_head;;
     install_trans;;
     setlog (set_lg_n 0);;
     write_head).

Definition end_op : FK unit :=
  acquire (infiles lg_lockL);;
  setlog (fun l => set_lg_outstanding (lg_outstanding l - 1) l);;
  c ← getlog lg_committing;
  if (c : bool) then panic "log.committing" else
  o ← getlog lg_outstanding;
  do_commit ← (if o =? 0 then setlog (set_lg_committing true);; mret true
               else wakeup log_chan;; mret false);
  release (infiles lg_lockL);;
  when do_commit
    (commit;;
     acquire (infiles lg_lockL);;
     setlog (set_lg_committing false);;
     wakeup log_chan;;
     release (infiles lg_lockL)).

(** The search of [log_write] for the block among the first [n] of the log:
    the index where it is, or [n]. *)
Fixpoint absorb (blockno : Z) (bs : list Z) (i : Z) (n : nat) : Z :=
  match n, bs with
  | S n, c :: bs => if c =? blockno then i else absorb blockno bs (i + 1) n
  | _, _ => i
  end.

Definition log_write (b : nat) : FK unit :=
  l ← getlog id;
  if (LOGSIZE <=? lg_n l) || (lg_size l - 1 <=? lg_n l) then panic "too big a transaction" else
  if lg_outstanding l <? 1 then panic "log_write outside of trans" else
  acquire (infiles lg_lockL);;
  l ← getlog id;
  c ← getb b b_blockno;
  let i := absorb c (lg_block l) 0 (Z.to_nat (lg_n l)) in
  set_block i c;;
  when (i =? lg_n l) (setlog (fun l => set_lg_n (lg_n l + 1) l));;
  setb b (fun x => set_b_flags (Z.lor (b_flags x) B_DIRTY) x);;
  release (infiles lg_lockL).
End Log.
