(* ===== verification/LogProofs.v ===== *)
(** * Proofs about the log

    What the log on a disk stands for ([logged], [replay]), what [commit] and
    recovery write, and in which order. *)

From S2P Require Import Prelude Memory Mmu Machine Spinlock Kalloc Vm PageTable VmProofs VmSpaces.
From S2P Require Import Encrypt ProcTable Clock ClockProofs Proc ProcProofs FileState Sleeplock Bio BioProofs Log.

(** ** Words in a block *)

Lemma byte_at_put i d l j :
  (i + length d <= length l)%nat -> 0 <= j ->
  byte_at (put_bytes i d l) j
  = if decide (Z.of_nat i <= j < Z.of_nat (i + length d)) then byte_at d (j - Z.of_nat i) else byte_at l j.
Proof.
  intros Hl Hj. revert i Hl. induction d as [|b d IH]; intros i Hl; cbn [put_bytes length] in *.
  - rewrite decide_False by lia. done.
  - assert (length (put_bytes (S i) d l) = length l) as Hlen.
    { clear. generalize (S i). induction d as [|c d IH]; intros n; cbn; [done|]. by rewrite length_insert. }
    unfold byte_at at 1. destruct (decide (Z.to_nat j = i)) as [E|E].
    + rewrite E, list_lookup_insert_eq, decide_True by lia. unfold byte_at. by replace (Z.to_nat (j - Z.of_nat i)) with 0%nat by lia.
    + rewrite list_lookup_insert_ne by lia. fold (byte_at (put_bytes (S i) d l) j). rewrite IH by lia.
      repeat case_decide; try lia; try done. unfold byte_at.
      by replace (Z.to_nat (j - Z.of_nat i)) with (S (Z.to_nat (j - Z.of_nat (S i)))) by lia.
Qed.

Lemma length_put_bytes i d l : length (put_bytes i d l) = length l.
Proof. revert i. induction d as [|b d IH]; intros i; cbn; [done|]. by rewrite length_insert, IH. Qed.

Lemma get32_put32 i v l :
  0 <= i -> (Z.to_nat i + 4 <= length l)%nat -> get32 (put32 i v l) i = u32 v.
Proof.
  intros Hi Hl. unfold get32, put32. rewrite !byte_at_put by (cbn; lia). cbn [length bytes32].
  rewrite !decide_True by lia. rewrite !Z2Nat.id by lia.
  replace (i - i) with 0 by lia. replace (i + 1 - i) with 1 by lia. replace (i + 2 - i) with 2 by lia.
  replace (i + 3 - i) with 3 by lia. unfold byte_at, bytes32. simpl. unfold u8, u32. dlia.
Qed.

Lemma get32_put32_ne i j v l :
  0 <= i -> 0 <= j -> (Z.to_nat i + 4 <= length l)%nat -> i + 4 <= j \/ j + 4 <= i ->
  get32 (put32 i v l) j = get32 l j.
Proof.
  intros Hi Hj Hl Hne. unfold get32, put32. rewrite !byte_at_put by (cbn; lia). cbn [length bytes32].
  by rewrite !decide_False by lia.
Qed.

(** ** What is in the log *)

(** The home blocks that the header of the log at block [S0] names. *)
Definition header_blocks (h : list Z) : list nat :=
  (fun t => Z.to_nat (i32 (get32 h (4 + 4 * Z.of_nat t)))) <$> seq 0 (Z.to_nat (i32 (get32 h 0))).

Definition logged (S0 : nat) (d : list (list Z)) : list nat := header_blocks (default [] (d !! S0)).

(** The blocks of the log, from the one at [t], copied to their homes. *)
Fixpoint install (S0 t : nat) (bs : list nat) (d : list (list Z)) : list (list Z) :=
  match bs with
  | [] => d
  | b :: bs => install S0 (S t) bs (<[b := default [] (d !! (S0 + 1 + t)%nat)]> d)
  end.

(** The disk that recovery makes of [d], the header apart. *)
Definition replay (S0 : nat) (d : list (list Z)) : list (list Z) := install S0 0 (logged S0 d) d.

(** Blocks of the log: the header and [m] more. *)
Definition in_log (S0 m i : nat) : Prop := (S0 <= i <= S0 + m)%nat.

Lemma install_log S0 m t bs d i :
  Forall (fun b => ~ in_log S0 m b) bs -> in_log S0 m i -> install S0 t bs d !! i = d !! i.
Proof.
  intros Hbs Hi. revert t d. induction Hbs as [|b bs Hb Hbs IH]; intros t d; cbn; [done|].
  rewrite IH. apply list_lookup_insert_ne. intros ->. done.
Qed.

Lemma install_other S0 t bs d i : i ∉ bs -> install S0 t bs d !! i = d !! i.
Proof.
  revert t d. induction bs as [|b bs IH]; intros t d Hi; cbn; [done|].
  apply not_elem_of_cons in Hi as [H1 H2]. rewrite IH by done. by apply list_lookup_insert_ne.
Qed.

Lemma install_home S0 m bs : forall t d j b,
  NoDup bs -> Forall (fun b => ~ in_log S0 m b /\ (b < length d)%nat) bs ->
  (t + length bs <= m)%nat -> (S0 + m < length d)%nat -> bs !! j = Some b ->
  install S0 t bs d !! b = d !! (S0 + 1 + (t + j))%nat.
Proof.
  induction bs as [|c bs IH]; intros t d j b Hnd Hbs Hm Hd Hj; [done|]. cbn [install length] in *.
  apply list.NoDup_cons in Hnd as [Hc Hnd]. apply Forall_cons in Hbs as [[Hc1 Hc2] Hbs].
  destruct (lookup_lt_is_Some_2 d (S0 + 1 + t)%nat) as [x Hx]; [lia|].
  destruct j as [|j]; cbn in Hj; simplify_eq.
  - rewrite install_other by done. rewrite list_lookup_insert_eq by done. rewrite Nat.add_0_r, Hx. done.
  - rewrite (IH _ _ j b); rewrite ?length_insert; try done; try lia.
    rewrite list_lookup_insert_ne; [f_equal; lia|]. intros ->. apply Hc1. unfold in_log.
    apply lookup_lt_Some in Hj. lia.
Qed.

(** ** Copying a block *)

(** Block [dst] gets the contents of [src], in the cache and on the disk. *)
Definition copied_view (dst : nat) (d : list Z) (V : bview) : bview :=
  BView (<[dst := d]> (vdisk V)) (vdisk V :: vpast V) (<[dst := d]> (vcur V)) (vdirty V ∖ {[dst]}) (vheld V).

Section LogSpecs.
Context `{DL : DiskLaws}.
Implicit Types k : kstate fstate.

Lemma bio_data n s V i b : bio n s V -> vheld V !! i = Some b -> vcur V !! i = Some (b_data (buf_at s b)).
Proof. intros B H. by destruct (bio_held _ _ _ _ _ B H) as (_ & _ & _ & ? & _). Qed.

Lemma bio_cur_block n s V i d : bio n s V -> vcur V !! i = Some d -> block_ok d.
Proof. intros B H. destruct (bio_blocks _ _ _ B) as [_ F]. exact (Forall_lookup_1 _ _ _ _ F H). Qed.

Lemma copy_block p n k V src dst bs bd d (m : FK unit) (Q : unit -> kstate fstate -> Prop) :
  quiet p n k -> bio n (files k) V -> src <> dst -> vheld V !! src = Some bs -> vheld V !! dst = Some bd ->
  vcur V !! src = Some d -> src ∈ vdirty V \/ vcur V !! src = vdisk V !! src ->
  (forall k', calm k k' -> cache_only (files k) (files k') ->
     bio n (files k') (unhold dst (unhold src (copied_view dst d V))) -> wp m k' Q) ->
  wp (x ← getb bs b_data; setb bd (set_b_data x);; bwrite bd;; brelse bs;; brelse bd;; m) k Q.
Proof.
  intros Hq B Hne Hs Hd Hc Hcl Hm. unfold getb, setb.
  assert (b_data (buf_at (files k) bs) = d) as E by (rewrite (bio_data _ _ _ _ _ B Hs) in Hc; by simplify_eq).
  wsteps. rewrite E. set (k1 := set_files _ k).
  assert (dst < length (vcur V))%nat as Hdl by (eapply lookup_lt_Some, (bio_data _ _ _ _ _ B Hd)).
  assert (bio n (files k1) (put_cur dst d V)) as B1 by (apply bio_put; [done|done|by eapply bio_cur_block]).
  assert (calm k k1) as C1 by (by apply calm_set_files).
  eapply wp_mono; [eapply (bwrite_spec p n k1 _ dst bd); [by eapply quiet_calm|exact B1|done]|].
  intros [] k2 (C2 & O2 & B2). wstep. assert (calm k k2) as C2' by (by etrans).
  assert (flush dst (put_cur dst d V) = copied_view dst d V) as Ev.
  { unfold flush, put_cur, copied_view. cbn. by rewrite list_lookup_insert_eq. }
  rewrite Ev in B2.
  eapply wp_mono; [eapply (brelse_spec p n k2 _ src bs); [by eapply quiet_calm|exact B2|done|]|].
  { cbn. rewrite !list_lookup_insert_ne by done. set_solver. }
  intros [] k3 (C3 & O3 & B3). wstep. assert (calm k k3) as C3' by (by etrans).
  eapply wp_mono; [eapply (brelse_spec p n k3 _ dst bd); [by eapply quiet_calm|exact B3| |]|].
  { cbn. by rewrite lookup_delete_ne. }
  { right. cbn. rewrite !list_lookup_insert_eq; [done| |done]. by rewrite <- (bio_size _ _ _ B). }
  intros [] k4 (C4 & O4 & B4). apply Hm; [by etrans| |exact B4].
  etrans; [|etrans; [exact O3|exact O4]]. etrans; [|exact O2]. apply cache_only_set.
Qed.

(** ** The state of the log *)

(** The log starts at block [S0], has [m] blocks after its header, and its
    header in memory names the blocks [bs]. *)
Record log_at (s : fstate) (S0 m : nat) (bs : list nat) : Prop := {
  la_dev : lg_dev (log s) = 1;
  la_start : lg_start (log s) = Z.of_nat S0;
  la_size : lg_size (log s) = Z.of_nat m + 1;
  la_n : lg_n (log s) = Z.of_nat (length bs);
  la_len : length (lg_block (log s)) = 30%nat;
  la_block : forall t b, bs !! t = Some b -> lg_block (log s) !! t = Some (Z.of_nat b);
  la_lock : lg_lock (log s) = free;
}.

Lemma log_at_cache s s' S0 m bs : cache_only s s' -> log_at s S0 m bs -> log_at s' S0 m bs.
Proof. intros -> []. by split. Qed.

Lemma wp_getlog {A} k (f : log_t -> A) v (Q : A -> kstate fstate -> Prop) :
  f (log (files k)) = v -> Q v k -> wp (getlog f) k Q.
Proof. intros <- HQ. exact HQ. Qed.

Lemma wp_get_block k S0 m bs t b (Q : Z -> kstate fstate -> Prop) :
  log_at (files k) S0 m bs -> bs !! t = Some b -> Q (Z.of_nat b) k -> wp (get_block (Z.of_nat t)) k Q.
Proof.
  intros L Ht HQ. unfold get_block. wstep. eapply wp_getlog; [done|].
  rewrite (proj2 (Z.ltb_ge _ _)) by lia. by rewrite Nat2Z.id, (la_block _ _ _ _ L _ _ Ht).
Qed.

(** Nothing is held, and every block of the log fits on the disk; the blocks
    named by the log lie outside it. *)
Record log_geom (S0 m : nat) (bs : list nat) (V : bview) : Prop := {
  lg_fits : (S0 + m < length (vdisk V))%nat;
  lg_room : (length bs <= m)%nat;
  lg_small : (length bs <= 29)%nat;
  lg_nodup : NoDup bs;
  lg_homes : Forall (fun b => ~ in_log S0 m b /\ (b < length (vdisk V))%nat) bs;
  lg_unheld : vheld V = ∅;
  lg_int : Z.of_nat (length (vdisk V)) <= 2147483648;
}.

(** The block [t] of the log and its home are read. *)
Lemma read_pair p n k V S0 m bs t b (c : nat -> nat -> FK unit) (Q : unit -> kstate fstate -> Prop) :
  quiet p n k -> bio n (files k) V -> log_at (files k) S0 m bs -> log_geom S0 m bs V -> bs !! t = Some b ->
  (size (vdirty V) <= 29)%nat -> b ∈ vdirty V \/ vdirty V = ∅ ->
  (forall x y k', calm k k' -> cache_only (files k) (files k') ->
     bio n (files k') (hold b y (hold (S0 + 1 + t) x V)) -> wp (c x y) k' Q) ->
  wp (dev ← getlog lg_dev; start ← getlog lg_start; x ← bread dev (start + Z.of_nat t + 1);
      h ← get_block (Z.of_nat t); y ← bread dev h; c x y) k Q.
Proof.
  intros Hq B L G Ht Hsz Hb Hc.
  wstep. eapply wp_getlog; [apply L|]. wstep. eapply wp_getlog; [apply L|]. wstep.
  assert (t < length bs)%nat as Htl by (by eapply lookup_lt_Some).
  destruct (Forall_lookup_1 _ _ _ _ (lg_homes _ _ _ _ G) Ht) as [Hout Hbl].
  pose proof (lg_room _ _ _ _ G). pose proof (lg_fits _ _ _ _ G). pose proof (lg_unheld _ _ _ _ G) as Hu.
  replace (Z.of_nat S0 + Z.of_nat t + 1) with (Z.of_nat (S0 + 1 + t)) by lia.
  eapply wp_mono; [apply (bread_spec p n k V (S0 + 1 + t)); [done|done|lia|by rewrite Hu|]|].
  { right. rewrite Hu, dom_empty_L, union_empty_r_L. lia. }
  intros x k1 (_ & C1 & O1 & B1). wstep. eapply wp_get_block; [by eapply log_at_cache|done|]. wstep.
  assert (b <> (S0 + 1 + t)%nat) as Hne by (intros ->; apply Hout; unfold in_log; lia).
  eapply wp_mono; [apply (bread_spec p n k1 (hold (S0 + 1 + t) x V) b)|].
  - by eapply quiet_calm.
  - done.
  - done.
  - cbn. by rewrite lookup_insert_ne, Hu by done.
  - cbn. destruct Hb as [Hb|Hb]; [by left|right]. rewrite Hb, Hu, union_empty_l_L, dom_insert_L, dom_empty_L, union_empty_r_L, size_singleton. lia.
  - intros y k2 (_ & C2 & O2 & B2). apply Hc; [by etrans|by etrans|done].
Qed.

Lemma unhold_copied dst src x y d V :
  vheld V = ∅ -> unhold dst (unhold src (copied_view dst d (hold src y (hold dst x V)))) = copied_view dst d V /\
  unhold dst (unhold src (copied_view dst d (hold dst x (hold src y V)))) = copied_view dst d V.
Proof.
  intros Hu. unfold unhold, copied_view, hold. cbn. rewrite Hu. split; f_equal; apply map_eq; intros j;
    rewrite !lookup_delete, !lookup_insert; by repeat case_decide.
Qed.

Lemma geom_copied S0 m bs dst d V : log_geom S0 m bs V -> log_geom S0 m bs (copied_view dst d V).
Proof. intros [H1 H2 H3 H4 H5 H6 H7]. split; cbn; rewrite ?length_insert; done. Qed.

(** *** write_log *)

Fixpoint write_log_view (S0 t : nat) (bs : list nat) (V : bview) : bview :=
  match bs with
  | [] => V
  | b :: bs => write_log_view S0 (S t) bs (copied_view (S0 + 1 + t) (default [] (vcur V !! b)) V)
  end.

Lemma write_log_loop_spec p n S0 m bs : forall suf t k V,
  quiet p n k -> bio n (files k) V -> log_at (files k) S0 m bs -> log_geom S0 m bs V ->
  drop t bs = suf -> (forall b, b ∈ bs -> b ∈ vdirty V) -> (size (vdirty V) <= 29)%nat ->
  (forall i, in_log S0 m i -> i ∉ vdirty V) ->
  wp (write_log_loop (Z.of_nat t) (length suf)) k (fun _ k' => calm k k' /\ cache_only (files k) (files k') /\
    bio n (files k') (write_log_view S0 t suf V)).
Proof.
  induction suf as [|b suf IH]; intros t k V Hq B L G Hd Hin Hsz Hlog; cbn [write_log_loop length write_log_view].
  { by wstep. }
  assert (bs !! t = Some b) as Ht by (rewrite <- (Nat.add_0_r t), <- lookup_drop, Hd; done).
  assert (b ∈ vdirty V) as Hb by (by eapply Hin, list_elem_of_lookup_2).
  destruct (Forall_lookup_1 _ _ _ _ (lg_homes _ _ _ _ G) Ht) as [Hout Hbl].
  pose proof (lookup_lt_Some _ _ _ Ht). pose proof (lg_room _ _ _ _ G).
  destruct (lookup_lt_is_Some_2 (vcur V) b) as [d Hcd]; [by rewrite (bio_size _ _ _ B)|].
  assert (b <> (S0 + 1 + t)%nat) as Hne by (intros ->; apply Hout; unfold in_log; lia).
  eapply (read_pair p n k V S0 m bs t b); [done..|by left|]. intros x y k1 C1 O1 B1.
  eapply (copy_block p n k1 _ b (S0 + 1 + t) y x d); [by eapply quiet_calm|done|done|..].
  - cbn. by rewrite lookup_insert_eq.
  - cbn. by rewrite lookup_insert_ne, lookup_insert_eq.
  - done.
  - by left.
  - intros k2 C2 O2 B2. rewrite (proj1 (unhold_copied _ _ _ _ _ _ (lg_unheld _ _ _ _ G))) in B2.
    rewrite Hcd. cbn [default]. replace (Z.of_nat t + 1) with (Z.of_nat (S t)) by lia.
    assert (vdirty V ∖ {[(S0 + 1 + t)%nat]} = vdirty V) as Ed.
    { apply leibniz_equiv. assert ((S0 + 1 + t)%nat ∉ vdirty V) by (apply Hlog; unfold in_log; lia). set_solver. }
    eapply wp_mono; [apply (IH (S t) k2 (copied_view (S0 + 1 + t) d V))|].
    + eapply quiet_calm; [exact Hq|by etrans].
    + done.
    + eapply log_at_cache; [|exact L]. by etrans.
    + by apply geom_copied.
    + rewrite <- (Nat.add_1_r t), <- drop_drop, Hd. done.
    + cbn. by rewrite Ed.
    + cbn. by rewrite Ed.
    + cbn. by rewrite Ed.
    + intros [] k3 (C3 & O3 & B3). split_and!; [etrans; [exact C1|by etrans]|etrans; [exact O1|by etrans]|done].
Qed.

(** *** install_trans *)

Fixpoint install_view (S0 t : nat) (bs : list nat) (V : bview) : bview :=
  match bs with
  | [] => V
  | b :: bs => install_view S0 (S t) bs (copied_view b (default [] (vcur V !! (S0 + 1 + t)%nat)) V)
  end.

Lemma install_trans_loop_spec p n S0 m bs : forall suf t k V,
  quiet p n k -> bio n (files k) V -> log_at (files k) S0 m bs -> log_geom S0 m bs V ->
  drop t bs = suf -> (forall b, b ∈ suf -> b ∈ vdirty V) \/ vdirty V = ∅ -> (size (vdirty V) <= 29)%nat ->
  (forall i, in_log S0 m i -> i ∉ vdirty V) ->
  wp (install_trans_loop (Z.of_nat t) (length suf)) k (fun _ k' => calm k k' /\ cache_only (files k) (files k') /\
    bio n (files k') (install_view S0 t suf V)).
Proof.
  induction suf as [|b suf IH]; intros t k V Hq B L G Hd Hin Hsz Hlog; cbn [install_trans_loop length install_view].
  { by wstep. }
  assert (bs !! t = Some b) as Ht by (rewrite <- (Nat.add_0_r t), <- lookup_drop, Hd; done).
  assert (b ∈ vdirty V \/ vdirty V = ∅) as Hb by (destruct Hin as [Hin|]; [left; apply Hin; by left|by right]).
  destruct (Forall_lookup_1 _ _ _ _ (lg_homes _ _ _ _ G) Ht) as [Hout Hbl].
  pose proof (lookup_lt_Some _ _ _ Ht). pose proof (lg_room _ _ _ _ G). pose proof (lg_fits _ _ _ _ G).
  assert (in_log S0 m (S0 + 1 + t)) as Hil by (unfold in_log; lia).
  destruct (lookup_lt_is_Some_2 (vcur V) (S0 + 1 + t)) as [d Hcd]; [rewrite (bio_size _ _ _ B); lia|].
  assert (b <> (S0 + 1 + t)%nat) as Hne by (intros ->; done).
  eapply (read_pair p n k V S0 m bs t b); [done..|]. intros x y k1 C1 O1 B1.
  eapply (copy_block p n k1 _ (S0 + 1 + t) b x y d); [by eapply quiet_calm|done|done|..].
  - cbn. by rewrite lookup_insert_ne, lookup_insert_eq.
  - cbn. by rewrite lookup_insert_eq.
  - done.
  - right. cbn. apply (bio_clean _ _ _ B); [by apply Hlog|]. by rewrite (lg_unheld _ _ _ _ G).
  - intros k2 C2 O2 B2. rewrite (proj2 (unhold_copied _ _ _ _ _ _ (lg_unheld _ _ _ _ G))) in B2.
    rewrite Hcd. cbn [default]. replace (Z.of_nat t + 1) with (Z.of_nat (S t)) by lia.
    assert (vdirty V ∖ {[b]} ⊆ vdirty V) as Hsub by set_solver.
    eapply wp_mono; [apply (IH (S t) k2 (copied_view b d V))|].
    + eapply quiet_calm; [exact Hq|by etrans].
    + done.
    + eapply log_at_cache; [|exact L]. by etrans.
    + by apply geom_copied.
    + rewrite <- (Nat.add_1_r t), <- drop_drop, Hd. done.
    + cbn. destruct Hin as [Hin|E]; [left|right; rewrite E; set_solver]. intros c Hc.
      apply elem_of_difference. split; [apply Hin; by right|]. rewrite elem_of_singleton. intros ->.
      pose proof (lg_nodup _ _ _ _ G) as Hnd. rewrite <- (take_drop t bs), Hd in Hnd.
      apply NoDup_app in Hnd as (_ & _ & [Hnd _]%list.NoDup_cons). done.
    + cbn. etrans; [by apply subseteq_size|done].
    + cbn. intros i Hi Hi2. apply (Hlog i Hi). set_solver.
    + intros [] k3 (C3 & O3 & B3). split_and!; [etrans; [exact C1|by etrans]|etrans; [exact O1|by etrans]|done].
Qed.

(** *** write_head *)

Fixpoint put_blocks (i : nat) (bs : list nat) (h : list Z) : list Z :=
  match bs with
  | [] => h
  | b :: bs => put_blocks (S i) bs (put32 (4 + 4 * Z.of_nat i) (Z.of_nat b) h)
  end.

Definition head_data (bs : list nat) (h : list Z) : list Z := put_blocks 0 bs (put32 0 (Z.of_nat (length bs)) h).

Lemma length_put32 i v l : length (put32 i v l) = length l.
Proof. apply length_put_bytes. Qed.

Lemma length_put_blocks i bs h : length (put_blocks i bs h) = length h.
Proof. revert i h. induction bs as [|b bs IH]; intros i h; cbn [put_blocks]; [done|]. by rewrite IH, length_put32. Qed.

Lemma write_head_loop_spec n S0 m bs b : forall suf t k V,
  bio n (files k) V -> log_at (files k) S0 m bs -> vheld V !! S0 = Some b -> drop t bs = suf ->
  wp (write_head_loop b (Z.of_nat t) (length suf)) k (fun _ k' => calm k k' /\ cache_only (files k) (files k') /\
    bio n (files k') (put_cur S0 (put_blocks t suf (default [] (vcur V !! S0))) V)).
Proof.
  induction suf as [|c suf IH]; intros t k V B L Hh Hd; cbn [write_head_loop length put_blocks].
  { wstep. split_and!; [done|done|]. pose proof (bio_data _ _ _ _ _ B Hh) as E.
    replace (put_cur _ _ V) with V; [done|]. rewrite E. unfold put_cur. cbn. rewrite list_insert_id by done. by destruct V. }
  assert (bs !! t = Some c) as Ht by (rewrite <- (Nat.add_0_r t), <- lookup_drop, Hd; done).
  wstep. eapply wp_get_block; [done|done|]. unfold setb. wsteps.
  pose proof (bio_data _ _ _ _ _ B Hh) as E. set (d := b_data (buf_at (files k) b)) in *.
  set (d' := put32 (4 + 4 * Z.of_nat t) (Z.of_nat c) d). set (k1 := set_files _ k).
  assert (files k1 = set_buf (set_b_data d') b (files k)) as Ef.
  { unfold k1, d', d. cbn [files set_files]. unfold set_buf. do 2 f_equal. apply list_alter_ext; [|done].
    intros x Hx. unfold buf_at. rewrite Hx. done. }
  assert (bio n (files k1) (put_cur S0 d' V)) as B1.
  { rewrite Ef. apply bio_put; [done|done|]. unfold block_ok, d'. rewrite length_put32. by eapply bio_cur_block. }
  replace (Z.of_nat t + 1) with (Z.of_nat (S t)) by lia.
  eapply wp_mono; [apply (IH (S t) k1 (put_cur S0 d' V))|].
  - done.
  - eapply log_at_cache; [|exact L]. rewrite Ef. apply cache_only_set.
  - done.
  - rewrite <- (Nat.add_1_r t), <- drop_drop, Hd. done.
  - intros [] k2 (C2 & O2 & B2). split_and!.
    + etrans; [|exact C2]. by apply calm_set_files.
    + etrans; [|exact O2]. rewrite Ef. apply cache_only_set.
    + rewrite E. cbn [default]. cbn in B2. rewrite list_lookup_insert_eq in B2 by (by eapply lookup_lt_Some).
      cbn in B2. unfold put_cur in B2 |- *. cbn in B2. by rewrite list_insert_insert_eq in B2.
Qed.

Lemma write_head_spec p n k V S0 m bs :
  quiet p n k -> bio n (files k) V -> log_at (files k) S0 m bs -> log_geom S0 m bs V ->
  (size (vdirty V) <= 29)%nat ->
  wp write_head k (fun _ k' => calm k k' /\ cache_only (files k) (files k') /\
    bio n (files k') (copied_view S0 (head_data bs (default [] (vcur V !! S0))) V)).
Proof.
  intros Hq B L G Hsz. unfold write_head. pose proof (lg_unheld _ _ _ _ G) as Hu. pose proof (lg_fits _ _ _ _ G).
  wstep. eapply wp_getlog; [apply L|]. wstep. eapply wp_getlog; [apply L|]. wstep.
  eapply wp_mono; [apply (bread_spec p n k V S0); [done|done|lia|by rewrite Hu|]|].
  { right. rewrite Hu, dom_empty_L, union_empty_r_L. lia. }
  intros b k1 (_ & C1 & O1 & B1). wstep.
  assert (log_at (files k1) S0 m bs) as L1 by (by eapply log_at_cache).
  eapply wp_getlog; [apply L1|]. unfold setb. wsteps. set (k2 := set_files _ k1).
  assert (vheld (hold S0 b V) !! S0 = Some b) as Hh by apply lookup_insert_eq.
  pose proof (bio_data _ _ _ _ _ B1 Hh) as E. set (d := b_data (buf_at (files k1) b)) in *.
  set (d' := put32 0 (Z.of_nat (length bs)) d).
  assert (files k2 = set_buf (set_b_data d') b (files k1)) as Ef.
  { unfold k2, d', d. cbn [files set_files]. unfold set_buf. do 2 f_equal. apply list_alter_ext; [|done].
    intros x Hx. unfold buf_at. rewrite Hx. done. }
  assert (bio n (files k2) (put_cur S0 d' (hold S0 b V))) as B2.
  { rewrite Ef. apply bio_put; [done|done|]. unfold block_ok, d'. rewrite length_put32. by eapply bio_cur_block. }
  assert (cache_only (files k1) (files k2)) as O2 by (rewrite Ef; apply cache_only_set).
  assert (S0 < length (vcur V))%nat as Hsl by (by eapply lookup_lt_Some).
  rewrite Nat2Z.id. change 0 with (Z.of_nat 0).
  eapply wp_mono; [apply (write_head_loop_spec n S0 m bs b bs 0 k2 _ B2); [by eapply log_at_cache|done|done]|].
  intros [] k3 (C3 & O3 & B3). wstep.
  assert (calm k k3) as C3' by (etrans; [exact C1|]; etrans; [|exact C3]; by apply calm_set_files).
  set (dd := put_blocks 0 bs _) in B3.
  assert (dd = head_data bs (default [] (vcur V !! S0))) as Edd.
  { unfold dd, head_data. cbn [vcur put_cur hold]. cbn in E. rewrite E, list_lookup_insert_eq by done. done. }
  eapply wp_mono; [eapply (bwrite_spec p n k3 _ S0 b); [by eapply quiet_calm|exact B3|done]|].
  intros [] k4 (C4 & O4 & B4).
  eapply wp_mono; [eapply (brelse_spec p n k4 _ S0 b); [eapply quiet_calm; [exact Hq|by etrans]|exact B4|done|]|].
  { right. cbn. rewrite list_insert_insert_eq, !list_lookup_insert_eq; [done| |done]. by rewrite <- (bio_size _ _ _ B). }
  intros [] k5 (C5 & O5 & B5). split_and!.
  - etrans; [exact C3'|by etrans].
  - etrans; [exact O1|]. etrans; [exact O2|]. etrans; [exact O3|by etrans].
  - rewrite <- Edd. replace (copied_view S0 dd V) with (unhold S0 (flush S0 (put_cur S0 dd (put_cur S0 d' (hold S0 b V))))); [done|].
    unfold unhold, flush, put_cur, hold, copied_view. cbn.
    rewrite list_insert_insert_eq, list_lookup_insert_eq by done. cbn. rewrite Hu. f_equal.
    apply map_eq. intros j. rewrite lookup_delete, lookup_insert. by repeat case_decide.
Qed.
End LogSpecs.

(** ** The header *)

Lemma get32_put_blocks_low bs : forall i h o,
  (4 + 4 * (i + length bs) <= length h)%nat -> 0 <= o -> o + 4 <= 4 + 4 * Z.of_nat i ->
  get32 (put_blocks i bs h) o = get32 h o.
Proof.
  induction bs as [|b bs IH]; intros i h o Hl Ho Hi; cbn [put_blocks length] in *; [done|].
  rewrite IH by (rewrite ?length_put32; lia). apply get32_put32_ne; lia.
Qed.

Lemma get32_put_blocks bs : forall i h j b,
  (4 + 4 * (i + length bs) <= length h)%nat -> bs !! j = Some b ->
  get32 (put_blocks i bs h) (4 + 4 * Z.of_nat (i + j)) = u32 (Z.of_nat b).
Proof.
  induction bs as [|c bs IH]; intros i h j b Hl Hj; [done|]. cbn [put_blocks length] in *.
  destruct j as [|j]; cbn in Hj; simplify_eq.
  - rewrite Nat.add_0_r, get32_put_blocks_low by (rewrite ?length_put32; lia). apply get32_put32; lia.
  - replace (i + S j)%nat with (S i + j)%nat by lia. apply IH; [rewrite length_put32; lia|done].
Qed.

Lemma header_head bs h :
  length h = 512%nat -> (length bs <= 30)%nat -> Forall (fun b => Z.of_nat b < 2147483648) bs ->
  header_blocks (head_data bs h) = bs.
Proof.
  intros Hh Hl Hb. unfold header_blocks, head_data.
  rewrite get32_put_blocks_low, get32_put32 by (rewrite ?length_put32; lia).
  rewrite u32_small by (unfold is_u32; lia). rewrite i32_small, Nat2Z.id by (unfold is_i32; lia).
  apply list_eq. intros j. rewrite list_lookup_fmap. destruct (bs !! j) as [b|] eqn:E.
  - pose proof (lookup_lt_Some _ _ _ E). rewrite lookup_seq_lt by lia. cbn [fmap option_fmap option_map]. f_equal.
    rewrite (get32_put_blocks bs 0 _ j b) by (rewrite ?length_put32; done || lia).
    pose proof (Forall_lookup_1 _ _ _ _ Hb E) as Hb'. cbn in Hb'.
    rewrite u32_small by (unfold is_u32; lia). rewrite i32_small by (unfold is_i32; lia). lia.
  - apply lookup_ge_None in E. rewrite lookup_seq_ge by lia. done.
Qed.

(** ** The writes of a commit, in order *)

(** From [V] to [V'] the disk has been in states that satisfy [P]. *)
Definition trail (P : list (list Z) -> Prop) (V V' : bview) : Prop :=
  exists new, vpast V' = new ++ vpast V /\ Forall P new.

Lemma trail_refl P V : trail P V V.
Proof. by exists []. Qed.

Lemma trail_trans P V1 V2 V3 : trail P V1 V2 -> trail P V2 V3 -> trail P V1 V3.
Proof.
  intros (n1 & E1 & H1) (n2 & E2 & H2). exists (n2 ++ n1). split; [by rewrite E2, E1, app_assoc|].
  by apply Forall_app.
Qed.

Lemma trail_mono (P Q : list (list Z) -> Prop) V V' : (forall d, P d -> Q d) -> trail P V V' -> trail Q V V'.
Proof. intros H (new & E & F). exists new. split; [done|]. by eapply Forall_impl. Qed.

Lemma trail_copied (P : list (list Z) -> Prop) dst d V : P (vdisk V) -> trail P V (copied_view dst d V).
Proof. intros H. exists [vdisk V]. split; [done|]. by constructor. Qed.

(** Writing the log changes only the blocks of the log after its header. *)
Lemma write_log_view_spec S0 m : forall suf t V,
  (t + length suf <= m)%nat -> (S0 + m < length (vdisk V))%nat -> length (vcur V) = length (vdisk V) ->
  Forall (fun b => ~ in_log S0 m b /\ (b < length (vdisk V))%nat) suf ->
  (forall i, in_log S0 m i -> i ∉ vdirty V) ->
  let V' := write_log_view S0 t suf V in
  length (vdisk V') = length (vdisk V) /\ length (vcur V') = length (vcur V) /\
  (forall i, ~ (S0 + 1 + t <= i < S0 + 1 + t + length suf)%nat -> vdisk V' !! i = vdisk V !! i /\ vcur V' !! i = vcur V !! i) /\
  (forall j b, suf !! j = Some b -> vdisk V' !! (S0 + 1 + (t + j))%nat = vcur V !! b) /\
  vdirty V' = vdirty V /\
  trail (fun d => forall i, ~ (S0 + 1 <= i <= S0 + m)%nat -> d !! i = vdisk V !! i) V V'.
Proof.
  induction suf as [|b suf IH]; intros t V Ht Hd Hc Hb Hlog; cbn [write_log_view length].
  { cbn. split_and!; try done. apply trail_refl. }
  apply Forall_cons in Hb as [[Hb1 Hb2] Hb]. set (x := (S0 + 1 + t)%nat).
  destruct (lookup_lt_is_Some_2 (vcur V) b) as [d Hbd]; [by rewrite Hc|]. rewrite Hbd.
  change (default [] (Some d)) with d.
  set (V1 := copied_view x d V).
  assert (vdirty V1 = vdirty V) as Ed.
  { apply leibniz_equiv. assert (x ∉ vdirty V) by (apply Hlog; unfold in_log, x; cbn in Ht; lia). cbn. set_solver. }
  assert (length (vdisk V1) = length (vdisk V)) as El by apply length_insert.
  destruct (IH (S t) V1) as (H1 & H2 & H3 & H4 & H5 & H6).
  { cbn in Ht. lia. }
  { lia. }
  { cbn. rewrite !length_insert. done. }
  { by rewrite El. }
  { by rewrite Ed. }
  assert (b <> x) as Hbx by (intros ->; apply Hb1; unfold in_log, x; cbn in Ht; lia).
  split_and!.
  - rewrite H1. done.
  - rewrite H2. cbn. by rewrite length_insert.
  - intros i Hi. destruct (H3 i) as [-> ->]; [unfold x in *; lia|]. cbn.
    rewrite !list_lookup_insert_ne by (unfold x; lia). done.
  - intros [|j] c Hj; cbn in Hj; simplify_eq.
    + destruct (H3 (S0 + 1 + (t + 0))%nat) as [-> _]; [lia|]. cbn. rewrite Nat.add_0_r. fold x.
      rewrite list_lookup_insert_eq by (unfold x; cbn in Ht; lia). done.
    + replace (S0 + 1 + (t + S j))%nat with (S0 + 1 + (S t + j))%nat by lia. rewrite (H4 j c Hj). cbn.
      apply list_lookup_insert_ne. intros <-. pose proof (Forall_lookup_1 _ _ _ _ Hb Hj) as [Hn _].
      apply Hn. unfold in_log, x. cbn in Ht. lia.
  - by rewrite H5.
  - eapply trail_trans; [by apply trail_copied|]. eapply trail_mono; [|exact H6].
    intros e He i Hi. rewrite He by done. apply list_lookup_insert_ne. unfold x. cbn in Ht. lia.
Qed.

(** Installing: the disk goes through the states in which the first blocks of
    the log have been copied home. *)
Lemma install_view_spec S0 m : forall suf t V,
  (t + length suf <= m)%nat -> (S0 + m < length (vdisk V))%nat -> length (vcur V) = length (vdisk V) ->
  Forall (fun b => ~ in_log S0 m b /\ (b < length (vdisk V))%nat) suf ->
  (forall i, in_log S0 m i -> vcur V !! i = vdisk V !! i) ->
  let V' := install_view S0 t suf V in
  vdisk V' = install S0 t suf (vdisk V) /\ vcur V' = install S0 t suf (vcur V) /\
  vdirty V' = vdirty V ∖ list_to_set suf /\
  trail (fun d => exists j, d = install S0 t (take j suf) (vdisk V)) V V'.
Proof.
  induction suf as [|b suf IH]; intros t V Ht Hd Hc Hb Hlog; cbn [install_view length install list_to_set].
  { cbn. split_and!; try done; [set_solver|apply trail_refl]. }
  apply Forall_cons in Hb as [[Hb1 Hb2] Hb]. set (x := (S0 + 1 + t)%nat).
  assert (in_log S0 m x) as Hx by (unfold in_log, x; cbn in Ht; lia).
  destruct (lookup_lt_is_Some_2 (vdisk V) x) as [d Hxd]; [unfold in_log in Hx; lia|].
  rewrite (Hlog x Hx), Hxd. change (default [] (Some d)) with d. set (V1 := copied_view b d V).
  assert (length (vdisk V1) = length (vdisk V)) as El by apply length_insert.
  destruct (IH (S t) V1) as (H1 & H2 & H3 & H4).
  { cbn in Ht. lia. }
  { lia. }
  { cbn. rewrite !length_insert. done. }
  { by rewrite El. }
  { intros i Hi. cbn. assert (b <> i) by (intros ->; done). by rewrite !list_lookup_insert_ne, Hlog. }
  split_and!; [done|done| |].
  - rewrite H3. cbn. set_solver.
  - eapply trail_trans; [apply trail_copied; by exists 0%nat|]. eapply trail_mono; [|exact H4].
    intros e [j ->]. exists (S j). cbn. fold x. by rewrite Hxd.
Qed.
