(* ===== verification/LogCommit.v ===== *)
(** * Commit and recovery: what the disk goes through *)

From S2P Require Import Prelude Memory Mmu Machine Spinlock Kalloc Vm PageTable VmProofs VmSpaces.
From S2P Require Import Encrypt ProcTable Clock ClockProofs Proc ProcProofs FileState Sleeplock Bio BioProofs Log LogProofs.

(** ** Replaying the log of a disk *)

(** The header block [h] names the blocks [bs]. *)
Definition header_ok (h : list Z) (bs : list nat) : Prop :=
  i32 (get32 h 0) = Z.of_nat (length bs) /\
  forall t b, bs !! t = Some b -> i32 (get32 h (4 + 4 * Z.of_nat t)) = Z.of_nat b.

Lemma header_ok_blocks h bs : header_ok h bs -> header_blocks h = bs.
Proof.
  intros [H1 H2]. unfold header_blocks. rewrite H1, Nat2Z.id. apply list_eq. intros j. rewrite list_lookup_fmap.
  destruct (bs !! j) as [b|] eqn:E.
  - rewrite lookup_seq_lt by (by eapply lookup_lt_Some). cbn [fmap option_fmap option_map]. f_equal.
    change (0 + j)%nat with j. rewrite (H2 j b E). lia.
  - apply lookup_ge_None in E. rewrite lookup_seq_ge by lia. done.
Qed.

Lemma header_ok_head bs h :
  length h = 512%nat -> (length bs <= 30)%nat -> Forall (fun b => Z.of_nat b < 2147483648) bs ->
  header_ok (head_data bs h) bs.
Proof.
  intros Hh Hl Hb. unfold head_data. split.
  - rewrite get32_put_blocks_low, get32_put32 by (rewrite ?length_put32; lia).
    rewrite u32_small by (unfold is_u32; lia). by rewrite i32_small by (unfold is_i32; lia).
  - intros t b Ht. rewrite (get32_put_blocks bs 0 _ t b) by (rewrite ?length_put32; done || lia).
    pose proof (Forall_lookup_1 _ _ _ _ Hb Ht) as Hb'. cbn in Hb'.
    rewrite u32_small by (unfold is_u32; lia). by rewrite i32_small by (unfold is_i32; lia).
Qed.

Lemma replay_empty S0 d : logged S0 d = [] -> replay S0 d = d.
Proof. unfold replay. by intros ->. Qed.

Lemma length_install S0 bs : forall t d, length (install S0 t bs d) = length d.
Proof. induction bs as [|b bs IH]; intros t d; cbn; [done|]. by rewrite IH, length_insert. Qed.

(** A disk on which some blocks of the log have been installed replays to the
    same blocks as before. *)
Lemma replay_partial S0 m bs d j i :
  logged S0 d = bs -> NoDup bs -> (length bs <= m)%nat -> (S0 + m < length d)%nat ->
  Forall (fun b => ~ in_log S0 m b /\ (b < length d)%nat) bs -> ~ in_log S0 m i ->
  replay S0 (install S0 0 (take j bs) d) !! i = replay S0 d !! i.
Proof.
  intros Hl Hnd Hm Hd Hb Hi.
  assert (forall x, in_log S0 m x -> install S0 0 (take j bs) d !! x = d !! x) as Hlog.
  { intros x Hx. eapply install_log; [|done]. apply Forall_take. eapply Forall_impl; [exact Hb|]. naive_solver. }
  unfold replay. replace (logged S0 (install S0 0 (take j bs) d)) with bs.
  2:{ unfold logged in *. rewrite Hlog; [done|]. unfold in_log. lia. }
  rewrite Hl. destruct (decide (i ∈ bs)) as [Hin|Hin].
  - apply list_elem_of_lookup in Hin as [t Ht]. pose proof (lookup_lt_Some _ _ _ Ht).
    rewrite (install_home S0 m bs 0 _ t i) by (rewrite ?length_install; done).
    rewrite (install_home S0 m bs 0 d t i) by done. apply Hlog. unfold in_log. lia.
  - rewrite !install_other; [done|done| |done]. intros Ht. apply Hin.
    rewrite <- (take_drop j bs). apply elem_of_app. by left.
Qed.

(** ** commit *)

(** [s'] differs from [s] in the cache, the disk and the header of the log only. *)
Definition storage_only (s s' : fstate) : Prop :=
  s' = set_memdisk (memdisk s') (set_log (set_lg_n (lg_n (log s')) (set_lg_block (lg_block (log s')) (log s)))
         (set_bcache (bcache s') s)).

#[export] Instance storage_only_preorder : PreOrder storage_only.
Proof. split; [by intros [? [] ? ? ? ? ? ?]|]. unfold storage_only. intros s1 s2 s3 H1 H2. rewrite H2, H1. done. Qed.

Lemma cache_storage s s' : cache_only s s' -> storage_only s s'.
Proof. unfold cache_only, storage_only. intros ->. by destruct s as [? [] ? ? ? ? ? ?]. Qed.

Definition written_view (S0 : nat) (bs : list nat) (V : bview) : bview :=
  let V := write_log_view S0 0 bs V in copied_view S0 (head_data bs (default [] (vcur V !! S0))) V.

Definition finished_view (S0 : nat) (bs : list nat) (V : bview) : bview :=
  let V := install_view S0 0 bs V in copied_view S0 (head_data [] (default [] (vcur V !! S0))) V.

(** The transaction: the dirty blocks are those that the log names. *)
Record txn (S0 m : nat) (bs : list nat) (V : bview) : Prop := {
  tx_geom : log_geom S0 m bs V;
  tx_dirty : vdirty V = list_to_set bs;
}.

Lemma txn_log S0 m bs V i : txn S0 m bs V -> in_log S0 m i -> i ∉ vdirty V.
Proof.
  intros [G D] Hi. rewrite D, elem_of_list_to_set. intros Hb.
  pose proof (lg_homes _ _ _ _ G) as H. rewrite Forall_forall in H. by destruct (H i Hb).
Qed.

Lemma txn_size S0 m bs V : txn S0 m bs V -> (size (vdirty V) <= 29)%nat.
Proof.
  intros [G D]. rewrite D, size_list_to_set by apply G. apply G.
Qed.

Lemma sizes_geom S0 m bs V V' :
  log_geom S0 m bs V -> length (vdisk V') = length (vdisk V) -> vheld V' = ∅ -> log_geom S0 m bs V'.
Proof. intros [] E Hu. split; rewrite ?E; done. Qed.

Section Commit.
Context `{DL : DiskLaws}.
Implicit Types k : kstate fstate.

Lemma vheld_write_log S0 bs : forall t V, vheld (write_log_view S0 t bs V) = vheld V.
Proof. induction bs as [|b bs IH]; intros t V; cbn [write_log_view]; [done|]. by rewrite IH. Qed.

Lemma vheld_install S0 bs : forall t V, vheld (install_view S0 t bs V) = vheld V.
Proof. induction bs as [|b bs IH]; intros t V; cbn [install_view]; [done|]. by rewrite IH. Qed.

Lemma install_trans_spec p n k V S0 m bs :
  quiet p n k -> bio n (files k) V -> log_at (files k) S0 m bs -> log_geom S0 m bs V ->
  (forall b, b ∈ bs -> b ∈ vdirty V) \/ vdirty V = ∅ -> (size (vdirty V) <= 29)%nat ->
  (forall i, in_log S0 m i -> i ∉ vdirty V) ->
  wp install_trans k (fun _ k' => calm k k' /\ cache_only (files k) (files k') /\
    bio n (files k') (install_view S0 0 bs V)).
Proof.
  intros Hq B L G Hd Hs Hl. unfold install_trans. wstep. eapply wp_getlog; [apply L|]. rewrite Nat2Z.id.
  by apply (install_trans_loop_spec p n S0 m bs bs 0).
Qed.

(** Installing the blocks and clearing the header. *)
Lemma finish_spec p n k V S0 m bs :
  quiet p n k -> bio n (files k) V -> log_at (files k) S0 m bs -> log_geom S0 m bs V ->
  (forall b, b ∈ bs -> b ∈ vdirty V) \/ vdirty V = ∅ -> (size (vdirty V) <= 29)%nat ->
  (forall i, in_log S0 m i -> i ∉ vdirty V) ->
  wp (install_trans;; setlog (set_lg_n 0);; write_head) k (fun _ k' => calm k k' /\
    storage_only (files k) (files k') /\ log_at (files k') S0 m [] /\
    bio n (files k') (finished_view S0 bs V)).
Proof.
  intros Hq B L G Hd Hs Hl. wstep. eapply wp_mono; [by apply (install_trans_spec p n k V S0 m bs)|].
  intros [] k1 (C1 & O1 & B1). unfold setlog. wsteps. set (k2 := set_files _ k1).
  set (V1 := install_view S0 0 bs V) in *.
  destruct (install_view_spec S0 m bs 0 V) as (E1 & E2 & E3 & _).
  { apply G. } { apply G. } { apply (bio_size _ _ _ B). } { apply G. }
  { intros i Hi. apply (bio_clean _ _ _ B); [by apply Hl|]. by rewrite (lg_unheld _ _ _ _ G). }
  assert (log_at (files k2) S0 m []) as L2.
  { destruct (log_at_cache _ _ _ _ _ O1 L). by split. }
  assert (vdirty V1 ⊆ vdirty V) as Hsub by (unfold V1; rewrite E3; set_solver).
  assert (log_geom S0 m [] V1) as G1.
  { pose proof (vheld_install S0 bs 0 V) as Eh. pose proof (bio_size _ _ _ B1) as Hz.
    destruct G as [G1 G2 G3 G4 G5 G6 G7].
    assert (length (vdisk V1) = length (vdisk V)) as El.
    { unfold V1. by rewrite E1, length_install. }
    split; cbn [length]; rewrite ?El; try lia; [apply NoDup_nil_2|by apply Forall_nil|by unfold V1; rewrite Eh]. }
  eapply wp_mono; [apply (write_head_spec p n k2 V1 S0 m [])|].
  - eapply quiet_calm; [exact Hq|]. by apply calm_set_files.
  - by apply (bio_same n (files k1)).
  - done.
  - done.
  - etrans; [by apply subseteq_size|done].
  - intros [] k3 (C3 & O3 & B3). split_and!; [| |by eapply log_at_cache|exact B3].
    + etrans; [|exact C3]. by apply calm_set_files.
    + etrans; [by apply cache_storage|]. etrans; [|by apply cache_storage]. unfold k2. by destruct (files k1) as [? [] ? ? ? ? ? ?].
Qed.
End Commit.

(** ** What the disk goes through *)

(** Installing and clearing the header: at every point, replaying the disk
    gives the same blocks. *)
Lemma finished_spec S0 m bs V h :
  log_geom S0 m bs V -> length (vcur V) = length (vdisk V) ->
  (forall i, in_log S0 m i -> vcur V !! i = vdisk V !! i) -> logged S0 (vdisk V) = bs ->
  vdisk V !! S0 = Some h -> block_ok h ->
  logged S0 (vdisk (finished_view S0 bs V)) = [] /\
  (forall i, ~ in_log S0 m i -> vdisk (finished_view S0 bs V) !! i = replay S0 (vdisk V) !! i) /\
  (forall i, ~ in_log S0 m i -> vcur (finished_view S0 bs V) !! i = install S0 0 bs (vcur V) !! i) /\
  vdirty (finished_view S0 bs V) = vdirty V ∖ list_to_set bs ∖ {[S0]} /\
  trail (fun d => forall i, ~ in_log S0 m i -> replay S0 d !! i = replay S0 (vdisk V) !! i) V (finished_view S0 bs V).
Proof.
  intros G Hc Hlog Hl Hh Hbk. pose proof (lg_fits _ _ _ _ G) as Hf. pose proof (lg_homes _ _ _ _ G) as Hb.
  destruct (install_view_spec S0 m bs 0 V) as (E1 & E2 & E3 & E4); [apply G|done|done|done|done|].
  assert (in_log S0 m S0) as HS by (unfold in_log; lia).
  assert (Forall (fun b => ~ in_log S0 m b) bs) as Hb' by (eapply Forall_impl; [exact Hb|]; naive_solver).
  assert (vcur (install_view S0 0 bs V) !! S0 = Some h) as Hch.
  { rewrite E2, (install_log S0 m) by done. by rewrite Hlog. }
  unfold finished_view. rewrite Hch. change (default [] (Some h)) with h. split_and!.
  - unfold logged. cbn [vdisk copied_view]. rewrite E1, list_lookup_insert_eq by (rewrite length_install; lia).
    apply (header_head [] h); [done|cbn; lia|by apply Forall_nil].
  - intros i Hi. cbn. rewrite list_lookup_insert_ne by (intros <-; done). rewrite E1. unfold replay. by rewrite Hl.
  - intros i Hi. cbn. rewrite list_lookup_insert_ne by (intros <-; done). by rewrite E2.
  - cbn. by rewrite E3.
  - eapply trail_trans; [eapply trail_mono; [|exact E4]|apply trail_copied].
    + intros d [j ->] i Hi. by apply (replay_partial S0 m bs); try apply G.
    + intros i Hi. rewrite E1. rewrite <- (firstn_all bs). by apply (replay_partial S0 m bs); try apply G.
Qed.

(** Writing the log and its header: until the header is written, replaying
    the disk gives the old blocks. *)
Lemma written_spec S0 m bs V h :
  txn S0 m bs V -> length (vcur V) = length (vdisk V) -> logged S0 (vdisk V) = [] ->
  vcur V !! S0 = Some h -> block_ok h ->
  let V' := written_view S0 bs V in
  logged S0 (vdisk V') = bs /\ length (vdisk V') = length (vdisk V) /\ vdirty V' = vdirty V /\
  vdisk V' !! S0 = Some (head_data bs h) /\
  (forall i, ~ in_log S0 m i -> vdisk V' !! i = vdisk V !! i /\ vcur V' !! i = vcur V !! i) /\
  (forall j b, bs !! j = Some b -> vdisk V' !! (S0 + 1 + j)%nat = vcur V !! b) /\
  trail (fun d => forall i, ~ in_log S0 m i -> replay S0 d !! i = vdisk V !! i) V V'.
Proof.
  intros T Hc Hl Hh Hbk. assert (G := tx_geom _ _ _ _ T).
  pose proof (lg_fits _ _ _ _ G) as Hf. pose proof (lg_room _ _ _ _ G).
  destruct (write_log_view_spec S0 m bs 0 V) as (E1 & E2 & E3 & E4 & E5 & E6); [lia|done|done|apply G|intros i; by apply (txn_log _ _ _ _ i T)|].
  unfold written_view. set (V1 := write_log_view S0 0 bs V) in *.
  destruct (E3 S0) as [D0 C0]; [lia|]. rewrite C0, Hh. change (default [] (Some h)) with h.
  assert (S0 ∉ vdirty V) as HS by (apply (txn_log S0 m bs); [done|unfold in_log; lia]).
  assert (forall d, (forall i, ~ (S0 + 1 <= i <= S0 + m)%nat -> d !! i = vdisk V !! i) ->
    forall i, ~ in_log S0 m i -> replay S0 d !! i = vdisk V !! i) as Hrep.
  { intros d Hd i Hi. rewrite replay_empty; [apply Hd; unfold in_log in Hi; lia|].
    unfold logged in Hl |- *. rewrite Hd by lia. done. }
  split_and!.
  - unfold logged. cbn [vdisk copied_view]. rewrite list_lookup_insert_eq by lia. apply (header_head bs h); [done|pose proof (lg_small _ _ _ _ G); lia|].
    eapply Forall_impl; [apply G|]. intros b [_ Hb]. pose proof (lg_int _ _ _ _ G). lia.
  - cbn. by rewrite length_insert.
  - cbn. rewrite E5. apply leibniz_equiv. set_solver.
  - cbn. by rewrite list_lookup_insert_eq by lia.
  - intros i Hi. assert (S0 <> i) by (intros <-; apply Hi; unfold in_log; lia). cbn.
    rewrite !list_lookup_insert_ne by done. apply E3. unfold in_log in Hi. lia.
  - intros j b Hj. cbn. rewrite list_lookup_insert_ne by lia. by apply (E4 j b).
  - eapply trail_trans; [eapply trail_mono; [exact Hrep|exact E6]|]. apply trail_copied, Hrep. intros i Hi. apply E3. lia.
Qed.

(** ** The theorems *)

Section Theorems.
Context `{DL : DiskLaws}.
Implicit Types k : kstate fstate.

(** Replaying [d] gives, outside the log, the old contents or the new ones. *)
Definition crash_ok (S0 m : nat) (V : bview) (d : list (list Z)) : Prop :=
  (forall i, ~ in_log S0 m i -> replay S0 d !! i = vdisk V !! i) \/
  (forall i, ~ in_log S0 m i -> replay S0 d !! i = vcur V !! i).

Lemma written_run p n k V S0 m bs :
  quiet p n k -> bio n (files k) V -> log_at (files k) S0 m bs -> txn S0 m bs V ->
  wp (write_log;; write_head) k (fun _ k' => calm k k' /\ cache_only (files k) (files k') /\
    bio n (files k') (written_view S0 bs V)).
Proof.
  intros Hq B L T. assert (G := tx_geom _ _ _ _ T). unfold write_log. wstep. wstep.
  eapply wp_getlog; [apply L|]. rewrite Nat2Z.id. change 0 with (Z.of_nat 0).
  eapply wp_mono; [apply (write_log_loop_spec p n S0 m bs bs 0 k V); try done|].
  - intros b Hb. by rewrite (tx_dirty _ _ _ _ T), elem_of_list_to_set.
  - by eapply txn_size.
  - intros i. by apply (txn_log _ _ _ _ i T).
  - intros [] k1 (C1 & O1 & B1).
    destruct (write_log_view_spec S0 m bs 0 V) as (E1 & _ & _ & _ & E5 & _);
      [apply G|apply G|apply (bio_size _ _ _ B)|apply G|intros i; by apply (txn_log _ _ _ _ i T)|].
    eapply wp_mono; [eapply (write_head_spec p n k1 _ S0 m bs); [by eapply quiet_calm|exact B1|by eapply log_at_cache| |]|].
    + eapply sizes_geom; [exact G|exact E1|]. rewrite vheld_write_log. apply G.
    + rewrite E5. by eapply txn_size.
    + intros [] k2 (C2 & O2 & B2). split_and!; [by etrans|by etrans|exact B2].
Qed.

(** Where the view is clean, the log's blocks on disk are as in the cache. *)
Lemma bio_log_clean n s V S0 m :
  bio n s V -> vheld V = ∅ -> (forall i, in_log S0 m i -> i ∉ vdirty V) ->
  forall i, in_log S0 m i -> vcur V !! i = vdisk V !! i.
Proof. intros B Hu Hl i Hi. apply (bio_clean _ _ _ B); [by apply Hl|]. by rewrite Hu. Qed.

(** The blocks that a written log replays to are the new contents. *)
Lemma written_replay S0 m bs V h i :
  txn S0 m bs V -> length (vcur V) = length (vdisk V) -> logged S0 (vdisk V) = [] ->
  vcur V !! S0 = Some h -> block_ok h -> (forall i, i ∉ vdirty V -> vcur V !! i = vdisk V !! i) ->
  ~ in_log S0 m i -> replay S0 (vdisk (written_view S0 bs V)) !! i = vcur V !! i.
Proof.
  intros T Hc Hl Hh Hbk Hcl Hi. assert (G := tx_geom _ _ _ _ T).
  destruct (written_spec S0 m bs V h T Hc Hl Hh Hbk) as (W1 & W2 & W3 & W4 & W5 & W6 & W7).
  set (V1 := written_view S0 bs V) in *. unfold replay. rewrite W1.
  destruct (decide (i ∈ bs)) as [Hb|Hb].
  - apply list_elem_of_lookup in Hb as [j Hj].
    rewrite (install_home S0 m bs 0 _ j i); try rewrite W2; try apply G; [|done]. by apply W6.
  - rewrite install_other by done. destruct (W5 i Hi) as [-> _]. symmetry. apply Hcl.
    by rewrite (tx_dirty _ _ _ _ T), elem_of_list_to_set.
Qed.

Lemma commit_spec p n k V S0 m bs :
  quiet p n k -> bio n (files k) V -> log_at (files k) S0 m bs -> txn S0 m bs V -> logged S0 (vdisk V) = [] ->
  wp commit k (fun _ k' => calm k k' /\ storage_only (files k) (files k') /\ log_at (files k') S0 m [] /\
    exists V', bio n (files k') V' /\ vdirty V' = ∅ /\ vheld V' = ∅ /\ logged S0 (vdisk V') = [] /\
      length (vdisk V') = length (vdisk V) /\
      (forall i, ~ in_log S0 m i -> vdisk V' !! i = vcur V !! i /\ vcur V' !! i = vcur V !! i) /\
      trail (crash_ok S0 m V) V V').
Proof.
  intros Hq B L T Hl. assert (G := tx_geom _ _ _ _ T). pose proof (lg_fits _ _ _ _ G).
  pose proof (lg_unheld _ _ _ _ G) as Hu.
  assert (forall i, i ∉ vdirty V -> vcur V !! i = vdisk V !! i) as Hcl.
  { intros i Hi. apply (bio_clean _ _ _ B); [done|]. by rewrite Hu. }
  unfold commit. wstep. eapply wp_getlog; [apply L|]. apply wp_when; intros Hn; b2p.
  2:{ assert (bs = []) as -> by (destruct bs; [done|cbn in Hn; lia]). split_and!; [done|done|done|]. exists V.
      assert (vdirty V = ∅) as Hd by (rewrite (tx_dirty _ _ _ _ T); done).
      split_and!; try done; [|apply trail_refl]. intros i _. split; [|done]. symmetry. apply Hcl. rewrite Hd. set_solver. }
  destruct (lookup_lt_is_Some_2 (vcur V) S0) as [h Hh]; [rewrite (bio_size _ _ _ B); lia|].
  pose proof (bio_cur_block _ _ _ _ _ B Hh) as Hbk.
  destruct (written_spec S0 m bs V h T (bio_size _ _ _ B) Hl Hh Hbk) as (W1 & W2 & W3 & W4 & W5 & W6 & W7).
  pose proof (fun i => written_replay S0 m bs V h i T (bio_size _ _ _ B) Hl Hh Hbk Hcl) as Hrep.
  set (V1 := written_view S0 bs V) in *.
  assert (vheld V1 = ∅) as Hu1 by (unfold V1, written_view; cbn; by rewrite vheld_write_log).
  eapply wp_bind_assoc_mono; [by apply (written_run p n k V S0 m bs)|]. intros k1 (C1 & O1 & B1).
  fold V1 in B1.
  assert (log_geom S0 m bs V1) as G1 by (by eapply sizes_geom).
  assert (forall i, in_log S0 m i -> i ∉ vdirty V1) as Hlog by (rewrite W3; intros i; by apply (txn_log _ _ _ _ i T)).
  destruct (finished_spec S0 m bs V1 (head_data bs h)) as (F1 & F2 & F3 & F4 & F5);
    [done|apply (bio_size _ _ _ B1)|by apply (bio_log_clean _ _ _ _ _ B1 Hu1)|done|done|by unfold block_ok, head_data; rewrite length_put_blocks, length_put32|].
  eapply wp_mono; [apply (finish_spec p n k1 V1 S0 m bs); [by eapply quiet_calm|done|by eapply log_at_cache|done| | |done]|].
  { left. intros b Hb. by rewrite W3, (tx_dirty _ _ _ _ T), elem_of_list_to_set. }
  { rewrite W3. by eapply txn_size. }
  intros [] k2 (C2 & O2 & L2 & B2). split_and!; [by etrans| |done|].
  { etrans; [by apply cache_storage|done]. }
  assert (vdirty (finished_view S0 bs V1) = ∅) as Hd2.
  { rewrite F4, W3, (tx_dirty _ _ _ _ T). clear. set_solver. }
  assert (vheld (finished_view S0 bs V1) = ∅) as Hu2.
  { unfold finished_view. cbn [vheld copied_view]. by rewrite vheld_install. }
  exists (finished_view S0 bs V1). split; [exact B2|]. split; [exact Hd2|]. split; [exact Hu2|].
  split; [exact F1|]. split_and!.
  - rewrite <- W2. unfold finished_view. cbn [vdisk copied_view]. rewrite length_insert.
    destruct (install_view_spec S0 m bs 0 V1) as (E & _);
      [apply G1|apply G1|apply (bio_size _ _ _ B1)|apply G1|by apply (bio_log_clean _ _ _ _ _ B1 Hu1)|].
    by rewrite E, length_install.
  - intros i Hi. assert (vdisk (finished_view S0 bs V1) !! i = vcur V !! i) as E.
    { rewrite F2 by exact Hi. by apply Hrep. }
    split; [exact E|]. rewrite <- E. apply (bio_clean _ _ _ B2); [rewrite Hd2; apply not_elem_of_empty|by rewrite Hu2].
  - eapply trail_trans; [eapply trail_mono; [|exact W7]; by left|].
    eapply trail_mono; [|exact F5]. intros d Hd. right. intros i Hi. rewrite Hd by done. by apply Hrep.
Qed.

(** *** Recovery *)

(** The log before its header has been read. *)
Record log_pre (s : fstate) (S0 m : nat) : Prop := {
  lp_dev : lg_dev (log s) = 1;
  lp_start : lg_start (log s) = Z.of_nat S0;
  lp_size : lg_size (log s) = Z.of_nat m + 1;
  lp_len : length (lg_block (log s)) = 30%nat;
  lp_lock : lg_lock (log s) = free;
}.

Lemma read_head_loop_spec h bs : forall suf t k,
  drop t bs = suf -> (length bs <= 30)%nat -> header_ok h bs -> length (lg_block (log (files k))) = 30%nat ->
  (forall j b, (j < t)%nat -> bs !! j = Some b -> lg_block (log (files k)) !! j = Some (Z.of_nat b)) ->
  wp (read_head_loop h (Z.of_nat t) (length suf)) k (fun _ k' => exists l, length l = 30%nat /\
    (forall j b, bs !! j = Some b -> l !! j = Some (Z.of_nat b)) /\
    k' = set_files (set_log (set_lg_block l (log (files k))) (files k)) k).
Proof.
  induction suf as [|b suf IH]; intros t k Hd Hl Hh Hlen Hbs; cbn [read_head_loop length].
  { wstep. exists (lg_block (log (files k))). split_and!; [done| |by destruct k as [? ? ? ? ? ? ? [? [] ? ? ? ? ? ?]]].
    intros j b Hj. apply Hbs; [|done]. apply lookup_lt_Some in Hj.
    assert (length (drop t bs) = 0)%nat as E by (by rewrite Hd). rewrite length_drop in E. lia. }
  assert (bs !! t = Some b) as Ht by (rewrite <- (Nat.add_0_r t), <- lookup_drop, Hd; done).
  pose proof (lookup_lt_Some _ _ _ Ht).
  unfold set_block. wstep. wstep. eapply wp_getlog; [done|].
  rewrite (proj2 (Z.ltb_ge _ _)), (proj2 (Z.leb_gt _ _)) by lia. cbn [orb]. unfold setlog. wsteps.
  rewrite (proj2 Hh t b Ht), Nat2Z.id. set (k1 := set_files _ k).
  replace (Z.of_nat t + 1) with (Z.of_nat (S t)) by lia.
  eapply wp_mono; [apply (IH (S t) k1)|].
  - rewrite <- (Nat.add_1_r t), <- drop_drop, Hd. done.
  - done.
  - done.
  - cbn. by rewrite length_insert.
  - intros j c Hj Hc. cbn. destruct (decide (j = t)) as [->|].
    + rewrite list_lookup_insert_eq by lia. congruence.
    + rewrite list_lookup_insert_ne by done. apply Hbs; [lia|done].
  - intros [] k2 (l & H1 & H2 & ->). exists l. done.
Qed.

Lemma read_head_spec p n k V S0 m h bs :
  quiet p n k -> bio n (files k) V -> log_pre (files k) S0 m -> vheld V = ∅ -> vdirty V = ∅ ->
  vdisk V !! S0 = Some h -> header_ok h bs -> (length bs <= 30)%nat ->
  wp read_head k (fun _ k' => calm k k' /\ storage_only (files k) (files k') /\
    log_at (files k') S0 m bs /\ bio n (files k') V).
Proof.
  intros Hq B L Hu Hd Hh Hok Hl. unfold read_head.
  wstep. eapply wp_getlog; [apply L|]. wstep. eapply wp_getlog; [apply L|]. wstep.
  pose proof (lookup_lt_Some _ _ _ Hh) as HS.
  eapply wp_mono; [apply (bread_spec p n k V S0); [done|done|done|by rewrite Hu|]|].
  { right. rewrite Hu, Hd, dom_empty_L, union_empty_l_L, size_empty. lia. }
  intros b k1 (_ & C1 & O1 & B1).
  assert (vcur V !! S0 = vdisk V !! S0) as Ec by (apply (bio_clean _ _ _ B); [rewrite Hd; set_solver|by rewrite Hu]).
  assert (b_data (buf_at (files k1) b) = h) as Eb.
  { pose proof (bio_data _ _ _ S0 b B1 (lookup_insert_eq _ _ _)) as E. cbn in E. rewrite Ec, Hh in E. congruence. }
  unfold getb, setlog. wsteps. rewrite Eb. destruct (Hok) as [Hn _]. rewrite Hn.
  eapply (wp_getlog _ _ (Z.of_nat (length bs))); [done|]. rewrite Nat2Z.id.
  set (k2 := set_files _ k1). wstep.
  assert (log_pre (files k1) S0 m) as L1 by (rewrite O1; destruct L; by split).
  change 0 with (Z.of_nat 0).
  eapply wp_mono; [apply (read_head_loop_spec h bs bs 0 k2); [done|done|done|apply L1|intros; lia]|].
  intros [] k3 (l & H1 & H2 & Ek3).
  assert (files k3 = set_log (set_lg_block l (set_lg_n (Z.of_nat (length bs)) (log (files k1)))) (files k1)) as Ef3.
  { rewrite Ek3. done. }
  eapply wp_mono; [eapply (brelse_spec p n k3 (hold S0 b V) S0 b)|].
  - eapply quiet_calm; [exact Hq|]. rewrite Ek3. by repeat apply calm_set_files.
  - rewrite Ef3. by apply (bio_same n (files k1)).
  - cbn. apply lookup_insert_eq.
  - right. exact Ec.
  - intros [] k4 (C4 & O4 & B4). split_and!.
    + etrans; [|exact C4]. rewrite Ek3. by repeat apply calm_set_files.
    + etrans; [by apply cache_storage|]. etrans; [|by apply cache_storage]. rewrite Ef3. by destruct (files k1) as [? [] ? ? ? ? ? ?].
    + eapply log_at_cache; [exact O4|]. rewrite Ef3. destruct L1. split; try done.
    + replace V with (unhold S0 (hold S0 b V)); [done|]. unfold unhold, hold. cbn. rewrite Hu.
      replace (delete S0 (<[S0 := b]> (∅ : gmap nat nat))) with (vheld V); [by destruct V|].
      rewrite Hu. apply map_eq. intros j. rewrite lookup_delete, lookup_insert. by repeat case_decide.
Qed.
End Theorems.
