(* ===== verification/LogOps.v ===== *)
(** * Transactions: begin_op, log_write, end_op *)

From S2P Require Import Prelude Memory Mmu Machine Spinlock Kalloc Vm PageTable VmProofs VmSpaces.
From S2P Require Import Encrypt ProcTable Clock ClockProofs Proc ProcProofs FileState Sleeplock Bio BioProofs Log LogProofs LogCommit.

(** The state inside a transaction whose log names the blocks [bs]. *)
Record intx (s : fstate) (S0 m : nat) (bs : list nat) (V : bview) : Prop := {
  ix_log : log_at s S0 m bs;
  ix_out : 1 <= lg_outstanding (log s);
  ix_idle : lg_committing (log s) = false;
  ix_max : (m <= 29)%nat;
  ix_fits : (S0 + m < length (vdisk V))%nat;
  ix_room : (length bs <= m)%nat;
  ix_nodup : NoDup bs;
  ix_homes : Forall (fun b => ~ in_log S0 m b /\ (b < length (vdisk V))%nat) bs;
  ix_int : Z.of_nat (length (vdisk V)) <= 2147483648;
  ix_dirty : vdirty V = list_to_set bs;
  ix_empty : logged S0 (vdisk V) = [];
}.

Lemma intx_txn s S0 m bs V : intx s S0 m bs V -> vheld V = ∅ -> txn S0 m bs V.
Proof. intros [] Hu. split; [|done]. split; try done. lia. Qed.

Lemma intx_size s S0 m bs V : intx s S0 m bs V -> (size (vdirty V) <= m)%nat.
Proof. intros I. rewrite (ix_dirty _ _ _ _ _ I), size_list_to_set; apply I. Qed.

(** No operation is running and the log is empty. *)
Record idle (s : fstate) (S0 m : nat) (V : bview) : Prop := {
  id_log : log_at s S0 m [];
  id_out : lg_outstanding (log s) = 0;
  id_idle : lg_committing (log s) = false;
  id_max : (m <= 29)%nat;
  id_fits : (S0 + m < length (vdisk V))%nat;
  id_int : Z.of_nat (length (vdisk V)) <= 2147483648;
  id_dirty : vdirty V = ∅;
  id_held : vheld V = ∅;
  id_empty : logged S0 (vdisk V) = [];
}.

(** The operations on buffers do not matter to it. *)
Lemma intx_view s s' S0 m bs V V' :
  log s' = log s -> vdisk V' = vdisk V -> vdirty V' = vdirty V -> intx s S0 m bs V -> intx s' S0 m bs V'.
Proof. intros E1 E2 E3 [[]]. split; rewrite ?E1, ?E2, ?E3; try done. split; by rewrite E1. Qed.

(** [log_write] adds the block, unless it is there. *)
Definition add_block (i : nat) (bs : list nat) : list nat := if decide (i ∈ bs) then bs else bs ++ [i].

Lemma absorb_spec i : forall bs bl j, (forall t b, bs !! t = Some b -> bl !! t = Some (Z.of_nat b)) ->
  absorb (Z.of_nat i) bl j (length bs) = j + Z.of_nat (default (length bs) (fst <$> list_find (fun b => b = i) bs)).
Proof.
  induction bs as [|b bs IH]; intros bl j Hb; [destruct bl; cbn; lia|]. cbn [absorb length].
  specialize (Hb 0%nat b eq_refl) as H0. destruct bl as [|c bl]; [done|]. cbn in H0. injection H0 as ->.
  cbn [absorb list_find]. destruct (decide (b = i)) as [->|Hne].
  - rewrite Z.eqb_refl. cbn. lia.
  - rewrite (proj2 (Z.eqb_neq _ _)) by lia. rewrite (IH bl (j + 1)).
    + destruct (list_find (fun b => b = i) bs) as [[t c]|]; cbn; lia.
    + intros t c Ht. by apply (Hb (S t)).
Qed.

Section LogOps.
Context `{DL : DiskLaws}.
Implicit Types k : kstate fstate.

(** The log after [log_write] of block [i], and its lock apart. *)
Definition log_added (i : nat) (bs : list nat) (l : log_t) : log_t :=
  let t := default (length bs) (fst <$> list_find (fun b => b = i) bs) in
  let l := set_lg_block (<[t := Z.of_nat i]> (lg_block l)) l in
  if decide (i ∈ bs) then l else set_lg_n (lg_n l + 1) l.

Lemma log_added_at s S0 m bs i x :
  log_at s S0 m bs -> (length bs < 30)%nat -> log x = log_added i bs (log s) -> log_at x S0 m (add_block i bs).
Proof.
  intros [] Hl E. split; rewrite E; unfold log_added, add_block; repeat case_decide; try done.
  - cbn. rewrite length_app. cbn. lia.
  - cbn. by rewrite length_insert.
  - cbn. by rewrite length_insert.
  - intros t b Ht. cbn.
    destruct (list_find (fun b => b = i) bs) as [[u c]|] eqn:Ef.
    + apply list_find_Some in Ef as (Hu & -> & _). cbn. destruct (decide (u = t)) as [->|].
      * rewrite list_lookup_insert_eq by (rewrite la_len; apply lookup_lt_Some in Hu; lia). congruence.
      * rewrite list_lookup_insert_ne by done. by apply la_block.
    + exfalso. apply list_find_None in Ef. rewrite Forall_forall in Ef. by apply (Ef i).
  - intros t b Ht. cbn. assert (list_find (fun b => b = i) bs = None) as ->.
    { apply list_find_None, Forall_forall. by intros b' Hb' ->. }
    cbn. destruct (decide (t = length bs)) as [->|].
    + rewrite list_lookup_insert_eq by lia. rewrite lookup_app_r, Nat.sub_diag in Ht by done. cbn in Ht. congruence.
    + rewrite list_lookup_insert_ne by done. apply la_block. apply lookup_app_Some in Ht as [?|[? Ht]]; [done|].
      apply list_lookup_singleton_Some in Ht as [? _]. lia.
Qed.

Lemma add_block_nodup i bs : NoDup bs -> NoDup (add_block i bs).
Proof.
  intros H. unfold add_block. case_decide; [done|]. apply NoDup_app. split_and!; [done| |apply NoDup_singleton].
  intros x Hx ->%list_elem_of_singleton. done.
Qed.

Lemma add_block_set i bs : list_to_set (add_block i bs) =@{gset nat} list_to_set bs ∪ {[i]}.
Proof.
  unfold add_block. case_decide; [|by rewrite list_to_set_app_L, list_to_set_singleton_L].
  apply leibniz_equiv. intros x. rewrite elem_of_union, elem_of_list_to_set, elem_of_singleton. split; [tauto|].
  by intros [?| ->].
Qed.

Lemma length_add_block i bs : (length (add_block i bs) <= S (length bs))%nat.
Proof. unfold add_block. case_decide; [lia|]. rewrite length_app. cbn. lia. Qed.

(** A held block that is not of the log goes into the transaction. *)
Lemma log_write_spec p n k V S0 m bs i b :
  quiet p n k -> bio n (files k) V -> intx (files k) S0 m bs V -> vheld V !! i = Some b ->
  ~ in_log S0 m i -> (length bs < m)%nat ->
  wp (log_write b) k (fun _ k' => calm k k' /\ storage_only (files k) (files k') /\
    bio n (files k') (pin i V) /\ intx (files k') S0 m (add_block i bs) (pin i V)).
Proof.
  intros Hq B I Hh Hi Hlen. assert (L := ix_log _ _ _ _ _ I). pose proof (ix_max _ _ _ _ _ I).
  destruct (bio_held _ _ _ _ _ B Hh) as [Hb (_ & Hbn & Hcur & _)].
  unfold log_write. wstep. eapply wp_getlog; [done|]. cbv beta delta [id].
  rewrite (la_n _ _ _ _ L), (la_size _ _ _ _ L). unfold LOGSIZE, MAXOPBLOCKS.
  rewrite !(proj2 (Z.leb_gt _ _)) by lia. cbn [orb].
  rewrite (proj2 (Z.ltb_ge _ _)) by apply I. wstep.
  eapply (wp_enter lg_lockL); [by eapply quiet_cpu|apply _|apply L|]. intros h1 lk Hl.
  wstep. eapply wp_getlog; [done|]. cbv beta delta [id]. unfold getb. wsteps. cbn [files set_files].
  change (buf_at (update lg_lockL lk (files k)) b) with (buf_at (files k) b). rewrite Hbn.
  change (lg_block (log (update lg_lockL lk (files k)))) with (lg_block (log (files k))).
  change (lg_n (log (update lg_lockL lk (files k)))) with (lg_n (log (files k))).
  rewrite (la_n _ _ _ _ L), Nat2Z.id, (absorb_spec i bs _ 0 (la_block _ _ _ _ L)), Z.add_0_l.
  set (t := default (length bs) (fst <$> list_find (fun b => b = i) bs)).
  assert (t <= length bs /\ (t = length bs <-> i ∉ bs))%nat as [Ht Hti].
  { unfold t. destruct (list_find (fun b => b = i) bs) as [[u c]|] eqn:Ef; cbn.
    - apply list_find_Some in Ef as (Hu & -> & _). pose proof (lookup_lt_Some _ _ _ Hu).
      split; [lia|]. split; [lia|]. intros Hn. destruct Hn. by eapply list_elem_of_lookup_2.
    - split; [done|]. split; [|done]. intros _ Hin. apply list_find_None in Ef. rewrite Forall_forall in Ef. by apply (Ef i). }
  unfold set_block. wstep. eapply wp_getlog; [exact eq_refl|].
  change (lg_block (log (files (set_files (update lg_lockL lk (files k)) _)))) with (lg_block (log (files k))).
  rewrite (proj2 (Z.ltb_ge _ _)), (proj2 (Z.leb_gt _ _)) by (rewrite ?(la_len _ _ _ _ L); lia). cbn [orb].
  unfold setlog, setb. wstep. rewrite Nat2Z.id. cbn [files set_files].
  set (dirty := fun x => set_b_flags (Z.lor (b_flags x) B_DIRTY) x).
  set (s1 := set_buf dirty b (set_log (log_added i bs (log (files k))) (files k))).
  wstep. eapply (wp_mono _ _ (fun _ k2 => k2 = set_files (update lg_lockL lk (set_log (log_added i bs (log (files k))) (files k)))
    (update hartL h1 k))).
  { unfold log_added. fold t. apply wp_when; intros E; b2p.
    - wstep. rewrite decide_False by (apply Hti; lia). done.
    - rewrite decide_True; [done|]. apply dec_stable. intros Hn%Hti. lia. }
  intros [] k2 ->. wsteps.
  eapply (wp_leave lg_lockL _ _ s1 lk); [exact Hl|apply _| |done|].
  { cbn. unfold log_added. case_decide; apply L. }
  intros h Hs. assert (storage_only (files k) s1) as Hst.
  { unfold storage_only, s1, log_added. destruct (files k) as [? [] ? ? ? ? ? ?]. by case_decide. }
  assert (bio n s1 (pin i V)) as B1.
  { unfold s1. by apply bio_pin; [apply (bio_same n (files k))|]. }
  split_and!; [exact (set_files_calm k h _ Hs)|done|done|].
  assert (length bs < 30)%nat as H30 by lia. pose proof (length_add_block i bs).
  destruct I as [_ I1 I2 I3 I4 I5 I6 I7 I8 I9]. split; try done.
  - by apply (log_added_at (files k) S0 m bs i s1 L H30).
  - unfold s1, log_added. by case_decide.
  - unfold s1, log_added. by case_decide.
  - lia.
  - by apply add_block_nodup.
  - unfold add_block. case_decide; [done|]. apply Forall_app. split; [done|]. apply Forall_singleton. split; [done|].
    change (i < length (vdisk V))%nat. rewrite <- (bio_size _ _ _ B). by eapply lookup_lt_Some.
  - rewrite add_block_set. cbn. by rewrite I9.
Qed.

Definition outstanding (o : Z) (s : fstate) : fstate := set_log (set_lg_outstanding o (log s)) s.

Lemma idle_begin s S0 m V : idle s S0 m V -> intx (outstanding 1 s) S0 m [] V.
Proof. intros [[] ? ? ? ? ? ? ? ?]. split; first [done | by split | apply NoDup_nil_2 | cbn; lia]. Qed.

(** An operation begins at once when the log has room for it. *)
Lemma begin_op_spec p n k :
  quiet p n k -> lg_lock (log (files k)) = free -> lg_committing (log (files k)) = false ->
  lg_n (log (files k)) + (lg_outstanding (log (files k)) + 1) * 10 <= 30 ->
  wp begin_op k (fun _ k' => calm k k' /\
    files k' = outstanding (lg_outstanding (log (files k)) + 1) (files k)).
Proof.
  intros Hq Hf Hc Hr. unfold begin_op. wstep.
  eapply (wp_enter lg_lockL); [by eapply quiet_cpu|apply _|done|]. intros h1 lk Hl.
  set (s1 := outstanding (lg_outstanding (log (files k)) + 1) (files k)).
  destruct naps; cbn [begin_op_loop]; (wstep; eapply wp_getlog; [done|]); cbv beta delta [id]; cbn;
    rewrite Hc; unfold LOGSIZE, MAXOPBLOCKS; rewrite (proj2 (Z.ltb_ge _ _)) by lia; cbn [orb];
    unfold setlog; wsteps;
    (eapply (wp_leave lg_lockL _ _ s1 lk); [exact Hl|apply _|done|done|]);
    (intros h Hs; split; [exact (set_files_calm k h _ Hs)|done]).
Qed.

(** The last operation of a transaction commits it. *)
Lemma end_op_spec p n k V S0 m bs :
  quiet p n k -> bio n (files k) V -> intx (files k) S0 m bs V -> lg_outstanding (log (files k)) = 1 ->
  vheld V = ∅ ->
  wp end_op k (fun _ k' => calm k k' /\ storage_only (outstanding 0 (files k)) (files k') /\
    log_at (files k') S0 m [] /\
    exists V', bio n (files k') V' /\ vdirty V' = ∅ /\ vheld V' = ∅ /\ logged S0 (vdisk V') = [] /\
      length (vdisk V') = length (vdisk V) /\
      (forall i, ~ in_log S0 m i -> vdisk V' !! i = vcur V !! i /\ vcur V' !! i = vcur V !! i) /\
      trail (crash_ok S0 m V) V V').
Proof.
  intros Hq B I Ho Hu. assert (L := ix_log _ _ _ _ _ I). unfold end_op. wstep.
  eapply (wp_enter lg_lockL); [by eapply quiet_cpu|apply _|apply L|]. intros h1 lk Hl.
  unfold setlog. wsteps. eapply wp_getlog; [exact (ix_idle _ _ _ _ _ I)|]. cbv iota. wstep. eapply (wp_getlog _ _ 0); [cbn; by rewrite Ho|].
  cbn [Z.eqb]. wsteps.
  set (s1 := set_log (set_lg_committing true (set_lg_outstanding 0 (log (files k)))) (files k)).
  eapply (wp_leave lg_lockL _ _ s1 lk); [exact Hl|apply _|apply L|cbn; by rewrite Ho|]. intros h Hs.
  set (k1 := set_files s1 _). assert (calm k k1) as C1 by exact (set_files_calm k h _ Hs).
  cbn [when]. wstep.
  eapply wp_mono; [apply (commit_spec p n k1 V S0 m bs)|].
  - by eapply quiet_calm.
  - by apply (bio_same n (files k)).
  - destruct L. by split.
  - by eapply intx_txn.
  - apply I.
  - intros [] k2 (C2 & O2 & L2 & V' & B2 & HV). wstep.
    assert (quiet p n k2) as Hq2 by (eapply quiet_calm; [exact Hq|by etrans]).
    eapply (wp_enter lg_lockL); [by eapply quiet_cpu|apply _|apply L2|]. intros h2 lk2 Hl2. wsteps.
    eapply wakeup_nested; [exact Hl2|apply Hq2|].
    set (s2 := set_log (set_lg_committing false (log (files k2))) (files k2)).
    eapply (wp_leave lg_lockL _ _ s2 lk2); [exact Hl2|apply _|apply L2|done|]. intros h3 Hs3. split_and!.
    + etrans; [exact C1|]. etrans; [exact C2|]. exact (wake_calm k2 h3 log_chan _ Hs3 (quiet_pt _ _ _ Hq2)).
    + change (files (set_files s2 _)) with s2. pose proof (ix_idle _ _ _ _ _ I) as Hi.
      unfold s2, storage_only in *. rewrite O2. change (files k1) with s1. unfold s1, outstanding.
      destruct (files k) as [? [] ? ? ? ? ? ?]. cbn in Hi |- *. by subst.
    + destruct L2. by split.
    + exists V'. split; [|exact HV]. by apply (bio_same n (files k2)).
Qed.
End LogOps.
