(* ===== verification/FileDemo.v ===== *)
(** * A small disk

    A disk of ten blocks whose log is at block 2, with room for two blocks, and
    a kernel on which one process runs and [binit] has been called.  The
    instances of the theorems of the file layer are evaluated on it. *)

From S2P Require Import Prelude Memory Mmu Machine Spinlock Kalloc Vm PageTable VmProofs VmSpaces.
From S2P Require Import Encrypt ProcTable Clock ClockProofs Demo Proc ProcProofs.
From S2P Require Import FileState Sleeplock Bio BioProofs BioInit Log LogProofs.

(** The state after a computation that returns. *)
Definition after {S A} (m : M S A) (s : S) : S := match m s with Ok _ s' => s' | _ => s end.

Lemma after_wp {S A} (m : M S A) (s : S) (Q : A -> S -> Prop) : wp m s Q -> exists a, Q a (after m s).
Proof. unfold wp, after. destruct (m s); [by eexists|done..]. Qed.

Module FileDemo.

(** Nothing else runs, and nobody has to sleep. *)
#[export] Instance alone : SwitchEnv fstate := {| others := mret tt; naps := 0 |}.

Definition zeros : list Z := replicate 512 0.
Definition ones : list Z := replicate 512 1.
Definition cache0 : bcache_t := Bcache free (replicate 31 (Buf 0 0 0 sleeplock0 0 0 0 zeros)).
Definition log0 : log_t := Log free 2 3 0 false 1 0 (replicate 30 0).
Definition icache0 : icache_t := Icache free (replicate 50 inode0).
Definition file0 : file := File FD_NONE 0 false false 0 None 0.
Definition ftable0 : ftable_t := Ftable free (replicate 100 file0).
Definition console0 : console_t := Console free true false (replicate 128 0) 0 0 0 0 (replicate 2000 0) true [] 0.
Definition sb0 : superblock := Superblock 10 1 8 3 2 5 6.

Definition files0 (disk : list (list Z)) : fstate :=
  FState cache0 log0 sb0 icache0 ftable0 ∅ console0 (Disk disk []).
Definition kernel (disk : list (list Z)) : kstate fstate :=
  KState (Demo.state0 Demo.present1 0) free [Demo.proc0] 2 (Some 0%nat) 0 free (files0 disk).
Definition ready (disk : list (list Z)) : kstate fstate := after binit (kernel disk).

(** A disk with an empty log, and one with a committed block of ones for block 7. *)
Definition empty_disk : list (list Z) := replicate 10 zeros.
Definition head7 : list Z := put32 4 7 (put32 0 1 zeros).
Definition committed_disk : list (list Z) := <[2%nat := head7]> (<[3%nat := ones]> empty_disk).

Definition view0 (disk : list (list Z)) : bview := BView disk [] disk ∅ ∅.

Lemma kernel_quiet disk : quiet 0 1 (kernel disk).
Proof.
  split; [|done|done]. exists 0%nat, Demo.cpu0. by split_and!.
Qed.

Lemma kernel_bss disk : Forall block_ok disk -> bss (files (kernel disk)).
Proof.
  intros Hd. split; [done| |done]. intros b Hb. exists 0%nat, 0%nat, zeros, sleeplock0. split; [done|].
  unfold buf_at. change (bc_buf _) with (replicate 31 (Buf 0 0 0 sleeplock0 0 0 0 zeros)).
  unfold HEAD in Hb. by rewrite lookup_replicate_2 by lia.
Qed.

Lemma ready_spec disk : Forall block_ok disk ->
  quiet 0 1 (ready disk) /\ bio 1 (files (ready disk)) (view0 disk) /\ log (files (ready disk)) = log0.
Proof.
  intros Hd. unfold ready. generalize (after_wp _ _ _ (binit_spec 1 (kernel disk) (kernel_bss _ Hd))).
  generalize (after binit (kernel disk)). intros k ([] & E & O & B). split_and!; [|exact B|by rewrite O].
  rewrite E. destruct (kernel_quiet disk) as [Q1 Q2 Q3]. split; [exact Q1|exact Q2|exact Q3].
Qed.

Lemma empty_ok : Forall block_ok empty_disk.
Proof. by apply Forall_replicate. Qed.

Lemma committed_ok : Forall block_ok committed_disk.
Proof. repeat apply Forall_insert; try done. apply empty_ok. Qed.
End FileDemo.
