(* ===== verification/BioTheorems.v ===== *)
(** * Theorems about the buffer cache *)

From S2P Require Import Prelude Memory Mmu Machine Spinlock Kalloc Vm PageTable VmProofs VmSpaces.
From S2P Require Import Encrypt ProcTable Clock ClockProofs Demo Proc ProcProofs.
From S2P Require Import FileState Sleeplock Bio BioProofs BioInit Log LogProofs FileDemo.

Section Cache.
Context `{DL : DiskLaws}.
Implicit Types k : kstate fstate.

(** Read a block and give its buffer up. *)
Definition read_block (i : nat) : FK (list Z) :=
  b ← bread 1 (Z.of_nat i);
  d ← getb b b_data;
  brelse b;;
  mret d.

(** C16: The cache is transparent: reading a block and releasing its buffer
    returns the current contents of the block, whether it was cached or had to
    be read from the disk, changes neither the disk nor the contents of any
    block, and makes the buffer the most recently used one. *)
Theorem read_block_current p n k V i :
  quiet p n k -> bio n (files k) V -> (i < length (vdisk V))%nat -> vheld V !! i = None ->
  i ∈ vdirty V \/ (size (vdirty V ∪ dom (vheld V)) < 30)%nat ->
  wp (read_block i) k (fun d k' => vcur V !! i = Some d /\ bio n (files k') V /\ quiet p n k' /\
    cache_only (files k) (files k') /\
    exists b l, mru (files k') (b :: l) /\ b_dev (buf_at (files k') b) = 1 /\
      b_blockno (buf_at (files k') b) = Z.of_nat i).
Proof.
  intros Hq B Hi Hh Hs. unfold read_block. wstep.
  eapply wp_mono; [by apply (bread_spec p n k V i)|]. intros b k1 (Hb & C1 & O1 & B1).
  assert (vheld (hold i b V) !! i = Some b) as Hh1 by apply lookup_insert_eq.
  unfold getb. wsteps.
  assert (Hq1 := quiet_calm _ _ _ _ Hq C1).
  eapply wp_mono; [apply wp_both; [eapply (brelse_run p n k1 (hold i b V) i b); done|
    eapply (brelse_spec p n k1 (hold i b V) i b); try done]|].
  { destruct (decide (i ∈ vdirty V)) as [|Hd]; [by left|]. right. cbn. by apply (bio_clean _ _ _ B). }
  intros [] k2 [[C2 E2] (_ & O2 & B2)]. wstep.
  destruct (bio_mru _ _ _ B1) as [l Hl]. assert (b ∈ l) as Hin by (by apply Hl).
  apply list_elem_of_split in Hin as (l1 & l2 & ->).
  destruct (bio_held _ _ _ _ _ B1 Hh1) as [_ (D1 & D2 & _)].
  assert (b < length (bc_buf (bcache (files k1))))%nat by (rewrite (bio_len _ _ _ B1); unfold HEAD in Hb; lia).
  split_and!; [by eapply (bio_data _ _ (hold i b V))| |by eapply quiet_calm|by etrans|].
  { by rewrite unhold_hold in B2. }
  exists b, (l1 ++ l2). split.
  { rewrite E2. apply mru_front; [by rewrite length_set_buf, (bio_len _ _ _ B1)|]. by apply mru_set. }
  rewrite E2. destruct (links_only_front b (set_buf given_up b (files k1))) as (_ & _ & Hlo).
  destruct (Hlo b) as (x & y & ->). by rewrite buf_at_set, decide_True by done.
Qed.
End Cache.

Section Init.
Context `{SE : SwitchEnv fstate}.

(** [binit] makes a cache of the zeroed buffers: all of them are linked
    into the list, and every block of the disk reads as it is on the disk. *)
Theorem binit_cache n (k : kstate fstate) :
  bss (files k) ->
  wp binit k (fun _ k' => bio n (files k') (disk_view (files k)) /\ cache_only (files k) (files k') /\
    mach k' = mach k /\ procs k' = procs k).
Proof.
  intros Hb. eapply wp_mono; [by apply (binit_spec n)|]. intros [] k' (-> & O & B). by split_and!.
Qed.
End Init.

(** ** Instances *)

#[local] Existing Instance FileDemo.alone.

Lemma read_block_current_witness :
  wp (read_block 3) (FileDemo.ready FileDemo.committed_disk) (fun d k' =>
    FileDemo.committed_disk !! 3%nat = Some d /\ bio 1 (files k') (FileDemo.view0 FileDemo.committed_disk) /\
    quiet 0 1 k' /\ cache_only (files (FileDemo.ready FileDemo.committed_disk)) (files k') /\
    exists b l, mru (files k') (b :: l) /\ b_dev (buf_at (files k') b) = 1 /\
      b_blockno (buf_at (files k') b) = Z.of_nat 3).
Proof.
  destruct (FileDemo.ready_spec _ FileDemo.committed_ok) as (Hq & B & _).
  eapply (read_block_current 0 1 _ _ 3 Hq B); [decided|done|]. right. decided.
Defined.

Lemma binit_cache_witness :
  wp binit (FileDemo.kernel FileDemo.empty_disk) (fun _ k' =>
    bio 1 (files k') (FileDemo.view0 FileDemo.empty_disk) /\
    cache_only (FileDemo.files0 FileDemo.empty_disk) (files k') /\
    mach k' = Demo.state0 Demo.present1 0 /\ procs k' = [Demo.proc0]).
Proof. apply (binit_cache 1), FileDemo.kernel_bss, FileDemo.empty_ok. Defined.
