(* ===== verification/LogTheorems.v ===== *)
(** * Theorems about the log: transactions are atomic, and recovery completes them *)

From S2P Require Import Prelude Memory Mmu Machine Spinlock Kalloc Vm PageTable VmProofs VmSpaces.
From S2P Require Import Encrypt ProcTable Clock ClockProofs Demo Proc ProcProofs.
From S2P Require Import FileState Sleeplock Bio BioProofs BioInit Log LogProofs LogCommit LogOps FileDemo.

(** Assignments to whole blocks, in order. *)
Definition assign (ws : list (nat * list Z)) (d : list (list Z)) : list (list Z) :=
  foldl (fun d w => <[w.1 := w.2]> d) d ws.

Section Theorems.
Context `{DL : DiskLaws}.
Implicit Types k : kstate fstate.

(** The pattern of the operations of fs.c on blocks. *)
Fixpoint write_blocks (ws : list (nat * list Z)) : FK unit :=
  match ws with
  | [] => mret tt
  | (i, d) :: ws =>
      b ← bread 1 (Z.of_nat i);
      setb b (set_b_data d);;
      log_write b;;
      brelse b;;
      write_blocks ws
  end.

Definition transaction (ws : list (nat * list Z)) : FK unit :=
  begin_op;;
  write_blocks ws;;
  end_op.

Lemma write_blocks_spec p n S0 m ws : forall k V bs,
  quiet p n k -> bio n (files k) V -> intx (files k) S0 m bs V -> vheld V = ∅ ->
  lg_outstanding (log (files k)) = 1 -> (length bs + length ws <= m)%nat ->
  Forall (fun w => ~ in_log S0 m w.1 /\ (w.1 < length (vdisk V))%nat /\ block_ok w.2) ws ->
  wp (write_blocks ws) k (fun _ k' => calm k k' /\ exists V' bs', bio n (files k') V' /\
    intx (files k') S0 m bs' V' /\ lg_outstanding (log (files k')) = 1 /\ vheld V' = ∅ /\
    vcur V' = assign ws (vcur V) /\ vdisk V' = vdisk V /\ vpast V' = vpast V).
Proof.
  induction ws as [|[i d] ws IH]; intros k V bs Hq B I Hu Ho Hl Hw; cbn [write_blocks].
  { wstep. split; [done|]. by exists V, bs. }
  apply Forall_cons in Hw as [(Hw1 & Hw2 & Hw3) Hw]. cbn in Hl, Hw1, Hw2, Hw3.
  pose proof (intx_size _ _ _ _ _ I). pose proof (ix_max _ _ _ _ _ I). wstep.
  eapply wp_mono; [apply (bread_spec p n k V i); [done|done|done|by rewrite Hu|]|].
  { right. rewrite Hu, dom_empty_L, union_empty_r_L. lia. }
  intros b k1 (Hb & C1 & O1 & B1). assert (vheld (hold i b V) !! i = Some b) as Hh1 by apply lookup_insert_eq.
  unfold setb at 1. wsteps. set (k2 := set_files _ k1).
  assert (calm k k2) as C2 by (by apply calm_set_files).
  set (V2 := put_cur i d (hold i b V)). assert (bio n (files k2) V2) as B2 by (by apply bio_put).
  assert (log (files k2) = log (files k)) as El by (unfold k2; cbn; by rewrite O1).
  eapply wp_mono; [apply (log_write_spec p n k2 V2 S0 m bs i b)|].
  { by eapply quiet_calm. } { done. } { by eapply intx_view; [exact El| | |exact I]. } { exact Hh1. } { done. } { lia. }
  intros [] k3 (C3 & O3 & B3 & I3).
  assert (calm k k3) as C13 by (by etrans). wstep.
  eapply wp_mono; [apply (brelse_spec p n k3 (pin i V2) i b)|].
  { by eapply quiet_calm. } { done. } { exact Hh1. } { left. cbn. apply elem_of_union_r, elem_of_singleton. done. }
  intros [] k4 (C4 & O4 & B4). set (V4 := unhold i (pin i V2)) in *.
  assert (log (files k4) = log (files k3)) as El4 by (by rewrite O4).
  eapply wp_mono; [apply (IH k4 V4 (add_block i bs))|].
  - eapply quiet_calm; [exact Hq|by etrans].
  - done.
  - by eapply intx_view; [exact El4| | |exact I3].
  - cbn. rewrite Hu. by rewrite delete_insert_id.
  - rewrite El4, O3. cbn. by rewrite O1.
  - pose proof (length_add_block i bs). lia.
  - done.
  - intros [] k5 (C5 & V5 & bs5 & H5). split; [|by exists V5, bs5].
    etrans; [exact C13|]. by etrans.
Qed.

(** C7: A transaction is atomic and durable.  The blocks written between
    [begin_op] and [end_op] are on the disk afterwards, in order, the other
    blocks outside the log are as before, and the log is empty again.  At every
    moment on the way, replaying the log of the disk, as recovery does after a
    crash, gives either all the old blocks or all the new ones. *)
Theorem transaction_atomic p n k V S0 m ws :
  quiet p n k -> bio n (files k) V -> idle (files k) S0 m V -> (length ws <= m)%nat ->
  Forall (fun w => ~ in_log S0 m w.1 /\ (w.1 < length (vdisk V))%nat /\ block_ok w.2) ws ->
  wp (transaction ws) k (fun _ k' => quiet p n k' /\ exists V', bio n (files k') V' /\ idle (files k') S0 m V' /\
    (forall i, ~ in_log S0 m i -> vdisk V' !! i = assign ws (vdisk V) !! i) /\
    exists past, vpast V' = past ++ vpast V /\
      Forall (fun d => (forall i, ~ in_log S0 m i -> replay S0 d !! i = vdisk V !! i) \/
                       (forall i, ~ in_log S0 m i -> replay S0 d !! i = assign ws (vdisk V) !! i)) past).
Proof.
  intros Hq B [I1 I2 I3 I4 I5 I6 I7 I8 I9] Hl Hw. unfold transaction. wstep.
  assert (vcur V = vdisk V) as Ec.
  { apply list_eq. intros i. apply (bio_clean _ _ _ B); [rewrite I7; apply not_elem_of_empty|by rewrite I8]. }
  eapply wp_mono; [apply (begin_op_spec p n k Hq); [apply I1|done|rewrite (la_n _ _ _ _ I1), I2; cbn; lia]|].
  intros [] k1 [C1 F1]. rewrite I2 in F1. wstep.
  eapply wp_mono; [apply (write_blocks_spec p n S0 m ws k1 V [])|].
  - by eapply quiet_calm.
  - rewrite F1. by apply (bio_same n (files k)).
  - rewrite F1. destruct I1. split; try done; [cbn; lia|apply NoDup_nil_2].
  - done.
  - by rewrite F1.
  - done.
  - done.
  - intros [] k2 (C2 & V2 & bs2 & B2 & J2 & O2 & H2 & Ecur & Edisk & Epast).
    assert (calm k k2) as C02 by (by etrans).
    eapply wp_mono; [apply (end_op_spec p n k2 V2 S0 m bs2); try done; by eapply quiet_calm|].
    intros [] k3 (C3 & O3 & L3 & V3 & B3 & D3 & H3 & E3 & Len3 & Hd3 & past & P3 & F3). split.
    { eapply quiet_calm; [exact Hq|by etrans]. }
    rewrite Ecur, Ec in Hd3. exists V3. split_and!; [done| |intros i Hi; by apply Hd3|].
    + split; try done; [by rewrite O3|rewrite O3; apply J2|rewrite Len3; apply J2..].
    + exists past. rewrite P3, Epast. split; [done|]. unfold crash_ok in F3. by rewrite Ecur, Ec, Edisk in F3.
Qed.

(** C8: Recovery replays the log: it leaves, outside the log, the blocks that
    the log on the disk stands for, and an empty log.  It can be interrupted:
    every disk it goes through replays to the same blocks. *)
Theorem recovery_replays p n k V S0 m h :
  quiet p n k -> bio n (files k) V -> log_pre (files k) S0 m -> vdirty V = ∅ ->
  vdisk V !! S0 = Some h -> header_ok h (logged S0 (vdisk V)) -> log_geom S0 m (logged S0 (vdisk V)) V ->
  wp recover_from_log k (fun _ k' => exists V', bio n (files k') V' /\ log_at (files k') S0 m [] /\
    logged S0 (vdisk V') = [] /\
    (forall i, ~ in_log S0 m i -> vdisk V' !! i = replay S0 (vdisk V) !! i) /\
    exists past, vpast V' = past ++ vpast V /\
      Forall (fun d => forall i, ~ in_log S0 m i -> replay S0 d !! i = replay S0 (vdisk V) !! i) past).
Proof.
  intros Hq B L Hd Hh Hok G. pose proof (lg_unheld _ _ _ _ G) as Hu. unfold recover_from_log. wstep.
  eapply wp_mono; [apply (read_head_spec p n k V S0 m h (logged S0 (vdisk V))); try done|].
  { pose proof (lg_small _ _ _ _ G). lia. }
  intros [] k1 (C1 & O1 & L1 & B1).
  assert (forall i, in_log S0 m i -> i ∉ vdirty V) as Hlog by (intros; rewrite Hd; apply not_elem_of_empty).
  eapply wp_mono; [apply (finish_spec p n k1 V S0 m (logged S0 (vdisk V))); try done|].
  { by eapply quiet_calm. } { by right. } { rewrite Hd, size_empty. lia. }
  intros [] k2 (C2 & O2 & L2 & B2).
  destruct (finished_spec S0 m (logged S0 (vdisk V)) V h) as (F1 & F2 & F3 & F4 & F5); try done.
  { apply (bio_size _ _ _ B). } { by apply (bio_log_clean _ _ _ _ _ B Hu). }
  { destruct (bio_blocks _ _ _ B) as [Fb _]. exact (Forall_lookup_1 _ _ _ _ Fb Hh). }
  eexists. split; [exact B2|]. split_and!; done.
Qed.
End Theorems.

(** ** Instances *)

#[local] Existing Instance FileDemo.alone.

Lemma empty_disk_idle : idle (files (FileDemo.ready FileDemo.empty_disk)) 2 2 (FileDemo.view0 FileDemo.empty_disk).
Proof.
  destruct (FileDemo.ready_spec _ FileDemo.empty_ok) as (_ & _ & E). revert E.
  generalize (files (FileDemo.ready FileDemo.empty_disk)). intros s E. split; rewrite ?E.
  - split; rewrite E; try done.
  - done.
  - done.
  - decided.
  - decided.
  - decided.
  - done.
  - done.
  - by vm_compute.
Qed.

Lemma transaction_atomic_witness :
  wp (transaction [(7%nat, FileDemo.ones)]) (FileDemo.ready FileDemo.empty_disk) (fun _ k' =>
    quiet 0 1 k' /\ exists V', bio 1 (files k') V' /\ idle (files k') 2 2 V' /\
    (forall i, ~ in_log 2 2 i -> vdisk V' !! i = assign [(7%nat, FileDemo.ones)] FileDemo.empty_disk !! i) /\
    exists past, vpast V' = past ++ [] /\
      Forall (fun d => (forall i, ~ in_log 2 2 i -> replay 2 d !! i = FileDemo.empty_disk !! i) \/
        (forall i, ~ in_log 2 2 i -> replay 2 d !! i = assign [(7%nat, FileDemo.ones)] FileDemo.empty_disk !! i)) past).
Proof.
  destruct (FileDemo.ready_spec _ FileDemo.empty_ok) as (Hq & B & _).
  apply (transaction_atomic 0 1 _ (FileDemo.view0 FileDemo.empty_disk) 2 2); [exact Hq|exact B|exact empty_disk_idle|decided|].
  apply Forall_singleton. unfold in_log. cbn [fst snd]. split; [lia|]. split; [decided|done].
Defined.

Lemma committed_logged : logged 2 FileDemo.committed_disk = [7%nat].
Proof. by vm_compute. Qed.

Lemma recovery_replays_witness :
  wp recover_from_log (FileDemo.ready FileDemo.committed_disk) (fun _ k' => exists V', bio 1 (files k') V' /\
    log_at (files k') 2 2 [] /\ logged 2 (vdisk V') = [] /\
    (forall i, ~ in_log 2 2 i -> vdisk V' !! i = replay 2 FileDemo.committed_disk !! i) /\
    exists past, vpast V' = past ++ [] /\
      Forall (fun d => forall i, ~ in_log 2 2 i -> replay 2 d !! i = replay 2 FileDemo.committed_disk !! i) past).
Proof.
  destruct (FileDemo.ready_spec _ FileDemo.committed_ok) as (Hq & B & E).
  apply (recovery_replays 0 1 _ (FileDemo.view0 FileDemo.committed_disk) 2 2 FileDemo.head7).
  - exact Hq.
  - exact B.
  - split; rewrite E; reflexivity.
  - reflexivity.
  - by vm_compute.
  - change (vdisk _) with FileDemo.committed_disk. rewrite committed_logged. split; [by vm_compute|].
    intros [|t] b Ht; [|done]. injection Ht as <-. by vm_compute.
  - change (vdisk _) with FileDemo.committed_disk. rewrite committed_logged. split.
    + decided.
    + decided.
    + decided.
    + apply NoDup_singleton.
    + apply Forall_singleton. unfold in_log. split; [lia|]. decided.
    + done.
    + by vm_compute.
Defined.
