(* ===== verification/Ulib.v ===== *)
(** * The user library: ulib.c and printf.c

    The string functions of user programs on a byte memory, and formatted
    output.  A scan for the end of a string carries fuel, and is [None] when
    the fuel ends before the string does.  [printint] is [None] when it leaves
    its buffer.  The functions print by [write] of single bytes: their result
    is the sequence of bytes written to the descriptor.  Standard input is the
    list of bytes that [read] will deliver one at a time. *)

From S2P Require Import Prelude Memory.

(** ** Strings (ulib.c) *)

Fixpoint strcpy (m : memory) (s t : Z) (fuel : nat) : option memory :=
  match fuel with
  | O => None
  | S fuel =>
      let m' := store8 m s (load8 m t) in
      if load8 m t =? 0 then Some m' else strcpy m' (s + 1) (t + 1) fuel
  end.

Fixpoint strcmp (m : memory) (p q : Z) (fuel : nat) : option Z :=
  match fuel with
  | O => None
  | S fuel =>
      if negb (load8 m p =? 0) && (load8 m p =? load8 m q) then strcmp m (p + 1) (q + 1) fuel
      else Some (load8 m p - load8 m q)
  end.

Definition umemset (m : memory) (dst c n : Z) : memory := stosb m dst c (Z.to_nat n).

(** The address of the first [c] of the string, or 0. *)
Fixpoint strchr (m : memory) (s c : Z) (fuel : nat) : option Z :=
  match fuel with
  | O => None
  | S fuel =>
      if load8 m s =? 0 then Some 0
      else if load8 m s =? c then Some s
      else strchr m (s + 1) c fuel
  end.

(** The loop of [gets], [n] being [max - 1 - i]; the result is the memory, the
    index [i] after the loop and what is left of the input. *)
Fixpoint gets_loop (m : memory) (buf i : Z) (inp : list Z) (n : nat) : memory * Z * list Z :=
  match n, inp with
  | S n, c :: inp =>
      let m := store8 m (buf + i) c in
      if (c =? 10) || (c =? 13) then (m, i + 1, inp) else gets_loop m buf (i + 1) inp n
  | _, _ => (m, i, inp)
  end.

Definition ugets (m : memory) (buf max : Z) (inp : list Z) : memory * list Z :=
  let '(m, i, inp) := gets_loop m buf 0 inp (Z.to_nat (max - 1)) in
  (store8 m (buf + i) 0, inp).

Definition is_digit (c : Z) : bool := (48 <=? c) && (c <=? 57).

(** [int] arithmetic wraps around. *)
Fixpoint atoi_loop (m : memory) (s n : Z) (fuel : nat) : option Z :=
  match fuel with
  | O => None
  | S fuel =>
      if is_digit (load8 m s) then atoi_loop m (s + 1) (i32 (n * 10 + load8 m s - 48)) fuel
      else Some n
  end.

Definition atoi (m : memory) (s : Z) (fuel : nat) : option Z := atoi_loop m s 0 fuel.

(** The loop of [memmove] of ulib.c: upwards, whatever the overlap. *)
Fixpoint umemmove_loop (m : memory) (dst src : Z) (n : nat) : memory :=
  match n with
  | O => m
  | S n => umemmove_loop (store8 m dst (load8 m src)) (dst + 1) (src + 1) n
  end.

Definition umemmove (m : memory) (vdst vsrc n : Z) : memory :=
  umemmove_loop m vdst vsrc (Z.to_nat n).

(** [stat], over the system calls it makes. *)
Section Stat.
Context {S : Type} (open : Z -> Z -> M S Z) (fstat : Z -> Z -> M S Z) (close : Z -> M S Z).

Definition stat (n st : Z) : M S Z :=
  fd ← open n 0;
  if fd <? 0 then mret (-1) else
  r ← fstat fd st;
  _ ← close fd;
  mret r.
End Stat.

(** ** Formatted output (printf.c) *)

(** ["0123456789ABCDEF"] *)
Definition digits : list Z := [48; 49; 50; 51; 52; 53; 54; 55; 56; 57; 65; 66; 67; 68; 69; 70].

(** [buf[i++] = c] on an array of 16 bytes, of which [buf] holds the [i]
    elements written so far, the last one first. *)
Definition push (c : Z) (buf : list Z) : option (list Z) :=
  if decide (length buf < 16)%nat then Some (c :: buf) else None.

(** The loop that produces the digits of [x], the least significant first. *)
Fixpoint digits_loop (ds : list Z) (base x : Z) (buf : list Z) (fuel : nat) : option (list Z) :=
  match fuel with
  | O => None
  | S fuel =>
      d ← ds !! Z.to_nat (x mod base);
      buf ← push d buf;
      if x / base =? 0 then Some buf else digits_loop ds base (x / base) buf fuel
  end.

(** The bytes that [printint(fd, xx, base, sgn)] writes, for the digits [ds];
    32 steps are enough for any base of at least 2. *)
Definition printint (ds : list Z) (xx base : Z) (sgn : bool) : option (list Z) :=
  let neg := sgn && (xx <? 0) in
  let x := if neg then u32 (- xx) else u32 xx in
  buf ← digits_loop ds base x [] 32;
  if neg then push 45 buf else Some buf.

(** The string at [s]. *)
Fixpoint puts (m : memory) (s : Z) (fuel : nat) : option (list Z) :=
  match fuel with
  | O => None
  | S fuel => if load8 m s =? 0 then Some [] else cons (load8 m s) <$> puts m (s + 1) fuel
  end.

(** ["(null)"] *)
Definition null_string : list Z := [40; 110; 117; 108; 108; 41].

Definition printf_string (m : memory) (s : Z) (fuel : nat) : option (list Z) :=
  if s =? 0 then Some null_string else puts m s fuel.

(** The loop of [printf] from the format character at [f]; [ap] points to the
    next argument, [pct] says that [state] is ['%']. *)
Fixpoint printf_loop (m : memory) (f ap : Z) (pct : bool) (fuel : nat) : option (list Z) :=
  match fuel with
  | O => None
  | S fuel =>
      let c := load8 m f in
      if c =? 0 then Some [] else
      if negb pct then
        if c =? 37 then printf_loop m (f + 1) ap true fuel
        else cons c <$> printf_loop m (f + 1) ap false fuel
      else if c =? 100 then
        s ← printint digits (i32 (load32 m ap)) 10 true;
        app s <$> printf_loop m (f + 1) (ap + 4) false fuel
      else if (c =? 120) || (c =? 112) then
        s ← printint digits (i32 (load32 m ap)) 16 false;
        app s <$> printf_loop m (f + 1) (ap + 4) false fuel
      else if c =? 115 then
        s ← printf_string m (load32 m ap) fuel;
        app s <$> printf_loop m (f + 1) (ap + 4) false fuel
      else if c =? 99 then
        cons (load8 m ap) <$> printf_loop m (f + 1) (ap + 4) false fuel
      else if c =? 37 then cons c <$> printf_loop m (f + 1) ap false fuel
      else app [37; c] <$> printf_loop m (f + 1) ap false fuel
  end.

(** [printf(fd, fmt, ...)], the first variable argument being at [ap]. *)
Definition printf (m : memory) (fmt ap : Z) (fuel : nat) : option (list Z) :=
  printf_loop m fmt ap false fuel.

(** ** Numbers *)

(** The number that a sequence of digit values stands for. *)
Definition value (base : Z) (vs : list Z) : Z := foldl (fun n v => n * base + v) 0 vs.

Lemma value_snoc base vs v : value base (vs ++ [v]) = value base vs * base + v.
Proof. unfold value. by rewrite foldl_app. Qed.

(** A number below [base ^ k] gets at most [k] digits, and they stand for it. *)
Lemma digits_loop_spec ds base k x buf fuel :
  length ds = 16%nat -> 2 <= base <= 16 -> (1 <= k <= fuel)%nat -> 0 <= x < base ^ Z.of_nat k ->
  (length buf + k <= 16)%nat ->
  exists vs, digits_loop ds base x buf fuel = Some (((fun v => ds !!! Z.to_nat v) <$> vs) ++ buf) /\
    Forall (fun v => 0 <= v < base) vs /\ value base vs = x /\ (1 <= length vs <= k)%nat.
Proof.
  intros Hds Hb. revert x buf fuel. induction k as [|k IH]; intros x buf [|fuel] Hk Hx Hl; try lia.
  cbn [digits_loop]. assert (0 <= x mod base < base) as Hm by (apply Z.mod_pos_bound; lia).
  destruct (lookup_lt_is_Some_2 ds (Z.to_nat (x mod base))) as [d Hd]; [lia|].
  rewrite Hd. cbn. unfold push. rewrite decide_True by lia. cbn.
  assert (ds !!! Z.to_nat (x mod base) = d) as <- by (by apply list_lookup_total_correct).
  pose proof (Z.div_mod x base ltac:(lia)) as Hx'.
  destruct (Z.eqb_spec (x / base) 0) as [E|E].
  - exists [x mod base]. split_and!; [done|by apply Forall_singleton|cbn; rewrite E in Hx'; lia|cbn; lia..].
  - rewrite Nat2Z.inj_succ, Z.pow_succ_r in Hx by lia.
    assert (0 <= x / base < base ^ Z.of_nat k) as Hd'.
    { split; [apply Z.div_pos; lia|]. apply Z.div_lt_upper_bound; lia. }
    assert (k <> 0%nat) by (intros ->; change (base ^ Z.of_nat 0) with 1 in Hd'; lia).
    destruct (IH (x / base) (ds !!! Z.to_nat (x mod base) :: buf) fuel) as (vs & -> & Hv & Hx2 & Hlen);
      [lia|done|cbn; lia|].
    exists (vs ++ [x mod base]). split_and!.
    + by rewrite fmap_app, <- app_assoc.
    + apply Forall_app. split; [done|by apply Forall_singleton].
    + rewrite value_snoc, Hx2. lia.
    + rewrite length_app. cbn. lia.
    + rewrite length_app. cbn. lia.
Qed.

Lemma digits_char v : 0 <= v < 10 -> digits !!! Z.to_nat v = 48 + v.
Proof.
  intros Hv. assert (v = 0 \/ v = 1 \/ v = 2 \/ v = 3 \/ v = 4 \/ v = 5 \/ v = 6 \/ v = 7 \/ v = 8 \/ v = 9)
    as H by lia. repeat (destruct H as [->|H]; [done|]). by subst v.
Qed.

(** [m] holds the bytes [s] at [a]. *)
Definition holds_at (m : memory) (a : Z) (s : list Z) : Prop :=
  forall k c, s !! k = Some c -> load8 m (a + Z.of_nat k) = c.

Lemma holds_at_cons m a c s : holds_at m a (c :: s) <-> load8 m a = c /\ holds_at m (a + 1) s.
Proof.
  unfold holds_at. split.
  - intros H. split; [by rewrite <- (H 0%nat c), Z.add_0_r|]. intros k d Hk.
    rewrite <- (H (S k) d) by done. f_equal. lia.
  - intros [Hc Hs] [|k] d Hk; simplify_eq/=; [by rewrite Z.add_0_r|].
    rewrite <- (Hs k d) by done. f_equal. lia.
Qed.

Lemma value_acc base n vs : foldl (fun n v => n * base + v) n vs = n * base ^ Z.of_nat (length vs) + value base vs.
Proof.
  unfold value. revert n. induction vs as [|v vs IH]; intros n; cbn [foldl length]; [change (base ^ Z.of_nat 0) with 1; lia|].
  rewrite IH, (IH (0 * base + v)), Nat2Z.inj_succ, Z.pow_succ_r by lia. lia.
Qed.

Lemma value_nonneg base vs : 0 <= base -> Forall (fun v => 0 <= v < base) vs -> 0 <= value base vs.
Proof.
  intros Hb. induction vs as [|v vs IH] using rev_ind; [done|]. intros [H1 H2]%Forall_app.
  rewrite value_snoc. pose proof (Z.mul_nonneg_nonneg _ _ (IH H1) Hb).
  apply Forall_cons in H2 as [H2 _]. lia.
Qed.

Lemma atoi_loop_spec m vs : forall a n fuel,
  Forall (fun v => 0 <= v < 10) vs -> 0 <= n -> foldl (fun n v => n * 10 + v) n vs < 2147483648 ->
  holds_at m a ((fun v => 48 + v) <$> vs) -> is_digit (load8 m (a + Z.of_nat (length vs))) = false ->
  (length vs < fuel)%nat -> atoi_loop m a n fuel = Some (foldl (fun n v => n * 10 + v) n vs).
Proof.
  induction vs as [|v vs IH]; intros a n [|fuel] Hv Hn Hlt Hm Hend Hf; try (cbn in Hf; lia); cbn [atoi_loop].
  - replace (a + Z.of_nat (length [])) with a in Hend by (cbn; lia). by rewrite Hend.
  - apply Forall_cons in Hv as [Hv Hvs]. cbn [fmap list_fmap] in Hm. apply holds_at_cons in Hm as [Hc Hm].
    rewrite Hc. replace (is_digit (48 + v)) with true
      by (unfold is_digit; symmetry; apply andb_true_iff; split; apply Z.leb_le; lia).
    cbn [foldl] in Hlt |- *. replace (n * 10 + (48 + v) - 48) with (n * 10 + v) by lia.
    rewrite value_acc in Hlt. pose proof (value_nonneg 10 vs ltac:(lia) Hvs).
    assert (1 <= 10 ^ Z.of_nat (length vs)) by (apply (Z.pow_le_mono_r 10 0); lia).
    rewrite i32_small by (unfold is_i32; nia).
    apply IH; try done; [lia|by rewrite value_acc| |cbn in Hf; lia].
    rewrite <- Hend. do 2 f_equal. cbn [length]. lia.
Qed.

(** The digits that [printint] writes, in bases 10 and 16. *)
Lemma printint_unsigned ds xx base k :
  length ds = 16%nat -> 2 <= base <= 16 -> (1 <= k <= 15)%nat -> 4294967296 <= base ^ Z.of_nat k ->
  exists vs, printint ds xx base false = Some ((fun v => ds !!! Z.to_nat v) <$> vs) /\
    Forall (fun v => 0 <= v < base) vs /\ value base vs = u32 xx /\ (1 <= length vs <= k)%nat.
Proof.
  intros Hds Hb Hk Hp. pose proof (u32_range xx). unfold printint. cbn [andb].
  destruct (digits_loop_spec ds base k (u32 xx) [] 32) as (vs & -> & Hv & Hx & Hl); [done|done|lia|lia|cbn; lia|].
  exists vs. cbn. rewrite app_nil_r. done.
Qed.

Lemma printint_signed ds xx base k :
  length ds = 16%nat -> 2 <= base <= 16 -> (1 <= k <= 15)%nat -> 4294967296 <= base ^ Z.of_nat k ->
  is_i32 xx ->
  exists vs, printint ds xx base true
      = Some ((if xx <? 0 then [45] else []) ++ ((fun v => ds !!! Z.to_nat v) <$> vs)) /\
    Forall (fun v => 0 <= v < base) vs /\ value base vs = Z.abs xx /\ (1 <= length vs <= k)%nat.
Proof.
  intros Hds Hb Hk Hp Hi. unfold is_i32 in Hi. unfold printint. cbn [andb].
  assert ((if xx <? 0 then u32 (- xx) else u32 xx) = Z.abs xx) as ->.
  { destruct (Z.ltb_spec xx 0); rewrite u32_small by (unfold is_u32; lia); lia. }
  destruct (digits_loop_spec ds base k (Z.abs xx) [] 32) as (vs & -> & Hv & Hx & Hl); [done|done|lia|lia|cbn; lia|].
  exists vs. cbn. rewrite app_nil_r. destruct (xx <? 0); [|done].
  unfold push. rewrite length_fmap, decide_True by lia. done.
Qed.

(** [printint] in base 10 never leaves its 16 bytes, for any [int]; and what
    it writes for a number that is not negative is read back by [atoi]. *)
Theorem printint_atoi n :
  is_i32 n ->
  exists s, printint digits n 10 true = Some s /\ (length s <= 11)%nat /\
    (0 <= n -> forall m a, holds_at m a s -> is_digit (load8 m (a + Z.of_nat (length s))) = false ->
       atoi m a 12 = Some n).
Proof.
  intros Hn. destruct (printint_signed digits n 10 10) as (vs & Hp & Hv & Hx & Hl); [done|lia|lia|done|done|].
  eexists. split; [exact Hp|]. split.
  { rewrite length_app, length_fmap. destruct (n <? 0); cbn; lia. }
  intros Hpos m a Hm Hend. unfold is_i32 in Hn. destruct (Z.ltb_spec n 0) as [|_]; [lia|].
  cbn [app] in Hm, Hend. rewrite length_fmap in Hend. unfold atoi.
  rewrite (atoi_loop_spec m vs); try done; [|unfold value in Hx; lia| |lia].
  - f_equal. unfold value in Hx. lia.
  - erewrite list_fmap_ext; [exact Hm|]. intros i v Hi. cbn. symmetry. apply digits_char.
    by apply (Forall_lookup_1 _ _ _ _ Hv Hi).
Qed.

Lemma printint_atoi_witness :
  exists s, printint digits 1205 10 true = Some s /\ (length s <= 11)%nat /\
    (0 <= 1205 -> forall m a, holds_at m a s -> is_digit (load8 m (a + Z.of_nat (length s))) = false ->
       atoi m a 12 = Some 1205).
Proof. apply (printint_atoi 1205). unfold is_i32. lia. Defined.

(** ** memmove *)

Lemma umemmove_move_up m d s n : umemmove_loop m d s n = move_up m d s n.
Proof. revert m d s. induction n as [|n IH]; intros m d s; cbn; [done|apply IH]. Qed.

Lemma umemmove_snoc m d s n :
  umemmove_loop m d s (S n)
  = store8 (umemmove_loop m d s n) (d + Z.of_nat n) (load8 (umemmove_loop m d s n) (s + Z.of_nat n)).
Proof.
  revert m d s. induction n as [|n IH]; intros m d s.
  - cbn. by rewrite !Z.add_0_r.
  - change (umemmove_loop m d s (S (S n)))
      with (umemmove_loop (store8 m d (load8 m s)) (d + 1) (s + 1) (S n)).
    rewrite IH. cbn [umemmove_loop]. by replace (d + 1 + Z.of_nat n) with (d + Z.of_nat (S n)) by lia;
      replace (s + 1 + Z.of_nat n) with (s + Z.of_nat (S n)) by lia.
Qed.

Lemma umemmove_below m d s n x : x < d -> load8 (umemmove_loop m d s n) x = load8 m x.
Proof.
  intros Hx. induction n as [|n IH]; [done|]. rewrite umemmove_snoc, load8_store8_ne by lia. done.
Qed.

Lemma umemmove_repeats m d s n j :
  s < d -> 0 <= j < Z.of_nat n ->
  load8 (umemmove_loop m d s n) (d + j) = load8 m (s + j mod (d - s)).
Proof.
  intros Hs. revert j. induction n as [|n IH]; intros j Hj; [lia|]. rewrite umemmove_snoc.
  destruct (decide (j = Z.of_nat n)) as [->|].
  - rewrite load8_store8_eq. unfold u8. rewrite Z.mod_small by auto with xv6.
    destruct (Z.lt_ge_cases (Z.of_nat n) (d - s)) as [Hn|Hn].
    + rewrite umemmove_below, Z.mod_small by lia. done.
    + replace (s + Z.of_nat n) with (d + (Z.of_nat n - (d - s))) by lia. rewrite IH by lia.
      f_equal. f_equal. rewrite <- (Z.mod_add (Z.of_nat n - (d - s)) 1 (d - s)) by lia. f_equal. lia.
  - rewrite load8_store8_ne by lia. apply IH. lia.
Qed.

(** [memmove] of the user library is [memmove] of the kernel unless the
    destination begins inside the source.  Then it does not move the source:
    it repeats the bytes between the two. *)
Theorem umemmove_kernel m d s n :
  if decide (s < d < s + n)
  then forall j, 0 <= j < n -> load8 (umemmove m d s n) (d + j) = load8 m (s + j mod (d - s))
  else umemmove m d s n = memmove m d s n.
Proof.
  unfold umemmove, memmove. case_decide as H.
  - intros j Hj. apply umemmove_repeats; lia.
  - rewrite umemmove_move_up. destruct (Z.ltb_spec s d), (Z.ltb_spec d (s + n)); cbn; done || lia.
Qed.
