(* ===== verification/Grep.v ===== *)
(** * The user program grep: grep.c

    The regular-expression matcher with its operators [^ . * $] and the loop
    that reads a file through a buffer of 1024 bytes and prints the lines that
    match.  A C string is the list of its bytes before the null byte.  Reading
    is modelled by the chunks that are available: a read returns at most what
    it asks for of the first chunk (one chunk is a file, several are what a
    pipe delivers). *)

From S2P Require Import Prelude.

Module Grep.

(** ** The matcher *)

Definition CARET : Z := 94.
Definition DOT : Z := 46.
Definition STAR : Z := 42.
Definition DOLLAR : Z := 36.
Definition NEWLINE : Z := 10.

Definition at_end (s : list Z) : bool := match s with [] => true | _ => false end.

(** [matchstar(c, re, text)]; [here] is [matchhere] on [re]. *)
Fixpoint matchstar (c : Z) (here : list Z -> bool) (text : list Z) : bool :=
  if here text then true
  else match text with
       | [] => false
       | x :: text => if (x =? c) || (c =? DOT) then matchstar c here text else false
       end.

Fixpoint matchhere (re text : list Z) : bool :=
  match re with
  | [] => true
  | c :: re1 =>
      let single :=
        if (c =? DOLLAR) && at_end re1 then at_end text
        else match text with
             | [] => false
             | x :: text => if (c =? DOT) || (c =? x) then matchhere re1 text else false
             end in
      match re1 with
      | s :: re2 => if s =? STAR then matchstar c (matchhere re2) text else single
      | [] => single
      end
  end.

(** The loop of [match] over the suffixes of the text. *)
Fixpoint match_from (re text : list Z) : bool :=
  if matchhere re text then true
  else match text with [] => false | _ :: text => match_from re text end.

Definition matches (re text : list Z) : bool :=
  match re with
  | c :: re1 => if c =? CARET then matchhere re1 text else match_from re text
  | [] => match_from re text
  end.

(** ** The loop over the lines *)

(** [strchr(p, '\n')]: the text before the first newline and the text after
    it; a null byte ends the search. *)
Fixpoint strchr_newline (p : list Z) : option (list Z * list Z) :=
  match p with
  | [] => None
  | x :: p =>
      if x =? 0 then None
      else if x =? NEWLINE then Some ([], p)
      else '(l, r) ← strchr_newline p; Some (x :: l, r)
  end.

(** The inner loop: what is printed, and the text at [p] when it ends. *)
Fixpoint scan_lines (pattern p : list Z) (n : nat) : list Z * list Z :=
  match n with
  | O => ([], p)
  | S n =>
      match strchr_newline p with
      | None => ([], p)
      | Some (l, r) =>
          let '(out, rest) := scan_lines pattern r n in
          ((if matches pattern l then l ++ [NEWLINE] else []) ++ out, rest)
      end
  end.

Definition BUFSIZE : nat := 1024.

Definition read (k : nat) (chunks : list (list Z)) : list Z * list (list Z) :=
  match chunks with
  | [] => ([], [])
  | c :: cs => if bool_decide (length c <= k)%nat then (c, cs) else (take k c, drop k c :: cs)
  end.

(** [buf] holds the first [m] bytes of the buffer. *)
Fixpoint grep_loop (pattern buf : list Z) (chunks : list (list Z)) (n : nat) : option (list Z) :=
  match n with
  | O => None
  | S n =>
      let '(d, chunks) := read (BUFSIZE - length buf - 1) chunks in
      if at_end d then Some []
      else
        let buf := buf ++ d in
        let '(out, p) := scan_lines pattern buf (length buf) in
        let buf := if bool_decide (length p = length buf) then [] else p in
        out' ← grep_loop pattern buf chunks n; Some (out ++ out')
  end.

(** Every iteration takes at least one byte from the chunks. *)
Definition grep (pattern : list Z) (chunks : list (list Z)) : option (list Z) :=
  grep_loop pattern [] chunks (S (sum_list (length <$> chunks))).

(** ** What a pattern means *)

(** One character of a pattern and one of the text. *)
Definition char_ok (c x : Z) : Prop := c = DOT \/ c = x.

(** The pattern matches at the start of the text. *)
Inductive matches_at : list Z -> list Z -> Prop :=
| at_nil text : matches_at [] text
| at_star c re u v : Forall (char_ok c) u -> matches_at re v -> matches_at (c :: STAR :: re) (u ++ v)
| at_dollar : matches_at [DOLLAR] []
| at_char c re x text :
    head re <> Some STAR -> ~ (c = DOLLAR /\ re = []) -> char_ok c x -> matches_at re text ->
    matches_at (c :: re) (x :: text).

(** The pattern occurs in the text: anchored with [^], anywhere without. *)
Definition occurs (re text : list Z) : Prop :=
  match re with
  | c :: re1 => if c =? CARET then matches_at re1 text else exists u v, text = u ++ v /\ matches_at re v
  | [] => True
  end.

Lemma char_okb c x : (x =? c) || (c =? DOT) = true <-> char_ok c x.
Proof. unfold char_ok. rewrite orb_true_iff, !Z.eqb_eq. intuition congruence. Qed.

Lemma matchstar_spec c here text :
  matchstar c here text = true <->
  exists u v, text = u ++ v /\ Forall (char_ok c) u /\ here v = true.
Proof.
  induction text as [|x text IH]; cbn [matchstar].
  - destruct (here []) eqn:E.
    + split; [|done]. intros _. by exists [], [].
    + split; [done|]. intros (u & v & Huv & _ & Hv). symmetry in Huv.
      apply app_eq_nil in Huv as [-> ->]. congruence.
  - destruct (here (x :: text)) eqn:E.
    { split; [|done]. intros _. by exists [], (x :: text). }
    destruct ((x =? c) || (c =? DOT)) eqn:Ex.
    + apply char_okb in Ex. rewrite IH. split.
      * intros (u & v & -> & Hu & Hv). exists (x :: u), v. split; [done|]. split; [by constructor|done].
      * intros ([|y u] & v & Huv & Hu & Hv); cbn in Huv; simplify_eq; [congruence|].
        apply Forall_cons in Hu as [_ Hu]. by exists u, v.
    + split; [done|]. intros ([|y u] & v & Huv & Hu & Hv); cbn in Huv; simplify_eq; [congruence|].
      apply Forall_cons in Hu as [Hu%char_okb _]. congruence.
Qed.

Lemma matchhere_star c re text :
  matchhere (c :: STAR :: re) text = matchstar c (matchhere re) text.
Proof. done. Qed.

Lemma matchhere_char c re text :
  head re <> Some STAR ->
  matchhere (c :: re) text =
    if (c =? DOLLAR) && at_end re then at_end text
    else match text with
         | [] => false
         | x :: text => if (c =? DOT) || (c =? x) then matchhere re text else false
         end.
Proof.
  intros Hs. destruct re as [|s re]; [done|]. cbn [matchhere].
  destruct (Z.eqb_spec s STAR); [|done]. by subst.
Qed.

Lemma matchhere_spec re text : matchhere re text = true <-> matches_at re text.
Proof.
  remember (length re) as n eqn:En. revert re En text.
  induction n as [n IH] using lt_wf_ind. intros re -> text.
  destruct re as [|c re1]; [by split; [constructor|]|].
  destruct (decide (head re1 = Some STAR)) as [Hs|Hs].
  - destruct re1 as [|s re2]; [done|]. injection Hs as ->. rewrite matchhere_star, matchstar_spec.
    assert (forall v, matchhere re2 v = true <-> matches_at re2 v) as IH2
      by (intros v; apply (IH (length re2)); [cbn; lia|done]).
    split.
    + intros (u & v & -> & Hu & Hv%IH2). by constructor.
    + intros H. inversion H; subst; [by exists u, v; rewrite IH2|done].
  - rewrite matchhere_char by done. destruct ((c =? DOLLAR) && at_end re1) eqn:Ed.
    + apply andb_true_iff in Ed as [->%Z.eqb_eq Ere]. destruct re1; [|done]. split.
      * destruct text; [constructor|done].
      * intros H. inversion H as [| | |? ? ? ? _ Hd _ _]; subst; [done|]. by destruct Hd.
    + destruct text as [|x text].
      { split; [done|]. intros H. inversion H; subst; [done..|]. by cbn in Ed. }
      assert ((c =? DOT) || (c =? x) = true <-> char_ok c x) as Hc.
      { unfold char_ok. by rewrite orb_true_iff, !Z.eqb_eq. }
      destruct ((c =? DOT) || (c =? x)) eqn:Ex.
      * rewrite (IH (length re1)) by (cbn; done || lia). split.
        -- intros H. constructor; [done| |by apply Hc|done]. intros [-> ->]. by cbn in Ed.
        -- intros H. inversion H; subst; done.
      * split; [done|]. intros H. inversion H; subst; [done|..]; by assert (false = true) by (by apply Hc).
Qed.

Lemma match_from_spec re text :
  match_from re text = true <-> exists u v, text = u ++ v /\ matches_at re v.
Proof.
  induction text as [|x text IH]; cbn [match_from]; destruct (matchhere re _) eqn:E;
    try apply matchhere_spec in E.
  - split; [|done]. intros _. by exists [], [].
  - split; [done|]. intros (u & v & Huv & Hv). symmetry in Huv. apply app_eq_nil in Huv as [-> ->].
    apply matchhere_spec in Hv. congruence.
  - split; [|done]. intros _. by exists [], (x :: text).
  - rewrite IH. split.
    + intros (u & v & -> & Hv). by exists (x :: u), v.
    + intros ([|y u] & v & Huv & Hv); cbn in Huv; simplify_eq; [|by exists u, v].
      apply matchhere_spec in Hv. congruence.
Qed.

(** C34: The matcher of grep decides the meaning of its patterns: it returns
    true exactly on the texts in which the pattern occurs, where [^] anchors
    at the start, [$] at the end, [.] is any character and [c*] any number of
    [c]. *)
Theorem match_correct re text : matches re text = true <-> occurs re text.
Proof.
  unfold matches, occurs. destruct re as [|c re].
  - split; [done|]. intros _. by destruct text.
  - destruct (c =? CARET); [apply matchhere_spec|apply match_from_spec].
Qed.

(** ** Lines *)

(** The complete lines of a text, and what follows the last newline. *)
Fixpoint split_lines (s : list Z) : list (list Z) * list Z :=
  match s with
  | [] => ([], [])
  | x :: s =>
      let '(ls, r) := split_lines s in
      if x =? NEWLINE then ([] :: ls, r)
      else match ls with [] => ([], x :: r) | l :: ls => ((x :: l) :: ls, r) end
  end.

(** What grep should print of these lines. *)
Definition selected (pattern : list Z) (ls : list (list Z)) : list Z :=
  concat ((fun l => l ++ [NEWLINE]) <$> filter (fun l => matches pattern l = true) ls).

Definition no_null (s : list Z) : Prop := Forall (fun x => x <> 0) s.

Lemma strchr_split p :
  no_null p ->
  match strchr_newline p with
  | None => split_lines p = ([], p)
  | Some (l, r) => p = l ++ NEWLINE :: r /\
      split_lines p = (l :: fst (split_lines r), snd (split_lines r))
  end.
Proof.
  unfold no_null. induction p as [|x p IH]; intros Hp; [done|]. apply Forall_cons in Hp as [Hx Hp]. cbn.
  rewrite (proj2 (Z.eqb_neq x 0)) by done. specialize (IH Hp).
  destruct (Z.eqb_spec x NEWLINE) as [->|Hn].
  { split; [done|]. by destruct (split_lines p). }
  destruct (strchr_newline p) as [[l r]|]; cbn.
  - destruct IH as [-> ->]. done.
  - by rewrite IH.
Qed.

Lemma scan_lines_spec pattern n p :
  no_null p -> (length p <= n)%nat ->
  scan_lines pattern p n = (selected pattern (fst (split_lines p)), snd (split_lines p)).
Proof.
  revert p. induction n as [|n IH]; intros p Hp Hn; cbn [scan_lines].
  { destruct p; [done|cbn in Hn; lia]. }
  pose proof (strchr_split p Hp) as H. destruct (strchr_newline p) as [[l r]|].
  - destruct H as [-> ->]. rewrite IH.
    + unfold selected. cbn [fst snd]. rewrite filter_cons. case_decide as E; cbn [fmap list_fmap concat].
      * by rewrite E.
      * by destruct (matches pattern l).
    + unfold no_null in *. apply Forall_app in Hp as [_ Hp]. by apply Forall_cons in Hp as [_ Hp].
    + rewrite length_app in Hn. cbn in Hn. lia.
  - by rewrite H.
Qed.

(** Putting a text without newline in front lengthens the first line. *)
Definition lead (a : list Z) (p : list (list Z) * list Z) : list (list Z) * list Z :=
  match p with ([], r) => ([], a ++ r) | (l :: ls, r) => ((a ++ l) :: ls, r) end.

Lemma split_lines_app a b :
  split_lines (a ++ b) =
    let '(ls, r) := split_lines a in let '(ls', r') := lead r (split_lines b) in (ls ++ ls', r').
Proof.
  induction a as [|x a IH]; cbn [app split_lines].
  - by destruct (split_lines b) as [[|l ls] r].
  - rewrite IH. destruct (split_lines a) as [ls r], (split_lines b) as [[|l' ls'] r']; cbn [lead];
      destruct (x =? NEWLINE), ls; done.
Qed.

Lemma split_lines_rest s : split_lines (snd (split_lines s)) = ([], snd (split_lines s)).
Proof.
  induction s as [|x s IH]; [done|]. cbn. destruct (split_lines s) as [[|l ls] r]; cbn in IH.
  - destruct (Z.eqb_spec x NEWLINE); cbn [snd]; [done|]. cbn. rewrite IH.
    by rewrite (proj2 (Z.eqb_neq x NEWLINE)).
  - by destruct (x =? NEWLINE).
Qed.

Lemma split_lines_rest_length s :
  (length (snd (split_lines s)) <= length s)%nat /\
  (length (snd (split_lines s)) = length s -> split_lines s = ([], s)).
Proof.
  induction s as [|x s [IH1 IH2]]; [done|]. cbn.
  destruct (split_lines s) as [[|l ls] r]; cbn in *; destruct (x =? NEWLINE); cbn.
  - split; [lia|]. intros. lia.
  - split; [lia|]. intros H. specialize (IH2 ltac:(lia)). by simplify_eq.
  - split; [lia|]. intros. lia.
  - split; [lia|]. intros H. specialize (IH2 ltac:(lia)). done.
Qed.

Lemma no_null_rest s : no_null s -> no_null (snd (split_lines s)).
Proof.
  unfold no_null. induction s as [|x s IH]; [done|]. intros H. apply Forall_cons in H as [Hx Hs].
  specialize (IH Hs). cbn. destruct (split_lines s) as [[|l ls] r]; destruct (x =? NEWLINE); cbn in *; auto.
Qed.

Lemma selected_app pattern ls ls' :
  selected pattern (ls ++ ls') = selected pattern ls ++ selected pattern ls'.
Proof. unfold selected. by rewrite filter_app, fmap_app, concat_app. Qed.

Lemma grep_loop_nil pattern buf n : grep_loop pattern buf [] (S n) = Some [].
Proof. done. Qed.

Definition short (l : list Z) : Prop := (length l <= 1022)%nat.

Lemma grep_loop_file pattern n buf inp :
  no_null (buf ++ inp) -> split_lines buf = ([], buf) -> (length buf <= 1022)%nat ->
  Forall short (fst (split_lines (buf ++ inp))) -> (length inp < n)%nat ->
  grep_loop pattern buf [inp] n = Some (selected pattern (fst (split_lines (buf ++ inp)))).
Proof.
  revert buf inp. induction n as [|n IH]; intros buf inp Hz Hb Hl Hs Hn; [lia|]. cbn [grep_loop read].
  unfold BUFSIZE. set (k := (1024 - length buf - 1)%nat). assert (1 <= k)%nat as Hk by lia.
  destruct (bool_decide_reflect (length inp <= k)%nat) as [Hle|Hgt].
  - destruct inp as [|x inp']; cbn [at_end].
    { rewrite app_nil_r, Hb. done. }
    rewrite scan_lines_spec by done. cbn iota. destruct n as [|n]; [cbn in Hn; lia|].
    rewrite grep_loop_nil. cbn. by rewrite app_nil_r.
  - set (d := take k inp). set (i := drop k inp). assert (inp = d ++ i) as Ed by (symmetry; apply take_drop).
    assert (length d = k) as Ld by (apply length_take_le; lia).
    destruct (at_end d) eqn:Ee; [destruct d; [cbn in Ld; lia|done]|].
    assert (length i < n)%nat as Li.
    { apply (f_equal length) in Ed. rewrite length_app in Ed. lia. }
    rewrite Ed, app_assoc in *. clearbody d i. set (b := buf ++ d) in *.
    assert (no_null b) as Hzb by (by apply Forall_app in Hz as [? _]).
    rewrite scan_lines_spec by done. cbn iota.
    destruct (split_lines_rest_length b) as [Hlen Hlen'].
    pose proof (split_lines_rest b) as Hr. pose proof (no_null_rest b Hzb) as Hzr.
    assert (length b = 1023)%nat as Lb by (unfold b; rewrite length_app; lia).
    rewrite split_lines_app in *. destruct (split_lines b) as [ls r] eqn:Eb. cbn [fst snd] in *.
    assert (no_null i) as Hzi by (by apply Forall_app in Hz as [_ ?]).
    assert (split_lines (r ++ i) = lead r (split_lines i)) as Eri.
    { rewrite split_lines_app, Hr. by destruct (lead r (split_lines i)) as [? ?]. }
    destruct (bool_decide_reflect (length r = length b)) as [Hlr|Hlr].
    + specialize (Hlen' Hlr). simplify_eq. destruct (split_lines i) as [[|l ls] r'] eqn:Ei; cbn in Hs.
      * rewrite (IH [] i); cbn [app]; rewrite ?Ei; try done; cbn; lia.
      * apply Forall_cons in Hs as [Hs _]. unfold short in Hs. rewrite length_app in Hs. lia.
    + rewrite (IH r i); rewrite ?Eri; try done.
      * destruct (lead r (split_lines i)) as [ls' r']. cbn [fst]. by rewrite selected_app.
      * apply Forall_app. done.
      * lia.
      * destruct (lead r (split_lines i)) as [ls' r']. cbn in *. by apply Forall_app in Hs as [_ ?].
Qed.

(** On a file without null bytes whose lines have at most 1022 bytes, the
    loop of grep ends and prints exactly the lines that match, in order, each
    with its newline. *)
Theorem grep_prints_matching_lines pattern inp :
  no_null inp -> Forall short (fst (split_lines inp)) ->
  grep pattern [inp] = Some (selected pattern (fst (split_lines inp))).
Proof.
  intros Hz Hs. unfold grep. apply (grep_loop_file pattern _ [] inp); try done; cbn; lia.
Qed.

(** "foo" *)
Definition foo : list Z := [102; 111; 111].

Lemma grep_prints_matching_lines_witness :
  grep foo [[102; 111; 111; 10; 98; 10; 120; 102; 111; 111; 10]] =
    Some [102; 111; 111; 10; 120; 102; 111; 111; 10].
Proof.
  rewrite (grep_prints_matching_lines foo [102; 111; 111; 10; 98; 10; 120; 102; 111; 111; 10]);
    [reflexivity|repeat constructor; lia|repeat constructor; unfold short; cbn; lia].
Defined.

(** What a pipe delivers in pieces is not searched in the same way: a piece
    that ends before the first newline is thrown away, so that the line it
    begins is not found although it contains the pattern. *)
Theorem grep_loses_partial_line :
  grep foo [foo; [NEWLINE]] = Some [] /\ grep foo [foo ++ [NEWLINE]] = Some (foo ++ [NEWLINE]).
Proof. done. Qed.
End Grep.
