(* ===== verification/Cprintf.v ===== *)
(** * Output to the console: uartputc of uart.c, and cgaputc, consputc and
    cprintf of console.c

    The screen's memory is the list of its cells, an access outside it a fault.
    A format and the strings it prints are given by their characters. *)

From S2P Require Import Prelude Memory Mmu Machine Spinlock Kalloc Vm PageTable VmProofs VmSpaces.
From S2P Require Import Encrypt ProcTable Clock ClockProofs Proc ProcProofs FileState Sleeplock Bio Ulib.

Definition BACKSPACE : Z := 0x100.

Definition getc {A} (f : console_t -> A) : FK A := gets (fun k => f (console (files k))).
Definition setc (f : console_t -> console_t) : FK unit :=
  modify (fun k => set_files (set_console (f (console (files k))) (files k)) k).

(** [uartputc]; waiting for the port takes time only. *)
Definition uartputc (c : Z) : FK unit :=
  u ← getc uart;
  when u (setc (fun x => set_uart_out (u8 c :: uart_out x) x)).

(** [crt[pos] = v] *)
Definition set_cell (pos v : Z) : FK unit :=
  l ← getc crt;
  if (pos <? 0) || (Z.of_nat (length l) <=? pos) then fault
  else setc (fun x => set_crt (<[Z.to_nat pos := v]> (crt x)) x).

(** The scroll: [memmove(crt, crt+80, sizeof(crt[0])*23*80)] and
    [memset(crt+pos, 0, sizeof(crt[0])*(24*80 - pos))]. *)
Definition scroll_up (l : list Z) : list Z := take 1840 (drop 80 l) ++ drop 1840 l.
Definition blank (pos : Z) (l : list Z) : list Z :=
  take (Z.to_nat pos) l ++ replicate (Z.to_nat (1920 - pos)) 0 ++ drop 1920 l.

(** The two ports of the cursor register hold a byte each. *)
Definition cgaputc (c : Z) : FK unit :=
  pos ← getc crt_pos;
  pos ← (if c =? 10 then mret (pos + (80 - pos mod 80))
         else if c =? BACKSPACE then mret (if 0 <? pos then pos - 1 else pos)
         else set_cell pos (Z.lor (Z.land c 0xff) 0x0700);; mret (pos + 1));
  if (pos <? 0) || (25 * 80 <? pos) then panic "pos under/overflow" else
  pos ← (if 24 <=? pos / 80 then
           setc (fun x => set_crt (scroll_up (crt x)) x);;
           let pos := pos - 80 in
           setc (fun x => set_crt (blank pos (crt x)) x);;
           mret pos
         else mret pos);
  setc (set_crt_pos (256 * u8 (pos / 256) + u8 pos));;
  set_cell pos (Z.lor 32 0x0700).

(** A processor that prints after a panic stops for good. *)
Definition consputc (c : Z) : FK unit :=
  p ← getc panicked;
  if (p : bool) then spin else
  (if c =? BACKSPACE then uartputc 8;; uartputc 32;; uartputc 8 else uartputc c);;
  cgaputc c.

(** ** cprintf *)

(** The characters of a string constant. *)
Definition chars (s : string) : list Z := (fun a => Z.of_N (Ascii.N_of_ascii a)) <$> String.list_ascii_of_string s.

Definition hexdigits : list Z := chars "0123456789abcdef".

Fixpoint consputs (l : list Z) : FK unit :=
  match l with
  | [] => mret tt
  | c :: l => consputc c;; consputs l
  end.

(** The characters of a string: those before the null byte. *)
Fixpoint cstr (l : list Z) : list Z :=
  match l with
  | [] => []
  | c :: l => if c =? 0 then [] else c :: cstr l
  end.

(** An argument: a number, or a pointer to a string. *)
Inductive karg : Type := KInt (v : Z) | KStr (s : option (list Z)).

(** [printint(xx, base, sign)]; its buffer has 16 bytes. *)
Definition kprintint (xx base : Z) (sign : bool) : FK unit :=
  match printint hexdigits xx base sign with
  | Some l => consputs l
  | None => fault
  end.

Definition next_int (args : list karg) : FK Z :=
  match args with KInt v :: _ => mret v | _ => fault end.
Definition next_str (args : list karg) : FK (option (list Z)) :=
  match args with KStr s :: _ => mret s | _ => fault end.

Fixpoint cprintf_loop (fmt : list Z) (args : list karg) : FK unit :=
  match fmt with
  | [] => mret tt
  | c :: fmt =>
      if negb (c =? 37) then consputc c;; cprintf_loop fmt args else
      match fmt with
      | [] => mret tt
      | c :: fmt =>
          if c =? 100 then v ← next_int args; kprintint v 10 true;; cprintf_loop fmt (tail args)
          else if (c =? 120) || (c =? 112) then
            v ← next_int args; kprintint v 16 false;; cprintf_loop fmt (tail args)
          else if c =? 115 then
            s ← next_str args; consputs (cstr (default null_string s));; cprintf_loop fmt (tail args)
          else if c =? 99 then v ← next_int args; consputc (u8 v);; cprintf_loop fmt (tail args)
          else if c =? 37 then consputc 37;; cprintf_loop fmt args
          else consputc 37;; consputc c;; cprintf_loop fmt args
      end
  end.

Definition cprintf (fmt : list Z) (args : list karg) : FK unit :=
  locking ← getc cons_locking;
  h ← (if (locking : bool) then holding (infiles cons_lockL) else mret true);
  when (negb h) (acquire (infiles cons_lockL));;
  cprintf_loop fmt args;;
  when locking (release (infiles cons_lockL)).
