(* ===== verification/Sh.v ===== *)
(** * The shell: sh.c

    The parser reads a line in memory with a pointer [*ps] that it moves: a
    computation whose state is that pointer.  A parsed command is a tree of
    the five kinds of [struct cmd]; its words are pointers into the line, which
    [nulterminate] ends with null bytes.  [panic] ends the shell's process.
    [runcmd] and [main] are programs of system calls: a tree of calls whose
    branches are the results.  Allocation of the nodes is left out. *)

From S2P Require Import Prelude Memory FileState Ulib Cprintf.

Module Sh.

(** ** Commands *)

Definition MAXARGS : Z := 10.

(** Pairs of [argv[i]] and [eargv[i]]. *)
Inductive cmd : Type :=
| EXEC (argv : list (Z * Z))
| REDIR (c : cmd) (file efile mode fd : Z)
| PIPE (left right : cmd)
| LIST (left right : cmd)
| BACK (c : cmd).

(** ** Parsing *)

Definition whitespace : list Z := [32; 9; 13; 10; 11].
Definition symbols : list Z := [60; 124; 62; 38; 59; 40; 41].

(** [strchr(l, c)] *)
Definition among (l : list Z) (c : Z) : bool := existsb (Z.eqb c) l.

(** [|], [(], [)], [;], [&] and [<] *)
Definition singles : list Z := [124; 40; 41; 59; 38; 60].

Section Parse.
Variables (m : memory) (es : Z).
Abbreviation P := (M Z).

Fixpoint skip_space (s : Z) (n : nat) : Z :=
  match n with
  | O => s
  | S n => if (s <? es) && among whitespace (load8 m s) then skip_space (s + 1) n else s
  end.

Fixpoint skip_word (s : Z) (n : nat) : Z :=
  match n with
  | O => s
  | S n =>
      if (s <? es) && negb (among whitespace (load8 m s)) && negb (among symbols (load8 m s))
      then skip_word (s + 1) n else s
  end.

(** The loops run up to [es]. *)
Definition to_end (s : Z) : nat := Z.to_nat (es - s).

(** The kind of the token, and where it begins and ends. *)
Definition gettoken : P (Z * Z * Z) :=
  s ← get;
  let s := skip_space s (to_end s) in
  let q := s in
  let c := load8 m s in
  let '(ret, s) :=
    if c =? 0 then (c, s)
    else if among singles c then (c, s + 1)
    else if c =? 62 then
      let s := s + 1 in if load8 m s =? 62 then (43, s + 1) else (c, s)
    else (97, skip_word s (to_end s)) in
  let eq := s in
  modify (fun _ => skip_space s (to_end s));;
  mret (ret, q, eq).

Definition peek (toks : list Z) : P bool :=
  s ← get;
  let s := skip_space s (to_end s) in
  modify (fun _ => s);;
  mret (negb (load8 m s =? 0) && among toks (load8 m s)).

(** The redirections that [parseredirs] puts around a command, the innermost
    first: file, end of file, mode and descriptor. *)
Definition redir : Type := Z * Z * Z * Z.

Definition redircmds (c : cmd) (rs : list redir) : cmd :=
  foldl (fun c '(q, eq, mode, fd) => REDIR c q eq mode fd) c rs.

Fixpoint redirs_loop (n : nat) : P (list redir) :=
  b ← peek [60; 62];
  if negb b then mret [] else
  match n with
  | O => spin
  | S n =>
      t ← gettoken;
      a ← gettoken;
      let '(tok, _, _) := t in
      let '(tok', q, eq) := a in
      if negb (tok' =? 97) then panic "missing file for redirection" else
      rs ← redirs_loop n;
      mret (if tok =? 60 then (q, eq, O_RDONLY, 0) :: rs
            else (q, eq, Z.lor O_WRONLY O_CREATE, 1) :: rs)
  end.

(** Every iteration of a loop takes a character. *)
Definition parseredirs : P (list redir) := s ← get; redirs_loop (to_end s).

(** The loop of [parseexec].  The command is filled in while redirections are
    put around it: the arguments and the redirections are collected, the
    latter in [rs]. *)
Fixpoint parseargs (argc : Z) (argv : list (Z * Z)) (rs : list redir) (n : nat) : P cmd :=
  b ← peek [124; 41; 38; 59];
  if (b : bool) then mret (redircmds (EXEC argv) rs) else
  t ← gettoken;
  let '(tok, q, eq) := t in
  if tok =? 0 then mret (redircmds (EXEC argv) rs) else
  if negb (tok =? 97) then panic "syntax" else
  if MAXARGS <=? argc + 1 then panic "too many args" else
  rs' ← parseredirs;
  match n with
  | O => spin
  | S n => parseargs (argc + 1) (argv ++ [(q, eq)]) (rs ++ rs') n
  end.

(** The loop over [&] in [parseline]. *)
Fixpoint parseback (c : cmd) (n : nat) : P cmd :=
  b ← peek [38];
  if negb b then mret c else
  match n with
  | O => spin
  | S n => _ ← gettoken; parseback (BACK c) n
  end.

(** [n] bounds the depth of the recursion. *)
Fixpoint parseline (n : nat) : P cmd :=
  match n with
  | O => spin
  | S n =>
      c ← parsepipe n;
      s ← get;
      c ← parseback c (to_end s);
      b ← peek [59];
      if (b : bool) then
        _ ← gettoken;
        r ← parseline n;
        mret (LIST c r)
      else mret c
  end
with parsepipe (n : nat) : P cmd :=
  match n with
  | O => spin
  | S n =>
      c ← parseexec n;
      b ← peek [124];
      if (b : bool) then
        _ ← gettoken;
        r ← parsepipe n;
        mret (PIPE c r)
      else mret c
  end
with parseexec (n : nat) : P cmd :=
  match n with
  | O => spin
  | S n =>
      b ← peek [40];
      if (b : bool) then parseblock n else
      rs ← parseredirs;
      s ← get;
      parseargs 0 [] rs (to_end s)
  end
with parseblock (n : nat) : P cmd :=
  match n with
  | O => spin
  | S n =>
      b ← peek [40];
      if negb b then panic "parseblock" else
      _ ← gettoken;
      c ← parseline n;
      b ← peek [41];
      if negb b then panic "syntax - missing )" else
      _ ← gettoken;
      rs ← parseredirs;
      mret (redircmds c rs)
  end.
End Parse.

(** The nulls that end the words. *)
Fixpoint nulterminate (m : memory) (c : cmd) : memory :=
  match c with
  | EXEC argv => foldl (fun m a => store8 m a.2 0) m argv
  | REDIR c _ efile _ _ => store8 (nulterminate m c) efile 0
  | PIPE l r | LIST l r => nulterminate (nulterminate m l) r
  | BACK c => nulterminate m c
  end.

(** The command at [s], [len] bytes long ([strlen(s)]), and the memory. *)
Definition parsecmd (m : memory) (s len : Z) (n : nat) : M Z (memory * cmd) :=
  let es := s + len in
  modify (fun _ => s);;
  c ← parseline m es n;
  _ ← peek m es [];
  s ← get;
  if negb (s =? es) then panic "leftovers" else
  mret (nulterminate m c, c).

(** ** Running *)

(** A command with the strings that its pointers point to. *)
Inductive tree : Type :=
| TExec (argv : list (list Z))
| TRedir (c : tree) (file : list Z) (mode fd : Z)
| TPipe (left right : tree)
| TList (left right : tree)
| TBack (c : tree).

(** The string at [a], which ends within [n] bytes. *)
Fixpoint string_at (m : memory) (a : Z) (n : nat) : list Z :=
  match n with
  | O => []
  | S n => if load8 m a =? 0 then [] else load8 m a :: string_at m (a + 1) n
  end.

Fixpoint strings (m : memory) (n : nat) (c : cmd) : tree :=
  match c with
  | EXEC argv => TExec ((fun a => string_at m a.1 n) <$> argv)
  | REDIR c file _ mode fd => TRedir (strings m n c) (string_at m file n) mode fd
  | PIPE l r => TPipe (strings m n l) (strings m n r)
  | LIST l r => TList (strings m n l) (strings m n r)
  | BACK c => TBack (strings m n c)
  end.

(** A process that makes system calls; the branches are their results. *)
Inductive prog : Type :=
| Exit
| Loop
| Exec (argv : list (list Z)) (failed : prog)
| Open (file : list Z) (mode : Z) (k : Z -> prog)
| Close (fd : Z) (k : prog)
| Dup (fd : Z) (k : prog)
| Pipe (k : option (Z * Z) -> prog)
| Fork (k : Z -> prog)
| Wait (k : prog)
| Chdir (path : list Z) (k : Z -> prog)
| Write (fd : Z) (s : list Z) (k : prog).

Definition newline : list Z := [10].

Definition shpanic (s : string) : prog := Write 2 (chars s ++ newline) Exit.

(** [fork1] *)
Definition fork1 (k : Z -> prog) : prog :=
  Fork (fun pid => if pid =? -1 then shpanic "fork" else k pid).

(** [runcmd], which never returns. *)
Fixpoint runcmd (c : tree) : prog :=
  match c with
  | TExec [] => Exit
  | TExec (f :: args) =>
      Exec (f :: args) (Write 2 (chars "exec " ++ f ++ chars " failed" ++ newline) Exit)
  | TRedir c file mode fd =>
      Close fd (Open file mode (fun r =>
        if r <? 0 then Write 2 (chars "open " ++ file ++ chars " failed" ++ newline) Exit else runcmd c))
  | TList l r =>
      fork1 (fun pid => if pid =? 0 then runcmd l else Wait (runcmd r))
  | TPipe l r =>
      Pipe (fun o =>
        match o with
        | None => shpanic "pipe"
        | Some (p0, p1) =>
            fork1 (fun pid =>
              if pid =? 0 then Close 1 (Dup p1 (Close p0 (Close p1 (runcmd l)))) else
              fork1 (fun pid =>
                if pid =? 0 then Close 0 (Dup p0 (Close p0 (Close p1 (runcmd r)))) else
                Close p0 (Close p1 (Wait (Wait Exit)))))
        end)
  | TBack c => fork1 (fun pid => if pid =? 0 then runcmd c else Exit)
  end.

(** The child of [main] that runs the line [l], which is at address [buf]. *)
Definition run_line (buf : Z) (l : list Z) : prog :=
  let m := foldl (fun m '(i, b) => store8 m (buf + Z.of_nat i) b) ∅ (imap pair l) in
  let n := length l in
  match parsecmd m buf (Z.of_nat n) (4 * n + 4) 0 with
  | Ok (m, c) _ => runcmd (strings m (S n) c)
  | Panic msg s =>
      if String.eqb msg "leftovers"
      then Write 2 (chars "leftovers: " ++ drop (Z.to_nat (s - buf)) l ++ newline) (shpanic "syntax")
      else shpanic msg
  | _ => Loop
  end.

(** The loop that opens three descriptors, for at most [n] of them. *)
Fixpoint open_console (k : prog) (n : nat) : prog :=
  match n with
  | O => Loop
  | S n => Open (chars "console") O_RDWR (fun fd =>
      if fd <? 0 then k else if 3 <=? fd then Close fd k else open_console k n)
  end.

(** The loop of [main] over the lines that [gets] returns. *)
Fixpoint main_loop (buf : Z) (lines : list (list Z)) : prog :=
  Write 2 (chars "$ ")
    match lines with
    | [] | [] :: _ => Exit
    | (99 :: 100 :: 32 :: path) as l :: lines =>
        let path := take (length l - 4) path in
        Chdir path (fun r =>
          if r <? 0 then Write 2 (chars "cannot cd " ++ path ++ newline) (main_loop buf lines)
          else main_loop buf lines)
    | l :: lines => fork1 (fun pid => if pid =? 0 then run_line buf l else Wait (main_loop buf lines))
    end.

Definition main (buf : Z) (lines : list (list Z)) : prog := open_console (main_loop buf lines) 4.
End Sh.
