(* ===== verification/ShProofs.v ===== *)
(** * What the shell's parser does

    The parser ends on every line, with a command or an error message; and
    every command can be written as a line that the parser reads back as that
    command, its words ended by null bytes. *)

From S2P Require Import Prelude Memory FileState Ulib Cprintf Sh.

Module ShProofs.
Import Sh.

(** ** Termination *)

(** A computation that ends, by itself or by an error message. *)
Definition ends {A} (p : M Z A) (s : Z) (Q : A -> Z -> Prop) : Prop :=
  match p s with Ok a s' => Q a s' | Panic _ _ => True | _ => False end.

Lemma ends_bind {A B} (p : M Z A) (f : A -> M Z B) s Q :
  ends p s (fun a s' => ends (f a) s' Q) -> ends (p ≫= f) s Q.
Proof. unfold ends, mbind, M_bind. by destruct (p s). Qed.

Lemma ends_mono {A} (p : M Z A) s (Q R : A -> Z -> Prop) :
  ends p s Q -> (forall a s', Q a s' -> R a s') -> ends p s R.
Proof. unfold ends. destruct (p s); auto. Qed.

Lemma ends_ret {A} (a : A) s (Q : A -> Z -> Prop) : Q a s -> ends (mret a) s Q.
Proof. done. Qed.

Section Ends.
Variables (m : memory) (es : Z).
Hypothesis Hes : load8 m es = 0.

Lemma skip_space_range n s : s <= es -> (n <= to_end es s)%nat -> s <= skip_space m es s n <= es.
Proof.
  revert s. induction n as [|n IH]; intros s Hs Hn; cbn [skip_space]; [lia|]. unfold to_end in *.
  destruct (s <? es) eqn:E; cbn [andb]; [|lia]. apply Z.ltb_lt in E. case_match; [|lia].
  pose proof (IH (s + 1)). lia.
Qed.

Lemma skip_word_range n s : s <= es -> (n <= to_end es s)%nat -> s <= skip_word m es s n <= es.
Proof.
  revert s. induction n as [|n IH]; intros s Hs Hn; cbn [skip_word]; [lia|]. unfold to_end in *.
  destruct (s <? es) eqn:E; cbn [andb]; [|lia]. apply Z.ltb_lt in E. case_match; [|lia].
  pose proof (IH (s + 1)). lia.
Qed.

Lemma skip_space_stops n s : s <= es -> (to_end es s <= n)%nat ->
  let q := skip_space m es s n in q = es \/ among whitespace (load8 m q) = false.
Proof.
  revert s. induction n as [|n IH]; intros s Hs Hn; cbn [skip_space]; unfold to_end in *; [left; lia|].
  destruct (Z.ltb_spec s es); cbn [andb]; [|left; lia]. case_match; [|by right]. apply IH; lia.
Qed.

(** Where a token ends, and its kind. *)
Definition token (q : Z) : Z * Z :=
  let c := load8 m q in
  if c =? 0 then (c, q)
  else if among singles c then (c, q + 1)
  else if c =? 62 then (if load8 m (q + 1) =? 62 then (43, q + 1 + 1) else (c, q + 1))
  else (97, skip_word m es q (to_end es q)).

Lemma gettoken_at s :
  let q := skip_space m es s (to_end es s) in let e := (token q).2 in
  gettoken m es s = Ok ((token q).1, q, e) (skip_space m es e (to_end es e)).
Proof.
  cbv zeta. unfold gettoken, token, mbind, M_bind, get. cbv zeta. set (q := skip_space m es s (to_end es s)).
  destruct (load8 m q =? 0); [done|]. destruct (among singles (load8 m q)); [done|].
  destruct (load8 m q =? 62); [|done]. by destruct (load8 m (q + 1) =? 62).
Qed.

Lemma token_range q : q <= es -> q = es \/ among whitespace (load8 m q) = false ->
  q <= (token q).2 <= es /\ ((token q).1 <> 0 -> q < (token q).2).
Proof.
  intros Hq Hw. unfold token. destruct (Z.eqb_spec (load8 m q) 0) as [E|E]; cbn [fst snd]; [lia|].
  assert (q <> es) as Hne by congruence. destruct Hw as [?|Hw]; [done|].
  destruct (among singles (load8 m q)) eqn:Hsg; cbn [fst snd]; [lia|].
  destruct (Z.eqb_spec (load8 m q) 62) as [E2|E2].
  - destruct (Z.eqb_spec (load8 m (q + 1)) 62) as [E3|E3]; cbn [fst snd]; [|lia].
    assert (q + 1 <> es) by (intros E4; rewrite E4 in E3; congruence). lia.
  - cbn [fst snd]. assert (among symbols (load8 m q) = false) as Hsy.
    { unfold among in *. cbn in *. rewrite (proj2 (Z.eqb_neq _ 62)) by done. by repeat (apply orb_false_iff in Hsg as [-> Hsg]). }
    assert (to_end es q <> 0%nat) as Hz by (unfold to_end; lia).
    destruct (to_end es q) as [|n] eqn:En; [done|]. cbn [skip_word]. rewrite Hw, Hsy, (proj2 (Z.ltb_lt _ _)) by lia. cbn [andb negb].
    pose proof (skip_word_range n (q + 1)). unfold to_end in *. lia.
Qed.

(** A character that begins a token. *)
Definition solid (s : Z) : Prop := load8 m s <> 0 /\ among whitespace (load8 m s) = false.

Lemma skip_solid s : s <= es -> solid s -> s < es /\ skip_space m es s (to_end es s) = s.
Proof.
  intros Hs [H0 Hw]. assert (s <> es) by congruence. split; [lia|].
  destruct (to_end es s) eqn:E; [done|]. cbn [skip_space]. by rewrite Hw, andb_false_r.
Qed.

Lemma token_solid q : load8 m q <> 0 -> (token q).1 <> 0.
Proof. intros H0. unfold token. by repeat case_match; b2p; cbn; try done; lia. Qed.

Lemma gettoken_ends s (Q : Z * Z * Z -> Z -> Prop) :
  s <= es -> (forall t s', s <= s' <= es -> (t.1.1 <> 0 \/ solid s -> s < s') -> Q t s') -> ends (gettoken m es) s Q.
Proof.
  intros Hs HQ. unfold ends. rewrite gettoken_at.
  pose proof (skip_space_range (to_end es s) s Hs ltac:(lia)) as H1. pose proof (skip_space_stops (to_end es s) s Hs ltac:(lia)) as H2.
  pose proof (skip_solid s Hs) as H6.
  set (q := skip_space m es s (to_end es s)) in *. destruct (token_range q ltac:(lia) H2) as [H3 H4].
  pose proof (skip_space_range (to_end es (token q).2) (token q).2 ltac:(lia) ltac:(lia)) as H5.
  apply HQ; [lia|]. cbn [fst]. intros [Ht|Ht]; [lia|]. destruct (H6 Ht) as [H7 H8].
  assert ((token q).1 <> 0) by (rewrite H8; apply token_solid, Ht). lia.
Qed.

Lemma peek_ends toks s (Q : bool -> Z -> Prop) :
  s <= es -> (forall b s', s <= s' <= es -> (b = true -> solid s') -> Q b s') -> ends (peek m es toks) s Q.
Proof.
  intros Hs HQ. unfold ends, peek, mbind, M_bind, get, modify, mret, M_ret.
  pose proof (skip_space_range (to_end es s) s Hs ltac:(lia)) as H1. pose proof (skip_space_stops (to_end es s) s Hs ltac:(lia)) as H2.
  set (q := skip_space m es s (to_end es s)) in *. apply HQ; [done|]. intros [Hn Ha]%andb_true_iff.
  apply negb_true_iff, Z.eqb_neq in Hn. split; [done|]. destruct H2 as [->|H2]; [congruence|done].
Qed.

(** ** The loops *)

Lemma redirs_ends n : forall s (Q : list redir -> Z -> Prop),
  s <= es -> (to_end es s <= n)%nat -> (forall rs s', s <= s' <= es -> Q rs s') -> ends (redirs_loop m es n) s Q.
Proof.
  induction n as [|n IH]; intros s Q Hs Hn HQ; cbn [redirs_loop]; apply ends_bind, peek_ends; try done; intros [] s1 H1 Hb; cbn [negb].
  - destruct (skip_solid s1 ltac:(lia) (Hb eq_refl)) as [? _]. unfold to_end in *. lia.
  - apply HQ. done.
  - apply ends_bind, gettoken_ends; [lia|]. intros [[tok q] eq] s2 H2 Ht2.
    apply ends_bind, gettoken_ends; [lia|]. intros [[tok' q'] eq'] s3 H3 _. case_match; [done|].
    apply ends_bind, IH; [lia| |].
    + assert (s1 < s2) by (apply Ht2; right; by apply Hb). unfold to_end in *. lia.
    + intros rs s4 ?. apply HQ. lia.
  - apply HQ. done.
Qed.

Lemma parseredirs_ends s (Q : list redir -> Z -> Prop) :
  s <= es -> (forall rs s', s <= s' <= es -> Q rs s') -> ends (parseredirs m es) s Q.
Proof. intros Hs HQ. unfold parseredirs. apply ends_bind. unfold ends at 1, get. by apply redirs_ends. Qed.

Lemma parseargs_ends n : forall argc argv rs s (Q : cmd -> Z -> Prop),
  s <= es -> (to_end es s <= n)%nat -> (forall c s', s <= s' <= es -> Q c s') -> ends (parseargs m es argc argv rs n) s Q.
Proof.
  induction n as [|n IH]; intros argc argv rs s Q Hs Hn HQ; cbn [parseargs]; apply ends_bind, peek_ends; try done; intros b s1 H1 Hb;
    (destruct b; [apply HQ; done|]); apply ends_bind, gettoken_ends; try lia; intros [[tok q] eq] s2 H2 Ht2;
    (destruct (Z.eqb_spec tok 0); [apply HQ; lia|]); (case_match; [done|]); (case_match; [done|]);
    apply ends_bind, parseredirs_ends; try lia; intros rs' s3 H3; cbn [fst] in *.
  - assert (s1 < s2) by auto. unfold to_end in *. lia.
  - assert (s1 < s2) by auto. apply IH; [lia|unfold to_end in *; lia|]. intros c s4 ?. apply HQ. lia.
Qed.

Lemma parseback_ends n : forall c s (Q : cmd -> Z -> Prop),
  s <= es -> (to_end es s <= n)%nat -> (forall c s', s <= s' <= es -> Q c s') -> ends (parseback m es c n) s Q.
Proof.
  induction n as [|n IH]; intros c s Q Hs Hn HQ; cbn [parseback]; apply ends_bind, peek_ends; try done; intros [] s1 H1 Hb; cbn [negb];
    try (by apply HQ).
  - destruct (skip_solid s1 ltac:(lia) (Hb eq_refl)) as [? _]. unfold to_end in *. lia.
  - apply ends_bind, gettoken_ends; [lia|]. intros t s2 H2 Ht2. assert (s1 < s2) by (apply Ht2; right; by apply Hb).
    apply IH; [lia|unfold to_end in *; lia|]. intros c' s4 H4. apply HQ. lia.
Qed.

(** ** The recursion: between two calls of the same function a character is
    taken *)

Abbreviation onward s := (fun (_ : cmd) s' => s <= s' <= es).

Definition line_ends n : Prop := forall s, s <= es -> (4 * to_end es s + 4 <= n)%nat -> ends (parseline m es n) s (onward s).
Definition pipe_ends n : Prop := forall s, s <= es -> (4 * to_end es s + 3 <= n)%nat -> ends (parsepipe m es n) s (onward s).
Definition exec_ends n : Prop := forall s, s <= es -> (4 * to_end es s + 2 <= n)%nat -> ends (parseexec m es n) s (onward s).
Definition block_ends n : Prop := forall s, s <= es -> (4 * to_end es s + 1 <= n)%nat -> ends (parseblock m es n) s (onward s).

Lemma line_step n : pipe_ends n -> line_ends n -> line_ends (S n).
Proof.
  intros Hp Hl s Hs Hn. cbn [parseline]. apply ends_bind. eapply ends_mono; [apply Hp; [done|lia]|]. intros c s1 R1. cbv beta in R1.
  apply ends_bind. unfold ends at 1, get. apply ends_bind, parseback_ends; [lia|done|]. intros c2 s2 R2.
  apply ends_bind, peek_ends; [lia|]. intros [] s3 R3 Hb; [|apply ends_ret; lia].
  apply ends_bind, gettoken_ends; [lia|]. intros t s4 R4 Ht. assert (s3 < s4) by (apply Ht; right; by apply Hb).
  apply ends_bind. eapply ends_mono; [apply Hl; [lia|unfold to_end in *; lia]|]. intros r s5 R5. apply ends_ret. cbv beta in *. lia.
Qed.

Lemma pipe_step n : exec_ends n -> pipe_ends n -> pipe_ends (S n).
Proof.
  intros He Hp s Hs Hn. cbn [parsepipe]. apply ends_bind. eapply ends_mono; [apply He; [done|lia]|]. intros c s1 R1. cbv beta in R1.
  apply ends_bind, peek_ends; [lia|]. intros [] s3 R3 Hb; [|apply ends_ret; lia].
  apply ends_bind, gettoken_ends; [lia|]. intros t s4 R4 Ht. assert (s3 < s4) by (apply Ht; right; by apply Hb).
  apply ends_bind. eapply ends_mono; [apply Hp; [lia|unfold to_end in *; lia]|]. intros r s5 R5. apply ends_ret. cbv beta in *. lia.
Qed.

Lemma exec_step n : block_ends n -> exec_ends (S n).
Proof.
  intros Hbl s Hs Hn. cbn [parseexec]. apply ends_bind, peek_ends; [lia|]. intros [] s1 R1 Hb.
  - eapply ends_mono; [apply Hbl; [lia|unfold to_end in *; lia]|]. cbv beta. lia.
  - apply ends_bind, parseredirs_ends; [lia|]. intros rs s2 R2. apply ends_bind. unfold ends at 1, get.
    apply parseargs_ends; [lia|done|]. lia.
Qed.

Lemma block_step n : line_ends n -> block_ends (S n).
Proof.
  intros Hl s Hs Hn. cbn [parseblock]. apply ends_bind, peek_ends; [lia|]. intros [] s1 R1 Hb; cbn [negb]; [|done].
  apply ends_bind, gettoken_ends; [lia|]. intros t s2 R2 Ht. assert (s1 < s2) by (apply Ht; right; by apply Hb).
  apply ends_bind. eapply ends_mono; [apply Hl; [lia|unfold to_end in *; lia]|]. intros c s3 R3. cbv beta in R3.
  apply ends_bind, peek_ends; [lia|]. intros [] s4 R4 Hb4; cbn [negb]; [|done].
  apply ends_bind, gettoken_ends; [lia|]. intros t5 s5 R5 _.
  apply ends_bind, parseredirs_ends; [lia|]. intros rs s6 R6. apply ends_ret. cbv beta in *. lia.
Qed.

Lemma parse_ends n : line_ends n /\ pipe_ends n /\ exec_ends n /\ block_ends n.
Proof.
  induction n as [|n (H1 & H2 & H3 & H4)]; [split_and!; intros s Hs Hn; lia|].
  split_and!; [by apply line_step|by apply pipe_step|by apply exec_step|by apply block_step].
Qed.
End Ends.

(** ** Writing commands *)

Definition wordchar (c : Z) : Prop := c <> 0 /\ among whitespace c = false /\ among symbols c = false.
Definition word (w : list Z) : Prop := w <> [] /\ Forall wordchar w.

(** A redirection: the file, and whether it is for output. *)
Definition rtext (r : list Z * bool) : list Z := (if r.2 then 62 else 60) :: r.1 ++ [32].
Definition rtexts (rs : list (list Z * bool)) : list Z := concat (rtext <$> rs).

(** The mode and the descriptor for it. *)
Definition rmode (out : bool) : Z := if out then Z.lor O_WRONLY O_CREATE else O_RDONLY.
Definition rfd (out : bool) : Z := if out then 1 else 0.

Definition parens (b : bool) (s : list Z) : list Z := if b then 40 :: s ++ [41] else s.

(** A command as part of a line (3), before [;] (2), in a pipe (1), or as a
    simple command or block (0). *)
Fixpoint print (lv : nat) (t : tree) : list Z :=
  match t with
  | TExec ws => concat ((fun w => w ++ [32]) <$> ws)
  | TRedir t f mode fd => print 0 t ++ rtext (f, fd =? 1)
  | TPipe l r => parens (bool_decide (lv < 1)%nat) (print 0 l ++ 124 :: print 1 r)
  | TBack t => parens (bool_decide (lv < 2)%nat) (print 2 t ++ [38])
  | TList l r => parens (bool_decide (lv < 3)%nat) (print 2 l ++ 59 :: print 3 r)
  end.

(** Words without white space and symbols, at most [MAXARGS - 1] arguments,
    and redirections as the grammar has them. *)
Fixpoint writable (t : tree) : Prop :=
  match t with
  | TExec ws => Forall word ws /\ Z.of_nat (length ws) < MAXARGS
  | TRedir t f mode fd => writable t /\ word f /\ exists out, mode = rmode out /\ fd = rfd out
  | TPipe l r | TList l r => writable l /\ writable r
  | TBack t => writable t
  end.

(** ** Reading tokens *)

Section Round.
Variables (m : memory) (a : Z) (T : list Z).
Abbreviation es := (a + Z.of_nat (length T)).
Hypothesis Hm : holds_at m a T.
Hypothesis Hes : load8 m es = 0.

(** Where the text [txt] begins that is left of the line. *)
Definition pos (txt : list Z) : Z := es - Z.of_nat (length txt).

Lemma pos_cons c txt : pos (c :: txt) + 1 = pos txt.
Proof. unfold pos. cbn. lia. Qed.

Lemma pos_app t txt : pos (t ++ txt) + Z.of_nat (length t) = pos txt.
Proof. unfold pos. rewrite length_app. lia. Qed.

Lemma to_end_pos txt : to_end es (pos txt) = length txt.
Proof. unfold to_end, pos. lia. Qed.

Lemma suffix_length txt : txt `suffix_of` T -> (length txt <= length T)%nat.
Proof. intros [pre ->]. rewrite length_app. lia. Qed.

Lemma load_pos c txt : (c :: txt) `suffix_of` T -> load8 m (pos (c :: txt)) = c.
Proof.
  intros [pre E]. replace (pos (c :: txt)) with (a + Z.of_nat (length pre)).
  - apply Hm. rewrite E. by apply list_lookup_middle.
  - unfold pos. rewrite E, length_app. lia.
Qed.

Lemma load_end : load8 m (pos []) = 0.
Proof. unfold pos. cbn. by rewrite Z.sub_0_r. Qed.

Lemma suffix_cons c txt : (c :: txt) `suffix_of` T -> txt `suffix_of` T.
Proof. intros [pre E]. exists (pre ++ [c]). by rewrite <- app_assoc. Qed.

Lemma suffix_drop t txt : (t ++ txt) `suffix_of` T -> txt `suffix_of` T.
Proof. intros [pre E]. exists (pre ++ t). by rewrite <- app_assoc. Qed.

(** A text that does not begin with a space. *)
Definition ns (txt : list Z) : Prop := match txt with [] => True | c :: _ => c <> 0 /\ among whitespace c = false end.

Lemma pos_lt c txt : pos (c :: txt) < es.
Proof. unfold pos. cbn. lia. Qed.

Lemma skip_ns txt n : txt `suffix_of` T -> ns txt -> skip_space m es (pos txt) n = pos txt.
Proof.
  intros Hs Hn. destruct n; cbn [skip_space]; [done|]. destruct txt as [|c txt].
  - rewrite load_end. by rewrite andb_false_r.
  - rewrite (load_pos c) by done. destruct Hn as [_ ->]. by rewrite andb_false_r.
Qed.

Lemma skip_one txt : (32 :: txt) `suffix_of` T -> ns txt ->
  skip_space m es (pos (32 :: txt)) (to_end es (pos (32 :: txt))) = pos txt.
Proof.
  intros Hs Hn. rewrite to_end_pos. cbn [length skip_space]. rewrite (load_pos 32) by done.
  rewrite (proj2 (Z.ltb_lt _ _)) by apply pos_lt. cbn [andb]. rewrite pos_cons. apply skip_ns; [by eapply suffix_cons|done].
Qed.

Lemma skip_word_all w txt : (w ++ 32 :: txt) `suffix_of` T -> Forall wordchar w ->
  skip_word m es (pos (w ++ 32 :: txt)) (to_end es (pos (w ++ 32 :: txt))) = pos (32 :: txt).
Proof.
  rewrite to_end_pos. induction w as [|c w IH]; intros Hs Hw; cbn [app length skip_word].
  - rewrite (load_pos 32) by done. by rewrite andb_false_r.
  - apply Forall_cons in Hw as [(H0 & H1 & H2) Hw]. cbn [app] in Hs.
    rewrite (load_pos c), H1, H2, (proj2 (Z.ltb_lt _ _)) by (done || apply pos_lt). cbn [andb negb]. rewrite pos_cons.
    apply IH; [by eapply suffix_cons|done].
Qed.

Lemma get_sym c txt : (c :: txt) `suffix_of` T -> among singles c = true -> ns txt ->
  gettoken m es (pos (c :: txt)) = Ok (c, pos (c :: txt), pos txt) (pos txt).
Proof.
  intros Hs Hc Hn. rewrite gettoken_at. cbv zeta.
  assert (c <> 0 /\ among whitespace c = false) as [H0 Hw].
  { unfold among in Hc. cbn in Hc. rewrite !orb_true_iff, !Z.eqb_eq in Hc. by repeat destruct Hc as [->|Hc]. }
  rewrite (skip_ns (c :: txt)) by done. unfold token. rewrite (load_pos c), Hc, (proj2 (Z.eqb_neq _ _)) by done. cbn [fst snd].
  rewrite pos_cons, skip_ns by (done || by eapply suffix_cons). done.
Qed.

Lemma get_gt txt : (62 :: txt) `suffix_of` T -> ns txt -> hd 0 txt <> 62 ->
  gettoken m es (pos (62 :: txt)) = Ok (62, pos (62 :: txt), pos txt) (pos txt).
Proof.
  intros Hs Hn Hh. rewrite gettoken_at. cbv zeta. rewrite (skip_ns (62 :: txt)) by done. unfold token.
  rewrite (load_pos 62) by done. change (among singles 62) with false. cbn [Z.eqb]. rewrite pos_cons.
  assert ((load8 m (pos txt) =? 62) = false) as ->.
  { apply Z.eqb_neq. destruct txt as [|c txt]; [by rewrite load_end|]. by rewrite (load_pos c) by (by eapply suffix_cons). }
  cbn. rewrite skip_ns by (done || by eapply suffix_cons). done.
Qed.

Lemma get_word w txt : (w ++ 32 :: txt) `suffix_of` T -> word w -> ns txt ->
  gettoken m es (pos (w ++ 32 :: txt)) = Ok (97, pos (w ++ 32 :: txt), pos (32 :: txt)) (pos txt).
Proof.
  intros Hs [Hne Hw] Hn. rewrite gettoken_at. cbv zeta. destruct w as [|c w]; [done|].
  pose proof (Forall_inv Hw) as (H0 & H1 & H2). cbn [app] in *.
  rewrite (skip_ns (c :: w ++ 32 :: txt)) by done. unfold token. rewrite (load_pos c), (proj2 (Z.eqb_neq c 0)) by done.
  assert (among singles c = false /\ (c =? 62) = false) as [-> ->].
  { unfold among in *. cbn in *. rewrite !orb_false_iff in *. tauto. }
  pose proof (skip_word_all (c :: w) txt Hs Hw) as E. cbn [app] in E. cbn [fst snd]. rewrite E.
  rewrite skip_one by (done || by apply (suffix_drop (c :: w))). done.
Qed.

Lemma get_end : gettoken m es (pos []) = Ok (0, pos [], pos []) (pos []).
Proof.
  rewrite gettoken_at. cbv zeta. rewrite to_end_pos. cbn [length skip_space]. unfold token. rewrite load_end. cbn.
  by rewrite to_end_pos.
Qed.

Lemma peek_at toks txt : txt `suffix_of` T -> ns txt ->
  peek m es toks (pos txt) = Ok (match txt with [] => false | c :: _ => among toks c end) (pos txt).
Proof.
  intros Hs Hn. unfold peek, mbind, M_bind, get, modify. rewrite (skip_ns txt) by done. unfold mret, M_ret. f_equal.
  destruct txt as [|c txt]; [by rewrite load_end|]. rewrite (load_pos c) by done. destruct Hn as [H0 _].
  by rewrite (proj2 (Z.eqb_neq _ _)).
Qed.

(** ** Reading commands *)

(** The pointers [q] to [e] enclose the word [w]. *)
Definition span (x : Z * Z) (w : list Z) : Prop :=
  word w /\ (length w <= length T)%nat /\ holds_at m x.1 w /\ x.2 = x.1 + Z.of_nat (length w) /\ ~ wordchar (load8 m x.2).

Fixpoint reads (c : cmd) (t : tree) : Prop :=
  match c, t with
  | EXEC argv, TExec ws => Forall2 span argv ws
  | REDIR c q e mode fd, TRedir t f mode' fd' => reads c t /\ span (q, e) f /\ mode = mode' /\ fd = fd'
  | PIPE l r, TPipe l' r' | LIST l r, TList l' r' => reads l l' /\ reads r r'
  | BACK c, TBack t => reads c t
  | _, _ => False
  end.

Lemma holds_suffix t txt : (t ++ txt) `suffix_of` T -> holds_at m (pos (t ++ txt)) t.
Proof.
  induction t as [|c t IH]; intros Hs; [by intros k c Hk|]. cbn [app] in *. apply holds_at_cons. split; [by apply load_pos|].
  rewrite pos_cons. apply IH. by eapply suffix_cons.
Qed.

Lemma span_at w txt : (w ++ 32 :: txt) `suffix_of` T -> word w -> span (pos (w ++ 32 :: txt), pos (32 :: txt)) w.
Proof.
  intros Hs Hw. split; [done|]. split; [apply suffix_length in Hs; rewrite length_app in Hs; lia|]. split; [by apply holds_suffix|]. cbn. split; [by rewrite pos_app|].
  rewrite (load_pos 32) by (by apply suffix_drop in Hs). intros (_ & ? & _). done.
Qed.

Lemma word_ns w txt : word w -> ns (w ++ txt).
Proof. intros [Hne Hw]. destruct w as [|c w]; [done|]. by destruct (Forall_inv Hw) as (? & ? & _). Qed.

Lemma word_not w txt l : word w -> (forall c, wordchar c -> among l c = false) ->
  match w ++ txt with [] => false | c :: _ => among l c end = false.
Proof. intros [Hne Hw] Hl. destruct w as [|c w]; [done|]. apply Hl. by apply (Forall_inv Hw). Qed.

(** What may follow a command: the end of the line, or one of [l]. *)
Definition follows (l txt : list Z) : Prop := match txt with [] => True | c :: _ => among l c = true end.

Lemma follows_ns l txt : (forall c, among l c = true -> c <> 0 /\ among whitespace c = false) -> follows l txt -> ns txt.
Proof. intros Hl. destruct txt; [done|]. apply Hl. Qed.

Definition stops : list Z := [124; 41; 38; 59].

Lemma stops_ns c : among stops c = true -> c <> 0 /\ among whitespace c = false /\ among [60; 62] c = false /\ (c =? 40) = false.
Proof. unfold among. cbn. rewrite !orb_true_iff, !Z.eqb_eq. intros H. by repeat destruct H as [->|H]. Qed.

Lemma stop_ns txt : follows stops txt -> ns txt.
Proof. apply follows_ns. intros c Hc. apply stops_ns in Hc. tauto. Qed.

Lemma rtexts_ns rs txt : ns txt -> ns (rtexts rs ++ txt).
Proof. destruct rs as [|[f []] rs]; cbn; done. Qed.

Lemma length_rtexts r rs : length (rtexts (r :: rs)) = (length (rtext r) + length (rtexts rs))%nat.
Proof. unfold rtexts. cbn. by rewrite !length_app. Qed.

Definition rspan (x : redir) (r : list Z * bool) : Prop :=
  let '(q, e, mode, fd) := x in span (q, e) r.1 /\ mode = rmode r.2 /\ fd = rfd r.2.

Lemma redirs_read rs : forall n txt, (rtexts rs ++ txt) `suffix_of` T -> Forall (fun r => word r.1) rs -> follows stops txt \/ (exists w t, txt = w ++ t /\ word w) ->
  (length (rtexts rs) <= n)%nat ->
  exists xs, redirs_loop m es n (pos (rtexts rs ++ txt)) = Ok xs (pos txt) /\ Forall2 rspan xs rs.
Proof.
  assert (forall c, wordchar c -> among [60; 62] c = false) as Hwc.
  { intros c (_ & _ & H). unfold among in *. cbn in *. rewrite !orb_false_iff in *. tauto. }
  induction rs as [|[f out] rs IH]; intros n txt Hs Hrs Ht Hn.
  - exists []. split; [|done]. cbn [app rtexts concat fmap list_fmap] in *.
    assert (ns txt) as Hns by (destruct Ht as [Ht|(w & t & -> & Hw)]; [by apply stop_ns|by apply word_ns]).
    assert (match txt with [] => false | c :: _ => among [60; 62] c end = false) as E.
    { destruct Ht as [Ht|(w & t & -> & Hw)]; [|by apply word_not]. destruct txt; [done|]. apply stops_ns, Ht. }
    destruct n; cbn [redirs_loop]; erewrite bind_ok by (by apply peek_at); rewrite E; done.
  - apply Forall_cons in Hrs as [Hf Hrs]. cbn [fst] in Hf.
    assert (ns (rtexts rs ++ txt)) as Hns.
    { apply rtexts_ns. destruct Ht as [Ht|(w & t & -> & Hw)]; [by apply stop_ns|by apply word_ns]. }
    assert (rtexts ((f, out) :: rs) ++ txt = (if out then 62 else 60) :: f ++ 32 :: rtexts rs ++ txt) as E.
    { unfold rtexts, rtext. cbn. by rewrite <- !app_assoc. }
    rewrite E in *. destruct n as [|n]; [cbn in Hn; lia|]. cbn [redirs_loop].
    erewrite bind_ok by (apply peek_at; [done|by destruct out]).
    replace (among [60; 62] (if out then 62 else 60)) with true by (by destruct out). cbn [negb].
    assert (gettoken m es (pos ((if out then 62 else 60) :: f ++ 32 :: rtexts rs ++ txt)) =
      Ok (if out then 62 else 60, pos ((if out then 62 else 60) :: f ++ 32 :: rtexts rs ++ txt), pos (f ++ 32 :: rtexts rs ++ txt))
        (pos (f ++ 32 :: rtexts rs ++ txt))) as Eg.
    { destruct out; [|apply get_sym; [done|done|by apply word_ns]]. apply get_gt; [done|by apply word_ns|].
      destruct Hf as [Hne Hf]. destruct f as [|c f]; [done|]. cbn. intros ->. by destruct (Forall_inv Hf) as (_ & _ & ?). }
    erewrite bind_ok by exact Eg. apply suffix_cons in Hs.
    erewrite bind_ok by (by apply get_word). cbv beta iota. change (97 =? 97) with true. cbn [negb].
    destruct (IH n txt) as (xs & Ex & Hx); [by apply (suffix_cons 32), (suffix_drop f)|done|done| |].
    { rewrite length_rtexts in Hn. cbn in Hn. lia. }
    erewrite bind_ok by exact Ex. destruct out; cbn [Z.eqb Pos.eqb]; eexists; (split; [reflexivity|]); constructor; try done;
      (split; [by apply span_at|done]).
Qed.

(** ** Simple commands *)

Definition wtexts (ws : list (list Z)) : list Z := concat ((fun w => w ++ [32]) <$> ws).

Lemma wtexts_cons w ws txt : wtexts (w :: ws) ++ txt = w ++ 32 :: wtexts ws ++ txt.
Proof. unfold wtexts. cbn. by rewrite <- !app_assoc. Qed.

Lemma length_wtexts ws : (length ws <= length (wtexts ws))%nat.
Proof. clear. unfold wtexts. induction ws as [|w ws IH]; cbn; [lia|]. rewrite !length_app. cbn. lia. Qed.

Lemma wtexts_ns ws txt : Forall word ws -> ns txt -> ns (wtexts ws ++ txt).
Proof. intros Hw Hn. destruct Hw as [|w ws Hw _]; [done|]. rewrite wtexts_cons. by apply word_ns. Qed.

Lemma parseredirs_read rs txt : (rtexts rs ++ txt) `suffix_of` T -> Forall (fun r => word r.1) rs ->
  follows stops txt \/ (exists w t, txt = w ++ t /\ word w) ->
  exists xs, parseredirs m es (pos (rtexts rs ++ txt)) = Ok xs (pos txt) /\ Forall2 rspan xs rs.
Proof.
  intros Hs Hrs Ht. unfold parseredirs. erewrite bind_ok by done. rewrite to_end_pos.
  apply redirs_read; try done. rewrite length_app. lia.
Qed.

Lemma word_stops c : wordchar c -> among stops c = false.
Proof. intros (_ & _ & H). unfold among in *. cbn in *. rewrite !orb_false_iff in *. tauto. Qed.

(** The redirections follow the last word; without words they have been read
    already. *)
Lemma args_read ws : forall n argv xs0 rs txt,
  let tail := match ws with [] => txt | _ => rtexts rs ++ txt end in
  (wtexts ws ++ tail) `suffix_of` T -> Forall word ws -> Forall (fun r => word r.1) rs -> follows stops txt ->
  Z.of_nat (length argv + length ws) < MAXARGS -> (length ws <= n)%nat ->
  exists argv' xs', parseargs m es (Z.of_nat (length argv)) argv xs0 n (pos (wtexts ws ++ tail)) =
      Ok (redircmds (EXEC (argv ++ argv')) (xs0 ++ xs')) (pos txt) /\
    Forall2 span argv' ws /\ Forall2 rspan xs' (match ws with [] => [] | _ => rs end).
Proof.
  induction ws as [|w ws IH]; intros n argv xs0 rs txt tail Hs Hw Hrs Ht Hmax Hn; subst tail.
  - change (wtexts [] ++ txt) with txt in *. cbv iota in *. exists [], []. rewrite !app_nil_r. split; [|done].
    destruct n; cbn [parseargs]; (erewrite bind_ok by (apply peek_at; [done|by apply stop_ns]));
      (destruct txt as [|c txt]; [cbv beta iota; by erewrite bind_ok by apply get_end|]); change (among stops c = true) in Ht;
      change [124; 41; 38; 59] with stops; cbv beta; by rewrite Ht.
  - apply Forall_cons in Hw as [Hw Hws]. cbv iota in *.
    set (tail := rtexts rs ++ txt) in *. rewrite wtexts_cons in *.
    assert (ns (wtexts ws ++ tail)) as Hns by (by apply wtexts_ns, rtexts_ns, stop_ns).
    assert ((wtexts ws ++ tail) `suffix_of` T) as Hs' by (by apply (suffix_cons 32), (suffix_drop w)).
    destruct n as [|n]; [cbn in Hn; lia|]. cbn [parseargs].
    erewrite bind_ok by (apply peek_at; [done|by apply word_ns]). rewrite word_not by (done || apply word_stops). 
    erewrite bind_ok by (by apply get_word). cbv beta iota. change (97 =? 0) with false. change (97 =? 97) with true. cbn [negb].
    cbn [length] in Hmax. rewrite (proj2 (Z.leb_gt _ _)) by lia.
    assert (exists xs, parseredirs m es (pos (wtexts ws ++ tail)) = Ok xs (pos (wtexts ws ++ match ws with [] => txt | _ => tail end)) /\
      Forall2 rspan xs (match ws with [] => rs | _ => [] end)) as (xs & Ex & Hx).
    { destruct ws as [|w' ws'].
      - change (wtexts [] ++ tail) with tail. change (wtexts [] ++ txt) with txt. apply parseredirs_read; auto.
      - cbv iota. apply (parseredirs_read []); [done|done|]. right.
        rewrite wtexts_cons. apply Forall_cons in Hws as [Hw' _]. by eauto. }
    erewrite bind_ok by exact Ex.
    replace (Z.of_nat (length argv) + 1) with (Z.of_nat (length (argv ++ [(pos (w ++ 32 :: wtexts ws ++ tail), pos (32 :: wtexts ws ++ tail))]))) by (rewrite length_app; cbn; lia).
    destruct (IH n (argv ++ [(pos (w ++ 32 :: wtexts ws ++ tail), pos (32 :: wtexts ws ++ tail))]) (xs0 ++ xs) rs txt) as (argv' & xs' & Ea & Ha & Hx'); try done.
    + destruct ws; [|done]. by apply (suffix_drop (rtexts rs)).
    + rewrite length_app. cbn. lia.
    + cbn in Hn. lia.
    + fold tail in Ea. rewrite Ea. eexists (_ :: argv'), (xs ++ xs'). split_and!.
      * by rewrite <- !app_assoc.
      * constructor; [by apply span_at|done].
      * destruct ws; [by apply Forall2_nil_inv_r in Hx' as ->; rewrite app_nil_r|]. by apply Forall2_nil_inv_r in Hx as ->.
Qed.

(** The command with its redirections, the last one outermost. *)
Definition wraps (t : tree) (rs : list (list Z * bool)) : tree :=
  foldl (fun t r => TRedir t r.1 (rmode r.2) (rfd r.2)) t rs.

Lemma redircmds_reads xs rs : Forall2 rspan xs rs -> forall c t, reads c t -> reads (redircmds c xs) (wraps t rs).
Proof.
  induction 1 as [|[[[q e] mode] fd] [f out] xs rs (Hf & -> & ->) _ IH]; intros c t Hc; [done|]. cbn. by apply IH.
Qed.

Lemma follows_sub l l' txt : (forall c, among l c = true -> among l' c = true) -> follows l txt -> follows l' txt.
Proof. intros H. destruct txt; [done|]. apply H. Qed.

Lemma follows_not l l' txt : (forall c, among l c = true -> among l' c = false) -> follows l txt ->
  match txt with [] => false | c :: _ => among l' c end = false.
Proof. intros H. destruct txt; [done|]. apply H. Qed.

Ltac listed :=
  let H := fresh in intros ? H; unfold among in H; cbn in H; rewrite ?orb_true_iff, ?Z.eqb_eq in H;
  repeat destruct H as [->|H]; done.

Lemma print_ns lv t txt : writable t -> ns txt -> ns (print lv t ++ txt).
Proof.
  revert lv txt. induction t as [ws|t IH f mode fd|l IHl r IHr|l IHl r IHr|t IH]; intros lv txt Hw Hn; cbn [print writable] in *.
  - exact (wtexts_ns ws txt (proj1 Hw) Hn).
  - rewrite <- app_assoc. apply IH; [tauto|]. cbn. by destruct (fd =? 1).
  - unfold parens. case_bool_decide; [done|]. rewrite <- app_assoc. apply IHl; [tauto|done].
  - unfold parens. case_bool_decide; [done|]. rewrite <- app_assoc. apply IHl; [tauto|done].
  - unfold parens. case_bool_decide; [done|]. rewrite <- app_assoc. by apply IH.
Qed.

(** [k] ampersands. *)
Definition amps (k : nat) : list Z := replicate k 38%Z.

(** What each parsing function does with the text of [t]. *)
Definition as_exec (t : tree) : Prop := forall n rs txt,
  (print 0 t ++ rtexts rs ++ txt) `suffix_of` T -> Forall (fun r => word r.1) rs -> follows stops txt ->
  (4 * length (print 0 t ++ rtexts rs ++ txt) + 2 <= n)%nat ->
  exists c, parseexec m es n (pos (print 0 t ++ rtexts rs ++ txt)) = Ok c (pos txt) /\ reads c (wraps t rs).

Definition as_pipe (t : tree) : Prop := forall n txt,
  (print 1 t ++ txt) `suffix_of` T -> follows [41; 38; 59] txt -> (4 * length (print 1 t ++ txt) + 3 <= n)%nat ->
  exists c, parsepipe m es n (pos (print 1 t ++ txt)) = Ok c (pos txt) /\ reads c t.

Definition as_back (t : tree) : Prop := forall n k txt,
  (print 2 t ++ amps k ++ txt) `suffix_of` T -> follows [41; 59] txt ->
  (4 * length (print 2 t ++ amps k ++ txt) + 3 <= n)%nat ->
  exists c c', parsepipe m es n (pos (print 2 t ++ amps k ++ txt)) = Ok c (pos c') /\
    exists d, parseback m es c (length c') (pos c') = Ok d (pos txt) /\ reads d (Nat.iter k TBack t).

Definition as_line (t : tree) : Prop := forall n txt,
  (print 3 t ++ txt) `suffix_of` T -> follows [41] txt -> (4 * length (print 3 t ++ txt) + 4 <= n)%nat ->
  exists c, parseline m es n (pos (print 3 t ++ txt)) = Ok c (pos txt) /\ reads c t.

Lemma simple_as_exec ws : writable (TExec ws) -> as_exec (TExec ws).
Proof.
  intros [Hw Hmax] n rs txt Hs Hrs Ht Hn. change (print 0 (TExec ws)) with (wtexts ws) in *.
  destruct n as [|n]; [lia|]. cbn [parseexec].
  erewrite bind_ok by (apply peek_at; [done|by apply wtexts_ns, rtexts_ns, stop_ns]).
  assert (match wtexts ws ++ rtexts rs ++ txt with [] => false | c :: _ => among [40] c end = false) as ->.
  { destruct ws as [|w ws]; [|rewrite wtexts_cons; apply word_not; [by apply (Forall_inv Hw)|]].
    - destruct rs as [|[f []] rs]; [|done|done]. apply (follows_not stops); [listed|done].
    - intros c (_ & _ & H). unfold among in *. cbn in *. rewrite !orb_false_iff in *. tauto. }
  assert (exists xs, parseredirs m es (pos (wtexts ws ++ rtexts rs ++ txt)) =
      Ok xs (pos (wtexts ws ++ match ws with [] => txt | _ => rtexts rs ++ txt end)) /\
    Forall2 rspan xs (match ws with [] => rs | _ => [] end)) as (xs & Ex & Hx).
  { destruct ws as [|w ws]; [apply parseredirs_read; auto|]. apply (parseredirs_read []); [done|done|right].
    rewrite wtexts_cons. apply Forall_inv in Hw. by eauto. }
  cbv beta iota. erewrite bind_ok by exact Ex. erewrite bind_ok by done. rewrite to_end_pos.
  destruct (args_read ws (length (wtexts ws ++ match ws with [] => txt | _ => rtexts rs ++ txt end)) [] xs rs txt) as (argv & xs' & Ea & Ha & Hx'); try done.
  - destruct ws; [|done]. by apply (suffix_drop (rtexts rs)).
  - rewrite length_app. pose proof (length_wtexts ws). lia.
  - cbn in Ea. exists (redircmds (EXEC argv) (xs ++ xs')). split; [exact Ea|]. apply redircmds_reads; [|done].
    destruct ws; [apply Forall2_nil_inv_r in Hx' as ->; by rewrite app_nil_r|]. by apply Forall2_nil_inv_r in Hx as ->.
Qed.

Lemma redir_as_exec t f mode fd : writable (TRedir t f mode fd) -> as_exec t -> as_exec (TRedir t f mode fd).
Proof.
  intros (_ & Hf & out & -> & ->) IH n rs txt Hs Hrs Ht Hn. cbn [print] in *.
  replace (rfd out =? 1) with out in * by (by destruct out).
  replace ((print 0 t ++ rtext (f, out)) ++ rtexts rs ++ txt) with (print 0 t ++ rtexts ((f, out) :: rs) ++ txt) in *
    by (unfold rtexts; cbn [fmap list_fmap concat]; by rewrite <- !app_assoc).
  apply IH; auto.
Qed.

Lemma block_as_exec t : writable t -> print 0 t = 40 :: print 3 t ++ [41] -> as_line t -> as_exec t.
Proof.
  intros Hwr E IH n rs txt Hs Hrs Ht Hn. rewrite E in *. cbn [app] in *. rewrite <- app_assoc in *. cbn [app] in *.
  rewrite length_cons, length_app, length_cons in Hn.
  destruct n as [|[|n]]; [lia|lia|]. cbn [parseexec].
  erewrite bind_ok by (by apply peek_at). cbv beta iota. change (among [40] 40) with true. cbv iota. cbn [parseblock].
  erewrite bind_ok by (by apply peek_at). cbv beta iota. change (negb (among [40] 40)) with false. cbv iota.
  assert (ns (print 3 t ++ 41 :: rtexts rs ++ txt)) as Hns by (by apply print_ns).
  erewrite bind_ok by (by apply get_sym). cbv beta.
  destruct (IH n (41 :: rtexts rs ++ txt)) as (c & Ec & Hc); [by eapply suffix_cons|done|rewrite length_app, length_cons; lia|].
  assert ((41 :: rtexts rs ++ txt) `suffix_of` T) as Hs' by (by eapply suffix_drop, suffix_cons).
  erewrite bind_ok by exact Ec. erewrite bind_ok by (by apply peek_at). cbv beta iota. change (negb (among [41] 41)) with false. cbv iota.
  erewrite bind_ok by (apply get_sym; [done|done|by apply rtexts_ns, stop_ns]). cbv beta.
  destruct (parseredirs_read rs txt) as (xs & Ex & Hx); [by eapply suffix_cons|done|by left|].
  erewrite bind_ok by exact Ex. eexists. split; [done|]. by apply redircmds_reads.
Qed.

Lemma exec_as_pipe t : print 1 t = print 0 t -> as_exec t -> as_pipe t.
Proof.
  intros E IH n txt Hs Ht Hn. rewrite E in *. destruct n as [|n]; [lia|]. cbn [parsepipe].
  destruct (IH n [] txt) as (c & Ec & Hc); [done|done|by eapply follows_sub, Ht; listed|cbn; lia|].
  erewrite bind_ok by exact Ec.
  erewrite bind_ok by (apply peek_at; [by eapply suffix_drop|eapply follows_ns, Ht; listed]).
  rewrite (follows_not [41; 38; 59]) by (listed || done). by exists c.
Qed.

Lemma pipe_as_pipe l r : writable r -> as_exec l -> as_pipe r -> as_pipe (TPipe l r).
Proof.
  intros Hwr IHl IHr n txt Hs Ht Hn. change (print 1 (TPipe l r)) with (print 0 l ++ 124 :: print 1 r) in *.
  rewrite <- app_assoc in *. cbn [app] in *. destruct n as [|n]; [lia|]. cbn [parsepipe].
  destruct (IHl n [] (124 :: print 1 r ++ txt)) as (c & Ec & Hc); [done|done|done|cbn [app rtexts fmap list_fmap concat]; lia|].
  apply suffix_drop in Hs. rewrite length_app, length_cons in Hn.
  erewrite bind_ok by exact Ec. erewrite bind_ok by (by apply peek_at). cbv beta iota. change (among [124] 124) with true. cbv iota.
  erewrite bind_ok by (apply get_sym; [done|done|apply print_ns; [done|eapply follows_ns, Ht; listed]]). cbv beta.
  destruct (IHr n txt) as (d & Ed & Hd); [by eapply suffix_cons|done|lia|].
  erewrite bind_ok by exact Ed. by eexists.
Qed.

Lemma parseback_amps k : forall c n txt, (amps k ++ txt) `suffix_of` T -> follows [41; 59] txt -> (k <= n)%nat ->
  parseback m es c n (pos (amps k ++ txt)) = Ok (Nat.iter k BACK c) (pos txt).
Proof.
  induction k as [|k IH]; intros c n txt Hs Ht Hn.
  - destruct n; cbn [parseback]; (erewrite bind_ok by (apply peek_at; [done|eapply follows_ns, Ht; listed]));
      rewrite (follows_not [41; 59]) by (listed || done); done.
  - cbn [amps replicate app] in *. fold (amps k) in *. destruct n as [|n]; [lia|]. cbn [parseback].
    erewrite bind_ok by (by apply peek_at). cbv beta iota. change (negb (among [38] 38)) with false. cbv iota.
    assert (ns (amps k ++ txt)) by (destruct k; [eapply follows_ns, Ht; listed|done]).
    erewrite bind_ok by (by apply get_sym). cbv beta. rewrite IH by (done || lia || by eapply suffix_cons).
    by rewrite <- Nat.iter_succ_r.
Qed.

Lemma iter_reads k c t : reads c t -> reads (Nat.iter k BACK c) (Nat.iter k TBack t).
Proof. intros H. by induction k. Qed.

Lemma pipe_as_back t : print 2 t = print 1 t -> as_pipe t -> as_back t.
Proof.
  intros E IH n k txt Hs Ht Hn. rewrite E in *.
  destruct (IH n (amps k ++ txt)) as (c & Ec & Hc); [done|destruct k; [by eapply follows_sub, Ht; listed|done]|done|].
  exists c, (amps k ++ txt). split; [done|]. exists (Nat.iter k BACK c). split; [|by apply iter_reads].
  apply parseback_amps; [by eapply suffix_drop|done|]. rewrite length_app. unfold amps. rewrite length_replicate. lia.
Qed.

Lemma back_as_back t : as_back t -> as_back (TBack t).
Proof.
  intros IH n k txt Hs Ht Hn. change (print 2 (TBack t)) with (print 2 t ++ [38]) in *.
  replace ((print 2 t ++ [38]) ++ amps k ++ txt) with (print 2 t ++ amps (S k) ++ txt) in * by (by rewrite <- app_assoc).
  destruct (IH n (S k) txt Hs Ht Hn) as (c & c' & Ec & d & Ed & Hd). exists c, c'. split; [done|]. exists d. split; [done|].
  by rewrite <- Nat.iter_succ_r.
Qed.

Lemma back_as_line t : print 3 t = print 2 t -> as_back t -> as_line t.
Proof.
  intros E IH n txt Hs Ht Hn. rewrite E in *. destruct n as [|n]; [lia|]. cbn [parseline].
  destruct (IH n 0%nat txt) as (c & c' & Ec & d & Ed & Hd); [done|by eapply follows_sub, Ht; listed|cbn; lia|].
  erewrite bind_ok by exact Ec. erewrite bind_ok by done. rewrite to_end_pos. erewrite bind_ok by exact Ed.
  erewrite bind_ok by (apply peek_at; [by eapply suffix_drop|eapply follows_ns, Ht; listed]).
  rewrite (follows_not [41]) by (listed || done). by exists d.
Qed.

Lemma list_as_line l r : writable r -> as_back l -> as_line r -> as_line (TList l r).
Proof.
  intros Hwr IHl IHr n txt Hs Ht Hn. change (print 3 (TList l r)) with (print 2 l ++ 59 :: print 3 r) in *.
  rewrite <- app_assoc in *. cbn [app] in *. destruct n as [|n]; [lia|]. cbn [parseline].
  destruct (IHl n 0%nat (59 :: print 3 r ++ txt)) as (c & c' & Ec & d & Ed & Hd); [done|done|cbn; lia|].
  apply suffix_drop in Hs. rewrite length_app, length_cons in Hn.
  erewrite bind_ok by exact Ec. erewrite bind_ok by done. rewrite to_end_pos. erewrite bind_ok by exact Ed.
  erewrite bind_ok by (by apply peek_at). cbv beta iota. change (among [59] 59) with true. cbv iota.
  erewrite bind_ok by (apply get_sym; [done|done|apply print_ns; [done|eapply follows_ns, Ht; listed]]). cbv beta.
  destruct (IHr n txt) as (e & Ee & He); [by eapply suffix_cons|done|lia|].
  erewrite bind_ok by exact Ee. by eexists.
Qed.

Lemma parse_print t : writable t -> as_exec t /\ as_pipe t /\ as_back t /\ as_line t.
Proof.
  assert (forall t, print 1 t = print 0 t -> print 2 t = print 1 t -> print 3 t = print 2 t -> as_exec t ->
    as_exec t /\ as_pipe t /\ as_back t /\ as_line t) as up.
  { intros t' H1 H2 H3 He. pose proof (exec_as_pipe t' H1 He) as Hp. pose proof (pipe_as_back t' H2 Hp) as Hb.
    pose proof (back_as_line t' H3 Hb). done. }
  induction t as [ws|t IH f mode fd|l IHl r IHr|l IHl r IHr|t IH]; intros Hw.
  - by apply up, simple_as_exec.
  - apply up, redir_as_exec; try done. by apply IH, Hw.
  - destruct (IHl (proj1 Hw)) as (He & _), (IHr (proj2 Hw)) as (_ & Hp & _).
    pose proof (pipe_as_pipe l r (proj2 Hw) He Hp) as Hp'. pose proof (pipe_as_back (TPipe l r) eq_refl Hp') as Hb.
    pose proof (back_as_line (TPipe l r) eq_refl Hb) as Hl. pose proof (block_as_exec (TPipe l r) Hw eq_refl Hl). done.
  - destruct (IHl (proj1 Hw)) as (_ & _ & Hb & _), (IHr (proj2 Hw)) as (_ & _ & _ & Hl).
    pose proof (list_as_line l r (proj2 Hw) Hb Hl) as Hl'. pose proof (block_as_exec (TList l r) Hw eq_refl Hl') as He.
    pose proof (exec_as_pipe (TList l r) eq_refl He) as Hp. pose proof (pipe_as_back (TList l r) eq_refl Hp). done.
  - destruct (IH Hw) as (_ & _ & Hb & _). pose proof (back_as_back t Hb) as Hb'.
    pose proof (back_as_line (TBack t) eq_refl Hb') as Hl. pose proof (block_as_exec (TBack t) Hw eq_refl Hl) as He.
    pose proof (exec_as_pipe (TBack t) eq_refl He). done.
Qed.

(** ** The null bytes *)

(** [m'] differs from [m] only in null bytes where [m] has no letter of a word. *)
Definition nulled (m' : memory) : Prop :=
  forall x, load8 m' x = load8 m x \/ load8 m' x = 0 /\ ~ wordchar (load8 m x).

Definition nulls_in (m1 m2 : memory) : Prop := forall x, load8 m1 x = 0 -> load8 m2 x = 0.

Lemma nulled_store m' e : nulled m' -> ~ wordchar (load8 m e) -> nulled (store8 m' e 0).
Proof. intros H He x. rewrite load8_store8. case_decide; [subst; by right|apply H]. Qed.

Lemma nulls_in_store m' e : nulls_in m' (store8 m' e 0).
Proof. intros x Hx. rewrite load8_store8. by case_decide. Qed.

Lemma nulls_in_trans m1 m2 m3 : nulls_in m1 m2 -> nulls_in m2 m3 -> nulls_in m1 m3.
Proof. unfold nulls_in. auto. Qed.

Lemma string_at_word m' w : forall q n, (length w <= n)%nat -> Forall wordchar w -> holds_at m q w -> nulled m' ->
  load8 m' (q + Z.of_nat (length w)) = 0 -> string_at m' q n = w.
Proof.
  induction w as [|c w IH]; intros q n Hn Hw Hq Hm' He; cbn [length] in *.
  - rewrite Z.add_0_r in He. destruct n; cbn [string_at]; [done|]. by rewrite He.
  - destruct n as [|n]; [lia|]. apply Forall_cons in Hw as [Hc Hw]. apply holds_at_cons in Hq as [Hq Hq'].
    assert (load8 m' q = c) as E by (destruct (Hm' q) as [->|[_ Hn']]; [done|by rewrite Hq in Hn']).
    cbn [string_at]. rewrite E, (proj2 (Z.eqb_neq _ _)) by (by destruct Hc). f_equal.
    apply IH; [lia|done|done|done|]. rewrite <- He. f_equal. lia.
Qed.

Lemma span_string m' q e w : span (q, e) w -> nulled m' -> load8 m' e = 0 -> string_at m' q (length T) = w.
Proof. intros ([_ Hw] & Hl & Hq & E & _) Hm' He. cbn in *. subst e. by apply string_at_word. Qed.

Lemma argv_nulled argv ws : Forall2 span argv ws -> forall m1, nulled m1 ->
  let m2 := foldl (fun m a => store8 m a.2 0) m1 argv in
  nulled m2 /\ nulls_in m1 m2 /\ forall m', nulls_in m2 m' -> Forall (fun x => load8 m' x.2 = 0) argv.
Proof.
  induction 1 as [|[q e] w argv ws Hx _ IH]; intros m1 H1; [split_and!; [done|by intros x|by constructor]|]. cbn [foldl snd]. destruct Hx as (_ & _ & _ & _ & He).
  destruct (IH (store8 m1 e 0) (nulled_store _ _ H1 He)) as (H2 & Hin & Hz). split; [done|]. split.
  - eapply nulls_in_trans, Hin. apply nulls_in_store.
  - intros m' Hm'. constructor; [|by apply Hz]. cbn. apply Hm', Hin. by rewrite load8_store8_eq.
Qed.

Lemma nulterminate_strings c : forall t m1, reads c t -> nulled m1 ->
  nulled (nulterminate m1 c) /\ nulls_in m1 (nulterminate m1 c) /\
  forall m', nulled m' -> nulls_in (nulterminate m1 c) m' -> strings m' (length T) c = t.
Proof.
  assert (forall l r tl tr m1,
    (forall m1, nulled m1 -> nulled (nulterminate m1 l) /\ nulls_in m1 (nulterminate m1 l) /\
      forall m', nulled m' -> nulls_in (nulterminate m1 l) m' -> strings m' (length T) l = tl) ->
    (forall m1, nulled m1 -> nulled (nulterminate m1 r) /\ nulls_in m1 (nulterminate m1 r) /\
      forall m', nulled m' -> nulls_in (nulterminate m1 r) m' -> strings m' (length T) r = tr) ->
    nulled m1 -> nulled (nulterminate (nulterminate m1 l) r) /\ nulls_in m1 (nulterminate (nulterminate m1 l) r) /\
      forall m', nulled m' -> nulls_in (nulterminate (nulterminate m1 l) r) m' ->
        strings m' (length T) l = tl /\ strings m' (length T) r = tr) as both.
  { intros l r tl tr m1 Hl Hr H1. destruct (Hl m1 H1) as (H2 & H12 & Sl), (Hr _ H2) as (H3 & H23 & Sr).
    split_and!; [done|by eapply nulls_in_trans|]. intros m' Hm' Hin. split; [|by apply Sr].
    apply Sl; [done|]. by eapply nulls_in_trans. }
  induction c as [argv|c IH q e mode fd|l IHl r IHr|l IHl r IHr|c IH]; intros [ws|t f mode' fd'|tl tr|tl tr|t] m1 Hr H1; try done; cbn [reads nulterminate strings] in *.
  - destruct (argv_nulled argv ws Hr m1 H1) as (H2 & Hin & Hz). split_and!; [done|done|]. intros m' Hm' Hin'. f_equal.
    specialize (Hz m' Hin'). clear -Hr Hz Hm'. induction Hr as [|[q e] w argv ws Hx _ IH]; [done|].
    apply Forall_cons in Hz as [He Hz]. cbn. f_equal; [by eapply span_string|by apply IH].
  - destruct Hr as (Hc & Hf & -> & ->), (IH t m1 Hc H1) as (H2 & Hin & Hz).
    assert (nulls_in (nulterminate m1 c) (store8 (nulterminate m1 c) e 0)) as Hs by apply nulls_in_store.
    split_and!; [apply nulled_store; [done|apply Hf]|by eapply nulls_in_trans|]. intros m' Hm' Hin'. f_equal.
    + apply Hz; [done|]. by eapply nulls_in_trans.
    + eapply span_string; [done|done|]. apply Hin'. by rewrite load8_store8_eq.
  - destruct Hr as [Hl Hr], (both l r tl tr m1) as (H2 & Hin & Hz); auto. split_and!; [done|done|].
    intros m' Hm' Hin'. by destruct (Hz m' Hm' Hin') as [-> ->].
  - destruct Hr as [Hl Hr], (both l r tl tr m1) as (H2 & Hin & Hz); auto. split_and!; [done|done|].
    intros m' Hm' Hin'. by destruct (Hz m' Hm' Hin') as [-> ->].
  - destruct (IH t m1 Hr H1) as (H2 & Hin & Hz). split_and!; [done|done|]. intros m' Hm' Hin'. f_equal. auto.
Qed.
End Round.

(** ** The theorems *)

(** C32: the shell's parser ends on every null-terminated line of [len] bytes,
    with recursion at most [4 * len + 4] deep: either with one of its error
    messages, or with a command that it read up to the end of the line. *)
Theorem parsecmd_total m s len n s0 : 0 <= len -> load8 m (s + len) = 0 -> (4 * Z.to_nat len + 4 <= n)%nat ->
  (exists msg s', parsecmd m s len n s0 = Panic msg s') \/
  exists c, parsecmd m s len n s0 = Ok (nulterminate m c, c) (s + len).
Proof.
  intros Hlen Hend Hn. assert (ends (parsecmd m s len n) s0 (fun x s' => x.1 = nulterminate m x.2 /\ s' = s + len)) as H.
  { unfold parsecmd. apply ends_bind. unfold ends, modify. cbv beta iota. apply ends_bind. eapply ends_mono.
    - destruct (parse_ends m (s + len) Hend n) as [Hl _]. apply Hl; [lia|unfold to_end; lia].
    - intros c s1 Hs1. apply ends_bind, peek_ends; [done|apply Hs1|]. intros b s2 _ _.
      apply ends_bind. unfold ends, get. cbv beta iota. destruct (s2 =? s + len) eqn:E; [|done]. cbn. by apply Z.eqb_eq in E. }
  unfold ends in H. destruct (parsecmd m s len n s0) as [[m' c] s'|msg s'| |]; try done; [right|left; eauto].
  destruct H as [Hm ->]. cbn in Hm. subst m'. by exists c.
Qed.

(** A line at address 4096. *)
Definition at_4096 (txt : list Z) : memory := foldl (fun m x => <[4096 + Z.of_nat x.1 := x.2]> m) ∅ (imap pair txt).

Lemma parsecmd_total_witness :
  let m := at_4096 (chars "ls (") in
  (exists msg s', parsecmd m 4096 4 20 0 = Panic msg s') \/ exists c, parsecmd m 4096 4 20 0 = Ok (nulterminate m c, c) 4100.
Proof. apply (parsecmd_total (at_4096 (chars "ls (")) 4096 4 20 0); [lia|vm_compute; reflexivity|cbn; lia]. Defined.

(** C31: every command can be written as a line that the parser reads back as
    that command: redirections, pipes, lists, background commands and blocks
    nest as they were written, and the strings that the result points to, ended
    by the null bytes of [nulterminate], are the words. *)
Theorem parsecmd_print t m s s0 : writable t -> holds_at m s (print 3 t) ->
  load8 m (s + Z.of_nat (length (print 3 t))) = 0 ->
  exists m' c s', parsecmd m s (Z.of_nat (length (print 3 t))) (4 * length (print 3 t) + 4) s0 = Ok (m', c) s' /\
    strings m' (length (print 3 t)) c = t.
Proof.
  intros Hw Hm Hes. destruct (parse_print m s (print 3 t) Hm Hes t Hw) as (_ & _ & _ & Hl).
  destruct (Hl (4 * length (print 3 t) + 4)%nat []) as (c & Ec & Hc); [by rewrite app_nil_r|done|rewrite app_nil_r; lia|].
  assert (nulled m m) as Hn by (intros x; by left).
  destruct (nulterminate_strings m (print 3 t) c t m Hc Hn) as (H1 & _ & H2).
  exists (nulterminate m c), c. eexists. split; [|apply H2; [done|by intros x]]. unfold parsecmd. erewrite bind_ok by done.
  rewrite app_nil_r in Ec. replace (pos s (print 3 t) (print 3 t)) with s in Ec by (unfold pos; lia). 
  erewrite bind_ok by exact Ec. erewrite bind_ok by exact (peek_at m s (print 3 t) Hm Hes [] [] (suffix_nil _) I).
  erewrite bind_ok by done. unfold pos. cbn [length]. rewrite Z.sub_0_r, Z.eqb_refl. done.
Qed.

(** The line [cat x |wc &;ls >y |(;ls )]. *)
Definition sample : tree :=
  TList (TBack (TPipe (TExec [chars "cat"; chars "x"]) (TExec [chars "wc"])))
    (TPipe (TRedir (TExec [chars "ls"]) (chars "y") (rmode true) (rfd true)) (TList (TExec []) (TExec [chars "ls"]))).

Lemma parsecmd_print_witness :
  exists m' c s', parsecmd (at_4096 (print 3 sample)) 4096 (Z.of_nat (length (print 3 sample))) (4 * length (print 3 sample) + 4) 0 = Ok (m', c) s' /\
    strings m' (length (print 3 sample)) c = sample.
Proof.
  assert (forall s, forallb (fun c => negb (c =? 0) && negb (among whitespace c) && negb (among symbols c)) s = true -> s <> [] -> word s) as Hword.
  { intros s Hs Hne. split; [done|]. apply List.Forall_forall. intros c Hc.
    apply (proj1 (List.forallb_forall _ _) Hs) in Hc. rewrite !andb_true_iff, !negb_true_iff, Z.eqb_neq in Hc. unfold wordchar. tauto. }
  apply (parsecmd_print sample (at_4096 (print 3 sample)) 4096 0).
  - cbn [writable sample]. repeat match goal with
      | |- word _ => by apply Hword
      | |- _ /\ _ => split
      | |- Forall _ _ => constructor
      | |- _ < _ => vm_compute; reflexivity
      | |- exists _, _ => by exists true
      end.
  - intros k c Hk. do 40 (destruct k as [|k]; [vm_compute in Hk |- *; congruence|]). vm_compute in Hk. done.
  - vm_compute. reflexivity.
Defined.
End ShProofs.
