(* ===== verification/ShRun.v ===== *)
(** * What the shell's processes do

    [runcmd] of sh.c with the effect that the system calls have on the
    descriptor table: the programs run with exactly the descriptors that the
    command gives them. *)

From S2P Require Import Prelude Memory FileState Ulib Cprintf Sh.

Module ShRun.
Import Sh.

(** What a descriptor refers to: what the shell was started with, a file it
    opened, or an end of the pipe that the process with the name [id] made. *)
Inductive desc : Type :=
| Given (n : nat)
| Opened (file : list Z) (mode : Z)
| PipeRead (id : list bool)
| PipeWrite (id : list bool).

Definition table : Type := list (option desc).

(** The lowest free slot, which [fdalloc] takes. *)
Fixpoint lowest {A} (t : list (option A)) : option nat :=
  match t with
  | [] => None
  | None :: _ => Some 0%nat
  | Some _ :: t => S <$> lowest t
  end.

(** What can be seen of a process: the calls that leave it, with both outcomes
    of those that can fail, and all its descriptors whenever it runs a program,
    waits or ends. *)
Inductive act : Type :=
| AExit (t : table)
| ALoop
| AExec (argv : list (list Z)) (t : table) (failed : act)
| AOpen (file : list Z) (mode : Z) (failed opened : act)
| APipe (failed made : act)
| AFork (failed child parent : act)
| AWait (t : table) (k : act)
| AChdir (path : list Z) (failed done : act)
| AWrite (d : option desc) (s : list Z) (k : act).

(** The open descriptor [fd], which [argfd] finds. *)
Definition slot (t : table) (fd : Z) : option desc := if fd <? 0 then None else mjoin (t !! Z.to_nat fd).
Definition put (t : table) (fd : Z) (d : option desc) : table := <[Z.to_nat fd := d]> t.

(** The effect of the calls on the descriptors: [sys_close], [sys_dup],
    [sys_open] once it has the file, and [sys_pipe] once it has the pipe. *)
Definition do_close (t : table) (fd : Z) : table :=
  match slot t fd with Some _ => put t fd None | None => t end.

Definition do_open (t : table) (d : desc) : option (Z * table) :=
  i ← lowest t; Some (Z.of_nat i, <[i := Some d]> t).

Definition do_dup (t : table) (fd : Z) : option (Z * table) :=
  d ← slot t fd; do_open t d.

Definition do_pipe (t : table) (r w : desc) : option (Z * Z * table) :=
  '(fd0, t0) ← do_open t r; '(fd1, t1) ← do_open t0 w; Some (fd0, fd1, t1).

Section Run.
(** The number of the process with the name [id]. *)
Variable pid : list bool -> Z.
Hypothesis Hpid : forall id, 0 < pid id.

(** The process [id] with the descriptors [t]. The child of a fork, which has
    the same descriptors, and what is left of the process after a fork or a
    pipe, have names of their own. *)
Fixpoint run (p : prog) (t : table) (id : list bool) : act :=
  match p with
  | Exit => AExit t
  | Loop => ALoop
  | Exec argv failed => AExec argv t (run failed t id)
  | Open file mode k =>
      match do_open t (Opened file mode) with
      | None => run (k (-1)) t id
      | Some (fd, t') => AOpen file mode (run (k (-1)) t id) (run (k fd) t' id)
      end
  | Close fd k => run k (do_close t fd) id
  | Dup fd k => run k (match do_dup t fd with Some (_, t') => t' | None => t end) id
  | Pipe k =>
      match do_pipe t (PipeRead id) (PipeWrite id) with
      | None => run (k None) t id
      | Some (fd0, fd1, t') => APipe (run (k None) t id) (run (k (Some (fd0, fd1))) t' (false :: id))
      end
  | Fork k =>
      AFork (run (k (-1)) t id) (run (k 0) t (true :: id)) (run (k (pid (true :: id))) t (false :: id))
  | Wait k => AWait t (run k t id)
  | Chdir path k => AChdir path (run (k (-1)) t id) (run (k 0) t id)
  | Write fd s k => AWrite (slot t fd) s (run k t id)
  end.

(** ** What a command means *)

(** Redirections and pipes replace one descriptor each, and nothing else.  The
    process that makes a pipe has its ends until both sides have been started,
    and has its own descriptors again when it waits for them and ends. *)
Definition complain (t : table) (s : list Z) : act := AWrite (slot t 2) s (AExit t).

Definition forked (t : table) (child parent : act) : act := AFork (complain t (chars "fork" ++ newline)) child parent.

Definition piped (t : table) (id : list bool) : table := put (put t 3 (Some (PipeRead id))) 4 (Some (PipeWrite id)).

Fixpoint meaning (c : tree) (t : table) (id : list bool) : act :=
  match c with
  | TExec [] => AExit t
  | TExec (f :: args) => AExec (f :: args) t (complain t (chars "exec " ++ f ++ chars " failed" ++ newline))
  | TRedir c file mode fd =>
      AOpen file mode (complain (put t fd None) (chars "open " ++ file ++ chars " failed" ++ newline))
        (meaning c (put t fd (Some (Opened file mode))) id)
  | TList l r => forked t (meaning l t (true :: id)) (AWait t (meaning r t (false :: id)))
  | TPipe l r =>
      let id' := false :: id in
      APipe (complain t (chars "pipe" ++ newline))
        (forked (piped t id) (meaning l (put t 1 (Some (PipeWrite id))) (true :: id'))
        (forked (piped t id) (meaning r (put t 0 (Some (PipeRead id))) (true :: false :: id'))
          (AWait t (AWait t (AExit t)))))
  | TBack c => forked t (meaning c t (true :: id)) (AExit t)
  end.

(** The redirections of the grammar. *)
Fixpoint redirs_ok (c : tree) : bool :=
  match c with
  | TExec _ => true
  | TRedir c _ _ fd => ((fd =? 0) || (fd =? 1)) && redirs_ok c
  | TPipe l r | TList l r => redirs_ok l && redirs_ok r
  | TBack c => redirs_ok c
  end.

Ltac reveal :=
  cbn -[chars app]; unfold forked, complain, piped, do_pipe, do_dup, do_open, do_close, put, slot;
  change (Z.of_nat 4) with 4; change (Z.of_nat 3) with 3;
  change (Z.to_nat 0) with 0%nat; change (Z.to_nat 1) with 1%nat; change (Z.to_nat 2) with 2%nat;
  change (Z.to_nat 3) with 3%nat; change (Z.to_nat 4) with 4%nat; cbn -[chars app].

(** C33: a process of the shell whose descriptors 0, 1 and 2 are open and whose
    descriptors 3 and 4 are free runs a command, whose redirections are of 0 or
    1 as the parser makes them, as it is meant.  Every program of it gets the
    process's descriptors with the one that a redirection or its side of a pipe
    replaces, and no other end of a pipe; the process that made a pipe waits for
    both sides and ends without an end of it; errors are written to descriptor
    2; and each process waits for the children of its pipe or of the left side
    of its list, and for no others. *)
Theorem runcmd_means c d0 d1 d2 rest id : redirs_ok c = true ->
  run (runcmd c) (Some d0 :: Some d1 :: Some d2 :: None :: None :: rest) id =
  meaning c (Some d0 :: Some d1 :: Some d2 :: None :: None :: rest) id.
Proof.
  assert (forall id', (pid id' =? -1) = false) as E1 by (intros id'; specialize (Hpid id'); lia).
  assert (forall id', (pid id' =? 0) = false) as E0 by (intros id'; specialize (Hpid id'); lia).
  revert d0 d1 d2 id. induction c as [[|f args]|c IH f mode fd|l IHl r IHr|l IHl r IHr|c IH]; intros d0 d1 d2 id H; cbn [redirs_ok] in H.
  - done.
  - done.
  - apply andb_true_iff in H as [Hfd H]. rewrite orb_true_iff, !Z.eqb_eq in Hfd.
    destruct Hfd as [->| ->]; reveal; apply f_equal2; try done; apply IH, H.
  - apply andb_true_iff in H as [Hl Hr]. do 3 (reveal; rewrite ?E1, ?E0). rewrite IHl, IHr by done. reflexivity.
  - apply andb_true_iff in H as [Hl Hr]. do 3 (reveal; rewrite ?E1, ?E0). rewrite IHl, IHr by done. reflexivity.
  - do 3 (reveal; rewrite ?E1, ?E0). by rewrite IH by done.
Qed.
End Run.

(** [cat <x |wc &] *)
Lemma runcmd_means_witness :
  let c := TBack (TPipe (TRedir (TExec [chars "cat"]) (chars "x") O_RDONLY 0) (TExec [chars "wc"])) in
  let t := Some (Given 0) :: Some (Given 1) :: Some (Given 2) :: replicate 13 None in
  run (fun _ => 7) (runcmd c) t [] = meaning c t [].
Proof. apply (runcmd_means (fun _ => 7)); [intros id; lia|vm_compute; reflexivity]. Defined.
End ShRun.
