(* ===== verification/Umalloc.v ===== *)
(** * umalloc.c: the memory allocator of the user library

    A circular list of free blocks in address order, kept in the headers of the
    blocks.  A header is two words: the address of the next free block and the
    size of this one, in units of a header.  [base] is the address of the
    static header.  [grow] is the kernel's part of [sbrk]: the new size of a
    process of the given size, or [None]. *)

From S2P Require Import Prelude Memory Mmu.

Module Umalloc.
Record heap : Type := Heap {
  hmem : memory;
  freep : Z;
  brk : Z;   (* the size of the process *)
}.

Section Code.
Variable base : Z.
Variable grow : Z -> Z -> option Z.

Definition set_hmem (m : memory) (h : heap) : heap := Heap m (freep h) (brk h).
Definition set_freep (p : Z) (h : heap) : heap := Heap (hmem h) p (brk h).
Definition set_brk (b : Z) (h : heap) : heap := Heap (hmem h) (freep h) b.

(** A word of the process's memory. *)
Definition hload (a : Z) : M heap Z :=
  h ← get;
  if (0 <=? a) && (a + 4 <=? brk h) then mret (load32 (hmem h) a) else fault.

Definition hstore (a v : Z) : M heap unit :=
  h ← get;
  if (0 <=? a) && (a + 4 <=? brk h) then modify (set_hmem (store32 (hmem h) a v)) else fault.

(** [sizeof(Header)], [p + n] for a [Header *p], [&p->s.ptr] and [&p->s.size] *)
Definition HEADER : Z := 8.
Definition padd (p n : Z) : Z := u32 (p + HEADER * n).
Definition s_ptr (p : Z) : Z := p.
Definition s_size (p : Z) : Z := p + 4.

Definition sbrk (n : Z) : M heap Z :=
  h ← get;
  match grow (brk h) n with
  | None => mret (u32 (-1))
  | Some b => modify (set_brk b);; mret (brk h)
  end.

(** The loop of [free], at most [n] steps of it. *)
Fixpoint free_loop (bp p : Z) (n : nat) : M heap Z :=
  q ← hload (s_ptr p);
  if (p <? bp) && (bp <? q) then mret p else
  if (q <=? p) && ((p <? bp) || (bp <? q)) then mret p else
  match n with
  | O => spin
  | S n => free_loop bp q n
  end.

(** Joining the block [bp] to the free block after it, and the free block [p]
    to [bp]. *)
Definition join_upper (bp p : Z) : M heap unit :=
  bsize ← hload (s_size bp);
  q ← hload (s_ptr p);
  if padd bp bsize =? q then
    qsize ← hload (s_size q);
    hstore (s_size bp) (u32 (bsize + qsize));;
    qq ← hload (s_ptr q);
    hstore (s_ptr bp) qq
  else hstore (s_ptr bp) q.

Definition join_lower (bp p : Z) : M heap unit :=
  psize ← hload (s_size p);
  if padd p psize =? bp then
    bsize ← hload (s_size bp);
    hstore (s_size p) (u32 (psize + bsize));;
    bq ← hload (s_ptr bp);
    hstore (s_ptr p) bq
  else hstore (s_ptr p) bp.

Definition free (ap : Z) (n : nat) : M heap unit :=
  let bp := padd ap (-1) in
  h ← get;
  p ← free_loop bp (freep h) n;
  join_upper bp p;;
  join_lower bp p;;
  modify (set_freep p).

Definition morecore (nu : Z) (n : nat) : M heap Z :=
  let nu := if nu <? 4096 then 4096 else nu in
  p ← sbrk (i32 (u32 (nu * HEADER)));
  if p =? u32 (-1) then mret 0 else
  hstore (s_size p) nu;;
  free (padd p 1) n;;
  h ← get;
  mret (freep h).

(** A block of [nunits] units from the free block [p], which has [size]. *)
Definition take_block (nunits prevp p size : Z) : M heap Z :=
  p ← (if size =? nunits then
         q ← hload (s_ptr p);
         hstore (s_ptr prevp) q;;
         mret p
       else
         let size := size - nunits in
         hstore (s_size p) size;;
         let p := padd p size in
         hstore (s_size p) nunits;;
         mret p);
  modify (set_freep prevp);;
  mret (padd p 1).

(** The loop of [malloc], at most [n] steps of it. *)
Fixpoint malloc_loop (nunits prevp p : Z) (fuel n : nat) : M heap Z :=
  size ← hload (s_size p);
  if nunits <=? size then take_block nunits prevp p size
  else
    h ← get;
    next ← (if p =? freep h then c ← morecore nunits fuel; mret (if c =? 0 then None else Some c)
            else mret (Some p));
    match next, n with
    | None, _ => mret 0
    | Some p, S n => q ← hload (s_ptr p); malloc_loop nunits p q fuel n
    | Some _, O => spin
    end.

Definition malloc (nbytes : Z) (n : nat) : M heap Z :=
  let nunits := u32 (u32 (nbytes + HEADER - 1) / HEADER + 1) in
  h ← get;
  prevp ← (if freep h =? 0 then
             modify (set_freep base);;
             hstore (s_ptr base) base;;
             hstore (s_size base) 0;;
             mret base
           else mret (freep h));
  p ← hload (s_ptr prevp);
  malloc_loop nunits prevp p n n.
End Code.
End Umalloc.
