(* ===== verification/UmallocProofs.v ===== *)
(** * The allocator of the user library

    The free list is ordered, fully joined and apart from the blocks in use;
    [malloc] returns memory that nothing else uses, and [free] takes it back. *)

From S2P Require Import Prelude Memory Mmu Umalloc.

Module UmallocProofs.
Import Umalloc.

(** ** Blocks *)

(** A block: the address of its header and its size in units. *)
Abbreviation block := (Z * Z)%type.

(** Its end; a header has at least its own unit. *)
Definition extent (c : block) : Z := c.1 + 8 * Z.max 1 c.2.
Definition apart (c d : block) : Prop := extent c <= d.1 \/ extent d <= c.1.

Definition units (l : list block) : Z := foldr (fun c z => c.2 + z) 0 l.

Lemma units_app l1 l2 : units (l1 ++ l2) = units l1 + units l2.
Proof. unfold units. induction l1 as [|c l1 IH]; cbn; [done|]. rewrite IH. lia. Qed.

(** Blocks in the order of their addresses, none adjacent to the next. *)
Definition before (c d : block) : Prop := extent c <= d.1 /\ c.1 + 8 * c.2 < d.1.

Fixpoint ordered (l : list block) : Prop :=
  match l with
  | [] => True
  | c :: l => (forall d, d ∈ l -> before c d) /\ ordered l
  end.

Lemma ordered_app l1 l2 :
  ordered (l1 ++ l2) <-> ordered l1 /\ ordered l2 /\ forall c d, c ∈ l1 -> d ∈ l2 -> before c d.
Proof.
  induction l1 as [|c l1 IH]; cbn [app ordered].
  - split; [|tauto]. intros H. split_and!; [done|done|]. intros c d Hc. by apply elem_of_nil in Hc.
  - rewrite IH. setoid_rewrite elem_of_app. setoid_rewrite elem_of_cons. split.
    + intros (Hc & H1 & H2 & H12). split_and!; auto. intros c' d [->|Hc'] Hd; auto.
    + intros ([Hc H1] & H2 & H12). split_and!; auto. intros d [Hd|Hd]; auto.
Qed.

(** ** The list in memory *)

Definition first (l : list block) (b : Z) : Z := match l with [] => b | c :: _ => c.1 end.

Fixpoint seg (m : memory) (l : list block) (b : Z) : Prop :=
  match l with
  | [] => True
  | c :: l => load32 m c.1 = first l b /\ load32 m (c.1 + 4) = c.2 /\ seg m l b
  end.

Lemma first_app l1 l2 b : first (l1 ++ l2) b = first l1 (first l2 b).
Proof. by destruct l1. Qed.

Lemma seg_split m l1 l2 b : seg m (l1 ++ l2) b <-> seg m l1 (first l2 b) /\ seg m l2 b.
Proof.
  induction l1 as [|c l1 IH]; cbn [app seg]; [tauto|]. rewrite IH, first_app. tauto.
Qed.

Lemma seg_frame m m' l b : (forall c x, c ∈ l -> c.1 <= x < c.1 + 8 -> load8 m' x = load8 m x) ->
  seg m l b -> seg m' l b.
Proof.
  induction l as [|c l IH]; intros H Hs; [done|]. destruct Hs as (H1 & H2 & Hs). cbn [seg].
  assert (forall x, c.1 <= x < c.1 + 8 -> load8 m' x = load8 m x) as Hc by (intros x; apply H; left).
  rewrite <- H1, <- H2. split_and!; [apply load32_ext; intros; apply Hc; lia|apply load32_ext; intros; apply Hc; lia|].
  apply IH; [|done]. intros d x Hd. apply H. by right.
Qed.

Section Heap.
Variable base : Z.
Variable grow : Z -> Z -> option Z.
Hypothesis Hgrow : forall t n t', 0 <= n -> grow t n = Some t' -> t' = t + n /\ t' <= KERNBASE.

(** A block of the heap. *)
Definition within (h : heap) (c : block) : Prop := base + 8 <= c.1 /\ 1 <= c.2 /\ c.1 + 8 * c.2 <= brk h.

(** The free blocks [fl], with the static header first, and the blocks [used]. *)
Record heap_ok (h : heap) (fl used : list block) : Prop := {
  ok_brk : 0 < base /\ base + 8 <= brk h <= KERNBASE;
  ok_head : head fl = Some (base, 0);
  ok_seg : seg (hmem h) fl base;
  ok_ordered : ordered fl;
  ok_freep : freep h ∈ fl.*1;
  ok_fl : forall c, c ∈ fl -> c = (base, 0) \/ within h c;
  ok_used : forall c, c ∈ used -> within h c /\ load32 (hmem h) (c.1 + 4) = c.2;
  ok_disjoint : ForallOrdPairs apart used;
  ok_apart : forall c d, c ∈ fl -> d ∈ used -> apart c d;
}.

Lemma wp_hload h a (Q : Z -> heap -> Prop) : 0 <= a -> a + 4 <= brk h -> Q (load32 (hmem h) a) h -> wp (hload a) h Q.
Proof.
  intros H1 H2 HQ. unfold hload. wsteps. by rewrite (proj2 (Z.leb_le 0 a)), (proj2 (Z.leb_le _ _)) by done.
Qed.

Lemma wp_hstore h a v (Q : unit -> heap -> Prop) : 0 <= a -> a + 4 <= brk h ->
  Q tt (set_hmem (store32 (hmem h) a v) h) -> wp (hstore a v) h Q.
Proof.
  intros H1 H2 HQ. unfold hstore. wsteps. by rewrite (proj2 (Z.leb_le 0 a)), (proj2 (Z.leb_le _ _)) by done.
Qed.

Lemma padd_small p n : 0 <= p + 8 * n <= KERNBASE -> padd p n = p + 8 * n.
Proof. intros H. unfold padd, HEADER. apply u32_small. unfold is_u32, KERNBASE in *. lia. Qed.

(** A free block is inside the process. *)
Lemma fl_range h fl used c : heap_ok h fl used -> c ∈ fl ->
  base <= c.1 /\ c.1 + 8 <= brk h /\ 0 <= c.2 /\ c.1 + 8 * c.2 <= brk h /\ extent c <= brk h.
Proof.
  intros H Hc. destruct (ok_brk _ _ _ H), (ok_fl _ _ _ H c Hc) as [->|(? & ? & ?)]; unfold extent; cbn [fst snd]; lia.
Qed.

Lemma used_apart h fl used c d : heap_ok h fl (c :: used) -> d ∈ used -> apart c d.
Proof. intros H Hd. pose proof (ok_disjoint _ _ _ H) as HD. inversion HD as [|? ? HF]. by apply (proj1 (Forall_forall _ _) HF). Qed.

Lemma fl_apart h fl used c d : heap_ok h fl used -> c ∈ fl -> d ∈ fl -> c <> d -> apart c d.
Proof.
  intros H Hc Hd Hne. apply list_elem_of_split in Hc as (l1 & l2 & E). pose proof (ok_ordered _ _ _ H) as Ho. rewrite E in Ho, Hd.
  apply ordered_app in Ho as (_ & (O2 & _) & O12). rewrite elem_of_app, elem_of_cons in Hd. destruct Hd as [Hd|[Hd|Hd]]; [|done|].
  - right. by apply (O12 d c); [|left].
  - left. by apply O2.
Qed.

(** ** The loop of free *)

(** The condition on which it ends. *)
Definition here (m : memory) (bp p : Z) : Prop :=
  p < bp < load32 m p \/ load32 m p <= p /\ (p < bp \/ bp < load32 m p).

Lemma free_loop_spec h bp e : forall w n, (forall c, c ∈ w -> 0 <= c.1 /\ c.1 + 8 <= brk h) -> seg (hmem h) w e ->
  (exists c, c ∈ w /\ here (hmem h) bp c.1) -> (length w <= n)%nat ->
  wp (free_loop bp (first w e) n) h (fun p h' => h' = h /\ here (hmem h) bp p /\ p ∈ w.*1).
Proof.
  induction w as [|c w IH]; intros n Hw Hs (d & Hd & Hh) Hn; [by apply elem_of_nil in Hd|].
  destruct (Hw c) as [? ?]; [left|]. destruct Hs as (Hp & _ & Hs). cbn [first] in *.
  assert (forall (b : bool) (P : Prop), (b = true <-> P) -> b = true \/ (b = false /\ ~ P)) as dec.
  { intros [] P E; [by left|right]. split; [done|]. intros HP. by apply E in HP. }
  destruct n as [|n]; [cbn in Hn; lia|]. cbn [free_loop]. unfold s_ptr. wstep. apply wp_hload; [lia|lia|].
  destruct (dec ((c.1 <? bp) && (bp <? load32 (hmem h) c.1)) (c.1 < bp < load32 (hmem h) c.1)) as [E|[E N1]];
    [rewrite andb_true_iff, !Z.ltb_lt; lia| |]; rewrite E.
  { wsteps. split_and!; [done|left; lia|left]. }
  destruct (dec ((load32 (hmem h) c.1 <=? c.1) && ((c.1 <? bp) || (bp <? load32 (hmem h) c.1)))
    (load32 (hmem h) c.1 <= c.1 /\ (c.1 < bp \/ bp < load32 (hmem h) c.1))) as [E2|[E2 N2]];
    [rewrite andb_true_iff, orb_true_iff, !Z.ltb_lt, Z.leb_le; lia| |]; rewrite E2.
  { wsteps. split_and!; [done|right; lia|left]. }
  rewrite Hp. eapply wp_mono; [apply (IH n)|].
  - intros c' Hc'. apply Hw. by right.
  - done.
  - apply elem_of_cons in Hd as [->|Hd]; [|by eauto]. unfold here in Hh. tauto.
  - cbn in Hn. lia.
  - intros p h' (-> & Hh' & Hin). split_and!; [done|done|by right].
Qed.

(** The list from [freep] on, around to it. *)
Lemma ring h fl used : heap_ok h fl used ->
  exists f w, f.1 = freep h /\ f :: w ≡ₚ fl /\ seg (hmem h) (f :: w) f.1.
Proof.
  intros H. destruct (proj1 (list_elem_of_fmap _ _ _) (ok_freep _ _ _ H)) as (f & Ef & Hf).
  apply list_elem_of_split in Hf as (u & v & E). pose proof (ok_seg _ _ _ H) as Hs. pose proof (ok_head _ _ _ H) as Hh.
  exists f, (v ++ u). split_and!; [done| |].
  - rewrite E. rewrite (Permutation_app_comm u (f :: v)). done.
  - rewrite E in Hs, Hh. apply seg_split in Hs as [Hu Hv]. change (f :: v ++ u) with ((f :: v) ++ u).
    apply seg_split. split; [|done]. destruct u as [|c u]; cbn in Hh; simplify_eq; done.
Qed.

(** ** The place of a block in the list *)

Definition place (fl : list block) (b : Z) (l1 : list block) (c : block) (l2 : list block) : Prop :=
  fl = l1 ++ c :: l2 /\ c.1 < b /\ forall d, d ∈ l2 -> b < d.1.

Lemma place_exists b : forall fl c, head fl = Some c -> c.1 < b -> ordered fl -> (forall d, d ∈ fl -> d.1 <> b) ->
  exists l1 c l2, place fl b l1 c l2.
Proof.
  induction fl as [|c fl IH]; intros c0 Hh Hc Ho Hne; [done|]. cbn in Hh. simplify_eq. destruct Ho as [Hb Ho].
  destruct fl as [|d fl]; [exists [], c0, []; split_and!; [done|done|intros d Hd; by apply elem_of_nil in Hd]|].
  destruct (decide (d.1 < b)) as [Hd|Hd].
  - destruct (IH d) as (l1 & c & l2 & -> & H1 & H2); [done|done|done|intros d' Hd'; apply Hne; by right|].
    by exists (c0 :: l1), c, l2.
  - exists [], c0, (d :: fl). split_and!; [done|done|]. assert (d.1 <> b) by (apply Hne; right; left).
    intros d' Hd'. apply elem_of_cons in Hd' as [->|Hd']; [lia|]. destruct Ho as [Ho _]. destruct (Ho d' Hd'). unfold extent in *. lia.
Qed.

Lemma place_here h fl used b l1 c l2 : heap_ok h fl used -> place fl b l1 c l2 -> here (hmem h) b c.1.
Proof.
  intros H (E & Hc & Hl). pose proof (ok_seg _ _ _ H) as Hs. rewrite E in Hs. apply seg_split in Hs as [_ (Hs & _ & _)].
  unfold here. rewrite Hs. destruct l2 as [|d l2]; cbn [first].
  - right. destruct (fl_range _ _ _ c H) as (? & _); [rewrite E; apply elem_of_app; right; left|]. lia.
  - left. specialize (Hl d). assert (b < d.1) by (apply Hl; left). lia.
Qed.

Lemma here_place h fl used b c : heap_ok h fl used -> base < b -> c ∈ fl -> here (hmem h) b c.1 ->
  exists l1 l2, place fl b l1 c l2.
Proof.
  intros H Hb Hc Hh. apply list_elem_of_split in Hc as (l1 & l2 & E). exists l1, l2. split; [done|].
  pose proof (ok_seg _ _ _ H) as Hs. pose proof (ok_ordered _ _ _ H) as Ho. rewrite E in Hs, Ho.
  apply seg_split in Hs as [_ (Hs & _ & _)]. apply ordered_app in Ho as (_ & [Ho Ho'] & _).
  unfold here in Hh. rewrite Hs in Hh. destruct l2 as [|d l2]; cbn [first] in Hh.
  - destruct (fl_range _ _ _ c H) as (? & _); [rewrite E; apply elem_of_app; right; left|].
    split; [lia|]. intros d Hd. by apply elem_of_nil in Hd.
  - assert (before c d) as [_ Hcd] by (apply Ho; left).
    destruct (fl_range _ _ _ c H) as (? & ? & ? & _); [rewrite E; apply elem_of_app; right; left|].
    split; [lia|]. intros d' Hd'. apply elem_of_cons in Hd' as [->|Hd']; [lia|]. destruct Ho' as [Ho' _].
    destruct (Ho' d' Hd'). unfold extent in *. lia.
Qed.

Lemma place_found h fl used b n fuel : heap_ok h fl ((b, n) :: used) -> (length fl <= fuel)%nat ->
  wp (free_loop b (freep h) fuel) h (fun p h' => h' = h /\ exists l1 np l2, place fl b l1 (p, np) l2).
Proof.
  intros H Hfuel. destruct (ok_used _ _ _ H (b, n)) as [(Hb & Hn & _) _]; [left|]. cbn [fst snd] in *.
  destruct (ring _ _ _ H) as (f & w & Ef & Hp & Hs).
  assert (forall c, c ∈ f :: w <-> c ∈ fl) as Hin by (intros c; by rewrite Hp).
  destruct (place_exists b fl (base, 0)) as (l1 & c & l2 & Hpl).
  - apply (ok_head _ _ _ H).
  - cbn. lia.
  - apply (ok_ordered _ _ _ H).
  - intros d Hd E. destruct (ok_apart _ _ _ H d (b, n)) as [Ha|Ha]; [done|left| |]; unfold extent in Ha; cbn in Ha; lia.
  - rewrite <- Ef. eapply wp_mono; [apply (free_loop_spec h b f.1 (f :: w) fuel)|].
    + intros d Hd. destruct (fl_range _ _ _ d H) as (? & ? & _); [by apply Hin|]. pose proof (ok_brk _ _ _ H). lia.
    + done.
    + exists c. split; [apply Hin; rewrite (proj1 Hpl); apply elem_of_app; right; left|]. by eapply place_here.
    + apply Permutation_length in Hp. lia.
    + intros p h' (-> & Hh & Hpw). split; [done|]. apply list_elem_of_fmap in Hpw as ([p' np] & -> & Hpw).
      apply Hin in Hpw. destruct (here_place _ _ _ b (p', np) H) as (l1' & l2' & Hpl'); [lia|done|done|]. by exists l1', np, l2'.
Qed.

(** ** Joining *)

Definition same_but (m m' : memory) (a : Z) : Prop := forall x, ~ a <= x < a + 8 -> load8 m' x = load8 m x.

Lemma same_but_refl m a : same_but m m a.
Proof. done. Qed.

Lemma same_but_store m m' a e v : same_but m m' a -> a <= e <= a + 4 -> same_but m (store32 m' e v) a.
Proof. intros H Hk x Hx. rewrite load8_store32_ne by lia. by apply H. Qed.

Lemma same_but_load m m' a x : same_but m m' a -> x + 4 <= a \/ a + 8 <= x -> load32 m' x = load32 m x.
Proof. intros H Hx. apply load32_ext. intros y Hy. apply H. lia. Qed.

(** The block at [b] of size [n] and the free blocks [l2] after it, joined. *)
Definition joined (b n : Z) (l2 : list block) (n' : Z) (l2' : list block) : Prop :=
  (l2' = l2 /\ n' = n /\ forall d, d ∈ l2 -> b + 8 * n < d.1) \/
  exists nq, l2 = (b + 8 * n, nq) :: l2' /\ n' = n + nq.

(** What is free around the block [(b, n)]. *)
Record placed (h : heap) (fl used : list block) (b n : Z) (l1 : list block) (p np : Z) (l2 : list block) : Prop := {
  pl_ok : heap_ok h fl ((b, n) :: used);
  pl_fl : fl = l1 ++ (p, np) :: l2;
  pl_b : base + 8 <= b /\ 1 <= n /\ b + 8 * n <= brk h;
  pl_p : base <= p /\ 0 <= np /\ extent (p, np) <= b;
  pl_l2 : forall d, d ∈ l2 -> b + 8 * n <= d.1;
}.

Lemma place_placed h fl used b n l1 p np l2 : heap_ok h fl ((b, n) :: used) -> place fl b l1 (p, np) l2 ->
  placed h fl used b n l1 p np l2.
Proof.
  intros H (E & Hp & Hl). assert ((p, np) ∈ fl) as Hin by (rewrite E; apply elem_of_app; right; left).
  destruct (ok_used _ _ _ H (b, n)) as [(? & ? & ?) _]; [left|]. destruct (fl_range _ _ _ _ H Hin) as (? & ? & ? & _). cbn [fst snd] in *.
  split; try done.
  - destruct (ok_apart _ _ _ H (p, np) (b, n)) as [Ha|Ha]; [done|left|done|]. unfold extent in Ha. cbn in Ha. lia.
  - intros d Hd. specialize (Hl d Hd). destruct (ok_apart _ _ _ H d (b, n)) as [Ha|Ha];
      [rewrite E; apply elem_of_app; right; by right|left| |]; unfold extent in Ha; cbn in Ha; lia.
Qed.

Section Placed.
Context (h : heap) (fl used : list block) (b n : Z) (l1 : list block) (p np : Z) (l2 : list block).
Hypothesis P : placed h fl used b n l1 p np l2.

Lemma pl_seg : seg (hmem h) l1 p /\ load32 (hmem h) p = first l2 base /\ load32 (hmem h) (p + 4) = np /\ seg (hmem h) l2 base.
Proof.
  pose proof (ok_seg _ _ _ (pl_ok _ _ _ _ _ _ _ _ _ P)) as Hs. rewrite (pl_fl _ _ _ _ _ _ _ _ _ P) in Hs.
  apply seg_split in Hs as [H1 (H2 & H3 & H4)]. done.
Qed.

Lemma pl_in d : d ∈ l1 \/ d = (p, np) \/ d ∈ l2 -> d ∈ fl.
Proof. rewrite (pl_fl _ _ _ _ _ _ _ _ _ P), elem_of_app, elem_of_cons. tauto. Qed.

Lemma pl_first l : (forall d, d ∈ l -> d = (p, np) \/ d ∈ l2) -> is_u32 (first l base).
Proof.
  intros Hl. destruct (ok_brk _ _ _ (pl_ok _ _ _ _ _ _ _ _ _ P)) as [? [? Hk]]. unfold KERNBASE, is_u32 in *.
  destruct l as [|d l]; cbn [first]; [lia|].
  destruct (fl_range _ _ _ d (pl_ok _ _ _ _ _ _ _ _ _ P)) as (? & ? & _); [apply pl_in; right; apply Hl; left|]. lia.
Qed.

Lemma join_upper_spec :
  wp (join_upper b p) h (fun _ h' => exists m n' l2', h' = set_hmem m h /\ joined b n l2 n' l2' /\
    load32 m b = first l2' base /\ load32 m (b + 4) = n' /\ same_but (hmem h) m b).
Proof.
  pose proof P as [H E (Hb & Hn & Hb') (Hp & Hnp & Hpb) Hl]. destruct pl_seg as (_ & Sp & _ & S2).
  pose proof (fun d (Hd : d ∈ l2) => fl_range _ _ _ d H (pl_in d (or_intror (or_intror Hd)))) as R. pose proof pl_first as F.
  destruct (ok_brk _ _ _ H) as [? [? Hk]]. destruct (ok_used _ _ _ H (b, n)) as [_ Es]; [left|]. cbn [fst snd] in Es.
  unfold extent in Hpb. cbn in Hpb. unfold KERNBASE in Hk.
  unfold join_upper, s_size, s_ptr. wstep. apply wp_hload; [lia|lia|]. rewrite Es. wstep. apply wp_hload; [lia|lia|]. rewrite Sp.
  rewrite padd_small by (unfold KERNBASE; lia).
  destruct (Z.eqb_spec (b + 8 * n) (first l2 base)) as [Eq|Ne].
  - destruct l2 as [|[q nq] l2']; cbn [first fst] in Eq; [lia|]. destruct S2 as (Q1 & Q2 & _). cbn [fst snd] in *. subst q.
    destruct (R (b + 8 * n, nq)) as (? & ? & ? & ? & _); [left|]. cbn [first fst snd] in *.
    wstep. apply wp_hload; [lia|lia|]. rewrite Q2. rewrite (u32_small (n + nq)) by (unfold is_u32; lia).
    wstep. apply wp_hstore; [lia|lia|]. wstep. apply wp_hload; cbn [brk hmem set_hmem]; [lia|lia|].
    rewrite load32_store32_ne, Q1 by lia. apply wp_hstore; cbn [brk hmem set_hmem]; [lia|lia|].
    eexists _, (n + nq), l2'. split; [done|]. split; [right; by exists nq|]. rewrite load32_store32_eq, load32_store32_ne, load32_store32_eq by lia.
    split_and!; [|apply u32_small; unfold is_u32; lia|].
    + apply u32_small, F. intros d Hd. right. by right.
    + apply same_but_store; [|lia]. apply same_but_store; [apply same_but_refl|lia].
  - assert (is_u32 (first l2 base)) by (apply pl_first; auto).
    apply wp_hstore; [lia|lia|]. eexists _, n, l2. split; [done|]. split; [left; split_and!; [done|done|]|].
    + intros d Hd. destruct l2 as [|c l2']; [by apply elem_of_nil in Hd|]. cbn [first] in Ne.
      assert (b + 8 * n <= c.1) by (apply Hl; left). apply elem_of_cons in Hd as [->|Hd]; [lia|].
      pose proof (ok_ordered _ _ _ H) as Ho. rewrite E in Ho. apply ordered_app in Ho as (_ & (_ & Ho & _) & _).
      destruct (Ho d Hd). unfold extent in *. lia.
    + rewrite load32_store32_eq, load32_store32_ne by lia. split_and!; [by apply u32_small|done|].
      apply same_but_store; [apply same_but_refl|lia].
Qed.

Lemma joined_fits n' l2' : joined b n l2 n' l2' ->
  n <= n' /\ b + 8 * n' <= brk h /\ (forall d, d ∈ l2' -> d ∈ l2 /\ b + 8 * n' < d.1) /\ n' + units l2' = n + units l2 /\
  forall d, (forall c, c ∈ fl -> apart c d) -> apart (b, n) d -> 1 <= d.2 -> apart (b, n') d.
Proof.
  pose proof P as [H E (Hb & Hn & Hb') _ Hl].
  pose proof (fun d (Hd : d ∈ l2) => pl_in d (or_intror (or_intror Hd))) as I2.
  intros [(-> & -> & Hlt)|(nq & El & ->)].
  - split_and!; [lia|lia|by auto|done|done].
  - destruct (fl_range _ _ _ (b + 8 * n, nq) H) as (_ & ? & ? & ? & _); [apply I2; rewrite El; left|]. cbn [fst snd] in *.
    assert (1 <= nq) as Hnq.
    { destruct (ok_fl _ _ _ H (b + 8 * n, nq)) as [Eb|(_ & ? & _)]; [apply I2; rewrite El; left| |done]. simplify_eq. lia. }
    split_and!; [lia|lia| |rewrite El; unfold units; cbn; lia|].
    + intros d Hd. split; [rewrite El; by right|]. pose proof (ok_ordered _ _ _ H) as Ho. rewrite E, El in Ho.
      apply ordered_app in Ho as (_ & (_ & Ho & _) & _). destruct (Ho d Hd) as [_ Hd2]. cbn [fst snd] in Hd2. lia.
    + intros d Hfl Hbd Hd. assert (apart (b + 8 * n, nq) d) as Hq by (apply Hfl, I2; rewrite El; left).
      unfold apart, extent in *. cbn [fst snd] in *. lia.
Qed.

(** The free block [p] of size [np] and the block [(b, n')] after it, joined. *)
Definition lowered (n' : Z) (l2' : list block) (x : Z) (l3 : list block) : Prop :=
  (p + 8 * np < b /\ x = np /\ l3 = (b, n') :: l2') \/ (p + 8 * np = b /\ x = np + n' /\ l3 = l2').

Lemma join_lower_spec m n' l2' : joined b n l2 n' l2' -> load32 m b = first l2' base -> load32 m (b + 4) = n' ->
  same_but (hmem h) m b ->
  wp (join_lower b p) (set_hmem m h) (fun _ h' => exists m' x l3, h' = set_hmem m' h /\ lowered n' l2' x l3 /\
    load32 m' p = first l3 base /\ load32 m' (p + 4) = x /\ same_but m m' p).
Proof.
  intros J M1 M2 Hm. destruct (joined_fits _ _ J) as (Hn' & Hb3 & Hl2' & _).
  assert (is_u32 (first l2' base)) as Hf by (apply pl_first; intros d Hd; right; by apply Hl2').
  pose proof P as [H E (Hb & Hn & Hb') (Hp & Hnp & Hpb) Hl]. destruct pl_seg as (_ & _ & Sp & _).
  destruct (ok_brk _ _ _ H) as [? [? Hk]]. unfold extent in Hpb. cbn in Hpb. unfold KERNBASE in Hk.
  unfold join_lower, s_size, s_ptr. wstep. apply wp_hload; cbn [brk set_hmem]; [lia|lia|]. cbn [hmem set_hmem].
  rewrite (same_but_load _ _ _ _ Hm), Sp by lia. rewrite padd_small by (unfold KERNBASE; lia).
  destruct (Z.eqb_spec (p + 8 * np) b) as [Eq|Ne].
  - wstep. apply wp_hload; cbn [brk set_hmem]; [lia|lia|]. cbn [hmem set_hmem]. rewrite M2.
    rewrite (u32_small (np + n')) by (unfold is_u32; lia).
    wstep. apply wp_hstore; cbn [brk set_hmem]; [lia|lia|]. wstep. apply wp_hload; cbn [brk hmem set_hmem]; [lia|lia|].
    rewrite load32_store32_ne, M1 by lia. apply wp_hstore; cbn [brk hmem set_hmem]; [lia|lia|].
    eexists _, (np + n'), l2'. split; [done|]. split; [by right|].
    rewrite load32_store32_eq, load32_store32_ne, load32_store32_eq by lia.
    split_and!; [by apply u32_small|apply u32_small; unfold is_u32; lia|].
    apply same_but_store; [|lia]. apply same_but_store; [apply same_but_refl|lia].
  - apply wp_hstore; cbn [brk hmem set_hmem]; [lia|lia|]. eexists _, np, ((b, n') :: l2'). split; [done|]. split; [left; split_and!; [lia|done|done]|].
    rewrite load32_store32_eq, load32_store32_ne, (same_but_load _ _ _ _ Hm), Sp by lia.
    split_and!; [apply u32_small; unfold is_u32; cbn; lia|done|]. apply same_but_store; [apply same_but_refl|lia].
Qed.

Section Joined.
Context (m : memory) (n' : Z) (l2' : list block) (m' : memory) (x : Z) (l3 : list block).
Hypothesis J : joined b n l2 n' l2'.
Hypothesis L : lowered n' l2' x l3.

(** The new blocks cover the old ones. *)
Lemma lowered_cases d : d ∈ (p, x) :: l3 ->
  p <= d.1 /\ (d ∈ l2' \/ d = (b, n') \/ d = (p, np) \/ d = (p, np + n') /\ p + 8 * np = b).
Proof.
  pose proof P as [_ _ _ (_ & _ & Hpb) Hl]. unfold extent in Hpb. cbn in Hpb. destruct (joined_fits _ _ J) as (_ & _ & H2 & _).
  intros Hd. destruct L as [(Hlt & -> & ->)|(Heq & -> & ->)]; rewrite !elem_of_cons in Hd.
  - destruct Hd as [->|[->|Hd]]; cbn [fst]; [split; [lia|auto 6]|split; [lia|auto 6]|]. destruct (H2 d Hd) as [Hd2 _]. specialize (Hl d Hd2).
    destruct (pl_b _ _ _ _ _ _ _ _ _ P). split; [lia|by left].
  - destruct Hd as [->|Hd]; cbn [fst]; [split; [lia|auto 6]|]. destruct (H2 d Hd) as [Hd2 _]. specialize (Hl d Hd2).
    destruct (pl_b _ _ _ _ _ _ _ _ _ P). split; [lia|by left].
Qed.

Lemma lowered_ordered : ordered (l1 ++ (p, x) :: l3).
Proof.
  pose proof P as [H E (Hb & Hn & Hb') (Hp & Hnp & Hpb) Hl]. unfold extent in Hpb. cbn in Hpb.
  destruct (joined_fits _ _ J) as (Hn' & _ & H2 & _). pose proof (ok_ordered _ _ _ H) as Ho. rewrite E in Ho.
  apply ordered_app in Ho as (O1 & (_ & O2) & O12).
  assert (ordered l2') as O2'.
  { destruct J as [(-> & _ & _)|(nq & El & _)]; [done|]. rewrite El in O2. apply O2. }
  apply ordered_app. split_and!; [done| |].
  - destruct L as [(Hlt & -> & ->)|(Heq & -> & ->)]; cbn [ordered]; split_and!; try done.
    + intros d Hd. apply elem_of_cons in Hd as [->|Hd]; unfold before, extent; cbn [fst snd]; [lia|]. destruct (H2 d Hd). lia.
    + intros d Hd. destruct (H2 d Hd). unfold before, extent. cbn [fst snd]. lia.
    + intros d Hd. destruct (H2 d Hd). unfold before, extent. cbn [fst snd]. lia.
  - intros c d Hc Hd. apply lowered_cases in Hd as [Hd _]. destruct (O12 c (p, np)) as [B1 B2]; [done|left|]. cbn [fst] in *.
    unfold before. lia.
Qed.

Lemma lowered_within d : d ∈ l1 ++ (p, x) :: l3 -> d = (base, 0) \/ within h d.
Proof.
  pose proof P as [H E (Hb & Hn & Hb') (Hp & Hnp & Hpb) Hl]. destruct (joined_fits _ _ J) as (Hn' & Hb3 & H2 & _).
  rewrite elem_of_app. intros [Hd|Hd]; [apply (ok_fl _ _ _ H), pl_in; by left|].
  apply lowered_cases in Hd as [_ [Hd|[->|[->|[-> Heq]]]]].
  - apply (ok_fl _ _ _ H), pl_in. right. right. by apply H2.
  - right. unfold within. cbn. lia.
  - apply (ok_fl _ _ _ H), pl_in. by auto.
  - right. destruct (ok_fl _ _ _ H (p, np)) as [Eb|(W & _)]; [apply pl_in; by auto|simplify_eq; lia|].
    unfold within in *. cbn in *. lia.
Qed.

Lemma lowered_apart c d : c ∈ l1 ++ (p, x) :: l3 -> d ∈ used -> apart c d.
Proof.
  pose proof P as [H E (Hb & Hn & Hb') (Hp & Hnp & Hpb) Hl]. destruct (joined_fits _ _ J) as (Hn' & Hb3 & H2 & _ & Hap).
  intros Hc Hd. assert (forall c, c ∈ fl -> apart c d) as Hfl by (intros c' Hc'; apply (ok_apart _ _ _ H); [done|by right]).
  assert (apart (b, n) d) as Hbd by (by apply (used_apart _ _ _ _ _ H)).
  destruct (ok_used _ _ _ H d) as [(_ & Hd1 & _) _]; [by right|]. specialize (Hap d Hfl Hbd Hd1).
  rewrite elem_of_app in Hc. destruct Hc as [Hc|Hc]; [apply Hfl, pl_in; by left|].
  apply lowered_cases in Hc as [_ [Hc|[->|[->|[-> Heq]]]]].
  - apply Hfl, pl_in. right. right. by apply H2.
  - done.
  - apply Hfl, pl_in. by auto.
  - assert (apart (p, np) d) as Hpd by (apply Hfl, pl_in; by auto). unfold apart, extent in *. cbn [fst snd] in *. lia.
Qed.

Lemma lowered_covers : exists c, c ∈ l1 ++ (p, x) :: l3 /\ c.1 <= b /\ b + 8 * n <= c.1 + 8 * c.2.
Proof.
  destruct (joined_fits _ _ J) as (Hn' & _). destruct L as [(Hlt & -> & ->)|(Heq & -> & ->)].
  - exists (b, n'). split; [apply elem_of_app; right; right; left|]. cbn. lia.
  - exists (p, np + n'). split; [apply elem_of_app; right; left|]. cbn. pose proof (pl_p _ _ _ _ _ _ _ _ _ P). lia.
Qed.

Lemma lowered_units : units (l1 ++ (p, x) :: l3) = units fl + n.
Proof.
  destruct (joined_fits _ _ J) as (_ & _ & _ & Hu & _). rewrite (pl_fl _ _ _ _ _ _ _ _ _ P), !units_app. unfold units in *.
  destruct L as [(_ & -> & ->)|(_ & -> & ->)]; cbn [foldr snd]; lia.
Qed.

Hypothesis M1 : load32 m b = first l2' base.
Hypothesis M2 : load32 m (b + 4) = n'.
Hypothesis Mb : same_but (hmem h) m b.
Hypothesis M3 : load32 m' p = first l3 base.
Hypothesis M4 : load32 m' (p + 4) = x.
Hypothesis Mp : same_but m m' p.

Lemma lowered_same y : ~ b <= y < b + 8 -> ~ p <= y < p + 8 -> load8 m' y = load8 (hmem h) y.
Proof. intros Hy1 Hy2. by rewrite Mp, Mb. Qed.

Lemma lowered_seg : seg m' (l1 ++ (p, x) :: l3) base.
Proof.
  pose proof P as [H E (Hb & Hn & Hb') (Hp & Hnp & Hpb) Hl]. unfold extent in Hpb. cbn in Hpb.
  destruct (joined_fits _ _ J) as (Hn' & _ & H2 & _). destruct pl_seg as (S1 & _ & _ & S2).
  pose proof (ok_ordered _ _ _ H) as Ho. rewrite E in Ho. apply ordered_app in Ho as (_ & _ & O12).
  assert (seg m' l2' base) as S2'.
  { apply (seg_frame (hmem h)).
    - intros c y Hc Hy. destruct (H2 c Hc). apply lowered_same; lia.
    - destruct J as [(-> & _ & _)|(nq & El & _)]; [done|]. rewrite El in S2. apply S2. }
  apply seg_split. split.
  - apply (seg_frame (hmem h)); [|done]. intros c y Hc Hy. destruct (O12 c (p, np)) as [B _]; [done|left|].
    unfold extent in B. cbn [fst] in B. apply lowered_same; lia.
  - cbn [seg fst snd]. split_and!; [done|done|]. destruct L as [(Hlt & -> & ->)|(Heq & -> & ->)]; [|done].
    cbn [seg fst snd]. rewrite !(same_but_load _ _ _ _ Mp) by lia. done.
Qed.

Lemma lowered_ok : heap_ok (Heap m' p (brk h)) (l1 ++ (p, x) :: l3) used.
Proof.
  pose proof P as [H E (Hb & Hn & Hb') (Hp & Hnp & Hpb) Hl]. unfold extent in Hpb. cbn in Hpb. split; cbn [brk hmem freep].
  - apply (ok_brk _ _ _ H).
  - pose proof (ok_head _ _ _ H) as Hh. rewrite E in Hh. destruct l1 as [|c l1']; [|done]. cbn in Hh |- *. injection Hh as Ep En.
    destruct L as [(_ & Ex & _)|(Heq & _)]; [congruence|lia].
  - apply lowered_seg.
  - apply lowered_ordered.
  - rewrite fmap_app, elem_of_app. right. left.
  - intros c Hc. apply lowered_within in Hc as [->|Hc]; [by left|by right].
  - intros c Hc. destruct (ok_used _ _ _ H c) as [Hw Hs]; [by right|]. split; [done|]. rewrite <- Hs.
    assert (apart (p, np) c) as Hpc by (apply (ok_apart _ _ _ H); [apply pl_in; auto|by right]).
    assert (apart (b, n) c) as Hbc by (by apply (used_apart _ _ _ _ _ H)).
    destruct Hw as (_ & ? & _). unfold apart, extent in *. cbn [fst snd] in *.
    apply load32_ext. intros y Hy. apply lowered_same; lia.
  - pose proof (ok_disjoint _ _ _ H) as HD. by inversion HD.
  - apply lowered_apart.
Qed.
End Joined.
End Placed.

(** Every byte of the blocks [used] is the same in both heaps. *)
Definition kept (used : list block) (h h' : heap) : Prop :=
  forall c y, c ∈ used -> c.1 <= y < extent c -> load8 (hmem h') y = load8 (hmem h) y.

Lemma free_spec h fl used b n fuel : heap_ok h fl ((b, n) :: used) -> (length fl <= fuel)%nat ->
  wp (free (b + 8) fuel) h (fun _ h' => exists fl', heap_ok h' fl' used /\ units fl' = units fl + n /\
    (exists c, c ∈ fl' /\ c.1 <= b /\ b + 8 * n <= c.1 + 8 * c.2) /\
    kept used h h' /\ brk h' = brk h /\ (length fl' <= S (length fl))%nat).
Proof.
  intros H Hfuel. destruct (ok_used _ _ _ H (b, n)) as [(Hb & Hn & Hb') _]; [left|]. destruct (ok_brk _ _ _ H) as (? & ? & Hk).
  cbn [fst snd] in *. unfold free. rewrite padd_small by lia. replace (b + 8 + 8 * -1) with b by lia. wsteps.
  eapply wp_mono; [by apply (place_found h fl used b n fuel)|]. intros p h' (-> & l1 & np & l2 & Hpl).
  pose proof (place_placed _ _ _ _ _ _ _ _ _ H Hpl) as P. wstep.
  eapply wp_mono; [apply (join_upper_spec _ _ _ _ _ _ _ _ _ P)|]. intros [] h' (m & n' & l2' & -> & J & M1 & M2 & Mb). wstep.
  eapply wp_mono; [apply (join_lower_spec _ _ _ _ _ _ _ _ _ P m n' l2' J M1 M2 Mb)|].
  intros [] h' (m' & x & l3 & -> & L & M3 & M4 & Mp). wsteps. exists (l1 ++ (p, x) :: l3). split_and!.
  - exact (lowered_ok h fl used b n l1 p np l2 P m n' l2' m' x l3 J L M1 M2 Mb M3 M4 Mp).
  - exact (lowered_units h fl used b n l1 p np l2 P n' l2' x l3 J L).
  - exact (lowered_covers h fl used b n l1 p np l2 P n' l2' x l3 J L).
  - intros c y Hc Hy. destruct (pl_p _ _ _ _ _ _ _ _ _ P) as (_ & _ & Hpb).
    assert (apart (p, np) c) as Hpc by (apply (ok_apart _ _ _ H); [eapply pl_in; [done|auto]|by right]).
    assert (apart (b, n) c) as Hbc by (by apply (used_apart _ _ _ _ _ H)).
    unfold apart, extent in *. cbn [fst snd] in *. eapply lowered_same; [done|done|lia|lia].
  - done.
  - rewrite (pl_fl _ _ _ _ _ _ _ _ _ P), !length_app. cbn [length].
    assert (length l2' <= length l2)%nat by (destruct J as [(-> & _)|(nq & -> & _)]; cbn; lia).
    destruct L as [(_ & _ & ->)|(_ & _ & ->)]; cbn [length]; lia.
Qed.

(** ** More memory *)

(** A new block at the end of the process is a block in use. *)
Lemma grown_ok h fl used n : heap_ok h fl used -> 1 <= n -> brk h + 8 * n <= KERNBASE ->
  heap_ok (Heap (store32 (hmem h) (brk h + 4) n) (freep h) (brk h + 8 * n)) fl ((brk h, n) :: used).
Proof.
  intros H Hn Hk. destruct (ok_brk _ _ _ H) as (? & ? & _).
  assert (forall c, c ∈ fl -> extent c <= brk h) as Efl by (intros c Hc; apply (fl_range _ _ _ c H Hc)).
  assert (forall c, c ∈ used -> 1 <= c.2 /\ extent c <= brk h) as Eus.
  { intros c Hc. destruct (ok_used _ _ _ H c Hc) as [(? & ? & ?) _]. unfold extent. lia. }
  split; cbn [brk hmem freep].
  - lia.
  - apply (ok_head _ _ _ H).
  - apply (seg_frame (hmem h)); [|apply (ok_seg _ _ _ H)]. intros c x Hc Hx. specialize (Efl c Hc). unfold extent in Efl.
    apply load8_store32_ne. lia.
  - apply (ok_ordered _ _ _ H).
  - apply (ok_freep _ _ _ H).
  - intros c Hc. destruct (ok_fl _ _ _ H c Hc) as [->|(? & ? & ?)]; [by left|right]. unfold within. cbn. lia.
  - intros c Hc. apply elem_of_cons in Hc as [->|Hc]; unfold within; cbn [fst snd brk].
    + split; [lia|]. rewrite load32_store32_eq. apply u32_small. unfold is_u32, KERNBASE in *. lia.
    + destruct (ok_used _ _ _ H c Hc) as [(? & ? & ?) Es]. split; [lia|]. rewrite load32_store32_ne by lia. done.
  - constructor; [|apply (ok_disjoint _ _ _ H)]. apply Forall_forall. intros c Hc. right. by apply Eus.
  - intros c d Hc Hd. apply elem_of_cons in Hd as [->|Hd]; [left; by apply Efl|by apply (ok_apart _ _ _ H)].
Qed.

Lemma morecore_spec h fl used nu fuel : heap_ok h fl used -> 1 <= nu < 268435456 -> (length fl <= fuel)%nat ->
  wp (morecore grow nu fuel) h (fun r h' => (r = 0 /\ h' = h /\ grow (brk h) (Z.max 4096 nu * 8) = None) \/ (r <> 0 /\ r = freep h' /\ kept used h h' /\ exists fl',
    heap_ok h' fl' used /\ units fl' = units fl + Z.max 4096 nu /\ brk h' = brk h + 8 * Z.max 4096 nu /\
    (exists c, c ∈ fl' /\ nu <= c.2) /\ (length fl' <= S (length fl))%nat)).
Proof.
  intros H Hnu Hfuel. destruct (ok_brk _ _ _ H) as (Hb & Hb1 & Hb2). unfold morecore, sbrk.
  replace (if nu <? 4096 then 4096 else nu) with (Z.max 4096 nu) by (destruct (Z.ltb_spec nu 4096); lia).
  remember (Z.max 4096 nu) as k eqn:Ek. assert (4096 <= k < 268435456 /\ nu <= k) as Hk by lia. unfold HEADER.
  rewrite (u32_small (k * 8)), i32_small by (unfold is_u32, is_i32; lia). wsteps.
  destruct (grow (brk h) (k * 8)) as [t|] eqn:Eg; wsteps.
  2:{ change (u32 (-1) =? u32 (-1)) with true. cbv iota. wsteps. by left. }
  apply Hgrow in Eg as [-> Hk']; [|lia]. change (u32 (-1)) with 4294967295.
  assert (brk h < 4294967295) by (unfold KERNBASE in *; lia).
  rewrite (proj2 (Z.eqb_neq (brk h) 4294967295)) by lia. unfold s_size. wstep. apply wp_hstore; cbn [brk set_brk]; [lia|lia|].
  rewrite padd_small by lia. replace (brk h + 8 * 1) with (brk h + 8) by lia. wstep.
  assert (heap_ok (set_hmem (store32 (hmem (set_brk (brk h + k * 8) h)) (brk h + 4) k) (set_brk (brk h + k * 8) h)) fl ((brk h, k) :: used)) as H1.
  { pose proof (grown_ok h fl used k H). rewrite (Z.mul_comm k 8) in *. apply H1; lia. }
  eapply wp_mono; [by apply (free_spec _ _ _ _ _ _ H1)|]. cbn [brk set_hmem set_brk].
  intros [] h' (fl' & H' & Hu & (c & Hc & Hc1 & Hc2) & Hkept & Hbrk & Hlen). wsteps. right. split_and!.
  - pose proof (ok_freep _ _ _ H') as Hf. apply list_elem_of_fmap in Hf as (f & -> & Hf).
    destruct (fl_range _ _ _ _ H' Hf). lia.
  - done.
  - intros d y Hd Hy. rewrite (Hkept d y Hd Hy). cbn [hmem]. apply load8_store32_ne.
    destruct (ok_used _ _ _ H d Hd) as [(? & ? & ?) _]. unfold extent in Hy. lia.
  - exists fl'. split_and!; [done|done|lia| |done]. exists c. split; [done|lia].
Qed.

(** ** Taking a block *)

(** The whole block [(p, n)]. *)
Lemma unlink_ok h used l1 v nv p n l2 : heap_ok h (l1 ++ (v, nv) :: (p, n) :: l2) used ->
  heap_ok (Heap (store32 (hmem h) v (first l2 base)) v (brk h)) (l1 ++ (v, nv) :: l2) ((p, n) :: used).
Proof.
  intros H. set (fl := l1 ++ (v, nv) :: (p, n) :: l2) in *.
  assert (forall c, c ∈ l1 ++ (v, nv) :: l2 -> c ∈ fl) as Hin by (unfold fl; intros c; rewrite !elem_of_app, !elem_of_cons; tauto).
  assert ((v, nv) ∈ fl) as Hv by (apply Hin, elem_of_app; right; left).
  assert ((p, n) ∈ fl) as Hp by (unfold fl; rewrite elem_of_app, !elem_of_cons; auto).
  pose proof (ok_seg _ _ _ H) as Hs. pose proof (ok_ordered _ _ _ H) as Ho. unfold fl in Hs, Ho.
  apply seg_split in Hs as [S1 (_ & S3 & _ & S5 & S6)]. cbn [first fst snd] in *.
  apply ordered_app in Ho as (O1 & (O2 & O3 & O4) & O5).
  destruct (ok_brk _ _ _ H) as (Hb & Hb1 & Hb2). unfold KERNBASE in Hb2. destruct (fl_range _ _ _ _ H Hv) as (Hv1 & Hv2 & _).
  destruct (O2 (p, n)) as [Bvp _]; [left|]. unfold extent in Bvp. cbn [fst snd] in *.
  assert (forall c, c ∈ fl -> c <> (v, nv) -> forall y, c.1 <= y < c.1 + 8 -> load8 (store32 (hmem h) v (first l2 base)) y = load8 (hmem h) y) as Hsame.
  { intros c Hc Hne y Hy. apply load8_store32_ne. destruct (fl_apart _ _ _ _ _ H Hc Hv Hne) as [Ha|Ha]; unfold extent in Ha; cbn [fst snd] in Ha; lia. }
  assert (forall c, c ∈ l1 -> c <> (v, nv)) as N1.
  { intros c Hc ->. destruct (O5 (v, nv) (v, nv)) as [B _]; [done|left|]. unfold extent in B. cbn in B. lia. }
  assert (forall c, c ∈ l2 -> c <> (v, nv)) as N2.
  { intros c Hc ->. destruct (O2 (v, nv)) as [B _]; [by right|]. unfold extent in B. cbn in B. lia. }
  split; cbn [brk hmem freep].
  - done.
  - pose proof (ok_head _ _ _ H) as Hh. unfold fl in Hh. by destruct l1.
  - apply seg_split. split; [|cbn [seg fst snd]; split_and!].
    + apply (seg_frame (hmem h)); [|done]. intros c y Hc Hy. apply (Hsame c); auto. apply Hin, elem_of_app. by left.
    + rewrite load32_store32_eq. apply u32_small. destruct l2 as [|d l2]; cbn [first]; [unfold is_u32; lia|].
      destruct (fl_range _ _ _ d H) as (? & ? & _); [apply Hin, elem_of_app; right; right; left|]. unfold is_u32. lia.
    + by rewrite load32_store32_ne by lia.
    + apply (seg_frame (hmem h)); [|done]. intros c y Hc Hy. apply (Hsame c); auto. apply Hin, elem_of_app. right. by right.
  - apply ordered_app. split_and!; [done| |].
    + split; [|done]. intros d Hd. apply O2. by right.
    + intros c d Hc Hd. apply O5; [done|]. apply elem_of_cons in Hd as [->|Hd]; [left|right; by right].
  - rewrite fmap_app, elem_of_app. right. left.
  - intros c Hc. apply (ok_fl _ _ _ H), Hin, Hc.
  - intros c Hc. apply elem_of_cons in Hc as [->|Hc].
    + split; [destruct (ok_fl _ _ _ H _ Hp) as [Eb|W]; [simplify_eq; lia|done]|]. cbn. by rewrite load32_store32_ne by lia.
    + destruct (ok_used _ _ _ H c Hc) as [W Es]. split; [done|]. rewrite load32_store32_ne; [done|].
      destruct W as (_ & ? & _), (ok_apart _ _ _ H _ c Hv Hc) as [Ha|Ha]; unfold extent in Ha; cbn [fst snd] in Ha; lia.
  - constructor; [|apply (ok_disjoint _ _ _ H)]. apply Forall_forall. intros c Hc. by apply (ok_apart _ _ _ H).
  - intros c d Hc Hd. apply elem_of_cons in Hd as [->|Hd]; [|apply (ok_apart _ _ _ H); [by apply Hin|done]].
    apply (fl_apart _ _ _ _ _ H); [by apply Hin|done|]. intros ->. apply elem_of_app in Hc as [Hc|Hc].
    + destruct (O5 (p, n) (v, nv)) as [B _]; [done|left|]. unfold extent in B. cbn in B. lia.
    + apply elem_of_cons in Hc as [Hc|Hc]; [simplify_eq; lia|]. destruct (O3 _ Hc) as [B _]. unfold extent in B. cbn in B. lia.
Qed.

(** The end of the block [(p, n)]. *)
Lemma split_ok h used l1 p n l2 k v : heap_ok h (l1 ++ (p, n) :: l2) used -> 1 <= k < n -> v ∈ (l1 ++ (p, n) :: l2).*1 ->
  let q := p + 8 * (n - k) in
  heap_ok (Heap (store32 (store32 (hmem h) (p + 4) (n - k)) (q + 4) k) v (brk h)) (l1 ++ (p, n - k) :: l2) ((q, k) :: used).
Proof.
  intros H Hk Hv q. set (fl := l1 ++ (p, n) :: l2) in *. set (m' := store32 _ _ _).
  assert ((p, n) ∈ fl) as Hp by (apply elem_of_app; right; left).
  assert (forall c, c ∈ l1 \/ c ∈ l2 -> c ∈ fl) as Hin by (unfold fl; intros c; rewrite !elem_of_app, !elem_of_cons; tauto).
  assert (forall c, c ∈ l1 ++ (p, n - k) :: l2 -> c = (p, n - k) \/ c ∈ l1 \/ c ∈ l2) as Hnew
    by (intros c; rewrite elem_of_app, elem_of_cons; tauto).
  pose proof (ok_seg _ _ _ H) as Hs. pose proof (ok_ordered _ _ _ H) as Ho. unfold fl in Hs, Ho.
  apply seg_split in Hs as [S1 (S2 & S3 & S4)]. apply ordered_app in Ho as (O1 & (O2 & O3) & O4).
  cbn [first fst snd] in *. destruct (ok_brk _ _ _ H) as (Hb & Hb1 & Hb2). unfold KERNBASE in Hb2.
  assert (within h (p, n)) as (Hp1 & Hp2 & Hp3) by (destruct (ok_fl _ _ _ H _ Hp) as [E|W]; [simplify_eq; lia|done]). cbn [fst snd] in *.
  assert (forall y, y < p \/ p + 8 * n <= y -> load8 m' y = load8 (hmem h) y) as Hsame by (intros y Hy; unfold m'; rewrite !load8_store32_ne by lia; done).
  assert (forall c, c ∈ l1 \/ c ∈ l2 -> extent c <= p \/ p + 8 * n < c.1) as Hout.
  { intros c [Hc|Hc]; [destruct (O4 c (p, n)) as [B _]; [done|left|]; by left|]. destruct (O2 c Hc). by right. }
  split; cbn [brk hmem freep].
  - done.
  - pose proof (ok_head _ _ _ H) as Hh. unfold fl in Hh. destruct l1; [|done]. cbn in Hh. simplify_eq. lia.
  - apply seg_split. split; [|cbn [seg fst snd]; split_and!].
    + apply (seg_frame (hmem h)); [|done]. intros c y Hc Hy. apply Hsame. destruct (Hout c) as [B|B]; [by left| |]; unfold extent in *; lia.
    + unfold m'. by rewrite !load32_store32_ne by lia.
    + unfold m'. rewrite load32_store32_ne, load32_store32_eq by lia. apply u32_small. unfold is_u32. lia.
    + apply (seg_frame (hmem h)); [|done]. intros c y Hc Hy. apply Hsame. destruct (Hout c) as [B|B]; [by right| |]; unfold extent in *; lia.
  - apply ordered_app. split_and!; [done| |].
    + split; [|done]. intros d Hd. destruct (O2 d Hd) as [B1 B2]. unfold before, extent in *. cbn [fst snd] in *. lia.
    + intros c d Hc Hd. apply elem_of_cons in Hd as [->|Hd]; [|apply O4; [done|by right]].
      destruct (O4 c (p, n)) as [B1 B2]; [done|left|]. by split.
  - unfold fl in Hv. rewrite fmap_app in *. done.
  - intros c Hc. destruct (Hnew c Hc) as [->|Hc']; [right; unfold within; cbn; lia|]. by apply (ok_fl _ _ _ H), Hin.
  - intros c Hc. apply elem_of_cons in Hc as [->|Hc].
    + split; [unfold within; cbn; lia|]. unfold m'. cbn. rewrite load32_store32_eq. apply u32_small. unfold is_u32. lia.
    + destruct (ok_used _ _ _ H c Hc) as [(W1 & W2 & W3) Es]. split; [done|]. rewrite <- Es. apply load32_ext. intros y Hy. apply Hsame.
      destruct (ok_apart _ _ _ H _ c Hp Hc) as [Ha|Ha]; unfold extent in Ha; cbn [fst snd] in Ha; lia.
  - constructor; [|apply (ok_disjoint _ _ _ H)]. apply Forall_forall. intros c Hc.
    destruct (ok_apart _ _ _ H _ c Hp Hc) as [Ha|Ha]; unfold apart, extent in *; cbn [fst snd] in *; lia.
  - intros c d Hc Hd. destruct (Hnew c Hc) as [->|Hc'].
    + apply elem_of_cons in Hd as [->|Hd]; [left; unfold extent; cbn; lia|].
      destruct (ok_apart _ _ _ H _ d Hp Hd) as [Ha|Ha]; unfold apart, extent in *; cbn [fst snd] in *; lia.
    + apply elem_of_cons in Hd as [->|Hd]; [|by apply (ok_apart _ _ _ H); [apply Hin|]].
      destruct (Hout c Hc') as [B|B]; [left|right]; unfold extent in *; cbn [fst snd]; lia.
Qed.

(** ** The loop of malloc *)

Section Loop.
Variable k : Z.
Hypothesis Hk : 1 <= k < 268435456.

(** No free block has [k] units and [sbrk] refuses more memory. *)
Definition exhausted (h : heap) (fl : list block) : Prop :=
  (forall c, c ∈ fl -> c.2 < k) /\ grow (brk h) (Z.max 4096 k * 8) = None.

(** A block of [k] units was taken from [total] units; the result is the
    address after its header. *)
Definition taken (h : heap) (used : list block) (total : Z) (r : Z) (h' : heap) : Prop :=
  exists fl q, r = q + 8 /\ heap_ok h' fl ((q, k) :: used) /\ units fl + k = total /\ kept used h h' /\ brk h' = brk h.

Lemma next_block h fl used v p n : heap_ok h fl used -> v ∈ fl.*1 -> load32 (hmem h) v = p -> (p, n) ∈ fl -> 1 <= n ->
  exists l1 nv l2, fl = l1 ++ (v, nv) :: (p, n) :: l2.
Proof.
  intros H Hv Hvp Hp Hn. apply list_elem_of_fmap in Hv as ([v' nv] & -> & Hv). apply list_elem_of_split in Hv as (l1 & l2 & E).
  pose proof (ok_seg _ _ _ H) as Hs. rewrite E in Hs. apply seg_split in Hs as [_ (Hf & _ & _)]. cbn [fst] in *. rewrite Hvp in Hf.
  assert (p <> base) as Hpb by (destruct (ok_fl _ _ _ H _ Hp) as [Eb|(W & _)]; [simplify_eq; lia|cbn in W; lia]).
  destruct l2 as [|[p' n'] l2]; cbn in Hf; [done|]. subst p'. exists l1, nv, l2. rewrite E. repeat f_equal.
  destruct (decide (n' = n)) as [|Hne]; [done|].
  destruct (fl_apart _ _ _ (p, n') (p, n) H) as [Ha|Ha];
    [rewrite E; apply elem_of_app; right; right; left|done|by intros [=]|unfold extent in Ha; cbn in Ha; lia..].
Qed.

(** What taking a block changes is in free blocks. *)
Lemma fl_kept h h' fl used : heap_ok h fl used ->
  (forall y, (forall c, c ∈ fl -> ~ c.1 <= y < extent c) -> load8 (hmem h') y = load8 (hmem h) y) -> kept used h h'.
Proof.
  intros H Hy d y Hd Hin. apply Hy. intros c Hc Hcy. destruct (ok_used _ _ _ H d Hd) as [(_ & ? & _) _].
  destruct (ok_apart _ _ _ H c d Hc Hd) as [Ha|Ha]; lia.
Qed.

Lemma take_spec h fl used v p n : heap_ok h fl used -> v ∈ fl.*1 -> load32 (hmem h) v = p -> (p, n) ∈ fl -> k <= n ->
  wp (take_block k v p n) h (taken h used (units fl)).
Proof.
  intros H Hv Hvp Hp Hn. destruct (next_block _ _ _ _ _ _ H Hv Hvp Hp) as (l1 & nv & l2 & E); [lia|].
  destruct (ok_brk _ _ _ H) as (Hb & _ & Hb2). destruct (fl_range _ _ _ _ H Hp) as (? & ? & ? & ? & _).
  assert ((v, nv) ∈ fl) as Hv' by (rewrite E; apply elem_of_app; right; left). destruct (fl_range _ _ _ _ H Hv') as (? & ? & _).
  pose proof (ok_seg _ _ _ H) as Hs. rewrite E in Hs. apply seg_split in Hs as [_ (_ & _ & S1 & S2 & _)]. cbn [fst snd] in *.
  unfold KERNBASE in Hb2. unfold take_block, s_size, s_ptr. wstep. destruct (Z.eqb_spec n k) as [->|Hne].
  - wstep. apply wp_hload; [lia|lia|]. wstep. apply wp_hstore; [lia|lia|]. wsteps. rewrite S1, padd_small by (unfold KERNBASE; lia).
    exists (l1 ++ (v, nv) :: l2), p. split_and!; [lia|rewrite E in H; by apply unlink_ok in H|rewrite E, !units_app; unfold units; cbn; lia| |done].
    apply (fl_kept _ _ _ _ H). intros y Hy. apply load8_store32_ne. specialize (Hy _ Hv'). unfold extent in Hy. cbn in Hy. lia.
  - rewrite padd_small by (unfold KERNBASE; lia). wstep. apply wp_hstore; [lia|lia|]. wstep.
    apply wp_hstore; cbn [brk set_hmem]; [lia|lia|]. wsteps. rewrite padd_small by (unfold KERNBASE; lia).
    replace (l1 ++ (v, nv) :: (p, n) :: l2) with ((l1 ++ [(v, nv)]) ++ (p, n) :: l2) in E by (by rewrite <- app_assoc).
    exists ((l1 ++ [(v, nv)]) ++ (p, n - k) :: l2), (p + 8 * (n - k)). split_and!; [lia| |rewrite E, !units_app; unfold units; cbn; lia| |done].
    + rewrite E in H, Hv. apply (split_ok _ _ _ _ _ _ k v H); [lia|done].
    + apply (fl_kept _ _ _ _ H). intros y Hy. specialize (Hy _ Hp). unfold extent in Hy. cbn in Hy |- *. rewrite !load8_store32_ne by lia. done.
Qed.

(** [w] is the rest of the way around the list, up to [freep]. *)
Lemma malloc_loop_found h fl used fuel e f : heap_ok h fl used -> f.1 = freep h -> forall w0 v cnt,
  (forall c, c ∈ w0 ++ [f] -> c ∈ fl) -> f.1 ∉ w0.*1 -> seg (hmem h) (w0 ++ [f]) e -> v ∈ fl.*1 -> load32 (hmem h) v = first (w0 ++ [f]) e ->
  (exists c, c ∈ w0 ++ [f] /\ k <= c.2) -> (length w0 < cnt)%nat ->
  wp (malloc_loop grow k v (first (w0 ++ [f]) e) fuel cnt) h (taken h used (units fl)).
Proof.
  intros H Ef. destruct (ok_brk _ _ _ H) as (Hb & _). induction w0 as [|c w0 IH]; intros v cnt Hin Hnd Hs Hv Hvp (d & Hd & Hdk) Hcnt.
  - cbn [app first] in *. apply list_elem_of_singleton in Hd as ->. destruct Hs as (_ & Hsz & _). assert (f ∈ fl) as Hf by (apply Hin; left).
    destruct (fl_range _ _ _ _ H Hf) as (? & ? & _). destruct cnt; [lia|]. cbn [malloc_loop]. unfold s_size at 1. wstep. apply wp_hload; [lia|lia|].
    rewrite Hsz, (proj2 (Z.leb_le _ _)) by done. apply take_spec; [done|done|done|by destruct f|done].
  - cbn [app first] in *. destruct Hs as (Hnx & Hsz & Hs). assert (c ∈ fl) as Hc by (apply Hin; left).
    destruct (fl_range _ _ _ _ H Hc) as (? & ? & _). destruct cnt as [|cnt]; [lia|]. cbn [malloc_loop]. unfold s_size at 1. wstep. apply wp_hload; [lia|lia|].
    rewrite Hsz. destruct (Z.leb_spec k c.2) as [Hle|Hlt]; [apply take_spec; [done|done|done|by destruct c|done]|].
    wsteps. rewrite (proj2 (Z.eqb_neq c.1 (freep h))) by (rewrite <- Ef; intros Ec; apply Hnd; rewrite <- Ec; left).
    wsteps. unfold s_ptr. apply wp_hload; [lia|lia|]. rewrite Hnx. apply IH; try done.
    + intros c' Hc'. apply Hin. by right.
    + intros Hc'. apply Hnd. by right.
    + apply list_elem_of_fmap. by exists c.
    + apply elem_of_cons in Hd as [->|Hd]; [lia|]. by exists d.
    + cbn in Hcnt. lia.
Qed.

Lemma malloc_loop_none h fl used fuel e f (Q : Z -> heap -> Prop) : heap_ok h fl used -> f.1 = freep h -> forall w0 v cnt,
  (forall c, c ∈ w0 ++ [f] -> c ∈ fl /\ c.2 < k) -> f.1 ∉ w0.*1 -> seg (hmem h) (w0 ++ [f]) e ->
  wp (morecore grow k fuel) h (fun c h' => if c =? 0 then Q 0 h' else
    wp (q ← hload (s_ptr c); malloc_loop grow k c q fuel cnt) h' Q) ->
  wp (malloc_loop grow k v (first (w0 ++ [f]) e) fuel (S (length w0) + cnt)) h Q.
Proof.
  intros H Ef. destruct (ok_brk _ _ _ H) as (Hb & _). induction w0 as [|c w0 IH]; intros v cnt Hin Hnd Hs HQ.
  - cbn [app first length Nat.add] in *. destruct Hs as (_ & Hsz & _). destruct (Hin f) as [Hf Hfk]; [left|].
    destruct (fl_range _ _ _ _ H Hf) as (? & ? & _). cbn [malloc_loop]. unfold s_size at 1. wstep. apply wp_hload; [lia|lia|].
    rewrite Hsz, (proj2 (Z.leb_gt _ _)) by done. wsteps. rewrite Ef, Z.eqb_refl. wstep. eapply wp_mono; [exact HQ|].
    intros r h' Hr. wsteps. cbv beta in Hr. destruct (r =? 0); [by apply wp_ret|exact Hr].
  - cbn [app first] in *. destruct Hs as (Hnx & Hsz & Hs). destruct (Hin c) as [Hc Hck]; [left|].
    destruct (fl_range _ _ _ _ H Hc) as (? & ? & _). remember (S (length w0) + cnt)%nat as j eqn:Ej.
    replace (S (length (c :: w0)) + cnt)%nat with (S j) by (subst j; done). cbn [malloc_loop]. unfold s_size at 1. wstep. apply wp_hload; [lia|lia|].
    rewrite Hsz, (proj2 (Z.leb_gt _ _)) by done.
    wsteps. rewrite (proj2 (Z.eqb_neq c.1 (freep h))) by (rewrite <- Ef; intros Ec; apply Hnd; rewrite <- Ec; left).
    wsteps. unfold s_ptr. apply wp_hload; [lia|lia|]. rewrite Hnx, Ej. apply IH; try done.
    + intros c' Hc'. apply Hin. by right.
    + intros Hc'. apply Hnd. by right.
Qed.

Lemma ordered_nodup fl : ordered fl -> NoDup fl.*1.
Proof.
  clear. induction fl as [|c fl IH]; intros Ho; [constructor|]. destruct Ho as [Hc Ho]. constructor; [|by apply IH].
  intros Hin. apply list_elem_of_fmap in Hin as (d & E & Hd). destruct (Hc d Hd) as [B _]. unfold extent in B. lia.
Qed.

(** The way around the list from the block after [freep]. *)
Lemma around h fl used : heap_ok h fl used -> exists f w0 e, f.1 = freep h /\ ((w0 ++ [f]) ≡ₚ fl) /\ (f.1 ∉ w0.*1) /\
  seg (hmem h) (w0 ++ [f]) e /\ load32 (hmem h) (freep h) = first (w0 ++ [f]) e.
Proof.
  intros H. destruct (ring _ _ _ H) as (f & w & Ef & Hp & (S1 & S2 & S3)). exists f, w, (first w f.1). split_and!; [done| | | |].
  - by rewrite Permutation_app_comm.
  - pose proof (ordered_nodup fl (ok_ordered _ _ _ H)) as Hnd. rewrite <- Hp in Hnd. by apply NoDup_cons in Hnd as [? _].
  - apply seg_split. cbn [first seg]. done.
  - rewrite <- Ef, S1. by destruct w.
Qed.

Lemma malloc_loop_spec h fl used n : heap_ok h fl used -> (2 * length fl + 2 <= n)%nat ->
  wp (malloc_loop grow k (freep h) (load32 (hmem h) (freep h)) n n) h (fun r h' => kept used h h' /\
    ((r = 0 /\ h' = h /\ exhausted h fl) \/ exists fl' q, r = q + 8 /\ heap_ok h' fl' ((q, k) :: used) /\
      8 * (units fl' + k - units fl) = brk h' - brk h)).
Proof.
  intros H Hn. destruct (around _ _ _ H) as (f & w0 & e & Ef & Hp & Hnd & Hs & Hfirst).
  assert (forall c, c ∈ w0 ++ [f] -> c ∈ fl) as Hin by (intros c; by rewrite Hp).
  assert (length fl = S (length w0)) as El by (rewrite <- (Permutation_length Hp), length_app; cbn; lia).
  destruct (Exists_dec (fun c => k <= c.2) (w0 ++ [f])) as [Hbig|Hsmall].
  - apply Exists_exists in Hbig. rewrite Hfirst. eapply wp_mono; [apply (malloc_loop_found h fl used n e f H Ef w0); try done|].
    + apply (ok_freep _ _ _ H).
    + lia.
    + intros r h' (fl' & q & -> & H' & Hu & Hk' & Hb'). split; [done|right]. exists fl', q. split_and!; [done|done|lia].
  - assert (forall c, c ∈ w0 ++ [f] -> c ∈ fl /\ c.2 < k) as Hlt.
    { intros c Hc. split; [by apply Hin|]. apply Z.nle_gt. intros Hle. apply Hsmall, Exists_exists. by exists c. }
    rewrite Hfirst. replace n with (S (length w0) + (n - S (length w0)))%nat at 2 by lia.
    apply (malloc_loop_none h fl used n e f _ H Ef w0); try done.
    eapply wp_mono; [apply (morecore_spec h fl used k n H); [done|lia]|].
    intros r h' [(-> & -> & Hg)|(Hr & -> & Hkept & fl1 & H1 & Hu & Hb1 & Hbig & Hlen)].
    { cbn [Z.eqb]. split; [done|left]. split; [done|]. split; [done|]. split; [|done]. intros c Hc. apply Hlt. by rewrite Hp. }
    rewrite (proj2 (Z.eqb_neq _ _)) by done.
    destruct (around _ _ _ H1) as (f1 & w1 & e1 & Ef1 & Hp1 & Hnd1 & Hs1 & Hfirst1).
    assert (length fl1 = S (length w1)) as El1 by (rewrite <- (Permutation_length Hp1), length_app; cbn; lia).
    assert (freep h' ∈ fl1.*1) as Hfp by apply (ok_freep _ _ _ H1). assert (f1 ∈ fl1) as Hf1 by (rewrite <- Hp1; apply elem_of_app; right; left).
    destruct (fl_range _ _ _ _ H1 Hf1) as (? & ? & _). destruct (ok_brk _ _ _ H1) as [? _].
    wstep. unfold s_ptr. apply wp_hload; [lia|lia|]. rewrite Hfirst1.
    eapply wp_mono; [apply (malloc_loop_found h' fl1 used n e1 f1 H1 Ef1 w1); try done|].
    + intros c. by rewrite Hp1.
    + destruct Hbig as (c & Hc & Hck). exists c. split; [by rewrite Hp1|done].
    + lia.
    + intros r h2 (fl2 & q & -> & Hok2 & Hu2 & Hk2 & Hb2). split.
      * intros c y Hc Hy. by rewrite (Hk2 c y Hc Hy), (Hkept c y Hc Hy).
      * right. exists fl2, q. split_and!; [done|done|lia].
Qed.
End Loop.

(** Before the first call of [malloc]. *)
Definition untouched (h : heap) : Prop := freep h = 0 /\ 0 < base /\ base + 8 <= brk h <= KERNBASE.

Lemma first_ok h : untouched h ->
  heap_ok (set_hmem (store32 (store32 (hmem h) base base) (base + 4) 0) (set_freep base h)) [(base, 0)] [].
Proof.
  intros (_ & Hb & Hk). split; cbn [brk hmem freep set_hmem set_freep].
  - done.
  - done.
  - cbn. rewrite load32_store32_ne, !load32_store32_eq by lia. split_and!; [|done|done]. apply u32_small. unfold is_u32, KERNBASE in *. lia.
  - cbn. split; [|done]. intros d Hd. by apply elem_of_nil in Hd.
  - left.
  - intros c Hc. left. by apply list_elem_of_singleton in Hc.
  - intros c Hc. by apply elem_of_nil in Hc.
  - constructor.
  - intros c d _ Hd. by apply elem_of_nil in Hd.
Qed.

(** A heap in use or before its first use. *)
Definition heap_state (h : heap) (fl used : list block) : Prop :=
  heap_ok h fl used \/ (untouched h /\ fl = [(base, 0)] /\ used = []).

Lemma malloc_units h fl used nbytes n k : heap_state h fl used -> (2 * length fl + 2 <= n)%nat ->
  u32 (u32 (nbytes + HEADER - 1) / HEADER + 1) = k -> 1 <= k < 268435456 ->
  wp (malloc base grow nbytes n) h (fun r h' => kept used h h' /\
    ((r = 0 /\ heap_ok h' fl used /\ brk h' = brk h /\ exhausted k h fl) \/
     exists fl' q, r = q + 8 /\ heap_ok h' fl' ((q, k) :: used) /\ 8 * (units fl' + k - units fl) = brk h' - brk h)).
Proof.
  intros H Hn Ek Hk. unfold malloc. rewrite Ek.
  assert (forall h1, heap_ok h1 fl used -> brk h1 = brk h -> kept used h h1 ->
    wp (p ← hload (s_ptr (freep h1)); malloc_loop grow k (freep h1) p n n) h1 (fun r h' => kept used h h' /\
    ((r = 0 /\ heap_ok h' fl used /\ brk h' = brk h /\ exhausted k h fl) \/
     exists fl' q, r = q + 8 /\ heap_ok h' fl' ((q, k) :: used) /\ 8 * (units fl' + k - units fl) = brk h' - brk h))) as Hloop.
  { intros h1 H1 Hb1 Hkept. pose proof (ok_freep _ _ _ H1) as Hf. apply list_elem_of_fmap in Hf as (f & Ef & Hf).
    destruct (fl_range _ _ _ _ H1 Hf) as (? & ? & _). destruct (ok_brk _ _ _ H1) as [? _].
    wstep. unfold s_ptr. apply wp_hload; [lia|lia|].
    eapply wp_mono; [apply (malloc_loop_spec k Hk h1 fl used n H1 Hn)|]. intros r h' [Hk1 Hr]. split.
    - intros c y Hc Hy. by rewrite (Hk1 c y Hc Hy), (Hkept c y Hc Hy).
    - unfold exhausted in *. rewrite Hb1 in Hr. destruct Hr as [(-> & -> & Hx)|(fl' & q & -> & H' & Hu)]; [by left|right].
      exists fl', q. split_and!; [done|done|lia]. }
  wsteps. destruct H as [H|(Hun & -> & ->)].
  - pose proof (ok_freep _ _ _ H) as Hf. apply list_elem_of_fmap in Hf as (f & Ef & Hf).
    destruct (fl_range _ _ _ _ H Hf) as (? & _). destruct (ok_brk _ _ _ H) as [? _].
    rewrite (proj2 (Z.eqb_neq (freep h) 0)) by lia. wstep. by apply Hloop.
  - pose proof (first_ok h Hun) as H1. destruct Hun as (Ef & Hb & Hk1). rewrite Ef. cbn [Z.eqb]. unfold s_size, s_ptr. wsteps.
    apply wp_hstore; cbn [brk set_freep]; [lia|lia|]. wstep. apply wp_hstore; cbn [brk set_freep set_hmem]; [lia|lia|]. wstep.
    apply (Hloop _ H1); [done|]. intros c y Hc. by apply elem_of_nil in Hc.
Qed.

(** C29: on a heap whose free list is ordered, fully joined and apart from the
    blocks in use (or before its first use), and for fewer than 2147483632
    bytes (more do not fit the [int] that [sbrk] takes), [malloc] ends within
    [2 n + 2] steps for a list of [n] blocks.  It returns 0, with the free list,
    the blocks in use and the size of the process as they were, only when no
    free block is large enough and [sbrk] refuses the memory; otherwise it
    returns a block that holds at least [nbytes] bytes, inside the process and
    apart from every block in use and every free block.  No byte of a block in
    use changes, every access is to memory of the process, and the units of the
    free blocks and of the new one are those that were free and that [sbrk]
    added. *)
Theorem malloc_fresh h fl used nbytes n :
  heap_state h fl used -> 0 <= nbytes < 2147483632 -> (2 * length fl + 2 <= n)%nat ->
  wp (malloc base grow nbytes n) h (fun r h' => kept used h h' /\ exists k, nbytes <= 8 * (k - 1) < nbytes + 8 /\
    ((r = 0 /\ heap_ok h' fl used /\ brk h' = brk h /\ exhausted k h fl) \/
     exists fl' q, r = q + 8 /\ heap_ok h' fl' ((q, k) :: used) /\ 8 * (units fl' + k - units fl) = brk h' - brk h)).
Proof.
  intros H Hnb Hn.
  assert (0 <= (nbytes + 8 - 1) / 8 < 268435455 /\ nbytes <= 8 * ((nbytes + 8 - 1) / 8) < nbytes + 8) as [Hk Hk'].
  { pose proof (Z.div_mod (nbytes + 8 - 1) 8). pose proof (Z.mod_pos_bound (nbytes + 8 - 1) 8). lia. }
  eapply wp_mono; [apply (malloc_units h fl used nbytes n ((nbytes + 8 - 1) / 8 + 1) H Hn)|].
  - unfold HEADER. rewrite (u32_small (nbytes + 8 - 1)), u32_small by (unfold is_u32; lia). done.
  - lia.
  - intros r h' [Hkept Hr]. split; [done|]. eexists. split; [|exact Hr]. lia.
Qed.

(** C35: a size of almost 2^32 bytes wraps around to one unit: whenever a
    single unit is free or [sbrk] grants the least amount of memory that
    [morecore] asks for, [malloc] returns a block that is only a header,
    without room for a byte, instead of 0. *)
Theorem malloc_wraps h fl used nbytes n :
  heap_state h fl used -> 4294967289 <= nbytes < 4294967296 -> (2 * length fl + 2 <= n)%nat ->
  (exists c, c ∈ fl /\ 1 <= c.2) \/ grow (brk h) 32768 <> None ->
  wp (malloc base grow nbytes n) h (fun r h' => r <> 0 /\ exists fl' q, r = q + 8 /\ heap_ok h' fl' ((q, 1) :: used)).
Proof.
  intros H Hnb Hn Hroom. eapply wp_mono; [apply (malloc_units h fl used nbytes n 1 H Hn)|].
  - unfold HEADER. assert (u32 (nbytes + 8 - 1) = nbytes + 7 - 4294967296) as -> by (unfold u32; rewrite <- (Z_mod_plus_full _ (-1)), Z.mod_small; lia).
    rewrite Z.div_small by lia. done.
  - lia.
  - intros r h' [_ [(_ & _ & _ & Hx & Hg)|(fl' & q & -> & H' & _)]].
    + destruct Hroom as [(c & Hc & Hc1)|Hroom]; [specialize (Hx c Hc); lia|done].
    + split; [|by exists fl', q]. destruct (ok_used _ _ _ H' (q, 1) ltac:(left)) as [(Hq & _) _].
      destruct (ok_brk _ _ _ H'). cbn in Hq. lia.
Qed.

(** C30: [free] of a block in use gives it back: the free list stays ordered,
    fully joined and apart from the blocks still in use, some free block covers
    the one given back, no unit is lost, and no byte of a block in use changes;
    the search for its place ends within the length of the list. *)
Theorem free_joins h fl used b n fuel : heap_ok h fl ((b, n) :: used) -> (length fl <= fuel)%nat ->
  wp (free (b + 8) fuel) h (fun _ h' => exists fl', heap_ok h' fl' used /\ units fl' = units fl + n /\
    (exists c, c ∈ fl' /\ c.1 <= b /\ b + 8 * n <= c.1 + 8 * c.2) /\ kept used h h').
Proof.
  intros H Hf. eapply wp_mono; [by apply (free_spec h fl used b n fuel)|].
  intros [] h' (fl' & H' & Hu & Hc & Hk & _). by exists fl'.
Qed.
End Heap.

(** A process of 16384 bytes that may grow to 1048576, before its first call,
    and with a block of it. *)
Definition sbrk_demo (t n : Z) : option Z := if t + n <=? 1048576 then Some (t + n) else None.
Definition heap0 : heap := Heap ∅ 0 16384.

Lemma sbrk_demo_grows t n t' : 0 <= n -> sbrk_demo t n = Some t' -> t' = t + n /\ t' <= KERNBASE.
Proof. unfold sbrk_demo, KERNBASE. intros _. destruct (Z.leb_spec (t + n) 1048576); intros E; simplify_eq. lia. Qed.

Lemma heap0_untouched : untouched 8192 heap0.
Proof. split; [done|]. cbn. unfold KERNBASE. lia. Qed.

Lemma malloc_fresh_witness : wp (malloc 8192 sbrk_demo 100 4) heap0 (fun r h' => kept [] heap0 h' /\
  exists fl' q k, r = q + 8 /\ 100 <= 8 * (k - 1) < 100 + 8 /\ heap_ok 8192 h' fl' [(q, k)] /\
    8 * (units fl' + k - units [(8192, 0)]) = brk h' - brk heap0).
Proof.
  eapply wp_mono; [apply (malloc_fresh 8192 sbrk_demo sbrk_demo_grows heap0 [(8192, 0)] [] 100 4);
    [right; split; [apply heap0_untouched|done]|lia|cbn; lia]|].
  intros r h' (Hkept & k & Hk & [(_ & _ & _ & _ & Hg)|(fl' & q & H)]); [|by split; [|exists fl', q, k; intuition]].
  assert (k = 14) as -> by lia. by vm_compute in Hg.
Defined.

Lemma malloc_wraps_witness : wp (malloc 8192 sbrk_demo 4294967295 4) heap0 (fun r h' => r <> 0 /\
  exists fl' q, r = q + 8 /\ heap_ok 8192 h' fl' [(q, 1)]).
Proof.
  apply (malloc_wraps 8192 sbrk_demo sbrk_demo_grows heap0 [(8192, 0)] [] 4294967295 4);
    [right; split; [apply heap0_untouched|done]|lia|cbn; lia|right; by vm_compute].
Defined.

Definition heap1 : heap :=
  Heap (store32 (store32 (store32 ∅ 8192 8192) 8196 0) (16384 + 4) 5) 8192 (16384 + 8 * 5).

Lemma heap1_ok : heap_ok 8192 heap1 [(8192, 0)] [(16384, 5)].
Proof. apply (grown_ok 8192 _ _ _ 5 (first_ok 8192 heap0 heap0_untouched)); cbn; unfold KERNBASE; lia. Qed.

Lemma free_joins_witness : wp (free (16384 + 8) 1) heap1 (fun _ h' => exists fl', heap_ok 8192 h' fl' [] /\
  units fl' = units [(8192, 0)] + 5 /\ (exists c, c ∈ fl' /\ c.1 <= 16384 /\ 16384 + 8 * 5 <= c.1 + 8 * c.2) /\ kept [] heap1 h').
Proof. apply (free_joins 8192 heap1 [(8192, 0)] [] 16384 5 1); [exact heap1_ok|cbn; lia]. Defined.
End UmallocProofs.
