(* ===== verification/Fs.v ===== *)
(** * The file system: fs.c

    Cached inodes are cells of [icache.inode]; a pointer to one is its index,
    [None] a null pointer.  Memory that fs.c reads or writes for its callers is
    reached through a [ptr]: a user address (an access may fault and decrypt
    the page), a kernel address, or a variable of the calling function.  The
    devices of [devsw] are the class [Devices]. *)

From S2P Require Import Prelude Memory Mmu Machine Spinlock Kalloc Vm PageTable VmProofs VmSpaces.
From S2P Require Import Encrypt ProcTable Clock ClockProofs Proc ProcProofs FileState Sleeplock Bio Log Ulib Cprintf.

(** ** Pointers *)

(** [Var l]: a variable; [l] is what has been stored or is left to be read. *)
Inductive ptr : Type := UPtr (a : Z) | KPtr (a : Z) | Var (l : list Z).

Section Pointers.
Context `{KI : KernelImage, PO : !PageOps}.

Fixpoint ustores (a : Z) (d : list Z) : FK unit :=
  match d with
  | [] => mret tt
  | b :: d => ustore8 a b;; ustores (u32 (a + 1)) d
  end.

Fixpoint uloads (a : Z) (n : nat) : FK (list Z) :=
  match n with
  | O => mret []
  | S n => b ← uload8 a; d ← uloads (u32 (a + 1)) n; mret (b :: d)
  end.

Fixpoint kstores (a : Z) (d : list Z) : FK unit :=
  match d with
  | [] => mret tt
  | b :: d => zoom machL (kstore8 a b);; kstores (u32 (a + 1)) d
  end.

Fixpoint kloads (a : Z) (n : nat) : FK (list Z) :=
  match n with
  | O => mret []
  | S n => b ← zoom machL (kload8 a); d ← kloads (u32 (a + 1)) n; mret (b :: d)
  end.

(** [memmove(p, d, len); p += len], and [memmove(d, p, n); p += n] *)
Definition ptr_put (p : ptr) (d : list Z) : FK ptr :=
  match p with
  | UPtr a => ustores a d;; mret (UPtr (u32 (a + Z.of_nat (length d))))
  | KPtr a => kstores a d;; mret (KPtr (u32 (a + Z.of_nat (length d))))
  | Var l => mret (Var (l ++ d))
  end.

Definition ptr_get (p : ptr) (n : nat) : FK (list Z * ptr) :=
  match p with
  | UPtr a => d ← uloads a n; mret (d, UPtr (u32 (a + Z.of_nat n)))
  | KPtr a => d ← kloads a n; mret (d, KPtr (u32 (a + Z.of_nat n)))
  | Var l => if decide (length l < n)%nat then fault else mret (take n l, Var (drop n l))
  end.

(** [*p] and [p + 1]; a variable of this kind is a string. *)
Definition ptr_ld (p : ptr) : FK Z :=
  match p with
  | UPtr a => uload8 a
  | KPtr a => zoom machL (kload8 a)
  | Var l => mret (hd 0 l)
  end.

Definition ptr_next (p : ptr) : ptr :=
  match p with
  | UPtr a => UPtr (u32 (a + 1))
  | KPtr a => KPtr (u32 (a + 1))
  | Var l => Var (tail l)
  end.
End Pointers.

(** [devsw[major].read] and [devsw[major].write] *)
Class Devices : Type := {
  dev_read : Z -> option (nat -> ptr -> Z -> FK Z);
  dev_write : Z -> option (nat -> ptr -> Z -> FK Z);
}.

(** ** Accesses *)

Definition getsb {A} (f : superblock -> A) : FK A := gets (fun k => f (sb (files k))).

Definition inode_at (s : fstate) (i : nat) : inode := default inode0 (ic_inode (icache s) !! i).
Definition set_inode (f : inode -> inode) (i : nat) (s : fstate) : fstate :=
  set_icache (set_ic_inode (alter f i (ic_inode (icache s))) (icache s)) s.

(** [ip->field] and [ip->field = ...] *)
Definition geti {A} (i : nat) (f : inode -> A) : FK A := gets (fun k => f (inode_at (files k) i)).
Definition seti (i : nat) (f : inode -> inode) : FK unit := modify (fun k => set_files (set_inode f i (files k)) k).

(** [ip->addrs[i]], and the assignment. *)
Definition get_addr (ip : nat) (i : Z) : FK Z :=
  l ← geti ip i_addrs;
  nonnull (l !! Z.to_nat i).
Definition set_addr (ip : nat) (i v : Z) : FK unit :=
  seti ip (fun x => set_i_addrs (<[Z.to_nat i := v]> (i_addrs x)) x).

Definition i16 (v : Z) : Z := let w := v mod 65536 in if w <? 32768 then w else w - 65536.

(** ** Disk inodes: struct dinode of fs.h, 64 bytes at [64 * (inum % IPB)] *)

Definition IBLOCK (i : Z) (s : superblock) : Z := u32 (i / IPB + sb_inodestart s).
Definition BBLOCK (b : Z) (s : superblock) : Z := u32 (b / BPB + sb_bmapstart s).

Definition dip (inum : Z) : Z := 64 * (inum mod IPB).

Definition addrs_of (d : list Z) (o : Z) : list Z := (fun i => get32 d (o + 12 + 4 * Z.of_nat i)) <$> seq 0 13.

Fixpoint put_addrs (o : Z) (l : list Z) (d : list Z) : list Z :=
  match l with
  | [] => d
  | a :: l => put_addrs (o + 4) l (put32 o a d)
  end.

(** The assignments of [iupdate], and those of [ilock]. *)
Definition put_dinode (o : Z) (x : inode) (d : list Z) : list Z :=
  put_addrs (o + 12) (i_addrs x)
    (put32 (o + 8) (i_size x) (put16 (o + 6) (i_nlink x) (put16 (o + 4) (i_minor x)
      (put16 (o + 2) (i_major x) (put16 o (i_type x) d))))).

Definition get_dinode (o : Z) (d : list Z) (x : inode) : inode :=
  Inode (i_dev x) (i_inum x) (i_ref x) (i_lock x) (i_valid x) (i16 (get16 d o)) (i16 (get16 d (o + 2)))
    (i16 (get16 d (o + 4))) (i16 (get16 d (o + 6))) (get32 d (o + 8)) (addrs_of d o).

(** ** Blocks *)

Section Fs.
Context `{SE : SwitchEnv fstate, DD : DiskDriver, DV : Devices, KI : KernelImage, PO : !PageOps}.

Definition bzero (dev bno : Z) : FK unit :=
  bp ← bread dev bno;
  setb bp (set_b_data (replicate (Z.to_nat BSIZE) 0));;
  log_write bp;;
  brelse bp.

(** The bit of block [bi] of a block of the bit map. *)
Definition map_bit (d : list Z) (bi : Z) : Z := Z.land (byte_at d (bi / 8)) (Z.shiftl 1 (bi mod 8)).
Definition set_map (bi v : Z) (d : list Z) : list Z := <[Z.to_nat (bi / 8) := v]> d.

(** The inner loop of [balloc], from [bi]: the first free bit. *)
Fixpoint balloc_scan (d : list Z) (b size bi : Z) (n : nat) : option Z :=
  match n with
  | O => None
  | S n =>
      if negb (b + bi <? size) then None
      else if map_bit d bi =? 0 then Some bi
      else balloc_scan d b size (bi + 1) n
  end.

Fixpoint balloc_loop (dev b : Z) (n : nat) : FK Z :=
  size ← getsb sb_size;
  if negb (b <? size) then panic "balloc: out of blocks" else
  match n with
  | O => spin
  | S n =>
      s ← getsb id;
      bp ← bread dev (BBLOCK b s);
      d ← getb bp b_data;
      match balloc_scan d b size 0 (Z.to_nat BPB) with
      | Some bi =>
          setb bp (set_b_data (set_map bi (Z.lor (byte_at d (bi / 8)) (Z.shiftl 1 (bi mod 8))) d));;
          log_write bp;;
          brelse bp;;
          bzero dev (b + bi);;
          mret (b + bi)
      | None =>
          brelse bp;;
          balloc_loop dev (b + BPB) n
      end
  end.

Definition balloc (dev : Z) : FK Z :=
  size ← getsb sb_size;
  balloc_loop dev 0 (Z.to_nat (size / BPB + 1)).

Definition bfree (dev b : Z) : FK unit :=
  s ← getsb id;
  bp ← bread dev (BBLOCK b s);
  let bi := b mod BPB in
  d ← getb bp b_data;
  if map_bit d bi =? 0 then panic "freeing free block" else
  setb bp (set_b_data (set_map bi (Z.ldiff (byte_at d (bi / 8)) (Z.shiftl 1 (bi mod 8))) d));;
  log_write bp;;
  brelse bp.

(** ** Inodes *)

Fixpoint iinit_loop (i n : nat) : FK unit :=
  match n with
  | O => mret tt
  | S n => initsleeplock (inode_sl i);; iinit_loop (S i) n
  end.

Definition iinit (dev : Z) : FK unit :=
  initlock (infiles ic_lockL);;
  iinit_loop 0 (Z.to_nat NINODE);;
  s ← readsb dev;
  modify (fun k => set_files (set_sb s (files k)) k);;
  cprintf (chars "sb: size %d nblocks %d ninodes %d nlog %d logstart %d inodestart %d bmap start %d" ++ [10])
    [KInt (sb_size s); KInt (sb_nblocks s); KInt (sb_ninodes s); KInt (sb_nlog s); KInt (sb_logstart s);
     KInt (sb_inodestart s); KInt (sb_bmapstart s)].

(** The search of [iget], from entry [ip]: the entry that holds the inode, or
    the first empty entry. *)
Fixpoint iget_loop (dev inum : Z) (ip : nat) (empty : option nat) (n : nat) : FK (nat + option nat) :=
  match n with
  | O => mret (inr empty)
  | S n =>
      x ← geti ip id;
      if (0 <? i_ref x) && (i_dev x =? dev) && (i_inum x =? inum) then mret (inl ip)
      else iget_loop dev inum (S ip)
             (match empty with None => if i_ref x =? 0 then Some ip else None | Some e => Some e end) n
  end.

Definition iget (dev inum : Z) : FK nat :=
  acquire (infiles ic_lockL);;
  r ← iget_loop dev inum 0 None (Z.to_nat NINODE);
  match r with
  | inl ip =>
      seti ip (fun x => set_i_ref (i32 (i_ref x + 1)) x);;
      release (infiles ic_lockL);;
      mret ip
  | inr None => panic "iget: no inodes"
  | inr (Some ip) =>
      seti ip (set_i_dev dev);;
      seti ip (set_i_inum inum);;
      seti ip (set_i_ref 1);;
      seti ip (set_i_valid false);;
      release (infiles ic_lockL);;
      mret ip
  end.

Fixpoint ialloc_loop (dev type inum : Z) (n : nat) : FK nat :=
  ninodes ← getsb sb_ninodes;
  if negb (inum <? ninodes) then panic "ialloc: no inodes" else
  match n with
  | O => spin
  | S n =>
      s ← getsb id;
      bp ← bread dev (IBLOCK inum s);
      d ← getb bp b_data;
      if i16 (get16 d (dip inum)) =? 0 then
        setb bp (set_b_data (put16 (dip inum) type (put_bytes (Z.to_nat (dip inum)) (replicate 64 0) d)));;
        log_write bp;;
        brelse bp;;
        iget dev inum
      else
        brelse bp;;
        ialloc_loop dev type (inum + 1) n
  end.

Definition ialloc (dev type : Z) : FK nat :=
  ninodes ← getsb sb_ninodes;
  ialloc_loop dev type 1 (Z.to_nat ninodes).

Definition iupdate (ip : nat) : FK unit :=
  dev ← geti ip i_dev;
  inum ← geti ip i_inum;
  s ← getsb id;
  bp ← bread dev (IBLOCK inum s);
  x ← geti ip id;
  setb bp (fun b => set_b_data (put_dinode (dip inum) x (b_data b)) b);;
  log_write bp;;
  brelse bp.

Definition idup (o : option nat) : FK (option nat) :=
  acquire (infiles ic_lockL);;
  ip ← nonnull o;
  seti ip (fun x => set_i_ref (i32 (i_ref x + 1)) x);;
  release (infiles ic_lockL);;
  mret (Some ip).

Definition ilock (o : option nat) : FK unit :=
  match o with
  | None => panic "ilock"
  | Some ip =>
      r ← geti ip i_ref;
      if r <? 1 then panic "ilock" else
      acquiresleep (inode_sl ip);;
      v ← geti ip i_valid;
      when (negb v)
        (dev ← geti ip i_dev;
         inum ← geti ip i_inum;
         s ← getsb id;
         bp ← bread dev (IBLOCK inum s);
         d ← getb bp b_data;
         seti ip (get_dinode (dip inum) d);;
         brelse bp;;
         seti ip (set_i_valid true);;
         t ← geti ip i_type;
         when (t =? 0) (panic "ilock: no type"))
  end.

Definition iunlock (o : option nat) : FK unit :=
  match o with
  | None => panic "iunlock"
  | Some ip =>
      h ← holdingsleep (inode_sl ip);
      if negb h then panic "iunlock" else
      r ← geti ip i_ref;
      if r <? 1 then panic "iunlock" else
      releasesleep (inode_sl ip)
  end.

(** ** The contents of inodes *)

Definition bmap (ip : nat) (bn : Z) : FK Z :=
  dev ← geti ip i_dev;
  if bn <? NDIRECT then
    addr ← get_addr ip bn;
    if negb (addr =? 0) then mret addr else
    addr ← balloc dev;
    set_addr ip bn addr;;
    mret addr
  else
  let bn := bn - NDIRECT in
  if bn <? NINDIRECT then
    addr ← get_addr ip NDIRECT;
    addr ← (if negb (addr =? 0) then mret addr
            else addr ← balloc dev; set_addr ip NDIRECT addr;; mret addr);
    bp ← bread dev addr;
    d ← getb bp b_data;
    addr ← (if negb (get32 d (4 * bn) =? 0) then mret (get32 d (4 * bn))
            else addr ← balloc dev;
                 setb bp (fun b => set_b_data (put32 (4 * bn) addr (b_data b)) b);;
                 log_write bp;;
                 mret addr);
    brelse bp;;
    mret addr
  else panic "bmap: out of range".

Fixpoint itrunc_direct (ip : nat) (i : Z) (n : nat) : FK unit :=
  match n with
  | O => mret tt
  | S n =>
      a ← get_addr ip i;
      when (negb (a =? 0))
        (dev ← geti ip i_dev;
         bfree dev a;;
         set_addr ip i 0);;
      itrunc_direct ip (i + 1) n
  end.

Fixpoint itrunc_indirect (ip bp : nat) (j : Z) (n : nat) : FK unit :=
  match n with
  | O => mret tt
  | S n =>
      d ← getb bp b_data;
      when (negb (get32 d (4 * j) =? 0))
        (dev ← geti ip i_dev;
         bfree dev (get32 d (4 * j)));;
      itrunc_indirect ip bp (j + 1) n
  end.

Definition itrunc (ip : nat) : FK unit :=
  itrunc_direct ip 0 (Z.to_nat NDIRECT);;
  a ← get_addr ip NDIRECT;
  when (negb (a =? 0))
    (dev ← geti ip i_dev;
     bp ← bread dev a;
     itrunc_indirect ip bp 0 (Z.to_nat NINDIRECT);;
     brelse bp;;
     a ← get_addr ip NDIRECT;
     bfree dev a;;
     set_addr ip NDIRECT 0);;
  seti ip (set_i_size 0);;
  iupdate ip.

Definition iput (o : option nat) : FK unit :=
  ip ← nonnull o;
  acquiresleep (inode_sl ip);;
  v ← geti ip i_valid;
  l ← geti ip i_nlink;
  when (v && (l =? 0))
    (acquire (infiles ic_lockL);;
     r ← geti ip i_ref;
     release (infiles ic_lockL);;
     when (r =? 1)
       (itrunc ip;;
        seti ip (set_i_type 0);;
        iupdate ip;;
        seti ip (set_i_valid false)));;
  releasesleep (inode_sl ip);;
  acquire (infiles ic_lockL);;
  seti ip (fun x => set_i_ref (i32 (i_ref x - 1)) x);;
  release (infiles ic_lockL).

Definition iunlockput (o : option nat) : FK unit :=
  iunlock o;;
  iput o.

(** [readi]; each turn reads at least one byte and all but the first and the
    last turns read a block. *)
Fixpoint readi_loop (ip : nat) (dst : ptr) (off tot n : Z) (fuel : nat) : FK ptr :=
  if negb (tot <? n) then mret dst else
  match fuel with
  | O => spin
  | S fuel =>
      dev ← geti ip i_dev;
      addr ← bmap ip (off / BSIZE);
      bp ← bread dev addr;
      let m := Z.min (n - tot) (BSIZE - off mod BSIZE) in
      d ← getb bp b_data;
      dst ← ptr_put dst (take (Z.to_nat m) (drop (Z.to_nat (off mod BSIZE)) d));
      brelse bp;;
      readi_loop ip dst (off + m) (tot + m) n fuel
  end.

(** The result and the pointer past the bytes read. *)
Definition readi (ip : nat) (dst : ptr) (off n : Z) : FK (Z * ptr) :=
  t ← geti ip i_type;
  if t =? T_DEV then
    major ← geti ip i_major;
    if (major <? 0) || (NDEV <=? major) then mret (-1, dst) else
    match dev_read major with
    | None => mret (-1, dst)
    | Some read => r ← read ip dst (i32 n); mret (r, dst)
    end
  else
  size ← geti ip i_size;
  if (size <? off) || (u32 (off + n) <? off) then mret (-1, dst) else
  let n := if size <? u32 (off + n) then size - off else n in
  dst ← readi_loop ip dst off 0 n (Z.to_nat (n / BSIZE + 2));
  mret (i32 n, dst).

Fixpoint writei_loop (ip : nat) (src : ptr) (off tot n : Z) (fuel : nat) : FK Z :=
  if negb (tot <? n) then mret off else
  match fuel with
  | O => spin
  | S fuel =>
      dev ← geti ip i_dev;
      addr ← bmap ip (off / BSIZE);
      bp ← bread dev addr;
      let m := Z.min (n - tot) (BSIZE - off mod BSIZE) in
      r ← ptr_get src (Z.to_nat m);
      setb bp (fun b => set_b_data (put_bytes (Z.to_nat (off mod BSIZE)) r.1 (b_data b)) b);;
      log_write bp;;
      brelse bp;;
      writei_loop ip r.2 (off + m) (tot + m) n fuel
  end.

Definition writei (ip : nat) (src : ptr) (off n : Z) : FK Z :=
  t ← geti ip i_type;
  if t =? T_DEV then
    major ← geti ip i_major;
    if (major <? 0) || (NDEV <=? major) then mret (-1) else
    match dev_write major with
    | None => mret (-1)
    | Some write => write ip src (i32 n)
    end
  else
  size ← geti ip i_size;
  if (size <? off) || (u32 (off + n) <? off) then mret (-1) else
  if MAXFILE * BSIZE <? u32 (off + n) then mret (-1) else
  off ← writei_loop ip src off 0 n (Z.to_nat (n / BSIZE + 2));
  size ← geti ip i_size;
  when ((0 <? n) && (size <? off))
    (seti ip (set_i_size off);;
     iupdate ip);;
  mret (i32 n).

(** [stati(ip, st)]; the fields of [struct stat] are at 0, 4, 8, 12 and 16. *)
Definition ustore16 (va w : Z) : FK unit := ustore8 va (u8 w);; ustore8 (u32 (va + 1)) (u8 (w / 256)).

Definition stati (ip : nat) (st : Z) : FK unit :=
  x ← geti ip id;
  ustore32 (u32 (st + 4)) (i_dev x);;
  ustore32 (u32 (st + 8)) (i_inum x);;
  ustore16 st (i_type x);;
  ustore16 (u32 (st + 12)) (i_nlink x);;
  ustore32 (u32 (st + 16)) (i_size x).

(** ** Directories

    A name is a list of characters that ends at a zero or at its end; an entry
    is 16 bytes, the inode number in the first two. *)

(** [strncmp(s, t, n)] *)
Fixpoint namecmp_loop (s t : list Z) (n : nat) : Z :=
  match n with
  | O => 0
  | S n => if negb (hd 0 s =? 0) && (hd 0 s =? hd 0 t) then namecmp_loop (tail s) (tail t) n
           else hd 0 s - hd 0 t
  end.

Definition namecmp (s t : list Z) : Z := namecmp_loop s t (Z.to_nat DIRSIZ).

(** [strncpy(t, s, n)]: what it leaves in [t]. *)
Fixpoint name_copy (s : list Z) (n : nat) : list Z :=
  match n with
  | O => []
  | S n => if hd 0 s =? 0 then replicate (S n) 0 else hd 0 s :: name_copy (tail s) n
  end.

Definition de_inum (de : list Z) : Z := get16 de 0.
Definition de_name (de : list Z) : list Z := drop 2 de.

(** [readi(dp, (char* )&de, off, sizeof(de))], which must read a whole entry. *)
Definition read_dirent (dp : nat) (off : Z) (msg : string) : FK (list Z) :=
  r ← readi dp (Var []) off 16;
  if negb (r.1 =? 16) then panic msg else
  match r.2 with Var de => mret de | _ => fault end.

Fixpoint dirlookup_loop (dp : nat) (name : list Z) (off : Z) (n : nat) : FK (option (nat * Z)) :=
  size ← geti dp i_size;
  if negb (off <? size) then mret None else
  match n with
  | O => spin
  | S n =>
      de ← read_dirent dp off "dirlookup read";
      if de_inum de =? 0 then dirlookup_loop dp name (off + 16) n
      else if namecmp name (de_name de) =? 0 then
        dev ← geti dp i_dev;
        ip ← iget dev (de_inum de);
        mret (Some (ip, off))
      else dirlookup_loop dp name (off + 16) n
  end.

(** The inode, and the offset of its entry. *)
Definition dirlookup (dp : nat) (name : list Z) : FK (option (nat * Z)) :=
  t ← geti dp i_type;
  if negb (t =? T_DIR) then panic "dirlookup not DIR" else
  size ← geti dp i_size;
  dirlookup_loop dp name 0 (Z.to_nat (size / 16 + 1)).

(** The offset of the first empty entry, or the end of the directory. *)
Fixpoint dirlink_loop (dp : nat) (off : Z) (n : nat) : FK Z :=
  size ← geti dp i_size;
  if negb (off <? size) then mret off else
  match n with
  | O => spin
  | S n =>
      de ← read_dirent dp off "dirlink read";
      if de_inum de =? 0 then mret off else dirlink_loop dp (off + 16) n
  end.

Definition dirlink (dp : nat) (name : list Z) (inum : Z) : FK Z :=
  o ← dirlookup dp name;
  match o with
  | Some (ip, _) => iput (Some ip);; mret (-1)
  | None =>
      size ← geti dp i_size;
      off ← dirlink_loop dp 0 (Z.to_nat (size / 16 + 1));
      r ← writei dp (Var (bytes16 inum ++ name_copy name (Z.to_nat DIRSIZ))) off 16;
      if negb (r =? 16) then panic "dirlink" else mret 0
  end.

(** ** Paths *)

(** The loop that skips slashes, and the length of the element at [path];
    [n] bounds the length of the path. *)
Fixpoint skip_slashes (path : ptr) (n : nat) : FK ptr :=
  match n with
  | O => spin
  | S n => c ← ptr_ld path; if c =? 47 then skip_slashes (ptr_next path) n else mret path
  end.

Fixpoint skip_name (path : ptr) (len : Z) (n : nat) : FK (ptr * Z) :=
  match n with
  | O => spin
  | S n =>
      c ← ptr_ld path;
      if (c =? 47) || (c =? 0) then mret (path, len) else skip_name (ptr_next path) (len + 1) n
  end.

(** The path after the element, and the element. *)
Definition skipelem (path : ptr) (n : nat) : FK (option (ptr * list Z)) :=
  path ← skip_slashes path n;
  c ← ptr_ld path;
  if c =? 0 then mret None else
  let s := path in
  r ← skip_name path 0 n;
  name ← ptr_get s (Z.to_nat (if DIRSIZ <=? r.2 then DIRSIZ else r.2));
  path ← skip_slashes r.1 n;
  mret (Some (path, name.1)).

(** The loop of [namex]: the inode, and the last element read. *)
Fixpoint namex_loop (path : ptr) (nameiparent : bool) (ip : nat) (name : list Z) (plen n : nat)
    : FK (option (nat * list Z)) :=
  match n with
  | O => spin
  | S n =>
      o ← skipelem path plen;
      match o with
      | None =>
          if nameiparent then iput (Some ip);; mret None
          else mret (Some (ip, name))
      | Some (path, name) =>
          ilock (Some ip);;
          t ← geti ip i_type;
          if negb (t =? T_DIR) then iunlockput (Some ip);; mret None else
          c ← ptr_ld path;
          if nameiparent && (c =? 0) then iunlock (Some ip);; mret (Some (ip, name)) else
          next ← dirlookup ip name;
          match next with
          | None => iunlockput (Some ip);; mret None
          | Some (next, _) => iunlockput (Some ip);; namex_loop path nameiparent next name plen n
          end
      end
  end.

Definition namex (path : ptr) (nameiparent : bool) (plen : nat) : FK (option (nat * list Z)) :=
  c ← ptr_ld path;
  ip ← (if c =? 47 then ip ← iget ROOTDEV ROOTINO; mret (Some ip)
        else d ← mygetp cwd; idup d);
  ip ← nonnull ip;
  namex_loop path nameiparent ip [] plen plen.

Definition namei (path : ptr) (plen : nat) : FK (option nat) :=
  r ← namex path false plen;
  mret (fst <$> r).

Definition nameiparent (path : ptr) (plen : nat) : FK (option (nat * list Z)) := namex path true plen.
End Fs.
