(* ===== verification/Mkfs.v ===== *)
(** * mkfs.c: the program that makes the disk image

    The image is a list of blocks.  The files that mkfs is given are names and
    the pieces that [read] returns, each at most a block.  The super block does
    not change, so the variable [sb] is a constant; a [struct dinode] is an
    [inode] of which only the fields of the disk are used.  [exit(1)] and a
    failed assertion are outcomes of the monad. *)

From S2P Require Import Prelude Memory Mmu FileState Log Ulib Cprintf Fs.

Module Mkfs.

Definition NINODES : Z := 200.
Definition nbitmap : Z := FSSIZE / (BSIZE * 8) + 1.
Definition ninodeblocks : Z := NINODES / IPB + 1.
Definition nlog : Z := LOGSIZE.
Definition nmeta : Z := 2 + nlog + ninodeblocks + nbitmap.

Record image : Type := Image {
  im_blocks : list (list Z);
  freeinode : Z;
  freeblock : Z;
}.

Definition set_blocks (l : list (list Z)) (s : image) : image := Image l (freeinode s) (freeblock s).
Definition set_freeinode (i : Z) (s : image) : image := Image (im_blocks s) i (freeblock s).
Definition set_freeblock (b : Z) (s : image) : image := Image (im_blocks s) (freeinode s) b.

(** Intel byte order *)
Definition xshort (x : Z) : Z := get16 (bytes16 x) 0.
Definition xint (x : Z) : Z := get32 (bytes32 x) 0.

Definition sb : superblock :=
  Superblock (xint FSSIZE) (xint (FSSIZE - nmeta)) (xint NINODES) (xint nlog) (xint 2) (xint (2 + nlog))
    (xint (2 + nlog + ninodeblocks)).

Definition zeroes : list Z := replicate (Z.to_nat BSIZE) 0.

Definition asserts (b : bool) : M image unit := if b then mret tt else panic "assert".

(** ** Sectors and inodes *)

(** A write past the end leaves a hole of zeroes. *)
Definition wsect (sec : Z) (buf : list Z) : M image unit :=
  modify (fun s =>
    let l := im_blocks s in
    let i := Z.to_nat sec in
    set_blocks (if (i <? length l)%nat then <[i := buf]> l else l ++ replicate (i - length l) zeroes ++ [buf]) s).

Definition rsect (sec : Z) : M image (list Z) :=
  s ← get;
  match im_blocks s !! Z.to_nat sec with
  | Some buf => mret buf
  | None => panic "read"
  end.

Definition din0 (inum : Z) : inode := Inode 0 inum 0 sleeplock0 false 0 0 0 0 0 (replicate 13 0).

Definition winode (inum : Z) (ip : inode) : M image unit :=
  let bn := IBLOCK inum sb in
  buf ← rsect bn;
  wsect bn (put_dinode (dip inum) ip buf).

Definition rinode (inum : Z) : M image inode :=
  let bn := IBLOCK inum sb in
  buf ← rsect bn;
  mret (get_dinode (dip inum) buf (din0 inum)).

Definition ialloc (type : Z) : M image Z :=
  s ← get;
  let inum := freeinode s in
  modify (set_freeinode (u32 (inum + 1)));;
  winode inum (set_i_size (xint 0) (set_i_nlink (xshort 1) (set_i_type (xshort type) (din0 inum))));;
  mret inum.

Fixpoint balloc_loop (i : Z) (buf : list Z) (n : nat) : list Z :=
  match n with
  | O => buf
  | S n => balloc_loop (i + 1) (set_map i (Z.lor (byte_at buf (i / 8)) (Z.shiftl 1 (i mod 8))) buf) n
  end.

Definition balloc (used : Z) : M image unit :=
  asserts (used <? BSIZE * 8);;
  wsect (sb_bmapstart sb) (balloc_loop 0 zeroes (Z.to_nat used)).

(** ** Appending *)

(** [freeblock++] *)
Definition next_block : M image Z :=
  s ← get;
  modify (set_freeblock (u32 (freeblock s + 1)));;
  mret (xint (freeblock s)).

Definition addr (din : inode) (i : Z) : Z := default 0 (i_addrs din !! Z.to_nat i).
Definition put_addr (i v : Z) (din : inode) : inode := set_i_addrs (<[Z.to_nat i := v]> (i_addrs din)) din.

(** The number of block [fbn] of the file, and the inode with it. *)
Definition file_block (fbn : Z) (din : inode) : M image (Z * inode) :=
  if fbn <? NDIRECT then
    din ← (if xint (addr din fbn) =? 0 then b ← next_block; mret (put_addr fbn b din) else mret din);
    mret (xint (addr din fbn), din)
  else
    din ← (if xint (addr din NDIRECT) =? 0 then b ← next_block; mret (put_addr NDIRECT b din) else mret din);
    indirect ← rsect (xint (addr din NDIRECT));
    let i := 4 * (fbn - NDIRECT) in
    indirect ← (if get32 indirect i =? 0 then
                  b ← next_block;
                  wsect (xint (addr din NDIRECT)) (put32 i b indirect);;
                  mret (put32 i b indirect)
                else mret indirect);
    mret (xint (get32 indirect i), din).

(** The loop of [iappend], with the bytes [p] that are left; every turn copies
    at least one. *)
Fixpoint iappend_loop (p : list Z) (off : Z) (din : inode) (fuel : nat) : M image (Z * inode) :=
  let n := Z.of_nat (length p) in
  if n <=? 0 then mret (off, din) else
  match fuel with
  | O => spin
  | S fuel =>
      let fbn := off / BSIZE in
      asserts (fbn <? MAXFILE);;
      r ← file_block fbn din;
      let '(x, din) := r in
      let n1 := Z.min n ((fbn + 1) * BSIZE - off) in
      buf ← rsect x;
      wsect x (put_bytes (Z.to_nat (off - fbn * BSIZE)) (take (Z.to_nat n1) p) buf);;
      iappend_loop (drop (Z.to_nat n1) p) (off + n1) din fuel
  end.

Definition iappend (inum : Z) (p : list Z) : M image unit :=
  din ← rinode inum;
  r ← iappend_loop p (xint (i_size din)) din (length p);
  let '(off, din) := r in
  winode inum (set_i_size (xint off) din).

(** ** main *)

(** A directory entry; the name is padded with nulls or cut. *)
Definition dirent (inum : Z) (name : list Z) : list Z := bytes16 (xshort inum) ++ name_copy name (Z.to_nat DIRSIZ).

Fixpoint zero_loop (i : Z) (n : nat) : M image unit :=
  match n with
  | O => mret tt
  | S n => wsect i zeroes;; zero_loop (i + 1) n
  end.

Definition super_bytes : list Z :=
  bytes32 (sb_size sb) ++ bytes32 (sb_nblocks sb) ++ bytes32 (sb_ninodes sb) ++ bytes32 (sb_nlog sb) ++
  bytes32 (sb_logstart sb) ++ bytes32 (sb_inodestart sb) ++ bytes32 (sb_bmapstart sb).

(** [while((cc = read(fd, buf, sizeof(buf))) > 0) iappend(inum, buf, cc)] *)
Fixpoint append_pieces (inum : Z) (pieces : list (list Z)) : M image unit :=
  match pieces with
  | [] => mret tt
  | p :: pieces => iappend inum p;; append_pieces inum pieces
  end.

Definition add_file (rootino : Z) (name : list Z) (pieces : list (list Z)) : M image unit :=
  asserts (negb (existsb (Z.eqb 47) name));;
  let name := if hd 0 name =? 95 then tail name else name in
  inum ← ialloc T_FILE;
  iappend rootino (dirent inum name);;
  append_pieces inum pieces.

Fixpoint add_files (rootino : Z) (fs : list (list Z * list (list Z))) : M image unit :=
  match fs with
  | [] => mret tt
  | (name, pieces) :: fs => add_file rootino name pieces;; add_files rootino fs
  end.

(** The size of the root directory becomes a number of whole blocks. *)
Definition fix_root (rootino : Z) : M image unit :=
  din ← rinode rootino;
  let off := xint (i_size din) in
  let off := (off / BSIZE + 1) * BSIZE in
  winode rootino (set_i_size (xint off) din).

Definition main (fs : list (list Z * list (list Z))) : M image unit :=
  modify (set_freeblock nmeta);;
  zero_loop 0 (Z.to_nat FSSIZE);;
  wsect 1 (put_bytes 0 super_bytes zeroes);;
  rootino ← ialloc T_DIR;
  asserts (rootino =? ROOTINO);;
  iappend rootino (dirent rootino (chars "."));;
  iappend rootino (dirent rootino (chars ".."));;
  add_files rootino fs;;
  fix_root rootino;;
  s ← get;
  balloc (freeblock s).

(** The state in which [main] starts: an empty image file. *)
Definition start : image := Image [] 1 0.
End Mkfs.
