(* ===== verification/Mp.v ===== *)
(** * mp.c: the search for the MultiProcessor tables

    The structures lie in low memory; the addresses here are the physical ones,
    which the kernel reaches through the direct map.  [mp_cpus] are the APIC ids
    of [cpus[0]] to [cpus[ncpu - 1]], [mp_out] the bytes written to ports.  An
    offset is that of the field in the structures of mp.h.  The module [Mp] is
    the code; [MpProofs] shows that the table is read entry by entry. *)

From S2P Require Import Prelude Memory Mmu Ulib Cprintf.

Module Mp.

Definition MPPROC : Z := 0.
Definition MPBUS : Z := 1.
Definition MPIOAPIC : Z := 2.
Definition MPIOINTR : Z := 3.
Definition MPLINTR : Z := 4.

Record mpstate : Type := MpState {
  mp_cpus : list Z;
  ioapicid : Z;
  lapic : Z;
  mp_out : list (Z * Z);
}.

Definition load16 (m : memory) (a : Z) : Z := load8 m a + 256 * load8 m (a + 1).

Fixpoint sum_loop (m : memory) (addr : Z) (n : nat) (sum : Z) : Z :=
  match n with
  | O => sum
  | S n => sum_loop m (addr + 1) n (sum + load8 m addr)
  end.

Definition sum (m : memory) (addr len : Z) : Z := u8 (sum_loop m addr (Z.to_nat len) 0).

(** [memcmp(p, s, n) == 0] for a literal of [n] characters *)
Fixpoint same_bytes (m : memory) (p : Z) (s : list Z) : bool :=
  match s with
  | [] => true
  | c :: s => (load8 m p =? c) && same_bytes m (p + 1) s
  end.

(** The loop with [n] structures of 16 bytes to go. *)
Fixpoint mpsearch1_loop (m : memory) (p : Z) (n : nat) : option Z :=
  match n with
  | O => None
  | S n =>
      if same_bytes m p (chars "_MP_") && (sum m p 16 =? 0) then Some p
      else mpsearch1_loop m (p + 16) n
  end.

Definition mpsearch1 (m : memory) (a len : Z) : option Z := mpsearch1_loop m a (Z.to_nat ((len + 15) / 16)).

Definition mpsearch (m : memory) : option Z :=
  let bda := 0x400 in
  let p := Z.shiftl (Z.lor (Z.shiftl (load8 m (bda + 0x0f)) 8) (load8 m (bda + 0x0e))) 4 in
  let r :=
    if negb (p =? 0) then mpsearch1 m p 1024
    else
      let p := Z.lor (Z.shiftl (load8 m (bda + 0x14)) 8) (load8 m (bda + 0x13)) * 1024 in
      mpsearch1 m (u32 (p - 1024)) 1024 in
  match r with
  | Some mp => Some mp
  | None => mpsearch1 m 0xf0000 0x10000
  end.

(** [*pmp] and the result *)
Definition mpconfig (m : memory) : option (Z * Z) :=
  match mpsearch m with
  | None => None
  | Some mp =>
      let conf := load32 m (mp + 4) in
      if conf =? 0 then None
      else if negb (same_bytes m conf (chars "PCMP")) then None
      else if negb (load8 m (conf + 6) =? 1) && negb (load8 m (conf + 6) =? 4) then None
      else if negb (sum m conf (load16 m (conf + 4)) =? 0) then None
      else Some (mp, conf)
  end.

(** [default: ismp = 0; break;] leaves the [switch] and not the loop. *)
Fixpoint mpinit_loop (m : memory) (p e : Z) (ismp : bool) (fuel : nat) : M mpstate bool :=
  if negb (p <? e) then mret ismp else
  match fuel with
  | O => spin
  | S fuel =>
      let t := load8 m p in
      if t =? MPPROC then
        modify (fun s =>
          if Z.of_nat (length (mp_cpus s)) <? NCPU then MpState (mp_cpus s ++ [load8 m (p + 1)]) (ioapicid s) (lapic s) (mp_out s)
          else s);;
        mpinit_loop m (p + 20) e ismp fuel
      else if t =? MPIOAPIC then
        modify (fun s => MpState (mp_cpus s) (load8 m (p + 1)) (lapic s) (mp_out s));;
        mpinit_loop m (p + 8) e ismp fuel
      else if (t =? MPBUS) || (t =? MPIOINTR) || (t =? MPLINTR) then mpinit_loop m (p + 8) e ismp fuel
      else mpinit_loop m p e false fuel
  end.

Definition out (p v : Z) : M mpstate unit :=
  modify (fun s => MpState (mp_cpus s) (ioapicid s) (lapic s) (mp_out s ++ [(p, v)])).

(** [imcr] is what [inb(0x23)] returns. *)
Definition mpinit (m : memory) (imcr : Z) (fuel : nat) : M mpstate unit :=
  match mpconfig m with
  | None => panic "Expect to run on an SMP"
  | Some (mp, conf) =>
      modify (fun s => MpState (mp_cpus s) (ioapicid s) (load32 m (conf + 36)) (mp_out s));;
      ismp ← mpinit_loop m (conf + 44) (conf + load16 m (conf + 4)) true fuel;
      if negb ismp then panic "Didn't find a suitable machine" else
      when (negb (load8 m (mp + 12) =? 0)) (
        out 0x22 0x70;;
        out 0x23 (Z.lor imcr 1))
  end.
End Mp.

(** ** The table is read entry by entry *)

Module MpProofs.
Import Mp.

(** The entries of a table: a processor, an I/O APIC, or one of the others,
    with the bytes that are not looked at. *)
Inductive entry : Type :=
| EProc (id : Z) (rest : list Z)
| EIoapic (id : Z) (rest : list Z)
| EOther (t : Z) (rest : list Z).

Definition encode (e : entry) : list Z :=
  match e with
  | EProc id rest => MPPROC :: id :: rest
  | EIoapic id rest => MPIOAPIC :: id :: rest
  | EOther t rest => t :: rest
  end.

Definition entry_ok (e : entry) : Prop :=
  match e with
  | EProc _ rest => length rest = 18%nat
  | EIoapic _ rest => length rest = 6%nat
  | EOther t rest => length rest = 7%nat /\ t ∈ [MPBUS; MPIOINTR; MPLINTR]
  end.

Definition table (es : list entry) : list Z := concat (encode <$> es).

(** The APIC ids of the processors, and the id of the last I/O APIC. *)
Fixpoint proc_ids (es : list entry) : list Z :=
  match es with
  | [] => []
  | EProc id _ :: es => id :: proc_ids es
  | _ :: es => proc_ids es
  end.

Fixpoint last_ioapic (d : Z) (es : list entry) : Z :=
  match es with
  | [] => d
  | EIoapic id _ :: es => last_ioapic id es
  | _ :: es => last_ioapic d es
  end.

(** The bytes [l] are at [a]. *)
Definition bytes_at (m : memory) (a : Z) (l : list Z) : Prop := forall i v, l !! i = Some v -> load8 m (a + Z.of_nat i) = v.

Lemma bytes_at_app m a l l' : bytes_at m a (l ++ l') -> bytes_at m a l /\ bytes_at m (a + Z.of_nat (length l)) l'.
Proof.
  intros H. split; intros i v Hi.
  - apply H. by apply lookup_app_l_Some.
  - replace (a + Z.of_nat (length l) + Z.of_nat i) with (a + Z.of_nat (length l + i)) by lia. apply H.
    rewrite lookup_app_r by lia. by replace (length l + i - length l)%nat with i by lia.
Qed.

Lemma bytes_at_head m a v l : bytes_at m a (v :: l) -> load8 m a = v.
Proof. intros H. specialize (H 0%nat v eq_refl). by rewrite Z.add_0_r in H. Qed.

Lemma bytes_at_second m a u v l : bytes_at m a (u :: v :: l) -> load8 m (a + 1) = v.
Proof. intros H. exact (H 1%nat v eq_refl). Qed.

Lemma bytes_at_tail m a e es : bytes_at m a (table (e :: es)) -> bytes_at m a (encode e) /\ bytes_at m (a + Z.of_nat (length (encode e))) (table es).
Proof. apply bytes_at_app. Qed.

Definition known (s : mpstate) (es : list entry) : mpstate :=
  MpState (take 8 (mp_cpus s ++ proc_ids es)) (last_ioapic (ioapicid s) es) (lapic s) (mp_out s).

Lemma known_proc s id rest es : (length (mp_cpus s) <= 8)%nat ->
  known (if Z.of_nat (length (mp_cpus s)) <? NCPU then MpState (mp_cpus s ++ [id]) (ioapicid s) (lapic s) (mp_out s) else s) es
  = known s (EProc id rest :: es).
Proof.
  intros Hs. unfold known. cbn [proc_ids last_ioapic]. case_match; b2p; unfold NCPU in *; cbn [mp_cpus ioapicid lapic mp_out].
  - by rewrite <- app_assoc.
  - by rewrite !take_app_le, !take_ge by lia.
Qed.

(** The loop over the entries [es], with what comes behind them. *)
Lemma mpinit_loop_app m e es : forall p ismp fuel s, Forall entry_ok es -> bytes_at m p (table es) -> (length (mp_cpus s) <= 8)%nat ->
  p + Z.of_nat (length (table es)) <= e ->
  mpinit_loop m p e ismp (length es + fuel) s = mpinit_loop m (p + Z.of_nat (length (table es))) e ismp fuel (known s es).
Proof.
  induction es as [|x es IH]; intros p ismp fuel s Hok Hb Hs He.
  - cbn [table fmap list_fmap concat length Nat.add]. rewrite Z.add_0_r. f_equal. unfold known. cbn. rewrite app_nil_r, take_ge by done. by destruct s.
  - apply Forall_cons in Hok as [Hx Hok]. apply bytes_at_tail in Hb as [Hx' Hb].
    unfold table in He |- *. cbn [fmap list_fmap concat] in He |- *. fold (table es) in He |- *. rewrite length_app in He |- *.
    assert (p < e) by (destruct x; cbn in He; lia). cbn [length Nat.add mpinit_loop]. rewrite (proj2 (Z.ltb_lt _ _)) by done. cbn [negb]. cbv zeta.
    destruct x as [id rest|id rest|t rest]; cbn [encode entry_ok] in *.
    + rewrite (bytes_at_head _ _ _ _ Hx'), (bytes_at_second _ _ _ _ _ Hx'). change (MPPROC =? MPPROC) with true. cbv iota. rewrite bind_modify.
      cbn [length] in *. rewrite Hx in *. rewrite (IH (p + 20)); [|done|exact Hb| |lia].
      * f_equal; [lia|]. apply known_proc. done.
      * case_match; b2p; [|done]. cbn. rewrite length_app. unfold NCPU in *. cbn. lia.
    + rewrite (bytes_at_head _ _ _ _ Hx'), (bytes_at_second _ _ _ _ _ Hx'). change (MPIOAPIC =? MPPROC) with false. change (MPIOAPIC =? MPIOAPIC) with true. cbv iota. rewrite bind_modify.
      cbn [length] in *. rewrite Hx in *. rewrite (IH (p + 8)); [|done|exact Hb|done|lia]. f_equal. lia.
    + destruct Hx as [Hl Ht]. rewrite (bytes_at_head _ _ _ _ Hx'). cbn [length] in *. rewrite Hl in *.
      assert ((t =? MPPROC) = false /\ (t =? MPIOAPIC) = false /\ (t =? MPBUS) || (t =? MPIOINTR) || (t =? MPLINTR) = true) as (-> & -> & ->).
      { repeat (apply elem_of_cons in Ht as [->|Ht]; [done|]). by apply elem_of_nil in Ht. }
      rewrite (IH (p + 8)); [|done|exact Hb|done|lia]. f_equal. lia.
Qed.
(** The table behind the header at [conf] has the entries [es]. *)
Definition conf_table (m : memory) (conf : Z) (es : list entry) : Prop :=
  Forall entry_ok es /\ bytes_at m (conf + 44) (table es).

Definition no_cpus : mpstate := MpState [] 0 0 [].

(** C26: on a configuration table that the search accepts, whose entries are
    all of the five known types and fill its length exactly, mpinit records the
    APIC ids of the processors in the order of the table, at most NCPU of them,
    the id of the last I/O APIC and the address of the local APIC; it masks the
    external interrupts exactly when the machine has the register for it. *)
Theorem mpinit_reads m mp conf es imcr fuel :
  mpconfig m = Some (mp, conf) -> conf_table m conf es -> load16 m (conf + 4) = 44 + Z.of_nat (length (table es)) -> (length es <= fuel)%nat ->
  mpinit m imcr fuel no_cpus = Ok tt (MpState (take 8 (proc_ids es)) (last_ioapic 0 es) (load32 m (conf + 36))
    (if load8 m (mp + 12) =? 0 then [] else [(0x22, 0x70); (0x23, Z.lor imcr 1)])).
Proof.
  intros Hc [Hok Hb] Hl Hf. unfold mpinit. rewrite Hc, bind_modify, Hl.
  replace fuel with (length es + (fuel - length es))%nat by lia.
  rewrite (bind_ok _ _ _ true (known (MpState [] 0 (load32 m (conf + 36)) []) es)).
  - cbn [negb]. unfold known. cbn [mp_cpus ioapicid lapic mp_out app]. by destruct (load8 m (mp + 12) =? 0).
  - rewrite mpinit_loop_app by (done || cbn; lia). rewrite Z.add_assoc.
    destruct (fuel - length es)%nat; cbn [mpinit_loop]; by rewrite Z.ltb_irrefl.
Qed.

(** An entry of another type is looked at again and again. *)
Lemma mpinit_loop_stuck m p e fuel : forall ismp s, p < e -> 4 < load8 m p -> mpinit_loop m p e ismp fuel s = Spin s.
Proof.
  induction fuel as [|fuel IH]; intros ismp s He Ht; cbn [mpinit_loop]; rewrite (proj2 (Z.ltb_lt _ _)) by done; cbn [negb]; [done|].
  cbv zeta. unfold MPPROC, MPIOAPIC, MPBUS, MPIOINTR, MPLINTR. rewrite !(proj2 (Z.eqb_neq _ _)) by lia. cbn [orb]. by apply IH.
Qed.

(** C39: when the table has an entry of an unknown type behind the entries [es],
    mpinit never returns, with any fuel: the break leaves the switch and not the
    loop, which stays at the entry.  The panic for an unsuitable machine is
    never reached. *)
Theorem mpinit_hangs m mp conf es imcr fuel :
  mpconfig m = Some (mp, conf) -> conf_table m conf es -> 44 + Z.of_nat (length (table es)) < load16 m (conf + 4) ->
  4 < load8 m (conf + 44 + Z.of_nat (length (table es))) ->
  exists s, mpinit m imcr (length es + fuel) no_cpus = Spin s.
Proof.
  intros Hc [Hok Hb] Hl Ht. unfold mpinit. rewrite Hc, bind_modify. unfold mbind, M_bind.
  rewrite mpinit_loop_app by (done || cbn; lia). rewrite mpinit_loop_stuck by (done || lia). by eexists.
Qed.

(** ** A machine with two processors *)

Fixpoint put_all (a : Z) (l : list Z) (m : memory) : memory :=
  match l with
  | [] => m
  | v :: l => put_all (a + 1) l (store8 m a v)
  end.

Definition fp : list Z := chars "_MP_" ++ [0x10; 0; 0x0f; 0; 1; 4; 129; 0; 0; 0; 0; 0].
Definition header (len chk : Z) : list Z :=
  chars "PCMP" ++ [len; 0; 4; chk] ++ replicate 28 0 ++ [0; 0; 0xe0; 0xfe; 0; 0; 0; 0].
Definition entries2 : list entry := [EProc 0 (replicate 18 0); EProc 1 (replicate 18 0); EIoapic 2 (replicate 6 0)].
Definition memory2 : memory := put_all 0xf0000 (fp ++ header 92 141 ++ table entries2) ∅.
(** The same with an entry of type 9 at the end. *)
Definition memory9 : memory := put_all 0xf0000 (fp ++ header 100 124 ++ table entries2 ++ [9; 0; 0; 0; 0; 0; 0; 0]) ∅.

Ltac bytes := intros i v; do 60 (destruct i as [|i]; [intros [= <-]; vm_compute; reflexivity|]); done.

Lemma mpinit_reads_witness : mpconfig memory2 = Some (0xf0000, 0xf0010) /\
  mpinit memory2 0 3 no_cpus = Ok tt (MpState [0; 1] 2 0xfee00000 []).
Proof.
  assert (mpconfig memory2 = Some (0xf0000, 0xf0010)) as Hc by (vm_compute; reflexivity). split; [exact Hc|].
  assert (conf_table memory2 0xf0010 entries2) as Ht.
  { split; [by repeat constructor|]. bytes. }
  exact (mpinit_reads memory2 0xf0000 0xf0010 entries2 0 3 Hc Ht eq_refl (le_n 3)).
Defined.

Lemma mpinit_hangs_witness : exists s, mpinit memory9 0 1000 no_cpus = Spin s.
Proof.
  assert (conf_table memory9 0xf0010 entries2) as Ht.
  { split; [by repeat constructor|]. bytes. }
  exact (mpinit_hangs memory9 0xf0000 0xf0010 entries2 0 997 ltac:(vm_compute; reflexivity) Ht ltac:(vm_compute; reflexivity) ltac:(vm_compute; reflexivity)).
Defined.
End MpProofs.
