(* ===== verification/Pipe.v ===== *)
(** * Pipes: pipeclose, pipewrite and piperead of pipe.c

    A pipe is known by the address of its page; [nread] and [nwrite] count
    modulo 2^32. *)

From S2P Require Import Prelude Memory Mmu Machine Spinlock Kalloc Vm PageTable VmProofs VmSpaces.
From S2P Require Import Encrypt ProcTable Clock ClockProofs Proc ProcProofs FileState Sleeplock Bio Log Ulib Cprintf Fs.

(** [p->field] and [p->field = ...]; a pipe that has been freed is out of
    reach. *)
Definition getpipe {A} (p : Z) (f : pipe -> A) : FK A :=
  k ← get;
  match pipes (files k) !! p with Some x => mret (f x) | None => fault end.
Definition setpipe (p : Z) (f : pipe -> pipe) : FK unit :=
  modify (fun k => set_files (set_pipes (alter f p (pipes (files k))) (files k)) k).

(** [&p->nread] and [&p->nwrite] *)
Definition nread_chan (p : Z) : channel := ObjChan (p + 564).
Definition nwrite_chan (p : Z) : channel := ObjChan (p + 568).

Section Pipe.
Context `{SE : SwitchEnv fstate, KI : KernelImage, PO : !PageOps}.

Definition pipeclose (p : Z) (writable : bool) : FK unit :=
  acquire (infiles (pipe_lockL p));;
  (if writable then setpipe p (set_p_writeopen false);; wakeup (nread_chan p)
   else setpipe p (set_p_readopen false);; wakeup (nwrite_chan p));;
  r ← getpipe p p_readopen;
  w ← getpipe p p_writeopen;
  if negb r && negb w then
    release (infiles (pipe_lockL p));;
    modify (fun k => set_files (set_pipes (delete p (pipes (files k))) (files k)) k);;
    zoom machL (kfree p)
  else release (infiles (pipe_lockL p)).

(** The wait for room: false when it gives up, the lock released. *)
Fixpoint pipewrite_wait (p : Z) (n : nat) : FK bool :=
  x ← getpipe p id;
  if negb (p_nwrite x =? u32 (p_nread x + PIPESIZE)) then mret true else
  stop ← (if negb (p_readopen x) then mret true else mygetp killed);
  if (stop : bool) then release (infiles (pipe_lockL p));; mret false else
  match n with
  | O => spin
  | S n =>
      wakeup (nread_chan p);;
      sleep_on others (nwrite_chan p) (infiles (pipe_lockL p));;
      pipewrite_wait p n
  end.

(** The loop of [pipewrite] for the [n] bytes at [addr]. *)
Fixpoint pipewrite_loop (p : Z) (addr : ptr) (n : nat) : FK bool :=
  match n with
  | O => mret true
  | S n =>
      room ← pipewrite_wait p naps;
      if negb room then mret false else
      c ← ptr_ld addr;
      setpipe p (fun x => set_p_nwrite (u32 (p_nwrite x + 1))
        (set_p_data (<[Z.to_nat (p_nwrite x mod PIPESIZE) := c]> (p_data x)) x));;
      pipewrite_loop p (ptr_next addr) n
  end.

Definition pipewrite (p : Z) (addr : ptr) (n : Z) : FK Z :=
  acquire (infiles (pipe_lockL p));;
  r ← pipewrite_loop p addr (Z.to_nat n);
  if negb r then mret (-1) else
  wakeup (nread_chan p);;
  release (infiles (pipe_lockL p));;
  mret n.

(** The wait for data: false when the process has been killed, the lock
    released. *)
Fixpoint piperead_wait (p : Z) (n : nat) : FK bool :=
  x ← getpipe p id;
  if negb ((p_nread x =? p_nwrite x) && p_writeopen x) then mret true else
  stop ← mygetp killed;
  if (stop : bool) then release (infiles (pipe_lockL p));; mret false else
  match n with
  | O => spin
  | S n =>
      sleep_on others (nread_chan p) (infiles (pipe_lockL p));;
      piperead_wait p n
  end.

(** The loop of [piperead], from [i]; the number of bytes, and the pointer
    past them. *)
Fixpoint piperead_loop (p : Z) (addr : ptr) (i : Z) (n : nat) : FK (Z * ptr) :=
  match n with
  | O => mret (i, addr)
  | S n =>
      x ← getpipe p id;
      if p_nread x =? p_nwrite x then mret (i, addr) else
      c ← nonnull (p_data x !! Z.to_nat (p_nread x mod PIPESIZE));
      setpipe p (set_p_nread (u32 (p_nread x + 1)));;
      addr ← ptr_put addr [c];
      piperead_loop p addr (i + 1) n
  end.

Definition piperead (p : Z) (addr : ptr) (n : Z) : FK (Z * ptr) :=
  acquire (infiles (pipe_lockL p));;
  ok ← piperead_wait p naps;
  if negb ok then mret (-1, addr) else
  r ← piperead_loop p addr 0 (Z.to_nat n);
  wakeup (nwrite_chan p);;
  release (infiles (pipe_lockL p));;
  mret r.
End Pipe.
