(* ===== verification/Ring.v ===== *)
(** * Ring buffers

    [n] bytes from index [r] of a buffer of [N] bytes, the indices being 32-bit
    counters that run ahead of the buffer. *)

From S2P Require Import Prelude.

Section Ring.
Variable N : Z.
Hypothesis N_pos : 0 < N.
Hypothesis N_div : 4294967296 mod N = 0.

Definition ring (d : list Z) (r : Z) (n : nat) : list Z :=
  (fun i => default 0 (d !! Z.to_nat ((r + Z.of_nat i) mod N))) <$> seq 0 n.

Lemma length_ring d r n : length (ring d r n) = n.
Proof. unfold ring. by rewrite length_fmap, length_seq. Qed.

Lemma u32_mod x : u32 x mod N = x mod N.
Proof.
  unfold u32. pose proof (Z.div_mod x 4294967296 ltac:(lia)) as E.
  pose proof (Z.div_mod 4294967296 N ltac:(lia)) as F. rewrite N_div in F.
  symmetry. rewrite E at 1. rewrite F at 1. rewrite Z.add_0_r, <- Z.mul_assoc, (Z.mul_comm N), Z.add_comm.
  apply Z_mod_plus_full.
Qed.

Lemma ring_u32 d r n : ring d (u32 r) n = ring d r n.
Proof.
  unfold ring. apply list_fmap_ext. intros i j _. do 3 f_equal.
  by rewrite <- Zplus_mod_idemp_l, u32_mod, Zplus_mod_idemp_l.
Qed.

Lemma ring_app d r n m : ring d r (n + m) = ring d r n ++ ring d (r + Z.of_nat n) m.
Proof.
  unfold ring. rewrite seq_app, fmap_app. f_equal. cbn [Nat.add].
  rewrite <- (Nat.add_0_r n) at 1. rewrite <- fmap_add_seq, <- list_fmap_compose. apply list_fmap_ext.
  intros i j _. cbn. do 4 f_equal. lia.
Qed.

(** A byte at the end. *)
Lemma ring_push d r n c :
  Z.of_nat (length d) = N -> Z.of_nat n < N ->
  ring (<[Z.to_nat ((r + Z.of_nat n) mod N) := c]> d) r (S n) = ring d r n ++ [c].
Proof.
  intros Hd Hn. rewrite <- Nat.add_1_r, ring_app. f_equal.
  - unfold ring. apply list_fmap_ext. intros i j Hj. apply lookup_seq in Hj as [Hi Hj]. cbn in Hi. subst j. f_equal.
    apply list_lookup_insert_ne. intros E.
    pose proof (Z.mod_pos_bound (r + Z.of_nat n) N N_pos). pose proof (Z.mod_pos_bound (r + Z.of_nat i) N N_pos).
    assert ((r + Z.of_nat n) mod N = (r + Z.of_nat i) mod N) as E' by lia.
    pose proof (Z.div_mod (r + Z.of_nat n) N ltac:(lia)). pose proof (Z.div_mod (r + Z.of_nat i) N ltac:(lia)).
    assert ((r + Z.of_nat n) / N = (r + Z.of_nat i) / N) as E2 by nia. rewrite E2 in *. lia.
  - cbn [ring seq fmap list_fmap]. rewrite Z.add_0_r. f_equal. rewrite list_lookup_insert_eq; [done|].
    pose proof (Z.mod_pos_bound (r + Z.of_nat n) N N_pos). lia.
Qed.

(** The first byte. *)
Lemma ring_pop d r n :
  Z.of_nat (length d) = N ->
  exists c, d !! Z.to_nat (r mod N) = Some c /\ ring d r (S n) = c :: ring d (r + 1) n.
Proof.
  intros Hd. destruct (lookup_lt_is_Some_2 d (Z.to_nat (r mod N))) as [c Hc].
  { pose proof (Z.mod_pos_bound r N N_pos). lia. }
  exists c. split; [done|]. change (S n) with (1 + n)%nat. rewrite ring_app. cbn [ring seq fmap list_fmap].
  rewrite Z.add_0_r, Hc. done.
Qed.

(** The last byte. *)
Lemma ring_last d r n :
  Z.of_nat (length d) = N ->
  exists c, d !! Z.to_nat ((r + Z.of_nat n) mod N) = Some c /\ ring d r (S n) = ring d r n ++ [c].
Proof.
  intros Hd. destruct (ring_pop d (r + Z.of_nat n) 0 Hd) as (c & Hc & E). exists c. split; [done|].
  rewrite <- Nat.add_1_r, ring_app. by rewrite E.
Qed.
End Ring.
