(* ===== verification/PipeProofs.v ===== *)
(** * Pipes are queues

    The ring buffer of a pipe as a queue of bytes, and what [pipewrite] and
    [piperead] do to it, whatever memory the bytes come from or go to. *)

From S2P Require Import Prelude Memory Mmu Machine Spinlock Kalloc Vm PageTable VmProofs VmSpaces.
From S2P Require Import Encrypt ProcTable Clock ClockProofs Proc ProcProofs FileState Sleeplock Sleeping Bio BioProofs Log Ulib Cprintf Fs Pipe Ring.

(** ** The queue *)

Definition pending (x : pipe) : Z := u32 (p_nwrite x - p_nread x).

Definition queue (x : pipe) : list Z := ring 512 (p_data x) (p_nread x) (Z.to_nat (pending x)).

Record pipe_ok (x : pipe) : Prop := {
  po_data : length (p_data x) = 512%nat;
  po_nread : is_u32 (p_nread x);
  po_nwrite : is_u32 (p_nwrite x);
  po_pending : pending x <= 512;
}.

Definition written (c : Z) (x : pipe) : pipe :=
  set_p_nwrite (u32 (p_nwrite x + 1)) (set_p_data (<[Z.to_nat (p_nwrite x mod 512) := c]> (p_data x)) x).
Definition taken (x : pipe) : pipe := set_p_nread (u32 (p_nread x + 1)) x.

Lemma length_queue x : length (queue x) = Z.to_nat (pending x).
Proof. apply length_ring. Qed.

Lemma pending_range x : 0 <= pending x.
Proof. unfold pending. apply u32_range. Qed.

Lemma pipe_full x : pipe_ok x -> (p_nwrite x =? u32 (p_nread x + 512)) = bool_decide (length (queue x) = 512%nat).
Proof.
  intros [H1 H2 H3 H4]. rewrite length_queue. unfold pending in *. pose proof (u32_range (p_nwrite x - p_nread x)).
  destruct (Z.eqb_spec (p_nwrite x) (u32 (p_nread x + 512))) as [E|E]; symmetry.
  - apply bool_decide_eq_true. unfold u32, is_u32 in *. dlia.
  - apply bool_decide_eq_false. intros E'. apply E. unfold u32, is_u32 in *. dlia.
Qed.

Lemma pipe_empty x : pipe_ok x -> (p_nread x =? p_nwrite x) = bool_decide (queue x = []).
Proof.
  intros [H1 H2 H3 H4]. pose proof (length_queue x) as L. unfold pending in *. pose proof (u32_range (p_nwrite x - p_nread x)).
  destruct (Z.eqb_spec (p_nread x) (p_nwrite x)) as [E|E]; symmetry.
  - apply bool_decide_eq_true. destruct (queue x) eqn:Eq; [done|]. cbn in L. exfalso. unfold u32, is_u32 in *. dlia.
  - apply bool_decide_eq_false. intros E'. apply E. rewrite E' in L. cbn in L. unfold u32, is_u32 in *. dlia.
Qed.

Lemma queue_written x c :
  pipe_ok x -> (length (queue x) < 512)%nat -> pipe_ok (written c x) /\ queue (written c x) = queue x ++ [c].
Proof.
  intros [H1 H2 H3 H4] Hl. rewrite length_queue in Hl. pose proof (pending_range x).
  assert (pending (written c x) = pending x + 1) as Hp.
  { unfold pending in *. cbn. unfold u32, is_u32 in *. dlia. }
  split.
  - split; cbn; [by rewrite length_insert|done|apply u32_is|]. rewrite Hp. lia.
  - unfold queue. rewrite Hp. replace (Z.to_nat (pending x + 1)) with (S (Z.to_nat (pending x))) by lia.
    cbn [p_data p_nread written set_p_nwrite set_p_data].
    replace (p_nwrite x mod 512) with ((p_nread x + Z.of_nat (Z.to_nat (pending x))) mod 512).
    + apply ring_push; lia.
    + unfold pending, u32, is_u32 in *. dlia.
Qed.

Lemma queue_taken x c q :
  pipe_ok x -> queue x = c :: q ->
  p_data x !! Z.to_nat (p_nread x mod 512) = Some c /\ pipe_ok (taken x) /\ queue (taken x) = q.
Proof.
  intros [H1 H2 H3 H4] Hq. pose proof (length_queue x) as L. rewrite Hq in L. cbn in L. pose proof (pending_range x).
  assert (pending (taken x) = pending x - 1) as Hp.
  { unfold pending in *. cbn. unfold u32, is_u32 in *. dlia. }
  unfold queue in *. replace (Z.to_nat (pending x)) with (S (Z.to_nat (pending x - 1))) in Hq by lia.
  destruct (ring_pop 512 ltac:(lia) (p_data x) (p_nread x) (Z.to_nat (pending x - 1))) as (c' & Hc & E); [lia|].
  rewrite E in Hq. injection Hq as -> <-. split_and!; [done| |].
  - split; cbn; [done|apply u32_is|done|]. rewrite Hp. lia.
  - rewrite Hp. by apply (ring_u32 512).
Qed.

(** ** Sources and sinks of bytes

    [I] says what holds of the kernel while the bytes are moved; it depends
    neither on the file layer nor on locks, see [similar]. *)

Record similar {F} (k k' : kstate F) : Prop := {
  sim_run p : running_on (hw (mach k)) p -> running_on (hw (mach k')) p;
  sim_mach : mach k' = set_hw (hw (mach k')) (mach k);
  sim_pt : locked (ptable_lock k') = locked (ptable_lock k);
  sim_procs : Forall2 awake (procs k) (procs k');
}.

Lemma similar_refl {F} (k k' : kstate F) :
  mach k' = mach k -> ptable_lock k' = ptable_lock k -> procs k' = procs k -> similar k k'.
Proof. intros E1 E2 E3. split; rewrite ?E1, ?E2, ?E3; try done. by destruct (mach k). Qed.

Lemma similar_held {F} (k : kstate F) h lk x :
  held_from (hw (mach k)) h lk -> similar k (set_files x (update hartL h k)).
Proof. intros Hh. split; try done. intros p. by apply (held_running _ _ lk). Qed.

Lemma held_running_back h0 h1 lk p : held_from h0 h1 lk -> running_on h1 p -> running_on h0 p.
Proof.
  intros (i & c & Hh & Hn & Hi & -> & _) (i' & c' & Hh' & _ & _ & Hp).
  assert (i' = i /\ c' = push_cpu (eflags_if h0) c) as [-> ->].
  { destruct (here_pushed _ _ _ Hh) as [H1 H2], Hh' as [H3 H4]. simplify_eq. done. }
  exists i, c. split_and!; try done. unfold push_cpu in Hp. by destruct (ncli c =? 0).
Qed.

Lemma similar_leave {F} (k : kstate F) h0 h lk ch x :
  held_from h0 (hw (mach k)) lk -> settles h0 h -> locked (ptable_lock k) = 0 ->
  similar k (set_files x (update hartL h (set_ptable_lock free (set_procs (wake ch <$> procs k) k)))).
Proof.
  intros Hh [Hs _] Hl. split; try done.
  - intros p Hp. change (running_on h p). rewrite Hs. by eapply held_running_back.
  - cbn. apply Forall2_fmap_r, Forall2_same_length_lookup. split; [done|].
    intros i a b Ha Hb. simplify_eq. apply wake_awake.
Qed.

Lemma calm_similar {F} (k k' : kstate F) : calm k k' -> similar k k'.
Proof.
  intros C. split; try apply C. intros p. destruct (calm_hw _ _ C) as [E _]. by rewrite E.
Qed.

(** A step that leaves files and locks alone. *)
Definition steady {F} (k k' : kstate F) : Prop :=
  files k' = files k /\ (nested (hw (mach k)) -> hw (mach k') = hw (mach k)).

Section Moves.
Context `{SE : SwitchEnv fstate, KI : KernelImage, PO : !PageOps}.
Implicit Types k : kstate fstate.
Variables (me : nat) (mypid : Z).

(** The bytes [bs] can be read at [a]. *)
Fixpoint supplies (I : kstate fstate -> Prop) (a : ptr) (bs : list Z) : Prop :=
  match bs with
  | [] => True
  | b :: bs =>
      (forall k, I k -> wp (ptr_ld a) k (fun c k' => c = b /\ I k' /\ steady k k')) /\
      supplies I (ptr_next a) bs
  end.

(** Bytes can be stored one after the other: [J done] after [done]. *)
Definition accepts (J : list Z -> kstate fstate -> Prop) (a : list Z -> ptr) (n : nat) : Prop :=
  forall k done c, J done k -> (length done < n)%nat ->
    wp (ptr_put (a done) [c]) k (fun a' k' => a' = a (done ++ [c]) /\ J (done ++ [c]) k' /\ steady k k').

Record invariant (I : kstate fstate -> Prop) : Prop := {
  inv_quiet k : I k -> quiet me mypid k;
  inv_similar k k' : I k -> similar k k' -> I k';
}.

(** The variables of the kernel. *)
Lemma var_supplies bs : invariant (quiet me mypid) /\ supplies (quiet me mypid) (Var bs) bs.
Proof.
  split.
  - split; [done|]. intros k k' [H1 H2 H3] S. split; [by apply S|by rewrite (sim_pt _ _ S)|].
    apply fmap_Some in H3 as (q & Hq & ->). destruct (Forall2_lookup_l _ _ _ _ _ (sim_procs _ _ S) Hq) as (q' & -> & Ha).
    cbn. by destruct Ha as [->|[_ ->]].
  - induction bs as [|b bs IH]; cbn; [done|]. split; [|done]. intros k Hk. apply wp_ret. by split_and!.
Qed.

Lemma var_accepts n : accepts (fun _ => quiet me mypid) Var n.
Proof. intros k done c Hk _. apply wp_ret. by split_and!. Qed.
End Moves.

(** ** The operations *)

Definition put_pipe (p : Z) (x : pipe) (s : fstate) : fstate := set_pipes (<[p := x]> (pipes s)) s.

Lemma put_pipe_lookup p x s : pipes (put_pipe p x s) !! p = Some x.
Proof. apply lookup_insert_eq. Qed.

Lemma put_pipe_again p x y s : put_pipe p x (put_pipe p y s) = put_pipe p x s.
Proof. unfold put_pipe. cbn. by rewrite insert_insert_eq. Qed.

Lemma put_pipe_same p x s : pipes s !! p = Some x -> put_pipe p x s = s.
Proof. intros H. unfold put_pipe. rewrite insert_id by done. by destruct s. Qed.

Lemma alter_pipe f p x (m : gmap Z pipe) : m !! p = Some x -> alter f p m = <[p := f x]> m.
Proof.
  intros H. apply map_eq. intros q. destruct (decide (p = q)) as [->|].
  - by rewrite lookup_alter_eq, lookup_insert_eq, H.
  - by rewrite lookup_alter_ne, lookup_insert_ne.
Qed.

Lemma pipe_lock_at p x s : pipes s !! p = Some x -> LensAt (pipe_lockL p) s.
Proof. intros H. refine (compose_at pipesL _ s _ _). apply mapL_at; [apply _|]. by eexists. Qed.

Lemma update_pipe_lock p x lk s : pipes s !! p = Some x -> update (pipe_lockL p) lk s = put_pipe p (set_p_lock lk x) s.
Proof. intros H. unfold put_pipe. cbn. by rewrite (alter_pipe _ p x). Qed.

Lemma wp_getpipe {A} k p x (f : pipe -> A) (Q : A -> kstate fstate -> Prop) :
  pipes (files k) !! p = Some x -> Q (f x) k -> wp (getpipe p f) k Q.
Proof. intros H HQ. unfold getpipe. wsteps. rewrite H. by wstep. Qed.

Lemma wp_setpipe k p x s f (Q : unit -> kstate fstate -> Prop) :
  files k = put_pipe p x s -> Q tt (set_files (put_pipe p (f x) s) k) -> wp (setpipe p f) k Q.
Proof.
  intros H HQ. unfold setpipe. wstep. rewrite (alter_pipe _ p x) by (rewrite H; apply put_pipe_lookup).
  rewrite H. unfold put_pipe. cbn. by rewrite insert_insert_eq.
Qed.

(** What writing and reading leave alone. *)
Definition same_ends (x y : pipe) : Prop :=
  p_lock y = p_lock x /\ p_readopen y = p_readopen x /\ p_writeopen y = p_writeopen x.

#[export] Instance same_ends_preorder : PreOrder same_ends.
Proof. split; [by intros ?|]. unfold same_ends. intros x y z (? & ? & ?) (? & ? & ?). split_and!; congruence. Qed.

(** The readers have taken [t] bytes, and may have closed their end. *)
Record drained (t : nat) (x y : pipe) : Prop := {
  dn_count : (t <= length (queue x))%nat;
  dn_nread : p_nread y = u32 (p_nread x + Z.of_nat t);
  dn_rest : y = set_p_lock (p_lock y) (set_p_nread (p_nread y) (set_p_readopen (p_readopen y) x));
}.

Lemma drained_refl x : pipe_ok x -> drained 0 x x.
Proof.
  intros Hx. split; [lia| |by destruct x]. rewrite Z.add_0_r. symmetry. apply u32_small, Hx.
Qed.

Lemma drained_queue t x y : pipe_ok x -> drained t x y -> pipe_ok y /\ queue y = drop t (queue x).
Proof.
  intros [H1 H2 H3 H4] [D1 D2 D3]. rewrite length_queue in D1. pose proof (pending_range x).
  assert (p_data y = p_data x /\ p_nwrite y = p_nwrite x) as [E1 E2] by (by rewrite D3).
  assert (pending y = pending x - Z.of_nat t) as Hp.
  { unfold pending in *. rewrite D2, E2. unfold u32, is_u32 in *. dlia. }
  split.
  - split; [by rewrite E1|rewrite D2; apply u32_is|by rewrite E2|lia].
  - unfold queue. rewrite E1, D2, Hp, (ring_u32 512) by done.
    replace (Z.to_nat (pending x)) with (t + Z.to_nat (pending x - Z.of_nat t))%nat by lia.
    rewrite ring_app, drop_app_length' by (by rewrite length_ring). done.
Qed.

(** What a writer has done: [j] of the bytes [bs] are in the pipe, and the
    readers have taken [t] bytes meanwhile. *)
Record moved (bs : list Z) (j t : nat) (x y : pipe) : Prop := {
  mv_sent : (j <= length bs)%nat;
  mv_count : (t <= length (queue x) + j)%nat;
  mv_nread : p_nread y = u32 (p_nread x + Z.of_nat t);
  mv_nwrite : p_nwrite y = u32 (p_nwrite x + Z.of_nat j);
  mv_queue : queue y = drop t (queue x ++ take j bs);
  mv_open : p_writeopen y = p_writeopen x;
}.

Lemma drained_moved bs t x y : pipe_ok x -> drained t x y -> moved bs 0 t x y.
Proof.
  intros Hx D. destruct (drained_queue t x y Hx D) as [_ Hq]. destruct D as [D1 D2 D3]. split; [lia|lia|done| | |].
  - rewrite D3. cbn. rewrite Z.add_0_r. symmetry. apply u32_small, Hx.
  - by rewrite take_0, app_nil_r.
  - by rewrite D3.
Qed.

Lemma moved_byte b bs j t t1 x y1 y :
  pipe_ok x -> drained t1 x y1 -> (length (queue y1) < 512)%nat -> moved bs j t (written b y1) y ->
  moved (b :: bs) (S j) (t1 + t) x y.
Proof.
  intros Hx D Hl [M1 M2 M3 M4 M5 M6]. destruct (drained_queue t1 x y1 Hx D) as [Hy1 Hq1].
  destruct (queue_written y1 b Hy1 Hl) as [_ Hqw]. destruct D as [D1 D2 D3].
  rewrite Hqw, Hq1 in *. rewrite length_app, length_drop in M2. cbn [length] in M2. split; [cbn; lia|lia|..].
  - rewrite M3. cbn [written p_nread set_p_nwrite set_p_data]. rewrite D2, u32_add_l. f_equal. lia.
  - rewrite M4. cbn [written p_nwrite set_p_nwrite]. rewrite D3. cbn. rewrite u32_add_l. f_equal. lia.
  - rewrite M5, firstn_cons. rewrite <- drop_drop, (drop_app_le (queue x)) by lia. by rewrite <- app_assoc.
  - rewrite M6. cbn. by rewrite D3.
Qed.

Section PipeOps.
Context `{SE : SwitchEnv fstate, KI : KernelImage, PO : !PageOps}.
Implicit Types k : kstate fstate.

Lemma wp_pipe_enter k p x (Q : unit -> kstate fstate -> Prop) :
  cpu_inv (hw (mach k)) -> pipes (files k) !! p = Some x -> p_lock x = free ->
  (forall h1 lk, held_from (hw (mach k)) h1 lk ->
     Q tt (set_files (put_pipe p (set_p_lock lk x) (files k)) (update hartL h1 k))) ->
  wp (acquire (infiles (pipe_lockL p))) k Q.
Proof.
  intros Hc Hp Hf HQ. eapply (wp_enter (pipe_lockL p)); [done|by eapply pipe_lock_at|cbn; by rewrite Hp|].
  intros h1 lk Hl. rewrite (update_pipe_lock p x) by done. by apply HQ.
Qed.

Lemma wp_pipe_leave k p x h0 s (Q : unit -> kstate fstate -> Prop) :
  held_from h0 (hw (mach k)) (p_lock x) -> files k = put_pipe p x s ->
  (forall h, settles h0 h -> Q tt (set_files (put_pipe p (set_p_lock free x) s) (update hartL h k))) ->
  wp (release (infiles (pipe_lockL p))) k Q.
Proof.
  intros Hh Hf HQ. assert (pipes (put_pipe p (set_p_lock free x) s) !! p = Some (set_p_lock free x)) as Hp by apply put_pipe_lookup.
  eapply (wp_leave (pipe_lockL p) k h0 (put_pipe p (set_p_lock free x) s) (p_lock x));
    [exact Hh|by eapply pipe_lock_at|cbn; by rewrite lookup_insert_eq| |exact HQ].
  rewrite (update_pipe_lock p _ _ _ Hp), put_pipe_again, Hf. by destruct x.
Qed.

Lemma pipewrite_wait_room k p x n (Q : bool -> kstate fstate -> Prop) :
  pipes (files k) !! p = Some x -> pipe_ok x -> (length (queue x) < 512)%nat -> Q true k ->
  wp (pipewrite_wait p n) k Q.
Proof.
  intros Hp Hx Hl HQ. destruct n; cbn [pipewrite_wait]; (wstep; eapply wp_getpipe; [done|]);
    cbv beta delta [id]; unfold PIPESIZE; rewrite (pipe_full x Hx), bool_decide_eq_false_2 by lia; cbn [negb]; by wstep.
Qed.

Lemma pipewrite_loop_spec me mypid I p s : invariant me mypid I -> forall bs a k x,
  I k -> nested (hw (mach k)) -> files k = put_pipe p x s -> supplies I a bs ->
  pipe_ok x -> (length (queue x) + length bs <= 512)%nat ->
  wp (pipewrite_loop p a (length bs)) k (fun r k' => r = true /\ I k' /\ hw (mach k') = hw (mach k) /\
    exists y, files k' = put_pipe p y s /\ pipe_ok y /\ same_ends x y /\ moved bs (length bs) 0 x y).
Proof.
  intros HI. induction bs as [|b bs IH]; intros a k x Ik Hn Hf Hs Hx Hl; cbn [pipewrite_loop length].
  { wstep. split_and!; try done. exists x. split_and!; try done. by apply drained_moved, drained_refl. }
  destruct Hs as [Hld Hs]. cbn in Hl.
  assert (pipes (files k) !! p = Some x) as Hp by (rewrite Hf; apply put_pipe_lookup).
  wstep. eapply pipewrite_wait_room; [done|done|lia|]. cbn [negb]. wstep.
  eapply wp_mono; [by apply Hld|]. intros c k1 (-> & I1 & F1 & Hw1). wstep. rewrite <- F1 in Hf.
  eapply wp_setpipe; [exact Hf|]. fold (written b x).
  destruct (queue_written x b Hx ltac:(lia)) as [Hx' Hq'].
  set (k2 := set_files _ k1).
  assert (I k2) as I2 by (eapply inv_similar; [exact HI|exact I1|by apply similar_refl]).
  eapply wp_mono; [apply (IH (ptr_next a) k2 (written b x)); try done|].
  - change (nested (hw (mach k1))). by rewrite Hw1.
  - rewrite Hq', length_app. cbn. lia.
  - intros r k3 (-> & I3 & Hw3 & y & F3 & Hy & He & Hqy). split_and!; try done.
    + rewrite Hw3. by apply Hw1.
    + exists y. split_and!; try done. apply (moved_byte b bs (length bs) 0 0 x x y Hx); [by apply drained_refl|lia|done].
Qed.

(** When the pipe has room, [pipewrite] appends the bytes. *)
Lemma pipewrite_spec me mypid I p k x a bs :
  invariant me mypid I -> I k -> pipes (files k) !! p = Some x -> p_lock x = free -> pipe_ok x ->
  supplies I a bs -> (length (queue x) + length bs <= 512)%nat ->
  wp (pipewrite p a (Z.of_nat (length bs))) k (fun r k' => r = Z.of_nat (length bs) /\ I k' /\
    settles (hw (mach k)) (hw (mach k')) /\
    exists y, files k' = put_pipe p y (files k) /\ pipe_ok y /\ same_ends x y /\ moved bs (length bs) 0 x y).
Proof.
  intros HI Ik Hp Hf Hx Hs Hl. assert (Hq := inv_quiet _ _ _ HI _ Ik). unfold pipewrite. wstep.
  eapply wp_pipe_enter; [by eapply quiet_cpu|done|done|]. intros h1 lk Hh. rewrite Nat2Z.id.
  set (k1 := set_files _ _).
  assert (I k1) as I1 by (eapply inv_similar; [exact HI|exact Ik|by eapply similar_held]).
  wstep. eapply wp_mono; [apply (pipewrite_loop_spec me mypid I p (files k) HI bs a k1 (set_p_lock lk x)); try done|].
  - by eapply held_nested.
  - by destruct Hx.
  - intros r k2 (-> & I2 & Hw2 & y & F2 & Hy & (E1 & E2 & E3) & Hqy). cbn [negb]. wstep.
    assert (Hq2 := inv_quiet _ _ _ HI _ I2).
    assert (held_from (hw (mach k)) (hw (mach k2)) (p_lock y)) as Hh2 by (rewrite Hw2, E1; exact Hh).
    eapply wakeup_nested; [exact Hh2|apply Hq2|]. wstep.
    eapply (wp_pipe_leave _ p y (hw (mach k))); [exact Hh2|exact F2|]. intros h Hst. wstep. split; [done|]. split.
    { eapply inv_similar; [exact HI|exact I2|]. by eapply similar_leave; [exact Hh2| |apply Hq2]. }
    split; [exact Hst|]. exists (set_p_lock free y). split; [done|]. split; [by destruct Hy|].
    split; [unfold same_ends; by rewrite Hf|]. by destruct Hqy.
Qed.

Lemma piperead_wait_ready k p x n (Q : bool -> kstate fstate -> Prop) :
  pipes (files k) !! p = Some x -> pipe_ok x -> queue x <> [] \/ p_writeopen x = false -> Q true k ->
  wp (piperead_wait p n) k Q.
Proof.
  intros Hp Hx Hr HQ. assert ((p_nread x =? p_nwrite x) && p_writeopen x = false) as E.
  { rewrite (pipe_empty x Hx). destruct Hr as [Hr| ->]; [by rewrite bool_decide_eq_false_2|by rewrite andb_false_r]. }
  destruct n; cbn [piperead_wait]; (wstep; eapply wp_getpipe; [done|]);
    cbv beta delta [id]; rewrite E; cbn [negb]; by wstep.
Qed.

Lemma piperead_loop_spec me mypid J a N p s : (forall l, invariant me mypid (J l)) -> accepts J a N -> forall n done i k x,
  J done k -> nested (hw (mach k)) -> files k = put_pipe p x s -> pipe_ok x ->
  (length done + n <= N)%nat ->
  wp (piperead_loop p (a done) i n) k (fun r k' =>
    r.1 = i + Z.of_nat (length (take n (queue x))) /\ r.2 = a (done ++ take n (queue x)) /\
    J (done ++ take n (queue x)) k' /\ hw (mach k') = hw (mach k) /\
    exists y, files k' = put_pipe p y s /\ pipe_ok y /\ same_ends x y /\ queue y = drop n (queue x)).
Proof.
  intros HJ HA. induction n as [|n IH]; intros done i k x Jk Hn Hf Hx HN; cbn [piperead_loop].
  { wstep. rewrite take_0, drop_0, app_nil_r, Z.add_0_r. split_and!; try done. by exists x. }
  assert (pipes (files k) !! p = Some x) as Hp by (rewrite Hf; apply put_pipe_lookup).
  wstep. eapply wp_getpipe; [done|]. cbv beta delta [id]. rewrite (pipe_empty x Hx).
  destruct (queue x) as [|c q] eqn:Eq.
  { rewrite bool_decide_eq_true_2 by done. wstep. rewrite app_nil_r, Z.add_0_r. split_and!; try done. by exists x. }
  rewrite bool_decide_eq_false_2 by done. destruct (queue_taken x c q Hx Eq) as (Hc & Hx' & Hq').
  unfold PIPESIZE. rewrite Hc. wstep. wstep. wstep. eapply wp_setpipe; [exact Hf|]. fold (taken x).
  set (k1 := set_files _ k).
  assert (J done k1) as J1 by (eapply inv_similar; [apply HJ|exact Jk|by apply similar_refl]).
  wstep. eapply wp_mono; [apply (HA k1 done c J1); lia|]. intros a' k2 (-> & J2 & F2 & Hw2).
  assert (hw (mach k2) = hw (mach k)) as Ehw by (by apply Hw2).
  eapply wp_mono; [apply (IH (done ++ [c]) (i + 1) k2 (taken x)); try done|].
  - by rewrite Ehw.
  - rewrite length_app. cbn. lia.
  - intros r k3 (R1 & R2 & J3 & Hw3 & y & F3 & Hy & He & Hqy). rewrite Hq' in *.
    rewrite <- app_assoc in *. cbn [app take drop length]. split_and!; try done.
    + rewrite R1. lia.
    + by rewrite Hw3.
    + by exists y.
Qed.

(** When there are bytes, or nobody can write any more, [piperead] takes as
    many bytes as there are, up to [n]. *)
Lemma piperead_spec me mypid J a p k x n :
  (forall l, invariant me mypid (J l)) -> accepts J a n -> J [] k ->
  pipes (files k) !! p = Some x -> p_lock x = free -> pipe_ok x ->
  queue x <> [] \/ p_writeopen x = false ->
  wp (piperead p (a []) (Z.of_nat n)) k (fun r k' =>
    r.1 = Z.of_nat (length (take n (queue x))) /\ r.2 = a (take n (queue x)) /\ J (take n (queue x)) k' /\
    settles (hw (mach k)) (hw (mach k')) /\
    exists y, files k' = put_pipe p y (files k) /\ pipe_ok y /\ same_ends x y /\ queue y = drop n (queue x)).
Proof.
  intros HJ HA Jk Hp Hf Hx Hr. assert (Hq := inv_quiet _ _ _ (HJ []) _ Jk). unfold piperead. wstep.
  eapply wp_pipe_enter; [by eapply quiet_cpu|done|done|]. intros h1 lk Hh.
  set (k1 := set_files _ _).
  assert (J [] k1) as J1 by (eapply inv_similar; [apply HJ|exact Jk|by eapply similar_held]).
  assert (pipe_ok (set_p_lock lk x)) as Hx1 by (by destruct Hx).
  wstep. eapply (piperead_wait_ready _ _ (set_p_lock lk x)); [apply put_pipe_lookup|done|done|]. cbn [negb].
  wstep. rewrite Nat2Z.id.
  eapply wp_mono; [apply (piperead_loop_spec me mypid J a n p (files k) HJ HA n [] 0 k1 (set_p_lock lk x)); try done|].
  { by eapply held_nested. }
  intros r k2 (R1 & R2 & J2 & Hw2 & y & F2 & Hy & (E1 & E2 & E3) & Hqy). wstep.
  change (queue (set_p_lock lk x)) with (queue x) in *. cbn [app] in *.
  assert (Hq2 := inv_quiet _ _ _ (HJ _) _ J2).
  assert (held_from (hw (mach k)) (hw (mach k2)) (p_lock y)) as Hh2 by (rewrite Hw2, E1; exact Hh).
  eapply wakeup_nested; [exact Hh2|apply Hq2|]. wstep.
  eapply (wp_pipe_leave _ p y (hw (mach k))); [exact Hh2|exact F2|]. intros h Hst. wstep. split; [done|]. split; [done|]. split.
  { eapply inv_similar; [apply HJ|exact J2|]. by eapply similar_leave; [exact Hh2| |apply Hq2]. }
  split; [exact Hst|]. exists (set_p_lock free y). split; [done|]. split; [by destruct Hy|].
    split; [|done]. unfold same_ends. by rewrite Hf.
Qed.
End PipeOps.

(** ** Writing to a full pipe *)

(** A writer sleeps on a full pipe only; while it does the readers take bytes
    or close their end. *)
Definition filling (p : Z) (ch : channel) (s : fstate) : Prop :=
  ch = nwrite_chan p /\ exists x, pipes s !! p = Some x /\ p_lock x = free /\ pipe_ok x /\ length (queue x) = 512%nat.
Definition drains (p : Z) (ch : channel) (s s' : fstate) : Prop := exists x t y,
  pipes s !! p = Some x /\ pipes s' !! p = Some y /\ p_lock y = p_lock x /\ drained t x y /\
  ((0 < t)%nat \/ p_readopen y = false).

Section Blocking.
Context `{SE : SwitchEnv fstate, KI : KernelImage, PO : !PageOps}.
Context (me : nat) (mypid : Z) (I : kstate fstate -> Prop) (p : Z).
Context `{SL : !SleepLaws (filling p) (drains p)}.
Implicit Types k : kstate fstate.

Hypothesis HI : invariant me mypid I.
(** The bytes do not come from memory that the others may change. *)
Hypothesis HIq : forall k k', I k -> quiet me mypid k' -> I k'.

Lemma wp_mygetp_in {A} k (f : proc -> A) (Q : A -> kstate fstate -> Prop) :
  quiet me mypid k -> nested (hw (mach k)) -> (forall q, procs k !! me = Some q -> Q (f q) k) -> wp (mygetp f) k Q.
Proof.
  intros [Q1 Q2 Q3] Hn HQ. apply fmap_Some in Q3 as (q & Hq & _). unfold mygetp. wstep.
  eapply wp_myproc_in; [exact Q1|]. intros h [_ Hh]. rewrite Hh by done.
  replace (update hartL (hw (mach k)) k) with k by (symmetry; change (hw (mach k)) with (view hartL k); apply update_view).
  wsteps. eapply wp_getp; [done|]. by apply HQ.
Qed.

(** The writer holds the lock of the pipe, which is [x]. *)
Record writing k x : Prop := {
  wg_inv : I k;
  wg_held : exists h0, held_from h0 (hw (mach k)) (p_lock x) /\ unlocked h0 /\ running_on h0 me;
  wg_pipe : pipes (files k) !! p = Some x;
  wg_ok : pipe_ok x;
}.

(** The writer has given up. *)
Record stopped k x : Prop := {
  st_inv : I k;
  st_pipe : pipes (files k) !! p = Some x;
  st_lock : p_lock x = free;
  st_ok : pipe_ok x;
  st_full : length (queue x) = 512%nat;
  st_why : p_readopen x = false \/ exists q, procs k !! me = Some q /\ killed q = true;
}.

Lemma similar_left k h0 h lk x :
  held_from h0 (hw (mach k)) lk -> settles h0 h -> similar k (set_files x (update hartL h k)).
Proof.
  intros Hh [Hs _]. split; try done. intros q Hq. change (running_on h q). rewrite Hs. by eapply held_running_back.
Qed.

Lemma stops_writing k x : writing k x -> length (queue x) = 512%nat ->
  p_readopen x = false \/ (exists q, procs k !! me = Some q /\ killed q = true) ->
  wp (release (infiles (pipe_lockL p));; mret false) k (fun r k' => r = false /\ stopped k' (set_p_lock free x)).
Proof.
  intros [W1 (h0 & Hh & _) Hp Hx] Hl Hw. wstep.
  eapply (wp_pipe_leave k p x h0 (files k)); [exact Hh|by rewrite put_pipe_same|]. intros h Hs. wstep. split; [done|].
  split; [|apply put_pipe_lookup|done|by destruct Hx|done|done]. eapply inv_similar; [exact HI|exact W1|]. by eapply similar_left.
Qed.

(** What the wait for room ends with. *)
Definition waited x (r : bool) k : Prop := exists t y, drained t x y /\
  if r then writing k y /\ (length (queue y) < 512)%nat else stopped k y.

Lemma stopped_drained k x : pipe_ok x -> stopped k (set_p_lock free x) -> waited x false k.
Proof. intros Hx H. exists 0%nat, (set_p_lock free x). split; [|done]. destruct (drained_refl x Hx). by split. Qed.

(** There is room, or the writer gives up at once. *)
Lemma wait_now n k x : writing k x -> (length (queue x) < 512)%nat \/ p_readopen x = false ->
  wp (pipewrite_wait p n) k (waited x).
Proof.
  intros W Hr. pose proof (wg_ok _ _ W) as Hx. pose proof (length_queue x) as Hlq. pose proof (po_pending _ Hx).
  destruct (decide (length (queue x) < 512)%nat) as [Hl|Hl].
  { eapply pipewrite_wait_room; [apply W|done|done|]. exists 0%nat, x. split; [by apply drained_refl|done]. }
  assert (length (queue x) = 512%nat) as Hf by lia. destruct Hr as [?|Hr]; [lia|].
  destruct n; cbn [pipewrite_wait]; (wstep; eapply wp_getpipe; [apply W|]);
    cbv beta delta [id]; unfold PIPESIZE; rewrite (pipe_full x Hx), bool_decide_eq_true_2, Hr by done; cbn [negb]; wstep; wstep.
  1,2: (eapply wp_mono; [apply (stops_writing k x W Hf); by left|]; intros r k' [-> Hst]; by apply stopped_drained).
Qed.

(** Sleeping on a full pipe. *)
Lemma sleep_full k x : writing k x -> length (queue x) = 512%nat ->
  wp (sleep_on others (nwrite_chan p) (infiles (pipe_lockL p))) k (fun _ k' => exists t y,
    drained t x y /\ writing k' y /\ ((0 < t)%nat \/ p_readopen y = false)).
Proof.
  intros [W1 (h0 & Hh & Hu & Hr) Hp Hx] Hf. destruct (inv_quiet _ _ _ HI _ W1) as [Q1 Q2 Q3].
  apply fmap_Some in Q3 as (q & Hq & Epid). set (s0 := put_pipe p (set_p_lock free x) (files k)).
  assert (pipes s0 !! p = Some (set_p_lock free x)) as Hs0 by apply put_pipe_lookup.
  assert (view (pipe_lockL p) (files k) = p_lock x) as Ev by (cbn; by rewrite Hp).
  eapply (sleep_on_spec (filling p) (drains p) (pipe_lockL p)); [|by rewrite Ev|exact Hu|exact Hr|done|exact Hq| | | | |].
  - intros ch s s' (y & t & y' & E1 & E2 & E3 & _) _ Ef. cbn in Ef. rewrite E1 in Ef.
    split; [by eapply pipe_lock_at|]. cbn. rewrite E2. cbn. cbn in Ef. congruence.
  - rewrite Ev, (update_pipe_lock p _ _ _ Hs0). unfold s0. rewrite put_pipe_again.
    rewrite put_pipe_same; [done|]. rewrite Hp. by destruct x.
  - by eapply pipe_lock_at.
  - cbn. by rewrite lookup_insert_eq.
  - split; [done|]. eexists. split; [exact Hs0|]. split; [done|]. split; [by destruct Hx|done].
  - intros k' h1 s1 Hh1 Hu1 Hr1 Hpt1 (q' & Hq' & Eq') Hf1 Hat1 Hv1 (z & t & y & E1 & E2 & E3 & D & Hprog).
    rewrite Hs0 in E1. injection E1 as <-. set (lk := view (pipe_lockL p) (files k')) in *.
    assert (pipes (files k') !! p = Some (set_p_lock lk y)) as Hp'.
    { rewrite Hf1, (update_pipe_lock p y) by done. apply put_pipe_lookup. }
    destruct D as [D1 D2 D3]. exists t, (set_p_lock lk y).
    assert (drained t x (set_p_lock lk y)) as D' by (split; [done|done|rewrite D3; by destruct x]).
    split; [done|]. split; [|done]. split; [|by exists h1|done|by eapply drained_queue].
    eapply HIq; [exact W1|]. split; [by eapply held_running|done|]. rewrite Hq'. cbn. by rewrite Eq', Epid.
Qed.

Lemma writing_woken k x ch : writing k x -> writing (set_ptable_lock free (set_procs (wake ch <$> procs k) k)) x.
Proof.
  intros [W1 W2 W3 W4]. split; [|done|done|done]. destruct (inv_quiet _ _ _ HI _ W1) as [_ Q2 _].
  eapply inv_similar; [exact HI|exact W1|]. split; [done|cbn; by destruct (mach k)|by cbn; rewrite Q2|]. cbn.
  apply Forall2_fmap_r, Forall2_same_length_lookup. split; [done|]. intros i a b Ha Hb. simplify_eq. apply wake_awake.
Qed.

Lemma pipewrite_wait_spec n k x : writing k x -> (0 < n)%nat -> wp (pipewrite_wait p n) k (waited x).
Proof.
  intros W Hn. pose proof (wg_ok _ _ W) as Hx. pose proof (length_queue x) as Hlq. pose proof (po_pending _ Hx).
  destruct (decide (length (queue x) < 512)%nat) as [Hl|Hl]; [by apply wait_now; [|left]|].
  assert (length (queue x) = 512%nat) as Hf by lia. destruct (p_readopen x) eqn:Hro; [|by apply wait_now; [|right]].
  destruct n as [|n]; [lia|]. cbn [pipewrite_wait]. wstep. eapply wp_getpipe; [apply W|].
  cbv beta delta [id]. unfold PIPESIZE. rewrite (pipe_full x Hx), bool_decide_eq_true_2, Hro by done. cbn [negb]. wstep.
  assert (quiet me mypid k) as Hq by (apply (inv_quiet _ _ _ HI), W). destruct (wg_held _ _ W) as (h0 & Hh & Hu & Hr).
  apply wp_mygetp_in; [done|by eapply held_nested|]. intros q Hq1. destruct (killed q) eqn:Hk.
  { eapply wp_mono; [apply (stops_writing k x W Hf); right; by exists q|]. intros r k' [-> Hst]. by apply stopped_drained. }
  wstep. eapply wakeup_nested; [exact Hh|apply Hq|]. wstep.
  eapply wp_mono; [apply (sleep_full _ x); [by apply writing_woken|done]|]. intros [] k1 (t & y & D & W1 & Hprog).
  destruct (drained_queue t x y Hx D) as [Hy Hqy].
  eapply wp_mono; [apply (wait_now n k1 y W1)|].
  { destruct Hprog as [Ht|?]; [left|by right]. rewrite Hqy, length_drop. pose proof (dn_count _ _ _ D). lia. }
  intros r k2 (t' & y' & D' & H2). exists (t + t')%nat, y'. split; [|done].
  destruct D as [D1 D2 D3], D' as [E1 E2 E3]. rewrite Hqy, length_drop in E1. split; [lia| |].
  - rewrite E2, D2, u32_add_l. f_equal. lia.
  - rewrite E3, D3. by destruct x.
Qed.

(** The outcome of writing [bs] to [x]. *)
Definition outcome bs x (r : bool) k : Prop := exists j t y, moved bs j t x y /\ match bs with [] => y = x | _ => queue y <> [] end /\
  if r then writing k y /\ j = length bs else stopped k y /\ (j < length bs)%nat.

Lemma full_nonempty x : length (queue x) = 512%nat -> queue x <> [].
Proof. intros H E. by rewrite E in H. Qed.

Lemma pipewrite_loop_blocks : (0 < naps)%nat -> forall bs a k x, writing k x -> supplies I a bs ->
  wp (pipewrite_loop p a (length bs)) k (outcome bs x).
Proof.
  intros Hn. induction bs as [|b bs IH]; intros a k x W Hs; cbn [pipewrite_loop length].
  { wstep. exists 0%nat, 0%nat, x. split; [|done]. by apply drained_moved; [apply W|apply drained_refl, W]. }
  destruct Hs as [Hld Hs]. pose proof (wg_ok _ _ W) as Hx. wstep.
  eapply wp_mono; [by apply pipewrite_wait_spec|]. intros r k1 (t1 & y1 & D & H1). destruct (drained_queue t1 x y1 Hx D) as [Hy1 Hq1].
  destruct r; cbn [negb].
  2:{ wstep. exists 0%nat, t1, y1. split; [by apply drained_moved|]. split; [|split; [done|cbn; lia]].
      apply full_nonempty, H1. }
  destruct H1 as [W1 Hl]. wstep. eapply wp_mono; [apply Hld, W1|]. intros c k2 (-> & I2 & F2 & Hw2). wstep.
  destruct W1 as [_ (h0 & Hh & Hu & Hr) Hp1 _]. rewrite <- F2 in Hp1.
  eapply wp_setpipe; [symmetry; by apply put_pipe_same|]. fold (written b y1).
  destruct (queue_written y1 b Hy1 Hl) as [Hw Hqw].
  match goal with |- wp _ ?k3' _ => set (k3 := k3') end.
  eapply wp_mono; [apply (IH (ptr_next a) k3 (written b y1)); [|done]|].
  - split; [|exists h0; split; [|done]|apply put_pipe_lookup|done].
    + eapply inv_similar; [exact HI|exact I2|by apply similar_refl].
    + change (held_from h0 (hw (mach k2)) (p_lock y1)). by rewrite Hw2 by (by eapply held_nested).
  - intros r k4 (j & t & y & M & Hne & H4). exists (S j), (t1 + t)%nat, y.
    split; [by eapply moved_byte|]. split; [|destruct r; cbn [length]; (split; [apply H4|destruct H4; lia])].
    destruct bs as [|b' bs]; [|by apply Hne]. rewrite Hne, Hqw. by destruct (queue y1).
Qed.

(** [pipewrite] to a pipe that may be full. *)
Definition sent bs x (r : Z) k : Prop := exists j t y, I k /\ pipes (files k) !! p = Some y /\ p_lock y = free /\ pipe_ok y /\
  moved bs j t x y /\ match bs with [] => queue y = queue x | _ => queue y <> [] end /\
  (r = Z.of_nat (length bs) /\ j = length bs \/ r = -1 /\ (j < length bs)%nat /\ stopped k y).

Lemma moved_lock bs j t x y lk lk' : moved bs j t x y -> moved bs j t (set_p_lock lk x) (set_p_lock lk' y).
Proof. intros []. by split. Qed.

Lemma pipewrite_blocks k x a bs :
  (0 < naps)%nat -> I k -> unlocked (hw (mach k)) -> pipes (files k) !! p = Some x -> p_lock x = free -> pipe_ok x ->
  supplies I a bs -> wp (pipewrite p a (Z.of_nat (length bs))) k (sent bs x).
Proof.
  intros Hn Ik Hu Hp Hf Hx Hs. pose proof (inv_quiet _ _ _ HI _ Ik) as Hq. unfold pipewrite. wstep.
  eapply wp_pipe_enter; [by eapply quiet_cpu|done|done|]. intros h1 lk Hh. rewrite Nat2Z.id. wstep.
  eapply wp_mono; [apply (pipewrite_loop_blocks Hn bs a _ (set_p_lock lk x)); [|done]|].
  - split; [|exists (hw (mach k)); split; [done|split; [done|apply Hq]]|apply put_pipe_lookup|by destruct Hx].
    eapply inv_similar; [exact HI|exact Ik|by eapply similar_held].
  - intros r k2 (j & t & y & M & Hne & H2). apply (moved_lock _ _ _ _ _ (p_lock x) free) in M.
    replace (set_p_lock (p_lock x) (set_p_lock lk x)) with x in M by (by destruct x).
    assert (match bs with [] => queue y = queue x | _ => queue y <> [] end) as Hne' by (destruct bs; [by rewrite Hne|done]).
    destruct r; cbn [negb]; [destruct H2 as [[W1 (h0 & Hh2 & _) W3 W4] ->]|destruct H2 as [St Hj]].
    + pose proof (inv_quiet _ _ _ HI _ W1) as Hq2. wstep. eapply wakeup_nested; [exact Hh2|apply Hq2|]. wstep.
      eapply (wp_pipe_leave _ p y h0 (files k2)); [exact Hh2|by cbn; rewrite put_pipe_same|]. intros h Hst. wstep.
      exists (length bs), t, (set_p_lock free y). split; [eapply inv_similar; [exact HI|exact W1|by eapply similar_leave; [..|apply Hq2]]|].
      split; [apply put_pipe_lookup|]. split; [done|]. split; [by destruct W4|]. split; [done|]. split; [done|by left].
    + wstep. destruct (St) as [S1 S2 S3 S4 S5 S6]. exists j, t, y. do 4 (split; [done|]).
      replace (set_p_lock free y) with y in M by (rewrite <- S3; by destruct y). split; [done|]. split; [done|by right].
Qed.
End Blocking.
