(* ===== verification/File.v ===== *)
(** * Open files: file.c, and pipealloc of pipe.c

    A pointer to an open file is its index in [ftable.file]. *)

From S2P Require Import Prelude Memory Mmu Machine Spinlock Kalloc Vm PageTable VmProofs VmSpaces.
From S2P Require Import Encrypt ProcTable Clock ClockProofs Proc ProcProofs FileState Sleeplock Bio Log Ulib Cprintf Fs Pipe.

Definition file0 : file := File FD_NONE 0 false false 0 None 0.

Definition file_at (s : fstate) (f : nat) : file := default file0 (ft_file (ftable s) !! f).
Definition set_file (g : file -> file) (f : nat) (s : fstate) : fstate :=
  set_ftable (set_ft_file (alter g f (ft_file (ftable s))) (ftable s)) s.

(** [f->field] and [f->field = ...] *)
Definition getf {A} (f : nat) (g : file -> A) : FK A := gets (fun k => g (file_at (files k) f)).
Definition setf (f : nat) (g : file -> file) : FK unit := modify (fun k => set_files (set_file g f (files k)) k).

Section File.
Context `{SE : SwitchEnv fstate, DD : DiskDriver, DV : Devices, KI : KernelImage, PO : !PageOps}.

Definition fileinit : FK unit := initlock (infiles ft_lockL).

(** The search for a file whose count is 0, from [f]. *)
Fixpoint filealloc_loop (f n : nat) : FK (option nat) :=
  match n with
  | O => mret None
  | S n =>
      r ← getf f f_ref;
      if r =? 0 then setf f (set_f_ref 1);; mret (Some f) else filealloc_loop (S f) n
  end.

Definition filealloc : FK (option nat) :=
  acquire (infiles ft_lockL);;
  o ← filealloc_loop 0 (Z.to_nat NFILE);
  release (infiles ft_lockL);;
  mret o.

Definition filedup (f : nat) : FK nat :=
  acquire (infiles ft_lockL);;
  r ← getf f f_ref;
  if r <? 1 then panic "filedup" else
  setf f (set_f_ref (i32 (r + 1)));;
  release (infiles ft_lockL);;
  mret f.

Definition fileclose (f : nat) : FK unit :=
  acquire (infiles ft_lockL);;
  r ← getf f f_ref;
  if r <? 1 then panic "fileclose" else
  setf f (set_f_ref (r - 1));;
  if 0 <? r - 1 then release (infiles ft_lockL) else
  ff ← getf f id;
  setf f (set_f_ref 0);;
  setf f (set_f_type FD_NONE);;
  release (infiles ft_lockL);;
  match f_type ff with
  | FD_PIPE => pipeclose (f_pipe ff) (f_writable ff)
  | FD_INODE => begin_op;; iput (f_ip ff);; end_op
  | FD_NONE => mret tt
  end.

Definition filestat (f : nat) (st : Z) : FK Z :=
  t ← getf f f_type;
  if bool_decide (t = FD_INODE) then
    o ← getf f f_ip;
    ilock o;;
    ip ← nonnull o;
    stati ip st;;
    iunlock o;;
    mret 0
  else mret (-1).

Definition fileread (f : nat) (addr : ptr) (n : Z) : FK Z :=
  readable ← getf f f_readable;
  if negb readable then mret (-1) else
  t ← getf f f_type;
  match t with
  | FD_PIPE => p ← getf f f_pipe; r ← piperead p addr n; mret r.1
  | FD_INODE =>
      o ← getf f f_ip;
      ilock o;;
      ip ← nonnull o;
      off ← getf f f_off;
      r ← readi ip addr off (u32 n);
      when (0 <? r.1) (setf f (fun x => set_f_off (u32 (f_off x + r.1)) x));;
      iunlock o;;
      mret r.1
  | FD_NONE => panic "fileread"
  end.

(** [addr + i] *)
Definition ptr_add (p : ptr) (i : Z) : ptr :=
  match p with
  | UPtr a => UPtr (u32 (a + i))
  | KPtr a => KPtr (u32 (a + i))
  | Var l => Var (drop (Z.to_nat i) l)
  end.

(** The loop of [filewrite] from [i]: the final [i]. *)
Definition max_write : Z := (MAXOPBLOCKS - 1 - 1 - 2) / 2 * 512.

Fixpoint filewrite_loop (f : nat) (addr : ptr) (i n : Z) (fuel : nat) : FK Z :=
  if negb (i <? n) then mret i else
  match fuel with
  | O => spin
  | S fuel =>
      let n1 := if max_write <? n - i then max_write else n - i in
      begin_op;;
      o ← getf f f_ip;
      ilock o;;
      ip ← nonnull o;
      off ← getf f f_off;
      r ← writei ip (ptr_add addr i) off n1;
      when (0 <? r) (setf f (fun x => set_f_off (u32 (f_off x + r)) x));;
      iunlock o;;
      end_op;;
      if r <? 0 then mret i else
      if negb (r =? n1) then panic "short filewrite" else
      filewrite_loop f addr (i + r) n fuel
  end.

Definition filewrite (f : nat) (addr : ptr) (n : Z) : FK Z :=
  writable ← getf f f_writable;
  if negb writable then mret (-1) else
  t ← getf f f_type;
  match t with
  | FD_PIPE => p ← getf f f_pipe; pipewrite p addr n
  | FD_INODE =>
      i ← filewrite_loop f addr 0 n (Z.to_nat (n / max_write + 1));
      mret (if i =? n then n else -1)
  | FD_NONE => panic "filewrite"
  end.

(** ** pipealloc *)

Definition close_opt (o : option nat) : FK unit :=
  match o with Some f => fileclose f | None => mret tt end.

(** The label [bad]. *)
Definition pipealloc_bad (p : option Z) (f0 f1 : option nat) : FK (option (nat * nat)) :=
  match p with Some p => zoom machL (kfree p) | None => mret tt end;;
  close_opt f0;;
  close_opt f1;;
  mret None.

(** The bytes of the new page are the first contents of [data]. *)
Definition pipealloc : FK (option (nat * nat)) :=
  f0 ← filealloc;
  match f0 with
  | None => pipealloc_bad None None None
  | Some r =>
      f1 ← filealloc;
      match f1 with
      | None => pipealloc_bad None (Some r) None
      | Some w =>
          p ← zoom machL kalloc;
          match p with
          | None => pipealloc_bad None (Some r) (Some w)
          | Some p =>
              d ← kloads (p + 52) (Z.to_nat PIPESIZE);
              modify (fun k => set_files (set_pipes (<[p := Pipe (Spinlock 0 None) d 0 0 true true]> (pipes (files k))) (files k)) k);;
              initlock (infiles (pipe_lockL p));;
              setf r (set_f_type FD_PIPE);;
              setf r (set_f_readable true);;
              setf r (set_f_writable false);;
              setf r (set_f_pipe p);;
              setf w (set_f_type FD_PIPE);;
              setf w (set_f_readable false);;
              setf w (set_f_writable true);;
              setf w (set_f_pipe p);;
              mret (Some (r, w))
          end
      end
  end.

(** ** The file operations that processes use *)

(** Paths given as constants of the kernel. *)
#[export] Instance file_ops : FileOps fstate := {|
  Proc.filedup := filedup;
  Proc.fileclose := fileclose;
  Proc.idup := idup;
  Proc.iput := iput;
  Proc.namei s := namei (Var (chars s)) (S (length (chars s)));
  Proc.begin_op := begin_op;
  Proc.end_op := end_op;
|}.
End File.
