(* ===== verification/FileProofs.v ===== *)
(** * Open files: the laws that processes rely on, and the life of a pipe *)

From S2P Require Import Prelude Memory Mmu Machine Spinlock Kalloc Vm PageTable VmProofs VmSpaces.
From S2P Require Import Encrypt ProcTable Clock ClockProofs Proc ProcProofs.
From S2P Require Import FileState Sleeplock Bio BioProofs Log Ulib Cprintf Fs Pipe PipeProofs File.

(** ** References *)

(** Assignments to files. *)
Lemma file_at_set g f s e :
  (f < length (ft_file (ftable s)))%nat ->
  file_at (set_file g f s) e = if decide (e = f) then g (file_at s f) else file_at s e.
Proof.
  intros Hf. unfold file_at, set_file. cbn. rewrite list_lookup_alter.
  destruct (decide (f = e)) as [->|].
  - rewrite decide_True by done. by destruct (lookup_lt_is_Some_2 _ _ Hf) as [x ->].
  - by rewrite decide_False by congruence.
Qed.

Lemma length_set_file g f s : length (ft_file (ftable (set_file g f s))) = length (ft_file (ftable s)).
Proof. cbn. apply length_alter. Qed.

Lemma set_file_set_file g h f s : set_file g f (set_file h f s) = set_file (g ∘ h) f s.
Proof. unfold set_file. cbn. by rewrite list_alter_alter_eq. Qed.

Lemma set_file_comm g h f e s : f <> e -> set_file g f (set_file h e s) = set_file h e (set_file g f s).
Proof. intros H. unfold set_file. cbn. by rewrite list_alter_alter_ne by done. Qed.

Lemma set_file_ext g h f s :
  (f < length (ft_file (ftable s)))%nat -> g (file_at s f) = h (file_at s f) -> set_file g f s = set_file h f s.
Proof.
  intros Hf E. unfold set_file. do 2 f_equal. apply list_alter_ext; [|done]. intros x Hx.
  unfold file_at in E. by rewrite Hx in E.
Qed.

Section Laws.
Context `{SE : SwitchEnv fstate, DD : DiskDriver, DV : Devices, KI : KernelImage, PO : !PageOps}.
Implicit Types k : kstate fstate.

Definition opened (n : nat) (s : fstate) (f : nat) : Prop :=
  ft_lock (ftable s) = free /\ (f < length (ft_file (ftable s)))%nat /\
  1 <= f_ref (file_at s f) /\ f_ref (file_at s f) + Z.of_nat n <= 2147483647.

Lemma filedup_run k f n :
  cpu_inv (hw (mach k)) -> opened (S n) (files k) f ->
  wp (filedup f) k (fun g k' => g = f /\ exists h, settles (hw (mach k)) h /\
    k' = set_files (set_file (fun x => set_f_ref (f_ref x + 1) x) f (files k)) (update hartL h k)).
Proof.
  intros Hc (Hl & Hf & H1 & H2). unfold filedup. wstep.
  eapply (wp_enter ft_lockL); [done|apply _|done|]. intros h1 lk Hh. unfold getf, setf. wsteps.
  cbn [files set_files]. change (file_at (update ft_lockL lk (files k)) f) with (file_at (files k) f).
  rewrite (proj2 (Z.ltb_ge _ _)) by lia. wsteps.
  set (s1 := set_file (fun x => set_f_ref (f_ref x + 1) x) f (files k)).
  eapply (wp_leave ft_lockL _ _ s1 lk); [exact Hh|apply _|done| |].
  - cbn [files set_files]. rewrite i32_small by (unfold is_i32; lia).
    change (set_file ?g f (update ft_lockL lk (files k))) with (update ft_lockL lk (set_file g f (files k))).
    f_equal. by apply set_file_ext.
  - intros h Hs. wstep. split; [done|]. by exists h.
Qed.

Lemma idup_run k ip :
  cpu_inv (hw (mach k)) -> ic_lock (icache (files k)) = free ->
  wp (idup (Some ip)) k (fun d k' => d = Some ip /\ exists h, settles (hw (mach k)) h /\
    k' = set_files (set_inode (fun x => set_i_ref (i32 (i_ref x + 1)) x) ip (files k)) (update hartL h k)).
Proof.
  intros Hc Hl. unfold idup. wstep.
  eapply (wp_enter ic_lockL); [done|apply _|done|]. intros h1 lk Hh. unfold seti. wsteps.
  eapply (wp_leave ic_lockL _ _ (set_inode (fun x => set_i_ref (i32 (i_ref x + 1)) x) ip (files k)) lk);
    [exact Hh|apply _|done|done|].
  intros h Hs. wstep. split; [done|]. by exists h.
Qed.

(** The file layer keeps the promises of [FileLaws]. *)
#[export] Program Instance file_laws : FileLaws fstate := {|
  file_open := opened;
  dir_open s d := ic_lock (icache s) = free /\ is_Some d;
|}.
Next Obligation. intros n s f (H1 & H2 & H3 & H4). split_and!; try done. lia. Qed.
Next Obligation.
  intros k f n Hc Ho. eapply wp_mono; [by eapply filedup_run|].
  intros g k' (-> & h & [Hh _] & ->). split; [done|]. destruct Ho as (Hl & Hf & H1 & H2).
  eexists _, h. split; [done|]. split; [done|]. split; [|done].
  intros e m (E1 & E2 & E3 & E4). split; [done|]. split; [by rewrite length_set_file|].
  rewrite file_at_set by done. destruct (decide (e = f)) as [->|]; cbn; lia.
Qed.
Next Obligation.
  intros k d Hc [Hl [ip ->]]. eapply wp_mono; [by apply idup_run|].
  intros e k' (-> & h & [Hh _] & ->). split; [done|]. by eexists _, h.
Qed.
End Laws.

(** ** The file table *)

Section Table.
Context `{SE : SwitchEnv fstate, DD : DiskDriver, DV : Devices, KI : KernelImage, PO : !PageOps}.
Implicit Types k : kstate fstate.

(** The first file from [f] that nobody refers to, among [n]. *)
Fixpoint unused_file (s : fstate) (f n : nat) : option nat :=
  match n with
  | O => None
  | S n => if decide (f_ref (file_at s f) = 0) then Some f else unused_file s (S f) n
  end.

Lemma unused_file_spec s n : forall f g,
  unused_file s f n = Some g -> (f <= g < f + n)%nat /\ f_ref (file_at s g) = 0.
Proof.
  induction n as [|n IH]; intros f g; cbn; [done|]. case_decide.
  - intros [= <-]. split; [lia|done].
  - intros [H1 H2]%IH. split; [lia|done].
Qed.

Definition take_file (o : option nat) (s : fstate) : fstate :=
  match o with Some f => set_file (set_f_ref 1) f s | None => s end.

Lemma filealloc_loop_spec s lk n : forall f k, files k = update ft_lockL lk s ->
  wp (filealloc_loop f n) k (fun o k' => o = unused_file s f n /\
    k' = set_files (update ft_lockL lk (take_file o s)) k).
Proof.
  induction n as [|n IH]; intros f k Hf; cbn [filealloc_loop unused_file].
  - wstep. split; [done|]. cbn [take_file]. rewrite <- Hf. by destruct k.
  - unfold getf, setf. wsteps. rewrite Hf. change (file_at (update ft_lockL lk s) f) with (file_at s f).
    destruct (Z.eqb_spec (f_ref (file_at s f)) 0) as [E|E].
    + wsteps. rewrite decide_True by done. split; [done|]. by rewrite Hf.
    + rewrite decide_False by done. by apply IH.
Qed.

Lemma filealloc_spec k :
  cpu_inv (hw (mach k)) -> ft_lock (ftable (files k)) = free ->
  wp filealloc k (fun o k' => o = unused_file (files k) 0 100 /\ exists h, settles (hw (mach k)) h /\
    k' = set_files (take_file o (files k)) (update hartL h k)).
Proof.
  intros Hc Hl. unfold filealloc. wstep.
  eapply (wp_enter ft_lockL); [done|apply _|done|]. intros h1 lk Hh. wstep.
  eapply wp_mono; [by apply (filealloc_loop_spec (files k) lk)|]. intros o k1 [Ho ->]. wstep.
  eapply (wp_leave ft_lockL _ _ (take_file o (files k)) lk); [exact Hh|apply _|by destruct o|done|].
  intros h Hs. wstep. split; [done|]. by exists h.
Qed.

Definition closed_file (x : file) : file := set_f_type FD_NONE (set_f_ref 0 x).

(** What [fileclose] does after the last reference is gone. *)
Definition close_rest (x : file) : FK unit :=
  match f_type x with
  | FD_PIPE => pipeclose (f_pipe x) (f_writable x)
  | FD_INODE => begin_op;; iput (f_ip x);; end_op
  | FD_NONE => mret tt
  end.

Lemma fileclose_last k f x (Q : unit -> kstate fstate -> Prop) :
  cpu_inv (hw (mach k)) -> ft_lock (ftable (files k)) = free -> (f < length (ft_file (ftable (files k))))%nat ->
  file_at (files k) f = x -> f_ref x = 1 ->
  (forall h, settles (hw (mach k)) h ->
     wp (close_rest x) (set_files (set_file closed_file f (files k)) (update hartL h k)) Q) ->
  wp (fileclose f) k Q.
Proof.
  intros Hc Hl Hf Hx Hr HQ. unfold fileclose. wstep.
  eapply (wp_enter ft_lockL); [done|apply _|done|]. intros h1 lk Hh. unfold getf, setf. wsteps.
  cbn [files set_files]. change (file_at (update ft_lockL lk (files k)) f) with (file_at (files k) f).
  rewrite Hx, Hr. change (1 <? 1) with false. cbv iota. wsteps. change (0 <? 1 - 1) with false. change (1 - 1) with 0.
  cbv iota. wsteps. cbn [files set_files].
  change (set_file ?g f (update ft_lockL lk ?s)) with (update ft_lockL lk (set_file g f s)).
  change (file_at (update ft_lockL lk ?s) f) with (file_at s f). rewrite file_at_set, decide_True, Hx by done.
  eapply (wp_leave ft_lockL _ _ (set_file closed_file f (files k)) lk); [exact Hh|apply _|done| |].
  - cbn [files set_files]. change (update ft_lockL lk (set_file ?g f ?s)) with (set_file g f (update ft_lockL lk s)).
    rewrite !set_file_set_file. reflexivity.
  - intros h Hs. apply (HQ h Hs).
Qed.

(** Other references remain. *)
Lemma fileclose_shared k f : cpu_inv (hw (mach k)) -> ft_lock (ftable (files k)) = free ->
  (f < length (ft_file (ftable (files k))))%nat -> 2 <= f_ref (file_at (files k) f) ->
  wp (fileclose f) k (fun _ k' => exists h, settles (hw (mach k)) h /\
    k' = set_files (set_file (fun x => set_f_ref (f_ref x - 1) x) f (files k)) (update hartL h k)).
Proof.
  intros Hc Hl Hf Hr. unfold fileclose. wstep.
  eapply (wp_enter ft_lockL); [done|apply _|done|]. intros h1 lk Hh. unfold getf, setf. wsteps.
  cbn [files set_files]. change (file_at (update ft_lockL lk (files k)) f) with (file_at (files k) f).
  rewrite (proj2 (Z.ltb_ge _ _)) by lia. wsteps. rewrite (proj2 (Z.ltb_lt _ _)) by lia.
  eapply (wp_leave ft_lockL _ _ (set_file (fun x => set_f_ref (f_ref x - 1) x) f (files k)) lk); [exact Hh|apply _|done| |].
  - cbn [files set_files].
    change (set_file ?g f (update ft_lockL lk (files k))) with (update ft_lockL lk (set_file g f (files k))).
    f_equal. by apply set_file_ext.
  - intros h Hs. by exists h.
Qed.
End Table.

(** ** Pipes and pages *)

Section PipeLife.
Context `{SE : SwitchEnv fstate, DD : DiskDriver, DV : Devices, KI : KernelImage, PO : !PageOps, PA : !PageAllocator}.
Implicit Types k : kstate fstate.

Lemma free_pages_hw s l h : free_pages s l -> cpu_inv h -> free_pages (set_hw h s) l.
Proof.
  intros Hf Hc. pose proof (free_pages_regs s l h (cr3 s) (tr s) Hf Hc) as H.
  replace (set_hw h s) with (set_tr (tr s) (set_cr3 (cr3 s) (set_hw h s))) by (by destruct s). done.
Qed.

Lemma free_pages_calm p n k k' l : quiet p n k -> calm k k' -> free_pages (mach k) l -> free_pages (mach k') l.
Proof.
  intros Hq C Hf. rewrite (calm_mach _ _ C). apply free_pages_hw; [done|].
  by eapply quiet_cpu, quiet_calm.
Qed.

Definition ended (writable : bool) (x : pipe) : pipe :=
  if writable then set_p_writeopen false x else set_p_readopen false x.

(** The state of the section that [pipeclose] leaves. *)
Definition close_end (v : Z) (w : bool) : FK unit :=
  if w then setpipe v (set_p_writeopen false);; wakeup (nread_chan v)
  else setpipe v (set_p_readopen false);; wakeup (nwrite_chan v).

Lemma pipeclose_enter p n k v x w (c : FK unit) (Q : unit -> kstate fstate -> Prop) :
  quiet p n k -> pipes (files k) !! v = Some x -> p_lock x = free ->
  (forall k1 lk, held_from (hw (mach k)) (hw (mach k1)) lk -> locked (ptable_lock k1) = 0 ->
     files k1 = put_pipe v (set_p_lock lk (ended w x)) (files k) ->
     (forall h y, settles (hw (mach k)) h -> calm k (set_files y (update hartL h k1))) -> wp c k1 Q) ->
  wp (acquire (infiles (pipe_lockL v));; close_end v w;; c) k Q.
Proof.
  intros Hq Hp Hl HQ. wstep. eapply wp_pipe_enter; [by eapply quiet_cpu|done|done|]. intros h1 lk Hh.
  assert (forall ch, Forall2 awake (procs k) (wake ch <$> procs k)) as Haw.
  { intros ch. apply Forall2_fmap_r, Forall2_same_length_lookup. split; [done|].
    intros i a b Ha Hb. simplify_eq. apply wake_awake. }
  wstep. unfold close_end. destruct w; wstep; (eapply wp_setpipe; [reflexivity|]);
    (eapply (wakeup_nested _ (hw (mach k)) lk); [exact Hh|apply Hq|]);
    (eapply (HQ _ lk); [exact Hh|done|done|]); intros h y Hs; split; try done; try apply Haw; cbn; symmetry; apply Hq.
Qed.

(** The other end is still open. *)
Lemma pipeclose_one p n k v x (w : bool) :
  quiet p n k -> pipes (files k) !! v = Some x -> p_lock x = free ->
  (if w then p_readopen x else p_writeopen x) = true ->
  wp (pipeclose v w) k (fun _ k' => calm k k' /\ files k' = put_pipe v (ended w x) (files k)).
Proof.
  intros Hq Hp Hl Ho. unfold pipeclose.
  eapply pipeclose_enter; [done|done|done|]. intros k1 lk Hh Hpt Hf HC.
  assert (pipes (files k1) !! v = Some (set_p_lock lk (ended w x))) as Hp1 by (rewrite Hf; apply put_pipe_lookup).
  wstep. eapply wp_getpipe; [done|]. wstep. eapply wp_getpipe; [done|].
  replace (negb _ && negb _) with false by (destruct w; cbn in *; rewrite Ho; by rewrite ?andb_false_r).
  eapply (wp_pipe_leave _ v (set_p_lock lk (ended w x)) (hw (mach k))); [exact Hh|exact Hf|]. intros h Hs. split; [by apply HC|].
  cbn [files set_files]. f_equal. unfold ended. destruct w, x; cbn in *; by subst.
Qed.

(** The other end is closed: the pipe is gone and its page is free. *)
Lemma pipeclose_last p n k v x (w : bool) l :
  quiet p n k -> pipes (files k) !! v = Some x -> p_lock x = free ->
  (if w then p_readopen x else p_writeopen x) = false ->
  free_pages (mach k) l -> page_ok v -> v ∉ l ->
  wp (pipeclose v w) k (fun _ k' => quiet p n k' /\ free_pages (mach k') (v :: l) /\
    files k' = set_pipes (delete v (pipes (files k))) (files k)).
Proof.
  intros Hq Hp Hl Ho Hfp Hv Hvl. unfold pipeclose.
  eapply pipeclose_enter; [done|done|done|]. intros k1 lk Hh Hpt Hf HC.
  assert (pipes (files k1) !! v = Some (set_p_lock lk (ended w x))) as Hp1 by (rewrite Hf; apply put_pipe_lookup).
  wstep. eapply wp_getpipe; [done|]. wstep. eapply wp_getpipe; [done|].
  replace (negb _ && negb _) with true by (destruct w; cbn in *; by rewrite Ho).
  wstep. eapply (wp_pipe_leave _ v (set_p_lock lk (ended w x)) (hw (mach k))); [exact Hh|exact Hf|]. intros h Hs. wsteps.
  set (k2 := set_files _ _). assert (calm k k2) as C2 by (by apply calm_set_files, HC).
  assert (quiet p n k2) as Hq2 by (by eapply quiet_calm).
  apply wp_zoom. eapply wp_mono; [apply kfree_spec; [exact (free_pages_calm p n k k2 l Hq C2 Hfp)|done|done]|].
  intros [] s' (Hf' & (Hw & _) & _). split_and!.
  - destruct Hq2 as [Q1 Q2 Q3]. split; [|done|done]. change (running_on (hw s') p). by rewrite Hw.
  - exact Hf'.
  - change (files (set_mach s' k2)) with (files k2). unfold k2. cbn. by rewrite delete_insert_eq.
Qed.

Lemma kloads_spec k n : forall a, wp (kloads a n) k (fun d k' => k' = k /\ length d = n).
Proof.
  induction n as [|n IH]; intros a; cbn [kloads]; [by wstep|]. wstep. apply wp_zoom. unfold kload8. wstep.
  rewrite update_view. wstep. eapply wp_mono; [apply IH|]. intros d k' [-> <-]. by wstep.
Qed.

Definition new_pipe (d : list Z) : pipe := Pipe free d 0 0 true true.
Definition pipe_end (v : Z) (w : bool) (x : file) : file :=
  set_f_pipe v (set_f_writable w (set_f_readable (negb w) (set_f_type FD_PIPE x))).

(** [pipealloc] when two files and a page are to be had. *)
Lemma pipealloc_made p n k r w v l :
  quiet p n k -> ft_lock (ftable (files k)) = free -> unused_file (files k) 0 100 = Some r ->
  unused_file (take_file (Some r) (files k)) 0 100 = Some w -> free_pages (mach k) (v :: l) ->
  wp pipealloc k (fun o k' => o = Some (r, w) /\ quiet p n k' /\ free_pages (mach k') l /\
    exists d, length d = 512%nat /\ files k' = set_file (pipe_end v true) w (set_file (pipe_end v false) r
      (put_pipe v (new_pipe d) (take_file (Some w) (take_file (Some r) (files k)))))).
Proof.
  intros Hq Hl Hr Hw Hp. unfold pipealloc. wstep.
  eapply wp_mono; [by apply filealloc_spec; [eapply quiet_cpu|]|]. intros o k1 (-> & h1 & Hs1 & ->). rewrite Hr.
  set (k1 := set_files _ _). assert (calm k k1) as C1 by exact (set_files_calm k h1 _ Hs1).
  wstep. eapply wp_mono; [apply filealloc_spec; [by eapply quiet_cpu, quiet_calm|done]|].
  intros o k2 (-> & h2 & Hs2 & ->). change (files k1) with (take_file (Some r) (files k)). rewrite Hw.
  set (k2 := set_files _ _). assert (calm k k2) as C2 by (etrans; [exact C1|exact (set_files_calm k1 h2 _ Hs2)]).
  assert (quiet p n k2) as [Q1 Q2 Q3] by (by eapply quiet_calm).
  wstep. apply wp_zoom. eapply wp_mono; [apply kalloc_spec; exact (free_pages_calm p n k k2 _ Hq C2 Hp)|].
  intros o s (Hm & (Hw' & Hc & Ht) & -> & Hf). cbn [head tail] in *.
  wstep. eapply wp_mono; [apply kloads_spec|]. intros d k3 [-> Hd]. unfold setf, initlock. wsteps. split; [done|].
  split. { split; [|done|done]. change (running_on (hw s) p). by rewrite Hw'. }
  split; [done|]. exists d. split; [done|]. cbn [files set_files set_mach].
  set (s2 := take_file (Some w) (take_file (Some r) (files k))).
  assert (update (pipe_lockL v) free (put_pipe v (new_pipe d) s2) = put_pipe v (new_pipe d) s2) as E.
  { rewrite (update_pipe_lock _ (new_pipe d)) by apply put_pipe_lookup. apply put_pipe_again. }
  rewrite !set_file_set_file, <- E. reflexivity.
Qed.
End PipeLife.
