(* ===== verification/FileTheorems.v ===== *)
(** * Theorems about pipes and open files *)

From stdpp Require Import functions.
From S2P Require Import Prelude Memory Mmu Machine Spinlock Kalloc Vm PageTable VmProofs VmSpaces.
From S2P Require Import Encrypt ProcTable Clock ClockProofs Demo Proc ProcProofs.
From S2P Require Import FileState Sleeplock Sleeping Bio BioProofs BioInit Log LogProofs Ulib Cprintf Fs Pipe PipeProofs File FileProofs FileDemo.

Section Theorems.
Context `{SE : SwitchEnv fstate, DD : DiskDriver, DV : Devices, KI : KernelImage, PO : !PageOps, PA : !PageAllocator}.
Implicit Types k : kstate fstate.

(** C18: A pipe is a queue of bytes: what [pipewrite] takes from the writer's
    memory is appended to the bytes in the pipe, and [piperead] gives the
    reader the oldest bytes, as many as there are up to the number asked for,
    and keeps the rest in order; this holds across the wrap-around of the ring
    and of the two 32-bit counters.  When the bytes do not fit, and come from
    memory that others do not change, the writer sleeps on the full pipe as
    often as it must: if readers take bytes or close their end while it sleeps,
    it ends, having put [j] bytes into the pipe in order while the readers took
    the [t] oldest ones, and none is lost or overwritten.  It puts all of them,
    and returns their number, unless it finds the pipe full with the reading end
    closed or itself killed, when it returns -1. *)
Theorem pipe_fifo me mypid I J p k x src bs snk n :
  invariant me mypid I -> (forall l, invariant me mypid (J l)) -> (forall k, I k -> J [] k) ->
  I k -> pipes (files k) !! p = Some x -> p_lock x = free -> pipe_ok x ->
  supplies I src bs -> accepts J snk n -> queue x ++ bs <> [] \/ p_writeopen x = false ->
  let fits := (length (queue x) + length bs <= 512)%nat in
  fits \/ SleepLaws (filling p) (drains p) /\ (forall k k', I k -> quiet me mypid k' -> I k') /\
    (0 < naps)%nat /\ unlocked (hw (mach k)) ->
  wp (pipewrite p src (Z.of_nat (length bs))) k (fun r k1 => exists j t y,
    pipes (files k1) !! p = Some y /\ pipe_ok y /\ moved bs j t x y /\
    (r = Z.of_nat (length bs) /\ j = length bs \/ r = -1 /\ (j < length bs)%nat /\ stopped me I p k1 y) /\
    (fits -> j = length bs /\ t = 0%nat /\ files k1 = put_pipe p y (files k)) /\
    wp (piperead p (snk []) (Z.of_nat n)) k1 (fun c k' => let got := take n (queue y) in
      c = (Z.of_nat (length got), snk got) /\ J got k' /\
      exists z, files k' = put_pipe p z (files k1) /\ pipe_ok z /\ same_ends y z /\ queue z = drop n (queue y))).
Proof.
  intros HI HJ HIJ Ik Hp Hl Hx Hs Ha Hn fits Hfit.
  assert (forall k1 y, I k1 -> pipes (files k1) !! p = Some y -> p_lock y = free -> pipe_ok y ->
    queue y <> [] \/ p_writeopen y = false ->
    wp (piperead p (snk []) (Z.of_nat n)) k1 (fun c k' => let got := take n (queue y) in
      c = (Z.of_nat (length got), snk got) /\ J got k' /\
      exists z, files k' = put_pipe p z (files k1) /\ pipe_ok z /\ same_ends y z /\ queue z = drop n (queue y))) as Hread.
  { intros k1 y I1 Hp1 Hl1 Hy Hne. eapply wp_mono; [apply (piperead_spec me mypid J snk p k1 y n); try done; by apply HIJ|].
    intros [c1 c2] k2 (R1 & R2 & J2 & _ & H2). cbn in R1, R2. by rewrite R1, R2. }
  destruct (decide (length (queue x) + length bs <= 512)%nat) as [Hf|Hf].
  - eapply wp_mono; [by apply (pipewrite_spec me mypid I p k x src bs)|].
    intros r k1 (-> & I1 & _ & y & F1 & Hy & (E1 & E2 & E3) & M). exists (length bs), 0%nat, y.
    assert (pipes (files k1) !! p = Some y) as Hp1 by (rewrite F1; apply put_pipe_lookup).
    do 3 (split; [done|]). split; [by left|]. split; [done|]. apply Hread; [done|done|by rewrite E1|done|].
    rewrite (mv_queue _ _ _ _ _ M), E3, drop_0, firstn_all. done.
  - destruct Hfit as [?|(SL & HIq & Hnaps & Hu)]; [done|].
    eapply wp_mono; [by apply (pipewrite_blocks me mypid I p HI HIq k x src bs)|].
    intros r k1 (j & t & y & I1 & Hp1 & Hl1 & Hy & M & Hne & Hr). exists j, t, y. do 3 (split; [done|]).
    split; [done|]. split; [done|]. apply Hread; try done. rewrite (mv_open _ _ _ _ _ M).
    destruct bs; [by rewrite Hne, <- (app_nil_r (queue x))|by left].
Qed.

(** ** The life of a pipe *)

(** What processes do with the ends of a pipe, of which [true] is the one for
    writing. *)
Inductive end_op : Type := DupEnd (b : bool) | CloseEnd (b : bool).

Definition end_of (r w : nat) (b : bool) : nat := if b then w else r.

Fixpoint use_ends (r w : nat) (ops : list end_op) : FK unit :=
  match ops with
  | [] => mret tt
  | DupEnd b :: ops => _ ← filedup (end_of r w b); use_ends r w ops
  | CloseEnd b :: ops => fileclose (end_of r w b);; use_ends r w ops
  end.

Definition pipe_cycle (ops : list end_op) : FK unit :=
  o ← pipealloc;
  match o with
  | None => mret tt
  | Some (r, w) => use_ends r w ops
  end.

(** With [c b] references to the ends, only open ends are used, and in the end
    both are closed. *)
Fixpoint balanced (ops : list end_op) (c : bool -> nat) : bool :=
  match ops with
  | [] => (c true =? 0)%nat && (c false =? 0)%nat
  | DupEnd b :: ops => (0 <? c b)%nat && balanced ops (<[b := S (c b)]> c)
  | CloseEnd b :: ops => (0 <? c b)%nat && balanced ops (<[b := pred (c b)]> c)
  end.

(** The file table, and pipes in pages that are not free. *)
Record table_ok (s : fstate) (l : list Z) : Prop := {
  to_lock : ft_lock (ftable s) = free;
  to_len : length (ft_file (ftable s)) = 100%nat;
  to_none f : f_ref (file_at s f) = 0 -> f_type (file_at s f) = FD_NONE;
  to_pipes v : v ∈ l -> pipes s !! v = None;
}.

(** The pipes, the files in use and everything but the table of files are the
    same, and files that were free are free. *)
Record restored (s s' : fstate) : Prop := {
  rs_rest : s' = set_ftable (ftable s') s;
  rs_lock : ft_lock (ftable s') = ft_lock (ftable s);
  rs_len : length (ft_file (ftable s')) = length (ft_file (ftable s));
  rs_used f : f_ref (file_at s f) <> 0 -> file_at s' f = file_at s f;
  rs_free f : f_ref (file_at s f) = 0 -> f_ref (file_at s' f) = 0 /\ f_type (file_at s' f) = FD_NONE;
}.

Lemma fileclose_none p n k f x :
  quiet p n k -> ft_lock (ftable (files k)) = free -> (f < length (ft_file (ftable (files k))))%nat ->
  file_at (files k) f = x -> f_ref x = 1 -> f_type x = FD_NONE ->
  wp (fileclose f) k (fun _ k' => calm k k' /\ files k' = set_file closed_file f (files k)).
Proof.
  intros Hq Hl Hf Hx Hr Ht. eapply fileclose_last; [by eapply quiet_cpu|done|done|done|done|].
  intros h Hs. unfold close_rest. rewrite Ht. wstep. split; [exact (set_files_calm k h _ Hs)|done].
Qed.

Lemma restored_refl s l : table_ok s l -> restored s s.
Proof. intros T. split; try done; [by destruct s|]. intros f Hf. split; [done|by apply T]. Qed.

(** A free file has been taken and given back. *)
Lemma restored_set s s' f g :
  restored s s' -> (f < length (ft_file (ftable s)))%nat -> f_ref (file_at s f) = 0 ->
  (forall x, f_ref (g x) = 0 /\ f_type (g x) = FD_NONE) -> restored s (set_file g f s').
Proof.
  intros [R1 R2 R3 R4 R5] Hf H0 Hg. assert (f < length (ft_file (ftable s')))%nat as Hf' by (by rewrite R3).
  split; [by rewrite R1|done|by rewrite length_set_file|..]; intros e He; rewrite file_at_set by done.
  - rewrite decide_False; [by apply R4|]. by intros ->.
  - case_decide; [apply Hg|by apply R5].
Qed.

(** The references [c] to the ends [r] and [w] of the pipe at [v] in [s'], which
    has come from [s]. *)
Record ends (s : fstate) (v : Z) (r w : nat) (c : bool -> nat) (s' : fstate) : Prop := {
  en_lock : ft_lock (ftable s') = free;
  en_len : length (ft_file (ftable s')) = length (ft_file (ftable s));
  en_files f : f <> r -> f <> w -> file_at s' f = file_at s f;
  en_end b : let x := file_at s' (end_of r w b) in f_ref x = Z.of_nat (c b) /\
    if decide (c b = 0%nat) then f_type x = FD_NONE else f_type x = FD_PIPE /\ f_pipe x = v /\ f_writable x = b;
}.

(** The pipe is there while it has an end. *)
Definition piped (s : fstate) (v : Z) (c : bool -> nat) (s' : fstate) : Prop :=
  s' = set_pipes (pipes s') (set_ftable (ftable s') s) /\
  if decide (c true = 0%nat /\ c false = 0%nat) then pipes s' = pipes s else
  exists x, pipes s' = <[v := x]> (pipes s) /\ p_lock x = free /\
    p_writeopen x = bool_decide (0 < c true)%nat /\ p_readopen x = bool_decide (0 < c false)%nat.

Section Ends.
Context (s : fstate) (v : Z) (r w : nat).
Hypothesis Hrw : r <> w.
Hypothesis Hr : (r < length (ft_file (ftable s)))%nat.
Hypothesis Hw : (w < length (ft_file (ftable s)))%nat.

Lemma ends_set c s' b g n :
  ends s v r w c s' -> let x := file_at s' (end_of r w b) in
  f_ref (g x) = Z.of_nat n ->
  (if decide (n = 0%nat) then f_type (g x) = FD_NONE else f_type (g x) = FD_PIPE /\ f_pipe (g x) = v /\ f_writable (g x) = b) ->
  ends s v r w (<[b := n]> c) (set_file g (end_of r w b) s').
Proof.
  intros [E1 E2 E3 E4] x H1 H2. assert (end_of r w b < length (ft_file (ftable s')))%nat as Hb by (rewrite E2; by destruct b).
  split; [done|by rewrite length_set_file|..].
  - intros f Hfr Hfw. rewrite file_at_set, decide_False by (done || by destruct b). by apply E3.
  - intros b'. rewrite file_at_set by done. destruct (decide (b' = b)) as [->|Hne].
    + rewrite fn_lookup_insert, decide_True by done. done.
    + rewrite fn_lookup_insert_ne, decide_False by (try done; destruct b, b'; cbn; congruence). apply E4.
Qed.
End Ends.

Lemma unused_file_at s l r : table_ok s l -> unused_file s 0 100 = Some r ->
  (r < length (ft_file (ftable s)))%nat /\ f_ref (file_at s r) = 0 /\ f_type (file_at s r) = FD_NONE.
Proof.
  intros T [H1 H2]%unused_file_spec. split; [rewrite (to_len _ _ T); lia|]. split; [done|]. by apply T.
Qed.

(** The second file is another one. *)
Lemma unused_file_two s l r w : table_ok s l -> unused_file s 0 100 = Some r ->
  unused_file (take_file (Some r) s) 0 100 = Some w ->
  w <> r /\ (w < length (ft_file (ftable s)))%nat /\ f_ref (file_at s w) = 0 /\ f_type (file_at s w) = FD_NONE /\
  file_at (take_file (Some r) s) w = file_at s w.
Proof.
  intros T Hr [H1 H2]%unused_file_spec. destruct (unused_file_at _ _ _ T Hr) as (R1 & R2 & R3).
  cbn [take_file] in *. rewrite file_at_set in * by done. destruct (decide (w = r)) as [->|Hne]; [done|].
  split_and!; try done; [rewrite (to_len _ _ T); lia|by apply T].
Qed.

(** The first file is given back when there is no second one. *)
Lemma pipealloc_one p n k l r :
  quiet p n k -> table_ok (files k) l -> unused_file (files k) 0 100 = Some r ->
  unused_file (take_file (Some r) (files k)) 0 100 = None ->
  wp pipealloc k (fun o k' => o = None /\ calm k k' /\ restored (files k) (files k')).
Proof.
  intros Hq T Hr Hw. destruct (unused_file_at _ _ _ T Hr) as (R1 & R2 & R3). unfold pipealloc. wstep.
  eapply wp_mono; [apply filealloc_spec; [by eapply quiet_cpu|apply T]|]. intros o k1 (-> & h1 & Hs1 & ->). rewrite Hr.
  set (k1 := set_files _ _). assert (calm k k1) as C1 by exact (set_files_calm k h1 _ Hs1).
  wstep. eapply wp_mono; [apply filealloc_spec; [by eapply quiet_cpu, quiet_calm|apply T]|].
  intros o k2 (-> & h2 & Hs2 & ->). change (files k1) with (take_file (Some r) (files k)). rewrite Hw. cbn [take_file].
  set (k2 := set_files _ _). assert (calm k k2) as C2 by (etrans; [exact C1|exact (set_files_calm k1 h2 _ Hs2)]).
  unfold pipealloc_bad, close_opt. wstep. wstep. wstep.
  eapply wp_mono; [eapply (fileclose_none p n k2 r); [by eapply quiet_calm|apply T| |reflexivity| |]|].
  - change (files k2) with (set_file (set_f_ref 1) r (files k)). by rewrite length_set_file.
  - change (files k2) with (set_file (set_f_ref 1) r (files k)). by rewrite file_at_set, decide_True.
  - change (files k2) with (set_file (set_f_ref 1) r (files k)). by rewrite file_at_set, decide_True.
  - intros [] k3 [C3 F3]. wsteps. split; [done|]. split; [by etrans|]. rewrite F3.
    change (files k2) with (set_file (set_f_ref 1) r (files k)). rewrite set_file_set_file.
    by apply restored_set; [by eapply restored_refl|..].
Qed.

(** Both files are given back when there is no page. *)
Lemma pipealloc_nopage p n k r w :
  quiet p n k -> table_ok (files k) [] -> unused_file (files k) 0 100 = Some r ->
  unused_file (take_file (Some r) (files k)) 0 100 = Some w -> free_pages (mach k) [] ->
  wp pipealloc k (fun o k' => o = None /\ quiet p n k' /\ free_pages (mach k') [] /\ restored (files k) (files k')).
Proof.
  intros Hq T Hr Hw Hp. destruct (unused_file_at _ _ _ T Hr) as (R1 & R2 & R3).
  destruct (unused_file_two _ _ _ _ T Hr Hw) as (Hne & W1 & W2 & W3 & W4). unfold pipealloc. wstep.
  eapply wp_mono; [apply filealloc_spec; [by eapply quiet_cpu|apply T]|]. intros o k1 (-> & h1 & Hs1 & ->). rewrite Hr.
  set (k1 := set_files _ _). assert (calm k k1) as C1 by exact (set_files_calm k h1 _ Hs1).
  wstep. eapply wp_mono; [apply filealloc_spec; [by eapply quiet_cpu, quiet_calm|apply T]|].
  intros o k2 (-> & h2 & Hs2 & ->). change (files k1) with (take_file (Some r) (files k)). rewrite Hw.
  set (k2 := set_files _ _). assert (calm k k2) as C2 by (etrans; [exact C1|exact (set_files_calm k1 h2 _ Hs2)]).
  assert (quiet p n k2) as [Q1 Q2 Q3] by (by eapply quiet_calm).
  wstep. apply wp_zoom. eapply wp_mono; [apply kalloc_spec; exact (free_pages_calm p n k k2 _ Hq C2 Hp)|].
  intros o s (Hm & (Hw' & Hc & Ht) & -> & Hf). cbn [head tail] in *. set (k3 := update machL s k2).
  assert (quiet p n k3) as Hq3. { split; [|done|done]. change (running_on (hw s) p). by rewrite Hw'. }
  set (s2 := set_file (set_f_ref 1) w (set_file (set_f_ref 1) r (files k))).
  assert (files k3 = s2) as F3 by done.
  assert (r < length (ft_file (ftable s2)) /\ w < length (ft_file (ftable s2)))%nat as [L1 L2].
  { unfold s2. by rewrite !length_set_file. }
  assert (file_at s2 r = set_f_ref 1 (file_at (files k) r)) as Er.
  { unfold s2. rewrite file_at_set, decide_False by (rewrite ?length_set_file; done). by rewrite file_at_set, decide_True. }
  assert (file_at s2 w = set_f_ref 1 (file_at (files k) w)) as Ew.
  { unfold s2. rewrite file_at_set, decide_True by (rewrite ?length_set_file; done). by rewrite file_at_set, decide_False. }
  unfold pipealloc_bad, close_opt. wstep. wstep. wstep.
  eapply wp_mono; [apply (fileclose_none p n k3 r (set_f_ref 1 (file_at (files k) r))); rewrite ?F3; try done; apply T|].
  intros [] k4 [C4 F4]. wstep. rewrite F3 in F4.
  eapply wp_mono; [apply (fileclose_none p n k4 w (set_f_ref 1 (file_at (files k) w)));
    [by eapply quiet_calm|rewrite F4; apply T|by rewrite F4, length_set_file| |done|done]|].
  { rewrite F4, file_at_set, decide_False by done. done. }
  intros [] k5 [C5 F5]. wstep. assert (calm k3 k5) as C35 by (by etrans).
  split; [done|]. split; [by eapply quiet_calm|]. split; [by eapply (free_pages_calm p n k3)|].
  rewrite F5, F4. unfold s2. rewrite (set_file_comm closed_file (set_f_ref 1) r w), !set_file_set_file by done.
  apply restored_set; [|done|done|done]. by apply restored_set; [by eapply restored_refl|..].
Qed.

(** *** Using the ends *)

Ltac count := rewrite ?fn_lookup_insert, ?(fn_lookup_insert_ne _ true false), ?(fn_lookup_insert_ne _ false true) by done.

Section Use.
Context (p : nat) (n : Z) (s : fstate) (v : Z) (r w : nat) (l : list Z).
Hypothesis Hrw : r <> w.
Hypothesis Hr : (r < length (ft_file (ftable s)))%nat.
Hypothesis Hw : (w < length (ft_file (ftable s)))%nat.
Hypothesis Hpage : page_ok v.
Hypothesis Hvl : v ∉ l.
Hypothesis Hv : pipes s !! v = None.

(** A state between operations. *)
Record between (c : bool -> nat) k : Prop := {
  be_quiet : quiet p n k;
  be_pages : free_pages (mach k) (if decide (c true = 0%nat /\ c false = 0%nat) then v :: l else l);
  be_ends : ends s v r w c (files k);
  be_piped : piped s v c (files k);
}.

Lemma end_lt c k b : between c k -> (end_of r w b < length (ft_file (ftable (files k))))%nat.
Proof. intros B. rewrite (en_len _ _ _ _ _ _ (be_ends _ _ B)). by destruct b. Qed.

(** The pipe does not see that a count changes and stays positive. *)
Lemma piped_set c s' b m g f : (0 < c b)%nat -> (0 < m)%nat ->
  piped s v c s' -> piped s v (<[b := m]> c) (set_file g f s').
Proof.
  intros Hc Hm [P1 P2]. split; [by rewrite P1|]. change (pipes (set_file g f s')) with (pipes s').
  destruct b; count;
    (rewrite decide_False in P2 by lia); (rewrite decide_False by lia); destruct P2 as (x & E1 & E2 & E3 & E4);
    exists x; (split; [done|]); (split; [done|]).
  - split; [|done]. rewrite E3. by apply bool_decide_ext.
  - split; [done|]. rewrite E4. by apply bool_decide_ext.
Qed.

Lemma positive_pages (c : bool -> nat) b m : (0 < c b)%nat -> (0 < m)%nat ->
  (if decide (c true = 0%nat /\ c false = 0%nat) then v :: l else l) =
  (if decide (<[b := m]> c true = 0%nat /\ <[b := m]> c false = 0%nat) then v :: l else l).
Proof.
  intros Hc Hm. rewrite (decide_False (P := c true = 0%nat /\ c false = 0%nat)) by (destruct b; lia).
  rewrite decide_False; [done|]. destruct b; rewrite fn_lookup_insert; lia.
Qed.

(** A step that changes one count and keeps the end open. *)
Lemma between_set c k h b m g :
  between c k -> settles (hw (mach k)) h -> (0 < c b)%nat -> (0 < m)%nat ->
  let x := file_at (files k) (end_of r w b) in
  f_ref (g x) = Z.of_nat m -> f_type (g x) = f_type x -> f_pipe (g x) = f_pipe x -> f_writable (g x) = f_writable x ->
  between (<[b := m]> c) (set_files (set_file g (end_of r w b) (files k)) (update hartL h k)).
Proof.
  intros [Q1 Q2 Q3 Q4] Hs Hc Hm x G1 G2 G3 G4.
  assert (calm k (set_files (set_file g (end_of r w b) (files k)) (update hartL h k))) as C by exact (set_files_calm k h _ Hs).
  split; [by eapply quiet_calm| | |].
  - rewrite <- positive_pages by done. by eapply (free_pages_calm p n k).
  - apply ends_set; try done. fold x. rewrite decide_False, G2, G3, G4 by lia.
    destruct (en_end _ _ _ _ _ _ Q3 b) as [_ H]. by rewrite decide_False in H by lia.
  - by apply piped_set.
Qed.

Lemma dup_between c k b : between c k -> (0 < c b)%nat -> Z.of_nat (c b) < 2147483647 ->
  wp (filedup (end_of r w b)) k (fun _ k' => between (<[b := S (c b)]> c) k').
Proof.
  intros B Hc Hmax. destruct (en_end _ _ _ _ _ _ (be_ends _ _ B) b) as [Href _].
  eapply wp_mono; [apply (filedup_run k (end_of r w b) 0); [eapply quiet_cpu, B|]|].
  { split_and!; [apply (be_ends _ _ B)|by eapply end_lt|lia|lia]. }
  intros g k' (_ & h & Hs & ->). apply between_set; try done; [lia|]. cbn. lia.
Qed.

(** The last reference to an end, while the other end is open and when it is
    closed already. *)
Lemma close_first c k b x : between c k -> c b = 1%nat -> (0 < c (negb b))%nat ->
  pipes (files k) = <[v := x]> (pipes s) -> p_lock x = free ->
  p_writeopen x = bool_decide (0 < c true)%nat -> p_readopen x = bool_decide (0 < c false)%nat ->
  forall h, settles (hw (mach k)) h ->
  wp (pipeclose v b) (set_files (set_file closed_file (end_of r w b) (files k)) (update hartL h k))
    (fun _ k' => between (<[b := 0%nat]> c) k').
Proof.
  intros [Q1 Q2 Q3 Q4] Hc Ho Ep Hl Ew Er h Hs. set (k1 := set_files _ _).
  assert (calm k k1) as C1 by exact (set_files_calm k h _ Hs).
  assert (pipes (files k1) !! v = Some x) as Hp1.
  { change (pipes (files k) !! v = Some x). rewrite Ep. apply lookup_insert_eq. }
  eapply wp_mono; [apply (pipeclose_one p n k1 v x b); [by eapply quiet_calm|done|done|]|].
  { destruct b; cbn in Ho; [rewrite Er|rewrite Ew]; by apply bool_decide_eq_true. }
  intros [] k2 [C2 F2]. assert (calm k k2) as C by (by etrans). rewrite decide_False in Q2 by (destruct b; cbn in *; lia).
  assert (~ (<[b := 0%nat]> c true = 0%nat /\ <[b := 0%nat]> c false = 0%nat)) as Hne.
  { destruct b; cbn in Ho; count; lia. }
  split; [by eapply quiet_calm| | |].
  - rewrite decide_False by done. by eapply (free_pages_calm p n k).
  - rewrite F2. assert (ends s v r w (<[b := 0%nat]> c) (set_file closed_file (end_of r w b) (files k))) as [E1 E2 E3 E4] by (by apply ends_set).
    by split.
  - rewrite F2. split; [destruct Q4 as [P1 _]; cbn; by rewrite P1|]. rewrite decide_False by done. exists (ended b x).
    split; [cbn; rewrite Ep; apply insert_insert_eq|]. split; [by destruct b|]. destruct b; cbn [ended];
      count; done.
Qed.

Lemma close_second c k b x : between c k -> c b = 1%nat -> c (negb b) = 0%nat ->
  pipes (files k) = <[v := x]> (pipes s) -> p_lock x = free ->
  p_writeopen x = bool_decide (0 < c true)%nat -> p_readopen x = bool_decide (0 < c false)%nat ->
  forall h, settles (hw (mach k)) h ->
  wp (pipeclose v b) (set_files (set_file closed_file (end_of r w b) (files k)) (update hartL h k))
    (fun _ k' => between (<[b := 0%nat]> c) k').
Proof.
  intros [Q1 Q2 Q3 Q4] Hc Ho Ep Hl Ew Er h Hs. set (k1 := set_files _ _).
  assert (calm k k1) as C1 by exact (set_files_calm k h _ Hs).
  assert (pipes (files k1) !! v = Some x) as Hp1.
  { change (pipes (files k) !! v = Some x). rewrite Ep. apply lookup_insert_eq. }
  rewrite decide_False in Q2 by (destruct b; cbn in *; lia).
  eapply wp_mono; [apply (pipeclose_last p n k1 v x b l); [by eapply quiet_calm|done|done| |by eapply (free_pages_calm p n k)|done|done]|].
  { destruct b; cbn in Ho; [rewrite Er|rewrite Ew]; apply bool_decide_eq_false; lia. }
  intros [] k2 (H1 & H2 & F2).
  assert (<[b := 0%nat]> c true = 0%nat /\ <[b := 0%nat]> c false = 0%nat) as Hz.
  { destruct b; cbn in Ho; count; done. }
  split; [done|by rewrite decide_True| |].
  - rewrite F2. assert (ends s v r w (<[b := 0%nat]> c) (set_file closed_file (end_of r w b) (files k))) as [E1 E2 E3 E4] by (by apply ends_set).
    by split.
  - rewrite F2. split; [destruct Q4 as [P1 _]; cbn; by rewrite P1|]. rewrite decide_True by done. cbn. rewrite Ep.
    rewrite delete_insert_eq. by apply delete_id.
Qed.

Lemma close_between c k b : between c k -> (0 < c b)%nat ->
  wp (fileclose (end_of r w b)) k (fun _ k' => between (<[b := pred (c b)]> c) k').
Proof.
  intros B Hc. pose proof (en_end _ _ _ _ _ _ (be_ends _ _ B) b) as [Href Hend]. rewrite decide_False in Hend by lia.
  destruct Hend as (Ht & Hpv & Hwr). pose proof (en_lock _ _ _ _ _ _ (be_ends _ _ B)) as Hlk. pose proof (end_lt c k b B) as Hlt.
  destruct (decide (c b = 1%nat)) as [H1|H1].
  - rewrite H1. cbn [pred]. destruct (be_piped _ _ B) as [_ Hp]. rewrite decide_False in Hp by (destruct b; lia).
    destruct Hp as (x & Ep & El & Ew & Er). eapply fileclose_last; [eapply quiet_cpu, B|done|done|reflexivity|lia|].
    intros h Hs. unfold close_rest. rewrite Ht, Hpv, Hwr. destruct (decide (c (negb b) = 0%nat)).
    + by apply (close_second c k b x).
    + apply (close_first c k b x); try done. lia.
  - eapply wp_mono; [apply (fileclose_shared k (end_of r w b)); [eapply quiet_cpu, B|done|done|lia]|].
    intros [] k' (h & Hs & ->). apply between_set; try done; [lia|]. cbn. lia.
Qed.

Lemma use_ends_spec ops : forall c k, between c k -> balanced ops c = true ->
  Z.of_nat (c true + c false + length ops) <= 2147483647 ->
  wp (use_ends r w ops) k (fun _ k' => between (fun _ => 0%nat) k').
Proof.
  induction ops as [|[b|b] ops IH]; intros c k B Hb Hmax; cbn [use_ends balanced] in *.
  - apply andb_true_iff in Hb as [E1%Nat.eqb_eq E2%Nat.eqb_eq]. wstep. destruct B as [B1 B2 B3 [B4 B5]].
    rewrite decide_True in B2 by done. rewrite decide_True in B5 by done. split; [done|by rewrite decide_True| |by split; [|rewrite decide_True]].
    destruct B3 as [H1 H2 H3 H4]. split; try done. intros b. specialize (H4 b). destruct b; by rewrite ?E1, ?E2 in H4.
  - cbn [length] in Hmax. apply andb_true_iff in Hb as [Hc%Nat.ltb_lt Hb]. wstep. eapply wp_mono; [apply (dup_between c k b B Hc); destruct b; lia|].
    intros ? k1 B1. apply (IH _ _ B1 Hb).
    destruct b; count; lia.
  - cbn [length] in Hmax. apply andb_true_iff in Hb as [Hc%Nat.ltb_lt Hb]. wstep. eapply wp_mono; [apply (close_between c k b B Hc)|].
    intros ? k1 B1. apply (IH _ _ B1 Hb).
    destruct b; count; lia.
Qed.
End Use.

(** The ends of the pipe that has just been made. *)
Lemma made_between p n k k1 l r w v d :
  table_ok (files k) (v :: l) -> unused_file (files k) 0 100 = Some r ->
  unused_file (take_file (Some r) (files k)) 0 100 = Some w -> quiet p n k1 -> free_pages (mach k1) l ->
  files k1 = set_file (pipe_end v true) w (set_file (pipe_end v false) r
      (put_pipe v (new_pipe d) (take_file (Some w) (take_file (Some r) (files k))))) ->
  between p n (files k) v r w l (fun _ => 1%nat) k1.
Proof.
  intros T Hr Hw Hq1 Hf1 F1. destruct (unused_file_at _ _ _ T Hr) as (R1 & R2 & R3).
  destruct (unused_file_two _ _ _ _ T Hr Hw) as (Hne & W1 & W2 & W3 & W4).
  assert (files k1 = put_pipe v (new_pipe d) (set_file (fun x => pipe_end v true (set_f_ref 1 x)) w
    (set_file (fun x => pipe_end v false (set_f_ref 1 x)) r (files k)))) as E.
  { rewrite F1. cbn [take_file].
    change (set_file ?g ?f (put_pipe v ?x ?s)) with (put_pipe v x (set_file g f s)).
    rewrite (set_file_comm (pipe_end v false) (set_f_ref 1) r w) by congruence.
    change (set_file ?g w (put_pipe v ?x ?s)) with (put_pipe v x (set_file g w s)). by rewrite !set_file_set_file. }
  split; [done|by rewrite decide_False by lia| |].
  - rewrite E. split; [apply T|change (ft_file (ftable (put_pipe v ?x ?s))) with (ft_file (ftable s)); by rewrite !length_set_file|..].
    + intros f Hfr Hfw. change (file_at (put_pipe v ?x ?s) f) with (file_at s f).
      rewrite !file_at_set by (rewrite ?length_set_file; done). by rewrite !decide_False.
    + intros b. cbv beta zeta. change (file_at (put_pipe v ?x ?s) ?f) with (file_at s f).
      rewrite !file_at_set by (rewrite ?length_set_file; done). rewrite (decide_False (P := 1%nat = 0%nat)) by done.
      destruct b; cbn [end_of]; [rewrite decide_True by done|rewrite decide_False, decide_True by congruence]; done.
  - rewrite E. split; [done|]. rewrite decide_False by lia. by exists (new_pipe d).
Qed.

(** C19: No page and no file is lost: making a pipe, duplicating its ends and
    closing all references to them, any number of times below 2^31 and in any
    order that uses open ends only, leaves the free pages, the pipes, the files
    in use and the rest of the file layer as they were, and the files that were
    free are free again.  The same holds when the pipe cannot be made because
    there is no file, only one file, or no page. *)
Theorem pipe_cycle_restores p n k ops l :
  quiet p n k -> table_ok (files k) l -> free_pages (mach k) l ->
  balanced ops (fun _ => 1%nat) = true -> Z.of_nat (2 + length ops) <= 2147483647 ->
  wp (pipe_cycle ops) k (fun _ k' => quiet p n k' /\ free_pages (mach k') l /\ restored (files k) (files k')).
Proof.
  intros Hq T Hp Hb Hmax. unfold pipe_cycle. wstep.
  destruct (unused_file (files k) 0 100) as [r|] eqn:Hr.
  2:{ unfold pipealloc. wstep. eapply wp_mono; [apply filealloc_spec; [by eapply quiet_cpu|apply T]|].
      intros o k1 (-> & h1 & Hs1 & ->). rewrite Hr. wsteps. set (k1 := set_files _ _).
      assert (calm k k1) as C1 by exact (set_files_calm k h1 _ Hs1).
      split; [by eapply quiet_calm|]. split; [by eapply (free_pages_calm p n k)|by eapply restored_refl]. }
  destruct (unused_file (take_file (Some r) (files k)) 0 100) as [w|] eqn:Hw.
  2:{ eapply wp_mono; [by eapply pipealloc_one|]. intros o k1 (-> & C & R). wstep.
      split; [by eapply quiet_calm|]. split; [by eapply (free_pages_calm p n k)|done]. }
  destruct l as [|v l].
  { eapply wp_mono; [by eapply pipealloc_nopage|]. intros o k1 (-> & H). by wstep. }
  destruct (unused_file_at _ _ _ T Hr) as (R1 & R2 & R3). destruct (unused_file_two _ _ _ _ T Hr Hw) as (Hne & W1 & W2 & W3 & W4).
  destruct (free_pages_ok _ _ Hp) as [[Hv _]%list.NoDup_cons [Hpv _]%Forall_cons].
  eapply wp_mono; [apply (pipealloc_made p n k r w v l); [done|apply T|done|done|done]|]. intros o k1 (-> & Hq1 & Hf1 & d & Hd & F1).
  eapply wp_mono; [eapply (use_ends_spec p n (files k) v r w l); try done; first [by eapply made_between|by apply (to_pipes _ _ T); left|congruence|cbn; lia]|].
  intros [] k2 [B1 B2 [E1 E2 E3 E4] [P1 P2]]. rewrite decide_True in B2 by done. rewrite decide_True in P2 by done. split; [done|]. split; [done|].
  split; [by rewrite P1, P2; destruct (files k)|by rewrite (to_lock _ _ T)|done|..]; intros f Hf.
  - apply E3; congruence.
  - destruct (decide (f = r)) as [->|]; [by destruct (E4 false)|]. destruct (decide (f = w)) as [->|]; [by destruct (E4 true)|].
    rewrite E3 by done. split; [done|by apply T].
Qed.
End Theorems.

(** ** Instances *)

#[local] Existing Instance FileDemo.alone.
#[local] Instance no_devices : Devices := {| dev_read _ := None; dev_write _ := None |}.

(** A full pipe whose counters are about to wrap around, and a reader that takes
    four bytes from it whenever the writer sleeps. *)
Definition wrapping : pipe := Pipe free (replicate 512 97) 4294967293 509 true true.
Definition pipe_kernel : kstate fstate :=
  set_files (set_pipes {[ 0x80300000 := wrapping ]} (FileDemo.files0 [])) (FileDemo.kernel []).

Definition reader : SwitchEnv fstate :=
  {| others := setpipe 0x80300000 (fun x => set_p_nread (u32 (p_nread x + 4)) x); naps := 1 |}.

Lemma reader_laws : SleepLaws (SE := reader) (filling 0x80300000) (drains 0x80300000).
Proof.
  intros k p q i c Hh Hp Hn Hi Hl Hq Hs (_ & x & Hx & Hf & Hok & Hlen). cbn [others reader]. unfold setpipe. wstep.
  split_and!; [done|done|by exists q|]. exists x, 4%nat, (set_p_nread (u32 (p_nread x + 4)) x).
  split; [done|]. split; [cbn; by rewrite lookup_alter_eq, Hx|]. split; [done|]. split; [|left; lia].
  split; [lia|done|by destruct x].
Qed.

Lemma wrapping_ok : pipe_ok wrapping /\ queue wrapping = replicate 512 97.
Proof. split; [split; by vm_compute|by vm_compute]. Qed.

Lemma pipe_kernel_quiet : quiet 0 1 pipe_kernel.
Proof. destruct (FileDemo.kernel_quiet []) as [Q1 Q2 Q3]. by split. Qed.

Lemma pipe_fifo_witness :
  wp (pipewrite (SE := reader) 0x80300000 (Var [100; 101]) (Z.of_nat 2)) pipe_kernel (fun r k1 => exists j t y,
    pipes (files k1) !! 0x80300000 = Some y /\ queue y = drop t (replicate 512 97 ++ take j [100; 101]) /\
    wp (piperead (SE := reader) 0x80300000 (Var []) (Z.of_nat 4)) k1 (fun c k' =>
      c.2 = Var (take 4 (queue y)) /\ quiet 0 1 k')).
Proof.
  destruct wrapping_ok as [Hok Hq]. destruct (var_supplies 0 1 [100; 101]) as [Hi Hs].
  eapply wp_mono; [apply (pipe_fifo (SE := reader) 0 1 (quiet 0 1) (fun _ => quiet 0 1) 0x80300000 pipe_kernel wrapping
    (Var [100; 101]) [100; 101] Var 4 Hi (fun _ => Hi) (fun k Hk => Hk) pipe_kernel_quiet)|].
  - by vm_compute.
  - reflexivity.
  - exact Hok.
  - exact Hs.
  - apply var_accepts.
  - left. by rewrite Hq.
  - right. split; [exact reader_laws|]. split; [by intros|]. split; [cbn; lia|].
    exists 0%nat, Demo.cpu0. split; [split|]; reflexivity.
  - intros r k1 (j & t & y & Hp & _ & M & _ & _ & H). exists j, t, y. split; [done|].
    split; [by rewrite (mv_queue _ _ _ _ _ M), Hq|]. eapply wp_mono; [exact H|]. intros c k' (E & Hk & _). rewrite E.
    split; [reflexivity|exact Hk].
Defined.

(** A file table and three free pages. *)
Lemma demo_table : table_ok (files (FileDemo.kernel [])) Demo.free0.
Proof.
  assert (forall f, file_at (FileDemo.files0 []) f = FileDemo.file0) as E.
  { intros f. unfold file_at. change (ft_file _) with (replicate 100 FileDemo.file0).
    destruct (replicate 100 FileDemo.file0 !! f) eqn:H; [|done]. by apply lookup_replicate in H as [-> _]. }
  change (files (FileDemo.kernel [])) with (FileDemo.files0 []).
  split; [done|done| |done]. intros f _. by rewrite (E f).
Qed.

(** The end for writing is duplicated, as a shell does for a child. *)
Lemma pipe_cycle_restores_witness :
  wp (pipe_cycle [DupEnd true; CloseEnd true; CloseEnd false; CloseEnd true]) (FileDemo.kernel []) (fun _ k' =>
    quiet 0 1 k' /\ free_pages (mach k') Demo.free0 /\ restored (FileDemo.files0 []) (files k')).
Proof.
  apply (pipe_cycle_restores 0 1); [apply FileDemo.kernel_quiet|apply demo_table| |reflexivity|cbn; lia].
  apply Demo.free_inv0.
Defined.
