(* ===== verification/Kbd.v ===== *)
(** * The keyboard: kbd.c and kbd.h

    [kbdgetc] is a step on the static variable [shift] for a byte from the
    controller.  The theorem relates the bytes of a sequence of keys pressed
    and released to the characters they stand for. *)

From S2P Require Import Prelude.

Module Kbd.

Definition SHIFT : Z := 1.
Definition CTL : Z := 2.
Definition ALT : Z := 4.
Definition CAPSLOCK : Z := 8.
Definition NUMLOCK : Z := 16.
Definition SCROLLLOCK : Z := 32.
Definition E0ESC : Z := 64.

(** A table of 256 entries: the first ones, and others by their index. *)
Definition table (dense : list Z) (sparse : list (Z * Z)) : list Z :=
  foldl (fun l e => <[Z.to_nat e.1 := e.2]> l) (dense ++ replicate (256 - length dense) 0) sparse.

Definition shiftcode : list Z :=
  table [] [(0x1D, CTL); (0x2A, SHIFT); (0x36, SHIFT); (0x38, ALT); (0x9D, CTL); (0xB8, ALT)].

Definition togglecode : list Z := table [] [(0x3A, CAPSLOCK); (0x45, NUMLOCK); (0x46, SCROLLLOCK)].

Definition normalmap : list Z :=
  table
    [0; 27; 49; 50; 51; 52; 53; 54; 55; 56; 57; 48; 45; 61; 8; 9;
     113; 119; 101; 114; 116; 121; 117; 105; 111; 112; 91; 93; 10; 0; 97; 115;
     100; 102; 103; 104; 106; 107; 108; 59; 39; 96; 0; 92; 122; 120; 99; 118;
     98; 110; 109; 44; 46; 47; 0; 42; 0; 32; 0; 0; 0; 0; 0; 0;
     0; 0; 0; 0; 0; 0; 0; 55; 56; 57; 45; 52; 53; 54; 43; 49;
     50; 51; 48; 46; 0; 0; 0; 0]
    [(0x9c, 10); (0xb5, 47); (0xc8, 0xe2); (0xd0, 0xe3); (0xc9, 0xe6); (0xd1, 0xe7); (0xcb, 0xe4); (0xcd, 0xe5); (0x97, 0xe0); (0xcf, 0xe1); (0xd2, 0xe8); (0xd3, 0xe9)].

Definition shiftmap : list Z :=
  table
    [0; 27; 33; 64; 35; 36; 37; 94; 38; 42; 40; 41; 95; 43; 8; 9;
     81; 87; 69; 82; 84; 89; 85; 73; 79; 80; 123; 125; 10; 0; 65; 83;
     68; 70; 71; 72; 74; 75; 76; 58; 34; 126; 0; 124; 90; 88; 67; 86;
     66; 78; 77; 60; 62; 63; 0; 42; 0; 32; 0; 0; 0; 0; 0; 0;
     0; 0; 0; 0; 0; 0; 0; 55; 56; 57; 45; 52; 53; 54; 43; 49;
     50; 51; 48; 46; 0; 0; 0; 0]
    [(0x9c, 10); (0xb5, 47); (0xc8, 0xe2); (0xd0, 0xe3); (0xc9, 0xe6); (0xd1, 0xe7); (0xcb, 0xe4); (0xcd, 0xe5); (0x97, 0xe0); (0xcf, 0xe1); (0xd2, 0xe8); (0xd3, 0xe9)].

Definition ctlmap : list Z :=
  table
    [0; 0; 0; 0; 0; 0; 0; 0; 0; 0; 0; 0; 0; 0; 0; 0;
     17; 23; 5; 18; 20; 25; 21; 9; 15; 16; 0; 0; 13; 0; 1; 19;
     4; 6; 7; 8; 10; 11; 12; 0; 0; 0; 0; 28; 26; 24; 3; 22;
     2; 14; 13; 0; 0; 239; 0; 0]
    [(0x9c, 13); (0xb5, 0xef); (0xc8, 0xe2); (0xd0, 0xe3); (0xc9, 0xe6); (0xd1, 0xe7); (0xcb, 0xe4); (0xcd, 0xe5); (0x97, 0xe0); (0xcf, 0xe1); (0xd2, 0xe8); (0xd3, 0xe9)].

Definition charcode : list (list Z) := [normalmap; shiftmap; ctlmap; ctlmap].

Definition entry (t : list Z) (i : Z) : option Z := t !! Z.to_nat i.

(** [kbdgetc] when the controller has the byte [data]: the new [shift] and the
    result; [None] is an access outside a table. *)
Definition kbdgetc (shift data : Z) : option (Z * Z) :=
  if data =? 0xE0 then Some (Z.lor shift E0ESC, 0)
  else if negb (Z.land data 0x80 =? 0) then
    let data := if flag shift E0ESC then data else Z.land data 0x7F in
    s ← entry shiftcode data;
    Some (Z.ldiff shift (Z.lor s E0ESC), 0)
  else
    let '(data, shift) := if flag shift E0ESC then (Z.lor data 0x80, Z.ldiff shift E0ESC) else (data, shift) in
    s ← entry shiftcode data;
    t ← entry togglecode data;
    let shift := Z.lxor (Z.lor shift s) t in
    m ← charcode !! Z.to_nat (Z.land shift (Z.lor CTL SHIFT));
    c ← entry m data;
    Some (shift,
      if negb (flag shift CAPSLOCK) then c
      else if (97 <=? c) && (c <=? 122) then c - 32
      else if (65 <=? c) && (c <=? 90) then c + 32
      else c).

(** The results of [kbdgetc] for the bytes that the controller delivers. *)
Fixpoint kbd_run (shift : Z) (bytes : list Z) : option (Z * list Z) :=
  match bytes with
  | [] => Some (shift, [])
  | b :: bytes =>
      r ← kbdgetc shift b;
      q ← kbd_run r.1 bytes;
      Some (q.1, r.2 :: q.2)
  end.

(** ** Keys *)

(** Key [k] is pressed or released; the keys from 0x80 on are those whose
    bytes come after an escape. *)
Inductive event : Type := Press (k : Z) | Release (k : Z).

Definition is_key (k : Z) : Prop := 0 <= k < 256 /\ k <> 0x60 /\ k <> 0xE0.

Definition event_key (e : event) : Z := match e with Press k | Release k => k end.

(** The bytes that the keyboard sends. *)
Definition scancodes (e : event) : list Z :=
  match e with
  | Press k => if k <? 0x80 then [k] else [0xE0; k - 0x80]
  | Release k => if k <? 0x80 then [k + 0x80] else [0xE0; k]
  end.

(** A modifier is on when the last of its keys that was touched was pressed;
    a lock is on when its key has been pressed an odd number of times. *)
Record mods : Type := Mods { m_shift : bool; m_ctl : bool; m_alt : bool; m_caps : bool; m_num : bool; m_scroll : bool }.

Definition touch (m : mods) (e : event) : mods :=
  match e with
  | Press k =>
      Mods (m_shift m || (k =? 0x2A) || (k =? 0x36)) (m_ctl m || (k =? 0x1D) || (k =? 0x9D))
        (m_alt m || (k =? 0x38) || (k =? 0xB8)) (xorb (m_caps m) (k =? 0x3A)) (xorb (m_num m) (k =? 0x45))
        (xorb (m_scroll m) (k =? 0x46))
  | Release k =>
      Mods (m_shift m && negb ((k =? 0x2A) || (k =? 0x36))) (m_ctl m && negb ((k =? 0x1D) || (k =? 0x9D)))
        (m_alt m && negb ((k =? 0x38) || (k =? 0xB8))) (m_caps m) (m_num m) (m_scroll m)
  end.

(** The character of key [k]. *)
Definition swap_case (c : Z) : Z :=
  if (97 <=? c) && (c <=? 122) then c - 32 else if (65 <=? c) && (c <=? 90) then c + 32 else c.

Definition keychar (m : mods) (k : Z) : Z :=
  let t := if m_ctl m then ctlmap else if m_shift m then shiftmap else normalmap in
  let c := default 0 (t !! Z.to_nat k) in
  if m_caps m then swap_case c else c.

(** The characters typed: 0 where nothing is. *)
Definition typed (m : mods) (e : event) : list Z :=
  match e with
  | Press k => (if k <? 0x80 then [] else [0]) ++ [keychar (touch m e) k]
  | Release k => (if k <? 0x80 then [] else [0]) ++ [0]
  end.

Fixpoint type_keys (m : mods) (es : list event) : mods * list Z :=
  match es with
  | [] => (m, [])
  | e :: es => let q := type_keys (touch m e) es in (q.1, typed m e ++ q.2)
  end.

(** The value of [shift]. *)
Definition bits (m : mods) : Z :=
  Z.b2z (m_shift m) + 2 * Z.b2z (m_ctl m) + 4 * Z.b2z (m_alt m) + 8 * Z.b2z (m_caps m) +
  16 * Z.b2z (m_num m) + 32 * Z.b2z (m_scroll m).

(** ** Correctness *)

Definition booleans : list bool := [true; false].
Definition all_mods : list mods :=
  a ← booleans; b ← booleans; c ← booleans; d ← booleans; e ← booleans; f ← booleans; [Mods a b c d e f].

(** One event, for every state of the modifiers and every key. *)
Definition step_ok (m : mods) (e : event) : bool :=
  bool_decide (kbd_run (bits m) (scancodes e) = Some (bits (touch m e), typed m e)).

Definition keys : list Z := filter (fun k => k <> 0x60 /\ k <> 0xE0) (Z.of_nat <$> seq 0 256).

Lemma step_table : forallb (fun m => forallb (fun k => step_ok m (Press k) && step_ok m (Release k)) keys) all_mods = true.
Proof. by vm_compute. Qed.

Lemma mods_in m : m ∈ all_mods.
Proof.
  unfold all_mods, booleans. destruct m as [[] [] [] [] [] []]; repeat first [by left|right].
Qed.

Lemma key_in k : is_key k -> k ∈ keys.
Proof.
  intros (H1 & H2 & H3). apply list_elem_of_filter. split; [done|]. apply list_elem_of_fmap. exists (Z.to_nat k).
  split; [lia|]. apply elem_of_seq. lia.
Qed.

Lemma kbd_event m e : is_key (event_key e) ->
  kbd_run (bits m) (scancodes e) = Some (bits (touch m e), typed m e).
Proof.
  intros Hk%key_in. pose proof step_table as T. rewrite forallb_forall in T.
  specialize (T m (proj1 (list_elem_of_In _ _) (mods_in m))). cbv beta in T. rewrite forallb_forall in T.
  specialize (T _ (proj1 (list_elem_of_In _ _) Hk)). b2p.
  by destruct e; apply bool_decide_eq_true in H, H0.
Qed.

Lemma kbd_run_app s b1 b2 s1 c1 :
  kbd_run s b1 = Some (s1, c1) -> kbd_run s (b1 ++ b2) = (q ← kbd_run s1 b2; Some (q.1, c1 ++ q.2)).
Proof.
  revert s c1. induction b1 as [|b b1 IH]; intros s c1; cbn.
  - intros [= -> <-]. by destruct (kbd_run s1 b2) as [[]|].
  - destruct (kbdgetc s b) as [[s' c]|]; cbn; [|done].
    destruct (kbd_run s' b1) as [[s2 c2]|] eqn:E; cbn; [|done]. intros [= -> <-].
    rewrite (IH _ _ E). by destruct (kbd_run s1 b2) as [[]|].
Qed.

(** C21: The keyboard driver decodes what is typed.  For any sequence of keys
    pressed and released, the bytes of the controller make [kbdgetc] return
    exactly the characters of the keys pressed under the modifiers that are on
    at that moment, and [shift] holds the modifiers; no table is accessed out
    of bounds. *)
Theorem kbd_decodes m es :
  Forall (fun e => is_key (event_key e)) es ->
  kbd_run (bits m) (es ≫= scancodes) = Some (bits (type_keys m es).1, (type_keys m es).2).
Proof.
  intros Hes. revert m. induction Hes as [|e es He Hes IH]; intros m; [done|].
  cbn [mbind list_bind type_keys]. rewrite (kbd_run_app _ _ _ _ _ (kbd_event m e He)).
  by rewrite (IH (touch m e) : kbd_run _ (es ≫= scancodes) = _).
Qed.

(** Shift and q, then q after shift is released. *)
Lemma kbd_decodes_witness :
  kbd_run 0 [0x2A; 0x10; 0x90; 0xAA; 0x10] = Some (0, [0; 81; 0; 0; 113]).
Proof.
  apply (kbd_decodes (Mods false false false false false false)
    [Press 0x2A; Press 0x10; Release 0x10; Release 0x2A; Press 0x10]).
  repeat first [apply Forall_cons; split; [split_and!; cbn; lia|]|apply Forall_nil]. done.
Defined.
End Kbd.
