(* ===== verification/Console.v ===== *)
(** * The console: the input half of console.c, kbdintr of kbd.c, uartintr of
    uart.c, and procdump of proc.c

    [consoleintr(getc)] is given the characters that [getc] returns until it
    returns a negative number. *)

From S2P Require Import Prelude Memory Mmu Machine Spinlock Kalloc Vm PageTable VmProofs VmSpaces.
From S2P Require Import Encrypt ProcTable Clock ClockProofs Proc ProcProofs FileState Sleeplock Bio Log Ulib Cprintf Fs Kbd.

Definition INPUT_BUF : Z := 128.

(** [C(x)] *)
Definition ctrl (c : Z) : Z := c - 64.

(** [&input.r] *)
Definition input_chan : channel := ObjChan (0x80112fc0 + 128).

(** [input.buf[i % INPUT_BUF]], and the assignment. *)
Definition get_input (i : Z) : FK Z :=
  l ← getc in_buf;
  nonnull (l !! Z.to_nat (i mod INPUT_BUF)).
Definition set_input (i v : Z) : FK unit :=
  setc (fun x => set_in_buf (<[Z.to_nat (i mod INPUT_BUF) := v]> (in_buf x)) x).

(** ** Debugging output *)

(** [getcallerpcs(v, pcs)]: the [n] words of [pcs]. *)
Fixpoint callerpcs_loop (ebp : Z) (n : nat) : M machine (list Z) :=
  match n with
  | O => mret []
  | S m =>
      if (ebp =? 0) || (ebp <? KERNBASE) || (ebp =? 0xffffffff) then mret (replicate n 0) else
      pc ← kload32 (ebp + 4);
      ebp ← kload32 ebp;
      l ← callerpcs_loop ebp m;
      mret (pc :: l)
  end.

Definition getcallerpcs (v : Z) : M machine (list Z) := callerpcs_loop (u32 (v - 8)) 10.

(** The names of the states; [UNUSED] is not printed. *)
Definition state_name (s : procstate) : list Z :=
  match s with
  | UNUSED => chars "unused"
  | EMBRYO => chars "embryo"
  | SLEEPING => chars "sleep "
  | RUNNABLE => chars "runble"
  | RUNNING => chars "run   "
  | ZOMBIE => chars "zombie"
  end.

Fixpoint print_pcs (l : list Z) : FK unit :=
  match l with
  | [] => mret tt
  | pc :: l => if pc =? 0 then mret tt else cprintf (chars " %p") [KInt pc];; print_pcs l
  end.

(** The loop of [procdump]; [context->ebp] is at offset 12. *)
Fixpoint procdump_loop (p n : nat) : FK unit :=
  match n with
  | O => mret tt
  | S n =>
      s ← getp p state;
      if bool_decide (s = UNUSED) then procdump_loop (S p) n else
      id ← getp p pid;
      nm ← getp p name;
      cprintf (chars "%d %s %s") [KInt id; KStr (Some (state_name s)); KStr (Some nm)];;
      when (bool_decide (s = SLEEPING))
        (c ← getp p context;
         ebp ← zoom machL (kload32 (c + 12));
         pcs ← zoom machL (getcallerpcs (u32 (ebp + 8)));
         print_pcs pcs);;
      cprintf [10] [];;
      procdump_loop (S p) n
  end.

Definition procdump : FK unit := procdump_loop 0 (Z.to_nat NPROC).

(** ** Input *)

(** Kill the line: at most the whole buffer. *)
Fixpoint kill_line (n : nat) : FK unit :=
  e ← getc in_e;
  w ← getc in_w;
  if e =? w then mret tt else
  b ← get_input (u32 (e - 1));
  if b =? 10 then mret tt else
  match n with
  | O => spin
  | S n =>
      setc (set_in_e (u32 (e - 1)));;
      consputc BACKSPACE;;
      kill_line n
  end.

Section Console.
Context `{SE : SwitchEnv fstate, DD : DiskDriver, KI : KernelImage, PO : !PageOps}.

(** The body of the loop for the character [c]: whether ^P has been typed. *)
Definition input_char (c : Z) : FK bool :=
  if c =? ctrl 80 then mret true
  else if c =? ctrl 85 then kill_line (Z.to_nat INPUT_BUF);; mret false
  else if (c =? ctrl 72) || (c =? 0x7f) then
    e ← getc in_e;
    w ← getc in_w;
    when (negb (e =? w)) (setc (set_in_e (u32 (e - 1)));; consputc BACKSPACE);;
    mret false
  else
    e ← getc in_e;
    r ← getc in_r;
    when (negb (c =? 0) && (u32 (e - r) <? INPUT_BUF))
      (let c := if c =? 13 then 10 else c in
       set_input e (u8 c);;
       setc (set_in_e (u32 (e + 1)));;
       consputc c;;
       e ← getc in_e;
       r ← getc in_r;
       when ((c =? 10) || (c =? ctrl 68) || (e =? u32 (r + INPUT_BUF)))
         (setc (set_in_w e);;
          wakeup input_chan));;
    mret false.

Fixpoint consoleintr_loop (cs : list Z) (dump : bool) : FK bool :=
  match cs with
  | [] => mret dump
  | c :: cs => d ← input_char c; consoleintr_loop cs (dump || d)
  end.

Definition consoleintr (cs : list Z) : FK unit :=
  acquire (infiles cons_lockL);;
  dump ← consoleintr_loop cs false;
  release (infiles cons_lockL);;
  when dump procdump.

(** [kbdintr] for the bytes in the controller. *)
Definition kbdintr (bytes : list Z) : FK unit :=
  shift ← getc kbd_shift;
  match Kbd.kbd_run shift bytes with
  | Some (shift, cs) => setc (set_kbd_shift shift);; consoleintr cs
  | None => fault
  end.

(** [uartintr] for the bytes that the port has received. *)
Definition uartintr (bytes : list Z) : FK unit :=
  u ← getc uart;
  consoleintr (if (u : bool) then bytes else []).

(** ** Reading and writing: the functions of [devsw[CONSOLE]] *)

(** The wait for a line: false when the process has been killed. *)
Fixpoint consoleread_wait (n : nat) : FK bool :=
  r ← getc in_r;
  w ← getc in_w;
  if negb (r =? w) then mret true else
  stop ← mygetp killed;
  if (stop : bool) then mret false else
  match n with
  | O => spin
  | S n => sleep_on others input_chan (infiles cons_lockL);; consoleread_wait n
  end.

(** The loop of [consoleread] with [n] bytes to go: what is left of them, or
    nothing when the process has been killed. *)
Fixpoint consoleread_loop (dst : ptr) (target : Z) (n : nat) : FK (option Z) :=
  match n with
  | O => mret (Some 0)
  | S m =>
      ok ← consoleread_wait naps;
      if negb ok then mret None else
      r ← getc in_r;
      c ← get_input r;
      setc (set_in_r (u32 (r + 1)));;
      if c =? ctrl 68 then
        when (Z.of_nat n <? target) (setc (set_in_r (u32 (u32 (r + 1) - 1))));;
        mret (Some (Z.of_nat n))
      else
        dst ← ptr_put dst [c];
        if c =? 10 then mret (Some (Z.of_nat m)) else consoleread_loop dst target m
  end.

Definition consoleread (ip : nat) (dst : ptr) (n : Z) : FK Z :=
  iunlock (Some ip);;
  acquire (infiles cons_lockL);;
  o ← consoleread_loop dst (u32 n) (Z.to_nat n);
  release (infiles cons_lockL);;
  ilock (Some ip);;
  mret (match o with Some m => if n <=? 0 then 0 else n - m | None => -1 end).

Fixpoint consolewrite_loop (buf : ptr) (n : nat) : FK unit :=
  match n with
  | O => mret tt
  | S n => c ← ptr_ld buf; consputc (Z.land c 0xff);; consolewrite_loop (ptr_next buf) n
  end.

Definition consolewrite (ip : nat) (buf : ptr) (n : Z) : FK Z :=
  iunlock (Some ip);;
  acquire (infiles cons_lockL);;
  consolewrite_loop buf (Z.to_nat n);;
  release (infiles cons_lockL);;
  ilock (Some ip);;
  mret n.

(** [consoleinit]: the entries of [devsw], and the lock.  Enabling the
    interrupt is the interrupt controller's business. *)
#[export] Instance console_devices : Devices := {|
  dev_read major := if major =? CONSOLE then Some consoleread else None;
  dev_write major := if major =? CONSOLE then Some consolewrite else None;
|}.

Definition consoleinit : FK unit :=
  initlock (infiles cons_lockL);;
  setc (set_cons_locking true).
End Console.
