(* ===== verification/ConsoleProofs.v ===== *)
(** * The console: the screen stays in bounds, and lines are edited *)

From S2P Require Import Prelude Memory Mmu Machine Spinlock Kalloc Vm PageTable VmProofs VmSpaces.
From S2P Require Import Encrypt ProcTable Clock ClockProofs Demo Proc ProcProofs.
From S2P Require Import FileState Sleeplock Bio BioProofs BioInit Log LogProofs Ulib Cprintf Fs Ring Pipe PipeProofs Kbd Console FileDemo.

(** ** Output *)

(** The cursor is above the last row of the screen. *)
Record crt_ok (c : console_t) : Prop := {
  co_pos : 0 <= crt_pos c < 1920;
  co_crt : length (crt c) = 2000%nat;
  co_run : panicked c = false;
}.

(** [c'] differs from [c] in what has been put out. *)
Definition output_only (c c' : console_t) : Prop :=
  c' = set_crt_pos (crt_pos c') (set_crt (crt c') (set_uart_out (uart_out c') c)).

#[export] Instance output_only_preorder : PreOrder output_only.
Proof. split; [by intros []|]. unfold output_only. intros c1 c2 c3 H1 H2. rewrite H2, H1. done. Qed.

Definition with_console (k : kstate fstate) (c : console_t) : kstate fstate :=
  set_files (set_console c (files k)) k.

Lemma wp_getc {A} k (f : console_t -> A) v (Q : A -> kstate fstate -> Prop) :
  f (console (files k)) = v -> Q v k -> wp (getc f) k Q.
Proof. intros <- HQ. unfold getc. by wstep. Qed.

Lemma length_scroll_up l : length l = 2000%nat -> length (scroll_up l) = 2000%nat.
Proof. intros H. unfold scroll_up. rewrite length_app, length_take, !length_drop, H. done. Qed.

Lemma length_blank pos l : length l = 2000%nat -> 0 <= pos < 1920 -> length (blank pos l) = 2000%nat.
Proof.
  intros H Hp. unfold blank. rewrite !length_app, length_take, length_replicate, length_drop, H. lia.
Qed.

Lemma uartputc_spec k c :
  wp (uartputc c) k (fun _ k' => exists l, k' = with_console k (set_uart_out l (console (files k)))).
Proof.
  unfold uartputc, getc, setc. wsteps. apply wp_when; intros _; wsteps; eexists; [reflexivity|].
  instantiate (1 := uart_out (console (files k))). by destruct k as [? ? ? ? ? ? ? [? ? ? ? ? ? [] ?]].
Qed.

(** [set_cell] inside the screen. *)
Lemma wp_set_cell k pos v (Q : unit -> kstate fstate -> Prop) :
  length (crt (console (files k))) = 2000%nat -> 0 <= pos < 2000 ->
  Q tt (with_console k (set_crt (<[Z.to_nat pos := v]> (crt (console (files k)))) (console (files k)))) ->
  wp (set_cell pos v) k Q.
Proof.
  intros Hl Hp HQ. unfold set_cell. wstep. eapply wp_getc; [done|]. rewrite Hl.
  rewrite (proj2 (Z.ltb_ge _ _)), (proj2 (Z.leb_gt _ _)) by lia. cbn [orb]. unfold setc. by wstep.
Qed.

(** The cursor after [c], before the screen scrolls. *)
Definition moved (pos c : Z) : Z :=
  if c =? 10 then pos + (80 - pos mod 80) else if c =? BACKSPACE then (if 0 <? pos then pos - 1 else pos) else pos + 1.

Lemma moved_range pos c : 0 <= pos < 1920 -> 0 <= moved pos c <= 1920.
Proof. intros H. unfold moved. repeat case_match; b2p; dlia. Qed.

Lemma cgaputc_spec k c :
  crt_ok (console (files k)) ->
  wp (cgaputc c) k (fun _ k' => exists d, k' = with_console k d /\ output_only (console (files k)) d /\ crt_ok d).
Proof.
  intros [Hp Hl Hr]. set (cn := console (files k)) in *. unfold cgaputc. wstep. eapply wp_getc; [done|]. fold cn.
  pose proof (moved_range (crt_pos cn) c Hp) as Hm. wstep.
  eapply (wp_mono _ _ (fun pos k1 => pos = moved (crt_pos cn) c /\ exists l, length l = 2000%nat /\ k1 = with_console k (set_crt l cn))).
  { unfold moved. destruct (c =? 10); [|destruct (c =? BACKSPACE)].
    1,2: wstep; (split; [done|]); exists (crt cn); (split; [done|]);
      by destruct k as [? ? ? ? ? ? ? [? ? ? ? ? ? [] ?]].
    wstep. apply wp_set_cell; [done|fold cn; lia|]. wstep. split; [done|]. eexists. split; [|reflexivity].
    by rewrite length_insert. }
  intros pos k1 (Epos & l & Hll & ->). rewrite <- Epos in Hm. clear Epos.
  rewrite (proj2 (Z.ltb_ge _ _)), (proj2 (Z.ltb_ge _ _)) by lia. cbn [orb]. wstep.
  eapply (wp_mono _ _ (fun pos2 k1 => 0 <= pos2 < 1920 /\ exists l, length l = 2000%nat /\ k1 = with_console k (set_crt l cn))).
  { destruct (Z.leb_spec 24 (pos / 80)) as [H24|H24].
    - unfold setc. wsteps. split; [dlia|]. eexists. split; [|reflexivity]. cbn.
      apply length_blank; [by apply length_scroll_up|dlia].
    - wstep. split; [dlia|]. by exists l. }
  intros pos2 k1 (Hp2 & l2 & Hl2 & ->). unfold setc. wsteps.
  apply wp_set_cell; [done|lia|]. eexists. split; [reflexivity|]. split.
  - by destruct cn.
  - split; cbn; [|by rewrite length_insert|done].
    unfold u8. dlia.
Qed.

Lemma consputc_spec k c :
  crt_ok (console (files k)) ->
  wp (consputc c) k (fun _ k' => exists d, k' = with_console k d /\ output_only (console (files k)) d /\ crt_ok d).
Proof.
  intros H. assert (Hr := co_run _ H). set (cn := console (files k)) in *.
  unfold consputc. wstep. eapply wp_getc; [exact Hr|]. cbv iota. wstep.
  eapply (wp_mono _ _ (fun _ k1 => exists l, k1 = with_console k (set_uart_out l cn))).
  { destruct (c =? BACKSPACE); [|apply uartputc_spec].
    wstep. eapply wp_mono; [apply uartputc_spec|]. intros [] k1 [l1 ->]. wstep.
    eapply wp_mono; [apply uartputc_spec|]. intros [] k1 [l2 ->].
    eapply wp_mono; [apply uartputc_spec|]. intros [] k1 [l3 ->]. by exists l3. }
  intros [] k1 [l ->]. eapply wp_mono; [apply cgaputc_spec; by destruct H|].
  intros [] k2 (d & -> & Hd & Hok). exists d. split; [done|]. split; [|done]. etrans; [|exact Hd]. by destruct cn.
Qed.

(** ** The input buffer *)

Definition in_len (c : console_t) : nat := Z.to_nat (u32 (in_e c - in_r c)).
Definition line_len (c : console_t) : nat := Z.to_nat (u32 (in_w c - in_r c)).
Definition input (c : console_t) : list Z := ring 128 (in_buf c) (in_r c) (in_len c).

(** What can be read, and the line that is being edited. *)
Definition ready_input (c : console_t) : list Z := take (line_len c) (input c).
Definition edited (c : console_t) : list Z := drop (line_len c) (input c).

Record input_ok (c : console_t) : Prop := {
  io_buf : length (in_buf c) = 128%nat;
  io_r : is_u32 (in_r c);
  io_w : is_u32 (in_w c);
  io_e : is_u32 (in_e c);
  io_line : (line_len c <= in_len c)%nat;
  io_len : (in_len c <= 128)%nat;
  io_edited : 10 ∉ edited c;
}.

Lemma length_input c : length (input c) = in_len c.
Proof. apply length_ring. Qed.

Lemma length_edited c : length (edited c) = (in_len c - line_len c)%nat.
Proof. unfold edited. by rewrite length_drop, length_input. Qed.

Lemma edit_empty c : input_ok c -> (in_e c =? in_w c) = bool_decide (edited c = []).
Proof.
  intros [H1 H2 H3 H4 H5 H6 _]. pose proof (length_edited c) as L. unfold in_len, line_len, u32, is_u32 in *.
  destruct (Z.eqb_spec (in_e c) (in_w c)) as [E|E]; symmetry.
  - apply bool_decide_eq_true. destruct (edited c); [done|]. cbn in L. rewrite E in L. lia.
  - apply bool_decide_eq_false. intros E'. rewrite E' in L. cbn in L. apply E. dlia.
Qed.

(** The three assignments. *)
Definition typed_char (ch : Z) (c : console_t) : console_t :=
  set_in_e (u32 (in_e c + 1)) (set_in_buf (<[Z.to_nat (in_e c mod 128) := ch]> (in_buf c)) c).
Definition erased (c : console_t) : console_t := set_in_e (u32 (in_e c - 1)) c.
Definition entered_line (c : console_t) : console_t := set_in_w (in_e c) c.

Lemma typed_input c ch : input_ok c -> (in_len c < 128)%nat ->
  input (typed_char ch c) = input c ++ [ch] /\ in_len (typed_char ch c) = S (in_len c) /\
  line_len (typed_char ch c) = line_len c.
Proof.
  intros [H1 H2 H3 H4 H5 H6 _] Hl. assert (in_len (typed_char ch c) = S (in_len c)) as E.
  { unfold in_len in *. cbn. unfold u32, is_u32 in *. dlia. }
  split_and!; [|done|done]. unfold input. rewrite E. cbn [in_buf in_r typed_char set_in_e set_in_buf].
  replace (in_e c mod 128) with ((in_r c + Z.of_nat (in_len c)) mod 128).
  - apply ring_push; lia.
  - unfold in_len, u32, is_u32 in *. dlia.
Qed.

Lemma erased_input c : input_ok c -> edited c <> [] ->
  exists ch, in_buf c !! Z.to_nat (u32 (in_e c - 1) mod 128) = Some ch /\ edited c = edited (erased c) ++ [ch] /\
    ready_input (erased c) = ready_input c /\ input_ok (erased c).
Proof.
  intros Hok Hne. destruct (Hok) as [H1 H2 H3 H4 H5 H6 H7]. pose proof (length_edited c) as L.
  assert (edited c <> [] -> (line_len c < in_len c)%nat) as Hlt by (destruct (edited c); cbn in L; [done|lia]).
  specialize (Hlt Hne). assert (in_len (erased c) = (in_len c - 1)%nat) as E.
  { unfold in_len, line_len in *. cbn. unfold u32, is_u32 in *. dlia. }
  assert (in_len c = S (in_len (erased c))) as E' by lia.
  destruct (ring_last 128 ltac:(lia) (in_buf c) (in_r c) (in_len (erased c))) as (ch & Hch & Er); [lia|].
  assert (input c = input (erased c) ++ [ch]) as Ei by (unfold input at 1; rewrite E'; exact Er).
  exists ch. change (line_len (erased c)) with (line_len c) in *.
  assert (edited c = edited (erased c) ++ [ch]) as Ee.
  { unfold edited. rewrite Ei, drop_app_le; [done|]. rewrite length_input. change (line_len (erased c)) with (line_len c). lia. }
  split_and!.
  - rewrite <- Hch. do 2 f_equal. unfold in_len in *. cbn in *. unfold u32, is_u32 in *. dlia.
  - done.
  - unfold ready_input. rewrite Ei. change (line_len (erased c)) with (line_len c).
    symmetry. apply take_app_le. rewrite length_input. lia.
  - split; cbn; try done; [apply u32_is|change (line_len (erased c)) with (line_len c); lia|lia|].
    intros Hin. apply H7. rewrite Ee. apply elem_of_app. by left.
Qed.

(** *** The line discipline *)

(** What a character does to what can be read and to the edited line. *)
Definition discipline (st : list Z * list Z) (c : Z) : list Z * list Z :=
  if c =? ctrl 80 then st
  else if c =? ctrl 85 then (st.1, [])
  else if (c =? ctrl 72) || (c =? 0x7f) then (st.1, take (length st.2 - 1) st.2)
  else if (c =? 0) || (128 <=? Z.of_nat (length st.1 + length st.2)) then st
  else
    let c := if c =? 13 then 10 else c in
    let edit := st.2 ++ [u8 c] in
    if (c =? 10) || (c =? ctrl 68) || (Z.of_nat (length st.1 + length edit) =? 128) then (st.1 ++ edit, [])
    else (st.1, edit).

Definition lines (c : console_t) : list Z * list Z := (ready_input c, edited c).

Lemma output_lines c d : output_only c d -> lines d = lines c /\ (input_ok c -> input_ok d).
Proof. intros ->. split; [done|]. intros []. by split. Qed.

Lemma lines_length c : input_ok c -> (length (ready_input c) + length (edited c) = in_len c)%nat.
Proof. intros H. unfold ready_input, edited. rewrite length_take, length_drop, length_input. pose proof (io_line _ H). lia. Qed.

(** The character is part of the edited line. *)
Lemma lines_typed c ch : input_ok c -> (in_len c < 128)%nat -> ch <> 10 ->
  input_ok (typed_char ch c) /\ lines (typed_char ch c) = (ready_input c, edited c ++ [ch]).
Proof.
  intros H Hl Hc. destruct (typed_input c ch H Hl) as (E1 & E2 & E3). pose proof (io_line _ H).
  assert (edited (typed_char ch c) = edited c ++ [ch]) as Ee.
  { unfold edited. rewrite E1, E3, drop_app_le; [done|]. rewrite length_input. lia. }
  split.
  - destruct H as [H1 H2 H3 H4 H5 H6 H7]. split; cbn; try done; [by rewrite length_insert|apply u32_is|lia|lia|].
    rewrite Ee, elem_of_app, list_elem_of_singleton. intros [?|E]; [done|congruence].
  - unfold lines. f_equal; [|done]. unfold ready_input. rewrite E1, E3, take_app_le; [done|]. rewrite length_input. lia.
Qed.

(** The line is complete. *)
Lemma lines_entered c ch : input_ok c -> (in_len c < 128)%nat ->
  input_ok (entered_line (typed_char ch c)) /\
  lines (entered_line (typed_char ch c)) = (ready_input c ++ edited c ++ [ch], []).
Proof.
  intros H Hl. destruct (typed_input c ch H Hl) as (E1 & E2 & E3).
  set (d := entered_line (typed_char ch c)).
  assert (input d = input c ++ [ch]) as Ei by exact E1.
  assert (line_len d = in_len d /\ in_len d = S (in_len c)) as [Ed El] by (split; [done|exact E2]).
  assert (edited d = []) as Ee.
  { unfold edited. apply drop_ge. rewrite length_input. lia. }
  split.
  - destruct H as [H1 H2 H3 H4 H5 H6 H7]. split.
    + cbn. by rewrite length_insert.
    + done.
    + apply u32_is.
    + apply u32_is.
    + lia.
    + lia.
    + rewrite Ee. apply not_elem_of_nil.
  - unfold lines. rewrite Ee. f_equal. unfold ready_input at 1. rewrite take_ge by (rewrite length_input; lia).
    rewrite Ei, app_assoc. f_equal. unfold ready_input, edited. by rewrite take_drop.
Qed.

(** *** The interrupt handler *)

(** A step with the lock of the console held. *)
Record during (k k' : kstate fstate) : Prop := {
  du_mach : mach k' = mach k;
  du_pt : locked (ptable_lock k') = locked (ptable_lock k);
  du_procs : Forall2 awake (procs k) (procs k');
  du_rest : nextpid k' = nextpid k /\ initproc k' = initproc k /\ ticks k' = ticks k /\ tickslock k' = tickslock k;
  du_files : files k' = set_console (console (files k')) (files k);
  du_lock : cons_lock (console (files k')) = cons_lock (console (files k));
}.

#[export] Instance during_preorder : PreOrder during.
Proof.
  split.
  - intros k. split; try done. by destruct (files k).
  - intros k1 k2 k3 [A1 A2 A3 (A4 & A5 & A6 & A7) A8 A9] [B1 B2 B3 (B4 & B5 & B6 & B7) B8 B9].
    split; [congruence|congruence|by etrans|split_and!; congruence| |congruence]. rewrite B8, A8. done.
Qed.

Lemma during_console k d : cons_lock d = cons_lock (console (files k)) -> during k (with_console k d).
Proof. intros H. by split. Qed.

Lemma output_lock c d : output_only c d -> cons_lock d = cons_lock c.
Proof. by intros ->. Qed.

(** The state between two characters. *)
Record typing (st : list Z * list Z) (k : kstate fstate) : Prop := {
  ty_held : exists h0, held_from h0 (hw (mach k)) (cons_lock (console (files k)));
  ty_pt : locked (ptable_lock k) = 0;
  ty_crt : crt_ok (console (files k));
  ty_input : input_ok (console (files k));
  ty_lines : lines (console (files k)) = st;
}.

Lemma typing_console st st' k d :
  typing st k -> cons_lock d = cons_lock (console (files k)) -> crt_ok d -> input_ok d -> lines d = st' ->
  typing st' (with_console k d).
Proof. intros [[h0 H1] H2 H3 H4 H5] E1 E2 E3 E4. split; try done. exists h0. cbn. by rewrite E1. Qed.

(** One character of the line is erased. *)
Lemma erase_spec k q ed : typing (q, ed) k -> ed <> [] ->
  wp (setc (set_in_e (u32 (in_e (console (files k)) - 1)));; consputc BACKSPACE) k
    (fun _ k' => during k k' /\ typing (q, take (length ed - 1) ed) k').
Proof.
  intros T Hne. set (c := console (files k)). assert (lines c = (q, ed)) as El by apply (ty_lines _ _ T).
  injection El as Eq Ee. rewrite <- Ee in Hne.
  destruct (erased_input c (ty_input _ _ T) Hne) as (ch & _ & E1 & E2 & E3).
  assert (take (length ed - 1) ed = edited (erased c)) as Et.
  { rewrite <- Ee, E1, length_app. cbn [length]. rewrite take_app_le by lia. apply take_ge. lia. }
  rewrite Et. unfold setc. wsteps. change (set_files _ k) with (with_console k (erased c)).
  set (k1 := with_console k (erased c)).
  assert (typing (q, edited (erased c)) k1) as T1.
  { eapply typing_console; [exact T|done|by destruct (ty_crt _ _ T)|done|]. unfold lines. by rewrite E2, Eq. }
  eapply wp_mono; [apply consputc_spec, (ty_crt _ _ T1)|]. intros [] k2 (d & -> & Ho & Hc).
  destruct (output_lines _ _ Ho) as [Hl Hi]. pose proof (output_lock _ _ Ho) as Hk. split.
  - etrans; [by apply (during_console k (erased c))|by apply during_console].
  - eapply typing_console; [exact T1|done|done|apply Hi, T1|]. rewrite Hl. apply T1.
Qed.

Lemma kill_line_spec q : forall n ed k, (length ed <= n)%nat -> typing (q, ed) k ->
  wp (kill_line n) k (fun _ k' => during k k' /\ typing (q, []) k').
Proof.
  intros n. induction n as [n IH] using lt_wf_ind. intros ed k Hn T. set (c := console (files k)).
  assert (lines c = (q, ed)) as El by apply (ty_lines _ _ T). injection El as Eq Ee.
  assert ((in_e c =? in_w c) = bool_decide (ed = [])) as Et by (rewrite <- Ee; apply edit_empty, T).
  assert (forall A (f : console_t -> A) (Q : A -> kstate fstate -> Prop), Q (f c) k -> wp (getc f) k Q) as Hg
    by (intros; by eapply wp_getc).
  destruct n as [|n]; cbn [kill_line]; (wstep; apply Hg; wstep; apply Hg; rewrite Et).
  - destruct ed; [|cbn in Hn; lia]. rewrite bool_decide_eq_true_2 by done. by wstep.
  - destruct (decide (ed = [])) as [->|Hne]; [rewrite bool_decide_eq_true_2 by done; by wstep|].
    rewrite bool_decide_eq_false_2 by done. unfold get_input. wstep. wstep. apply Hg.
    rewrite <- Ee in Hne. destruct (erased_input c (ty_input _ _ T) Hne) as (ch & Hch & E1 & _ & _).
    unfold INPUT_BUF. rewrite Hch. wstep.
    assert (ch <> 10) as Hch10.
    { intros ->. apply (io_edited _ (ty_input _ _ T)). fold c. rewrite E1. apply elem_of_app. right. by left. }
    rewrite (proj2 (Z.eqb_neq _ _)) by done. rewrite Ee in Hne.
    eapply wp_bind_assoc_mono; [apply (erase_spec k q ed T Hne)|]. intros k1 [D1 T1].
    eapply wp_mono; [apply (IH n ltac:(lia) (take (length ed - 1) ed) k1); [|exact T1]|].
    + rewrite length_take. destruct ed; [done|]. cbn in *. lia.
    + intros [] k2 [D2 T2]. split; [by etrans|done].
Qed.

Section Interrupt.
Context `{SE : SwitchEnv fstate, DD : DiskDriver, KI : KernelImage, PO : !PageOps}.

(** A character that is kept: echoed, and the line entered if it is complete. *)
Lemma keep_char k q ed c :
  typing (q, ed) k -> (length q + length ed < 128)%nat ->
  (c = 10 \/ u8 c <> 10) ->
  wp (set_input (in_e (console (files k))) (u8 c);;
      setc (set_in_e (u32 (in_e (console (files k)) + 1)));;
      consputc c;;
      e ← getc in_e;
      r ← getc in_r;
      when ((c =? 10) || (c =? ctrl 68) || (e =? u32 (r + INPUT_BUF)))
        (setc (set_in_w e);; wakeup input_chan)) k
    (fun _ k' => during k k' /\ typing (
      if (c =? 10) || (c =? ctrl 68) || (Z.of_nat (length q + length (ed ++ [u8 c])) =? 128)
      then (q ++ ed ++ [u8 c], []) else (q, ed ++ [u8 c])) k').
Proof.
  intros T Hl Hc. set (cn := console (files k)). assert (lines cn = (q, ed)) as El by apply (ty_lines _ _ T).
  injection El as Eq Ee. pose proof (lines_length cn (ty_input _ _ T)) as Hlen. rewrite Eq, Ee in Hlen.
  unfold set_input, setc. wsteps. change (set_files _ (set_files _ k)) with (with_console k (typed_char (u8 c) cn)).
  set (k1 := with_console k (typed_char (u8 c) cn)).
  assert (crt_ok (console (files k1))) as Hcrt by (by destruct (ty_crt _ _ T)).
  eapply wp_mono; [apply consputc_spec, Hcrt|]. intros [] k2 (d & -> & Ho & Hd). wsteps.
  eapply wp_getc; [reflexivity|]. wstep. eapply wp_getc; [reflexivity|].
  change (console (files (with_console k1 d))) with d.
  assert (during k (with_console k1 d)) as D1.
  { etrans; [by apply (during_console k (typed_char (u8 c) cn))|]. apply during_console. apply (output_lock _ _ Ho). }
  assert (in_e d = u32 (in_e cn + 1) /\ in_r d = in_r cn) as [Ede Edr] by (by rewrite Ho).
  assert (in_len cn < 128)%nat as Hl' by lia. destruct (typed_input cn (u8 c) (ty_input _ _ T) Hl') as (_ & Elen & _).
  assert ((in_e d =? u32 (in_r d + INPUT_BUF)) = (Z.of_nat (length q + length (ed ++ [u8 c])) =? 128)) as ->.
  { rewrite Ede, Edr, length_app. cbn [length]. unfold in_len in Elen, Hlen. cbn in Elen.
    destruct (ty_input _ _ T) as [_ Hr Hw He _ _ _]. fold cn in Hr, Hw, He. unfold INPUT_BUF.
    destruct (Z.eqb_spec (u32 (in_e cn + 1)) (u32 (in_r cn + 128))), (Z.eqb_spec (Z.of_nat (length q + (length ed + 1))) 128);
      try done; exfalso; unfold u32, is_u32 in *; dlia. }
  assert (forall st, lines d = st -> input_ok d -> typing st (with_console k1 d)) as Hty.
  { intros st E1 E2. eapply (typing_console st st k1); [|apply (output_lock _ _ Ho)|done|done|done].
    destruct (output_lines _ _ Ho) as [E3 _]. rewrite E1 in E3. destruct T as [[h0 Th] Tp Tc Ti Tl]. split; [by exists h0|done|done| |].
    - destruct E2 as [H1 H2 H3 H4 H5 H6 H7]. rewrite Ho in H1, H2, H3, H4, H5, H6, H7. by split.
    - by symmetry. }
  apply wp_when; intros Hif; rewrite Hif.
  - unfold setc. wsteps. change (set_files _ (with_console k1 d)) with (with_console k1 (set_in_w (in_e d) d)).
    set (d' := set_in_w (in_e d) d). set (k2 := with_console k1 d').
    assert (output_only (entered_line (typed_char (u8 c) cn)) d') as Ho'.
    { unfold d'. rewrite Ho. done. }
    destruct (lines_entered cn (u8 c) (ty_input _ _ T) Hl') as [Hi' Hl2].
    destruct (output_lines _ _ Ho') as [E1 E2]. destruct T as [[h0 Th] Tp Tc Ti Tl].
    eapply (wakeup_nested k2 h0 (cons_lock cn)); [exact Th|exact Tp|].
    assert (forall ch, Forall2 awake (procs k) (wake ch <$> procs k)) as Haw.
    { intros ch. apply Forall2_fmap_r, Forall2_same_length_lookup. split; [done|].
      intros i a b Ha Hb. simplify_eq. apply wake_awake. }
    assert (cons_lock d' = cons_lock cn) as Ek by (by rewrite Ho').
    split; [split; [done|by cbn; rewrite Tp|apply Haw|done|done|exact Ek]|].
    split; [exists h0; change (held_from h0 (hw (mach k)) (cons_lock d')); by rewrite Ek|done|by destruct Hd|by apply E2|].
    change (lines d' = (q ++ ed ++ [u8 c], [])). rewrite E1, Hl2. by rewrite Eq, Ee.
  - assert (u8 c <> 10) as Hn.
    { destruct Hc as [->|]; [done|done]. }
    destruct (lines_typed cn (u8 c) (ty_input _ _ T) Hl' Hn) as [Hi El]. destruct (output_lines _ _ Ho) as [E1 E2].
    split; [done|]. apply Hty; [|by apply E2]. rewrite E1. etrans; [exact El|]. by rewrite Eq, Ee.
Qed.

Lemma input_char_spec k st c : 0 <= c < 256 -> typing st k ->
  wp (input_char c) k (fun d k' => d = (c =? ctrl 80) /\ during k k' /\ typing (discipline st c) k').
Proof.
  intros Hc T. destruct st as [q ed]. set (cn := console (files k)).
  assert (lines cn = (q, ed)) as El by apply (ty_lines _ _ T). injection El as Eq Ee.
  pose proof (lines_length cn (ty_input _ _ T)) as Hlen. rewrite Eq, Ee in Hlen.
  assert (forall A (f : console_t -> A) (Q : A -> kstate fstate -> Prop), Q (f cn) k -> wp (getc f) k Q) as Hg
    by (intros; by eapply wp_getc).
  unfold input_char, discipline. cbn [fst snd]. destruct (Z.eqb_spec c (ctrl 80)) as [->|H1]; [by wstep|].
  destruct (Z.eqb_spec c (ctrl 85)) as [->|H2].
  { wstep. eapply wp_mono; [apply (kill_line_spec q _ ed k); [pose proof (io_len _ (ty_input _ _ T)) as Hio; fold cn in Hio; change (Z.to_nat INPUT_BUF) with 128%nat; lia|done]|].
    intros [] k1 [D1 T1]. by wstep. }
  destruct ((c =? ctrl 72) || (c =? 0x7f)) eqn:H3.
  { wstep. apply Hg. wstep. apply Hg. wstep. rewrite (edit_empty cn (ty_input _ _ T)), Ee.
    destruct (decide (ed = [])) as [->|Hne].
    - rewrite bool_decide_eq_true_2 by done. cbn [negb when]. by wsteps.
    - rewrite bool_decide_eq_false_2 by done. cbn [negb when].
      eapply wp_mono; [apply (erase_spec k q ed T Hne)|]. intros [] k1 [D1 T1]. by wstep. }
  wstep. apply Hg. wstep. apply Hg. wstep.
  assert (u32 (in_e cn - in_r cn) = Z.of_nat (length q + length ed)) as Eu.
  { rewrite Hlen. unfold in_len. pose proof (u32_range (in_e cn - in_r cn)). lia. }
  rewrite Eu. unfold INPUT_BUF. destruct (Z.eqb_spec c 0) as [->|H4]; [cbn; by wsteps|]. cbn [negb andb orb].
  rewrite Z.leb_antisym. destruct (Z.ltb_spec (Z.of_nat (length q + length ed)) 128) as [H5|H5]; cbn [negb andb when].
  2:{ by wsteps. }
  set (c' := if c =? 13 then 10 else c).
  eapply wp_mono; [apply (keep_char k q ed c' T); [lia|]|].
  { unfold c'. destruct (Z.eqb_spec c 13); [by left|]. destruct (decide (c = 10)); [by left|right].
    by rewrite u8_small by lia. }
  intros [] k1 [D1 T1]. by wstep.
Qed.

Lemma consoleintr_loop_spec cs : forall k st dump, Forall (fun c => 0 <= c < 256) cs -> typing st k ->
  wp (consoleintr_loop cs dump) k (fun d k' => d = dump || existsb (Z.eqb (ctrl 80)) cs /\ during k k' /\
    typing (foldl discipline st cs) k').
Proof.
  induction cs as [|c cs IH]; intros k st dump Hcs T; cbn [consoleintr_loop foldl existsb].
  { wstep. by rewrite orb_false_r. }
  apply Forall_cons in Hcs as [Hc Hcs]. wstep.
  eapply wp_mono; [by apply (input_char_spec k st c)|]. intros d k1 (-> & D1 & T1).
  eapply wp_mono; [by apply (IH k1 _ _ Hcs T1)|]. intros d k2 (-> & D2 & T2). split_and!; [|by etrans|done].
  by rewrite orb_assoc, (Z.eqb_sym c).
Qed.

(** C20: The console edits lines.  What can be read and the line being typed
    are, after an interrupt that delivers the characters [cs], none of which is
    ^P, what a line editor makes of them: characters are appended and echoed,
    backspace erases one, ^U erases the line, newline, ^D or a full buffer make
    the line readable.  The screen is never written outside its cells, and the
    handler does not stop, whatever else is typed.  (^P lists the processes and
    leaves the input alone; it is not part of this statement.) *)
Theorem line_discipline p n k cs :
  quiet p n k -> cons_lock (console (files k)) = free -> crt_ok (console (files k)) -> input_ok (console (files k)) ->
  Forall (fun c => 0 <= c < 256) cs -> ctrl 80 ∉ cs ->
  wp (consoleintr cs) k (fun _ k' => calm k k' /\ exists c, files k' = set_console c (files k) /\
    cons_lock c = free /\ crt_ok c /\ input_ok c /\
    lines c = foldl discipline (lines (console (files k))) cs).
Proof.
  intros Hq Hl Hc Hi Hcs Hp. unfold consoleintr. wstep.
  eapply (wp_enter cons_lockL); [by eapply quiet_cpu|apply _|done|]. intros h1 lk Hh. set (k1 := set_files _ _).
  assert (typing (lines (console (files k))) k1) as T1.
  { split; [by exists (hw (mach k))|apply Hq|by destruct Hc|by destruct Hi|done]. }
  wstep. eapply wp_mono; [by apply (consoleintr_loop_spec cs k1 (lines (console (files k))) false)|]. intros d k2 (-> & D2 & T2). wstep.
  assert (existsb (Z.eqb (ctrl 80)) cs = false) as ->.
  { apply not_true_is_false. intros (x & Hx & E)%existsb_exists. apply Z.eqb_eq in E. subst x. by apply Hp, list_elem_of_In. }
  destruct D2 as [E1 E2 E3 (E4 & E5 & E6 & E7) E8 E9]. set (c2 := console (files k2)) in *.
  assert (files k2 = update cons_lockL lk (set_console (set_cons_lock free c2) (files k))) as F2.
  { rewrite E8. change (set_console c2 (files k1)) with (set_console c2 (files k)). cbn in E9 |- *. clear -E9. clearbody c2.
    destruct c2. cbn in *. by rewrite E9. }
  eapply (wp_leave cons_lockL _ (hw (mach k)) (set_console (set_cons_lock free c2) (files k)) lk);
    [rewrite E1; exact Hh|apply _|done|exact F2|]. intros h Hs. cbn [orb when]. wstep. split.
  - split; try done. by cbn; rewrite E1.
  - exists (set_cons_lock free c2). destruct T2 as [_ _ Tc Ti Tl]. split_and!; [done|done|by destruct Tc|by destruct Ti|].
    exact Tl.
Qed.
End Interrupt.

#[local] Existing Instance FileDemo.alone.

(** "ab", a backspace, "c" and a return make the line "ac". *)
Lemma line_discipline_witness :
  wp (consoleintr [97; 98; 8; 99; 13; 100]) (FileDemo.kernel []) (fun _ k' =>
    lines (console (files k')) = ([97; 99; 10], [100])).
Proof.
  eapply wp_mono; [apply (line_discipline 0 1)|].
  - apply FileDemo.kernel_quiet.
  - reflexivity.
  - split; [decided|reflexivity|reflexivity].
  - split; try decided.
  - decided.
  - decided.
  - intros _ k' (_ & c & -> & _ & _ & _ & E). exact E.
Defined.
