(* ===== verification/FsBlocks.v ===== *)
(** * Blocks inside a transaction: bzero, balloc, bfree

    [tx k V]: process [p] is inside a transaction and [V] is its view of the
    blocks.  The operations of fs.c are described by what they do to the view;
    the blocks that can still be written are counted by [room]. *)

From S2P Require Import Prelude Memory Mmu Machine Spinlock Kalloc Vm PageTable VmProofs VmSpaces.
From S2P Require Import Encrypt ProcTable Clock ClockProofs Proc ProcProofs FileState Sleeplock Bio BioProofs Log LogProofs LogCommit LogOps.
From S2P Require Import Ulib Cprintf Fs.

Lemma wp_assoc {S A B C} (c : M S A) (f : A -> M S B) (g : B -> M S C) s Q :
  wp ((c ≫= f) ≫= g) s Q -> wp (c ≫= fun x => f x ≫= g) s Q.
Proof. unfold wp, mbind, M_bind. by destruct (c s). Qed.

(** A block of the transaction has new contents. *)
Definition vset (i : nat) (d : list Z) (V : bview) : bview :=
  BView (vdisk V) (vpast V) (<[i := d]> (vcur V)) (vdirty V ∪ {[i]}) (vheld V).

Lemma vset_made i b d V : vheld V !! i = None -> unhold i (pin i (put_cur i d (hold i b V))) = vset i d V.
Proof. intros H. unfold unhold, pin, put_cur, hold, vset. cbn. by rewrite delete_insert_id. Qed.

(** Only blocks, and the part of the log that names them, change. *)
Definition stored (k k' : kstate fstate) : Prop := calm k k' /\ storage_only (files k) (files k').

#[export] Instance stored_preorder : PreOrder stored.
Proof.
  split; [by split|]. intros k1 k2 k3 [C1 S1] [C2 S2]. split; by etrans.
Qed.

Lemma stored_icache k k' : stored k k' -> icache (files k') = icache (files k).
Proof. intros [_ ->]. done. Qed.

Lemma stored_sb k k' : stored k k' -> sb (files k') = sb (files k).
Proof. intros [_ ->]. done. Qed.

(** [room T r V]: the log has room for the blocks [T] and for [r] more. *)
Definition room (m : nat) (T : gset nat) (r : nat) (V : bview) : Prop := (size (vdirty V ∪ T) + r < m)%nat.

Lemma room_less m T r r' V : room m T r V -> (r' <= r)%nat -> room m T r' V.
Proof. unfold room. lia. Qed.

Lemma room_planned m T r V i d : room m T r V -> i ∈ vdirty V ∪ T -> room m T r (vset i d V).
Proof.
  unfold room. intros H Hi. replace (vdirty (vset i d V) ∪ T) with (vdirty V ∪ T); [done|].
  cbn. apply leibniz_equiv. intros x. rewrite !elem_of_union, elem_of_singleton. split; [tauto|].
  intros [[?| ->]|?]; [by left|by apply elem_of_union in Hi|by right].
Qed.

Lemma room_new m T r V i d : room m T (S r) V -> room m T r (vset i d V).
Proof.
  unfold room. intros H. cbn. replace (vdirty V ∪ {[i]} ∪ T) with ({[i]} ∪ (vdirty V ∪ T)).
  - pose proof (size_union_alt {[i]} (vdirty V ∪ T)) as E. rewrite size_singleton in E.
    assert (size ((vdirty V ∪ T) ∖ {[i]}) <= size (vdirty V ∪ T))%nat by (apply subseteq_size, subseteq_difference_l; done).
    lia.
  - apply leibniz_equiv. intros x. rewrite !elem_of_union. tauto.
Qed.

Section Blocks.
Context `{DL : DiskLaws}.
Context (p : nat) (n : Z) (S0 m : nat).
Implicit Types k : kstate fstate.

Record tx (k : kstate fstate) (V : bview) : Prop := {
  tx_quiet : quiet p n k;
  tx_bio : bio n (files k) V;
  tx_log : exists bs, intx (files k) S0 m bs V;
}.

Lemma tx_len k V : tx k V -> length (vcur V) = length (vdisk V).
Proof. intros T. apply (bio_size _ _ _ (tx_bio _ _ T)). Qed.

Lemma tx_max k V : tx k V -> (m <= 29)%nat.
Proof. intros [_ _ [bs I]]. apply I. Qed.

Lemma tx_block k V i d : tx k V -> vcur V !! i = Some d -> length d = 512%nat.
Proof. intros T H. destruct (bio_blocks _ _ _ (tx_bio _ _ T)) as [_ F]. by apply (Forall_lookup_1 _ _ _ _ F H). Qed.

Lemma tx_ext k k' V : tx k V -> quiet p n k' -> bcache (files k') = bcache (files k) ->
  memdisk (files k') = memdisk (files k) -> log (files k') = log (files k) -> tx k' V.
Proof.
  intros [H1 H2 [bs H3]] Hq E1 E2 E3. split; [done|by apply (bio_same n (files k))|]. exists bs. by eapply intx_view.
Qed.

Lemma bread_tx k V i T r :
  tx k V -> room m T r V -> (i < length (vcur V))%nat -> vheld V !! i = None -> (size (dom (vheld V)) <= 1)%nat ->
  wp (bread 1 (Z.of_nat i)) k (fun b k' => stored k k' /\ tx k' (hold i b V)).
Proof.
  intros H R Hi Hh Hs. pose proof (tx_max _ _ H). destruct (H) as [Hq B [bs I]].
  eapply wp_mono; [apply (bread_spec p n k V i); [done|done|by rewrite <- (tx_len _ _ H)|done|]|].
  - right. unfold room in R. pose proof (size_union_alt (vdirty V) (dom (vheld V))) as E.
    assert (size (dom (vheld V) ∖ vdirty V) <= size (dom (vheld V)))%nat by (apply subseteq_size, subseteq_difference_l; done).
    assert (size (vdirty V) <= size (vdirty V ∪ T))%nat by (apply subseteq_size, union_subseteq_l). lia.
  - intros b k1 (Hb & C & O & B1). assert (storage_only (files k) (files k1)) by (by apply cache_storage). split; [by split|].
    split; [by eapply quiet_calm|done|]. exists bs. eapply intx_view; [| | |exact I]; [by rewrite O|done|done].
Qed.

(** A held buffer has the contents of its block. *)
Lemma tx_data k V i b : tx k V -> vheld V !! i = Some b -> vcur V !! i = Some (b_data (buf_at (files k) b)).
Proof. intros H Hh. destruct (bio_held _ _ _ _ _ (tx_bio _ _ H) Hh) as [_ C]. apply C. Qed.

(** [setb b f; log_write b] *)
Lemma put_tx k V i b f T r :
  tx k V -> room m T r V -> vheld V !! i = Some b -> ~ in_log S0 m i ->
  (forall x, length (b_data x) = 512%nat -> f x = set_b_data (b_data (f x)) x /\ length (b_data (f x)) = 512%nat) ->
  wp (setb b f;; log_write b) k (fun _ k' => stored k k' /\
    tx k' (pin i (put_cur i (b_data (f (buf_at (files k) b))) V))).
Proof.
  intros H R Hh Hl Hf. destruct (H) as [Hq B [bs I]]. destruct (bio_held _ _ _ _ _ B Hh) as [Hb Hca].
  destruct (bio_bufs _ _ _ B b Hb) as [Hlen _]. destruct (Hf _ Hlen) as [Ef Ld].
  set (d := b_data (f (buf_at (files k) b))) in *. unfold setb. wstep.
  assert (set_buf f b (files k) = set_buf (set_b_data d) b (files k)) as Es.
  { unfold set_buf. do 2 f_equal. apply list_alter_ext; [|done]. intros x Hx.
    assert (buf_at (files k) b = x) as Ex by (unfold buf_at; by rewrite Hx). rewrite Ex in Ef. exact Ef. }
  wstep. rewrite Es. set (k1 := set_files _ k). assert (bio n (files k1) (put_cur i d V)) as B1 by (by apply bio_put).
  assert (calm k k1) as C1 by (by apply calm_set_files).
  eapply wp_mono; [apply (log_write_spec p n k1 (put_cur i d V) S0 m bs i b)|].
  - by eapply quiet_calm.
  - done.
  - by eapply intx_view; [| | |exact I].
  - done.
  - done.
  - unfold room in R. assert (size (vdirty V) <= size (vdirty V ∪ T))%nat by (apply subseteq_size, union_subseteq_l).
    rewrite (ix_dirty _ _ _ _ _ I), size_list_to_set in * by apply I. lia.
  - intros [] k2 (C2 & O2 & B2 & I2). split.
    + split; [by etrans|]. etrans; [|exact O2]. apply cache_storage, cache_only_set.
    + split; [|done|by eexists]. eapply quiet_calm; [exact Hq|by etrans].
Qed.

Lemma brelse_tx k V i b :
  tx k V -> vheld V !! i = Some b -> i ∈ vdirty V \/ vcur V !! i = vdisk V !! i ->
  wp (brelse b) k (fun _ k' => stored k k' /\ tx k' (unhold i V)).
Proof.
  intros H Hh Hc. destruct (H) as [Hq B [bs I]].
  eapply wp_mono; [by apply (brelse_spec p n k V i b)|]. intros [] k1 (C & O & B1).
  assert (storage_only (files k) (files k1)) by (by apply cache_storage). split; [by split|].
  split; [by eapply quiet_calm|done|]. exists bs. eapply intx_view; [| | |exact I]; [by rewrite O|done|done].
Qed.

(** A block that is not held and not dirty is as on the disk. *)
Lemma tx_clean k V i : tx k V -> vheld V !! i = None -> i ∈ vdirty V \/ vcur V !! i = vdisk V !! i.
Proof.
  intros H Hh. destruct (decide (i ∈ vdirty V)); [by left|right]. by apply (bio_clean _ _ _ (tx_bio _ _ H)).
Qed.

(** [setb b f; log_write b; brelse b] with block [i] in buffer [b]. *)
Lemma wp_update {A} k V i b f T r (rest : FK A) (Q : A -> kstate fstate -> Prop) :
  tx k (hold i b V) -> vheld V !! i = None -> room m T r V -> ~ in_log S0 m i ->
  (forall x, length (b_data x) = 512%nat -> f x = set_b_data (b_data (f x)) x /\ length (b_data (f x)) = 512%nat) ->
  (forall k', stored k k' -> tx k' (vset i (b_data (f (buf_at (files k) b))) V) -> wp rest k' Q) ->
  wp (setb b f;; log_write b;; brelse b;; rest) k Q.
Proof.
  intros H Hh R Hl Hf HQ. assert (vheld (hold i b V) !! i = Some b) as Hb by apply lookup_insert_eq.
  eapply wp_bind_assoc_mono; [by apply (put_tx k (hold i b V) i b f T r)|]. intros k1 [S1 H1]. wstep.
  eapply wp_mono; [apply (brelse_tx k1 _ i b H1); [exact Hb|left; cbn; by apply elem_of_union_r, elem_of_singleton]|].
  intros [] k2 [S2 H2]. rewrite (vset_made i b) in H2 by done. apply HQ; [by etrans|done].
Qed.

(** The same as the last commands of a function. *)
Lemma wp_update_last k V i b f T r :
  tx k (hold i b V) -> vheld V !! i = None -> room m T r V -> ~ in_log S0 m i ->
  (forall x, length (b_data x) = 512%nat -> f x = set_b_data (b_data (f x)) x /\ length (b_data (f x)) = 512%nat) ->
  wp (setb b f;; log_write b;; brelse b) k (fun _ k' => stored k k' /\ tx k' (vset i (b_data (f (buf_at (files k) b))) V)).
Proof.
  intros H Hh R Hl Hf. eapply wp_bind_assoc_mono; [apply (put_tx k (hold i b V) i b f T r); try done; apply lookup_insert_eq|].
  intros k1 [S1 H1]. eapply wp_mono; [apply (brelse_tx k1 _ i b H1)|].
  - apply lookup_insert_eq.
  - left. cbn. by apply elem_of_union_r, elem_of_singleton.
  - intros [] k2 [S2 H2]. rewrite (vset_made i b) in H2 by done. split; [by etrans|done].
Qed.

Lemma bzero_tx k V i T r :
  tx k V -> room m T r V -> (i < length (vcur V))%nat -> vheld V !! i = None -> (size (dom (vheld V)) <= 1)%nat ->
  ~ in_log S0 m i ->
  wp (bzero 1 (Z.of_nat i)) k (fun _ k' => stored k k' /\ tx k' (vset i (replicate 512 0) V)).
Proof.
  intros H R Hi Hh Hs Hl. unfold bzero. wstep. eapply wp_mono; [by apply (bread_tx k V i T r)|]. intros b k1 [S1 H1].
  eapply wp_mono; [apply (wp_update_last k1 V i b _ T r); done|]. intros [] k2 [S2 H2]. split; [by etrans|done].
Qed.
End Blocks.

(** ** The bit map *)

Definition used (d : list Z) (b : Z) : bool := negb (map_bit d b =? 0).

Definition mark (b : Z) (d : list Z) : list Z := set_map b (Z.lor (byte_at d (b / 8)) (Z.shiftl 1 (b mod 8))) d.
Definition unmark (b : Z) (d : list Z) : list Z := set_map b (Z.ldiff (byte_at d (b / 8)) (Z.shiftl 1 (b mod 8))) d.

Lemma land_bit x i : 0 <= i -> (Z.land x (Z.shiftl 1 i) =? 0) = negb (Z.testbit x i).
Proof.
  intros Hi. destruct (Z.testbit x i) eqn:E; cbn.
  - apply Z.eqb_neq. intros H. assert (Z.testbit (Z.land x (Z.shiftl 1 i)) i = false) as F by (by rewrite H, Z.testbit_0_l).
    rewrite Z.land_spec, E, Z.shiftl_spec, Z.sub_diag in F by lia. done.
  - apply Z.eqb_eq. apply Z.bits_inj'. intros j Hj. rewrite Z.land_spec, Z.testbit_0_l, Z.shiftl_spec by lia.
    destruct (Z.eq_dec j i) as [->|Hne]; [by rewrite E|]. destruct (Z_lt_dec j i); [rewrite (Z.testbit_neg_r 1) by lia|].
    + apply andb_false_r.
    + change 1 with (2 ^ 0). rewrite Z.pow2_bits_false by lia. apply andb_false_r.
Qed.

Lemma used_bit d b : 0 <= b -> used d b = Z.testbit (byte_at d (b / 8)) (b mod 8).
Proof. intros Hb. unfold used, map_bit. rewrite land_bit by dlia. by rewrite negb_involutive. Qed.

Lemma byte_at_set_map d b v c : length d = 512%nat -> 0 <= b < 4096 -> 0 <= c < 4096 ->
  byte_at (set_map b v d) (c / 8) = if decide (c / 8 = b / 8) then v else byte_at d (c / 8).
Proof.
  intros Hd Hb Hc. unfold byte_at, set_map. case_decide as E.
  - rewrite E, list_lookup_insert_eq; [done|]. dlia.
  - rewrite list_lookup_insert_ne; [done|]. dlia.
Qed.

Lemma shift_one_bit i j : 0 <= i -> 0 <= j -> Z.testbit (Z.shiftl 1 i) j = bool_decide (i = j).
Proof. intros Hi Hj. rewrite Z.shiftl_1_l. case_bool_decide as E; [subst; by apply Z.pow2_bits_true|by apply Z.pow2_bits_false]. Qed.

Lemma used_mark d b c : length d = 512%nat -> 0 <= b < 4096 -> 0 <= c < 4096 ->
  used (mark b d) c = bool_decide (c = b) || used d c.
Proof.
  intros Hd Hb Hc. rewrite !used_bit by lia. unfold mark. rewrite byte_at_set_map by done. case_decide as E.
  - rewrite Z.lor_spec, shift_one_bit, E by dlia. rewrite orb_comm. f_equal. apply bool_decide_ext. dlia.
  - rewrite bool_decide_eq_false_2; [done|]. intros ->. done.
Qed.

Lemma used_unmark d b c : length d = 512%nat -> 0 <= b < 4096 -> 0 <= c < 4096 ->
  used (unmark b d) c = negb (bool_decide (c = b)) && used d c.
Proof.
  intros Hd Hb Hc. rewrite !used_bit by lia. unfold unmark. rewrite byte_at_set_map by done. case_decide as E.
  - rewrite Z.ldiff_spec, shift_one_bit, E by dlia. rewrite andb_comm. do 2 f_equal. apply bool_decide_ext. dlia.
  - rewrite bool_decide_eq_false_2; [done|]. intros ->. done.
Qed.

Lemma length_set_map b v d : length (set_map b v d) = length d.
Proof. apply length_insert. Qed.

(** The scan finds the first free block. *)
Lemma balloc_scan_spec d size n : forall bi, 0 <= bi ->
  match balloc_scan d 0 size bi n with
  | Some b => bi <= b < bi + Z.of_nat n /\ b < size /\ used d b = false /\ forall c, bi <= c < b -> used d c = true
  | None => forall c, bi <= c < bi + Z.of_nat n -> c < size -> used d c = true
  end.
Proof.
  induction n as [|n IH]; intros bi Hb; cbn [balloc_scan]; [lia|]. rewrite Z.add_0_l.
  destruct (Z.ltb_spec bi size); cbn [negb]; [|lia]. destruct (map_bit d bi =? 0) eqn:E.
  - split_and!; [lia|lia|lia|unfold used; by rewrite E|lia].
  - assert (used d bi = true) as Hu by (unfold used; by rewrite E). specialize (IH (bi + 1) ltac:(lia)).
    destruct (balloc_scan d 0 size (bi + 1) n) as [b|].
    + destruct IH as (H1 & H2 & H3 & H4). split_and!; [lia|lia|lia|done|]. intros c Hc.
      destruct (Z.eq_dec c bi) as [->|]; [done|]. apply H4. lia.
    + intros c Hc Hs. destruct (Z.eq_dec c bi) as [->|]; [done|]. apply IH; lia.
Qed.

(** How many blocks are free. *)
Definition nfree (size : Z) (d : list Z) : nat :=
  length (filter (fun b => used d (Z.of_nat b) = false) (seq 0 (Z.to_nat size))).

Lemma nfree_some size d : (0 < nfree size d)%nat -> exists b, 0 <= b < size /\ used d b = false.
Proof.
  unfold nfree. destruct (filter _ _) as [|b l] eqn:E; cbn; [lia|]. intros _.
  assert (b ∈ filter (fun b => used d (Z.of_nat b) = false) (seq 0 (Z.to_nat size))) as H by (rewrite E; by left).
  apply list_elem_of_filter in H as [H1 H2]. apply elem_of_seq in H2. exists (Z.of_nat b). split; [lia|done].
Qed.

Lemma filter_one {A} (P Q : A -> Prop) `{!forall x, Decision (P x), !forall x, Decision (Q x)} (b : A) l :
  NoDup l -> b ∈ l -> P b -> ~ Q b -> (forall x, x <> b -> Q x <-> P x) ->
  length (filter P l) = S (length (filter Q l)).
Proof.
  intros Hd Hb Pb Qb HPQ. induction l as [|x l IH]; [by apply elem_of_nil in Hb|].
  apply list.NoDup_cons in Hd as [Hx Hd]. rewrite !filter_cons. apply elem_of_cons in Hb as [->|Hb].
  - rewrite decide_True, decide_False by done. cbn. do 2 f_equal.
    clear IH. induction l as [|y l IH]; [done|]. rewrite !filter_cons. apply not_elem_of_cons in Hx as [Hy Hx].
    apply list.NoDup_cons in Hd as [_ Hd]. specialize (HPQ y ltac:(congruence)) as Hyy.
    destruct (decide (P y)), (decide (Q y)); [f_equal; by apply IH|tauto|tauto|by apply IH].
  - assert (x <> b) as Hne by (by intros ->). specialize (HPQ x Hne) as Hxx.
    destruct (decide (P x)), (decide (Q x)); [cbn; f_equal; by apply IH|tauto|tauto|by apply IH].
Qed.

Lemma nfree_mark size d b : length d = 512%nat -> size <= 4096 -> 0 <= b < size -> used d b = false ->
  nfree size d = S (nfree size (mark b d)).
Proof.
  intros Hd Hs Hb Hu. unfold nfree. apply (filter_one _ _ (Z.to_nat b)).
  - apply NoDup_seq.
  - apply elem_of_seq. lia.
  - by rewrite Z2Nat.id by lia.
  - rewrite Z2Nat.id by lia. rewrite used_mark by lia. by rewrite bool_decide_eq_true_2.
  - intros x Hx. destruct (Z_lt_dec (Z.of_nat x) 4096) as [Hl|Hl].
    + rewrite used_mark by lia. rewrite bool_decide_eq_false_2 by lia. done.
    + rewrite !used_bit by lia. unfold mark, set_map, byte_at. rewrite list_lookup_insert_ne; [done|]. dlia.
Qed.

Section Alloc.
Context `{DL : DiskLaws}.
Context (p : nat) (n : Z) (S0 m : nat) (s : superblock) (bm : nat).
Implicit Types k : kstate fstate.
Abbreviation tx := (tx p n S0 m).

(** The bit map is one block. *)
Record one_map : Prop := {
  om_size : 0 < sb_size s <= 4096;
  om_start : sb_bmapstart s = Z.of_nat bm;
  om_int : Z.of_nat bm < 4294967296;
}.
Hypothesis Hs : one_map.

Lemma BBLOCK_map b : 0 <= b < 4096 -> BBLOCK b s = Z.of_nat bm.
Proof.
  intros Hb. destruct Hs as [H1 H2 H3]. unfold BBLOCK. rewrite H2. change BPB with 4096.
  rewrite Z.div_small by lia. unfold u32. dlia.
Qed.

Lemma balloc_tx k V T r d :
  tx k V -> sb (files k) = s -> room m T (S r) V -> bm ∈ T ->
  vcur V !! bm = Some d -> vheld V !! bm = None -> (size (dom (vheld V)) <= 1)%nat ->
  sb_size s <= Z.of_nat (length (vcur V)) ->
  (forall b, 0 <= Z.of_nat b < sb_size s -> used d (Z.of_nat b) = false -> ~ in_log S0 m b /\ b <> bm /\ vheld V !! b = None) ->
  ~ in_log S0 m bm -> (0 < nfree (sb_size s) d)%nat ->
  wp (balloc 1) k (fun a k' => exists b, a = Z.of_nat b /\ 0 <= a < sb_size s /\ used d a = false /\ stored k k' /\
    let V' := vset b (replicate 512 0) (vset bm (mark a d) V) in tx k' V' /\ room m T r V').
Proof.
  intros H Esb R Hbm Hd Hh Hsz Hlen Hfree Hlog Hn. assert (length d = 512%nat) as Ld by (by eapply tx_block).
  unfold balloc, getsb. wsteps. rewrite Esb. destruct Hs as [[Hs1 Hs2] _ _].
  set (fuel := Z.to_nat _). assert (exists f, fuel = S f) as [f ->].
  { exists (Z.to_nat (sb_size s / BPB)). unfold fuel. change BPB with 4096. dlia. }
  cbn [balloc_loop]. unfold getsb. wsteps. rewrite Esb. rewrite (proj2 (Z.ltb_lt 0 _)) by done. cbn [negb]. wsteps.
  cbv beta delta [id]. rewrite Esb, BBLOCK_map by lia. assert (bm < length (vcur V))%nat by (by eapply lookup_lt_Some).
  eapply wp_mono; [by apply (bread_tx p n S0 m k V bm T (S r))|]. intros b k1 [S1 H1]. unfold getb. wsteps.
  assert (b_data (buf_at (files k1) b) = d) as ->.
  { pose proof (tx_data p n S0 m _ _ bm b H1 ltac:(apply lookup_insert_eq)) as E. cbn in E. congruence. }
  pose proof (balloc_scan_spec d (sb_size s) (Z.to_nat BPB) 0 ltac:(lia)) as Hscan.
  change (Z.to_nat BPB) with 4096%nat in *. destruct (balloc_scan d 0 (sb_size s) 0 4096) as [a|]; cbv iota.
  - destruct Hscan as (Ha & Hsa & Hu & _). specialize (Hfree (Z.to_nat a)). rewrite Z2Nat.id in Hfree by lia.
    destruct (Hfree ltac:(lia) Hu) as (Hf1 & Hf2 & Hf3).
    eapply (wp_update p n S0 m k1 V bm b _ T (S r)); [done|done|done|done| |].
    { intros x _. split; [done|]. cbn. by rewrite length_set_map. }
    intros k2 S2 H2. cbn [b_data set_b_data] in H2. fold (mark a d) in H2. rewrite Z.add_0_l. wstep.
    assert (room m T (S r) (vset bm (mark a d) V)) as R2 by (apply room_planned; [done|by apply elem_of_union_r]).
    replace a with (Z.of_nat (Z.to_nat a)) at 1 by lia.
    eapply wp_mono; [apply (bzero_tx p n S0 m k2 _ (Z.to_nat a) T (S r) H2 R2)|].
    + cbn. rewrite length_insert. lia.
    + done.
    + done.
    + done.
    + intros [] k3 [S3 H3]. wstep. exists (Z.to_nat a). rewrite Z2Nat.id by lia. split_and!; [done|lia|lia|done| |done|by apply room_new].
      etrans; [exact S1|]. by etrans.
  - exfalso. apply nfree_some in Hn as (c & Hc & Hu). rewrite Hscan in Hu by lia. done.
Qed.
End Alloc.
