(* ===== verification/FsInode.v ===== *)
(** * The blocks of an inode: bmap

    A file has 141 slots for block numbers: the 12 direct ones, the indirect
    block, and the 128 entries of the indirect block.  [bmap] fills slots and
    leaves the bytes of the file, in which a missing block counts as zeros, as
    they are. *)

From S2P Require Import Prelude Memory Mmu Machine Spinlock Kalloc Vm PageTable VmProofs VmSpaces.
From S2P Require Import Encrypt ProcTable Clock ClockProofs Proc ProcProofs FileState Sleeplock Bio BioProofs Log LogProofs LogCommit LogOps.
From S2P Require Import Ulib Cprintf Fs FsBlocks.

Definition zero_block : list Z := replicate 512 0.

Definition ind_addr (x : inode) : Z := default 0 (i_addrs x !! 12%nat).

Definition block (V : bview) (a : Z) : list Z := default [] (vcur V !! Z.to_nat a).

Definition slot (V : bview) (x : inode) (s : nat) : Z :=
  if decide (s <= 12)%nat then default 0 (i_addrs x !! s)
  else if ind_addr x =? 0 then 0 else get32 (block V (ind_addr x)) (4 * (Z.of_nat s - 13)).

(** The slot of block [bn] of the file. *)
Definition slot_of (bn : nat) : nat := if decide (bn < 12)%nat then bn else S bn.

(** The bytes of a slot. *)
Definition contents (V : bview) (x : inode) (s : nat) : list Z :=
  if slot V x s =? 0 then zero_block else block V (slot V x s).

Lemma slot_ind V x : slot V x 12 = ind_addr x.
Proof. done. Qed.

Lemma get32_zero i : get32 zero_block i = 0.
Proof.
  assert (forall j, byte_at zero_block j = 0) as E.
  { intros j. unfold byte_at, zero_block. destruct (_ !! _) eqn:H; [|done]. by apply lookup_replicate in H as [-> _]. }
  unfold get32. by rewrite !E.
Qed.

Lemma block_vset V i d a : (i < length (vcur V))%nat ->
  block (vset i d V) a = if decide (Z.to_nat a = i) then d else block V a.
Proof.
  intros Hi. unfold block, vset. cbn. case_decide as E; [by rewrite E, list_lookup_insert_eq|].
  by rewrite list_lookup_insert_ne by done.
Qed.

Section Inode.
(** The bit map is block [bm]; the blocks of files begin at [ds]. *)
Context (bm ds : nat) (size : Z).

Record layout (V : bview) (d : list Z) : Prop := {
  ly_map : vcur V !! bm = Some d;
  ly_len : length d = 512%nat;
  ly_size : 0 < size <= 4096;
  ly_fits : size <= Z.of_nat (length (vcur V));
  ly_bm : (bm < ds)%nat;
  ly_meta : forall b, (b < ds)%nat -> used d (Z.of_nat b) = true;
}.

Definition owned (d : list Z) (a : Z) : Prop := Z.of_nat ds <= a < size /\ used d a = true.

Record file_ok (V : bview) (d : list Z) (x : inode) : Prop := {
  fo_addrs : length (i_addrs x) = 13%nat;
  fo_slot s : (s <= 140)%nat -> slot V x s = 0 \/ owned d (slot V x s);
  fo_inj s t : (s <= 140)%nat -> (t <= 140)%nat -> slot V x s = slot V x t -> slot V x s <> 0 -> s = t;
}.

(** The file has got blocks for missing slots: blocks that were free, the only
    ones that the bit map now has besides.  Of the blocks in use only the bit
    map and the indirect block of the file have changed. *)
Record grown (V : bview) (d : list Z) (x : inode) (V' : bview) (d' : list Z) (x' : inode) : Prop := {
  gr_layout : layout V' d';
  gr_ok : file_ok V' d' x';
  gr_len : length (vcur V') = length (vcur V);
  gr_held : vheld V' = vheld V;
  gr_disk : vdisk V' = vdisk V /\ vpast V' = vpast V;
  gr_dirty : vdirty V ⊆ vdirty V';
  gr_used a : 0 <= a < size -> used d a = true -> used d' a = true;
  gr_slot s : (s <= 140)%nat -> slot V x s <> 0 -> slot V' x' s = slot V x s;
  gr_bytes s : (s <= 140)%nat -> s <> 12%nat -> contents V' x' s = contents V x s;
  gr_new s : (s <= 140)%nat -> slot V x s = 0 -> slot V' x' s = 0 \/ used d (slot V' x' s) = false;
  gr_only a : 0 <= a < size -> used d' a = true -> used d a = true \/ exists s, (s <= 140)%nat /\ slot V' x' s = a;
  gr_frame b : (Z.of_nat b < size) -> used d (Z.of_nat b) = true -> b <> bm ->
    vcur V' !! b = vcur V !! b \/ ind_addr x = Z.of_nat b /\ b <> 0%nat;
  gr_inode : x' = set_i_addrs (i_addrs x') x;
}.

Lemma grown_refl V d x : layout V d -> file_ok V d x -> grown V d x V d x.
Proof. intros L F. split; auto. by destruct x. Qed.

Lemma grown_trans V d x V1 d1 x1 V2 d2 x2 :
  layout V d -> grown V d x V1 d1 x1 -> grown V1 d1 x1 V2 d2 x2 -> grown V d x V2 d2 x2.
Proof.
  intros L G H. destruct G as [G1 G2 G3 G4 [Gd Gp] G5 G6 G7 G8 Gn Go G9 G10], H as [H1 H2 H3 H4 [Hd Hp] H5 H6 H7 H8 Hn Ho H9 H10].
  split; auto; try congruence; try by etrans.
  - split; congruence.
  - intros s Hs Hz. rewrite H7; [by apply G7|done|]. by rewrite G7.
  - intros s Hs Hz. rewrite H8 by done. by apply G8.
  - intros s Hs Hz. destruct (decide (slot V1 x1 s = 0)) as [Hz1|Hz1].
    + destruct (fo_slot _ _ _ H2 s Hs) as [?|[Hr _]]; [by left|]. destruct (Hn s Hs Hz1) as [?|Hu]; [by left|right].
      destruct (used d (slot V2 x2 s)) eqn:E; [|done]. by rewrite G6 in Hu by (done || lia).
    + rewrite H7 by done. by apply Gn.
  - intros a Ha Hu. destruct (Ho a Ha Hu) as [Hu1|?]; [|by right].
    destruct (Go a Ha Hu1) as [?|(s & Hs & E)]; [by left|]. destruct (decide (a = 0)) as [->|Ha0].
    + left. apply (ly_meta _ _ L 0%nat). pose proof (ly_bm _ _ L). lia.
    + right. exists s. split; [done|]. rewrite H7; [done|done|by rewrite E].
  - intros b Hb Hu Hne. destruct (H9 b Hb) as [->|[E E']]; [apply G6; [lia|done]|done|by apply G9|right]. split; [|done].
    rewrite <- (slot_ind V1) in E. rewrite <- (slot_ind V). destruct (decide (slot V x 12 = 0)) as [Ez|Ez].
    + destruct (Gn 12%nat ltac:(lia) Ez) as [E0|E0]; [rewrite E in E0; lia|]. rewrite E in E0. congruence.
    + by rewrite <- (G7 12%nat ltac:(lia) Ez).
  - rewrite H10, G10. by destruct x.
Qed.

(** A fresh block is none of the blocks in use. *)
Lemma free_data V d b : layout V d -> 0 <= Z.of_nat b < size -> used d (Z.of_nat b) = false ->
  (ds <= b)%nat /\ b <> bm /\ b <> 0%nat.
Proof.
  intros L Hb Hu. assert (ds <= b)%nat.
  { destruct (decide (b < ds)%nat) as [Hl|]; [|lia]. rewrite (ly_meta _ _ L b Hl) in Hu. done. }
  pose proof (ly_bm _ _ L). lia.
Qed.

Lemma owned_mark d b a : length d = 512%nat -> size <= 4096 -> 0 <= b < size -> owned d a -> owned (mark b d) a.
Proof. intros Hd Hs Hb [H1 H2]. split; [done|]. rewrite used_mark by lia. by rewrite H2, orb_true_r. Qed.

Lemma layout_mark V d V' b :
  layout V d -> 0 <= b < size -> vcur V' !! bm = Some (mark b d) -> length (vcur V') = length (vcur V) ->
  layout V' (mark b d).
Proof.
  intros [L1 L2 L3 L4 L5 L6] Hb E1 E2. split; try done.
  - unfold mark. by rewrite length_set_map.
  - by rewrite E2.
  - intros c Hc. destruct (decide (Z.of_nat c < 4096)).
    + rewrite used_mark by lia. by rewrite L6, orb_true_r.
    + rewrite <- (L6 c Hc). rewrite !used_bit by lia. unfold mark, set_map, byte_at. rewrite list_lookup_insert_ne; [done|]. dlia.
Qed.

(** Slot [t] gets block [b]. *)
Lemma file_claims V d x V' x' b t :
  layout V d -> file_ok V d x -> 0 <= Z.of_nat b < size -> used d (Z.of_nat b) = false ->
  length (i_addrs x') = 13%nat -> slot V x t = 0 ->
  (forall s, (s <= 140)%nat -> slot V' x' s = if decide (s = t) then Z.of_nat b else slot V x s) ->
  file_ok V' (mark (Z.of_nat b) d) x'.
Proof.
  intros L [F1 F2 F3] Hb Hu Hx Ht E. destruct (free_data _ _ _ L Hb Hu) as (Hds & _ & H0).
  pose proof (ly_size _ _ L). pose proof (ly_len _ _ L).
  assert (forall s, (s <= 140)%nat -> slot V x s <> Z.of_nat b) as Hne.
  { intros s Hs E'. destruct (F2 s Hs) as [E0|[_ E0]]; [lia|]. congruence. }
  split; [done|..].
  - intros s Hs. rewrite E by done. case_decide; [right|].
    + split; [lia|]. rewrite used_mark by lia. by rewrite bool_decide_eq_true_2.
    + destruct (F2 s Hs) as [->|]; [by left|right]. apply owned_mark; try done; lia.
  - intros s s' Hs Hs'. rewrite !E by done. repeat case_decide; subst; try done.
    + intros E'. by destruct (Hne s' Hs').
    + intros E'. by destruct (Hne s Hs).
    + by apply F3.
Qed.

(** The view after [balloc] has returned [b]. *)
Definition claimed (b : nat) (d : list Z) (V : bview) : bview := vset b zero_block (vset bm (mark (Z.of_nat b) d) V).

Lemma claimed_lookup V d b c :
  layout V d -> 0 <= Z.of_nat b < size -> used d (Z.of_nat b) = false ->
  vcur (claimed b d V) !! c =
    if decide (c = b) then Some zero_block else if decide (c = bm) then Some (mark (Z.of_nat b) d) else vcur V !! c.
Proof.
  intros L Hb Hu. pose proof (ly_fits _ _ L). pose proof (lookup_lt_Some _ _ _ (ly_map _ _ L)). unfold claimed, vset. cbn.
  repeat case_decide; subst; rewrite ?list_lookup_insert_ne by done.
  - rewrite list_lookup_insert_eq; [done|]. rewrite length_insert. lia.
  - by rewrite list_lookup_insert_eq.
  - done.
Qed.

Lemma claimed_block V d b a :
  layout V d -> 0 <= Z.of_nat b < size -> used d (Z.of_nat b) = false -> owned d a ->
  block (claimed b d V) a = block V a.
Proof.
  intros L Hb Hu [H1 H2]. unfold block. pose proof (ly_bm _ _ L). rewrite claimed_lookup by done.
  rewrite !decide_False; [done| |]; [lia|]. intros <-. rewrite Z2Nat.id in Hu by lia. congruence.
Qed.

Lemma claimed_fresh V d b : layout V d -> 0 <= Z.of_nat b < size -> used d (Z.of_nat b) = false ->
  block (claimed b d V) (Z.of_nat b) = zero_block.
Proof. intros L Hb Hu. unfold block. rewrite claimed_lookup by done. by rewrite decide_True by lia. Qed.

(** The slots of the file still have their blocks. *)
Lemma claimed_slot V d x b s :
  layout V d -> file_ok V d x -> 0 <= Z.of_nat b < size -> used d (Z.of_nat b) = false ->
  (s <= 140)%nat -> slot (claimed b d V) x s = slot V x s.
Proof.
  intros L F Hb Hu Hs. unfold slot. case_decide; [done|]. destruct (ind_addr x =? 0) eqn:E; [done|]. b2p.
  rewrite claimed_block; try done. destruct (fo_slot _ _ _ F 12 ltac:(lia)) as [H0|H0]; by rewrite slot_ind in H0.
Qed.

Lemma claimed_layout V d b :
  layout V d -> 0 <= Z.of_nat b < size -> used d (Z.of_nat b) = false -> layout (claimed b d V) (mark (Z.of_nat b) d).
Proof.
  intros L Hb Hu. destruct (free_data _ _ _ L Hb Hu) as (_ & Hne & _). eapply layout_mark; [done|done| |].
  - rewrite claimed_lookup by done. rewrite decide_False, decide_True by done. done.
  - cbn. by rewrite !length_insert.
Qed.

Lemma used_marked V d b a : layout V d -> 0 <= Z.of_nat b < size -> 0 <= a < size -> used d a = true ->
  used (mark (Z.of_nat b) d) a = true.
Proof.
  intros L Hb Ha Hu. pose proof (ly_size _ _ L). pose proof (ly_len _ _ L). rewrite used_mark by lia.
  by rewrite Hu, orb_true_r.
Qed.

Lemma marked_used V d b a : layout V d -> 0 <= Z.of_nat b < size -> 0 <= a < size ->
  used (mark (Z.of_nat b) d) a = true -> used d a = true \/ a = Z.of_nat b.
Proof.
  intros L Hb Ha. pose proof (ly_size _ _ L). pose proof (ly_len _ _ L). rewrite used_mark by lia.
  intros [E%bool_decide_eq_true|E]%orb_true_iff; [by right|by left].
Qed.

Definition put_slot (t b : nat) (x : inode) : inode := set_i_addrs (<[t := Z.of_nat b]> (i_addrs x)) x.

(** [ip->addrs[t] = balloc(...)] *)
Lemma grown_direct V d x b t :
  layout V d -> file_ok V d x -> 0 <= Z.of_nat b < size -> used d (Z.of_nat b) = false ->
  (t <= 12)%nat -> slot V x t = 0 ->
  grown V d x (claimed b d V) (mark (Z.of_nat b) d) (put_slot t b x).
Proof.
  intros L F Hb Hu Ht Hz. pose proof (fo_addrs _ _ _ F) as La. set (x' := put_slot t b x). set (V' := claimed b d V).
  assert (forall s, (s <= 140)%nat -> slot V' x' s = if decide (s = t) then Z.of_nat b else slot V x s) as E.
  { intros s Hs. case_decide as Est.
    - subst s. unfold slot. rewrite decide_True by done. unfold x'. cbn. by rewrite list_lookup_insert_eq by lia.
    - rewrite <- (claimed_slot V d x b s) by done. fold V'. unfold slot. case_decide.
      + unfold x'. cbn. by rewrite list_lookup_insert_ne by done.
      + destruct (decide (t = 12%nat)) as [->|Hne].
        * rewrite slot_ind in Hz. rewrite Hz, Z.eqb_refl. unfold ind_addr, x'. cbn. rewrite list_lookup_insert_eq by lia. cbn.
          unfold V'. rewrite claimed_fresh by done. case_match; [done|]. apply get32_zero.
        * replace (ind_addr x') with (ind_addr x); [done|]. unfold ind_addr, x'. cbn. by rewrite list_lookup_insert_ne. }
  assert (layout V' (mark (Z.of_nat b) d)) as L' by (by apply claimed_layout).
  destruct (free_data _ _ _ L Hb Hu) as (_ & _ & H0). split; try done.
  - eapply file_claims; try done. unfold x'. cbn. by rewrite length_insert.
  - cbn. by rewrite !length_insert.
  - cbn. by do 2 apply union_subseteq_l'.
  - intros a Ha. by eapply used_marked.
  - intros s Hs Hn. rewrite E by done. rewrite decide_False; [done|]. intros ->. done.
  - intros s Hs Hn. unfold contents. rewrite E by done. case_decide.
    + subst s. rewrite Hz, Z.eqb_refl, (proj2 (Z.eqb_neq _ _)) by lia. by apply claimed_fresh.
    + destruct (fo_slot _ _ _ F s Hs) as [->|Ho]; [done|]. case_match; [done|]. by apply claimed_block.
  - intros s Hs Hn. rewrite E by done. case_decide; [by right|by left].
  - intros a Ha [?| ->]%(marked_used V d b a L Hb Ha); [by left|right]. exists t. split; [lia|]. rewrite E by lia. by rewrite decide_True.
  - intros c Hc Huc Hne. left. unfold V'. rewrite claimed_lookup by done. rewrite !decide_False; [done|done|]. intros ->. congruence.
Qed.

(** [a[t - 13] = balloc(...); log_write(bp)] in the indirect block *)
Definition put_entry (t b : nat) (x : inode) (d : list Z) (V : bview) : bview :=
  vset (Z.to_nat (ind_addr x)) (put32 (4 * (Z.of_nat t - 13)) (Z.of_nat b) (block V (ind_addr x))) (claimed b d V).

Lemma put_entry_block V d x b t c :
  layout V d -> owned d (ind_addr x) ->
  block (put_entry t b x d V) c = if decide (Z.to_nat c = Z.to_nat (ind_addr x))
    then put32 (4 * (Z.of_nat t - 13)) (Z.of_nat b) (block V (ind_addr x)) else block (claimed b d V) c.
Proof.
  intros L [Ha _]. pose proof (ly_fits _ _ L). unfold put_entry. apply block_vset. cbn. rewrite !length_insert. lia.
Qed.

Lemma put_entry_slot V d x b t s :
  layout V d -> owned d (ind_addr x) -> 0 <= Z.of_nat b < size -> (13 <= t <= 140)%nat -> ind_addr x <> 0 ->
  length (block V (ind_addr x)) = 512%nat ->
  slot (put_entry t b x d V) x s = if decide (s = t) then Z.of_nat b else slot V x s.
Proof.
  intros L Ha Hb Ht Hi Hl. pose proof (ly_size _ _ L). unfold slot.
  rewrite (proj2 (Z.eqb_neq _ _)) by done. case_decide; [rewrite decide_False by lia; done|].
  rewrite put_entry_block, decide_True by done. case_decide.
  - subst s. rewrite get32_put32 by lia. apply u32_small. unfold is_u32. lia.
  - rewrite get32_put32_ne by lia. done.
Qed.

Lemma grown_indirect V d x b t :
  layout V d -> file_ok V d x -> 0 <= Z.of_nat b < size -> used d (Z.of_nat b) = false ->
  (13 <= t <= 140)%nat -> slot V x t = 0 -> ind_addr x <> 0 -> length (block V (ind_addr x)) = 512%nat ->
  grown V d x (put_entry t b x d V) (mark (Z.of_nat b) d) x.
Proof.
  intros L F Hb Hu Ht Hz Hi Hl. set (V' := put_entry t b x d V). set (a := ind_addr x) in *.
  assert (owned d a) as Ha by (destruct (fo_slot _ _ _ F 12 ltac:(lia)) as [H0|H0]; by rewrite slot_ind in H0).
  pose proof (ly_bm _ _ L). destruct (Ha) as [Ha1 Ha2].
  assert (forall s, slot V' x s = if decide (s = t) then Z.of_nat b else slot V x s) as E by (intros; by apply put_entry_slot).
  destruct (free_data _ _ _ L Hb Hu) as (Hds & _ & H0).
  assert (Z.of_nat b <> a) as Hba by (intros <-; congruence). split; try done.
  - eapply layout_mark; [done|done| |].
    + unfold V', put_entry, vset. cbn [vcur]. rewrite list_lookup_insert_ne by (fold a; lia). by apply (claimed_layout V d b).
    + cbn. by rewrite !length_insert.
  - eapply file_claims; try done. apply F.
  - cbn. by rewrite !length_insert.
  - cbn. by do 3 apply union_subseteq_l'.
  - intros c Hc. by eapply used_marked.
  - intros s Hs Hn. rewrite E, decide_False; [done|]. intros ->. done.
  - intros s Hs Hn. unfold contents. rewrite E. case_decide.
    + subst s. rewrite Hz, Z.eqb_refl, (proj2 (Z.eqb_neq _ _)) by lia. unfold V'. rewrite put_entry_block, decide_False; [by apply claimed_fresh|fold a; lia|done|done].
    + destruct (fo_slot _ _ _ F s Hs) as [->|Ho]; [done|]. case_match eqn:Ec; [done|]. b2p.
      unfold V'. rewrite put_entry_block, decide_False; [by apply claimed_block| |done|done]. intros E'. apply Hn.
      apply (fo_inj _ _ _ F); [done|lia| |done]. rewrite slot_ind. fold a in E' |- *. destruct Ho. lia.
  - intros s Hs Hn. rewrite E. case_decide; [by right|by left].
  - intros c Hc [?| ->]%(marked_used V d b c L Hb Hc); [by left|right]. exists t. split; [lia|]. rewrite E. by rewrite decide_True.
  - intros c Hc Huc Hne. destruct (decide (Z.to_nat a = c)); [right; fold a; lia|left].
    unfold V', put_entry, vset. cbn [vcur]. rewrite list_lookup_insert_ne by done.
    change (vcur (claimed b d V) !! c = vcur V !! c).
    rewrite claimed_lookup by done. rewrite !decide_False; [done|done|]. intros ->. congruence.
  - by destruct x.
Qed.
End Inode.

(** ** Operations on inode [ip] *)

(** Only blocks, the log and inode [ip] change. *)
Definition touched (ip : nat) (k k' : kstate fstate) : Prop :=
  calm k k' /\ exists x, storage_only (set_inode (fun _ => x) ip (files k)) (files k').

Lemma set_inode_same ip s : set_inode (fun _ => inode_at s ip) ip s = s.
Proof.
  unfold set_inode, inode_at. replace (alter _ ip (ic_inode (icache s))) with (ic_inode (icache s)).
  - by destruct s as [? ? ? [] ? ? ? ?].
  - apply list_eq. intros j. rewrite list_lookup_alter. case_decide; [subst|done]. by destruct (_ !! j).
Qed.

Lemma set_inode_twice f g ip s : set_inode f ip (set_inode g ip s) = set_inode (f ∘ g) ip s.
Proof. unfold set_inode. cbn. by rewrite list_alter_alter_eq. Qed.

Lemma storage_set_inode f ip s s' : storage_only s s' -> storage_only (set_inode f ip s) (set_inode f ip s').
Proof. unfold storage_only. intros ->. done. Qed.

#[export] Instance touched_preorder ip : PreOrder (touched ip).
Proof.
  split.
  - intros k. split; [done|]. exists (inode_at (files k) ip). by rewrite set_inode_same.
  - intros k1 k2 k3 [C1 [x1 S1]] [C2 [x2 S2]]. split; [by etrans|]. exists x2.
    apply (storage_set_inode (fun _ => x2) ip) in S1. rewrite set_inode_twice in S1. by etrans.
Qed.

Lemma stored_touched ip k k' : stored k k' -> touched ip k k'.
Proof. intros [C S]. split; [done|]. exists (inode_at (files k) ip). by rewrite set_inode_same. Qed.

(** [x] is in cache entry [ip]. *)
Abbreviation icached k ip := (ic_inode (icache (files k)) !! ip).

Lemma geti_at ip k x {A} (f : inode -> A) (Q : A -> kstate fstate -> Prop) :
  icached k ip = Some x -> Q (f x) k -> wp (geti ip f) k Q.
Proof. intros E HQ. unfold geti. wstep. unfold inode_at. by rewrite E. Qed.

Lemma get_addr_at ip k V x t (Q : Z -> kstate fstate -> Prop) :
  icached k ip = Some x -> length (i_addrs x) = 13%nat -> (t <= 12)%nat ->
  Q (slot V x t) k -> wp (get_addr ip (Z.of_nat t)) k Q.
Proof.
  intros E Hl Ht HQ. unfold get_addr. wstep. eapply geti_at; [done|]. rewrite Nat2Z.id.
  destruct (lookup_lt_is_Some_2 (i_addrs x) t) as [a Ha]; [lia|]. unfold slot in HQ. rewrite decide_True, Ha in HQ by done.
  rewrite Ha. exact HQ.
Qed.

Section Bmap.
Context `{DL : DiskLaws, KI : KernelImage, PO : !PageOps}.
Context (p : nat) (n : Z) (S0 m : nat) (s : superblock) (bm ds ip : nat) (T : gset nat) (e : nat).
Implicit Types k : kstate fstate.
Abbreviation tx := (tx p n S0 m).
Abbreviation layout := (layout bm ds (sb_size s)).
Abbreviation file_ok := (file_ok ds (sb_size s)).
Abbreviation grown := (grown bm ds (sb_size s)).

Hypothesis Hmap : one_map s bm.
Hypothesis Hlog : (S0 + m < ds)%nat.
Hypothesis HT : bm ∈ T.

Record ftx k V d x : Prop := {
  ft_tx : tx k V;
  ft_sb : sb (files k) = s;
  ft_ip : icached k ip = Some x;
  ft_dev : i_dev x = 1;
  ft_layout : layout V d;
  ft_ok : file_ok V d x;
  ft_bm : ~ in_log S0 m bm;
}.

(** The indirect block of the file, or the need for one. *)
Definition ind_set (x : inode) : gset nat := if ind_addr x =? 0 then ∅ else {[Z.to_nat (ind_addr x)]}.
Definition missing (x : inode) : nat := if ind_addr x =? 0 then 1%nat else 0%nat.

(** The log has room for [r] more blocks, and the disk for [e] besides. *)
Definition budget (r : nat) (V : bview) (d : list Z) (x : inode) : Prop :=
  room m (T ∪ ind_set x) (r + missing x) V /\ (e + r + missing x <= nfree (sb_size s) d)%nat.

(** [ip->field = ...] *)
Lemma seti_tx k V x f (Q : unit -> kstate fstate -> Prop) :
  tx k V -> icached k ip = Some x ->
  (forall k', touched ip k k' -> sb (files k') = sb (files k) -> tx k' V -> icached k' ip = Some (f x) -> Q tt k') ->
  wp (seti ip f) k Q.
Proof.
  intros H E HQ. unfold seti. wstep. assert (calm k (set_files (set_inode f ip (files k)) k)) by (by apply calm_set_files).
  apply HQ; [| | |].
  - split; [done|]. exists (f x). replace (set_inode (fun _ => f x) ip (files k)) with (set_inode f ip (files k)); [done|].
    unfold set_inode. do 2 f_equal. apply list_alter_ext; [|done]. intros y Hy. congruence.
  - done.
  - eapply tx_ext; [exact H| |done..]. eapply quiet_calm; [apply H|done].
  - cbn. rewrite list_lookup_alter, decide_True by done. by rewrite E.
Qed.

Lemma ind_owned V d x : file_ok V d x -> ind_addr x <> 0 -> owned ds (sb_size s) d (ind_addr x).
Proof. intros F Hi. destruct (fo_slot _ _ _ _ _ F 12 ltac:(lia)) as [H0|H0]; by rewrite slot_ind in H0. Qed.

(** The only buffer held is that of the indirect block. *)
Definition holds_ind (V : bview) (x : inode) : Prop :=
  vheld V = ∅ \/ ind_addr x <> 0 /\ exists b, vheld V = {[Z.to_nat (ind_addr x) := b]}.

Lemma holds_ind_free V d x b : layout V d -> file_ok V d x -> holds_ind V x ->
  b = bm \/ used d (Z.of_nat b) = false -> vheld V !! b = None.
Proof.
  intros L F [->|(Hi & c & ->)] Hb; [done|]. destruct (ind_owned _ _ _ F Hi) as [H1 H2].
  apply lookup_singleton_ne. intros <-. pose proof (ly_bm _ _ _ _ _ L). destruct Hb as [?|Hb]; [lia|].
  rewrite Z2Nat.id in Hb by lia. congruence.
Qed.

Lemma holds_ind_size V x : holds_ind V x -> (size (dom (vheld V)) <= 1)%nat.
Proof. intros [->|(_ & c & ->)]; [rewrite dom_empty_L, size_empty; lia|rewrite dom_singleton_L, size_singleton; lia]. Qed.

Lemma balloc_ftx k V d x r (T' : gset nat) :
  ftx k V d x -> holds_ind V x -> room m T' (S r) V -> bm ∈ T' -> (0 < nfree (sb_size s) d)%nat ->
  wp (balloc 1) k (fun a k' => exists b, a = Z.of_nat b /\ 0 <= Z.of_nat b < sb_size s /\ used d (Z.of_nat b) = false /\
    stored k k' /\ tx k' (claimed bm b d V) /\ room m T' r (claimed bm b d V)).
Proof.
  intros [H1 H2 H3 H4 H5 H6 H7] Hh R Hbm Hn.
  eapply wp_mono; [apply (balloc_tx p n S0 m s bm Hmap k V T' r d); try done|].
  - apply H5.
  - by eapply holds_ind_free; [..|left].
  - by eapply holds_ind_size.
  - apply H5.
  - intros b Hb Hu. destruct (free_data _ _ _ _ _ _ H5 Hb Hu) as (Hd & Hne & _). split_and!; [unfold in_log; lia|done|].
    eapply holds_ind_free; [done|done|done|by right].
  - intros a k' (b & -> & Hb & Hu & S & Ht & R'). by exists b.
Qed.

(** [ip->addrs[t] = addr = balloc(ip->dev)] *)
Lemma alloc_slot k V d x r f t :
  ftx k V d x -> vheld V = ∅ -> (t <= 12)%nat -> slot V x t = 0 ->
  room m (T ∪ ind_set x) (S r) V -> (S f <= nfree (sb_size s) d)%nat ->
  wp (addr ← balloc 1; set_addr ip (Z.of_nat t) addr;; mret addr) k (fun a k' => exists b V' d', a = Z.of_nat b /\ a <> 0 /\
    touched ip k k' /\ ftx k' V' d' (put_slot t b x) /\ grown V d x V' d' (put_slot t b x) /\
    room m (T ∪ ind_set x) r V' /\ (f <= nfree (sb_size s) d')%nat /\ b ∈ vdirty V').
Proof.
  intros H Hh Ht Hz R Hn. wstep.
  eapply wp_mono; [apply (balloc_ftx k V d x r (T ∪ ind_set x)); [done|by left|done|by apply elem_of_union_l|lia]|].
  intros a k1 (b & -> & Hb & Hu & S1 & H1 & R1). destruct H as [Htx Hsb Hip Hdev L F Hbm].
  assert (icached k1 ip = Some x) as Hip1 by (by rewrite (stored_icache _ _ S1)).
  unfold set_addr. wstep. eapply (seti_tx k1 _ x); [done|done|]. intros k2 T2 E2 H2 Hip2. rewrite Nat2Z.id in Hip2. wstep.
  pose proof (grown_direct bm ds (sb_size s) V d x b t L F Hb Hu Ht Hz) as G.
  destruct (free_data _ _ _ _ _ _ L Hb Hu) as (_ & _ & H0). pose proof (ly_size _ _ _ _ _ L). pose proof (ly_len _ _ _ _ _ L).
  exists b, (claimed bm b d V), (mark (Z.of_nat b) d). split_and!; try done; [lia| | | |].
  - etrans; [by apply stored_touched|done].
  - split; try done; [by rewrite E2, (stored_sb _ _ S1)|apply G|apply G].
  - rewrite (nfree_mark _ d (Z.of_nat b)) in Hn by (done || lia). lia.
  - cbn. by apply elem_of_union_r, elem_of_singleton.
Qed.

Lemma ind_put_slot t b x : t <> 12%nat -> ind_addr (put_slot t b x) = ind_addr x.
Proof. intros Ht. unfold ind_addr, put_slot. cbn. by rewrite list_lookup_insert_ne. Qed.

Lemma ind_put_ind b x : length (i_addrs x) = 13%nat -> ind_addr (put_slot 12 b x) = Z.of_nat b.
Proof. intros Hl. unfold ind_addr, put_slot. cbn. by rewrite list_lookup_insert_eq by lia. Qed.

(** The indirect block, which has been allocated if there was none. *)
Lemma alloc_ind k V d x r :
  ftx k V d x -> vheld V = ∅ -> budget r V d x ->
  wp (addr ← get_addr ip NDIRECT;
      (if negb (addr =? 0) then mret addr else addr ← balloc 1; set_addr ip NDIRECT addr;; mret addr)) k
    (fun a k' => exists V' d' x', a = ind_addr x' /\ a <> 0 /\ touched ip k k' /\ ftx k' V' d' x' /\
      grown V d x V' d' x' /\ budget r V' d' x' /\ (ind_addr x <> 0 -> V' = V /\ x' = x)).
Proof.
  intros H Hh [R Hn]. destruct (H) as [Htx Hsb Hip Hdev L F Hbm]. wstep. change NDIRECT with (Z.of_nat 12).
  eapply (get_addr_at ip k V x 12); [done|apply F|lia|]. rewrite slot_ind. destruct (ind_addr x =? 0) eqn:E; cbn [negb]; b2p.
  - unfold missing in *. rewrite E, Z.eqb_refl, !Nat.add_1_r in *. eapply wp_mono; [apply (alloc_slot k V d x r (e + r) 12); try done; lia|].
    intros a k1 (b & V' & d' & -> & Hb0 & T1 & H1 & G & R1 & Hn1 & Hdb). exists V', d', (put_slot 12 b x).
    pose proof (ind_put_ind b x (fo_addrs _ _ _ _ _ F)) as Ei. split_and!; try done. unfold budget, ind_set, missing in *.
    rewrite Ei. rewrite (proj2 (Z.eqb_neq _ _)), !Nat.add_0_r by done. rewrite E, Z.eqb_refl in R1. split; [|done].
    unfold room in *. rewrite Nat2Z.id. rewrite union_empty_r_L in R1. replace (vdirty V' ∪ (T ∪ {[b]})) with (vdirty V' ∪ T); [done|].
    apply leibniz_equiv. intros y. rewrite !elem_of_union, elem_of_singleton. split; [tauto|]. intros [?|[?| ->]]; tauto.
  - wstep. exists V, d, x. split_and!; try done. by apply grown_refl.
Qed.

Lemma hold_layout i b V d : layout V d <-> layout (hold i b V) d.
Proof. split; intros []; by split. Qed.

Lemma hold_file_ok i b V d x : file_ok V d x <-> file_ok (hold i b V) d x.
Proof. split; intros []; by split. Qed.

(** The view with the buffer of the indirect block held. *)
Abbreviation hold_ind x bp V := (hold (Z.to_nat (ind_addr x)) bp V).

Lemma ind_data k V d x bp : ftx k (hold_ind x bp V) d x -> ind_addr x <> 0 ->
  b_data (buf_at (files k) bp) = block V (ind_addr x) /\ length (block V (ind_addr x)) = 512%nat.
Proof.
  intros H Hi. pose proof (tx_data _ _ _ _ _ _ _ bp (ft_tx _ _ _ _ H) ltac:(apply lookup_insert_eq)) as Hd.
  pose proof (tx_block _ _ _ _ _ _ _ _ (ft_tx _ _ _ _ H) Hd) as Hl. unfold block. cbn in Hd. by rewrite Hd.
Qed.

(** A new entry in the indirect block, which is in buffer [bp]. *)
Lemma entry_new k V d x r bp bn :
  ftx k (hold_ind x bp V) d x -> vheld V = ∅ -> ind_addr x <> 0 -> (bn < 128)%nat ->
  budget (S r) V d x -> slot V x (13 + bn) = 0 ->
  wp (addr ← balloc 1;
      setb bp (fun b => set_b_data (put32 (4 * Z.of_nat bn) addr (b_data b)) b);;
      log_write bp;;
      mret addr) k (fun a k' => exists V' d', a = slot V' x (13 + bn) /\ a <> 0 /\ stored k k' /\
        ftx k' (hold_ind x bp V') d' x /\ grown V d x V' d' x /\ budget r V' d' x /\
        Z.to_nat a ∈ vdirty V' /\ Z.to_nat (ind_addr x) ∈ vdirty V').
Proof.
  intros H Hh Hi Hbn [R Hn] Hz. destruct (H) as [Htx Hsb Hip Hdev L F Hbm]. destruct (ind_data _ _ _ _ _ H Hi) as [Hd Ld].
  set (i := Z.to_nat (ind_addr x)) in *. apply hold_layout in L. apply hold_file_ok in F. cbn [Nat.add] in R, Hn. wstep.
  eapply wp_mono; [apply (balloc_ftx k (hold i bp V) d x (r + missing x) (T ∪ ind_set x) H); [|done|by apply elem_of_union_l|lia]|].
  { right. split; [done|]. exists bp. cbn. by rewrite Hh. }
  intros a k1 (b & -> & Hb & Hu & S1 & H1 & R1).
  change (claimed bm b d (hold i bp V)) with (hold i bp (claimed bm b d V)) in H1.
  destruct (ind_owned _ _ _ F Hi) as [Ho1 Ho2]. pose proof (ly_size _ _ _ _ _ L). pose proof (ly_len _ _ _ _ _ L).
  pose proof (grown_indirect bm ds (sb_size s) V d x b (13 + bn) L F Hb Hu ltac:(lia) Hz Hi Ld) as G.
  eapply wp_bind_assoc_mono.
  { apply (put_tx p n S0 m k1 _ i bp _ (T ∪ ind_set x) (r + missing x) H1); [done|apply lookup_insert_eq|unfold in_log; lia|].
    intros y Hy. split; [done|]. cbn [b_data set_b_data]. by rewrite length_put32. }
  intros k2 [S2 Hx2]. cbn [b_data set_b_data] in Hx2. wstep.
  pose proof (tx_data _ _ _ _ _ _ i bp H1 ltac:(apply lookup_insert_eq)) as Hd1. cbn [vcur hold] in Hd1.
  assert (b_data (buf_at (files k1) bp) = block V (ind_addr x)) as Ed.
  { rewrite <- (claimed_block bm ds (sb_size s) V d b (ind_addr x)) by done. unfold block. fold i. by rewrite Hd1. }
  rewrite Ed in Hx2. change (pin i _) with (hold i bp (vset i (put32 (4 * Z.of_nat bn) (Z.of_nat b) (block V (ind_addr x))) (claimed bm b d V))) in Hx2.
  replace (4 * Z.of_nat bn) with (4 * (Z.of_nat (13 + bn) - 13)) in Hx2 by lia. fold (put_entry bm (13 + bn) b x d V) in Hx2.
  destruct (free_data _ _ _ _ _ _ L Hb Hu) as (_ & _ & Hb0).
  exists (put_entry bm (13 + bn) b x d V), (mark (Z.of_nat b) d). rewrite Nat2Z.id. split_and!.
  - rewrite put_entry_slot with (ds := ds) (size := sb_size s) by (done || lia). by rewrite decide_True.
  - lia.
  - by etrans.
  - split; try done; [by rewrite (stored_sb _ _ S2), (stored_sb _ _ S1)|by rewrite (stored_icache _ _ S2), (stored_icache _ _ S1)| |].
    + apply hold_layout, G.
    + apply hold_file_ok, G.
  - done.
  - split.
    + apply room_planned; [done|]. apply elem_of_union_r, elem_of_union_r. unfold ind_set.
      rewrite (proj2 (Z.eqb_neq _ _)) by done. by apply elem_of_singleton.
    + rewrite (nfree_mark _ d (Z.of_nat b)) in Hn by (done || lia). lia.
  - cbn. by apply elem_of_union_l, elem_of_union_r, elem_of_singleton.
  - cbn. by apply elem_of_union_r, elem_of_singleton.
Qed.

(** The result of [bmap]: a block of the file, taken from the budget if it is new. *)
Definition mapped r V d x bn k a k' : Prop := exists V' d' x',
  a = slot V' x' (slot_of bn) /\ a <> 0 /\ touched ip k k' /\ ftx k' V' d' x' /\ grown V d x V' d' x' /\
  (budget (S r) V' d' x' \/ budget r V' d' x' /\ Z.to_nat a ∈ vdirty V') /\
  (slot V x (slot_of bn) <> 0 -> V' = V /\ x' = x).

Lemma entry_ftx k V d x r bn :
  ftx k V d x -> vheld V = ∅ -> ind_addr x <> 0 -> (bn < 128)%nat -> budget (S r) V d x ->
  wp (bp ← bread 1 (ind_addr x);
      d ← getb bp b_data;
      addr ← (if negb (get32 d (4 * Z.of_nat bn) =? 0) then mret (get32 d (4 * Z.of_nat bn))
              else addr ← balloc 1;
                   setb bp (fun b => set_b_data (put32 (4 * Z.of_nat bn) addr (b_data b)) b);;
                   log_write bp;;
                   mret addr);
      brelse bp;;
      mret addr) k (mapped r V d x (12 + bn) k).
Proof.
  intros H Hh Hi Hbn Hbud. destruct (H) as [Htx Hsb Hip Hdev L F Hbm]. destruct (ind_owned _ _ _ F Hi) as [Ho _].
  set (i := Z.to_nat (ind_addr x)). assert (vheld V !! i = None) as Hhi by (by rewrite Hh).
  rewrite <- (Z2Nat.id (ind_addr x)) by lia. fold i. wstep.
  pose proof (ly_fits _ _ _ _ _ L).
  eapply wp_mono; [apply (bread_tx p n S0 m k V i (T ∪ ind_set x) (S r + missing x)); [done|apply Hbud|lia|done|]|].
  { rewrite Hh, dom_empty_L, size_empty. lia. }
  intros bp k1 [S1 Hx1].
  assert (ftx k1 (hold_ind x bp V) d x) as H1.
  { split; try done; [by rewrite (stored_sb _ _ S1)|by rewrite (stored_icache _ _ S1)|by apply hold_layout|by apply hold_file_ok]. }
  destruct (ind_data _ _ _ _ _ H1 Hi) as [Ed Ld]. unfold getb. wsteps. rewrite Ed.
  assert (get32 (block V (ind_addr x)) (4 * Z.of_nat bn) = slot V x (13 + bn)) as ->.
  { unfold slot. rewrite decide_False, (proj2 (Z.eqb_neq _ _)) by (done || lia). f_equal. lia. }
  eapply (wp_mono _ _ (fun a k' => exists V' d', a = slot V' x (13 + bn) /\ a <> 0 /\ stored k1 k' /\
    ftx k' (hold_ind x bp V') d' x /\ grown V d x V' d' x /\
    (budget (S r) V' d' x \/ budget r V' d' x /\ Z.to_nat a ∈ vdirty V') /\ (i ∈ vdirty V' \/ vcur V' !! i = vdisk V' !! i) /\ (slot V x (13 + bn) <> 0 -> V' = V))).
  - destruct (slot V x (13 + bn) =? 0) eqn:E; cbn [negb]; b2p.
    + eapply wp_mono; [by apply (entry_new k1 V d x r bp bn)|]. intros a k2 (V' & d' & H2). exists V', d'. naive_solver.
    + wstep. exists V, d. split_and!; try done; [by apply grown_refl|by left|by apply (tx_clean p n S0 m k)].
  - intros a k2 (V' & d' & -> & Ha & S2 & H2 & G & Hb & Hcl & Hsame). wstep.
    assert (vheld V' = ∅) as Hh' by (by rewrite (gr_held _ _ _ _ _ _ _ _ _ G)).
    eapply wp_mono; [apply (brelse_tx p n S0 m k2 _ i bp (ft_tx _ _ _ _ H2)); [apply lookup_insert_eq|done]|].
    intros [] k3 [S3 H3]. wstep. rewrite unhold_hold in H3 by (by rewrite Hh').
    exists V', d', x. replace (slot_of (12 + bn)) with (13 + bn)%nat by (unfold slot_of; rewrite decide_False; lia).
    split_and!; try done.
    + apply stored_touched. etrans; [exact S1|]. by etrans.
    + destruct H2 as [_ K2 K3 K4 K5 K6 K7].
      split; try done; [by rewrite (stored_sb _ _ S3)|by rewrite (stored_icache _ _ S3)|by apply hold_layout in K5|by apply hold_file_ok in K6].
    + intros Hs. by rewrite (Hsame Hs).
Qed.

Lemma bmap_ftx k V d x r bn :
  ftx k V d x -> vheld V = ∅ -> (bn < 140)%nat -> budget (S r) V d x ->
  wp (bmap ip (Z.of_nat bn)) k (mapped r V d x bn k).
Proof.
  intros H Hh Hbn Hbud. destruct (H) as [Htx Hsb Hip Hdev L F Hbm]. unfold bmap. wstep. eapply geti_at; [done|]. rewrite Hdev.
  unfold NDIRECT at 1. destruct (Z.ltb_spec (Z.of_nat bn) 12).
  - assert (slot_of bn = bn) as Es by (unfold slot_of; rewrite decide_True; lia). wstep.
    eapply (get_addr_at ip k V x bn); [done|apply F|lia|]. destruct (slot V x bn =? 0) eqn:E; cbn [negb]; b2p.
    + destruct Hbud as [R Hn]. eapply wp_mono; [apply (alloc_slot k V d x (r + missing x) (e + r + missing x) bn); try done; lia|].
      intros a k1 (b & V' & d' & -> & Ha & T1 & H1 & G & R1 & Hn1 & Hd). exists V', d', (put_slot bn b x).
      rewrite Es. pose proof (ind_put_slot bn b x ltac:(lia)) as Ei. split_and!; try done.
      * unfold slot. rewrite decide_True by lia. unfold put_slot. cbn. rewrite list_lookup_insert_eq; [done|].
        rewrite (fo_addrs _ _ _ _ _ F). lia.
      * right. rewrite Nat2Z.id. split; [|done]. unfold budget, ind_set, missing in *. by rewrite Ei.
    + wstep. exists V, d, x. rewrite Es. split_and!; try done; [by apply grown_refl|by left].
  - assert (Z.of_nat bn - NDIRECT = Z.of_nat (bn - 12)) as -> by (unfold NDIRECT; lia). change NINDIRECT with 128.
    rewrite (proj2 (Z.ltb_lt _ _)) by lia. apply wp_assoc. wstep.
    eapply wp_mono; [by apply (alloc_ind k V d x (S r))|]. intros a k1 (V1 & d1 & x1 & -> & Hi & T1 & H1 & G1 & Hb1 & Hs1).
    eapply wp_mono; [apply (entry_ftx k1 V1 d1 x1 r (bn - 12)); try done|].
    + by rewrite (gr_held _ _ _ _ _ _ _ _ _ G1).
    + lia.
    + intros a k2 (V2 & d2 & x2 & H2 & Ha & T2 & H3 & G2 & Hb2 & Hs2).
      replace (12 + (bn - 12))%nat with bn in H2, Hs2 by lia. exists V2, d2, x2. split_and!; try done; [by etrans| |].
      * eapply grown_trans; [exact L|exact G1|exact G2].
      * intros Hs. assert (ind_addr x <> 0) as Hi0.
        { intros E. apply Hs. unfold slot. rewrite decide_False by (unfold slot_of; rewrite decide_False; lia). by rewrite E. }
        destruct (Hs1 Hi0) as [-> ->]. by apply Hs2.
Qed.
End Bmap.
