(* ===== verification/FsDinode.v ===== *)
(** * Inodes on disk: iupdate writes what ilock reads *)

From S2P Require Import Prelude Memory Mmu Machine Spinlock Kalloc Vm PageTable VmProofs VmSpaces.
From S2P Require Import Encrypt ProcTable Clock ClockProofs Proc ProcProofs FileState Sleeplock Bio BioProofs Log LogProofs.
From S2P Require Import Ulib Cprintf Fs.

Lemma byte_at_put16 i v l j : 0 <= i -> 0 <= j -> (Z.to_nat i + 2 <= length l)%nat -> j < i \/ i + 2 <= j ->
  byte_at (put16 i v l) j = byte_at l j.
Proof. intros Hi Hj Hl Hne. unfold put16. rewrite byte_at_put by (cbn; lia). rewrite decide_False; [done|]. cbn. lia. Qed.

Lemma byte_at_put32 i v l j : 0 <= i -> 0 <= j -> (Z.to_nat i + 4 <= length l)%nat -> j < i \/ i + 4 <= j ->
  byte_at (put32 i v l) j = byte_at l j.
Proof. intros Hi Hj Hl Hne. unfold put32. rewrite byte_at_put by (cbn; lia). rewrite decide_False; [done|]. cbn. lia. Qed.

Lemma length_put16 i v l : length (put16 i v l) = length l.
Proof. apply length_put_bytes. Qed.

Lemma get16_put16 i v l : 0 <= i -> (Z.to_nat i + 2 <= length l)%nat -> get16 (put16 i v l) i = v mod 65536.
Proof.
  intros Hi Hl. unfold get16, put16. rewrite !byte_at_put by (cbn; lia). cbn [length bytes16].
  rewrite !decide_True by lia. rewrite Z2Nat.id by lia.
  replace (i - i) with 0 by lia. replace (i + 1 - i) with 1 by lia. unfold byte_at, bytes16. simpl. unfold u8. dlia.
Qed.

Lemma length_put_addrs l : forall o d, length (put_addrs o l d) = length d.
Proof. induction l as [|a l IH]; intros o d; cbn [put_addrs]; [done|]. by rewrite IH, length_put32. Qed.

Lemma byte_at_put_addrs l : forall o d j,
  0 <= o -> 0 <= j -> (Z.to_nat o + 4 * length l <= length d)%nat -> j < o \/ o + 4 * Z.of_nat (length l) <= j ->
  byte_at (put_addrs o l d) j = byte_at d j.
Proof.
  induction l as [|a l IH]; intros o d j Ho Hj Hd Hne; cbn [put_addrs]; [done|]. cbn [length] in *.
  rewrite IH by (rewrite ?length_put32; lia). apply byte_at_put32; lia.
Qed.

Lemma get32_put_addrs l : forall o d t a,
  0 <= o -> (Z.to_nat o + 4 * length l <= length d)%nat -> l !! t = Some a ->
  get32 (put_addrs o l d) (o + 4 * Z.of_nat t) = u32 a.
Proof.
  induction l as [|b l IH]; intros o d t a Ho Hd Ht; [done|]. cbn [put_addrs length] in *. destruct t as [|t].
  - injection Ht as ->. rewrite Z.add_0_r. unfold get32. rewrite !byte_at_put_addrs by (rewrite ?length_put32; lia).
    fold (get32 (put32 o a d) o). apply get32_put32; lia.
  - replace (o + 4 * Z.of_nat (S t)) with (o + 4 + 4 * Z.of_nat t) by lia. apply IH; [lia|rewrite length_put32; lia|done].
Qed.

(** The fields are in range. *)
Record dinode_ok (x : inode) : Prop := {
  dk_type : -32768 <= i_type x < 32768;
  dk_major : -32768 <= i_major x < 32768;
  dk_minor : -32768 <= i_minor x < 32768;
  dk_nlink : -32768 <= i_nlink x < 32768;
  dk_size : is_u32 (i_size x);
  dk_addrs : length (i_addrs x) = 13%nat /\ Forall is_u32 (i_addrs x);
}.

Lemma i16_mod v : -32768 <= v < 32768 -> i16 (v mod 65536) = v.
Proof. intros H. unfold i16. rewrite Z.mod_mod by lia. case_match; b2p; dlia. Qed.

(** An inode of the block at [o]. *)
Definition dinode_at (d : list Z) (o : Z) : Prop := 0 <= o /\ (Z.to_nat o + 64 <= length d)%nat.

Lemma put_dinode_other o x d j : dinode_at d o -> length (i_addrs x) = 13%nat -> 0 <= j -> j < o \/ o + 64 <= j ->
  byte_at (put_dinode o x d) j = byte_at d j.
Proof.
  intros [Ho Hd] Hl Hj Hne. unfold put_dinode.
  rewrite byte_at_put_addrs by (rewrite ?length_put32, ?length_put16; lia).
  rewrite byte_at_put32, !byte_at_put16 by (rewrite ?length_put16; lia). done.
Qed.

Lemma length_put_dinode o x d : length (put_dinode o x d) = length d.
Proof. unfold put_dinode. by rewrite length_put_addrs, length_put32, !length_put16. Qed.

Lemma get16_put16_ne i v l j : 0 <= i -> 0 <= j -> (Z.to_nat i + 2 <= length l)%nat -> j + 2 <= i \/ i + 2 <= j ->
  get16 (put16 i v l) j = get16 l j.
Proof. intros Hi Hj Hl Hne. unfold get16. by rewrite !byte_at_put16 by lia. Qed.

(** The fields of two bytes are not in the last 56. *)
Lemma get16_put_dinode o x d j : dinode_at d o -> length (i_addrs x) = 13%nat -> o <= j -> j + 2 <= o + 8 ->
  get16 (put_dinode o x d) j = get16 (put16 (o + 6) (i_nlink x) (put16 (o + 4) (i_minor x)
    (put16 (o + 2) (i_major x) (put16 o (i_type x) d)))) j.
Proof.
  intros [Ho Hd] Hl H1 H2. unfold put_dinode, get16.
  rewrite !byte_at_put_addrs by (rewrite ?length_put32, ?length_put16; lia).
  by rewrite !byte_at_put32 by (rewrite ?length_put16; lia).
Qed.

Ltac field16 :=
  rewrite get16_put_dinode by (done || lia);
  repeat (rewrite get16_put16_ne by (rewrite ?length_put16; lia));
  rewrite get16_put16 by (rewrite ?length_put16; lia); by apply i16_mod.

Lemma get_put_dinode o x d : dinode_at d o -> dinode_ok x -> get_dinode o (put_dinode o x d) x = x.
Proof.
  intros D [H1 H2 H3 H4 H5 [H6 H7]]. destruct (D) as [Ho Hd].
  assert (i16 (get16 (put_dinode o x d) o) = i_type x) as E1 by field16.
  assert (i16 (get16 (put_dinode o x d) (o + 2)) = i_major x) as E2 by field16.
  assert (i16 (get16 (put_dinode o x d) (o + 4)) = i_minor x) as E3 by field16.
  assert (i16 (get16 (put_dinode o x d) (o + 6)) = i_nlink x) as E4 by field16.
  assert (get32 (put_dinode o x d) (o + 8) = i_size x) as E5.
  { unfold put_dinode, get32. rewrite !byte_at_put_addrs by (rewrite ?length_put32, ?length_put16; lia).
    match goal with |- context [byte_at (put32 ?i ?v ?l) ?i] => fold (get32 (put32 i v l) i) end.
    rewrite get32_put32 by (rewrite ?length_put16; lia). by apply u32_small. }
  assert (addrs_of (put_dinode o x d) o = i_addrs x) as E6.
  { unfold addrs_of. apply list_eq. intros t. rewrite list_lookup_fmap.
    destruct (decide (t < 13)%nat) as [Ht|Ht].
    - rewrite lookup_seq_lt by done. cbn [fmap option_fmap option_map Nat.add]. destruct (lookup_lt_is_Some_2 (i_addrs x) t) as [a Ha]; [lia|].
      unfold put_dinode. rewrite (get32_put_addrs _ _ _ t a) by (rewrite ?length_put32, ?length_put16; done || lia).
      rewrite Ha, u32_small; [done|]. by apply (Forall_lookup_1 _ _ _ _ H7 Ha).
    - rewrite lookup_seq_ge by lia. symmetry. apply lookup_ge_None. lia. }
  unfold get_dinode. rewrite E1, E2, E3, E4, E5, E6. by destruct x.
Qed.

Lemma get_put_dinode_other o o' x y d :
  dinode_at d o -> dinode_at d o' -> length (i_addrs x) = 13%nat -> o' + 64 <= o \/ o + 64 <= o' ->
  get_dinode o' (put_dinode o x d) y = get_dinode o' d y.
Proof.
  intros Ho [Ho' Hd'] Hl Hne. unfold get_dinode, get16, get32, addrs_of.
  rewrite !put_dinode_other by (done || lia). f_equal. apply list_fmap_ext. intros t j Hj. apply lookup_seq in Hj as [-> Hj].
  unfold get32. by rewrite !put_dinode_other by (done || lia).
Qed.
