(* ===== verification/FsRead.v ===== *)
(** * Reading files: readi

    The bytes of a file, and [readi] as the function that copies them. *)

From S2P Require Import Prelude Memory Mmu Machine Spinlock Kalloc Vm PageTable VmProofs VmSpaces.
From S2P Require Import Encrypt ProcTable Clock ClockProofs Proc ProcProofs FileState Sleeplock Bio BioProofs Log LogProofs LogCommit LogOps.
From S2P Require Import Ulib Cprintf Fs Pipe PipeProofs FsBlocks FsInode.

(** Byte [o] of the file, and [n] bytes from [o]. *)
Definition fbyte (V : bview) (x : inode) (o : nat) : Z :=
  default 0 (contents V x (slot_of (o / 512)) !! (o mod 512)%nat).
Definition fbytes (V : bview) (x : inode) (o n : nat) : list Z := fbyte V x <$> seq o n.

Lemma length_fbytes V x o n : length (fbytes V x o n) = n.
Proof. unfold fbytes. by rewrite length_fmap, length_seq. Qed.

Lemma fbytes_app V x o a b : fbytes V x o (a + b) = fbytes V x o a ++ fbytes V x (o + a) b.
Proof. unfold fbytes. by rewrite seq_app, fmap_app. Qed.

(** The bytes of one block. *)
Lemma fbytes_block V x o n :
  length (contents V x (slot_of (o / 512))) = 512%nat -> (o mod 512 + n <= 512)%nat ->
  fbytes V x o n = take n (drop (o mod 512) (contents V x (slot_of (o / 512)))).
Proof.
  intros Hl Hn. apply list_eq_same_length with n; [by rewrite length_take, length_drop, Hl; lia|apply length_fbytes|].
  intros i a b Hi Ha Hb. unfold fbytes in Ha. apply list_lookup_fmap_Some in Ha as (j & -> & Hj).
  apply lookup_seq in Hj as [-> _]. rewrite lookup_take_lt, lookup_drop in Hb by lia.
  unfold fbyte. assert (((o + i) / 512 = o / 512) /\ ((o + i) mod 512 = o mod 512 + i))%nat as [-> ->].
  { pose proof (Nat.div_mod_eq o 512). pose proof (Nat.mod_upper_bound o 512 ltac:(lia)).
    rewrite <- (Nat.div_unique (o + i) 512 (o / 512) (o mod 512 + i)), <- (Nat.mod_unique (o + i) 512 (o / 512) (o mod 512 + i)) by lia. done. }
  by rewrite Hb.
Qed.

(** How many blocks [n] bytes from [o] are in, and the bytes of the first. *)
Definition nblocks (o n : nat) : nat := if decide (n = 0)%nat then 0%nat else ((o mod 512 + n + 511) / 512)%nat.
Definition chunk (o n : nat) : nat := Nat.min n (512 - o mod 512).

Lemma mod512 o : (o mod 512 < 512)%nat.
Proof. apply Nat.mod_upper_bound. lia. Qed.

Lemma chunk_range o n : (0 < n)%nat -> (0 < chunk o n <= n /\ o mod 512 + chunk o n <= 512)%nat.
Proof. unfold chunk. pose proof (mod512 o). lia. Qed.

Lemma nblocks_chunk o n : (0 < n)%nat -> nblocks o n = S (nblocks (o + chunk o n) (n - chunk o n)).
Proof.
  intros Hn. unfold nblocks at 1. rewrite decide_False by lia. pose proof (mod512 o). unfold nblocks. case_decide as E.
  - unfold chunk in E. rewrite <- (Nat.div_unique (o mod 512 + n + 511) 512 1 (o mod 512 + n - 1)); lia.
  - assert (chunk o n = 512 - o mod 512 /\ 512 - o mod 512 < n)%nat as [-> Hlt] by (unfold chunk in *; lia).
    pose proof (Nat.div_mod_eq o 512). rewrite <- (Nat.mod_unique (o + (512 - o mod 512)) 512 (S (o / 512)) 0) by lia.
    set (r := (n - (512 - o mod 512))%nat). pose proof (Nat.div_mod_eq (0 + r + 511) 512) as E1. pose proof (mod512 (0 + r + 511)).
    symmetry. apply (Nat.div_unique _ 512 _ ((0 + r + 511) mod 512)); [done|]. unfold r in *. lia.
Qed.

Lemma nblocks_fuel o n : (nblocks o n <= Z.to_nat (Z.of_nat n / 512 + 2))%nat.
Proof.
  unfold nblocks. case_decide; [lia|]. pose proof (mod512 o). apply Nat.lt_succ_r, Nat.Div0.div_lt_upper_bound. dlia.
Qed.

Section Read.
Context `{DL : DiskLaws, KI : KernelImage, PO : !PageOps, DV : Devices}.
Context (p : nat) (n : Z) (ip : nat).
Implicit Types k : kstate fstate.

(** A destination: [J l] holds once the bytes [l] have been stored. *)
Definition sink (J : list Z -> kstate fstate -> Prop) (a : list Z -> ptr) (N : nat) : Prop :=
  forall k l d, J l k -> (length l + length d <= N)%nat ->
    wp (ptr_put (a l) d) k (fun a' k' => a' = a (l ++ d) /\ J (l ++ d) k' /\ files k' = files k).

Lemma var_sink N : sink (fun _ => quiet p n) Var N.
Proof. intros k l d Hq _. apply wp_ret. done. Qed.

(** Blocks can be read. *)
Record rd k V x : Prop := {
  rd_quiet : quiet p n k;
  rd_bio : bio n (files k) V;
  rd_held : vheld V = ∅;
  rd_dirty : (size (vdirty V) < 30)%nat;
  rd_ip : icached k ip = Some x;
  rd_dev : i_dev x = 1;
}.

Lemma rd_block k V x i d : rd k V x -> vcur V !! i = Some d -> length d = 512%nat.
Proof. intros R H. destruct (bio_blocks _ _ _ (rd_bio _ _ _ R)) as [_ F]. by apply (Forall_lookup_1 _ _ _ _ F H). Qed.

(** Only the cache changes. *)
Definition looked k k' : Prop := calm k k' /\ cache_only (files k) (files k').

#[export] Instance looked_preorder : PreOrder looked.
Proof. split; [by split|]. intros k1 k2 k3 [C1 O1] [C2 O2]. split; by etrans. Qed.

(** [bp = bread(dev, a); ...; brelse(bp)] *)
Lemma wp_look k V x i (Q : nat -> kstate fstate -> Prop) :
  rd k V x -> (i < length (vcur V))%nat ->
  (forall bp k1, quiet p n k1 -> bio n (files k1) (hold i bp V) -> looked k k1 ->
    vcur V !! i = Some (b_data (buf_at (files k1) bp)) -> Q bp k1) ->
  wp (bread 1 (Z.of_nat i)) k Q.
Proof.
  intros [R1 R2 R3 R4 R5 R6] Hi HQ.
  eapply wp_mono; [apply (bread_spec p n k V i); [done|done|by rewrite <- (bio_size _ _ _ R2)|by rewrite R3|]|].
  { right. rewrite R3, dom_empty_L, union_empty_r_L. lia. }
  intros bp k1 (Hb & C & O & B). apply HQ; [by eapply quiet_calm|done|done|].
  destruct (bio_held _ _ _ _ bp B ltac:(apply lookup_insert_eq)) as [_ Hc]. apply Hc.
Qed.

Lemma brelse_rd k k0 V x i bp (Q : unit -> kstate fstate -> Prop) :
  rd k0 V x -> cache_only (files k0) (files k) -> quiet p n k -> bio n (files k) (hold i bp V) ->
  (forall k', looked k k' -> rd k' V x -> Q tt k') -> wp (brelse bp) k Q.
Proof.
  intros [R1 R2 R3 R4 R5 R6] O0 Hq B HQ.
  eapply wp_mono; [apply (brelse_spec p n k _ i bp Hq B); [apply lookup_insert_eq|]|].
  { destruct (decide (i ∈ vdirty V)); [by left|right]. apply (bio_clean _ _ _ R2); [done|by rewrite R3]. }
  intros [] k' (C & O & B'). rewrite unhold_hold in B' by (by rewrite R3). apply HQ; [done|].
  split; try done; [by eapply quiet_calm|]. rewrite O, O0. done.
Qed.

Lemma bmap_rd k V x bn (Q : Z -> kstate fstate -> Prop) :
  rd k V x -> (bn < 140)%nat -> length (i_addrs x) = 13%nat -> slot V x (slot_of bn) <> 0 ->
  0 <= ind_addr x < Z.of_nat (length (vcur V)) ->
  (forall k', looked k k' -> rd k' V x -> Q (slot V x (slot_of bn)) k') ->
  wp (bmap ip (Z.of_nat bn)) k Q.
Proof.
  intros R Hbn Hl Hs Hi HQ. pose proof (rd_ip _ _ _ R) as Hip. unfold bmap. wstep. eapply geti_at; [done|].
  rewrite (rd_dev _ _ _ R). unfold NDIRECT at 1. destruct (Z.ltb_spec (Z.of_nat bn) 12).
  - assert (slot_of bn = bn) as Es by (unfold slot_of; rewrite decide_True; lia). rewrite Es in *. wstep.
    eapply (get_addr_at ip k V x bn); [done|done|lia|]. rewrite (proj2 (Z.eqb_neq _ _)) by done. cbn [negb]. wstep. by apply HQ.
  - assert (slot_of bn = S bn) as Es by (unfold slot_of; rewrite decide_False; lia). rewrite Es in *.
    assert (ind_addr x <> 0) as Hi0.
    { intros E. apply Hs. unfold slot. rewrite decide_False by lia. by rewrite E. }
    assert (Z.of_nat bn - NDIRECT = Z.of_nat (bn - 12)) as -> by (unfold NDIRECT; lia). change NINDIRECT with 128.
    rewrite (proj2 (Z.ltb_lt _ _)) by lia. wstep. change NDIRECT with (Z.of_nat 12).
    eapply (get_addr_at ip k V x 12); [done|done|lia|]. rewrite slot_ind, (proj2 (Z.eqb_neq _ _)) by done. cbn [negb]. wsteps.
    rewrite <- (Z2Nat.id (ind_addr x)) by lia. eapply (wp_look k V x); [done|lia|]. intros bp k1 Hq1 B1 K1 Hd. unfold getb. wsteps.
    assert (get32 (b_data (buf_at (files k1) bp)) (4 * Z.of_nat (bn - 12)) = slot V x (S bn)) as ->.
    { unfold slot. rewrite decide_False, (proj2 (Z.eqb_neq _ _)) by (done || lia). unfold block. rewrite Hd. cbn. f_equal. lia. }
    rewrite (proj2 (Z.eqb_neq _ _)) by done. cbn [negb]. wsteps.
    eapply (brelse_rd k1 k); [done|apply K1|done|done|]. intros k2 K2 R2. wstep. apply HQ; [by etrans|done].
Qed.

(** The blocks of the first [N] bytes are there. *)
Record readable (V : bview) (x : inode) (N : nat) : Prop := {
  rb_addrs : length (i_addrs x) = 13%nat;
  rb_slot s : (s <= 140)%nat -> 0 <= slot V x s < Z.of_nat (length (vcur V));
  rb_full bn : (bn * 512 < N)%nat -> slot V x (slot_of bn) <> 0;
  rb_max : (N <= 140 * 512)%nat;
}.

Lemma looked_similar k k' : looked k k' -> similar k k'.
Proof. intros [C _]. by apply calm_similar. Qed.

Section Loop.
Context (V : bview) (x : inode) (N : nat) (J : list Z -> kstate fstate -> Prop) (a : list Z -> ptr) (M : nat).
Hypothesis Hfile : readable V x N.
Hypothesis HJ : forall l, invariant p n (J l).
Hypothesis Hsink : sink J a M.

Lemma readable_block k o : rd k V x -> (o < N)%nat ->
  exists i d, slot V x (slot_of (o / 512)) = Z.of_nat i /\ vcur V !! i = Some d /\ contents V x (slot_of (o / 512)) = d /\
    length d = 512%nat /\ (o / 512 < 140)%nat /\ slot V x (slot_of (o / 512)) <> 0.
Proof.
  intros R Ho. destruct Hfile as [H1 H2 H3 H4]. pose proof (Nat.div_mod_eq o 512). pose proof (mod512 o).
  assert (o / 512 < 140)%nat as Hb by lia. specialize (H3 (o / 512)%nat ltac:(lia)).
  assert (slot_of (o / 512) <= 140)%nat as Hs by (unfold slot_of; case_decide; lia). specialize (H2 _ Hs).
  destruct (lookup_lt_is_Some_2 (vcur V) (Z.to_nat (slot V x (slot_of (o / 512))))) as [d Hd]; [lia|].
  exists (Z.to_nat (slot V x (slot_of (o / 512)))), d. split_and!; [lia|done| |by eapply rd_block|done|done].
  unfold contents, block. rewrite (proj2 (Z.eqb_neq _ _)) by done. by rewrite Hd.
Qed.

Lemma readi_loop_spec fuel : forall k l o t r,
  rd k V x -> J l k -> (o + r <= N)%nat -> (length l + r <= M)%nat -> (nblocks o r <= fuel)%nat ->
  wp (readi_loop ip (a l) (Z.of_nat o) (Z.of_nat t) (Z.of_nat (t + r)) fuel) k (fun a' k' =>
    a' = a (l ++ fbytes V x o r) /\ J (l ++ fbytes V x o r) k' /\ rd k' V x /\ cache_only (files k) (files k')).
Proof.
  induction fuel as [|fuel IH]; intros k l o t r R HJl Hor Hlr Hf; (destruct (decide (r = 0)%nat) as [->|Hr0];
    [cbn [readi_loop]; rewrite (proj2 (Z.ltb_ge _ _)) by lia; cbn [negb]; wstep; by rewrite app_nil_r|]).
  { rewrite nblocks_chunk in Hf by lia. lia. }
  rewrite nblocks_chunk in Hf by lia. destruct (chunk_range o r) as [Hc1 Hc2]; [lia|].
  cbn [readi_loop]. rewrite (proj2 (Z.ltb_lt _ _)) by lia. cbn [negb]. wstep.
  eapply geti_at; [apply R|]. rewrite (rd_dev _ _ _ R). change BSIZE with 512.
  destruct (readable_block k o R ltac:(lia)) as (i & d & Hi & Hd & Hcon & Ld & Hbn & Hs0).
  assert (Z.of_nat o / 512 = Z.of_nat (o / 512)) as -> by (by rewrite Nat2Z.inj_div).
  assert (Z.of_nat o mod 512 = Z.of_nat (o mod 512)) as -> by (by rewrite Nat2Z.inj_mod).
  assert (Z.min (Z.of_nat (t + r) - Z.of_nat t) (512 - Z.of_nat (o mod 512)) = Z.of_nat (chunk o r)) as ->.
  { unfold chunk. pose proof (mod512 o). lia. }
  rewrite !Nat2Z.id. wstep. eapply (bmap_rd k V x (o / 512)); [done|done|apply Hfile|done| |].
  { rewrite <- (slot_ind V). apply Hfile. lia. }
  intros k1 K1 R1. rewrite Hi. wstep. eapply (wp_look k1 V x i); [done|by eapply lookup_lt_Some|].
  intros bp k2 Hq2 B2 K2 Hd2. unfold getb. wsteps. assert (b_data (buf_at (files k2) bp) = d) as -> by congruence.
  assert (J l k2) as J2.
  { eapply (inv_similar _ _ _ (HJ l)); [exact HJl|]. apply looked_similar. by etrans. }
  set (piece := take _ (drop _ d)). assert (piece = fbytes V x o (chunk o r)) as Hp.
  { rewrite fbytes_block; [by rewrite Hcon|by rewrite Hcon|done]. }
  eapply wp_mono; [apply (Hsink k2 l piece J2)|].
  { rewrite Hp, length_fbytes. lia. }
  intros a' k3 (-> & J3 & F3). rewrite Hp in J3 |- *. wstep.
  eapply (brelse_rd k3 k1); [done|rewrite F3; apply K2|exact (inv_quiet _ _ _ (HJ _) _ J3)|by rewrite F3|].
  intros k4 K4 R4. replace (Z.of_nat o + Z.of_nat (chunk o r)) with (Z.of_nat (o + chunk o r)) by lia.
  replace (Z.of_nat t + Z.of_nat (chunk o r)) with (Z.of_nat (t + chunk o r)) by lia.
  replace (Z.of_nat (t + r)) with (Z.of_nat (t + chunk o r + (r - chunk o r))) by lia.
  eapply wp_mono; [apply (IH k4 (l ++ fbytes V x o (chunk o r)))|].
  - done.
  - exact (inv_similar _ _ _ (HJ _) _ _ J3 (looked_similar _ _ K4)).
  - lia.
  - rewrite length_app, length_fbytes. lia.
  - lia.
  - intros a' k5 H5. rewrite <- app_assoc, <- fbytes_app in H5. replace (chunk o r + (r - chunk o r))%nat with r in H5 by lia.
    destruct H5 as (E5 & J5 & R5 & O5). split_and!; [done|done|done|].
    etrans; [apply K1|]. etrans; [apply K2|]. rewrite <- F3. etrans; [apply K4|done].
Qed.

(** What a read of [c] bytes at [o] copies. *)
Definition read_len (o c : Z) : nat := Z.to_nat (Z.min c (i_size x - o)).

Lemma readi_spec k o c :
  rd k V x -> J [] k -> i_type x <> T_DEV -> i_size x = Z.of_nat N ->
  0 <= o <= i_size x -> 0 <= c -> o + c < 4294967296 -> (read_len o c <= M)%nat ->
  wp (readi ip (a []) o c) k (fun r k' =>
    r = (Z.of_nat (read_len o c), a (fbytes V x (Z.to_nat o) (read_len o c))) /\
    J (fbytes V x (Z.to_nat o) (read_len o c)) k' /\ rd k' V x /\ cache_only (files k) (files k')).
Proof.
  intros R HJ0 Ht Hsz Ho Hc Hov HM. pose proof (rb_max _ _ _ Hfile) as Hmax. unfold readi. wstep.
  eapply geti_at; [apply R|]. rewrite (proj2 (Z.eqb_neq _ _)) by done. wstep. eapply geti_at; [apply R|].
  assert (u32 (o + c) = o + c) as -> by (apply u32_small; unfold is_u32; lia).
  rewrite !(proj2 (Z.ltb_ge _ _)) by lia. cbn [orb].
  assert ((if i_size x <? o + c then i_size x - o else c) = Z.of_nat (read_len o c)) as Er.
  { unfold read_len. destruct (Z.ltb_spec (i_size x) (o + c)); lia. }
  assert (read_len o c <= N)%nat as HrN by (unfold read_len; lia).
  cbv zeta. rewrite Er. set (r := read_len o c) in *. rewrite <- (Z2Nat.id o) at 1 by lia.
  wstep. change 0 with (Z.of_nat 0) at 1. change (Z.of_nat r) with (Z.of_nat (0 + r)) at 1.
  eapply wp_mono; [apply (readi_loop_spec _ k [] (Z.to_nat o) 0 r R HJ0)|].
  - unfold r, read_len. lia.
  - done.
  - change BSIZE with 512. apply nblocks_fuel.
  - intros a' k' (-> & J' & R' & O'). wstep. cbn [app] in *. split_and!; try done. f_equal.
    apply i32_small. unfold is_i32. lia.
Qed.
End Loop.
End Read.
