(* ===== verification/FsWrite.v ===== *)
(** * Writing files: writei

    Inside a transaction [writei] replaces the bytes of a range of the file,
    extends the file with blocks that were free, and leaves every other block
    that is in use as it is. *)

From S2P Require Import Prelude Memory Mmu Machine Spinlock Kalloc Vm PageTable VmProofs VmSpaces.
From S2P Require Import Encrypt ProcTable Clock ClockProofs Proc ProcProofs FileState Sleeplock Bio BioProofs Log LogProofs LogCommit LogOps.
From S2P Require Import Ulib Cprintf Fs Pipe PipeProofs FsBlocks FsInode FsRead FsDinode.

Lemma slot_of_le bn : (bn < 140)%nat -> (slot_of bn <= 140)%nat.
Proof. unfold slot_of. case_decide; lia. Qed.

Lemma slot_of_ind bn : slot_of bn <> 12%nat.
Proof. unfold slot_of. case_decide; lia. Qed.

Lemma slot_of_inj a b : slot_of a = slot_of b -> a = b.
Proof. unfold slot_of. repeat case_decide; lia. Qed.

Lemma fbyte_at V x o : fbyte V x o = byte_at (contents V x (slot_of (o / 512))) (Z.of_nat (o mod 512)).
Proof. unfold fbyte, byte_at. by rewrite Nat2Z.id. Qed.

Section Wrote.
Context (bm ds : nat) (size : Z) (P : gset nat).
Hypothesis HP : bm ∈ P.
Abbreviation layout := (layout bm ds size).
Abbreviation file_ok := (file_ok ds size).
Abbreviation grown := (grown bm ds size).

(** The bytes [bs] have been written at [o].  The blocks that the file has got
    were free, and the bit map has no others besides; of the blocks in use only
    those of [P] and those that the file already had have changed. *)
Record wrote (o : nat) (bs : list Z) (V : bview) (d : list Z) (x : inode) (V' : bview) (d' : list Z) (x' : inode) : Prop := {
  wr_layout : layout V' d';
  wr_ok : file_ok V' d' x';
  wr_len : length (vcur V') = length (vcur V);
  wr_held : vheld V' = vheld V;
  wr_disk : vdisk V' = vdisk V /\ vpast V' = vpast V;
  wr_used a : 0 <= a < size -> used d a = true -> used d' a = true;
  wr_slot s : (s <= 140)%nat -> slot V x s <> 0 -> slot V' x' s = slot V x s;
  wr_byte q : (q < 140 * 512)%nat ->
    fbyte V' x' q = if decide (o <= q < o + length bs)%nat then byte_at bs (Z.of_nat (q - o)) else fbyte V x q;
  wr_full q : (o <= q < o + length bs)%nat -> slot V' x' (slot_of (q / 512)) <> 0;
  wr_new s : (s <= 140)%nat -> slot V x s = 0 -> slot V' x' s = 0 \/ used d (slot V' x' s) = false;
  wr_only a : 0 < a < size -> used d' a = true -> used d a = true \/ exists s, (s <= 140)%nat /\ slot V' x' s = a;
  wr_frame b : (Z.of_nat b < size) -> used d (Z.of_nat b) = true -> b ∉ P ->
    vcur V' !! b = vcur V !! b \/ exists s, (s <= 140)%nat /\ slot V x s = Z.of_nat b /\ b <> 0%nat;
  wr_inode : x' = set_i_addrs (i_addrs x') x;
}.

Lemma div_lt q : (q < 140 * 512)%nat -> (q / 512 < 140)%nat.
Proof. intros H. by apply Nat.Div0.div_lt_upper_bound; lia. Qed.

Lemma grown_wrote o V d x V' d' x' : grown V d x V' d' x' -> wrote o [] V d x V' d' x'.
Proof.
  intros [G1 G2 G3 G4 Gd G5 G6 G7 G8 Gn Go G9 G10]. split; try done.
  - intros q Hq. rewrite decide_False by (cbn; lia). unfold fbyte. rewrite G8; [done| |apply slot_of_ind].
    by apply slot_of_le, div_lt.
  - intros q Hq. cbn in Hq. lia.
  - intros a Ha. apply Go. lia.
  - intros b Hb Hu Hne. destruct (G9 b Hb Hu) as [?|[E H0]]; [by intros ->|by left|right]. exists 12%nat. rewrite slot_ind. split; [lia|done].
Qed.

Lemma wrote_app o bs1 bs2 V d x V1 d1 x1 V2 d2 x2 :
  wrote o bs1 V d x V1 d1 x1 -> wrote (o + length bs1) bs2 V1 d1 x1 V2 d2 x2 -> (o + length bs1 <= 140 * 512)%nat ->
  wrote o (bs1 ++ bs2) V d x V2 d2 x2.
Proof.
  intros [G1 G2 G3 G4 [Gd Gp] G5 G6 G7 G8 Gn Go G9 G10] [H1 H2 H3 H4 [Hd Hp] H5 H6 H7 H8 Hnw Hon H9 H10] Hmax.
  split; auto; try congruence.
  - split; congruence.
  - intros s Hs Hn. rewrite H6; [by apply G6|done|]. by rewrite G6.
  - intros q Hq. rewrite H7, G7 by done. rewrite length_app. repeat case_decide; try lia; try done.
    + unfold byte_at. rewrite lookup_app_r by lia. do 2 f_equal. lia.
    + unfold byte_at. rewrite lookup_app_l by lia. done.
  - intros q Hq. rewrite length_app in Hq. destruct (decide (q < o + length bs1)%nat).
    + rewrite H6; [apply G8; lia| |apply G8; lia]. apply slot_of_le, div_lt. lia.
    + apply H8. lia.
  - intros s Hs Hz. destruct (decide (slot V1 x1 s = 0)) as [Hz1|Hz1].
    + destruct (fo_slot _ _ _ _ _ H2 s Hs) as [?|[Hr _]]; [by left|]. destruct (Hnw s Hs Hz1) as [?|Hu]; [by left|right].
      destruct (used d (slot V2 x2 s)) eqn:E; [|done]. by rewrite G5 in Hu by (done || lia).
    + rewrite H6 by done. by apply Gn.
  - intros a Ha Hu. destruct (Hon a Ha Hu) as [Hu1|?]; [|by right].
    destruct (Go a Ha Hu1) as [?|(s & Hs & E)]; [by left|right]. exists s. split; [done|].
    rewrite H6; [done|done|lia].
  - intros b Hb Hu Hne. destruct (H9 b Hb) as [->|(s & Hs & E & H0)]; [apply G5; [lia|done]|done|by apply G9|right].
    exists s. split; [done|]. split; [|done]. destruct (decide (slot V x s = 0)) as [Ez|Ez].
    + destruct (Gn s Hs Ez) as [E0|E0]; [rewrite E in E0; lia|]. rewrite E in E0. congruence.
    + by rewrite <- (G6 s Hs Ez).
  - rewrite H10, G10. by destruct x.
Qed.

(** The bytes of one block. *)
Lemma wrote_block o bs V d x :
  layout V d -> file_ok V d x -> (o < 140 * 512)%nat -> (o mod 512 + length bs <= 512)%nat ->
  let s := slot_of (o / 512) in slot V x s <> 0 -> length (block V (slot V x s)) = 512%nat ->
  wrote o bs V d x (vset (Z.to_nat (slot V x s)) (put_bytes (o mod 512) bs (block V (slot V x s))) V) d x.
Proof.
  intros L F Ho Hb s Hs Hl. set (a := slot V x s) in *. set (V' := vset _ _ V).
  assert (s <= 140)%nat as Hs140 by (by apply slot_of_le, div_lt).
  destruct (fo_slot _ _ _ _ _ F s Hs140) as [?|[Ha1 Ha2]]; [done|]. fold a in Ha1, Ha2.
  pose proof (ly_bm _ _ _ _ _ L). pose proof (ly_fits _ _ _ _ _ L).
  assert (forall c, block V' c = if decide (Z.to_nat c = Z.to_nat a) then put_bytes (o mod 512) bs (block V a) else block V c) as Eb.
  { intros c. apply block_vset. lia. }
  assert (forall t, (t <= 140)%nat -> slot V' x t = slot V x t) as Es.
  { intros t Ht. unfold slot. case_decide; [done|]. case_match eqn:Ei; [done|]. b2p. rewrite Eb, decide_False; [done|].
    intros E. apply (slot_of_ind (o / 512)). fold s. symmetry. apply (fo_inj _ _ _ _ _ F); [lia|done| |].
    - rewrite slot_ind. fold a. destruct (fo_slot _ _ _ _ _ F 12 ltac:(lia)) as [E0|[E0 _]]; rewrite slot_ind in E0; [done|lia].
    - by rewrite slot_ind. }
  assert (layout V' d) as L'.
  { destruct L as [L1 L2 L3 L4 L5 L6]. split; try done; cbn; [by rewrite list_lookup_insert_ne by lia|by rewrite length_insert]. }
  assert (file_ok V' d x) as F'.
  { destruct F as [F1 F2 F3]. split; [done|..].
    - intros t Ht. rewrite Es by done. by apply F2.
    - intros t t' Ht Ht'. rewrite !Es by done. by apply F3. }
  split; try done.
  - cbn. by rewrite length_insert.
  - intros t Ht _. by apply Es.
  - intros q Hq. pose proof (div_lt q Hq) as Hq'. rewrite !fbyte_at. unfold contents. rewrite Es by (by apply slot_of_le).
    pose proof (Nat.div_mod_eq o 512). pose proof (Nat.div_mod_eq q 512). pose proof (mod512 o). pose proof (mod512 q).
    destruct (decide (q / 512 = o / 512)%nat) as [E|E].
    + rewrite E. fold s. fold a. rewrite (proj2 (Z.eqb_neq _ _)), Eb, decide_True by done. rewrite byte_at_put by lia.
      repeat case_decide; try lia. f_equal. lia.
    + rewrite decide_False by lia. destruct (slot V x (slot_of (q / 512)) =? 0) eqn:Ez; [done|]. b2p.
      rewrite Eb, decide_False; [done|]. intros E2. apply E, slot_of_inj. fold s.
      assert (slot_of (q / 512) <= 140)%nat as Hsq by (by apply slot_of_le).
      apply (fo_inj _ _ _ _ _ F); [done|done| |done]. destruct (fo_slot _ _ _ _ _ F _ Hsq) as [?|[? _]]; [done|]. fold a. lia.
  - intros q Hq. pose proof (Nat.div_mod_eq o 512). pose proof (Nat.div_mod_eq q 512). pose proof (mod512 o). pose proof (mod512 q).
    assert (q / 512 = o / 512)%nat as -> by lia. fold s. rewrite Es by done. done.
  - intros t Ht Hz. left. by rewrite Es.
  - intros c _ Hu. by left.
  - intros b Hb1 Hu Hne. destruct (decide (Z.to_nat a = b)) as [<-|Hab].
    + right. exists s. fold a. split; [done|lia].
    + left. cbn. by rewrite list_lookup_insert_ne.
  - by destruct x.
Qed.

(** A planned block before the blocks of files is assigned. *)
Lemma wrote_meta i e V d x :
  layout V d -> file_ok V d x -> i ∈ P -> (i < ds)%nat -> i <> bm -> (i < length (vcur V))%nat ->
  forall o, wrote o [] V d x (vset i e V) d x.
Proof.
  intros L F Hi Hds Hne Hlen o. pose proof (ly_fits _ _ _ _ _ L).
  assert (forall c, owned ds size d c -> block (vset i e V) c = block V c) as Eb.
  { intros c [Hc _]. rewrite block_vset by done. by rewrite decide_False by lia. }
  assert (forall t, (t <= 140)%nat -> slot (vset i e V) x t = slot V x t) as Es.
  { intros t Ht. unfold slot. case_decide; [done|]. case_match eqn:Ei; [done|]. b2p. rewrite Eb; [done|].
    destruct (fo_slot _ _ _ _ _ F 12 ltac:(lia)) as [E0|E0]; by rewrite slot_ind in E0. }
  split; try done.
  - destruct L as [L1 L2 L3 L4 L5 L6]. split; try done; cbn; [by rewrite list_lookup_insert_ne|by rewrite length_insert].
  - destruct F as [F1 F2 F3]. split; [done|..].
    + intros t Ht. rewrite Es by done. by apply F2.
    + intros t t' Ht Ht'. rewrite !Es by done. by apply F3.
  - cbn. by rewrite length_insert.
  - intros t Ht _. by apply Es.
  - intros q Hq. rewrite decide_False by (cbn; lia). unfold fbyte, contents.
    assert (slot_of (q / 512) <= 140)%nat as Hs by (by apply slot_of_le, div_lt). rewrite Es by done.
    case_match; [done|]. b2p. rewrite Eb; [done|]. by destruct (fo_slot _ _ _ _ _ F _ Hs).
  - intros q Hq. cbn in Hq. lia.
  - intros t Ht Hz. left. by rewrite Es.
  - intros c _ Hu. by left.
  - intros b Hb Hu Hn. left. cbn. rewrite list_lookup_insert_ne; [done|]. by intros ->.
  - by destruct x.
Qed.
End Wrote.

(** ** The operations *)

(** Of the file layer only blocks, the log and inode [ip] change. *)
Definition ftouched (ip : nat) (s s' : fstate) : Prop := exists x, storage_only (set_inode (fun _ => x) ip s) s'.

#[export] Instance ftouched_preorder ip : PreOrder (ftouched ip).
Proof.
  split.
  - intros s. exists (inode_at s ip). by rewrite set_inode_same.
  - intros s1 s2 s3 [x1 S1] [x2 S2]. exists x2.
    apply (storage_set_inode (fun _ => x2) ip) in S1. rewrite set_inode_twice in S1. by etrans.
Qed.

Lemma stored_ftouched ip k k' : stored k k' -> ftouched ip (files k) (files k').
Proof. intros H. by apply (stored_touched ip). Qed.

Lemma cache_ftouched ip s s' : cache_only s s' -> ftouched ip s s'.
Proof. intros H. exists (inode_at s ip). rewrite set_inode_same. by apply cache_storage. Qed.

Section Write.
Context `{DL : DiskLaws, KI : KernelImage, PO : !PageOps, DV : Devices}.
Context (p : nat) (n : Z) (S0 m : nat) (s : superblock) (bm ds ip ib e : nat).
Implicit Types k : kstate fstate.

(** The blocks that every write may put into the log. *)
Definition planned : gset nat := {[bm; ib]}.

Abbreviation tx := (tx p n S0 m).
Abbreviation ftx := (ftx p n S0 m s bm ds ip).
Abbreviation budget := (budget m s planned e).
Abbreviation wrote := (wrote bm ds (sb_size s) {[bm]}).

(** The bit map, block [bm], and the inode, in block [ib], are before the
    blocks of files and outside the log. *)
Record geometry : Prop := {
  ge_map : one_map s bm;
  ge_log : (S0 + m < ds)%nat;
  ge_ds : Z.of_nat ds <= sb_size s;
  ge_ib : (ib < ds)%nat /\ ib <> bm /\ ~ in_log S0 m ib;
}.
Hypothesis G : geometry.

Lemma bm_planned : bm ∈ planned.
Proof. by apply elem_of_union_l, elem_of_singleton. Qed.

(** A source: the bytes [bs], of which [t] have been read at [a t]. *)
Definition source (I : kstate fstate -> Prop) (a : nat -> ptr) (bs : list Z) : Prop :=
  forall k t c, I k -> (t + c <= length bs)%nat ->
    wp (ptr_get (a t) c) k (fun r k' => r = (take c (drop t bs), a (t + c)%nat) /\ I k' /\ files k' = files k).

Lemma var_source bs : source (quiet p n) (fun t => Var (drop t bs)) bs.
Proof.
  intros k t c Hq Hl. cbn. rewrite decide_False by (rewrite length_drop; lia). apply wp_ret. by rewrite drop_drop.
Qed.

Lemma budget_write r V d x i c :
  budget (S r) V d x \/ budget r V d x /\ i ∈ vdirty V -> budget r (vset i c V) d x.
Proof.
  intros [[R N]|[[R N] Hi]]; (split; [|lia]).
  - by apply room_new.
  - apply room_planned; [done|]. by apply elem_of_union_l.
Qed.

Section Loop.
Context (I : kstate fstate -> Prop) (a : nat -> ptr) (bs : list Z).
Hypothesis HI : invariant p n I.
Hypothesis Hsrc : source I a bs.

Lemma stored_inv k k' : I k -> stored k k' -> I k'.
Proof. intros H [C _]. eapply (inv_similar _ _ _ HI); [done|by apply calm_similar]. Qed.

(** [memmove(bp->data + off % BSIZE, src, m); log_write(bp); brelse(bp)] *)
Lemma write_chunk k V d x o t c r :
  ftx k V d x -> I k -> vheld V = ∅ -> (o < 140 * 512)%nat -> (o mod 512 + c <= 512)%nat -> (t + c <= length bs)%nat ->
  slot V x (slot_of (o / 512)) <> 0 ->
  budget (S r) V d x \/ budget r V d x /\ Z.to_nat (slot V x (slot_of (o / 512))) ∈ vdirty V ->
  forall (rest : ptr -> FK Z) (Q : Z -> kstate fstate -> Prop),
  (forall k' V', I k' -> ftx k' V' d x -> vheld V' = ∅ -> wrote o (take c (drop t bs)) V d x V' d x -> budget r V' d x ->
     ftouched ip (files k) (files k') -> wp (rest (a (t + c)%nat)) k' Q) ->
  wp (bp ← bread 1 (slot V x (slot_of (o / 512)));
      r ← ptr_get (a t) c;
      setb bp (fun b => set_b_data (put_bytes (o mod 512) r.1 (b_data b)) b);;
      log_write bp;;
      brelse bp;;
      rest r.2) k Q.
Proof.
  intros H Ik Hh Ho Hc Ht Hs Hbud rest Q HQ. set (sl := slot_of (o / 512)) in *. destruct (H) as [Htx Hsb Hip Hdev L F Hbm].
  assert (sl <= 140)%nat as Hsl by (by apply slot_of_le, div_lt).
  destruct (fo_slot _ _ _ _ _ F sl Hsl) as [?|[Ho1 Ho2]]; [done|]. pose proof (ly_fits _ _ _ _ _ L).
  set (i := Z.to_nat (slot V x sl)) in *. assert (slot V x sl = Z.of_nat i) as Ei by lia. rewrite Ei. wstep.
  assert (vheld V !! i = None) as Hhi by (by rewrite Hh).
  assert (room m (planned ∪ ind_set x) 0 V) as R.
  { destruct Hbud as [[R _]|[[R _] _]]; eapply room_less; try exact R; lia. }
  eapply wp_mono; [apply (bread_tx p n S0 m k V i _ _ Htx R); [lia|done|rewrite Hh, dom_empty_L, size_empty; lia]|].
  intros bp k1 [S1 H1]. wstep. eapply wp_mono; [apply (Hsrc k1 t c); [by eapply stored_inv|done]|].
  intros y k2 (-> & I2 & F2). cbn [fst snd].
  assert (tx k2 (hold i bp V)) as H2.
  { eapply tx_ext; [exact H1|by apply (inv_quiet _ _ _ HI)|by rewrite F2..]. }
  pose proof (tx_data _ _ _ _ _ _ i bp H2 ltac:(apply lookup_insert_eq)) as Hd. cbn in Hd.
  assert (length (take c (drop t bs)) = c) as Lc by (rewrite length_take, length_drop; lia).
  eapply (wp_update p n S0 m k2 V i bp _ (planned ∪ ind_set x) 0); [done|done|done| | |].
  { destruct G as [_ Gl _ _]. unfold in_log. lia. }
  { intros z Hz. split; [done|]. cbn [b_data set_b_data]. by rewrite length_put_bytes. }
  intros k3 S3 H3. cbn [b_data set_b_data] in H3.
  assert (b_data (buf_at (files k2) bp) = block V (slot V x sl)) as Eb by (unfold block; fold i; by rewrite Hd).
  rewrite Eb in H3. pose proof (tx_block _ _ _ _ _ _ _ _ H2 Hd) as Ld. cbn in Ld. rewrite Eb in Ld.
  assert (wrote o (take c (drop t bs)) V d x (vset i (put_bytes (o mod 512) (take c (drop t bs)) (block V (slot V x sl))) V) d x) as W.
  { apply wrote_block; [done|done|done|by rewrite Lc|done|done]. }
  eapply HQ; [by eapply stored_inv| | |exact W|by apply budget_write|].
  - split; try done; [by rewrite (stored_sb _ _ S3), F2, (stored_sb _ _ S1)|by rewrite (stored_icache _ _ S3), F2, (stored_icache _ _ S1)|apply W|apply W].
  - done.
  - etrans; [by apply (stored_ftouched ip _ _ S1)|]. rewrite <- F2. by apply stored_ftouched.
Qed.

Lemma writei_loop_spec fuel : forall k V d x o t r r0,
  ftx k V d x -> I k -> vheld V = ∅ -> budget (nblocks o r + r0) V d x -> (o + r <= 140 * 512)%nat ->
  (t + r = length bs)%nat -> (nblocks o r <= fuel)%nat ->
  wp (writei_loop ip (a t) (Z.of_nat o) (Z.of_nat t) (Z.of_nat (t + r)) fuel) k (fun off k' =>
    off = Z.of_nat (o + r) /\ I k' /\ ftouched ip (files k) (files k') /\
    exists V' d' x', ftx k' V' d' x' /\ wrote o (drop t bs) V d x V' d' x' /\ budget r0 V' d' x' /\
      ((forall q, (o <= q < o + r)%nat -> slot V x (slot_of (q / 512)) <> 0) -> x' = x)).
Proof.
  induction fuel as [|fuel IH]; intros k V d x o t r r0 H Ik Hh Hb Hor Htr Hf; (destruct (decide (r = 0)%nat) as [->|Hr0];
    [cbn [writei_loop]; rewrite (proj2 (Z.ltb_ge _ _)) by lia; cbn [negb]; wstep|]).
  1,3: (split_and!; [lia|done|done|]; exists V, d, x; rewrite drop_ge by lia; split_and!; try done;
    apply grown_wrote; [by apply elem_of_singleton|]; by apply grown_refl; apply H).
  { rewrite nblocks_chunk in Hf by lia. lia. }
  rewrite nblocks_chunk in Hf, Hb by lia. destruct (chunk_range o r) as [Hc1 Hc2]; [lia|]. set (c := chunk o r) in *.
  cbn [writei_loop]. rewrite (proj2 (Z.ltb_lt _ _)) by lia. cbn [negb]. wstep.
  eapply geti_at; [apply H|]. rewrite (ft_dev _ _ _ _ _ _ _ _ _ _ _ _ H). change BSIZE with 512.
  assert (Z.of_nat o / 512 = Z.of_nat (o / 512)) as -> by (by rewrite Nat2Z.inj_div).
  assert (Z.of_nat o mod 512 = Z.of_nat (o mod 512)) as -> by (by rewrite Nat2Z.inj_mod).
  assert (Z.min (Z.of_nat (t + r) - Z.of_nat t) (512 - Z.of_nat (o mod 512)) = Z.of_nat c) as ->.
  { unfold c, chunk. pose proof (mod512 o). lia. }
  rewrite !Nat2Z.id. wstep.
  eapply wp_mono; [apply (bmap_ftx p n S0 m s bm ds ip planned e (ge_map G) (ge_log G) bm_planned k V d x (nblocks (o + c) (r - c) + r0)); try done|].
  { apply div_lt. lia. }
  intros y k1 (V1 & d1 & x1 & -> & Hs & [C1 T1] & H1 & G1 & B1 & Hsame).
  assert (I k1) as I1 by (eapply (inv_similar _ _ _ HI); [done|by apply calm_similar]).
  assert (wrote o [] V d x V1 d1 x1) as W1 by (apply grown_wrote; [by apply elem_of_singleton|done]).
  eapply (write_chunk k1 V1 d1 x1 o t c _) with
    (rest := fun src => writei_loop ip src (Z.of_nat o + Z.of_nat c) (Z.of_nat t + Z.of_nat c) (Z.of_nat (t + r)) fuel); [done|done|by rewrite (wr_held _ _ _ _ _ _ _ _ _ _ _ _ W1)|lia|done|lia|done|exact B1|].
  intros k2 V2 I2 H2 Hh2 W2 B2 T2.
  replace (Z.of_nat o + Z.of_nat c) with (Z.of_nat (o + c)) by lia.
  replace (Z.of_nat t + Z.of_nat c) with (Z.of_nat (t + c)) by lia.
  replace (Z.of_nat (t + r)) with (Z.of_nat (t + c + (r - c))) by lia.
  eapply wp_mono; [apply (IH k2 V2 d1 x1 (o + c)%nat (t + c)%nat (r - c)%nat r0); try done; lia|].
  intros off k3 (-> & I3 & T3 & V3 & d3 & x3 & H3 & W3 & B3 & Hsame3). split_and!; [lia|done|by etrans; [exact T1|etrans]|].
  exists V3, d3, x3. split_and!; try done.
  2:{ intros Hall. destruct (Hsame (Hall o ltac:(lia))) as [-> ->]. apply Hsame3. intros q Hq.
    assert (slot V x (slot_of (q / 512)) <> 0) as Hq0 by (apply Hall; lia).
    rewrite (wr_slot _ _ _ _ _ _ _ _ _ _ _ _ W2); [done| |done]. apply slot_of_le, div_lt. lia. }
  assert (length (take c (drop t bs)) = c) as Lc by (rewrite length_take, length_drop; lia).
  rewrite <- (take_drop c (drop t bs)), drop_drop. eapply wrote_app.
  - rewrite <- (app_nil_l (take c (drop t bs))). eapply wrote_app; [exact W1|by rewrite length_nil, Nat.add_0_r|rewrite length_nil; lia].
  - by rewrite Lc.
  - lia.
Qed.

End Loop.

(** *** iupdate *)

Definition put_inode (x : inode) (V : bview) : bview := vset ib (put_dinode (dip (i_inum x)) x (block V (Z.of_nat ib))) V.

Definition on_disk (V : bview) (x : inode) : Prop := get_dinode (dip (i_inum x)) (block V (Z.of_nat ib)) x = x.

(** Inode [x] is number [i_inum x] of block [ib]. *)
Definition placed (V : bview) (x : inode) : Prop := IBLOCK (i_inum x) s = Z.of_nat ib /\ (ib < length (vcur V))%nat.

Lemma iupdate_ftx k V d x r :
  ftx k V d x -> vheld V = ∅ -> budget r V d x -> placed V x ->
  wp (iupdate ip) k (fun _ k' => stored k k' /\ ftx k' (put_inode x V) d x /\ budget r (put_inode x V) d x).
Proof.
  intros H Hh [R Hn] [Hib Hlen]. destruct (H) as [Htx Hsb Hip Hdev L F Hbm]. destruct G as [_ _ _ (G1 & G2 & G3)].
  unfold iupdate, getsb. wstep. eapply geti_at; [done|]. wstep. eapply geti_at; [done|]. wsteps. rewrite Hdev. cbv beta delta [id].
  rewrite Hsb, Hib.
  eapply wp_mono; [apply (bread_tx p n S0 m k V ib _ _ Htx R Hlen); [by rewrite Hh|rewrite Hh, dom_empty_L, size_empty; lia]|].
  intros bp k1 [S1 H1]. wstep. eapply geti_at; [by rewrite (stored_icache _ _ S1)|]. cbv beta delta [id].
  pose proof (tx_data _ _ _ _ _ _ ib bp H1 ltac:(apply lookup_insert_eq)) as Hd. cbn in Hd.
  eapply wp_mono; [apply (wp_update_last p n S0 m k1 V ib bp _ (planned ∪ ind_set x) (r + missing x)); try done|].
  { by rewrite Hh. } { intros z Hz. split; [done|]. cbn [b_data set_b_data]. by rewrite length_put_dinode. }
  intros [] k2 [S2 H2]. cbn [b_data set_b_data] in H2.
  assert (b_data (buf_at (files k1) bp) = block V (Z.of_nat ib)) as Eb by (unfold block; by rewrite Nat2Z.id, Hd).
  rewrite Eb in H2. fold (put_inode x V) in H2.
  assert (ib ∈ planned) as Hp by (by apply elem_of_union_r, elem_of_singleton).
  pose proof (wrote_meta bm ds (sb_size s) planned ib (put_dinode (dip (i_inum x)) x (block V (Z.of_nat ib))) V d x L F Hp G1 G2 Hlen 0) as W.
  split_and!.
  - by etrans.
  - split; try done; [by rewrite (stored_sb _ _ S2), (stored_sb _ _ S1)|by rewrite (stored_icache _ _ S2), (stored_icache _ _ S1)|apply W|apply W].
  - split; [|done]. apply room_planned; [done|]. by apply elem_of_union_r, elem_of_union_l.
Qed.

(** *** writei *)

(** No block of the file is missing. *)
Definition full (V : bview) (x : inode) : Prop :=
  forall bn, Z.of_nat bn * 512 < i_size x -> slot V x (slot_of bn) <> 0.

(** A file whose inode is on the disk. *)
Record file_at_rest (V : bview) (x : inode) : Prop := {
  fr_placed : placed V x;
  fr_dinode : dinode_ok x;
  fr_full : full V x;
  fr_disk : on_disk V x;
  fr_type : i_type x <> T_DEV;
  fr_size : i_size x <= 140 * 512;
}.

(** The file after [bs] has been written at [o].  The blocks that it has got
    were free, and the bit map, block [bm], marks them and no others besides;
    of the block with its inode only the 64 bytes of the inode have changed, and
    of all other blocks in use outside the log only those that the file already
    had. *)
Record updated (o : nat) (bs : list Z) (V : bview) (d : list Z) (x : inode) (V' : bview) (d' : list Z) (x' : inode) : Prop := {
  up_rest : file_at_rest V' x';
  up_inode : x' = set_i_size (Z.max (i_size x) (Z.of_nat (o + length bs))) (set_i_addrs (i_addrs x') x);
  up_byte q : (q < 140 * 512)%nat ->
    fbyte V' x' q = if decide (o <= q < o + length bs)%nat then byte_at bs (Z.of_nat (q - o)) else fbyte V x q;
  up_slot t : (t <= 140)%nat -> slot V x t <> 0 -> slot V' x' t = slot V x t;
  up_used b : 0 <= b < sb_size s -> used d b = true -> used d' b = true;
  up_new t : (t <= 140)%nat -> slot V x t = 0 -> slot V' x' t = 0 \/ used d (slot V' x' t) = false;
  up_map : vcur V' !! bm = Some d';
  up_only b : 0 < b < sb_size s -> used d' b = true -> used d b = true \/ exists t, (t <= 140)%nat /\ slot V' x' t = b;
  up_dinodes j : 0 <= j -> j < dip (i_inum x) \/ dip (i_inum x) + 64 <= j ->
    byte_at (block V' (Z.of_nat ib)) j = byte_at (block V (Z.of_nat ib)) j;
  up_frame b : (Z.of_nat b < sb_size s) -> used d (Z.of_nat b) = true -> b ∉ planned -> ~ in_log S0 m b ->
    vcur V' !! b = vcur V !! b \/ exists t, (t <= 140)%nat /\ slot V x t = Z.of_nat b /\ b <> 0%nat;
}.

Lemma dip_at V i : (forall c, vcur V !! ib = Some c -> length c = 512%nat) -> (ib < length (vcur V))%nat ->
  dinode_at (block V (Z.of_nat ib)) (dip i).
Proof.
  intros He Hl. destruct (lookup_lt_is_Some_2 _ _ Hl) as [c E].
  assert (length (block V (Z.of_nat ib)) = 512%nat) as Hb by (unfold block; rewrite Nat2Z.id, E; by apply He).
  unfold dinode_at, dip. rewrite Hb. change IPB with 8. dlia.
Qed.

(** The addresses that the slots hold. *)
Lemma slots_u32 V d x : layout bm ds (sb_size s) V d -> file_ok ds (sb_size s) V d x -> Forall is_u32 (i_addrs x).
Proof.
  intros L F. apply Forall_lookup. intros t a Ha. pose proof (lookup_lt_Some _ _ _ Ha). rewrite (fo_addrs _ _ _ _ _ F) in *.
  pose proof (ly_size _ _ _ _ _ L). assert (slot V x t = a) as Es by (unfold slot; rewrite decide_True, Ha by lia; done).
  destruct (fo_slot _ _ _ _ _ F t ltac:(lia)) as [E|[E _]]; rewrite Es in E; unfold is_u32; lia.
Qed.

(** The block with the inode is not one of the file. *)
Lemma wrote_ib o bs V d x V' d' x' :
  layout bm ds (sb_size s) V d -> file_ok ds (sb_size s) V d x -> wrote o bs V d x V' d' x' ->
  block V' (Z.of_nat ib) = block V (Z.of_nat ib).
Proof.
  intros L F W. destruct G as [_ _ G0 (G1 & G2 & _)]. unfold block. rewrite Nat2Z.id.
  destruct (wr_frame _ _ _ _ _ _ _ _ _ _ _ _ W ib) as [->|(t & Ht & Es & E0)]; [lia|by apply L|by rewrite elem_of_singleton|done|].
  destruct (fo_slot _ _ _ _ _ F t Ht) as [?|[? _]]; lia.
Qed.

(** The file has not grown: its inode is as before. *)
Lemma updated_inside o bs V d x V' d' :
  layout bm ds (sb_size s) V d -> file_ok ds (sb_size s) V d x -> file_at_rest V x -> wrote o bs V d x V' d' x ->
  Z.of_nat (o + length bs) <= i_size x -> updated o bs V d x V' d' x.
Proof.
  intros L F [R1 R2 R3 R4 R5 R6] W Hsz. pose proof (wrote_ib _ _ _ _ _ _ _ _ L F W) as Eb.
  split; try done.
  - split; try done.
    + destruct R1. split; [done|]. by rewrite (wr_len _ _ _ _ _ _ _ _ _ _ _ _ W).
    + intros bn Hbn. rewrite (wr_slot _ _ _ _ _ _ _ _ _ _ _ _ W); [by apply R3| |by apply R3]. apply slot_of_le. lia.
    + unfold on_disk. by rewrite Eb.
  - rewrite Z.max_l by lia. by destruct x.
  - apply W.
  - apply W.
  - apply W.
  - apply W.
  - apply (wr_layout _ _ _ _ _ _ _ _ _ _ _ _ W).
  - apply W.
  - intros j _ _. by rewrite Eb.
  - intros b Hb Hu Hp _. apply W; [done|done|]. intros ->%elem_of_singleton. by apply Hp, bm_planned.
Qed.

(** The file has grown: its inode has been written. *)
Lemma updated_longer o bs V d x V1 d1 x1 :
  layout bm ds (sb_size s) V d -> file_ok ds (sb_size s) V d x -> file_at_rest V x -> wrote o bs V d x V1 d1 x1 ->
  (forall c, vcur V1 !! ib = Some c -> length c = 512%nat) ->
  Z.of_nat o <= i_size x < Z.of_nat (o + length bs) -> (o + length bs <= 140 * 512)%nat ->
  let x2 := set_i_size (Z.of_nat (o + length bs)) x1 in
  updated o bs V d x (put_inode x2 V1) d1 x2.
Proof.
  intros L F [[R1 R1'] R2 R3 R4 R5 R6] W He Hsz Hmax x2. pose proof (wrote_ib _ _ _ _ _ _ _ _ L F W) as Eb. destruct G as [_ _ G0 (G1 & G2 & _)].
  assert (ib ∈ planned) as Hp by (by apply elem_of_union_r, elem_of_singleton).
  assert (ib < length (vcur V1))%nat as Hlen by (by rewrite (wr_len _ _ _ _ _ _ _ _ _ _ _ _ W)).
  assert (file_ok ds (sb_size s) V1 d1 x2) as F2 by (destruct (wr_ok _ _ _ _ _ _ _ _ _ _ _ _ W); by split).
  pose proof (wr_layout _ _ _ _ _ _ _ _ _ _ _ _ W) as L1.
  pose proof (wrote_meta bm ds (sb_size s) planned ib (put_dinode (dip (i_inum x2)) x2 (block V1 (Z.of_nat ib))) V1 d1 x2
    L1 F2 Hp G1 G2 Hlen o) as W2. fold (put_inode x2 V1) in W2.
  assert (i_inum x2 = i_inum x /\ i_type x2 = i_type x /\ i_major x2 = i_major x /\ i_minor x2 = i_minor x /\ i_nlink x2 = i_nlink x)
    as (E1 & E2 & E3 & E4 & E5) by (unfold x2; by rewrite (wr_inode _ _ _ _ _ _ _ _ _ _ _ _ W)).
  assert (dinode_ok x2) as D2.
  { destruct R2. split; rewrite ?E2, ?E3, ?E4, ?E5; try done; [unfold is_u32; cbn; lia|].
    split; [apply F2|by eapply (slots_u32 V1 d1)]. }
  assert (forall t, (t <= 140)%nat -> slot V1 x1 t <> 0 -> slot (put_inode x2 V1) x2 t = slot V1 x1 t) as Es.
  { intros t Ht H0. by apply (wr_slot _ _ _ _ _ _ _ _ _ _ _ _ W2). }
  assert (block (put_inode x2 V1) (Z.of_nat ib) = put_dinode (dip (i_inum x2)) x2 (block V1 (Z.of_nat ib))) as Ei.
  { unfold put_inode. rewrite block_vset by done. by rewrite decide_True by lia. }
  split.
  - split; try done.
    + split; [by rewrite E1|]. cbn. by rewrite length_insert.
    + intros bn Hbn. cbn in Hbn. assert (bn < 140)%nat as Hb140 by lia. pose proof (slot_of_le bn Hb140) as Hs.
      assert (slot V1 x1 (slot_of bn) <> 0) as H0; [|by rewrite Es].
      destruct (decide (Z.of_nat bn * 512 < i_size x)).
      * rewrite (wr_slot _ _ _ _ _ _ _ _ _ _ _ _ W); [by apply R3|done|by apply R3].
      * pose proof (wr_full _ _ _ _ _ _ _ _ _ _ _ _ W (bn * 512)) as Hf. rewrite Nat.div_mul in Hf by lia. apply Hf. lia.
    + unfold on_disk. rewrite Ei. apply get_put_dinode; [by apply dip_at|done].
    + by rewrite E2.
    + cbn. lia.
  - rewrite Z.max_r by lia. unfold x2 at 1. rewrite (wr_inode _ _ _ _ _ _ _ _ _ _ _ _ W) at 1. done.
  - intros q Hq. rewrite (wr_byte _ _ _ _ _ _ _ _ _ _ _ _ W2) by done. rewrite decide_False by (rewrite length_nil; lia).
    by rewrite <- (wr_byte _ _ _ _ _ _ _ _ _ _ _ _ W).
  - intros t Ht Hn. pose proof (wr_slot _ _ _ _ _ _ _ _ _ _ _ _ W t Ht Hn) as E. rewrite Es; [done|done|by rewrite E].
  - intros b Hb Hu. by apply (wr_used _ _ _ _ _ _ _ _ _ _ _ _ W).
  - intros t Ht Hz. destruct (decide (slot V1 x1 t = 0)) as [Hz1|Hz1].
    + left. destruct (wr_new _ _ _ _ _ _ _ _ _ _ _ _ W2 t Ht Hz1) as [?|Hu]; [done|].
      destruct (fo_slot _ _ _ _ _ (wr_ok _ _ _ _ _ _ _ _ _ _ _ _ W2) t Ht) as [?|[_ Hu']]; [done|congruence].
    + rewrite Es by done. by apply (wr_new _ _ _ _ _ _ _ _ _ _ _ _ W).
  - apply (wr_layout _ _ _ _ _ _ _ _ _ _ _ _ W2).
  - intros b Hb Hu. destruct (wr_only _ _ _ _ _ _ _ _ _ _ _ _ W b Hb Hu) as [?|(t & Ht & Et)]; [by left|right].
    exists t. split; [done|]. rewrite Es; [done|done|lia].
  - intros j Hj Hr. rewrite Ei, <- Eb. rewrite <- E1 in Hr. apply put_dinode_other; [by apply dip_at|apply F2|done|done].
  - intros b Hb Hu Hnp _. destruct (wr_frame _ _ _ _ _ _ _ _ _ _ _ _ W b Hb Hu) as [E|E]; [|left|by right].
    + intros ->%elem_of_singleton. by apply Hnp, bm_planned.
    + rewrite <- E. unfold put_inode. cbn. apply list_lookup_insert_ne. by intros ->.
Qed.

Lemma writei_spec (I : kstate fstate -> Prop) (a : nat -> ptr) (bs : list Z) k V d x o :
  invariant p n I -> source I a bs ->
  ftx k V d x -> I k -> vheld V = ∅ -> budget (nblocks o (length bs)) V d x -> file_at_rest V x ->
  Z.of_nat o <= i_size x -> (o + length bs <= 140 * 512)%nat ->
  wp (writei ip (a 0%nat) (Z.of_nat o) (Z.of_nat (length bs))) k (fun r k' =>
    r = Z.of_nat (length bs) /\ I k' /\ ftouched ip (files k) (files k') /\
    exists V' d' x', ftx k' V' d' x' /\ vheld V' = ∅ /\ updated o bs V d x V' d' x' /\ budget 0 V' d' x' /\
      vdisk V' = vdisk V /\ vpast V' = vpast V).
Proof.
  intros HI Hsrc H Ik Hh Hb R Ho Hmax. pose proof (ft_layout _ _ _ _ _ _ _ _ _ _ _ _ H) as L. unfold writei. wstep.
  eapply geti_at; [apply H|]. rewrite (proj2 (Z.eqb_neq _ _)) by apply R. wstep. eapply geti_at; [apply H|].
  assert (u32 (Z.of_nat o + Z.of_nat (length bs)) = Z.of_nat o + Z.of_nat (length bs)) as -> by (apply u32_small; unfold is_u32; lia).
  rewrite !(proj2 (Z.ltb_ge _ _)) by lia. cbn [orb]. change (MAXFILE * BSIZE) with 71680. rewrite (proj2 (Z.ltb_ge _ _)) by lia. wstep.
  change 0 with (Z.of_nat 0) at 1. change (Z.of_nat (length bs)) with (Z.of_nat (0 + length bs)) at 1.
  eapply wp_mono; [apply (writei_loop_spec I a bs HI Hsrc _ k V d x o 0 (length bs) 0); try done|].
  { by rewrite Nat.add_0_r. } { change BSIZE with 512. apply nblocks_fuel. }
  intros off k1 (-> & I1 & T1 & V1 & d1 & x1 & H1 & W & B1 & Hsame). rewrite drop_0 in W. wstep.
  eapply geti_at; [apply H1|]. assert (i_size x1 = i_size x) as -> by (by rewrite (wr_inode _ _ _ _ _ _ _ _ _ _ _ _ W)).
  assert (vheld V1 = ∅) as Hh1 by (by rewrite (wr_held _ _ _ _ _ _ _ _ _ _ _ _ W)).
  destruct (wr_disk _ _ _ _ _ _ _ _ _ _ _ _ W) as [Wd Wp].
  assert (forall k', wp (mret (i32 (Z.of_nat (length bs)))) k' (fun r k'' => r = Z.of_nat (length bs) /\ k'' = k')) as Hret.
  { intros k'. wstep. split; [|done]. apply i32_small. unfold is_i32. lia. }
  destruct (decide (i_size x < Z.of_nat (o + length bs))) as [Hlt|Hge].
  - rewrite !(proj2 (Z.ltb_lt _ _)) by lia. cbn [andb when]. wstep. wstep.
    eapply (seti_tx p n S0 m ip k1 V1 x1 _ _ (ft_tx _ _ _ _ _ _ _ _ _ _ _ _ H1)); [apply H1|]. intros k2 [C2 T2] E2 H2 Hip2.
    set (x2 := set_i_size _ x1) in *.
    assert (ftx k2 V1 d1 x2) as K2.
    { destruct H1 as [A1 A2 A3 A4 A5 A6 A7]. split; try done; [by rewrite E2|]. destruct A6; by split. }
    eapply wp_mono; [apply (iupdate_ftx k2 V1 d1 x2 0 K2 Hh1 B1)|].
    { destruct (fr_placed _ _ R) as [P1 P2]. split; [|by rewrite (wr_len _ _ _ _ _ _ _ _ _ _ _ _ W)].
      unfold x2. by rewrite (wr_inode _ _ _ _ _ _ _ _ _ _ _ _ W). }
    intros [] k3 (S3 & K3 & B3). eapply wp_mono; [apply Hret|]. intros r k4 [-> ->]. split_and!; [done| | |].
    + eapply stored_inv; [done| |exact S3]. eapply (inv_similar _ _ _ HI); [exact I1|by apply calm_similar].
    + etrans; [exact T1|]. etrans; [exact T2|]. by apply stored_ftouched.
    + exists (put_inode x2 V1), d1, x2. split_and!; [done|done| |done|done|done].
      apply updated_longer; try done; [apply H|]. intros c Hc. by eapply (tx_block p n S0 m k1 V1 ib); [apply H1|].
  - assert ((0 <? Z.of_nat (length bs)) && (i_size x <? Z.of_nat (o + length bs)) = false) as ->.
    { rewrite (proj2 (Z.ltb_ge (i_size x) _)) by lia. apply andb_false_r. }
    cbn [when]. wstep. wstep. eapply wp_mono; [apply Hret|]. intros r k4 [-> ->]. split_and!; try done.
    assert (x1 = x) as ->.
    { apply Hsame. intros q Hq. apply (fr_full _ _ R). pose proof (Nat.div_mod_eq q 512). lia. }
    exists V1, d1, x. split_and!; try done. apply updated_inside; try done; [apply H|lia].
Qed.

(** *** Other files *)

(** File [y] is another inode than [x], in a block before those of files, and
    shares no block with it. *)
Record beside (V : bview) (d : list Z) (x y : inode) : Prop := {
  be_ok : file_ok ds (sb_size s) V d y;
  be_apart t t' : (t <= 140)%nat -> (t' <= 140)%nat -> slot V x t = slot V y t' -> slot V y t' = 0;
  be_inum : is_u32 (i_inum x) /\ is_u32 (i_inum y) /\ i_inum y <> i_inum x;
  be_block : exists b, IBLOCK (i_inum y) s = Z.of_nat b /\ (b < ds)%nat /\ b <> bm /\ ~ in_log S0 m b;
}.

(** The inode of [x] on the disk. *)
Definition disk_inode (V : bview) (x : inode) : inode := get_dinode (dip (i_inum x)) (block V (IBLOCK (i_inum x) s)) x.

(** The bytes, the blocks and the inode on the disk of file [y] are the same. *)
Record kept (V V' : bview) (y : inode) : Prop := {
  ke_slot t : (t <= 140)%nat -> slot V' y t = slot V y t;
  ke_byte q : (q < 140 * 512)%nat -> fbyte V' y q = fbyte V y q;
  ke_disk : disk_inode V' y = disk_inode V y;
}.

Lemma get_dinode_ext o (c c' : list Z) x :
  (forall j, o <= j < o + 64 -> byte_at c' j = byte_at c j) -> get_dinode o c' x = get_dinode o c x.
Proof.
  intros E. unfold get_dinode, get16, get32, addrs_of. rewrite !E by lia. f_equal.
  apply list_fmap_ext. intros t j Hj. apply lookup_seq in Hj as [-> Hj]. unfold get32. by rewrite !E by lia.
Qed.

Section Beside.
Context (o : nat) (bs : list Z) (V : bview) (d : list Z) (x : inode) (V' : bview) (d' : list Z) (x' y : inode).
Hypothesis L : layout bm ds (sb_size s) V d.
Hypothesis F : file_ok ds (sb_size s) V d x.
Hypothesis U : updated o bs V d x V' d' x'.
Hypothesis B : beside V d x y.

Lemma beside_block t : (t <= 140)%nat -> slot V y t <> 0 -> block V' (slot V y t) = block V (slot V y t).
Proof.
  intros Ht Hn. destruct (fo_slot _ _ _ _ _ (be_ok _ _ _ _ B) t Ht) as [?|[Hr Hu]]; [done|].
  destruct G as [_ Gl G0 (G1 & G2 & _)]. pose proof (ly_bm _ _ _ _ _ L). unfold block.
  set (b := Z.to_nat (slot V y t)). assert (Z.of_nat b = slot V y t) as Eb by lia.
  destruct (up_frame _ _ _ _ _ _ _ _ U b) as [->|(t' & Ht' & E & _)]; [lia|by rewrite Eb| | |done|].
  - intros [->%elem_of_singleton| ->%elem_of_singleton]%elem_of_union; lia.
  - unfold in_log. lia.
  - destruct Hn. apply (be_apart _ _ _ _ B t' t); [done|done|by rewrite E].
Qed.

Lemma beside_slot t : (t <= 140)%nat -> slot V' y t = slot V y t.
Proof.
  intros Ht. unfold slot. case_decide; [done|]. case_match eqn:Ei; [done|]. b2p.
  pose proof (beside_block 12 ltac:(lia)) as E. rewrite slot_ind in E. by rewrite E.
Qed.

Lemma beside_inode : IBLOCK (i_inum x) s = Z.of_nat ib -> disk_inode V' y = disk_inode V y.
Proof.
  intros Hx. destruct (be_inum _ _ _ _ B) as (Ix & Iy & Hne), (be_block _ _ _ _ B) as (b & Eb & Hb & Hbm & Hl).
  destruct G as [_ Gl G0 (G1 & G2 & _)]. unfold disk_inode. rewrite Eb. apply get_dinode_ext. intros j Hj.
  destruct (decide (b = ib)) as [->|Hbi].
  - assert (0 <= dip (i_inum y)) by (unfold dip; change IPB with 8; dlia). apply (up_dinodes _ _ _ _ _ _ _ _ U); [lia|].
    assert (i_inum x / 8 = i_inum y / 8).
    { unfold IBLOCK in *. change IPB with 8 in *. rewrite <- Hx in Eb. unfold is_u32, u32 in *.
      assert (0 <= i_inum x / 8 < 2^29 /\ 0 <= i_inum y / 8 < 2^29) by dlia. dlia. }
    unfold dip in *. change IPB with 8 in *. dlia.
  - unfold block. rewrite !Nat2Z.id.
    destruct (up_frame _ _ _ _ _ _ _ _ U b) as [->|(t & Ht & E & E0)]; [lia|by apply L| |done|done|].
    + intros [->%elem_of_singleton| ->%elem_of_singleton]%elem_of_union; done.
    + destruct (fo_slot _ _ _ _ _ F t Ht) as [?|[? _]]; lia.
Qed.

(** A write to [x] keeps every file beside it. *)
Lemma updated_beside : placed V x -> beside V' d' x' y /\ kept V V' y.
Proof.
  intros [Hx _]. destruct (B) as [[B1 B2 B3] Ba Bi Bb]. split; split; auto using beside_slot, beside_inode.
  - split; [done|..].
    + intros t Ht. rewrite beside_slot by done. destruct (B2 t Ht) as [?|[Hr Hu]]; [by left|right]. split; [done|].
      apply (up_used _ _ _ _ _ _ _ _ U); [lia|done].
    + intros t t' Ht Ht'. rewrite !beside_slot by done. by apply B3.
  - intros t t' Ht Ht'. rewrite beside_slot by done. intros E. destruct (decide (slot V x t = 0)) as [Ez|Ez].
    + destruct (up_new _ _ _ _ _ _ _ _ U t Ht Ez) as [E0|E0]; [congruence|].
      destruct (B2 t' Ht') as [?|[_ Hu]]; [done|]. rewrite E in E0. congruence.
    + apply (Ba t); [done|done|]. by rewrite <- (up_slot _ _ _ _ _ _ _ _ U t Ht Ez).
  - by rewrite (up_inode _ _ _ _ _ _ _ _ U).
  - intros q Hq. assert (slot_of (q / 512) <= 140)%nat as Hs by (by apply slot_of_le, div_lt).
    unfold fbyte, contents. rewrite beside_slot by done. case_match eqn:Ez; [done|]. b2p. by rewrite beside_block.
Qed.
End Beside.
End Write.
