(* ===== verification/MkfsProofs.v ===== *)
(** * The image that mkfs makes

    The blocks that the inodes name are distinct, hold the bytes of the files,
    and come one after the other behind the inodes and the bit map. *)

From S2P Require Import Prelude Memory Mmu Machine Spinlock Kalloc Vm PageTable VmProofs VmSpaces.
From S2P Require Import Encrypt ProcTable Clock ClockProofs Proc ProcProofs.
From S2P Require Import FileState Sleeplock Bio BioProofs Log LogProofs LogCommit LogOps.
From S2P Require Import Ulib Cprintf Fs FsBlocks FsInode FsRead FsDinode FsWrite Mkfs.

Module MkfsProofs.
Import Mkfs.

(** The image as the kernel sees it. *)
Definition view (l : list (list Z)) : bview := BView l [] l ∅ ∅.

(** ** What has been made so far *)

(** The inode [x] has the bytes [c], its first [k] blocks, and the indirect
    block if [ind]. *)
Record file_made (l : list (list Z)) (x : inode) (c : list Z) (k : nat) (ind : bool) : Prop := {
  fm_addrs : length (i_addrs x) = 13%nat;
  fm_cap : (length c <= 512 * k)%nat /\ (k <= 140)%nat;
  fm_slot b : (b < 140)%nat -> slot (view l) x (slot_of b) <> 0 <-> (b < k)%nat;
  fm_ind : slot (view l) x 12 <> 0 <-> ind = true;
  fm_byte o : (o < 140 * 512)%nat -> fbyte (view l) x o = default 0 (c !! o);
}.

Definition need1 (q : nat * bool) : Z := Z.of_nat q.1 + (if q.2 then 1 else 0).
Definition need (ks : list (nat * bool)) : Z := foldr (fun q z => need1 q + z) 0 ks.

Record fs_ok (st : image) (xs : list inode) (cs : list (list Z)) (ks : list (nat * bool)) : Prop := {
  fk_len : length (im_blocks st) = 1000%nat;
  fk_blocks : Forall block_ok (im_blocks st);
  fk_zero b : freeblock st <= b < 1000 -> block (view (im_blocks st)) b = zero_block;
  fk_free : freeblock st = 59 + need ks;
  fk_room : freeblock st <= 1000;
  fk_xs : length xs = length cs /\ length ks = length cs;
  fk_file i x c q : xs !! i = Some x -> cs !! i = Some c -> ks !! i = Some q -> file_made (im_blocks st) x c q.1 q.2;
  fk_slot i x t : xs !! i = Some x -> (t <= 140)%nat ->
    slot (view (im_blocks st)) x t = 0 \/ 59 <= slot (view (im_blocks st)) x t < freeblock st;
  fk_inj i j x y s t : xs !! i = Some x -> xs !! j = Some y -> (s <= 140)%nat -> (t <= 140)%nat ->
    slot (view (im_blocks st)) x s = slot (view (im_blocks st)) y t -> slot (view (im_blocks st)) x s <> 0 -> i = j /\ s = t;
}.

Lemma need_nonneg ks : 0 <= need ks.
Proof. induction ks as [|[k []] ks IH]; cbn; unfold need, need1 in *; cbn; lia. Qed.

Lemma need_insert ks i q q' : ks !! i = Some q -> need (<[i := q']> ks) = need ks + need1 q' - need1 q.
Proof.
  revert i. induction ks as [|p ks IH]; intros i Hi; [done|]. destruct i as [|i]; cbn in *; [simplify_eq; lia|].
  unfold need in IH. rewrite IH by done. lia.
Qed.

(** The slots of an inode depend on the indirect block only. *)
Lemma slot_same l l' x t :
  (ind_addr x <> 0 -> block (view l') (ind_addr x) = block (view l) (ind_addr x)) -> slot (view l') x t = slot (view l) x t.
Proof.
  intros H. unfold slot. case_decide; [done|]. destruct (Z.eqb_spec (ind_addr x) 0) as [|Hne]; [done|]. by rewrite H.
Qed.

Lemma fbyte_same l l' x x' o :
  (forall t, t = slot_of (o / 512) -> contents (view l') x' t = contents (view l) x t) -> fbyte (view l') x' o = fbyte (view l) x o.
Proof. intros H. unfold fbyte. by rewrite H. Qed.

(** ** Claiming a block *)

Section Claim.
Context (st : image) (xs : list inode) (cs : list (list Z)) (ks : list (nat * bool)).
Context (i : nat) (x x' : inode) (l' : list (list Z)) (s : nat) (c : list Z) (k k' : nat) (ind ind' : bool).
Abbreviation l := (im_blocks st).
Abbreviation fb := (freeblock st).
Hypothesis H : fs_ok st xs cs ks.
Hypothesis Hx : xs !! i = Some x.
Hypothesis Hc : cs !! i = Some c.
Hypothesis Hk : ks !! i = Some (k, ind).
Hypothesis Hs : (s <= 140)%nat.
Hypothesis Hfree : slot (view l) x s = 0.
Hypothesis Hroom : fb < 1000.
Hypothesis Hlen : length l' = 1000%nat.
Hypothesis Hblocks : Forall block_ok l'.
Hypothesis Haddrs : length (i_addrs x') = 13%nat.
Hypothesis Hslot : forall t, (t <= 140)%nat -> slot (view l') x' t = if decide (t = s) then fb else slot (view l) x t.
(** Only the indirect block of the file may have changed. *)
Hypothesis Hsame : forall b, (forall a, a = slot (view l) x 12 -> a <> 0 -> b <> a) -> block (view l') b = block (view l) b.
Hypothesis Hk' : (s = 12%nat /\ k' = k /\ ind = false /\ ind' = true) \/ (s = slot_of k /\ k' = S k /\ ind' = ind /\ (k < 140)%nat).

Lemma fb_pos : 59 <= fb.
Proof. rewrite (fk_free _ _ _ _ H). pose proof (need_nonneg ks). lia. Qed.

Lemma other_slot j y t : xs !! j = Some y -> j <> i -> (t <= 140)%nat -> slot (view l') y t = slot (view l) y t.
Proof.
  intros Hy Hj Ht. apply slot_same. intros Hne. apply Hsame. intros a Ea Ha E.
  destruct (fk_inj _ _ _ _ H j i y x 12 12 Hy Hx) as [E1 _]; [lia|lia|rewrite slot_ind; congruence|by rewrite slot_ind|done].
Qed.

Lemma claimed_contents t : (t <= 140)%nat -> t <> 12%nat -> contents (view l') x' t = contents (view l) x t.
Proof.
  intros Ht H12. unfold contents. rewrite Hslot by done. pose proof fb_pos. case_decide as E.
  - subst t. rewrite Hfree. cbn [Z.eqb]. rewrite (proj2 (Z.eqb_neq fb 0)) by lia. rewrite Hsame.
    + apply (fk_zero _ _ _ _ H). lia.
    + intros a Ea Ha E. destruct (fk_slot _ _ _ _ H i x 12 Hx ltac:(lia)); lia.
  - destruct (Z.eqb_spec (slot (view l) x t) 0) as [|Hne]; [done|]. apply Hsame. intros a Ea Ha E'.
    destruct (fk_inj _ _ _ _ H i i x x t 12 Hx Hx) as [_ E1]; [done|lia|congruence|done|done].
Qed.

Lemma other_contents j y t : xs !! j = Some y -> j <> i -> (t <= 140)%nat -> contents (view l') y t = contents (view l) y t.
Proof.
  intros Hy Hj Ht. unfold contents. rewrite (other_slot j) by done. destruct (Z.eqb_spec (slot (view l) y t) 0) as [|Hne]; [done|].
  apply Hsame. intros a Ea Ha E. destruct (fk_inj _ _ _ _ H j i y x t 12 Hy Hx) as [E1 _]; [done|lia|congruence|done|done].
Qed.

(** The claimed slot is the only one that is new. *)
Lemma claim_cases j y t : <[i := x']> xs !! j = Some y -> (t <= 140)%nat -> slot (view l') y t <> 0 ->
  (j = i /\ t = s /\ slot (view l') y t = fb) \/
  exists z, xs !! j = Some z /\ slot (view l') y t = slot (view l) z t /\ slot (view l) z t < fb /\ (j = i -> t <> s).
Proof.
  intros Hy Ht Hne. destruct (decide (j = i)) as [->|Hj].
  - rewrite list_lookup_insert_eq in Hy by (by eapply lookup_lt_Some). injection Hy as <-. rewrite Hslot in Hne |- * by done. case_decide as E; [by left|].
    right. exists x. destruct (fk_slot _ _ _ _ H i x t Hx Ht); [done|]. split_and!; [done|done|lia|done].
  - rewrite list_lookup_insert_ne in Hy by done. rewrite (other_slot j) in Hne |- * by done.
    right. exists y. destruct (fk_slot _ _ _ _ H j y t Hy Ht); [done|]. split_and!; [done|done|lia|done].
Qed.

Lemma claim_ok : fs_ok (Image l' (freeinode st) (fb + 1)) (<[i := x']> xs) cs (<[i := (k', ind')]> ks).
Proof.
  pose proof fb_pos. destruct (fk_file _ _ _ _ H i x c (k, ind) Hx Hc Hk) as [F1 F2 F3 F4 F5]. cbn [fst snd] in *.
  assert (forall o, (o < 140 * 512)%nat -> (slot_of (o / 512) <= 140)%nat) as Ho.
  { intros o Hlt. apply slot_of_le. apply Nat.Div0.div_lt_upper_bound. lia. }
  split; cbn [im_blocks freeblock].
  - done.
  - done.
  - intros b Hb. rewrite Hsame; [apply (fk_zero _ _ _ _ H); lia|]. intros a Ea Ha E.
    destruct (fk_slot _ _ _ _ H i x 12 Hx ltac:(lia)); lia.
  - rewrite (need_insert _ _ (k, ind)) by done. rewrite (fk_free _ _ _ _ H). unfold need1. cbn [fst snd].
    destruct Hk' as [(_ & -> & -> & ->)|(_ & -> & -> & _)]; lia.
  - lia.
  - rewrite !length_insert. apply (fk_xs _ _ _ _ H).
  - intros j y c' q Hy Hc' Hq. destruct (decide (j = i)) as [->|Hj].
    + rewrite list_lookup_insert_eq in Hy by (by eapply lookup_lt_Some). rewrite list_lookup_insert_eq in Hq by (by eapply lookup_lt_Some).
      injection Hy as <-. injection Hq as <-. rewrite Hc in Hc'. injection Hc' as <-. cbn [fst snd]. split; [done| | | |].
      * destruct Hk' as [(_ & -> & _)|(_ & -> & _ & Hlt)]; lia.
      * intros b Hb. rewrite Hslot by (by apply slot_of_le). destruct Hk' as [(-> & -> & _ & _)|(-> & -> & _ & _)].
        -- rewrite decide_False by apply slot_of_ind. by apply F3.
        -- case_decide as E; [apply slot_of_inj in E; subst b; lia|]. rewrite F3 by done. split; [lia|].
           intros Hlt. assert (b <> k) by congruence. lia.
      * rewrite Hslot by lia. destruct Hk' as [(-> & _ & -> & ->)|(-> & _ & -> & _)].
        -- rewrite decide_True by done. split; [done|lia].
        -- rewrite decide_False by (intros E; by apply (slot_of_ind k)). done.
      * intros o Hlt. rewrite (fbyte_same l l' x x'); [by apply F5|]. intros t ->. apply claimed_contents; [by apply Ho|apply slot_of_ind].
    + rewrite list_lookup_insert_ne in Hy by done. rewrite list_lookup_insert_ne in Hq by done. destruct (fk_file _ _ _ _ H j y c' q Hy Hc' Hq) as [G1 G2 G3 G4 G5]. split; [done|done| | |].
      * intros b Hb. rewrite (other_slot j) by (done || by apply slot_of_le). by apply G3.
      * by rewrite (other_slot j) by (done || lia).
      * intros o Hlt. rewrite (fbyte_same l l' y y); [by apply G5|]. intros t ->. apply (other_contents j); [done|done|by apply Ho].
  - intros j y t Hy Ht. destruct (decide (j = i)) as [->|Hj].
    + rewrite list_lookup_insert_eq in Hy by (by eapply lookup_lt_Some). injection Hy as <-. rewrite Hslot by done. case_decide; [lia|].
      destruct (fk_slot _ _ _ _ H i x t Hx Ht); lia.
    + rewrite list_lookup_insert_ne in Hy by done. rewrite (other_slot j) by done. destruct (fk_slot _ _ _ _ H j y t Hy Ht); lia.
  - intros j j' y y' t t' Hy Hy' Ht Ht' E Hne.
    destruct (claim_cases j y t Hy Ht Hne) as [(-> & -> & E1)|(z & Hz & E1 & E2 & _)], (claim_cases j' y' t' Hy' Ht') as [(-> & -> & E3)|(z' & Hz' & E3 & E4 & _)]; try congruence; try lia; try done.
    apply (fk_inj _ _ _ _ H j j' z z'); congruence.
Qed.
End Claim.

(** ** Sectors *)

Lemma xint_small v : is_u32 v -> xint v = v.
Proof.
  intros Hv. unfold xint. change (bytes32 v) with (put32 0 v [0; 0; 0; 0]). rewrite get32_put32 by (cbn; lia). by apply u32_small.
Qed.

Lemma fs_lookup st xs cs ks a : fs_ok st xs cs ks -> 0 <= a < 1000 ->
  im_blocks st !! Z.to_nat a = Some (block (view (im_blocks st)) a) /\ length (block (view (im_blocks st)) a) = 512%nat.
Proof.
  intros H Ha. destruct (lookup_lt_is_Some_2 (im_blocks st) (Z.to_nat a)) as [d Hd]; [rewrite (fk_len _ _ _ _ H); lia|].
  unfold block. cbn. rewrite Hd. split; [done|]. exact (Forall_lookup_1 _ _ _ _ (fk_blocks _ _ _ _ H) Hd).
Qed.

Lemma wp_rsect st xs cs ks a (Q : list Z -> image -> Prop) : fs_ok st xs cs ks -> 0 <= a < 1000 ->
  Q (block (view (im_blocks st)) a) st -> wp (rsect a) st Q.
Proof. intros H Ha HQ. unfold rsect. wsteps. destruct (fs_lookup _ _ _ _ a H Ha) as [-> _]. by wsteps. Qed.

Lemma wp_wsect st a buf (Q : unit -> image -> Prop) : length (im_blocks st) = 1000%nat -> 0 <= a < 1000 ->
  Q tt (set_blocks (<[Z.to_nat a := buf]> (im_blocks st)) st) -> wp (wsect a buf) st Q.
Proof.
  intros Hl Ha HQ. unfold wsect. wsteps. by rewrite (proj2 (Nat.ltb_lt _ _)) by lia.
Qed.

Lemma wp_asserts b st (Q : unit -> image -> Prop) : b = true -> Q tt st -> wp (asserts b) st Q.
Proof. by intros ->. Qed.

Lemma block_insert l a d b : (Z.to_nat a < length l)%nat -> 0 <= a -> 0 <= b ->
  block (view (<[Z.to_nat a := d]> l)) b = if decide (b = a) then d else block (view l) b.
Proof.
  intros Hl Ha Hb. unfold block. cbn. case_decide as E; [subst; by rewrite list_lookup_insert_eq|].
  by rewrite list_lookup_insert_ne by lia.
Qed.

(** ** The blocks of a file *)

Lemma addr_slot l x t : (t <= 12)%nat -> addr x (Z.of_nat t) = slot (view l) x t.
Proof. intros Ht. unfold addr, slot. rewrite decide_True by done. by rewrite Nat2Z.id. Qed.

Lemma slot_put_addr l x t v u : (t <= 12)%nat -> length (i_addrs x) = 13%nat ->
  (t = 12%nat -> v = 0 \/ block (view l) v = zero_block) -> (t = 12%nat -> ind_addr x = 0) ->
  slot (view l) (put_addr (Z.of_nat t) v x) u = if decide (u = t) then v else slot (view l) x u.
Proof.
  intros Ht Hl Hz Hi. unfold put_addr. rewrite Nat2Z.id.
  assert (ind_addr (set_i_addrs (<[t := v]> (i_addrs x)) x) = if decide (t = 12%nat) then v else ind_addr x) as Ei.
  { unfold ind_addr. cbn [i_addrs set_i_addrs]. case_decide; [subst; by rewrite list_lookup_insert_eq by lia|by rewrite list_lookup_insert_ne by done]. }
  unfold slot. rewrite Ei. cbn [i_addrs set_i_addrs]. destruct (decide (u <= 12)%nat) as [Eu|Eu].
  - destruct (decide (u = t)) as [->|]; [by rewrite list_lookup_insert_eq by lia|by rewrite list_lookup_insert_ne by done].
  - rewrite (decide_False (P := u = t)) by lia. case_decide as E; [|done]. rewrite (Hi E). cbn [Z.eqb].
    destruct (Hz E) as [->|Hb]; [done|]. case_match; [done|]. rewrite Hb. apply get32_zero.
Qed.

(** [freeblock++] into one of the addresses of the inode. *)
Lemma claim_addr st xs cs ks i x c k ind t : fs_ok st xs cs ks -> xs !! i = Some x -> cs !! i = Some c -> ks !! i = Some (k, ind) ->
  (t <= 12)%nat -> slot (view (im_blocks st)) x t = 0 -> freeblock st < 1000 ->
  (t = 12%nat /\ ind = false) \/ (t < 12 /\ t = k)%nat ->
  let x' := put_addr (Z.of_nat t) (freeblock st) x in
  fs_ok (set_freeblock (freeblock st + 1) st) (<[i := x']> xs) cs
    (<[i := (if decide (t = 12%nat) then k else S k, if decide (t = 12%nat) then true else ind)]> ks) /\
  slot (view (im_blocks st)) x' t = freeblock st.
Proof.
  intros H Hx Hc Hk Ht Hz Hroom Hkt x'. destruct (fk_file _ _ _ _ H i x c _ Hx Hc Hk) as [F1 _ _ _ _].
  assert (block (view (im_blocks st)) (freeblock st) = zero_block) as Hzero.
  { apply (fk_zero _ _ _ _ H). lia. }
  assert (forall u, slot (view (im_blocks st)) x' u = if decide (u = t) then freeblock st else slot (view (im_blocks st)) x u) as Hslot.
  { intros u. apply slot_put_addr; [done|done|by right|]. intros ->. by rewrite <- slot_ind with (V := view (im_blocks st)). }
  split; [|by rewrite Hslot, decide_True].
  apply (claim_ok st xs cs ks i x x' (im_blocks st) t c k _ ind); try done.
  - lia.
  - apply (fk_len _ _ _ _ H).
  - apply (fk_blocks _ _ _ _ H).
  - cbn. by rewrite length_insert.
  - destruct Hkt as [[-> ->]|[Hlt ->]]; [left; by rewrite !decide_True|right].
    rewrite !decide_False by lia. split_and!; [|done|done|lia]. unfold slot_of. by rewrite decide_True.
Qed.

(** [freeblock++] into an entry of the indirect block. *)
Lemma claim_entry st xs cs ks i x c k : fs_ok st xs cs ks -> xs !! i = Some x -> cs !! i = Some c -> ks !! i = Some (k, true) ->
  (12 <= k < 140)%nat -> freeblock st < 1000 ->
  let a := slot (view (im_blocks st)) x 12 in
  let l' := <[Z.to_nat a := put32 (4 * (Z.of_nat k - 12)) (freeblock st) (block (view (im_blocks st)) a)]> (im_blocks st) in
  fs_ok (Image l' (freeinode st) (freeblock st + 1)) xs cs (<[i := (S k, true)]> ks) /\
  slot (view l') x (slot_of k) = freeblock st /\ (forall b, 0 <= b < 59 -> block (view l') b = block (view (im_blocks st)) b).
Proof.
  intros H Hx Hc Hk Hk12 Hroom a l'. destruct (fk_file _ _ _ _ H i x c _ Hx Hc Hk) as [F1 _ F3 F4 _]. cbn [fst snd] in *.
  assert (a <> 0) as Ha by (by apply F4). destruct (fk_slot _ _ _ _ H i x 12 Hx ltac:(lia)) as [|Hr]; [done|]. fold a in Hr.
  destruct (fs_lookup _ _ _ _ a H ltac:(lia)) as [_ Hla].
  assert (forall b, 0 <= b -> block (view l') b = if decide (b = a) then put32 (4 * (Z.of_nat k - 12)) (freeblock st) (block (view (im_blocks st)) a) else block (view (im_blocks st)) b) as Hb.
  { intros b Hb. apply block_insert; [rewrite (fk_len _ _ _ _ H); lia|lia|done]. }
  assert (slot_of k = S k) as Esk by (unfold slot_of; by rewrite decide_False by lia).
  assert (forall t, (t <= 140)%nat -> slot (view l') x t = if decide (t = slot_of k) then freeblock st else slot (view (im_blocks st)) x t) as Hslot.
  { intros t Ht. unfold slot. rewrite <- !(slot_ind (view (im_blocks st))). fold a. case_decide as E; [by rewrite decide_False by lia|].
    rewrite (proj2 (Z.eqb_neq a 0)) by done. rewrite Hb, decide_True by (done || lia). case_decide as E'.
    - replace (4 * (Z.of_nat t - 13)) with (4 * (Z.of_nat k - 12)) by lia. rewrite get32_put32 by lia. apply u32_small. unfold is_u32. lia.
    - apply get32_put32_ne; lia. }
  split_and!.
  - rewrite <- (list_insert_id xs i x Hx) at 1. apply (claim_ok st xs cs ks i x x l' (slot_of k) c k (S k) true true); try done.
    + apply slot_of_le. lia.
    + destruct (decide (slot (view (im_blocks st)) x (slot_of k) = 0)) as [|Hne]; [done|]. apply F3 in Hne; lia.
    + unfold l'. by rewrite length_insert, (fk_len _ _ _ _ H).
    + apply Forall_insert; [apply (fk_blocks _ _ _ _ H)|]. unfold block_ok. by rewrite length_put32.
    + intros b Hne. destruct (Z_lt_dec b 0) as [Hneg|].
      * unfold l', block. cbn. rewrite list_lookup_insert_ne; [done|]. lia.
      * rewrite Hb, decide_False by (lia || by apply Hne). done.
    + right. split_and!; [done|done|done|lia].
  - by rewrite Hslot, decide_True by (done || (apply slot_of_le; lia)).
  - intros b Hlt. rewrite Hb, decide_False by lia. done.
Qed.

(** The blocks before the data. *)
Definition same_meta (st st' : image) : Prop :=
  forall b, 0 <= b < 59 -> block (view (im_blocks st')) b = block (view (im_blocks st)) b.

Lemma wp_next_block st xs cs ks (Q : Z -> image -> Prop) : fs_ok st xs cs ks ->
  Q (freeblock st) (set_freeblock (freeblock st + 1) st) -> wp next_block st Q.
Proof.
  intros H HQ. pose proof (fk_room _ _ _ _ H). assert (0 <= freeblock st) by (rewrite (fk_free _ _ _ _ H); pose proof (need_nonneg ks); lia).
  unfold next_block. wsteps. rewrite xint_small, u32_small by (unfold is_u32; lia). done.
Qed.

Lemma slot_u32 st xs cs ks i x t : fs_ok st xs cs ks -> xs !! i = Some x -> (t <= 140)%nat -> is_u32 (slot (view (im_blocks st)) x t).
Proof. intros H Hx Ht. pose proof (fk_room _ _ _ _ H). destruct (fk_slot _ _ _ _ H i x t Hx Ht); unfold is_u32; lia. Qed.

Lemma addr_ind l x : addr x NDIRECT = slot (view l) x 12.
Proof. done. Qed.

Section FileBlock.
Context (i : nat) (cs : list (list Z)) (c : list Z) (b k : nat).
Hypothesis Hc : cs !! i = Some c.
Hypothesis Hb : (b <= k)%nat /\ (b < 140)%nat.

(** The result [r] is the number of block [b] of the file, which has [q] now. *)
Definition has_block (q : nat * bool) (st : image) (xs : list inode) ks (x : inode) (r : Z * inode) (st' : image) : Prop :=
  exists x', r = (slot (view (im_blocks st')) x' (slot_of b), x') /\ fs_ok st' (<[i := x']> xs) cs (<[i := q]> ks) /\
    x' = set_i_addrs (i_addrs x') x /\ freeinode st' = freeinode st /\ same_meta st st'.

Lemma max_new : b = k -> Nat.max k (S b) = S k.
Proof. lia. Qed.

Lemma max_old : (b < k)%nat -> Nat.max k (S b) = k.
Proof. lia. Qed.

(** The part for the indirect block, when there is one. *)
Lemma indirect_spec st xs ks x : (12 <= b)%nat -> fs_ok st xs cs ks -> xs !! i = Some x -> ks !! i = Some (k, true) ->
  freeblock st + Z.of_nat (Nat.max k (S b)) - Z.of_nat k <= 1000 ->
  wp (indirect ← rsect (xint (addr x NDIRECT));
      let j := 4 * (Z.of_nat b - NDIRECT) in
      indirect ← (if get32 indirect j =? 0 then
                  n ← next_block;
                  wsect (xint (addr x NDIRECT)) (put32 j n indirect);;
                  mret (put32 j n indirect)
                else mret indirect);
      mret (xint (get32 indirect j), x)) st (has_block (Nat.max k (S b), true) st xs ks x).
Proof.
  intros H12 H Hx Hk Hroom. rewrite !(addr_ind (im_blocks st)). unfold NDIRECT. cbv zeta.
  destruct (fk_file _ _ _ _ H i x c _ Hx Hc Hk) as [_ F2 F3 F4 _]. cbn [fst snd] in *.
  assert (slot (view (im_blocks st)) x 12 <> 0) as Ha by (by apply F4). pose proof (slot_u32 _ _ _ _ i x 12 H Hx ltac:(lia)).
  destruct (fk_slot _ _ _ _ H i x 12 Hx ltac:(lia)) as [|Hr]; [done|]. pose proof (fk_room _ _ _ _ H). rewrite xint_small by done.
  assert (slot (view (im_blocks st)) x (slot_of b) = get32 (block (view (im_blocks st)) (slot (view (im_blocks st)) x 12)) (4 * (Z.of_nat b - 12))) as Es.
  { unfold slot at 1, slot_of. rewrite (decide_False (P := (b < 12)%nat)), decide_False, <- (slot_ind (view (im_blocks st))) by lia.
    rewrite (proj2 (Z.eqb_neq _ _)) by done. f_equal. lia. }
  wstep. apply (wp_rsect _ _ _ _ _ _ H); [lia|]. rewrite <- Es. destruct (Z.eqb_spec (slot (view (im_blocks st)) x (slot_of b)) 0) as [Ez|Enz].
  - assert (b = k) as Ebk. { destruct (decide (b < k)%nat) as [Hlt|]; [apply F3 in Hlt; [done|lia]|lia]. }
    rewrite max_new in Hroom |- * by done. wstep. wstep. apply (wp_next_block _ _ _ _ _ H). wstep. apply wp_wsect; [apply (fk_len _ _ _ _ H)|lia|].
    wsteps. destruct (claim_entry st xs cs ks i x c k H Hx Hc Hk) as (H' & Hs' & Hm); [lia|lia|].
    rewrite get32_put32 by (try lia; rewrite (proj2 (fs_lookup _ _ _ _ (slot (view (im_blocks st)) x 12) H ltac:(lia))); lia).
    rewrite u32_small, xint_small by (unfold is_u32; lia).
    exists x. rewrite <- Ebk in H', Hs', Hm. rewrite <- Ebk. split_and!; [f_equal; exact (eq_sym Hs')|rewrite (list_insert_id xs i x) by done; exact H'|by destruct x|done|exact Hm].
  - assert (b < k)%nat as Hlt by (apply F3; [lia|done]). rewrite max_old by done.
    wsteps. rewrite <- Es. exists x. rewrite xint_small by (eapply slot_u32; [done|done|apply slot_of_le; lia]).
    split_and!; [done|by rewrite !list_insert_id|by destruct x|done|done].
Qed.

Lemma file_block_spec st xs ks x ind : fs_ok st xs cs ks -> xs !! i = Some x -> ks !! i = Some (k, ind) -> ((12 < k)%nat -> ind = true) ->
  let q := (Nat.max k (S b), ind || (12 <=? b)%nat) in
  freeblock st + need1 q - need1 (k, ind) <= 1000 ->
  wp (file_block (Z.of_nat b) x) st (has_block q st xs ks x).
Proof.
  intros H Hx Hk Hi q Hroom. destruct (fk_file _ _ _ _ H i x c _ Hx Hc Hk) as [F1 F2 F3 F4 _]. unfold q, need1 in *. clear q. cbn [fst snd] in *.
  pose proof (fk_room _ _ _ _ H). assert (0 <= freeblock st) by (rewrite (fk_free _ _ _ _ H); pose proof (need_nonneg ks); lia).
  unfold file_block. destruct (Z.ltb_spec (Z.of_nat b) NDIRECT) as [Hlt|Hge]; unfold NDIRECT in Hlt || unfold NDIRECT in Hge.
  - rewrite (proj2 (Nat.leb_gt 12 b)), orb_false_r in * by lia.
    rewrite !(addr_slot (im_blocks st)) by lia. assert (slot_of b = b) as Esb by (unfold slot_of; by rewrite decide_True by lia).
    rewrite xint_small by (eapply slot_u32; [done|done|lia]).
    destruct (Z.eqb_spec (slot (view (im_blocks st)) x b) 0) as [Ez|Enz].
    + assert (b = k) as Ebk. { destruct (decide (b < k)%nat) as [Hlt'|]; [apply F3 in Hlt'; [congruence|lia]|lia]. }
      rewrite max_new in Hroom |- * by done.
      destruct (claim_addr st xs cs ks i x c k ind b H Hx Hc Hk) as [H' Hs']; [lia|done|lia|right; lia|].
      rewrite !decide_False in H' by lia.
      wsteps. apply (wp_next_block _ _ _ _ _ H). wsteps. eexists. rewrite (addr_slot (im_blocks st)) by lia. rewrite Esb.
      split_and!; [by rewrite xint_small by (rewrite Hs'; unfold is_u32; lia)|exact H'|done|done|done].
    + assert (b < k)%nat as Hlt' by (apply F3; [lia|by rewrite Esb]). rewrite max_old in Hroom |- * by done.
      wsteps. exists x. rewrite (addr_slot (im_blocks st)), xint_small by (lia || (eapply slot_u32; [done|done|lia])). rewrite Esb.
      split_and!; [done|by rewrite !list_insert_id|by destruct x|done|done].
  - rewrite (proj2 (Nat.leb_le 12 b)), orb_true_r in * by lia. rewrite (addr_ind (im_blocks st)).
    rewrite xint_small by (eapply slot_u32; [done|done|lia]).
    destruct (Z.eqb_spec (slot (view (im_blocks st)) x 12) 0) as [Ez|Enz].
    + assert (ind = false) as Ei by (destruct ind; [by destruct (proj2 F4 eq_refl)|done]). rewrite Ei in *.
      assert (k = 12%nat) as Ek by (destruct (decide (12 < k)%nat) as [Hgt|]; [by apply Hi in Hgt|lia]). rewrite max_new in Hroom by lia.
      destruct (claim_addr st xs cs ks i x c k false 12 H Hx Hc Hk) as [H' Hs']; [lia|done|lia|by left|].
      rewrite !decide_True in H' by done. wstep. wstep. apply (wp_next_block _ _ _ _ _ H). wstep.
      eapply wp_mono; [apply (indirect_spec _ _ _ _ ltac:(lia) H')|].
      * rewrite list_lookup_insert_eq by (by eapply lookup_lt_Some). done.
      * rewrite list_lookup_insert_eq by (by eapply lookup_lt_Some). done.
      * cbn [freeblock set_freeblock]. rewrite max_new by lia. lia.
      * intros r st' (x' & -> & H2 & E2 & Ef & Hm). exists x'. rewrite !list_insert_insert_eq in H2.
        split_and!; [done|exact H2|rewrite E2; by destruct x|exact Ef|exact Hm].
    + wstep. wstep. rewrite (proj1 F4 Enz) in *. apply indirect_spec; [lia|done|done|done|lia].
Qed.
End FileBlock.

(** ** Writing the data *)

Section Data.
Context (st : image) (xs : list inode) (cs : list (list Z)) (ks : list (nat * bool)) (i : nat) (x : inode) (c piece : list Z).
Abbreviation V := (view (im_blocks st)).
Abbreviation b := (length c / 512)%nat.
Abbreviation o := (length c mod 512)%nat.
Abbreviation a := (slot V x (slot_of b)).
Abbreviation d := (put_bytes o piece (block V a)).
Abbreviation V' := (view (<[Z.to_nat a := d]> (im_blocks st))).
Hypothesis H : fs_ok st xs cs ks.
Hypothesis Hx : xs !! i = Some x.
Hypothesis Hc : cs !! i = Some c.
Hypothesis Hb : (b < 140)%nat.
Hypothesis Ha : a <> 0.
Hypothesis Hpiece : (o + length piece <= 512)%nat.

Lemma data_range : 59 <= a < freeblock st /\ freeblock st <= 1000.
Proof. split; [|apply (fk_room _ _ _ _ H)]. destruct (fk_slot _ _ _ _ H i x (slot_of b) Hx); [by apply slot_of_le|done|done]. Qed.

Lemma data_block e : 0 <= e -> block V' e = if decide (e = a) then d else block V e.
Proof. intros He. pose proof data_range. apply block_insert; [rewrite (fk_len _ _ _ _ H); lia|lia|done]. Qed.

Lemma data_slot j y t : xs !! j = Some y -> (t <= 140)%nat -> slot V' y t = slot V y t.
Proof.
  intros Hy Ht. apply slot_same. intros Hne. pose proof (fk_slot _ _ _ _ H j y 12 Hy ltac:(lia)). rewrite slot_ind in *.
  rewrite data_block, decide_False; [done| |lia]. intros E.
  destruct (fk_inj _ _ _ _ H j i y x 12 (slot_of b) Hy Hx) as [_ E1]; [lia|by apply slot_of_le|done|done|]. by apply (slot_of_ind b).
Qed.

Lemma data_contents j y t : xs !! j = Some y -> (t <= 140)%nat ->
  contents V' y t = if decide (j = i /\ t = slot_of b) then d else contents V y t.
Proof.
  intros Hy Ht. unfold contents. rewrite (data_slot j) by done. destruct (Z.eqb_spec (slot V y t) 0) as [E|Hne].
  - rewrite decide_False; [done|]. intros [-> ->]. congruence.
  - destruct (fk_slot _ _ _ _ H j y t Hy Ht); [done|]. rewrite data_block by lia. apply decide_ext. split.
    + intros E. apply (fk_inj _ _ _ _ H j i y x); try done. by apply slot_of_le.
    + intros [-> ->]. congruence.
Qed.

(** The bytes of the file after the write. *)
Lemma data_bytes q : (q < 140 * 512)%nat -> fbyte V x q = default 0 (c !! q) -> fbyte V' x q = default 0 ((c ++ piece) !! q).
Proof.
  intros Hq E. assert (q / 512 < 140)%nat as Hq' by (apply Nat.Div0.div_lt_upper_bound; lia).
  pose proof (Nat.div_mod_eq q 512) as E1. pose proof (Nat.div_mod_eq (length c) 512) as E2.
  pose proof (Nat.mod_upper_bound q 512 ltac:(lia)). pose proof (Nat.mod_upper_bound (length c) 512 ltac:(lia)).
  pose proof data_range. destruct (fs_lookup _ _ _ _ a H ltac:(lia)) as [_ Hl].
  rewrite fbyte_at, (data_contents i) by (done || by apply slot_of_le). destruct (decide (q / 512 = b)%nat) as [Eb|Nb].
  - rewrite decide_True by (split; congruence). rewrite byte_at_put by lia. rewrite Eb in E1. case_decide as Hin.
    + rewrite lookup_app_r by lia. unfold byte_at. f_equal. f_equal. lia.
    + transitivity (fbyte V x q).
      { rewrite fbyte_at, Eb. unfold contents. by rewrite (proj2 (Z.eqb_neq a 0)). }
      rewrite E. destruct (decide (q < length c)%nat); [by rewrite lookup_app_l|].
      rewrite lookup_app_r, !lookup_ge_None_2 by lia. done.
  - rewrite decide_False by (intros [_ E3]; by apply slot_of_inj in E3). rewrite <- fbyte_at, E.
    destruct (decide (q < length c)%nat); [by rewrite lookup_app_l|]. assert (b < q / 512)%nat by nia.
    rewrite lookup_app_r, !lookup_ge_None_2 by nia. done.
Qed.

Lemma data_ok : fs_ok (set_blocks (<[Z.to_nat a := d]> (im_blocks st)) st) xs (<[i := c ++ piece]> cs) ks /\
  same_meta st (set_blocks (<[Z.to_nat a := d]> (im_blocks st)) st).
Proof.
  pose proof data_range. destruct (fs_lookup _ _ _ _ a H ltac:(lia)) as [_ Hl]. split; [|intros e He; cbn [im_blocks set_blocks]; by rewrite data_block, decide_False by lia].
  split; cbn [im_blocks set_blocks freeblock].
  - by rewrite length_insert, (fk_len _ _ _ _ H).
  - apply Forall_insert; [apply (fk_blocks _ _ _ _ H)|]. unfold block_ok. by rewrite length_put_bytes.
  - intros e He. rewrite data_block, decide_False by lia. by apply (fk_zero _ _ _ _ H).
  - apply (fk_free _ _ _ _ H).
  - lia.
  - rewrite length_insert. apply (fk_xs _ _ _ _ H).
  - intros j y c' q Hy Hc' Hq. assert (exists c0, cs !! j = Some c0 /\ c' = if decide (j = i) then c ++ piece else c0) as (c0 & Hc0 & Ec').
    { destruct (decide (j = i)) as [->|]; [rewrite list_lookup_insert_eq in Hc' by (by eapply lookup_lt_Some); by simplify_eq; exists c|].
      rewrite list_lookup_insert_ne in Hc' by done. by exists c'. }
    destruct (fk_file _ _ _ _ H j y c0 q Hy Hc0 Hq) as [G1 G2 G3 G4 G5]. split.
    + done.
    + subst c'. case_decide; [|done]. subst j. simplify_eq. rewrite length_app. apply (G3 b) in Ha; [|done].
      pose proof (Nat.div_mod_eq (length c) 512). lia.
    + intros e He. rewrite (data_slot j) by (done || by apply slot_of_le). by apply G3.
    + by rewrite (data_slot j) by (done || lia).
    + intros q' Hq'. subst c'. case_decide as E.
      * subst j. simplify_eq. apply data_bytes; [done|]. by apply G5.
      * rewrite <- (G5 q') by done. apply fbyte_same. intros t ->. rewrite (data_contents j), decide_False; [done|naive_solver|done|].
        apply slot_of_le. apply Nat.Div0.div_lt_upper_bound. lia.
  - intros j y t Hy Ht. rewrite (data_slot j) by done. by apply (fk_slot _ _ _ _ H j).
  - intros j j' y y' t t' Hy Hy' Ht Ht'. rewrite (data_slot j), (data_slot j') by done. by apply (fk_inj _ _ _ _ H).
Qed.
End Data.

(** ** The loop of iappend *)

(** The blocks of a file of [n] bytes. *)
Definition cap (n : nat) : nat * bool := ((n + 511) / 512, 12 <? (n + 511) / 512)%nat.

Lemma cap_step n n1 : (0 < n1)%nat -> (n mod 512 + n1 <= 512)%nat ->
  (Nat.max (cap n).1 (S (n / 512)), (cap n).2 || (12 <=? n / 512)%nat) = cap (n + n1).
Proof.
  intros H0 H1. unfold cap. cbn [fst snd]. pose proof (Nat.div_mod_eq n 512). pose proof (Nat.mod_upper_bound n 512 ltac:(lia)).
  pose proof (Nat.div_mod_eq (n + 511) 512). pose proof (Nat.mod_upper_bound (n + 511) 512 ltac:(lia)).
  assert ((n + n1 + 511) / 512 = S (n / 512))%nat as ->.
  { symmetry. apply (Nat.div_unique _ _ _ (n mod 512 + n1 - 1)); lia. }
  assert (n / 512 <= (n + 511) / 512 <= S (n / 512))%nat as Hk by nia. f_equal; [lia|].
  destruct (Nat.ltb_spec 12 ((n + 511) / 512)), (Nat.leb_spec 12 (n / 512)), (Nat.ltb_spec 12 (S (n / 512))); cbn; lia || done.
Qed.

Lemma need1_cap n m : (n <= m)%nat -> 0 <= need1 (cap n) <= need1 (cap m).
Proof.
  intros Hn. assert ((n + 511) / 512 <= (m + 511) / 512)%nat by (apply Nat.Div0.div_le_mono; lia). unfold need1, cap. cbn [fst snd].
  destruct (Nat.ltb_spec 12 ((n + 511) / 512)), (Nat.ltb_spec 12 ((m + 511) / 512)); lia.
Qed.

(** What a call changes: file [i] has the bytes [c'] and the inode [x']. *)
Record appended (i : nat) (st : image) xs cs ks (x : inode) (c' : list Z) (x' : inode) (st' : image) : Prop := {
  ap_ok : fs_ok st' (<[i := x']> xs) (<[i := c']> cs) (<[i := cap (length c')]> ks);
  ap_inode : x' = set_i_addrs (i_addrs x') x;
  ap_free : freeinode st' = freeinode st;
  ap_meta : same_meta st st';
}.

(** One turn: the block of the file, and the bytes into it. *)
Lemma write_turn {A} i st xs cs ks x c piece (K : inode -> M image A) Q : fs_ok st xs cs ks -> xs !! i = Some x -> cs !! i = Some c ->
  ks !! i = Some (cap (length c)) -> (0 < length piece)%nat -> (length c mod 512 + length piece <= 512)%nat -> (length c / 512 < 140)%nat ->
  freeblock st + need1 (cap (length c + length piece)) - need1 (cap (length c)) <= 1000 ->
  (forall x' st', appended i st xs cs ks x (c ++ piece) x' st' ->
    freeblock st' = freeblock st + need1 (cap (length c + length piece)) - need1 (cap (length c)) -> wp (K x') st' Q) ->
  wp (r ← file_block (Z.of_nat (length c / 512)) x;
      let '(b, din) := r in
      buf ← rsect b;
      wsect b (put_bytes (length c mod 512) piece buf);;
      K din) st Q.
Proof.
  intros H Hx Hc Hk Hpos Hpiece Hb Hroom HQ. pose proof Hk as Hk0.
  assert ((length c / 512 <= (cap (length c)).1)%nat /\ (length c / 512 < 140)%nat) as Hcap.
  { split; [|done]. unfold cap. cbn [fst]. apply Nat.Div0.div_le_mono. lia. }
  rewrite (surjective_pairing (cap (length c))) in Hk.
  pose proof (file_block_spec i cs c (length c / 512) _ Hc Hcap st xs ks x _ H Hx Hk) as Hfb. cbv zeta in Hfb.
  rewrite (cap_step _ (length piece)), <- surjective_pairing in Hfb by lia. wstep. eapply wp_mono; [apply Hfb; [unfold cap; cbn [fst snd]; apply Nat.ltb_lt|lia]|].
  intros r st1 (x1 & -> & H1 & Ex1 & Ef1 & Hm1). clear Hfb.
  assert (<[i := x1]> xs !! i = Some x1) as Hx1 by (apply list_lookup_insert_eq; by eapply lookup_lt_Some).
  assert (<[i := cap (length c + length piece)]> ks !! i = Some (cap (length c + length piece))) as Hk1 by (apply list_lookup_insert_eq; by eapply lookup_lt_Some).
  assert (slot (view (im_blocks st1)) x1 (slot_of (length c / 512)) <> 0) as Ha.
  { apply (fm_slot _ _ _ _ _ (fk_file _ _ _ _ H1 i x1 c _ Hx1 Hc Hk1)); [done|]. rewrite <- (cap_step _ (length piece)) by lia. cbn [fst]. lia. }
  pose proof (data_range st1 _ cs _ i x1 c H1 Hx1 Hb Ha) as Hr.
  destruct (data_ok st1 _ cs _ i x1 c piece H1 Hx1 Hc Hb Ha Hpiece) as [H2 Hm2].
  wstep. apply (wp_rsect _ _ _ _ _ _ H1); [lia|]. wstep. apply wp_wsect; [apply (fk_len _ _ _ _ H1)|lia|]. apply HQ.
  - split; [by rewrite length_app|done|done|]. intros e He. rewrite Hm2 by done. by apply Hm1.
  - cbn [freeblock set_blocks]. rewrite (fk_free _ _ _ _ H1), (need_insert _ _ _ _ Hk0), (fk_free _ _ _ _ H). lia.
Qed.

Lemma appended_trans i st xs cs ks x c1 x1 st1 c2 x2 st2 : appended i st xs cs ks x c1 x1 st1 ->
  appended i st1 (<[i := x1]> xs) (<[i := c1]> cs) (<[i := cap (length c1)]> ks) x1 c2 x2 st2 -> appended i st xs cs ks x c2 x2 st2.
Proof.
  intros [A1 A2 A3 A4] [B1 B2 B3 B4]. rewrite !list_insert_insert_eq in B1. split; [done| |congruence|].
  - rewrite B2, A2. by destruct x.
  - intros e He. rewrite B4 by done. by apply A4.
Qed.

Lemma iappend_loop_spec i fuel : forall p st xs cs ks x c, fs_ok st xs cs ks -> xs !! i = Some x -> cs !! i = Some c ->
  ks !! i = Some (cap (length c)) -> (length p <= fuel)%nat -> (length c + length p <= 140 * 512)%nat ->
  freeblock st + need1 (cap (length c + length p)) - need1 (cap (length c)) <= 1000 ->
  wp (iappend_loop p (Z.of_nat (length c)) x fuel) st (fun r st' => exists x',
    r = (Z.of_nat (length (c ++ p)), x') /\ appended i st xs cs ks x (c ++ p) x' st').
Proof.
  induction fuel as [|fuel IH]; intros p st xs cs ks x c H Hx Hc Hk Hf Hmax Hroom; cbn [iappend_loop].
  all: destruct (decide (p = [])) as [->|Hp];
    [wsteps; exists x; rewrite app_nil_r; split; [done|]; split; [by rewrite !list_insert_id|by destruct x|done|done]|].
  { destruct p; [done|cbn in Hf; lia]. }
  assert (0 < length p)%nat as Hpos by (destruct p; cbn; [done|lia]). rewrite (proj2 (Z.leb_gt _ _)) by lia.
  set (n1 := Nat.min (length p) (512 - length c mod 512)).
  pose proof (Nat.div_mod_eq (length c) 512) as Ed. pose proof (Nat.mod_upper_bound (length c) 512 ltac:(lia)) as Hm.
  assert (Z.of_nat (length c) / BSIZE = Z.of_nat (length c / 512)) as -> by (unfold BSIZE; by rewrite Nat2Z.inj_div).
  assert (Z.min (Z.of_nat (length p)) ((Z.of_nat (length c / 512) + 1) * BSIZE - Z.of_nat (length c)) = Z.of_nat n1) as En1 by (unfold BSIZE; lia).
  assert (Z.of_nat (length c) - Z.of_nat (length c / 512) * BSIZE = Z.of_nat (length c mod 512)) as Eo by (unfold BSIZE; lia).
  assert (length c / 512 < 140)%nat as Hb by nia. cbv zeta. rewrite En1, Eo, !Nat2Z.id.
  wstep. change (Z.of_nat (length c / 512) <? MAXFILE) with (Z.of_nat (length c / 512) <? 140). apply wp_asserts; [lia|].
  assert (length (take n1 p) = n1) as El by (rewrite length_take; lia).
  pose proof (need1_cap (length c + n1) (length c + length p) ltac:(lia)).
  apply (write_turn i st xs cs ks x c (take n1 p)); rewrite ?El; try done; [lia|lia|lia|].
  intros x1 st1 A1 Ef. pose proof (ap_ok _ _ _ _ _ _ _ _ _ A1) as H1.
  replace (Z.of_nat (length c) + Z.of_nat n1) with (Z.of_nat (length (c ++ take n1 p))) by (rewrite length_app; lia).
  assert (length (c ++ take n1 p) + length (drop n1 p) = length c + length p)%nat as Et by (rewrite length_app, length_drop; lia).
  eapply wp_mono; [apply (IH _ _ _ _ _ _ _ H1)|].
  1-3: apply list_lookup_insert_eq; by eapply lookup_lt_Some.
  - rewrite length_drop. lia.
  - lia.
  - rewrite Et, length_app, El, Ef. lia.
  - intros r st2 (x2 & -> & A2). exists x2. rewrite <- app_assoc, take_drop in *. split; [done|]. by eapply appended_trans.
Qed.
End MkfsProofs.
