(* ===== verification/MkfsTheorems.v ===== *)
(** * mkfs: inodes, directory entries and the whole image

    The inodes are on the disk as [ilock] reads them, every file has the bytes
    that mkfs was given, and the bit map marks the blocks in use. *)

From S2P Require Import Prelude Memory Mmu Machine Spinlock Kalloc Vm PageTable VmProofs VmSpaces.
From S2P Require Import Encrypt ProcTable Clock ClockProofs Proc ProcProofs.
From S2P Require Import FileState Sleeplock Bio BioProofs Log LogProofs LogCommit LogOps.
From S2P Require Import Ulib Cprintf Fs FsBlocks FsInode FsRead FsDinode FsWrite Mkfs MkfsProofs.

Module MkfsTheorems.
Import Mkfs MkfsProofs.

(** ** Changes that leave the files as they are *)

Lemma slot_addrs V x y t : i_addrs y = i_addrs x -> slot V y t = slot V x t.
Proof. intros E. unfold slot, ind_addr. by rewrite E. Qed.

Lemma file_made_addrs l x y c k ind : i_addrs y = i_addrs x -> file_made l x c k ind -> file_made l y c k ind.
Proof.
  intros E [F1 F2 F3 F4 F5]. split; [by rewrite E|done| | |].
  - intros b Hb. rewrite (slot_addrs _ x) by done. by apply F3.
  - by rewrite (slot_addrs _ x) by done.
  - intros o Ho. unfold fbyte, contents. rewrite !(slot_addrs _ x) by done. by apply F5.
Qed.

(** Another inode with the same addresses. *)
Lemma fs_addrs st xs cs ks i x y : fs_ok st xs cs ks -> xs !! i = Some x -> i_addrs y = i_addrs x -> fs_ok st (<[i := y]> xs) cs ks.
Proof.
  intros H Hx E.
  assert (forall j z, <[i := y]> xs !! j = Some z -> exists z', xs !! j = Some z' /\ i_addrs z = i_addrs z') as Hl.
  { intros j z Hz. destruct (decide (j = i)) as [->|]; [rewrite list_lookup_insert_eq in Hz by (by eapply lookup_lt_Some)|rewrite list_lookup_insert_ne in Hz by done].
    - injection Hz as <-. by exists x.
    - by exists z. }
  split; try apply H.
  - rewrite length_insert. apply H.
  - intros j z c q Hz Hc Hq. destruct (Hl j z Hz) as (z' & Hz' & E'). eapply file_made_addrs; [done|]. by eapply (fk_file _ _ _ _ H).
  - intros j z t Hz Ht. destruct (Hl j z Hz) as (z' & Hz' & E'). rewrite (slot_addrs _ z') by done. by apply (fk_slot _ _ _ _ H j).
  - intros j j' z w t t' Hz Hw Ht Ht'. destruct (Hl j z Hz) as (z' & Hz' & E'), (Hl j' w Hw) as (w' & Hw' & E'').
    rewrite (slot_addrs _ z' z), (slot_addrs _ w' w) by done. by apply (fk_inj _ _ _ _ H).
Qed.

Section Meta.
Context (st : image) (xs : list inode) (cs : list (list Z)) (ks : list (nat * bool)) (e : Z) (d : list Z).
Hypothesis H : fs_ok st xs cs ks.
Hypothesis He : 0 <= e < 59.
Hypothesis Hd : length d = 512%nat.
Abbreviation l' := (<[Z.to_nat e := d]> (im_blocks st)).

Lemma meta_block b : 0 <= b -> block (view l') b = if decide (b = e) then d else block (view (im_blocks st)) b.
Proof. intros Hb. apply block_insert; [rewrite (fk_len _ _ _ _ H); lia|lia|done]. Qed.

Lemma meta_slot j y t : xs !! j = Some y -> slot (view l') y t = slot (view (im_blocks st)) y t.
Proof.
  intros Hy. apply slot_same. intros Hne. pose proof (fk_slot _ _ _ _ H j y 12 Hy ltac:(lia)). rewrite slot_ind in *.
  by rewrite meta_block, decide_False by lia.
Qed.

Lemma meta_contents j y t : xs !! j = Some y -> (t <= 140)%nat -> contents (view l') y t = contents (view (im_blocks st)) y t.
Proof.
  intros Hy Ht. unfold contents. rewrite (meta_slot j) by done. case_match; [done|]. b2p.
  destruct (fk_slot _ _ _ _ H j y t Hy Ht); [done|]. by rewrite meta_block, decide_False by lia.
Qed.

(** A write before the data. *)
Lemma fs_meta fi : fs_ok (Image l' fi (freeblock st)) xs cs ks.
Proof.
  assert (59 <= freeblock st) by (rewrite (fk_free _ _ _ _ H); pose proof (need_nonneg ks); lia).
  split; cbn [im_blocks freeblock]; try apply H.
  - by rewrite length_insert, (fk_len _ _ _ _ H).
  - by apply Forall_insert; [apply (fk_blocks _ _ _ _ H)|].
  - intros b Hb. rewrite meta_block, decide_False by lia. by apply (fk_zero _ _ _ _ H).
  - intros j y c q Hy Hc Hq. destruct (fk_file _ _ _ _ H j y c q Hy Hc Hq) as [G1 G2 G3 G4 G5]. split; [done|done| | |].
    + intros b Hb. rewrite (meta_slot j) by done. by apply G3.
    + by rewrite (meta_slot j) by done.
    + intros o Ho. rewrite <- G5 by done. apply fbyte_same. intros t ->. apply (meta_contents j); [done|].
      apply slot_of_le. apply Nat.Div0.div_lt_upper_bound. lia.
  - intros j y t Hy Ht. rewrite (meta_slot j) by done. by apply (fk_slot _ _ _ _ H j).
  - intros j j' y y' t t' Hy Hy' Ht Ht'. rewrite (meta_slot j), (meta_slot j') by done. by apply (fk_inj _ _ _ _ H).
Qed.
End Meta.

Lemma zero_byte i : default 0 (zero_block !! i) = 0.
Proof. unfold zero_block. destruct (_ !! _) eqn:E; [|done]. by apply lookup_replicate in E as [-> _]. Qed.

(** A new inode without blocks. *)
Lemma empty_slot V x t : i_addrs x = replicate 13 0 -> slot V x t = 0.
Proof.
  intros E. unfold slot, ind_addr. rewrite E. case_decide; [|done]. by rewrite lookup_replicate_2 by lia.
Qed.

Lemma fs_new st xs cs ks x : fs_ok st xs cs ks -> i_addrs x = replicate 13 0 -> fs_ok st (xs ++ [x]) (cs ++ [[]]) (ks ++ [(0%nat, false)]).
Proof.
  intros H E. destruct (fk_xs _ _ _ _ H) as [L1 L2]. split; try apply H.
  - rewrite (fk_free _ _ _ _ H). unfold need. rewrite foldr_app. cbn. done.
  - rewrite !length_app. cbn. lia.
  - intros j y c q Hy Hc Hq. apply lookup_app_Some in Hy as [Hy|[Hj Hy]].
    + pose proof (lookup_lt_Some _ _ _ Hy). rewrite lookup_app_l in Hc by lia. rewrite lookup_app_l in Hq by lia. by eapply (fk_file _ _ _ _ H).
    + rewrite lookup_app_r in Hc by lia. rewrite lookup_app_r in Hq by lia.
      apply list_lookup_singleton_Some in Hy as [Hj0 <-]. replace (j - length cs)%nat with 0%nat in Hc by lia. replace (j - length ks)%nat with 0%nat in Hq by lia.
      injection Hc as <-. injection Hq as <-. split; [by rewrite E|cbn; lia| | |].
      * intros b Hb. rewrite empty_slot by done. cbn. lia.
      * rewrite empty_slot by done. done.
      * intros o Ho. unfold fbyte, contents. rewrite empty_slot by done. cbn [Z.eqb]. rewrite lookup_nil. apply zero_byte.
  - intros j y t Hy Ht. apply lookup_app_Some in Hy as [Hy|[Hj Hy]]; [by apply (fk_slot _ _ _ _ H j)|].
    apply list_lookup_singleton_Some in Hy as [_ <-]. left. by apply empty_slot.
  - intros j j' y y' t t' Hy Hy' Ht Ht' Es Hne. apply lookup_app_Some in Hy as [Hy|[Hj Hy]].
    + apply lookup_app_Some in Hy' as [Hy'|[Hj' Hy']]; [by apply (fk_inj _ _ _ _ H j j' y y')|].
      apply list_lookup_singleton_Some in Hy' as [_ <-]. rewrite Es in Hne. by rewrite empty_slot in Hne.
    + apply list_lookup_singleton_Some in Hy as [_ <-]. by rewrite empty_slot in Hne.
Qed.
(** ** Inodes on the disk *)

(** The inode that [ilock] reads. *)
Definition inode_at (l : list (list Z)) (inum : Z) : inode :=
  get_dinode (dip inum) (block (view l) (IBLOCK inum sb)) (din0 inum).

(** Nothing but what is on the disk makes [y] another inode than [din0]. *)
Definition fresh_id (inum : Z) (y : inode) : Prop := forall o d, get_dinode o d y = get_dinode o d (din0 inum).

Record inodes_ok (l : list (list Z)) (xs : list inode) : Prop := {
  io_max : (length xs < 200)%nat;
  io_stored i x : xs !! i = Some x -> inode_at l (Z.of_nat (S i)) = x /\ dinode_ok x;
  io_unused inum : Z.of_nat (length xs) < inum < 208 -> i_type (inode_at l inum) = 0;
  io_meta b : 0 <= b < 32 \/ b = 58 -> block (view l) b = if decide (b = 1) then put_bytes 0 super_bytes zeroes else zero_block;
}.

Lemma IBLOCK_at inum : 0 <= inum < 208 -> IBLOCK inum sb = inum / 8 + 32.
Proof. intros H. unfold IBLOCK. change (sb_inodestart sb) with 32. change IPB with 8. apply u32_small. unfold is_u32. dlia. Qed.

Lemma inodes_meta l l' xs : (forall b, 0 <= b < 59 -> block (view l') b = block (view l) b) -> inodes_ok l xs -> inodes_ok l' xs.
Proof.
  intros H [H1 H2 H3 H4]. assert (forall inum, 0 <= inum < 208 -> inode_at l' inum = inode_at l inum) as E.
  { intros inum Hi. unfold inode_at. rewrite H; [done|]. rewrite IBLOCK_at by done. dlia. }
  split; [done| | |].
  - intros i x Hx. pose proof (lookup_lt_Some _ _ _ Hx). rewrite E by lia. by apply H2.
  - intros inum Hi. rewrite E by lia. by apply H3.
  - intros b Hb. rewrite H by lia. by apply H4.
Qed.

Section Winode.
Context (l : list (list Z)) (xs : list inode) (inum : Z) (y : inode).
Hypothesis Hlen : length l = 1000%nat.
Hypothesis Hblocks : Forall block_ok l.
Hypothesis H : inodes_ok l xs.
Hypothesis Hinum : 0 <= inum < 208.
Hypothesis Hy : dinode_ok y.
Hypothesis Hid : fresh_id inum y.
Abbreviation e := (IBLOCK inum sb).
Abbreviation d := (put_dinode (dip inum) y (block (view l) e)).
Abbreviation l' := (<[Z.to_nat e := d]> l).

Lemma winode_range : 32 <= e < 58.
Proof. rewrite IBLOCK_at by done. dlia. Qed.

Lemma block_len b : 0 <= b < 1000 -> length (block (view l) b) = 512%nat.
Proof.
  intros Hb. destruct (lookup_lt_is_Some_2 l (Z.to_nat b)) as [c Hc]; [lia|]. unfold block. cbn. rewrite Hc.
  exact (Forall_lookup_1 _ _ _ _ Hblocks Hc).
Qed.

Lemma winode_len : length d = 512%nat.
Proof. rewrite length_put_dinode. apply block_len. pose proof winode_range. lia. Qed.

Lemma winode_block b : 0 <= b -> block (view l') b = if decide (b = e) then d else block (view l) b.
Proof. intros Hb. pose proof winode_range. apply block_insert; lia. Qed.

Lemma winode_at j : 0 <= j < 208 -> inode_at l' j = if decide (j = inum) then y else inode_at l j.
Proof.
  intros Hj. pose proof winode_range as Hr. unfold inode_at. rewrite winode_block by (rewrite IBLOCK_at; dlia).
  assert (dinode_at (block (view l) e) (dip inum) /\ dinode_at (block (view l) e) (dip j)) as [D1 D2].
  { unfold dinode_at, dip. rewrite block_len by lia. change IPB with 8. dlia. }
  destruct (decide (j = inum)) as [->|Hne].
  - rewrite decide_True by done. rewrite <- Hid. by apply get_put_dinode.
  - case_decide as E; [|done]. rewrite get_put_dinode_other; [by rewrite E|done|done|apply (dk_addrs _ Hy)|].
    rewrite !IBLOCK_at in E by done. unfold dip. change IPB with 8. dlia.
Qed.

Lemma winode_meta b : 0 <= b < 32 \/ b = 58 -> block (view l') b = block (view l) b.
Proof. intros Hb. pose proof winode_range. by rewrite winode_block, decide_False by lia. Qed.

Lemma winode_old i x : inum = Z.of_nat (S i) -> xs !! i = Some x -> inodes_ok l' (<[i := y]> xs).
Proof.
  intros Ei Hx. destruct H as [H1 H2 H3 H4]. pose proof (lookup_lt_Some _ _ _ Hx). split.
  - by rewrite length_insert.
  - intros j z Hz. destruct (decide (j = i)) as [->|Hj].
    + rewrite list_lookup_insert_eq in Hz by done. injection Hz as <-. by rewrite winode_at, decide_True by lia.
    + rewrite list_lookup_insert_ne in Hz by done. pose proof (lookup_lt_Some _ _ _ Hz). rewrite winode_at, decide_False by lia. by apply H2.
  - intros j Hj. rewrite length_insert in Hj. rewrite winode_at, decide_False by lia. by apply H3.
  - intros b Hb. rewrite winode_meta by done. by apply H4.
Qed.

Lemma winode_new : inum = 1 + Z.of_nat (length xs) -> (length xs < 199)%nat -> inodes_ok l' (xs ++ [y]).
Proof.
  intros Ei Hmax. destruct H as [H1 H2 H3 H4]. split.
  - rewrite length_app. cbn. lia.
  - intros j z Hz. apply lookup_app_Some in Hz as [Hz|[Hj Hz]].
    + pose proof (lookup_lt_Some _ _ _ Hz). rewrite winode_at, decide_False by lia. by apply H2.
    + apply list_lookup_singleton_Some in Hz as [Hz <-]. by rewrite winode_at, decide_True by lia.
  - intros j Hj. rewrite length_app in Hj. cbn in Hj. rewrite winode_at, decide_False by lia. apply H3. lia.
  - intros b Hb. rewrite winode_meta by done. by apply H4.
Qed.
End Winode.

Lemma wp_winode st xs cs ks inum y (Q : unit -> image -> Prop) : fs_ok st xs cs ks -> 0 <= inum < 208 ->
  Q tt (set_blocks (<[Z.to_nat (IBLOCK inum sb) := put_dinode (dip inum) y (block (view (im_blocks st)) (IBLOCK inum sb))]> (im_blocks st)) st) ->
  wp (winode inum y) st Q.
Proof.
  intros H Hi HQ. unfold winode. assert (32 <= IBLOCK inum sb < 58) by (rewrite IBLOCK_at by done; dlia).
  wstep. apply (wp_rsect _ _ _ _ _ _ H); [lia|]. apply wp_wsect; [apply (fk_len _ _ _ _ H)|lia|done].
Qed.

Lemma wp_rinode st xs cs ks inum (Q : inode -> image -> Prop) : fs_ok st xs cs ks -> 0 <= inum < 208 ->
  Q (inode_at (im_blocks st) inum) st -> wp (rinode inum) st Q.
Proof.
  intros H Hi HQ. unfold rinode. assert (32 <= IBLOCK inum sb < 58) by (rewrite IBLOCK_at by done; dlia).
  wstep. apply (wp_rsect _ _ _ _ _ _ H); [lia|]. by wsteps.
Qed.
(** ** iappend and ialloc *)

Definition caps (cs : list (list Z)) : list (nat * bool) := (fun c => cap (length c)) <$> cs.

(** The inodes [xs], with the numbers from 1 on, are on the disk, and have the
    contents [cs]. *)
Record disk_ok (st : image) (xs : list inode) (cs : list (list Z)) : Prop := {
  do_fs : fs_ok st xs cs (caps cs);
  do_inodes : inodes_ok (im_blocks st) xs;
  do_next : freeinode st = 1 + Z.of_nat (length xs);
  do_size i x c : xs !! i = Some x -> cs !! i = Some c -> i_size x = Z.of_nat (length c);
}.

Lemma addrs_u32 st xs cs ks i x : fs_ok st xs cs ks -> xs !! i = Some x -> Forall is_u32 (i_addrs x) /\ length (i_addrs x) = 13%nat.
Proof.
  intros H Hx. destruct (fk_xs _ _ _ _ H) as [L1 L2]. pose proof (lookup_lt_Some _ _ _ Hx).
  destruct (lookup_lt_is_Some_2 cs i) as [c Hc]; [lia|]. destruct (lookup_lt_is_Some_2 ks i) as [q Hq]; [lia|].
  pose proof (fm_addrs _ _ _ _ _ (fk_file _ _ _ _ H i x c q Hx Hc Hq)) as Hl. split; [|done].
  apply Forall_lookup. intros t a Ha. pose proof (lookup_lt_Some _ _ _ Ha).
  pose proof (slot_u32 _ _ _ _ i x t H Hx ltac:(lia)) as Hu. unfold slot in Hu. by rewrite decide_True, Ha in Hu by lia.
Qed.

Lemma iappend_spec st xs cs i x c p : disk_ok st xs cs -> xs !! i = Some x -> cs !! i = Some c ->
  (length c + length p <= 140 * 512)%nat -> 59 + need (caps (<[i := c ++ p]> cs)) <= 1000 ->
  wp (iappend (Z.of_nat (S i)) p) st (fun _ st' => exists x', disk_ok st' (<[i := x']> xs) (<[i := c ++ p]> cs) /\
    x' = set_i_size (Z.of_nat (length (c ++ p))) (set_i_addrs (i_addrs x') x)).
Proof.
  intros [H I N S] Hx Hc Hmax Hroom. destruct (io_stored _ _ I i x Hx) as [Hat Hok].
  pose proof (lookup_lt_Some _ _ _ Hx). pose proof (io_max _ _ I).
  assert (caps cs !! i = Some (cap (length c))) as Hk by (unfold caps; by rewrite list_lookup_fmap, Hc).
  unfold caps in Hroom. rewrite list_fmap_insert, (need_insert _ _ _ _ Hk), length_app in Hroom. fold (caps cs) in Hroom.
  unfold iappend. wstep. apply (wp_rinode _ _ _ _ _ _ H); [lia|]. rewrite Hat, (S i x c Hx Hc), xint_small by (unfold is_u32; lia).
  wstep. eapply wp_mono; [apply (iappend_loop_spec i _ p _ _ _ _ _ _ H Hx Hc Hk); [lia|done|rewrite (fk_free _ _ _ _ H); lia]|].
  intros r st1 (x1 & -> & [A1 A2 A3 A4]). rewrite xint_small by (unfold is_u32; rewrite length_app; lia).
  apply (wp_winode _ _ _ _ _ _ _ A1); [lia|]. set (y := set_i_size _ x1).
  assert (<[i := x1]> xs !! i = Some x1) as Hx1 by (by apply list_lookup_insert_eq).
  assert (dinode_ok y) as Hy.
  { destruct Hok as [K1 K2 K3 K4 K5 K6], (addrs_u32 _ _ _ _ i x1 A1 Hx1). unfold y. rewrite A2. by split; cbn; [| | | |unfold is_u32; rewrite length_app; lia|rewrite A2 in *]. }
  assert (fresh_id (Z.of_nat (Datatypes.S i)) y) as Hid by (intros o d; unfold y; rewrite A2, <- Hat; done).
  exists y. split; [split|].
  - rewrite <- (list_insert_insert_eq xs i y x1). unfold caps. rewrite list_fmap_insert.
    apply fs_meta; [|rewrite IBLOCK_at by lia; dlia|].
    + by eapply fs_addrs; [|exact Hx1|].
    + apply winode_len; [apply (fk_len _ _ _ _ A1)|apply (fk_blocks _ _ _ _ A1)|lia].
  - apply (winode_old _ xs _ y (fk_len _ _ _ _ A1) (fk_blocks _ _ _ _ A1)) with (x := x); try done; [|lia].
    eapply inodes_meta; [|done]. exact A4.
  - cbn. by rewrite A3, N, length_insert.
  - intros j z c' Hz Hc'. destruct (decide (j = i)) as [->|Hj].
    + rewrite list_lookup_insert_eq in Hz by done. rewrite list_lookup_insert_eq in Hc' by (by eapply lookup_lt_Some). by simplify_eq.
    + rewrite list_lookup_insert_ne in Hz by done. rewrite list_lookup_insert_ne in Hc' by done. by eapply S.
  - unfold y. by rewrite A2 at 1.
Qed.

Lemma xshort_small v : 0 <= v < 65536 -> xshort v = v.
Proof.
  intros Hv. unfold xshort. change (bytes16 v) with (put16 0 v [0; 0]). rewrite get16_put16 by (cbn; lia). by apply Z.mod_small.
Qed.

Lemma ialloc_spec st xs cs type : disk_ok st xs cs -> (length xs < 199)%nat -> 0 <= type < 32768 ->
  wp (ialloc type) st (fun r st' => r = Z.of_nat (S (length xs)) /\ exists x, disk_ok st' (xs ++ [x]) (cs ++ [[]]) /\
    i_type x = type /\ i_nlink x = 1).
Proof.
  intros [H I N S] Hmax Ht. unfold ialloc. wsteps. rewrite N, u32_small by (unfold is_u32; lia).
  replace (1 + Z.of_nat (length xs)) with (Z.of_nat (Datatypes.S (length xs))) by lia.
  set (inum := Z.of_nat (Datatypes.S (length xs))). set (y := set_i_size _ _).
  assert (fs_ok (set_freeinode (inum + 1) st) xs cs (caps cs)) as H1 by (split; apply H).
  assert (dinode_ok y) as Hy.
  { unfold y. rewrite !xshort_small, xint_small by (unfold is_u32; lia).
    split; cbn; try lia; [unfold is_u32; lia|]. split; [done|]. by repeat constructor. }
  apply (wp_winode _ _ _ _ _ _ _ H1); [lia|]. wsteps. split; [done|]. exists y. split; [split|].
  - unfold caps. rewrite fmap_app. apply fs_meta; [by apply fs_new; [|]|rewrite IBLOCK_at by lia; dlia|].
    apply winode_len; [apply (fk_len _ _ _ _ H)|apply (fk_blocks _ _ _ _ H)|lia].
  - apply (winode_new _ xs inum y (fk_len _ _ _ _ H) (fk_blocks _ _ _ _ H)); try done; lia.
  - cbn. rewrite length_app. cbn. lia.
  - intros j z c Hz Hc. destruct (fk_xs _ _ _ _ H) as [L1 _]. apply lookup_app_Some in Hz as [Hz|[Hj Hz]].
    + pose proof (lookup_lt_Some _ _ _ Hz). rewrite lookup_app_l in Hc by lia. by eapply S.
    + apply list_lookup_singleton_Some in Hz as [Hz <-]. rewrite lookup_app_r in Hc by lia.
      replace (j - length cs)%nat with 0%nat in Hc by lia. by injection Hc as <-.
  - unfold y. cbn. rewrite !xshort_small by lia. done.
Qed.
(** ** The files *)

(** The type and the number of links. *)
Definition kinds (xs : list inode) : list (Z * Z) := (fun x => (i_type x, i_nlink x)) <$> xs.

Lemma kinds_insert xs i x x' : xs !! i = Some x -> i_type x' = i_type x -> i_nlink x' = i_nlink x -> kinds (<[i := x']> xs) = kinds xs.
Proof.
  intros Hx E1 E2. unfold kinds. rewrite list_fmap_insert. apply list_insert_id. rewrite list_lookup_fmap, Hx. cbn. congruence.
Qed.

Lemma need_cons c cs : need (caps (c :: cs)) = need1 (cap (length c)) + need (caps cs).
Proof. done. Qed.

Lemma need_app cs cs' : need (caps (cs ++ cs')) = need (caps cs) + need (caps cs').
Proof. induction cs as [|c cs IH]; cbn [app]; [done|]. rewrite !need_cons, IH. lia. Qed.

Lemma need_caps_mono cs i c c' : (i < length cs)%nat -> (length c <= length c')%nat -> need (caps (<[i := c]> cs)) <= need (caps (<[i := c']> cs)).
Proof.
  intros Hi Hc. destruct (lookup_lt_is_Some_2 (caps cs) i) as [q Hq]; [unfold caps; by rewrite length_fmap|].
  unfold caps. rewrite !list_fmap_insert. fold (caps cs). rewrite !(need_insert _ _ _ _ Hq). pose proof (need1_cap _ _ Hc). lia.
Qed.

(** [iappend] for what comes after it. *)
Lemma iappend_kinds st xs cs i c p : disk_ok st xs cs -> cs !! i = Some c ->
  (length c + length p <= 140 * 512)%nat -> 59 + need (caps (<[i := c ++ p]> cs)) <= 1000 ->
  wp (iappend (Z.of_nat (S i)) p) st (fun _ st' => exists xs', disk_ok st' xs' (<[i := c ++ p]> cs) /\ kinds xs' = kinds xs).
Proof.
  intros H Hc Hmax Hroom. destruct (fk_xs _ _ _ _ (do_fs _ _ _ H)) as [L1 L2]. pose proof (lookup_lt_Some _ _ _ Hc).
  destruct (lookup_lt_is_Some_2 xs i) as [x Hx]; [lia|]. eapply wp_mono; [by apply (iappend_spec _ _ _ _ x c p H)|].
  intros _ st' (x' & H' & E). exists (<[i := x']> xs). split; [done|]. apply (kinds_insert _ _ x); [done|by rewrite E|by rewrite E].
Qed.

Lemma append_pieces_spec i pieces : forall st xs cs c, disk_ok st xs cs -> cs !! i = Some c ->
  (length c + length (concat pieces) <= 140 * 512)%nat -> 59 + need (caps (<[i := c ++ concat pieces]> cs)) <= 1000 ->
  wp (append_pieces (Z.of_nat (S i)) pieces) st (fun _ st' => exists xs',
    disk_ok st' xs' (<[i := c ++ concat pieces]> cs) /\ kinds xs' = kinds xs).
Proof.
  induction pieces as [|p pieces IH]; intros st xs cs c H Hc Hmax Hroom; cbn [append_pieces concat] in *.
  - wsteps. exists xs. by rewrite app_nil_r, list_insert_id.
  - rewrite length_app in Hmax. pose proof (lookup_lt_Some _ _ _ Hc) as Hi. rewrite app_assoc in *.
    pose proof (need_caps_mono cs i (c ++ p) ((c ++ p) ++ concat pieces) Hi ltac:(rewrite (length_app (c ++ p)); lia)).
    wstep. eapply wp_mono; [apply (iappend_kinds _ _ _ _ _ _ H Hc); lia|]. intros _ st1 (xs1 & H1 & E1).
    eapply wp_mono; [apply (IH _ _ _ (c ++ p) H1)|].
    + by apply list_lookup_insert_eq.
    + rewrite length_app. lia.
    + by rewrite list_insert_insert_eq.
    + intros _ st2 (xs2 & H2 & E2). exists xs2. rewrite list_insert_insert_eq in H2. split; [done|congruence].
Qed.

(** The name without the underscore. *)
Definition strip (name : list Z) : list Z := if hd 0 name =? 95 then tail name else name.

Definition bytes_of (f : list Z * list (list Z)) : list Z := concat f.2.

(** The directory entries of the files, whose inodes have the numbers from [n] on. *)
Fixpoint entries (n : nat) (fs : list (list Z * list (list Z))) : list Z :=
  match fs with
  | [] => []
  | f :: fs => dirent (Z.of_nat n) (strip f.1) ++ entries (S n) fs
  end.

Definition file_fits (f : list Z * list (list Z)) : Prop := existsb (Z.eqb 47) f.1 = false /\ (length (bytes_of f) <= 140 * 512)%nat.

Lemma length_name_copy name n : length (name_copy name n) = n.
Proof.
  revert name. induction n as [|n IH]; intros name; cbn [name_copy]; [done|]. case_match; [by rewrite length_replicate|cbn [length]; by rewrite IH].
Qed.

Lemma length_dirent inum name : length (dirent inum name) = 16%nat.
Proof. unfold dirent. rewrite length_app, length_name_copy. done. Qed.

Lemma length_entries n fs : length (entries n fs) = (16 * length fs)%nat.
Proof. revert n. induction fs as [|f fs IH]; intros n; cbn [entries length]; [done|]. rewrite length_app, length_dirent, IH. lia. Qed.

Lemma add_file_spec st xs rc ds f : disk_ok st xs (rc :: ds) -> (length xs < 199)%nat -> file_fits f ->
  (length rc + 16 <= 140 * 512)%nat ->
  let cs' := (rc ++ dirent (Z.of_nat (S (length xs))) (strip f.1)) :: ds ++ [bytes_of f] in
  59 + need (caps cs') <= 1000 ->
  wp (add_file 1 f.1 f.2) st (fun _ st' => exists xs', disk_ok st' xs' cs' /\ kinds xs' = kinds xs ++ [(T_FILE, 1)]).
Proof.
  intros H Hmax [Hn Hf] Hrc cs' Hroom. destruct (fk_xs _ _ _ _ (do_fs _ _ _ H)) as [L1 _]. cbn [length] in L1.
  unfold add_file. rewrite Hn. wstep. apply wp_asserts; [done|]. fold (strip f.1). wstep.
  eapply wp_mono; [apply (ialloc_spec _ _ _ T_FILE H Hmax); by unfold T_FILE|]. intros r st1 (-> & x & H1 & E1 & E2).
  set (e := dirent _ _) in *. assert (length e = 16%nat) as Le by apply length_dirent.
  pose proof (need1_cap 0 (length (bytes_of f)) ltac:(lia)).
  assert (need (caps cs') = need1 (cap (length (rc ++ e))) + need (caps ds) + need1 (cap (length (bytes_of f)))) as En.
  { unfold cs'. rewrite need_cons, need_app, need_cons. change (need (caps [])) with 0. lia. }
  wstep. eapply wp_mono; [apply (iappend_kinds _ _ _ 0 rc e H1 eq_refl); [lia|]|].
  { cbn [app]. change (<[0%nat := rc ++ e]> (rc :: ds ++ [[]])) with ((rc ++ e) :: ds ++ [[]]).
    rewrite need_cons, need_app. change (need (caps [[]])) with 0. lia. }
  intros _ st2 (xs2 & H2 & E3). change (<[0%nat := rc ++ e]> ((rc :: ds) ++ [[]])) with (((rc ++ e) :: ds) ++ [[]]) in H2.
  assert (<[length xs := [] ++ concat f.2]> (((rc ++ e) :: ds) ++ [[]]) = cs') as Ec.
  { rewrite insert_app_r_alt by (cbn; lia). replace (length xs - length ((rc ++ e) :: ds))%nat with 0%nat by (cbn; lia). done. }
  eapply wp_mono; [apply (append_pieces_spec _ f.2 _ _ _ [] H2)|].
  - rewrite lookup_app_r by (cbn; lia). by replace (length xs - length ((rc ++ e) :: ds))%nat with 0%nat by (cbn; lia).
  - exact Hf.
  - by rewrite Ec.
  - intros _ st3 (xs3 & H3 & E4). rewrite Ec in H3. exists xs3. split; [done|]. rewrite E4, E3. unfold kinds. rewrite fmap_app. cbn. by rewrite E1, E2.
Qed.

Lemma add_files_spec fs : forall st xs rc ds, disk_ok st xs (rc :: ds) -> (length xs + length fs <= 199)%nat -> Forall file_fits fs ->
  (length rc + 16 * length fs <= 140 * 512)%nat ->
  let cs' := (rc ++ entries (S (length xs)) fs) :: ds ++ (bytes_of <$> fs) in
  59 + need (caps cs') <= 1000 ->
  wp (add_files 1 fs) st (fun _ st' => exists xs', disk_ok st' xs' cs' /\ kinds xs' = kinds xs ++ replicate (length fs) (T_FILE, 1)).
Proof.
  induction fs as [|f fs IH]; intros st xs rc ds H Hmax Hfs Hrc cs' Hroom; cbn [add_files].
  { wsteps. exists xs. unfold cs'. cbn [entries fmap list_fmap]. by rewrite !app_nil_r. }
  apply Forall_cons in Hfs as [Hf Hfs]. cbn [length] in *. destruct f as [name pieces].
  set (e := dirent (Z.of_nat (S (length xs))) (strip name)). assert (length e = 16%nat) as Le by apply length_dirent.
  assert (cs' = ((rc ++ e) ++ entries (S (S (length xs))) fs) :: (ds ++ [bytes_of (name, pieces)]) ++ (bytes_of <$> fs)) as Ec.
  { unfold cs'. cbn [entries fmap list_fmap]. by rewrite <- !app_assoc. }
  rewrite Ec in *. clear cs' Ec. rewrite need_cons, need_app in Hroom. pose proof (need_nonneg (caps (bytes_of <$> fs))) as Hn1.
  pose proof (need1_cap (length (rc ++ e)) (length ((rc ++ e) ++ entries (S (S (length xs))) fs)) ltac:(rewrite (length_app (rc ++ e)); lia)) as Hn2.
  wstep. eapply wp_mono; [apply (add_file_spec _ _ _ _ (name, pieces) H); [lia|done|lia|]|].
  { rewrite need_cons. fold e. cbn [fst]. fold e. lia. }
  intros _ st1 (xs1 & H1 & E1). assert (length xs1 = S (length xs)) as L1.
  { apply (f_equal length) in E1. unfold kinds in E1. rewrite length_app, !length_fmap in E1. cbn in E1. lia. }
  eapply wp_mono; [apply (IH _ _ _ _ H1)|].
  - lia.
  - done.
  - cbn [fst]. fold e. rewrite length_app. lia.
  - rewrite L1, need_cons, need_app. cbn [fst]. fold e. lia.
  - intros _ st2 (xs2 & H2 & E2). exists xs2. rewrite L1 in H2. split; [exact H2|]. rewrite E2, E1, <- app_assoc. done.
Qed.
(** ** The beginning *)

Definition blank_disk : list (list Z) := replicate 1000 zero_block.

Lemma zero_loop_spec n : forall st (Q : unit -> image -> Prop),
  Q tt (set_blocks (im_blocks st ++ replicate n zero_block) st) -> wp (zero_loop (Z.of_nat (length (im_blocks st))) n) st Q.
Proof.
  induction n as [|n IH]; intros st Q HQ; cbn [zero_loop].
  - wsteps. rewrite app_nil_r in HQ. by destruct st.
  - wstep. unfold wsect. wstep. rewrite Nat2Z.id, Nat.ltb_irrefl, Nat.sub_diag. cbn [replicate app].
    set (st1 := set_blocks _ st). replace (Z.of_nat (length (im_blocks st)) + 1) with (Z.of_nat (length (im_blocks st1))).
    2:{ cbn. rewrite length_app. cbn. lia. }
    apply IH. unfold st1. cbn [im_blocks set_blocks freeinode freeblock]. rewrite <- app_assoc. exact HQ.
Qed.

Lemma byte_zero j : byte_at zero_block j = 0.
Proof. apply zero_byte. Qed.

Lemma blank_block b : 0 <= b < 1000 -> block (view blank_disk) b = zero_block.
Proof. intros Hb. unfold block, blank_disk. cbn [vcur view]. by rewrite lookup_replicate_2 by lia. Qed.

Definition super : list Z := put_bytes 0 super_bytes zeroes.
Definition formatted : image := Image (<[1%nat := super]> blank_disk) 1 59.

Lemma formatted_block b : 0 <= b < 1000 -> block (view (im_blocks formatted)) b = if decide (b = 1) then super else zero_block.
Proof.
  intros Hb. unfold formatted. cbn [im_blocks]. change 1%nat with (Z.to_nat 1).
  rewrite block_insert by (unfold blank_disk; rewrite ?length_replicate; lia). by rewrite blank_block.
Qed.

Lemma formatted_ok : disk_ok formatted [] [].
Proof.
  split; [split| | |].
  - unfold formatted, blank_disk. cbn [im_blocks]. by rewrite length_insert, length_replicate.
  - apply Forall_insert; [by apply Forall_replicate|]. unfold block_ok, super. by rewrite length_put_bytes.
  - change (freeblock formatted) with 59. intros b Hb. by rewrite formatted_block, decide_False by lia.
  - done.
  - change (freeblock formatted) with 59. lia.
  - done.
  - intros i x c q Hx. by rewrite lookup_nil in Hx.
  - intros i x t Hx. by rewrite lookup_nil in Hx.
  - intros i j x y t t' Hx. by rewrite lookup_nil in Hx.
  - split.
    + cbn. lia.
    + intros i x Hx. by rewrite lookup_nil in Hx.
    + cbn [length]. intros inum Hi. unfold inode_at. rewrite formatted_block, decide_False by (rewrite IBLOCK_at by lia; dlia).
      cbn [i_type get_dinode]. unfold get16. by rewrite !byte_zero.
    + intros b Hb. apply formatted_block. lia.
  - done.
  - intros i x c Hx. by rewrite lookup_nil in Hx.
Qed.

(** ** The end *)

Lemma used_loop n : forall i buf c, length buf = 512%nat -> 0 <= i -> i + Z.of_nat n <= 4096 -> 0 <= c < 4096 ->
  length (balloc_loop i buf n) = 512%nat /\
  used (balloc_loop i buf n) c = bool_decide (i <= c < i + Z.of_nat n) || used buf c.
Proof.
  induction n as [|n IH]; intros i buf c Hl Hi Hn Hc; cbn [balloc_loop].
  - split; [done|]. by rewrite bool_decide_eq_false_2 by lia.
  - fold (mark i buf). destruct (IH (i + 1) (mark i buf) c) as [L E]; [unfold mark; by rewrite length_set_map|lia|lia|done|].
    split; [done|]. rewrite E, used_mark by (done || lia). rewrite orb_assoc. f_equal.
    repeat case_bool_decide; try done; lia.
Qed.

Lemma used_zero b : used zero_block b = false.
Proof. unfold used, map_bit. by rewrite byte_zero. Qed.

(** What [main] leaves: the inodes [xs] with the contents [cs]. *)
Record image_made (st : image) (xs : list inode) (cs : list (list Z)) : Prop := {
  ig_fs : fs_ok st xs cs (caps cs);
  ig_max : (length xs < 200)%nat;
  ig_stored i x : xs !! i = Some x -> inode_at (im_blocks st) (Z.of_nat (S i)) = x /\ dinode_ok x;
  ig_unused inum : Z.of_nat (length xs) < inum < 208 -> i_type (inode_at (im_blocks st) inum) = 0;
  ig_super : block (view (im_blocks st)) 1 = super;
  ig_log : block (view (im_blocks st)) 2 = zero_block;
  ig_map b : 0 <= b < 4096 -> used (block (view (im_blocks st)) 58) b = bool_decide (b < freeblock st);
}.

Lemma balloc_spec st xs cs : fs_ok st xs cs (caps cs) -> inodes_ok (im_blocks st) xs ->
  wp (balloc (freeblock st)) st (fun _ st' => image_made st' xs cs).
Proof.
  intros H [I1 I2 I3 I4]. pose proof (fk_room _ _ _ _ H). assert (59 <= freeblock st) by (rewrite (fk_free _ _ _ _ H); pose proof (need_nonneg (caps cs)); lia).
  unfold balloc. wstep. apply wp_asserts; [apply Z.ltb_lt; change (BSIZE * 8) with 4096; lia|]. change (sb_bmapstart sb) with 58.
  apply wp_wsect; [apply (fk_len _ _ _ _ H)|lia|].
  assert (forall c, 0 <= c < 4096 -> length (balloc_loop 0 zeroes (Z.to_nat (freeblock st))) = 512%nat /\
    used (balloc_loop 0 zeroes (Z.to_nat (freeblock st))) c = bool_decide (c < freeblock st)) as Hu.
  { intros c Hc. destruct (used_loop (Z.to_nat (freeblock st)) 0 zeroes c) as [L E]; [done|lia|lia|done|]. split; [done|].
    rewrite E. change zeroes with zero_block. rewrite used_zero, orb_false_r. apply bool_decide_ext. lia. }
  set (d := balloc_loop _ _ _) in *. destruct (Hu 0) as [Hd _]; [lia|].
  assert (forall b, 0 <= b -> block (view (<[Z.to_nat 58 := d]> (im_blocks st))) b = if decide (b = 58) then d else block (view (im_blocks st)) b) as Hb.
  { intros b Hb. by apply (meta_block _ _ _ _ _ _ H). }
  assert (forall inum, 0 <= inum < 208 -> inode_at (<[Z.to_nat 58 := d]> (im_blocks st)) inum = inode_at (im_blocks st) inum) as Ei.
  { intros inum Hi. unfold inode_at. rewrite Hb, decide_False by (rewrite IBLOCK_at by done; dlia). done. }
  split; cbn [im_blocks set_blocks freeblock].
  - apply fs_meta; [done|lia|done].
  - done.
  - intros i x Hx. pose proof (lookup_lt_Some _ _ _ Hx). rewrite Ei by lia. by apply I2.
  - intros inum Hi. rewrite Ei by lia. by apply I3.
  - rewrite Hb, decide_False by lia. by apply I4; left.
  - rewrite Hb, decide_False by lia. by apply I4; left.
  - intros b Hr. rewrite Hb, decide_True by lia. by apply Hu.
Qed.

(** The directory becomes a number of whole blocks. *)
Definition whole (n : nat) : Z := (Z.of_nat n / 512 + 1) * 512.

Lemma fix_root_spec st xs cs x c : disk_ok st xs cs -> xs !! 0%nat = Some x -> cs !! 0%nat = Some c -> (length c <= 4096)%nat ->
  wp (fix_root 1) st (fun _ st' => let y := set_i_size (whole (length c)) x in
    fs_ok st' (<[0%nat := y]> xs) cs (caps cs) /\ inodes_ok (im_blocks st') (<[0%nat := y]> xs)).
Proof.
  intros [H I N S] Hx Hc Hl. destruct (io_stored _ _ I 0 x Hx) as [Hat Hok]. unfold fix_root.
  assert (0 <= whole (length c) < 8192) as Hw by (unfold whole; dlia).
  wstep. apply (wp_rinode _ _ _ _ _ _ H); [lia|]. change (Z.of_nat 1) with 1 in Hat. rewrite Hat, (S 0%nat x c Hx Hc).
  rewrite (xint_small (Z.of_nat (length c))) by (unfold is_u32; lia). change (Z.of_nat (length c) / BSIZE + 1) with (Z.of_nat (length c) / 512 + 1).
  change ((Z.of_nat (length c) / 512 + 1) * BSIZE) with (whole (length c)). rewrite xint_small by (unfold is_u32; lia).
  apply (wp_winode _ _ _ _ _ _ _ H); [lia|]. set (y := set_i_size _ x). split.
  - apply fs_meta; [by apply (fs_addrs _ _ _ _ _ x)|rewrite IBLOCK_at by lia; dlia|].
    apply winode_len; [apply (fk_len _ _ _ _ H)|apply (fk_blocks _ _ _ _ H)|lia].
  - apply (winode_old _ xs 1 y (fk_len _ _ _ _ H) (fk_blocks _ _ _ _ H)) with (x := x); try done.
    + destruct Hok as [K1 K2 K3 K4 K5 K6]. by split; cbn; [| | | |unfold is_u32; lia|].
    + intros o d. unfold y. rewrite <- Hat. done.
Qed.
(** ** The whole program *)

Definition root_bytes (fs : list (list Z * list (list Z))) : list Z := dirent 1 (chars ".") ++ dirent 1 (chars "..") ++ entries 2 fs.

Definition all_bytes (fs : list (list Z * list (list Z))) : list (list Z) := root_bytes fs :: (bytes_of <$> fs).

(** The first block that is left. *)
Definition first_free (fs : list (list Z * list (list Z))) : Z := 59 + need (caps (all_bytes fs)).

(** There is room for the files. *)
Definition fits (fs : list (list Z * list (list Z))) : Prop :=
  (length fs <= 198)%nat /\ Forall file_fits fs /\ first_free fs <= 1000.

Lemma length_root fs : length (root_bytes fs) = (16 * (length fs + 2))%nat.
Proof. unfold root_bytes. rewrite !length_app, !length_dirent, length_entries. lia. Qed.

Definition size_in (fs : list (list Z * list (list Z))) (i : nat) : Z :=
  if decide (i = 0%nat) then whole (length (root_bytes fs)) else Z.of_nat (length (default [] (all_bytes fs !! i))).

Lemma format_spec {A} (K : M image A) Q : wp K formatted Q ->
  wp (modify (set_freeblock nmeta);; zero_loop 0 (Z.to_nat FSSIZE);; wsect 1 (put_bytes 0 super_bytes zeroes);; K) start Q.
Proof.
  intros HQ. wstep. wstep. wstep. apply (zero_loop_spec (Z.to_nat FSSIZE) (set_freeblock nmeta start)).
  wstep. apply wp_wsect; [|lia|exact HQ]. change (length blank_disk = 1000%nat). apply length_replicate.
Qed.

(** The root directory before the files. *)
Lemma make_root {A} (K : Z -> M image A) Q :
  (forall st xs, disk_ok st xs [dirent 1 (chars ".") ++ dirent 1 (chars "..")] -> kinds xs = [(T_DIR, 1)] -> wp (K 1) st Q) ->
  wp (rootino ← ialloc T_DIR;
      asserts (rootino =? ROOTINO);;
      iappend rootino (dirent rootino (chars "."));;
      iappend rootino (dirent rootino (chars ".."));;
      K rootino) formatted Q.
Proof.
  intros HQ. wstep. eapply wp_mono; [apply (ialloc_spec _ _ _ T_DIR formatted_ok); [cbn; lia|by unfold T_DIR]|].
  intros r st1 (-> & x & H1 & E1 & E2). change (Z.of_nat (S (length []))) with 1. wstep. apply wp_asserts; [done|]. wstep.
  cbn [app] in H1.
  assert (forall c, (length c <= 32)%nat -> 59 + need (caps [c]) <= 1000) as Hroom.
  { intros c Hc. rewrite need_cons. pose proof (need1_cap _ _ Hc). change (need1 (cap 32)) with 1 in *. change (need (caps [])) with 0. lia. }
  eapply wp_mono; [apply (iappend_kinds _ _ _ 0 [] (dirent 1 (chars ".")) H1 eq_refl); [rewrite length_dirent; cbn [length]; lia|]|].
  { apply Hroom. cbn [app]. rewrite length_dirent. lia. }
  intros _ st2 (xs2 & H2 & E3). cbn [app] in H2. wstep.
  eapply wp_mono; [apply (iappend_kinds _ _ _ 0 (dirent 1 (chars ".")) (dirent 1 (chars "..")) H2 eq_refl); [rewrite !length_dirent; lia|]|].
  { apply Hroom. rewrite length_app, !length_dirent. lia. }
  intros _ st3 (xs3 & H3 & E4). apply (HQ st3 xs3); [exact H3|]. rewrite E4, E3. cbn. by rewrite E1, E2.
Qed.

Lemma main_made fs : fits fs -> wp (main fs) start (fun _ st => exists xs, image_made st xs (all_bytes fs) /\
  kinds xs = (T_DIR, 1) :: replicate (length fs) (T_FILE, 1) /\ (forall i x, xs !! i = Some x -> i_size x = size_in fs i)).
Proof.
  intros (Hn & Hfs & Hroom). unfold first_free in Hroom. unfold main. apply format_spec. apply make_root. intros st1 xs1 H1 E1.
  assert (length xs1 = 1%nat) as L1 by (apply (f_equal length) in E1; by unfold kinds in E1; rewrite length_fmap in E1).
  assert ((dirent 1 (chars ".") ++ dirent 1 (chars "..")) ++ entries 2 fs = root_bytes fs) as Er by (unfold root_bytes; by rewrite <- app_assoc).
  wstep. eapply wp_mono; [apply (add_files_spec fs _ _ _ _ H1)|].
  - lia.
  - done.
  - rewrite length_app, !length_dirent. lia.
  - rewrite L1, Er. exact Hroom.
  - intros _ st2 (xs2 & H2 & E2). rewrite L1, Er in H2. fold (all_bytes fs) in H2. rewrite E1 in E2. cbn [app] in E2.
    destruct xs2 as [|x xs2]; [done|]. wstep.
    eapply wp_mono; [apply (fix_root_spec _ _ _ x (root_bytes fs) H2 eq_refl eq_refl); rewrite length_root; lia|].
    cbv zeta. set (y := set_i_size _ x). cbn [insert list_insert]. intros _ st3 [H3 I3]. wsteps.
    eapply wp_mono; [by apply balloc_spec|]. intros ? st4 H4. exists (y :: xs2). split_and!; [exact H4|exact E2|].
    intros i z Hz. unfold size_in. destruct i as [|i]; [injection Hz as Ez; by rewrite <- Ez|].
    destruct (lookup_lt_is_Some_2 (all_bytes fs) (S i)) as [c Hc].
    { destruct (fk_xs _ _ _ _ H3) as [E3 _]. pose proof (lookup_lt_Some (y :: xs2) _ _ Hz) as Hlt. by rewrite E3 in Hlt. }
    rewrite decide_False, Hc by done. exact (do_size _ _ _ H2 (S i) z c Hz Hc).
Qed.
(** The kernel finds the file with the bytes [bs] in inode [inum], as its own
    calls leave it. *)
Record file_in (st : image) (inum type : Z) (bs : list Z) : Prop := {
  fi_type : i_type (inode_at (im_blocks st) inum) = type;
  fi_nlink : i_nlink (inode_at (im_blocks st) inum) = 1;
  fi_size : i_size (inode_at (im_blocks st) inum) = Z.of_nat (length bs);
  fi_rest : file_at_rest sb (Z.to_nat (IBLOCK inum sb)) (view (im_blocks st)) (inode_at (im_blocks st) inum);
  fi_ok : file_ok 59 1000 (view (im_blocks st)) (block (view (im_blocks st)) 58) (inode_at (im_blocks st) inum);
  fi_bytes : fbytes (view (im_blocks st)) (inode_at (im_blocks st) inum) 0 (length bs) = bs;
}.

Section Made.
Context (st : image) (xs : list inode) (cs : list (list Z)) (i : nat) (x : inode) (c : list Z).
Hypothesis H : image_made st xs cs.
Hypothesis Hx : xs !! i = Some x.
Hypothesis Hc : cs !! i = Some c.
Abbreviation V := (view (im_blocks st)).

Lemma made_file : file_made (im_blocks st) x c (cap (length c)).1 (cap (length c)).2.
Proof. apply (fk_file _ _ _ _ (ig_fs _ _ _ H) i); [done|done|]. unfold caps. by rewrite list_lookup_fmap, Hc. Qed.

Lemma made_ok : file_ok 59 1000 V (block V 58) x.
Proof.
  pose proof (ig_fs _ _ _ H) as F. pose proof (fk_room _ _ _ _ F). split.
  - apply made_file.
  - intros t Ht. destruct (fk_slot _ _ _ _ F i x t Hx Ht) as [|Hr]; [by left|right]. split; [lia|].
    rewrite (ig_map _ _ _ H) by lia. apply bool_decide_eq_true. lia.
  - intros t t' Ht Ht' E Hne. by apply (fk_inj _ _ _ _ F i i x x t t' Hx Hx).
Qed.

Lemma made_rest : i_type x <> T_DEV -> i_size x <= 140 * 512 -> full V x ->
  file_at_rest sb (Z.to_nat (IBLOCK (Z.of_nat (S i)) sb)) V x.
Proof.
  intros Ht Hs Hfull. destruct (ig_stored _ _ _ H i x Hx) as [Hat Hok]. pose proof (lookup_lt_Some _ _ _ Hx). pose proof (ig_max _ _ _ H).
  pose proof (fk_len _ _ _ _ (ig_fs _ _ _ H)) as Hl.
  assert (32 <= IBLOCK (Z.of_nat (S i)) sb < 58) by (rewrite IBLOCK_at by lia; dlia).
  assert (i_inum x = Z.of_nat (S i)) as Ei by (by rewrite <- Hat). split; try done.
  - split; [rewrite Ei; lia|]. cbn [vcur view]. lia.
  - unfold on_disk. rewrite Ei, Z2Nat.id by lia. transitivity (inode_at (im_blocks st) (Z.of_nat (S i))); [|done]. by rewrite <- Hat at 1.
Qed.

Lemma made_bytes n : (n <= 140 * 512)%nat -> fbytes V x 0 n = take n (c ++ replicate n 0).
Proof.
  intros Hn. apply list_eq_same_length with n; [by rewrite length_take, length_app, length_replicate; lia|apply length_fbytes|].
  intros o a b Ho Ha Hb. unfold fbytes in Ha. apply list_lookup_fmap_Some in Ha as (o' & -> & Ho'). apply lookup_seq in Ho' as [-> _].
  rewrite (fm_byte _ _ _ _ _ made_file) by lia. rewrite lookup_take_lt in Hb by done. cbn [Nat.add].
  apply lookup_app_Some in Hb as [->|[Hge Hb]]; [done|]. apply lookup_replicate in Hb as [-> _]. by rewrite lookup_ge_None_2.
Qed.

(** Every block below the size is there, unless the size is too big. *)
Lemma made_full : (i_size x <= 512 * Z.of_nat (cap (length c)).1)%Z -> (length c <= 140 * 512)%nat -> full V x.
Proof.
  intros Hs Hl bn Hbn. assert (bn < (cap (length c)).1)%nat as Hk by lia.
  apply (fm_slot _ _ _ _ _ made_file); [|done]. destruct (fm_cap _ _ _ _ _ made_file). lia.
Qed.
Lemma made_in m type : i_type x = type -> i_nlink x = 1 -> type <> T_DEV -> i_size x = Z.of_nat (length c + m) ->
  (length c + m <= 512 * (cap (length c)).1)%nat -> (length c <= 140 * 512)%nat -> file_in st (Z.of_nat (S i)) type (c ++ replicate m 0).
Proof.
  intros Et En Hdev Es Hcap Hl. destruct (ig_stored _ _ _ H i x Hx) as [Hat Hok].
  destruct (fm_cap _ _ _ _ _ made_file) as [_ Hk]. assert (length c + m <= 140 * 512)%nat by lia.
  split; rewrite ?Hat, ?length_app, ?length_replicate; try done.
  - apply made_rest; [congruence|lia|]. apply made_full; lia.
  - apply made_ok.
  - rewrite made_bytes, take_app_add, take_replicate by lia. do 2 f_equal. lia.
Qed.
End Made.

(** The root directory, with the unused entries at its end. *)
Definition root_dir (fs : list (list Z * list (list Z))) : list Z :=
  root_bytes fs ++ replicate (Z.to_nat (whole (length (root_bytes fs))) - length (root_bytes fs)) 0.

Lemma cap_whole n : (n mod 512 <> 0)%nat -> whole n = 512 * Z.of_nat (cap n).1.
Proof.
  intros Hm. unfold whole, cap. cbn [fst]. pose proof (Nat.div_mod_eq n 512) as E. pose proof (Nat.mod_upper_bound n 512 ltac:(lia)).
  assert ((n + 511) / 512 = S (n / 512))%nat as -> by (symmetry; apply (Nat.div_unique _ _ _ (n mod 512 - 1)); lia).
  assert (Z.of_nat n / 512 = Z.of_nat (n / 512)) as -> by (by rewrite Nat2Z.inj_div). lia.
Qed.

Lemma cap_exact n : (n mod 512 = 0)%nat -> whole n = 512 * Z.of_nat (S (cap n).1).
Proof.
  intros Hm. unfold whole, cap. cbn [fst]. pose proof (Nat.div_mod_eq n 512) as E.
  assert ((n + 511) / 512 = n / 512)%nat as -> by (symmetry; apply (Nat.div_unique _ _ _ 511); lia).
  assert (Z.of_nat n / 512 = Z.of_nat (n / 512)) as -> by (by rewrite Nat2Z.inj_div). lia.
Qed.

Lemma cap_ge n : (n <= 512 * (cap n).1)%nat.
Proof. unfold cap. cbn [fst]. pose proof (Nat.div_mod_eq (n + 511) 512). pose proof (Nat.mod_upper_bound (n + 511) 512 ltac:(lia)). lia. Qed.

Lemma mod_entries n : ((16 * n) mod 512 = 16 * (n mod 32))%nat.
Proof. change 512%nat with (16 * 32)%nat. apply Nat.Div0.mul_mod_distr_l. Qed.

Lemma kinds_lookup xs n i x : kinds xs = (T_DIR, 1) :: replicate n (T_FILE, 1) -> xs !! i = Some x ->
  (i_type x, i_nlink x) = (if decide (i = 0%nat) then T_DIR else T_FILE, 1).
Proof.
  intros E Hx. assert (kinds xs !! i = Some (i_type x, i_nlink x)) as Hk by (unfold kinds; by rewrite list_lookup_fmap, Hx).
  rewrite E in Hk. destruct i as [|i]; cbn in Hk; [by injection Hk as <- <-|]. apply lookup_replicate in Hk as [-> _]. done.
Qed.

Section Final.
Context (fs : list (list Z * list (list Z))) (st : image) (xs : list inode).
Hypothesis Hfits : fits fs.
Hypothesis H : image_made st xs (all_bytes fs).
Hypothesis Hk : kinds xs = (T_DIR, 1) :: replicate (length fs) (T_FILE, 1).
Hypothesis Hs : forall i x, xs !! i = Some x -> i_size x = size_in fs i.

Lemma final_len : length xs = S (length fs).
Proof. apply (f_equal length) in Hk. unfold kinds in Hk. rewrite length_fmap in Hk. cbn in Hk. by rewrite length_replicate in Hk. Qed.

Lemma final_root : ((length fs + 2) mod 32 <> 0)%nat -> file_in st 1 T_DIR (root_dir fs).
Proof.
  intros Hm. destruct (lookup_lt_is_Some_2 xs 0) as [x Hx]; [rewrite final_len; lia|]. pose proof (kinds_lookup _ _ _ _ Hk Hx) as E. injection E as E1 E2.
  pose proof (Hs 0%nat x Hx) as Ez. unfold size_in in Ez. rewrite decide_True in Ez by done. destruct Hfits as (Hn & _).
  pose proof (cap_whole (length (root_bytes fs))) as Ew. rewrite length_root, mod_entries in Ew. specialize (Ew ltac:(lia)).
  pose proof (cap_ge (16 * (length fs + 2))).
  apply (made_in st xs (all_bytes fs) 0 x (root_bytes fs) H Hx eq_refl); try done; rewrite ?Ez, ?length_root; lia.
Qed.

Lemma final_file i f : fs !! i = Some f -> file_in st (Z.of_nat (i + 2)) T_FILE (bytes_of f).
Proof.
  intros Hf. assert (all_bytes fs !! S i = Some (bytes_of f)) as Hc by (change ((bytes_of <$> fs) !! i = Some (bytes_of f)); by rewrite list_lookup_fmap, Hf).
  pose proof (lookup_lt_Some _ _ _ Hf). destruct (lookup_lt_is_Some_2 xs (S i)) as [x Hx]; [rewrite final_len; lia|].
  pose proof (kinds_lookup _ _ _ _ Hk Hx) as E. injection E as E1 E2. pose proof (Hs _ x Hx) as Ez. unfold size_in in Ez.
  rewrite decide_False, Hc in Ez by done. cbn [default from_option id] in Ez. destruct Hfits as (_ & Hall & _).
  destruct (Forall_lookup_1 _ _ _ _ Hall Hf) as [_ Hl]. pose proof (cap_ge (length (bytes_of f))).
  replace (i + 2)%nat with (S (S i)) by lia. rewrite <- (app_nil_r (bytes_of f)).
  apply (made_in st xs (all_bytes fs) (S i) x (bytes_of f) H Hx Hc 0); try done; lia.
Qed.

Lemma final_distinct i j s t : (i <= length fs)%nat -> (j <= length fs)%nat -> (s <= 140)%nat -> (t <= 140)%nat ->
  slot (view (im_blocks st)) (inode_at (im_blocks st) (Z.of_nat (S i))) s =
  slot (view (im_blocks st)) (inode_at (im_blocks st) (Z.of_nat (S j))) t ->
  slot (view (im_blocks st)) (inode_at (im_blocks st) (Z.of_nat (S i))) s <> 0 -> i = j /\ s = t.
Proof.
  intros Hi Hj Hs' Ht. destruct (lookup_lt_is_Some_2 xs i) as [x Hx]; [rewrite final_len; lia|].
  destruct (lookup_lt_is_Some_2 xs j) as [y Hy]; [rewrite final_len; lia|].
  rewrite (proj1 (ig_stored _ _ _ H i x Hx)), (proj1 (ig_stored _ _ _ H j y Hy)). by apply (fk_inj _ _ _ _ (ig_fs _ _ _ H)).
Qed.

Lemma final_layout : layout 58 59 1000 (view (im_blocks st)) (block (view (im_blocks st)) 58).
Proof.
  destruct (fs_lookup _ _ _ _ 58 (ig_fs _ _ _ H) ltac:(lia)) as [E1 E2]. pose proof (fk_len _ _ _ _ (ig_fs _ _ _ H)) as Hl.
  split; [exact E1|exact E2|lia|cbn [vcur view]; lia|lia|]. intros b Hb. rewrite (ig_map _ _ _ H) by lia. apply bool_decide_eq_true.
  rewrite (fk_free _ _ _ _ (ig_fs _ _ _ H)). pose proof (need_nonneg (caps (all_bytes fs))). lia.
Qed.
End Final.

(** C14: mkfs, given files that fit, ends, and its image is one that the kernel
    can use: the super block has the sizes that the kernel reads, the log is
    empty, the bit map marks exactly the blocks before the first one that is
    left, every file and the root directory are there with their bytes as the
    kernel's own calls would leave them, no block belongs to two files, and all
    other inodes are free.  The root directory is in this state when the
    [length fs + 2] entries do not fill their last block, 32 entries to a
    block; when they do, mkfs rounds its size up by one block too many. *)
Theorem mkfs_image fs : fits fs ->
  wp (main fs) start (fun _ st =>
    let l := im_blocks st in
    superblock_of (block (view l) 1) = sb /\ get32 (block (view l) 2) 0 = 0 /\
    layout 58 59 1000 (view l) (block (view l) 58) /\
    (forall b, 0 <= b < 4096 -> used (block (view l) 58) b = bool_decide (b < first_free fs)) /\
    ((length fs + 2) mod 32 <> 0 -> file_in st 1 T_DIR (root_dir fs))%nat /\
    (forall i f, fs !! i = Some f -> file_in st (Z.of_nat (i + 2)) T_FILE (bytes_of f)) /\
    (forall i j s t, (i <= length fs)%nat -> (j <= length fs)%nat -> (s <= 140)%nat -> (t <= 140)%nat ->
      slot (view l) (inode_at l (Z.of_nat (S i))) s = slot (view l) (inode_at l (Z.of_nat (S j))) t ->
      slot (view l) (inode_at l (Z.of_nat (S i))) s <> 0 -> i = j /\ s = t) /\
    (forall inum, Z.of_nat (length fs + 1) < inum < 200 -> i_type (inode_at l inum) = 0)).
Proof.
  intros Hf. eapply wp_mono; [by apply main_made|]. intros ? st (xs & H & Hk & Hs). cbv zeta. split_and!.
  - by rewrite (ig_super _ _ _ H).
  - rewrite (ig_log _ _ _ H). apply get32_zero.
  - exact (final_layout fs st xs H).
  - intros b Hb. rewrite (ig_map _ _ _ H), (fk_free _ _ _ _ (ig_fs _ _ _ H)) by done. done.
  - exact (final_root fs st xs Hf H Hk Hs).
  - exact (final_file fs st xs Hf H Hk Hs).
  - exact (final_distinct fs st xs H Hk).
  - intros inum Hi. apply (ig_unused _ _ _ H). rewrite (final_len fs xs Hk). lia.
Qed.

Ltac fits :=
  split; [by apply Nat.leb_le|split; [|by vm_compute]];
  repeat (apply Forall_cons; split; [split; [done|apply Nat.leb_le; by vm_compute]|]); by apply Forall_nil.

Definition demo : list (list Z * list (list Z)) :=
  [(chars "README", [replicate 512 65; chars "the end"]); (chars "_cat", [[127; 69; 76; 70]])].

Lemma demo_fits : fits demo.
Proof. fits. Qed.

(** The program evaluated: the second file is the four bytes of [cat]. *)
Lemma mkfs_image_witness : exists st, main demo start = Ok tt st /\ file_in st 3 T_FILE [127; 69; 76; 70].
Proof.
  destruct (wp_inv _ _ _ (mkfs_image demo demo_fits)) as ([] & st & E & W).
  exists st. split; [exact E|]. destruct W as (_ & _ & _ & _ & _ & W & _). exact (W 1%nat _ eq_refl).
Defined.

(** C40: when the entries of the root directory fill their last block, mkfs
    still rounds the size up by a block: the last block of the directory is not
    allocated, and the directory is not as the kernel's own calls leave one. *)
Theorem mkfs_root_hole fs : fits fs -> ((length fs + 2) mod 32 = 0)%nat ->
  wp (main fs) start (fun _ st =>
    let x := inode_at (im_blocks st) 1 in
    i_type x = T_DIR /\ i_size x = Z.of_nat (length (root_bytes fs) + 512) /\
    slot (view (im_blocks st)) x (slot_of (length (root_bytes fs) / 512)) = 0 /\ ~ full (view (im_blocks st)) x).
Proof.
  intros Hf Hm. eapply wp_mono; [by apply main_made|]. intros ? st (xs & H & Hk & Hs). cbv zeta.
  destruct (lookup_lt_is_Some_2 xs 0) as [x Hx]; [rewrite (final_len fs xs Hk); lia|].
  change 1 with (Z.of_nat 1). rewrite (proj1 (ig_stored _ _ _ H 0 x Hx)).
  pose proof (kinds_lookup _ _ _ _ Hk Hx) as E. injection E as E1 E2. pose proof (Hs 0%nat x Hx) as Ez. unfold size_in in Ez. rewrite decide_True in Ez by done.
  assert (length (root_bytes fs) mod 512 = 0)%nat as Hm' by (rewrite length_root, mod_entries, Hm; lia).
  pose proof (made_file st xs _ 0 x (root_bytes fs) H Hx eq_refl) as F. destruct Hf as (Hn & _). pose proof (Nat.div_mod_eq (length (root_bytes fs)) 512) as Ed.
  assert (whole (length (root_bytes fs)) = Z.of_nat (length (root_bytes fs) + 512)) as Ew.
  { unfold whole. assert (Z.of_nat (length (root_bytes fs)) / 512 = Z.of_nat (length (root_bytes fs) / 512)) as -> by (by rewrite Nat2Z.inj_div). lia. }
  assert (slot (view (im_blocks st)) x (slot_of (length (root_bytes fs) / 512)) = 0) as Es.
  { pose proof (length_root fs) as Hl. apply dec_stable. intros Hne. apply (fm_slot _ _ _ _ _ F) in Hne; [|lia].
    pose proof (cap_exact _ Hm'). lia. }
  split_and!; [done|congruence|done|]. intros Hfull. apply (Hfull (length (root_bytes fs) / 512)%nat); [|done]. rewrite Ez, Ew. lia.
Qed.

Definition demo30 : list (list Z * list (list Z)) := replicate 30 (chars "a", [[1]]).

Lemma demo30_fits : fits demo30.
Proof. fits. Qed.

Lemma mkfs_root_hole_witness : exists st, main demo30 start = Ok tt st /\ i_size (inode_at (im_blocks st) 1) = 1024.
Proof.
  destruct (wp_inv _ _ _ (mkfs_root_hole demo30 demo30_fits eq_refl)) as ([] & st & E & W).
  exists st. split; [exact E|]. destruct W as (_ & W & _). rewrite W, length_root. done.
Defined.
End MkfsTheorems.
