(* ===== verification/FsLock.v ===== *)
(** * Locking inodes: ilock and iunlock of an inode in the cache *)

From S2P Require Import Prelude Memory Mmu Machine Spinlock Kalloc Vm PageTable VmProofs VmSpaces.
From S2P Require Import Encrypt ProcTable Clock ClockProofs Proc ProcProofs FileState Sleeplock Bio BioProofs Log LogProofs LogCommit LogOps.
From S2P Require Import Ulib Cprintf Fs FsBlocks FsInode.

Section Lock.
Context `{DL : DiskLaws, KI : KernelImage, PO : !PageOps, DV : Devices}.
Implicit Types k : kstate fstate.

Definition set_lock (l : sleeplock) (ip : nat) (s : fstate) : fstate := set_inode (set_i_lock l) ip s.

Lemma inode_sl_ready k ip x : icached k ip = Some x -> sl_lk (i_lock x) = free -> sl_ready (inode_sl ip) k (i_lock x).
Proof.
  intros Hx Hf. split_and!; [|cbn; by rewrite Hx|done].
  intros v. cbn. rewrite list_lookup_alter, decide_True by done. by rewrite Hx.
Qed.

Lemma set_lock_at k k' ip x l : icached k ip = Some x -> files k' = set_lock l ip (files k) -> icached k' ip = Some (set_i_lock l x).
Proof. intros Hx ->. cbn. rewrite list_lookup_alter, decide_True by done. by rewrite Hx. Qed.

Lemma ilock_valid p n k ip x :
  quiet p n k -> icached k ip = Some x -> 1 <= i_ref x -> i_valid x = true -> sl_locked (i_lock x) = 0 -> sl_lk (i_lock x) = free ->
  wp (ilock (Some ip)) k (fun _ k' => calm k k' /\ files k' = set_lock (SleepLock 1 free n) ip (files k)).
Proof.
  intros Hq Hx Hr Hv Hl Hf. unfold ilock. wstep. eapply geti_at; [done|]. rewrite (proj2 (Z.ltb_ge _ _)) by lia. wstep.
  eapply wp_mono; [apply (acquiresleep_spec (inode_sl ip) k p n (i_lock x) Hq); [by apply inode_sl_ready|done]|].
  intros [] k1 [C1 F1]. change (update _ _ _) with (set_lock (SleepLock 1 free n) ip (files k)) in F1.
  wstep. eapply geti_at; [by eapply set_lock_at|]. cbn [i_valid set_i_lock]. rewrite Hv. cbn [negb when]. by wstep.
Qed.

Lemma iunlock_held p n k ip x :
  quiet p n k -> icached k ip = Some x -> 1 <= i_ref x -> i_lock x = SleepLock 1 free n ->
  wp (iunlock (Some ip)) k (fun _ k' => calm k k' /\ files k' = set_lock (SleepLock 0 free 0) ip (files k)).
Proof.
  intros Hq Hx Hr Hl. unfold iunlock. wstep.
  assert (sl_lk (i_lock x) = free) as Hf by (by rewrite Hl).
  eapply wp_mono; [apply (holdingsleep_spec (inode_sl ip) k p n (i_lock x) Hq); by apply inode_sl_ready|].
  intros b k1 (C1 & F1 & ->). rewrite Hl. cbn [sl_locked sl_pid]. rewrite Z.eqb_refl. cbn [negb andb Z.eqb]. wstep.
  assert (icached k1 ip = Some x) as Hx1 by (by rewrite F1).
  eapply geti_at; [done|]. rewrite (proj2 (Z.ltb_ge _ _)) by lia.
  eapply wp_mono; [apply (releasesleep_spec (inode_sl ip) k1 p n (i_lock x)); [by eapply quiet_calm|by apply inode_sl_ready]|].
  intros [] k2 (C2 & _ & F2). split; [by etrans|]. rewrite F2, F1. done.
Qed.
End Lock.
