(* ===== verification/FsDemo.v ===== *)
(** * A small file system

    A disk of 20 blocks: the log at 2 to 11, an inode block at 12, the bit map
    at 13 and file blocks from 14.  Inode 1 is a file of three bytes, cached in
    entry 0 and open as file 0. *)

From S2P Require Import Prelude Memory Mmu Machine Spinlock Kalloc Vm PageTable VmProofs VmSpaces.
From S2P Require Import Encrypt ProcTable Clock ClockProofs Demo Proc ProcProofs.
From S2P Require Import FileState Sleeplock Bio BioProofs BioInit Log LogProofs LogCommit LogOps FileDemo.
From S2P Require Import Ulib Cprintf Fs File FsBlocks FsInode FsRead FsDinode FsWrite.

Module FsDemo.
#[local] Existing Instance FileDemo.alone.

Definition sb1 : superblock := Superblock 20 6 8 10 2 12 13.
Definition log1 : log_t := Log free 2 10 1 false 1 0 (replicate 30 0).
Definition inode1 : inode := Inode 1 1 1 sleeplock0 true 2 0 0 1 3 (14 :: replicate 12 0).
Definition map1 : list Z := 255 :: 127 :: replicate 510 0.
Definition disk1 : list (list Z) :=
  <[12%nat := put_dinode 64 inode1 FileDemo.zeros]> (<[13%nat := map1]>
    (<[14%nat := 97 :: 98 :: 99 :: replicate 509 0]> (replicate 20 FileDemo.zeros))).

Definition files1 (s : fstate) : fstate :=
  set_icache (Icache free (inode1 :: replicate 49 inode0)) (set_sb sb1 (set_log log1 s)).
Definition kernel1 : kstate fstate :=
  let k := FileDemo.ready disk1 in set_files (files1 (files k)) k.

Definition V1 : bview := FileDemo.view0 disk1.

Lemma disk1_ok : Forall block_ok disk1.
Proof. repeat apply Forall_insert; try done. by apply Forall_replicate. Qed.

Lemma slot1 t : slot V1 inode1 t = if decide (t = 0)%nat then 14 else 0.
Proof.
  unfold slot. case_decide; [|by rewrite decide_False by lia]. do 13 (destruct t as [|t]; [done|]). lia.
Qed.

Lemma layout1 : layout 13 14 20 V1 map1.
Proof.
  split; [done|done|lia|by vm_compute|lia|]. intros b Hb. do 14 (destruct b as [|b]; [done|]). lia.
Qed.

Lemma file_ok1 : file_ok 14 20 V1 map1 inode1.
Proof.
  split; [done|..].
  - intros t _. rewrite slot1. case_decide; [right|by left]. by split.
  - intros t t' _ _. rewrite !slot1. repeat case_decide; subst; done.
Qed.

Lemma kernel1_bio : quiet 0 1 kernel1 /\ bio 1 (files kernel1) V1 /\ log (files kernel1) = log1.
Proof.
  destruct (FileDemo.ready_spec _ disk1_ok) as (Hq & B & _). unfold kernel1. revert Hq B. generalize (FileDemo.ready disk1).
  intros k [Q1 Q2 Q3] B. split_and!; [by split|by apply (bio_same 1 (files k))|done].
Qed.

Lemma ftx1 : ftx 0 1 2 9 sb1 13 14 0 kernel1 V1 map1 inode1.
Proof.
  destruct kernel1_bio as (Hq & B & El). split; [split; [exact Hq|exact B|exists []]|done|done|done|apply layout1|apply file_ok1|unfold in_log; lia].
  revert El. generalize (files kernel1). intros s El.
  split; rewrite ?El.
  - by split; rewrite ?El.
  - done.
  - done.
  - decided.
  - decided.
  - decided.
  - apply NoDup_nil_2.
  - apply Forall_nil_2.
  - decided.
  - done.
  - by vm_compute.
Qed.

Lemma at_rest1 : file_at_rest sb1 12 V1 inode1.
Proof.
  split.
  - split; decided.
  - split; decided.
  - intros bn Hbn. cbn in Hbn. assert (bn = 0%nat) as -> by lia. done.
  - by vm_compute.
  - done.
  - decided.
Qed.

Lemma geometry1 : geometry 2 9 sb1 13 14 12.
Proof. split; [split; decided|lia|decided|unfold in_log; lia]. Qed.

(** The same with no transaction running. *)
Definition open1 : file := File FD_INODE 1 true true 0 (Some 0%nat) 2.
Definition files2 (s : fstate) : fstate :=
  set_ftable (Ftable free (open1 :: replicate 99 FileDemo.file0)) (outstanding 0 (files1 s)).
Definition kernel2 : kstate fstate :=
  let k := FileDemo.ready disk1 in set_files (files2 (files k)) k.

Lemma kernel2_bio : quiet 0 1 kernel2 /\ bio 1 (files kernel2) V1 /\ log (files kernel2) = set_lg_outstanding 0 log1.
Proof.
  destruct (FileDemo.ready_spec _ disk1_ok) as (Hq & B & _). unfold kernel2. revert Hq B. generalize (FileDemo.ready disk1).
  intros k [Q1 Q2 Q3] B. split_and!; [by split|by apply (bio_same 1 (files k))|done].
Qed.

Lemma idle2 : idle (files kernel2) 2 9 V1.
Proof.
  destruct kernel2_bio as (_ & _ & El). revert El. generalize (files kernel2). intros s El. split; rewrite ?El.
  - by split; rewrite ?El.
  - done.
  - done.
  - decided.
  - decided.
  - decided.
  - done.
  - done.
  - by vm_compute.
Qed.
End FsDemo.
