(* ===== verification/FsTheorems.v ===== *)
(** * Theorems about the file system *)

From S2P Require Import Prelude Memory Mmu Machine Spinlock Kalloc Vm PageTable VmProofs VmSpaces.
From S2P Require Import Encrypt ProcTable Clock ClockProofs Demo Proc ProcProofs.
From S2P Require Import FileState Sleeplock Bio BioProofs BioInit Log LogProofs LogCommit LogOps FileDemo.
From S2P Require Import Ulib Cprintf Fs Pipe PipeProofs Console FsBlocks FsInode FsRead FsDinode FsWrite FsDemo.

(** [bs] written at [o] over [old], which it may extend. *)
Definition splice (o : nat) (bs old : list Z) : list Z := take o old ++ bs ++ drop (o + length bs) old.

Definition file_data (V : bview) (x : inode) : list Z := fbytes V x 0 (Z.to_nat (i_size x)).

Lemma fbytes_lookup V x o n i : (i < n)%nat -> fbytes V x o n !! i = Some (fbyte V x (o + i)).
Proof. intros Hi. unfold fbytes. by rewrite list_lookup_fmap, lookup_seq_lt. Qed.

Section Theorems.
Context `{DL : DiskLaws, KI : KernelImage, PO : !PageOps, DV : Devices}.
Context (p : nat) (n : Z) (S0 m : nat) (s : superblock) (bm ds ip ib : nat).
Implicit Types k : kstate fstate.
Abbreviation ftx := (ftx p n S0 m s bm ds ip).
Abbreviation budget := (budget m s (planned bm ib) 0).
Abbreviation updated := (updated S0 m s bm ib).

Lemma updated_data o bs V d x V' d' x' :
  updated o bs V d x V' d' x' -> 0 <= i_size x <= 140 * 512 -> Z.of_nat o <= i_size x -> (o + length bs <= 140 * 512)%nat ->
  file_data V' x' = splice o bs (file_data V x).
Proof.
  intros U Hx Ho Hmax. pose proof (up_inode _ _ _ _ _ _ _ _ _ _ _ _ _ U) as E.
  assert (i_size x' = Z.max (i_size x) (Z.of_nat (o + length bs))) as Es by (by rewrite E).
  set (N := Z.to_nat (i_size x)) in *. assert (Z.to_nat (i_size x') = Nat.max N (o + length bs)) as EN by lia.
  unfold file_data, splice. fold N. rewrite EN. clear E Es.
  apply list_eq. intros i. destruct (decide (i < Nat.max N (o + length bs))%nat) as [Hi|Hi].
  - rewrite fbytes_lookup by done. rewrite Nat.add_0_l, (up_byte _ _ _ _ _ _ _ _ _ _ _ _ _ U) by lia.
    assert (length (take o (fbytes V x 0 N)) = o) as Lt by (rewrite length_take, length_fbytes; lia).
    case_decide as Hc.
    + rewrite lookup_app_r, Lt, lookup_app_l by lia. unfold byte_at. rewrite Nat2Z.id.
      by destruct (lookup_lt_is_Some_2 bs (i - o)) as [b ->]; [lia|].
    + destruct (decide (i < o)%nat).
      * rewrite lookup_app_l, lookup_take_lt, fbytes_lookup by lia. done.
      * rewrite lookup_app_r, Lt, lookup_app_r, lookup_drop, fbytes_lookup by lia. do 2 f_equal. lia.
  - rewrite !lookup_ge_None_2; [done| |].
    + rewrite !length_app, length_take, length_drop, length_fbytes. lia.
    + rewrite length_fbytes. lia.
Qed.

(** C13: What is written to a file can be read back.  Inside a transaction with
    room for the blocks, [writei] of [bs] at an offset inside the file or at
    its end writes all of it, extending the file with blocks that were free as
    needed, and reading the whole file then gives the old bytes with [bs] over
    them, whatever memory the bytes come from and go to.  The bit map marks the
    new blocks and no others besides, the inode on the disk agrees with the
    cached one, the other inodes of its block and every other block in use that
    is not of the log or the file's already are as before; so every file beside
    this one keeps its bytes, its blocks and its inode on the disk. *)
Theorem write_then_read (I : kstate fstate -> Prop) (a : nat -> ptr) (J : list Z -> kstate fstate -> Prop) (b : list Z -> ptr)
    (bs : list Z) k V d x o :
  geometry S0 m s bm ds ib -> invariant p n I -> source I a bs -> (forall l, invariant p n (J l)) ->
  sink J b (140 * 512) -> (forall k', I k' -> J [] k') ->
  ftx k V d x -> I k -> vheld V = ∅ -> budget (nblocks o (length bs)) V d x -> file_at_rest s ib V x ->
  Z.of_nat o <= i_size x -> (o + length bs <= 140 * 512)%nat ->
  wp (r ← writei ip (a 0%nat) (Z.of_nat o) (Z.of_nat (length bs)); c ← readi ip (b []) 0 71680; mret (r, c)) k (fun rc k' =>
    let data := splice o bs (file_data V x) in
    rc = (Z.of_nat (length bs), (Z.of_nat (length data), b data)) /\ J data k' /\ ftouched ip (files k) (files k') /\
    exists V' d' x', ftx k' V' d' x' /\ vheld V' = ∅ /\ updated o bs V d x V' d' x' /\
      forall y, beside S0 m s bm ds V d x y -> beside S0 m s bm ds V' d' x' y /\ kept s V V' y).
Proof.
  intros G HI Hsrc HJ Hsink HIJ H Ik Hh Hb R Ho Hmax. wstep.
  eapply wp_mono; [by apply (writei_spec p n S0 m s bm ds ip ib 0 G I a bs k V d x o)|].
  intros r k1 (-> & I1 & T1 & V1 & d1 & x1 & H1 & Hh1 & U & _ & _). wstep.
  assert (file_data V1 x1 = splice o bs (file_data V x)) as Ed.
  { apply (updated_data o bs V d x V1 d1 x1 U); [|done|done]. destruct R as [_ [] _ _ _ ?]. unfold is_u32 in *. lia. }
  destruct (up_rest _ _ _ _ _ _ _ _ _ _ _ _ _ U) as [P1 D1 F1 O1 Ty1 Sz1]. pose proof (dk_size _ D1) as Hu. unfold is_u32 in Hu.
  assert (read_len x1 0 71680 = Z.to_nat (i_size x1)) as Er by (unfold read_len; lia).
  destruct (H1) as [Htx Hsb Hip Hdev L F Hbm]. pose proof (ly_fits _ _ _ _ _ L). destruct (Htx) as [Hq B [lb Hix]].
  eapply wp_mono; [apply (readi_spec p n ip V1 x1 (Z.to_nat (i_size x1)) J b (140 * 512)); try done|].
  - split; [apply F| |intros bn Hbn; apply F1; lia|lia].
    intros t Ht. pose proof (ly_size _ _ _ _ _ L). destruct (fo_slot _ _ _ _ _ F t Ht) as [->|[? _]]; lia.
  - split; try done. pose proof (ix_room _ _ _ _ _ Hix). pose proof (ix_max _ _ _ _ _ Hix).
    rewrite (ix_dirty _ _ _ _ _ Hix), size_list_to_set by apply Hix. lia.
  - by apply HIJ.
  - lia.
  - lia.
  - rewrite Er. lia.
  - intros c k2 (-> & J2 & R2 & O2). wstep. rewrite Er in J2 |- *. change (Z.to_nat 0) with 0%nat in J2 |- *.
    fold (file_data V1 x1) in J2 |- *. cbv zeta. rewrite <- Ed.
    assert (length (file_data V1 x1) = Z.to_nat (i_size x1)) as -> by apply length_fbytes. split_and!; [done|done| |].
    + etrans; [exact T1|by apply cache_ftouched].
    + exists V1, d1, x1. split_and!; try done.
      2:{ intros y By. eapply updated_beside; [exact G|apply H|apply H|exact U|done|apply R]. }
      destruct R2 as [A1 A2 _ _ A5 A6].
      split; try done; [|by rewrite O2]. split; [done|done|]. exists lb. eapply intx_view; [| | |exact Hix]; [by rewrite O2|done|done].
Qed.
End Theorems.

(** ** Instances *)


#[local] Existing Instance FileDemo.alone.

(** Three bytes written at offset 2 of "abc". *)
Lemma write_then_read_witness :
  wp (r ← writei 0 (Var [120; 121; 122]) (Z.of_nat 2) (Z.of_nat 3); c ← readi 0 (Var []) 0 71680; mret (r, c)) FsDemo.kernel1
    (fun rc _ => rc = (3, (5, Var [97; 98; 120; 121; 122]))).
Proof.
  destruct FsDemo.kernel1_bio as (Hq & _ & _).
  eapply wp_mono; [apply (write_then_read 0 1 2 9 FsDemo.sb1 13 14 0 12 (quiet 0 1) (fun t => Var (drop t [120; 121; 122]))
    (fun _ => quiet 0 1) Var [120; 121; 122] FsDemo.kernel1 FsDemo.V1 FsDemo.map1 FsDemo.inode1 2)|].
  - apply FsDemo.geometry1.
  - apply (var_supplies 0 1 []).
  - apply var_source.
  - intros _. apply (var_supplies 0 1 []).
  - apply var_sink.
  - done.
  - apply FsDemo.ftx1.
  - exact Hq.
  - done.
  - split; unfold room; decided.
  - apply FsDemo.at_rest1.
  - decided.
  - decided.
  - intros rc k' H. destruct H as [E _]. rewrite E. by vm_compute.
Defined.
