(* ===== verification/FileWrite.v ===== *)
(** * filewrite is durable

    A write to an inode is a sequence of transactions, each of which writes at
    most [max_write] bytes.  The bytes written are on the disk when [filewrite]
    returns, and after a crash on the way recovery finds the file with some
    first part of them. *)

From S2P Require Import Prelude Memory Mmu Machine Spinlock Kalloc Vm PageTable VmProofs VmSpaces.
From S2P Require Import Encrypt ProcTable Clock ClockProofs Demo Proc ProcProofs.
From S2P Require Import FileState Sleeplock Bio BioProofs BioInit Log LogProofs LogCommit LogOps FileDemo.
From S2P Require Import Ulib Cprintf Fs Pipe PipeProofs File Console FsBlocks FsInode FsRead FsDinode FsWrite FsLock FsDemo.

Section Views.
Context (S0 m : nat) (s : superblock) (bm ds ib : nat).
Abbreviation updated := (updated S0 m s bm ib).
Abbreviation layout := (layout bm ds (sb_size s)).
Abbreviation file_ok := (file_ok ds (sb_size s)).

(** The views agree outside the log. *)
Record same_blocks (V V' : bview) : Prop := {
  sa_len : length (vcur V') = length (vcur V);
  sa_cur i : ~ in_log S0 m i -> vcur V' !! i = vcur V !! i;
}.

Hypothesis G : geometry S0 m s bm ds ib.

Lemma data_outside i : (ds <= i)%nat -> ~ in_log S0 m i.
Proof. destruct G as [_ Hl _ _]. unfold in_log. lia. Qed.

Lemma same_layout V V' d : same_blocks V V' -> ~ in_log S0 m bm -> layout V d -> layout V' d.
Proof. intros [E1 E2] Hbm [L1 L2 L3 L4 L5 L6]. split; try done; [by rewrite E2|by rewrite E1]. Qed.

Lemma same_block V V' d a : same_blocks V V' -> owned ds (sb_size s) d a -> block V' a = block V a.
Proof. intros [_ E] [Ha _]. unfold block. rewrite E; [done|]. apply data_outside. lia. Qed.

Lemma same_slot V V' d x t : same_blocks V V' -> file_ok V d x -> (t <= 140)%nat -> slot V' x t = slot V x t.
Proof.
  intros E F Ht. unfold slot. case_decide; [done|]. case_match eqn:Ei; [done|]. b2p. rewrite (same_block V V' d); [done|done|].
  destruct (fo_slot _ _ _ _ _ F 12 ltac:(lia)) as [E0|E0]; by rewrite slot_ind in E0.
Qed.

Lemma same_file_ok V V' d x : same_blocks V V' -> file_ok V d x -> file_ok V' d x.
Proof.
  intros E F. destruct (F) as [F1 F2 F3]. split; [done|..].
  - intros t Ht. rewrite (same_slot V V' d x) by done. by apply F2.
  - intros t t' Ht Ht'. rewrite !(same_slot V V' d x) by done. by apply F3.
Qed.

Lemma same_fbyte V V' d x q : same_blocks V V' -> file_ok V d x -> (q < 140 * 512)%nat -> fbyte V' x q = fbyte V x q.
Proof.
  intros E F Hq. assert (slot_of (q / 512) <= 140)%nat as Ht by (by apply slot_of_le, div_lt).
  unfold fbyte, contents. rewrite (same_slot V V' d x) by done. case_match; [done|]. b2p.
  rewrite (same_block V V' d); [done|done|]. by destruct (fo_slot _ _ _ _ _ F _ Ht).
Qed.

Lemma same_at_rest V V' d x : same_blocks V V' -> file_ok V d x -> file_at_rest s ib V x -> file_at_rest s ib V' x.
Proof.
  intros E F [[R1 R1'] R2 R3 R4 R5 R6]. destruct G as [_ _ _ (_ & _ & Hib)]. split; try done.
  - split; [done|]. by rewrite (sa_len _ _ E).
  - intros bn Hbn. rewrite (same_slot V V' d x); [by apply R3|done|done|]. apply slot_of_le. lia.
  - unfold on_disk, block. rewrite Nat2Z.id, (sa_cur _ _ E) by done. unfold on_disk, block in R4. by rewrite Nat2Z.id in R4.
Qed.

Lemma updated_same o bs V d x V1 d1 x1 V2 :
  updated o bs V d x V1 d1 x1 -> same_blocks V1 V2 -> file_ok V1 d1 x1 -> ~ in_log S0 m bm -> updated o bs V d x V2 d1 x1.
Proof.
  intros [U1 U2 U3 U4 U5 Un Um Uo Ud U6] E F Hbm. destruct G as [_ _ _ (_ & _ & Hib)]. split; try done.
  - by eapply same_at_rest.
  - intros q Hq. rewrite (same_fbyte V1 V2 d1) by done. by apply U3.
  - intros t Ht Hn. rewrite (same_slot V1 V2 d1) by done. by apply U4.
  - intros t Ht Hn. rewrite (same_slot V1 V2 d1) by done. by apply Un.
  - by rewrite (sa_cur _ _ E).
  - intros b Hb Hu. destruct (Uo b Hb Hu) as [?|(t & Ht & Et)]; [by left|right]. exists t. by rewrite (same_slot V1 V2 d1).
  - intros j Hj Hr. rewrite <- Ud by done. unfold block. by rewrite Nat2Z.id, (sa_cur _ _ E).
  - intros b Hb Hu Hp Hl. rewrite (sa_cur _ _ E) by done. by apply U6.
Qed.

(** Nothing has been written yet. *)
Lemma updated_refl o V d x :
  layout V d -> file_at_rest s ib V x -> Z.of_nat o <= i_size x -> updated o [] V d x V d x.
Proof.
  intros L R Ho. split; try done.
  - rewrite length_nil, Z.max_l by lia. by destruct x.
  - intros q _. by rewrite decide_False by (rewrite length_nil; lia).
  - intros t Ht. by left.
  - apply L.
  - intros b. by left.
  - intros b. by left.
Qed.

Lemma updated_app o bs1 bs2 V d x V1 d1 x1 V2 d2 x2 :
  file_ok V2 d2 x2 ->
  updated o bs1 V d x V1 d1 x1 -> updated (o + length bs1) bs2 V1 d1 x1 V2 d2 x2 -> updated o (bs1 ++ bs2) V d x V2 d2 x2.
Proof.
  intros F2 [U1 U2 U3 U4 U5 Un Um Uo Ud U6] [W1 W2 W3 W4 W5 Wn Wm Wo Wd W6]. split; try done.
  - rewrite W2 at 1. rewrite U2, length_app. unfold set_i_size, set_i_addrs. cbn. f_equal. lia.
  - intros q Hq. rewrite W3, U3 by done. rewrite length_app. repeat case_decide; try lia; try done.
    + unfold byte_at. rewrite lookup_app_r by lia. do 2 f_equal. lia.
    + unfold byte_at. rewrite lookup_app_l by lia. done.
  - intros t Ht Hn. rewrite W4; [by apply U4|done|]. by rewrite U4.
  - intros b Hb Hu. by apply W5, U5.
  - intros t Ht Hz. destruct (decide (slot V1 x1 t = 0)) as [Hz1|Hz1]; [|rewrite W4 by done; by apply Un].
    destruct (fo_slot _ _ _ _ _ F2 t Ht) as [?|[Hr _]]; [by left|]. destruct (Wn t Ht Hz1) as [?|Hu]; [by left|right].
    destruct (used d (slot V2 x2 t)) eqn:E; [|done]. by rewrite U5 in Hu by (done || lia).
  - intros b Hb Hu. destruct (Wo b Hb Hu) as [Hu1|?]; [|by right]. destruct (Uo b Hb Hu1) as [?|(t & Ht & Et)]; [by left|right].
    exists t. split; [done|]. rewrite W4; [done|done|lia].
  - intros j Hj Hr. rewrite Wd; [by apply Ud|done|]. by rewrite U2.
  - intros b Hb Hu Hp Hl. destruct (W6 b Hb) as [->|(t & Ht & Et & E0)]; [apply U5; [lia|done]|done|done|by apply U6|right].
    exists t. split; [done|]. split; [|done]. destruct (decide (slot V x t = 0)) as [Ez|Ez].
    + destruct (Un t Ht Ez) as [E|E]; [rewrite Et in E; lia|]. rewrite Et in E. congruence.
    + by rewrite <- (U4 t Ht Ez).
Qed.

(** The lock of the inode does not matter. *)
Lemma at_rest_lock V x l : file_at_rest s ib V x -> file_at_rest s ib V (set_i_lock l x).
Proof.
  intros [R1 R2 R3 R4 R5 R6]. split; try done; [destruct R2; by split|].
  unfold on_disk in *. destruct x. cbn in *. unfold get_dinode in *. cbn in *. by injection R4 as -> -> -> -> -> ->.
Qed.

Lemma updated_lock o bs V d x V1 d1 x1 l :
  updated o bs V d (set_i_lock l x) V1 d1 x1 -> updated o bs V d x V1 d1 (set_i_lock (i_lock x) x1).
Proof.
  intros [U1 U2 U3 U4 U5 Un Um Uo Ud U6]. split; try done; [by apply at_rest_lock|]. rewrite U2. by destruct x.
Qed.
End Views.

Section Op.
Context `{DL : DiskLaws, KI : KernelImage, PO : !PageOps, DV : Devices}.
Context (p : nat) (n : Z) (S0 m : nat) (s : superblock) (bm ds ip ib f : nat).
Context (I : kstate fstate -> Prop) (a : nat -> ptr) (bs : list Z).
Implicit Types k : kstate fstate.
Abbreviation updated := (updated S0 m s bm ib).
Abbreviation same_blocks := (same_blocks S0 m).

Hypothesis G : geometry S0 m s bm ds ib.
Hypothesis Hbm : ~ in_log S0 m bm.
Hypothesis HI : invariant p n I.
Hypothesis Hsrc : source I a bs.
Hypothesis Hm : (8 <= m)%nat.

(** No transaction runs; open file [f] is at offset [o] of inode [ip]. *)
Record resting k V d x (o : nat) : Prop := {
  re_inv : I k;
  re_bio : bio n (files k) V;
  re_idle : idle (files k) S0 m V;
  re_sb : sb (files k) = s;
  re_ip : icached k ip = Some x;
  re_dev : i_dev x = 1;
  re_ref : 1 <= i_ref x;
  re_valid : i_valid x = true;
  re_lock : i_lock x = SleepLock 0 free 0;
  re_layout : layout bm ds (sb_size s) V d;
  re_ok : file_ok ds (sb_size s) V d x;
  re_rest : file_at_rest s ib V x;
  re_file : exists y, ft_file (ftable (files k)) !! f = Some y /\ f_ip y = Some ip /\ f_off y = Z.of_nat o /\
    f_type y = FD_INODE /\ f_writable y = true;
}.

Lemma resting_clean k V d x o : resting k V d x o -> forall i, vcur V !! i = vdisk V !! i.
Proof.
  intros R i. apply (bio_clean _ _ _ (re_bio _ _ _ _ _ R)); [rewrite (id_dirty _ _ _ _ (re_idle _ _ _ _ _ R)); apply not_elem_of_empty|].
  by rewrite (id_held _ _ _ _ (re_idle _ _ _ _ _ R)).
Qed.

Lemma getf_at {A} k y (g : file -> A) (Q : A -> kstate fstate -> Prop) :
  ft_file (ftable (files k)) !! f = Some y -> Q (g y) k -> wp (getf f g) k Q.
Proof. intros E HQ. unfold getf. wstep. unfold file_at. by rewrite E. Qed.

(** The disk has the blocks of one of the two views, or will after recovery. *)
Definition crash_between (V V' : bview) (disk : list (list Z)) : Prop :=
  (forall i, ~ in_log S0 m i -> replay S0 disk !! i = vcur V !! i) \/
  (forall i, ~ in_log S0 m i -> replay S0 disk !! i = vcur V' !! i).

(** *** The parts of a transaction *)

Lemma begin_write k V d x o : resting k V d x o ->
  wp begin_op k (fun _ k' => calm k k' /\ files k' = outstanding 1 (files k)).
Proof.
  intros R. assert (quiet p n k) as Hq by (apply (inv_quiet _ _ _ HI), R). pose proof (re_idle _ _ _ _ _ R) as R3.
  pose proof (id_log _ _ _ _ R3) as Hlog. pose proof (id_out _ _ _ _ R3) as Ho.
  eapply wp_mono; [apply (begin_op_spec p n k Hq); [apply Hlog|apply R3|rewrite (la_n _ _ _ _ Hlog), Ho; cbn; lia]|].
  intros [] k1 [C1 F1]. by rewrite Ho in F1.
Qed.

Lemma lock_write k V d x o k1 : resting k V d x o -> calm k k1 -> files k1 = outstanding 1 (files k) ->
  wp (ilock (Some ip)) k1 (fun _ k' => I k' /\
    ftx p n S0 m s bm ds ip k' V d (set_i_lock (SleepLock 1 free n) x) /\
    files k' = set_lock (SleepLock 1 free n) ip (outstanding 1 (files k))).
Proof.
  intros [R1 R2 R3 R4 R5 R6 R7 R8 R9 R10 R11 R12 R13] C1 F1. assert (quiet p n k) as Hq by (by apply (inv_quiet _ _ _ HI)).
  assert (quiet p n k1) as Hq1 by (by eapply quiet_calm). assert (icached k1 ip = Some x) as Hip by (by rewrite F1).
  eapply wp_mono; [apply (ilock_valid p n k1 ip x); try done; by rewrite R9|]. intros [] k2 [C2 F2].
  assert (calm k k2) as C by (by etrans). rewrite F1 in F2.
  split_and!; [eapply (inv_similar _ _ _ HI); [exact R1|by apply calm_similar]| |done].
  split; try done.
  - split; [by eapply quiet_calm|rewrite F2; by apply (bio_same n (files k))|].
    exists []. rewrite F2. eapply intx_view; [| | |by apply idle_begin]; done.
  - by rewrite F2.
  - rewrite F2. cbn. rewrite list_lookup_alter, decide_True by done. by rewrite R5.
  - destruct R11. by split.
Qed.

Lemma ftouched_rest s0 s1 : ftouched ip s0 s1 ->
  ftable s1 = ftable s0 /\ lg_outstanding (log s1) = lg_outstanding (log s0).
Proof. intros [x ->]. done. Qed.

(** The inode is locked by this process in a transaction. *)
Lemma end_write k V d x o c :
  ftx p n S0 m s bm ds ip k V d x -> I k -> vheld V = ∅ -> file_at_rest s ib V x -> lg_outstanding (log (files k)) = 1 ->
  i_lock x = SleepLock 1 free n -> i_valid x = true -> 1 <= i_ref x -> (o + c <= 140 * 512)%nat ->
  (exists y, ft_file (ftable (files k)) !! f = Some y /\ f_ip y = Some ip /\ f_off y = Z.of_nat o /\ f_type y = FD_INODE /\ f_writable y = true) ->
  forall (rest : FK Z) (Q : Z -> kstate fstate -> Prop),
  (forall k' V', resting k' V' d (set_i_lock (SleepLock 0 free 0) x) (o + c) -> same_blocks V V' -> trail (crash_ok S0 m V) V V' ->
     wp rest k' Q) ->
  wp (setf f (fun y => set_f_off (u32 (f_off y + Z.of_nat c)) y);; iunlock (Some ip);; end_op;; rest) k Q.
Proof.
  intros H Ik Hh R Hout Hlk Hv Hr Hmax (y & Hy & Yi & Yo & Yt & Yw) rest Q HQ. destruct (H) as [[Hq B [lb Hix]] Hsb Hip Hdev L F _].
  unfold setf. wsteps. set (s1 := set_file _ f (files k)). set (k1 := set_files s1 k).
  assert (quiet p n k1) as Hq1 by (eapply quiet_calm; [exact Hq|by apply calm_set_files]).
  eapply wp_mono; [apply (iunlock_held p n k1 ip x); done|]. intros [] k2 [C2 F2]. change (files k1) with s1 in F2. wstep.
  assert (calm k k2) as C02 by (etrans; [by apply (calm_set_files k k s1)|done]).
  eapply wp_mono; [apply (end_op_spec p n k2 V S0 m lb)|].
  - by eapply quiet_calm.
  - rewrite F2. by apply (bio_same n (files k)).
  - eapply intx_view; [| | |exact Hix]; [by rewrite F2|done|done].
  - by rewrite F2.
  - done.
  - intros [] k3 (C3 & O3 & L3 & V3 & B3 & D3 & H3 & E3 & Len3 & Hd3 & T3).
    assert (same_blocks V V3) as Sa.
    { split; [|intros i Hi; by apply Hd3]. by rewrite (bio_size _ _ _ B3), (bio_size _ _ _ B), Len3. }
    apply (HQ k3 V3); [|done|done].
    assert (ftable (files k3) = ftable s1 /\ icache (files k3) = icache (set_lock (SleepLock 0 free 0) ip s1) /\ sb (files k3) = sb (files k)
      /\ lg_outstanding (log (files k3)) = 0 /\ lg_committing (log (files k3)) = lg_committing (log (files k))) as (Et & Ei & Es & Eo & Ec).
    { rewrite O3. cbn. rewrite F2. done. }
    split.
    + eapply (inv_similar _ _ _ HI); [exact Ik|]. apply calm_similar. by etrans.
    + done.
    + split; try done; [by rewrite Ec, (ix_idle _ _ _ _ _ Hix)|apply Hix|rewrite Len3; apply Hix|rewrite Len3; apply Hix].
    + by rewrite Es.
    + rewrite Ei. cbn. rewrite list_lookup_alter, decide_True by done. by rewrite Hip.
    + done.
    + done.
    + done.
    + done.
    + by apply (same_layout S0 m s bm ds V V3 d).
    + destruct (same_file_ok S0 m s bm ds ib G V V3 d x Sa F). by split.
    + apply at_rest_lock. by apply (same_at_rest S0 m s bm ds ib G V V3 d x).
    + rewrite Et. exists (set_f_off (u32 (f_off y + Z.of_nat c)) y). cbn. rewrite list_lookup_alter, decide_True by done.
      rewrite Hy. split_and!; try done. cbn. rewrite Yo, u32_small; [lia|unfold is_u32; lia].
Qed.

Lemma source_part t c : (t + c <= length bs)%nat -> source I (fun t' => a (t + t')%nat) (take c (drop t bs)).
Proof.
  intros Htc k t' c' Ik Hc. assert (length (take c (drop t bs)) = c) as Lc by (rewrite length_take, length_drop; lia). rewrite Lc in Hc.
  eapply wp_mono; [apply (Hsrc k (t + t')%nat c' Ik); lia|]. intros r k' (-> & Ik' & F). split_and!; try done. f_equal; [|f_equal; lia].
  apply list_eq. intros i. destruct (decide (i < c')%nat).
  - rewrite !lookup_take_lt, !lookup_drop, lookup_take_lt, lookup_drop by lia. f_equal. lia.
  - rewrite !lookup_take_ge by lia. done.
Qed.

Lemma nblocks_max o c : (c <= 1536)%nat -> (nblocks o c <= 4)%nat.
Proof.
  intros Hc. unfold nblocks. case_decide; [lia|]. pose proof (mod512 o). apply Nat.lt_succ_r, Nat.Div0.div_lt_upper_bound. lia.
Qed.

(** A transaction of at most [max_write] bytes fits into the log. *)
Lemma write_budget e k V d x o c l :
  resting k V d x o -> (c <= 1536)%nat -> (e + 4 + missing x <= nfree (sb_size s) d)%nat ->
  budget m s (planned bm ib) (e + 4 - nblocks o c) (nblocks o c) V d (set_i_lock l x).
Proof.
  intros R Hc Hn. pose proof (nblocks_max o c Hc). pose proof (id_dirty _ _ _ _ (re_idle _ _ _ _ _ R)) as Hd.
  change (missing (set_i_lock l x)) with (missing x). split; [|change (missing (set_i_lock l x)) with (missing x); lia].
  change (ind_set (set_i_lock l x)) with (ind_set x). change (missing (set_i_lock l x)) with (missing x).
  unfold room. rewrite Hd, union_empty_l_L.
  assert (size (planned bm ib) <= 2)%nat as H2.
  { unfold planned. pose proof (size_union_alt {[bm]} ({[ib]} : gset nat)) as E. rewrite size_singleton in E.
    assert (size ({[ib]} ∖ {[bm]} : gset nat) <= size ({[ib]} : gset nat))%nat by (apply subseteq_size, subseteq_difference_l; done).
    rewrite size_singleton in *. lia. }
  pose proof (size_union_alt (planned bm ib) (ind_set x)) as E.
  assert (size (ind_set x ∖ planned bm ib) <= size (ind_set x))%nat by (apply subseteq_size, subseteq_difference_l; done).
  assert (size (ind_set x) + missing x <= 1)%nat; [|lia].
  unfold ind_set, missing. case_match; [rewrite size_empty|rewrite size_singleton]; lia.
Qed.

(** One turn of the loop of [filewrite]. *)
Lemma write_op e k V d x o t c (rest : Z -> FK Z) (Q : Z -> kstate fstate -> Prop) :
  resting k V d x o -> (0 < c <= 1536)%nat -> (t + c <= length bs)%nat -> Z.of_nat o <= i_size x -> (o + c <= 140 * 512)%nat ->
  (e + 4 + missing x <= nfree (sb_size s) d)%nat ->
  (forall k' V' d' x', resting k' V' d' x' (o + c) -> updated o (take c (drop t bs)) V d x V' d' x' ->
     trail (crash_between V V') V V' -> (e + missing x' <= nfree (sb_size s) d')%nat -> wp (rest (Z.of_nat c)) k' Q) ->
  wp (begin_op;;
      q ← getf f f_ip;
      ilock q;;
      jp ← nonnull q;
      off ← getf f f_off;
      r ← writei jp (a t) off (Z.of_nat c);
      when (0 <? r) (setf f (fun y => set_f_off (u32 (f_off y + r)) y));;
      iunlock q;;
      end_op;;
      rest r) k Q.
Proof.
  intros R Hc Ht Hsz Hmax Hn HQ. destruct (re_file _ _ _ _ _ R) as (y & Hy & Yi & Yo & Yt & Yw).
  assert (length (take c (drop t bs)) = c) as Lc by (rewrite length_take, length_drop; lia).
  wstep. eapply wp_mono; [by eapply begin_write|]. intros [] k1 [C1 F1]. wstep.
  eapply (getf_at k1 y); [by rewrite F1|]. rewrite Yi. wstep.
  eapply wp_mono; [by eapply lock_write|]. intros [] k2 (I2 & H2 & F2). wsteps. eapply (getf_at k2 y); [by rewrite F2|]. rewrite Yo. wstep.
  rewrite <- (Nat.add_0_r t). replace (Z.of_nat c) with (Z.of_nat (length (take c (drop t bs)))) at 1 by (by rewrite Lc).
  pose proof (id_held _ _ _ _ (re_idle _ _ _ _ _ R)) as Hh.
  eapply wp_mono; [apply (writei_spec p n S0 m s bm ds ip ib (e + 4 - nblocks o c) G I (fun t' => a (t + t')%nat) (take c (drop t bs))
    k2 V d (set_i_lock (SleepLock 1 free n) x) o HI (source_part t c Ht) H2 I2 Hh)|].
  { rewrite Lc. apply (write_budget e k V d x o c _ R); [lia|done]. } { apply at_rest_lock, R. } { done. } { by rewrite Lc. }
  intros r k3 (-> & I3 & T3 & V3 & d3 & x3 & H3 & Hh3 & U & [_ Hn3] & Ed & Ep). rewrite Lc.
  rewrite (proj2 (Z.ltb_lt _ _)) by lia. cbn [when]. destruct (ftouched_rest _ _ T3) as [Et Eo].
  assert (x3 = set_i_size (i_size x3) (set_i_addrs (i_addrs x3) (set_i_lock (SleepLock 1 free n) x))) as Ex.
  { rewrite (up_inode _ _ _ _ _ _ _ _ _ _ _ _ _ U). done. }
  eapply (end_write k3 V3 d3 x3 o c H3 I3 Hh3); [apply U|by rewrite Eo, F2|by rewrite Ex|rewrite Ex; apply R|rewrite Ex; apply R|done| |].
  { exists y. rewrite Et, F2. done. }
  intros k4 V4 R4 Sa T4. apply updated_lock in U. rewrite (re_lock _ _ _ _ _ R) in U.
  eapply (HQ k4 V4 d3); [exact R4| | |].
  - eapply (updated_same S0 m s bm ds ib G); [exact U|exact Sa| |done]. destruct (ft_ok _ _ _ _ _ _ _ _ _ _ _ _ H3). by split.
  - destruct T4 as (new & En & Fn). exists new. split; [by rewrite En, Ep|]. eapply Forall_impl; [exact Fn|].
    intros disk [Hd|Hd]; [left|right]; intros i Hi; rewrite Hd by done.
    + by rewrite Ed, (resting_clean _ _ _ _ _ R).
    + by rewrite (sa_cur _ _ _ _ Sa).
  - change (missing (set_i_lock _ x3)) with (missing x3). pose proof (nblocks_max o c ltac:(lia)). lia.
Qed.

(** Recovery finds the file with a first part of the bytes. *)
Definition saved_part (o : nat) (V : bview) (d : list Z) (x : inode) (disk : list (list Z)) : Prop :=
  exists j V' d' x', (j <= length bs)%nat /\ updated o (take j bs) V d x V' d' x' /\
    forall i, ~ in_log S0 m i -> replay S0 disk !! i = vcur V' !! i.

Lemma updated_size o l V d x V' d' x' : updated o l V d x V' d' x' -> Z.of_nat (o + length l) <= i_size x'.
Proof. intros U. rewrite (up_inode _ _ _ _ _ _ _ _ _ _ _ _ _ U). cbn. lia. Qed.

Context (addr : ptr).
Hypothesis Ha : forall t, a t = ptr_add addr (Z.of_nat t).

Lemma filewrite_loop_spec fuel : forall k V d x o k1 V1 d1 x1 t,
  resting k V d x o -> resting k1 V1 d1 x1 (o + t) -> updated o (take t bs) V d x V1 d1 x1 ->
  trail (saved_part o V d x) V V1 -> (t <= length bs)%nat -> (o + length bs <= 140 * 512)%nat ->
  (length bs - t <= 1536 * fuel)%nat -> (4 * fuel + missing x1 <= nfree (sb_size s) d1)%nat ->
  wp (filewrite_loop f addr (Z.of_nat t) (Z.of_nat (length bs)) fuel) k1 (fun r k' => r = Z.of_nat (length bs) /\
    exists V' d' x', resting k' V' d' x' (o + length bs) /\ updated o bs V d x V' d' x' /\ trail (saved_part o V d x) V V').
Proof.
  induction fuel as [|fuel IH]; intros k V d x o k1 V1 d1 x1 t R R1 U Tr Ht Hmax Hf Hn; cbn [filewrite_loop];
    (destruct (decide (t = length bs)) as [->|Hne]; [rewrite Z.ltb_irrefl; cbn [negb]; wstep;
      split; [done|]; exists V1, d1, x1; by rewrite take_ge in U by done|]); [lia|].
  rewrite (proj2 (Z.ltb_lt _ _)) by lia. cbn [negb]. change max_write with 1536.
  set (c := Nat.min 1536 (length bs - t)).
  assert ((if 1536 <? Z.of_nat (length bs) - Z.of_nat t then 1536 else Z.of_nat (length bs) - Z.of_nat t) = Z.of_nat c) as ->.
  { destruct (Z.ltb_spec 1536 (Z.of_nat (length bs) - Z.of_nat t)); unfold c; lia. }
  assert (length (take t bs) = t) as Lt by (rewrite length_take; lia).
  assert (take (t + c) bs = take t bs ++ take c (drop t bs)) as Etc by (by rewrite take_take_drop).
  rewrite <- Ha. eapply (write_op (4 * fuel) k1 V1 d1 x1 (o + t) t c) with (rest := fun r => if r <? 0 then mret (Z.of_nat t) else
    if negb (r =? Z.of_nat c) then panic "short filewrite" else filewrite_loop f addr (Z.of_nat t + r) (Z.of_nat (length bs)) fuel);
    [done|unfold c; lia|unfold c; lia| |unfold c; lia|lia|].
  { apply updated_size in U. by rewrite Lt in U. }
  intros k2 V2 d2 x2 R2 U2 Tr2 Hn2. rewrite (proj2 (Z.ltb_ge _ _)), Z.eqb_refl by lia. cbn [negb].
  replace (Z.of_nat t + Z.of_nat c) with (Z.of_nat (t + c)) by lia.
  assert (updated o (take (t + c) bs) V d x V2 d2 x2) as U12.
  { rewrite Etc. eapply (updated_app S0 m s bm ds ib); [apply R2|exact U|]. by rewrite Lt. }
  apply (IH k V d x o k2 V2 d2 x2 (t + c)%nat); try done.
  - by rewrite Nat.add_assoc.
  - eapply trail_trans; [exact Tr|]. destruct Tr2 as (new & En & Fn). exists new. split; [done|].
    eapply Forall_impl; [exact Fn|]. intros disk [Hd|Hd].
    + exists t, V1, d1, x1. split_and!; [lia|done|exact Hd].
    + exists (t + c)%nat, V2, d2, x2. split_and!; [unfold c; lia|done|exact Hd].
  - unfold c; lia.
  - unfold c; lia.
Qed.
End Op.

(** A write to a file is durable and crash-safe.  [filewrite] of the bytes
    [bs] to an open inode, with no transaction running and enough free blocks,
    returns their number and leaves no transaction; the file on the disk then
    has [bs] at the old offset, the offset is past them, and blocks in use that
    are not the file's are as before.  If the machine stops on the way, replaying
    the log, as recovery does, gives the file with a first part of [bs] written,
    its inode included.  Every transaction fits into the log. *)
Lemma filewrite_spec `{DL : DiskLaws, KI : KernelImage, PO : !PageOps, DV : Devices}
    p n S0 m s bm ds ip ib f I addr bs k V d x o :
  geometry S0 m s bm ds ib -> ~ in_log S0 m bm -> (8 <= m)%nat ->
  invariant p n I -> source I (fun t => ptr_add addr (Z.of_nat t)) bs ->
  resting n S0 m s bm ds ip ib f I k V d x o -> Z.of_nat o <= i_size x -> (o + length bs <= 140 * 512)%nat ->
  (4 * (length bs / 1536 + 1) + missing x <= nfree (sb_size s) d)%nat ->
  wp (filewrite f addr (Z.of_nat (length bs))) k (fun r k' => r = Z.of_nat (length bs) /\
    exists V' d' x', resting n S0 m s bm ds ip ib f I k' V' d' x' (o + length bs) /\
      updated S0 m s bm ib o bs V d x V' d' x' /\ (forall i, vdisk V' !! i = vcur V' !! i) /\
      trail (saved_part S0 m s bm ib bs o V d x) V V').
Proof.
  intros G Hbm Hm HI Hsrc R Ho Hmax Hn. destruct (re_file _ _ _ _ _ _ _ _ _ _ _ _ _ _ _ R) as (y & Hy & Yi & Yo & Yt & Yw).
  unfold filewrite. wstep. eapply (getf_at f k y); [done|]. rewrite Yw. cbn [negb]. wstep. eapply (getf_at f k y); [done|]. rewrite Yt. wstep.
  replace (Z.to_nat (Z.of_nat (length bs) / max_write + 1)) with (length bs / 1536 + 1)%nat.
  2:{ change max_write with (Z.of_nat 1536). rewrite <- Nat2Z.inj_div. lia. }
  change 0 with (Z.of_nat 0). pose proof (Nat.div_mod_eq (length bs) 1536). pose proof (Nat.mod_upper_bound (length bs) 1536 ltac:(lia)).
  eapply wp_mono; [apply (filewrite_loop_spec p n S0 m s bm ds ip ib f I (fun t => ptr_add addr (Z.of_nat t)) bs G Hbm HI Hsrc Hm addr
    (fun t => eq_refl) _ k V d x o k V d x 0 R)|].
  - by rewrite Nat.add_0_r.
  - apply (updated_refl S0 m s bm ds ib); [apply R|apply R|done].
  - apply trail_refl.
  - lia.
  - done.
  - lia.
  - done.
  - intros r k' (-> & V' & d' & x' & R' & U & Tr). wstep. rewrite Z.eqb_refl. split; [done|]. exists V', d', x'. split_and!; try done.
    intros i. symmetry. by eapply resting_clean.
Qed.
