(* ===== verification/UserPtr.v ===== *)
(** * User memory under the file layer and the system calls

    A process's memory is a source of bytes for [writei] and the other
    operations of the file layer: the locks they take, and the processes they
    wake, do not change it. *)

From S2P Require Import Prelude Memory Mmu Machine Spinlock Kalloc Vm PageTable VmProofs VmSpaces.
From S2P Require Import Encrypt ProcTable Clock ClockProofs Demo EncryptTheorems UserMem Proc ProcProofs.
From S2P Require Import FileState Sleeplock Bio BioProofs BioInit Log LogProofs LogCommit LogOps FileDemo.
From S2P Require Import Ulib Cprintf Fs Pipe PipeProofs File Console FsBlocks FsInode FsRead FsDinode FsWrite.

Section UserPtr.
Context `{KI : KernelImage, PO : !PageOps, PA : !PageAllocator}.
Context (p : nat) (n : Z) (q0 : proc) (l : list Z) (dom : Z -> bool) (own : Z -> Prop).
Implicit Types (k : kstate fstate) (g : Z -> Z).
Abbreviation user := (user p q0 l dom own).
Abbreviation ukeep := (ukeep p own).
Abbreviation uaddr := (uaddr dom).
Abbreviation m k := (mem (mach k)).

(** The process runs, and no lock is held on the process table. *)
Hypothesis Hrun : state q0 <> SLEEPING.
Hypothesis Hpid : pid q0 = n.

Lemma user_similar {F} (k k' : kstate F) g :
  UserMem.user p q0 l dom own k g -> similar k k' -> UserMem.user p q0 l dom own k' g.
Proof.
  intros U S. destruct (us_proc _ _ _ _ _ _ _ U) as (q & Eq & Hi & Hc & Hf).
  assert (mem (mach k') = mem (mach k)) as Em by (by rewrite (sim_mach _ _ S)).
  assert (procs k' !! p = Some q) as Hp.
  { destruct (Forall2_lookup_l _ _ _ _ _ (sim_procs _ _ S) (pi_proc Hi)) as (q' & Hq' & [->|[Hs _]]); [done|].
    destruct Hrun. rewrite <- Hs. by injection Eq. }
  destruct U as [_ U2 U3 U4 U5]. split; rewrite ?Em; try done. exists q. split; [done|]. split; [|split].
  - pose proof (pinv_regs k p q l (hw (mach k')) (tr (mach k)) Hi (sim_run _ _ S p (pi_run Hi))) as [H1 H2 H3 H4 H5 H6].
    assert (set_tr (tr (mach k)) (set_cr3 (V2P (pgdir q)) (set_hw (hw (mach k')) (mach k))) = mach k') as Es.
    { rewrite (sim_mach _ _ S), <- (pi_cr3 Hi). by destruct (mach k). }
    cbn in *. rewrite Es in *. split; try done; [by rewrite <- Es|by rewrite Em].
  - eapply clock_inv_mem; [exact Hc|]. intros d Hd. by rewrite Em.
  - intros v Hv. rewrite Em. by apply Hf.
Qed.

(** What holds while bytes are moved. *)
Definition owner g k : Prop := user k g /\ quiet p n k.

Lemma owner_invariant g : invariant p n (owner g).
Proof.
  split; [by intros k []|]. intros k k' [U Q] S. split; [by eapply user_similar|].
  by apply (inv_similar _ _ _ (proj1 (var_supplies p n [])) k).
Qed.

Lemma quiet_keep k k' g : user k' g -> ukeep k k' -> quiet p n k -> quiet p n k'.
Proof.
  intros U K Q. destruct (us_proc _ _ _ _ _ _ _ U) as (q & Eq & Hi & _). split; [apply Hi| |].
  - destruct (uk_frame _ _ _ _ K) as (-> & _). apply Q.
  - rewrite (pi_proc Hi). cbn. f_equal. rewrite <- Hpid. by injection Eq.
Qed.

Lemma owner_keep g k k' g' : owner g k -> user k' g' -> ukeep k k' -> owner g' k'.
Proof. intros [_ Q] U K. split; [done|]. by eapply quiet_keep. Qed.

Lemma keep_files k k' : ukeep k k' -> files k' = files k.
Proof. intros K. apply (uk_frame _ _ _ _ K). Qed.

(** ** Blocks of bytes *)

(** The [c] bytes at [a]. *)
Definition gbytes g (a : Z) (c : nat) : list Z := (fun i => g (a + Z.of_nat i)) <$> seq 0 c.

Lemma gbytes_S g a c : gbytes g a (S c) = g a :: gbytes g (a + 1) c.
Proof.
  unfold gbytes. cbn. rewrite Z.add_0_r. f_equal. rewrite <- fmap_S_seq, <- list_fmap_compose. apply list_fmap_ext.
  intros i x _. cbn. f_equal. lia.
Qed.

Lemma gbytes_part g a len t c : (t + c <= len)%nat -> take c (drop t (gbytes g a len)) = gbytes g (a + Z.of_nat t) c.
Proof.
  intros H. unfold gbytes. rewrite <- fmap_drop, <- fmap_take, drop_seq, take_seq, Nat.min_l by lia.
  replace (seq (0 + t) c) with (Nat.add t <$> seq 0 c) by (rewrite fmap_add_seq; f_equal; lia).
  rewrite <- list_fmap_compose. apply list_fmap_ext. intros i x _. cbn. f_equal. lia.
Qed.

Lemma uloads_spec k g a c :
  owner g k -> (forall i, 0 <= i < Z.of_nat c -> uaddr (a + i)) ->
  wp (uloads a c) k (fun d k' => d = gbytes g a c /\ owner g k' /\ ukeep k k').
Proof.
  revert k a. induction c as [|c IH]; intros k a O Ha; cbn [uloads]; [by apply wp_ret|].
  assert (uaddr a) as H0 by (rewrite <- (Z.add_0_r a); apply Ha; lia).
  wstep. eapply wp_mono; [by apply (uload8_spec p q0 l dom own k g), H0; destruct O|].
  intros b k1 (-> & U1 & K1). wstep. assert (owner g k1) as O1 by (by eapply owner_keep).
  destruct (decide (c = 0)%nat) as [->|Hc].
  { cbn [uloads]. wsteps. by rewrite gbytes_S. }
  rewrite u32_small by (apply (uaddr_u32 dom), Ha; lia).
  eapply wp_mono; [apply (IH k1 (a + 1) O1)|]; [intros i Hi; rewrite <- Z.add_assoc; apply Ha; lia|].
  intros d k2 (-> & O2 & K2). wstep. rewrite gbytes_S. split; [done|]. split; [done|by etrans].
Qed.

(** User memory is a source, whatever else holds that accesses to it keep. *)
Lemma user_source (I : kstate fstate -> Prop) g a len :
  (forall k, I k -> owner g k) -> (forall k k', I k -> owner g k' -> ukeep k k' -> I k') ->
  0 <= a -> (forall i, 0 <= i < Z.of_nat len -> uaddr (a + i)) -> a + Z.of_nat len < 4294967296 ->
  source I (fun t => ptr_add (UPtr a) (Z.of_nat t)) (gbytes g a len).
Proof.
  intros HO HK H0 Ha Hlen k t c Ik Htc. unfold gbytes in Htc. rewrite length_fmap, length_seq in Htc. cbn.
  rewrite (u32_small (a + Z.of_nat t)), !u32_small by (unfold is_u32; lia). wstep.
  eapply wp_mono; [apply (uloads_spec k g _ c (HO k Ik))|]; [intros i Hi; rewrite <- Z.add_assoc; apply Ha; lia|].
  intros d k' (-> & O' & K'). wstep. rewrite gbytes_part by done. split_and!; [|by eapply HK|by apply keep_files].
  do 2 f_equal. lia.
Qed.
End UserPtr.
