(* ===== verification/Syscall.v ===== *)
(** * System call arguments and the system calls on processes: syscall.c and sysproc.c

    The arguments of a system call are words of the user's stack, above the
    return address.  A function that fetches an argument is [None] where the C
    function returns -1; the other results are what it stores through its
    pointers and, for strings, their length.  Reading user memory may fault and
    decrypt the page ([uload8]). *)

From S2P Require Import Prelude Memory Mmu Machine Spinlock Kalloc Vm PageTable VmProofs VmSpaces.
From S2P Require Import Encrypt ProcTable Clock ClockProofs Proc ProcProofs FileState Sleeplock Bio Log Ulib Cprintf Fs File.

Section Syscall.
Context `{SE : SwitchEnv fstate, DD : DiskDriver, DV : Devices, KI : KernelImage, PO : !PageOps, PI : ProcImage}.

(** ** Arguments *)

(** The current process: [struct proc *curproc = myproc()], of which a field
    is read. *)
Definition curproc : FK nat := o ← myproc; nonnull o.

Definition fetchint (addr : Z) : FK (option Z) :=
  p ← curproc;
  size ← getp p sz;
  if (size <=? addr) || (size <? u32 (addr + 4)) then mret None else
  w ← uload32 addr;
  mret (Some (i32 w)).

(** The scan from [s] to the null byte, [n] bytes before the end of the
    process: the length of the string that began at [s - len]. *)
Fixpoint fetchstr_loop (s len : Z) (n : nat) : FK (option Z) :=
  match n with
  | O => mret None
  | S n =>
      c ← uload8 s;
      if c =? 0 then mret (Some len) else fetchstr_loop (s + 1) (len + 1) n
  end.

Definition fetchstr (addr : Z) : FK (option Z) :=
  p ← curproc;
  size ← getp p sz;
  if size <=? addr then mret None else
  fetchstr_loop addr 0 (Z.to_nat (size - addr)).

(** [myproc()->tf->esp] *)
Definition user_esp : FK Z := t ← mygetp tf; zoom machL (kload32 (t + TF_esp)).

Definition argint (n : Z) : FK (option Z) :=
  esp ← user_esp;
  fetchint (u32 (esp + 4 + 4 * n)).

Definition argptr (n size : Z) : FK (option Z) :=
  p ← curproc;
  o ← argint n;
  match o with
  | None => mret None
  | Some i =>
      s ← getp p sz;
      if (size <? 0) || (s <=? u32 i) || (s <? u32 (u32 i + size)) then mret None
      else mret (Some (u32 i))
  end.

(** The string's address and length. *)
Definition argstr (n : Z) : FK (option (Z * Z)) :=
  o ← argint n;
  match o with
  | None => mret None
  | Some addr =>
      l ← fetchstr (u32 addr);
      mret (pair (u32 addr) <$> l)
  end.

(** [if(arg < 0) return -1;] *)
Definition or_fail {A} (arg : FK (option A)) (f : A -> FK Z) : FK Z :=
  o ← arg;
  match o with None => mret (-1) | Some a => f a end.

(** ** sysproc.c *)

Definition sys_fork : FK Z := fork.

Definition sys_exit : FK Z := exit others;; mret 0.

Definition sys_wait : FK Z := wait others naps.

Definition sys_kill : FK Z := or_fail (argint 0) (fun pid => kill pid).

Definition sys_getpid : FK Z := mygetp pid.

Definition sys_sbrk : FK Z :=
  or_fail (argint 0) (fun n =>
  addr ← mygetp sz;
  r ← growproc n;
  mret (if r <? 0 then -1 else i32 addr)).

(** The loop of [sys_sleep], for at most [fuel] naps. *)
Fixpoint sys_sleep_loop (ticks0 n : Z) (fuel : nat) : FK Z :=
  t ← gets ticks;
  if negb (u32 (t - ticks0) <? u32 n) then release tickslockL;; mret 0 else
  stop ← mygetp killed;
  if (stop : bool) then release tickslockL;; mret (-1) else
  match fuel with
  | O => spin
  | S fuel => sleep_on others TicksChan tickslockL;; sys_sleep_loop ticks0 n fuel
  end.

Definition sys_sleep : FK Z :=
  or_fail (argint 0) (fun n =>
  acquire tickslockL;;
  ticks0 ← gets ticks;
  sys_sleep_loop ticks0 n naps).

Definition sys_uptime : FK Z :=
  acquire tickslockL;;
  xticks ← gets ticks;
  release tickslockL;;
  mret (i32 xticks).

Definition sys_mencrypt : FK Z :=
  or_fail (argint 1) (fun len =>
  if len <=? 0 then mret (-1) else
  or_fail (argptr 0 1) (fun virtual_addr =>
  if P2V PHYSTOP <=? virtual_addr then mret (-1) else
  mencrypt virtual_addr len)).

(** The size is computed in 32 bits, and passed as an [int]. *)
Definition sys_getpgtable : FK Z :=
  or_fail (argint 2) (fun wsetOnly =>
  or_fail (argint 1) (fun num =>
  or_fail (argptr 0 (i32 (num * 8))) (fun entries =>
  getpgtable entries num wsetOnly))).

Definition sys_dump_rawphymem : FK Z :=
  or_fail (argptr 1 PGSIZE) (fun buffer =>
  or_fail (argint 0) (fun physical_addr =>
  dump_rawphymem (u32 physical_addr) buffer)).
End Syscall.
