(* ===== verification/SyscallProofs.v ===== *)
(** * What the system calls are given

    For a process with the memory [g] the functions of syscall.c return the
    words, pointers and strings of [g], or refuse them: the pointers they
    return lie inside the process. *)

From S2P Require Import Prelude Memory Mmu Machine Spinlock Kalloc Vm PageTable VmProofs VmSpaces.
From S2P Require Import Encrypt ProcTable Clock ClockProofs Demo EncryptTheorems UserMem Proc ProcProofs.
From S2P Require Import FileState Sleeplock Bio BioProofs BioInit Log LogProofs LogCommit LogOps FileDemo.
From S2P Require Import Ulib Cprintf Fs Pipe PipeProofs File Console FsBlocks FsInode FsRead FsDinode FsWrite UserPtr Syscall.

Section Args.
Context `{KI : KernelImage, PO : !PageOps, PA : !PageAllocator}.
Context (p : nat) (n : Z) (q0 : proc) (l : list Z) (dom : Z -> bool) (own : Z -> Prop).
Implicit Types (k : kstate fstate) (g fr : Z -> Z).
Abbreviation user := (user p q0 l dom own).
Abbreviation owner := (owner p n q0 l dom own).
Abbreviation ukeep := (ukeep p own).
Abbreviation uaddr := (uaddr dom).
Abbreviation m k := (mem (mach k)).

(** The process runs, has usable pages up to its size, and its trap frame
    lies in the kernel, outside the address space and the free pages. *)
Record process : Prop := {
  pr_run : state q0 <> SLEEPING;
  pr_pid : pid q0 = n;
  pr_sz : 0 <= sz q0 <= KERNBASE;
  pr_dom va : 0 <= va < sz q0 -> uaddr va;
  pr_tf : KERNBASE <= tf q0 <= 4294967296 - TF_SIZE;
  pr_frame a v : V2P (tf q0) <= a < V2P (tf q0) + TF_SIZE -> own v \/ v ∈ l -> ~ in_page v a;
}.
Hypothesis P : process.

(** The process has the memory [g] and the words [fr] in its trap frame. *)
Definition caller g fr k : Prop :=
  owner g k /\ forall j, 0 <= j <= 72 -> load32 (m k) (V2P (tf q0) + j) = fr j.

Lemma frame_addr j : 0 <= j <= 72 -> V2P (tf q0 + j) = V2P (tf q0) + j.
Proof. intros Hj. destruct (pr_tf P) as [H1 H2]. unfold V2P, u32. consts. unfold TF_SIZE in *. dlia. Qed.

Lemma frame_keep k k' j : ukeep k k' -> 0 <= j <= 72 -> load32 (m k') (V2P (tf q0) + j) = load32 (m k) (V2P (tf q0) + j).
Proof.
  intros K Hj. apply load32_ext. intros b Hb. apply (uk_mem _ _ _ _ K). intros v Hv. apply (pr_frame P); [|by left].
  unfold TF_SIZE. lia.
Qed.

Lemma caller_keep g fr k k' g' : caller g fr k -> user k' g' -> ukeep k k' -> caller g' fr k'.
Proof.
  intros [O Hf] U K. split; [by eapply (owner_keep p n q0); [apply P|..]|]. intros j Hj. by rewrite (frame_keep k), Hf.
Qed.

Lemma caller_invariant g fr : invariant p n (caller g fr).
Proof.
  pose proof (owner_invariant p n q0 l dom own (pr_run P) g) as [I1 I2]. split; [by intros k [O _]; apply I1|].
  intros k k' [O Hf] S. split; [by eapply I2|]. by rewrite (sim_mach _ _ S).
Qed.

Lemma caller_source g fr a len :
  0 <= a -> (forall i, 0 <= i < Z.of_nat len -> uaddr (a + i)) -> a + Z.of_nat len < 4294967296 ->
  source (caller g fr) (fun t => ptr_add (UPtr a) (Z.of_nat t)) (gbytes g a len).
Proof.
  apply (user_source p n q0 l dom own (pr_pid P)); [by intros k []|].
  intros k k' C [U _] K. by eapply caller_keep.
Qed.

(** ** The current process *)

Lemma keep_hart k h : ukeep k (update hartL h k).
Proof. by split. Qed.

Lemma caller_hart g fr k h : caller g fr k -> h ≡ hw (mach k) -> caller g fr (update hartL h k).
Proof.
  intros C Hh. eapply caller_keep; [exact C| |apply keep_hart]. destruct C as [[U _] _].
  destruct (us_proc _ _ _ _ _ _ _ U) as (q & Eq & Hi & Hc & Hf). destruct U as [_ U2 U3 U4 U5]. split; try done.
  exists q. split_and!; [done|by apply pinv_hart|by eapply clock_inv_mem|done].
Qed.

Lemma caller_run g fr k : caller g fr k -> exists q, clockless q = clockless q0 /\ procs k !! p = Some q /\
  running_on (hw (mach k)) p.
Proof.
  intros [[U _] _]. destruct (us_proc _ _ _ _ _ _ _ U) as (q & Eq & Hi & _). exists q. split; [done|]. split; apply Hi.
Qed.

Lemma wp_curproc g fr k (Q : nat -> kstate fstate -> Prop) :
  caller g fr k -> (forall k', caller g fr k' -> ukeep k k' -> Q p k') -> wp curproc k Q.
Proof.
  intros C HQ. destruct (caller_run g fr k C) as (q & _ & _ & Hr). unfold curproc. wstep.
  apply (wp_myproc k p); [done|]. intros h Hh. apply HQ; [by apply caller_hart|apply keep_hart].
Qed.

(** Fields other than those of the clock. *)
Lemma caller_getp {A} g fr k (f : proc -> A) (Q : A -> kstate fstate -> Prop) :
  caller g fr k -> (forall q, f (clockless q) = f q) -> Q (f q0) k -> wp (getp p f) k Q.
Proof.
  intros C Hf HQ. destruct (caller_run g fr k C) as (q & Eq & Hq & _). eapply wp_getp; [exact Hq|].
  by rewrite <- Hf, Eq, Hf.
Qed.

Lemma caller_mygetp {A} g fr k (f : proc -> A) (Q : A -> kstate fstate -> Prop) :
  caller g fr k -> (forall q, f (clockless q) = f q) -> (forall k', caller g fr k' -> ukeep k k' -> Q (f q0) k') ->
  wp (mygetp f) k Q.
Proof.
  intros C Hf HQ. destruct (caller_run g fr k C) as (q & Eq & Hq & Hr). apply (wp_mygetp k p q); [done|done|].
  intros h Hh. rewrite <- Hf, Eq, Hf. apply HQ; [by apply caller_hart|apply keep_hart].
Qed.

Lemma caller_frame g fr k j (Q : Z -> kstate fstate -> Prop) :
  caller g fr k -> 0 <= j <= 72 -> Q (fr j) k -> wp (zoom machL (kload32 (tf q0 + j))) k Q.
Proof.
  intros C Hj HQ. apply wp_zoom. unfold kload32. wstep. rewrite frame_addr by done. rewrite (proj2 C) by done.
  by destruct k.
Qed.

(** ** Integers, pointers and strings *)

(** The word at [addr], if it lies inside the process. *)
Definition word_in g addr : option Z := if bool_decide (addr + 4 <= sz q0) then Some (i32 (gword g addr)) else None.

Lemma fetchint_spec g fr k addr :
  caller g fr k -> is_u32 addr ->
  wp (fetchint addr) k (fun o k' => o = word_in g addr /\ caller g fr k' /\ ukeep k k').
Proof.
  intros C Ha. destruct (pr_sz P) as [S0 S1]. unfold fetchint. wstep. apply (wp_curproc g fr k _ C). intros k1 C1 K1. wstep.
  apply (caller_getp g fr k1 sz _ C1); [done|].
  assert ((sz q0 <=? addr) || (sz q0 <? u32 (addr + 4)) = negb (bool_decide (addr + 4 <= sz q0))) as ->.
  { unfold u32, is_u32 in *. consts. case_bool_decide; cbn; [apply orb_false_iff|apply orb_true_iff]; dlia. }
  unfold word_in. case_bool_decide as E; cbn [negb]; [|by wstep].
  wstep. destruct C1 as [[U1 Q1] F1].
  eapply wp_mono; [apply (uload32_spec p q0 l dom own k1 g); [done|intros i Hi; apply (pr_dom P)]; unfold is_u32 in *; lia|].
  intros w k2 (-> & U2 & K2). wstep. split_and!; [done| |by etrans]. eapply caller_keep; [|done|exact K2]. done.
Qed.

(** The [i]th argument: a word above the return address. *)
Definition arg g fr (i : Z) : option Z := word_in g (u32 (fr TF_esp + 4 + 4 * i)).

Lemma argint_spec g fr k i :
  caller g fr k -> wp (argint i) k (fun o k' => o = arg g fr i /\ caller g fr k' /\ ukeep k k').
Proof.
  intros C. unfold argint, user_esp. wstep. wstep. apply (caller_mygetp g fr k tf _ C); [done|]. intros k1 C1 K1.
  apply (caller_frame g fr k1); [done|unfold TF_esp; lia|].
  eapply wp_mono; [apply (fetchint_spec g fr k1 _ C1), u32_is|]. intros o k2 (-> & C2 & K2). split_and!; [done|done|by etrans].
Qed.

(** A pointer to [size] bytes inside the process. *)
Definition pointer_in g fr (i size : Z) : option Z :=
  a ← arg g fr i;
  if bool_decide (0 <= size /\ u32 a < sz q0 /\ u32 a + size <= sz q0) then Some (u32 a) else None.

Lemma argptr_spec g fr k i size :
  caller g fr k -> is_i32 size ->
  wp (argptr i size) k (fun o k' => o = pointer_in g fr i size /\ caller g fr k' /\ ukeep k k').
Proof.
  intros C Hs. destruct (pr_sz P) as [S0 S1]. unfold argptr, pointer_in. wstep. apply (wp_curproc g fr k _ C). intros k1 C1 K1. wstep.
  eapply wp_mono; [apply (argint_spec g fr k1 i C1)|]. intros o k2 (-> & C2 & K2).
  assert (ukeep k k2) as K12 by (by etrans).
  destruct (arg g fr i) as [a|]; [|by wstep]. wstep. apply (caller_getp g fr k2 sz _ C2); [done|]. cbn.
  assert ((size <? 0) || (sz q0 <=? u32 a) || (sz q0 <? u32 (u32 a + size)) =
    negb (bool_decide (0 <= size /\ u32 a < sz q0 /\ u32 a + size <= sz q0))) as ->.
  { pose proof (u32_is a) as Ha. unfold is_u32, is_i32 in *. set (b := u32 a) in *. consts. unfold u32.
    case_bool_decide as E; cbn [negb].
    - rewrite !orb_false_iff. dlia.
    - rewrite !orb_true_iff. dlia. }
  case_bool_decide; cbn [negb]; by wstep.
Qed.

(** The string at [a]: [len] bytes that are not null, then a null byte inside
    the process. *)
Definition string_in g (a len : Z) : Prop :=
  0 <= len /\ a + len < sz q0 /\ g (a + len) = 0 /\ forall j, 0 <= j < len -> g (a + j) <> 0.

Lemma fetchstr_loop_spec g fr a c : forall k len,
  caller g fr k -> 0 <= a -> 0 <= len -> a + len + Z.of_nat c = sz q0 -> (forall j, 0 <= j < len -> g (a + j) <> 0) ->
  wp (fetchstr_loop (a + len) len c) k (fun o k' => caller g fr k' /\ ukeep k k' /\
    match o with Some r => string_in g a r | None => forall j, a <= j < sz q0 -> g j <> 0 end).
Proof.
  induction c as [|c IH]; intros k len C Ha Hl Hc Hnz; cbn [fetchstr_loop].
  - wstep. split_and!; [done|done|]. intros j Hj. replace j with (a + (j - a)) by lia. apply Hnz. lia.
  - wstep. destruct (C) as [[U _] _]. eapply wp_mono; [apply (uload8_spec p q0 l dom own k g), (pr_dom P); [done|lia]|].
    intros b k1 (-> & U1 & K1). assert (caller g fr k1) as C1 by (by eapply caller_keep).
    destruct (Z.eqb_spec (g (a + len)) 0) as [E|E].
    + wstep. split_and!; [done|done|]. unfold string_in. split_and!; [done|lia|done|done].
    + replace (a + len + 1) with (a + (len + 1)) by lia. eapply wp_mono; [apply (IH k1 (len + 1) C1 Ha)|].
      * lia.
      * lia.
      * intros j Hj. destruct (decide (j = len)) as [->|]; [done|]. apply Hnz. lia.
      * intros o k2 (C2 & K2 & Ho). split_and!; [done|by etrans|done].
Qed.

Lemma fetchstr_spec g fr k a :
  caller g fr k -> is_u32 a ->
  wp (fetchstr a) k (fun o k' => caller g fr k' /\ ukeep k k' /\
    match o with Some r => string_in g a r | None => forall j, a <= j < sz q0 -> g j <> 0 end).
Proof.
  intros C Ha. unfold fetchstr. wstep. apply (wp_curproc g fr k _ C). intros k1 C1 K1. wstep.
  apply (caller_getp g fr k1 sz _ C1); [done|]. destruct (Z.leb_spec (sz q0) a).
  - wstep. split_and!; [done|done|]. intros j Hj. lia.
  - rewrite <- (Z.add_0_r a) at 1. unfold is_u32 in Ha.
    eapply wp_mono; [apply (fetchstr_loop_spec g fr a _ k1 0 C1); [lia|lia|lia|intros; lia]|].
    intros o k2 (C2 & K2 & Ho). split_and!; [done|by etrans|done].
Qed.
End Args.
