(* ===== verification/Exec.v ===== *)
(** * Programs: exec.c, and loaduvm and copyout of vm.c

    [exec] reads an ELF file into a new address space, pushes the arguments on
    its stack, and replaces the address space of the process.  A string of the
    caller is a pointer with a bound on its length, as paths are in Fs.v; the
    headers of the file are the bytes read, their fields at the offsets of the
    C structures. *)

From S2P Require Import Prelude Memory Mmu Machine Spinlock Kalloc Vm PageTable VmProofs VmSpaces.
From S2P Require Import Encrypt ProcTable Clock ClockProofs Proc ProcProofs FileState Sleeplock Bio Log Ulib Cprintf Fs File.
From S2P Require Import Syscall.

(** ** ELF headers (elf.h) *)

Definition ELF_MAGIC : Z := 0x464C457F.
Definition ELF_PROG_LOAD : Z := 1.

(** [struct elfhdr] *)
Definition elf_magic (d : list Z) : Z := get32 d 0.
Definition elf_entry (d : list Z) : Z := get32 d 24.
Definition elf_phoff (d : list Z) : Z := get32 d 28.
Definition elf_phnum (d : list Z) : Z := get16 d 44.

(** [struct proghdr] *)
Definition ph_type (d : list Z) : Z := get32 d 0.
Definition ph_off (d : list Z) : Z := get32 d 4.
Definition ph_vaddr (d : list Z) : Z := get32 d 8.
Definition ph_filesz (d : list Z) : Z := get32 d 16.
Definition ph_memsz (d : list Z) : Z := get32 d 20.

Section Exec.
Context `{SE : SwitchEnv fstate, DD : DiskDriver, DV : Devices, KI : KernelImage, PO : !PageOps}.

(** ** Moving data into an address space *)

Fixpoint loaduvm_loop (pgdir addr : Z) (ip : nat) (offset sz i : Z) (n : nat) : FK Z :=
  match n with
  | O => if i <? sz then spin else mret 0
  | S n =>
      if negb (i <? sz) then mret 0 else
      o ← zoom machL (walkpgdir pgdir (u32 (addr + i)) false);
      match o with
      | None => panic "loaduvm: address should exist"
      | Some pte =>
          w ← zoom machL (kload32 pte);
          let c := if u32 (sz - i) <? PGSIZE then u32 (sz - i) else PGSIZE in
          r ← readi ip (KPtr (P2V (PTE_ADDR w))) (u32 (offset + i)) c;
          if negb (r.1 =? c) then mret (-1)
          else loaduvm_loop pgdir addr ip offset sz (u32 (i + PGSIZE)) n
      end
  end.

Definition loaduvm (pgdir addr : Z) (ip : nat) (offset sz : Z) : FK Z :=
  if negb (addr mod PGSIZE =? 0) then panic "loaduvm: addr must be page aligned" else
  loaduvm_loop pgdir addr ip offset sz 0 (Z.to_nat ((sz + (PGSIZE - 1)) / PGSIZE)).

(** [copyout] from the caller's memory. *)
Fixpoint copyout_from_loop (pgdir va : Z) (buf : ptr) (len : Z) (n : nat) : FK Z :=
  match n with
  | O => if 0 <? len then spin else mret 0
  | S n =>
      if negb (0 <? len) then mret 0 else
      let va0 := PGROUNDDOWN va in
      o ← zoom machL (uva2ka pgdir va0);
      match o with
      | None => mret (-1)
      | Some pa0 =>
          let c := u32 (PGSIZE - (va - va0)) in
          let c := if len <? c then len else c in
          d ← ptr_get buf (Z.to_nat c);
          kstores (pa0 + (va - va0)) d.1;;
          copyout_from_loop pgdir (u32 (va0 + PGSIZE)) d.2 (u32 (len - c)) n
      end
  end.

Definition copyout_from (pgdir va : Z) (p : ptr) (len : Z) : FK Z :=
  copyout_from_loop pgdir va p len (Z.to_nat (len / PGSIZE + 2)).

(** [strlen(s)], [s] being at most [n] bytes long. *)
Fixpoint strlen_at (s : ptr) (n : nat) : FK Z :=
  c ← ptr_ld s;
  if c =? 0 then mret 0 else
  match n with
  | O => spin
  | S n => l ← strlen_at (ptr_next s) n; mret (l + 1)
  end.

(** What [safestrcpy] reads of the string at [s]: up to [n] bytes. *)
Fixpoint read_string (s : ptr) (n : nat) : FK (list Z) :=
  match n with
  | O => mret []
  | S n =>
      c ← ptr_ld s;
      if c =? 0 then mret [0] else l ← read_string (ptr_next s) n; mret (c :: l)
  end.

(** ** exec *)

(** The loop that loads the program: the size of the address space, or
    nothing where the code goes to [bad]. *)
Fixpoint load_loop (ip : nat) (pgdir off sz : Z) (n : nat) : FK (option Z) :=
  match n with
  | O => mret (Some sz)
  | S n =>
      r ← readi ip (Var []) (u32 off) 32;
      if negb (r.1 =? 32) then mret None else
      match r.2 with
      | Var ph =>
          if negb (ph_type ph =? ELF_PROG_LOAD) then load_loop ip pgdir (i32 (off + 32)) sz n else
          if ph_memsz ph <? ph_filesz ph then mret None else
          if u32 (ph_vaddr ph + ph_memsz ph) <? ph_vaddr ph then mret None else
          sz ← zoom machL (allocuvm pgdir sz (u32 (ph_vaddr ph + ph_memsz ph)));
          if sz =? 0 then mret None else
          if negb (ph_vaddr ph mod PGSIZE =? 0) then mret None else
          r ← loaduvm pgdir (ph_vaddr ph) ip (ph_off ph) (ph_filesz ph);
          if r <? 0 then mret None else
          load_loop ip pgdir (i32 (off + 32)) sz n
      | _ => fault
      end
  end.

(** The loop over [argv], from argument [argc]: the stack pointer and the
    addresses of the arguments. *)
Fixpoint push_args (pgdir sp argc : Z) (argv : list (ptr * nat)) : FK (option (Z * list Z)) :=
  match argv with
  | [] => mret (Some (sp, []))
  | (s, n) :: argv =>
      if MAXARG <=? argc then mret None else
      l ← strlen_at s n;
      let sp := Z.ldiff (u32 (sp - (l + 1))) 3 in
      l ← strlen_at s n;
      r ← copyout_from pgdir sp s (l + 1);
      if r <? 0 then mret None else
      o ← push_args pgdir sp (argc + 1) argv;
      mret (match o with Some (sp', args) => Some (sp', sp :: args) | None => None end)
  end.

(** The words of [ustack]. *)
Definition ustack (sp : Z) (args : list Z) : list Z :=
  let argc := Z.of_nat (length args) in
  0xffffffff :: argc :: u32 (sp - (argc + 1) * 4) :: args ++ [0].

(** Two pages at the next page boundary, the arguments, and [ustack]: the
    size of the address space and the stack pointer. *)
Definition make_stack (pgdir sz : Z) (argv : list (ptr * nat)) : FK (option (Z * Z)) :=
  let sz := PGROUNDUP sz in
  sz ← zoom machL (allocuvm pgdir sz (u32 (sz + 2 * PGSIZE)));
  if sz =? 0 then mret None else
  zoom machL (clearpteu pgdir (sz - 2 * PGSIZE));;
  o ← push_args pgdir sz 0 argv;
  match o with
  | None => mret None
  | Some (sp, args) =>
      let len := (3 + Z.of_nat (length args) + 1) * 4 in
      let words := ustack sp args in
      let sp := u32 (sp - len) in
      r ← copyout_from pgdir sp (Var (concat (bytes32 <$> words))) len;
      mret (if r <? 0 then None else Some (sz, sp))
  end.

(** The loop that finds the last element of the path. *)
Fixpoint last_element (last s : ptr) (n : nat) : FK ptr :=
  c ← ptr_ld s;
  if c =? 0 then mret last else
  match n with
  | O => spin
  | S n => last_element (if c =? 47 then ptr_next s else last) (ptr_next s) n
  end.

(** Commit to the user image. *)
Definition exec_commit (cur : nat) (path : ptr) (plen : nat) (pd size entry sp : Z) : FK Z :=
  last ← last_element path path plen;
  nm ← read_string last 15;
  setp cur (fun q => set_name (copy_name nm 15 (name q)) q);;
  oldpgdir ← getp cur pgdir;
  setp cur (set_pgdir pd);;
  setp cur (set_sz size);;
  t ← getp cur tf; zoom machL (kstore32 (t + TF_eip) entry);;
  t ← getp cur tf; zoom machL (kstore32 (t + TF_esp) sp);;
  switchuvm_proc (Some cur);;
  _ ← (if size mod PGSIZE =? 0 then mencrypt 0 (size / PGSIZE)
       else mencrypt 0 (size / PGSIZE + 1));
  setp cur (set_inClock 0);;
  setp cur (set_currInd 0);;
  zoom machL (freevm oldpgdir);;
  mret 0.

(** The label [bad]. *)
Definition exec_bad (pgdir : option Z) (ip : option nat) : FK Z :=
  match pgdir with Some pd => zoom machL (freevm pd) | None => mret tt end;;
  match ip with Some _ => iunlockput ip;; end_op | None => mret tt end;;
  mret (-1).

Definition exec (path : ptr) (plen : nat) (argv : list (ptr * nat)) : FK Z :=
  cur ← curproc;
  begin_op;;
  o ← namei path plen;
  match o with
  | None => end_op;; cprintf (chars "exec: fail" ++ [10]) [];; mret (-1)
  | Some ip =>
      ilock (Some ip);;
      r ← readi ip (Var []) 0 52;
      if negb (r.1 =? 52) then exec_bad None (Some ip) else
      match r.2 with
      | Var elf =>
          if negb (elf_magic elf =? ELF_MAGIC) then exec_bad None (Some ip) else
          d ← zoom machL setupkvm;
          match d with
          | None => exec_bad None (Some ip)
          | Some pd =>
              o ← load_loop ip pd (i32 (elf_phoff elf)) 0 (Z.to_nat (elf_phnum elf));
              match o with
              | None => exec_bad (Some pd) (Some ip)
              | Some sz =>
                  iunlockput (Some ip);;
                  end_op;;
                  o ← make_stack pd sz argv;
                  match o with
                  | None => exec_bad (Some pd) None
                  | Some (sz, sp) => exec_commit cur path plen pd sz (elf_entry elf) sp
                  end
              end
          end
      | _ => fault
      end
  end.
End Exec.
