(* ===== verification/Sysfile.v ===== *)
(** * System calls on files, and the dispatch of system calls: sysfile.c, and
    syscall of syscall.c

    A descriptor is an index into [ofile] of the process.  The paths are user
    strings: an address, and a bound that [argstr] has found. *)

From S2P Require Import Prelude Memory Mmu Machine Spinlock Kalloc Vm PageTable VmProofs VmSpaces.
From S2P Require Import Encrypt ProcTable Clock ClockProofs Proc ProcProofs FileState Sleeplock Bio Log Ulib Cprintf Fs File.
From S2P Require Import Syscall Exec.

Section Sysfile.
Context `{SE : SwitchEnv fstate, DD : DiskDriver, DV : Devices, KI : KernelImage, PO : !PageOps, PI : ProcImage}.

(** ** Descriptors *)

(** [p->ofile[fd] = f] *)
Definition set_fd (p : nat) (fd : Z) (f : option nat) : FK unit :=
  setp p (fun q => set_ofile (<[Z.to_nat fd := f]> (ofile q)) q).

Definition argfd (n : Z) : FK (option (Z * nat)) :=
  o ← argint n;
  match o with
  | None => mret None
  | Some fd =>
      if (fd <? 0) || (NOFILE <=? fd) then mret None else
      fs ← mygetp ofile;
      f ← nonnull (fs !! Z.to_nat fd);
      mret (pair fd <$> f)
  end.

Fixpoint fdalloc_loop (p f : nat) (fd : Z) (n : nat) : FK Z :=
  match n with
  | O => mret (-1)
  | S n =>
      fs ← getp p ofile;
      o ← nonnull (fs !! Z.to_nat fd);
      match o with
      | None => set_fd p fd (Some f);; mret fd
      | Some _ => fdalloc_loop p f (fd + 1) n
      end
  end.

Definition fdalloc (f : nat) : FK Z :=
  p ← curproc;
  fdalloc_loop p f 0 (Z.to_nat NOFILE).

Definition sys_dup : FK Z :=
  or_fail (argfd 0) (fun '(_, f) =>
  fd ← fdalloc f;
  if fd <? 0 then mret (-1) else
  _ ← filedup f;
  mret fd).

Definition sys_read : FK Z :=
  or_fail (argfd 0) (fun '(_, f) =>
  or_fail (argint 2) (fun n =>
  or_fail (argptr 1 n) (fun p =>
  fileread f (UPtr p) n))).

Definition sys_write : FK Z :=
  or_fail (argfd 0) (fun '(_, f) =>
  or_fail (argint 2) (fun n =>
  or_fail (argptr 1 n) (fun p =>
  filewrite f (UPtr p) n))).

Definition sys_close : FK Z :=
  or_fail (argfd 0) (fun '(fd, f) =>
  p ← curproc;
  set_fd p fd None;;
  fileclose f;;
  mret 0).

(** [sizeof(struct stat)] is 20. *)
Definition sys_fstat : FK Z :=
  or_fail (argfd 0) (fun '(_, f) =>
  or_fail (argptr 1 20) (fun st =>
  filestat f st)).

(** ** Links *)

(** The path at address [a], [len] bytes long. *)
Definition upath (a : Z) : ptr := UPtr a.
Definition path_bound (len : Z) : nat := S (Z.to_nat len).

(** The label [bad] of [sys_link]. *)
Definition link_bad (ip : nat) : FK Z :=
  ilock (Some ip);;
  seti ip (fun x => set_i_nlink (i16 (i_nlink x - 1)) x);;
  iupdate ip;;
  iunlockput (Some ip);;
  end_op;;
  mret (-1).

Definition sys_link : FK Z :=
  or_fail (argstr 0) (fun '(old, oldlen) =>
  or_fail (argstr 1) (fun '(new, newlen) =>
  begin_op;;
  o ← namei (upath old) (path_bound oldlen);
  match o with
  | None => end_op;; mret (-1)
  | Some ip =>
      ilock (Some ip);;
      t ← geti ip i_type;
      if t =? T_DIR then iunlockput (Some ip);; end_op;; mret (-1) else
      seti ip (fun x => set_i_nlink (i16 (i_nlink x + 1)) x);;
      iupdate ip;;
      iunlock (Some ip);;
      o ← nameiparent (upath new) (path_bound newlen);
      match o with
      | None => link_bad ip
      | Some (dp, name) =>
          ilock (Some dp);;
          dev ← geti dp i_dev;
          dev' ← geti ip i_dev;
          bad ← (if negb (dev =? dev') then mret true else
                 inum ← geti ip i_inum;
                 r ← dirlink dp name inum;
                 mret (r <? 0));
          if (bad : bool) then iunlockput (Some dp);; link_bad ip else
          iunlockput (Some dp);;
          iput (Some ip);;
          end_op;;
          mret 0
      end
  end)).

(** The entries from [off] on. *)
Fixpoint isdirempty_loop (dp : nat) (off : Z) (n : nat) : FK bool :=
  size ← geti dp i_size;
  if negb (off <? size) then mret true else
  match n with
  | O => spin
  | S n =>
      de ← read_dirent dp off "isdirempty: readi";
      if negb (de_inum de =? 0) then mret false else isdirempty_loop dp (off + 16) n
  end.

Definition isdirempty (dp : nat) : FK bool :=
  size ← geti dp i_size;
  isdirempty_loop dp (2 * 16) (Z.to_nat (size / 16 + 1)).

(** The label [bad] of [sys_unlink]. *)
Definition unlink_bad (dp : nat) : FK Z :=
  iunlockput (Some dp);;
  end_op;;
  mret (-1).

Definition sys_unlink : FK Z :=
  or_fail (argstr 0) (fun '(path, len) =>
  begin_op;;
  o ← nameiparent (upath path) (path_bound len);
  match o with
  | None => end_op;; mret (-1)
  | Some (dp, name) =>
      ilock (Some dp);;
      if (namecmp name (chars ".") =? 0) || (namecmp name (chars "..") =? 0) then unlink_bad dp else
      o ← dirlookup dp name;
      match o with
      | None => unlink_bad dp
      | Some (ip, off) =>
          ilock (Some ip);;
          nl ← geti ip i_nlink;
          if nl <? 1 then panic "unlink: nlink < 1" else
          t ← geti ip i_type;
          full ← (if t =? T_DIR then e ← isdirempty ip; mret (negb e) else mret false);
          if (full : bool) then iunlockput (Some ip);; unlink_bad dp else
          r ← writei dp (Var (replicate 16 0)) off 16;
          if negb (r =? 16) then panic "unlink: writei" else
          t ← geti ip i_type;
          when (t =? T_DIR)
            (seti dp (fun x => set_i_nlink (i16 (i_nlink x - 1)) x);;
             iupdate dp);;
          iunlockput (Some dp);;
          seti ip (fun x => set_i_nlink (i16 (i_nlink x - 1)) x);;
          iupdate ip;;
          iunlockput (Some ip);;
          end_op;;
          mret 0
      end
  end).

(** ** Making and opening files *)

(** The new inode, locked.  [ialloc] panics rather than return null. *)
Definition create (path : ptr) (plen : nat) (type major minor : Z) : FK (option nat) :=
  o ← nameiparent path plen;
  match o with
  | None => mret None
  | Some (dp, name) =>
      ilock (Some dp);;
      o ← dirlookup dp name;
      match o with
      | Some (ip, _) =>
          iunlockput (Some dp);;
          ilock (Some ip);;
          t ← geti ip i_type;
          if (type =? T_FILE) && (t =? T_FILE) then mret (Some ip) else
          iunlockput (Some ip);;
          mret None
      | None =>
          dev ← geti dp i_dev;
          ip ← ialloc dev type;
          ilock (Some ip);;
          seti ip (set_i_major major);;
          seti ip (set_i_minor minor);;
          seti ip (set_i_nlink 1);;
          iupdate ip;;
          when (type =? T_DIR)
            (seti dp (fun x => set_i_nlink (i16 (i_nlink x + 1)) x);;
             iupdate dp;;
             inum ← geti ip i_inum;
             r ← dirlink ip (chars ".") inum;
             bad ← (if r <? 0 then mret true else
                    inum ← geti dp i_inum;
                    r ← dirlink ip (chars "..") inum;
                    mret (r <? 0));
             if (bad : bool) then panic "create dots" else mret tt);;
          inum ← geti ip i_inum;
          r ← dirlink dp name inum;
          if r <? 0 then panic "create: dirlink" else
          iunlockput (Some dp);;
          mret (Some ip)
      end
  end.

(** The descriptor for the inode [ip], which is locked. *)
Definition open_inode (ip : nat) (omode : Z) : FK Z :=
  o ← filealloc;
  fd ← (match o with None => mret (-1) | Some f => fdalloc f end);
  match o with
  | Some f =>
      if fd <? 0 then fileclose f;; iunlockput (Some ip);; end_op;; mret (-1) else
      iunlock (Some ip);;
      end_op;;
      setf f (set_f_type FD_INODE);;
      setf f (set_f_ip (Some ip));;
      setf f (set_f_off 0);;
      setf f (set_f_readable (negb (flag omode O_WRONLY)));;
      setf f (set_f_writable (flag omode O_WRONLY || flag omode O_RDWR));;
      mret fd
  | None => iunlockput (Some ip);; end_op;; mret (-1)
  end.

Definition sys_open : FK Z :=
  or_fail (argstr 0) (fun '(path, len) =>
  or_fail (argint 1) (fun omode =>
  begin_op;;
  if flag omode O_CREATE then
    o ← create (upath path) (path_bound len) T_FILE 0 0;
    match o with
    | None => end_op;; mret (-1)
    | Some ip => open_inode ip omode
    end
  else
    o ← namei (upath path) (path_bound len);
    match o with
    | None => end_op;; mret (-1)
    | Some ip =>
        ilock (Some ip);;
        t ← geti ip i_type;
        if (t =? T_DIR) && negb (omode =? O_RDONLY) then iunlockput (Some ip);; end_op;; mret (-1)
        else open_inode ip omode
    end)).

(** The last lines of [sys_mkdir] and [sys_mknod]. *)
Definition made (o : option nat) : FK Z :=
  match o with
  | None => end_op;; mret (-1)
  | Some ip => iunlockput (Some ip);; end_op;; mret 0
  end.

Definition sys_mkdir : FK Z :=
  begin_op;;
  o ← argstr 0;
  match o with
  | None => made None
  | Some (path, len) => ip ← create (upath path) (path_bound len) T_DIR 0 0; made ip
  end.

Definition sys_mknod : FK Z :=
  begin_op;;
  o ← argstr 0;
  match o with
  | None => made None
  | Some (path, len) =>
      major ← argint 1;
      match major with
      | None => made None
      | Some major =>
          minor ← argint 2;
          match minor with
          | None => made None
          | Some minor => ip ← create (upath path) (path_bound len) T_DEV (i16 major) (i16 minor); made ip
          end
      end
  end.

Definition sys_chdir : FK Z :=
  cur ← curproc;
  begin_op;;
  o ← argstr 0;
  ip ← (match o with None => mret None | Some (path, len) => namei (upath path) (path_bound len) end);
  match ip with
  | None => end_op;; mret (-1)
  | Some ip =>
      ilock (Some ip);;
      t ← geti ip i_type;
      if negb (t =? T_DIR) then iunlockput (Some ip);; end_op;; mret (-1) else
      iunlock (Some ip);;
      d ← getp cur cwd;
      iput d;;
      end_op;;
      setp cur (set_cwd (Some ip));;
      mret 0
  end.

(** The loop of [sys_exec] over the vector at [uargv], with room for [n] more
    arguments. *)
Fixpoint sys_exec_loop (uargv i : Z) (n : nat) : FK (option (list (ptr * nat))) :=
  match n with
  | O => mret None
  | S n =>
      o ← fetchint (u32 (uargv + 4 * i));
      match o with
      | None => mret None
      | Some uarg =>
          if uarg =? 0 then mret (Some []) else
          l ← fetchstr (u32 uarg);
          match l with
          | None => mret None
          | Some len =>
              argv ← sys_exec_loop uargv (i + 1) n;
              mret (cons (UPtr (u32 uarg), path_bound len) <$> argv)
          end
      end
  end.

Definition sys_exec : FK Z :=
  or_fail (argstr 0) (fun '(path, len) =>
  or_fail (argint 1) (fun uargv =>
  or_fail (sys_exec_loop (u32 uargv) 0 (Z.to_nat MAXARG)) (fun argv =>
  exec (upath path) (path_bound len) argv))).

(** ** Pipes *)

Definition sys_pipe : FK Z :=
  or_fail (argptr 0 8) (fun fd =>
  or_fail pipealloc (fun '(rf, wf) =>
  fd0 ← fdalloc rf;
  fd1 ← (if fd0 <? 0 then mret (-1) else fdalloc wf);
  if (fd0 <? 0) || (fd1 <? 0) then
    when (0 <=? fd0) (p ← curproc; set_fd p fd0 None);;
    fileclose rf;;
    fileclose wf;;
    mret (-1)
  else
    ustore32 fd (u32 fd0);;
    ustore32 (u32 (fd + 4)) (u32 fd1);;
    mret 0)).

(** ** syscall *)

(** syscall.h *)
Definition SYS_read : Z := 5.
Definition SYS_write : Z := 16.

(** [syscalls[]], indexed by the numbers of syscall.h *)
Definition syscalls : list (option (FK Z)) :=
  [None; Some sys_fork; Some sys_exit; Some sys_wait; Some sys_pipe; Some sys_read; Some sys_kill;
   Some sys_exec; Some sys_fstat; Some sys_chdir; Some sys_dup; Some sys_getpid; Some sys_sbrk;
   Some sys_sleep; Some sys_uptime; Some sys_open; Some sys_write; Some sys_mknod; Some sys_unlink;
   Some sys_link; Some sys_mkdir; Some sys_close; Some sys_mencrypt; Some sys_getpgtable;
   Some sys_dump_rawphymem].

(** [curproc->tf->eax = v] *)
Definition set_eax (p : nat) (v : Z) : FK unit :=
  t ← getp p tf; zoom machL (kstore32 (t + TF_eax) (u32 v)).

Definition syscall : FK unit :=
  p ← curproc;
  t ← getp p tf;
  w ← zoom machL (kload32 (t + TF_eax));
  let num := i32 w in
  match (if 0 <? num then syscalls !! Z.to_nat num else None) with
  | Some (Some f) => r ← f; set_eax p r
  | _ =>
      id ← getp p pid;
      nm ← getp p name;
      cprintf (chars "%d %s: unknown sys call %d" ++ [10]) [KInt id; KStr (Some nm); KInt num];;
      set_eax p (-1)
  end.
End Sysfile.
