(* ===== verification/Trap.v ===== *)
(** * Traps: trap.c

    [trap] is called with the address of the trap frame on the kernel stack;
    the register [cr2] is an argument.  What the devices have for their
    interrupt handlers, and the disk's handler, are the class [Interrupts].
    Acknowledging an interrupt ([lapiceoi]) is an output to the interrupt
    controller that the kernel does not read back. *)

From S2P Require Import Prelude Memory Mmu Machine Spinlock Kalloc Vm PageTable VmProofs VmSpaces.
From S2P Require Import Encrypt ProcTable Clock ClockProofs Proc ProcProofs FileState Sleeplock Bio Log Ulib Cprintf Fs File.
From S2P Require Import Kbd Console Syscall Exec Sysfile.

(** ** Trap numbers (traps.h) *)

Definition T_PGFLT : Z := 14.
Definition T_SYSCALL : Z := 64.
Definition T_IRQ0 : Z := 32.
Definition IRQ_TIMER : Z := 0.
Definition IRQ_KBD : Z := 1.
Definition IRQ_COM1 : Z := 4.
Definition IRQ_IDE : Z := 14.
Definition IRQ_SPURIOUS : Z := 31.

(** ** The interrupt descriptor table *)

(** [struct gatedesc] of mmu.h *)
Record gatedesc : Type := GateDesc {
  gd_off_15_0 : Z;
  gd_cs : Z;
  gd_args : Z;
  gd_rsv1 : Z;
  gd_type : Z;
  gd_s : Z;
  gd_dpl : Z;
  gd_p : Z;
  gd_off_31_16 : Z;
}.

Definition STS_IG32 : Z := 0xE.
Definition STS_TG32 : Z := 0xF.

Definition SETGATE (istrap : bool) (sel off d : Z) : gatedesc :=
  GateDesc (Z.land off 0xffff) sel 0 0 (if istrap then STS_TG32 else STS_IG32) 0 d 1 (Z.shiftr off 16).

(** The table that [tvinit] makes; [vectors] are the entry points. *)
Definition idt (vectors : nat -> Z) : list gatedesc :=
  <[Z.to_nat T_SYSCALL := SETGATE true (Z.shiftl SEG_KCODE 3) (vectors (Z.to_nat T_SYSCALL)) DPL_USER]>
    ((fun i => SETGATE false (Z.shiftl SEG_KCODE 3) (vectors i) 0) <$> seq 0 256).

(** ** trap *)

Class Interrupts : Type := {
  ideintr : FK unit;
  kbd_bytes : list Z;
  com1_bytes : list Z;
}.

Definition kload16 (v : Z) : M machine Z := b0 ← kload8 v; b1 ← kload8 (v + 1); mret (b0 + 256 * b1).

Section Trap.
Context `{SE : SwitchEnv fstate, DD : DiskDriver, DV : Devices, KI : KernelImage, PO : !PageOps, PI : ProcImage}.
Context `{IR : Interrupts}.

(** The rest of [tvinit]. *)
Definition tvinit : FK unit := initlock tickslockL.

Definition cpuid : FK Z := i ← zoom hartL mycpu; mret (Z.of_nat i).

(** [if(myproc()->killed) exit();] *)
Definition exit_if_killed : FK unit :=
  stop ← mygetp killed;
  when stop (exit others).

Definition trap_syscall (frame : Z) : FK unit :=
  exit_if_killed;;
  mysetp (set_tf frame);;
  syscall;;
  exit_if_killed.

(** The case of the timer. *)
Definition tick : FK unit :=
  c ← cpuid;
  when (c =? 0)
    (acquire tickslockL;;
     modify (fun k => set_ticks (u32 (ticks k + 1)) k);;
     wakeup TicksChan;;
     release tickslockL).

(** The case [default]. *)
Definition trap_default (frame cr2 : Z) : FK unit :=
  o ← myproc;
  code ← zoom machL (kload16 (frame + TF_cs));
  trapno ← zoom machL (kload32 (frame + TF_trapno));
  eip ← zoom machL (kload32 (frame + TF_eip));
  if bool_decide (o = None) || (Z.land code 3 =? 0) then
    c ← cpuid;
    cprintf (chars "unexpected trap %d from cpu %d eip %x (cr2=0x%x)" ++ [10])
      [KInt trapno; KInt c; KInt eip; KInt cr2];;
    panic "trap"
  else
    id ← mygetp pid;
    nm ← mygetp name;
    err ← zoom machL (kload32 (frame + TF_err));
    c ← cpuid;
    cprintf (chars "pid %d %s: trap %d err %d on cpu %d eip 0x%x addr 0x%x--kill proc" ++ [10])
      [KInt id; KStr (Some nm); KInt trapno; KInt err; KInt c; KInt eip; KInt cr2];;
    mysetp (set_killed true).

Definition trap_switch (frame cr2 trapno : Z) : FK unit :=
  if trapno =? T_IRQ0 + IRQ_TIMER then tick
  else if trapno =? T_IRQ0 + IRQ_IDE then ideintr
  else if trapno =? T_IRQ0 + IRQ_IDE + 1 then mret tt
  else if trapno =? T_IRQ0 + IRQ_KBD then kbdintr kbd_bytes
  else if trapno =? T_IRQ0 + IRQ_COM1 then uartintr com1_bytes
  else if (trapno =? T_IRQ0 + 7) || (trapno =? T_IRQ0 + IRQ_SPURIOUS) then
    c ← cpuid;
    code ← zoom machL (kload16 (frame + TF_cs));
    eip ← zoom machL (kload32 (frame + TF_eip));
    cprintf (chars "cpu%d: spurious interrupt at %x:%x" ++ [10]) [KInt c; KInt code; KInt eip]
  else if trapno =? T_PGFLT then
    cprintf (chars "p4Debug : Page fault !" ++ [10]) [];;
    r ← mdecrypt cr2;
    if r =? 0 then mret tt else trap_default frame cr2
  else trap_default frame cr2.

(** [if(myproc() && myproc()->killed && (tf->cs&3) == DPL_USER) exit();] *)
Definition exit_user (frame : Z) : FK unit :=
  o ← myproc;
  match o with
  | None => mret tt
  | Some _ =>
      stop ← mygetp killed;
      code ← zoom machL (kload16 (frame + TF_cs));
      when ((stop : bool) && (Z.land code 3 =? DPL_USER)) (exit others)
  end.

Definition yield_on_tick (frame : Z) : FK unit :=
  o ← myproc;
  match o with
  | None => mret tt
  | Some _ =>
      st ← mygetp state;
      trapno ← zoom machL (kload32 (frame + TF_trapno));
      when (bool_decide (st = RUNNING) && (trapno =? T_IRQ0 + IRQ_TIMER)) (yield others)
  end.

Definition trap (frame cr2 : Z) : FK unit :=
  trapno ← zoom machL (kload32 (frame + TF_trapno));
  if trapno =? T_SYSCALL then trap_syscall frame else
  trap_switch frame cr2 trapno;;
  exit_user frame;;
  yield_on_tick frame;;
  exit_user frame.
End Trap.
