(* ===== verification/Ide.v ===== *)
(** * ide.c: the driver of the IDE disk

    The buffers carry [qnext] here; the queue of requests goes from [idequeue]
    through it.  The controller is not part of the program: it is a state [D]
    with the class [Ports], what [inb], [outb], [insl] and [outsl] do to it and
    what a write to the I/O APIC does; [polls] bounds the number of times that
    [idewait] reads the status.  The driver's state is the part [files] of the
    kernel's state, so that locks, [sleep] and [wakeup] are the kernel's. *)

From S2P Require Import Prelude Memory Mmu Machine Spinlock Kalloc Vm PageTable VmProofs VmSpaces.
From S2P Require Import Encrypt ProcTable Clock ClockProofs Proc ProcProofs FileState Sleeplock Bio Log Ulib Cprintf Fs Syscall Trap.

Module Ide.

Definition IDE_BSY : Z := 0x80.
Definition IDE_DRDY : Z := 0x40.
Definition IDE_DF : Z := 0x20.
Definition IDE_ERR : Z := 0x01.
Definition IDE_CMD_READ : Z := 0x20.
Definition IDE_CMD_WRITE : Z := 0x30.
Definition IDE_CMD_RDMUL : Z := 0xc4.
Definition IDE_CMD_WRMUL : Z := 0xc5.
Definition SECTOR_SIZE : Z := 512.

Class Ports (D : Type) : Type := {
  port_in : Z -> D -> Z * D;
  port_out : Z -> Z -> D -> D;
  data_in : D -> list Z * D;
  data_out : list Z -> D -> D;
  ioapicwrite : Z -> Z -> D -> D;
  polls : nat;
}.

(** A buffer with its [qnext]. *)
Record qbuf : Type := QBuf {
  qb : buf;
  qnext : option nat;
}.

Record ide (D : Type) : Type := IdeState {
  idelock : spinlock;
  idequeue : option nat;
  havedisk1 : bool;
  ide_bufs : list qbuf;
  ctl : D;
}.
Arguments IdeState {D} _ _ _ _ _.
Arguments idelock {D} _.
Arguments idequeue {D} _.
Arguments havedisk1 {D} _.
Arguments ide_bufs {D} _.
Arguments ctl {D} _.

Definition set_qb (b : buf) (x : qbuf) : qbuf := QBuf b (qnext x).
Definition set_qnext (n : option nat) (x : qbuf) : qbuf := QBuf (qb x) n.
Definition qbuf0 : qbuf := QBuf buf0 None.

Section Ide.
Context {D : Type}.
Implicit Types s : ide D.

Definition set_idelock (v : spinlock) s : ide D := IdeState v (idequeue s) (havedisk1 s) (ide_bufs s) (ctl s).
Definition set_idequeue (v : option nat) s : ide D := IdeState (idelock s) v (havedisk1 s) (ide_bufs s) (ctl s).
Definition set_havedisk1 (v : bool) s : ide D := IdeState (idelock s) (idequeue s) v (ide_bufs s) (ctl s).
Definition set_ide_bufs (v : list qbuf) s : ide D := IdeState (idelock s) (idequeue s) (havedisk1 s) v (ctl s).
Definition set_ctl (v : D) s : ide D := IdeState (idelock s) (idequeue s) (havedisk1 s) (ide_bufs s) v.

Definition idelockL : lens (ide D) spinlock := Lens idelock set_idelock.
Definition ide_bufsL : lens (ide D) (list qbuf) := Lens ide_bufs set_ide_bufs.
Definition qbL : lens qbuf buf := Lens qb set_qb.

(** [&b->lock], and the channel [b]. *)
Definition qbuf_sl (b : nat) : slref (ide D) :=
  Slref (compose ide_bufsL (cellL qbuf0 (compose (compose qbL b_lockL) idL) b))
    (compose ide_bufsL (cellL qbuf0 (compose (compose qbL b_lockL) sl_lkL) b)) (ObjChan (0x8010e660 + 52 + 604 * Z.of_nat b + 12)).
Definition buf_chan (b : nat) : channel := ObjChan (0x8010e660 + 52 + 604 * Z.of_nat b).

Abbreviation DK := (M (kstate (ide D))).

(** [b->field] and [b->field = ...] *)
Definition qbuf_at s (b : nat) : qbuf := default qbuf0 (ide_bufs s !! b).
Definition getq {A} (b : nat) (f : qbuf -> A) : DK A := gets (fun k => f (qbuf_at (files k) b)).
Definition setq (b : nat) (f : qbuf -> qbuf) : DK unit :=
  modify (fun k => set_files (set_ide_bufs (alter f b (ide_bufs (files k))) (files k)) k).
Definition set_queue (o : option nat) : DK unit := modify (fun k => set_files (set_idequeue o (files k)) k).

Context `{SE : SwitchEnv (ide D), PD : Ports D}.

(** ** x86.h: inb, outb, insl and outsl *)

Definition inb (p : Z) : DK Z :=
  k ← get;
  let '(v, d) := port_in p (ctl (files k)) in
  modify (fun k => set_files (set_ctl d (files k)) k);;
  mret v.

Definition outb (p v : Z) : DK unit := modify (fun k => set_files (set_ctl (port_out p v (ctl (files k))) (files k)) k).

Definition insl : DK (list Z) :=
  k ← get;
  let '(v, d) := data_in (ctl (files k)) in
  modify (fun k => set_files (set_ctl d (files k)) k);;
  mret v.

Definition outsl (bs : list Z) : DK unit := modify (fun k => set_files (set_ctl (data_out bs (ctl (files k))) (files k)) k).

(** ** The driver *)

Fixpoint idewait_loop (n : nat) : DK Z :=
  r ← inb 0x1f7;
  if negb (Z.land r (Z.lor IDE_BSY IDE_DRDY) =? IDE_DRDY) then
    match n with
    | O => spin
    | S n => idewait_loop n
    end
  else mret r.

Definition idewait (checkerr : bool) : DK Z :=
  r ← idewait_loop polls;
  if checkerr && negb (Z.land r (Z.lor IDE_DF IDE_ERR) =? 0) then mret (-1) else mret 0.

(** ioapic.c *)
Definition ioapicenable (irq cpunum : Z) : DK unit :=
  modify (fun k => set_files (set_ctl (ioapicwrite (0x10 + 2 * irq) (T_IRQ0 + irq) (ctl (files k))) (files k)) k);;
  modify (fun k => set_files (set_ctl (ioapicwrite (0x10 + 2 * irq + 1) (u32 (Z.shiftl cpunum 24)) (ctl (files k))) (files k)) k).

Fixpoint find_disk1 (n : nat) : DK unit :=
  match n with
  | O => mret tt
  | S n =>
      r ← inb 0x1f7;
      if negb (r =? 0) then modify (fun k => set_files (set_havedisk1 true (files k)) k) else find_disk1 n
  end.

Definition ideinit : DK unit :=
  initlock (infiles idelockL);;
  k ← get;
  ioapicenable IRQ_IDE (Z.of_nat (length (cpus (hw (mach k)))) - 1);;
  _ ← idewait false;
  outb 0x1f6 (Z.lor 0xe0 (Z.shiftl 1 4));;
  find_disk1 1000;;
  outb 0x1f6 (Z.lor 0xe0 (Z.shiftl 0 4)).

Definition idestart (b : option nat) : DK unit :=
  match b with
  | None => panic "idestart"
  | Some b =>
      blockno ← getq b (fun x => b_blockno (qb x));
      if FSSIZE <=? blockno then panic "incorrect blockno" else
      let sector_per_block := BSIZE / SECTOR_SIZE in
      let sector := i32 (blockno * sector_per_block) in
      let read_cmd := if sector_per_block =? 1 then IDE_CMD_READ else IDE_CMD_RDMUL in
      let write_cmd := if sector_per_block =? 1 then IDE_CMD_WRITE else IDE_CMD_WRMUL in
      if 7 <? sector_per_block then panic "idestart" else
      _ ← idewait false;
      outb 0x3f6 0;;
      outb 0x1f2 sector_per_block;;
      outb 0x1f3 (Z.land sector 0xff);;
      outb 0x1f4 (Z.land (Z.shiftr sector 8) 0xff);;
      outb 0x1f5 (Z.land (Z.shiftr sector 16) 0xff);;
      dev ← getq b (fun x => b_dev (qb x));
      outb 0x1f6 (Z.lor (Z.lor 0xe0 (Z.shiftl (Z.land dev 1) 4)) (Z.land (Z.shiftr sector 24) 0x0f));;
      flags ← getq b (fun x => b_flags (qb x));
      if flag flags B_DIRTY then
        outb 0x1f7 write_cmd;;
        d ← getq b (fun x => b_data (qb x));
        outsl d
      else outb 0x1f7 read_cmd
  end.

Definition ideintr : DK unit :=
  acquire (infiles idelockL);;
  q ← gets (fun k => idequeue (files k));
  match q with
  | None => release (infiles idelockL)
  | Some b =>
      next ← getq b qnext;
      set_queue next;;
      flags ← getq b (fun x => b_flags (qb x));
      when (negb (flag flags B_DIRTY)) (
        r ← idewait true;
        when (0 <=? r) (d ← insl; setq b (fun x => set_qb (set_b_data d (qb x)) x)));;
      setq b (fun x => set_qb (set_b_flags (Z.lor (b_flags (qb x)) B_VALID) (qb x)) x);;
      setq b (fun x => set_qb (set_b_flags (Z.land (b_flags (qb x)) (Z.lnot B_DIRTY)) (qb x)) x);;
      wakeup (buf_chan b);;
      q ← gets (fun k => idequeue (files k));
      when (bool_decide (q <> None)) (idestart q);;
      release (infiles idelockL)
  end.

(** The pointer [pp] to a pointer: [&idequeue], or the address of the [qnext]
    of a buffer. *)
Definition get_pp (pp : option nat) : DK (option nat) :=
  match pp with
  | None => gets (fun k => idequeue (files k))
  | Some c => getq c qnext
  end.

Definition set_pp (pp : option nat) (b : nat) : DK unit :=
  match pp with
  | None => set_queue (Some b)
  | Some c => setq c (set_qnext (Some b))
  end.

Fixpoint queue_end (pp : option nat) (n : nat) : DK (option nat) :=
  o ← get_pp pp;
  match o with
  | None => mret pp
  | Some c =>
      match n with
      | O => spin
      | S n => queue_end (Some c) n
      end
  end.

Fixpoint iderw_wait (b n : nat) : DK unit :=
  flags ← getq b (fun x => b_flags (qb x));
  if negb (Z.land flags (Z.lor B_VALID B_DIRTY) =? B_VALID) then
    match n with
    | O => spin
    | S n => sleep_on others (buf_chan b) (infiles idelockL);; iderw_wait b n
    end
  else mret tt.

Definition iderw (b : nat) : DK unit :=
  h ← holdingsleep (qbuf_sl b);
  if negb h then panic "iderw: buf not locked" else
  flags ← getq b (fun x => b_flags (qb x));
  if Z.land flags (Z.lor B_VALID B_DIRTY) =? B_VALID then panic "iderw: nothing to do" else
  dev ← getq b (fun x => b_dev (qb x));
  have ← gets (fun k => havedisk1 (files k));
  if negb (dev =? 0) && negb have then panic "iderw: ide disk 1 not present" else
  acquire (infiles idelockL);;
  setq b (set_qnext None);;
  pp ← queue_end None (Z.to_nat NBUF);
  set_pp pp b;;
  q ← gets (fun k => idequeue (files k));
  when (bool_decide (q = Some b)) (idestart (Some b));;
  iderw_wait b naps;;
  release (infiles idelockL).
End Ide.
End Ide.
