(* ===== verification/IdeProofs.v ===== *)
(** * ide.c: requests are served in order

    [AtaLaws] is what the driver relies on of the controller: the registers,
    the commands for one sector, and the status.  The queue is a list of
    buffers, the first of which the controller works on; an interrupt finishes
    it and starts the next.  A process in [iderw] gets its block when the
    others, while it sleeps, run this driver and the interrupts come. *)

From S2P Require Import Prelude Memory Mmu Machine Spinlock Kalloc Vm PageTable VmProofs VmSpaces.
From S2P Require Import Encrypt ProcTable Clock ClockProofs Proc ProcProofs FileState Sleeplock Sleeping Demo Ide.

Module IdeProofs.
Import Ide.

(** ** The controller *)

(** Registers; the command that runs: write or read, drive and sector; the disks. *)
Record ata : Type := Ata {
  at_reg : Z -> Z;
  at_cmd : option (bool * (Z * Z));
  at_disk : Z * Z -> list Z;
}.

Definition put_fun {A B} `{EqDecision A} (i : A) (v : B) (f : A -> B) : A -> B := fun j => if decide (j = i) then v else f j.

Definition set_reg (p v : Z) (a : ata) : ata := Ata (put_fun p v (at_reg a)) (at_cmd a) (at_disk a).
Definition set_cmd (c : option (bool * (Z * Z))) (a : ata) : ata := Ata (at_reg a) c (at_disk a).
Definition set_disk (f : Z * Z -> list Z) (a : ata) : ata := Ata (at_reg a) (at_cmd a) f.

(** The drive and the sector in the registers. *)
Definition target (a : ata) : Z * Z :=
  (Z.land (Z.shiftr (at_reg a 0x1f6) 4) 1,
   at_reg a 0x1f3 + 2 ^ 8 * at_reg a 0x1f4 + 2 ^ 16 * at_reg a 0x1f5 + 2 ^ 24 * Z.land (at_reg a 0x1f6) 15).

Class AtaLaws (D : Type) `{PD : Ports D} : Type := {
  ata_of : D -> ata;
  busy : D -> nat;
  faulty : D -> bool;
  ata_busy d : (busy d <= polls)%nat;
  ata_status d : let '(r, d') := port_in 0x1f7 d in
    ata_of d' = ata_of d /\ faulty d' = faulty d /\
    match busy d with
    | O => Z.land r 0xc0 = 0x40 /\ (Z.land r 0x21 =? 0) = negb (faulty d)
    | S n => Z.land r 0xc0 <> 0x40 /\ busy d' = n
    end;
  ata_set p v d : p ∈ [0x1f2; 0x1f3; 0x1f4; 0x1f5; 0x1f6] -> ata_of (port_out p v d) = set_reg p v (ata_of d);
  ata_control d : ata_of (port_out 0x3f6 0 d) = ata_of d;
  ata_read d : at_reg (ata_of d) 0x1f2 = 1 ->
    ata_of (port_out 0x1f7 0x20 d) = set_cmd (Some (false, target (ata_of d))) (ata_of d);
  ata_write d : at_reg (ata_of d) 0x1f2 = 1 ->
    ata_of (port_out 0x1f7 0x30 d) = set_cmd (Some (true, target (ata_of d))) (ata_of d);
  ata_out d t bs : at_cmd (ata_of d) = Some (true, t) -> length bs = 512%nat ->
    ata_of (data_out bs d) = set_disk (put_fun t bs (at_disk (ata_of d))) (ata_of d);
  ata_in d t : at_cmd (ata_of d) = Some (false, t) -> faulty d = false ->
    (data_in d).1 = at_disk (ata_of d) t /\ ata_of (data_in d).2 = ata_of d;
  ata_len d t : length (at_disk (ata_of d) t) = 512%nat;
}.

Section Driver.
Context {D : Type} `{PD : Ports D, AL : !AtaLaws D, SE : SwitchEnv (ide D)}.
Implicit Types s : ide D.
Implicit Types k : kstate (ide D).

#[local] Instance idelockL_ok : LensOk (@idelockL D).
Proof. split; [split|]; by intros; try destruct s. Qed.
#[local] Instance ide_bufsL_ok : LensOk (@ide_bufsL D).
Proof. split; [split|]; by intros; try destruct s. Qed.
#[local] Instance qbL_ok : LensOk qbL.
Proof. split; [split|]; by intros; try destruct s. Qed.
#[local] Instance qbuf_sl_laws b : SlLaws (@qbuf_sl D b).
Proof. apply cell_sl_laws; apply _. Qed.

(** Only the controller has changed. *)
Definition on_ctl (d : D) k : kstate (ide D) := set_files (set_ctl d (files k)) k.
Definition view_of s : ata := ata_of (ctl s).

Lemma wp_outb k p v (Q : unit -> kstate (ide D) -> Prop) : Q tt (on_ctl (port_out p v (ctl (files k))) k) -> wp (outb p v) k Q.
Proof. done. Qed.

Lemma on_ctl_ctl d d' k : on_ctl d (on_ctl d' k) = on_ctl d k.
Proof. done. Qed.

Lemma idewait_loop_spec n : forall k, (busy (ctl (files k)) <= n)%nat ->
  wp (idewait_loop n) k (fun r k' => exists d, k' = on_ctl d k /\ ata_of d = view_of (files k) /\
    faulty d = faulty (ctl (files k)) /\ (Z.land r 0x21 =? 0) = negb (faulty (ctl (files k)))).
Proof.
  induction n as [|n IH]; intros k Hb; cbn [idewait_loop]; wstep; unfold inb; wsteps;
    pose proof (ata_status (ctl (files k))) as Hs; destruct (port_in 0x1f7 (ctl (files k))) as [r d]; wsteps;
    change (Z.lor IDE_BSY IDE_DRDY) with 0xc0; change IDE_DRDY with 0x40; destruct Hs as (E1 & E2 & E3);
    destruct (busy (ctl (files k))) as [|m] eqn:Eb.
  1,3: destruct E3 as [E3 E4]; rewrite E3; cbn [negb Z.eqb Pos.eqb]; wstep; by exists d.
  - lia.
  - destruct E3 as [E3 E4]. rewrite (proj2 (Z.eqb_neq _ _)) by done. cbn [negb].
    eapply wp_mono; [apply (IH (on_ctl d k)); cbn; lia|]. intros r' k' (d' & -> & F1 & F2 & F3). exists d'.
    change (view_of (files (on_ctl d k))) with (ata_of d) in F1. change (ctl (files (on_ctl d k))) with d in *.
    rewrite on_ctl_ctl. unfold view_of. rewrite <- E1, <- E2. done.
Qed.

Lemma idewait_spec ck k : wp (idewait ck) k (fun r k' => exists d, k' = on_ctl d k /\ ata_of d = view_of (files k) /\
  faulty d = faulty (ctl (files k)) /\ r = if ck && faulty (ctl (files k)) then -1 else 0).
Proof.
  unfold idewait. wstep. eapply wp_mono; [apply idewait_loop_spec, ata_busy|]. intros r k' (d & -> & E1 & E2 & E3).
  change (Z.lor IDE_DF IDE_ERR) with 0x21. rewrite E3, negb_involutive. destruct (ck && faulty (ctl (files k))); wstep; by exists d.
Qed.
(** ** Starting a request *)

Definition dirty (x : qbuf) : bool := flag (b_flags (qb x)) B_DIRTY.
Definition at_block (x : qbuf) : Z * Z := (Z.land (b_dev (qb x)) 1, b_blockno (qb x)).
Definition request_ok (x : qbuf) : Prop := 0 <= b_blockno (qb x) < 1000 /\ length (b_data (qb x)) = 512%nat.

(** The disks after the request has been started. *)
Definition started (x : qbuf) (f : Z * Z -> list Z) : Z * Z -> list Z :=
  if dirty x then put_fun (at_block x) (b_data (qb x)) f else f.

Lemma wp_getq {A} k b x (f : qbuf -> A) (Q : A -> kstate (ide D) -> Prop) : ide_bufs (files k) !! b = Some x ->
  Q (f x) k -> wp (getq b f) k Q.
Proof. intros Hx HQ. unfold getq. wstep. unfold qbuf_at. by rewrite Hx. Qed.

Lemma wp_setq k b f (Q : unit -> kstate (ide D) -> Prop) :
  Q tt (set_files (set_ide_bufs (alter f b (ide_bufs (files k))) (files k)) k) -> wp (setq b f) k Q.
Proof. done. Qed.

Lemma land_1 v : Z.land v 1 = 0 \/ Z.land v 1 = 1.
Proof. assert (Z.land v 1 = v mod 2) as -> by (apply (Z.land_ones v 1); lia). dlia. Qed.

(** The registers that [idestart] fills name the block. *)
Lemma target_regs a dev n : 0 <= n < 1000 ->
  at_reg a 0x1f3 = Z.land n 0xff -> at_reg a 0x1f4 = Z.land (Z.shiftr n 8) 0xff -> at_reg a 0x1f5 = Z.land (Z.shiftr n 16) 0xff ->
  at_reg a 0x1f6 = Z.lor (Z.lor 0xe0 (Z.shiftl (Z.land dev 1) 4)) (Z.land (Z.shiftr n 24) 0x0f) -> target a = (Z.land dev 1, n).
Proof.
  intros Hn E3 E4 E5 E6. unfold target. rewrite E3, E4, E5, E6.
  change 0xff with (Z.ones 8). rewrite !Z.land_ones, !Z.shiftr_div_pow2 by lia.
  replace (n / 2 ^ 24) with 0 by dlia. replace (n / 2 ^ 16) with 0 by dlia. change (Z.land 0 15) with 0. rewrite Z.lor_0_r.
  f_equal; [by destruct (land_1 dev) as [-> | ->]|].
  assert (Z.land (Z.lor 224 (Z.shiftl (Z.land dev 1) 4)) 15 = 0) as -> by (by destruct (land_1 dev) as [-> | ->]). dlia.
Qed.

Lemma idestart_spec k b x : ide_bufs (files k) !! b = Some x -> request_ok x ->
  wp (idestart (Some b)) k (fun _ k' => exists d, k' = on_ctl d k /\ at_cmd (ata_of d) = Some (dirty x, at_block x) /\
    at_disk (ata_of d) = started x (at_disk (view_of (files k)))).
Proof.
  intros Hx [Hn Hl]. unfold idestart. wstep. eapply wp_getq; [done|]. change FSSIZE with 1000. rewrite (proj2 (Z.leb_gt _ _)) by lia.
  change (BSIZE / SECTOR_SIZE) with 1. cbv zeta. cbn [Z.eqb Pos.eqb Z.ltb Z.compare Pos.compare Pos.compare_cont]. rewrite Z.mul_1_r.
  assert (i32 (b_blockno (qb x)) = b_blockno (qb x)) as -> by (apply i32_small; unfold is_i32; lia).
  wstep. eapply wp_mono; [apply idewait_spec|]. intros _ k1 (d1 & -> & E1 & _).
  do 5 (wstep; apply wp_outb). wstep. eapply wp_getq; [exact Hx|]. wstep. apply wp_outb. wstep. eapply wp_getq; [exact Hx|].
  rewrite !on_ctl_ctl. cbn [ctl files set_files set_ctl on_ctl].
  set (d2 := port_out 0x1f6 _ _).
  assert (ata_of d2 = set_reg 0x1f6 (Z.lor (Z.lor 224 (Z.shiftl (Z.land (b_dev (qb x)) 1) 4)) (Z.land (Z.shiftr (b_blockno (qb x)) 24) 15))
    (set_reg 0x1f5 (Z.land (Z.shiftr (b_blockno (qb x)) 16) 255) (set_reg 0x1f4 (Z.land (Z.shiftr (b_blockno (qb x)) 8) 255)
    (set_reg 0x1f3 (Z.land (b_blockno (qb x)) 255) (set_reg 0x1f2 1 (view_of (files k))))))) as E2.
  { unfold d2. rewrite !ata_set, ata_control, E1 by set_solver. done. }
  assert (target (ata_of d2) = at_block x) as Et by (apply target_regs; [done|by rewrite E2..]).
  assert (at_reg (ata_of d2) 0x1f2 = 1) as Ec by (by rewrite E2).
  assert (at_disk (ata_of d2) = at_disk (view_of (files k))) as Ed by (by rewrite E2).
  unfold started. fold (dirty x). destruct (dirty x).
  - wstep. apply wp_outb. wstep. eapply wp_getq; [exact Hx|]. unfold outsl. wstep. eexists. split; [done|].
    cbn [ctl files set_files set_ctl on_ctl]. change IDE_CMD_WRITE with 0x30.
    rewrite (ata_out _ (target (ata_of d2))); [|by rewrite ata_write|done]. rewrite ata_write by done. cbn. by rewrite Et, Ed.
  - apply wp_outb. eexists. split; [done|]. cbn [ctl files set_files set_ctl on_ctl]. change IDE_CMD_READ with 0x20.
    rewrite ata_read by done. cbn. by rewrite Et.
Qed.
(** ** The queue *)

(** The buffers [qs], one after the other, from [o]. *)
Fixpoint linked (l : list qbuf) (o : option nat) (qs : list nat) : Prop :=
  match qs with
  | [] => o = None
  | b :: qs => o = Some b /\ exists x, l !! b = Some x /\ linked l (qnext x) qs
  end.

Lemma linked_head l o qs : linked l o qs -> o = head qs.
Proof. by destruct qs as [|b qs]; [|intros [-> _]]. Qed.

Lemma linked_lookup l qs : forall o b, linked l o qs -> b ∈ qs -> exists x, l !! b = Some x.
Proof.
  induction qs as [|c qs IH]; intros o b Hl Hb; [by apply elem_of_nil in Hb|]. destruct Hl as (_ & x & Hx & Hl).
  apply elem_of_cons in Hb as [->|Hb]; [by exists x|]. by eapply IH.
Qed.

Lemma linked_same l l' qs : forall o,
  (forall b x, b ∈ qs -> l !! b = Some x -> exists x', l' !! b = Some x' /\ qnext x' = qnext x) -> linked l o qs -> linked l' o qs.
Proof.
  induction qs as [|b qs IH]; intros o Hs Hl; [done|]. destruct Hl as (-> & x & Hx & Hl). split; [done|].
  destruct (Hs b x) as (x' & Hx' & E); [by left|done|]. exists x'. split; [done|]. rewrite E. apply IH; [|done].
  intros c y Hc. apply Hs. by right.
Qed.

Lemma linked_alter l o qs c f : c ∉ qs -> linked l o qs -> linked (alter f c l) o qs.
Proof.
  intros Hc. apply linked_same. intros b x Hb Hx. exists x. split; [|done]. rewrite list_lookup_alter_ne; [done|]. congruence.
Qed.

(** The buffers after [c] has been put at the end of [qs]. *)
Definition link (qs : list nat) (c : nat) (l : list qbuf) : list qbuf :=
  match last qs with
  | None => alter (set_qnext None) c l
  | Some b => alter (set_qnext (Some c)) b (alter (set_qnext None) c l)
  end.

Lemma linked_end l c x : forall o qs, linked l o qs -> NoDup (qs ++ [c]) -> l !! c = Some x ->
  linked (link qs c l) (if qs is [] then Some c else o) (qs ++ [c]).
Proof.
  intros o qs. unfold link. revert o. induction qs as [|b qs IH]; intros o Hl Hnd Hx; cbn [app] in *.
  - split; [done|]. eexists. change (last []) with (@None nat). cbv iota. by rewrite list_lookup_alter_eq, Hx.
  - destruct Hl as (-> & y & Hy & Hl). apply NoDup_cons in Hnd as [Hb Hnd]. split; [done|].
    assert (b <> c) as Hne by (intros ->; apply Hb, elem_of_app; right; by left).
    destruct qs as [|b' qs].
    + exists (set_qnext (Some c) y). change (last [b]) with (Some b). cbv iota. rewrite list_lookup_alter_eq, list_lookup_alter_ne, Hy by done. split; [done|]. cbn. split; [done|].
      eexists. rewrite list_lookup_alter_ne, list_lookup_alter_eq, Hx by done. by cbn.
    + specialize (IH _ Hl Hnd Hx). exists y. change (last (b :: b' :: qs)) with (last (b' :: qs)).
      destruct (last (b' :: qs)) as [z|] eqn:Ez; [|by apply last_None in Ez].
      assert (z <> b) as Hzb. { intros ->. apply Hb, elem_of_app. left. by apply last_Some_elem_of. }
      rewrite !list_lookup_alter_ne by done. done.
Qed.

Definition pp_value s (pp : option nat) : option nat :=
  match pp with
  | None => idequeue s
  | Some c => qnext (qbuf_at s c)
  end.

Lemma get_pp_spec k pp (Q : option nat -> kstate (ide D) -> Prop) : Q (pp_value (files k) pp) k -> wp (get_pp pp) k Q.
Proof. by destruct pp. Qed.

Lemma queue_end_spec k qs : forall n pp, linked (ide_bufs (files k)) (pp_value (files k) pp) qs -> (length qs <= n)%nat ->
  wp (queue_end pp n) k (fun r k' => k' = k /\ r = if last qs is Some l then Some l else pp).
Proof.
  induction qs as [|b qs IH]; intros n pp Hl Hn; (destruct n; cbn [queue_end]; wstep; apply get_pp_spec; cbn [length] in Hn).
  - rewrite Hl. by wstep.
  - rewrite Hl. by wstep.
  - lia.
  - destruct Hl as (-> & x & Hx & Hl). eapply wp_mono; [apply (IH n (Some b)); [|lia]|].
    + cbn. unfold qbuf_at. by rewrite Hx.
    + intros r k' [-> ->]. split; [done|]. destruct qs as [|c qs]; [done|]. change (last (b :: c :: qs)) with (last (c :: qs)).
      by destruct (last (c :: qs)) eqn:E; [|apply last_None in E].
Qed.
(** The request has not been served yet. *)
Definition pending (x : qbuf) : Prop := Z.land (b_flags (qb x)) 6 <> 2.

Record inv s (qs : list nat) : Prop := {
  iv_linked : linked (ide_bufs s) (idequeue s) qs;
  iv_nodup : NoDup qs;
  iv_range b : b ∈ qs -> (b < 30)%nat;
  iv_buf b x : b ∈ qs -> ide_bufs s !! b = Some x -> pending x /\ request_ok x;
  iv_blocks b c x y : b ∈ qs -> c ∈ qs -> ide_bufs s !! b = Some x -> ide_bufs s !! c = Some y -> at_block x = at_block y -> b = c;
  iv_cmd b x : head qs = Some b -> ide_bufs s !! b = Some x ->
    at_cmd (view_of s) = Some (dirty x, at_block x) /\ (dirty x = true -> at_disk (view_of s) (at_block x) = b_data (qb x));
}.

Lemma inv_length s qs : inv s qs -> (length qs <= 30)%nat.
Proof.
  intros H. rewrite <- (length_seq 30 0). apply submseteq_length, NoDup_submseteq; [apply H|].
  intros b Hb. apply elem_of_seq. pose proof (iv_range _ _ H b Hb). lia.
Qed.

(** ** The interrupt *)

Definition with_data (v : list Z) (x : qbuf) : qbuf := set_qb (set_b_data (if dirty x then b_data (qb x) else v) (qb x)) x.
Definition finish (v : list Z) (x : qbuf) : qbuf :=
  let y := with_data v x in
  set_qb (set_b_flags (Z.land (Z.lor (b_flags (qb y)) B_VALID) (Z.lnot B_DIRTY)) (qb y)) y.

(** What the handler puts into a buffer that was to be read: after an error the
    buffer keeps its bytes. *)
Definition fetched s (x : qbuf) : list Z := if faulty (ctl s) then b_data (qb x) else at_disk (view_of s) (at_block x).

(** Buffer [b] has been finished, and the first of [rest] started. *)
Record served (b : nat) (rest : list nat) s s' : Prop := {
  sv_bufs x : ide_bufs s !! b = Some x -> ide_bufs s' = <[b := finish (fetched s x) x]> (ide_bufs s);
  sv_queue : idequeue s' = head rest;
  sv_have : havedisk1 s' = havedisk1 s;
  sv_lock : idelock s' = idelock s;
  sv_none : rest = [] -> at_disk (view_of s') = at_disk (view_of s);
  sv_next c y : head rest = Some c -> ide_bufs s !! c = Some y ->
    at_cmd (view_of s') = Some (dirty y, at_block y) /\ at_disk (view_of s') = started y (at_disk (view_of s));
}.

Lemma alter_put (l : list qbuf) b y f : alter f b (<[b := y]> l) = <[b := f y]> l.
Proof. revert b. induction l as [|z l IH]; intros [|b]; cbn; try done. f_equal. apply IH. Qed.

Lemma inv_served s s' b rest : inv s (b :: rest) -> served b rest s s' -> inv s' rest.
Proof.
  intros H V. destruct (iv_linked _ _ H) as (Hq & x & Hx & Hl).
  pose proof (iv_nodup _ _ H) as Hnd. apply NoDup_cons in Hnd as [Hb Hnd].
  pose proof (sv_bufs _ _ _ _ V x Hx) as Eb.
  assert (forall c, c ∈ rest -> ide_bufs s' !! c = ide_bufs s !! c) as Hsame.
  { intros c Hc. rewrite Eb, list_lookup_insert_ne; [done|]. congruence. }
  split.
  - rewrite (sv_queue _ _ _ _ V), <- (linked_head _ _ _ Hl). eapply linked_same; [|exact Hl].
    intros c y Hc Hy. exists y. by rewrite Hsame.
  - done.
  - intros c Hc. apply (iv_range _ _ H). by right.
  - intros c y Hc Hy. rewrite Hsame in Hy by done. apply (iv_buf _ _ H c); [by right|done].
  - intros c c' y y' Hc Hc' Hy Hy'. rewrite Hsame in Hy by done. rewrite Hsame in Hy' by done.
    apply (iv_blocks _ _ H); [by right|by right|done|done].
  - intros c y Hc Hy. assert (c ∈ rest) by (destruct rest; [done|injection Hc as ->; by left]). rewrite Hsame in Hy by done.
    destruct (sv_next _ _ _ _ V c y Hc Hy) as [-> ->]. split; [done|]. intros E. unfold started, put_fun. rewrite E. by rewrite decide_True.
Qed.

(** ** A new request *)

Lemma link_qb qs c l b : qb <$> link qs c l !! b = qb <$> l !! b.
Proof.
  assert (forall o c (l : list qbuf), qb <$> alter (set_qnext o) c l !! b = qb <$> l !! b) as Ha.
  { intros o c' l'. rewrite list_lookup_alter. case_decide; [subst|done]. by destruct (l' !! _). }
  unfold link. destruct (last qs); by rewrite !Ha.
Qed.

Lemma link_lookup qs c l b x : link qs c l !! b = Some x -> exists y, l !! b = Some y /\ qb y = qb x.
Proof. intros Hx. pose proof (link_qb qs c l b) as E. rewrite Hx in E. destruct (l !! b) as [y|]; [|done]. exists y. by injection E as ->. Qed.

Lemma link_lookup_fwd qs c l b x : l !! b = Some x -> exists y, link qs c l !! b = Some y /\ qb y = qb x.
Proof. intros Hx. pose proof (link_qb qs c l b) as E. rewrite Hx in E. destruct (link qs c l !! b) as [y|]; [|done]. exists y. by injection E as ->. Qed.

(** Buffer [c] has been put at the end of [qs], and started if it is alone. *)
Record enqueued (qs : list nat) (c : nat) s s' : Prop := {
  eq_bufs : ide_bufs s' = link qs c (ide_bufs s);
  eq_queue : idequeue s' = head (qs ++ [c]);
  eq_have : havedisk1 s' = havedisk1 s;
  eq_lock : idelock s' = idelock s;
  eq_first x : qs = [] -> ide_bufs s !! c = Some x ->
    at_cmd (view_of s') = Some (dirty x, at_block x) /\ at_disk (view_of s') = started x (at_disk (view_of s));
  eq_more : qs <> [] -> view_of s' = view_of s;
}.

(** Buffer [c] may be put behind [qs]. *)
Record may_request s (qs : list nat) (c : nat) (x : qbuf) : Prop := {
  mr_new : c ∉ qs;
  mr_range : (c < 30)%nat;
  mr_buf : ide_bufs s !! c = Some x;
  mr_pending : pending x;
  mr_ok : request_ok x;
  mr_blocks b y : b ∈ qs -> ide_bufs s !! b = Some y -> at_block y <> at_block x;
}.

Lemma dirty_qb x y : qb x = qb y -> dirty x = dirty y /\ at_block x = at_block y /\ (pending x <-> pending y) /\ (request_ok x <-> request_ok y).
Proof. intros E. unfold dirty, at_block, pending, request_ok. by rewrite E. Qed.

Lemma started_qb x y : qb x = qb y -> started x = started y.
Proof. intros E. destruct (dirty_qb _ _ E) as (E1 & E2 & _). unfold started. by rewrite E1, E2, E. Qed.

Lemma inv_enqueued s s' qs c x : inv s qs -> may_request s qs c x -> enqueued qs c s s' -> inv s' (qs ++ [c]).
Proof.
  intros H [M1 M2 M3 M4 M5 M6] E.
  assert (forall b y, b ∈ qs ++ [c] -> ide_bufs s' !! b = Some y -> exists z, ide_bufs s !! b = Some z /\ qb z = qb y /\ (b ∈ qs \/ b = c /\ z = x)) as Hb.
  { intros b y Hin Hy. rewrite (eq_bufs _ _ _ _ E) in Hy. destruct (link_lookup _ _ _ _ _ Hy) as (z & Hz & Ez). exists z. split_and!; [done|done|].
    apply elem_of_app in Hin as [|Hin]; [by left|]. apply list_elem_of_singleton in Hin as ->. right. by simplify_eq. }
  split.
  - rewrite (eq_queue _ _ _ _ E), (eq_bufs _ _ _ _ E). pose proof (linked_end (ide_bufs s) c x _ qs (iv_linked _ _ H)) as HL.
    rewrite (linked_head _ _ _ (iv_linked _ _ H)) in HL. destruct qs; (apply HL; [|done]; apply NoDup_app; split_and!; [apply H| |apply NoDup_singleton]);
    intros b Hin Hc; apply list_elem_of_singleton in Hc as ->; done.
  - apply NoDup_app. split_and!; [apply H| |apply NoDup_singleton]. intros b Hin Hc. apply list_elem_of_singleton in Hc as ->. done.
  - intros b Hin. apply elem_of_app in Hin as [Hin|Hin]; [by apply (iv_range _ _ H)|]. by apply list_elem_of_singleton in Hin as ->.
  - intros b y Hin Hy. destruct (Hb b y Hin Hy) as (z & Hz & Ez & Hc). destruct (dirty_qb _ _ Ez) as (_ & _ & <- & <-).
    destruct Hc as [Hc|[-> ->]]; [by apply (iv_buf _ _ H b)|done].
  - intros b b' y y' Hin Hin' Hy Hy' Eb. destruct (Hb b y Hin Hy) as (z & Hz & Ez & Hc), (Hb b' y' Hin' Hy') as (z' & Hz' & Ez' & Hc').
    destruct (dirty_qb _ _ Ez) as (_ & E1 & _), (dirty_qb _ _ Ez') as (_ & E2 & _). rewrite <- E1, <- E2 in Eb.
    destruct Hc as [Hc|[-> ->]], Hc' as [Hc'|[-> ->]]; [by apply (iv_blocks _ _ H b b' z z')| | |done].
    + by destruct (M6 b z Hc Hz).
    + by destruct (M6 b' z' Hc' Hz').
  - intros b y Hh Hy. assert (b ∈ qs ++ [c]) as Hin by (destruct qs; injection Hh as ->; by left).
    destruct (Hb b y Hin Hy) as (z & Hz & Ez & _). destruct (dirty_qb _ _ Ez) as (<- & <- & _). rewrite <- Ez. destruct qs as [|b' qs].
    + injection Hh as <-. destruct (eq_first _ _ _ _ E z eq_refl Hz) as [-> ->]. split; [done|]. intros Ed. unfold started, put_fun. rewrite Ed. by rewrite decide_True.
    + rewrite (eq_more _ _ _ _ E) by done. apply (iv_cmd _ _ H b z); [exact Hh|done].
Qed.

(** The critical section of [iderw] up to the loop. *)
Lemma enqueue_spec k qs b x (K : M (kstate (ide D)) unit) Q : inv (files k) qs -> may_request (files k) qs b x ->
  (forall s', enqueued qs b (files k) s' -> wp K (set_files s' k) Q) ->
  wp (setq b (set_qnext None);;
      pp ← queue_end None (Z.to_nat NBUF);
      set_pp pp b;;
      q ← gets (fun k => idequeue (files k));
      when (bool_decide (q = Some b)) (idestart (Some b));;
      K) k Q.
Proof.
  intros H [M1 M2 M3 M4 M5 M6] HK. wstep. apply wp_setq. wstep. pose proof (linked_head _ _ _ (iv_linked _ _ H)) as Hh.
  eapply wp_mono; [apply (queue_end_spec _ qs)|].
  { cbn. apply linked_alter; [done|apply H]. } { change (Z.to_nat NBUF) with 30%nat. by eapply inv_length. }
  intros pp k1 [-> ->]. wstep. destruct qs as [|c qs].
  - cbn [last set_pp]. unfold set_queue. wsteps. rewrite bool_decide_true by done. cbn [when].
    match goal with |- wp _ ?k2' _ => set (k2 := k2') end.
    assert (ide_bufs (files k2) = link [] b (ide_bufs (files k))) as Eb by done.
    destruct (link_lookup_fwd [] b (ide_bufs (files k)) b x M3) as (x' & Hx' & Ex). destruct (dirty_qb _ _ Ex) as (E1 & E2 & _ & E3).
    eapply wp_mono; [apply (idestart_spec k2 b x'); [by rewrite Eb|by apply E3]|]. intros _ k3 (d & -> & Ec & Ed).
    apply HK. split; try done. intros y _ Hy. rewrite M3 in Hy. injection Hy as <-. rewrite <- E1, <- E2. split; [exact Ec|]. rewrite <- (started_qb _ _ Ex). exact Ed.
  - destruct (last (c :: qs)) as [e|] eqn:Ee; [|by apply last_None in Ee]. unfold set_pp. apply wp_setq. wsteps.
    cbn [idequeue files set_files set_ide_bufs]. rewrite Hh. cbn [head]. rewrite bool_decide_false by (intros [= ->]; apply M1; by left).
    cbn [when]. wsteps. apply HK. split; try done. cbn. unfold link. by rewrite Ee.
Qed.

Lemma read_data_spec k b x :
  ide_bufs (files k) !! b = Some x -> at_cmd (view_of (files k)) = Some (dirty x, at_block x) ->
  wp (when (negb (dirty x)) (
        r ← idewait true;
        when (0 <=? r) (d ← insl; setq b (fun x => set_qb (set_b_data d (qb x)) x)))) k (fun _ k' => exists d,
    k' = set_files (set_ctl d (set_ide_bufs (<[b := with_data (fetched (files k) x) x]> (ide_bufs (files k))) (files k))) k /\
    ata_of d = view_of (files k)).
Proof.
  intros Hx Hc. unfold with_data. destruct (dirty x) eqn:Ed; cbn [negb when].
  - wstep. exists (ctl (files k)). rewrite list_insert_id; [|rewrite Hx; by destruct x as [[]]]. by destruct k as [? ? ? ? ? ? ? []].
  - wstep. eapply wp_mono; [apply idewait_spec|]. intros r k1 (d1 & -> & E1 & E2 & ->). unfold fetched. cbn [andb].
    destruct (faulty (ctl (files k))) eqn:Ef.
    { cbn [Z.leb Z.compare when]. wstep. exists d1. rewrite list_insert_id; [|rewrite Hx; by destruct x as [[]]]. by destruct k as [? ? ? ? ? ? ? []]. }
    cbn [Z.leb Z.compare when]. wstep. unfold insl. wsteps. cbn [ctl files set_files set_ctl on_ctl].
    destruct (ata_in d1 (at_block x)) as [E3 E4]; [by rewrite E1|done|].
    destruct (data_in d1) as [v d2]. cbn [fst snd] in *. subst v. wsteps. unfold setq. wstep. exists d2.
    cbn [ide_bufs files set_files set_ctl on_ctl]. split; [|by rewrite E4].
    rewrite <- (list_insert_id _ _ _ Hx) at 1. by rewrite alter_put, E1.
Qed.
(** What an interrupt does to the driver. *)
Definition intr (qs : list nat) s s' : Prop :=
  match qs with
  | [] => s' = s
  | b :: rest => served b rest s s'
  end.

(** The rest of the kernel, after a critical section. *)
Record undisturbed k k' : Prop := {
  af_hw : settles (hw (mach k)) (hw (mach k'));
  af_pt : locked (ptable_lock k') = 0;
  af_procs : exists f : proc -> proc, procs k' = f <$> procs k /\ (forall q, awake q (f q));
}.

Lemma start_next k rest (K : M (kstate (ide D)) unit) Q : idequeue (files k) = head rest ->
  (forall c, head rest = Some c -> exists y, ide_bufs (files k) !! c = Some y /\ request_ok y) ->
  (forall d, (rest = [] -> at_disk (ata_of d) = at_disk (view_of (files k))) ->
    (forall c y, head rest = Some c -> ide_bufs (files k) !! c = Some y ->
      at_cmd (ata_of d) = Some (dirty y, at_block y) /\ at_disk (ata_of d) = started y (at_disk (view_of (files k)))) ->
    wp K (on_ctl d k) Q) ->
  wp (q ← gets (fun k => idequeue (files k));
      when (bool_decide (q <> None)) (idestart q);;
      K) k Q.
Proof.
  intros Hq Hr HK. wstep. wstep. rewrite Hq. destruct rest as [|c rest]; cbn [head].
  - rewrite bool_decide_false by (by intros H). cbn [when]. wstep. wstep. specialize (HK (ctl (files k)) ltac:(done) ltac:(done)).
    by destruct k as [? ? ? ? ? ? ? []].
  - rewrite bool_decide_true by done. cbn [when]. destruct (Hr c eq_refl) as (y & Hy & Ho).
    wstep. eapply wp_mono; [by apply (idestart_spec k c y)|]. intros _ k' (d & -> & E1 & E2). apply HK; [done|].
    intros c' y' [= <-] Hy'. by simplify_eq.
Qed.

Lemma leave_ide k k1 lk (Q : unit -> kstate (ide D) -> Prop) : held_from (hw (mach k)) (hw (mach k1)) lk -> idelock (files k1) = lk ->
  (forall h, settles (hw (mach k)) h -> Q tt (set_files (set_idelock free (files k1)) (update hartL h k1))) ->
  wp (release (infiles idelockL)) k1 Q.
Proof. intros Hh Hl HQ. eapply (wp_release_at (infiles idelockL) k1 (hw (mach k))); [cbn; by rewrite Hl|exact HQ]. Qed.

Lemma ideintr_spec k qs : cpu_inv (hw (mach k)) -> locked (ptable_lock k) = 0 -> idelock (files k) = free -> inv (files k) qs ->
  wp ideintr k (fun _ k' => undisturbed k k' /\ intr qs (files k) (files k')).
Proof.
  intros Hcpu Hpt Hlk H. unfold ideintr. wstep.
  eapply (wp_acquire_at (infiles idelockL) k); [exact Hcpu|by cbn; rewrite Hlk|]. intros h1 lk Hh.
  match goal with |- wp _ ?k1' _ => set (k1 := k1') end. assert (files k1 = set_idelock lk (files k)) as Ef by done.
  wstep. wstep. replace (idequeue (files k1)) with (head qs) by exact (eq_sym (linked_head _ _ _ (iv_linked _ _ H))).
  destruct qs as [|b rest]; cbn [head].
  - eapply (leave_ide k k1 lk); [exact Hh|done|]. intros h Hs. split; [split; [exact Hs|exact Hpt|]|].
    + exists id. split; [by rewrite list_fmap_id|]. by left.
    + cbn. rewrite <- Hlk. by destruct (files k).
  - destruct (iv_linked _ _ H) as (Hq & x & Hx & Hl). destruct (iv_cmd _ _ H b x eq_refl Hx) as [Hcmd _].
    wstep. eapply wp_getq; [exact Hx|]. rewrite (linked_head _ _ _ Hl). wstep. unfold set_queue. wstep. wstep. eapply wp_getq; [exact Hx|].
    fold (dirty x). wstep. match goal with |- wp _ ?k2' _ => set (k2 := k2') end.
    eapply wp_mono; [by apply (read_data_spec k2 b x)|]. intros _ k3 (d & -> & Ed).
    wstep. apply wp_setq. wstep. apply wp_setq. wstep.
    cbn [ide_bufs files set_files set_ctl set_ide_bufs]. rewrite !alter_put.
    match goal with |- wp _ ?k4' _ => set (k4 := k4') end.
    set (l' := <[b := finish (fetched (files k) x) x]> (ide_bufs (files k))).
    assert (files k4 = IdeState lk (head rest) (havedisk1 (files k)) l' d) as Ef4 by done.
    apply (wakeup_nested k4 (hw (mach k)) lk (buf_chan b)); [exact Hh|exact Hpt|].
    match goal with |- wp _ ?k5' _ => set (k5 := k5') end.
    pose proof (iv_nodup _ _ H) as Hnd. apply NoDup_cons in Hnd as [Hb _].
    assert (forall c, head rest = Some c -> l' !! c = ide_bufs (files k) !! c) as Hsame.
    { intros c Hc. unfold l'. rewrite list_lookup_insert_ne; [done|]. intros ->. apply Hb. destruct rest; [done|]. injection Hc as ->. by left. }
    apply (start_next k5 rest); [done| |].
    + intros c Hc. change (ide_bufs (files k5)) with l'. rewrite (Hsame c Hc). assert (c ∈ b :: rest) as Hin by (right; destruct rest; [done|injection Hc as ->; by left]).
      destruct (linked_lookup _ _ _ c (iv_linked _ _ H) Hin) as [y Hy]. exists y. split; [done|]. by apply (iv_buf _ _ H c).
    + intros d' Hnone Hnext. change (ide_bufs (files k5)) with l' in Hnext. change (view_of (files k5)) with (ata_of d) in Hnext, Hnone.
      rewrite Ed in Hnext, Hnone. change (view_of (files k2)) with (view_of (files k)) in Hnext, Hnone.
      eapply (leave_ide k (on_ctl d' k5) lk); [exact Hh|done|]. intros h Hs. split; [split; [exact Hs|done|]|].
      * exists (wake (buf_chan b)). split; [done|]. apply wake_awake.
      * split; try done.
        -- intros x' Hx'. by simplify_eq.
        -- intros c y Hc Hy. apply (Hnext c); [done|]. by rewrite Hsame.
Qed.
(** ** What happens while a process waits for buffer [b] *)

(** An interrupt without an error; a request of another process, for another
    block; another process works on a buffer of its own. *)
Inductive step (b : nat) : bool -> ide D -> ide D -> Prop :=
| step_intr s s' qs : inv s qs -> faulty (ctl s) = false -> intr qs s s' -> step b true s s'
| step_request s s' qs c x : inv s qs -> c <> b -> may_request s qs c x ->
    (forall y, ide_bufs s !! b = Some y -> at_block y <> at_block x) -> enqueued qs c s s' -> step b false s s'
| step_owner s qs c f : inv s qs -> c <> b -> c ∉ qs -> step b false s (set_ide_bufs (alter f c (ide_bufs s)) s).

Inductive steps (b : nat) : nat -> ide D -> ide D -> Prop :=
| steps_nil s : steps b 0 s s
| steps_cons (i : bool) n s1 s2 s3 : step b i s1 s2 -> steps b n s2 s3 -> steps b (if i then S n else n) s1 s3.

Lemma linked_fun l qs : forall o qs', linked l o qs -> linked l o qs' -> qs = qs'.
Proof.
  induction qs as [|b qs IH]; intros o [|b' qs'] H1 H2; [done| | |].
  - rewrite H1 in H2. by destruct H2.
  - rewrite H2 in H1. by destruct H1.
  - destruct H1 as (E1 & x & Hx & H1), H2 as (E2 & x' & Hx' & H2). simplify_eq. f_equal. by eapply IH.
Qed.

Lemma inv_fun s qs qs' : inv s qs -> inv s qs' -> qs = qs'.
Proof. intros H1 H2. by eapply linked_fun; apply iv_linked. Qed.

(** The request of [x0] is behind [i] others; the block is [v] if it is read. *)
Record waits (b : nat) (x0 : qbuf) (v : list Z) (i : nat) s : Prop := {
  wt_inv : exists qs1 qs2, inv s (qs1 ++ b :: qs2) /\ length qs1 = i;
  wt_buf : exists x, ide_bufs s !! b = Some x /\ qb x = qb x0;
  wt_block : dirty x0 = false -> at_disk (view_of s) (at_block x0) = v;
}.

(** It has been served. *)
Record finished (b : nat) (x0 : qbuf) (v : list Z) s : Prop := {
  fn_inv : exists qs, inv s qs /\ (b ∉ qs) /\ (forall c y, c ∈ qs -> ide_bufs s !! c = Some y -> at_block y <> at_block x0);
  fn_buf : exists x, ide_bufs s !! b = Some x /\ qb x = qb (finish v x0);
  fn_block : at_disk (view_of s) (at_block x0) = if dirty x0 then b_data (qb x0) else v;
}.

Lemma finish_qb v x y : qb x = qb y -> qb (finish v x) = qb (finish v y).
Proof. intros E. unfold finish, with_data, dirty. cbn. by rewrite E. Qed.

(** Starting a request for another block leaves this one alone. *)
Lemma started_ne y f t : at_block y <> t -> started y f t = f t.
Proof. intros Hne. unfold started, put_fun. destruct (dirty y); [|done]. by rewrite decide_False by congruence. Qed.

Lemma started_other s qs b c x y f : inv s qs -> b ∈ qs -> c ∈ qs -> ide_bufs s !! b = Some x -> ide_bufs s !! c = Some y ->
  (c = b -> dirty x = false) -> started y f (at_block x) = f (at_block x).
Proof.
  intros H Hb Hc Hx Hy Hd. destruct (decide (at_block y = at_block x)) as [E|]; [|by apply started_ne].
  pose proof (iv_blocks _ _ H c b y x Hc Hb Hy Hx E) as ->. simplify_eq. unfold started. by rewrite Hd.
Qed.

Lemma waits_intr b x0 v i s s' : waits b x0 v i s -> step b true s s' ->
  match i with
  | O => finished b x0 v s'
  | S j => waits b x0 v j s'
  end.
Proof.
  intros [(qs1 & qs2 & H & <-) (x & Hx & Ex) Hv] Hst. inversion Hst as [? ? qs H' Hok Hi| |]; subst.
  rewrite (inv_fun _ _ _ H' H) in Hi. clear Hst H' qs. destruct (dirty_qb _ _ Ex) as (Ed & Eb & _).
  assert (b ∈ qs1 ++ b :: qs2) as Hin by (apply elem_of_app; right; by left).
  pose proof (iv_nodup _ _ H) as Hnd. destruct qs1 as [|c qs1]; cbn [app length] in *.
  - pose proof (inv_served _ _ _ _ H Hi) as H'. apply NoDup_cons in Hnd as [Hb _].
    destruct (iv_cmd _ _ H b x eq_refl Hx) as [_ Hdisk].
    assert (at_disk (view_of s) (at_block x0) = if dirty x0 then b_data (qb x0) else v) as Ev.
    { destruct (dirty x0) eqn:E; [|by apply Hv]. rewrite <- Eb, <- Ex. by apply Hdisk. }
    split.
    + exists qs2. split_and!; [done|done|]. intros c y Hc Hy. rewrite (sv_bufs _ _ _ _ Hi x Hx), list_lookup_insert_ne in Hy by congruence.
      rewrite <- Eb. intros E. apply Hb. rewrite <- (iv_blocks _ _ H c b y x); [done|by right|by left|done|done|done].
    + exists (finish (at_disk (view_of s) (at_block x)) x). rewrite (sv_bufs _ _ _ _ Hi x Hx), list_lookup_insert_eq by (by eapply lookup_lt_Some).
      unfold fetched. rewrite Hok. split; [done|]. rewrite (finish_qb _ x x0 Ex), Eb, Ev. unfold finish, with_data. by destruct (dirty x0).
    + rewrite <- Ev. destruct qs2 as [|c qs2]; [by rewrite (sv_none _ _ _ _ Hi)|].
      destruct (linked_lookup _ _ _ c (iv_linked _ _ H)) as [y Hy]; [right; by left|].
      destruct (sv_next _ _ _ _ Hi c y eq_refl Hy) as [_ ->]. rewrite <- Eb. apply (started_other s (b :: c :: qs2) b c); try done; [right; by left|].
      intros ->. destruct Hb. by left.
  - pose proof (inv_served _ _ _ _ H Hi) as H'. apply NoDup_cons in Hnd as [Hc _].
    assert (c <> b) as Hcb by (intros ->; apply Hc, elem_of_app; right; by left).
    destruct (linked_lookup _ _ _ c (iv_linked _ _ H)) as [z Hz]; [by left|].
    split.
    + by exists qs1, qs2.
    + exists x. by rewrite (sv_bufs _ _ _ _ Hi z Hz), list_lookup_insert_ne.
    + intros E. rewrite <- (Hv E). destruct (head (qs1 ++ b :: qs2)) as [c'|] eqn:Eh; [|by destruct qs1].
      destruct (linked_lookup _ _ _ c' (iv_linked _ _ H)) as [y Hy]; [right; destruct qs1; injection Eh as <-; by left|].
      destruct (sv_next _ _ _ _ Hi c' y Eh Hy) as [_ ->]. rewrite <- Eb. apply (started_other s (c :: qs1 ++ b :: qs2) b c'); try done.
      * right. destruct qs1; injection Eh as <-; by left.
      * intros _. congruence.
Qed.

Lemma inv_owner s qs c f : inv s qs -> c ∉ qs -> inv (set_ide_bufs (alter f c (ide_bufs s)) s) qs.
Proof.
  intros H Hc. assert (forall b, b ∈ qs -> alter f c (ide_bufs s) !! b = ide_bufs s !! b) as Hs.
  { intros b Hb. apply list_lookup_alter_ne. congruence. }
  destruct H as [H1 H2 H3 H4 H5 H6]. split; cbn [ide_bufs set_ide_bufs idequeue]; try done.
  - by apply linked_alter.
  - intros b x Hb. rewrite Hs by done. by apply H4.
  - intros b b' x y Hb Hb'. rewrite !Hs by done. by apply H5.
  - intros b x Hh. rewrite Hs by (destruct qs; [done|injection Hh as ->; by left]). by apply H6.
Qed.

Lemma waits_other b x0 v i s s' : waits b x0 v i s -> step b false s s' -> waits b x0 v i s'.
Proof.
  intros [(qs1 & qs2 & H & Hl) (x & Hx & Ex) Hv] Hst. destruct (dirty_qb _ _ Ex) as (Ed & Eb & _).
  inversion Hst as [|? ? qs c y H' Hcb M Hy E|? qs c f H' Hcb Hc]; subst; rewrite (inv_fun _ _ _ H' H) in *; clear Hst H' qs.
  - pose proof (inv_enqueued _ _ _ _ _ H M E) as H'. split.
    + exists qs1, (qs2 ++ [c]). rewrite <- app_assoc in H'. done.
    + rewrite (eq_bufs _ _ _ _ E). destruct (link_lookup_fwd (qs1 ++ b :: qs2) c (ide_bufs s) b x Hx) as (x' & Hx' & Ex'). exists x'. by rewrite Ex'.
    + rewrite (eq_more _ _ _ _ E) by (by destruct qs1). done.
  - split; [|exists x; cbn; by rewrite list_lookup_alter_ne|done]. exists qs1, qs2. split; [by apply inv_owner|done].
Qed.

Lemma finished_step b x0 v i s s' : finished b x0 v s -> step b i s s' -> finished b x0 v s'.
Proof.
  intros [(qs & H & Hb & Ho) (x & Hx & Ex) Hv] Hst.
  assert (at_block x = at_block x0) as Eb by (unfold at_block; by rewrite Ex).
  inversion Hst as [? ? qs' H' _ Hi|? ? qs' c y H' Hcb M Hy E|? qs' c f H' Hcb Hc]; subst; rewrite (inv_fun _ _ _ H' H) in *; clear Hst H' qs'.
  - destruct qs as [|c rest]; [rewrite Hi; by split; [exists []|exists x|]|]. pose proof (inv_served _ _ _ _ H Hi) as H'.
    destruct (linked_lookup _ _ _ c (iv_linked _ _ H)) as [z Hz]; [by left|].
    assert (c <> b) as Hcb by (intros ->; apply Hb; by left).
    pose proof (iv_nodup _ _ H) as Hnd. apply NoDup_cons in Hnd as [Hc _]. split.
    + exists rest. split_and!; [done|intros Hin; apply Hb; by right|]. intros e y He Hy.
      rewrite (sv_bufs _ _ _ _ Hi z Hz), list_lookup_insert_ne in Hy by congruence. apply (Ho e); [by right|done].
    + exists x. by rewrite (sv_bufs _ _ _ _ Hi z Hz), list_lookup_insert_ne.
    + rewrite <- Hv. destruct rest as [|e rest]; [by rewrite (sv_none _ _ _ _ Hi)|].
      destruct (linked_lookup _ _ _ e (iv_linked _ _ H)) as [y Hy]; [right; by left|].
      destruct (sv_next _ _ _ _ Hi e y eq_refl Hy) as [_ ->]. apply started_ne. apply (Ho e); [right; by left|done].
  - pose proof (inv_enqueued _ _ _ _ _ H M E) as H'. split.
    + exists (qs ++ [c]). split_and!; [done| |].
      * intros Hin. apply elem_of_app in Hin as [|Hin]; [done|]. apply list_elem_of_singleton in Hin. congruence.
      * intros e z He Hz. rewrite (eq_bufs _ _ _ _ E) in Hz. destruct (link_lookup _ _ _ _ _ Hz) as (z' & Hz' & Ez).
        destruct (dirty_qb _ _ Ez) as (_ & <- & _). apply elem_of_app in He as [He|He]; [by apply (Ho e)|].
        apply list_elem_of_singleton in He as ->. rewrite (mr_buf _ _ _ _ M) in Hz'. injection Hz' as <-. rewrite <- Eb. intros E'. by apply (Hy x).
    + rewrite (eq_bufs _ _ _ _ E). destruct (link_lookup_fwd qs c (ide_bufs s) b x Hx) as (x' & Hx' & Ex'). exists x'. by rewrite Ex'.
    + rewrite <- Hv. destruct qs as [|e qs]; [|by rewrite (eq_more _ _ _ _ E)].
      destruct (eq_first _ _ _ _ E y eq_refl (mr_buf _ _ _ _ M)) as [_ ->]. apply started_ne. rewrite <- Eb. intros E'. by apply (Hy x).
  - split; [|exists x; cbn; by rewrite list_lookup_alter_ne|done]. exists qs. split_and!; [by apply inv_owner|done|].
    intros e y He Hy. cbn in Hy. rewrite list_lookup_alter_ne in Hy by congruence. by apply (Ho e).
Qed.

Lemma finished_steps b x0 v n s s' : finished b x0 v s -> steps b n s s' -> finished b x0 v s'.
Proof. intros Hf Hst. induction Hst as [|i n s1 s2 s3 H1 _ IH]; [done|]. by eapply IH, finished_step. Qed.

(** After [n] interrupts the request is [n] places further, or served. *)
Lemma waits_steps b x0 v n s s' : steps b n s s' -> forall i, waits b x0 v i s ->
  if decide (n <= i)%nat then waits b x0 v (i - n) s' else finished b x0 v s'.
Proof.
  intros Hst. induction Hst as [s|e n s1 s2 s3 H1 H2 IH]; intros i Hw; [by rewrite decide_True, Nat.sub_0_r by lia|]. destruct e.
  - pose proof (waits_intr _ _ _ _ _ _ Hw H1) as Hw'. destruct i as [|i].
    + rewrite decide_False by lia. by eapply finished_steps.
    + specialize (IH i Hw'). case_decide; [rewrite decide_True by lia|rewrite decide_False by lia]; done.
  - apply IH. by eapply waits_other.
Qed.
(** ** iderw *)

(** The process may sleep on [b] when its request is in the queue; while it
    sleeps the others take steps, of which one is an interrupt at least. *)
Definition may_sleep (ch : channel) s : Prop :=
  idelock s = free /\ exists b qs, ch = buf_chan b /\ inv s qs /\ (b ∈ qs).
Definition slept (ch : channel) s s' : Prop :=
  idelock s' = idelock s /\ forall b, ch = buf_chan b -> exists n, steps b (S n) s s'.

Context `{SL : !SleepLaws may_sleep slept}.

Lemma finish_valid v x : Z.land (b_flags (qb (finish v x))) 6 = 2.
Proof.
  cbn. change (Z.lnot B_DIRTY) with (-5). change B_VALID with 2. rewrite <- Z.land_assoc. change (Z.land (-5) 6) with 2.
  rewrite Z.land_lor_distr_l. change (Z.land 2 2) with 2. apply Z.bits_inj'. intros n Hn. rewrite Z.lor_spec, Z.land_spec.
  destruct (Z.testbit 2 n); [apply orb_true_r|]. by rewrite andb_false_r.
Qed.

(** A process inside the critical section of [idelock], with the driver's
    state [x] but for the lock. *)
Record inside (p : nat) (m : Z) k x : Prop := {
  in_held : exists h0, held_from h0 (hw (mach k)) (idelock (files k)) /\ unlocked h0 /\ running_on h0 p;
  in_pt : locked (ptable_lock k) = 0;
  in_pid : exists q, procs k !! p = Some q /\ pid q = m;
  in_files : files k = set_idelock (idelock (files k)) x;
  in_free : idelock x = free;
}.

Lemma inside_bufs p m k x : inside p m k x -> ide_bufs (files k) = ide_bufs x.
Proof. intros H. by rewrite (in_files _ _ _ _ H). Qed.

Lemma iderw_wait_spec p m b x0 v n : forall i k x, inside p m k x ->
  (finished b x0 v x \/ (waits b x0 v i x /\ pending x0 /\ (i < n)%nat)) ->
  wp (iderw_wait b n) k (fun _ k' => exists x', inside p m k' x' /\ finished b x0 v x').
Proof.
  induction n as [|n IH]; intros i k x Hin Hw; cbn [iderw_wait]; wstep.
  - destruct Hw as [Hf|(_ & _ & Hn)]; [|lia]. destruct (fn_buf _ _ _ _ Hf) as (y & Hy & Ey).
    eapply wp_getq; [by rewrite (inside_bufs _ _ _ _ Hin)|]. rewrite Ey. change (Z.lor B_VALID B_DIRTY) with 6. rewrite finish_valid.
    cbn. by exists x.
  - destruct Hw as [Hf|(Hw & Hp & Hn)].
    { destruct (fn_buf _ _ _ _ Hf) as (y & Hy & Ey).
      eapply wp_getq; [by rewrite (inside_bufs _ _ _ _ Hin)|]. rewrite Ey. change (Z.lor B_VALID B_DIRTY) with 6. rewrite finish_valid.
      cbn. by exists x. }
    destruct (wt_buf _ _ _ _ _ Hw) as (y & Hy & Ey). eapply wp_getq; [by rewrite (inside_bufs _ _ _ _ Hin)|].
    rewrite Ey. change (Z.lor B_VALID B_DIRTY) with 6. change B_VALID with 2. rewrite (proj2 (Z.eqb_neq _ _)) by exact Hp. cbn [negb].
    wstep. destruct Hin as [(h0 & Hh & Hu & Hr) Hpt (q & Hq & Epid) Hf Hx].
    eapply (sleep_on_spec may_sleep slept idelockL); [|exact Hh|exact Hu|exact Hr|exact Hpt|exact Hq|exact Hf|apply _|exact Hx| |].
    + intros ch s s' [E _] _ Es. split; [apply _|]. cbn in *. congruence.
    + split; [done|]. destruct (wt_inv _ _ _ _ _ Hw) as (qs1 & qs2 & H & _). exists b, (qs1 ++ b :: qs2).
      split_and!; [done|done|]. apply elem_of_app. right. by left.
    + intros k' h1 x' Hh' Hu' Hr' Hpt' (q' & Hq' & E') Hf' _ Hx' [_ HR]. destruct (HR b eq_refl) as (j & Hst).
      eapply (IH (i - S j)%nat k' x').
      * split; [by exists h1|done|exists q'; by rewrite E'|done|done].
      * pose proof (waits_steps _ _ _ _ _ _ Hst i Hw) as Hw'. case_decide; [right|by left]. split_and!; [done|done|lia].
Qed.

Lemma inv_lock lk s qs : inv s qs -> inv (set_idelock lk s) qs.
Proof. intros [H1 H2 H3 H4 H5 H6]. by split. Qed.

(** A request that has just been made. *)
Lemma enqueued_waits lk s s' qs b x0 : inv s qs -> may_request s qs b x0 -> enqueued qs b (set_idelock lk s) s' ->
  waits b x0 (at_disk (view_of s) (at_block x0)) (length qs) (set_idelock free s').
Proof.
  intros H M E. assert (may_request (set_idelock lk s) qs b x0) as M' by (destruct M; by split).
  pose proof (inv_enqueued _ _ _ _ _ (inv_lock lk s qs H) M' E) as H'. split.
  - exists qs, []. split; [by apply inv_lock|done].
  - cbn. rewrite (eq_bufs _ _ _ _ E). exact (link_lookup_fwd qs b _ b x0 (mr_buf _ _ _ _ M)).
  - intros Hd. destruct qs as [|c qs].
    + destruct (eq_first _ _ _ _ E x0 eq_refl (mr_buf _ _ _ _ M)) as [_ Es]. change (view_of (set_idelock free s')) with (view_of s').
      rewrite Es. unfold started. by rewrite Hd.
    + change (view_of (set_idelock free s')) with (view_of s'). by rewrite (eq_more _ _ _ _ E).
Qed.

(** C15: iderw of a buffer ends when interrupts without disk errors keep coming
    while it sleeps, for any requests before it in the queue and any that other
    processes make for other blocks meanwhile: a buffer to be read has the
    contents that its block had, a dirty one is on the disk; it is valid, clean,
    and out of the queue, which is in order. *)
Theorem iderw_serves p m k qs b x0 :
  quiet p m k -> unlocked (hw (mach k)) -> idelock (files k) = free -> inv (files k) qs -> may_request (files k) qs b x0 ->
  b_lock (qb x0) = SleepLock 1 free m -> b_dev (qb x0) = 0 \/ havedisk1 (files k) = true -> (length qs < naps)%nat ->
  wp (iderw b) k (fun _ k' => exists qs' x', inv (files k') qs' /\ idelock (files k') = free /\ (b ∉ qs') /\
    ide_bufs (files k') !! b = Some x' /\ Z.land (b_flags (qb x')) 6 = 2 /\
    b_data (qb x') = (if dirty x0 then b_data (qb x0) else at_disk (view_of (files k)) (at_block x0)) /\
    at_disk (view_of (files k')) (at_block x0) = b_data (qb x')).
Proof.
  intros Hq Hu Hlk H M Hsl Hdev Hn. destruct (M) as [M1 M2 M3 M4 M5 M6]. unfold iderw. wstep.
  eapply wp_mono; [apply (holdingsleep_spec (qbuf_sl b) k p m (SleepLock 1 free m) Hq)|].
  { split; [|split; [|done]].
    - refine (compose_at ide_bufsL (cellL qbuf0 _ b) (files k) _ _). apply cellL_at; [apply _|by eapply lookup_lt_Some].
    - cbn. by rewrite M3. }
  intros h k1 (C1 & E1 & ->). cbn [sl_locked sl_pid]. rewrite Z.eqb_refl. cbn [negb Z.eqb andb].
  wstep. eapply wp_getq; [by rewrite E1|]. change (Z.lor B_VALID B_DIRTY) with 6. change B_VALID with 2. rewrite (proj2 (Z.eqb_neq _ _)) by exact M4.
  wstep. eapply wp_getq; [by rewrite E1|]. wstep. wstep. rewrite E1.
  assert (negb (b_dev (qb x0) =? 0) && negb (havedisk1 (files k)) = false) as ->.
  { destruct Hdev as [-> | ->]; [done|apply andb_false_r]. }
  pose proof (quiet_calm _ _ _ _ Hq C1) as Hq1. assert (unlocked (hw (mach k1))) as Hu1 by (by rewrite (proj1 (calm_hw _ _ C1))).
  wstep. eapply (wp_acquire_at (infiles idelockL) k1); [by eapply quiet_cpu|cbn; by rewrite E1, Hlk|]. intros h1 lk Hh.
  match goal with |- wp _ ?k2' _ => set (k2 := k2') end.
  assert (files k2 = set_idelock lk (files k)) as Ef by (by rewrite <- E1).
  apply (enqueue_spec k2 qs b x0); [rewrite Ef; by apply inv_lock|rewrite Ef; by split|]. rewrite Ef. intros s' E.
  pose proof (enqueued_waits lk _ _ _ _ _ H M E) as Hw. set (v := at_disk (view_of (files k)) (at_block x0)) in *.
  wstep. eapply wp_mono.
  { apply (iderw_wait_spec p m b x0 v naps (length qs) (set_files s' k2) (set_idelock free s')); [|right; done].
    assert (idelock s' = lk) as El by (by rewrite (eq_lock _ _ _ _ E)).
    split; [|apply Hq1| | |done].
    - exists (hw (mach k1)). split_and!; [cbn; by rewrite El|done|apply Hq1].
    - destruct (proj1 (fmap_Some _ _ _) (quiet_pid _ _ _ Hq1)) as (q & Hpq & ->). by exists q.
    - by destruct s'. }
  intros _ k3 (x & [(h0 & Hh0 & _ & _) _ _ Hf Hx] & [(qs' & HI & Hb & _) (y & Hy & Ey) Hdisk]).
  eapply (wp_release_at (infiles idelockL) k3 h0); [exact Hh0|]. intros h Hs.
  assert (forall g, files (update (infiles idelockL) (Spinlock 0 None) (update hartL g k3)) = x) as Efin.
  { intros g. transitivity (set_idelock free x); [cbn; by rewrite Hf|rewrite <- Hx; by destruct x]. }
  exists qs', y. rewrite Efin. split_and!; try done.
  - rewrite Ey. apply finish_valid.
  - rewrite Ey. unfold finish, with_data. cbn. by destruct (dirty x0).
  - rewrite Hdisk, Ey. unfold finish, with_data. cbn. by destruct (dirty x0).
Qed.
(** C38: when the disk reports an error for the block that is being read, the
    handler marks the buffer valid all the same: it keeps its old bytes, and the
    process that waits for it takes them for the block. *)
Theorem read_error_hidden k b rest x :
  cpu_inv (hw (mach k)) -> locked (ptable_lock k) = 0 -> idelock (files k) = free -> inv (files k) (b :: rest) ->
  ide_bufs (files k) !! b = Some x -> dirty x = false -> faulty (ctl (files k)) = true ->
  wp ideintr k (fun _ k' => exists x', ide_bufs (files k') !! b = Some x' /\ Z.land (b_flags (qb x')) 6 = 2 /\
    b_data (qb x') = b_data (qb x)).
Proof.
  intros Hc Hpt Hlk H Hx Hd Hf. eapply wp_mono; [by apply (ideintr_spec k (b :: rest))|]. intros _ k' [_ V].
  eexists. rewrite (sv_bufs _ _ _ _ V x Hx), list_lookup_insert_eq by (by eapply lookup_lt_Some). split; [done|].
  split; [apply finish_valid|]. unfold finish, with_data, fetched. cbn. by rewrite Hd, Hf.
Qed.
End Driver.

(** ** A controller *)

Record dev : Type := Dev {
  dv_ata : ata;
  dv_len : forall t, length (at_disk dv_ata t) = 512%nat;
}.

Lemma put_len f t bs : (forall t, length (f t) = 512%nat) -> length bs = 512%nat -> forall t', length (@put_fun (Z * Z) (list Z) _ t bs f t') = 512%nat.
Proof. intros Hf Hb t'. unfold put_fun. by case_decide. Qed.

Definition dev_cmd (c : option (bool * (Z * Z))) (d : dev) : dev := Dev (set_cmd c (dv_ata d)) (dv_len d).
Definition dev_reg (p v : Z) (d : dev) : dev := Dev (set_reg p v (dv_ata d)) (dv_len d).
Definition dev_put (t : Z * Z) (bs : list Z) (Hb : length bs = 512%nat) (d : dev) : dev :=
  Dev (set_disk (put_fun t bs (at_disk (dv_ata d))) (dv_ata d)) (put_len _ t bs (dv_len d) Hb).

(** It is never busy; with [fault] every command fails. *)
Definition dev_ports (fault : bool) : Ports dev := {|
  port_in p d := (if fault then 0x41 else 0x40, d);
  port_out p v d :=
    if p =? 0x3f6 then d else
    if p =? 0x1f7 then
      if v =? 0x20 then dev_cmd (Some (false, target (dv_ata d))) d
      else if v =? 0x30 then dev_cmd (Some (true, target (dv_ata d))) d
      else d
    else dev_reg p v d;
  data_in d := (match at_cmd (dv_ata d) with Some (_, t) => at_disk (dv_ata d) t | None => [] end, d);
  data_out bs d :=
    match at_cmd (dv_ata d), decide (length bs = 512%nat) with
    | Some (true, t), left Hb => dev_put t bs Hb d
    | _, _ => d
    end;
  ioapicwrite _ _ d := d;
  polls := 0;
|}.

Definition dev_laws (fault : bool) : @AtaLaws dev (dev_ports fault).
Proof.
  refine (@Build_AtaLaws dev (dev_ports fault) dv_ata (fun _ => 0%nat) (fun _ => fault) _ _ _ _ _ _ _ _ _); cbn.
  - lia.
  - intros d. split; [done|]. split; [done|]. by destruct fault.
  - intros p v d Hp. assert (p <> 0x3f6 /\ p <> 0x1f7) as [E1 E2] by (split; intros ->; repeat (apply elem_of_cons in Hp as [Hp|Hp]; [done|]); by apply elem_of_nil in Hp).
    by rewrite (proj2 (Z.eqb_neq _ _) E1), (proj2 (Z.eqb_neq _ _) E2).
  - done.
  - done.
  - done.
  - intros d t bs E Hb. rewrite E. case_decide; [done|contradiction].
  - intros d t E _. by rewrite E.
  - apply dv_len.
Defined.

#[local] Instance good_ports : Ports dev := dev_ports false.

(** While a process sleeps another processor takes one interrupt. *)
Definition other_cpu (k : kstate (ide dev)) : kstate (ide dev) := set_ptable_lock free (update hartL (hw (Demo.state0 Demo.present1 0)) k).

Definition run_irq : M (kstate (ide dev)) unit := fun k =>
  match ideintr (other_cpu k) with
  | Ok _ k' => Ok tt (set_files (files k') (set_procs (alter (set_state RUNNING) 0%nat (procs k)) k))
  | _ => Fault k
  end.
#[local] Instance irq_env : SwitchEnv (ide dev) := {| others := run_irq; naps := 2 |}.
#[local] Instance good_laws : AtaLaws dev := dev_laws false.

Lemma irq_sleep : @SleepLaws _ irq_env may_sleep slept.
Proof.
  intros k p q i c _ _ _ _ _ Hq _ [Hlk (b & qs & Ech & H & Hb)].
  assert (cpu_inv (hw (Demo.state0 Demo.present1 0))) as Hc by (exists 0%nat, Demo.cpu0; by split_and!).
  destruct (wp_inv _ _ _ (ideintr_spec (other_cpu k) qs Hc eq_refl Hlk H)) as ([] & k' & E & U & V).
  eapply (wp_ok _ _ tt); [change (@others _ irq_env) with run_irq; unfold run_irq; by rewrite E|]. split_and!; [done|done| |].
  - cbn. rewrite list_lookup_alter. case_decide as Ep; [subst|]; rewrite Hq; eexists; split; done.
  - split.
    + cbn. destruct qs as [|c0 rest]; [by rewrite V|]. by rewrite (sv_lock _ _ _ _ V).
    + intros b' Eb. exists 0%nat. eapply (steps_cons b' true 0); [|apply steps_nil]. eapply step_intr; [exact H|done|exact V].
Qed.
(** Buffer 0 is being read from block 7; process 1 writes buffer 1 to block 9. *)
Definition reading : qbuf := QBuf (Buf 0 1 7 sleeplock0 1 0 0 (replicate 512 0)) None.
Definition writing : qbuf := QBuf (Buf 6 1 9 (SleepLock 1 free 1) 1 0 0 (replicate 512 1)) None.
Definition ata0 : ata := Ata (fun _ => 0) (Some (false, (1, 7))) (fun _ => replicate 512 7).
Definition dev0 : dev := Dev ata0 (fun _ => eq_refl).
Definition ide0 : ide dev := IdeState free (Some 0%nat) true [reading; writing] dev0.
Definition kernel_ide : kstate (ide dev) := KState (Demo.state0 Demo.present1 0) free [Demo.proc0] 2 (Some 0%nat) 0 free ide0.

Lemma ide0_inv P (L : @AtaLaws dev P) : @ata_of dev P L dev0 = ata0 -> inv ide0 [0%nat].
Proof.
  intros E. split.
  - split; [done|]. by exists reading.
  - apply NoDup_singleton.
  - intros b Hb. apply list_elem_of_singleton in Hb. lia.
  - intros b x Hb Hx. apply list_elem_of_singleton in Hb as ->. injection Hx as <-. split; [done|]. split; [cbn; lia|done].
  - intros b c x y Hb Hc _ _ _. apply list_elem_of_singleton in Hb as ->. by apply list_elem_of_singleton in Hc.
  - intros b x [= <-] [= <-]. unfold view_of. cbn [ctl ide0]. by rewrite E.
Qed.

Lemma ide0_request : may_request ide0 [0%nat] 1 writing.
Proof.
  split; [|lia|done|done|split; [cbn; lia|done]|].
  - intros Hin. by apply list_elem_of_singleton in Hin.
  - intros b y Hb Hy. apply list_elem_of_singleton in Hb as ->. injection Hy as <-. done.
Qed.

Lemma kernel_ide_quiet : quiet 0 1 kernel_ide.
Proof. split; [|done|done]. exists 0%nat, Demo.cpu0. by split_and!. Qed.

Lemma iderw_serves_witness : exists k', iderw 1 kernel_ide = Ok tt k' /\
  at_disk (dv_ata (ctl (files k'))) (1, 9) = replicate 512 1.
Proof.
  pose proof irq_sleep.
  destruct (wp_inv _ _ _ (iderw_serves 0 1 kernel_ide [0%nat] 1 writing kernel_ide_quiet
    ltac:(exists 0%nat, Demo.cpu0; by split_and!) eq_refl (ide0_inv _ good_laws eq_refl) ide0_request eq_refl
    ltac:(by right) ltac:(cbn; lia))) as ([] & k' & E & qs' & x' & _ & _ & _ & _ & _ & Ed & W).
  exists k'. split; [exact E|]. change (at_disk (dv_ata (ctl (files k'))) (1, 9)) with (at_disk (view_of (files k')) (at_block writing)).
  rewrite W, Ed. done.
Defined.

(** With the controller that fails, the buffer of zeros passes for block 7. *)
Lemma read_error_hidden_witness : exists k', @ideintr dev (dev_ports true) kernel_ide = Ok tt k' /\
  exists x', ide_bufs (files k') !! 0%nat = Some x' /\ Z.land (b_flags (qb x')) 6 = 2 /\ b_data (qb x') = replicate 512 0.
Proof.
  destruct (wp_inv _ _ _ (@read_error_hidden dev (dev_ports true) (dev_laws true) kernel_ide 0 [] reading
    ltac:(exists 0%nat, Demo.cpu0; by split_and!) eq_refl eq_refl (ide0_inv _ (dev_laws true) eq_refl) eq_refl eq_refl eq_refl)) as ([] & k' & E & W).
  exists k'. split; [exact E|exact W].
Defined.
End IdeProofs.
