(* ===== verification/TrapProofs.v ===== *)
(** * From the trap to the system call

    [trap] and [syscall] for a process that is not killed: the call that [eax]
    selects runs, and its result is stored in the trap frame. *)

From S2P Require Import Prelude Memory Mmu Machine Spinlock Kalloc Vm PageTable VmProofs VmSpaces.
From S2P Require Import Encrypt ProcTable Clock ClockProofs Demo EncryptTheorems UserMem Proc ProcProofs.
From S2P Require Import FileState Sleeplock Bio BioProofs BioInit Log LogProofs LogCommit LogOps FileDemo.
From S2P Require Import Ulib Cprintf Fs Pipe PipeProofs File Console FsBlocks FsInode FsRead FsDinode FsWrite.
From S2P Require Import UserPtr Syscall SyscallProofs Exec Sysfile Trap.

Section Frame.
Context `{KI : KernelImage, PO : !PageOps, PA : !PageAllocator}.
Context (p : nat) (n : Z) (q0 : proc) (l : list Z) (dom : Z -> bool) (own : Z -> Prop).
Implicit Types (k : kstate fstate) (g fr : Z -> Z).
Abbreviation caller := (caller p n q0 l dom own).
Hypothesis P : process n q0 l dom own.

(** A word of the trap frame. *)
Lemma caller_kstore32 g fr k j w :
  caller g fr k -> 0 <= j <= 72 ->
  let k' := set_mach (set_mem (store32 (mem (mach k)) (V2P (tf q0) + j) w) (mach k)) k in
  caller g (fun i => load32 (mem (mach k')) (V2P (tf q0) + i)) k'.
Proof.
  intros [[U [Q1 Q2 Q3]] _] Hj k'. split; [|done]. split; [|by split].
  assert (forall i, 0 <= i < 4 -> forall v, own v \/ v ∈ l -> ~ in_page v (V2P (tf q0) + j + i)) as Ho.
  { intros i Hi v Hv. apply (pr_frame _ _ _ _ _ P); [unfold TF_SIZE; lia|done]. }
  pose proof (Ho 0 ltac:(lia)) as H0. rewrite Z.add_0_r in H0.
  exact (user_kstore p q0 l dom own _ g _ (w / 16777216) (user_kstore p q0 l dom own _ g _ (w / 65536)
    (user_kstore p q0 l dom own _ g _ (w / 256) (user_kstore p q0 l dom own k g _ w U H0) (Ho 1 ltac:(lia)))
    (Ho 2 ltac:(lia))) (Ho 3 ltac:(lia))).
Qed.

(** The result. *)
Lemma set_eax_of g fr k v :
  caller g fr k -> wp (set_eax p v) k (fun _ k' =>
    caller g (fun j => load32 (mem (mach k')) (V2P (tf q0) + j)) k' /\ files k' = files k /\ ofile <$> procs k' = ofile <$> procs k /\
    load32 (mem (mach k')) (V2P (tf q0) + TF_eax) = u32 v).
Proof.
  intros C. unfold set_eax. wstep. apply (caller_getp p n q0 l dom own g fr k tf _ C); [done|].
  apply wp_zoom. unfold kstore32. wstep. rewrite (frame_addr n q0 l dom own P) by (unfold TF_eax; lia).
  split_and!; [apply (caller_kstore32 g fr k _ _ C); unfold TF_eax; lia|done|done|].
  cbn. rewrite load32_store32_eq. unfold u32. dlia.
Qed.

Lemma exit_unless_killed g fr k (Q : unit -> kstate fstate -> Prop) `{SE : SwitchEnv fstate, DD : DiskDriver, DV : Devices, PI : ProcImage} :
  caller g fr k -> killed q0 = false -> (forall k', caller g fr k' -> ukeep p own k k' -> Q tt k') -> wp exit_if_killed k Q.
Proof.
  intros C Hk HQ. unfold exit_if_killed. wstep. apply (caller_mygetp p n q0 l dom own P g fr k killed _ C); [done|].
  intros k1 C1 K1. rewrite Hk. cbn [when]. wstep. by apply HQ.
Qed.
End Frame.

Section Calls.
Context `{SE : SwitchEnv fstate, DD : DiskDriver, DV : Devices, KI : KernelImage, PO : !PageOps, PA : !PageAllocator, PI : ProcImage}.
Context `{IR : Interrupts}.
Context (p : nat) (n : Z) (q0 : proc) (l : list Z) (dom : Z -> bool) (own : Z -> Prop).
Implicit Types (k : kstate fstate) (g fr : Z -> Z).
Abbreviation caller := (caller p n q0 l dom own).
Abbreviation ukeep := (ukeep p own).
Abbreviation arg := (arg q0).
Hypothesis P : process n q0 l dom own.

Lemma or_fail_some {A} (m : FK (option A)) (h : A -> FK Z) k a (Q : Z -> kstate fstate -> Prop) :
  wp m k (fun o k' => o = Some a /\ wp (h a) k' Q) -> wp (or_fail m h) k Q.
Proof. intros H. unfold or_fail. wstep. eapply wp_mono; [exact H|]. intros o k' [-> H']. done. Qed.

Lemma argfd_spec g fr k i fd f :
  caller g fr k -> arg g fr i = Some fd -> 0 <= fd < NOFILE -> ofile q0 !! Z.to_nat fd = Some (Some f) ->
  wp (argfd i) k (fun o k' => o = Some (fd, f) /\ caller g fr k' /\ ukeep k k').
Proof.
  intros C Ha Hfd Hf. unfold argfd. wstep. eapply wp_mono; [apply (argint_spec p n q0 l dom own P g fr k i C)|].
  intros o k1 (-> & C1 & K1). rewrite Ha, (proj2 (Z.ltb_ge _ _)), (proj2 (Z.leb_gt _ _)) by lia. cbn [orb]. wstep.
  apply (caller_mygetp p n q0 l dom own P g fr k1 ofile _ C1); [done|]. intros k2 C2 K2. wstep. rewrite Hf. wstep. wstep.
  split_and!; [done|done|by etrans].
Qed.

(** What a call leaves of the caller: it may have other files. *)
Definition resumes (q1 : proc) : Prop := process n q1 l dom own /\ tf q1 = tf q0 /\ killed q1 = false.

(** The files and the descriptors. *)
Definition same_fds k k' : Prop := files k' = files k /\ ofile <$> procs k' = ofile <$> procs k.

Lemma keep_fds k k' : ukeep k k' -> same_fds k k'.
Proof.
  intros K. split; [by apply (keep_files _ _ _ _ K)|]. apply list_eq. intros i. rewrite !list_lookup_fmap.
  pose proof (uk_procs _ _ _ _ K i) as E. destruct (procs k' !! i), (procs k !! i); cbn in *; try done. f_equal. by injection E.
Qed.

(** [syscall] with the number of the call [c]: the result is in [eax]. *)
Lemma syscall_spec g fr k c (Q : Z -> kstate fstate -> Prop) :
  caller g fr k -> 0 < i32 (fr TF_eax) -> syscalls !! Z.to_nat (i32 (fr TF_eax)) = Some (Some c) ->
  (forall k1, caller g fr k1 -> ukeep k k1 ->
     wp c k1 (fun r k2 => exists q1, resumes q1 /\ SyscallProofs.caller p n q1 l dom own g fr k2 /\ forall fr' k3, same_fds k2 k3 ->
       SyscallProofs.caller p n q1 l dom own g fr' k3 -> fr' TF_eax = u32 r -> Q r k3)) ->
  wp syscall k (fun _ k' => exists r, Q r k').
Proof.
  intros C Hn Hc H. unfold syscall. wstep. apply (wp_curproc p n q0 l dom own P g fr k _ C). intros k1 C1 K1. wstep.
  apply (caller_getp p n q0 l dom own g fr k1 tf _ C1); [done|]. wstep.
  apply (caller_frame p n q0 l dom own P g fr k1); [done|unfold TF_eax; lia|].
  rewrite (proj2 (Z.ltb_lt _ _)), Hc by done. wstep.
  eapply wp_mono; [by apply H|]. intros r k2 (q1 & (P1 & T1 & _) & C2 & HQ).
  eapply wp_mono; [apply (set_eax_of p n q1 l dom own P1 g fr k2 r C2)|]. intros _ k3 (C3 & F3 & E3 & L3). exists r.
  eapply HQ; [by split|exact C3|exact L3].
Qed.

(** [myproc()->tf = tf], which it is already. *)
Lemma set_tf_spec g fr k (Q : unit -> kstate fstate -> Prop) :
  caller g fr k -> (forall k', caller g fr k' -> ukeep k k' -> Q tt k') -> wp (mysetp (set_tf (tf q0))) k Q.
Proof.
  intros C HQ. destruct (caller_run p n q0 l dom own g fr k C) as (q & Eq & Hq & Hr). apply (wp_mysetp k p); [done|]. intros h Hh.
  assert (alter (set_tf (tf q0)) p (procs k) = procs k) as E.
  { apply list_eq. intros i. rewrite list_lookup_alter. case_decide; [subst i|done]. rewrite Hq. cbn. f_equal.
    assert (tf q0 = tf q) as -> by (by injection Eq). by destruct q. }
  rewrite E. replace (set_procs (procs k) (update hartL h k)) with (update hartL h k) by (by destruct k).
  apply HQ; [by apply (caller_hart p n q0 l dom own P)|apply keep_hart].
Qed.

(** A system call of a process that is not killed. *)
Lemma trap_syscall_spec g fr k c cr2 (Q : kstate fstate -> Prop) :
  caller g fr k -> killed q0 = false -> fr TF_trapno = T_SYSCALL ->
  0 < i32 (fr TF_eax) -> syscalls !! Z.to_nat (i32 (fr TF_eax)) = Some (Some c) ->
  (forall k1, caller g fr k1 -> same_fds k k1 ->
     wp c k1 (fun r k2 => exists q1, resumes q1 /\ SyscallProofs.caller p n q1 l dom own g fr k2 /\ forall fr' k3, same_fds k2 k3 ->
       SyscallProofs.caller p n q1 l dom own g fr' k3 -> fr' TF_eax = u32 r -> Q k3)) ->
  wp (trap (tf q0) cr2) k (fun _ k' => Q k').
Proof.
  assert (forall k1 k2 k3, same_fds k1 k2 -> same_fds k2 k3 -> same_fds k1 k3) as trans.
  { intros k1 k2 k3 [E1 E2] [E3 E4]. split; congruence. }
  intros C Hk Ht Hn Hc H. unfold trap. wstep. apply (caller_frame p n q0 l dom own P g fr k); [done|unfold TF_trapno; lia|].
  rewrite Ht. cbn [Z.eqb]. change (T_SYSCALL =? T_SYSCALL) with true. cbn iota. unfold trap_syscall.
  wstep. apply (exit_unless_killed p n q0 l dom own P g fr k _ C Hk). intros k1 C1 K1.
  wstep. apply (set_tf_spec g fr k1 _ C1). intros k2 C2 K2. wstep.
  eapply wp_mono; [apply (syscall_spec g fr k2 c (fun r k3 => exists q1 fr', resumes q1 /\ SyscallProofs.caller p n q1 l dom own g fr' k3 /\
    forall k4, same_fds k3 k4 -> SyscallProofs.caller p n q1 l dom own g fr' k4 -> Q k4) C2 Hn Hc)|].
  - intros k3 C3 K3. eapply wp_mono; [apply (H k3 C3); exact (trans _ _ _ (trans _ _ _ (keep_fds _ _ K1) (keep_fds _ _ K2)) (keep_fds _ _ K3))|].
    intros r k4 (q1 & R1 & C4 & HQ). exists q1. split; [done|]. split; [done|]. intros fr' k5 F5 C5 L5. exists q1, fr'.
    split; [done|]. split; [done|]. intros k6 F6 C6. eapply HQ; [by eapply trans|exact C6|exact L5].
  - intros _ k3 (r & q1 & fr' & (P1 & T1 & Hk1) & C3 & HQ).
    apply (exit_unless_killed p n q1 l dom own P1 g fr' k3 _ C3 Hk1). intros k4 C4 K4. apply HQ; [by apply keep_fds|done].
Qed.
End Calls.
