(* ===== verification/SysDemo.v ===== *)
(** * A process that makes a system call

    The machine of Demo, whose page 1 is encrypted, with the files of FsDemo:
    a process has called [write(0, 4096, 3)].  Its stack is in page 0, the
    buffer in page 1. *)

From S2P Require Import Prelude Memory Mmu Machine Spinlock Kalloc Vm PageTable VmProofs VmSpaces.
From S2P Require Import Encrypt ProcTable Clock ClockProofs Demo EncryptTheorems UserMem Proc ProcProofs.
From S2P Require Import FileState Sleeplock Bio BioProofs BioInit Log LogProofs LogCommit LogOps FileDemo.
From S2P Require Import Ulib Cprintf Fs Pipe PipeProofs File Console FsBlocks FsInode FsRead FsDinode FsWrite FsLock FsDemo FileWrite.
From S2P Require Import UserPtr Syscall SyscallProofs Exec Sysfile Trap TrapProofs.

Module SysDemo.
#[local] Existing Instance FileDemo.alone.

(** The trap frame is at the top of the kernel stack. *)
Definition caller0 : proc :=
  Proc 8192 Demo.pgdir Demo.kstack RUNNING 1 None (P2V 0x207fb4) 0 NoChan false (<[0%nat := Some 0%nat]> (replicate 16 None))
    None [] (replicate 8 0xFFFFFFFF) 0 0.

Definition kernel_with (x : fstate) : kstate fstate :=
  KState (Demo.state0 Demo.encrypted1 0x9e) free [caller0] 2 (Some 0%nat) 0 free x.
Definition base : kstate fstate := kernel_with (files FsDemo.kernel2).

Lemma kernel_files x : files (kernel_with x) = x.
Proof. done. Qed.

Abbreviation mem0 := (Demo.memory0 Demo.encrypted1 0x9e).
Abbreviation dom := (fun v => usable (pte_at mem0 Demo.pgdir v)).
Abbreviation own := (fun v => tpage mem0 Demo.pgdir v \/ uframe mem0 Demo.pgdir v).
Abbreviation g0 := (fun va => lbyte mem0 Demo.pgdir (va / 4096) (va mod 4096)).

Lemma pte_base v : vpn_ok v -> pte_at mem0 Demo.pgdir v = if decide (v = 0) then 0x202007 else if decide (v = 1) then 0x203406 else 0.
Proof. apply (Demo.pte0 Demo.encrypted1 0x9e). Qed.

Lemma pinv_base : pinv base 0 caller0 Demo.free0.
Proof.
  split; [|done| |done|done|].
  - exists 0%nat, Demo.cpu0. by split_and!.
  - exact (Demo.as_inv0 Demo.encrypted1 0x9e (or_intror eq_refl)).
  - intros v Hv. change (enc_ok (pte_at mem0 Demo.pgdir v)). rewrite pte_base by (by apply user_vpn_ok).
    repeat case_decide; [by vm_compute|by vm_compute|done].
Qed.

Lemma user_base : user 0 caller0 Demo.free0 dom own base g0.
Proof.
  apply (user_of base 0 caller0 Demo.free0 pinv_base).
  - split; cbn; (done || lia).
  - intros v Hv HE (j & Hj & _). cbn in Hj. lia.
  - intros v Hv. change (usable (pte_at mem0 Demo.pgdir v) = true -> lbyte mem0 Demo.pgdir v 0 <> 0xFF).
    rewrite pte_base by (by apply user_vpn_ok). repeat case_decide; subst; [|by vm_compute|done]. intros _. by vm_compute.
Qed.

Lemma process0 : process 1 caller0 Demo.free0 dom own.
Proof.
  split; [done|done|closed| |closed|].
  - intros va Hva. change (sz caller0) with 8192 in Hva. assert (user_vpn (va / 4096)) as Hu by (unfold user_vpn; dlia).
    split; [done|]. rewrite pte_base by (by apply user_vpn_ok). repeat case_decide; [done|done|dlia].
  - intros a v Ha Hv Hin. change (V2P (tf caller0)) with 0x207fb4 in Ha. unfold TF_SIZE in Ha.
    assert (v = Demo.pgdir \/ v = Demo.tab \/ v = Demo.frame0 \/ v = Demo.frame1 \/ v ∈ Demo.free0) as H.
    { destruct Hv as [[Ht|(vpn & Hu & Hm & ->)]|Hv]; [apply Demo.tpage0 in Ht; tauto| |tauto].
      pose proof (Demo.mapped0 Demo.encrypted1 0x9e vpn Hu Hm) as H01.
      rewrite (Demo.entry_frame0 Demo.encrypted1 0x9e (or_intror eq_refl) vpn H01). case_decide; tauto. }
    unfold Demo.free0 in H. rewrite !elem_of_cons, elem_of_nil in H. unfold in_page in Hin.
    destruct H as [->|[->|[->|[->|[->|[->|[->|[]]]]]]]]; 
      (match type of Hin with V2P ?v <= _ < _ => let x := eval vm_compute in (V2P v) in change (V2P v) with x in Hin end);
      unfold PGSIZE in Hin; clear -Ha Hin; lia.
Qed.

(** The arguments on the stack, and the trap frame. *)
Definition stacked : kstate fstate := after (ustore32 24 4096;; ustore32 28 3) base.
Definition poke (j w : Z) (k : kstate fstate) : kstate fstate :=
  set_mach (set_mem (store32 (mem (mach k)) (V2P (tf caller0) + j) w) (mach k)) k.
Definition calling : kstate fstate := poke TF_esp 16 (poke TF_eax SYS_write (poke TF_trapno T_SYSCALL stacked)).
Definition g1 : Z -> Z := ustored32 28 3 (ustored32 24 4096 g0).
Definition frame1 (j : Z) : Z := load32 (mem (mach calling)) (V2P (tf caller0) + j).

Lemma stacked_spec : user 0 caller0 Demo.free0 dom own stacked g1 /\ ukeep 0 own base stacked.
Proof.
  assert (forall va i, va = 24 \/ va = 28 -> 0 <= i < 4 -> uaddr dom (va + i)) as Ha.
  { intros va i Hva Hi. apply (pr_dom _ _ _ _ _ process0). change (sz caller0) with 8192. lia. }
  assert (wp (ustore32 24 4096;; ustore32 28 3) base (fun _ k' => user 0 caller0 Demo.free0 dom own k' g1 /\ ukeep 0 own base k')) as H.
  { wstep. eapply wp_mono; [apply (ustore32_spec 0 caller0 Demo.free0 dom own base g0 24 4096 user_base); [intros; apply Ha; auto|done|done]|].
    intros _ k1 [U1 K1]. eapply wp_mono; [apply (ustore32_spec 0 caller0 Demo.free0 dom own k1 _ 28 3 U1); [intros; apply Ha; auto|done|done]|].
    intros _ k2 [U2 K2]. split; [exact U2|by etrans]. }
  destruct (after_wp _ _ _ H) as [r Hr]. exact Hr.
Qed.

Lemma calling_caller : caller 0 1 caller0 Demo.free0 dom own g1 frame1 calling /\ files calling = files FsDemo.kernel2.
Proof.
  destruct stacked_spec as [U K]. destruct FsDemo.kernel2_bio as (Hq & _).
  assert (caller 0 1 caller0 Demo.free0 dom own g1 (fun j => load32 (mem (mach stacked)) (V2P (tf caller0) + j)) stacked) as C.
  { split; [|done]. split; [exact U|]. eapply (quiet_keep 0 1 caller0); [done|exact U|exact K|].
    split; [apply (pi_run pinv_base)|done|done]. }
  split.
  - unfold calling, frame1. unfold calling. generalize dependent stacked. intros k _ K C.
    do 3 (eapply caller_kstore32; [exact process0| |unfold TF_esp, TF_eax, TF_trapno; lia]). exact C.
  - assert (forall j w k, files (poke j w k) = files k) as Hp by done. unfold calling. rewrite !Hp, (keep_files _ _ _ _ K).
    apply kernel_files.
Qed.

Lemma frame_words : frame1 TF_trapno = T_SYSCALL /\ frame1 TF_eax = SYS_write /\ frame1 TF_esp = 16.
Proof.
  unfold frame1, calling, poke, TF_esp, TF_eax, TF_trapno, SYS_write, T_SYSCALL. generalize stacked. intros k. cbn [mem mach set_mach set_mem].
  split_and!; repeat (rewrite load32_store32_eq || rewrite load32_store32_ne by lia); done.
Qed.

(** [write(0, 4096, 3)]: the bytes are encrypted in memory. *)
Lemma call_args : arg caller0 g1 frame1 0 = Some 0 /\ arg caller0 g1 frame1 2 = Some 3 /\
  pointer_in caller0 g1 frame1 1 3 = Some 4096 /\ gbytes g1 4096 3 = [0x61; 0xFF; 0xFF].
Proof.
  destruct frame_words as (_ & _ & E). unfold pointer_in, arg. rewrite E. split_and!; by vm_compute.
Qed.
End SysDemo.
