(* ===== verification/SyscallTheorems.v ===== *)
(** * System calls, from the trap to the disk

    The pointers that system calls are given lie inside the process, and the
    bytes that a process writes reach the disk: [trap], [syscall], the arguments
    in user memory, the descriptor, and [filewrite] from user memory that may be
    encrypted. *)

From S2P Require Import Prelude Memory Mmu Machine Spinlock Kalloc Vm PageTable VmProofs VmSpaces.
From S2P Require Import Encrypt ProcTable Clock ClockProofs Demo EncryptTheorems UserMem Proc ProcProofs.
From S2P Require Import FileState Sleeplock Bio BioProofs BioInit Log LogProofs LogCommit LogOps FileDemo.
From S2P Require Import Ulib Cprintf Fs Pipe PipeProofs File Console FsBlocks FsInode FsRead FsDinode FsWrite FsLock FsDemo FileWrite.
From S2P Require Import UserPtr Syscall SyscallProofs Exec Sysfile Trap TrapProofs SysDemo.

(** ** Arguments *)

(** C10: No pointer that a system call is given reaches outside the process.
    [argptr] returns the word above the return address that its index selects,
    as a pointer, exactly when the word itself lies inside the process and the
    [size] bytes at the pointer do, computed without overflow; and it returns
    -1 otherwise, for every [int] size.  User memory is as before, whether the
    stack was encrypted or not. *)
Theorem argptr_bounds `{KI : KernelImage, PO : !PageOps, PA : !PageAllocator} p n q0 l dom own g fr k i size :
  process n q0 l dom own -> caller p n q0 l dom own g fr k -> is_i32 size ->
  wp (argptr i size) k (fun o k' => caller p n q0 l dom own g fr k' /\ ukeep p own k k' /\
    let at_ := u32 (fr TF_esp + 4 + 4 * i) in
    match o with
    | Some a => at_ + 4 <= sz q0 /\ a = u32 (gword g at_) /\ 0 <= a /\ a + size <= sz q0 /\ 0 <= size /\
        forall va, a <= va < a + size -> uaddr dom va
    | None => sz q0 < at_ + 4 \/ size < 0 \/ sz q0 <= u32 (gword g at_) \/ sz q0 < u32 (gword g at_) + size
    end).
Proof.
  intros P C Hs. eapply wp_mono; [by apply (argptr_spec p n q0 l dom own P g fr k i size)|].
  intros o k' (-> & C' & K'). split_and!; [done|done|]. cbv zeta. unfold pointer_in, arg, word_in.
  set (at_ := u32 (fr TF_esp + 4 + 4 * i)).
  assert (u32 (i32 (gword g at_)) = u32 (gword g at_)) as E by (unfold i32, u32; case_match; dlia).
  case_bool_decide as E1; cbn; [|left; lia]. rewrite E. pose proof (u32_is (gword g at_)) as Ha. unfold is_u32 in Ha.
  case_bool_decide as E2; [|right; lia]. split_and!; try lia. intros va Hva. apply (pr_dom _ _ _ _ _ P). lia.
Qed.

(** ** Writing *)

Lemma length_gbytes g a len : length (gbytes g a len) = len.
Proof. unfold gbytes. by rewrite length_fmap, length_seq. Qed.

(** The state of the file layer decides whether a file is at rest. *)
Lemma resting_moved n S0 m s bm ds ip ib f (I J : kstate fstate -> Prop) k k' V d x o :
  resting n S0 m s bm ds ip ib f I k V d x o -> files k' = files k -> J k' -> resting n S0 m s bm ds ip ib f J k' V d x o.
Proof. intros [] E HJ. split; by rewrite ?E. Qed.

(** C9: The bytes that a process writes reach the disk.  When a process that
    is not killed traps with the number of [write], a descriptor of an open
    inode, and a pointer to [len] bytes inside the process, any of its pages
    being encrypted or not, the trap ends with [len] in the saved [eax]; the
    file on the disk then has at its offset the bytes that the process meant to
    have in the buffer, the offset is past them, the memory of the process is
    as it was, and no transaction is left.  The blocks that the file has got
    were free, and every other file, which is another inode and shares no block
    with this one, keeps its bytes, its blocks and its inode on the disk.  If
    the machine stops on the way, replaying the log gives the file with a first
    part of the bytes written. *)
Theorem write_durable `{DL : DiskLaws, DV : Devices, KI : KernelImage, PO : !PageOps, PA : !PageAllocator, PI : ProcImage, IR : Interrupts}
    p n q0 l dom own S0 m s bm ds ip ib f g fr fd a len k V d x o cr2 :
  geometry S0 m s bm ds ib -> ~ in_log S0 m bm -> (8 <= m)%nat ->
  process n q0 l dom own -> killed q0 = false -> fr TF_trapno = T_SYSCALL -> fr TF_eax = SYS_write ->
  arg q0 g fr 0 = Some fd -> 0 <= fd < NOFILE -> ofile q0 !! Z.to_nat fd = Some (Some f) ->
  arg q0 g fr 2 = Some (Z.of_nat len) -> pointer_in q0 g fr 1 (Z.of_nat len) = Some a ->
  resting n S0 m s bm ds ip ib f (caller p n q0 l dom own g fr) k V d x o ->
  Z.of_nat o <= i_size x -> (o + len <= 140 * 512)%nat -> (4 * (len / 1536 + 1) + missing x <= nfree (sb_size s) d)%nat ->
  wp (trap (tf q0) cr2) k (fun _ k' => exists fr' V' d' x',
    resting n S0 m s bm ds ip ib f (caller p n q0 l dom own g fr') k' V' d' x' (o + len) /\ fr' TF_eax = Z.of_nat len /\
    updated S0 m s bm ib o (gbytes g a len) V d x V' d' x' /\ (forall i, vdisk V' !! i = vcur V' !! i) /\
    (forall y, beside S0 m s bm ds V d x y -> beside S0 m s bm ds V' d' x' y /\ kept s V V' y) /\
    trail (saved_part S0 m s bm ib (gbytes g a len) o V d x) V V').
Proof.
  intros G Hbm Hm P Hk Ht He A0 Hfd Hf A2 A1 R Ho Hmax Hn.
  assert (is_i32 (Z.of_nat len)) as Hl by (unfold is_i32; lia).
  assert (0 <= a /\ a + Z.of_nat len <= sz q0) as [Ha0 Ha1].
  { unfold pointer_in in A1. destruct (arg q0 g fr 1) as [b|]; [|done]. cbn in A1. case_bool_decide; [|done].
    pose proof (u32_is b) as Hb. unfold is_u32 in Hb. injection A1 as <-. lia. }
  pose proof (pr_sz _ _ _ _ _ P) as Hsz.
  apply (trap_syscall_spec p n q0 l dom own P g fr k sys_write); [apply R|done|done|by rewrite He|by rewrite He|].
  intros k1 C1 [E1 _]. unfold sys_write.
  apply (or_fail_some _ _ _ (fd, f)). eapply wp_mono; [by apply (argfd_spec p n q0 l dom own P g fr k1)|].
  intros o1 k2 (-> & C2 & K2). split; [done|].
  apply (or_fail_some _ _ _ (Z.of_nat len)). eapply wp_mono; [apply (argint_spec p n q0 l dom own P g fr k2 2 C2)|].
  intros o2 k3 (-> & C3 & K3). split; [done|].
  apply (or_fail_some _ _ _ a). eapply wp_mono; [by apply (argptr_spec p n q0 l dom own P g fr k3)|].
  intros o3 k4 (-> & C4 & K4). split; [done|].
  rewrite <- (length_gbytes g a len) at 1.
  eapply wp_mono; [apply (filewrite_spec p n S0 m s bm ds ip ib f (caller p n q0 l dom own g fr) (UPtr a) (gbytes g a len) k4 V d x o G Hbm Hm)|].
  - by apply (caller_invariant p n q0 l dom own).
  - apply (caller_source p n q0 l dom own P g fr a len Ha0); [|consts; lia]. intros i Hi. apply (pr_dom _ _ _ _ _ P). lia.
  - eapply resting_moved; [exact R| |done].
    by rewrite (keep_files _ _ _ _ K4), (keep_files _ _ _ _ K3), (keep_files _ _ _ _ K2).
  - done.
  - by rewrite length_gbytes.
  - by rewrite length_gbytes.
  - rewrite !length_gbytes. intros r k5 (-> & V' & d' & x' & R5 & U5 & D5 & T5). exists q0. split; [done|]. split; [apply R5|].
    intros fr' k6 [E6 _] C6 L6. exists fr', V', d', x'. split_and!; [by eapply resting_moved| |done|done| |done].
    + rewrite L6. apply u32_small. unfold is_u32. lia.
    + intros y By. destruct R. by eapply updated_beside; [exact G|..|apply fr_placed].
Qed.

(** ** Instances *)

#[local] Existing Instance FileDemo.alone.
#[local] Instance no_interrupts : Interrupts := {| ideintr := mret tt; kbd_bytes := []; com1_bytes := [] |}.

Lemma argptr_bounds_witness :
  wp (argptr 1 3) SysDemo.calling (fun o k' => ukeep 0 SysDemo.own SysDemo.calling k' /\
    match o with Some a => a + 3 <= 8192 | None => False end).
Proof.
  destruct SysDemo.calling_caller as [C _], SysDemo.frame_words as (_ & _ & E).
  eapply wp_mono; [apply (argptr_bounds 0 1 SysDemo.caller0 Demo.free0 SysDemo.dom SysDemo.own SysDemo.g1 SysDemo.frame1 SysDemo.calling 1 3
    SysDemo.process0 C); decided|].
  intros o k' (_ & K & H). split; [exact K|]. cbv zeta in H. rewrite E in H. change (sz SysDemo.caller0) with 8192 in H. destruct o; [lia|]. clear -H. vm_compute in H. intuition congruence.
Defined.

(** The process of SysDemo appends three bytes at offset 2 of a file of three
    bytes. *)
Lemma write_durable_witness :
  wp (trap (tf SysDemo.caller0) 0) SysDemo.calling (fun _ k' => exists V' d' x', bio 1 (files k') V' /\
    updated 2 9 FsDemo.sb1 13 12 2 [0x61; 0xFF; 0xFF] FsDemo.V1 FsDemo.map1 FsDemo.inode1 V' d' x').
Proof.
  destruct FsDemo.kernel2_bio as (_ & B & _). pose proof FsDemo.idle2 as Hidle.
  destruct SysDemo.calling_caller as [C E], SysDemo.frame_words as (F1 & F2 & _), SysDemo.call_args as (A0 & A2 & A1 & Eb).
  rewrite <- Eb.
  eapply wp_mono; [apply (write_durable 0 1 SysDemo.caller0 Demo.free0 SysDemo.dom SysDemo.own 2 9 FsDemo.sb1 13 14 0 12 0 SysDemo.g1 SysDemo.frame1 0 4096 3
    SysDemo.calling FsDemo.V1 FsDemo.map1 FsDemo.inode1 2 0)|].
  - apply FsDemo.geometry1.
  - unfold in_log. lia.
  - lia.
  - exact SysDemo.process0.
  - done.
  - exact F1.
  - exact F2.
  - exact A0.
  - decided.
  - done.
  - exact A2.
  - exact A1.
  - split; rewrite ?E; [exact C|exact B|exact Hidle|done|done|done|decided|done|done|apply FsDemo.layout1|apply FsDemo.file_ok1|apply FsDemo.at_rest1|].
    clear. by exists FsDemo.open1.
  - decided.
  - decided.
  - decided.
  - intros r k' (fr' & V' & d' & x' & R & _ & U & _). exists V', d', x'. split; [apply R|exact U].
Defined.
