(* ===== verification/FdTheorems.v ===== *)
(** * Descriptors

    [dup] and [close], from the trap on: a file counts the descriptors that
    refer to it, in the tables of all processes, and a new descriptor is the
    lowest one that is free. *)

From S2P Require Import Prelude Memory Mmu Machine Spinlock Kalloc Vm PageTable VmProofs VmSpaces.
From S2P Require Import Encrypt ProcTable Clock ClockProofs Demo EncryptTheorems UserMem Proc ProcProofs.
From S2P Require Import FileState Sleeplock Bio BioProofs BioInit Log LogProofs LogCommit LogOps FileDemo.
From S2P Require Import Ulib Cprintf ShRun Fs Pipe PipeProofs File FileProofs Console FsBlocks FsInode FsRead FsDinode FsWrite FsLock FsDemo FileWrite.
From S2P Require Import UserPtr Syscall SyscallProofs Exec Sysfile Trap TrapProofs SysDemo.
Import ShRun.

(** ** Counting references *)

Abbreviation fdtable := (list (option nat)).

(** The descriptors in the tables [ts] that refer to the file [f]. *)
Definition refs (f : nat) (ts : list fdtable) : nat := length (filter (fun o => o = Some f) (concat ts)).

(** The tables of all processes fit the file table: their slots refer to
    files of it, and each file counts them. *)
Record fds_ok (s : fstate) (ts : list fdtable) : Prop := {
  fd_lock : ft_lock (ftable s) = free;
  fd_procs : (length ts <= 64)%nat;
  fd_slots t : t ∈ ts -> length t = 16%nat;
  fd_valid t f : t ∈ ts -> Some f ∈ t -> (f < length (ft_file (ftable s)))%nat;
  fd_refs f : (f < length (ft_file (ftable s)))%nat -> f_ref (file_at s f) = Z.of_nat (refs f ts);
}.

Lemma refs_insert f ts p t i o x : ts !! p = Some t -> t !! i = Some o ->
  (refs f (<[p := <[i := x]> t]> ts) + (if decide (o = Some f) then 1 else 0) =
   refs f ts + (if decide (x = Some f) then 1 else 0))%nat.
Proof.
  intros Hp Hi. unfold refs.
  rewrite (insert_take_drop ts p) by (by eapply lookup_lt_Some). rewrite <- (take_drop_middle ts p t Hp) at 3.
  rewrite (insert_take_drop t i) by (by eapply lookup_lt_Some). rewrite <- (take_drop_middle t i o Hi) at 3.
  rewrite !concat_app. cbn [concat]. rewrite !filter_app, !filter_cons, !length_app. 
  repeat case_decide; cbn [length]; lia.
Qed.

Lemma refs_pos f ts p t i : ts !! p = Some t -> t !! i = Some (Some f) -> (1 <= refs f ts)%nat.
Proof.
  intros Hp Hi. unfold refs. assert (Some f ∈ filter (fun o => o = Some f) (concat ts)) as H.
  { apply list_elem_of_filter. split; [done|]. apply list_elem_of_In, in_concat. exists t. split; apply list_elem_of_In; by eapply list_elem_of_lookup_2. }
  destruct (filter _ _); [by apply elem_of_nil in H|cbn; lia].
Qed.

Lemma refs_bound s f ts : fds_ok s ts -> (refs f ts <= 1024)%nat.
Proof.
  intros H. unfold refs. etrans; [apply length_filter|].
  assert (forall ts' : list fdtable, (forall t, t ∈ ts' -> length t = 16%nat) -> length (concat ts') = (16 * length ts')%nat) as E.
  { induction ts' as [|t ts' IH]; intros Hl; [done|]. cbn [concat length]. rewrite length_app, IH, (Hl t); [lia|left|]. intros t' Ht'. apply Hl. by right. }
  rewrite E by apply (fd_slots _ _ H). pose proof (fd_procs _ _ H). lia.
Qed.

Section Fds.
Context `{SE : SwitchEnv fstate, DD : DiskDriver, DV : Devices, KI : KernelImage, PO : !PageOps, PA : !PageAllocator, PI : ProcImage}.
Context `{IR : Interrupts}.
Context (p : nat) (n : Z) (l : list Z) (dom : Z -> bool) (own : Z -> Prop).
Implicit Types (k : kstate fstate) (g fr : Z -> Z) (q : proc).
Abbreviation caller := (caller p n).

(** ** The descriptor table of the caller *)

Definition with_fd (i : nat) (o : option nat) q : proc := set_ofile (<[i := o]> (ofile q)) q.

Lemma with_fd_process q i o : process n q l dom own -> process n (with_fd i o q) l dom own.
Proof. intros []. by split. Qed.

Lemma caller_table q g fr k : caller q l dom own g fr k -> (ofile <$> procs k) !! p = Some (ofile q).
Proof.
  intros C. destruct (caller_run p n q l dom own g fr k C) as (q1 & E & Hq & _). rewrite list_lookup_fmap, Hq. cbn. f_equal. by injection E.
Qed.

Lemma caller_files q g fr k x : caller q l dom own g fr k -> process n q l dom own -> caller q l dom own g fr (set_files x k).
Proof. intros C P. eapply (inv_similar _ _ _ (caller_invariant p n q l dom own P g fr)); [exact C|]. by apply similar_refl. Qed.

Lemma caller_set_fd q g fr k i o : caller q l dom own g fr k ->
  caller (with_fd i o q) l dom own g fr (set_procs (alter (with_fd i o) p (procs k)) k).
Proof.
  intros [[U [Q1 Q2 Q3]] Hf]. destruct (us_proc _ _ _ _ _ _ _ U) as (q1 & E & Hi & Hc & Hfr). destruct U as [_ U2 U3 U4 U5].
  pose proof (pi_proc Hi) as Hp.
  split; [|done]. split.
  - split; try done. exists (with_fd i o q1). split_and!.
    + assert (ofile q1 = ofile q) as Eo by (by injection E).
      change (with_fd i o (clockless q1) = with_fd i o (clockless q)). by rewrite E.
    + destruct Hi. split; try done. cbn. by rewrite list_lookup_alter_eq, Hp.
    + destruct Hc. by split.
    + done.
  - split; [done|done|]. cbn. rewrite list_lookup_alter_eq. destruct (procs k !! p); [done|]. by cbn in Q3.
Qed.

Lemma set_fd_spec q g fr k fd o (Q : unit -> kstate fstate -> Prop) : caller q l dom own g fr k ->
  (forall k', caller (with_fd (Z.to_nat fd) o q) l dom own g fr k' -> files k' = files k ->
    ofile <$> procs k' = <[p := <[Z.to_nat fd := o]> (ofile q)]> (ofile <$> procs k) -> Q tt k') ->
  wp (set_fd p fd o) k Q.
Proof.
  intros C HQ. unfold set_fd. apply wp_setp. apply HQ; [by apply caller_set_fd|done|]. cbn.
  pose proof (caller_table _ _ _ _ C) as Ht. rewrite list_lookup_fmap in Ht. destruct (procs k !! p) as [q1|] eqn:Hp; [|done].
  cbn in Ht. injection Ht as Ht. rewrite (alter_insert _ _ _ q1) by done. rewrite list_fmap_insert. cbn. by rewrite Ht.
Qed.

(** [fdalloc] takes the lowest free slot. *)
Definition allocated q g fr k (f : nat) (o : option nat) (r : Z) k' : Prop :=
  match o with
  | None => r = -1 /\ caller q l dom own g fr k' /\ same_fds k k'
  | Some i => r = Z.of_nat i /\ caller (with_fd i (Some f) q) l dom own g fr k' /\ files k' = files k /\
      ofile <$> procs k' = <[p := <[i := Some f]> (ofile q)]> (ofile <$> procs k)
  end.

Lemma fdalloc_loop_spec q g fr k f : caller q l dom own g fr k -> forall c i, (i + c = length (ofile q))%nat ->
  wp (fdalloc_loop p f (Z.of_nat i) c) k (allocated q g fr k f (Nat.add i <$> lowest (drop i (ofile q)))).
Proof.
  intros C. induction c as [|c IH]; intros i Hi; cbn [fdalloc_loop].
  - rewrite drop_ge by lia. wsteps. by split.
  - wstep. apply (caller_getp p n q l dom own g fr k ofile _ C); [done|]. rewrite Nat2Z.id.
    destruct (ofile q !! i) as [o|] eqn:Ho; [|apply lookup_ge_None in Ho; lia]. rewrite (drop_S _ _ _ Ho). wstep. wstep.
    destruct o as [f'|]; cbn [lowest].
    + replace (Z.of_nat i + 1) with (Z.of_nat (S i)) by lia. eapply wp_mono; [apply (IH (S i)); lia|]. intros r k' H.
      destruct (lowest (drop (S i) (ofile q))) as [j|]; cbn in *; [|done]. by rewrite Nat.add_succ_r.
    + wstep. apply (set_fd_spec q g fr k _ _ _ C). intros k' C' Ef Et. rewrite Nat2Z.id in *. wsteps. cbn. by rewrite Nat.add_0_r.
Qed.

Lemma same_fds_trans k1 k2 k3 : same_fds k1 k2 -> same_fds k2 k3 -> same_fds k1 k3.
Proof. intros [E1 E2] [E3 E4]. split; congruence. Qed.

Lemma fdalloc_spec q g fr k f : process n q l dom own -> caller q l dom own g fr k -> length (ofile q) = 16%nat ->
  wp (fdalloc f) k (allocated q g fr k f (lowest (ofile q))).
Proof.
  intros P C Hl. unfold fdalloc. wstep. apply (wp_curproc p n q l dom own P g fr k _ C). intros k1 C1 K1.
  eapply wp_mono; [apply (fdalloc_loop_spec q g fr k1 f C1 16 0); lia|]. intros r k' H.
  destruct (keep_fds p own k k1 K1) as [E1 E2]. change (drop 0 (ofile q)) with (ofile q) in H.
  destruct (lowest (ofile q)) as [i|]; cbn in *; [by rewrite <- E1, <- E2|].
  destruct H as (-> & C' & F'). split_and!; [done|done|]. by eapply same_fds_trans.
Qed.

(** ** Keeping count *)

Lemma lowest_free {A} (t : list (option A)) i : lowest t = Some i -> t !! i = Some None.
Proof.
  revert i. induction t as [|[a|] t IH]; intros i E; cbn in E; [done| |by simplify_eq].
  destruct (lowest t) as [j|]; cbn in E; [|done]. simplify_eq. cbn. by apply IH.
Qed.

Definition one (P : Prop) `{Decision P} : Z := if decide P then 1 else 0.

(** The slot [i] gets [x] in place of [o], and the counts follow. *)
Lemma fds_put s s' ts t i o x : fds_ok s ts -> ts !! p = Some t -> t !! i = Some o ->
  (forall f, x = Some f -> (f < length (ft_file (ftable s)))%nat) -> ft_lock (ftable s') = free ->
  length (ft_file (ftable s')) = length (ft_file (ftable s)) ->
  (forall f, (f < length (ft_file (ftable s)))%nat ->
    f_ref (file_at s' f) + one (o = Some f) = f_ref (file_at s f) + one (x = Some f)) ->
  fds_ok s' (<[p := <[i := x]> t]> ts).
Proof.
  intros H Hp Hi Hx Hl El Er. assert (t ∈ ts) as Ht by (by eapply list_elem_of_lookup_2).
  assert (forall t', t' ∈ <[p := <[i := x]> t]> ts -> t' = <[i := x]> t \/ t' ∈ ts) as Hin.
  { intros t' Ht'. apply list_elem_of_lookup in Ht' as [j Hj]. apply list_lookup_insert_Some in Hj as [(_ & -> & _)|[_ Hj]]; [by left|right].
    by eapply list_elem_of_lookup_2. }
  split.
  - done.
  - rewrite length_insert. apply (fd_procs _ _ H).
  - intros t' Ht'. destruct (Hin t' Ht') as [->|?]; [rewrite length_insert|]; by apply (fd_slots _ _ H).
  - intros t' f Ht' Hf. rewrite El. destruct (Hin t' Ht') as [->|?]; [|by eapply (fd_valid _ _ H)].
    apply list_elem_of_lookup in Hf as [j Hj]. apply list_lookup_insert_Some in Hj as [(_ & E & _)|[_ Hj]]; [by apply Hx|].
    eapply (fd_valid _ _ H); [exact Ht|by eapply list_elem_of_lookup_2].
  - intros f Hf. rewrite El in Hf. pose proof (refs_insert f ts p t i o x Hp Hi) as E. pose proof (fd_refs _ _ H f Hf).
    specialize (Er f Hf). unfold one in Er. repeat case_decide; lia.
Qed.

Lemma fds_file s ts t i f : fds_ok s ts -> ts !! p = Some t -> t !! i = Some (Some f) ->
  (f < length (ft_file (ftable s)))%nat /\ f_ref (file_at s f) = Z.of_nat (refs f ts) /\ 1 <= f_ref (file_at s f) <= 1024.
Proof.
  intros H Hp Hi. assert (f < length (ft_file (ftable s)))%nat as Hf.
  { eapply (fd_valid _ _ H); by eapply list_elem_of_lookup_2. }
  pose proof (fd_refs _ _ H f Hf). pose proof (refs_bound s f ts H). pose proof (refs_pos f ts p t i Hp Hi). split_and!; [done|done|lia|lia].
Qed.

(** ** The calls *)

Lemma resumes_fd q i o : process n q l dom own -> killed q = false -> resumes n q l dom own (with_fd i o q).
Proof. intros P Hk. split; [by apply with_fd_process|done]. Qed.

(** C11: [dup], from the trap on, keeps the descriptor tables of all processes
    and the counts of the file table in step.  With a free slot the lowest one
    refers to the same file, and its number is the result; without one the
    result is -1 and nothing changes.  The memory of the process is as it was. *)
Theorem dup_counts q g fr k fd f cr2 :
  process n q l dom own -> caller q l dom own g fr k -> killed q = false -> fr TF_trapno = T_SYSCALL -> fr TF_eax = 10 ->
  arg q g fr 0 = Some fd -> 0 <= fd < NOFILE -> ofile q !! Z.to_nat fd = Some (Some f) -> fds_ok (files k) (ofile <$> procs k) ->
  wp (trap (tf q) cr2) k (fun _ k' => fds_ok (files k') (ofile <$> procs k') /\ exists fr',
    match lowest (ofile q) with
    | Some i => fr' TF_eax = Z.of_nat i /\ caller (with_fd i (Some f) q) l dom own g fr' k'
    | None => fr' TF_eax = u32 (-1) /\ caller q l dom own g fr' k' /\ same_fds k k'
    end).
Proof.
  intros P C Hk Ht He A0 Hfd Hf Hok. pose proof (caller_table _ _ _ _ C) as Htab.
  assert (length (ofile q) = 16%nat) as Hl by (apply (fd_slots _ _ Hok); by eapply list_elem_of_lookup_2).
  apply (trap_syscall_spec p n q l dom own P g fr k sys_dup); [done|done|done|by rewrite He|by rewrite He|].
  intros k1 C1 F1. unfold sys_dup. apply (or_fail_some _ _ _ (fd, f)). eapply wp_mono; [by apply (argfd_spec p n q l dom own P g fr k1)|].
  intros o1 k2 (-> & C2 & K2). split; [done|]. pose proof (same_fds_trans _ _ _ F1 (keep_fds _ _ _ _ K2)) as [E2 T2].
  wstep. eapply wp_mono; [by apply (fdalloc_spec q g fr k2 f)|]. intros r k3 H3. unfold allocated in H3.
  destruct (lowest (ofile q)) as [i|] eqn:Hlow.
  - destruct H3 as (-> & C3 & E3 & T3). rewrite (proj2 (Z.ltb_ge _ _)) by lia. wstep. rewrite E2 in E3. rewrite T2 in T3.
    destruct (fds_file _ _ _ _ _ Hok Htab Hf) as (Hlen & Href & Hb).
    eapply wp_mono; [apply (filedup_run k3 f 0)|].
    { apply (quiet_cpu p n). apply C3. }
    { rewrite E3. split_and!; [apply Hok|done|lia|lia]. }
    intros f' k4 (-> & h & Hs & ->). wstep. exists (with_fd i (Some f) q). split; [by apply resumes_fd|].
    assert (caller (with_fd i (Some f) q) l dom own g fr (update hartL h k3)) as C4.
    { apply (caller_hart p n _ l dom own (with_fd_process q i (Some f) P)); [done|apply Hs]. }
    split; [by apply caller_files; [|apply with_fd_process]|].
    intros fr' k5 [E5 T5] C5 L5. split; [|exists fr'; split; [|done]].
    + rewrite E5, T5. cbn [files procs set_files]. change (procs (update hartL h k3)) with (procs k3). rewrite E3, T3.
      apply (fds_put (files k) _ _ _ i None (Some f)); [done|done|by apply lowest_free|by intros ? [= ->]|apply Hok|apply length_set_file|].
      intros f' Hf'. rewrite file_at_set by done. unfold one. rewrite (decide_False (P := None = Some f')) by done.
      repeat case_decide; simplify_eq; cbn; lia.
    + rewrite L5. apply lowest_free, lookup_lt_Some in Hlow. apply u32_small. unfold is_u32. lia.
  - destruct H3 as (-> & C3 & F3). cbn [Z.ltb]. change (-1 <? 0) with true. cbv iota. wsteps. exists q. split; [done|]. split; [done|].
    intros fr' k4 F4 C4 L4. pose proof (same_fds_trans _ _ _ F3 F4) as [E4 T4]. rewrite E4, T4, E2, T2. split; [done|].
    exists fr'. split_and!; [done|done|]. split; congruence.
Qed.

(** C12: [close], from the trap on, of a descriptor whose file other
    descriptors of any process refer to too: the result is 0, the slot is free,
    the file stays open, and the tables of all processes and the counts of the
    file table stay in step.  The memory of the process is as it was. *)
Theorem close_counts q g fr k fd f cr2 :
  process n q l dom own -> caller q l dom own g fr k -> killed q = false -> fr TF_trapno = T_SYSCALL -> fr TF_eax = 21 ->
  arg q g fr 0 = Some fd -> 0 <= fd < NOFILE -> ofile q !! Z.to_nat fd = Some (Some f) -> fds_ok (files k) (ofile <$> procs k) ->
  (2 <= refs f (ofile <$> procs k))%nat ->
  wp (trap (tf q) cr2) k (fun _ k' => fds_ok (files k') (ofile <$> procs k') /\
    1 <= f_ref (file_at (files k') f) /\ f_type (file_at (files k') f) = f_type (file_at (files k) f) /\
    exists fr', fr' TF_eax = 0 /\ caller (with_fd (Z.to_nat fd) None q) l dom own g fr' k').
Proof.
  intros P C Hk Ht He A0 Hfd Hf Hok Hr. pose proof (caller_table _ _ _ _ C) as Htab.
  destruct (fds_file _ _ _ _ _ Hok Htab Hf) as (Hlen & Href & Hb).
  apply (trap_syscall_spec p n q l dom own P g fr k sys_close); [done|done|done|by rewrite He|by rewrite He|].
  intros k1 C1 F1. unfold sys_close. apply (or_fail_some _ _ _ (fd, f)). eapply wp_mono; [by apply (argfd_spec p n q l dom own P g fr k1)|].
  intros o1 k2 (-> & C2 & K2). split; [done|]. pose proof (same_fds_trans _ _ _ F1 (keep_fds _ _ _ _ K2)) as F2.
  wstep. apply (wp_curproc p n q l dom own P g fr k2 _ C2). intros k3 C3 K3.
  pose proof (same_fds_trans _ _ _ F2 (keep_fds _ _ _ _ K3)) as [E3 T3].
  wstep. apply (set_fd_spec q g fr k3 _ _ _ C3). intros k4 C4 E4 T4. rewrite E3 in E4. rewrite T3 in T4. wstep.
  eapply wp_mono; [apply (fileclose_shared k4 f); [apply (quiet_cpu p n); apply C4|rewrite E4; apply Hok|by rewrite E4|rewrite E4; lia]|].
  intros [] k5 (h & Hs & ->). wstep. exists (with_fd (Z.to_nat fd) None q). split; [by apply resumes_fd|].
  assert (caller (with_fd (Z.to_nat fd) None q) l dom own g fr (update hartL h k4)) as C5.
  { apply (caller_hart p n _ l dom own (with_fd_process q _ None P)); [done|apply Hs]. }
  split; [by apply caller_files; [|apply with_fd_process]|].
  intros fr' k6 [E6 T6] C6 L6. rewrite E6, T6. cbn [files procs set_files]. change (procs (update hartL h k4)) with (procs k4).
  rewrite E4, T4, file_at_set, decide_True by done. split_and!; [|cbn; lia|done|by exists fr'].
  apply (fds_put (files k) _ _ _ _ (Some f) None); [done|done|done|done|apply Hok|apply length_set_file|].
  intros f' Hf'. rewrite file_at_set by done. unfold one. rewrite (decide_False (P := None = Some f')) by done.
  repeat case_decide; simplify_eq; cbn; lia.
Qed.
End Fds.

(** ** Instances *)

#[local] Existing Instance FileDemo.alone.
#[local] Instance quiet_devices : Interrupts := {| ideintr := mret tt; kbd_bytes := []; com1_bytes := [] |}.

Module FdDemo.
Import SysDemo.

(** The process of SysDemo with another number of a call. *)
Definition calls (c : Z) : kstate fstate := poke TF_eax c calling.
Definition frame (c j : Z) : Z := load32 (mem (mach (calls c))) (V2P (tf caller0) + j).

Lemma poked_caller c k fr : caller 0 1 caller0 Demo.free0 dom own g1 fr k ->
  caller 0 1 caller0 Demo.free0 dom own g1 (fun j => load32 (mem (mach (poke TF_eax c k))) (V2P (tf caller0) + j)) (poke TF_eax c k).
Proof. intros C. eapply caller_kstore32; [exact process0|exact C|unfold TF_eax; lia]. Qed.

Lemma calls_caller c : caller 0 1 caller0 Demo.free0 dom own g1 (frame c) (calls c).
Proof. exact (poked_caller c calling frame1 (proj1 calling_caller)). Qed.

Lemma poked_frame c k j : j + 4 <= TF_eax \/ TF_eax + 4 <= j ->
  load32 (mem (mach (poke TF_eax c k))) (V2P (tf caller0) + j) = load32 (mem (mach k)) (V2P (tf caller0) + j).
Proof. intros H. apply load32_store32_ne. lia. Qed.

Lemma poked_eax c k : is_u32 c -> load32 (mem (mach (poke TF_eax c k))) (V2P (tf caller0) + TF_eax) = c.
Proof. intros H. unfold poke. cbn [mem mach set_mach set_mem]. rewrite load32_store32_eq. by apply u32_small. Qed.

Lemma frame_other c j : j + 4 <= TF_eax \/ TF_eax + 4 <= j -> frame c j = frame1 j.
Proof. exact (poked_frame c calling j). Qed.

Lemma arg_frame q g fr fr' i : fr TF_esp = fr' TF_esp -> arg q g fr i = arg q g fr' i.
Proof. unfold arg. by intros ->. Qed.

Lemma calls_frame c : is_u32 c -> frame c TF_trapno = T_SYSCALL /\ frame c TF_eax = c /\ arg caller0 g1 (frame c) 0 = Some 0.
Proof.
  intros Hc. destruct frame_words as (F1 & _ & F3), call_args as (A0 & _). split_and!.
  - etrans; [apply frame_other; unfold TF_trapno, TF_eax; lia|exact F1].
  - exact (poked_eax c calling Hc).
  - etrans; [|exact A0]. apply arg_frame, frame_other. unfold TF_esp, TF_eax. lia.
Qed.

Lemma poked_fds c k : files (poke TF_eax c k) = files k /\ ofile <$> procs (poke TF_eax c k) = ofile <$> procs k.
Proof. done. Qed.

Lemma calling_fds : ofile <$> procs calling = [ofile caller0].
Proof.
  assert (forall j w k, procs (poke j w k) = procs k) as Hp by done. destruct stacked_spec as [_ K].
  unfold calling. rewrite !Hp. etrans; [exact (proj2 (keep_fds _ _ _ _ K))|done].
Qed.

Lemma files_set (f : fstate -> fstate) (k : kstate fstate) : files (set_files (f (files k)) k) = f (files k).
Proof. done. Qed.

Lemma calls_fds c : files (calls c) = FsDemo.files2 (files (FileDemo.ready FsDemo.disk1)) /\ ofile <$> procs (calls c) = [ofile caller0].
Proof.
  destruct (poked_fds c calling) as [E1 E2]. split.
  - etrans; [exact E1|]. etrans; [exact (proj2 calling_caller)|]. exact (files_set FsDemo.files2 (FileDemo.ready FsDemo.disk1)).
  - etrans; [exact E2|exact calling_fds].
Qed.

Lemma files2_fds s : fds_ok (FsDemo.files2 s) [ofile caller0].
Proof.
  split; cbn [ftable FsDemo.files2 set_ftable ft_lock ft_file].
  - done.
  - cbn. lia.
  - intros t Ht. apply list_elem_of_singleton in Ht as ->. done.
  - intros t f Ht Hf. apply list_elem_of_singleton in Ht as ->.
    assert (f = 0%nat) as -> by (repeat (apply elem_of_cons in Hf as [Hf|Hf]; [by simplify_eq|]); by apply elem_of_nil in Hf). cbn. lia.
  - intros f _. destruct f as [|f]; [done|]. replace (refs (S f) [ofile caller0]) with 0%nat by done. unfold file_at.
    change (ft_file (ftable (FsDemo.files2 s)) !! S f) with (replicate 99 FileDemo.file0 !! f).
    destruct (replicate 99 FileDemo.file0 !! f) as [x|] eqn:E; [|done]. apply lookup_replicate in E as [-> _]. done.
Qed.

(** The descriptor 1 for the same file. *)
Abbreviation caller1 := (with_fd 1 (Some 0%nat) caller0).
Definition share (k : kstate fstate) : kstate fstate :=
  set_files (set_file (fun x => set_f_ref (f_ref x + 1) x) 0 (files k)) (set_procs (alter (with_fd 1 (Some 0%nat)) 0%nat (procs k)) k).

Lemma arg1 g fr i : arg caller1 g fr i = arg caller0 g fr i.
Proof. done. Qed.

Lemma share_spec k fr s : caller 0 1 caller0 Demo.free0 dom own g1 fr k -> files k = FsDemo.files2 s -> ofile <$> procs k = [ofile caller0] ->
  caller 0 1 caller1 Demo.free0 dom own g1 fr (share k) /\ ofile <$> procs (share k) = [ofile caller1] /\
  fds_ok (files (share k)) (ofile <$> procs (share k)).
Proof.
  intros C E1 E2. assert (ofile <$> procs (share k) = [ofile caller1]) as E3.
  { cbn. destruct (procs k) as [|q [|]]; [done| |done]. injection E2 as E2. cbn. by rewrite E2. }
  split_and!; [|done|].
  - apply caller_files; [by apply caller_set_fd|]. apply with_fd_process, process0.
  - rewrite E3. change (files (share k)) with (set_file (fun x => set_f_ref (f_ref x + 1) x) 0 (files k)). rewrite E1.
    apply (fds_put 0 (FsDemo.files2 s) _ [ofile caller0] (ofile caller0) 1 None (Some 0%nat)); [apply files2_fds|done|done| |done|by rewrite length_set_file|].
    + intros f [= <-]. cbn. lia.
    + intros f Hf. rewrite file_at_set by (cbn; lia). unfold one. rewrite (decide_False (P := None = Some f)) by done.
      repeat case_decide; simplify_eq; cbn; lia.
Qed.
End FdDemo.

Lemma dup_counts_witness : wp (trap (tf SysDemo.caller0) 0) (FdDemo.calls 10) (fun _ k' =>
  fds_ok (files k') (ofile <$> procs k') /\ exists fr', fr' TF_eax = 1 /\
    caller 0 1 (with_fd 1 (Some 0%nat) SysDemo.caller0) Demo.free0 SysDemo.dom SysDemo.own SysDemo.g1 fr' k').
Proof.
  destruct (FdDemo.calls_frame 10) as (F1 & F2 & F3); [closed|]. destruct (FdDemo.calls_fds 10) as [E1 E2].
  apply (dup_counts 0 1 Demo.free0 SysDemo.dom SysDemo.own SysDemo.caller0 SysDemo.g1 (FdDemo.frame 10) (FdDemo.calls 10) 0 0 0
    SysDemo.process0 (FdDemo.calls_caller 10) eq_refl F1 F2 F3); [closed|done|].
  rewrite E1, E2. apply FdDemo.files2_fds.
Defined.

Lemma close_counts_witness : wp (trap (tf FdDemo.caller1) 0) (FdDemo.share (FdDemo.calls 21)) (fun _ k' =>
  fds_ok (files k') (ofile <$> procs k') /\ 1 <= f_ref (file_at (files k') 0)).
Proof.
  destruct (FdDemo.calls_frame 21) as (F1 & F2 & F3); [closed|]. destruct (FdDemo.calls_fds 21) as [E1 E2].
  destruct (FdDemo.share_spec (FdDemo.calls 21) (FdDemo.frame 21) _ (FdDemo.calls_caller 21) E1 E2) as (C & E3 & Hok).
  eapply wp_mono; [apply (close_counts 0 1 Demo.free0 SysDemo.dom SysDemo.own FdDemo.caller1 SysDemo.g1 (FdDemo.frame 21) (FdDemo.share (FdDemo.calls 21)) 0 0 0
    (with_fd_process 1 Demo.free0 SysDemo.dom SysDemo.own SysDemo.caller0 1 (Some 0%nat) SysDemo.process0) C eq_refl F1 F2 (eq_trans (FdDemo.arg1 _ _ _) F3)); [closed|done|exact Hok|]|].
  - rewrite E3. vm_compute. lia.
  - intros [] k' (H1 & H2 & _). by split.
Defined.
